(* ===== verification/_CoqProject ===== *)
-Q . S2P
Prelude.v
GoStrings.v
Sql.v
Crypto.v
Accounts.v
Http.v
TwoFA.v
WebAuth.v
WebSessions.v
WebInvite.v
OAuth.v
Grants.v
RateLimit.v
RateLimitRace.v
EnforcerTypes.v
Heuristics.v
Resolver.v
CelEngine.v
EnforcerStore.v
Enforcer.v
EnforcerCalls.v
EnforcerAdmin.v
Template.v
Muxer.v
Backends.v
WebBackends.v
EnforcerWeb.v
EnforcerConsole.v
Gate.v
PoolRequests.v
Process.v
Startup.v
Pool.v
PoolManager.v
BackendStatus.v
ToolLists.v
BridgeTools.v
Server.v
V2.v
Precache.v
Replay.v
RateLimitWeb.v
Config.v
Seed.v
Schema.v
Tools.v
Probe.v
Builtin.v
Sse.v
SecretFiles.v
Mailer.v
Dashboard.v
WebRoutes.v
Recycler.v
Boot.v
