(* ===== verification/Prelude.v ===== *)
(** * Verification of the MCP bridge

    The bridge ([src/]) stands between MCP clients and backend processes.  A
    tool call comes in over HTTP, is put before the _enforcer_, which decides
    whether it is executed, queued for approval or denied, and is then routed
    to a process of the backend, spawned with the caller's environment.  Clients
    get in with an API key or a token of the bridge's own authorization server,
    users through a web console with a password and a second factor, and the
    secrets of users are kept encrypted.  This library models these paths in
    Rocq, from the HTTP handlers' decision logic down to the tables of the
    database, the processes and the ciphers, and proves what they guarantee and,
    at several places, what they do not.

    ** The parts and how they interact

    A call goes through [Gate] (extraction, check, switch on the decision),
    which asks [EnforcerCalls.Calls.HandleToolCall]; that resolves the safety
    profile ([Resolver], falling back to [Heuristics]), evaluates the policies
    ([CelEngine]), debits the budget ([RateLimit]) and writes to the database
    ([EnforcerStore]); the handler then queues an approval or forwards the
    request through [Muxer], which builds the environment with [Template] and
    asks the [PoolManager] for the pool of the user; a process is acquired from
    that [Pool] and the response comes back through [PoolRequests].

    Before that, [OAuth.Middleware] finds the user of the request; tokens are
    issued by the other handlers of [OAuth], whose tables, and those of the users
    and their secrets, are [Accounts].  Secrets go through the interface
    [Crypto.SecretBox], which the key store implements.  The web console
    ([WebAuth]) works on [Accounts] as well, with [TwoFA] for the second factor.

    ** The files, in dependency order

    - [Prelude]: 64-bit integers with explicit wrap-around, time, errors, Go's
      [(value, error)] as [res], the monad [M] of handlers (state passing with
      early return), package strings on byte strings, the order Go visits the
      keys of a map in ([key_order]), hints and tactics.
    - [GoStrings]: the rest of package strings, hexadecimal, base 64 and
      big-endian numbers, with their round trips.
    - [Sql]: statements that may fail, on the interface [Database] of a record of
      tables with a schedule of failures.
    - [Crypto]: [src/internal/crypto]: providers of keys, envelope format, key
      store, keys of users.  The ciphers are the class [CryptoPrims] with the laws
      [CryptoLaws]; [SecretBox] is what the stores rely on, and
      [key_store_laws] shows that the key store provides it.
    - [Accounts]: [src/store/user.go], [apikey.go], [oauth.go], [invite.go],
      [twofa.go] and web sessions, as tables with their constraints.
    - [Http]: requests and responses.
    - [TwoFA]: [src/internal/twofa/twofa.go]; one-time passwords are the class
      [Totp].
    - [WebAuth]: [src/web/auth.go], [twofa.go] and [user.go].  The keys of sessions
      are slices the handlers share and zeroize, so they live in a heap.
    - [WebSessions]: the theorems about these pages.
    - [WebInvite]: [src/web/invite.go] and the pages for users and OAuth clients of
      [admin.go], with their theorems; the mail server is the class [Mail].
    - [OAuth]: [src/auth/auth.go].
    - [Grants]: [Ledger] is the abstract specification of the authorization
      server, a transition system of grants, codes and tokens;
      [server_refines_ledger] the simulation; the theorems about it.
    - [RateLimit]: [src/ratelimit/ratelimit.go].  Modules [Bucket],
      [BucketState], [BucketManager], [RateLimitManager] follow the types of the
      file; a manager's state is its map of buckets, configurations and personal
      configurations.  Every operation that reads the clock takes the reading.
    - [RateLimitRace]: the statements of [Consume] as a step relation for any
      number of goroutines, with and without the mutex.
    - [EnforcerTypes]: [src/enforcer/types.go], and the JSON values
      [encoding/json] decodes into an interface.
    - [Heuristics]: [src/enforcer/heuristics.go].
    - [Resolver]: [src/enforcer/resolver.go] and [src/enforcer/scanner.go].  The
      store of profiles is the class [ToolProfileStore]; [EnforcerStore] is an
      instance.
    - [CelEngine]: [src/enforcer/cel_engine.go].  Compiling and running a CEL
      program is the class [CelLib] (the library cel-go).
    - [EnforcerStore]: [src/store/enforcer_store.go] and
      [src/store/rate_limit_store.go].  The record [db] holds the tables and a
      schedule of failing statements: each statement consumes one entry.
    - [Enforcer]: [src/enforcer/enforcer.go], the state (configuration, resolver,
      engine, database, rate limits, and the log of requests handed to the
      executor), start-up, policies, overrides, kill switches, [Evaluate].
    - [EnforcerCalls]: the rest of that file, calls and approvals.
      [CallFacts.outcome] is the specification of a call, an inductive relation
      with one constructor per way a call can end; [CallFacts.handle_outcome]
      is the refinement, and the theorems about calls follow from it.
    - [EnforcerAdmin]: theorems about approvals, policies and overrides.
    - [Template]: [src/muxer/template.go].  [renders] is the declarative reading
      of a template, which [replace_all_renders] shows the scan to compute.
    - [Muxer]: [src/muxer/muxer.go].  The store is the class [MuxStore].
    - [Backends]: [src/store/backend.go], the tables of backends, cached tools and
      settings beside those of [Accounts]; an instance of [MuxStore].
    - [WebBackends]: the pages for backends of [src/web/admin.go].  [integrity] is
      what every sequence of requests keeps of the tables.
    - [Gate]: [handleToolsCall] of [src/mcpbridge_routing.go] and of
      [src/mcp_handlers.go], [v2toolCall] of [src/v2handler.go].
      [GateFacts.answers] specifies the switch on a decision.
    - [PoolRequests]: the table of pending requests of [src/poolmgr/pool.go]:
      registration, timeout and dispatch as operations that interleave in any
      order ([request_run]), with the channels and timers they share.
    - [Process]: [src/poolmgr/process.go] and the handshake of [pool.go]: allowed
      commands, what is executed for them, both framings.
    - [Pool]: the machine of [src/poolmgr/pool.go].  A state is the channel of warm
      processes, the places for spawning, the goroutines with where each of them
      is ([phase]), retry timers and processes; [pool_op] is what can happen, in
      any order ([pool_run]).
    - [PoolManager]: [src/poolmgr/manager.go].  Pools are shared, so the map holds
      names of pools in a store; the lookup of a user's pool is a sequence of steps
      ([PoolManager.step]) that two calls interleave ([interleave]).
    - [BackendStatus]: [src/store/backend_status.go], the retry back-off.
    - [EnforcerWeb]: [src/web/enforcer_handlers.go] and its routes in [web.go].  A
      handler works on the enforcer's state and answers a page; [EnforcerConsole]
      holds the theorems.
    - [Startup]: [src/scan.go], the load of the overrides and the previews of
      [src/main.go], the environments of [src/poolmgr/probe.go].
    - [ToolLists]: [tools/list] of [src/mcpbridge_routing.go] and
      [mcp_handlers.go], with [src/muxer/augment.go] and
      [src/shared/system_tools.go].  A process is a [pool_view]; what is done with
      it is a trace of events, kept beside the tables in [Bridge.t].
    - [BridgeTools]: [src/mcpbridge_tools.go], the tools the bridge serves itself.
    - [Server]: [src/mcpbridge.go], [jsonrpc.go], [http_handlers.go]: the routes,
      the replies, and the exchange of a forwarded call with its process.
    - [V2]: [src/v2handler.go], around [Gate.v2toolCall].
    - [Precache]: [src/precache.go], the cache of tools filled at the start.
    - [Replay]: [src/web/approval_executor.go], what happens to a call once it is
      approved: the text [Gate] kept with the request goes to a process.
    - [RateLimitWeb]: [src/web/ratelimit_handlers.go] and its routes.
    - [Config]: [src/config/config.go], and what [main] makes of a configuration or
      of its absence.
    - [Seed]: [src/seed.go], the rows of the first start.
    - [Schema]: [migrate] of [src/store/store.go]: the statements that make and
      change the tables, with what SQLite does for each on columns and rows.
    - [Tools]: [src/cmd/migrate/main.go] and [src/cmd/extract/main.go], every
      command with the lines it prints and its exit code.
    - [Probe]: [src/poolmgr/probe.go], [scanSelfReportingBackends] of [scan.go] and
      the retry loop of [main.go].  What a process writes is a list of chunks with
      their times; the wait for a response runs on the table of [PoolRequests].
    - [Builtin]: the built-in server of [src/poolmgr/process.go] and the goroutine
      that reads it, as one machine whose steps come in any order.
    - [Sse]: [sseHandler] of [src/http_handlers.go] on the machine of [Pool].
    - [Recycler]: [src/poolmgr/recycler.go], for one backend.
    - [SecretFiles]: [src/internal/secret/secret.go] with the disk it writes to,
      [SpawnProcessWithSecrets], and [src/credential/secret.go].
    - [Mailer]: [src/internal/mailer/mailer.go], the conversation with the mail
      server as a transcript.
    - [Dashboard]: the dashboard of [src/web/user.go], the pools of
      [src/web/admin.go] and the looks at the warm processes of [pool.go].
    - [WebRoutes]: [Register] of [src/web/web.go], every route with its guard.
    - [Boot]: [src/main.go]: what a start checks and writes, the caches it fills, what
      a change of a backend refreshes, and the routes of both ports.

    ** What the theorems show

    - Calls: a denying policy is final, budget follows permission up to the refusals of
      the rate limiter itself, overrides
      that ask for approval bind, inferred profiles are queued, missing
      justifications are refused; the handlers do what was decided.
    - Policies: the decision is the most restrictive one and, with distinct
      priorities, independent of Go's map order.
    - Rate limits: the bound of a token bucket, level invariants of every
      reachable manager, stored levels it loads included, liveness, and the races of
      the unlocked consumption.
    - Approvals and store: requests are immutable, cleanup is exact, an
      execution calls the executor at most once; rates and kill switches.
    - Profiles: tiers of the resolution, fail-safe and monotone heuristics.
    - Routing and environments: round trip of names, exactness of templates,
      precedence of variables.
    - Backends: what administrators and users save reaches the process
      ([saved_secrets_reach_process]); environments are sealed and read back;
      referential integrity; deletion is exact.
    - Authorization server: it refines the ledger of grants, so that every live
      code and token comes from a password ([token_provenance]); the exchange of a
      code and the middleware exactly, by which statements fail.
    - Console: administrators' pages are for administrators, the challenge page
      lets nobody in without a code, a change of password keeps the secrets, nobody
      signs up without an invitation and mailed invitations work.
    - Secrets: round trips under the keys of users and of the master, totality of
      decryption.
    - Pools: responses reach the request with their id and nothing panics, in
      every interleaving; framings are inverse to the writers; waiting for a
      process ends; a user keeps his pool as long as his environment is the same;
      idle collection and removal are exact; the delay before a backend is
      retried.
    - Pages of the enforcer: what users cannot change
      ([EnforcerConsole.users_cannot_administer]) and what any user can
      ([user_executes_any_request]); the effect of creating a policy.
    - Tool lists and servers: what every backend contributes to a list, name by name,
      each routing back to that backend and tool; justifications are asked for where
      they will be demanded, the cache shows what a process would; processes that are
      taken on the first endpoint are given back and the requests they were sent
      unregistered ([requests_return_processes]); what a call of the second endpoint has
      passed before it gets to a process ([v2_call_admitted]); a cached list is never lost to a
      failing backend ([Precache.precache_fills_or_keeps]).
    - Approved calls: what is executed is what was put before the enforcer
      ([Replay.approved_call_is_the_call]), except at the second endpoint
      ([Replay.v2_replay_renames]).
    - Start: whether a password is enough depends on a file that loads
      ([Config.second_factor_hangs_on_file]); the configuration is imported once
      ([Seed.config_is_imported_once]); two starts bring an old database to the
      schema without losing a row ([Schema.migration_converges]).
    - Migration of secrets: it hides every token and loses none
      ([Tools.migration_keeps_tokens]), the rollback keeps them readable, a dry run
      changes nothing; what is lost when a statement fails in between.
    - Probes: the verdict exactly ([Probe.probe_verdict]), what a tick of the retry
      loop changes ([Probe.retry_tick_exact]), what a scan leaves alone; a probe of
      the built-in server takes the bridge down.
    - Mail: the password stays encrypted, a mail that is reported as sent has been
      taken for everyone ([Mailer.send_complete]), the message is read back.
    - Secrets in files: each in a new file, none left after the cleanup.
    - Routes: every path of the console has its guard
      ([WebRoutes.console_paths_guarded]), every path of the bridge its gate
      ([Boot.front_gate]).
    - Start: it loses no token and is refused by one token only
      ([Boot.start_keeps_tokens]), a second one changes nothing ([Boot.start_again]);
      a change of a backend takes effect as a restart would ([Boot.change_is_restart]).
    - Deviations, each stated as a theorem: the kill switch lets calls through
      ([Gate.kill_switch_fails_open]), calls named elsewhere are not checked
      ([Gate.unnamed_call_unchecked]), the slash alias of a tool, deleted
      policies that still decide, execution of denied requests, lost budget,
      overwritten overrides, the lost audit log of a first run, ids in flight that
      are used twice, a back-off that wraps to zero; the enrolment page that
      replaces a second factor, session keys that become zero, codes exchanged
      twice; processes that never answered or have died and are handed out, a
      shutdown that never returns, pools that are closed under their requests or
      forgotten; a built-in server that stops after fifty answers
      ([Builtin.builtin_answers_fifty]), streams that inflate the size of a pool.

    ** Conventions and bounds

    Iteration over a Go map takes the order as an argument, and theorems hold
    for every order.  The loops that are not structural have fuel that is shown
    to suffice or is bounded by a length: the search of tokens in [Heuristics],
    the scan of templates, [TrimSpace] (each step removes a byte), the readers of
    both framings (each turn takes a line), the words of a command; the wait for
    a process takes its fuel as an argument, and
    [WaitForWarmWithMax_terminates] says how much is enough.  Case
    conversion covers the ASCII letters and leaves other bytes as they are.
    Errors are constructors where the code tells them apart and carry the format
    of the message otherwise.  Logging is not modelled.  Times compare as
    instants; an HTTP handler reads the clock once and runs as a whole, except
    where a theorem is about an interleaving.  Where a theorem needs the source
    of random bytes not to fail or its values to be new, it says so.

    ** Not modelled

    The construction of the parts in [main] from their constructors, its flags, and the
    construction of the servers of the MCP library; the HTML of the templates;
    logging; the context of a request and the log of accesses; [GetMemoryUsage],
    which asks the operating system; the queries of tool profiles of
    [src/store/backend.go], which are those of the enforcer store on the same table;
    the types and interfaces of [src/enforcer/types.go] that no function uses.  The
    goroutines with a ticker (of the rate limiter, of idle pools, of the retry loop)
    appear as the operation of one tick.  Formatting of values the code prints is a
    parameter ([error_text], [show], [sprint]); headers that carry lengths are left
    out, and an empty list of tools is not told from a nil one in the expansion of
    [V2].  In [Probe] every message of a process reaches the dispatcher: the channel of
    100 places between them ([src/poolmgr/pool.go], 650-658), which drops messages when
    it is full, is left out.  The handlers are modelled for a bridge whose enforcer
    started. *)
From stdpp Require Export base gmap strings list fin_maps.
From Stdlib Require Export Ascii ZArith Lia.

(** ** Machine integers

    Go's [int], [int64] and [time.Duration] are 64-bit two's complement on the
    platforms the bridge is built for.  Values are [Z]; every arithmetic
    operation of the source that can leave the range is written with the
    wrapping operators below. *)

Declare Scope go_scope.
Delimit Scope go_scope with go.

Abbreviation MaxInt64 := 9223372036854775807%Z.
Abbreviation MinInt64 := (-9223372036854775808)%Z.
Abbreviation TwoTo64 := 18446744073709551616%Z.
Abbreviation TwoTo63 := 9223372036854775808%Z.

Definition wrap64 (z : Z) : Z := ((z + TwoTo63) mod TwoTo64 - TwoTo63)%Z.

Notation "a +! b" := (wrap64 (a + b)%Z) (at level 50, left associativity) : go_scope.
Notation "a -! b" := (wrap64 (a - b)%Z) (at level 50, left associativity) : go_scope.
Notation "a *! b" := (wrap64 (a * b)%Z) (at level 40, left associativity) : go_scope.

(** Go's integer division truncates towards zero; [MinInt64 / -1] wraps. *)
Definition go_div (a b : Z) : Z := wrap64 (Z.quot a b).

Definition int64 (z : Z) : Prop := (MinInt64 <= z <= MaxInt64)%Z.

#[export] Instance int64_dec z : Decision (int64 z).
Proof. unfold int64. apply _. Defined.

(** ** Time

    [time.Time] is the number of nanoseconds since an epoch and
    [time.Duration] a 64-bit number of nanoseconds.  An operation that reads
    the clock takes the reading as the argument [now]. *)

Abbreviation Time := Z (only parsing).
Abbreviation Duration := Z (only parsing).

Definition Millisecond : Duration := 1000000%Z.
Definition Second : Duration := 1000000000%Z.
Definition Minute : Duration := 60000000000%Z.
Definition Hour : Duration := 3600000000000%Z.

(** [Time.Sub]: saturates at the ends of [Duration]. *)
Definition time_sub (t u : Time) : Duration := Z.max MinInt64 (Z.min MaxInt64 (t - u)).

(** [int(d.Seconds())]: the whole seconds of a duration, towards zero.  The source goes
    through float64, which can give the next second for a duration of months that is
    nanoseconds, or of centuries that is a microsecond, short of it. *)
Definition duration_secs (d : Duration) : Z := Z.quot d Second.

(** ** Errors

    The errors the code distinguishes are constructors; the others carry the
    format string they are built with and the error they wrap. *)

Inductive error :=
| ErrPolicyViolation
| ErrApprovalRequired
| ErrKillSwitchActive
| ErrRateLimitExceeded
| ErrOverrideTooPermissive
| ErrNoRows
| ErrSql
| Errorf (msg : string)
| Wrapf (msg : string) (e : error).

#[export] Instance error_eq_dec : EqDecision error.
Proof. solve_decision. Defined.

(** The result of a Go call [(A, error)] whose value is only used when the
    error is nil. *)
Inductive res (A : Type) :=
| Ok (a : A)
| Err (e : error).
Arguments Ok {A} a.
Arguments Err {A} e.

Definition is_ok {A} (r : res A) : bool := match r with Ok _ => true | Err _ => false end.

(** ** Handlers: state passing with early return

    A Go function body that changes a state [S], may [return] a result [R]
    before its end and otherwise continues with a value of type [A]. *)

Definition M (S R A : Type) : Type := S -> (R + A) * S.

Definition ret {S R A} (a : A) : M S R A := fun s => (inr a, s).
Definition early {S R A} (r : R) : M S R A := fun s => (inl r, s).
Definition bind {S R A B} (m : M S R A) (k : A -> M S R B) : M S R B :=
  fun s => match m s with
           | (inl r, s') => (inl r, s')
           | (inr a, s') => k a s'
           end.
Definition gets {S R A} (f : S -> A) : M S R A := fun s => (inr (f s), s).
Definition modify {S R} (f : S -> S) : M S R unit := fun s => (inr tt, f s).
Definition state {S R A} (f : S -> A * S) : M S R A :=
  fun s => let '(a, s') := f s in (inr a, s').
Definition when {S R} (c : bool) (m : M S R unit) : M S R unit := if c then m else ret tt.

(** Running a whole body: the value at the end of the body is its result. *)
Definition run {S R} (m : M S R R) (s : S) : R * S :=
  match m s with
  | (inl r, s') => (r, s')
  | (inr r, s') => (r, s')
  end.

(** The part of the state a body does not change. *)
Definition leaves {S R A B} (part : S -> B) (m : M S R A) : Prop :=
  forall s, part (m s).2 = part s.

Declare Scope handler_scope.
Delimit Scope handler_scope with handler.
Notation "x <-- m ;; k" := (bind m (fun x => k))
  (at level 100, m at next level, right associativity) : handler_scope.
Notation "m ;;; k" := (bind m (fun _ => k))
  (at level 100, right associativity) : handler_scope.

(** ** Strings

    Go strings are byte sequences: [string], whose characters are 8-bit
    [ascii].  The definitions follow package [strings]. *)

#[global] Arguments String.append !_ _ : simpl nomatch.

Fixpoint str_drop (n : nat) (s : string) : string :=
  match n, s with
  | 0, _ => s
  | S n', String _ s' => str_drop n' s'
  | S _, EmptyString => EmptyString
  end.

Fixpoint str_take (n : nat) (s : string) : string :=
  match n, s with
  | S n', String c s' => String c (str_take n' s')
  | _, _ => EmptyString
  end.

(** [strings.HasPrefix(s, p)] and [strings.HasSuffix(s, p)]. *)
Fixpoint has_prefix (s p : string) {struct p} : bool :=
  match p, s with
  | EmptyString, _ => true
  | String a p', String b s' => bool_decide (a = b) && has_prefix s' p'
  | String _ _, EmptyString => false
  end.

Definition has_suffix (s p : string) : bool :=
  (String.length p <=? String.length s)%nat &&
  bool_decide (str_drop (String.length s - String.length p) s = p).

(** [strings.TrimPrefix], [strings.TrimSuffix]. *)
Definition trim_prefix (s p : string) : string :=
  if has_prefix s p then str_drop (String.length p) s else s.

Definition trim_suffix (s p : string) : string :=
  if has_suffix s p then str_take (String.length s - String.length p) s else s.

(** [strings.Index(s, p)]: the first occurrence. *)
Fixpoint str_index (s p : string) : option nat :=
  if has_prefix s p then Some 0%nat
  else match s with
       | EmptyString => None
       | String _ s' => S <$> str_index s' p
       end.

(** [strings.Contains(s, p)]. *)
Definition contains (s p : string) : bool := bool_decide (is_Some (str_index s p)).

(** [s[i] == c] for an index that may be out of range. *)
Definition byte_at (s : string) (i : nat) (c : ascii) : bool :=
  match String.get i s with Some b => bool_decide (b = c) | None => false end.

(** [strings.ToLower], [strings.ToUpper]: on the ASCII range; bytes of
    multi-byte runes are left as they are. *)
Definition ascii_lower (c : ascii) : ascii :=
  let n := nat_of_ascii c in
  if (65 <=? n)%nat && (n <=? 90)%nat then ascii_of_nat (n + 32) else c.

Definition ascii_upper (c : ascii) : ascii :=
  let n := nat_of_ascii c in
  if (97 <=? n)%nat && (n <=? 122)%nat then ascii_of_nat (n - 32) else c.

Fixpoint str_map (f : ascii -> ascii) (s : string) : string :=
  match s with
  | EmptyString => EmptyString
  | String c s' => String (f c) (str_map f s')
  end.

Definition to_lower : string -> string := str_map ascii_lower.
Definition to_upper : string -> string := str_map ascii_upper.

(** [len(s)] as a Go [int]. *)
Definition len (s : string) : Z := Z.of_nat (String.length s).

(** Whether a byte occurs in a string. *)
Fixpoint has_byte (c : ascii) (s : string) : bool :=
  match s with
  | EmptyString => false
  | String b s' => bool_decide (b = c) || has_byte c s'
  end.

(** * Lemmas *)

(** ** Machine integers *)

Lemma wrap64_id z : int64 z -> wrap64 z = z.
Proof. unfold int64, wrap64. intros. rewrite Z.mod_small; lia. Qed.

Lemma wrap64_range z : int64 (wrap64 z).
Proof.
  unfold int64, wrap64.
  pose proof (Z.mod_pos_bound (z + TwoTo63) TwoTo64 ltac:(lia)). lia.
Qed.

Lemma go_div_nonneg a b : (0 <= a <= MaxInt64)%Z -> (0 < b)%Z -> go_div a b = (a / b)%Z.
Proof.
  intros Ha Hb. unfold go_div. rewrite Z.quot_div_nonneg by lia.
  apply wrap64_id. unfold int64.
  pose proof (Z.div_pos a b ltac:(lia) Hb).
  pose proof (Z.div_le_upper_bound a b a Hb ltac:(nia)). lia.
Qed.

Lemma time_sub_small t u : int64 (t - u) -> time_sub t u = (t - u)%Z.
Proof. unfold int64, time_sub. lia. Qed.

Lemma time_sub_nonneg t u : (u <= t)%Z -> (0 <= time_sub t u <= t - u)%Z.
Proof. unfold time_sub. lia. Qed.

Lemma duration_secs_nonneg d : (0 <= d)%Z -> duration_secs d = (d / Second)%Z.
Proof. intros. unfold duration_secs, Second. by rewrite Z.quot_div_nonneg by lia. Qed.

(** ** Bodies *)

Section Leaves.
Context {S R B : Type} (part : S -> B).

Lemma leaves_ret {A} (a : A) : leaves part (ret (R := R) a).
Proof. done. Qed.
Lemma leaves_early {A} (r : R) : leaves part (early (A := A) r).
Proof. done. Qed.
Lemma leaves_gets {A} (f : S -> A) : leaves part (gets (R := R) f).
Proof. done. Qed.
Lemma leaves_bind {A C} (m : M S R A) (k : A -> M S R C) :
  leaves part m -> (forall a, leaves part (k a)) -> leaves part (bind m k).
Proof.
  intros Hm Hk s. unfold bind. specialize (Hm s). destruct (m s) as [[r|a] s']; cbn in *; [done|].
  by rewrite Hk.
Qed.
Lemma leaves_state {A} (f : S -> A * S) :
  (forall s, part (f s).2 = part s) -> leaves part (state (R := R) f).
Proof. intros Hf s. unfold state. specialize (Hf s). by destruct (f s). Qed.
Lemma leaves_when c (m : M S R unit) : leaves part m -> leaves part (when c m).
Proof. intros Hm. by destruct c. Qed.
Lemma leaves_run (m : M S R R) s : leaves part m -> part (run m s).2 = part s.
Proof. intros Hm. unfold run. rewrite <- (Hm s). by destruct (m s) as [[]]. Qed.
End Leaves.

Create HintDb leaves.
#[export] Hint Resolve leaves_ret leaves_early leaves_gets : leaves.

(** Goes through the branches of a body. *)
Ltac leaves_body :=
  repeat first
    [ progress (eauto with leaves)
    | apply leaves_bind; [|intros ?]
    | apply leaves_when
    | case_match ].

Create HintDb go.
Create Rewrite HintDb go.
#[export] Hint Rewrite wrap64_id using (unfold int64 in *; lia) : go.
#[export] Hint Resolve wrap64_range : go.

(** Removes the wrapping operators whose result is in range. *)
Ltac wrap_simpl := repeat (rewrite wrap64_id by (unfold int64 in *; nia)).

(** ** Strings *)

Lemma has_prefix_spec s p : has_prefix s p = true <-> exists r, s = p +:+ r.
Proof.
  revert s. induction p as [|a p IH]; intros s; simpl.
  - split; eauto.
  - destruct s as [|b s]; simpl.
    + split; [done | intros [r Hr]; done].
    + rewrite andb_true_iff, bool_decide_eq_true, IH. split.
      * intros [-> [r ->]]. by exists r.
      * intros [r Hr]. injection Hr as -> ->. eauto.
Qed.

Lemma has_prefix_app p r : has_prefix (p +:+ r) p = true.
Proof. apply has_prefix_spec. eauto. Qed.

Lemma str_drop_app p r : str_drop (String.length p) (p +:+ r) = r.
Proof. by induction p. Qed.

Lemma str_take_app p r : str_take (String.length p) (p +:+ r) = p.
Proof. induction p as [|a p IH]; simpl; [by destruct r | by rewrite IH]. Qed.

Lemma str_app_nil_r s : s +:+ "" = s.
Proof. induction s as [|a s IH]; simpl; [done | by rewrite IH]. Qed.

Lemma str_app_assoc (a b c : string) : a +:+ (b +:+ c) = (a +:+ b) +:+ c.
Proof. induction a as [|x a IH]; simpl; [done | by rewrite IH]. Qed.

Lemma str_app_inj_l (a b c : string) : a +:+ b = a +:+ c -> b = c.
Proof. induction a; simpl; intros H; [done | injection H; auto]. Qed.

Lemma str_length_app (a b : string) :
  String.length (a +:+ b) = (String.length a + String.length b)%nat.
Proof. induction a; simpl; auto. Qed.

Lemma str_app_eq_length (a a' b b' : string) :
  String.length a = String.length a' -> a +:+ b = a' +:+ b' -> a = a' /\ b = b'.
Proof.
  revert a'. induction a as [|x a IH]; intros [|y a']; simpl; intros Hl H; try done.
  injection Hl as Hl. injection H as -> H. destruct (IH _ Hl H) as [-> ->]. done.
Qed.

Lemma str_app_inj_r (a b c : string) : a +:+ c = b +:+ c -> a = b.
Proof.
  intros H. refine (proj1 (str_app_eq_length a b c c _ H)).
  apply (f_equal String.length) in H. rewrite !str_length_app in H. lia.
Qed.

Lemma trim_prefix_app p r : trim_prefix (p +:+ r) p = r.
Proof. unfold trim_prefix. by rewrite has_prefix_app, str_drop_app. Qed.

Lemma has_suffix_app p r : has_suffix (r +:+ p) p = true.
Proof.
  unfold has_suffix. rewrite str_length_app.
  replace (String.length r + String.length p - String.length p)%nat
    with (String.length r) by lia.
  rewrite str_drop_app, bool_decide_eq_true_2 by done.
  rewrite andb_true_r. apply Nat.leb_le. lia.
Qed.

Lemma str_index_Some s p i :
  str_index s p = Some i ->
  exists a b, s = a +:+ p +:+ b /\ String.length a = i.
Proof.
  revert i. induction s as [|c s IH]; intros i; simpl.
  - destruct p; [|done]. intros [= <-]. by exists "", "".
  - destruct (has_prefix (String c s) p) eqn:Hp.
    + intros [= <-]. apply has_prefix_spec in Hp as [r ->]. by exists "", r.
    + destruct (str_index s p) as [j|]; [|done]. intros [= <-].
      destruct (IH j eq_refl) as (a & b & -> & <-). by exists (String c a), b.
Qed.

Lemma str_index_least s p i a b :
  str_index s p = Some i -> s = a +:+ p +:+ b -> (i <= String.length a)%nat.
Proof.
  revert i a. induction s as [|c s IH]; intros i a; simpl.
  - destruct p; [intros [= <-]; lia | done].
  - destruct (has_prefix (String c s) p) eqn:Hp; [intros [= <-]; lia|].
    destruct a as [|x a]; simpl.
    + intros _ Hs. rewrite Hs, has_prefix_app in Hp. done.
    + destruct (str_index s p) as [j|] eqn:Hj; [|done].
      intros [= <-] [= _ Hs]. specialize (IH j a eq_refl Hs). lia.
Qed.

Lemma str_index_None s p :
  str_index s p = None <-> forall a b, s <> a +:+ p +:+ b.
Proof.
  split.
  - revert p. induction s as [|c s IH]; intros p H a b Hs; simpl in H.
    + destruct a, p; done.
    + destruct (has_prefix (String c s) p) eqn:Hp; [done|].
      destruct a as [|x a]; simpl in Hs.
      * rewrite Hs, has_prefix_app in Hp. done.
      * injection Hs as _ Hs. destruct (str_index s p) eqn:Hi; [done|].
        by apply (IH p Hi a b).
  - intros H. destruct (str_index s p) as [i|] eqn:Hi; [|done].
    apply str_index_Some in Hi as (a & b & -> & _). by destruct (H a b).
Qed.

Lemma contains_spec s p : contains s p = true <-> exists a b, s = a +:+ p +:+ b.
Proof.
  unfold contains. rewrite bool_decide_eq_true. split.
  - intros [i Hi]. apply str_index_Some in Hi as (a & b & ? & _). eauto.
  - intros (a & b & Hs). destruct (str_index s p) eqn:Hi; [eauto|].
    by destruct (proj1 (str_index_None s p) Hi a b).
Qed.

Lemma has_byte_app c (a b : string) : has_byte c (a +:+ b) = has_byte c a || has_byte c b.
Proof. induction a as [|x a IH]; simpl; [done|]. by rewrite IH, orb_assoc. Qed.

(** A separator that does not occur in the left parts splits uniquely. *)
Lemma str_split_unique c (a a' b b' : string) :
  has_byte c a = false -> has_byte c a' = false ->
  a +:+ String c b = a' +:+ String c b' -> a = a' /\ b = b'.
Proof.
  revert a'. induction a as [|x a IH]; intros [|y a']; simpl; intros Ha Ha' H.
  - by injection H as ->.
  - injection H as -> H. rewrite bool_decide_eq_true_2 in Ha' by done. done.
  - injection H as -> H. rewrite bool_decide_eq_true_2 in Ha by done. done.
  - apply orb_false_iff in Ha as [_ Ha]. apply orb_false_iff in Ha' as [_ Ha'].
    injection H as -> H. destruct (IH a' Ha Ha' H) as [-> ->]. done.
Qed.

#[export] Hint Rewrite has_prefix_app str_drop_app trim_prefix_app str_length_app : go.

(** ** Iteration over a Go map

    Go visits the keys of a map in an unspecified order: some list of exactly
    its keys, without repetition. *)
Definition key_order {A} (order : list string) (m : gmap string A) : Prop :=
  NoDup order /\ list_to_set (C := gset string) order = dom m.

#[export] Instance key_order_dec {A} order (m : gmap string A) : Decision (key_order order m).
Proof. unfold key_order. apply _. Defined.

Lemma key_order_elem {A} order (m : gmap string A) k :
  key_order order m -> k ∈ order <-> is_Some (m !! k).
Proof. intros [_ Ho]. by rewrite <- elem_of_dom, <- Ho, elem_of_list_to_set. Qed.

(** ** Handlers *)

Lemma run_bind_inr {S R A} (m : M S R A) (k : A -> M S R R) s a s' :
  m s = (inr a, s') -> run (bind m k) s = run (k a) s'.
Proof. intros H. unfold run, bind. by rewrite H. Qed.

Lemma run_bind_inl {S R A} (m : M S R A) (k : A -> M S R R) s r s' :
  m s = (inl r, s') -> run (bind m k) s = (r, s').
Proof. intros H. unfold run, bind. by rewrite H. Qed.

(** ** Automation

    [case_if] splits on the first boolean test of the goal and turns the test
    into a proposition where [bool_decide] or a comparison of [Z] stands. *)
Ltac bool_to_prop :=
  repeat match goal with
  | H : (_ && _) = true |- _ => apply andb_true_iff in H as [? ?]
  | H : (_ || _) = false |- _ => apply orb_false_iff in H as [? ?]
  | H : negb _ = true |- _ => apply negb_true_iff in H
  | H : negb _ = false |- _ => apply negb_false_iff in H
  | H : bool_decide _ = true |- _ => apply bool_decide_eq_true_1 in H
  | H : bool_decide _ = false |- _ => apply bool_decide_eq_false_1 in H
  | H : (_ <=? _)%Z = true |- _ => apply Z.leb_le in H
  | H : (_ <=? _)%Z = false |- _ => apply Z.leb_gt in H
  | H : (_ <? _)%Z = true |- _ => apply Z.ltb_lt in H
  | H : (_ <? _)%Z = false |- _ => apply Z.ltb_ge in H
  | H : (_ =? _)%Z = true |- _ => apply Z.eqb_eq in H
  | H : (_ =? _)%Z = false |- _ => apply Z.eqb_neq in H
  end.

Ltac case_if :=
  match goal with
  | |- context [if ?c then _ else _] =>
      let H := fresh "Hif" in destruct c eqn:H; bool_to_prop
  | H0 : context [if ?c then _ else _] |- _ =>
      let H := fresh "Hif" in destruct c eqn:H; bool_to_prop
  end.
