(* ===== verification/GoStrings.v ===== *)
(** * Packages strings, encoding/hex, encoding/base64, encoding/binary

    What the source uses of these packages, on byte strings, with the round
    trips of the encodings. *)
From S2P Require Import Prelude.
From Stdlib Require Import ZifyNat.
(** ** Package strings *)

(** [strings.Count(s, cc)] for a text of two equal bytes: without overlap. *)
Fixpoint count_pair (c : ascii) (s : string) : nat :=
  match s with
  | String a (String b s'' as s') =>
      if bool_decide (a = c) && bool_decide (b = c) then S (count_pair c s'') else count_pair c s'
  | _ => O
  end.

(** [strings.Split(s, sep)] for a separator of one byte. *)
Fixpoint split_on (c : ascii) (s : string) : list string :=
  match s with
  | EmptyString => [EmptyString]
  | String a s' =>
      if bool_decide (a = c) then EmptyString :: split_on c s'
      else match split_on c s' with
           | [] => [String a EmptyString]
           | x :: l => String a x :: l
           end
  end.

(** [strings.ReplaceAll(s, c, w)] for a byte. *)
Fixpoint replace_byte (c : ascii) (w s : string) : string :=
  match s with
  | EmptyString => EmptyString
  | String a s' => (if bool_decide (a = c) then w else String a EmptyString) +:+ replace_byte c w s'
  end.

Definition bytes (l : list nat) : string :=
  foldr (fun n s => String (ascii_of_nat n) s) EmptyString l.

(** The encodings of the runes [unicode.IsSpace] holds for. *)
Definition spaces : list string :=
  bytes <$> [[9]; [10]; [11]; [12]; [13]; [32]; [194; 133]; [194; 160]; [225; 154; 128];
             [226; 128; 128]; [226; 128; 129]; [226; 128; 130]; [226; 128; 131]; [226; 128; 132];
             [226; 128; 133]; [226; 128; 134]; [226; 128; 135]; [226; 128; 136]; [226; 128; 137];
             [226; 128; 138]; [226; 128; 168]; [226; 128; 169]; [226; 128; 175];
             [226; 129; 159]; [227; 128; 128]]%nat.

Fixpoint trim_left (fuel : nat) (s : string) : string :=
  match fuel with
  | O => s
  | S fuel' =>
      match list_find (fun w => has_prefix s w = true) spaces with
      | Some (_, w) => trim_left fuel' (str_drop (String.length w) s)
      | None => s
      end
  end.

Fixpoint trim_right (fuel : nat) (s : string) : string :=
  match fuel with
  | O => s
  | S fuel' =>
      match list_find (fun w => has_suffix s w = true) spaces with
      | Some (_, w) => trim_right fuel' (trim_suffix s w)
      | None => s
      end
  end.

(** [strings.TrimSpace]: each step removes at least one byte. *)
Definition trim_space (s : string) : string :=
  let s' := trim_left (String.length s) s in trim_right (String.length s') s'.

(** [fmt.Sscanf(s, "%d", &n)] for text in ASCII: blanks are skipped, a line
    break is an error, then a sign and decimal digits; what follows is not
    looked at.  [None]: an error, [n] is left alone. *)
Fixpoint skip_blanks (s : string) : option string :=
  match s with
  | EmptyString => Some EmptyString
  | String c s' =>
      if bool_decide (c = "010"%char) then None
      else if bool_decide (c ∈ ["009"; "011"; "012"; "013"; "032"]%char) then skip_blanks s'
      else Some s
  end.

Fixpoint decimal (acc : Z) (any : bool) (s : string) : option Z :=
  match s with
  | String c s' =>
      let d := (Z.of_nat (nat_of_ascii c) - 48)%Z in
      if ((0 <=? d) && (d <=? 9))%Z then decimal (10 * acc + d) true s'
      else if any then Some acc else None
  | EmptyString => if any then Some acc else None
  end.

Definition sscan_int (s : string) : option Z :=
  s ← skip_blanks s;
  n ← match s with
      | String "-" s' => Z.opp <$> decimal 0 false s'
      | String "+" s' => decimal 0 false s'
      | _ => decimal 0 false s
      end;
  if decide (int64 n) then Some n else None.

Example sscan_int_examples :
  (sscan_int " 12px", sscan_int "-7", sscan_int "x", sscan_int "9223372036854775808") =
  (Some 12%Z, Some (-7)%Z, None, None).
Proof. reflexivity. Qed.

(** [url.QueryEscape] *)
Definition hex_digit (n : nat) : ascii := ascii_of_nat (if (n <? 10)%nat then 48 + n else 55 + n).

Definition unreserved (c : ascii) : bool :=
  let n := nat_of_ascii c in
  ((48 <=? n) && (n <=? 57) || (65 <=? n) && (n <=? 90) || (97 <=? n) && (n <=? 122))%nat ||
  bool_decide (c ∈ ["-"%char; "_"%char; "."%char; "~"%char]).

Fixpoint query_escape (s : string) : string :=
  match s with
  | EmptyString => EmptyString
  | String c s' =>
      if unreserved c then String c (query_escape s')
      else if bool_decide (c = " "%char) then String "+" (query_escape s')
      else let n := nat_of_ascii c in
           String "%" (String (hex_digit (n / 16)) (String (hex_digit (n mod 16)) (query_escape s')))
  end.

(** ** encoding/hex *)

(** The digits [0-9a-f], as [hex.EncodeToString] writes them. *)
Definition hex_lower (n : nat) : ascii := ascii_of_nat (if (n <? 10)%nat then 48 + n else 87 + n).

Fixpoint hex_encode (s : string) : string :=
  match s with
  | EmptyString => EmptyString
  | String c s' =>
      let n := nat_of_ascii c in
      String (hex_lower (n / 16)) (String (hex_lower (n mod 16)) (hex_encode s'))
  end.

Definition hex_val (c : ascii) : option nat :=
  let n := nat_of_ascii c in
  if ((48 <=? n) && (n <=? 57))%nat then Some (n - 48)%nat
  else if ((97 <=? n) && (n <=? 102))%nat then Some (n - 87)%nat
  else if ((65 <=? n) && (n <=? 70))%nat then Some (n - 55)%nat
  else None.

(** [hex.DecodeString]; [None]: an odd length or another byte. *)
Fixpoint hex_decode (s : string) : option string :=
  match s with
  | EmptyString => Some EmptyString
  | String a (String b s') =>
      match hex_val a, hex_val b with
      | Some x, Some y => String (ascii_of_nat (16 * x + y)) <$> hex_decode s'
      | _, _ => None
      end
  | String _ EmptyString => None
  end.

(** ** encoding/base64 *)

(** The 64 digits; [std] tells [StdEncoding] from the URL alphabet. *)
Definition b64_digit (std : bool) (n : nat) : ascii :=
  if (n <? 26)%nat then ascii_of_nat (65 + n)
  else if (n <? 52)%nat then ascii_of_nat (71 + n)
  else if (n <? 62)%nat then ascii_of_nat (n - 4)
  else if (n =? 62)%nat then (if std then "+"%char else "-"%char)
  else (if std then "/"%char else "_"%char).

(** [EncodeToString] of [StdEncoding] (padded) and [RawURLEncoding] (not). *)
Fixpoint b64_encode (std : bool) (s : string) : string :=
  let d n := b64_digit std n in
  let pad := if std then "=" else EmptyString in
  match s with
  | EmptyString => EmptyString
  | String a EmptyString =>
      let a := nat_of_ascii a in
      String (d (a / 4)) (String (d (a mod 4 * 16)) (pad +:+ pad))%nat
  | String a (String b EmptyString) =>
      let a := nat_of_ascii a in let b := nat_of_ascii b in
      String (d (a / 4)) (String (d (a mod 4 * 16 + b / 16)) (String (d (b mod 16 * 4)) pad))%nat
  | String a (String b (String c s')) =>
      let a := nat_of_ascii a in let b := nat_of_ascii b in let c := nat_of_ascii c in
      String (d (a / 4)) (String (d (a mod 4 * 16 + b / 16))
        (String (d (b mod 16 * 4 + c / 64)) (String (d (c mod 64)) (b64_encode std s'))))%nat
  end.

Definition b64_val (c : ascii) : option nat :=
  let n := nat_of_ascii c in
  if ((65 <=? n) && (n <=? 90))%nat then Some (n - 65)%nat
  else if ((97 <=? n) && (n <=? 122))%nat then Some (n - 71)%nat
  else if ((48 <=? n) && (n <=? 57))%nat then Some (n + 4)%nat
  else if bool_decide (c = "+"%char) then Some 62%nat
  else if bool_decide (c = "/"%char) then Some 63%nat
  else None.

(** The groups of four digits; only the last one may be padded. *)
Fixpoint b64_groups (s : string) : option string :=
  match s with
  | EmptyString => Some EmptyString
  | String c0 (String c1 (String c2 (String c3 s'))) =>
      match b64_val c0, b64_val c1 with
      | Some v0, Some v1 =>
          let a := ascii_of_nat (v0 * 4 + v1 / 16) in
          if bool_decide (c2 = "="%char) && bool_decide (c3 = "="%char) then
            if bool_decide (s' = EmptyString) then Some (String a EmptyString) else None
          else match b64_val c2 with
          | None => None
          | Some v2 =>
              let b := ascii_of_nat (v1 mod 16 * 16 + v2 / 4) in
              if bool_decide (c3 = "="%char) then
                if bool_decide (s' = EmptyString) then Some (String a (String b EmptyString)) else None
              else match b64_val c3 with
              | None => None
              | Some v3 =>
                  (fun r => String a (String b (String (ascii_of_nat (v2 mod 4 * 64 + v3)) r)))
                    <$> b64_groups s'
              end
          end
      | _, _ => None
      end
  | _ => None
  end.

Fixpoint str_filter (f : ascii -> bool) (s : string) : string :=
  match s with
  | EmptyString => EmptyString
  | String c s' => if f c then String c (str_filter f s') else str_filter f s'
  end.

Definition line_break (c : ascii) : bool := bool_decide (c ∈ ["010"%char; "013"%char]).

(** [StdEncoding.DecodeString]: line breaks are skipped. *)
Definition b64_decode (s : string) : option string :=
  b64_groups (str_filter (fun c => negb (line_break c)) s).

(** ** encoding/binary: big-endian 32-bit unsigned integers *)

Open Scope Z_scope.

Definition byte_of (z : Z) : ascii := ascii_of_N (Z.to_N (z mod 256)).

Definition put_uint32 (v : Z) : string :=
  let v := v mod 2 ^ 32 in
  String (byte_of (v / 2 ^ 24)) (String (byte_of (v / 2 ^ 16))
    (String (byte_of (v / 2 ^ 8)) (String (byte_of v) EmptyString))).

Fixpoint big_endian (acc : Z) (s : string) : Z :=
  match s with
  | EmptyString => acc
  | String c s' => big_endian (256 * acc + Z.of_N (N_of_ascii c)) s'
  end.

Definition get_uint32 (s : string) : Z := big_endian 0 (str_take 4 s).

(** All the bytes of a string satisfy [f]. *)
Fixpoint str_forallb (f : ascii -> bool) (s : string) : bool :=
  match s with
  | EmptyString => true
  | String c s' => f c && str_forallb f s'
  end.

(** ** Lemmas *)

Lemma str_forallb_app f a b : str_forallb f (a +:+ b) = str_forallb f a && str_forallb f b.
Proof. induction a as [|c a IH]; simpl; [done|]. by rewrite IH, andb_assoc. Qed.

Lemma has_suffix_spec s p : has_suffix s p = true -> exists r, s = r +:+ p.
Proof.
  unfold has_suffix. intros [Hl Hd]%andb_true_iff. apply bool_decide_eq_true_1 in Hd.
  exists (str_take (String.length s - String.length p) s). rewrite <- Hd at 2. clear.
  generalize (String.length s - String.length p)%nat as n. intros n. revert s.
  induction n as [|n IH]; intros [|c s]; simpl; try done. by rewrite <- IH.
Qed.

(** A string of bytes none of which can end or begin a space is trimmed. *)
Lemma trim_space_id f s :
  str_forallb f s = true -> forallb (fun w => negb (str_forallb f w)) spaces = true ->
  trim_space s = s.
Proof.
  intros Hs Hf.
  assert (Hw : forall w, w ∈ spaces -> str_forallb f w = false).
  { intros w Hin. apply list_elem_of_In in Hin.
    apply negb_true_iff, (proj1 (forallb_forall _ _) Hf _ Hin). }
  assert (Hpre : list_find (fun w => has_prefix s w = true) spaces = None).
  { apply list_find_None, Forall_forall. intros w Hin Hp.
    apply has_prefix_spec in Hp as [r ->].
    rewrite str_forallb_app, (Hw w Hin) in Hs. done. }
  assert (Hsuf : list_find (fun w => has_suffix s w = true) spaces = None).
  { apply list_find_None, Forall_forall. intros w Hin Hp.
    apply has_suffix_spec in Hp as [r ->].
    rewrite str_forallb_app, (Hw w Hin), andb_false_r in Hs. done. }
  unfold trim_space.
  assert (forall n, trim_left n s = s) as -> by (intros [|n]; cbn [trim_left]; [done|]; by rewrite Hpre).
  destruct (String.length s); cbn [trim_right]; [done|]. by rewrite Hsuf.
Qed.

Lemma nat_ascii_bound c : (nat_of_ascii c < 256)%nat.
Proof. apply nat_ascii_bounded. Qed.

(** A property of every byte is checked on all of them. *)
Lemma forall_bytes (P : ascii -> bool) :
  forallb (fun n => P (ascii_of_nat n)) (seq 0 256) = true -> forall c, P c = true.
Proof.
  intros H c. rewrite <- (ascii_nat_embedding c).
  apply (proj1 (forallb_forall _ _) H), in_seq. pose proof (nat_ascii_bound c). lia.
Qed.

(** A property of every number below a bound. *)
Lemma forall_below (P : nat -> Prop) `{forall n, Decision (P n)} k n :
  forallb (fun n => bool_decide (P n)) (seq 0 k) = true -> (n < k)%nat -> P n.
Proof.
  intros H1 Hn. apply (bool_decide_eq_true_1 (P n)), (proj1 (forallb_forall _ _) H1), in_seq. lia.
Qed.

Lemma hex_val_lower n : (n < 16)%nat -> hex_val (hex_lower n) = Some n.
Proof.
  by apply (forall_below (fun n => hex_val (hex_lower n) = Some n) 16).
Qed.

Lemma b64_val_digit n : (n < 64)%nat -> b64_val (b64_digit true n) = Some n.
Proof.
  by apply (forall_below (fun n => b64_val (b64_digit true n) = Some n) 64).
Qed.

Lemma b64_digit_not_pad n std : (n < 64)%nat -> b64_digit std n <> "="%char.
Proof.
  destruct std.
  - by apply (forall_below (fun n => b64_digit true n <> "="%char) 64).
  - by apply (forall_below (fun n => b64_digit false n <> "="%char) 64).
Qed.

Lemma b64_digit_no_break n std : (n < 64)%nat -> line_break (b64_digit std n) = false.
Proof.
  destruct std.
  - by apply (forall_below (fun n => line_break (b64_digit true n) = false) 64).
  - by apply (forall_below (fun n => line_break (b64_digit false n) = false) 64).
Qed.

Lemma ascii_of_nat_eq n c : n = nat_of_ascii c -> ascii_of_nat n = c.
Proof. intros ->. apply ascii_nat_embedding. Qed.

(** Arithmetic on the digits of a byte. *)
Ltac byte_lia :=
  repeat match goal with
  | |- context [nat_of_ascii ?c] =>
      let n := fresh "n" in let H := fresh "H" in
      pose proof (nat_ascii_bound c) as H; set (n := nat_of_ascii c) in *; clearbody n
  end;
  zify; Z.to_euclidean_division_equations; lia.

Lemma hex_decode_encode s : hex_decode (hex_encode s) = Some s.
Proof.
  induction s as [|c s IH]; [done|]. cbn [hex_encode hex_decode].
  rewrite !hex_val_lower by byte_lia. rewrite IH. cbn [fmap option_fmap option_map]. do 2 f_equal.
  apply ascii_of_nat_eq. byte_lia.
Qed.

Lemma hex_encode_length s : String.length (hex_encode s) = (2 * String.length s)%nat.
Proof. induction s as [|c s IH]; simpl in *; lia. Qed.

(** Three bytes at a time. *)
Lemma string_ind3 (P : string -> Prop) :
  P EmptyString -> (forall a, P (String a EmptyString)) ->
  (forall a b, P (String a (String b EmptyString))) ->
  (forall a b c s, P s -> P (String a (String b (String c s)))) -> forall s, P s.
Proof.
  intros H0 H1 H2 H3. fix IH 1. intros [|a [|b [|c s]]]; [done | done | done | apply H3, IH].
Qed.

Lemma b64_groups_encode s : b64_groups (b64_encode true s) = Some s.
Proof.
  induction s as [|a|a b|a b c s IH] using string_ind3; cbn [b64_encode b64_groups String.append].
  - done.
  - rewrite !b64_val_digit by byte_lia. rewrite !bool_decide_eq_true_2 by done. cbn [andb].
    do 2 f_equal. apply ascii_of_nat_eq. byte_lia.
  - rewrite !b64_val_digit by byte_lia.
    rewrite (bool_decide_eq_false_2 (b64_digit _ _ = _)) by (apply b64_digit_not_pad; byte_lia).
    rewrite !bool_decide_eq_true_2 by done. cbn [andb].
    repeat f_equal; apply ascii_of_nat_eq; byte_lia.
  - rewrite !b64_val_digit by byte_lia.
    rewrite !(bool_decide_eq_false_2 (b64_digit _ _ = _)) by (apply b64_digit_not_pad; byte_lia).
    rewrite IH. cbn [andb fmap option_fmap option_map]. repeat f_equal; apply ascii_of_nat_eq; byte_lia.
Qed.

Lemma str_filter_id f s : (forall n c, String.get n s = Some c -> f c = true) -> str_filter f s = s.
Proof.
  induction s as [|a s IH]; intros H; [done|]. simpl.
  rewrite (H 0%nat a eq_refl), IH; [done|]. intros n c Hn. by apply (H (S n) c).
Qed.

Lemma b64_no_break s :
  str_filter (fun c => negb (line_break c)) (b64_encode true s) = b64_encode true s.
Proof.
  induction s as [|a|a b|a b c s IH] using string_ind3;
    cbn [b64_encode str_filter String.append]; try done;
    rewrite !b64_digit_no_break by byte_lia; cbn [negb].
  1-2: done.
  by rewrite IH.
Qed.

Lemma b64_decode_encode s : b64_decode (b64_encode true s) = Some s.
Proof. unfold b64_decode. rewrite (b64_no_break s). apply b64_groups_encode. Qed.

(** *** Big-endian integers *)

Lemma byte_of_val z : 0 <= z -> Z.of_N (N_of_ascii (byte_of z)) = z mod 256.
Proof.
  intros Hz. unfold byte_of. pose proof (Z.mod_pos_bound z 256).
  rewrite N_ascii_embedding by lia. lia.
Qed.

Lemma get_put_uint32 v s : 0 <= v < 2 ^ 32 -> get_uint32 (put_uint32 v +:+ s) = v.
Proof.
  intros Hv. unfold get_uint32, put_uint32. cbv zeta. rewrite Z.mod_small by done.
  cbn [String.append str_take big_endian].
  rewrite !byte_of_val by first [lia | apply Z.div_pos; lia].
  change (2 ^ 24) with 16777216. change (2 ^ 16) with 65536. change (2 ^ 8) with 256.
  change (2 ^ 32) with 4294967296 in Hv. Z.to_euclidean_division_equations. lia.
Qed.

Lemma big_endian_bound s acc :
  0 <= acc -> 0 <= big_endian acc s < (acc + 1) * 256 ^ Z.of_nat (String.length s).
Proof.
  revert acc. induction s as [|c s IH]; intros acc Hacc; cbn [big_endian String.length].
  - change (256 ^ Z.of_nat 0) with 1. lia.
  - pose proof (N_ascii_bounded c). specialize (IH (256 * acc + Z.of_N (N_of_ascii c)) ltac:(lia)).
    rewrite Nat2Z.inj_succ, Z.pow_succ_r by lia.
    pose proof (Z.pow_pos_nonneg 256 (Z.of_nat (String.length s)) ltac:(lia) ltac:(lia)). nia.
Qed.

Lemma str_take_length_le n s : (String.length (str_take n s) <= n)%nat.
Proof. revert s. induction n as [|n IH]; intros [|c s]; simpl; try lia. specialize (IH s). lia. Qed.

Lemma get_uint32_range s : 0 <= get_uint32 s < 2 ^ 32.
Proof.
  unfold get_uint32. pose proof (big_endian_bound (str_take 4 s) 0 ltac:(lia)) as H.
  pose proof (str_take_length_le 4 s).
  assert (256 ^ Z.of_nat (String.length (str_take 4 s)) <= 256 ^ 4)
    by (apply Z.pow_le_mono_r; lia). lia.
Qed.
