(* ===== verification/Sql.v ===== *)
(** * Statements and rows: database/sql over SQLite

    A database has a schedule of faults, one entry per statement: a faulty
    statement returns an error and changes nothing.  [ORDER BY] is a merge
    sort, and the rows of a table are those of its map. *)
From S2P Require Import Prelude.
From stdpp Require Import sorting.

(** [ORDER BY]. *)
Definition sort_by {A} (le : A -> A -> bool) : list A -> list A :=
  @merge_sort A (fun a b => le a b = true) (fun a b => decide (le a b = true)).

(** [ORDER BY f, g] on text columns (binary collation). *)
Definition by_text {A} (f g : A -> string) (a b : A) : bool :=
  match String.compare (f a) (f b) with
  | Lt => true
  | Gt => false
  | Eq => String.leb (g a) (g b)
  end.

Definition rows {K A} `{Countable K} (m : gmap K A) : list A := (map_to_list m).*2.

Class Database (D : Type) := {
  db_faults : D -> list bool;
  db_set_faults : list bool -> D -> D
}.

Section Statements.
Context {D : Type} `{Database D}.

(** A statement that can fail. *)
Definition sql_stmt {A} (f : D -> res A * D) (d : D) : res A * D :=
  match db_faults d with
  | true :: fs => (Err ErrSql, db_set_faults fs d)
  | false :: fs => f (db_set_faults fs d)
  | [] => f d
  end.
Definition sql_exec (f : D -> D) : D -> res unit * D := sql_stmt (fun d => (Ok tt, f d)).
Definition sql_query {A} (f : D -> res A) : D -> res A * D := sql_stmt (fun d => (f d, d)).

(** An INSERT or UPDATE that violates a constraint of the table unless [ok]. *)
Definition sql_checked (ok : D -> bool) (f : D -> D) : D -> res unit * D :=
  sql_stmt (fun d => if ok d then (Ok tt, f d) else (Err ErrSql, d)).

(** [QueryRow(...).Scan(...)] for at most one row. *)
Definition sql_row {A} (f : D -> option A) : D -> res A * D :=
  sql_query (fun d => match f d with Some a => Ok a | None => Err ErrNoRows end).

Lemma sql_stmt_ok {A} (f : D -> res A * D) d : db_faults d = [] -> sql_stmt f d = f d.
Proof. intros Hf. unfold sql_stmt. by rewrite Hf. Qed.

Lemma sql_exec_ok f d : db_faults d = [] -> sql_exec f d = (Ok tt, f d).
Proof. intros. unfold sql_exec. by rewrite sql_stmt_ok. Qed.

Lemma sql_checked_ok ok f d :
  db_faults d = [] -> sql_checked ok f d = if ok d then (Ok tt, f d) else (Err ErrSql, d).
Proof. intros. unfold sql_checked. by rewrite sql_stmt_ok. Qed.

Lemma sql_row_ok {A} (f : D -> option A) d :
  db_faults d = [] ->
  sql_row f d = (match f d with Some a => Ok a | None => Err ErrNoRows end, d).
Proof. intros. unfold sql_row, sql_query. by rewrite sql_stmt_ok. Qed.

End Statements.

Lemma elem_of_rows {K A} `{Countable K} (m : gmap K A) a :
  a ∈ rows m <-> exists k, m !! k = Some a.
Proof.
  unfold rows. rewrite list_elem_of_fmap. split.
  - intros ([k b] & -> & Hin). apply elem_of_map_to_list in Hin. eauto.
  - intros [k Hk]. exists (k, a). split; [done|]. by apply elem_of_map_to_list.
Qed.

Lemma sort_by_perm {A} (le : A -> A -> bool) l : sort_by le l ≡ₚ l.
Proof. unfold sort_by. apply merge_sort_Permutation. Qed.

Lemma filter_none {A} (P : A -> Prop) `{forall x, Decision (P x)} l :
  (forall x, x ∈ l -> ~ P x) -> filter P l = [].
Proof.
  intros Hl. apply elem_of_nil_inv. intros x. rewrite list_elem_of_filter. intros [HP Hin].
  by apply (Hl x).
Qed.
