(* ===== verification/Crypto.v ===== *)
(** * Encryption of secrets: [src/internal/crypto]

    The key providers, the envelope format of [EnvelopeEncryptor], the key store
    and the keys derived from passwords.  AES-GCM, SHA-256, HKDF, PBKDF2 and the
    source of randomness are the class [CryptoPrims], with their documented
    behaviour in [CryptoLaws]; byte slices are strings and a slice expression
    that would panic is [None]. *)
From S2P Require Import Prelude GoStrings.
Open Scope Z_scope.

(** The primitives.  [entropy i n]: the [n] bytes of the [i]-th read of
    [rand.Reader], or its failure. *)
Class CryptoPrims := {
  aes_gcm_seal : string -> string -> string -> string;
  aes_gcm_open : string -> string -> string -> option string;
  sha256 : string -> string;
  hkdf_sha256 : string -> string -> nat -> option string;
  pbkdf2_sha256 : string -> string -> Z -> nat -> string;
  entropy : nat -> nat -> option string
}.

(** [aes.NewCipher] takes keys of these lengths. *)
Definition aes_key (key : string) : bool :=
  bool_decide (String.length key ∈ [16; 24; 32]%nat).

Class CryptoLaws `{CryptoPrims} := {
  gcm_open_seal key nonce plaintext :
    aes_key key = true -> String.length nonce = 12%nat ->
    aes_gcm_open key nonce (aes_gcm_seal key nonce plaintext) = Some plaintext;
  gcm_seal_length key nonce plaintext :
    String.length (aes_gcm_seal key nonce plaintext) = (String.length plaintext + 16)%nat;
  hkdf_length key info n out : hkdf_sha256 key info n = Some out -> String.length out = n;
  sha256_length s : String.length (sha256 s) = 32%nat;
  pbkdf2_length pw salt iter n : String.length (pbkdf2_sha256 pw salt iter n) = n;
  entropy_length i n bs : entropy i n = Some bs -> String.length bs = n
}.

Definition keySize : nat := 32.
Definition nonceSize : Z := 12.
Definition gcmTagSize : Z := 16.

(** [s[i:j]] *)
Definition slice (s : string) (i j : Z) : option string :=
  if (0 <=? i) && (i <=? j) && (j <=? len s)
  then Some (str_take (Z.to_nat (j - i)) (str_drop (Z.to_nat i) s))
  else None.

(** ** Keys *)

Section Keys.
Context `{CryptoPrims}.

Definition hex_byte (c : ascii) : bool := bool_decide (is_Some (hex_val c)).

Definition isHex (s : string) : bool :=
  (2 <=? String.length s)%nat &&
  str_forallb hex_byte s.

(** The first byte that is a control byte, not ASCII, a digit or a letter
    decides. *)
Fixpoint isLikelyRawBytes (s : string) : bool :=
  match s with
  | EmptyString => true
  | String c s' =>
      let n := nat_of_ascii c in
      if ((n <? 32) || (126 <? n))%nat then true
      else if ((48 <=? n) && (n <=? 57))%nat then false
      else if ((97 <=? n) && (n <=? 122) || (65 <=? n) && (n <=? 90))%nat then false
      else isLikelyRawBytes s'
  end.

Definition parseKey (s : string) : res string :=
  let s := trim_space s in
  let invalid := Errorf "invalid hex key length: expected 32 or 64 characters, got %d" in
  if isHex s then
    if bool_decide (String.length s ∈ [32; 64]%nat) then
      match hex_decode s with Some decoded => Ok decoded | None => Err invalid end
    else Err invalid
  else
    let raw :=
      if isLikelyRawBytes s && (16 <=? String.length s)%nat then Ok s
      else Err (Errorf "invalid key format") in
    match b64_decode s with
    | Some decoded => if (16 <=? String.length decoded)%nat then Ok decoded else raw
    | None => raw
    end.

Definition KeyFromHex (s : string) : res string := parseKey s.
Definition KeyFromBase64 (s : string) : res string := parseKey s.

Definition KeyID (key : string) : string := hex_encode (str_take 8 (sha256 key)).

Definition deriveKey (key : string) : string :=
  if Nat.eqb (String.length key) keySize then key
  else match hkdf_sha256 key "mcp-bridge-kek-v1" keySize with
       | Some derived => derived
       | None => str_take keySize (sha256 key)
       end.

(** A read of [rand.Reader]. *)
Definition read_rand (n : nat) (rng : nat) : option string * nat := (entropy rng n, S rng).

Definition GenerateRandomKey (rng : nat) : res string * nat :=
  let '(key, rng) := read_rand keySize rng in
  (match key with
   | Some key => Ok key
   | None => Err (Errorf "failed to generate random key: %w")
   end, rng).

End Keys.

(** ** Key providers *)

(** What the providers read of the operating system. *)
Inductive file_read := FileData (data : string) | NotExist | ReadError (e : error).

Record os_env := OsEnv {
  getenv : string -> string;
  read_file : string -> file_read;
  join_path : string -> string -> string
}.

Module EnvVarProvider.
Record t := mk { keyEnv : string; keyFileEnv : string; cached : option string }.

Definition NewEnvVarProvider (keyEnv keyFileEnv : string) : t := mk keyEnv keyFileEnv None.

Definition cache (key : string) (p : t) : t := mk (keyEnv p) (keyFileEnv p) (Some key).

Definition or_default (s d : string) : string := if bool_decide (s = EmptyString) then d else s.

(** The second look at the cache under the write lock finds what the first one
    found, or what another caller put there in between: the same key. *)
Definition GetKey (os : os_env) (p : t) : res string * t :=
  match cached p with
  | Some key => (Ok key, p)
  | None =>
      let env := getenv os (or_default (keyEnv p) "ENCRYPTION_KEY") in
      if negb (bool_decide (env = EmptyString)) then
        match parseKey env with
        | Err e => (Err (Wrapf "failed to parse %s: %w" e), p)
        | Ok key => (Ok key, cache key p)
        end
      else
        let filePath := getenv os (or_default (keyFileEnv p) "ENCRYPTION_KEY_FILE") in
        if negb (bool_decide (filePath = EmptyString)) then
          match read_file os filePath with
          | NotExist => (Err (Errorf "failed to read key file: %w"), p)
          | ReadError e => (Err (Wrapf "failed to read key file: %w" e), p)
          | FileData data =>
              match parseKey (trim_space data) with
              | Err e => (Err (Wrapf "failed to parse key from file: %w" e), p)
              | Ok key => (Ok key, cache key p)
              end
          end
        else (Err (Errorf "neither %s nor %s is set"), p)
  end.

Definition Close (p : t) : option error * t := (None, mk (keyEnv p) (keyFileEnv p) None).
End EnvVarProvider.

Module K8sSecretProvider.
Record t := mk { dir : string; keyName : string; cached : option string; closeErr : option error }.

(** The test for the file [token] changes nothing. *)
Definition NewK8sSecretProvider (dir keyName : string) : t :=
  mk dir (EnvVarProvider.or_default keyName "encryption.key") None None.

Definition GetKey (os : os_env) (p : t) : res string * t :=
  match cached p with
  | Some key => (Ok key, p)
  | None =>
      match read_file os (join_path os (dir p) (keyName p)) with
      | NotExist => (Err (Errorf "key file not found"), p)
      | ReadError e => (Err (Wrapf "failed to read key file: %w" e), p)
      | FileData data =>
          match parseKey (trim_space data) with
          | Err e => (Err (Wrapf "failed to parse key: %w" e), p)
          | Ok key => (Ok key, mk (dir p) (keyName p) (Some key) (closeErr p))
          end
      end
  end.

Definition Close (p : t) : option error * t :=
  (closeErr p, mk (dir p) (keyName p) None (closeErr p)).
End K8sSecretProvider.

(** The interface [KEKProvider]. *)
Class KEKProvider (P : Type) := {
  GetKey : P -> res string * P;
  Close : P -> option error * P
}.

#[export] Instance env_provider (os : os_env) : KEKProvider EnvVarProvider.t :=
  {| GetKey := EnvVarProvider.GetKey os; Close := EnvVarProvider.Close |}.
#[export] Instance k8s_provider (os : os_env) : KEKProvider K8sSecretProvider.t :=
  {| GetKey := K8sSecretProvider.GetKey os; Close := K8sSecretProvider.Close |}.

(** [KeyID] of a provider: the key it holds or reads now. *)
Definition provider_KeyID `{CryptoPrims} {P} `{KEKProvider P} (p : P) : string * P :=
  match GetKey p with
  | (Err _, p) => (EmptyString, p)
  | (Ok key, p) => (KeyID key, p)
  end.

(** ** AES-GCM *)

Section Gcm.
Context `{CryptoPrims}.

Definition encryptAESGCM (key nonce plaintext : string) : res string :=
  if negb (aes_key key) then Err (Errorf "crypto/aes: invalid key size")
  else if negb (len nonce =? nonceSize) then Err (Errorf "invalid nonce size: expected %d, got %d")
  else Ok (aes_gcm_seal key nonce plaintext).

Definition decryptAESGCM (key nonce ciphertext : string) : res string :=
  if negb (aes_key key) then Err (Errorf "crypto/aes: invalid key size")
  else if negb (len nonce =? nonceSize) then Err (Errorf "invalid nonce size: expected %d, got %d")
  else match aes_gcm_open key nonce ciphertext with
       | Some plaintext => Ok plaintext
       | None => Err (Errorf "cipher: message authentication failed")
       end.

Definition AES256GCMEncrypt (key plaintext : string) (rng : nat) : res string * nat :=
  if negb (Nat.eqb (String.length key) keySize) then
    (Err (Errorf "invalid key size: expected %d, got %d"), rng)
  else
    match read_rand (Z.to_nat nonceSize) rng with
    | (None, rng) => (Err (Errorf "failed to generate nonce: %w"), rng)
    | (Some nonce, rng) => (Ok (nonce +:+ aes_gcm_seal key nonce plaintext), rng)
    end.

Definition AES256GCMDecrypt (key ciphertext : string) : option (res string) :=
  if negb (Nat.eqb (String.length key) keySize) then
    Some (Err (Errorf "invalid key size: expected %d, got %d"))
  else if len ciphertext <? gcmTagSize then Some (Err (Errorf "ciphertext too short"))
  else if len ciphertext <? nonceSize then Some (Err (Errorf "ciphertext too short for nonce"))
  else
    nonce ← slice ciphertext 0 nonceSize;
    ct ← slice ciphertext nonceSize (len ciphertext);
    Some match aes_gcm_open key nonce ct with
         | Some plaintext => Ok plaintext
         | None => Err (Errorf "cipher: message authentication failed")
         end.

(** ** The envelope *)

(** The bytes [Encrypt] returns: the length of the encrypted data key, the
    encrypted data key, the two nonces and the ciphertext. *)
Definition envelope (encryptedDEK nonceDEK noncePT ciphertext : string) : string :=
  put_uint32 (len encryptedDEK) +:+ encryptedDEK +:+ nonceDEK +:+ noncePT +:+ ciphertext.

(** What [Decrypt] and [DecryptNoClose] do between [GetKey] and their end. *)
Definition open_envelope (kek ciphertext : string) : option (res string) :=
  if len ciphertext <? 4 + nonceSize + nonceSize + gcmTagSize then
    Some (Err (Errorf "ciphertext too short"))
  else
    header ← slice ciphertext 0 4;
    let encryptedDEKLen := get_uint32 header in
    let offset := 4 in
    if len ciphertext <? offset + encryptedDEKLen + nonceSize + nonceSize + gcmTagSize then
      Some (Err (Errorf "ciphertext too short for encrypted DEK"))
    else
      encryptedDEK ← slice ciphertext offset (offset + encryptedDEKLen);
      let offset := offset + encryptedDEKLen in
      nonceDEK ← slice ciphertext offset (offset + nonceSize);
      let offset := offset + nonceSize in
      noncePT ← slice ciphertext offset (offset + nonceSize);
      let offset := offset + nonceSize in
      encryptedPlaintext ← slice ciphertext offset (len ciphertext);
      Some match decryptAESGCM kek nonceDEK encryptedDEK with
           | Err e => Err (Wrapf "failed to decrypt DEK: %w" e)
           | Ok dek =>
               match decryptAESGCM dek noncePT encryptedPlaintext with
               | Err e => Err (Wrapf "failed to decrypt plaintext: %w" e)
               | Ok plaintext => Ok plaintext
               end
           end.

End Gcm.

Module EnvelopeEncryptor.
Section EnvelopeEncryptor.
Context `{CryptoPrims} {P : Type} `{KEKProvider P}.

Definition Encrypt (plaintext : string) (p : P) (rng : nat) : res string * P * nat :=
  match GetKey p with
  | (Err e, p) => (Err e, p, rng)
  | (Ok kek, p) =>
      let kek := deriveKey kek in
      match read_rand keySize rng with
      | (None, rng) => (Err (Errorf "failed to generate DEK: %w"), p, rng)
      | (Some dek, rng) =>
          match read_rand (Z.to_nat nonceSize) rng with
          | (None, rng) => (Err (Errorf "failed to generate nonce: %w"), p, rng)
          | (Some nonceDEK, rng) =>
              match read_rand (Z.to_nat nonceSize) rng with
              | (None, rng) => (Err (Errorf "failed to generate nonce: %w"), p, rng)
              | (Some noncePT, rng) =>
                  (match encryptAESGCM dek noncePT plaintext with
                   | Err e => Err (Wrapf "failed to encrypt plaintext: %w" e)
                   | Ok ciphertext =>
                       match encryptAESGCM kek nonceDEK dek with
                       | Err e => Err (Wrapf "failed to encrypt DEK: %w" e)
                       | Ok encryptedDEK => Ok (envelope encryptedDEK nonceDEK noncePT ciphertext)
                       end
                   end, p, rng)
              end
          end
      end
  end.

Definition DecryptNoClose (ciphertext : string) (p : P) : option (res string) * P :=
  match GetKey p with
  | (Err e, p) => (Some (Err e), p)
  | (Ok kek, p) => (open_envelope (deriveKey kek) ciphertext, p)
  end.

(** The provider is closed before the result is looked at. *)
Definition Decrypt (ciphertext : string) (p : P) : option (res string) * P :=
  match GetKey p with
  | (Err e, p) => (Some (Err e), p)
  | (Ok kek, p) =>
      match open_envelope (deriveKey kek) ciphertext with
      | None => (None, p)
      | Some r =>
          match Close p with
          | (Some closeErr, p) => (Some (Err closeErr), p)
          | (None, p) => (Some r, p)
          end
      end
  end.

End EnvelopeEncryptor.
End EnvelopeEncryptor.

(** ** Keys derived from passwords *)

Section UserKeys.
Context `{CryptoPrims}.

Definition PBKDF2Iterations : Z := 100000.
Definition DerivedKeySize : nat := 32.
Definition SaltSize : nat := 32.

Definition GenerateSalt (rng : nat) : res string * nat :=
  let '(salt, rng) := read_rand SaltSize rng in
  (match salt with Some salt => Ok (b64_encode true salt) | None => Err (Errorf "rand") end, rng).

Definition DeriveUserDEK (password saltBase64 : string) : res string :=
  match b64_decode saltBase64 with
  | None => Err (Errorf "illegal base64 data at input byte %d")
  | Some salt => Ok (pbkdf2_sha256 password salt PBKDF2Iterations DerivedKeySize)
  end.

End UserKeys.

(** ** The key store, and what it promises to the stores that use it *)

Class SecretBox (KS : Type) := {
  EncryptSecret : string -> KS -> nat -> res string * KS * nat;
  DecryptSecret : string -> KS -> option (res string) * KS
}.

(** While the box is ready it opens what it sealed, and it never panics. *)
Class SecretBoxLaws (KS : Type) `{CryptoPrims} `{SecretBox KS} := {
  box_ready : KS -> Prop;
  box_total c ks : (DecryptSecret c ks).1 <> None;
  box_stable c ks : box_ready ks -> (DecryptSecret c ks).2 = ks;
  box_opens p ks rng c ks' rng' :
    box_ready ks -> EncryptSecret p ks rng = (Ok c, ks', rng') ->
    DecryptSecret c ks = (Some (Ok p), ks);
  box_sealed p ks rng : box_ready ks -> (EncryptSecret p ks rng).1.2 = ks;
  box_seals p ks rng :
    box_ready ks -> (forall i n, is_Some (entropy i n)) ->
    is_ok (EncryptSecret p ks rng).1.1 = true;
  box_nonempty p ks rng c ks' rng' : EncryptSecret p ks rng = (Ok c, ks', rng') -> c <> EmptyString
}.

Module KeyStore.
Record t (P : Type) := NewKeyStore { provider : P }.
Arguments NewKeyStore {P} _.
Arguments provider {P} _.

Section KeyStore.
Context `{CryptoPrims} {P : Type} `{KEKProvider P}.

Definition EncryptSecret (plaintext : string) (ks : t P) (rng : nat) : res string * t P * nat :=
  let '(r, p, rng) := EnvelopeEncryptor.Encrypt plaintext (provider ks) rng in
  (r, NewKeyStore p, rng).

Definition DecryptSecret (encrypted : string) (ks : t P) : option (res string) * t P :=
  let '(r, p) := EnvelopeEncryptor.DecryptNoClose encrypted (provider ks) in (r, NewKeyStore p).

(** The user is not used. *)
Definition DecryptSecretForUser (encrypted userID : string) (ks : t P) :
    option (res string) * t P :=
  let '(r, p) := EnvelopeEncryptor.Decrypt encrypted (provider ks) in (r, NewKeyStore p).

Definition SetEncryptor (p : P) (ks : t P) : t P := NewKeyStore p.

#[export] Instance key_store_box : SecretBox (t P) :=
  {| Crypto.EncryptSecret := EncryptSecret; Crypto.DecryptSecret := DecryptSecret |}.
End KeyStore.
End KeyStore.
#[export] Existing Instance KeyStore.key_store_box.

(** * Properties *)

Lemma len_nonneg s : 0 <= len s.
Proof. unfold len. lia. Qed.

Lemma len_app a b : len (a +:+ b) = len a + len b.
Proof. unfold len. rewrite str_length_app. lia. Qed.

Lemma put_uint32_len v : len (put_uint32 v) = 4.
Proof. reflexivity. Qed.

Lemma str_drop_length n s : String.length (str_drop n s) = (String.length s - n)%nat.
Proof. revert s. induction n as [|n IH]; intros [|c s]; simpl; auto with lia. Qed.

(** A slice within the bounds does not panic and has its length. *)
Lemma slice_Some s i j :
  0 <= i <= j -> j <= len s -> exists r, slice s i j = Some r.
Proof.
  intros Hij Hj. unfold slice.
  replace (0 <=? i) with true by (symmetry; apply Z.leb_le; lia).
  replace (i <=? j) with true by (symmetry; apply Z.leb_le; lia).
  replace (j <=? len s) with true by (symmetry; apply Z.leb_le; lia). eauto.
Qed.

Lemma str_take_app_exact a b n : n = String.length a -> str_take n (a +:+ b) = a.
Proof. intros ->. apply str_take_app. Qed.
Lemma str_drop_app_exact a b n : n = String.length a -> str_drop n (a +:+ b) = b.
Proof. intros ->. apply str_drop_app. Qed.

Lemma slice_app a b c i j :
  i = len a -> j = len a + len b -> slice (a +:+ b +:+ c) i j = Some b.
Proof.
  intros -> ->. destruct (slice_Some (a +:+ b +:+ c) (len a) (len a + len b)) as [r Hr].
  - pose proof (len_nonneg a). pose proof (len_nonneg b). lia.
  - rewrite !len_app. pose proof (len_nonneg c). lia.
  - rewrite Hr. unfold slice in Hr. case_if; [|done]. injection Hr as <-. f_equal.
    rewrite str_drop_app_exact by (unfold len; lia). apply str_take_app_exact. unfold len. lia.
Qed.

Lemma slice_app_end a b i j :
  i = len a -> j = len (a +:+ b) -> slice (a +:+ b) i j = Some b.
Proof.
  intros Hi Hj. rewrite <- (str_app_nil_r b) at 1. apply slice_app; [done|].
  rewrite Hj, len_app. done.
Qed.

Section CryptoFacts.
Context `{CryptoLaws}.

(** No input makes the decryption panic: every slice is within the bounds. *)
Lemma open_envelope_total kek c : open_envelope kek c <> None.
Proof.
  unfold open_envelope, nonceSize, gcmTagSize. case_if; [done|].
  destruct (slice_Some c 0 4) as [hd ->]; [lia..|]. simpl.
  pose proof (get_uint32_range hd). set (n := get_uint32 hd) in *. case_if; [done|].
  destruct (slice_Some c 4 (4 + n)) as [? ->]; [lia..|]. simpl.
  destruct (slice_Some c (4 + n) (4 + n + 12)) as [? ->]; [lia..|]. simpl.
  destruct (slice_Some c (4 + n + 12) (4 + n + 12 + 12)) as [? ->]; [lia..|]. simpl.
  destruct (slice_Some c (4 + n + 12 + 12) (len c)) as [? ->]; [lia..|]. done.
Qed.

Lemma AES256GCMDecrypt_total key c : AES256GCMDecrypt key c <> None.
Proof.
  unfold AES256GCMDecrypt, nonceSize, gcmTagSize. repeat case_if; try done.
  destruct (slice_Some c 0 12) as [? ->]; [lia..|].
  destruct (slice_Some c 12 (len c)) as [? ->]; [lia..|]. done.
Qed.

Lemma aes_key_32 key : String.length key = 32%nat -> aes_key key = true.
Proof. intros Hk. unfold aes_key. rewrite Hk. done. Qed.

Lemma deriveKey_length key : String.length (deriveKey key) = 32%nat.
Proof.
  unfold deriveKey. destruct (Nat.eqb_spec (String.length key) keySize) as [Hk|_]; [done|].
  destruct (hkdf_sha256 _ _ _) as [out|] eqn:Hh; [by apply hkdf_length in Hh|].
  pose proof (sha256_length key) as Hl. rewrite <- (str_app_nil_r (sha256 key)).
  rewrite <- (str_app_nil_r (str_take _ _)), str_take_app_exact by done.
  by rewrite str_app_nil_r.
Qed.

Lemma encryptAESGCM_Ok key nonce pt :
  String.length key = 32%nat -> String.length nonce = 12%nat ->
  encryptAESGCM key nonce pt = Ok (aes_gcm_seal key nonce pt).
Proof.
  intros Hk Hn. unfold encryptAESGCM. rewrite aes_key_32 by done.
  unfold len. rewrite Hn. done.
Qed.

Lemma decryptAESGCM_Ok key nonce pt :
  String.length key = 32%nat -> String.length nonce = 12%nat ->
  decryptAESGCM key nonce (aes_gcm_seal key nonce pt) = Ok pt.
Proof.
  intros Hk Hn. unfold decryptAESGCM. rewrite aes_key_32 by done.
  unfold len. rewrite Hn, gcm_open_seal by (done || by apply aes_key_32). done.
Qed.

(** What [Encrypt] lays out is what [Decrypt] takes apart. *)
Lemma open_envelope_spec kek dek nonceDEK noncePT pt :
  String.length kek = 32%nat -> String.length dek = 32%nat ->
  String.length nonceDEK = 12%nat -> String.length noncePT = 12%nat ->
  open_envelope kek (envelope (aes_gcm_seal kek nonceDEK dek) nonceDEK noncePT
                       (aes_gcm_seal dek noncePT pt)) = Some (Ok pt).
Proof.
  intros Hk Hd Hn1 Hn2.
  assert (Hl : len (aes_gcm_seal kek nonceDEK dek) = 48)
    by (unfold len; rewrite gcm_seal_length; lia).
  assert (Hl' : 16 <= len (aes_gcm_seal dek noncePT pt))
    by (unfold len; rewrite gcm_seal_length; lia).
  unfold open_envelope, envelope, nonceSize, gcmTagSize. cbv zeta.
  rewrite !len_app, put_uint32_len, Hl.
  assert (Hn1' : len nonceDEK = 12) by (unfold len; lia).
  assert (Hn2' : len noncePT = 12) by (unfold len; lia).
  rewrite Hn1', Hn2'.
  replace (_ <? _) with false by (symmetry; apply Z.ltb_ge; lia).
  assert (Hh : len (put_uint32 48) = 4) by done.
  assert (Hg : get_uint32 (put_uint32 48) = 48) by done.
  set (hd := put_uint32 48) in *. clearbody hd.
  set (edek := aes_gcm_seal kek nonceDEK dek) in *.
  set (ct := aes_gcm_seal dek noncePT pt) in *.
  rewrite <- (str_app_nil_r hd) at 1.
  change (slice (?a +:+ ?b) 0 4) with (slice (EmptyString +:+ a +:+ b) 0 4).
  rewrite str_app_nil_r, (slice_app EmptyString) by done. cbn [mbind option_bind]. rewrite Hg.
  replace (_ <? _) with false by (symmetry; apply Z.ltb_ge; lia).
  rewrite (slice_app hd edek _ 4 (4 + 48)) by lia. cbn [mbind option_bind].
  rewrite (str_app_assoc hd), (slice_app (hd +:+ edek) nonceDEK _ (4 + 48) (4 + 48 + 12))
    by (rewrite len_app; lia).
  cbn [mbind option_bind].
  rewrite (str_app_assoc (hd +:+ edek)), (slice_app ((hd +:+ edek) +:+ nonceDEK) noncePT _
    (4 + 48 + 12) (4 + 48 + 12 + 12))
    by (rewrite !len_app; lia).
  cbn [mbind option_bind].
  rewrite (str_app_assoc ((hd +:+ edek) +:+ nonceDEK)), slice_app_end by (rewrite !len_app; lia).
  cbn [mbind option_bind]. unfold edek, ct.
  by rewrite !decryptAESGCM_Ok.
Qed.

Lemma Encrypt_opens {P} `{KEKProvider P} pt (p p0 p' : P) rng c rng' kek :
  GetKey p = (Ok kek, p0) ->
  EnvelopeEncryptor.Encrypt pt p rng = (Ok c, p', rng') ->
  open_envelope (deriveKey kek) c = Some (Ok pt).
Proof.
  intros Hg He. unfold EnvelopeEncryptor.Encrypt in He. rewrite Hg in He.
  unfold read_rand in He.
  destruct (entropy rng keySize) as [dek|] eqn:Hd; [|done].
  destruct (entropy (S rng) _) as [n1|] eqn:Hn1; [|done].
  destruct (entropy (S (S rng)) _) as [n2|] eqn:Hn2; [|done].
  apply entropy_length in Hd, Hn1, Hn2. pose proof (deriveKey_length kek).
  rewrite !encryptAESGCM_Ok in He by done. injection He as <- _ _.
  by apply open_envelope_spec.
Qed.

#[export] Instance key_store_laws {P} `{KEKProvider P} : SecretBoxLaws (KeyStore.t P).
Proof.
  refine {| box_ready ks := exists kek, GetKey (KeyStore.provider ks) = (Ok kek, KeyStore.provider ks) |}.
  - intros c [p]. simpl. unfold KeyStore.DecryptSecret, EnvelopeEncryptor.DecryptNoClose. simpl.
    destruct (GetKey p) as [[kek|e] p']; simpl; [apply open_envelope_total | done].
  - intros c [p] [kek Hk]. simpl in *.
    unfold KeyStore.DecryptSecret, EnvelopeEncryptor.DecryptNoClose. simpl. by rewrite Hk.
  - intros pt [p] rng c ks' rng' [kek Hk] He. simpl in *.
    unfold KeyStore.EncryptSecret in He. simpl in He.
    destruct (EnvelopeEncryptor.Encrypt pt p rng) as [[r p'] rng''] eqn:E. simplify_eq.
    unfold KeyStore.DecryptSecret, EnvelopeEncryptor.DecryptNoClose. simpl. rewrite Hk.
    by rewrite (Encrypt_opens _ _ _ _ _ _ _ _ Hk E).
  - intros pt [p] rng [kek Hk]. simpl in *. unfold KeyStore.EncryptSecret, EnvelopeEncryptor.Encrypt.
    simpl. rewrite Hk. unfold read_rand. by repeat case_match; simplify_eq.
  - intros pt [p] rng [kek Hk] Hent. simpl in *.
    unfold KeyStore.EncryptSecret, EnvelopeEncryptor.Encrypt. simpl. rewrite Hk. unfold read_rand.
    destruct (Hent rng keySize) as [dek Hd]. destruct (Hent (S rng) (Z.to_nat nonceSize)) as [n1 Hn1].
    destruct (Hent (S (S rng)) (Z.to_nat nonceSize)) as [n2 Hn2]. rewrite Hd, Hn1, Hn2.
    apply entropy_length in Hd, Hn1, Hn2. pose proof (deriveKey_length kek).
    by rewrite !encryptAESGCM_Ok.
  - intros pt [p] rng c ks' rng' He. simpl in He.
    unfold KeyStore.EncryptSecret, EnvelopeEncryptor.Encrypt in He. simpl in He.
    by repeat case_match; simplify_eq.
Defined.

(** The dual-key layer: what a user key sealed, it opens. *)
Lemma AES256GCM_opens key pt rng c rng' :
  AES256GCMEncrypt key pt rng = (Ok c, rng') -> AES256GCMDecrypt key c = Some (Ok pt).
Proof.
  unfold AES256GCMEncrypt, AES256GCMDecrypt, read_rand. case_if; [done|].
  apply Nat.eqb_eq in Hif. destruct (entropy rng _) as [nonce|] eqn:Hn; [|done].
  intros [= <- _]. apply entropy_length in Hn. change (Z.to_nat nonceSize) with 12%nat in Hn.
  assert (Hl : len (nonce +:+ aes_gcm_seal key nonce pt) = len pt + 28)
    by (rewrite len_app; unfold len; rewrite gcm_seal_length; lia).
  rewrite Hl. pose proof (len_nonneg pt). unfold nonceSize, gcmTagSize.
  replace (_ <? _) with false by (symmetry; apply Z.ltb_ge; lia).
  replace (_ <? _) with false by (symmetry; apply Z.ltb_ge; lia).
  change (slice (nonce +:+ ?b) 0 12) with (slice (EmptyString +:+ nonce +:+ b) 0 12).
  rewrite slice_app by (unfold len; simpl; lia). cbn [mbind option_bind].
  rewrite slice_app_end by (unfold len in *; lia). cbn [mbind option_bind].
  by rewrite gcm_open_seal by (done || by apply aes_key_32).
Qed.

(** A salt is what [DeriveUserDEK] takes, and the key has 32 bytes. *)
Lemma GenerateSalt_derives password rng salt rng' :
  GenerateSalt rng = (Ok salt, rng') ->
  exists dek, DeriveUserDEK password salt = Ok dek /\ String.length dek = 32%nat.
Proof.
  unfold GenerateSalt, read_rand, DeriveUserDEK. destruct (entropy rng _) as [s|]; [|done].
  intros [= <- _]. rewrite b64_decode_encode. eexists. split; [done|]. apply pbkdf2_length.
Qed.

End CryptoFacts.

(** A concrete instance of the primitives, which satisfies the laws: the tag of
    a sealed text is the first half of the key. *)
Module Toy.
Definition pad (n : nat) : string := Nat.iter n (String "p") EmptyString.
Definition tag (key : string) : string := str_take 16 (key +:+ pad 16).

#[export] Instance prims : CryptoPrims := {|
  aes_gcm_seal key nonce pt := pt +:+ tag key;
  aes_gcm_open key nonce ct :=
    if has_suffix ct (tag key) then Some (str_take (String.length ct - 16) ct) else None;
  sha256 s := pad 32;
  hkdf_sha256 key info n := Some (pad n);
  pbkdf2_sha256 pw salt iter n := str_take n (pw +:+ pad n);
  entropy i n := Some (Nat.iter n (String (ascii_of_nat i)) EmptyString)
|}.

Lemma iter_length c n : String.length (Nat.iter n (String c) EmptyString) = n.
Proof. induction n; simpl; auto. Qed.

Lemma take_pad_length n s : String.length (str_take n (s +:+ pad n)) = n.
Proof.
  assert (H : forall n s, (n <= String.length s)%nat -> String.length (str_take n s) = n).
  { clear. intros n. induction n as [|n IH]; intros [|c s]; simpl; intros; auto; [lia|].
    by rewrite IH by lia. }
  apply H. rewrite str_length_app. unfold pad. rewrite iter_length. lia.
Qed.

#[export] Instance laws : CryptoLaws.
Proof.
  split; simpl.
  - intros key nonce pt _ _. rewrite has_suffix_app, str_length_app. unfold tag at 1.
    rewrite take_pad_length. by rewrite str_take_app_exact by lia.
  - intros. rewrite str_length_app. unfold tag. by rewrite take_pad_length.
  - intros key info n out [= <-]. apply iter_length.
  - done.
  - intros. apply take_pad_length.
  - intros i n bs [= <-]. apply iter_length.
Qed.
End Toy.

Section CryptoTheorems.
Context `{CryptoLaws}.

(** A secret outlives the environment it was encrypted in.  What the
    encryptor sealed with the key of its environment it opens again, whatever
    becomes of the variables and the key file afterwards: the provider keeps the
    key it read. *)
Theorem cached_key_outlives_environment os1 os2 p plaintext rng c p' rng' :
  EnvelopeEncryptor.Encrypt (H0 := env_provider os1) plaintext p rng = (Ok c, p', rng') ->
  EnvelopeEncryptor.DecryptNoClose (H0 := env_provider os2) c p' = (Some (Ok plaintext), p').
Proof.
  intros He.
  assert (exists kek, EnvVarProvider.GetKey os1 p = (Ok kek, p') /\
  EnvVarProvider.cached p' = Some kek) as (kek & Hg & Hc).
  { unfold EnvelopeEncryptor.Encrypt in He. cbn [GetKey env_provider] in He.
    unfold EnvVarProvider.GetKey in *. repeat case_match; simplify_eq; eauto. }
  assert (Hg2 : EnvVarProvider.GetKey os2 p' = (Ok kek, p'))
    by (unfold EnvVarProvider.GetKey; by rewrite Hc).
  unfold EnvelopeEncryptor.DecryptNoClose. cbn [GetKey env_provider]. rewrite Hg2. f_equal.
  exact (Encrypt_opens (H1 := env_provider os1) plaintext p p' p' rng c rng' kek Hg He).
Qed.

(** Decryption is total: no byte string, however short or whatever length
    it claims for its data key, makes a slice expression panic, in the envelope
    (with and without closing the provider) and in the layer of the user keys. *)
Theorem decryption_never_panics {P} `{KEKProvider P} (p : P) key bytes :
  (EnvelopeEncryptor.DecryptNoClose bytes p).1 <> None /\
  (EnvelopeEncryptor.Decrypt bytes p).1 <> None /\ AES256GCMDecrypt key bytes <> None.
Proof.
  unfold EnvelopeEncryptor.DecryptNoClose, EnvelopeEncryptor.Decrypt.
  split_and!; [| |apply AES256GCMDecrypt_total].
  - destruct (GetKey p) as [[kek|e] p']; simpl; [apply open_envelope_total | done].
  - destruct (GetKey p) as [[kek|e] p']; simpl; [|done].
    destruct (open_envelope (deriveKey kek) bytes) as [r|] eqn:Ho;
      [|by apply open_envelope_total in Ho].
    by destruct (Close p') as [[e|] p''].
Qed.

Lemma hex_encode_bytes s : str_forallb hex_byte (hex_encode s) = true.
Proof.
  induction s as [|c s IH]; [done|]. cbn [hex_encode str_forallb]. unfold hex_byte at 1 2.
  rewrite !hex_val_lower by byte_lia. by rewrite IH.
Qed.

Lemma trim_hex s : str_forallb hex_byte s = true -> trim_space s = s.
Proof. intros Hs. apply (trim_space_id hex_byte s Hs). by vm_compute. Qed.

(** A key in hexadecimal, with spaces around it trimmed, is read back as
    its bytes exactly when it has 16 or 32 of them; any other hexadecimal text
    is refused and never taken for base64 or raw bytes. *)
Theorem hex_key_roundtrip key :
  (1 <= String.length key)%nat ->
  (String.length key ∈ [16; 32]%nat -> parseKey (hex_encode key) = Ok key) /\
  (String.length key ∉ [16; 32]%nat -> is_ok (parseKey (hex_encode key)) = false).
Proof.
  intros Hl. unfold parseKey. rewrite (trim_hex _ (hex_encode_bytes key)).
  assert (isHex (hex_encode key) = true) as ->.
  { unfold isHex. rewrite (hex_encode_bytes key), hex_encode_length, andb_true_r.
    apply Nat.leb_le. lia. }
  rewrite hex_encode_length, hex_decode_encode.
  assert ((2 * String.length key)%nat ∈ [32; 64]%nat <-> String.length key ∈ [16; 32]%nat) as Hiff
    by (rewrite !list_elem_of_In; simpl; lia).
  split; intros Hin.
  - by rewrite bool_decide_eq_true_2 by by apply Hiff.
  - rewrite bool_decide_eq_false_2; [done|]. by rewrite Hiff.
Qed.

End CryptoTheorems.

Definition demo_os : os_env :=
  OsEnv (fun k => if bool_decide (k = "ENCRYPTION_KEY") then "00112233445566778899aabbccddeeff"
                  else EmptyString) (fun _ => NotExist) (fun a b => a +:+ "/" +:+ b).
Definition bare_os : os_env :=
  OsEnv (fun _ => EmptyString) (fun _ => NotExist) (fun a b => a +:+ "/" +:+ b).

#[local] Existing Instances Toy.prims Toy.laws.

Lemma cached_key_outlives_environment_witness :
  exists c p', EnvelopeEncryptor.DecryptNoClose (H0 := env_provider bare_os) c p' =
    (Some (Ok "token"), p').
Proof.
  destruct (EnvelopeEncryptor.Encrypt (H0 := env_provider demo_os) "token"
    (EnvVarProvider.NewEnvVarProvider EmptyString EmptyString) 65) as [[[c|e] p'] rng'] eqn:He;
    [|by vm_compute in He].
  exists c, p'. apply (cached_key_outlives_environment demo_os bare_os _ _ _ _ _ _ He).
Defined.

Lemma hex_key_roundtrip_witness :
  parseKey (hex_encode "0123456789abcdef") = Ok "0123456789abcdef" /\
  is_ok (parseKey (hex_encode "0123456789")) = false.
Proof.
  split.
  - apply (hex_key_roundtrip "0123456789abcdef"); [simpl; lia|]. by apply (bool_decide_unpack _).
  - apply (hex_key_roundtrip "0123456789"); [simpl; lia|]. by apply (bool_decide_unpack _).
Defined.
