(* ===== verification/Accounts.v ===== *)
(** * Accounts: [src/store/user.go], [oauth.go], [apikey.go], [invite.go], [twofa.go]

    The tables of users, their service tokens and second factors, web sessions,
    OAuth clients, codes and sessions, API keys and invitations.  A statement
    can fail ([Sql]); random bytes are drawn in sequence from [entropy]; the key
    store is any [SecretBox].  Operations that set fields of the record they are
    given return the record. *)
From S2P Require Import Prelude GoStrings Sql Crypto.
Open Scope Z_scope.

(** bcrypt: [bcrypt_generate i password] is the hash with the [i]-th random
    salt; it refuses passwords of more than 72 bytes. *)
Class Bcrypt := {
  bcrypt_generate : nat -> string -> option string;
  bcrypt_compare : string -> string -> bool
}.

(** ** Rows *)

Module UserRow.
Record t := mk {
  ID : string;
  Name : string;
  Email : string;
  Password : string;
  PasswordSalt : string;
  Role : string;
  CreatedAt : Time
}.
Definition with_ID i u := mk i (Name u) (Email u) (Password u) (PasswordSalt u) (Role u) (CreatedAt u).
Definition with_Password p u :=
  mk (ID u) (Name u) (Email u) p (PasswordSalt u) (Role u) (CreatedAt u).
Definition with_PasswordSalt s u :=
  mk (ID u) (Name u) (Email u) (Password u) s (Role u) (CreatedAt u).
Definition with_Role r u := mk (ID u) (Name u) (Email u) (Password u) (PasswordSalt u) r (CreatedAt u).
Definition with_CreatedAt c u :=
  mk (ID u) (Name u) (Email u) (Password u) (PasswordSalt u) (Role u) c.
End UserRow.

(** NULL in one of the last three columns reads as its default. *)
Module UserToken.
Record t := mk {
  UserID : string;
  BackendID : string;
  EnvKey : string;
  Value : string;
  Encrypted : string;
  EncryptedDEK : string;
  EncryptionType : string
}.
End UserToken.

Module TwoFARow.
Record t := mk { method : string; secret : string; enabled : bool }.
End TwoFARow.

Module WebSession.
Record t := mk { Token : string; UserID : string; ExpiresAt : Time; CreatedAt : Time }.
End WebSession.

Module OAuthClient.
Record t := mk {
  ClientID : string; ClientSecret : string; RedirectURIs : string; ClientName : string;
  CreatedAt : Time }.
End OAuthClient.

Module OAuthCode.
Record t := mk {
  Code : string; UserID : string; ClientID : string; RedirectURI : string;
  CodeChallenge : string; Scope : string; ExpiresAt : Time }.
End OAuthCode.

Module OAuthSession.
Record t := mk {
  AccessToken : string; RefreshToken : string; UserID : string; ClientID : string;
  Scope : string; ExpiresAt : Time; CreatedAt : Time }.
End OAuthSession.

Module APIKey.
Record t := mk {
  ID : string; UserID : string; Name : string; KeyHash : string;
  ExpiresAt : option Time; LastUsedAt : option Time; CreatedAt : Time }.
End APIKey.

Module Invite.
Record t := mk {
  ID : string; Email : string; Name : string; Role : string; TokenHash : string;
  Status : string; InvitedBy : string; TokenExpiresAt : Time;
  AcceptedAt : option Time; AcceptedUserID : string; CreatedAt : Time }.
Definition with_Status st i :=
  mk (ID i) (Email i) (Name i) (Role i) (TokenHash i) st (InvitedBy i) (TokenExpiresAt i)
     (AcceptedAt i) (AcceptedUserID i) (CreatedAt i).
Definition accepted (at_ : Time) (who : string) i :=
  mk (ID i) (Email i) (Name i) (Role i) (TokenHash i) "accepted" (InvitedBy i) (TokenExpiresAt i)
     (Some at_) who (CreatedAt i).
End Invite.

(** ** The store *)

Module Accounts.
Record t (KS : Type) := mk {
  users : gmap string UserRow.t;
  user_tokens : gmap (string * string * string) UserToken.t;
  user_2fa : gmap string TwoFARow.t;
  web_sessions : gmap string WebSession.t;
  oauth_clients : gmap string OAuthClient.t;
  oauth_codes : gmap string OAuthCode.t;
  oauth_sessions : gmap string OAuthSession.t;
  api_keys : list APIKey.t;            (* in the order of insertion *)
  invitations : gmap string Invite.t;
  backend_ids : gset string;           (* of the backends, for the foreign keys *)
  keyStore : option KS;
  rng : nat;                           (* the next read of the random source *)
  faults : list bool
}.
Arguments mk {KS}. Arguments users {KS}. Arguments user_tokens {KS}. Arguments user_2fa {KS}.
Arguments web_sessions {KS}. Arguments oauth_clients {KS}. Arguments oauth_codes {KS}.
Arguments oauth_sessions {KS}. Arguments api_keys {KS}. Arguments invitations {KS}.
Arguments backend_ids {KS}. Arguments keyStore {KS}. Arguments rng {KS}. Arguments faults {KS}.

Section Accounts.
Context {KS : Type}.

Definition set_users f (d : t KS) : t KS := mk (f (users d)) (user_tokens d) (user_2fa d)
  (web_sessions d) (oauth_clients d) (oauth_codes d) (oauth_sessions d) (api_keys d)
  (invitations d) (backend_ids d) (keyStore d) (rng d) (faults d).
Definition set_user_tokens f (d : t KS) : t KS := mk (users d) (f (user_tokens d)) (user_2fa d)
  (web_sessions d) (oauth_clients d) (oauth_codes d) (oauth_sessions d) (api_keys d)
  (invitations d) (backend_ids d) (keyStore d) (rng d) (faults d).
Definition set_user_2fa f (d : t KS) : t KS := mk (users d) (user_tokens d) (f (user_2fa d))
  (web_sessions d) (oauth_clients d) (oauth_codes d) (oauth_sessions d) (api_keys d)
  (invitations d) (backend_ids d) (keyStore d) (rng d) (faults d).
Definition set_web_sessions f (d : t KS) : t KS := mk (users d) (user_tokens d) (user_2fa d)
  (f (web_sessions d)) (oauth_clients d) (oauth_codes d) (oauth_sessions d) (api_keys d)
  (invitations d) (backend_ids d) (keyStore d) (rng d) (faults d).
Definition set_oauth_clients f (d : t KS) : t KS := mk (users d) (user_tokens d) (user_2fa d)
  (web_sessions d) (f (oauth_clients d)) (oauth_codes d) (oauth_sessions d) (api_keys d)
  (invitations d) (backend_ids d) (keyStore d) (rng d) (faults d).
Definition set_oauth_codes f (d : t KS) : t KS := mk (users d) (user_tokens d) (user_2fa d)
  (web_sessions d) (oauth_clients d) (f (oauth_codes d)) (oauth_sessions d) (api_keys d)
  (invitations d) (backend_ids d) (keyStore d) (rng d) (faults d).
Definition set_oauth_sessions f (d : t KS) : t KS := mk (users d) (user_tokens d) (user_2fa d)
  (web_sessions d) (oauth_clients d) (oauth_codes d) (f (oauth_sessions d)) (api_keys d)
  (invitations d) (backend_ids d) (keyStore d) (rng d) (faults d).
Definition set_api_keys f (d : t KS) : t KS := mk (users d) (user_tokens d) (user_2fa d)
  (web_sessions d) (oauth_clients d) (oauth_codes d) (oauth_sessions d) (f (api_keys d))
  (invitations d) (backend_ids d) (keyStore d) (rng d) (faults d).
Definition set_invitations f (d : t KS) : t KS := mk (users d) (user_tokens d) (user_2fa d)
  (web_sessions d) (oauth_clients d) (oauth_codes d) (oauth_sessions d) (api_keys d)
  (f (invitations d)) (backend_ids d) (keyStore d) (rng d) (faults d).
Definition set_box (ks : option KS) (n : nat) (d : t KS) : t KS := mk (users d) (user_tokens d)
  (user_2fa d) (web_sessions d) (oauth_clients d) (oauth_codes d) (oauth_sessions d) (api_keys d)
  (invitations d) (backend_ids d) ks n (faults d).
Definition set_rng (n : nat) (d : t KS) : t KS := set_box (keyStore d) n d.
Definition set_faults (fs : list bool) (d : t KS) : t KS := mk (users d) (user_tokens d)
  (user_2fa d) (web_sessions d) (oauth_clients d) (oauth_codes d) (oauth_sessions d) (api_keys d)
  (invitations d) (backend_ids d) (keyStore d) (rng d) fs.

#[export] Instance accounts_database : Database (t KS) :=
  {| db_faults := faults; db_set_faults := set_faults |}.

End Accounts.
End Accounts.
#[export] Existing Instance Accounts.accounts_database.

(** ** Helpers *)

Section Store.
Context {KS : Type} `{SecretBox KS} `{CryptoPrims} `{Bcrypt}.
Import Accounts.
Implicit Types d : Accounts.t KS.

(** [hex.EncodeToString] of 16 random bytes; the bytes stay zero when the
    source fails. *)
Definition generateID d : string * Accounts.t KS :=
  let '(bs, n) := read_rand 16 (rng d) in
  (hex_encode (default (Nat.iter 16 (String "000"%char) EmptyString) bs), set_rng n d).

(** The id a row is created with. *)
Definition id_or_new (id : string) d : string * Accounts.t KS :=
  if bool_decide (id = EmptyString) then generateID d else (id, d).

(** ** Passwords *)

Definition IsBcrypt (s : string) : bool :=
  (4 <? len s) &&
  bool_decide (str_take 4 s ∈ ["$2a$"; "$2b$"; "$2y$"]).

Definition HashPassword (plain : string) d : res string * Accounts.t KS :=
  (match bcrypt_generate (rng d) plain with
   | Some hash => Ok hash
   | None => Err (Errorf "bcrypt: password length exceeds 72 bytes")
   end, set_rng (S (rng d)) d).

(** [true]: the error is nil. *)
Definition CheckPassword (stored plain : string) : bool :=
  if IsBcrypt stored then bcrypt_compare stored plain else bool_decide (stored = plain).

(** The password of a user about to be stored. *)
Definition hashed (u : UserRow.t) d : res UserRow.t * Accounts.t KS :=
  if negb (IsBcrypt (UserRow.Password u)) && negb (bool_decide (UserRow.Password u = EmptyString))
  then match HashPassword (UserRow.Password u) d with
       | (Ok hash, d) => (Ok (UserRow.with_Password hash u), d)
       | (Err e, d) => (Err e, d)
       end
  else (Ok u, d).

(** ** Users *)

(** The constraints on a user row: unique id, unique email. *)
Definition email_taken (but : string) (email : string) d : bool :=
  bool_decide (Exists (fun u => UserRow.Email u = email /\ UserRow.ID u <> but) (rows (users d))).

Definition CreateUser (u : UserRow.t) (now : Time) d : res unit * UserRow.t * Accounts.t KS :=
  let '(id, d) := id_or_new (UserRow.ID u) d in
  let u := UserRow.with_ID id u in
  let u := if bool_decide (UserRow.Role u = EmptyString) then UserRow.with_Role "user" u else u in
  match hashed u d with
  | (Err e, d) => (Err e, u, d)
  | (Ok u, d) =>
      let '(salt, d) :=
        if bool_decide (UserRow.PasswordSalt u = EmptyString)
        then let '(salt, n) := GenerateSalt (rng d) in (salt, set_rng n d)
        else (Ok (UserRow.PasswordSalt u), d) in
      match salt with
      | Err e => (Err e, u, d)
      | Ok salt =>
          let u := UserRow.with_PasswordSalt salt u in
          let '(r, d) := sql_checked
            (fun d => bool_decide (users d !! UserRow.ID u = None) &&
                      negb (email_taken EmptyString (UserRow.Email u) d))
            (set_users (<[UserRow.ID u := UserRow.with_CreatedAt now u]>)) d in
          (r, u, d)
      end
  end.

Definition GetUser (id : string) : Accounts.t KS -> res UserRow.t * Accounts.t KS :=
  sql_row (fun d => users d !! id).

Definition user_by_email (email : string) d : option UserRow.t :=
  snd <$> list_find (fun u => UserRow.Email u = email) (rows (users d)).

Definition GetUserByEmail (email : string) : Accounts.t KS -> res UserRow.t * Accounts.t KS :=
  sql_row (user_by_email email).

(** ORDER BY created_at ASC LIMIT 1; only these columns are read. *)
Definition FirstAdminUser d : option UserRow.t * Accounts.t KS :=
  let '(r, d) := sql_row (fun d => head (sort_by
        (fun a b => UserRow.CreatedAt a <=? UserRow.CreatedAt b)
        (filter (fun u => UserRow.Role u = "admin") (rows (users d))))) d in
  (match r with
   | Ok u => Some (UserRow.mk (UserRow.ID u) EmptyString (UserRow.Email u) EmptyString EmptyString
                     (UserRow.Role u) 0)
   | Err _ => None
   end, d).

Definition ListUsers : Accounts.t KS -> res (list UserRow.t) * Accounts.t KS :=
  sql_query (fun d => Ok (sort_by (by_text UserRow.Email (fun _ => EmptyString)) (rows (users d)))).

(** The columns the UPDATE sets. *)
Definition updated (u old : UserRow.t) : UserRow.t :=
  UserRow.mk (UserRow.ID old) (UserRow.Name u) (UserRow.Email u) (UserRow.Password u)
    (UserRow.PasswordSalt u) (UserRow.Role u) (UserRow.CreatedAt old).

Definition UpdateUser (u : UserRow.t) d : res unit * UserRow.t * Accounts.t KS :=
  match hashed u d with
  | (Err e, d) => (Err e, u, d)
  | (Ok u, d) =>
      let '(r, d) := sql_checked
        (fun d => bool_decide (users d !! UserRow.ID u = None) ||
                  negb (email_taken (UserRow.ID u) (UserRow.Email u) d))
        (set_users (alter (updated u) (UserRow.ID u))) d in
      (r, u, d)
  end.

(** ON DELETE CASCADE *)
Definition cascade_user (id : string) d : Accounts.t KS :=
  set_api_keys (filter (fun k => APIKey.UserID k <> id))
  (set_oauth_sessions (filter (fun kv => OAuthSession.UserID kv.2 <> id))
  (set_oauth_codes (filter (fun kv => OAuthCode.UserID kv.2 <> id))
  (set_web_sessions (filter (fun kv => WebSession.UserID kv.2 <> id))
  (set_user_2fa (delete id)
  (set_user_tokens (filter (fun kv => kv.1.1.1 <> id))
  (set_users (delete id) d)))))).

Definition DeleteUser (id : string) : Accounts.t KS -> res unit * Accounts.t KS :=
  sql_exec (cascade_user id).

Definition UpdateUserPasswordSalt (userID salt : string) : Accounts.t KS -> res unit * Accounts.t KS :=
  sql_exec (set_users (alter (UserRow.with_PasswordSalt salt) userID)).

Definition GetUserPasswordSalt (userID : string) : Accounts.t KS -> res string * Accounts.t KS :=
  sql_row (fun d => UserRow.PasswordSalt <$> users d !! userID).

(** ** Service tokens of users *)

(** The foreign keys of a token. *)
Definition token_allowed (userID backendID : string) d : bool :=
  bool_decide (is_Some (users d !! userID)) && bool_decide (backendID ∈ backend_ids d).

(** INSERT OR REPLACE: the columns it does not name take their defaults. *)
Definition SetUserToken (tok : UserToken.t) : Accounts.t KS -> res unit * Accounts.t KS :=
  let userID := UserToken.UserID tok in
  let backendID := UserToken.BackendID tok in
  sql_checked (token_allowed userID backendID)
    (set_user_tokens (<[(userID, backendID, UserToken.EnvKey tok) :=
       UserToken.mk userID backendID (UserToken.EnvKey tok) (UserToken.Value tok)
         EmptyString EmptyString "legacy"]>)).

Definition GetUserTokens (userID backendID : string) :
    Accounts.t KS -> res (list UserToken.t) * Accounts.t KS :=
  sql_query (fun d => Ok (filter (fun k => UserToken.UserID k = userID /\
                                   UserToken.BackendID k = backendID) (rows (user_tokens d)))).

Definition GetAllUserTokens (userID : string) :
    Accounts.t KS -> res (list UserToken.t) * Accounts.t KS :=
  sql_query (fun d => Ok (filter (fun k => UserToken.UserID k = userID) (rows (user_tokens d)))).

Definition DeleteUserToken (userID backendID envKey : string) :
    Accounts.t KS -> res unit * Accounts.t KS :=
  sql_exec (set_user_tokens (delete (userID, backendID, envKey))).

(** [s.keyStore.DecryptSecret], with the key store in the state. *)
Definition box_decrypt (ks : KS) (c : string) d : res string * Accounts.t KS :=
  let '(r, ks) := DecryptSecret c ks in
  (default (Err (Errorf "panic")) r, set_box (Some ks) (rng d) d).

Definition box_encrypt (ks : KS) (p : string) d : res string * Accounts.t KS :=
  let '(r, ks, n) := EncryptSecret p ks (rng d) in (r, set_box (Some ks) n d).

Definition no_keystore : error := Errorf "keystore not initialized".

Definition GetUserTokenDecrypted (userID backendID envKey : string) d :
    res string * Accounts.t KS :=
  match keyStore d with
  | None => (Err no_keystore, d)
  | Some ks =>
      match sql_row (fun d => user_tokens d !! (userID, backendID, envKey)) d with
      | (Err e, d) => (Err e, d)
      | (Ok tok, d) =>
          if negb (bool_decide (UserToken.Encrypted tok = EmptyString))
          then box_decrypt ks (UserToken.Encrypted tok) d
          else (Ok (UserToken.Value tok), d)
      end
  end.

(** The value of a token with the ciphertext opened where that works. *)
Definition token_value (tok : UserToken.t) d : string * Accounts.t KS :=
  match keyStore d with
  | Some ks =>
      if negb (bool_decide (UserToken.Encrypted tok = EmptyString)) then
        match box_decrypt ks (UserToken.Encrypted tok) d with
        | (Ok v, d) => (v, d)
        | (Err _, d) => (UserToken.Value tok, d)
        end
      else (UserToken.Value tok, d)
  | None => (UserToken.Value tok, d)
  end.

Fixpoint token_values (toks : list UserToken.t) d : list UserToken.t * Accounts.t KS :=
  match toks with
  | [] => ([], d)
  | k :: toks =>
      let '(v, d) := token_value k d in
      let '(l, d) := token_values toks d in
      (UserToken.mk (UserToken.UserID k) (UserToken.BackendID k) (UserToken.EnvKey k) v
         (UserToken.Encrypted k) EmptyString EmptyString :: l, d)
  end.

Definition GetUserTokensDecrypted (userID backendID : string) d :
    res (list UserToken.t) * Accounts.t KS :=
  match GetUserTokens userID backendID d with
  | (Err e, d) => (Err e, d)
  | (Ok toks, d) => let '(l, d) := token_values toks d in (Ok l, d)
  end.

Definition HasEncryptedTokens : Accounts.t KS -> res bool * Accounts.t KS :=
  sql_query (fun d => Ok (bool_decide (Exists (fun k => UserToken.Encrypted k <> EmptyString)
                                         (rows (user_tokens d))))).

(** The rows found before the loop, one UPDATE each; the value stays. *)
Fixpoint migrate_tokens (ks : KS) (toks : list UserToken.t) d : res unit * Accounts.t KS :=
  match toks with
  | [] => (Ok tt, d)
  | k :: toks =>
      match box_encrypt (default ks (keyStore d)) (UserToken.Value k) d with
      | (Err e, d) => (Err e, d)
      | (Ok encrypted, d) =>
          match sql_exec (set_user_tokens (alter (fun r =>
                  UserToken.mk (UserToken.UserID r) (UserToken.BackendID r) (UserToken.EnvKey r)
                    (UserToken.Value r) encrypted (UserToken.EncryptedDEK r)
                    (UserToken.EncryptionType r))
                  (UserToken.UserID k, UserToken.BackendID k, UserToken.EnvKey k))) d with
          | (Err e, d) => (Err e, d)
          | (Ok _, d) => migrate_tokens ks toks d
          end
      end
  end.

Definition MigrateSecrets d : res unit * Accounts.t KS :=
  match keyStore d with
  | None => (Err no_keystore, d)
  | Some ks =>
      match sql_query (fun d => Ok (filter (fun k => UserToken.Encrypted k = EmptyString /\
                          UserToken.Value k <> EmptyString) (rows (user_tokens d)))) d with
      | (Err e, d) => (Err e, d)
      | (Ok toks, d) => migrate_tokens ks toks d
      end
  end.

(** The numbers of tokens that open and that do not. *)
Fixpoint verify_tokens (ks : KS) (toks : list UserToken.t) d : (Z * Z) * Accounts.t KS :=
  match toks with
  | [] => ((0, 0), d)
  | k :: toks =>
      let '(ok, d) :=
        if bool_decide (UserToken.Encrypted k = EmptyString) then (false, d)
        else let '(r, d) := box_decrypt (default ks (keyStore d)) (UserToken.Encrypted k) d in
             (is_ok r, d) in
      let '((success, fail), d) := verify_tokens ks toks d in
      (if ok then (success + 1, fail) else (success, fail + 1), d)
  end.

Definition VerifyEncryptedSecrets d : res (Z * Z) * Accounts.t KS :=
  match keyStore d with
  | None => (Err no_keystore, d)
  | Some ks =>
      match sql_query (fun d => Ok (rows (user_tokens d))) d with
      | (Err e, d) => (Err e, d)
      | (Ok toks, d) => let '(n, d) := verify_tokens ks toks d in (Ok n, d)
      end
  end.

(** *** The two layers: the master key inside, the user's key outside *)

(** [None]: a nil slice. *)
Definition seal_layers (ks : KS) (plaintext userDEK : string) d :
    res (string * string) * Accounts.t KS :=
  match box_encrypt ks plaintext d with
  | (Err e, d) => (Err e, d)
  | (Ok masterCiphertext, d) =>
      let '(r, n) := AES256GCMEncrypt userDEK masterCiphertext (rng d) in
      let d := set_rng n d in
      (match r with Ok c => Ok (masterCiphertext, c) | Err e => Err e end, d)
  end.

Definition open_layers (ks : KS) (encrypted userDEK : string) d : res string * Accounts.t KS :=
  match default (Err (Errorf "panic")) (AES256GCMDecrypt userDEK encrypted) with
  | Err e => (Err (Wrapf "user-DEK unwrap failed: %w" e), d)
  | Ok masterCiphertext =>
      match box_decrypt ks masterCiphertext d with
      | (Err e, d) => (Err (Wrapf "master-key decrypt failed: %w" e), d)
      | (Ok plaintext, d) => (Ok plaintext, d)
      end
  end.

Definition no_dek : error := Errorf "user DEK is required".

Definition SetUserTokenWithUserDEK (userID backendID envKey tokenValue : string)
    (userDEK : option string) d : res unit * Accounts.t KS :=
  match userDEK, keyStore d with
  | None, _ => (Err no_dek, d)
  | _, None => (Err no_keystore, d)
  | Some userDEK, Some ks =>
      match seal_layers ks tokenValue userDEK d with
      | (Err e, d) => (Err e, d)
      | (Ok (masterCiphertext, encryptedDEK), d) =>
          sql_checked (token_allowed userID backendID)
            (set_user_tokens (<[(userID, backendID, envKey) :=
               UserToken.mk userID backendID envKey EmptyString masterCiphertext encryptedDEK "user"]>)) d
      end
  end.

Definition GetUserTokenDecryptedWithUserDEK (userID backendID envKey : string)
    (userDEK : option string) d : res string * Accounts.t KS :=
  match userDEK, keyStore d with
  | None, _ => (Err no_dek, d)
  | _, None => (Err no_keystore, d)
  | Some userDEK, Some ks =>
      match sql_row (fun d => user_tokens d !! (userID, backendID, envKey)) d with
      | (Err e, d) => (Err e, d)
      | (Ok tok, d) =>
          if bool_decide (UserToken.EncryptedDEK tok = EmptyString) then
            (Err (Errorf "token has no user-DEK layer"), d)
          else open_layers ks (UserToken.EncryptedDEK tok) userDEK d
      end
  end.

(** ** Second factors *)

Definition ErrNo2FA : error := Errorf "no 2FA configured for user".

Definition SetUser2FA (userID method secret : string) (userDEK : option string) d :
    res unit * Accounts.t KS :=
  match userDEK, keyStore d with
  | None, _ => (Err no_dek, d)
  | _, None => (Err no_keystore, d)
  | Some userDEK, Some ks =>
      match seal_layers ks secret userDEK d with
      | (Err e, d) => (Err e, d)
      | (Ok (_, encryptedDEK), d) =>
          sql_checked (fun d => bool_decide (is_Some (users d !! userID)))
            (set_user_2fa (<[userID := TwoFARow.mk method encryptedDEK true]>)) d
      end
  end.

Definition GetUser2FA (userID : string) d : res (string * bool) * Accounts.t KS :=
  match sql_row (fun d => user_2fa d !! userID) d with
  | (Ok r, d) => (Ok (TwoFARow.method r, TwoFARow.enabled r), d)
  | (Err ErrNoRows, d) => (Ok (EmptyString, false), d)
  | (Err e, d) => (Err e, d)
  end.

Definition GetUser2FASecret (userID : string) (userDEK : option string) d :
    res string * Accounts.t KS :=
  match userDEK, keyStore d with
  | None, _ => (Err no_dek, d)
  | _, None => (Err no_keystore, d)
  | Some userDEK, Some ks =>
      match sql_row (fun d => user_2fa d !! userID) d with
      | (Err ErrNoRows, d) => (Err ErrNo2FA, d)
      | (Err e, d) => (Err e, d)
      | (Ok r, d) =>
          if bool_decide (TwoFARow.secret r = EmptyString) then (Err ErrNo2FA, d)
          else open_layers ks (TwoFARow.secret r) userDEK d
      end
  end.

Definition DeleteUser2FA (userID : string) : Accounts.t KS -> res unit * Accounts.t KS :=
  sql_exec (set_user_2fa (delete userID)).

Definition RevokeWebSessions (userID : string) : Accounts.t KS -> res unit * Accounts.t KS :=
  sql_exec (set_web_sessions (filter (fun kv => WebSession.UserID kv.2 <> userID))).

(** ** Web sessions *)

Definition CreateWebSession (s : WebSession.t) (now : Time) d :
    res unit * WebSession.t * Accounts.t KS :=
  let '(token, d) := id_or_new (WebSession.Token s) d in
  let s := WebSession.mk token (WebSession.UserID s) (WebSession.ExpiresAt s) now in
  let '(r, d) := sql_checked (fun d => bool_decide (web_sessions d !! token = None) &&
                                       bool_decide (is_Some (users d !! WebSession.UserID s)))
                   (set_web_sessions (<[token := s]>)) d in
  (r, s, d).

Definition GetWebSession (token : string) : Accounts.t KS -> res WebSession.t * Accounts.t KS :=
  sql_row (fun d => web_sessions d !! token).

Definition DeleteWebSession (token : string) : Accounts.t KS -> res unit * Accounts.t KS :=
  sql_exec (set_web_sessions (delete token)).

(** The number of rows a DELETE removed; times compare as instants. *)
Definition delete_where {A} (get : Accounts.t KS -> gmap string A)
    (put : (gmap string A -> gmap string A) -> Accounts.t KS -> Accounts.t KS)
    (P : A -> Prop) `{forall a, Decision (P a)} : Accounts.t KS -> res Z * Accounts.t KS :=
  sql_stmt (fun d => (Ok (Z.of_nat (size (filter (fun kv => P kv.2) (get d)))),
                      put (filter (fun kv => ~ P kv.2)) d)).

Definition DeleteExpiredWebSessions (now : Time) : Accounts.t KS -> res Z * Accounts.t KS :=
  delete_where web_sessions set_web_sessions (fun s => WebSession.ExpiresAt s < now).

(** ** OAuth *)

Definition CreateOAuthClient (c : OAuthClient.t) (now : Time) d :
    res unit * OAuthClient.t * Accounts.t KS :=
  let '(id, d) := id_or_new (OAuthClient.ClientID c) d in
  let c := OAuthClient.mk id (OAuthClient.ClientSecret c) (OAuthClient.RedirectURIs c)
             (OAuthClient.ClientName c) now in
  let '(r, d) := sql_checked (fun d => bool_decide (oauth_clients d !! id = None))
                   (set_oauth_clients (<[id := c]>)) d in
  (r, c, d).

Definition GetOAuthClient (clientID : string) :
    Accounts.t KS -> res OAuthClient.t * Accounts.t KS :=
  sql_row (fun d => oauth_clients d !! clientID).

Definition ListOAuthClients : Accounts.t KS -> res (list OAuthClient.t) * Accounts.t KS :=
  sql_query (fun d => Ok (sort_by (fun a b => OAuthClient.CreatedAt b <=? OAuthClient.CreatedAt a)
                            (rows (oauth_clients d)))).

Definition DeleteOAuthClient (clientID : string) : Accounts.t KS -> res unit * Accounts.t KS :=
  sql_exec (set_oauth_clients (delete clientID)).

Definition CreateOAuthCode (c : OAuthCode.t) d : res unit * OAuthCode.t * Accounts.t KS :=
  let '(code, d) := id_or_new (OAuthCode.Code c) d in
  let c := OAuthCode.mk code (OAuthCode.UserID c) (OAuthCode.ClientID c) (OAuthCode.RedirectURI c)
             (OAuthCode.CodeChallenge c) (OAuthCode.Scope c) (OAuthCode.ExpiresAt c) in
  let '(r, d) := sql_checked (fun d => bool_decide (oauth_codes d !! code = None) &&
                                       bool_decide (is_Some (users d !! OAuthCode.UserID c)))
                   (set_oauth_codes (<[code := c]>)) d in
  (r, c, d).

Definition GetOAuthCode (code : string) : Accounts.t KS -> res OAuthCode.t * Accounts.t KS :=
  sql_row (fun d => oauth_codes d !! code).

Definition DeleteOAuthCode (code : string) : Accounts.t KS -> res unit * Accounts.t KS :=
  sql_exec (set_oauth_codes (delete code)).

Definition DeleteExpiredCodes (now : Time) : Accounts.t KS -> res Z * Accounts.t KS :=
  delete_where oauth_codes set_oauth_codes (fun c => OAuthCode.ExpiresAt c < now).

Definition CreateOAuthSession (s : OAuthSession.t) (now : Time) d :
    res unit * OAuthSession.t * Accounts.t KS :=
  let '(access, d) := id_or_new (OAuthSession.AccessToken s) d in
  let '(refresh, d) := id_or_new (OAuthSession.RefreshToken s) d in
  let s := OAuthSession.mk access refresh (OAuthSession.UserID s) (OAuthSession.ClientID s)
             (OAuthSession.Scope s) (OAuthSession.ExpiresAt s) now in
  let '(r, d) := sql_checked (fun d => bool_decide (oauth_sessions d !! access = None) &&
                                       bool_decide (is_Some (users d !! OAuthSession.UserID s)))
                   (set_oauth_sessions (<[access := s]>)) d in
  (r, s, d).

Definition GetOAuthSession (accessToken : string) :
    Accounts.t KS -> res OAuthSession.t * Accounts.t KS :=
  sql_row (fun d => oauth_sessions d !! accessToken).

Definition session_by_refresh (refreshToken : string) d : option OAuthSession.t :=
  snd <$> list_find (fun s => OAuthSession.RefreshToken s = refreshToken) (rows (oauth_sessions d)).

Definition GetOAuthSessionByRefresh (refreshToken : string) :
    Accounts.t KS -> res OAuthSession.t * Accounts.t KS :=
  sql_row (session_by_refresh refreshToken).

Definition DeleteOAuthSession (accessToken : string) : Accounts.t KS -> res unit * Accounts.t KS :=
  sql_exec (set_oauth_sessions (delete accessToken)).

Definition DeleteExpiredSessions (now : Time) : Accounts.t KS -> res Z * Accounts.t KS :=
  delete_where oauth_sessions set_oauth_sessions (fun s => OAuthSession.ExpiresAt s < now).

(** ** API keys *)

Definition CreateAPIKey (k : APIKey.t) (now : Time) d : res unit * APIKey.t * Accounts.t KS :=
  let '(id, d) := id_or_new (APIKey.ID k) d in
  let k := APIKey.mk id (APIKey.UserID k) (APIKey.Name k) (APIKey.KeyHash k) (APIKey.ExpiresAt k)
             None now in
  let '(r, d) := sql_checked
    (fun d => negb (bool_decide (Exists (fun k' => APIKey.ID k' = id) (api_keys d))) &&
              bool_decide (is_Some (users d !! APIKey.UserID k)))
    (set_api_keys (fun l => l ++ [k])) d in
  (r, k, d).

Definition api_key (P : APIKey.t -> Prop) `{forall k, Decision (P k)} d : option APIKey.t :=
  snd <$> list_find P (api_keys d).

Definition GetAPIKeyByID (id : string) : Accounts.t KS -> res APIKey.t * Accounts.t KS :=
  sql_row (api_key (fun k => APIKey.ID k = id)).

Definition GetAPIKeyByHash (hash : string) : Accounts.t KS -> res APIKey.t * Accounts.t KS :=
  sql_row (api_key (fun k => APIKey.KeyHash k = hash)).

Definition ListAPIKeys (userID : string) : Accounts.t KS -> res (list APIKey.t) * Accounts.t KS :=
  sql_query (fun d => Ok (sort_by (fun a b => APIKey.CreatedAt b <=? APIKey.CreatedAt a)
                            (filter (fun k => APIKey.UserID k = userID) (api_keys d)))).

Definition DeleteAPIKey (id : string) : Accounts.t KS -> res unit * Accounts.t KS :=
  sql_exec (set_api_keys (filter (fun k => APIKey.ID k <> id))).

Definition UpdateAPIKeyLastUsed (id : string) (now : Time) :
    Accounts.t KS -> res unit * Accounts.t KS :=
  sql_exec (set_api_keys (fmap (fun k =>
    if bool_decide (APIKey.ID k = id)
    then APIKey.mk (APIKey.ID k) (APIKey.UserID k) (APIKey.Name k) (APIKey.KeyHash k)
           (APIKey.ExpiresAt k) (Some now) (APIKey.CreatedAt k)
    else k))).

Definition ValidateAPIKeyHash (key hash : string) : bool := bcrypt_compare hash key.

(** The first row whose hash matches, read again by its id. *)
Definition ValidateAPIKey (key : string) d : res APIKey.t * Accounts.t KS :=
  match sql_query (fun d => Ok (api_keys d)) d with
  | (Err e, d) => (Err e, d)
  | (Ok keys, d) =>
      match list_find (fun k => ValidateAPIKeyHash key (APIKey.KeyHash k) = true) keys with
      | Some (_, k) => GetAPIKeyByID (APIKey.ID k) d
      | None => (Err (Errorf "invalid API key"), d)
      end
  end.

Definition GenerateAPIKey d : res (string * string) * Accounts.t KS :=
  match read_rand 32 (rng d) with
  | (None, n) => (Err (Errorf "rand"), set_rng n d)
  | (Some bs, n) =>
      let key := "mcp_" +:+ hex_encode bs in
      match HashPassword key (set_rng n d) with
      | (Ok hash, d) => (Ok (key, hash), d)
      | (Err e, d) => (Err e, d)
      end
  end.

(** ** Invitations *)

Definition InvitePending : string := "pending".
Definition InviteAccepted : string := "accepted".
Definition InviteRevoked : string := "revoked".

Definition HashInviteToken (raw : string) : string := hex_encode (sha256 raw).

Definition GenerateInviteToken d : res (string * string) * Accounts.t KS :=
  match read_rand 32 (rng d) with
  | (None, n) => (Err (Errorf "rand"), set_rng n d)
  | (Some bs, n) =>
      let raw := "inv_" +:+ hex_encode bs in
      (Ok (raw, HashInviteToken raw), set_rng n d)
  end.

Definition Expired (i : Invite.t) (now : Time) : bool :=
  negb (bool_decide (Invite.Status i = InviteAccepted)) && (Invite.TokenExpiresAt i <? now).

Definition CreateInvite (i : Invite.t) (now : Time) d : res unit * Invite.t * Accounts.t KS :=
  let '(id, d) := id_or_new (Invite.ID i) d in
  let status := if bool_decide (Invite.Status i = EmptyString) then InvitePending
                else Invite.Status i in
  let i := Invite.mk id (Invite.Email i) (Invite.Name i) (Invite.Role i) (Invite.TokenHash i)
             status (Invite.InvitedBy i) (Invite.TokenExpiresAt i) None EmptyString now in
  let '(r, d) := sql_checked
    (fun d => bool_decide (invitations d !! id = None) &&
              negb (bool_decide (Exists (fun j => Invite.TokenHash j = Invite.TokenHash i)
                                   (rows (invitations d)))))
    (set_invitations (<[id := i]>)) d in
  (r, i, d).

Definition invite_by_hash (hash : string) d : option Invite.t :=
  snd <$> list_find (fun i => Invite.TokenHash i = hash) (rows (invitations d)).

Definition GetInviteByTokenHash (hash : string) : Accounts.t KS -> res Invite.t * Accounts.t KS :=
  sql_row (invite_by_hash hash).

Definition GetInviteByID (id : string) : Accounts.t KS -> res Invite.t * Accounts.t KS :=
  sql_row (fun d => invitations d !! id).

Definition ListInvites : Accounts.t KS -> res (list Invite.t) * Accounts.t KS :=
  sql_query (fun d => Ok (sort_by (fun a b => Invite.CreatedAt b <=? Invite.CreatedAt a)
                            (rows (invitations d)))).

(** Whatever the status of the invitation. *)
Definition MarkInviteAccepted (id userID : string) (now : Time) :
    Accounts.t KS -> res unit * Accounts.t KS :=
  sql_exec (set_invitations (alter (Invite.accepted now userID) id)).

Definition RevokeInvite (id : string) : Accounts.t KS -> res unit * Accounts.t KS :=
  sql_exec (set_invitations (alter (fun i =>
    if bool_decide (Invite.Status i = InvitePending) then Invite.with_Status InviteRevoked i
    else i) id)).

End Store.

(** ** Properties *)

(** *** The store under a schedule of faults *)

Section Faults.
Context {KS : Type}.
Implicit Types d : Accounts.t KS.

Lemma set_faults_id d : Accounts.set_faults (Accounts.faults d) d = d.
Proof. by destruct d. Qed.

(** A query that succeeds read the tables and changed nothing but the schedule. *)
Lemma sql_row_inv {A} (f : Accounts.t KS -> option A) d r d' :
  (forall fs, f (Accounts.set_faults fs d) = f d) ->
  sql_row f d = (r, d') ->
  (exists fs, d' = Accounts.set_faults fs d) /\ forall a, r = Ok a -> f d = Some a.
Proof.
  intros Hf. unfold sql_row, sql_query, sql_stmt. cbn [db_faults db_set_faults Accounts.accounts_database].
  destruct (Accounts.faults d) as [|[] fs] eqn:Hd; intros [= <- <-].
  - split; [exists (Accounts.faults d); by rewrite set_faults_id|]. intros a. by destruct (f d); intros [= ->].
  - split; [by exists fs|]. done.
  - rewrite Hf. split; [by exists fs|]. intros a. by destruct (f d); intros [= ->].
Qed.

(** One of the next [n] statements fails. *)
Definition failing (n : nat) d : bool := existsb id (take n (Accounts.faults d)).

Lemma failing_next n d :
  failing (S n) d = failing 1 d || failing n (Accounts.set_faults (tail (Accounts.faults d)) d).
Proof.
  unfold failing. cbn. destruct (Accounts.faults d) as [|b fs]; cbn; [by rewrite take_nil|]. by rewrite orb_false_r.
Qed.

(** A query fails exactly when its statement does. *)
Lemma sql_query_exact {A} (f : Accounts.t KS -> res A) d :
  (forall fs, f (Accounts.set_faults fs d) = f d) ->
  sql_query f d = (if failing 1 d then Err ErrSql else f d, Accounts.set_faults (tail (Accounts.faults d)) d).
Proof.
  intros Hf. unfold sql_query, sql_stmt. cbn [db_faults db_set_faults Accounts.accounts_database].
  unfold failing. destruct (Accounts.faults d) as [|[] fs] eqn:Hd; cbn [take tail existsb id orb].
  - rewrite <- Hd. by rewrite set_faults_id.
  - done.
  - by rewrite Hf.
Qed.

Lemma sql_row_exact {A} (f : Accounts.t KS -> option A) d :
  (forall fs, f (Accounts.set_faults fs d) = f d) ->
  sql_row f d = (if failing 1 d then Err ErrSql else match f d with Some a => Ok a | None => Err ErrNoRows end,
                 Accounts.set_faults (tail (Accounts.faults d)) d).
Proof. intros Hf. unfold sql_row. rewrite sql_query_exact; [done|]. intros fs. by rewrite Hf. Qed.

Lemma sql_exec_inv (f : Accounts.t KS -> Accounts.t KS) d r d' :
  sql_exec f d = (r, d') ->
  exists fs, d' = Accounts.set_faults fs d \/ d' = f (Accounts.set_faults fs d).
Proof.
  unfold sql_exec, sql_stmt. cbn [db_faults db_set_faults Accounts.accounts_database].
  destruct (Accounts.faults d) as [|[] fs] eqn:Hd; intros [= <- <-].
  - exists (Accounts.faults d). rewrite set_faults_id. eauto.
  - eauto.
  - eauto.
Qed.
End Faults.

(** The rows of the tokens are under their own keys. *)
Definition tokens_keyed {KS} (d : Accounts.t KS) : Prop :=
  forall key k, Accounts.user_tokens d !! key = Some k ->
    key = (UserToken.UserID k, UserToken.BackendID k, UserToken.EnvKey k).

(** No statement fails and the key store can read its key. *)
Definition healthy {KS} `{SecretBoxLaws KS} (ks : KS) (d : Accounts.t KS) : Prop :=
  Accounts.faults d = [] /\ Accounts.keyStore d = Some ks /\ box_ready ks.

Section AccountsFacts.
Context {KS : Type} `{CryptoLaws} `{!SecretBox KS} `{!SecretBoxLaws KS}.
(** The random source of the operating system does not fail. *)
Context (random : forall i n, is_Some (entropy i n)).
Import Accounts.
Implicit Types d : Accounts.t KS.

Lemma set_box_id ks d n : keyStore d = Some ks -> set_box (Some ks) n d = set_rng n d.
Proof. intros Hk. unfold set_rng. by rewrite Hk. Qed.

Lemma healthy_rng ks d n : healthy ks d -> healthy ks (set_rng n d).
Proof. by destruct d. Qed.

(** The layer of the master key. *)
Lemma box_encrypt_ok ks pt d :
  healthy ks d ->
  exists c n, box_encrypt ks pt d = (Ok c, set_rng n d) /\ c <> EmptyString /\
    forall d', healthy ks d' -> box_decrypt ks c d' = (Ok pt, d').
Proof.
  intros (Hf & Hk & Hr). unfold box_encrypt.
  destruct (EncryptSecret pt ks (rng d)) as [[[c|e] ks'] n] eqn:He.
  2: { pose proof (box_seals pt ks (rng d) Hr random) as Hs. by rewrite He in Hs. }
  pose proof (box_sealed pt ks (rng d) Hr) as Hks. rewrite He in Hks. cbn in Hks. subst ks'.
  exists c, n. rewrite (set_box_id ks) by done. split_and!; [done|by eapply box_nonempty|].
  intros d' (Hf' & Hk' & _). unfold box_decrypt. rewrite (box_opens _ _ _ _ _ _ Hr He). cbn [from_option id].
  rewrite set_box_id by done. unfold set_rng. by destruct d'.
Qed.

Lemma box_decrypt_stable ks c d : healthy ks d -> (box_decrypt ks c d).2 = d.
Proof.
  intros (Hf & Hk & Hr). unfold box_decrypt. pose proof (box_stable c ks Hr) as Hs.
  destruct (DecryptSecret c ks) as [r ks']. cbn in *. subst ks'. rewrite set_box_id by done.
  unfold set_rng. by destruct d.
Qed.

(** The two layers open with the master key and the user's key, and the inner
    one with the master key alone. *)
Lemma seal_layers_ok ks pt dek d :
  healthy ks d -> String.length dek = 32%nat ->
  exists mc c n, seal_layers ks pt dek d = (Ok (mc, c), set_rng n d) /\
    c <> EmptyString /\ mc <> EmptyString /\
    forall d', healthy ks d' ->
      open_layers ks c dek d' = (Ok pt, d') /\ box_decrypt ks mc d' = (Ok pt, d').
Proof.
  intros Hh Hdek. unfold seal_layers.
  destruct (box_encrypt_ok ks pt d Hh) as (mc & n & -> & Hmc & Hbox). cbn [rng set_rng set_box].
  destruct (AES256GCMEncrypt dek mc n) as [rc n'] eqn:Ha.
  destruct rc as [c|e]; [exists mc, c, n'; split_and!; [done| | |]|exfalso].
  - apply AES256GCM_opens in Ha. intros ->. unfold AES256GCMDecrypt in Ha. by rewrite Hdek in Ha.
  - done.
  - intros d' Hd'. split; [|by apply Hbox]. unfold open_layers.
    rewrite (AES256GCM_opens _ _ _ _ _ Ha). cbn [from_option id]. by rewrite Hbox.
  - unfold AES256GCMEncrypt in Ha. rewrite Hdek in Ha. cbn [Nat.eqb keySize negb] in Ha.
    unfold read_rand in Ha. destruct (random n (Z.to_nat nonceSize)) as [nonce Hn].
    by rewrite Hn in Ha.
Qed.

(** What a token saved with the key of its user leaves in the row. *)
Lemma SetUserTokenWithUserDEK_ok ks userID backendID envKey value dek d :
  healthy ks d -> String.length dek = 32%nat -> token_allowed userID backendID d = true ->
  exists mc c n,
    SetUserTokenWithUserDEK userID backendID envKey value (Some dek) d =
      (Ok tt, set_user_tokens <[(userID, backendID, envKey) :=
                UserToken.mk userID backendID envKey EmptyString mc c "user"]> (set_rng n d)) /\
    c <> EmptyString /\ mc <> EmptyString /\
    forall d', healthy ks d' ->
      open_layers ks c dek d' = (Ok value, d') /\ box_decrypt ks mc d' = (Ok value, d').
Proof.
  intros Hh Hdek Ha. destruct (seal_layers_ok ks value dek d Hh Hdek) as (mc & c & n & Hs & Hc).
  exists mc, c, n. split; [|done]. unfold SetUserTokenWithUserDEK.
  destruct Hh as (Hf & Hk & _). rewrite Hk, Hs.
  rewrite sql_checked_ok by done. unfold token_allowed in *. cbn. by rewrite Ha.
Qed.

Lemma SetUser2FA_ok ks userID method secret dek d :
  healthy ks d -> String.length dek = 32%nat -> is_Some (users d !! userID) ->
  exists c n,
    SetUser2FA userID method secret (Some dek) d =
      (Ok tt, set_user_2fa <[userID := TwoFARow.mk method c true]> (set_rng n d)) /\
    c <> EmptyString /\
    forall d', healthy ks d' -> open_layers ks c dek d' = (Ok secret, d').
Proof.
  intros Hh Hdek Hu. destruct (seal_layers_ok ks secret dek d Hh Hdek) as (mc & c & n & Hs & Hc & _ & Ho).
  exists c, n. split_and!; [|done|intros d' Hd; by apply Ho]. unfold SetUser2FA.
  destruct Hh as (Hf & Hk & _). rewrite Hk, Hs.
  rewrite sql_checked_ok by done. cbn. by rewrite bool_decide_eq_true_2.
Qed.

Lemma GetUser2FASecret_ok ks userID method secret dek c d :
  healthy ks d -> user_2fa d !! userID = Some (TwoFARow.mk method c true) -> c <> EmptyString ->
  open_layers ks c dek d = (Ok secret, d) ->
  GetUser2FASecret userID (Some dek) d = (Ok secret, d).
Proof.
  intros (Hf & Hk & _) Hr Hc Ho. unfold GetUser2FASecret. rewrite Hk, sql_row_ok, Hr by done.
  cbn [TwoFARow.secret]. by rewrite bool_decide_eq_false_2.
Qed.

(** In a healthy store reading a secret changes nothing. *)
Lemma box_decrypt_quiet ks c d : healthy ks d -> exists r, box_decrypt ks c d = (r, d).
Proof.
  intros (Hf & Hk & Hr). unfold box_decrypt. pose proof (box_stable c ks Hr) as Hs.
  destruct (DecryptSecret c ks) as [r ks']. cbn in Hs. subst ks'. eexists.
  rewrite set_box_id by done. by destruct d.
Qed.

Lemma open_layers_quiet ks c dek d : healthy ks d -> exists r, open_layers ks c dek d = (r, d).
Proof.
  intros Hh. unfold open_layers. destruct (default _ _) as [mc|e]; [|by eexists].
  destruct (box_decrypt_quiet ks mc d Hh) as [[pt|e] ->]; by eexists.
Qed.

(** What opens in one healthy store opens in all with the same master key. *)
Lemma open_layers_stable ks c dek v d d' :
  healthy ks d -> healthy ks d' -> (open_layers ks c dek d).1 = Ok v ->
  open_layers ks c dek d' = (Ok v, d').
Proof.
  intros Hh Hh' Ho. destruct (open_layers_quiet ks c dek d' Hh') as [r Hr]. rewrite Hr.
  unfold open_layers in *. destruct (default _ _) as [mc|e]; [|done].
  unfold box_decrypt in *. destruct (DecryptSecret mc ks) as [[[pt|e]|] ks']; simplify_eq/=; congruence.
Qed.

Lemma GetUserTokenDecryptedWithUserDEK_quiet ks userID backendID envKey dek d :
  healthy ks d -> exists r, GetUserTokenDecryptedWithUserDEK userID backendID envKey dek d = (r, d).
Proof.
  intros Hh. unfold GetUserTokenDecryptedWithUserDEK. destruct dek as [dek|]; [|by eexists].
  pose proof Hh as (Hf & Hk & _). rewrite Hk, sql_row_ok by done.
  destruct (user_tokens d !! _) as [tok|]; [|by eexists].
  case_if; [by eexists|]. by apply open_layers_quiet.
Qed.

Lemma GetUserTokenDecrypted_quiet ks userID backendID envKey d :
  healthy ks d -> exists r, GetUserTokenDecrypted userID backendID envKey d = (r, d).
Proof.
  intros Hh. unfold GetUserTokenDecrypted.
  pose proof Hh as (Hf & Hk & _). rewrite Hk, sql_row_ok by done.
  destruct (user_tokens d !! _) as [tok|]; [|by eexists].
  case_if; [by apply box_decrypt_quiet|by eexists].
Qed.

Lemma GetUser2FASecret_quiet ks userID dek d :
  healthy ks d -> exists r, GetUser2FASecret userID dek d = (r, d).
Proof.
  intros Hh. unfold GetUser2FASecret. destruct dek as [dek|]; [|by eexists].
  pose proof Hh as (Hf & Hk & _). rewrite Hk, sql_row_ok by done.
  destruct (user_2fa d !! _) as [row|]; [|by eexists].
  case_if; [by eexists|]. by apply open_layers_quiet.
Qed.

Lemma GetUser2FA_quiet ks userID d :
  healthy ks d ->
  GetUser2FA userID d =
    (Ok match user_2fa d !! userID with
        | Some row => (TwoFARow.method row, TwoFARow.enabled row)
        | None => (EmptyString, false)
        end, d).
Proof.
  intros (Hf & _). unfold GetUser2FA. rewrite sql_row_ok by done. by destruct (user_2fa d !! userID).
Qed.

(** A row whose outer layer opens is read. *)
Lemma GetUserTokenDecryptedWithUserDEK_ok ks userID backendID envKey row dek value d :
  healthy ks d -> user_tokens d !! (userID, backendID, envKey) = Some row ->
  UserToken.EncryptedDEK row <> EmptyString ->
  open_layers ks (UserToken.EncryptedDEK row) dek d = (Ok value, d) ->
  GetUserTokenDecryptedWithUserDEK userID backendID envKey (Some dek) d = (Ok value, d).
Proof.
  intros (Hf & Hk & _) Hl Hc Ho. unfold GetUserTokenDecryptedWithUserDEK.
  rewrite Hk, sql_row_ok, Hl by done. by rewrite bool_decide_eq_false_2.
Qed.

(** Whatever comes of it, saving a token writes at most that token. *)
Lemma SetUserTokenWithUserDEK_frame ks userID backendID envKey value dek d :
  healthy ks d -> String.length dek = 32%nat ->
  exists r n f, SetUserTokenWithUserDEK userID backendID envKey value (Some dek) d =
    (r, set_user_tokens f (set_rng n d)) /\
    forall key, key <> (userID, backendID, envKey) -> f (user_tokens d) !! key = user_tokens d !! key.
Proof.
  intros Hh Hdek. destruct (token_allowed userID backendID d) eqn:Ha.
  - destruct (SetUserTokenWithUserDEK_ok ks userID backendID envKey value dek d Hh Hdek Ha)
      as (mc & c & n & -> & _). eexists _, n, _. split; [done|]. intros key Hkey.
    by apply lookup_insert_ne.
  - destruct (seal_layers_ok ks value dek d Hh Hdek) as (mc & c & n & Hs & _).
    unfold SetUserTokenWithUserDEK. pose proof Hh as (Hf & Hk & _). rewrite Hk, Hs.
    rewrite sql_checked_ok by done. change (token_allowed userID backendID (set_rng n d))
      with (token_allowed userID backendID d). rewrite Ha.
    eexists _, n, (fun m => m). split; [|done]. by destruct d.
Qed.

(** C12: a service token saved with the key of its user is read back with that
    key, and, as the processes of the backend need it, with the master key
    alone; the plaintext is not in the row. *)
Theorem dual_key_token_roundtrip ks userID backendID envKey value dek d :
  healthy ks d -> String.length dek = 32%nat -> token_allowed userID backendID d = true ->
  exists d' row,
    SetUserTokenWithUserDEK userID backendID envKey value (Some dek) d = (Ok tt, d') /\
    GetUserTokenDecryptedWithUserDEK userID backendID envKey (Some dek) d' = (Ok value, d') /\
    GetUserTokenDecrypted userID backendID envKey d' = (Ok value, d') /\
    user_tokens d' !! (userID, backendID, envKey) = Some row /\ UserToken.Value row = EmptyString.
Proof.
  intros Hh Hdek Ha.
  destruct (SetUserTokenWithUserDEK_ok ks userID backendID envKey value dek d Hh Hdek Ha)
    as (mc & c & n & -> & Hc & Hmc & Ho).
  eexists _, _. split; [done|].
  match goal with |- context [set_user_tokens ?f ?x] => set (d' := set_user_tokens f x) end.
  assert (Hh' : healthy ks d') by (destruct d; apply Hh).
  destruct (Ho d' Hh') as [Ho1 Ho2]. pose proof Hh' as (Hf & Hk & _).
  assert (Hl : user_tokens d' !! (userID, backendID, envKey) =
    Some (UserToken.mk userID backendID envKey EmptyString mc c "user")) by apply lookup_insert_eq.
  split; [by eapply (GetUserTokenDecryptedWithUserDEK_ok ks)|].
  unfold GetUserTokenDecrypted. rewrite Hk, sql_row_ok, Hl by done. cbn [UserToken.Encrypted].
  by rewrite !bool_decide_eq_false_2.
Qed.
End AccountsFacts.

(** A concrete store: the primitives of [Crypto.Toy], a bcrypt that only
    prefixes, one user with a salt and a second factor, one backend. *)
Module DemoAccounts.
#[export] Instance bcrypt : Bcrypt := {|
  bcrypt_generate i pw := if (String.length pw <=? 72)%nat then Some ("$2a$" +:+ pw) else None;
  bcrypt_compare hash pw := bool_decide (hash = "$2a$" +:+ pw)
|}.

#[export] Instance provider : KEKProvider EnvVarProvider.t := env_provider bare_os.

Abbreviation key_store := (KeyStore.t EnvVarProvider.t).

Definition box : key_store :=
  KeyStore.NewKeyStore (EnvVarProvider.mk EmptyString EmptyString (Some "0123456789abcdef")).

Definition salt : string := "c2FsdA==".
Definition ann : UserRow.t := UserRow.mk "ann" "Ann" "ann@example.org" "$2a$pw" salt "user" 0.
Definition root : UserRow.t := UserRow.mk "root" "Root" "root@example.org" "$2a$root" salt "admin" 0.

Definition store : Accounts.t key_store :=
  Accounts.mk {[ "ann" := ann; "root" := root ]} ∅ {[ "ann" := TwoFARow.mk "totp" "sealed" true ]}
    ∅ ∅ ∅ ∅ [] ∅ {[ "github" ]} (Some box) 65 [].

Definition dek : string := "0123456789abcdef0123456789abcdef".
End DemoAccounts.

#[local] Existing Instances Toy.prims Toy.laws DemoAccounts.bcrypt DemoAccounts.provider.

Lemma demo_random i n : is_Some (entropy i n).
Proof. by eexists. Qed.

Lemma demo_healthy : healthy DemoAccounts.box DemoAccounts.store.
Proof. split_and!; [done|done|]. by exists "0123456789abcdef". Qed.

Lemma dual_key_token_roundtrip_witness :
  exists d', GetUserTokenDecryptedWithUserDEK "ann" "github" "TOKEN" (Some DemoAccounts.dek) d' =
    (Ok "ghp_1", d').
Proof.
  destruct (dual_key_token_roundtrip demo_random DemoAccounts.box "ann" "github" "TOKEN" "ghp_1"
    DemoAccounts.dek DemoAccounts.store demo_healthy eq_refl) as (d' & row & _ & Hr & _).
  - by vm_compute.
  - by exists d'.
Defined.
