(* ===== verification/Http.v ===== *)
(** * What the web handlers read of a request and write into a response *)
From S2P Require Import Prelude.

(** [FormValue], [URL.Query().Get], [Cookie] and [Header.Get]; [form_ok]:
    [ParseForm] succeeds. *)
Record request := Request {
  meth : string;
  form : string -> string;
  query : string -> string;
  cookie : string -> option string;
  header : string -> string;
  form_ok : bool
}.

(** The calls that end a handler; a client sees the first one. *)
Inductive response :=
| Redirect (location : string)
| Render (template : string) (err : string) (data : list (string * string))
| HttpError (status : Z) (msg : string)
| Json (status : Z) (fields : list (string * string))
| Panic.

#[export] Instance response_eq_dec : EqDecision response.
Proof. solve_decision. Defined.

Definition isGet (r : request) : bool := bool_decide (meth r = "GET").
Definition isPost (r : request) : bool := bool_decide (meth r = "POST").

Definition MethodNotAllowed : response := HttpError 405 "Method not allowed".
Definition InternalServerError : response := HttpError 500 "Internal Server Error".

Lemma isPost_true r : isPost r = true -> meth r = "POST".
Proof. unfold isPost. by rewrite bool_decide_eq_true. Qed.
