(* ===== verification/TwoFA.v ===== *)
(** * Two-factor authentication: [src/internal/twofa/twofa.go]

    The manager of second factors over a store of secrets.  The only method is
    TOTP, whose codes the library pquerna/otp makes and checks ([Totp]). *)
From S2P Require Import Prelude GoStrings Sql Crypto Accounts.

(** [totp_generate account i]: the secret and the otpauth URL of the [i]-th
    enrolment; [totp_valid code secret now] with a period of 30 seconds, two
    adjacent periods on either side, six digits and SHA-1. *)
Class Totp := {
  totp_generate : string -> nat -> res (string * string);
  totp_valid : string -> string -> Time -> bool
}.

Definition ErrUnknownMethod : error := Errorf "unknown 2FA method".
Definition ErrInvalidCode : error := Errorf "invalid 2FA code".

Module SetupResult.
Record t := mk { Method : string; Secret : string; OtpauthURL : string }.
End SetupResult.

Module TwoFA.
Section TwoFA.
Context {KS : Type} `{SecretBox KS} `{CryptoPrims} `{Totp}.

(** The interface [Method]. *)
Record Method := MkMethod {
  ID : string;
  Setup_ : string -> nat -> res SetupResult.t;
  Verify : string -> string -> Time -> res unit
}.

Definition NewTotpMethod : Method := {|
  ID := "totp";
  Setup_ account i :=
    match totp_generate account i with
    | Ok (secret, url) => Ok (SetupResult.mk "totp" secret url)
    | Err e => Err e
    end;
  Verify secret code now :=
    if bool_decide (code = EmptyString) then Err ErrInvalidCode
    else if totp_valid code secret now then Ok tt else Err ErrInvalidCode
|}.

Definition registeredMethods : gmap string Method := {[ "totp" := NewTotpMethod ]}.

Record Manager := MkManager {
  required : bool;
  order : list string;
  methods : gmap string Method
}.

(** The loop over the ids; the store is never nil. *)
Fixpoint add_methods (ids : list string) (m : Manager) : res Manager :=
  match ids with
  | [] => Ok m
  | id :: ids =>
      match registeredMethods !! id with
      | None => Err (Wrapf "twofa: %w: %s" ErrUnknownMethod)
      | Some method =>
          add_methods ids (MkManager (required m) (order m ++ [id]) (<[id := method]> (methods m)))
      end
  end.

Definition NewManager (methodIDs : list string) (required : bool) : res Manager :=
  match add_methods methodIDs (MkManager required [] ∅) with
  | Err e => Err e
  | Ok m => if bool_decide (order m = []) then Err (Errorf "twofa: no methods configured") else Ok m
  end.

(** An error of the store counts as having none. *)
Definition HasMethod (m : Manager) (userID : string) (d : Accounts.t KS) :
    (bool * string) * Accounts.t KS :=
  match GetUser2FA userID d with
  | (Ok (method, true), d) => ((true, method), d)
  | (_, d) => ((false, EmptyString), d)
  end.

Definition Setup (m : Manager) (userID methodID : string) (i : nat) : res SetupResult.t :=
  match methods m !! methodID with
  | None => Err (Wrapf "%w: %s" ErrUnknownMethod)
  | Some method => Setup_ method userID i
  end.

Definition Enable (m : Manager) (userID methodID secret code : string) (userDEK : option string)
    (now : Time) (d : Accounts.t KS) : res unit * Accounts.t KS :=
  match methods m !! methodID with
  | None => (Err (Wrapf "%w: %s" ErrUnknownMethod), d)
  | Some method =>
      match Verify method secret code now with
      | Err _ => (Err ErrInvalidCode, d)
      | Ok _ => SetUser2FA userID methodID secret userDEK d
      end
  end.

Definition VerifyLogin (m : Manager) (userID methodID code : string) (userDEK : option string)
    (now : Time) (d : Accounts.t KS) : res unit * Accounts.t KS :=
  match methods m !! methodID with
  | None => (Err (Wrapf "%w: %s" ErrUnknownMethod), d)
  | Some method =>
      match GetUser2FASecret userID userDEK d with
      | (Err e, d) => (Err e, d)
      | (Ok secret, d) =>
          match Verify method secret code now with
          | Err _ => (Err ErrInvalidCode, d)
          | Ok _ => (Ok tt, d)
          end
      end
  end.

Definition Delete (m : Manager) (userID : string) (d : Accounts.t KS) : res unit * Accounts.t KS :=
  match DeleteUser2FA userID d with
  | (Err e, d) => (Err e, d)
  | (Ok _, d) => RevokeWebSessions userID d
  end.

End TwoFA.
End TwoFA.
