(* ===== verification/WebAuth.v ===== *)
(** * Web sessions, login and second factors: [src/web/auth.go], [twofa.go], [user.go]

    The handlers of the browser interface that create and use sessions.  The
    keys derived from passwords (DEKs) are slices in memory: the maps of
    sessions, pending logins and pending enrolments hold references to them, and
    a handler that zeroizes one changes it for every holder.  The maps are the
    variables of the package; a handler runs as a whole, on one reading of the
    clock. *)
From S2P Require Import Prelude GoStrings Sql Crypto Accounts Http TwoFA.
Open Scope Z_scope.
Open Scope handler_scope.

(** [ref]: a slice of the heap. *)
Abbreviation ref := nat (only parsing).

Module PendingLogin.
Record t := mk { UserID : string; Method : string; DEK : option ref; ExpiresAt : Z }.
End PendingLogin.

Module PendingSetup.
Record t := mk {
  UserID : string; Method : string; Secret : string; OtpauthURL : string;
  DEK : option ref; Forced : bool; ExpiresAt : Z }.
End PendingSetup.

(** The fields of [Handler] that login and invitations read. *)
Record handler `{Totp} := Handler_ {
  TwoFA : option TwoFA.Manager;
  TwoFAMethods : list string;
  TwoFABypass : bool;
  InviteAllowExisting : bool;
  InviteExpiry : Duration;
  AuthMode : string;
  PublicURL : string
}.

(** The store, the memory, and what the current handler wrote. *)
Record web (KS : Type) := Web {
  store : Accounts.t KS;
  heap : list string;
  sessionDEKStore : gmap string ref;
  pendingLogins : gmap string PendingLogin.t;
  pendingSetups : gmap string PendingSetup.t;
  written : list response;
  set_cookies : list (string * string)
}.
Arguments Web {KS}. Arguments store {KS}. Arguments heap {KS}. Arguments sessionDEKStore {KS}.
Arguments pendingLogins {KS}. Arguments pendingSetups {KS}. Arguments written {KS}.
Arguments set_cookies {KS}.

Definition sessionCookieName : string := "mcp_session".
Definition pendingCookieName : string := "mcp_pending".
Definition setupCookieName : string := "mcp_setup".
Definition sessionTTL : Duration := 86400000000000.
Definition pendingLoginTTL : Z := 300.

(** [Time.Unix()] *)
Definition unix (now : Time) : Z := now / Second.

Section State.
Context {KS : Type}.
Implicit Types w : web KS.

Definition set_store (f : Accounts.t KS -> Accounts.t KS) w : web KS :=
  Web (f (store w)) (heap w) (sessionDEKStore w) (pendingLogins w)
  (pendingSetups w) (written w) (set_cookies w).
Definition set_heap (f : list string -> list string) w : web KS :=
  Web (store w) (f (heap w)) (sessionDEKStore w) (pendingLogins w)
  (pendingSetups w) (written w) (set_cookies w).
Definition set_deks (f : gmap string ref -> gmap string ref) w : web KS :=
  Web (store w) (heap w) (f (sessionDEKStore w)) (pendingLogins w)
  (pendingSetups w) (written w) (set_cookies w).
Definition set_logins (f : gmap string PendingLogin.t -> gmap string PendingLogin.t) w : web KS :=
  Web (store w) (heap w) (sessionDEKStore w) (f (pendingLogins w))
  (pendingSetups w) (written w) (set_cookies w).
Definition set_setups (f : gmap string PendingSetup.t -> gmap string PendingSetup.t) w : web KS :=
  Web (store w) (heap w) (sessionDEKStore w) (pendingLogins w)
  (f (pendingSetups w)) (written w) (set_cookies w).
Definition add_written x w := Web (store w) (heap w) (sessionDEKStore w) (pendingLogins w)
  (pendingSetups w) (written w ++ [x]) (set_cookies w).
Definition add_cookie c w := Web (store w) (heap w) (sessionDEKStore w) (pendingLogins w)
  (pendingSetups w) (written w) (set_cookies w ++ [c]).

(** A new response begins. *)
Definition fresh_response w := Web (store w) (heap w) (sessionDEKStore w) (pendingLogins w)
  (pendingSetups w) [] [].

Definition W (A : Type) : Type := M (web KS) unit A.

(** A call of the store. *)
Definition on_store {A} (f : Accounts.t KS -> A * Accounts.t KS) : W A :=
  state (fun w => let '(a, d) := f (store w) in (a, set_store (fun _ => d) w)).

Definition respond (x : response) : W unit := modify (add_written x).

(** A response followed by [return]. *)
Definition reply {A} (x : response) : W A := respond x ;;; early tt.

Definition setCookie (name value : string) : W unit := modify (add_cookie (name, value)).
Definition clearCookie (name : string) : W unit := setCookie name EmptyString.

Definition cookieValue (r : request) (name : string) : string := default EmptyString (cookie r name).

(** [defer]: the clean-up runs however the body ends. *)
Definition defer {A} (cleanup : web KS -> web KS) (m : W A) : W A :=
  fun w => let '(x, w) := m w in (x, cleanup w).

(** *** Memory *)

Definition alloc (bytes : string) : W ref :=
  state (fun w => (length (heap w), set_heap (fun h => h ++ [bytes]) w)).

Definition deref (p : ref) w : string := heap w !!! p.

Definition zeros (s : string) : string := str_map (fun _ => "000"%char) s.

Definition Zeroize (p : ref) : web KS -> web KS := set_heap (alter zeros p).

(** The bytes of a slice that may be nil. *)
Definition bytes_of (p : option ref) w : option string := (fun p => deref p w) <$> p.

(** Running a handler as one request. *)
Definition serve (h : W unit) w : web KS := (run h (fresh_response w)).2.

Definition answer w : option response := head (written w).
End State.
Arguments W : clear implicits.

Section WebAuth.
Context {KS : Type} `{SecretBox KS} `{CryptoPrims} `{Bcrypt} `{Totp}.
Implicit Types w : web KS.
Local Abbreviation W := (W KS).

(** [UpdateUser] on the user the handler holds. *)
Definition update_user (u : UserRow.t) : W (res unit * UserRow.t) :=
  on_store (fun d => let '(r, u, d) := UpdateUser u d in ((r, u), d)).

(** A new salt. *)
Definition new_salt : W (res string) :=
  on_store (fun d => let '(s, n) := GenerateSalt (Accounts.rng d) in (s, Accounts.set_rng n d)).

(** ** Sessions *)

Definition getSessionUser (r : request) (now : Time) : W (option UserRow.t) :=
  match cookie r sessionCookieName with
  | None => ret None
  | Some value =>
      s <-- on_store (GetWebSession value) ;;
      match s with
      | Err _ => ret None
      | Ok sess =>
          if WebSession.ExpiresAt sess <? now then
            _ <-- on_store (DeleteWebSession (WebSession.Token sess)) ;; ret None
          else
            u <-- on_store (GetUser (WebSession.UserID sess)) ;;
            ret match u with Ok u => Some u | Err _ => None end
      end
  end.

Definition requireAuth (r : request) (now : Time) (next : UserRow.t -> W unit) : W unit :=
  u <-- getSessionUser r now ;;
  match u with
  | None => reply (Redirect "/web/login")
  | Some u => next u
  end.

Definition requireAdmin (r : request) (now : Time) (next : UserRow.t -> W unit) : W unit :=
  requireAuth r now (fun user =>
    if negb (bool_decide (UserRow.Role user = "admin")) then reply (HttpError 403 "Forbidden")
    else next user).

Definition getSessionDEK (r : request) : W (option ref) :=
  gets (fun w => value ← cookie r sessionCookieName; sessionDEKStore w !! value).

(** ** Pending logins *)

(** 16 random bytes in hexadecimal. *)
Definition randomToken : W (res string) :=
  on_store (fun d =>
    let '(bs, n) := read_rand 16 (Accounts.rng d) in
    (match bs with Some bs => Ok (hex_encode bs) | None => Err (Errorf "rand") end,
     Accounts.set_rng n d)).

Definition getPending (r : request) (now : Time) : W (option PendingLogin.t) :=
  let t := cookieValue r pendingCookieName in
  if bool_decide (t = EmptyString) then ret None
  else
    p <-- gets (fun w => pendingLogins w !! t) ;;
    match p with
    | None => ret None
    | Some p =>
        if PendingLogin.ExpiresAt p <? unix now then modify (set_logins (delete t)) ;;; ret None
        else ret (Some p)
    end.

Definition startPendingLogin (user : UserRow.t) (userDEK : option ref) (method : string)
    (now : Time) : W unit :=
  t <-- randomToken ;;
  match t with
  | Err _ => respond InternalServerError
  | Ok token =>
      modify (set_logins (<[token := PendingLogin.mk (UserRow.ID user) method userDEK
                                       (unix now + pendingLoginTTL)]>)) ;;;
      setCookie pendingCookieName token
  end.

(** [CreateWebSession] for a user; the session with its token. *)
Definition new_session (user : UserRow.t) (now : Time) : W (res unit * WebSession.t) :=
  on_store (fun d =>
    let '(r, s, d) :=
      CreateWebSession (WebSession.mk EmptyString (UserRow.ID user) (now + sessionTTL) 0) now d in
    ((r, s), d)).

Definition completeLogin (user : UserRow.t) (userDEK : option ref) (now : Time) : W unit :=
  rs <-- new_session user now ;;
  match rs with
  | (Err _, _) => respond InternalServerError
  | (Ok _, sess) =>
      match userDEK with
      | Some p => modify (set_deks (<[WebSession.Token sess := p]>))
      | None => ret tt
      end ;;;
      setCookie sessionCookieName (WebSession.Token sess)
  end.

(** The key of a user whose password was just checked, in a new slice. *)
Definition derive_dek (user : UserRow.t) (password : string) : W (option ref) :=
  if bool_decide (UserRow.PasswordSalt user = EmptyString) then ret None
  else match DeriveUserDEK password (UserRow.PasswordSalt user) with
       | Err _ => ret None
       | Ok dek => p <-- alloc dek ;; ret (Some p)
       end.

(** The end of [loginPost] and of [autoLogin]: through the second factor where
    the user has one or must have one; [true]: the login is complete. *)
Definition second_phase (h : handler) (user : UserRow.t) (userDEK : option ref) (now : Time) :
    W bool :=
  match TwoFA h with
  | None => completeLogin user userDEK now ;;; ret true
  | Some m =>
      hm <-- on_store (TwoFA.HasMethod m (UserRow.ID user)) ;;
      match hm with
      | (true, method) =>
          startPendingLogin user userDEK method now ;;; respond (Redirect "/web/login/2fa") ;;; ret false
      | (false, _) =>
          if TwoFA.required m then
            startPendingLogin user userDEK EmptyString now ;;;
            respond (Redirect "/web/setup-2fa") ;;; ret false
          else completeLogin user userDEK now ;;; ret true
      end
  end.

(** ** Login *)

(** The hash and the salt a user without them gets at login. *)
Definition upgrade_password (user : UserRow.t) (password : string) : W UserRow.t :=
  if IsBcrypt (UserRow.Password user) then ret user
  else
    hash <-- on_store (HashPassword password) ;;
    match hash with
    | Err _ => ret user
    | Ok hash => ru <-- update_user (UserRow.with_Password hash user) ;; ret ru.2
    end.

Definition upgrade_salt (user : UserRow.t) : W UserRow.t :=
  if negb (bool_decide (UserRow.PasswordSalt user = EmptyString)) then ret user
  else
    salt <-- new_salt ;;
    match salt with
    | Err _ => ret user
    | Ok salt => ru <-- update_user (UserRow.with_PasswordSalt salt user) ;; ret ru.2
    end.

Definition loginPost (h : handler) (r : request) (now : Time) : W unit :=
  let email := trim_space (form r "email") in
  let password := form r "password" in
  found <-- on_store (GetUserByEmail email) ;;
  match found with
  | Err _ => reply (Render "login.html" "Invalid email or password" [])
  | Ok user =>
      if negb (CheckPassword (UserRow.Password user) password) then
        reply (Render "login.html" "Invalid email or password" [])
      else
        user <-- upgrade_password user password ;;
        user <-- upgrade_salt user ;;
        (* a web session already, whose cookie is not set *)
        rs <-- new_session user now ;;
        match rs with
        | (Err _, _) => reply InternalServerError
        | (Ok _, sess) =>
            dek <-- derive_dek user password ;;
            match dek with
            | Some p => modify (set_deks (<[WebSession.Token sess := p]>))
            | None => ret tt
            end ;;;
            userDEK <-- derive_dek user password ;;
            complete <-- second_phase h user userDEK now ;;
            if complete then respond (Redirect "/web/") else ret tt
        end
  end.

Definition LoginHandler (h : handler) (r : request) (now : Time) : W unit :=
  if isGet r then respond (Render "login.html" EmptyString [])
  else if isPost r then loginPost h r now
  else respond MethodNotAllowed.

Definition LogoutHandler (r : request) : W unit :=
  match cookie r sessionCookieName with
  | None => ret tt
  | Some value =>
      dek <-- gets (fun w => sessionDEKStore w !! value) ;;
      match dek with
      | Some p => modify (Zeroize p) ;;; modify (set_deks (delete value))
      | None => ret tt
      end ;;;
      _ <-- on_store (DeleteWebSession value) ;; ret tt
  end ;;;
  clearCookie sessionCookieName ;;; respond (Redirect "/web/login").

(** ** The challenge: /web/login/2fa *)

Definition login2FAGet (r : request) (now : Time) : W unit :=
  p <-- getPending r now ;;
  match p with
  | None => respond (Redirect "/web/login")
  | Some p =>
      if bool_decide (PendingLogin.Method p = EmptyString) then respond (Redirect "/web/setup-2fa")
      else respond (Render "login_2fa.html" EmptyString [])
  end.

(** The pending login is done with. *)
Definition drop_pending (r : request) : W unit :=
  let t := cookieValue r pendingCookieName in
  clearCookie pendingCookieName ;;;
  if bool_decide (t = EmptyString) then ret tt else modify (set_logins (delete t)).

Definition login2FAPost (h : handler) (r : request) (now : Time) : W unit :=
  p <-- getPending r now ;;
  match p with
  | None => reply (Redirect "/web/login")
  | Some p =>
      let code := trim_space (form r "code") in
      (if TwoFABypass h then
         u <-- on_store (GetUser (PendingLogin.UserID p)) ;;
         match u with
         | Ok user => drop_pending r ;;; completeLogin user (PendingLogin.DEK p) now ;;; early tt
         | Err _ => ret tt
         end
       else ret tt) ;;;
      if bool_decide (PendingLogin.Method p = EmptyString) then reply (Redirect "/web/setup-2fa")
      else match TwoFA h with
      | None => reply Panic
      | Some m =>
          dek <-- gets (bytes_of (PendingLogin.DEK p)) ;;
          v <-- on_store (TwoFA.VerifyLogin m (PendingLogin.UserID p) (PendingLogin.Method p) code dek now) ;;
          match v with
          | Err _ => reply (Render "login_2fa.html" "Invalid code. Please try again." [])
          | Ok _ =>
              u <-- on_store (GetUser (PendingLogin.UserID p)) ;;
              match u with
              | Err _ => reply InternalServerError
              | Ok user =>
                  drop_pending r ;;;
                  completeLogin user (PendingLogin.DEK p) now ;;;
                  respond (Redirect "/web/")
              end
          end
      end
  end.

Definition Login2FAHandler (h : handler) (r : request) (now : Time) : W unit :=
  if isGet r then login2FAGet r now
  else if isPost r then login2FAPost h r now
  else respond MethodNotAllowed.

(** ** Enrolment: /web/setup-2fa *)

Definition twoFACreds (r : request) (now : Time) : W (option (string * option ref)) :=
  p <-- getPending r now ;;
  match p with
  | Some p => ret (Some (PendingLogin.UserID p, PendingLogin.DEK p))
  | None =>
      user <-- getSessionUser r now ;;
      match user with
      | None => ret None
      | Some user => dek <-- getSessionDEK r ;; ret (Some (UserRow.ID user, dek))
      end
  end.

(** [len(dek) == 0] *)
Definition no_bytes (dek : option ref) (w : web KS) : bool :=
  match bytes_of dek w with Some s => bool_decide (s = EmptyString) | None => true end.

Definition errMissingSessionDEK : string :=
  "Your session cannot enable two-factor authentication because it predates a service restart.".

Definition setup2FAGet (h : handler) (r : request) (now : Time) : W unit :=
  let q := query r "method" in
  let methodID := if bool_decide (q = EmptyString) then default EmptyString (head (TwoFAMethods h))
                  else q in
  if bool_decide (methodID = EmptyString) then reply (HttpError 400 "No 2FA methods configured")
  else
    creds <-- twoFACreds r now ;;
    match creds with
    | None => reply (Redirect "/web/login")
    | Some (userID, dek) =>
        u <-- on_store (GetUser userID) ;;
        match u with
        | Err _ => reply (Redirect "/web/login")
        | Ok user =>
            pending <-- getPending r now ;;
            nodek <-- gets (no_bytes dek) ;;
            if bool_decide (pending = None) && nodek then
              reply (Render "setup_2fa.html" errMissingSessionDEK [])
            else match TwoFA h with
            | None => reply Panic
            | Some m =>
                res <-- on_store (fun d => (TwoFA.Setup m (UserRow.Email user) methodID (Accounts.rng d),
                                            Accounts.set_rng (S (Accounts.rng d)) d)) ;;
                match res with
                | Err _ => reply (HttpError 500 "Failed to start setup")
                | Ok res =>
                    t <-- randomToken ;;
                    match t with
                    | Err _ => reply InternalServerError
                    | Ok token =>
                        pending <-- getPending r now ;;
                        let forced := negb (bool_decide (pending = None)) in
                        modify (set_setups (<[token :=
                          PendingSetup.mk (UserRow.ID user) methodID (SetupResult.Secret res)
                            (SetupResult.OtpauthURL res) dek forced (unix now + pendingLoginTTL)]>)) ;;;
                        setCookie setupCookieName token ;;;
                        respond (Render "setup_2fa.html" EmptyString
                                   [("Secret", SetupResult.Secret res)])
                    end
                end
            end
        end
    end.

Definition setup2FAPost (h : handler) (r : request) (now : Time) : W unit :=
  let token := cookieValue r setupCookieName in
  if bool_decide (token = EmptyString) then reply (Redirect "/web/login")
  else
    ps <-- gets (fun w => pendingSetups w !! token) ;;
    match ps with
    | None => reply (Redirect "/web/login")
    | Some ps =>
        if PendingSetup.ExpiresAt ps <? unix now then
          modify (set_setups (delete token)) ;;; reply (Redirect "/web/login")
        else
          let code := trim_space (form r "code") in
          if bool_decide (PendingSetup.DEK ps = None) then
            reply (Render "setup_2fa.html" errMissingSessionDEK [])
          else match TwoFA h with
          | None => reply Panic
          | Some m =>
              dek <-- gets (bytes_of (PendingSetup.DEK ps)) ;;
              e <-- on_store (TwoFA.Enable m (PendingSetup.UserID ps) (PendingSetup.Method ps)
                                (PendingSetup.Secret ps) code dek now) ;;
              match e with
              | Err _ => reply (Render "setup_2fa.html" "Invalid code."
                                  [("Secret", PendingSetup.Secret ps)])
              | Ok _ =>
                  u <-- on_store (GetUser (PendingSetup.UserID ps)) ;;
                  match u with
                  | Err _ => reply InternalServerError
                  | Ok user =>
                      clearCookie setupCookieName ;;;
                      modify (set_setups (delete token)) ;;;
                      if PendingSetup.Forced ps then
                        drop_pending r ;;;
                        completeLogin user (PendingSetup.DEK ps) now ;;;
                        respond (Redirect "/web/")
                      else respond (Redirect "/web/2fa?success=2FA+enabled")
                  end
              end
          end
    end.

Definition Setup2FAHandler (h : handler) (r : request) (now : Time) : W unit :=
  if isGet r then setup2FAGet h r now
  else if isPost r then setup2FAPost h r now
  else respond MethodNotAllowed.

(** ** Settings and administration of second factors *)

Definition twoFADisablePost (h : handler) (r : request) (user : UserRow.t) : W unit :=
  match TwoFA h with
  | None => reply (Redirect "/web/2fa?error=2FA+not+available")
  | Some m =>
      if negb (bool_decide (form r "action" = "disable")) then reply (Redirect "/web/2fa")
      else
        e <-- on_store (TwoFA.Delete m (UserRow.ID user)) ;;
        match e with
        | Err _ => reply (Redirect "/web/2fa?error=Failed+to+disable+2FA")
        | Ok _ => respond (Redirect "/web/2fa?success=2FA+disabled")
        end
  end.

Definition TwoFASettingsHandler (h : handler) (r : request) (user : UserRow.t) : W unit :=
  if isPost r then twoFADisablePost h r user
  else if negb (isGet r) then reply MethodNotAllowed
  else
    (* the two results are taken in the wrong order *)
    m <-- on_store (GetUser2FA (UserRow.ID user)) ;;
    respond (Render "2fa.html" (query r "error")
      match m with
      | Ok (method, enabled) =>
          [("Has2FA", method); ("Method", if enabled then "true" else "false")]
      | Err _ => [("Has2FA", EmptyString); ("Method", "false")]
      end).

Definition AdminUsers2FAResetHandler (h : handler) (r : request) : W unit :=
  if negb (isPost r) then reply MethodNotAllowed
  else
    let userID := form r "user_id" in
    if bool_decide (userID = EmptyString) then
      reply (Redirect "/web/admin/users?error=Missing+user")
    else match TwoFA h with
    | None => reply Panic
    | Some m =>
        e <-- on_store (TwoFA.Delete m userID) ;;
        match e with
        | Err _ => reply (Redirect "/web/admin/users?error=Failed+to+reset+2FA")
        | Ok _ => respond (Redirect "/web/admin/users?success=2FA+reset")
        end
    end.

(** ** Service tokens *)

(** The tokens of the page, opened with the key of the session. *)
Fixpoint decrypted_tokens (userID : string) (dek : string) (toks : list UserToken.t) :
    W (list UserToken.t) :=
  match toks with
  | [] => ret []
  | k :: toks =>
      v <-- (if bool_decide (UserToken.EncryptedDEK k = EmptyString) then ret (UserToken.Value k)
             else
               v <-- on_store (GetUserTokenDecryptedWithUserDEK userID (UserToken.BackendID k)
                                 (UserToken.EnvKey k) (Some dek)) ;;
               ret match v with Ok v => v | Err _ => UserToken.Value k end) ;;
      rest <-- decrypted_tokens userID dek toks ;;
      ret (UserToken.mk (UserToken.UserID k) (UserToken.BackendID k) (UserToken.EnvKey k) v
             (UserToken.Encrypted k) (UserToken.EncryptedDEK k) (UserToken.EncryptionType k) :: rest)
  end.

(** [backends]: the ids and [Enabled] flags [ListBackends] returns. *)
Definition TokensHandler (backends : list (string * bool)) (r : request) (user : UserRow.t) :
    W unit :=
  let q := query r "backend" in
  let backendID :=
    if bool_decide (q = EmptyString)
    then default EmptyString (fst <$> (snd <$> list_find (fun b => b.2 = true) backends))
    else q in
  tokens <-- (if bool_decide (backendID = EmptyString) then ret []
              else
                toks <-- on_store (GetUserTokens (UserRow.ID user) backendID) ;;
                ret match toks with Ok toks => toks | Err _ => [] end) ;;
  let render toks := respond (Render "tokens.html" (query r "error")
                       ((fun k => (UserToken.EnvKey k, UserToken.Value k)) <$> toks)) in
  userDEK <-- getSessionDEK r ;;
  match userDEK with
  | None => render tokens
  | Some p =>
      defer (Zeroize p) (
        dek <-- gets (deref p) ;;
        tokens <-- decrypted_tokens (UserRow.ID user) dek tokens ;;
        render tokens)
  end.

Definition TokensSaveHandler (r : request) (user : UserRow.t) : W unit :=
  if negb (isPost r) then reply MethodNotAllowed
  else
    let backendID := form r "backend_id" in
    let envKey := trim_space (form r "env_key") in
    let value := form r "value" in
    let back := "/web/tokens?backend=" +:+ backendID in
    if bool_decide (backendID = EmptyString) || bool_decide (envKey = EmptyString) ||
       bool_decide (value = EmptyString)
    then reply (Redirect (back +:+ "&error=All+fields+required"))
    else
      userDEK <-- getSessionDEK r ;;
      match userDEK with
      | None => respond (HttpError 401 "Session expired")
      | Some p =>
          dek <-- gets (deref p) ;;
          e <-- on_store (SetUserTokenWithUserDEK (UserRow.ID user) backendID envKey value (Some dek)) ;;
          match e with
          | Err _ => reply (Redirect (back +:+ "&error=Failed+to+save+token"))
          | Ok _ => defer (Zeroize p) (respond (Redirect (back +:+ "&success=Token+saved")))
          end
      end.

Definition TokensDeleteHandler (r : request) (user : UserRow.t) : W unit :=
  if negb (isPost r) then reply MethodNotAllowed
  else
    let backendID := form r "backend_id" in
    _ <-- on_store (DeleteUserToken (UserRow.ID user) backendID (form r "env_key")) ;;
    respond (Redirect ("/web/tokens?backend=" +:+ backendID +:+ "&success=Token+deleted")).

(** ** Change of password *)

(** The plaintext of a token: with the old user key, the master key, or as it is
    in the row; an empty result of one way means the next. *)
Definition token_plaintext (userID : string) (dek : string) (k : UserToken.t) : W string :=
  p1 <-- (if negb (bool_decide (UserToken.EncryptedDEK k = EmptyString)) &&
             bool_decide (UserToken.EncryptionType k = "user") then
            v <-- on_store (GetUserTokenDecryptedWithUserDEK userID (UserToken.BackendID k)
                              (UserToken.EnvKey k) (Some dek)) ;;
            ret match v with Ok v => v | Err _ => EmptyString end
          else ret EmptyString) ;;
  p2 <-- (if bool_decide (p1 = EmptyString) && negb (bool_decide (UserToken.Encrypted k = EmptyString)) then
            v <-- on_store (GetUserTokenDecrypted userID (UserToken.BackendID k) (UserToken.EnvKey k)) ;;
            ret match v with Ok v => v | Err _ => EmptyString end
          else ret p1) ;;
  ret (if bool_decide (p2 = EmptyString) then UserToken.Value k else p2).

Fixpoint reencrypt_tokens (userID : string) (oldDEK newDEK : string) (toks : list UserToken.t) :
    W unit :=
  match toks with
  | [] => ret tt
  | k :: toks =>
      plaintext <-- token_plaintext userID oldDEK k ;;
      (if bool_decide (plaintext = EmptyString) then ret tt
       else
         _ <-- on_store (SetUserTokenWithUserDEK userID (UserToken.BackendID k) (UserToken.EnvKey k)
                           plaintext (Some newDEK)) ;; ret tt) ;;;
      reencrypt_tokens userID oldDEK newDEK toks
  end.

(** The second factor is wrapped again; errors are only logged. *)
Definition reencrypt_2fa (userID : string) (oldDEK newDEK : string) : W unit :=
  m <-- on_store (GetUser2FA userID) ;;
  match m with
  | Ok (method, true) =>
      s <-- on_store (GetUser2FASecret userID (Some oldDEK)) ;;
      match s with
      | Ok secret => _ <-- on_store (SetUser2FA userID method secret (Some newDEK)) ;; ret tt
      | Err _ => ret tt
      end
  | _ => ret tt
  end.

Definition password_page (err : string) : response := Render "password.html" err [].

(** The slice of the new key replaces that of the session. *)
Definition replace_session_dek (r : request) (p : ref) : W unit :=
  match cookie r sessionCookieName with
  | None => ret tt
  | Some value =>
      old <-- gets (fun w => sessionDEKStore w !! value) ;;
      match old with Some q => modify (Zeroize q) | None => ret tt end ;;;
      modify (set_deks (<[value := p]>))
  end.

(** The end of the handler: the row of the user; the old key goes last. *)
Definition store_password (user : UserRow.t) (newPw newSalt : string) (old : ref) : W unit :=
  ru <-- update_user (UserRow.with_PasswordSalt newSalt (UserRow.with_Password newPw user)) ;;
  match ru.1 with
  | Err _ => reply (password_page "Failed to update password")
  | Ok _ => defer (Zeroize old) (respond (Render "password.html" EmptyString
              [("Success", "Password updated and tokens re-encrypted")]))
  end.

Definition change_password (r : request) (user : UserRow.t) (newPw : string) : W unit :=
  userDEK <-- getSessionDEK r ;;
  match userDEK with
  | None => reply (password_page "Session expired, please log in again")
  | Some q =>
      newSalt <-- new_salt ;;
      match newSalt with
      | Err _ => reply (password_page "Failed to generate new encryption key")
      | Ok newSalt =>
          match DeriveUserDEK newPw newSalt with
          | Err _ => reply (password_page "Failed to derive new encryption key")
          | Ok newUserDEK =>
              p <-- alloc newUserDEK ;;
              defer (Zeroize p) (
                oldDEK <-- gets (deref q) ;;
                allTokens <-- on_store (GetAllUserTokens (UserRow.ID user)) ;;
                match allTokens with
                | Err _ => ret tt
                | Ok toks => reencrypt_tokens (UserRow.ID user) oldDEK newUserDEK toks
                end ;;;
                reencrypt_2fa (UserRow.ID user) oldDEK newUserDEK ;;;
                replace_session_dek r p ;;;
                store_password user newPw newSalt q)
          end
      end
  end.

Definition PasswordHandler (r : request) (user : UserRow.t) : W unit :=
  if isGet r then respond (password_page EmptyString)
  else if isPost r then
    let current := form r "current_password" in
    let newPw := form r "new_password" in
    let confirm := form r "confirm_password" in
    if negb (CheckPassword (UserRow.Password user) current) then
      reply (password_page "Current password is incorrect")
    else if bool_decide (newPw = EmptyString) then reply (password_page "New password cannot be empty")
    else if negb (bool_decide (newPw = confirm)) then reply (password_page "New passwords do not match")
    else change_password r user newPw
  else respond MethodNotAllowed.

(** ** API keys *)

Definition APIKeysHandler (r : request) (user : UserRow.t) : W unit :=
  keys <-- on_store (ListAPIKeys (UserRow.ID user)) ;;
  respond (Render "apikeys.html" (query r "error")
    match keys with
    | Ok keys => (fun k => (APIKey.ID k, APIKey.Name k)) <$> keys
    | Err _ => []
    end).

Definition APIKeysCreateHandler (r : request) (user : UserRow.t) (now : Time) : W unit :=
  if negb (isPost r) then reply MethodNotAllowed
  else
    let name := if bool_decide (form r "name" = EmptyString) then "API Key" else form r "name" in
    g <-- on_store GenerateAPIKey ;;
    match g with
    | Err _ => reply (Redirect "/web/apikeys?error=Failed+to+generate+key")
    | Ok (key, hash) =>
        c <-- on_store (fun d => let '(r, _, d) := CreateAPIKey
               (APIKey.mk EmptyString (UserRow.ID user) name hash None None 0) now d in (r, d)) ;;
        match c with
        | Err _ => reply (Redirect "/web/apikeys?error=Failed+to+save+key")
        | Ok _ => respond (Render "apikeys.html" EmptyString [("GeneratedKey", key)])
        end
    end.

Definition APIKeysDeleteHandler (r : request) (user : UserRow.t) : W unit :=
  if negb (isPost r) then reply MethodNotAllowed
  else
    let id := form r "id" in
    if bool_decide (id = EmptyString) then reply (Redirect "/web/apikeys?error=Missing+key+ID")
    else
      k <-- on_store (GetAPIKeyByID id) ;;
      match k with
      | Err _ => reply (Redirect "/web/apikeys?error=Key+not+found")
      | Ok k =>
          if negb (bool_decide (APIKey.UserID k = UserRow.ID user)) then
            reply (Redirect "/web/apikeys?error=Key+not+found")
          else
            e <-- on_store (DeleteAPIKey id) ;;
            match e with
            | Err _ => reply (Redirect "/web/apikeys?error=Failed+to+delete+key")
            | Ok _ => respond (Redirect "/web/apikeys?success=Key+deleted")
            end
      end.

End WebAuth.
