(* ===== verification/WebSessions.v ===== *)
(** * What web sessions guarantee

    Theorems about the handlers of [WebAuth]: who passes the guards, what a
    second factor protects, and what becomes of the keys of a session. *)
From S2P Require Import Prelude GoStrings Sql Crypto Accounts Http TwoFA WebAuth.
Open Scope Z_scope.

(** Runs the handler in the goal up to its next test. *)
Ltac handler_simpl :=
  cbv [run bind ret early gets modify state on_store respond reply setCookie clearCookie] in *;
  cbn beta iota zeta in *.

Section Guards.
Context {KS : Type} `{SecretBox KS} `{CryptoPrims} `{Bcrypt} `{Totp}.
Implicit Types w : web KS.

(** The user a request acts for: of a stored session that has not expired. *)
Definition session_user (r : request) (now : Time) w : option UserRow.t :=
  value ← cookie r sessionCookieName;
  s ← Accounts.web_sessions (store w) !! value;
  if WebSession.ExpiresAt s <? now then None else Accounts.users (store w) !! WebSession.UserID s.

(** The user is found exactly when the two statements that look for him do not fail. *)
Lemma getSessionUser_exact r now w :
  exists u w', getSessionUser r now w = (inr u, w') /\ written w' = written w /\
    match session_user r now w with
    | Some v => if failing 2 (store w) then u = None
                else u = Some v /\ exists fs, w' = set_store (Accounts.set_faults fs) w
    | None => u = None
    end.
Proof.
  unfold getSessionUser, session_user. destruct (cookie r sessionCookieName) as [value|];
    [|by eexists _, _].
  handler_simpl. unfold GetWebSession, GetUser, DeleteWebSession.
  rewrite (sql_row_exact (fun d => Accounts.web_sessions d !! value)) by done. rewrite (failing_next 1). cbn [mbind option_bind].
  destruct (failing 1 (store w)); cbn [orb].
  { eexists _, _. split; [reflexivity|]. split; [done|].
    by match goal with |- context [match ?x with Some _ => _ | None => _ end] => destruct x end. }
  destruct (Accounts.web_sessions (store w) !! value) as [s|]; [|by eexists _, _]. cbn [mbind option_bind].
  destruct (WebSession.ExpiresAt s <? now).
  { cbn [store set_store]. destruct (sql_exec _ _) as [re d]. by eexists _, _. }
  cbn [store set_store]. rewrite sql_row_exact by done.
  destruct (failing 1 (Accounts.set_faults _ _)).
  - eexists _, _. split; [reflexivity|]. split; [done|].
    by match goal with |- context [match ?x with Some _ => _ | None => _ end] => destruct x end.
  - cbn [Accounts.users Accounts.set_faults]. destruct (Accounts.users (store w) !! WebSession.UserID s) as [u|];
      eexists _, _; split; try reflexivity; split; try done. split; [done|]. by eexists.
Qed.

(** C7: [requireAdmin] admits exactly administrators, whatever statements fail.  The user
    is that of a stored session that has not expired.  When he is an administrator and
    the two statements that look for him do not fail, the handler behind the guard runs
    for him in a state where nothing has changed; when he is not one, the only answer
    is 403; and without such a user, or when one of the statements fails, it is the
    redirect to the login page. *)
Theorem requireAdmin_guards (r : request) (now : Time) (next : UserRow.t -> W KS unit) w :
  match session_user r now w with
  | Some u =>
      if failing 2 (store w)
      then exists w', run (requireAdmin r now next) w = (tt, add_written (Redirect "/web/login") w') /\
             written w' = written w
      else exists fs, let w' := set_store (Accounts.set_faults fs) w in
        run (requireAdmin r now next) w =
          if decide (UserRow.Role u = "admin") then run (next u) w'
          else (tt, add_written (HttpError 403 "Forbidden") w')
  | None => exists w', run (requireAdmin r now next) w = (tt, add_written (Redirect "/web/login") w') /\
              written w' = written w
  end.
Proof.
  unfold requireAdmin, requireAuth. destruct (getSessionUser_exact r now w) as (u & w' & Hg & Hwr & Hu).
  assert (Hlogin : u = None -> exists w', run (requireAdmin r now next) w = (tt, add_written (Redirect "/web/login") w') /\
    written w' = written w).
  { intros ->. unfold requireAdmin, requireAuth, bind, run. rewrite Hg. by eexists. }
  destruct (session_user r now w) as [v|]; [|by apply Hlogin].
  destruct (failing 2 (store w)); [by apply Hlogin|]. destruct Hu as (-> & fs & ->). exists fs. cbv zeta.
  unfold bind, run. rewrite Hg. case_decide as Hr.
  - by rewrite bool_decide_eq_true_2.
  - by rewrite bool_decide_eq_false_2.
Qed.
End Guards.

(** ** The second factor at login *)

(** Nothing but the key store, the random source and the schedule differs. *)
Definition same_tables {KS} (d d' : Accounts.t KS) : Prop :=
  exists ks n fs, d' = Accounts.set_faults fs (Accounts.set_box ks n d).

Section SecondFactor.
Context {KS : Type} `{SecretBox KS} `{CryptoPrims} `{Bcrypt} `{Totp}.
Implicit Types (d : Accounts.t KS) (w : web KS).

#[export] Instance same_tables_preorder : PreOrder (@same_tables KS).
Proof.
  split.
  - intros d. exists (Accounts.keyStore d), (Accounts.rng d), (Accounts.faults d). by destruct d.
  - intros d d' d'' (ks & n & fs & ->) (ks' & n' & fs' & ->). by exists ks', n', fs'.
Qed.

Lemma same_tables_faults d fs : same_tables d (Accounts.set_faults fs d).
Proof. exists (Accounts.keyStore d), (Accounts.rng d), fs. by destruct d. Qed.

Lemma same_tables_box d ks n : same_tables d (Accounts.set_box ks n d).
Proof. exists ks, n, (Accounts.faults d). by destruct d. Qed.

Lemma open_layers_tables ks c dek d r d' : open_layers ks c dek d = (r, d') -> same_tables d d'.
Proof.
  unfold open_layers, box_decrypt. destruct (default _ _) as [mc|e]; [|by intros [= <- <-]].
  destruct (DecryptSecret mc ks) as [[[pt|e]|] ks']; intros [= <- <-]; apply same_tables_box.
Qed.

Lemma GetUser2FASecret_tables userID dek d r d' :
  GetUser2FASecret userID dek d = (r, d') -> same_tables d d'.
Proof.
  unfold GetUser2FASecret. destruct dek as [dek|]; [|by intros [= <- <-]].
  destruct (Accounts.keyStore d) as [ks|]; [|by intros [= <- <-]].
  destruct (sql_row _ d) as [rr d1] eqn:Hs. apply sql_row_inv in Hs as [[fs ->] _]; [|done].
  intros Hr. transitivity (Accounts.set_faults fs d); [apply same_tables_faults|].
  destruct rr as [row|e]; [|by destruct e; injection Hr as <- <-].
  revert Hr. case_if; [by intros [= <- <-]|]. apply open_layers_tables.
Qed.

Lemma VerifyLogin_inv m userID methodID code dek now d r d' :
  TwoFA.VerifyLogin m userID methodID code dek now d = (r, d') ->
  same_tables d d' /\
  (r = Ok tt -> exists method secret, TwoFA.methods m !! methodID = Some method /\
     (GetUser2FASecret userID dek d).1 = Ok secret /\ TwoFA.Verify method secret code now = Ok tt).
Proof.
  unfold TwoFA.VerifyLogin. destruct (TwoFA.methods m !! methodID) as [method|]; [|by intros [= <- <-]].
  destruct (GetUser2FASecret userID dek d) as [rs d1] eqn:Hs.
  apply GetUser2FASecret_tables in Hs as Ht.
  destruct rs as [secret|e]; [|by intros [= <- <-]].
  destruct (TwoFA.Verify method secret code now) as [[]|e] eqn:Hv; intros [= <- <-]; split; try done.
  intros _. by exists method, secret.
Qed.

Lemma completeLogin_inv user dek now w x w' :
  completeLogin user dek now w = (x, w') ->
  x = inr tt /\ pendingLogins w' = pendingLogins w /\
  forall tok s, Accounts.web_sessions (store w') !! tok = Some s ->
    Accounts.web_sessions (store w) !! tok = Some s \/ WebSession.UserID s = UserRow.ID user.
Proof.
  unfold completeLogin, new_session, CreateWebSession, id_or_new. handler_simpl.
  rewrite bool_decide_eq_true_2 by done. destruct (generateID (store w)) as [token d] eqn:Hg.
  assert (Hd : Accounts.web_sessions d = Accounts.web_sessions (store w))
    by (unfold generateID in Hg; destruct (read_rand _ _); by injection Hg as _ <-).
  unfold sql_checked, sql_stmt. cbn [db_faults db_set_faults Accounts.accounts_database].
  destruct (Accounts.faults d) as [|[] fs] eqn:Hf.
  1, 3: case_if.
  all: cbn [fst snd]; try destruct dek; intros [= <- <-];
    (split_and!; [done|done|]); intros tok s' Hl.
  all: try (left; cbn in Hl; by rewrite Hd in Hl).
  all: cbn in Hl; rewrite Hd, lookup_insert_Some in Hl; destruct Hl as [[_ <-]|[_ ?]]; auto.
Qed.

(** C10: the challenge page lets nobody in without a code.  With the bypass off,
    a web session that appears while [Login2FAHandler] serves a request is for
    the user of the pending login the request carries, which has not expired;
    the user's stored secret opened with the key of that login, and the
    submitted code is valid for it; and the pending login is used up. *)
Theorem login_2fa_needs_code (h : handler) (r : request) (now : Time) w tok s :
  let w' := serve (Login2FAHandler h r now) w in
  let token := cookieValue r pendingCookieName in
  TwoFABypass h = false ->
  Accounts.web_sessions (store w) !! tok = None ->
  Accounts.web_sessions (store w') !! tok = Some s ->
  exists m p u method secret,
    TwoFA h = Some m /\ pendingLogins w !! token = Some p /\ unix now <= PendingLogin.ExpiresAt p /\
    Accounts.users (store w) !! PendingLogin.UserID p = Some u /\ WebSession.UserID s = UserRow.ID u /\
    TwoFA.methods m !! PendingLogin.Method p = Some method /\
    (GetUser2FASecret (PendingLogin.UserID p) (bytes_of (PendingLogin.DEK p) w) (store w)).1 = Ok secret /\
    TwoFA.Verify method secret (trim_space (form r "code")) now = Ok tt /\
    pendingLogins w' !! token = None.
Proof.
  cbv zeta. intros Hby Hnone. unfold serve. set (w0 := fresh_response w).
  assert (Hw0 : store w0 = store w) by done.
  unfold Login2FAHandler, login2FAGet, login2FAPost, getPending, drop_pending. rewrite Hby.
  set (token := cookieValue r pendingCookieName). clearbody token.
  assert (Hno : forall w', store w' = store w -> Accounts.web_sessions (store w') !! tok <> Some s)
    by (intros w' ->; by rewrite Hnone).
  handler_simpl. case_if; [repeat case_match; simplify_eq; cbn; intros Hl; by rewrite Hnone in Hl|].
  case_if; [|intros Hl; by apply Hno in Hl].
  case_if; [intros Hl; by apply Hno in Hl|].
  change (pendingLogins w0) with (pendingLogins w).
  destruct (pendingLogins w !! token) as [p|] eqn:Hp; [|intros Hl; by apply Hno in Hl].
  case_if; [intros Hl; by apply Hno in Hl|].
  case_if; [intros Hl; by apply Hno in Hl|].
  destruct (TwoFA h) as [m|]; [|intros Hl; by apply Hno in Hl].
  change (bytes_of (PendingLogin.DEK p) w0) with (bytes_of (PendingLogin.DEK p) w). rewrite Hw0.
  destruct (TwoFA.VerifyLogin _ _ _ _ _ _ (store w)) as [v d1] eqn:Hv.
  apply VerifyLogin_inv in Hv as [(ks & n & fs & ->) Hv].
  destruct v as [[]|e]; [|intros Hl; cbn in Hl; by rewrite Hnone in Hl].
  destruct (Hv eq_refl) as (method & secret & Hm & Hs & Hc).
  unfold GetUser. cbn [store set_store].
  destruct (sql_row _ _) as [ru d2] eqn:Hu.
  apply sql_row_inv in Hu as [[fs' ->] Hu]; [|done].
  destruct ru as [u|e]; [|intros Hl; cbn in Hl; by rewrite Hnone in Hl].
  match goal with |- context [completeLogin u ?dek now ?w1] =>
    destruct (completeLogin u dek now w1) as [x w2] eqn:Hcl end.
  apply completeLogin_inv in Hcl as (-> & Hpl & Hws). cbn. intros Hl.
  destruct (Hws tok s Hl) as [Hold|Hid]; [cbn in Hold; by rewrite Hnone in Hold|].
  exists m, p, u, method, secret. split_and!; try done.
  - by apply Hu.
  - rewrite Hpl. apply lookup_delete_eq.
Qed.
End SecondFactor.

(** ** What a pending login can do on the enrolment page *)

Section Enrolment.
Context {KS : Type} `{CryptoLaws} `{!SecretBox KS} `{!SecretBoxLaws KS} `{Bcrypt} `{Totp}.
Context (random : forall i n, is_Some (entropy i n)).
Implicit Types (d : Accounts.t KS) (w : web KS).

(** The random tokens of 16 bytes are not in use. *)
Definition fresh_tokens d : Prop :=
  forall i bs, entropy i 16 = Some bs -> Accounts.web_sessions d !! hex_encode bs = None.

Lemma GetUser_ok ks d id u :
  healthy ks d -> Accounts.users d !! id = Some u -> GetUser id d = (Ok u, d).
Proof. intros (Hf & _) Hu. unfold GetUser. by rewrite sql_row_ok, Hu. Qed.

Lemma randomToken_ok w :
  exists bs, entropy (Accounts.rng (store w)) 16 = Some bs /\
    randomToken w = (inr (Ok (hex_encode bs)),
                     set_store (Accounts.set_rng (S (Accounts.rng (store w)))) w).
Proof.
  destruct (random (Accounts.rng (store w)) 16) as [bs Hbs]. exists bs. split; [done|].
  unfold randomToken, on_store, state, read_rand. by rewrite Hbs.
Qed.

Lemma new_session_ok ks user now w :
  healthy ks (store w) -> fresh_tokens (store w) ->
  is_Some (Accounts.users (store w) !! UserRow.ID user) ->
  exists token,
    let s := WebSession.mk token (UserRow.ID user) (now + sessionTTL) now in
    new_session user now w =
      (inr (Ok tt, s), set_store (fun d => Accounts.set_web_sessions <[token := s]>
                         (Accounts.set_rng (S (Accounts.rng d)) d)) w).
Proof.
  intros (Hf & _) Hfresh Hu. destruct (random (Accounts.rng (store w)) 16) as [bs Hbs].
  exists (hex_encode bs). unfold new_session, CreateWebSession, id_or_new, generateID, read_rand.
  handler_simpl. rewrite bool_decide_eq_true_2 by done. rewrite Hbs. cbn [from_option id].
  rewrite sql_checked_ok by done. cbn.
  rewrite bool_decide_eq_true_2 by by eapply Hfresh. by rewrite bool_decide_eq_true_2.
Qed.

Lemma completeLogin_ok ks user p now w :
  healthy ks (store w) -> fresh_tokens (store w) ->
  Accounts.users (store w) !! UserRow.ID user = Some user ->
  exists token w',
    completeLogin user (Some p) now w = (inr tt, w') /\
    set_cookies w' = set_cookies w ++ [(sessionCookieName, token)] /\
    written w' = written w /\ heap w' = heap w /\ sessionDEKStore w' !! token = Some p /\
    (exists s n, store w' = Accounts.set_web_sessions <[token := s]> (Accounts.set_rng n (store w))) /\
    forall r, cookie r sessionCookieName = Some token -> session_user r now w' = Some user.
Proof.
  intros Hh Hfresh Hu.
  destruct (new_session_ok ks user now w Hh Hfresh ltac:(by eexists)) as [token Hn].
  exists token. eexists. split.
  { unfold completeLogin, bind. rewrite Hn. handler_simpl. reflexivity. }
  split_and!; try done.
  - apply lookup_insert_eq.
  - eexists _, _. reflexivity.
  - intros r Hr. unfold session_user. rewrite Hr. cbn. rewrite lookup_insert_eq. cbn.
    replace (_ <? _) with false by (symmetry; apply Z.ltb_ge; unfold sessionTTL; lia). done.
Qed.

Lemma hex_token_nonempty i bs : entropy i 16 = Some bs -> hex_encode bs <> EmptyString.
Proof.
  intros Hbs. apply entropy_length in Hbs. intros Hh. apply (f_equal String.length) in Hh.
  rewrite hex_encode_length in Hh. simpl in Hh. lia.
Qed.

(** [getPending] finds a login that has not expired. *)
Lemma getPending_ok (r : request) now w p :
  cookieValue r pendingCookieName <> EmptyString ->
  pendingLogins w !! cookieValue r pendingCookieName = Some p ->
  unix now <= PendingLogin.ExpiresAt p -> getPending r now w = (inr (Some p), w).
Proof.
  intros Hc Hp He. unfold getPending. rewrite bool_decide_eq_false_2 by done. handler_simpl.
  rewrite Hp. by replace (_ <? _) with false by (symmetry; apply Z.ltb_ge; lia).
Qed.

(** The enrolment page for a pending login: a new pending enrolment. *)
Lemma setup2FAGet_ok ks (h : handler) m methodID method (r : request) (now : Time) w p u :
  healthy ks (store w) -> TwoFA h = Some m -> head (TwoFAMethods h) = Some methodID ->
  methodID <> EmptyString -> TwoFA.methods m !! methodID = Some method ->
  (forall i, exists res, TwoFA.Setup_ method (UserRow.Email u) i = Ok res) ->
  query r "method" = EmptyString -> cookieValue r pendingCookieName <> EmptyString ->
  pendingLogins w !! cookieValue r pendingCookieName = Some p ->
  unix now <= PendingLogin.ExpiresAt p ->
  Accounts.users (store w) !! PendingLogin.UserID p = Some u ->
  exists token res n,
    token <> EmptyString /\
    let ps := PendingSetup.mk (UserRow.ID u) methodID (SetupResult.Secret res)
                (SetupResult.OtpauthURL res) (PendingLogin.DEK p) true (unix now + pendingLoginTTL) in
    setup2FAGet h r now w =
      (inr tt, add_written (Render "setup_2fa.html" EmptyString [("Secret", SetupResult.Secret res)])
         (add_cookie (setupCookieName, token)
         (set_setups <[token := ps]> (set_store (Accounts.set_rng n) w)))).
Proof.
  intros Hh Hm Hhead Hid Hmethod Hsetup Hq Hc Hp He Hu.
  destruct (Hsetup (Accounts.rng (store w))) as [res Hres].
  pose proof (getPending_ok r now w p Hc Hp He) as Hpend.
  unfold setup2FAGet. rewrite Hq, Hhead. cbv zeta.
  rewrite (bool_decide_eq_true_2 (EmptyString = EmptyString)) by done. cbn [from_option id].
  rewrite bool_decide_eq_false_2 by done. unfold twoFACreds.
  unfold bind at 1. unfold bind at 1. rewrite Hpend. unfold ret at 1.
  unfold bind at 1. unfold on_store at 1, state at 1. rewrite (GetUser_ok ks _ _ u) by done.
  assert (Hw : set_store (fun _ => store w) w = w) by by destruct w. rewrite Hw.
  unfold bind at 1. rewrite Hpend. unfold bind at 1, gets at 1.
  rewrite bool_decide_eq_false_2 by done. cbn [andb]. rewrite Hm.
  unfold bind at 1, on_store at 1, state at 1. unfold TwoFA.Setup. rewrite Hmethod, Hres.
  set (w1 := set_store _ w). destruct (randomToken_ok w1) as (bs & Hbs & Ht).
  unfold bind at 1. rewrite Ht. set (w2 := set_store _ w1). unfold bind at 1.
  rewrite (getPending_ok r now w2 p) by done.
  exists (hex_encode bs), res, (Accounts.rng (store w2)).
  split; [by eapply hex_token_nonempty|]. rewrite bool_decide_eq_false_2 by done.
  handler_simpl. reflexivity.
Qed.

(** A valid code of the shown secret completes a forced enrolment. *)
Lemma setup2FAPost_ok ks (h : handler) m method (r : request) (now : Time) w ps p u dek token :
  healthy ks (store w) -> fresh_tokens (store w) -> TwoFA h = Some m ->
  TwoFA.methods m !! PendingSetup.Method ps = Some method ->
  cookie r setupCookieName = Some token -> token <> EmptyString ->
  pendingSetups w !! token = Some ps -> unix now <= PendingSetup.ExpiresAt ps ->
  PendingSetup.Forced ps = true -> PendingSetup.DEK ps = Some p -> deref p w = dek ->
  String.length dek = 32%nat ->
  TwoFA.Verify method (PendingSetup.Secret ps) (trim_space (form r "code")) now = Ok tt ->
  Accounts.users (store w) !! PendingSetup.UserID ps = Some u ->
  UserRow.ID u = PendingSetup.UserID ps -> written w = [] ->
  exists w', setup2FAPost h r now w = (inr tt, w') /\ written w' = [Redirect "/web/"] /\
    (exists sess, (sessionCookieName, sess) ∈ set_cookies w' /\
      forall r3, cookie r3 sessionCookieName = Some sess -> session_user r3 now w' = Some u) /\
    (GetUser2FASecret (PendingSetup.UserID ps) (Some dek) (store w')).1 = Ok (PendingSetup.Secret ps).
Proof.
  intros Hh Hfresh Hm Hmethod Hck Htoken Hps He Hforced Hp Hdek Hlen Hv Hu Huid Hwr.
  destruct (SetUser2FA_ok random ks (PendingSetup.UserID ps) (PendingSetup.Method ps)
    (PendingSetup.Secret ps) dek (store w) Hh Hlen ltac:(by eexists)) as (c & n & Hset & Hc & Hopen).
  assert (Hcv : cookieValue r setupCookieName = token) by (unfold cookieValue; by rewrite Hck).
  unfold setup2FAPost. rewrite Hcv. cbv zeta.
  rewrite bool_decide_eq_false_2 by done.
  unfold bind at 1, gets at 1. rewrite Hps.
  replace (_ <? _) with false by (symmetry; apply Z.ltb_ge; lia).
  rewrite bool_decide_eq_false_2 by by rewrite Hp. rewrite Hm, Hforced, Hp.
  unfold bind at 1, gets at 1. unfold bind at 1, on_store at 1, state at 1.
  cbn [bytes_of fmap option_fmap option_map]. rewrite Hdek.
  unfold TwoFA.Enable. rewrite Hmethod, Hv, Hset.
  set (d1 := Accounts.set_user_2fa _ _). assert (Hh1 : healthy ks d1) by (destruct (store w); apply Hh).
  unfold bind at 1, on_store at 1, state at 1. cbn [store set_store].
  rewrite (GetUser_ok ks _ _ u) by done. unfold drop_pending.
  set (t := cookieValue r pendingCookieName).
  set (w1 := set_store _ _).
  assert (Hrest : exists w2, store w2 = d1 /\ written w2 = [] /\
    (clearCookie setupCookieName;;; modify (set_setups (delete token));;;
      (clearCookie pendingCookieName;;;
       if bool_decide (t = EmptyString) then ret tt else modify (set_logins (delete t)));;;
       completeLogin u (Some p) now;;; respond (Redirect "/web/")) w1 =
    (completeLogin u (Some p) now;;; respond (Redirect "/web/")) w2).
  { handler_simpl. case_if; eexists; (split_and!; [| |reflexivity]); done. }
  destruct Hrest as (w2 & Hw2 & Hwr2 & ->).
  destruct (completeLogin_ok ks u p now w2) as (sess & w3 & Hcl & Hck3 & Hwr3 & _ & _ & Hst & Hsess);
    [by rewrite Hw2|by rewrite Hw2|rewrite Hw2, Huid; done|].
  unfold bind. rewrite Hcl. handler_simpl. eexists. split; [done|]. split_and!.
  - cbn. by rewrite Hwr3, Hwr2.
  - exists sess. split; [|done]. cbn. rewrite Hck3. set_solver.
  - cbn [store add_written]. destruct Hst as (s & n' & ->). rewrite Hw2.
    set (d' := Accounts.set_web_sessions _ _).
    assert (Hd' : healthy ks d') by (destruct (store w); apply Hh).
    rewrite (GetUser2FASecret_ok ks _ (PendingSetup.Method ps) (PendingSetup.Secret ps) dek c d'); try done.
    + apply lookup_insert_eq.
    + by apply Hopen.
Qed.

(** The enrolment page replaces a second factor instead of asking for it.
    Whoever has a pending login, that is a password and nothing else, whatever
    second factor the user already has and the login waits for, opens the page,
    is shown a new secret and posts a code of it: he is logged in as the user,
    whose stored second factor is now the new secret. *)
Theorem setup_replaces_second_factor ks (h : handler) m methodID method (r : request) (now : Time)
    w p u dek :
  healthy ks (store w) -> fresh_tokens (store w) ->
  TwoFA h = Some m -> head (TwoFAMethods h) = Some methodID -> methodID <> EmptyString ->
  TwoFA.methods m !! methodID = Some method ->
  (forall i, exists res, TwoFA.Setup_ method (UserRow.Email u) i = Ok res) ->
  meth r = "GET" -> query r "method" = EmptyString ->
  cookieValue r pendingCookieName <> EmptyString ->
  pendingLogins w !! cookieValue r pendingCookieName = Some p ->
  unix now <= PendingLogin.ExpiresAt p ->
  Accounts.users (store w) !! PendingLogin.UserID p = Some u ->
  UserRow.ID u = PendingLogin.UserID p ->
  bytes_of (PendingLogin.DEK p) w = Some dek -> String.length dek = 32%nat ->
  let w1 := serve (Setup2FAHandler h r now) w in
  exists token secret,
    set_cookies w1 = [(setupCookieName, token)] /\
    answer w1 = Some (Render "setup_2fa.html" EmptyString [("Secret", secret)]) /\
    forall r2, meth r2 = "POST" -> cookie r2 setupCookieName = Some token ->
      TwoFA.Verify method secret (trim_space (form r2 "code")) now = Ok tt ->
      let w2 := serve (Setup2FAHandler h r2 now) w1 in
      answer w2 = Some (Redirect "/web/") /\
      (exists sess, (sessionCookieName, sess) ∈ set_cookies w2 /\
        forall r3, cookie r3 sessionCookieName = Some sess -> session_user r3 now w2 = Some u) /\
      (GetUser2FASecret (PendingLogin.UserID p) (Some dek) (store w2)).1 = Ok secret.
Proof.
  intros Hh Hfresh Hm Hhead Hid Hmethod Hsetup Hget Hq Hc Hp He Hu Huid Hdek Hlen w1.
  destruct (setup2FAGet_ok ks h m methodID method r now (fresh_response w) p u
    Hh Hm Hhead Hid Hmethod Hsetup Hq Hc Hp He Hu) as (token & res & n & Htoken & Hrun).
  assert (Hw1 : w1 = (setup2FAGet h r now (fresh_response w)).2).
  { unfold w1, serve, run, Setup2FAHandler, isGet. rewrite Hget, bool_decide_eq_true_2 by done.
    by rewrite Hrun. }
  rewrite Hrun in Hw1. cbn [snd] in Hw1. clearbody w1. subst w1.
  exists token, (SetupResult.Secret res). split_and!; [done|done|].
  intros r2 Hpost Hcookie Hverify. clear Hrun.
  destruct (PendingLogin.DEK p) as [q|] eqn:Hq'; [|done].
  match goal with |- context [serve _ ?x] => set (w1 := x) end.
  destruct (setup2FAPost_ok ks h m method r2 now (fresh_response w1)
    (PendingSetup.mk (UserRow.ID u) methodID (SetupResult.Secret res)
       (SetupResult.OtpauthURL res) (Some q) true (unix now + pendingLoginTTL)) q u dek token)
    as (w2 & Hrun & Hwr & Hsess & Hsec); try done.
  - apply lookup_insert_eq.
  - unfold pendingLoginTTL. cbn. lia.
  - by injection Hdek.
  - cbn. by rewrite Huid.
  - unfold serve, run, Setup2FAHandler, isGet, isPost. rewrite Hpost.
    rewrite bool_decide_eq_false_2, bool_decide_eq_true_2, Hrun by done. cbn [snd].
    unfold answer. rewrite Hwr, <- Huid. done.
Qed.
End Enrolment.

(** ** The key of a session *)

Section SessionKeys.
Context {KS : Type} `{CryptoLaws} `{!SecretBox KS} `{!SecretBoxLaws KS} `{Bcrypt} `{Totp}.
Context (random : forall i n, is_Some (entropy i n)).
Implicit Types (d : Accounts.t KS) (w : web KS).

Definition zero_key : string := Nat.iter 32 (String "000"%char) EmptyString.

Lemma zeros_key s : String.length s = 32%nat -> zeros s = zero_key.
Proof.
  intros Hl. unfold zero_key. rewrite <- Hl. clear Hl. unfold zeros.
  induction s as [|c s IH]; simpl; [done|]. by rewrite IH.
Qed.

Lemma zeros_length s : String.length (zeros s) = String.length s.
Proof. unfold zeros. induction s as [|c s IH]; simpl; auto. Qed.

Lemma deref_Zeroize p w :
  (p < length (heap w))%nat -> String.length (deref p w) = 32%nat ->
  deref p (Zeroize p w) = zero_key.
Proof.
  intros Hl Hs. rewrite <- (zeros_key (deref p w)) by done. unfold deref.
  apply list_lookup_total_correct. change (alter zeros p (heap w) !! p = Some (zeros (heap w !!! p))).
  by rewrite list_lookup_alter_eq, (list_lookup_lookup_total_lt (heap w) p Hl).
Qed.

Lemma on_store_quiet {A} (f : Accounts.t KS -> A * Accounts.t KS) w a :
  f (store w) = (a, store w) -> on_store f w = (inr a, w).
Proof. intros Hf. unfold on_store, state. rewrite Hf. by destruct w. Qed.

Lemma decrypted_tokens_quiet ks userID dek toks w :
  healthy ks (store w) -> exists l, decrypted_tokens userID dek toks w = (inr l, w).
Proof.
  intros Hh. induction toks as [|k toks [l IH]]; [by eexists|]. cbn [decrypted_tokens].
  unfold bind at 1. case_if.
  - unfold ret at 1, bind at 1. rewrite IH. by eexists.
  - destruct (GetUserTokenDecryptedWithUserDEK_quiet ks userID (UserToken.BackendID k)
      (UserToken.EnvKey k) (Some dek) (store w) Hh) as [r Hr].
    unfold bind at 1. rewrite (on_store_quiet _ _ _ Hr). unfold ret at 1, bind at 1.
    rewrite IH. by eexists.
Qed.

Lemma getSessionDEK_ok (r : request) value p w :
  cookie r sessionCookieName = Some value -> sessionDEKStore w !! value = Some p ->
  getSessionDEK r w = (inr (Some p), w).
Proof. intros Hc Hp. unfold getSessionDEK, gets. rewrite Hc. cbn. by rewrite Hp. Qed.

Lemma TokensHandler_ok ks backends (r : request) user value p w :
  healthy ks (store w) -> cookie r sessionCookieName = Some value ->
  sessionDEKStore w !! value = Some p ->
  exists x, TokensHandler backends r user w = (inr tt, Zeroize p (add_written x w)).
Proof.
  intros Hh Hc Hp. unfold TokensHandler. cbv zeta.
  match goal with |- context [bind ?m ?k] => assert (Ht : exists toks, m w = (inr toks, w)) end.
  { case_if; [by eexists|]. pose proof Hh as [Hf _]. unfold GetUserTokens, sql_query.
    unfold bind. erewrite on_store_quiet by (by rewrite sql_stmt_ok). by eexists. }
  destruct Ht as [toks Ht]. unfold bind at 1. rewrite Ht. unfold bind at 1.
  rewrite (getSessionDEK_ok r value p) by done. unfold defer, bind at 1, gets at 1, bind at 1.
  destruct (decrypted_tokens_quiet ks (UserRow.ID user) (deref p w) toks w Hh) as [l ->].
  eexists. reflexivity.
Qed.

(** Looking at the tokens page destroys the key of the session.  The slice
    that [getSessionDEK] returns is the one the session keeps, and the page
    zeroizes it: from then on a token saved in the session, which succeeds, is
    sealed with 32 zero bytes, with which anybody can open its outer layer. *)
Theorem tokens_page_zeroes_session_key ks backends (r r2 : request) user value p w :
  healthy ks (store w) ->
  cookie r sessionCookieName = Some value -> cookie r2 sessionCookieName = Some value ->
  sessionDEKStore w !! value = Some p -> (p < length (heap w))%nat ->
  String.length (deref p w) = 32%nat ->
  meth r2 = "POST" -> form r2 "backend_id" <> EmptyString ->
  trim_space (form r2 "env_key") <> EmptyString -> form r2 "value" <> EmptyString ->
  token_allowed (UserRow.ID user) (form r2 "backend_id") (store w) = true ->
  let w1 := serve (TokensHandler backends r user) w in
  let w2 := serve (TokensSaveHandler r2 user) w1 in
  answer w2 = Some (Redirect ("/web/tokens?backend=" +:+ form r2 "backend_id" +:+ "&success=Token+saved")) /\
  (GetUserTokenDecryptedWithUserDEK (UserRow.ID user) (form r2 "backend_id")
     (trim_space (form r2 "env_key")) (Some zero_key) (store w2)).1 = Ok (form r2 "value").
Proof.
  intros Hh Hc Hc2 Hp Hlt Hlen Hpost Hb He Hv Ha w1 w2.
  destruct (TokensHandler_ok ks backends r user value p (fresh_response w) Hh Hc Hp) as [x Hrun].
  assert (Hw1 : w1 = Zeroize p (add_written x (fresh_response w)))
    by (unfold w1, serve, run; by rewrite Hrun).
  assert (Hz : deref p (fresh_response w1) = zero_key).
  { rewrite Hw1, <- (zeros_key (deref p w)) by done. unfold deref.
    apply list_lookup_total_correct.
    change (alter zeros p (heap w) !! p = Some (zeros (heap w !!! p))).
    by rewrite list_lookup_alter_eq, (list_lookup_lookup_total_lt (heap w) p Hlt). }
  destruct (SetUserTokenWithUserDEK_ok random ks (UserRow.ID user) (form r2 "backend_id")
    (trim_space (form r2 "env_key")) (form r2 "value") zero_key (store w))
    as (mc & c & n & Hset & Hcn & Hmc & Ho); [done|done|done|].
  assert (Hrun2 : exists w', TokensSaveHandler r2 user (fresh_response w1) = (inr tt, w') /\
    written w' = [Redirect ("/web/tokens?backend=" +:+ form r2 "backend_id" +:+ "&success=Token+saved")] /\
    store w' = (SetUserTokenWithUserDEK (UserRow.ID user) (form r2 "backend_id")
      (trim_space (form r2 "env_key")) (form r2 "value") (Some zero_key) (store w)).2).
  { unfold TokensSaveHandler, isPost. rewrite Hpost. cbv zeta.
    rewrite bool_decide_eq_true_2, !bool_decide_eq_false_2 by done. cbn [negb orb].
    unfold bind at 1. rewrite (getSessionDEK_ok r2 value p) by (done || by rewrite Hw1).
    unfold bind at 1, gets at 1. rewrite Hz.
    unfold bind at 1, on_store at 1, state at 1.
    assert (Hst : store (fresh_response w1) = store w) by by rewrite Hw1.
    rewrite Hst, Hset. unfold defer. handler_simpl. by eexists. }
  destruct Hrun2 as (w' & Hrun2 & Hwr & Hst).
  unfold w2, serve, run. rewrite Hrun2. unfold answer. cbn [snd]. rewrite Hwr, Hst, Hset.
  split; [done|]. cbn [snd].
  set (d' := Accounts.set_user_tokens _ _).
  destruct (Ho d' Hh) as [Ho1 _].
  erewrite (GetUserTokenDecryptedWithUserDEK_ok ks); [reflexivity|done|apply lookup_insert_eq|done|done].
Qed.

(** *** Re-encryption at a change of password *)

(** A token written under another key leaves this one as it is. *)
Definition token_key (userID : string) (k : UserToken.t) : string * string * string :=
  (userID, UserToken.BackendID k, UserToken.EnvKey k).

(** Only tokens and the random source differ. *)
Definition tokens_written (d d' : Accounts.t KS) : Prop :=
  exists n f, d' = Accounts.set_user_tokens f (Accounts.set_rng n d).

#[export] Instance tokens_written_preorder : PreOrder tokens_written.
Proof.
  split.
  - intros d. exists (Accounts.rng d), id. by destruct d.
  - intros d d' d'' (n & f & ->) (n' & f' & ->). exists n', (f' ∘ f). by destruct d.
Qed.

Lemma healthy_written ks d d' : healthy ks d -> tokens_written d d' -> healthy ks d'.
Proof. intros Hh (n & f & ->). apply Hh. Qed.

Lemma token_plaintext_quiet ks userID dek k w :
  healthy ks (store w) -> exists v, token_plaintext userID dek k w = (inr v, w).
Proof.
  intros Hh. unfold token_plaintext.
  destruct (GetUserTokenDecryptedWithUserDEK_quiet ks userID (UserToken.BackendID k)
    (UserToken.EnvKey k) (Some dek) (store w) Hh) as [r1 Hr1].
  destruct (GetUserTokenDecrypted_quiet ks userID (UserToken.BackendID k)
    (UserToken.EnvKey k) (store w) Hh) as [r2 Hr2].
  apply on_store_quiet in Hr1, Hr2. unfold bind, ret.
  repeat case_if; rewrite ?Hr1, ?Hr2; repeat case_if; rewrite ?Hr2; by eexists.
Qed.

(** The first way succeeds for a token of the session's key. *)
Lemma token_plaintext_user ks userID dek k v w :
  healthy ks (store w) -> UserToken.EncryptedDEK k <> EmptyString ->
  UserToken.EncryptionType k = "user" -> v <> EmptyString ->
  Accounts.user_tokens (store w) !! token_key userID k = Some k ->
  open_layers ks (UserToken.EncryptedDEK k) dek (store w) = (Ok v, store w) ->
  token_plaintext userID dek k w = (inr v, w).
Proof.
  intros Hh Hc Ht Hv Hl Ho. unfold token_plaintext.
  pose proof (GetUserTokenDecryptedWithUserDEK_ok ks _ _ _ _ _ _ _ Hh Hl Hc Ho) as Hr.
  apply on_store_quiet in Hr.
  rewrite bool_decide_eq_false_2, bool_decide_eq_true_2 by done. cbn [negb andb].
  unfold bind at 1. unfold bind at 1. rewrite Hr. unfold ret at 1.
  rewrite bool_decide_eq_false_2 by done. cbn [andb]. unfold bind at 1, ret.
  by rewrite bool_decide_eq_false_2.
Qed.

Lemma reencrypt_tokens_other ks userID old new key toks w :
  healthy ks (store w) -> String.length new = 32%nat ->
  key ∉ token_key userID <$> toks ->
  exists d, reencrypt_tokens userID old new toks w = (inr tt, set_store (fun _ => d) w) /\
    tokens_written (store w) d /\ Accounts.user_tokens d !! key = Accounts.user_tokens (store w) !! key.
Proof.
  intros Hh Hnew. revert w Hh. induction toks as [|k toks IH]; intros w Hh Hkey.
  { exists (store w). split_and!; [by destruct w|done|done]. }
  rewrite fmap_cons, not_elem_of_cons in Hkey. destruct Hkey as [Hk Hkey]. cbn [reencrypt_tokens].
  destruct (token_plaintext_quiet ks userID old k w Hh) as [v Hv].
  unfold bind at 1. rewrite Hv. unfold bind at 1. case_if.
  - unfold ret at 1. by apply IH.
  - destruct (SetUserTokenWithUserDEK_frame random ks userID (UserToken.BackendID k)
      (UserToken.EnvKey k) v new (store w) Hh Hnew) as (r & n & f & Hset & Hf).
    unfold bind at 1, on_store at 1, state at 1. rewrite Hset. unfold ret at 1.
    set (w1 := set_store _ w).
    destruct (IH w1) as (d & Hd & Htw & Hl); [apply Hh|done|].
    exists d. split_and!; [done| |].
    + etransitivity; [|done]. by eexists n, f.
    + rewrite Hl. by apply Hf.
Qed.

Lemma reencrypt_tokens_runs ks userID old new toks w :
  healthy ks (store w) -> String.length new = 32%nat ->
  exists d, reencrypt_tokens userID old new toks w = (inr tt, set_store (fun _ => d) w) /\
    tokens_written (store w) d.
Proof.
  intros Hh Hnew.
  destruct (reencrypt_tokens_other ks userID old new (String "x" userID, EmptyString, EmptyString)
    toks w Hh Hnew) as (d & Hd & Htw & _); [|by exists d].
  intros Hin. apply list_elem_of_fmap in Hin as (k & Hk & _). injection Hk as Hk _ _.
  apply (f_equal String.length) in Hk. simpl in Hk. lia.
Qed.

(** Every token of the session's key is wrapped with the new key. *)
Lemma reencrypt_tokens_all ks userID old new toks k v w :
  healthy ks (store w) -> String.length new = 32%nat -> NoDup (token_key userID <$> toks) ->
  k ∈ toks -> token_allowed userID (UserToken.BackendID k) (store w) = true ->
  Accounts.user_tokens (store w) !! token_key userID k = Some k ->
  UserToken.EncryptedDEK k <> EmptyString -> UserToken.EncryptionType k = "user" ->
  v <> EmptyString ->
  (forall d', healthy ks d' -> open_layers ks (UserToken.EncryptedDEK k) old d' = (Ok v, d')) ->
  exists d row, reencrypt_tokens userID old new toks w = (inr tt, set_store (fun _ => d) w) /\
    tokens_written (store w) d /\ Accounts.user_tokens d !! token_key userID k = Some row /\
    UserToken.EncryptedDEK row <> EmptyString /\
    forall d', healthy ks d' -> open_layers ks (UserToken.EncryptedDEK row) new d' = (Ok v, d').
Proof.
  intros Hh Hnew Hnd Hin Ha Hl Hc Ht Hv Hold. revert w Hh Ha Hl.
  induction toks as [|k0 toks IH]; intros w Hh Ha Hl; [by apply not_elem_of_nil in Hin|].
  rewrite fmap_cons, NoDup_cons in Hnd. destruct Hnd as [Hk0 Hnd]. cbn [reencrypt_tokens].
  destruct (decide (token_key userID k0 = token_key userID k)) as [Heq|Hne].
  - assert (k0 = k) as ->.
    { apply elem_of_cons in Hin as [->|Hin]; [done|]. exfalso. apply Hk0. rewrite Heq.
      by apply list_elem_of_fmap_2. }
    unfold bind at 1. rewrite (token_plaintext_user ks userID old k v w) by auto.
    rewrite bool_decide_eq_false_2 by done.
    destruct (SetUserTokenWithUserDEK_ok random ks userID (UserToken.BackendID k) (UserToken.EnvKey k)
      v new (store w) Hh Hnew Ha) as (mc & c & n & Hset & Hcn & _ & Ho).
    unfold bind at 1. unfold bind at 1, on_store at 1, state at 1. rewrite Hset. unfold ret at 1.
    set (w1 := set_store _ w).
    destruct (reencrypt_tokens_other ks userID old new (token_key userID k) toks w1)
      as (d & -> & Htw & Hrow); [apply Hh|done|done|].
    eexists d, _. split_and!; [done| |rewrite Hrow; apply lookup_insert_eq|done|].
    + etransitivity; [|done]. by eexists n, _.
    + intros d' Hd'. by apply Ho.
  - assert (Hin' : k ∈ toks) by (apply elem_of_cons in Hin as [->|?]; done).
    destruct (token_plaintext_quiet ks userID old k0 w Hh) as [v0 Hv0].
    unfold bind at 1. rewrite Hv0. unfold bind at 1. case_if; [unfold ret at 1; by apply IH|].
    destruct (SetUserTokenWithUserDEK_frame random ks userID (UserToken.BackendID k0)
      (UserToken.EnvKey k0) v0 new (store w) Hh Hnew) as (r & n & f & Hset & Hf).
    unfold bind at 1, on_store at 1, state at 1. rewrite Hset. unfold ret at 1.
    set (w1 := set_store _ w).
    destruct (IH Hnd Hin' w1) as (d & row & -> & Htw & Hrest); [apply Hh|apply Ha| |].
    { cbn. rewrite Hf; [done|]. intros He. by apply Hne. }
    exists d, row. split_and!; [done| |apply Hrest..].
    etransitivity; [|done]. by eexists n, f.
Qed.

(** A token, and a second factor, whose outer layer opens with a key. *)
Definition token_opens (ks : KS) d key dek v : Prop :=
  exists row, Accounts.user_tokens d !! key = Some row /\ UserToken.EncryptedDEK row <> EmptyString /\
    forall d', healthy ks d' -> open_layers ks (UserToken.EncryptedDEK row) dek d' = (Ok v, d').

Definition factor_opens (ks : KS) d userID dek s : Prop :=
  exists method c, Accounts.user_2fa d !! userID = Some (TwoFARow.mk method c true) /\
    c <> EmptyString /\ forall d', healthy ks d' -> open_layers ks c dek d' = (Ok s, d').

Lemma user_tokens_NoDup d userID :
  tokens_keyed d ->
  NoDup (token_key userID <$> filter (fun k => UserToken.UserID k = userID) (rows (Accounts.user_tokens d))).
Proof.
  intros Hk. apply NoDup_fmap_2_strong.
  - intros x y. rewrite !list_elem_of_filter, !elem_of_rows.
    intros [Hx [kx Hkx]] [Hy [ky Hky]] Heq. pose proof (Hk _ _ Hkx). pose proof (Hk _ _ Hky).
    unfold token_key in Heq. simplify_eq. congruence.
  - apply NoDup_filter. unfold rows. apply NoDup_fmap_2_strong; [|apply NoDup_map_to_list].
    intros [kx x] [ky y]. rewrite !elem_of_map_to_list. simpl. intros Hx Hy ->.
    f_equal. by rewrite (Hk _ _ Hx), (Hk _ _ Hy).
Qed.

Lemma reencrypt_2fa_ok ks userID old new w :
  healthy ks (store w) -> String.length new = 32%nat ->
  is_Some (Accounts.users (store w) !! userID) ->
  exists n f, reencrypt_2fa userID old new w =
      (inr tt, set_store (fun _ => Accounts.set_user_2fa f (Accounts.set_rng n (store w))) w) /\
    forall s, factor_opens ks (store w) userID old s ->
      factor_opens ks (Accounts.set_user_2fa f (Accounts.set_rng n (store w))) userID new s.
Proof.
  intros Hh Hnew Hu. unfold reencrypt_2fa.
  assert (Hsame : exists n f, @ret (web KS) unit unit tt w =
      (inr tt, set_store (fun _ => Accounts.set_user_2fa f (Accounts.set_rng n (store w))) w) /\
      Accounts.set_user_2fa f (Accounts.set_rng n (store w)) = store w).
  { exists (Accounts.rng (store w)), id. destruct w as [[]]; done. }
  destruct Hsame as (n0 & f0 & Hret & Hst).
  pose proof (on_store_quiet _ _ _ (GetUser2FA_quiet ks userID (store w) Hh)) as Hm.
  unfold bind at 1. rewrite Hm.
  destruct (Accounts.user_2fa (store w) !! userID) as [[method c enabled]|] eqn:Hrow.
  2: { exists n0, f0. split; [done|]. intros s (m' & c' & Hl & _). congruence. }
  cbn [TwoFARow.method TwoFARow.enabled]. destruct enabled.
  2: { exists n0, f0. split; [done|]. intros s (m' & c' & Hl & _). congruence. }
  destruct (GetUser2FASecret_quiet ks userID (Some old) (store w) Hh) as [r Hr].
  unfold bind at 1. rewrite (on_store_quiet _ _ _ Hr).
  assert (Hval : forall s, factor_opens ks (store w) userID old s -> r = Ok s).
  { intros s (m' & c' & Hl & Hc & Ho). rewrite Hrow in Hl. injection Hl as <- <-.
    rewrite (GetUser2FASecret_ok ks userID method s old c (store w)) in Hr by auto.
    by injection Hr. }
  destruct r as [secret|e].
  2: { exists n0, f0. split; [done|]. intros s Hs. by specialize (Hval s Hs). }
  destruct (SetUser2FA_ok random ks userID method secret new (store w) Hh Hnew Hu)
    as (c' & n & Hset & Hc' & Ho').
  unfold bind, on_store at 1, state at 1. rewrite Hset.
  eexists n, _. split; [reflexivity|]. intros s Hs. specialize (Hval s Hs). injection Hval as ->.
  exists method, c'. split_and!; [apply lookup_insert_eq|done|done].
Qed.

(** What the change of password has done when it comes to the row of the user. *)
Lemma change_password_core ks (r : request) user newPw value q w :
  healthy ks (store w) -> tokens_keyed (store w) ->
  Accounts.users (store w) !! UserRow.ID user = Some user ->
  cookie r sessionCookieName = Some value -> sessionDEKStore w !! value = Some q ->
  (q < length (heap w))%nat ->
  let old := deref q w in
  let userID := UserRow.ID user in
  exists salt dek p w3,
    DeriveUserDEK newPw salt = Ok dek /\
    change_password r user newPw w = defer (Zeroize p) (store_password user newPw salt q) w3 /\
    healthy ks (store w3) /\ Accounts.users (store w3) = Accounts.users (store w) /\
    written w3 = written w /\
    (forall k v, k ∈ rows (Accounts.user_tokens (store w)) -> UserToken.UserID k = userID ->
       token_allowed userID (UserToken.BackendID k) (store w) = true ->
       UserToken.EncryptionType k = "user" -> v <> EmptyString ->
       token_opens ks (store w) (token_key userID k) old v ->
       token_opens ks (store w3) (token_key userID k) dek v) /\
    (forall s, factor_opens ks (store w) userID old s -> factor_opens ks (store w3) userID dek s) /\
    sessionDEKStore w3 !! value = Some p /\ (p < length (heap w3))%nat /\
    String.length (deref p w3) = 32%nat.
Proof.
  intros Hh Hkeyed Hu Hc Hq Hlt old userID.
  destruct (random (Accounts.rng (store w)) SaltSize) as [bs Hbs].
  assert (Hsalt : GenerateSalt (Accounts.rng (store w)) =
    (Ok (b64_encode true bs), S (Accounts.rng (store w))))
    by (unfold GenerateSalt, read_rand; by rewrite Hbs).
  destruct (GenerateSalt_derives newPw _ _ _ Hsalt) as (dek & Hdek & Hlen).
  set (salt := b64_encode true bs) in *. exists salt, dek, (length (heap w)).
  unfold change_password. unfold bind at 1. rewrite (getSessionDEK_ok r value q) by done.
  unfold bind at 1, new_salt, on_store at 1, state at 1. rewrite Hsalt, Hdek.
  unfold bind at 1, alloc, state at 1. cbn [heap set_store].
  set (p := length (heap w)). set (w1 := set_heap _ _).
  assert (Hh1 : healthy ks (store w1)) by apply Hh.
  assert (Hold : deref q w1 = old).
  { unfold deref, old, w1, deref. cbn [heap set_heap set_store]. by rewrite lookup_total_app_l. }
  set (toks := filter (fun k => UserToken.UserID k = userID) (rows (Accounts.user_tokens (store w)))).
  destruct (reencrypt_tokens_runs ks userID old dek toks w1 Hh1 Hlen) as (d1 & Hre & Htw).
  set (w2 := set_store (fun _ => d1) w1) in *.
  assert (Hh2 : healthy ks (store w2)) by by apply (healthy_written ks (store w1)).
  assert (Hu2 : Accounts.users (store w2) = Accounts.users (store w))
    by (destruct Htw as (n & f & Hd1); cbn; by rewrite Hd1).
  destruct (reencrypt_2fa_ok ks userID old dek w2 Hh2 Hlen) as (n & f & H2fa & Hfactor).
  { rewrite Hu2. by eexists. }
  set (w2' := set_store _ w2) in *.
  exists (set_deks <[value := p]> (Zeroize q w2')). split_and!.
  - done.
  - unfold defer. match goal with |- (let '(_, _) := ?a in _) = (let '(_, _) := ?b in _) =>
      assert (a = b) as ->; [|done] end.
    unfold bind at 1, gets at 1. rewrite Hold. unfold bind at 1.
    unfold GetAllUserTokens, sql_query.
    rewrite (on_store_quiet _ _ (Ok toks)) by (rewrite sql_stmt_ok; [done|apply Hh1]).
    unfold bind at 1. fold userID. rewrite Hre. unfold bind at 1. rewrite H2fa. unfold bind at 1, replace_session_dek.
    rewrite Hc. unfold bind at 1, gets at 1. cbn [sessionDEKStore w2' set_store w2 w1 set_heap].
    rewrite Hq. reflexivity.
  - apply Hh2.
  - apply Hu2.
  - done.
  - intros k v Hk Hid Ha Ht Hv (row & Hl & Hcn & Hopen).
    assert (row = k) as ->.
    { apply elem_of_rows in Hk as [kk Hkk]. pose proof (Hkeyed _ _ Hkk).
      unfold token_key in Hl. rewrite <- Hid in Hl. simplify_eq. congruence. }
    destruct (reencrypt_tokens_all ks userID old dek toks k v w1) as (d & row & Hre' & _ & Hr); try done.
    + by apply user_tokens_NoDup.
    + by apply list_elem_of_filter.
    + rewrite Hre in Hre'. injection Hre' as Hd. exists row. cbn. by rewrite Hd.
  - intros s (m' & c & Hl & Hcn & Hopen). apply Hfactor. exists m', c. split; [|done].
    destruct Htw as (n' & f' & Hd1). cbn. by rewrite Hd1.
  - cbn. apply lookup_insert_eq.
  - cbn. rewrite length_alter, length_app. simpl. lia.
  - unfold deref. cbn [heap set_deks Zeroize set_heap w2' set_store w2 w1].
    rewrite list_lookup_total_alter_ne by (unfold p; lia).
    by rewrite list_lookup_total_middle.
Qed.

(** The secrets of a user that open with [old] open with [dek] in the other
    store. *)
Definition rewrapped userID (old dek : string) d d' : Prop :=
  (forall k v, Accounts.user_tokens d !! token_key userID k = Some k ->
     token_allowed userID (UserToken.BackendID k) d = true ->
     UserToken.EncryptedDEK k <> EmptyString -> UserToken.EncryptionType k = "user" ->
     v <> EmptyString ->
     (GetUserTokenDecryptedWithUserDEK userID (UserToken.BackendID k) (UserToken.EnvKey k)
        (Some old) d).1 = Ok v ->
     (GetUserTokenDecryptedWithUserDEK userID (UserToken.BackendID k) (UserToken.EnvKey k)
        (Some dek) d').1 = Ok v) /\
  (forall method s, (GetUser2FA userID d).1 = Ok (method, true) ->
     (GetUser2FASecret userID (Some old) d).1 = Ok s ->
     (GetUser2FASecret userID (Some dek) d').1 = Ok s).

Lemma rewrapped_opens ks userID old dek d d' :
  healthy ks d -> healthy ks d' -> tokens_keyed d ->
  (forall k v, k ∈ rows (Accounts.user_tokens d) -> UserToken.UserID k = userID ->
     token_allowed userID (UserToken.BackendID k) d = true ->
     UserToken.EncryptionType k = "user" -> v <> EmptyString ->
     token_opens ks d (token_key userID k) old v -> token_opens ks d' (token_key userID k) dek v) ->
  (forall s, factor_opens ks d userID old s -> factor_opens ks d' userID dek s) ->
  rewrapped userID old dek d d'.
Proof.
  intros Hh Hh' Hkeyed Htok Hfac. split.
  - intros k v Hk Ha Hc Ht Hv Hg.
    assert (Ho : token_opens ks d' (token_key userID k) dek v).
    { apply Htok; try done.
      - apply elem_of_rows. by eexists.
      - pose proof (Hkeyed _ _ Hk) as He. by injection He.
      - exists k. split_and!; [done|done|]. intros d'' Hd''. apply (open_layers_stable ks _ _ _ d); try done.
        unfold GetUserTokenDecryptedWithUserDEK in Hg. pose proof Hh as (Hf & Hks & _).
        rewrite Hks, sql_row_ok in Hg by done. unfold token_key in Hk. rewrite Hk in Hg.
        by rewrite bool_decide_eq_false_2 in Hg by done. }
    destruct Ho as (row & Hl & Hcr & Hopen).
    by rewrite (GetUserTokenDecryptedWithUserDEK_ok ks _ _ _ row dek v d') by auto.
  - intros method s Hm Hg. rewrite (GetUser2FA_quiet ks) in Hm by done. cbn [fst] in Hm.
    destruct (Accounts.user_2fa d !! userID) as [[m c en]|] eqn:Hrow; [|done].
    cbn [TwoFARow.method TwoFARow.enabled] in Hm. injection Hm as -> ->.
    destruct (Hfac s) as (m' & c' & Hl & Hc & Hopen).
    + exists method, c. split; [done|].
      unfold GetUser2FASecret in Hg. pose proof Hh as (Hf & Hks & _).
      rewrite Hks, sql_row_ok, Hrow in Hg by done. cbn [TwoFARow.secret] in Hg.
      case_if; [done|]. split; [done|]. intros d'' Hd''. by apply (open_layers_stable ks _ _ _ d).
    + by rewrite (GetUser2FASecret_ok ks userID m' s dek c' d') by auto.
Qed.

(** The passwords of the form are in order. *)
Definition password_form (r : request) (user : UserRow.t) (newPw : string) : Prop :=
  meth r = "POST" /\ CheckPassword (UserRow.Password user) (form r "current_password") = true /\
  form r "new_password" = newPw /\ form r "confirm_password" = newPw /\ newPw <> EmptyString /\
  IsBcrypt newPw = false.

Lemma PasswordHandler_form (r : request) user newPw w :
  password_form r user newPw ->
  serve (PasswordHandler r user) w = (run (change_password r user newPw) (fresh_response w)).2.
Proof.
  intros (Hm & Hc & Hn & Hn' & Hne & _). unfold serve, PasswordHandler, isGet, isPost.
  rewrite Hm, Hc, Hn, Hn'. cbv zeta.
  rewrite (bool_decide_eq_false_2 ("POST" = "GET")) by done.
  rewrite (bool_decide_eq_true_2 ("POST" = "POST")) by done.
  rewrite (bool_decide_eq_false_2 (newPw = EmptyString)) by done.
  by rewrite (bool_decide_eq_true_2 (newPw = newPw)).
Qed.

(** C19: a change of password keeps the secrets of the user.  After it, every
    service token and the second factor that the key of the session opened open
    with the key derived from the new password and the salt now in the user's
    row, whose password is a hash of the new one; but the session is left with a
    key of zeros, because the slice put into it is zeroized on return. *)
Theorem password_change_rewraps ks (r : request) user newPw value q w :
  healthy ks (store w) -> tokens_keyed (store w) ->
  Accounts.users (store w) !! UserRow.ID user = Some user ->
  email_taken (UserRow.ID user) (UserRow.Email user) (store w) = false ->
  cookie r sessionCookieName = Some value -> sessionDEKStore w !! value = Some q ->
  (q < length (heap w))%nat -> password_form r user newPw ->
  (forall i, is_Some (bcrypt_generate i newPw)) ->
  let w' := serve (PasswordHandler r user) w in
  exists salt dek i hash p,
    DeriveUserDEK newPw salt = Ok dek /\ bcrypt_generate i newPw = Some hash /\
    Accounts.users (store w') !! UserRow.ID user =
      Some (UserRow.with_PasswordSalt salt (UserRow.with_Password hash user)) /\
    rewrapped (UserRow.ID user) (deref q w) dek (store w) (store w') /\
    sessionDEKStore w' !! value = Some p /\ deref p w' = zero_key.
Proof.
  intros Hh Hkeyed Hu Hmail Hc Hq Hlt Hform Hgen w'. unfold w'.
  rewrite (PasswordHandler_form r user newPw) by done.
  destruct (change_password_core ks r user newPw value q (fresh_response w) Hh Hkeyed Hu Hc Hq Hlt)
    as (salt & dek & p & w3 & Hdek & Hrun & Hh3 & Hu3 & Hwr & Htok & Hfac & Hp & Hpl & Hpz).
  destruct Hform as (_ & _ & _ & _ & Hne & Hb).
  destruct (Hgen (Accounts.rng (store w3))) as [hash Hhash].
  exists salt, dek, (Accounts.rng (store w3)), hash, p.
  set (row := UserRow.with_PasswordSalt salt (UserRow.with_Password hash user)).
  assert (Hup : UpdateUser (UserRow.with_PasswordSalt salt (UserRow.with_Password newPw user)) (store w3) =
    (Ok tt, row, Accounts.set_users (alter (updated row) (UserRow.ID user))
                   (Accounts.set_rng (S (Accounts.rng (store w3))) (store w3)))).
  { unfold UpdateUser, hashed.
    cbn [UserRow.with_PasswordSalt UserRow.with_Password UserRow.Password].
    rewrite Hb, bool_decide_eq_false_2 by done. cbn [negb andb]. unfold HashPassword.
    cbn [UserRow.with_PasswordSalt UserRow.with_Password UserRow.Password]. rewrite Hhash.
    rewrite sql_checked_ok by apply Hh3. cbn [UserRow.ID UserRow.with_PasswordSalt UserRow.with_Password].
    unfold email_taken in *. cbn in *. rewrite Hu3, Hmail, orb_true_r. done. }
  assert (Hfin : (run (change_password r user newPw) (fresh_response w)).2 =
    Zeroize p (Zeroize q (add_written (Render "password.html" EmptyString
      [("Success", "Password updated and tokens re-encrypted")])
      (set_store (fun _ => (UpdateUser (UserRow.with_PasswordSalt salt
         (UserRow.with_Password newPw user)) (store w3)).2) w3)))).
  { unfold run. rewrite Hrun. unfold defer, store_password, update_user. handler_simpl. by rewrite Hup. }
  rewrite Hfin, Hup. cbn [snd].
  match goal with |- context [Zeroize p (Zeroize q ?x)] => set (w4 := x) end.
  split_and!; [done|done| | | |].
  - cbn. rewrite lookup_alter_eq, Hu3. cbn. rewrite Hu. by destruct user.
  - apply (rewrapped_opens ks); [exact Hh|exact Hh3|exact Hkeyed|exact Htok|exact Hfac].
  - done.
  - apply deref_Zeroize; [cbn; by rewrite length_alter|]. unfold deref, w4. cbn.
    destruct (decide (p = q)) as [->|Hpq].
    + rewrite list_lookup_total_alter_eq, zeros_length by done. apply Hpz.
    + by rewrite list_lookup_total_alter_ne.
Qed.

(** A new password that bcrypt refuses (more than 72 bytes) is refused too
    late.  The handler answers that the update failed and the user's row, with
    the old password and salt, stays; but by then the secrets have been wrapped
    with the key of the refused password and a salt that is stored nowhere. *)
Theorem long_password_orphans_secrets ks (r : request) user newPw value q w :
  healthy ks (store w) -> tokens_keyed (store w) ->
  Accounts.users (store w) !! UserRow.ID user = Some user ->
  cookie r sessionCookieName = Some value -> sessionDEKStore w !! value = Some q ->
  (q < length (heap w))%nat -> password_form r user newPw ->
  (forall i, bcrypt_generate i newPw = None) ->
  let w' := serve (PasswordHandler r user) w in
  answer w' = Some (password_page "Failed to update password") /\
  Accounts.users (store w') = Accounts.users (store w) /\
  exists salt dek, DeriveUserDEK newPw salt = Ok dek /\
    rewrapped (UserRow.ID user) (deref q w) dek (store w) (store w').
Proof.
  intros Hh Hkeyed Hu Hc Hq Hlt Hform Hgen w'. unfold w'. rewrite (PasswordHandler_form r user newPw) by done.
  destruct (change_password_core ks r user newPw value q (fresh_response w) Hh Hkeyed Hu Hc Hq Hlt)
    as (salt & dek & p & w3 & Hdek & Hrun & Hh3 & Hu3 & Hwr & Htok & Hfac & _).
  destruct Hform as (_ & _ & _ & _ & Hne & Hb).
  assert (Hup : UpdateUser (UserRow.with_PasswordSalt salt (UserRow.with_Password newPw user)) (store w3) =
    (Err (Errorf "bcrypt: password length exceeds 72 bytes"),
     UserRow.with_PasswordSalt salt (UserRow.with_Password newPw user),
     Accounts.set_rng (S (Accounts.rng (store w3))) (store w3))).
  { unfold UpdateUser, hashed. cbn [UserRow.with_PasswordSalt UserRow.with_Password UserRow.Password].
    rewrite Hb, bool_decide_eq_false_2 by done. cbn [negb andb]. unfold HashPassword.
    cbn [UserRow.with_PasswordSalt UserRow.with_Password UserRow.Password]. by rewrite Hgen. }
  assert (Hfin : (run (change_password r user newPw) (fresh_response w)).2 =
    Zeroize p (add_written (password_page "Failed to update password")
      (set_store (fun _ => Accounts.set_rng (S (Accounts.rng (store w3))) (store w3)) w3))).
  { unfold run. rewrite Hrun. unfold defer, store_password, update_user. handler_simpl. by rewrite Hup. }
  rewrite Hfin. split_and!.
  - unfold answer. cbn. by rewrite Hwr.
  - cbn. by rewrite Hu3.
  - exists salt, dek. split; [done|]. by apply (rewrapped_opens ks).
Qed.
End SessionKeys.

(** ** A concrete console *)

Module DemoWeb.
#[export] Instance totp : Totp := {|
  totp_generate account i := Ok ("secret of " +:+ account, "otpauth://totp/" +:+ account);
  totp_valid code secret now := bool_decide (code = "code for " +:+ secret)
|}.

#[local] Existing Instances Toy.prims Toy.laws DemoAccounts.bcrypt DemoAccounts.provider.

Definition manager : TwoFA.Manager := TwoFA.MkManager false ["totp"] {[ "totp" := TwoFA.NewTotpMethod ]}.
Definition console : handler := Handler_ _ (Some manager) ["totp"] false false Hour "local" EmptyString.

(** Ann's second factor and one token are sealed with her key; she has a session
    and a login that waits for a code. *)
Definition accounts : Accounts.t DemoAccounts.key_store :=
  (SetUserTokenWithUserDEK "ann" "github" "TOKEN" "ghp_1" (Some DemoAccounts.dek)
     (SetUser2FA "ann" "totp" "old secret" (Some DemoAccounts.dek) DemoAccounts.store).2).2.

Definition web0 : web DemoAccounts.key_store :=
  Web (Accounts.set_web_sessions <["sess" := WebSession.mk "sess" "ann" 1000 0]> accounts)
    [DemoAccounts.dek; DemoAccounts.dek] {[ "sess" := 0%nat ]}
    {[ "pend" := PendingLogin.mk "ann" "totp" (Some 1%nat) 300 ]} ∅ [] [].

Definition req (m : string) (cookies form : list (string * string)) : request :=
  Request m (fun k => default EmptyString (snd <$> (snd <$> list_find (fun kv => kv.1 = k) form)))
    (fun _ => EmptyString)
    (fun k => snd <$> (snd <$> list_find (fun kv => kv.1 = k) cookies)) (fun _ => EmptyString) true.
End DemoWeb.

#[local] Existing Instances Toy.prims Toy.laws DemoAccounts.bcrypt DemoAccounts.provider DemoWeb.totp.

Lemma demo_web_healthy : healthy DemoAccounts.box (store DemoWeb.web0).
Proof. split_and!; [by vm_compute|by vm_compute|]. by exists "0123456789abcdef". Qed.

Lemma demo_web_keyed : tokens_keyed (store DemoWeb.web0).
Proof.
  assert (H : map_Forall (fun key k =>
    key = (UserToken.UserID k, UserToken.BackendID k, UserToken.EnvKey k))
    (Accounts.user_tokens (store DemoWeb.web0)))
    by (apply (bool_decide_unpack _); vm_compute; exact I).
  intros key k Hk. exact (H key k Hk).
Qed.

Lemma demo_web_fresh : fresh_tokens (store DemoWeb.web0).
Proof.
  intros i bs Hbs. apply entropy_length in Hbs.
  change (Accounts.web_sessions (store DemoWeb.web0)) with
    (<["sess" := WebSession.mk "sess" "ann" 1000 0]> (Accounts.web_sessions DemoWeb.accounts)).
  assert (Accounts.web_sessions DemoWeb.accounts = ∅) as -> by by vm_compute.
  rewrite lookup_insert_ne; [apply lookup_empty|]. intros Heq.
  apply (f_equal String.length) in Heq. rewrite hex_encode_length, Hbs in Heq. done.
Qed.

Lemma login_2fa_needs_code_witness :
  exists method, TwoFA.Verify method "old secret" "code for old secret" 0 = Ok tt.
Proof.
  set (r := DemoWeb.req "POST" [(pendingCookieName, "pend")] [("code", " code for old secret ")]).
  set (tok := default EmptyString (snd <$> (head (filter (fun c => c.1 = sessionCookieName)
    (set_cookies (serve (Login2FAHandler DemoWeb.console r 0) DemoWeb.web0)))))).
  destruct (login_2fa_needs_code DemoWeb.console r 0 DemoWeb.web0 tok
    (WebSession.mk tok "ann" sessionTTL 0)) as (m & p & u & method & secret & Hm & Hp & _ & _ & _ & _ & Hs & Hv & _).
  1-3: by vm_compute.
  exists method. injection Hm as <-. vm_compute in Hp. injection Hp as <-. vm_compute in Hs.
  injection Hs as <-. exact Hv.
Defined.

(** The login waits for a code of the old secret, which is never asked for. *)
Lemma setup_replaces_second_factor_witness :
  let w1 := serve (Setup2FAHandler DemoWeb.console (DemoWeb.req "GET" [(pendingCookieName, "pend")] []) 0)
              DemoWeb.web0 in
  exists token secret,
    answer w1 = Some (Render "setup_2fa.html" EmptyString [("Secret", secret)]) /\
    forall r2, meth r2 = "POST" -> cookie r2 setupCookieName = Some token ->
      TwoFA.Verify TwoFA.NewTotpMethod secret (trim_space (form r2 "code")) 0 = Ok tt ->
      answer (serve (Setup2FAHandler DemoWeb.console r2 0) w1) = Some (Redirect "/web/").
Proof.
  cbv zeta. set (r := DemoWeb.req "GET" [(pendingCookieName, "pend")] []).
  destruct (setup_replaces_second_factor demo_random DemoAccounts.box DemoWeb.console DemoWeb.manager
    "totp" TwoFA.NewTotpMethod r 0 DemoWeb.web0 (PendingLogin.mk "ann" "totp" (Some 1%nat) 300)
    DemoAccounts.ann DemoAccounts.dek) as (token & secret & _ & Ha & Hall);
    try done.
  - apply demo_web_healthy.
  - apply demo_web_fresh.
  - intros i. by eexists.
  - exists token, secret. split; [exact Ha|]. intros r2 Hm Hc Hv. exact (proj1 (Hall r2 Hm Hc Hv)).
Defined.

Lemma tokens_page_zeroes_session_key_witness :
  exists w2 : web DemoAccounts.key_store,
    (GetUserTokenDecryptedWithUserDEK "ann" "github" "NEW" (Some zero_key) (store w2)).1 = Ok "ghp_2".
Proof.
  set (r := DemoWeb.req "GET" [(sessionCookieName, "sess")] []).
  set (r2 := DemoWeb.req "POST" [(sessionCookieName, "sess")]
    [("backend_id", "github"); ("env_key", "NEW"); ("value", "ghp_2")]).
  destruct (tokens_page_zeroes_session_key demo_random DemoAccounts.box [("github", true)] r r2
    DemoAccounts.ann "sess" 0%nat DemoWeb.web0) as [_ Hz].
  - apply demo_web_healthy.
  - reflexivity.
  - reflexivity.
  - by vm_compute.
  - cbn. lia.
  - by vm_compute.
  - reflexivity.
  - done.
  - by vm_compute.
  - done.
  - by vm_compute.
  - eexists. exact Hz.
Defined.

Definition demo_password (newPw : string) : request :=
  DemoWeb.req "POST" [(sessionCookieName, "sess")]
    [("current_password", "pw"); ("new_password", newPw); ("confirm_password", newPw)].

Lemma password_change_rewraps_witness :
  exists salt dek, DeriveUserDEK "pw2" salt = Ok dek /\
    (GetUserTokenDecryptedWithUserDEK "ann" "github" "TOKEN" (Some dek)
      (store (serve (PasswordHandler (demo_password "pw2") DemoAccounts.ann) DemoWeb.web0))).1 =
    Ok "ghp_1".
Proof.
  destruct (password_change_rewraps demo_random DemoAccounts.box (demo_password "pw2") DemoAccounts.ann
    "pw2" "sess" 0%nat DemoWeb.web0) as (salt & dek & i & hash & p & Hd & _ & _ & [Htok _] & _).
  - apply demo_web_healthy.
  - apply demo_web_keyed.
  - by vm_compute.
  - by vm_compute.
  - reflexivity.
  - by vm_compute.
  - cbn. lia.
  - split_and!; by vm_compute.
  - intros i. by eexists.
  - exists salt, dek. split; [exact Hd|].
    destruct (Accounts.user_tokens (store DemoWeb.web0) !! ("ann", "github", "TOKEN")) as [k|] eqn:Hk;
      [|by vm_compute in Hk].
    pose proof (demo_web_keyed _ _ Hk) as Hkey. injection Hkey as -> Hb He.
    pose proof Hk as Hk'. vm_compute in Hk'. injection Hk' as <-.
    match type of Hk with _ = Some ?k => apply (Htok k "ghp_1") end;
      first [exact Hk | by vm_compute].
Defined.

Lemma long_password_orphans_secrets_witness :
  let long := Nat.iter 73 (String "x"%char) EmptyString in
  answer (serve (PasswordHandler (demo_password long) DemoAccounts.ann) DemoWeb.web0) =
    Some (password_page "Failed to update password").
Proof.
  intros long.
  apply (long_password_orphans_secrets demo_random DemoAccounts.box (demo_password long)
    DemoAccounts.ann long "sess" 0%nat DemoWeb.web0).
  - apply demo_web_healthy.
  - apply demo_web_keyed.
  - by vm_compute.
  - reflexivity.
  - by vm_compute.
  - cbn. lia.
  - split_and!; by vm_compute.
  - reflexivity.
Defined.
