(* ===== verification/WebInvite.v ===== *)
(** * Invitations and accounts: [src/web/invite.go], users and clients of [admin.go]

    An administrator invites addresses by mail; who has the link of a pending
    invitation makes an account with it and is logged in.  The rest are the pages
    on which administrators manage users, clients and tokens of the authorization
    server.  [user] is the administrator the guard let in. *)
From S2P Require Import Prelude GoStrings Sql Crypto Accounts Http TwoFA WebAuth WebSessions.
Open Scope Z_scope.
Open Scope handler_scope.

(** [mail.ParseAddress]: the address; and what the mail server says to a message. *)
Class Mail := {
  parse_address : string -> option string;
  accepts : nat -> bool
}.

(** ** Roles: [src/internal/usertypes/usertypes.go] *)

Definition roles : list string := ["user"; "admin"].

Definition NormalizeRole (id : string) : string :=
  let id := to_lower (trim_space id) in
  if bool_decide (id ∈ roles) then id else "user".

Definition IsValidRole (id : string) : bool := bool_decide (to_lower (trim_space id) ∈ roles).

(** ** Mail: [src/internal/mailer/mailer.go] *)

Section Mailer.
Context `{Mail}.

(** [strings.FieldsFunc] on commas and line breaks gives also empty fields here,
    which are skipped like those of spaces. *)
Fixpoint fields_at (s : string) : list string :=
  match s with
  | EmptyString => [EmptyString]
  | String c s' =>
      if bool_decide (c ∈ [","; "010"; "013"]%char) then EmptyString :: fields_at s'
      else match fields_at s' with
           | [] => [String c EmptyString]
           | x :: l => String c x :: l
           end
  end.

Fixpoint parse_fields (l : list string) : res (list string) :=
  match l with
  | [] => Ok []
  | f :: l =>
      let f := trim_space f in
      if bool_decide (f = EmptyString) then parse_fields l
      else match parse_address f with
           | None => Err (Errorf "invalid recipient %q: %w")
           | Some addr => match parse_fields l with Ok out => Ok (addr :: out) | Err e => Err e end
           end
  end.

Definition ParseRecipients (input : string) : res (list string) :=
  match parse_fields (fields_at input) with
  | Err e => Err e
  | Ok [] => Err (Errorf "no recipients provided")
  | Ok out => Ok out
  end.

(** What varies in the mail: the greeting, the link, the days. *)
Record mail := MailTo { to : string; greeting : string; link : string; days : Z }.

Definition BuildInviteEmail (toEmail name inviteURL : string) (expiry : Duration) : res mail :=
  match parse_address toEmail with
  | None => Err (Errorf "mail: invalid address")
  | Some _ =>
      let expiryDays := Z.quot expiry (24 * Hour) in
      Ok (MailTo toEmail (if bool_decide (name = EmptyString) then EmptyString else " " +:+ name)
            inviteURL (if expiryDays <? 1 then 7 else expiryDays))
  end.
End Mailer.

(** [strings.TrimRight] of slashes. *)
Fixpoint trim_slashes (s : string) : string :=
  match s with
  | EmptyString => EmptyString
  | String c s' =>
      match trim_slashes s' with
      | EmptyString => if bool_decide (c = "/"%char) then EmptyString else String c EmptyString
      | t => String c t
      end
  end.

(** [http.NotFound] *)
Definition NotFound : response := HttpError 404 "404 page not found".

Definition redirect_error (page msg : string) : response := Redirect (page +:+ "?error=" +:+ msg).
Definition redirect_success (page msg : string) : response := Redirect (page +:+ "?success=" +:+ msg).

Section WebInvite.
Context {KS : Type} `{SecretBox KS} `{CryptoPrims} `{Bcrypt} `{Totp} `{Mail}.
Implicit Types w : web KS.
Local Abbreviation W := (W KS).

(** ** Invitations *)

Definition invitationsEnabled (h : handler) : bool := negb (bool_decide (to_lower (AuthMode h) = "sso")).

Definition inviteExpiry (h : handler) : Duration :=
  if InviteExpiry h <=? 0 then 7 * 24 * Hour else InviteExpiry h.

(** A failed listing counts as none. *)
Definition emailNotPending (email : string) : W bool :=
  l <-- on_store ListInvites ;;
  match l with
  | Err _ => ret true
  | Ok invites => ret (negb (existsb (fun i => bool_decide (Invite.Email i = email) &&
                                bool_decide (Invite.Status i = InvitePending)) invites))
  end.

(** What the loop over the recipients collects; every message is numbered. *)
Record batch := Batch { sent : list string; skipped : list string; outbox : list mail; messages : nat }.

Definition skip (email : string) (b : batch) : batch :=
  Batch (sent b) (skipped b ++ [email]) (outbox b) (messages b).

(** The message is on its way when the server accepted it. *)
Definition send_mail (email : string) (m : mail) (b : batch) : batch :=
  if accepts (messages b)
  then Batch (sent b ++ [email]) (skipped b) (outbox b ++ [m]) (S (messages b))
  else Batch (sent b) (skipped b) (outbox b) (S (messages b)).

Definition invite_url (h : handler) (rawToken : string) : string :=
  trim_slashes (PublicURL h) +:+ "/web/invite?token=" +:+ rawToken.

Definition email_known (h : handler) (email : string) : W bool :=
  if InviteAllowExisting h then ret false
  else u <-- on_store (GetUserByEmail email) ;; ret (is_ok u).

Definition invite_one (h : handler) (inviter name role email : string) (now : Time) (b : batch) :
    W batch :=
  let email := to_lower email in
  known <-- email_known h email ;;
  if known then ret (skip email b)
  else
    free <-- emailNotPending email ;;
    if negb free then ret (skip email b)
    else
      t <-- on_store GenerateInviteToken ;;
      match t with
      | Err _ => ret b
      | Ok (rawToken, tokenHash) =>
          r <-- on_store (fun d =>
            let '(r, _, d) := CreateInvite
              (Invite.mk EmptyString email name role tokenHash EmptyString inviter
                 (now + inviteExpiry h) None EmptyString 0) now d in (r, d)) ;;
          match r with
          | Err _ => ret b
          | Ok _ =>
              match BuildInviteEmail email name (invite_url h rawToken) (inviteExpiry h) with
              | Err _ => ret b
              | Ok body => ret (send_mail email body b)
              end
          end
      end.

Fixpoint invite_all (h : handler) (inviter name role : string) (recipients : list string)
    (now : Time) (b : batch) : W batch :=
  match recipients with
  | [] => ret b
  | email :: recipients =>
      b <-- invite_one h inviter name role email now b ;;
      invite_all h inviter name role recipients now b
  end.

Definition invites_page : string := "/web/admin/invites".

(** [mailer]: [Mailer] is set.  The result is what was mailed; the text of a
    parse error is not carried into the redirect. *)
Definition AdminInvitesCreateHandler (h : handler) (mailer : bool) (user : UserRow.t) (r : request)
    (now : Time) : M (web KS) (list mail) (list mail) :=
  let stop x : M (web KS) (list mail) (list mail) := fun w => (inl [], add_written x w) in
  if negb (invitationsEnabled h) then stop NotFound
  else if negb (isPost r) then stop MethodNotAllowed
  else if negb mailer then stop (redirect_error invites_page "Email+sending+is+not+configured")
  else
    let name := trim_space (form r "name") in
    let role := trim_space (form r "role") in
    let role := if bool_decide (role = EmptyString) then "user" else role in
    match ParseRecipients (form r "emails") with
    | Err _ => stop (redirect_error invites_page "%s")
    | Ok recipients => fun w =>
        match invite_all h (UserRow.ID user) name role recipients now (Batch [] [] [] 0) w with
        | (inl tt, w) => (inl [], w)
        | (inr b, w) =>
            let x := if bool_decide (sent b = [])
                     then redirect_error invites_page "No+invitations+were+sent"
                     else redirect_success invites_page (query_escape ("Invitations sent: " +:+
                       String.concat ", " (sent b) +:+
                       (if bool_decide (skipped b = []) then EmptyString
                        else " (skipped: " +:+ String.concat ", " (skipped b) +:+ ")"))) in
            (inr (outbox b), add_written x w)
        end
    end.

Definition AdminInvitesHandler (h : handler) (r : request) : W unit :=
  if negb (invitationsEnabled h) then reply NotFound
  else
    l <-- on_store ListInvites ;;
    match l with
    | Err _ => reply InternalServerError
    | Ok invites => respond (Render "admin_invites.html" (query r "error")
                       (map (fun i => (Invite.ID i, Invite.Email i)) invites))
    end.

Definition AdminInvitesRevokeHandler (h : handler) (r : request) : W unit :=
  if negb (invitationsEnabled h) then reply NotFound
  else if negb (isPost r) then reply MethodNotAllowed
  else
    let inviteID := form r "invite_id" in
    if bool_decide (inviteID = EmptyString) then reply (redirect_error invites_page "Missing+invite")
    else
      e <-- on_store (RevokeInvite inviteID) ;;
      match e with
      | Err _ => reply (redirect_error invites_page "Failed+to+revoke+invite")
      | Ok _ => respond (redirect_success invites_page "Invitation+revoked")
      end.

(** ** Signing up *)

Definition lookupValidInvite (r : request) (now : Time) : W (option Invite.t) :=
  let token := query r "token" in
  if bool_decide (token = EmptyString) then ret None
  else
    i <-- on_store (GetInviteByTokenHash (HashInviteToken token)) ;;
    match i with
    | Err _ => ret None
    | Ok inv =>
        if negb (bool_decide (Invite.Status inv = InvitePending)) then ret None
        else if Expired inv now then ret None
        else ret (Some inv)
    end.

Definition invalid_invite : response :=
  Render "invite.html" "This invitation link is invalid, expired, or already used." [].

Definition signup_page (err token email name : string) : response :=
  Render "invite.html" err [("Token", token); ("Email", email); ("Name", name)].

Definition inviteSignupGet (r : request) (now : Time) : W unit :=
  i <-- lookupValidInvite r now ;;
  match i with
  | None => reply invalid_invite
  | Some inv => respond (signup_page EmptyString (query r "token") (Invite.Email inv) (Invite.Name inv))
  end.

(** The login that [autoLogin] starts; its own redirects come before the caller's. *)
Definition autoLogin (h : handler) (u : UserRow.t) (password : string) (now : Time) : W unit :=
  userDEK <-- derive_dek u password ;; _ <-- second_phase h u userDEK now ;; ret tt.

(** [CreateUser] fills in the user the handler holds. *)
Definition create_user (u : UserRow.t) (now : Time) : W (res unit * UserRow.t) :=
  on_store (fun d => let '(r, u, d) := CreateUser u now d in ((r, u), d)).

Definition accept_invite (inv : Invite.t) (userID : string) (now : Time) : W unit :=
  _ <-- on_store (MarkInviteAccepted (Invite.ID inv) userID now) ;; ret tt.

(** A user as a form names it. *)
Definition form_user (id name email password role : string) : UserRow.t :=
  UserRow.mk id name email password EmptyString role 0.

Definition inviteSignupPost (h : handler) (r : request) (now : Time) : W unit :=
  i <-- lookupValidInvite r now ;;
  match i with
  | None => reply invalid_invite
  | Some inv =>
      let email := to_lower (trim_space (form r "email")) in
      let name := trim_space (form r "name") in
      let password := form r "password" in
      let again err := signup_page err (query r "token") email name in
      if bool_decide (email = EmptyString) || bool_decide (password = EmptyString)
      then reply (again "Email and password are required.")
      else if negb (bool_decide (password = form r "password_confirm"))
      then reply (again "Passwords do not match.")
      else if negb (bool_decide (email = Invite.Email inv))
      then reply (again "The email does not match the invited address.")
      else
        e <-- on_store (GetUserByEmail email) ;;
        match e with
        | Ok existing =>
            if negb (InviteAllowExisting h)
            then reply (again "An account with this email already exists.")
            else
              accept_invite inv (UserRow.ID existing) now ;;;
              autoLogin h existing EmptyString now ;;;
              respond (Redirect "/web/")
        | Err _ =>
            ru <-- create_user (form_user EmptyString name email password (Invite.Role inv)) now ;;
            match ru with
            | (Err _, _) => reply (again "Failed to create account. Please try again.")
            | (Ok _, u) =>
                accept_invite inv (UserRow.ID u) now ;;;
                autoLogin h u password now ;;;
                respond (Redirect "/web/")
            end
        end
  end.

Definition InviteSignupHandler (h : handler) (r : request) (now : Time) : W unit :=
  if negb (invitationsEnabled h) then reply NotFound
  else if isGet r then inviteSignupGet r now
  else if isPost r then inviteSignupPost h r now
  else respond MethodNotAllowed.

(** ** Users *)

Definition users_page : string := "/web/admin/users".

Definition AdminUsersHandler (r : request) : W unit :=
  l <-- on_store ListUsers ;;
  match l with
  | Err _ => reply InternalServerError
  | Ok users => respond (Render "admin_users.html" (query r "error")
                   (map (fun u => (UserRow.ID u, UserRow.Email u)) users))
  end.

Definition AdminUsersCreateHandler (r : request) (now : Time) : W unit :=
  if negb (isPost r) then reply MethodNotAllowed
  else
    let email := trim_space (form r "email") in
    let password := form r "password" in
    if bool_decide (email = EmptyString) || bool_decide (password = EmptyString)
    then reply (redirect_error users_page "Email+and+password+required")
    else
      ru <-- create_user (form_user EmptyString (trim_space (form r "name")) email password
                            (NormalizeRole (form r "role"))) now ;;
      match ru.1 with
      | Err _ => reply (redirect_error users_page "Failed+to+create+user+(email+may+already+exist)")
      | Ok _ => respond (redirect_success users_page "User+created")
      end.

Definition AdminUsersDeleteHandler (user : UserRow.t) (r : request) : W unit :=
  if negb (isPost r) then reply MethodNotAllowed
  else
    let userID := form r "user_id" in
    if bool_decide (userID = UserRow.ID user)
    then reply (redirect_error users_page "Cannot+delete+yourself")
    else
      e <-- on_store (DeleteUser userID) ;;
      match e with
      | Err _ => reply (redirect_error users_page "Failed+to+delete+user")
      | Ok _ => respond (redirect_success users_page "User+deleted")
      end.

Definition AdminUsersEditHandler (r : request) : W unit :=
  if negb (isPost r) then reply MethodNotAllowed
  else
    let userID := form r "user_id" in
    let email := trim_space (form r "email") in
    if bool_decide (email = EmptyString) then reply (redirect_error users_page "Email+required")
    else
      e <-- on_store (GetUser userID) ;;
      match e with
      | Err _ => reply (redirect_error users_page "User+not+found")
      | Ok existing =>
          let password := if bool_decide (form r "password" = EmptyString)
                          then UserRow.Password existing else form r "password" in
          ru <-- update_user (form_user userID (trim_space (form r "name")) email password
                                (NormalizeRole (form r "role"))) ;;
          match ru.1 with
          | Err _ => reply (redirect_error users_page "Failed+to+update+user")
          | Ok _ => respond (redirect_success users_page "User+updated")
          end
      end.

(** ** Clients of the authorization server *)

Definition clients_page : string := "/web/admin/oauth-clients".

Definition default_redirect : string := "[" +:+ String "034" EmptyString +:+
  "http://127.0.0.1:19876/mcp/oauth/callback" +:+ String "034" EmptyString +:+ "]".

Definition new_client (clientName : string) (now : Time) : W (res unit) :=
  on_store (fun d =>
    let '(clientID, d) := generateID d in
    let '(clientSecret, d) := generateID d in
    let '(r, _, d) :=
      CreateOAuthClient (OAuthClient.mk clientID clientSecret default_redirect clientName 0) now d in
    (r, d)).

Definition client_lines (l : res (list OAuthClient.t)) : list (string * string) :=
  match l with
  | Ok l => map (fun c => (OAuthClient.ClientID c, OAuthClient.ClientName c)) l
  | Err _ => []
  end.

Definition AdminOAuthClientsHandler (r : request) : W unit :=
  l <-- on_store ListOAuthClients ;;
  respond (Render "admin_oauth_clients.html" (query r "error") (client_lines l)).

Definition AdminOAuthClientsCreateHandler (r : request) (now : Time) : W unit :=
  if negb (isPost r) then reply MethodNotAllowed
  else
    let name := form r "name" in
    e <-- new_client (if bool_decide (name = EmptyString) then "OAuth Client" else name) now ;;
    match e with
    | Err _ => reply (redirect_error clients_page "Failed+to+create+client")
    | Ok _ =>
        l <-- on_store ListOAuthClients ;;
        respond (Render "admin_oauth_clients.html" EmptyString (client_lines l))
    end.

Definition AdminOAuthClientsDeleteHandler (r : request) : W unit :=
  if negb (isPost r) then reply MethodNotAllowed
  else
    let clientID := form r "id" in
    if bool_decide (clientID = EmptyString) then reply (redirect_error clients_page "Missing+client+ID")
    else
      e <-- on_store (DeleteOAuthClient clientID) ;;
      match e with
      | Err _ => reply (redirect_error clients_page "Failed+to+delete+client")
      | Ok _ => respond (redirect_success clients_page "Client+deleted")
      end.
End WebInvite.

(** ** Lemmas *)

Section InviteFacts.
Context {KS : Type} `{SecretBox KS} `{CryptoPrims} `{Bcrypt} `{Totp} `{Mail}.
Implicit Types (d : Accounts.t KS) (w : web KS).

(** The users and invitations are the same, and the web sessions and pending
    logins are old or for [u]. *)
Definition logs_in (u : UserRow.t) w w' : Prop :=
  Accounts.users (store w') = Accounts.users (store w) /\
  Accounts.invitations (store w') = Accounts.invitations (store w) /\
  (forall tok s, Accounts.web_sessions (store w') !! tok = Some s ->
    Accounts.web_sessions (store w) !! tok = Some s \/ WebSession.UserID s = UserRow.ID u) /\
  (forall tok p, pendingLogins w' !! tok = Some p ->
    pendingLogins w !! tok = Some p \/ PendingLogin.UserID p = UserRow.ID u).

#[export] Instance logs_in_preorder u : PreOrder (logs_in u).
Proof.
  split; [by intros w; split_and!; auto|].
  intros w1 w2 w3 (Hu & Hi & Hs & Hp) (Hu' & Hi' & Hs' & Hp'). split_and!; [congruence..| |].
  - intros tok s Hl. destruct (Hs' tok s Hl); auto.
  - intros tok p Hl. destruct (Hp' tok p Hl); auto.
Qed.

Lemma logs_in_same u w w' :
  same_tables (store w) (store w') -> pendingLogins w' = pendingLogins w -> logs_in u w w'.
Proof.
  intros (ks & n & fs & Hd) Hp. split_and!; rewrite ?Hd, ?Hp; auto.
Qed.

Lemma sql_checked_inv ok (f : Accounts.t KS -> Accounts.t KS) d r d' :
  sql_checked ok f d = (r, d') ->
  exists fs, (is_ok r = false /\ d' = Accounts.set_faults fs d) \/
             (r = Ok tt /\ ok (Accounts.set_faults fs d) = true /\ d' = f (Accounts.set_faults fs d)).
Proof.
  unfold sql_checked, sql_stmt. cbn [db_faults db_set_faults Accounts.accounts_database].
  destruct (Accounts.faults d) as [|[] fs] eqn:Hd.
  - exists (Accounts.faults d). revert H4. case_if; intros [= <- <-]; rewrite ?set_faults_id; auto.
  - intros [= <- <-]. eauto.
  - exists fs. revert H4. case_if; intros [= <- <-]; auto.
Qed.

Lemma sql_row_faults {A} (f : Accounts.t KS -> option A) d r d' :
  sql_row f d = (r, d') -> Accounts.faults d = [] -> Accounts.faults d' = [].
Proof. intros Hr Hf. rewrite sql_row_ok in Hr by done. by injection Hr as _ <-. Qed.

Lemma sql_query_same {A} (f : Accounts.t KS -> res A) d r d' :
  sql_query f d = (r, d') -> exists fs, d' = Accounts.set_faults fs d.
Proof.
  unfold sql_query, sql_stmt. cbn [db_faults db_set_faults Accounts.accounts_database].
  destruct (Accounts.faults d) as [|[] fs]; intros [= <- <-]; [|by eexists..].
  exists (Accounts.faults d). by rewrite set_faults_id.
Qed.

Lemma generateID_same d id d' : generateID d = (id, d') -> exists n, d' = Accounts.set_rng n d.
Proof. unfold generateID. destruct (read_rand _ _) as [[bs|] n]; intros [= _ <-]; by eexists. Qed.

Lemma completeLogin_logs_in user dek now w x w' :
  completeLogin user dek now w = (x, w') -> x = inr tt /\ logs_in user w w'.
Proof.
  intros Hc. apply completeLogin_inv in Hc as Hi. destruct Hi as (-> & Hp & Hs). split; [done|].
  assert (Hui : Accounts.users (store w') = Accounts.users (store w) /\
               Accounts.invitations (store w') = Accounts.invitations (store w)).
  { revert Hc. unfold completeLogin, new_session, CreateWebSession, id_or_new.
    handler_simpl. rewrite bool_decide_eq_true_2 by done.
    destruct (generateID (store w)) as [token d] eqn:Hg. apply generateID_same in Hg as [n ->].
    destruct (sql_checked _ _ _) as [e d'] eqn:Hq. apply sql_checked_inv in Hq as [fs Hq].
    destruct Hq as [[He ->]|(-> & _ & ->)]; [|by destruct dek; intros [= <-]].
    destruct e; [done|]. by intros [= <-]. }
  split_and!; [apply Hui..|done|]. rewrite Hp. auto.
Qed.

Lemma HasMethod_same m userID d r d' : TwoFA.HasMethod m userID d = (r, d') -> same_tables d d'.
Proof.
  unfold TwoFA.HasMethod, GetUser2FA. destruct (sql_row _ d) as [rr d1] eqn:Hs.
  apply sql_row_inv in Hs as [[fs ->] _]; [|done]. intros Hr.
  assert (d' = Accounts.set_faults fs d) as ->; [|apply same_tables_faults].
  repeat case_match; by simplify_eq.
Qed.

Lemma second_phase_logs_in h user dek now w x w' :
  second_phase h user dek now w = (x, w') -> (exists b, x = inr b) /\ logs_in user w w'.
Proof.
  assert (Hok : forall w0 w1, logs_in user w w0 -> completeLogin user dek now w0 = (inr tt, w1) -> logs_in user w w1).
  { intros w0 w1 Hl Hc. apply completeLogin_logs_in in Hc as [_ Hc]. by transitivity w0. }
  unfold second_phase. destruct (TwoFA h) as [m|].
  2:{ unfold bind, ret. destruct (completeLogin user dek now w) as [y w1] eqn:Hc.
      apply completeLogin_logs_in in Hc as Hi. destruct Hi as [-> Hi]. intros [= <- <-]. split; [by eexists|done]. }
  handler_simpl. destruct (TwoFA.HasMethod m (UserRow.ID user) (store w)) as [[has method] d1] eqn:Hm.
  apply HasMethod_same in Hm. set (w1 := set_store (fun _ => d1) w).
  assert (H1' : logs_in user w w1) by by apply logs_in_same.
  assert (Hstart : forall meth w2 x2, startPendingLogin user dek meth now w1 = (x2, w2) ->
            x2 = inr tt /\ logs_in user w w2).
  { intros meth w2 x2. unfold startPendingLogin, randomToken. handler_simpl.
    destruct (read_rand 16 _) as [[bs|] n]; intros [= <- <-]; split; try done; (transitivity w1; [done|]).
    split_and!; [done..|by left|]. intros tok p. cbn.
      destruct (decide (tok = hex_encode bs)) as [->|Hne]; [|rewrite lookup_insert_ne by done; auto].
      rewrite lookup_insert_eq. intros [= <-]. by right. }
  destruct has.
  - destruct (startPendingLogin user dek method now w1) as [x2 w2] eqn:Hs.
    apply Hstart in Hs as [-> Hs]. intros [= <- <-]. split; [by eexists|exact Hs].
  - destruct (TwoFA.required m).
    + destruct (startPendingLogin user dek EmptyString now w1) as [x2 w2] eqn:Hs.
      apply Hstart in Hs as [-> Hs]. intros [= <- <-]. split; [by eexists|exact Hs].
    + destruct (completeLogin user dek now w1) as [y w2] eqn:Hc.
      apply completeLogin_logs_in in Hc as Hi. destruct Hi as [-> _]. intros [= <- <-].
      split; [by eexists|by apply (Hok w1)].
Qed.

Lemma same_tables_rng d n : same_tables d (Accounts.set_rng n d).
Proof. exists (Accounts.keyStore d), n, (Accounts.faults d). by destruct d. Qed.

(** A user is made as asked, or nothing is. *)
Lemma CreateUser_inv u now d r u' d' :
  CreateUser u now d = (r, u', d') ->
  UserRow.Email u' = UserRow.Email u /\
  UserRow.Role u' = (if bool_decide (UserRow.Role u = EmptyString) then "user" else UserRow.Role u) /\
  ((is_ok r = false /\ same_tables d d') \/
   (r = Ok tt /\ exists d0, same_tables d d0 /\ Accounts.users d !! UserRow.ID u' = None /\
      d' = Accounts.set_users <[UserRow.ID u' := UserRow.with_CreatedAt now u']> d0)).
Proof.
  unfold CreateUser. destruct (id_or_new (UserRow.ID u) d) as [id d1] eqn:Hid.
  assert (H1' : same_tables d d1).
  { unfold id_or_new in Hid. revert Hid. case_if; [|by intros [= _ <-]].
    intros Hg. apply generateID_same in Hg as [n ->]. apply same_tables_rng. }
  cbv zeta. set (u1 := if bool_decide _ then _ else _).
  assert (Hu1 : UserRow.Email u1 = UserRow.Email u /\ UserRow.Role u1 =
    (if bool_decide (UserRow.Role u = EmptyString) then "user" else UserRow.Role u)).
  { unfold u1. cbn. by case_if. }
  clearbody u1. destruct (hashed u1 d1) as [[u2|e] d2] eqn:Hh.
  - assert (Hu2 : UserRow.Email u2 = UserRow.Email u1 /\ UserRow.Role u2 = UserRow.Role u1 /\ same_tables d d2).
    { unfold hashed in Hh. revert Hh. case_if; [|by intros [= <- <-]].
      unfold HashPassword. destruct (bcrypt_generate _ _); intros [= <- <-].
      split_and!; [done..|]. transitivity d1; [done|]. apply same_tables_rng. }
    destruct Hu2 as (He & Hr & H2').
    destruct (if bool_decide (UserRow.PasswordSalt u2 = _) then _ else _) as [salt d3] eqn:Hsalt.
    assert (H3' : same_tables d d3).
    { revert Hsalt. case_if; [|by intros [= _ <-]]. destruct (GenerateSalt _) as [s n].
      intros [= _ <-]. transitivity d2; [done|]. apply same_tables_rng. }
    destruct salt as [salt|e]; [|intros [= <- <- <-]; split_and!; [cbn; by rewrite He; apply Hu1|by rewrite Hr; apply Hu1|by left]].
    destruct (sql_checked _ _ d3) as [r' d4] eqn:Hq. intros [= <- <- <-].
    apply sql_checked_inv in Hq as [fs Hq]. cbn.
    split_and!; [by rewrite He; apply Hu1|by rewrite Hr; apply Hu1|].
    assert (Hd3 : same_tables d (Accounts.set_faults fs d3)) by (transitivity d3; [done|apply same_tables_faults]).
    destruct Hq as [[-> ->]|(-> & Hok & ->)]; [by left|right]. split; [done|].
    eexists. split_and!; [exact Hd3| |done].
    apply andb_true_iff in Hok as [Hok _]. apply bool_decide_eq_true_1 in Hok.
    destruct Hd3 as (ks & n & fs' & Hd3). rewrite Hd3 in Hok. exact Hok.
  - intros [= <- <- <-]. split_and!; [apply Hu1..|left]. split; [done|].
    unfold hashed in Hh. revert Hh. case_if; [|done]. unfold HashPassword.
    destruct (bcrypt_generate _ _); intros [= _ <-]. transitivity d1; [done|]. apply same_tables_rng.
Qed.

Lemma CreateUser_faults u now d r u' d' :
  CreateUser u now d = (r, u', d') -> Accounts.faults d = [] -> Accounts.faults d' = [].
Proof.
  intros Hc Hf. revert Hc. unfold CreateUser. destruct (id_or_new _ d) as [id d1] eqn:Hid.
  assert (Hf1 : Accounts.faults d1 = []).
  { revert Hid. unfold id_or_new. case_if; [|by intros [= _ <-]].
    intros Hg. by apply generateID_same in Hg as [n ->]. }
  cbv zeta. generalize (if bool_decide (UserRow.Role (UserRow.with_ID id u) = EmptyString)
    then UserRow.with_Role "user" (UserRow.with_ID id u) else UserRow.with_ID id u) as u1. intros u1.
  destruct (hashed u1 d1) as [hu d2] eqn:Hh.
  assert (Hf2 : Accounts.faults d2 = []).
  { revert Hh. unfold hashed, HashPassword. case_if; [|by intros [= _ <-]].
    destruct (bcrypt_generate _ _); by intros [= _ <-]. }
  destruct hu as [u2|e]; [|by intros [= _ _ <-]].
  destruct (if bool_decide _ then _ else _) as [salt d3] eqn:Hsalt.
  assert (Hf3 : Accounts.faults d3 = []).
  { revert Hsalt. case_if; [|by intros [= _ <-]]. destruct (GenerateSalt _) as [x n]. by intros [= _ <-]. }
  destruct salt as [salt|e]; [|by intros [= _ _ <-]].
  destruct (sql_checked _ _ d3) as [r4 d4] eqn:Hq. rewrite sql_checked_ok in Hq by done.
  intros [= _ _ <-]. revert Hq. destruct (_ && _); by intros [= _ <-].
Qed.

(** Whom a valid invitation is for. *)
Definition valid_invite (r : request) (now : Time) d (inv : Invite.t) : Prop :=
  query r "token" <> EmptyString /\
  invite_by_hash (HashInviteToken (query r "token")) d = Some inv /\
  Invite.Status inv = InvitePending /\ now <= Invite.TokenExpiresAt inv.

Lemma lookupValidInvite_inv r now w x w' :
  lookupValidInvite r now w = (x, w') ->
  exists i fs, x = inr i /\ w' = set_store (Accounts.set_faults fs) w /\
    (Accounts.faults (store w) = [] -> fs = []) /\
    forall inv, i = Some inv -> valid_invite r now (store w) inv.
Proof.
  assert (Hid : w = set_store (Accounts.set_faults (Accounts.faults (store w))) w).
  { destruct w as [d ? ? ? ? ? ?]. by destruct d. }
  unfold lookupValidInvite. cbv zeta. case_bool_decide as Ht.
  { intros [= <- <-]. exists None, (Accounts.faults (store w)). by split_and!. }
  handler_simpl. unfold GetInviteByTokenHash. destruct (sql_row _ _) as [i d1] eqn:Hq.
  pose proof (sql_row_faults _ _ _ _ Hq) as Hfs. apply sql_row_inv in Hq as [[fs ->] Hi]; [|done]. cbn in Hfs.
  destruct i as [inv|e]; [|intros [= <- <-]; exists None, fs; by split_and!].
  case_bool_decide as Hp; cbn [negb]; [|intros [= <- <-]; exists None, fs; by split_and!].
  unfold Expired. rewrite Hp. cbn [bool_decide negb andb].
  rewrite bool_decide_eq_false_2 by done. cbn [negb andb].
  destruct (Invite.TokenExpiresAt inv <? now) eqn:He; intros [= <- <-]; [exists None, fs; by split_and!|].
  exists (Some inv), fs. split_and!; [done|done|exact Hfs|]. intros inv' [= <-]. split_and!; [done|by apply Hi|done|lia].
Qed.
Lemma autoLogin_logs_in h u password now w x w' :
  autoLogin h u password now w = (x, w') -> x = inr tt /\ logs_in u w w'.
Proof.
  assert (Hsp : forall (dek : option nat) w0, logs_in u w w0 ->
    forall x w', bind (second_phase h u dek now) (fun _ => ret tt) w0 = (x, w') ->
    x = inr tt /\ logs_in u w w').
  { clear x w'. intros dek w0 Hl x w'. unfold bind, ret.
    destruct (second_phase h u dek now w0) as [y w1] eqn:Hp.
    apply second_phase_logs_in in Hp as [[b ->] Hp]. intros [= <- <-]. split; [done|]. by transitivity w0. }
  unfold autoLogin, derive_dek. case_bool_decide; [by apply Hsp|].
  destruct (DeriveUserDEK _ _) as [dek|e]; [|by apply Hsp].
  intros Hr. apply (Hsp (Some (length (heap w))) (set_heap (fun h => h ++ [dek]) w)); [|exact Hr].
  by apply logs_in_same.
Qed.

(** What an accepted invitation does: a user found or made, the mark, the login. *)
Definition enrols (inv : Invite.t) (now : Time) w w' : Prop :=
  (Accounts.faults (store w) = [] -> exists who, Accounts.invitations (store w') =
     alter (Invite.accepted now who) (Invite.ID inv) (Accounts.invitations (store w))) /\
  (forall id u, Accounts.users (store w') !! id = Some u ->
     Accounts.users (store w) !! id = Some u \/
     UserRow.Email u = Invite.Email inv /\
     UserRow.Role u = (if bool_decide (Invite.Role inv = EmptyString) then "user" else Invite.Role inv)) /\
  (forall id u, Accounts.users (store w) !! id = Some u -> Accounts.users (store w') !! id = Some u) /\
  exists who, (exists id, Accounts.users (store w') !! id = Some who) /\
    UserRow.Email who = Invite.Email inv /\
    (forall tok s, Accounts.web_sessions (store w') !! tok = Some s ->
       Accounts.web_sessions (store w) !! tok = Some s \/ WebSession.UserID s = UserRow.ID who) /\
    (forall tok p, pendingLogins w' !! tok = Some p ->
       pendingLogins w !! tok = Some p \/ PendingLogin.UserID p = UserRow.ID who).

(** The mark is made, or its statement failed. *)
Lemma accept_invite_inv inv who now w x w' :
  accept_invite inv who now w = (x, w') ->
  exists fs, x = inr tt /\
    (w' = set_store (Accounts.set_faults fs) w /\ Accounts.faults (store w) <> [] \/
     w' = set_store (fun d => Accounts.set_invitations (alter (Invite.accepted now who) (Invite.ID inv))
                                (Accounts.set_faults fs d)) w).
Proof.
  unfold accept_invite, MarkInviteAccepted. handler_simpl. destruct (sql_exec _ _) as [e d] eqn:He.
  assert (Hnf : Accounts.faults (store w) = [] -> d =
    Accounts.set_invitations (alter (Invite.accepted now who) (Invite.ID inv)) (store w)).
  { intros Hf. rewrite sql_exec_ok in He by done. by injection He as _ <-. }
  apply sql_exec_inv in He as [fs He]. intros [= <- <-].
  destruct (decide (Accounts.faults (store w) = [])) as [Hf|Hf].
  - exists (Accounts.faults (store w)). split; [done|right]. rewrite (Hnf Hf). by destruct w as [[] ? ? ? ? ? ?].
  - exists fs. split; [done|]. destruct He as [->| ->]; [by left|by right].
Qed.

(** Marking and logging in. *)
Lemma finish_signup inv h who password now w x w' :
  (accept_invite inv (UserRow.ID who) now ;;; autoLogin h who password now ;;; respond (Redirect "/web/")) w
    = (x, w') ->
  exists w1 w2, accept_invite inv (UserRow.ID who) now w = (inr tt, w1) /\
    logs_in who w1 w2 /\ w' = add_written (Redirect "/web/") w2.
Proof.
  unfold bind at 1. destruct (accept_invite _ _ _ w) as [y w1] eqn:Ha.
  apply accept_invite_inv in Ha as Hi. destruct Hi as (fs & -> & _).
  unfold bind. destruct (autoLogin _ _ _ _ w1) as [z w2] eqn:Hl.
  apply autoLogin_logs_in in Hl as [-> Hl]. intros [= <- <-]. by exists w1, w2.
Qed.

Lemma finish_enrols inv h who row password now w0 w x w' :
  (accept_invite inv (UserRow.ID who) now ;;; autoLogin h who password now ;;; respond (Redirect "/web/")) w
    = (x, w') ->
  Accounts.web_sessions (store w) = Accounts.web_sessions (store w0) -> pendingLogins w = pendingLogins w0 ->
  Accounts.invitations (store w) = Accounts.invitations (store w0) ->
  (Accounts.faults (store w0) = [] -> Accounts.faults (store w) = []) ->
  (forall id u, Accounts.users (store w) !! id = Some u ->
     Accounts.users (store w0) !! id = Some u \/
     UserRow.Email u = Invite.Email inv /\
     UserRow.Role u = (if bool_decide (Invite.Role inv = EmptyString) then "user" else Invite.Role inv)) ->
  (forall id u, Accounts.users (store w0) !! id = Some u -> Accounts.users (store w) !! id = Some u) ->
  (exists id, Accounts.users (store w) !! id = Some row) -> UserRow.ID row = UserRow.ID who ->
  UserRow.Email row = Invite.Email inv -> enrols inv now w0 w'.
Proof.
  intros Hf Hws Hpl Hiv Hnf Hnew Hold Hin Hid Hmail.
  apply finish_signup in Hf as (w1 & w2 & Ha & (Hu & Hi & Hs & Hp) & ->).
  assert (Hw1 : Accounts.users (store w1) = Accounts.users (store w) /\
    Accounts.web_sessions (store w1) = Accounts.web_sessions (store w) /\ pendingLogins w1 = pendingLogins w /\
    (Accounts.faults (store w) = [] -> Accounts.invitations (store w1) =
       alter (Invite.accepted now (UserRow.ID who)) (Invite.ID inv) (Accounts.invitations (store w)))).
  { apply accept_invite_inv in Ha as (fs & _ & [[-> Hne]| ->]); split_and!; done. }
  destruct Hw1 as (Hu1 & Hs1 & Hp1 & Hi1). rewrite Hs1, Hws in Hs. rewrite Hp1, Hpl in Hp. rewrite Hu1 in Hu.
  unfold enrols. cbn. rewrite Hu. split_and!; [|done|done|exists row; by rewrite Hid].
  intros H0'. exists (UserRow.ID who). rewrite Hi, (Hi1 (Hnf H0')). by rewrite Hiv.
Qed.
(** Tables and pending logins stay. *)
Definition untouched w w' : Prop := same_tables (store w) (store w') /\ pendingLogins w' = pendingLogins w.

Lemma untouched_faults fs w : untouched w (set_store (Accounts.set_faults fs) w).
Proof. split; [apply same_tables_faults|done]. Qed.

Lemma create_and_enrol h (r : request) inv name password now w0 w x w' :
  untouched w0 w -> (Accounts.faults (store w0) = [] -> Accounts.faults (store w) = []) ->
  (ru <-- create_user (form_user EmptyString name (Invite.Email inv) password (Invite.Role inv)) now ;;
   match ru with
   | (Err _, _) => reply (signup_page "Failed to create account. Please try again." (query r "token")
                            (Invite.Email inv) name)
   | (Ok _, u) =>
       accept_invite inv (UserRow.ID u) now ;;; autoLogin h u password now ;;; respond (Redirect "/web/")
   end) w = (x, w') ->
  untouched w0 w' \/ enrols inv now w0 w'.
Proof.
  intros [Ht Hp] Hnf. unfold bind at 1, create_user, on_store, state.
  destruct (CreateUser _ _ _) as [[e u] d'] eqn:Hc. pose proof (CreateUser_faults _ _ _ _ _ _ Hc) as Hnf'.
  apply CreateUser_inv in Hc as (Hm & Hr & Hc).
  destruct Hc as [[He Hd]|(-> & d0 & Hd & Hfree & ->)].
  - destruct e; [done|]. intros [= _ <-]. left. split; [|done]. cbn. by transitivity (store w).
  - intros Hf. right. destruct Hd as (ks & n & fs & Hd). destruct Ht as (ks' & n' & fs' & Ht).
    assert (Hus : Accounts.users d0 = Accounts.users (store w0)) by by rewrite Hd, Ht.
    assert (Hfree' : Accounts.users (store w0) !! UserRow.ID u = None) by by rewrite Ht in Hfree.
    assert (Hl : Accounts.users (store w) = Accounts.users (store w0)) by by rewrite Ht.
    set (row := UserRow.with_CreatedAt now u) in *.
    assert (Hlook : forall id v, <[UserRow.ID u := row]> (Accounts.users (store w0)) !! id = Some v ->
              id = UserRow.ID u /\ v = row \/ Accounts.users (store w0) !! id = Some v).
    { intros id v. destruct (decide (id = UserRow.ID u)) as [->|Hne];
        [rewrite lookup_insert_eq; intros [= <-]; auto|rewrite lookup_insert_ne by done; auto]. }
    apply (finish_enrols inv h u row password now w0) in Hf; cbn; rewrite ?Hus; try done.
    + by rewrite Hd, Ht.
    + by rewrite Hd, Ht.
    + intros H0'. apply Hnf'. by apply Hnf.
    + intros id v [[-> ->]|Hv]%Hlook; [right|by left]. split; [exact Hm|exact Hr].
    + intros id v Hv. rewrite lookup_insert_ne; [done|]. intros <-. by rewrite Hv in Hfree'.
    + exists (UserRow.ID u). apply lookup_insert_eq.
Qed.

Lemma inviteSignupPost_inv h (r : request) now w x w' :
  inviteSignupPost h r now w = (x, w') ->
  untouched w w' \/
  exists inv, valid_invite r now (store w) inv /\
    Invite.Email inv = to_lower (trim_space (form r "email")) /\ enrols inv now w w'.
Proof.
  unfold inviteSignupPost, bind at 1. destruct (lookupValidInvite r now w) as [y w1] eqn:Hl.
  apply lookupValidInvite_inv in Hl as (i & fs & -> & -> & Hnf & Hv).
  pose proof (untouched_faults fs w) as Hw1. set (w1 := set_store (Accounts.set_faults fs) w) in *.
  destruct i as [inv|]; [|intros [= _ <-]; by left]. specialize (Hv inv eq_refl). cbv zeta.
  destruct (_ || _); [intros [= _ <-]; by left|].
  destruct (negb _); [intros [= _ <-]; by left|].
  destruct (bool_decide (to_lower (trim_space (form r "email")) = Invite.Email inv)) eqn:Hmail; cbn [negb];
    [|intros [= _ <-]; by left].
  apply bool_decide_eq_true_1 in Hmail. rewrite Hmail.
  unfold bind at 1, on_store, state. destruct (GetUserByEmail _ _) as [e d] eqn:Hg.
  pose proof (sql_row_faults _ _ _ _ Hg) as Hnf'. apply sql_row_inv in Hg as [[fs' ->] Hg]; [|done].
  set (w2 := set_store (fun _ => Accounts.set_faults fs' (store w1)) w1).
  assert (Hw2 : untouched w w2).
  { split; [|done]. transitivity (store w1); [apply Hw1|apply same_tables_faults]. }
  destruct e as [who|e].
  - destruct (negb _); [intros [= _ <-]; by left|]. intros Hf. right. exists inv.
    split_and!; [done|done|]. specialize (Hg who eq_refl). unfold user_by_email in Hg.
    destruct (list_find _ _) as [[k u]|] eqn:Hfind; [|done]. injection Hg as ->.
    apply list_find_Some in Hfind as (Hin & He & _). apply list_elem_of_lookup_2, elem_of_rows in Hin.
    apply (finish_enrols inv h who who EmptyString now w) in Hf; try done; [|by auto].
    intros H0'. apply Hnf'. by apply Hnf.
  - intros Hf. apply (create_and_enrol _ _ _ _ _ _ w) in Hf; [|done|intros H0'; apply Hnf'; by apply Hnf].
    destruct Hf as [Hf|Hf]; [by left|right]. by exists inv.
Qed.
Lemma InviteSignupHandler_inv h (r : request) (now : Time) w :
  let w' := serve (InviteSignupHandler h r now) w in
  untouched w w' \/
  exists inv, valid_invite r now (store w) inv /\ invitationsEnabled h = true /\
    Invite.Email inv = to_lower (trim_space (form r "email")) /\ enrols inv now w w'.
Proof.
  cbv zeta. unfold serve, InviteSignupHandler. set (w0 := fresh_response w).
  change (store w) with (store w0). change (untouched w) with (untouched w0).
  change (enrols ?inv now w) with (enrols inv now w0).
  destruct (invitationsEnabled h); cbn [negb]; [|by left].
  destruct (isGet r).
  { left. unfold inviteSignupGet, run, bind. destruct (lookupValidInvite r now w0) as [x w1] eqn:Hl.
    apply lookupValidInvite_inv in Hl as (i & fs & -> & -> & _ & _). destruct i; apply (untouched_faults fs w0). }
  destruct (isPost r); [|by left]. unfold run. destruct (inviteSignupPost h r now w0) as [x w'] eqn:Hp.
  apply inviteSignupPost_inv in Hp as [Hu|(inv & Hv & Hm & He)]; destruct x; try (by left);
    right; by exists inv.
Qed.

(** The constraints of the table: the key is the id, the hashes are unique. *)
Definition invites_ok d : Prop :=
  (forall k i, Accounts.invitations d !! k = Some i -> Invite.ID i = k) /\
  (forall k k' i i', Accounts.invitations d !! k = Some i -> Accounts.invitations d !! k' = Some i' ->
     Invite.TokenHash i = Invite.TokenHash i' -> k = k').

Lemma invite_by_hash_iff hash k i d :
  invites_ok d -> Accounts.invitations d !! k = Some i ->
  invite_by_hash hash d = Some i <-> Invite.TokenHash i = hash.
Proof.
  intros [_ Huniq] Hk. unfold invite_by_hash. split.
  - destruct (list_find _ _) as [[n j]|] eqn:Hf; [|done]. intros [= ->].
    by apply list_find_Some in Hf as (_ & Hh & _).
  - intros Hh. assert (Hin : i ∈ rows (Accounts.invitations d)) by (apply elem_of_rows; eauto).
    destruct (list_find (fun j => Invite.TokenHash j = hash) (rows (Accounts.invitations d)))
      as [[n j]|] eqn:Hf; cbn.
    + apply list_find_Some in Hf as (Hj & Hhj & _). apply list_elem_of_lookup_2, elem_of_rows in Hj as [k' Hk'].
      assert (k = k') as <- by (apply (Huniq k k' i j); congruence). congruence.
    + apply list_find_None in Hf. rewrite Forall_forall in Hf. by apply Hf in Hin.
Qed.

Lemma invite_by_hash_Some hash i d :
  invite_by_hash hash d = Some i -> exists k, Accounts.invitations d !! k = Some i /\ Invite.TokenHash i = hash.
Proof.
  unfold invite_by_hash. destruct (list_find _ _) as [[n j]|] eqn:Hf; [|done]. intros [= ->].
  apply list_find_Some in Hf as (Hj & Hhj & _). apply list_elem_of_lookup_2, elem_of_rows in Hj as [k Hk]. eauto.
Qed.

(** A new invitation has a fresh key and a fresh hash, or the table stays. *)
Lemma CreateInvite_inv i now d r i' d' :
  Invite.Status i = EmptyString -> CreateInvite i now d = (r, i', d') -> invites_ok d ->
  invites_ok d' /\
  (forall k j, Accounts.invitations d !! k = Some j -> Accounts.invitations d' !! k = Some j) /\
  (r = Ok tt -> Accounts.invitations d' !! Invite.ID i' = Some i' /\ Invite.TokenHash i' = Invite.TokenHash i /\
     Invite.Email i' = Invite.Email i /\ Invite.Role i' = Invite.Role i /\ Invite.Status i' = InvitePending /\
     Invite.TokenExpiresAt i' = Invite.TokenExpiresAt i).
Proof.
  intros Hst. unfold CreateInvite. destruct (id_or_new (Invite.ID i) d) as [id d1] eqn:Hid.
  assert (H1' : Accounts.invitations d1 = Accounts.invitations d).
  { revert Hid. unfold id_or_new. case_if; [|by intros [= _ <-]].
    intros Hg. by apply generateID_same in Hg as [n ->]. }
  rewrite Hst. rewrite (bool_decide_eq_true_2 (EmptyString = EmptyString)) by done.
  destruct (sql_checked _ _ d1) as [e d2] eqn:Hq. apply sql_checked_inv in Hq as [fs Hq].
  intros [= <- <- <-]. intros [Hkey Huniq].
  destruct Hq as [[He ->]|(-> & Hc & ->)]; cbn.
  { unfold invites_ok. cbn. rewrite H1'. split_and!; try done. by intros ->. }
  apply andb_true_iff in Hc as [Hk Hh]. apply bool_decide_eq_true_1 in Hk. cbn in Hk, Hh. rewrite H1' in *.
  apply negb_true_iff, bool_decide_eq_false_1 in Hh. rewrite Exists_exists in Hh.
  assert (Hfresh : forall k j, Accounts.invitations d !! k = Some j -> Invite.TokenHash j <> Invite.TokenHash i).
  { intros k j Hj Hjh. apply Hh. exists j. split; [|done]. apply elem_of_rows. eauto. }
  split_and!.
  - unfold invites_ok. cbn. rewrite H1'. split.
    + intros k j. rewrite lookup_insert_Some. intros [[<- <-]|[_ Hj]]; [done|by apply Hkey].
    + intros k k' j j'. rewrite !lookup_insert_Some. intros [[<- <-]|[Hn Hj]] [[<- <-]|[Hn' Hj']]; try done.
      * cbn. intros Heq. by apply Hfresh in Hj'.
      * cbn. intros Heq. by apply Hfresh in Hj.
      * by apply (Huniq k k').
  - intros k j Hj. rewrite lookup_insert_ne; [done|]. intros <-. by rewrite Hk in Hj.
  - intros _. split_and!; try done. apply lookup_insert_eq.
Qed.
(** What a mail of a batch sent at [now] leads to. *)
Definition mailed (h : handler) (role : string) (recipients : list string) (now : Time) d (m : mail) : Prop :=
  exists k inv raw, Accounts.invitations d !! k = Some inv /\ link m = invite_url h raw /\
    raw <> EmptyString /\ Invite.TokenHash inv = HashInviteToken raw /\ Invite.Email inv = to m /\
    Invite.Role inv = role /\ Invite.Status inv = InvitePending /\
    Invite.TokenExpiresAt inv = now + inviteExpiry h /\ to m ∈ map to_lower recipients.

Definition batch_ok h role recipients now (b : batch) w : Prop :=
  invites_ok (store w) /\ Forall (mailed h role recipients now (store w)) (outbox b).

Lemma mailed_mono h role recipients now d d' ms :
  (forall k j, Accounts.invitations d !! k = Some j -> Accounts.invitations d' !! k = Some j) ->
  Forall (mailed h role recipients now d) ms -> Forall (mailed h role recipients now d') ms.
Proof. intros Hm Hf. eapply Forall_impl; [exact Hf|]. intros m (k & inv & raw & Hk & Hr). exists k, inv, raw. auto. Qed.

(** The tables of [w] are those of [w']. *)
Lemma batch_ok_same h role recipients now b w w' :
  same_tables (store w) (store w') -> batch_ok h role recipients now b w -> batch_ok h role recipients now b w'.
Proof.
  intros (ks & n & fs & Hd) [Hok Hm]. unfold batch_ok, invites_ok. rewrite Hd. split; [exact Hok|].
  by apply (mailed_mono _ _ _ _ (store w)).
Qed.

Lemma on_store_same {A} (f : Accounts.t KS -> A * Accounts.t KS) w x w' :
  on_store f w = (x, w') -> (forall d a d', f d = (a, d') -> same_tables d d') ->
  exists a, x = inr a /\ f (store w) = (a, store w') /\ same_tables (store w) (store w').
Proof.
  unfold on_store, state. destruct (f (store w)) as [a d'] eqn:Hf. intros [= <- <-] Hs. exists a.
  split_and!; [done|done|]. by apply (Hs _ a).
Qed.

Lemma sql_query_same_tables {A} (f : Accounts.t KS -> res A) d r d' :
  sql_query f d = (r, d') -> same_tables d d'.
Proof. intros Hq. apply sql_query_same in Hq as [fs ->]. apply same_tables_faults. Qed.

Lemma GenerateInviteToken_inv d r d' :
  GenerateInviteToken d = (r, d') ->
  same_tables d d' /\ forall raw hash, r = Ok (raw, hash) -> raw <> EmptyString /\ hash = HashInviteToken raw.
Proof.
  unfold GenerateInviteToken. destruct (read_rand 32 _) as [[bs|] n]; intros [= <- <-];
    (split; [apply same_tables_rng|]); [|done]. by intros raw hash [= <- <-].
Qed.

Lemma emailNotPending_same email w x w' :
  emailNotPending email w = (x, w') -> (exists b, x = inr b) /\ same_tables (store w) (store w').
Proof.
  unfold emailNotPending, bind. destruct (on_store _ w) as [y w1] eqn:Hq.
  apply on_store_same in Hq as (l & -> & _ & Hs); [|intros d a d'; apply sql_query_same_tables].
  destruct l; intros [= <- <-]; (split; [by eexists|done]).
Qed.

Lemma email_known_same h email w x w' :
  email_known h email w = (x, w') -> (exists b, x = inr b) /\ same_tables (store w) (store w').
Proof.
  unfold email_known. destruct (InviteAllowExisting h); [intros [= <- <-]; split; [by eexists|done]|].
  unfold bind. destruct (on_store _ w) as [y w1] eqn:Hq.
  apply on_store_same in Hq as (u & -> & _ & Hs); [|intros d a d'; apply sql_query_same_tables].
  intros [= <- <-]. split; [by eexists|done].
Qed.

Lemma batch_ok_send h role recipients now b m w :
  mailed h role recipients now (store w) m -> batch_ok h role recipients now b w ->
  batch_ok h role recipients now (send_mail (to m) m b) w.
Proof.
  intros Hm [Hok Hb]. unfold send_mail. destruct (accepts _); split; try done.
  cbn. apply Forall_app. split; [done|]. by apply Forall_singleton.
Qed.

Lemma BuildInviteEmail_inv toEmail name url expiry m :
  BuildInviteEmail toEmail name url expiry = Ok m -> to m = toEmail /\ link m = url.
Proof. unfold BuildInviteEmail. destruct (parse_address _); [|done]. by intros [= <-]. Qed.

(** One recipient of the loop. *)
Lemma invite_one_ok h inviter name role recipients email now b w x w' :
  email ∈ recipients -> batch_ok h role recipients now b w ->
  invite_one h inviter name role email now b w = (x, w') ->
  exists b', x = inr b' /\ batch_ok h role recipients now b' w'.
Proof.
  intros Hin Hb. unfold invite_one. cbv zeta. unfold bind at 1.
  destruct (email_known _ _ w) as [y w1] eqn:He. apply email_known_same in He as [[known ->] Hs1].
  apply (batch_ok_same _ _ _ _ _ _ _ Hs1) in Hb.
  destruct known; [intros [= <- <-]; by eexists|]. unfold bind at 1.
  destruct (emailNotPending _ w1) as [y w2] eqn:Hp. apply emailNotPending_same in Hp as [[free ->] Hs2].
  apply (batch_ok_same _ _ _ _ _ _ _ Hs2) in Hb.
  destruct (negb free); [intros [= <- <-]; by eexists|]. unfold bind at 1.
  destruct (on_store _ w2) as [y w3] eqn:Ht.
  apply on_store_same in Ht as (t & -> & Ht & Hs3); [|intros d a d' Hg; exact (proj1 (GenerateInviteToken_inv _ _ _ Hg))].
  apply GenerateInviteToken_inv in Ht as [_ Ht]. apply (batch_ok_same _ _ _ _ _ _ _ Hs3) in Hb.
  destruct t as [[raw hash]|e]; [|intros [= <- <-]; by eexists]. destruct (Ht raw hash eq_refl) as [Hraw ->].
  unfold bind, on_store, state. destruct (CreateInvite _ _ _) as [[r i'] d'] eqn:Hc.
  destruct Hb as [Hok Hm]. apply CreateInvite_inv in Hc as (Hok' & Hmono & Hnew); [|done|done].
  assert (Hb' : batch_ok h role recipients now b (set_store (fun _ => d') w3)).
  { split; [done|]. by apply (mailed_mono _ _ _ _ (store w3)). }
  destruct r as [[]|e]; [|intros [= <- <-]; by eexists].
  destruct (Hnew eq_refl) as (Hl & Hh & Hem & Hr & Hst & Hex). cbn in Hh, Hem, Hr, Hex.
  destruct (BuildInviteEmail _ _ _ _) as [m|e] eqn:Hbm; intros [= <- <-]; [|by eexists].
  apply BuildInviteEmail_inv in Hbm as [Hto Hlk]. eexists. split; [done|].
  rewrite <- Hto. apply batch_ok_send; [|exact Hb']. exists (Invite.ID i'), i', raw.
  split_and!; try done; [by rewrite Hem|]. rewrite Hto. by apply list_elem_of_In, in_map, list_elem_of_In.
Qed.

Lemma invite_all_ok h inviter name role recipients now l b w x w' :
  l ⊆ recipients -> batch_ok h role recipients now b w ->
  invite_all h inviter name role l now b w = (x, w') ->
  exists b', x = inr b' /\ batch_ok h role recipients now b' w'.
Proof.
  revert b w. induction l as [|email l IH]; intros b w Hl Hb.
  { intros [= <- <-]. eauto. }
  cbn [invite_all]. unfold bind. destruct (invite_one _ _ _ _ _ _ _ w) as [y w1] eqn:H1'.
  eapply invite_one_ok in H1' as (b1 & -> & Hb1); [|apply Hl, list_elem_of_here|exact Hb].
  apply IH; [|done]. intros e He. by apply Hl, list_elem_of_further.
Qed.

(** The link of a mail opens the page for its address. *)
Lemma mailed_opens h role recipients now w m :
  invites_ok (store w) -> Accounts.faults (store w) = [] -> mailed h role recipients now (store w) m ->
  exists raw, link m = invite_url h raw /\
  forall (r : request) now2, query r "token" = raw -> now2 <= now + inviteExpiry h ->
  exists inv w2, lookupValidInvite r now2 w = (inr (Some inv), w2) /\
    Invite.Email inv = to m /\ Invite.Role inv = role.
Proof.
  intros Hok Hf (k & inv & raw & Hk & Hl & Hne & Hh & He & Hr & Hst & Hex & _).
  exists raw. split; [done|]. intros r now2 Hq Hn. exists inv, w. split; [|done].
  unfold lookupValidInvite. rewrite Hq, bool_decide_eq_false_2 by done. handler_simpl.
  unfold GetInviteByTokenHash. rewrite sql_row_ok by done.
  rewrite (proj2 (invite_by_hash_iff _ k inv _ Hok Hk)) by done.
  rewrite Hst, bool_decide_eq_true_2 by done. unfold Expired. rewrite Hst. cbn [negb].
  rewrite (bool_decide_eq_false_2 (InvitePending = InviteAccepted)) by done. cbn [negb andb].
  destruct (Z.ltb_spec (Invite.TokenExpiresAt inv) now2); [lia|]. by destruct w.
Qed.
End InviteFacts.

(** * Properties *)

Section Invitations.
Context {KS : Type} `{SecretBox KS} `{CryptoPrims} `{Bcrypt} `{Totp} `{Mail}.
Implicit Types (d : Accounts.t KS) (w : web KS).

(** C26: Nobody signs up without an invitation.  Whatever statements fail, the
    public page leaves every table and the pending logins as they are, unless
    the request has the token of a stored invitation that is pending and has not
    expired and names the invited address.  In that case the old users stay, a new
    one has the invited address and the role of the invitation, and the new web
    sessions and pending logins are those of one user, who has the invited address. *)
Theorem signup_needs_invite h (r : request) (now : Time) w :
  let w' := serve (InviteSignupHandler h r now) w in
  untouched w w' \/
  exists inv, valid_invite r now (store w) inv /\ invitationsEnabled h = true /\
    Invite.Email inv = to_lower (trim_space (form r "email")) /\ enrols inv now w w'.
Proof. apply InviteSignupHandler_inv. Qed.

(** An invitation is used once.  When no statement fails, a token that made
    an account or a login changes nothing the next time, whoever sends it. *)
Theorem invite_used_once h (r r2 : request) (now now2 : Time) w :
  Accounts.faults (store w) = [] -> invites_ok (store w) -> query r2 "token" = query r "token" ->
  let w1 := serve (InviteSignupHandler h r now) w in
  untouched w w1 \/ untouched w1 (serve (InviteSignupHandler h r2 now2) w1).
Proof.
  intros Hf [Hkey Huniq] Hq w1.
  destruct (InviteSignupHandler_inv h r now w) as [Hu|(inv & (Hne & Hb & Hp & _) & _ & _ & Hen)]; [by left|right].
  destruct (InviteSignupHandler_inv h r2 now2 w1) as [Hu|(inv2 & (_ & Hb2 & Hp2 & _) & _)]; [done|exfalso].
  apply invite_by_hash_Some in Hb as (k & Hk & Hh). apply invite_by_hash_Some in Hb2 as (k2 & Hk2 & Hh2).
  destruct (proj1 Hen Hf) as [who Hinv]. fold w1 in Hinv. rewrite Hinv in Hk2.
  rewrite Hq, <- Hh in Hh2. pose proof (Hkey k inv Hk) as <-.
  destruct (decide (k2 = Invite.ID inv)) as [->|Hn].
  - rewrite lookup_alter_eq, Hk in Hk2. injection Hk2 as <-. done.
  - rewrite lookup_alter_ne in Hk2 by done. by apply Hn, (Huniq _ _ inv2 inv).
Qed.

(** A mailed invitation works.  Whatever statements fail and whatever the mail
    server refuses, every mail that went out is to one of the recipients, and its
    link has a token that the sign-up page accepts until the invitation expires,
    for that address and the role of the form.  The table keeps its constraints. *)
Theorem mailed_link_works h mailer user (r : request) now w x w' :
  invites_ok (store w) ->
  AdminInvitesCreateHandler h mailer user r now w = (x, w') ->
  invites_ok (store w') /\
  forall m, m ∈ match x with inl out | inr out => out end ->
    (exists recipients, ParseRecipients (form r "emails") = Ok recipients /\ to m ∈ map to_lower recipients) /\
    (Accounts.faults (store w') = [] ->
     exists raw, link m = invite_url h raw /\
     forall (r2 : request) now2, query r2 "token" = raw -> now2 <= now + inviteExpiry h ->
     exists inv w2, lookupValidInvite r2 now2 w' = (inr (Some inv), w2) /\ Invite.Email inv = to m /\
       Invite.Role inv = (if bool_decide (trim_space (form r "role") = EmptyString) then "user"
                          else trim_space (form r "role"))).
Proof.
  intros Hok. unfold AdminInvitesCreateHandler.
  do 3 (destruct (negb _); [intros [= <- <-]; split; [exact Hok|intros m Hm; by inversion Hm]|]). cbv zeta.
  destruct (ParseRecipients _) as [recipients|e] eqn:Hp;
    [|intros [= <- <-]; split; [exact Hok|intros m Hm; by inversion Hm]].
  set (role := if bool_decide _ then _ else _).
  destruct (invite_all _ _ _ _ _ _ _ w) as [y w1] eqn:Ha.
  apply (invite_all_ok _ _ _ _ recipients) in Ha as (b & -> & Hok' & Hm); [|done|by split].
  intros [= <- <-]. split; [exact Hok'|]. intros m Hin. rewrite Forall_forall in Hm.
  pose proof (Hm m Hin) as Hmail. split.
  { exists recipients. split; [done|]. by destruct Hmail as (? & ? & ? & _ & _ & _ & _ & _ & _ & _ & _ & ?). }
  intros Hf. by apply (mailed_opens h role recipients now (add_written _ w1) m).
Qed.

(** Editing a user loses the salt of the password.  The administrator's form
    leaves the password as it is when the field is empty, but the row is written
    without [PasswordSalt]: the secrets sealed with the key of the old salt stay,
    and the key can no longer be derived from the user's password. *)
Theorem admin_edit_drops_salt (r : request) (u : UserRow.t) w :
  Accounts.faults (store w) = [] -> meth r = "POST" ->
  Accounts.users (store w) !! form r "user_id" = Some u -> IsBcrypt (UserRow.Password u) = true ->
  form r "password" = EmptyString -> trim_space (form r "email") <> EmptyString ->
  email_taken (form r "user_id") (trim_space (form r "email")) (store w) = false ->
  let w' := serve (AdminUsersEditHandler r) w in
  answer w' = Some (redirect_success users_page "User+updated") /\
  (exists u', Accounts.users (store w') !! form r "user_id" = Some u' /\
     UserRow.Password u' = UserRow.Password u /\ UserRow.PasswordSalt u' = EmptyString /\
     forall password w2, derive_dek u' password w2 = (inr None, w2)) /\
  Accounts.user_tokens (store w') = Accounts.user_tokens (store w) /\
  Accounts.user_2fa (store w') = Accounts.user_2fa (store w).
Proof.
  intros Hf Hm Hu Hb Hp He Hmail. cbv zeta. unfold serve, run, AdminUsersEditHandler, isPost. rewrite Hm.
  rewrite (bool_decide_eq_true_2 ("POST" = "POST")) by done. cbn [negb].
  rewrite (bool_decide_eq_false_2 (trim_space (form r "email") = EmptyString)) by done. handler_simpl.
  unfold GetUser. rewrite sql_row_ok by done. cbn [store fresh_response]. rewrite Hu, Hp.
  rewrite (bool_decide_eq_true_2 (EmptyString = EmptyString)) by done.
  unfold update_user. handler_simpl. cbn [store set_store]. unfold UpdateUser, hashed, form_user.
  cbn [UserRow.Password UserRow.Email UserRow.ID]. rewrite Hb. cbn [negb andb].
  rewrite sql_checked_ok by done. cbn [UserRow.ID UserRow.Email]. rewrite Hmail, orb_true_r.
  split_and!; [done| |done|done]. cbn. rewrite lookup_alter_eq, Hu. eexists. split_and!; [done..|].
  intros password w2. by unfold derive_dek.
Qed.
End Invitations.

(** ** A concrete console *)

#[local] Existing Instances Toy.prims Toy.laws DemoAccounts.bcrypt DemoAccounts.provider DemoWeb.totp.

Module DemoInvite.
#[export] Instance mail : Mail := {| parse_address s := Some s; accepts n := true |}.

(** Bob has the link with the token [tok]. *)
Definition invite : Invite.t :=
  Invite.mk "i1" "bob@example.org" "Bob" "user" (HashInviteToken "tok") "pending" "root" 1000 None EmptyString 0.

Definition console : handler := Handler_ _ None [] false false Hour "local" EmptyString.

Definition web1 : web DemoAccounts.key_store :=
  Web (Accounts.set_invitations <["i1" := invite]> DemoAccounts.store) [] ∅ ∅ ∅ [] [].

(** No invitation yet. *)
Definition web0 : web DemoAccounts.key_store := Web DemoAccounts.store [] ∅ ∅ ∅ [] [].

Definition req (form : list (string * string)) (token : string) : request :=
  Request "POST" (fun k => default EmptyString (snd <$> (snd <$> list_find (fun kv => kv.1 = k) form)))
    (fun k => if bool_decide (k = "token") then token else EmptyString) (fun _ => None)
    (fun _ => EmptyString) true.

Definition sign_up : request :=
  req [("email", "Bob@example.org"); ("name", "Bob"); ("password", "s3cret"); ("password_confirm", "s3cret")] "tok".
End DemoInvite.

#[local] Existing Instance DemoInvite.mail.

Lemma demo_invites_ok : invites_ok (store DemoInvite.web1).
Proof.
  assert (Hs : Accounts.invitations (store DemoInvite.web1) = {[ "i1" := DemoInvite.invite ]}) by done.
  unfold invites_ok. rewrite Hs. split.
  - intros k i. rewrite lookup_singleton_Some. by intros [<- <-].
  - intros k k' i i'. rewrite !lookup_singleton_Some. by intros [<- _] [<- _].
Qed.

Example demo_sign_up :
  let w := serve (InviteSignupHandler DemoInvite.console DemoInvite.sign_up 5) DemoInvite.web1 in
  answer w = Some (Redirect "/web/") /\
  UserRow.Role <$> user_by_email "bob@example.org" (store w) = Some "user" /\
  map WebSession.Token (rows (Accounts.web_sessions (store w))) <> [].
Proof. split_and!; by vm_compute. Qed.

Lemma invite_used_once_witness :
  let w1 := serve (InviteSignupHandler DemoInvite.console DemoInvite.sign_up 5) DemoInvite.web1 in
  untouched w1 (serve (InviteSignupHandler DemoInvite.console DemoInvite.sign_up 6) w1).
Proof.
  intros w1.
  destruct (invite_used_once DemoInvite.console DemoInvite.sign_up DemoInvite.sign_up 5 6 DemoInvite.web1)
    as [[(ks & n & fs & Hu) _]|Hu]; [done|apply demo_invites_ok|done| |exact Hu].
  exfalso. apply (f_equal (fun d => size (Accounts.users d))) in Hu. by vm_compute in Hu.
Defined.

Definition demo_invite : request := DemoInvite.req [("emails", "Eve@example.org"); ("role", "admin")] EmptyString.

Lemma demo_no_invites : invites_ok (store DemoInvite.web0).
Proof. by split. Qed.

Lemma mailed_link_works_witness :
  let w' := (AdminInvitesCreateHandler DemoInvite.console true DemoAccounts.root demo_invite 0 DemoInvite.web0).2 in
  exists raw inv w2,
    lookupValidInvite (DemoInvite.req [] raw) Hour w' = (inr (Some inv), w2) /\
    Invite.Email inv = "eve@example.org" /\ Invite.Role inv = "admin".
Proof.
  cbv zeta.
  destruct (AdminInvitesCreateHandler DemoInvite.console true DemoAccounts.root demo_invite 0 DemoInvite.web0)
    as [x w'] eqn:Ha.
  destruct (mailed_link_works DemoInvite.console true DemoAccounts.root demo_invite 0 DemoInvite.web0 x w'
    demo_no_invites Ha) as [_ Hm].
  assert (Hx : exists m, x = inr [m] /\ to m = "eve@example.org").
  { vm_compute in Ha. injection Ha as <- _. by eexists. }
  destruct Hx as (m & -> & Hto). destruct (Hm m) as [_ Hopen]; [by apply list_elem_of_singleton|].
  destruct Hopen as (raw & _ & Hopen).
  { vm_compute in Ha. by injection Ha as _ <-. }
  destruct (Hopen (DemoInvite.req [] raw) Hour) as (inv & w2 & Hl & He & Hr); [done|by vm_compute|].
  exists raw, inv, w2. split_and!; [exact Hl|by rewrite He|by rewrite Hr].
Defined.

Lemma admin_edit_drops_salt_witness :
  let r := DemoInvite.req [("user_id", "ann"); ("email", "ann@example.org"); ("name", "Ann B.")] EmptyString in
  answer (serve (AdminUsersEditHandler r) DemoInvite.web1) = Some (redirect_success users_page "User+updated").
Proof.
  intros r. apply (admin_edit_drops_salt r DemoAccounts.ann DemoInvite.web1); by vm_compute.
Defined.
