(* ===== verification/OAuth.v ===== *)
(** * The authorization server: [src/auth/auth.go]

    The OAuth 2.1 endpoints and the middleware that admits requests with an
    access token or an API key.  Handlers run on the store and write responses;
    a client sees the first one.  A handler reads the clock once, and what
    [json.Decode] makes of the body of a registration is an argument. *)
From S2P Require Import Prelude GoStrings Sql Crypto Accounts Http.
From stdpp Require Import pretty.
Open Scope Z_scope.
Open Scope handler_scope.

Record oauth_handler := OAuthHandler { Issuer : string; CodeTTL : Duration; TokenTTL : Duration }.

Definition DefaultCodeTTL : Duration := 10 * Minute.
Definition DefaultTokenTTL : Duration := Hour.

Definition codeTTL (h : oauth_handler) : Duration :=
  if 0 <? CodeTTL h then CodeTTL h else DefaultCodeTTL.
Definition tokenTTL (h : oauth_handler) : Duration :=
  if 0 <? TokenTTL h then TokenTTL h else DefaultTokenTTL.

Record server (KS : Type) := Server { accounts : Accounts.t KS; responses : list response }.
Arguments Server {KS}. Arguments accounts {KS}. Arguments responses {KS}.

Definition jsonError (errCode description : string) (status : Z) : response :=
  Json status [("error", errCode); ("error_description", description)].

Definition server_error : response := HttpError 500 "server_error".
Definition invalid_request : response := HttpError 400 "invalid_request".

(** The header of 401 points to the metadata. *)
Definition unauthorized (h : oauth_handler) : response :=
  Json 401 [("WWW-Authenticate", "Bearer resource_metadata=" +:+ Issuer h +:+
                                 "/.well-known/oauth-authorization-server");
            ("error", "unauthorized")].

(** [strings.EqualFold] on the prefix, which has only ASCII letters. *)
Definition extractBearer (r : request) : string :=
  let auth := header r "Authorization" in
  if bool_decide (auth = EmptyString) then EmptyString
  else
    let prefix := "Bearer " in
    if (len auth <? len prefix) ||
       negb (bool_decide (to_lower (str_take (String.length prefix) auth) = to_lower prefix))
    then EmptyString
    else str_drop (String.length prefix) auth.

Definition MetadataHandler (h : oauth_handler) (r : request) : response :=
  if negb (isGet r) then MethodNotAllowed
  else Json 200
    [("issuer", Issuer h);
     ("authorization_endpoint", Issuer h +:+ "/authorize");
     ("token_endpoint", Issuer h +:+ "/token");
     ("registration_endpoint", Issuer h +:+ "/register");
     ("response_types_supported", "code");
     ("grant_types_supported", "authorization_code refresh_token");
     ("token_endpoint_auth_methods_supported", "none");
     ("code_challenge_methods_supported", "S256");
     ("scopes_supported", "mcp")].

Section OAuth.
Context {KS : Type} `{CryptoPrims} `{Bcrypt}.

Definition A (X : Type) : Type := M (server KS) unit X.

Definition db {X} (f : Accounts.t KS -> X * Accounts.t KS) : A X :=
  state (fun s => let '(x, d) := f (accounts s) in (x, Server d (responses s))).

Definition write (x : response) : A unit :=
  modify (fun s => Server (accounts s) (responses s ++ [x])).

(** A response followed by [return]. *)
Definition stop {X} (x : response) : A X := write x ;;; early tt.

(** A request against a store: what was written, and the store after it. *)
Definition handle (m : A unit) (d : Accounts.t KS) : list response * Accounts.t KS :=
  let '(_, s) := run m (Server d []) in (responses s, accounts s).

(** ** Middleware *)

(** [next] gets the id of the user. *)
Definition Middleware (h : oauth_handler) (r : request) (now : Time) (next : string -> A unit) :
    A unit :=
  let token := extractBearer r in
  if bool_decide (token = EmptyString) then stop (unauthorized h)
  else
    userID <-- (if has_prefix token "mcp_" then
        k <-- db (ValidateAPIKey token) ;;
        match k with
        | Err _ => stop (unauthorized h)
        | Ok apiKey =>
            if match APIKey.ExpiresAt apiKey with Some t => t <? now | None => false end
            then stop (unauthorized h)
            else _ <-- db (UpdateAPIKeyLastUsed (APIKey.ID apiKey) now) ;; ret (APIKey.UserID apiKey)
        end
      else
        s <-- db (GetOAuthSession token) ;;
        match s with
        | Err _ => stop (unauthorized h)
        | Ok sess =>
            if OAuthSession.ExpiresAt sess <? now
            then _ <-- db (DeleteOAuthSession token) ;; stop (unauthorized h)
            else ret (OAuthSession.UserID sess)
        end) ;;
    next userID.

(** ** Registration of clients *)

(** [marshal]: [json.Marshal] of a list of strings; [body]: the decoded
    [redirect_uris] and [client_name]. *)
Definition RegisterClientHandler (marshal : list string -> string)
    (body : option (list string * string)) (r : request) (now : Time) : A unit :=
  if negb (isPost r) then stop MethodNotAllowed
  else match body with
  | None => stop invalid_request
  | Some (redirect_uris, client_name) =>
      if bool_decide (redirect_uris = []) then stop invalid_request
      else
        rc <-- db (fun d => let '(e, c, d) := CreateOAuthClient
          (OAuthClient.mk EmptyString EmptyString (marshal redirect_uris) client_name 0) now d in
          ((e, c), d)) ;;
        match rc with
        | (Err _, _) => stop server_error
        | (Ok _, c) => write (Json 201 [("client_id", OAuthClient.ClientID c);
                                        ("client_name", client_name);
                                        ("token_endpoint_auth_method", "none")])
        end
  end.

(** ** Authorization endpoint *)

Definition login_form (clientID redirectURI st codeChallenge scope err : string) : response :=
  Render "login" err [("client_id", clientID); ("redirect_uri", redirectURI); ("state", st);
                      ("code_challenge", codeChallenge); ("scope", scope)].

Definition authorizeGet (r : request) : A unit :=
  let clientID := query r "client_id" in
  let redirectURI := query r "redirect_uri" in
  let codeChallenge := query r "code_challenge" in
  let codeChallengeMethod := query r "code_challenge_method" in
  if bool_decide (clientID = EmptyString) || bool_decide (redirectURI = EmptyString)
  then stop invalid_request
  else
    c <-- db (GetOAuthClient clientID) ;;
    match c with
    | Err _ => stop (HttpError 400 "invalid_client")
    | Ok _ =>
        if negb (bool_decide (codeChallenge = EmptyString)) &&
           negb (bool_decide (codeChallengeMethod = "S256")) &&
           negb (bool_decide (codeChallengeMethod = EmptyString))
        then stop invalid_request
        else write (login_form clientID redirectURI (query r "state") codeChallenge
                      (query r "scope") EmptyString)
    end.

(** The plaintext password of the row is replaced by its hash. *)
Definition upgrade_hash (user : UserRow.t) (password : string) : A unit :=
  if IsBcrypt (UserRow.Password user) then ret tt
  else
    hash <-- db (HashPassword password) ;;
    match hash with
    | Err _ => ret tt
    | Ok hash =>
        _ <-- db (fun d => let '(e, u, d) := UpdateUser (UserRow.with_Password hash user) d in (e, d)) ;;
        ret tt
    end.

(** Where the browser goes with the code; the state is appended as it is. *)
Definition redirect_location (redirectURI code st : string) : string :=
  let sep := if contains redirectURI "?" then "&" else "?" in
  let location := redirectURI +:+ sep +:+ "code=" +:+ code in
  if negb (bool_decide (st = EmptyString)) then location +:+ "&state=" +:+ st else location.

Definition authorizePost (h : oauth_handler) (r : request) (now : Time) : A unit :=
  if negb (form_ok r) then stop invalid_request
  else
    let password := form r "password" in
    let clientID := form r "client_id" in
    let redirectURI := form r "redirect_uri" in
    let st := form r "state" in
    let codeChallenge := form r "code_challenge" in
    let scope := form r "scope" in
    if bool_decide (clientID = EmptyString) || bool_decide (redirectURI = EmptyString)
    then stop invalid_request
    else
      let again := login_form clientID redirectURI st codeChallenge scope "Invalid email or password" in
      u <-- db (GetUserByEmail (form r "email")) ;;
      match u with
      | Err _ => stop again
      | Ok user =>
          if negb (CheckPassword (UserRow.Password user) password) then stop again
          else
            upgrade_hash user password ;;;
            rc <-- db (fun d => let '(e, c, d) := CreateOAuthCode
              (OAuthCode.mk EmptyString (UserRow.ID user) clientID redirectURI codeChallenge scope
                 (now + codeTTL h)) d in ((e, c), d)) ;;
            match rc with
            | (Err _, _) => stop server_error
            | (Ok _, c) => write (Redirect (redirect_location redirectURI (OAuthCode.Code c) st))
            end
      end.

Definition AuthorizeHandler (h : oauth_handler) (r : request) (now : Time) : A unit :=
  if isGet r then authorizeGet r
  else if isPost r then authorizePost h r now
  else write MethodNotAllowed.

(** ** Token endpoint *)

Definition verifyPKCE (codeVerifier codeChallenge : string) : bool :=
  bool_decide (b64_encode false (sha256 codeVerifier) = codeChallenge).

(** A duration in whole seconds, in decimal. *)
Definition token_response (sess : OAuthSession.t) (ttl : Duration) : response :=
  Json 200 [("access_token", OAuthSession.AccessToken sess);
            ("token_type", "Bearer");
            ("expires_in", pretty (duration_secs ttl));
            ("refresh_token", OAuthSession.RefreshToken sess);
            ("scope", OAuthSession.Scope sess)].

(** The end of both grants: a new session for the user of the old grant. *)
Definition issue_session (h : oauth_handler) (userID clientID scope : string) (now : Time) : A unit :=
  rs <-- db (fun d => let '(e, s, d) := CreateOAuthSession
    (OAuthSession.mk EmptyString EmptyString userID clientID scope (now + tokenTTL h) 0) now d in
    ((e, s), d)) ;;
  match rs with
  | (Err _, _) => stop (jsonError "server_error" "could not create session" 500)
  | (Ok _, sess) => write (token_response sess (tokenTTL h))
  end.

(** The validations of a code, up to its consumption. *)
Definition check_code (r : request) (now : Time) : A OAuthCode.t :=
  let codeStr := form r "code" in
  let codeVerifier := form r "code_verifier" in
  let redirectURI := form r "redirect_uri" in
  let clientID := form r "client_id" in
  if bool_decide (codeStr = EmptyString) then stop (jsonError "invalid_request" "code required" 400)
  else
    c <-- db (GetOAuthCode codeStr) ;;
    match c with
    | Err _ => stop (jsonError "invalid_grant" "code not found" 400)
    | Ok code =>
        if OAuthCode.ExpiresAt code <? now then
          _ <-- db (DeleteOAuthCode codeStr) ;; stop (jsonError "invalid_grant" "code expired" 400)
        else if negb (bool_decide (clientID = EmptyString)) &&
                negb (bool_decide (clientID = OAuthCode.ClientID code)) then
          stop (jsonError "invalid_grant" "client_id mismatch" 400)
        else if negb (bool_decide (redirectURI = EmptyString)) &&
                negb (bool_decide (redirectURI = OAuthCode.RedirectURI code)) then
          stop (jsonError "invalid_grant" "redirect_uri mismatch" 400)
        else if negb (bool_decide (OAuthCode.CodeChallenge code = EmptyString)) then
          if bool_decide (codeVerifier = EmptyString) then
            stop (jsonError "invalid_grant" "code_verifier required" 400)
          else if negb (verifyPKCE codeVerifier (OAuthCode.CodeChallenge code)) then
            stop (jsonError "invalid_grant" "PKCE verification failed" 400)
          else ret code
        else ret code
    end.

(** The code is consumed, whether the DELETE fails or not, and a session made. *)
Definition consume_code (h : oauth_handler) (r : request) (code : OAuthCode.t) (now : Time) : A unit :=
  _ <-- db (DeleteOAuthCode (form r "code")) ;;
  issue_session h (OAuthCode.UserID code) (OAuthCode.ClientID code) (OAuthCode.Scope code) now.

Definition tokenAuthorizationCode (h : oauth_handler) (r : request) (now : Time) : A unit :=
  code <-- check_code r now ;; consume_code h r code now.

Definition tokenRefresh (h : oauth_handler) (r : request) (now : Time) : A unit :=
  let refreshToken := form r "refresh_token" in
  if bool_decide (refreshToken = EmptyString) then
    stop (jsonError "invalid_request" "refresh_token required" 400)
  else
    s <-- db (GetOAuthSessionByRefresh refreshToken) ;;
    match s with
    | Err _ => stop (jsonError "invalid_grant" "refresh_token not found" 400)
    | Ok oldSess =>
        _ <-- db (DeleteOAuthSession (OAuthSession.AccessToken oldSess)) ;;
        issue_session h (OAuthSession.UserID oldSess) (OAuthSession.ClientID oldSess)
          (OAuthSession.Scope oldSess) now
    end.

Definition TokenHandler (h : oauth_handler) (r : request) (now : Time) : A unit :=
  if negb (isPost r) then stop MethodNotAllowed
  else if negb (form_ok r) then stop (jsonError "invalid_request" "could not parse form" 400)
  else
    let grantType := form r "grant_type" in
    if bool_decide (grantType = "authorization_code") then tokenAuthorizationCode h r now
    else if bool_decide (grantType = "refresh_token") then tokenRefresh h r now
    else write (jsonError "unsupported_grant_type"
                  "only authorization_code and refresh_token supported" 400).

End OAuth.
Arguments A : clear implicits.
