(* ===== verification/Grants.v ===== *)
(** * What the authorization server grants

    An abstract specification of [OAuth], a ledger of codes and tokens whose
    steps are those an authorization server may take, the proof that every
    request the server handles is simulated by steps of the ledger, and theorems
    about codes, tokens and the middleware. *)
From S2P Require Import Prelude GoStrings Sql Crypto Accounts Http OAuth.
Open Scope Z_scope.

(** ** The ledger *)

Module Ledger.
(** Codes with user, client and deadline; tokens with user and client; and who
    has authorised which client so far. *)
Record t := mk {
  codes : gmap string (string * string * Time);
  tokens : gmap string (string * string);
  granted : gset (string * string)
}.

(** The steps at a moment at which exactly the users in [valid] present their
    password. *)
Inductive step (valid : string -> string -> Prop) (now : Time) : t -> t -> Prop :=
| authorise L code u c deadline :
    valid u c -> codes L !! code = None ->
    step valid now L (mk (<[code := (u, c, deadline)]> (codes L)) (tokens L) ({[(u, c)]} ∪ granted L))
| exchange L code token u c deadline :
    codes L !! code = Some (u, c, deadline) -> now <= deadline -> tokens L !! token = None ->
    step valid now L (mk (delete code (codes L)) (<[token := (u, c)]> (tokens L)) (granted L))
| refresh L old new u c :
    tokens L !! old = Some (u, c) -> delete old (tokens L) !! new = None ->
    step valid now L (mk (codes L) (<[new := (u, c)]> (delete old (tokens L))) (granted L))
| drop_codes L m :
    m ⊆ codes L -> step valid now L (mk m (tokens L) (granted L))
| drop_tokens L m :
    m ⊆ tokens L -> step valid now L (mk (codes L) m (granted L)).

(** Every code and token is of somebody who authorised its client. *)
Definition sound (L : t) : Prop :=
  (forall code u c e, codes L !! code = Some (u, c, e) -> (u, c) ∈ granted L) /\
  (forall token u c, tokens L !! token = Some (u, c) -> (u, c) ∈ granted L).

Lemma step_sound valid now L L' : step valid now L L' -> sound L -> sound L'.
Proof.
  intros Hs [Hc Ht]. destruct Hs as [L code u c deadline Hv Hl|L code token u c deadline Hl Hd Hf|
    L old new u c Hl Hf|L m Hm|L m Hm]; split; cbn; intros *.
  - rewrite lookup_insert_Some. intros [[_ ?]|[_ Hl']]; simplify_eq; [set_solver|].
    apply Hc in Hl'. set_solver.
  - intros Hl'. apply Ht in Hl'. set_solver.
  - rewrite lookup_delete_Some. intros [_ Hl']. by apply Hc in Hl'.
  - rewrite lookup_insert_Some. intros [[_ ?]|[_ Hl']]; simplify_eq; [by eapply Hc|by eapply Ht].
  - apply Hc.
  - rewrite lookup_insert_Some, lookup_delete_Some.
    intros [[_ ?]|[_ [_ Hl']]]; simplify_eq; by eapply Ht.
  - intros Hl'. eapply Hc. by eapply lookup_weaken.
  - apply Ht.
  - apply Hc.
  - intros Hl'. eapply Ht. by eapply lookup_weaken.
Qed.

(** Only who is valid is added to the grants. *)
Lemma step_granted valid now L L' p :
  step valid now L L' -> p ∈ granted L' -> p ∈ granted L \/ valid p.1 p.2.
Proof. intros Hs. destruct Hs; cbn; try (by left). rewrite elem_of_union, elem_of_singleton. intros [->|?]; auto. Qed.

Lemma steps_sound valid now L L' : rtc (step valid now) L L' -> sound L -> sound L'.
Proof. induction 1; eauto using step_sound. Qed.

Lemma steps_granted valid now L L' p :
  rtc (step valid now) L L' -> p ∈ granted L' -> p ∈ granted L \/ valid p.1 p.2.
Proof.
  induction 1 as [|L L1 L' Hs _ IH]; [auto|]. intros Hp. destruct (IH Hp) as [Hp'|]; [|auto].
  by apply (step_granted _ _ _ _ _ Hs).
Qed.
End Ledger.

(** ** The server as a sequence of requests *)

(** What a client, or the clean-up job, does at one moment. *)
Inductive call :=
| Metadata (r : request)
| Register (body : option (list string * string)) (r : request)
| Authorize (r : request)
| Token (r : request)
| Access (r : request)
| Cleanup.

Section Server.
Context {KS : Type} `{CryptoPrims} `{Bcrypt}.
Variable h : oauth_handler.
Variable marshal : list string -> string.
Implicit Types d : Accounts.t KS.

(** The handler behind the middleware does not touch the grants. *)
Definition exec (c : call) (now : Time) d : Accounts.t KS :=
  match c with
  | Metadata _ => d
  | Register body r => (handle (RegisterClientHandler marshal body r now) d).2
  | Authorize r => (handle (AuthorizeHandler h r now) d).2
  | Token r => (handle (TokenHandler h r now) d).2
  | Access r => (handle (Middleware h r now (fun _ => ret tt)) d).2
  | Cleanup => (DeleteExpiredSessions now (DeleteExpiredCodes now d).2).2
  end.

Fixpoint execs (l : list (Time * call)) d : Accounts.t KS :=
  match l with
  | [] => d
  | (now, c) :: l => execs l (exec c now d)
  end.

(** Whether a call authenticates a user for a client, by the password of the
    first row with the e-mail address. *)
Definition authenticates (c : call) d (u client : string) : Prop :=
  exists r row, c = Authorize r /\ meth r = "POST" /\ form r "client_id" = client /\
    user_by_email (form r "email") d = Some row /\ UserRow.ID row = u /\
    CheckPassword (UserRow.Password row) (form r "password") = true.

(** The ledger a store stands for. *)
Definition ledger (G : gset (string * string)) d : Ledger.t :=
  Ledger.mk
    ((fun c => (OAuthCode.UserID c, OAuthCode.ClientID c, OAuthCode.ExpiresAt c)) <$> Accounts.oauth_codes d)
    ((fun s => (OAuthSession.UserID s, OAuthSession.ClientID s)) <$> Accounts.oauth_sessions d) G.

(** The rest of the tables is out of sight. *)
Lemma ledger_ext G d d' :
  Accounts.oauth_codes d' = Accounts.oauth_codes d ->
  Accounts.oauth_sessions d' = Accounts.oauth_sessions d -> ledger G d' = ledger G d.
Proof. unfold ledger. by intros -> ->. Qed.

(** *** The pieces of the handlers when no statement fails *)

Lemma db_row {X} (f : Accounts.t KS -> option X) (s : server KS) :
  Accounts.faults (accounts s) = [] ->
  db (sql_row f) s = (inr (match f (accounts s) with Some a => Ok a | None => Err ErrNoRows end), s).
Proof. intros Hf. unfold db, state. rewrite sql_row_ok by done. by destruct s. Qed.

Lemma db_exec (f : Accounts.t KS -> Accounts.t KS) (s : server KS) :
  Accounts.faults (accounts s) = [] ->
  db (sql_exec f) s = (inr (Ok tt), Server (f (accounts s)) (responses s)).
Proof. intros Hf. unfold db, state. by rewrite sql_exec_ok. Qed.

(** No statement fails, and the rows of sessions are under their tokens. *)
Definition sessions_keyed d : Prop :=
  forall token s, Accounts.oauth_sessions d !! token = Some s -> OAuthSession.AccessToken s = token.

Definition regular d : Prop := Accounts.faults d = [] /\ sessions_keyed d.

Lemma sessions_keyed_insert d token s m :
  sessions_keyed d -> m ⊆ Accounts.oauth_sessions d -> OAuthSession.AccessToken s = token ->
  forall d', Accounts.oauth_sessions d' = <[token := s]> m -> sessions_keyed d'.
Proof.
  intros Hk Hm Hs d' Hd' t s' Hl. rewrite Hd', lookup_insert_Some in Hl.
  destruct Hl as [[<- <-]|[_ Hl]]; [done|]. apply Hk. by eapply lookup_weaken.
Qed.

Lemma sessions_keyed_subseteq d d' :
  sessions_keyed d -> Accounts.oauth_sessions d' ⊆ Accounts.oauth_sessions d -> sessions_keyed d'.
Proof. intros Hk Hm t s Hl. apply Hk. by eapply lookup_weaken. Qed.

(** No statement fails before or after, and the grants are the same. *)
Definition same_grants d d' : Prop :=
  Accounts.faults d' = [] /\ Accounts.oauth_codes d' = Accounts.oauth_codes d /\
  Accounts.oauth_sessions d' = Accounts.oauth_sessions d.

Lemma UpdateUser_grants u d :
  Accounts.faults d = [] -> same_grants d (UpdateUser u d).2.
Proof.
  intros Hf. unfold UpdateUser, hashed, HashPassword. case_if; [destruct (bcrypt_generate _ _)|].
  all: rewrite ?sql_checked_ok by done; try case_if; done.
Qed.

Lemma upgrade_hash_ok user pw (s : server KS) :
  Accounts.faults (accounts s) = [] ->
  exists d, upgrade_hash user pw s = (inr tt, Server d (responses s)) /\ same_grants (accounts s) d.
Proof.
  intros Hf. unfold upgrade_hash. case_if; [exists (accounts s); by destruct s|].
  unfold bind at 1, db at 1, state at 1, HashPassword.
  destruct (bcrypt_generate _ pw) as [hash|]; [|by eexists].
  unfold bind, db, state. cbn [accounts].
  pose proof (UpdateUser_grants (UserRow.with_Password hash user)
    (Accounts.set_rng (S (Accounts.rng (accounts s))) (accounts s)) Hf) as Hg.
  destruct (UpdateUser _ _) as [[e u] d]. exists d. split; [done|]. apply Hg.
Qed.

(** The end of both grants: at most a session under a new token is added. *)
Lemma issue_session_ok user client scope now (s : server KS) :
  Accounts.faults (accounts s) = [] ->
  exists x d l, issue_session h user client scope now s = (x, Server d l) /\
    Accounts.faults d = [] /\ Accounts.oauth_codes d = Accounts.oauth_codes (accounts s) /\
    (Accounts.oauth_sessions d = Accounts.oauth_sessions (accounts s) \/
     exists token sess, Accounts.oauth_sessions (accounts s) !! token = None /\
       OAuthSession.AccessToken sess = token /\
       OAuthSession.UserID sess = user /\ OAuthSession.ClientID sess = client /\
       Accounts.oauth_sessions d = <[token := sess]> (Accounts.oauth_sessions (accounts s))).
Proof.
  intros Hf. unfold issue_session, CreateOAuthSession, id_or_new, generateID, read_rand.
  unfold bind, db, state. rewrite !(bool_decide_eq_true_2 (_ = EmptyString)) by done.
  rewrite sql_checked_ok by done. case_if.
  - eexists _, _, _. split; [reflexivity|]. split_and!; [done|done|]. right.
    do 2 eexists. split_and!; [| | | |reflexivity]; done.
  - eexists _, _, _. split; [reflexivity|]. split_and!; [done|done|by left].
Qed.

(** *** The simulation *)

(** What has to hold after a request at [now]. *)
Definition simulated valid now G d d' : Prop :=
  exists G', regular d' /\ rtc (Ledger.step valid now) (ledger G d) (ledger G' d').

Lemma simulated_same valid now G d d' :
  regular d -> same_grants d d' -> simulated valid now G d d'.
Proof.
  intros [_ Hk] (Hf & Hc & Hs). exists G. split.
  { split; [done|]. apply (sessions_keyed_subseteq d); [done|by rewrite Hs]. }
  by rewrite (ledger_ext G d d').
Qed.

Lemma authorize_simulated r now d G :
  regular d ->
  simulated (authenticates (Authorize r) d) now G d (exec (Authorize r) now d).
Proof.
  intros Hreg. pose proof Hreg as [Hf Hkeyed].
  assert (Hstay : forall d', same_grants d d' -> simulated (authenticates (Authorize r) d) now G d d')
    by (intros; by apply simulated_same).
  assert (Hsame : same_grants d d) by done.
  unfold exec, handle, run, AuthorizeHandler, authorizeGet, authorizePost, GetOAuthClient, GetUserByEmail.
  cbv zeta. case_if; [|case_if; [|by apply Hstay]].
  { case_if; [by apply Hstay|]. unfold bind at 1. rewrite db_row by done.
    destruct (Accounts.oauth_clients _ !! _); [case_if|]; by apply Hstay. }
  destruct (form_ok r); [cbn [negb]|by apply Hstay]. case_if; [by apply Hstay|].
  unfold bind at 1. rewrite db_row by done. cbn [accounts].
  destruct (user_by_email (form r "email") d) as [row|] eqn:Hrow; [|by apply Hstay].
  destruct (CheckPassword (UserRow.Password row) (form r "password")) eqn:Hpw; [cbn [negb]|by apply Hstay].
  destruct (upgrade_hash_ok row (form r "password") (Server d [])) as (d1 & Hup & Hf1 & Hc1 & Hs1); [done|].
  unfold bind at 1. rewrite Hup.
  unfold CreateOAuthCode, id_or_new, generateID, read_rand, bind, db, state. cbn [accounts].
  rewrite (bool_decide_eq_true_2 (_ = EmptyString)) by done. rewrite sql_checked_ok by done.
  case_if; [|apply Hstay; done].
  cbn. exists ({[(UserRow.ID row, form r "client_id")]} ∪ G). split.
  { split; [done|]. apply (sessions_keyed_subseteq d); [done|cbn in *; by rewrite Hs1]. }
  apply rtc_once. unfold ledger at 2. cbn. rewrite fmap_insert, Hc1, Hs1. cbn.
  apply (Ledger.authorise _ _ (ledger G d)).
  - exists r, row. split_and!; try done. by apply isPost_true.
  - cbn in *. rewrite lookup_fmap, <- Hc1.
    by match goal with Hn : _ !! _ = None |- _ => rewrite Hn end.
Qed.

Lemma check_code_ok r now (s : server KS) x s' :
  Accounts.faults (accounts s) = [] -> check_code r now s = (x, s') ->
  (exists code, x = inr code /\ s' = s /\ Accounts.oauth_codes (accounts s) !! form r "code" = Some code /\
     now <= OAuthCode.ExpiresAt code) \/
  (x = inl tt /\ (accounts s' = accounts s \/
     accounts s' = Accounts.set_oauth_codes (delete (form r "code")) (accounts s))).
Proof.
  intros Hf. unfold check_code, GetOAuthCode, DeleteOAuthCode. cbv zeta. case_if.
  { intros [= <- <-]. right. auto. }
  unfold bind at 1. rewrite db_row by done.
  destruct (Accounts.oauth_codes (accounts s) !! form r "code") as [code|];
    [|intros [= <- <-]; right; auto].
  case_if.
  { unfold bind at 1. rewrite db_exec by done. intros [= <- <-]. right. auto. }
  repeat case_if; intros [= <- <-]; first [right; by auto | left; by exists code].
Qed.

Lemma token_simulated r now d G :
  regular d -> simulated (authenticates (Token r) d) now G d (exec (Token r) now d).
Proof.
  intros Hreg. pose proof Hreg as [Hf Hkeyed].
  assert (Hstay : forall d', same_grants d d' -> simulated (authenticates (Token r) d) now G d d')
    by (intros; by apply simulated_same).
  assert (Hsame : same_grants d d) by done.
  unfold exec, handle, run, TokenHandler. case_if; [by apply Hstay|].
  case_if; [by apply Hstay|]. cbv zeta. case_if.
  - unfold tokenAuthorizationCode, bind at 1.
    destruct (check_code r now (Server d [])) as [x s'] eqn:Hc.
    apply check_code_ok in Hc as [(code & -> & -> & Hl & He)|[-> Hs]]; [| |done].
    + unfold consume_code, DeleteOAuthCode, bind at 1. rewrite db_exec by done. cbn [accounts responses] in *.
      edestruct (issue_session_ok (OAuthCode.UserID code) (OAuthCode.ClientID code) (OAuthCode.Scope code)
        now (Server (Accounts.set_oauth_codes (delete (form r "code")) d) []))
        as (x & d1 & l & -> & Hf1 & Hc1 & Hs1); [done|]. cbn in *.
      assert (simulated (authenticates (Token r) d) now G d d1); [|by destruct x].
      exists G. split.
      { split; [done|]. destruct Hs1 as [Hs1|(token & sess & Hn & Ha & Hu & Hcl & Hs1)].
        - apply (sessions_keyed_subseteq d); [done|by rewrite Hs1].
        - by eapply (sessions_keyed_insert d). }
      unfold ledger at 2. rewrite Hc1. cbn. rewrite fmap_delete.
      destruct Hs1 as [->|(token & sess & Hn & _ & Hu & Hcl & ->)].
      * apply rtc_once, (Ledger.drop_codes _ _ (ledger G d)). apply delete_subseteq.
      * rewrite fmap_insert, Hu, Hcl.
        eapply rtc_once, (Ledger.exchange _ _ (ledger G d)); [|exact He|].
        -- cbn. by rewrite lookup_fmap, Hl.
        -- cbn. by rewrite lookup_fmap, Hn.
    + cbn in *. destruct Hs as [-> | ->]; [by apply Hstay|]. exists G. split; [done|].
      unfold ledger at 2. cbn. rewrite fmap_delete.
      apply rtc_once, (Ledger.drop_codes _ _ (ledger G d)). apply delete_subseteq.
  - case_if; [|by apply Hstay]. unfold tokenRefresh. case_if; [by apply Hstay|].
    unfold GetOAuthSessionByRefresh, bind at 1. rewrite db_row by done. cbn [accounts].
    destruct (session_by_refresh (form r "refresh_token") d) as [old|] eqn:Hold; [|by apply Hstay].
    unfold DeleteOAuthSession, bind at 1. rewrite db_exec by done. cbn [accounts responses].
    edestruct (issue_session_ok (OAuthSession.UserID old) (OAuthSession.ClientID old)
      (OAuthSession.Scope old) now
      (Server (Accounts.set_oauth_sessions (delete (OAuthSession.AccessToken old)) d) []))
      as (x & d1 & l & -> & Hf1 & Hc1 & Hs1); [done|]. cbn in *.
    assert (simulated (authenticates (Token r) d) now G d d1); [|by destruct x].
    exists G. split.
    { split; [done|]. destruct Hs1 as [Hs1|(token & sess & Hn & Ha & Hu & Hcl & Hs1)].
      - apply (sessions_keyed_subseteq d); [done|]. rewrite Hs1. apply delete_subseteq.
      - eapply (sessions_keyed_insert d); [done| |done|done]. apply delete_subseteq. }
    unfold ledger at 2. rewrite Hc1.
    destruct Hs1 as [->|(token & sess & Hn & _ & Hu & Hcl & ->)].
    + rewrite fmap_delete. apply rtc_once, (Ledger.drop_tokens _ _ (ledger G d)). apply delete_subseteq.
    + rewrite fmap_insert, Hu, Hcl, fmap_delete.
      apply rtc_once, (Ledger.refresh _ _ (ledger G d)).
      * cbn. unfold session_by_refresh in Hold.
        destruct (list_find _ _) as [[i s0]|] eqn:Hfind; [|done]. injection Hold as ->.
        apply list_find_Some in Hfind as (Hin & _ & _). apply list_elem_of_lookup_2 in Hin.
        apply elem_of_rows in Hin as [token' Hl]. rewrite (Hkeyed _ _ Hl), lookup_fmap, Hl. done.
      * cbn. rewrite <- fmap_delete, lookup_fmap, Hn. done.
Qed.

Lemma ValidateAPIKey_quiet key d :
  Accounts.faults d = [] -> exists r, ValidateAPIKey key d = (r, d).
Proof.
  intros Hf. unfold ValidateAPIKey, sql_query. rewrite sql_stmt_ok by done.
  destruct (list_find _ _) as [[i k]|]; [|by eexists]. unfold GetAPIKeyByID.
  rewrite sql_row_ok by done. by eexists.
Qed.

Lemma access_simulated r now d G :
  regular d -> simulated (authenticates (Access r) d) now G d (exec (Access r) now d).
Proof.
  intros Hreg. pose proof Hreg as [Hf Hkeyed].
  assert (Hstay : forall d', same_grants d d' -> simulated (authenticates (Access r) d) now G d d')
    by (intros; by apply simulated_same).
  assert (Hsame : same_grants d d) by done.
  unfold exec, handle, run, Middleware. cbv zeta. case_if; [by apply Hstay|].
  unfold bind at 1. case_if.
  - destruct (ValidateAPIKey_quiet (extractBearer r) d Hf) as [rk Hr].
    unfold bind at 1, db at 1, state at 1. cbn [accounts]. rewrite Hr.
    destruct rk as [k|e]; [|by apply Hstay]. case_if; [by apply Hstay|].
    unfold UpdateAPIKeyLastUsed, bind at 1. rewrite db_exec by done. by apply Hstay.
  - unfold GetOAuthSession, DeleteOAuthSession, bind at 1. rewrite db_row by done. cbn [accounts].
    destruct (Accounts.oauth_sessions d !! extractBearer r) as [s|]; [|by apply Hstay].
    case_if; [|by apply Hstay]. unfold bind at 1. rewrite db_exec by done. cbn.
    exists G. split.
    { split; [done|]. apply (sessions_keyed_subseteq d); [done|]. apply delete_subseteq. }
    unfold ledger at 2. cbn. rewrite fmap_delete.
    apply rtc_once, (Ledger.drop_tokens _ _ (ledger G d)). apply delete_subseteq.
Qed.

Lemma cleanup_simulated now d G :
  regular d -> simulated (authenticates Cleanup d) now G d (exec Cleanup now d).
Proof.
  intros [Hf Hkeyed]. unfold exec, DeleteExpiredSessions, DeleteExpiredCodes, delete_where.
  rewrite !sql_stmt_ok by (rewrite ?sql_stmt_ok; done). cbn [snd].
  assert (Hc : forall d, Accounts.oauth_codes (Accounts.set_oauth_codes
    (filter (fun kv => ~ (OAuthCode.ExpiresAt kv.2 < now))) d) ⊆ Accounts.oauth_codes d)
    by (intros; apply (map_filter_subseteq (fun kv => ~ (OAuthCode.ExpiresAt kv.2 < now)))).
  assert (Hs : forall d, Accounts.oauth_sessions (Accounts.set_oauth_sessions
    (filter (fun kv => ~ (OAuthSession.ExpiresAt kv.2 < now))) d) ⊆ Accounts.oauth_sessions d)
    by (intros; apply (map_filter_subseteq (fun kv => ~ (OAuthSession.ExpiresAt kv.2 < now)))).
  exists G. split; [split; [done|]; apply (sessions_keyed_subseteq d);
    [done|exact (Hs (Accounts.set_oauth_codes _ d))]|].
  eapply rtc_l; [|apply rtc_once].
  - apply (Ledger.drop_codes _ _ (ledger G d)). apply map_fmap_mono, Hc.
  - apply (Ledger.drop_tokens _ _ (Ledger.mk _ _ _)). apply map_fmap_mono.
    exact (Hs (Accounts.set_oauth_codes _ d)).
Qed.

Lemma register_simulated body r now d G :
  regular d -> simulated (authenticates (Register body r) d) now G d (exec (Register body r) now d).
Proof.
  intros Hreg. pose proof Hreg as [Hf _]. apply simulated_same; [done|].
  unfold exec, handle, run, RegisterClientHandler. case_if; [done|].
  destruct body as [[uris name]|]; [|done]. case_if; [done|].
  unfold CreateOAuthClient, id_or_new, generateID, read_rand, bind, db, state. cbn [accounts].
  rewrite (bool_decide_eq_true_2 (_ = EmptyString)) by done. rewrite sql_checked_ok by done.
  by case_if.
Qed.

Lemma server_refines c now d G :
  regular d -> simulated (authenticates c d) now G d (exec c now d).
Proof.
  intros Hd. destruct c as [r|body r|r|r|r|].
  - by exists G.
  - by apply register_simulated.
  - by apply authorize_simulated.
  - by apply token_simulated.
  - by apply access_simulated.
  - by apply cleanup_simulated.
Qed.

Lemma execs_snoc l now c d : execs (l ++ [(now, c)]) d = exec c now (execs l d).
Proof. revert d. induction l as [|[now' c'] l IH]; intros d; simpl; auto. Qed.

(** C2: the authorization server refines the ledger.  As long as no statement
    fails, whatever a call does to the codes and tokens in the store is a
    sequence of steps of the ledger: a code appears only with the password of its
    user, a token only for a live code, which it uses up, or for a token, which
    it replaces; all else is removal. *)
Theorem server_refines_ledger c now d G :
  regular d ->
  exists G', regular (exec c now d) /\
    rtc (Ledger.step (authenticates c d) now) (ledger G d) (ledger G' (exec c now d)).
Proof. intros Hd. by apply server_refines. Qed.

(** A call of the sequence that authenticated a user for a client. *)
Definition authorised_in (l : list (Time * call)) d (u client : string) : Prop :=
  exists l1 now c l2, l = l1 ++ (now, c) :: l2 /\ authenticates c (execs l1 d) u client.

Lemma execs_ledger l d :
  regular d -> Accounts.oauth_codes d = ∅ -> Accounts.oauth_sessions d = ∅ ->
  exists G, regular (execs l d) /\ Ledger.sound (ledger G (execs l d)) /\
    forall u c, (u, c) ∈ G -> authorised_in l d u c.
Proof.
  intros Hd Hc Hs. induction l as [|[now c] l IH] using rev_ind.
  - exists ∅. split_and!; [done| |set_solver]. unfold ledger, Ledger.sound. cbn.
    rewrite Hc, Hs, !fmap_empty. by setoid_rewrite lookup_empty.
  - destruct IH as (G & Hr & Hsound & Hauth). rewrite execs_snoc.
    destruct (server_refines c now (execs l d) G Hr) as (G' & Hr' & Hsteps).
    exists G'. split_and!; [done|by eapply Ledger.steps_sound|].
    intros u cl Hin. destruct (Ledger.steps_granted _ _ _ _ _ Hsteps Hin) as [Hin'|Ha].
    + destruct (Hauth u cl Hin') as (l1 & now' & c' & l2 & -> & Ha).
      exists l1, now', c', (l2 ++ [(now, c)]). by rewrite <- app_assoc.
    + by exists l, now, c, [].
Qed.

(** C8: every live code and access token comes from a password.  Starting
    without codes and sessions, after any sequence of requests, registrations
    and clean-ups, the user and client of each code and each session in the
    store are those of an earlier POST to /authorize whose password was right
    for the user when it was served. *)
Theorem token_provenance l d :
  regular d -> Accounts.oauth_codes d = ∅ -> Accounts.oauth_sessions d = ∅ ->
  (forall token s, Accounts.oauth_sessions (execs l d) !! token = Some s ->
     authorised_in l d (OAuthSession.UserID s) (OAuthSession.ClientID s)) /\
  (forall code c, Accounts.oauth_codes (execs l d) !! code = Some c ->
     authorised_in l d (OAuthCode.UserID c) (OAuthCode.ClientID c)).
Proof.
  intros Hd Hc Hs. destruct (execs_ledger l d Hd Hc Hs) as (G & _ & [Hcodes Htokens] & Hauth).
  split.
  - intros token s Hl. apply Hauth, (Htokens token). cbn. by rewrite lookup_fmap, Hl.
  - intros code c Hl. eapply Hauth, (Hcodes code). cbn. by rewrite lookup_fmap, Hl.
Qed.

End Server.

(** ** Codes, tokens and the middleware *)

Section Grants.
Context {KS : Type} `{CryptoPrims} `{Bcrypt}.
Variable h : oauth_handler.
Implicit Types d : Accounts.t KS.

(** The user a request may act for: the owner of the first API key whose hash
    matches, or of the session of the access token, unless expired. *)
Definition bearer_user (r : request) (now : Time) d : option string :=
  let token := extractBearer r in
  if bool_decide (token = EmptyString) then None
  else if has_prefix token "mcp_" then
    k ← snd <$> list_find (fun k => ValidateAPIKeyHash token (APIKey.KeyHash k) = true) (Accounts.api_keys d);
    k ← api_key (fun k' => APIKey.ID k' = APIKey.ID k) d;
    if match APIKey.ExpiresAt k with Some t => t <? now | None => false end then None
    else Some (APIKey.UserID k)
  else
    s ← Accounts.oauth_sessions d !! token;
    if OAuthSession.ExpiresAt s <? now then None else Some (OAuthSession.UserID s).

(** The statements that look for the owner of a bearer. *)
Definition lookups (r : request) : nat := if has_prefix (extractBearer r) "mcp_" then 2%nat else 1%nat.

Lemma ValidateAPIKey_exact token d :
  exists fs rk, ValidateAPIKey token d = (rk, Accounts.set_faults fs d) /\
    match k ← snd <$> list_find (fun k => ValidateAPIKeyHash token (APIKey.KeyHash k) = true) (Accounts.api_keys d);
          api_key (fun k' => APIKey.ID k' = APIKey.ID k) d with
    | Some k => if failing 2 d then exists e, rk = Err e else rk = Ok k
    | None => exists e, rk = Err e
    end.
Proof.
  unfold ValidateAPIKey, GetAPIKeyByID. rewrite sql_query_exact by done. rewrite (failing_next 1).
  destruct (failing 1 d); cbn [orb].
  { eexists _, _. split; [reflexivity|].
    match goal with |- match ?x with Some _ => _ | None => _ end => destruct x end; by eexists. }
  destruct (list_find _ (Accounts.api_keys d)) as [[i k]|]; cbn; [|eexists _, _; split; [reflexivity|by eexists]].
  rewrite sql_row_exact by done. eexists _, _. split; [reflexivity|].
  change (api_key ?P (Accounts.set_faults ?fs d)) with (api_key P d).
  change (existsb id (take 1 (tail (Accounts.faults d))))
    with (failing 1 (Accounts.set_faults (tail (Accounts.faults d)) d)).
  destruct (api_key _ d) as [k'|]; destruct (failing 1 _); by eauto.
Qed.

(** C6: the middleware admits exactly valid bearers, whatever statements fail.  When the
    request presents a stored API key or access token that has not expired and the
    statements that look it up do not fail, the handler behind the middleware runs for
    its owner, and nothing has changed but the time a key was last used; otherwise it
    does not run and the only response is 401. *)
Theorem middleware_admits (r : request) (now : Time) (next : string -> A KS unit) d :
  match bearer_user r now d with
  | Some u =>
      if failing (lookups r) d
      then exists d', run (Middleware h r now next) (Server d []) = (tt, Server d' [unauthorized h])
      else exists fs d', run (Middleware h r now next) (Server d []) = run (next u) (Server d' []) /\
             (d' = Accounts.set_faults fs d \/
              exists id, d' = (UpdateAPIKeyLastUsed id now (Accounts.set_faults fs d)).2)
  | None => exists d', run (Middleware h r now next) (Server d []) = (tt, Server d' [unauthorized h])
  end.
Proof.
  unfold Middleware, bearer_user, lookups. cbv zeta. case_bool_decide as Ht; [by eexists|].
  destruct (has_prefix (extractBearer r) "mcp_").
  - destruct (ValidateAPIKey_exact (extractBearer r) d) as (fs & rk & Hv & Hrk).
    unfold bind, run. assert (Hdb : db (ValidateAPIKey (extractBearer r)) (Server d []) = (inr rk, Server (Accounts.set_faults fs d) []))
      by (unfold db, state; cbn [accounts]; by rewrite Hv).
    rewrite Hdb. clear Hdb Hv. destruct (list_find _ _) as [[i k0]|]; cbn [mbind option_bind fmap option_fmap option_map snd] in *;
      [|destruct Hrk as [e ->]; by eexists].
    destruct (api_key _ d) as [k|]; cbn [mbind option_bind] in *; [|destruct Hrk as [e ->]; by eexists].
    destruct (failing 2 d); [destruct Hrk as [e ->]|subst rk; cbv beta iota zeta];
      match goal with |- context [if ?x then None else Some _] => destruct x end; try by eexists.
    exists fs, (UpdateAPIKeyLastUsed (APIKey.ID k) now (Accounts.set_faults fs d)).2.
    split; [|by right; eexists]. unfold db, state. cbn [accounts]. by destruct (UpdateAPIKeyLastUsed _ _ _).
  - unfold bind, run, db, state, GetOAuthSession, DeleteOAuthSession. cbn [accounts].
    rewrite sql_row_exact by done. destruct (failing 1 d).
    { match goal with |- match ?x with _ => _ end => destruct x end; by eexists. }
    destruct (Accounts.oauth_sessions d !! extractBearer r) as [s|]; cbn [mbind option_bind]; [|by eexists].
    match goal with |- context [if ?x then None else Some _] => destruct x end.
    + cbn [accounts]. destruct (sql_exec _ _) as [re d2]. by eexists.
    + eexists _, _. split; [reflexivity|]. by left.
Qed.

(** *** Exchange of codes *)

(** What the code of a request must satisfy. *)
Definition code_valid (r : request) (now : Time) (c : OAuthCode.t) : Prop :=
  now <= OAuthCode.ExpiresAt c /\
  (form r "client_id" = EmptyString \/ form r "client_id" = OAuthCode.ClientID c) /\
  (form r "redirect_uri" = EmptyString \/ form r "redirect_uri" = OAuthCode.RedirectURI c) /\
  (OAuthCode.CodeChallenge c = EmptyString \/
   form r "code_verifier" <> EmptyString /\
   b64_encode false (sha256 (form r "code_verifier")) = OAuthCode.CodeChallenge c).

#[export] Instance code_valid_dec r now c : Decision (code_valid r now c).
Proof. unfold code_valid. apply _. Defined.

(** The code a request may exchange. *)
Definition exchanges (r : request) (now : Time) d : option OAuthCode.t :=
  if bool_decide (form r "code" = EmptyString) then None
  else
    c ← Accounts.oauth_codes d !! form r "code";
    if bool_decide (code_valid r now c) then Some c else None.

Lemma check_code_exact r now d :
  Accounts.faults d = [] ->
  match exchanges r now d with
  | Some c => check_code r now (Server d []) = (inr c, Server d [])
  | None => exists d' e msg, check_code r now (Server d []) = (inl tt, Server d' [jsonError e msg 400]) /\
              Accounts.oauth_sessions d' = Accounts.oauth_sessions d
  end.
Proof.
  intros Hf. unfold check_code, exchanges, GetOAuthCode, DeleteOAuthCode. cbv zeta.
  case_if; [by eexists _, _, _|]. unfold bind at 1. rewrite db_row by done. cbn [accounts].
  unfold bind. rewrite ?db_row by done. cbn [accounts].
  destruct (Accounts.oauth_codes d !! form r "code") as [c|]; [|by eexists _, _, _].
  cbn [mbind option_bind]. unfold code_valid, verifyPKCE.
  destruct (OAuthCode.ExpiresAt c <? now) eqn:He.
  { rewrite bool_decide_eq_false_2 by (intros [? _]; apply Z.ltb_lt in He; lia).
    rewrite db_exec by done. by eexists _, _, _. }
  apply Z.ltb_ge in He. repeat case_if; try (by eexists _, _, _); try done.
  all: exfalso; rewrite ?andb_false_iff, ?negb_false_iff, ?bool_decide_eq_true in *; naive_solver.
Qed.

(** A random id that names no session. *)
Definition fresh_id d (i : nat) (id : string) : Prop :=
  exists bs, entropy i 16 = Some bs /\ hex_encode bs = id /\ Accounts.oauth_sessions d !! id = None.

Lemma issue_session_exact user client scope now d id :
  Accounts.faults d = [] -> is_Some (Accounts.users d !! user) -> fresh_id d (Accounts.rng d) id ->
  exists sess,
    issue_session h user client scope now (Server d []) =
      (inr tt, Server (Accounts.set_oauth_sessions <[id := sess]>
                         (Accounts.set_rng (S (S (Accounts.rng d))) d))
                 [token_response sess (tokenTTL h)]) /\
    OAuthSession.AccessToken sess = id /\ OAuthSession.UserID sess = user /\
    OAuthSession.ClientID sess = client /\ OAuthSession.Scope sess = scope /\
    OAuthSession.ExpiresAt sess = now + tokenTTL h.
Proof.
  intros Hf Hu (bs & Hbs & Hid & Hfresh).
  unfold issue_session, CreateOAuthSession, id_or_new, generateID, read_rand.
  unfold bind, db, state. rewrite !(bool_decide_eq_true_2 (_ = EmptyString)) by done.
  cbn [accounts Accounts.rng Accounts.set_rng Accounts.set_box]. rewrite Hbs. cbn [from_option Datatypes.id].
  rewrite Hid, sql_checked_ok by done. cbn. rewrite Hfresh, !bool_decide_eq_true_2 by done. cbn.
  by eexists.
Qed.

Definition code_request (r : request) : Prop :=
  meth r = "POST" /\ form_ok r = true /\ form r "grant_type" = "authorization_code".

Definition refresh_request (r : request) (token : string) : Prop :=
  meth r = "POST" /\ form_ok r = true /\ form r "grant_type" = "refresh_token" /\
  form r "refresh_token" = token.

Lemma TokenHandler_code (r : request) now d :
  code_request r -> handle (TokenHandler h r now) d = handle (tokenAuthorizationCode h r now) d.
Proof.
  intros (Hm & Hf & Hg). unfold TokenHandler, isPost. rewrite Hm, Hf, Hg. cbv zeta.
  by rewrite !bool_decide_eq_true_2.
Qed.

Lemma TokenHandler_refresh (r : request) token now d :
  refresh_request r token -> handle (TokenHandler h r now) d = handle (tokenRefresh h r now) d.
Proof.
  intros (Hm & Hf & Hg & _). unfold TokenHandler, isPost. rewrite Hm, Hf, Hg. cbv zeta.
  rewrite (bool_decide_eq_true_2 ("POST" = "POST")), (bool_decide_eq_false_2 ("refresh_token" = _)) by done.
  by rewrite bool_decide_eq_true_2.
Qed.

(** C15: the exchange of a code, exactly.  A request with a code that is stored,
    has not expired, matches the client and the redirect URI where it names them
    and, where the code has a challenge, the verifier whose SHA-256 it is, gets a
    token response for a new session of the code's user, client and scope, and
    the code is gone; any other request gets error 400 and no session. *)
Theorem code_exchange_exact (r : request) now d id :
  Accounts.faults d = [] -> code_request r -> fresh_id d (Accounts.rng d) id ->
  match exchanges r now d with
  | Some c =>
      is_Some (Accounts.users d !! OAuthCode.UserID c) ->
      exists sess d',
        handle (TokenHandler h r now) d = ([token_response sess (tokenTTL h)], d') /\
        Accounts.oauth_codes d' = delete (form r "code") (Accounts.oauth_codes d) /\
        Accounts.oauth_sessions d' = <[id := sess]> (Accounts.oauth_sessions d) /\
        OAuthSession.AccessToken sess = id /\ OAuthSession.UserID sess = OAuthCode.UserID c /\
        OAuthSession.ClientID sess = OAuthCode.ClientID c /\ OAuthSession.Scope sess = OAuthCode.Scope c /\
        OAuthSession.ExpiresAt sess = now + tokenTTL h
  | None =>
      exists d' e msg, handle (TokenHandler h r now) d = ([jsonError e msg 400], d') /\
        Accounts.oauth_sessions d' = Accounts.oauth_sessions d
  end.
Proof.
  intros Hf Hr Hid. rewrite (TokenHandler_code r now d Hr). unfold tokenAuthorizationCode.
  pose proof (check_code_exact r now d Hf) as Hc.
  destruct (exchanges r now d) as [c|].
  - intros Hu. unfold handle, run, bind at 1. rewrite Hc.
    unfold consume_code, DeleteOAuthCode, bind. rewrite db_exec by done. cbn [accounts responses].
    destruct (issue_session_exact (OAuthCode.UserID c) (OAuthCode.ClientID c) (OAuthCode.Scope c) now
      (Accounts.set_oauth_codes (delete (form r "code")) d) id) as (sess & -> & Hs); try done.
    eexists sess, _. split; [reflexivity|]. done.
  - destruct Hc as (d' & e & msg & Hc & Hs). exists d', e, msg. unfold handle, run, bind. by rewrite Hc.
Qed.

(** A code can be exchanged twice.  Two requests with the same valid code
    whose validations both come before the first deletes it are both answered
    with tokens, and both sessions are live: the DELETE does not say whether it
    removed anything, and nobody asks. *)
Theorem code_exchanged_twice (r : request) now d c id1 id2 :
  Accounts.faults d = [] -> exchanges r now d = Some c ->
  is_Some (Accounts.users d !! OAuthCode.UserID c) ->
  fresh_id d (Accounts.rng d) id1 -> fresh_id d (S (S (Accounts.rng d))) id2 -> id1 <> id2 ->
  let both := check_code r now (Server d []) in
  let first := consume_code h r c now (Server d []) in
  let second := consume_code h r c now (Server (accounts first.2) []) in
  both = (inr c, Server d []) /\
  exists s1 s2, responses first.2 = [token_response s1 (tokenTTL h)] /\
    responses second.2 = [token_response s2 (tokenTTL h)] /\
    Accounts.oauth_sessions (accounts second.2) !! id1 = Some s1 /\
    Accounts.oauth_sessions (accounts second.2) !! id2 = Some s2 /\
    OAuthSession.UserID s1 = OAuthCode.UserID c /\ OAuthSession.UserID s2 = OAuthCode.UserID c.
Proof.
  intros Hf Hc Hu Hid1 Hid2 Hne both first second. split.
  { pose proof (check_code_exact r now d Hf) as Hx. by rewrite Hc in Hx. }
  destruct (issue_session_exact (OAuthCode.UserID c) (OAuthCode.ClientID c) (OAuthCode.Scope c) now
    (Accounts.set_oauth_codes (delete (form r "code")) d) id1) as (s1 & Hs1 & _ & Hu1 & _); try done.
  assert (Hfirst : first = (inr tt, Server (Accounts.set_oauth_sessions <[id1 := s1]>
    (Accounts.set_rng (S (S (Accounts.rng d))) (Accounts.set_oauth_codes (delete (form r "code")) d)))
    [token_response s1 (tokenTTL h)])).
  { unfold first, consume_code, DeleteOAuthCode, bind. rewrite db_exec by done. exact Hs1. }
  set (d1 := accounts first.2).
  assert (Hd1 : d1 = _) by (unfold d1; rewrite Hfirst; reflexivity).
  destruct (issue_session_exact (OAuthCode.UserID c) (OAuthCode.ClientID c) (OAuthCode.Scope c) now
    (Accounts.set_oauth_codes (delete (form r "code")) d1) id2) as (s2 & Hs2 & _ & Hu2 & _).
  { by rewrite Hd1. }
  { by rewrite Hd1. }
  { rewrite Hd1. destruct Hid2 as (bs & Hbs & Hx & Hl). exists bs. split_and!; [done|done|].
    cbn. by rewrite lookup_insert_ne. }
  assert (Hsecond : responses second.2 = [token_response s2 (tokenTTL h)] /\
    Accounts.oauth_sessions (accounts second.2) = <[id2 := s2]> (<[id1 := s1]> (Accounts.oauth_sessions d))).
  { unfold second, consume_code, DeleteOAuthCode, bind. fold d1. rewrite db_exec by by rewrite Hd1.
    cbn [accounts responses]. rewrite Hs2, Hd1. done. }
  destruct Hsecond as [Hr2 Hsess]. exists s1, s2. rewrite Hr2, Hsess, Hfirst.
  split_and!; try done; [by rewrite lookup_insert_ne, lookup_insert_eq by done | apply lookup_insert_eq].
Qed.

(** A refresh token that only one session has finds that session. *)
Lemma session_by_refresh_unique d token s :
  Accounts.oauth_sessions d !! token = Some s ->
  (forall t s', Accounts.oauth_sessions d !! t = Some s' ->
     OAuthSession.RefreshToken s' = OAuthSession.RefreshToken s -> t = token) ->
  session_by_refresh (OAuthSession.RefreshToken s) d = Some s /\
  session_by_refresh (OAuthSession.RefreshToken s)
    (Accounts.set_oauth_sessions (delete token) d) = None.
Proof.
  intros Hl Huniq. unfold session_by_refresh. split.
  - destruct (list_find _ _) as [[i s']|] eqn:Hfind.
    + apply list_find_Some in Hfind as (Hin & Heq & _). apply list_elem_of_lookup_2 in Hin.
      apply elem_of_rows in Hin as [t Ht]. rewrite (Huniq t s' Ht Heq) in Ht. cbn. congruence.
    + apply list_find_None in Hfind. rewrite Forall_forall in Hfind.
      exfalso. apply (Hfind s); [|done]. apply elem_of_rows. by exists token.
  - destruct (list_find _ _) as [[i s']|] eqn:Hfind; [|done].
    apply list_find_Some in Hfind as (Hin & Heq & _). apply list_elem_of_lookup_2 in Hin.
    apply elem_of_rows in Hin as [t Ht]. cbn in Ht. rewrite lookup_delete_Some in Ht.
    destruct Ht as [Hne Ht]. by rewrite (Huniq t s' Ht Heq) in Hne.
Qed.

(** An expired access token takes its refresh token with it.  The refresh
    token of a session is good for a new one although the access token has
    expired; but after any request with the expired access token, which is
    answered with 401, the refresh token is not found. *)
Theorem expired_token_kills_refresh (r r2 : request) now d s id :
  Accounts.faults d = [] ->
  let token := extractBearer r in
  token <> EmptyString -> has_prefix token "mcp_" = false ->
  Accounts.oauth_sessions d !! token = Some s -> OAuthSession.AccessToken s = token ->
  OAuthSession.ExpiresAt s < now -> OAuthSession.RefreshToken s <> EmptyString ->
  (forall t s', Accounts.oauth_sessions d !! t = Some s' ->
     OAuthSession.RefreshToken s' = OAuthSession.RefreshToken s -> t = token) ->
  is_Some (Accounts.users d !! OAuthSession.UserID s) ->
  fresh_id d (Accounts.rng d) id -> refresh_request r2 (OAuthSession.RefreshToken s) ->
  (exists sess d', handle (TokenHandler h r2 now) d = ([token_response sess (tokenTTL h)], d') /\
     OAuthSession.UserID sess = OAuthSession.UserID s) /\
  exists d1, (forall next, handle (Middleware h r now next) d = ([unauthorized h], d1)) /\
    (handle (TokenHandler h r2 now) d1).1 = [jsonError "invalid_grant" "refresh_token not found" 400].
Proof.
  intros Hf token Ht Hmcp Hl Hacc Hexp Hr Huniq Hu Hid Href.
  destruct (session_by_refresh_unique d token s Hl Huniq) as [Hfound Hgone]. split.
  - rewrite (TokenHandler_refresh r2 _ now d Href). destruct Href as (_ & _ & _ & Href).
    unfold tokenRefresh. rewrite Href, bool_decide_eq_false_2 by done.
    unfold handle, run, GetOAuthSessionByRefresh, DeleteOAuthSession, bind.
    rewrite db_row by done. cbn [accounts]. rewrite Hfound, db_exec by done. cbn [accounts responses].
    destruct (issue_session_exact (OAuthSession.UserID s) (OAuthSession.ClientID s) (OAuthSession.Scope s)
      now (Accounts.set_oauth_sessions (delete (OAuthSession.AccessToken s)) d) id)
      as (sess & -> & _ & Hsu & _); [done|done| |].
    { destruct Hid as (bs & Hbs & Hx & Hn). exists bs. split_and!; [done|done|].
      cbn. rewrite lookup_delete_None. by right. }
    by eexists sess, _.
  - exists (Accounts.set_oauth_sessions (delete token) d). split.
    + intros next. unfold handle, run, Middleware, GetOAuthSession, DeleteOAuthSession. fold token.
      rewrite Hmcp, bool_decide_eq_false_2 by done. unfold bind. rewrite db_row by done.
      cbn [accounts]. rewrite Hl. replace (_ <? now) with true by (symmetry; by apply Z.ltb_lt).
      rewrite db_exec by done. done.
    + rewrite (TokenHandler_refresh r2 _ now _ Href). destruct Href as (_ & _ & _ & Href).
      unfold tokenRefresh. rewrite Href, bool_decide_eq_false_2 by done.
      unfold handle, run, GetOAuthSessionByRefresh, bind. rewrite db_row by done.
      cbn [accounts]. by rewrite Hgone.
Qed.

(** POST /authorize does not look at the client.  Whatever the client id,
    registered or not, and whatever the redirect URI, a right password sends the
    browser with a code of the user to that URI. *)
Theorem authorize_unregistered_client (r : request) now d user :
  Accounts.faults d = [] -> meth r = "POST" -> form_ok r = true ->
  form r "client_id" <> EmptyString -> form r "redirect_uri" <> EmptyString ->
  user_by_email (form r "email") d = Some user -> IsBcrypt (UserRow.Password user) = true ->
  CheckPassword (UserRow.Password user) (form r "password") = true ->
  is_Some (Accounts.users d !! UserRow.ID user) ->
  (forall i bs, entropy i 16 = Some bs -> Accounts.oauth_codes d !! hex_encode bs = None) ->
  (forall i, is_Some (entropy i 16)) ->
  exists code d' row,
    handle (AuthorizeHandler h r now) d =
      ([Redirect (redirect_location (form r "redirect_uri") code (form r "state"))], d') /\
    Accounts.oauth_codes d' !! code = Some row /\ OAuthCode.UserID row = UserRow.ID user /\
    OAuthCode.ClientID row = form r "client_id" /\
    has_prefix (redirect_location (form r "redirect_uri") code (form r "state")) (form r "redirect_uri") = true.
Proof.
  intros Hf Hm Hok Hc Hu Hrow Hb Hpw Hex Hfresh Hrand.
  destruct (Hrand (Accounts.rng d)) as [bs Hbs]. exists (hex_encode bs).
  unfold handle, run, AuthorizeHandler, authorizePost, GetUserByEmail, isGet, isPost. rewrite Hm, Hok.
  rewrite (bool_decide_eq_false_2 ("POST" = "GET")), (bool_decide_eq_true_2 ("POST" = "POST")) by done.
  cbv zeta. rewrite (bool_decide_eq_false_2 (form r "client_id" = EmptyString)) by done.
  rewrite (bool_decide_eq_false_2 (form r "redirect_uri" = EmptyString)) by done. cbn [negb orb].
  unfold bind at 1. rewrite db_row by done. cbn [accounts]. rewrite Hrow, Hpw. cbn [negb].
  unfold upgrade_hash. rewrite Hb. unfold bind at 1, ret at 1.
  unfold bind, db, state, CreateOAuthCode, id_or_new, generateID, read_rand. cbn [accounts].
  rewrite (bool_decide_eq_true_2 (_ = EmptyString)), Hbs by done. cbn [from_option Datatypes.id].
  rewrite sql_checked_ok by done. cbn.
  rewrite (bool_decide_eq_true_2 (_ = None)) by by eapply Hfresh.
  rewrite (bool_decide_eq_true_2 (is_Some _)) by done. cbn.
  eexists _, _. split; [reflexivity|]. split_and!; [apply lookup_insert_eq|done|done|].
  unfold redirect_location. case_if; rewrite <- ?str_app_assoc; apply has_prefix_app.
Qed.
End Grants.

(** ** Concrete requests *)

#[local] Existing Instances Toy.prims Toy.laws DemoAccounts.bcrypt DemoAccounts.provider.

Definition demo_server : oauth_handler := OAuthHandler "https://bridge" 0 0.

Definition demo_store : Accounts.t DemoAccounts.key_store :=
  Accounts.set_oauth_codes <["code1" := OAuthCode.mk "code1" "ann" "client1" "https://app/cb" EmptyString "mcp" 1000]>
    (Accounts.set_oauth_sessions <["old" := OAuthSession.mk "old" "refresh1" "ann" "client1" "mcp" 5 0]>
       DemoAccounts.store).

Definition demo_request (fields : list (string * string)) (auth : string) : request :=
  Request "POST" (fun k => default EmptyString (snd <$> (snd <$> list_find (fun kv => kv.1 = k) fields)))
    (fun _ => EmptyString) (fun _ => None) (fun _ => auth) true.

Definition demo_code_request : request :=
  demo_request [("grant_type", "authorization_code"); ("code", "code1")] EmptyString.

Definition demo_login : request :=
  demo_request [("email", "ann@example.org"); ("password", "pw"); ("client_id", "nobody");
                ("redirect_uri", "https://evil/?x=1")] EmptyString.

(** The id of the [i]-th read of the random source. *)
Definition demo_id (i : nat) : string := hex_encode (Nat.iter 16 (String (ascii_of_nat i)) EmptyString).

Lemma demo_fresh i :
  Accounts.oauth_sessions demo_store !! demo_id i = None -> fresh_id demo_store i (demo_id i).
Proof. intros Hl. by eexists. Qed.

Lemma demo_regular : regular DemoAccounts.store.
Proof.
  split; [done|]. intros token s Hl.
  change ((∅ : gmap string OAuthSession.t) !! token = Some s) in Hl. by rewrite lookup_empty in Hl.
Qed.

Lemma server_refines_ledger_witness :
  exists G', rtc (Ledger.step (authenticates (Authorize demo_login) DemoAccounts.store) 0)
    (ledger ∅ DemoAccounts.store)
    (ledger G' (exec demo_server (fun _ => EmptyString) (Authorize demo_login) 0 DemoAccounts.store)).
Proof.
  destruct (server_refines_ledger demo_server (fun _ => EmptyString) (Authorize demo_login) 0
    DemoAccounts.store ∅ demo_regular) as (G' & _ & Hs). by exists G'.
Defined.

(** A login and the exchange of its code. *)
Definition demo_run : list (Time * call) :=
  [(0, Authorize demo_login);
   (1, Token (demo_request [("grant_type", "authorization_code"); ("code", demo_id 65)] EmptyString))].

Lemma token_provenance_witness :
  authorised_in demo_server (fun _ => EmptyString) demo_run DemoAccounts.store "ann" "nobody".
Proof.
  destruct (token_provenance demo_server (fun _ => EmptyString) demo_run DemoAccounts.store demo_regular)
    as [Hs _]; [reflexivity|reflexivity|].
  apply (Hs (demo_id 66) (OAuthSession.mk (demo_id 66) (demo_id 67) "ann" "nobody" EmptyString (1 + Hour) 1)).
  by vm_compute.
Defined.

Lemma code_exchange_exact_witness :
  exists sess d', handle (TokenHandler demo_server demo_code_request 0) demo_store =
    ([token_response sess Hour], d') /\ OAuthSession.UserID sess = "ann".
Proof.
  destruct (code_exchange_exact demo_server demo_code_request 0 demo_store (demo_id 65))
    as (sess & d' & Hr & _ & _ & _ & Hu & _).
  - reflexivity.
  - by split_and!.
  - apply demo_fresh. by vm_compute.
  - by eexists.
  - by exists sess, d'.
Defined.

Lemma code_exchanged_twice_witness :
  let first := consume_code demo_server demo_code_request
                 (OAuthCode.mk "code1" "ann" "client1" "https://app/cb" EmptyString "mcp" 1000) 0
                 (Server demo_store []) in
  exists s2, responses (consume_code demo_server demo_code_request
      (OAuthCode.mk "code1" "ann" "client1" "https://app/cb" EmptyString "mcp" 1000) 0
      (Server (accounts first.2) [])).2 = [token_response s2 Hour].
Proof.
  destruct (code_exchanged_twice demo_server demo_code_request 0 demo_store
    (OAuthCode.mk "code1" "ann" "client1" "https://app/cb" EmptyString "mcp" 1000) (demo_id 65) (demo_id 67))
    as (_ & s1 & s2 & _ & Hr & _).
  - reflexivity.
  - by vm_compute.
  - by eexists.
  - apply demo_fresh. by vm_compute.
  - apply demo_fresh. by vm_compute.
  - by vm_compute.
  - exists s2. exact Hr.
Defined.

Definition demo_bearer : request := demo_request [] "bearer old".
Definition demo_refresh : request :=
  demo_request [("grant_type", "refresh_token"); ("refresh_token", "refresh1")] EmptyString.

Lemma expired_token_kills_refresh_witness :
  exists d1, (handle (Middleware demo_server demo_bearer 10 (fun _ => ret tt)) demo_store).2 = d1 /\
    (handle (TokenHandler demo_server demo_refresh 10) d1).1 =
      [jsonError "invalid_grant" "refresh_token not found" 400].
Proof.
  destruct (expired_token_kills_refresh demo_server demo_bearer demo_refresh 10 demo_store
    (OAuthSession.mk "old" "refresh1" "ann" "client1" "mcp" 5 0) (demo_id 65)) as (_ & d1 & Hm & Hr).
  - reflexivity.
  - by vm_compute.
  - by vm_compute.
  - by vm_compute.
  - by vm_compute.
  - by vm_compute.
  - done.
  - intros t s Hl _. change (extractBearer demo_bearer) with "old".
    change (<["old" := OAuthSession.mk "old" "refresh1" "ann" "client1" "mcp" 5 0]> (∅ : gmap string OAuthSession.t)
      !! t = Some s) in Hl.
    rewrite lookup_insert_Some, lookup_empty in Hl. naive_solver.
  - by eexists.
  - apply demo_fresh. by vm_compute.
  - by split_and!.
  - exists d1. split; [|exact Hr]. by rewrite Hm.
Defined.

Lemma authorize_unregistered_client_witness :
  exists code d', handle (AuthorizeHandler demo_server demo_login 0) DemoAccounts.store =
    ([Redirect (redirect_location "https://evil/?x=1" code EmptyString)], d').
Proof.
  destruct (authorize_unregistered_client demo_server demo_login 0 DemoAccounts.store DemoAccounts.ann)
    as (code & d' & row & Hr & _).
  - reflexivity.
  - reflexivity.
  - reflexivity.
  - done.
  - done.
  - by vm_compute.
  - reflexivity.
  - by vm_compute.
  - by eexists.
  - intros i bs _. apply lookup_empty.
  - intros i. by eexists.
  - by exists code, d'.
Defined.
