(* ===== verification/RateLimit.v ===== *)
(** * Rate limiting: [src/ratelimit/ratelimit.go]

    Costs, the mutex-protected [Bucket], the per-user [BucketState], and the
    [BucketManager] that owns the bucket states, the backend configurations
    and the per-user configurations.  A Go [*BucketState] is the key under
    which [BucketManager.buckets] holds it: entries are created once and never
    replaced, so the key and the pointer name the same object. *)
From S2P Require Import Prelude.
Open Scope Z_scope.
Open Scope go_scope.

(** ** Costs *)

Definition riskMultipliers : gmap string Z :=
  <["low" := 1]> (<["med" := 2]> (<["high" := 4]> ∅)).

Definition impactScopesRequiringRisk : gmap string bool :=
  <["write" := true]> (<["delete" := true]> ∅).

Definition GetRiskMultiplier (riskLevel : string) : Z :=
  match riskMultipliers !! riskLevel with
  | Some m => m
  | None => 1
  end.

Definition IsRiskScoped (impactScope : string) : bool :=
  default false (impactScopesRequiringRisk !! impactScope).

(** The pair (riskCost, resourceCostResult). *)
Definition CalculateCost (resourceCost : Z) (riskLevel impactScope : string) : Z * Z :=
  let riskCost :=
    if IsRiskScoped impactScope then resourceCost *! GetRiskMultiplier riskLevel else 0 in
  (riskCost, resourceCost).

Definition CalculateCostWithMultiplier
    (resourceCost : Z) (riskLevel impactScope : string) (multiplier : Z) : Z * Z :=
  let '(riskCost, resourceCostResult) := CalculateCost resourceCost riskLevel impactScope in
  (riskCost *! multiplier, resourceCostResult *! multiplier).

(** The package's own [min] on ints. *)
Definition min (a b : Z) : Z := if a <? b then a else b.

(** [int(elapsed.Seconds()) * refillRate / 60] *)
Definition refill_amount (last rate now : Z) : Z :=
  go_div (duration_secs (time_sub now last) *! rate) 60.

(** ** The mutex-protected bucket *)

Module Bucket.
Record t := mk {
  capacity : Z;
  refillRate : Z; (* per minute *)
  current : Z;
  lastRefill : Time
}.

Definition NewBucket (cap rate : Z) (now : Time) : t :=
  {| capacity := cap; refillRate := rate; current := cap; lastRefill := now |}.

Definition Refill (amount : Z) (now : Time) (b : t) : t :=
  {| capacity := capacity b; refillRate := refillRate b;
     current := min (capacity b) (current b +! amount); lastRefill := now |}.

Definition RefillForElapsed (now : Time) (b : t) : t :=
  let refillAmount := refill_amount (lastRefill b) (refillRate b) now in
  if 0 <? refillAmount
  then {| capacity := capacity b; refillRate := refillRate b;
          current := min (capacity b) (current b +! refillAmount); lastRefill := now |}
  else b.

Definition Consume (amount : Z) (b : t) : bool * t :=
  if current b <? amount then (false, b)
  else (true, {| capacity := capacity b; refillRate := refillRate b;
                 current := current b -! amount; lastRefill := lastRefill b |}).

Definition ConsumeCost (cost : Z) (b : t) : bool * t := Consume cost b.

Definition CanConsume (amount : Z) (b : t) : bool := amount <=? current b.

(** [None]: the division by a zero refill rate panics. *)
Definition NextFullIn (b : t) : option Duration :=
  if capacity b <=? current b then Some 0
  else
    let unitsNeeded := capacity b -! current b in
    if refillRate b =? 0 then None
    else
      let secondsNeeded := go_div (unitsNeeded *! 60) (refillRate b) in
      Some (secondsNeeded *! Second).
End Bucket.

(** ** Bucket states of a user *)

Module BucketState.
Record t := mk {
  UserID : string;
  BackendID : string;
  BucketType : string;
  Capacity : Z;
  RefillRate : Z; (* per minute *)
  CurrentLevel : Z;
  LastRefillAt : Time
}.

Definition with_level (level : Z) (b : t) : t :=
  mk (UserID b) (BackendID b) (BucketType b) (Capacity b) (RefillRate b) level (LastRefillAt b).
Definition with_level_at (level : Z) (at_ : Time) (b : t) : t :=
  mk (UserID b) (BackendID b) (BucketType b) (Capacity b) (RefillRate b) level at_.

Definition NewBucketState (userID backendID bucketType : string)
    (capacity refillRate : Z) (now : Time) : t :=
  mk userID backendID bucketType capacity refillRate capacity now.

Definition Refill (now : Time) (b : t) : t :=
  let refillAmount := refill_amount (LastRefillAt b) (RefillRate b) now in
  if 0 <? refillAmount
  then with_level_at (min (Capacity b) (CurrentLevel b +! refillAmount)) now b
  else b.

Definition CanConsume (cost : Z) (now : Time) (b : t) : bool * t :=
  let b' := Refill now b in
  (cost <=? CurrentLevel b', b').

Definition Consume (cost : Z) (now : Time) (b : t) : bool * t :=
  let '(ok, b') := CanConsume cost now b in
  if negb ok then (false, b')
  else (true, with_level (CurrentLevel b' -! cost) b').
End BucketState.

(** ** The bucket manager *)

Module BucketConfig.
Record t := mk { Capacity : Z; RefillRate : Z }.
End BucketConfig.

Module UserBucketConfig.
Record t := mk {
  UserID : string;
  BackendID : string;
  RiskCapacity : Z;
  RiskRefill : Z;
  ResCapacity : Z;
  ResRefill : Z;
  CostMultiplier : Z
}.
End UserBucketConfig.

Module BackendConfig.
Record t := mk {
  BackendID : string;
  RiskCapacity : Z;
  RiskRefill : Z;
  ResCapacity : Z;
  ResRefill : Z
}.
Definition named (backendID : string) : t := mk backendID 0 0 0 0.
End BackendConfig.

Definition hasPrefix (s prefix : string) : bool :=
  (len prefix <=? len s) && bool_decide (str_take (String.length prefix) s = prefix).

(** The two parts around the first colon; [None] when there is none. *)
Fixpoint splitConfigKey (key : string) : option (string * string) :=
  match key with
  | EmptyString => None
  | String c rest =>
      if bool_decide (c = ":"%char) then Some (EmptyString, rest)
      else match splitConfigKey rest with
           | Some (a, b) => Some (String c a, b)
           | None => None
           end
  end.

Module BucketManager.
Record t := mk {
  buckets : gmap string BucketState.t;
  config : gmap string BucketConfig.t;
  userConfigs : gmap string UserBucketConfig.t
}.

Definition with_buckets (bs : gmap string BucketState.t) (m : t) : t :=
  mk bs (config m) (userConfigs m).
Definition with_config (c : gmap string BucketConfig.t) (m : t) : t :=
  mk (buckets m) c (userConfigs m).
Definition with_userConfigs (u : gmap string UserBucketConfig.t) (m : t) : t :=
  mk (buckets m) (config m) u.

Definition NewBucketManager : t := mk ∅ ∅ ∅.

Definition bucketKey (userID backendID bucketType : string) : string :=
  userID +:+ ":" +:+ backendID +:+ ":" +:+ bucketType.
Definition configKey (backendID bucketType : string) : string :=
  backendID +:+ ":" +:+ bucketType.
Definition userKey (userID backendID : string) : string :=
  userID +:+ ":" +:+ backendID.

Definition SetConfig (backendID bucketType : string) (capacity refillRate : Z) (m : t) : t :=
  with_config
    (<[configKey backendID bucketType := BucketConfig.mk capacity refillRate]> (config m)) m.

Definition GetConfig (backendID bucketType : string) (m : t) : option BucketConfig.t :=
  config m !! configKey backendID bucketType.

(** The bucket a fresh key is created with. *)
Definition fresh_bucket (userID backendID bucketType : string) (now : Time) (m : t) :
    BucketState.t :=
  let cfg := match config m !! configKey backendID bucketType with
             | Some cfg => cfg
             | None => BucketConfig.mk 100 20
             end in
  BucketState.mk userID backendID bucketType
    (BucketConfig.Capacity cfg) (BucketConfig.RefillRate cfg) (BucketConfig.Capacity cfg) now.

(** Returns the bucket (its key is the pointer) and the manager. *)
Definition GetOrCreate (userID backendID bucketType : string) (now : Time) (m : t) :
    BucketState.t * t :=
  let key := bucketKey userID backendID bucketType in
  match buckets m !! key with
  | Some b => (b, m)
  | None =>
      let b := fresh_bucket userID backendID bucketType now m in
      (b, with_buckets (<[key := b]> (buckets m)) m)
  end.

(** [bucket.Consume(cost)] through the pointer stored under [key]. *)
Definition consume_at (key : string) (cost : Z) (now : Time) (m : t) : bool * t :=
  match buckets m !! key with
  | Some b =>
      let '(ok, b') := BucketState.Consume cost now b in
      (ok, with_buckets (<[key := b']> (buckets m)) m)
  | None => (false, m)
  end.

Definition CheckAndConsume (userID backendID : string) (riskCost resourceCost : Z)
    (now : Time) (m : t) : (bool * bool) * t :=
  let '(_, m1) := GetOrCreate userID backendID "risk" now m in
  let '(_, m2) := GetOrCreate userID backendID "resource" now m1 in
  let '(riskAllowed, m3) := consume_at (bucketKey userID backendID "risk") riskCost now m2 in
  let '(resourceAllowed, m4) :=
    consume_at (bucketKey userID backendID "resource") resourceCost now m3 in
  ((riskAllowed, resourceAllowed), m4).

(** The entries "risk" and "resource" of the returned map; [None] is nil. *)
Definition GetStatus (userID backendID : string) (m : t) :
    option BucketState.t * option BucketState.t :=
  (buckets m !! bucketKey userID backendID "risk",
   buckets m !! bucketKey userID backendID "resource").

Definition RefillAll (now : Time) (m : t) : t :=
  with_buckets (BucketState.Refill now <$> buckets m) m.

Definition GetAllBuckets (m : t) : list BucketState.t :=
  (map_to_list (buckets m)).*2.

(** One iteration of the loop over [m.config]. *)
Definition add_config (configMap : gmap string BackendConfig.t)
    (entry : string * BucketConfig.t) : gmap string BackendConfig.t :=
  let '(key, cfg) := entry in
  match splitConfigKey key with
  | None => configMap
  | Some (backendID, bucketType) =>
      let existing := default (BackendConfig.named backendID) (configMap !! backendID) in
      let updated :=
        if bool_decide (bucketType = "risk")
        then BackendConfig.mk (BackendConfig.BackendID existing)
               (BucketConfig.Capacity cfg) (BucketConfig.RefillRate cfg)
               (BackendConfig.ResCapacity existing) (BackendConfig.ResRefill existing)
        else if bool_decide (bucketType = "resource")
        then BackendConfig.mk (BackendConfig.BackendID existing)
               (BackendConfig.RiskCapacity existing) (BackendConfig.RiskRefill existing)
               (BucketConfig.Capacity cfg) (BucketConfig.RefillRate cfg)
        else existing in
      <[backendID := updated]> configMap
  end.

Definition config_map (m : t) : gmap string BackendConfig.t :=
  foldl add_config ∅ (map_to_list (config m)).

Definition GetAllConfigs (m : t) : list BackendConfig.t :=
  (map_to_list (config_map m)).*2.

Definition ResetUserBuckets (userID backendID : string) (now : Time) (m : t) : t :=
  let prefix :=
    if bool_decide (backendID = EmptyString) then userID +:+ ":"
    else userID +:+ ":" +:+ backendID +:+ ":" in
  with_buckets
    (map_imap (fun key b =>
       Some (if hasPrefix key prefix
             then BucketState.with_level_at (BucketState.Capacity b) now b
             else b)) (buckets m)) m.

Definition SetUserConfig (cfg : UserBucketConfig.t) (m : t) : t :=
  with_userConfigs
    (<[userKey (UserBucketConfig.UserID cfg) (UserBucketConfig.BackendID cfg) := cfg]>
       (userConfigs m)) m.

Definition GetUserConfig (userID backendID : string) (m : t) : option UserBucketConfig.t :=
  userConfigs m !! userKey userID backendID.

Definition DeleteUserConfig (userID backendID : string) (m : t) : t :=
  with_userConfigs (delete (userKey userID backendID) (userConfigs m)) m.
End BucketManager.

(** ** The manager the enforcer holds *)

Module BucketStateForDB.
Record t := mk {
  UserID : string;
  BackendID : string;
  BucketType : string;
  CurrentLevel : Z;
  Capacity : Z;
  RefillRate : Z;
  LastRefillAt : Time
}.
End BucketStateForDB.

Module RateLimitManager.
Record t := mk {
  manager : BucketManager.t;
  stopClosed : bool;        (* stopCh is closed *)
  persistStopClosed : bool  (* persistStopCh is closed *)
}.

Definition on_manager (f : BucketManager.t -> BucketManager.t) (m : t) : t :=
  mk (f (manager m)) (stopClosed m) (persistStopClosed m).

Definition NewRateLimitManager : t := mk BucketManager.NewBucketManager false false.

(** Closing twice is avoided by the select on the closed channel. *)
Definition Stop (m : t) : t := mk (manager m) true (persistStopClosed m).
Definition StopPersist (m : t) : t := mk (manager m) (stopClosed m) true.

Definition RefillAll (now : Time) : t -> t := on_manager (BucketManager.RefillAll now).

(** One iteration of the loop of LoadStates. *)
Definition load_state (now : Time) (m : BucketManager.t) (s : BucketStateForDB.t) :
    BucketManager.t :=
  let key := BucketManager.bucketKey (BucketStateForDB.UserID s)
               (BucketStateForDB.BackendID s) (BucketStateForDB.BucketType s) in
  let '(_, m1) := BucketManager.GetOrCreate (BucketStateForDB.UserID s)
               (BucketStateForDB.BackendID s) (BucketStateForDB.BucketType s) now m in
  BucketManager.with_buckets
    (alter (BucketState.with_level_at (BucketStateForDB.CurrentLevel s)
              (BucketStateForDB.LastRefillAt s)) key (BucketManager.buckets m1)) m1.

Definition LoadStates (states : list BucketStateForDB.t) (now : Time) (m : t) : t :=
  on_manager (fun bm => foldl (load_state now) bm states) m.

Definition state_for_db (b : BucketState.t) : BucketStateForDB.t :=
  BucketStateForDB.mk (BucketState.UserID b) (BucketState.BackendID b)
    (BucketState.BucketType b) (BucketState.CurrentLevel b) (BucketState.Capacity b)
    (BucketState.RefillRate b) (BucketState.LastRefillAt b).

Definition GetAllStates (m : t) : list BucketStateForDB.t :=
  state_for_db <$> BucketManager.GetAllBuckets (manager m).

Definition GetAllConfigs (m : t) : list BackendConfig.t :=
  BucketManager.GetAllConfigs (manager m).

Definition ResetUserBuckets (userID backendID : string) (now : Time) : t -> t :=
  on_manager (BucketManager.ResetUserBuckets userID backendID now).

Definition SetUserConfig (cfg : UserBucketConfig.t) : t -> t :=
  on_manager (BucketManager.SetUserConfig cfg).
Definition GetUserConfig (userID backendID : string) (m : t) : option UserBucketConfig.t :=
  BucketManager.GetUserConfig userID backendID (manager m).
Definition DeleteUserConfig (userID backendID : string) : t -> t :=
  on_manager (BucketManager.DeleteUserConfig userID backendID).

Definition SetDefaultConfig (backendID : string)
    (riskCapacity riskRefill resourceCapacity resourceRefill : Z) : t -> t :=
  on_manager (fun bm =>
    BucketManager.SetConfig backendID "resource" resourceCapacity resourceRefill
      (BucketManager.SetConfig backendID "risk" riskCapacity riskRefill bm)).

Definition cap_rate (c : option BucketConfig.t) : Z * Z :=
  match c with
  | Some cfg => (BucketConfig.Capacity cfg, BucketConfig.RefillRate cfg)
  | None => (0, 0)
  end.

(** riskCapacity, riskRefill, resourceCapacity, resourceRefill *)
Definition GetDefaultConfig (backendID : string) (m : t) : (Z * Z) * (Z * Z) :=
  (cap_rate (BucketManager.GetConfig backendID "risk" (manager m)),
   cap_rate (BucketManager.GetConfig backendID "resource" (manager m))).

Definition CheckAndConsume (userID backendID : string) (riskCost resourceCost : Z)
    (now : Time) (m : t) : (bool * bool) * t :=
  let '(r, bm) :=
    BucketManager.CheckAndConsume userID backendID riskCost resourceCost now (manager m) in
  (r, on_manager (fun _ => bm) m).

Definition level_cap_rate (b : option BucketState.t) : Z * Z * Z :=
  match b with
  | Some s => (BucketState.CurrentLevel s, BucketState.Capacity s, BucketState.RefillRate s)
  | None => (0, 0, 0)
  end.

(** Available, capacity and refill rate of the risk and the resource bucket. *)
Definition GetBucketStatus (userID backendID : string) (m : t) : (Z * Z * Z) * (Z * Z * Z) :=
  let '(risk, resource) := BucketManager.GetStatus userID backendID (manager m) in
  (level_cap_rate risk, level_cap_rate resource).
End RateLimitManager.

(** * Properties *)

(** ** Arithmetic of the refill *)

(** Bounds under which no operation on a bucket overflows, for any clock. *)
Abbreviation MaxRate := 500000000.
Abbreviation MaxCapacity := 4611686018427387904.

Lemma min_spec a b : min a b = Z.min a b.
Proof. unfold min. case_if; lia. Qed.

Lemma duration_secs_bounds d : int64 d -> -9223372036 <= duration_secs d <= 9223372036.
Proof.
  unfold int64, duration_secs, Second. intros Hd.
  pose proof (Z.quot_rem' d 1000000000).
  destruct (Z.le_ge_cases 0 d).
  - pose proof (Z.rem_bound_pos d 1000000000 ltac:(lia) ltac:(lia)). lia.
  - pose proof (Z.rem_bound_pos_neg d 1000000000 ltac:(lia) ltac:(lia)). lia.
Qed.

Lemma time_sub_int64 t u : int64 (time_sub t u).
Proof. unfold int64, time_sub. lia. Qed.

Lemma refill_product_int64 last rate now :
  0 <= rate <= MaxRate -> int64 (duration_secs (time_sub now last) * rate).
Proof.
  intros Hr. pose proof (duration_secs_bounds _ (time_sub_int64 now last)).
  unfold int64. nia.
Qed.

Lemma refill_amount_past last rate now :
  0 <= rate <= MaxRate -> now <= last -> refill_amount last rate now <= 0.
Proof.
  intros Hr Hl. unfold refill_amount.
  rewrite wrap64_id by auto using refill_product_int64.
  assert (Hs : duration_secs (time_sub now last) <= 0).
  { unfold duration_secs, time_sub, Second. apply Z.quot_le_upper_bound; lia. }
  pose proof (refill_product_int64 last rate now Hr) as Hp.
  set (p := _ * rate) in *. assert (p <= 0) by nia.
  unfold go_div. unfold int64 in Hp.
  pose proof (Z.quot_rem' p 60). pose proof (Z.rem_bound_pos_neg p 60 ltac:(lia) ltac:(lia)).
  rewrite wrap64_id by (unfold int64; lia). lia.
Qed.

Lemma refill_amount_future last rate now :
  0 <= rate <= MaxRate -> last <= now ->
  refill_amount last rate now = duration_secs (time_sub now last) * rate / 60.
Proof.
  intros Hr Hl. unfold refill_amount.
  pose proof (refill_product_int64 last rate now Hr) as Hp.
  rewrite wrap64_id by done. unfold int64 in Hp.
  pose proof (time_sub_nonneg now last Hl).
  rewrite duration_secs_nonneg in * by lia.
  apply go_div_nonneg; [|lia]. split; [|lia].
  apply Z.mul_nonneg_nonneg; [apply Z.div_pos; unfold Second; lia | lia].
Qed.

(** A refill grants at most [rate] units per minute of elapsed time. *)
Lemma refill_amount_le last rate now :
  0 <= rate <= MaxRate -> last <= now ->
  0 <= refill_amount last rate now <= MaxCapacity - 1 /\
  Minute * refill_amount last rate now <= rate * (now - last).
Proof.
  intros Hr Hl. rewrite refill_amount_future by done.
  pose proof (time_sub_nonneg now last Hl) as Ht.
  pose proof (duration_secs_bounds _ (time_sub_int64 now last)) as Hs.
  rewrite duration_secs_nonneg in * by lia.
  set (d := time_sub now last) in *.
  pose proof (Z.div_mod d Second ltac:(unfold Second; lia)).
  pose proof (Z.mod_pos_bound d Second ltac:(unfold Second; lia)).
  pose proof (Z.div_pos d Second ltac:(lia) ltac:(unfold Second; lia)).
  set (q := d / Second) in *.
  pose proof (Z.div_mod (q * rate) 60 ltac:(lia)).
  pose proof (Z.mod_pos_bound (q * rate) 60 ltac:(lia)).
  assert (0 <= q * rate <= 9223372036 * MaxRate) by nia.
  set (x := q * rate / 60) in *. unfold Second, Minute in *.
  split; [lia|].
  assert (Second * (q * rate) <= rate * (now - last)) by (unfold Second; nia).
  unfold Second in *. lia.
Qed.

(** ** Bounds of a bucket state *)

Module BucketStateFacts.
Import BucketState.

Definition sane (b : t) : Prop :=
  0 <= Capacity b <= MaxCapacity /\ 0 <= RefillRate b <= MaxRate.
Definition in_bounds (b : t) : Prop := 0 <= CurrentLevel b <= Capacity b.

(** What identifies a bucket never changes. *)
Definition same_config (b b' : t) : Prop :=
  UserID b' = UserID b /\ BackendID b' = BackendID b /\ BucketType b' = BucketType b /\
  Capacity b' = Capacity b /\ RefillRate b' = RefillRate b.

Lemma Refill_same_config now b : same_config b (Refill now b).
Proof. unfold Refill, same_config. case_if; done. Qed.

Lemma Refill_level now b :
  sane b -> in_bounds b ->
  CurrentLevel (Refill now b) =
    Z.min (Capacity b)
      (CurrentLevel b + Z.max 0 (refill_amount (LastRefillAt b) (RefillRate b) now)).
Proof.
  intros [Hc Hr] Hb. unfold in_bounds, Refill in *.
  case_if; cbn; [|lia].
  destruct (Z.le_ge_cases now (LastRefillAt b)) as [Hle|Hge].
  { pose proof (refill_amount_past _ _ _ Hr Hle). lia. }
  destruct (refill_amount_le _ _ _ Hr Hge) as [? _].
  rewrite min_spec, wrap64_id by (unfold int64; lia). lia.
Qed.

Lemma Refill_in_bounds now b : sane b -> in_bounds b -> in_bounds (Refill now b).
Proof.
  intros Hs Hb. unfold in_bounds. rewrite Refill_level by done.
  destruct (Refill_same_config now b) as (_ & _ & _ & -> & _).
  unfold in_bounds in Hb. lia.
Qed.

Lemma Refill_sane now b : sane b -> sane (Refill now b).
Proof. unfold sane. destruct (Refill_same_config now b) as (_ & _ & _ & -> & ->). done. Qed.

(** The level between bounds that hold for whatever levels were loaded; a level above
    the capacity stays until a refill grants something. *)
Definition within (lo hi : Z) (b : t) : Prop := lo <= CurrentLevel b <= Z.max hi (Capacity b).

Definition level_bounds (lo hi : Z) : Prop := - MaxCapacity <= lo <= 0 /\ 0 <= hi <= MaxCapacity.

Lemma within_in_bounds b : sane b -> within 0 0 b <-> in_bounds b.
Proof. unfold sane, within, in_bounds. lia. Qed.

Lemma Refill_within lo hi now b :
  level_bounds lo hi -> sane b -> within lo hi b -> within lo hi (Refill now b).
Proof.
  intros Hlh [Hc Hr] Hb. unfold level_bounds, within, Refill in *. case_if; cbn; [|lia].
  destruct (Z.le_ge_cases now (LastRefillAt b)) as [Hle|Hge].
  { pose proof (refill_amount_past _ _ _ Hr Hle). lia. }
  destruct (refill_amount_le _ _ _ Hr Hge) as [? _].
  rewrite min_spec, wrap64_id by (unfold int64; lia). lia.
Qed.

(** A refill that grants something brings the level under the capacity. *)
Lemma Refill_capped lo hi now b :
  level_bounds lo hi -> sane b -> within lo hi b ->
  0 < refill_amount (LastRefillAt b) (RefillRate b) now ->
  CurrentLevel (Refill now b) <= Capacity (Refill now b).
Proof.
  intros Hlh [Hc Hr] Hb Ha. unfold level_bounds, within, Refill in *.
  apply Z.ltb_lt in Ha. rewrite Ha. cbn. rewrite min_spec. lia.
Qed.

Lemma Consume_within lo hi cost now b :
  level_bounds lo hi -> sane b -> within lo hi b -> 0 <= cost ->
  let b' := (Consume cost now b).2 in sane b' /\ within lo hi b' /\ same_config b b'.
Proof.
  intros Hlh Hs Hb Hc b'. unfold b', Consume, CanConsume.
  pose proof (Refill_within lo hi now b Hlh Hs Hb) as Hw.
  pose proof (Refill_sane now b Hs) as Hs'. pose proof (Refill_same_config now b) as Hcfg.
  cbn -[Refill]. destruct (cost <=? _) eqn:Hle; cbn -[Refill]; [|done]. bool_to_prop.
  unfold level_bounds, sane, within, same_config in *; cbn -[Refill].
  rewrite wrap64_id by (unfold int64; lia). intuition lia.
Qed.

(** The outcome of [Consume]: it succeeds exactly when the refilled level
    covers the cost, and then takes exactly the cost. *)
Lemma Consume_spec cost now b :
  sane b -> in_bounds b -> 0 <= cost ->
  Consume cost now b =
    (if cost <=? CurrentLevel (Refill now b)
     then (true, with_level (CurrentLevel (Refill now b) - cost) (Refill now b))
     else (false, Refill now b)).
Proof.
  intros Hs Hb Hc. unfold Consume, CanConsume.
  pose proof (Refill_in_bounds now b Hs Hb) as Hb'.
  pose proof (Refill_sane now b Hs) as [Hs' _]. unfold in_bounds in Hb'.
  cbn -[Refill]. destruct (cost <=? _) eqn:Hle; cbn -[Refill]; [|done]. bool_to_prop.
  by rewrite wrap64_id by (unfold int64; lia).
Qed.

Lemma Consume_invariant cost now b :
  sane b -> in_bounds b -> 0 <= cost ->
  sane (Consume cost now b).2 /\ in_bounds (Consume cost now b).2 /\
  same_config b (Consume cost now b).2.
Proof.
  intros Hs Hb Hc. rewrite Consume_spec by done.
  pose proof (Refill_in_bounds now b Hs Hb).
  pose proof (Refill_sane now b Hs). pose proof (Refill_same_config now b).
  case_if; cbn; [|done].
  unfold sane, in_bounds, same_config in *; cbn in *. intuition lia.
Qed.
End BucketStateFacts.

(** ** Sequences of operations on one bucket *)

Section BucketRuns.
Import BucketState BucketStateFacts.

Inductive bucket_op :=
| OpRefill (now : Time)
| OpConsume (cost : Z) (now : Time).

Definition op_time (o : bucket_op) : Time :=
  match o with OpRefill now => now | OpConsume _ now => now end.
Definition op_cost_ok (o : bucket_op) : Prop :=
  match o with OpRefill _ => True | OpConsume cost _ => 0 <= cost end.

(** The units an operation takes out, and the bucket after it. *)
Definition bucket_step (o : bucket_op) (b : t) : Z * t :=
  match o with
  | OpRefill now => (0, Refill now b)
  | OpConsume cost now =>
      let '(ok, b') := Consume cost now b in (if ok then cost else 0, b')
  end.

Fixpoint bucket_run (ops : list bucket_op) (b : t) : Z * t :=
  match ops with
  | [] => (0, b)
  | o :: ops' =>
      let '(g, b1) := bucket_step o b in
      let '(g', b2) := bucket_run ops' b1 in (g + g', b2)
  end.

(** The clock never runs backwards between [start] and [stop]. *)
Fixpoint monotone_clock (start : Time) (ops : list bucket_op) (stop : Time) : Prop :=
  match ops with
  | [] => start <= stop
  | o :: ops' => start <= op_time o /\ monotone_clock (op_time o) ops' stop
  end.

Lemma monotone_clock_weaken t0 t0' ops stop :
  t0' <= t0 -> monotone_clock t0 ops stop -> monotone_clock t0' ops stop.
Proof. destruct ops; cbn; [lia|]. intuition lia. Qed.

Lemma bucket_step_invariant o b :
  sane b -> in_bounds b -> op_cost_ok o ->
  sane (bucket_step o b).2 /\ in_bounds (bucket_step o b).2 /\
  same_config b (bucket_step o b).2.
Proof.
  intros Hs Hb Ho. destruct o as [now|cost now]; cbn -[Refill Consume].
  - eauto using Refill_sane, Refill_in_bounds, Refill_same_config.
  - pose proof (Consume_invariant cost now b Hs Hb Ho) as H.
    by destruct (Consume cost now b).
Qed.

(** Potential: the units a bucket holds, less the refill it was already
    given credit for. *)
Definition potential (b : t) : Z := Minute * CurrentLevel b - RefillRate b * LastRefillAt b.

Lemma Refill_potential now b :
  sane b -> in_bounds b -> LastRefillAt b <= now ->
  potential (Refill now b) <= potential b /\ LastRefillAt b <= LastRefillAt (Refill now b) <= now.
Proof.
  intros Hs Hb Hl. pose proof (Refill_level now b Hs Hb) as Hlev.
  destruct Hs as [Hc Hr]. destruct (refill_amount_le _ _ _ Hr Hl) as [? Hle].
  unfold potential. rewrite Hlev. unfold Refill.
  case_if; cbn; unfold Minute in *; [split; [nia|lia]|split; [nia|lia]].
Qed.

Lemma bucket_step_potential o b :
  sane b -> in_bounds b -> op_cost_ok o -> LastRefillAt b <= op_time o ->
  Minute * (bucket_step o b).1 + potential (bucket_step o b).2 <= potential b /\
  LastRefillAt (bucket_step o b).2 <= op_time o.
Proof.
  intros Hs Hb Ho Hl. destruct o as [now|cost now]; cbn -[Refill Consume] in *.
  - destruct (Refill_potential now b Hs Hb Hl). lia.
  - destruct (Refill_potential now b Hs Hb Hl). rewrite Consume_spec by done.
    case_if; cbn -[Refill]; [|lia]. unfold potential, with_level in *; cbn -[Refill] in *.
    split; [|lia]. unfold Minute in *. nia.
Qed.

Lemma bucket_run_potential ops b stop :
  sane b -> in_bounds b -> Forall op_cost_ok ops ->
  monotone_clock (LastRefillAt b) ops stop ->
  Minute * (bucket_run ops b).1 + potential (bucket_run ops b).2 <= potential b /\
  LastRefillAt (bucket_run ops b).2 <= stop /\
  sane (bucket_run ops b).2 /\ in_bounds (bucket_run ops b).2 /\
  RefillRate (bucket_run ops b).2 = RefillRate b.
Proof.
  revert b. induction ops as [|o ops IH]; intros b Hs Hb Ho Hm; cbn -[bucket_step Minute] in *.
  { repeat split; try done; try apply Hs; try apply Hb; lia. }
  apply Forall_cons in Ho as [Ho Hops]. destruct Hm as [Hl Hm].
  destruct (bucket_step_invariant o b Hs Hb Ho) as (Hs1 & Hb1 & _ & _ & _ & _ & Hr1).
  destruct (bucket_step_potential o b Hs Hb Ho Hl) as [Hp1 Hl1].
  destruct (bucket_step o b) as [g b1]; cbn -[Minute] in *.
  specialize (IH b1 Hs1 Hb1 Hops (monotone_clock_weaken _ _ _ _ Hl1 Hm)).
  destruct (bucket_run ops b1) as [g' b2]; cbn -[Minute] in *.
  destruct IH as (Hp2 & Hl2 & Hs2 & Hb2 & Hr2).
  rewrite Hr2, Hr1. repeat split; try apply Hs2; try apply Hb2; lia.
Qed.
End BucketRuns.

Section BucketTheorems.
Import BucketState BucketStateFacts.

(** C32: over any sequence of refills and consumptions, with a clock that
    does not run backwards, the units a bucket hands out are at most its
    initial level plus its refill rate times the elapsed time. *)
Theorem token_bucket_rate_bound ops b stop :
  sane b -> in_bounds b -> Forall op_cost_ok ops ->
  monotone_clock (LastRefillAt b) ops stop ->
  Minute * (bucket_run ops b).1
    <= Minute * CurrentLevel b + RefillRate b * (stop - LastRefillAt b).
Proof.
  intros Hs Hb Ho Hm.
  destruct (bucket_run_potential ops b stop Hs Hb Ho Hm) as (Hp & Hl & [_ Hr] & Hb' & Heq).
  unfold potential in Hp. rewrite Heq in *. unfold in_bounds, Minute in *. nia.
Qed.

(** A bucket of 100 units refilled at 20 per minute, used over two minutes. *)
Definition demo_bucket : t := NewBucketState "alice" "slack" "risk" 100 20 0.
Definition demo_ops : list bucket_op :=
  [OpConsume 60 0; OpConsume 60 Second; OpRefill Minute; OpConsume 60 (2 * Minute)].

Lemma token_bucket_rate_bound_witness :
  (bucket_run demo_ops demo_bucket).1 = 120 /\
  Minute * 120 <= Minute * 100 + 20 * (2 * Minute - 0).
Proof.
  split; [vm_compute; reflexivity|].
  apply (token_bucket_rate_bound demo_ops demo_bucket (2 * Minute)).
  - unfold sane; cbn; lia.
  - unfold in_bounds; cbn; lia.
  - repeat constructor; cbn; lia.
  - unfold demo_ops, Second, Minute; cbn; lia.
Defined.

(** No sequence of refills and consumptions takes a bucket below zero or
    above its capacity, or changes its owner, capacity or rate, whatever the
    clock does. *)
Theorem bucket_level_invariant ops b :
  sane b -> in_bounds b -> Forall op_cost_ok ops ->
  in_bounds (bucket_run ops b).2 /\ same_config b (bucket_run ops b).2.
Proof.
  revert b. induction ops as [|o ops IH]; intros b Hs Hb Ho; cbn -[bucket_step].
  { done. }
  apply Forall_cons in Ho as [Ho Hops].
  destruct (bucket_step_invariant o b Hs Hb Ho) as (Hs1 & Hb1 & Hc1).
  destruct (bucket_step o b) as [g b1]; cbn in *.
  destruct (IH b1 Hs1 Hb1 Hops) as [Hb2 Hc2].
  destruct (bucket_run ops b1) as [g' b2]; cbn in *.
  split; [done|]. unfold same_config in *. intuition congruence.
Qed.

Lemma bucket_level_invariant_witness :
  in_bounds (bucket_run demo_ops demo_bucket).2 /\
  same_config demo_bucket (bucket_run demo_ops demo_bucket).2.
Proof.
  apply bucket_level_invariant.
  - unfold sane; cbn; lia.
  - unfold in_bounds; cbn; lia.
  - repeat constructor; cbn; lia.
Defined.

(** C40: a bucket that refills at a positive rate cannot starve a caller:
    left alone long enough it grants every cost up to its capacity. *)
Theorem consume_eventually_granted b cost :
  sane b -> in_bounds b -> 0 <= cost <= Capacity b ->
  0 < RefillRate b -> 60 * Capacity b <= 9223372035 * RefillRate b ->
  exists wait, 0 <= wait /\
    forall now, LastRefillAt b + wait <= now -> (Consume cost now b).1 = true.
Proof.
  intros Hs Hb Hc Hr Hbig. exists ((60 * Capacity b / RefillRate b + 1) * Second).
  pose proof (Z.div_mod (60 * Capacity b) (RefillRate b) ltac:(lia)).
  pose proof (Z.mod_pos_bound (60 * Capacity b) (RefillRate b) ltac:(lia)).
  pose proof (Z.div_pos (60 * Capacity b) (RefillRate b) ltac:(lia) ltac:(lia)).
  set (q := 60 * Capacity b / RefillRate b) in *.
  assert (Hq : q <= 9223372035) by nia.
  split; [unfold Second; lia|]. intros now Hnow.
  rewrite Consume_spec by (done || lia).
  enough (Capacity b <= CurrentLevel (Refill now b)) by (case_if; [done | lia]).
  rewrite Refill_level by done. unfold Second in Hnow.
  rewrite refill_amount_future by (destruct Hs; lia).
  assert (Hd : (q + 1) * Second <= time_sub now (LastRefillAt b)).
  { unfold time_sub, Second. lia. }
  rewrite duration_secs_nonneg by (unfold Second in *; lia).
  pose proof (Z.div_le_lower_bound _ Second (q + 1) ltac:(unfold Second; lia)
                ltac:(rewrite Z.mul_comm; exact Hd)) as Hsecs.
  set (secs := _ / Second) in *.
  assert (60 * Capacity b <= secs * RefillRate b) by nia.
  pose proof (Z.div_le_lower_bound (secs * RefillRate b) 60 (Capacity b)
                ltac:(lia) ltac:(lia)).
  unfold in_bounds in Hb. lia.
Qed.

Lemma consume_eventually_granted_witness :
  exists wait, 0 <= wait /\
    forall now, 0 + wait <= now -> (Consume 100 now (with_level 0 demo_bucket)).1 = true.
Proof.
  apply (consume_eventually_granted (with_level 0 demo_bucket) 100).
  - unfold sane; cbn; lia.
  - unfold in_bounds; cbn; lia.
  - cbn; lia.
  - cbn; lia.
  - cbn; lia.
Defined.

(** The refill goroutine started with a period of one second. *)
Fixpoint tick_every_second (n : nat) (start : Time) (b : t) : t :=
  match n with
  | O => b
  | S n' => tick_every_second n' (start + Second) (Refill (start + Second) b)
  end.

Lemma two_ticks_at_40 b start level :
  RefillRate b = 40 -> 0 <= level -> level + 1 <= Capacity b <= MaxCapacity ->
  LastRefillAt b = start -> CurrentLevel b = level ->
  Refill (start + Second + Second) (Refill (start + Second) b) =
    with_level_at (level + 1) (start + 2 * Second) b.
Proof.
  intros Hr Hl Hc Hs Hlev.
  assert (H1 : refill_amount start 40 (start + Second) = 0).
  { unfold refill_amount, time_sub, Second.
    replace (start + _ - start) with 1000000000 by lia. reflexivity. }
  assert (H2 : refill_amount start 40 (start + Second + Second) = 1).
  { unfold refill_amount, time_sub, Second.
    replace (start + _ + _ - start) with 2000000000 by lia. reflexivity. }
  assert (Refill (start + Second) b = b) as ->.
  { unfold Refill. by rewrite Hr, Hs, H1. }
  unfold Refill. rewrite Hr, Hs, H2. cbn -[Second].
  unfold with_level_at. rewrite Hlev, min_spec, wrap64_id by (unfold int64; lia).
  f_equal; unfold Second; lia.
Qed.

(** With the one-second refill ticker the bridge starts, a bucket whose
    refill rate is 40 units per minute gains 30 units in a minute: every
    second tick grants one unit and discards the third of a unit left over. *)
Theorem refill_ticker_loses_budget b :
  RefillRate b = 40 -> 0 <= CurrentLevel b -> CurrentLevel b + 30 <= Capacity b <= MaxCapacity ->
  CurrentLevel (tick_every_second 60 (LastRefillAt b) b) = CurrentLevel b + 30.
Proof.
  intros Hr Hl Hc.
  assert (Hgen : forall n b, RefillRate b = 40 -> 0 <= CurrentLevel b ->
            CurrentLevel b + Z.of_nat n <= Capacity b <= MaxCapacity ->
            CurrentLevel (tick_every_second (2 * n) (LastRefillAt b) b)
              = CurrentLevel b + Z.of_nat n).
  { clear. induction n as [|n IH]; intros b Hr Hl Hc; [cbn; lia|].
    replace (2 * S n)%nat with (S (S (2 * n))) by lia.
    cbn [tick_every_second].
    rewrite (two_ticks_at_40 b (LastRefillAt b) (CurrentLevel b)) by lia.
    set (b1 := with_level_at _ _ b).
    replace (LastRefillAt b + Second + Second) with (LastRefillAt b1)
      by (unfold b1, Second; cbn; lia).
    rewrite IH; unfold b1; cbn; lia. }
  apply (Hgen 30%nat b); lia.
Qed.

Lemma refill_ticker_loses_budget_witness :
  let b := mk "alice" "slack" "resource" 200 40 0 0 in
  CurrentLevel (tick_every_second 60 0 b) = 30.
Proof. apply (refill_ticker_loses_budget (mk "alice" "slack" "resource" 200 40 0 0)); cbn; lia. Defined.
End BucketTheorems.

(** ** The bucket manager *)

Module BucketManagerFacts.
Import BucketManager.
Import BucketStateFacts (sane, in_bounds, same_config).

Abbreviation bstate := BucketState.t.

(** The bucket an access to (user, backend, type) reaches. *)
Definition bucket_of (userID backendID bucketType : string) (now : Time) (m : t) : bstate :=
  default (fresh_bucket userID backendID bucketType now m)
    (buckets m !! bucketKey userID backendID bucketType).

Lemma GetOrCreate_bucket u b ty now m :
  (GetOrCreate u b ty now m).1 = bucket_of u b ty now m.
Proof. unfold GetOrCreate, bucket_of. by destruct (buckets m !! _). Qed.

Lemma GetOrCreate_config u b ty now m : config (GetOrCreate u b ty now m).2 = config m.
Proof. unfold GetOrCreate. by destruct (buckets m !! _). Qed.

Lemma GetOrCreate_userConfigs u b ty now m :
  userConfigs (GetOrCreate u b ty now m).2 = userConfigs m.
Proof. unfold GetOrCreate. by destruct (buckets m !! _). Qed.

Lemma GetOrCreate_lookup u b ty now m k :
  buckets (GetOrCreate u b ty now m).2 !! k =
    if decide (k = bucketKey u b ty) then Some (bucket_of u b ty now m) else buckets m !! k.
Proof.
  unfold GetOrCreate, bucket_of.
  destruct (buckets m !! bucketKey u b ty) eqn:Hk; cbn; case_decide; subst; try done.
  - by rewrite lookup_insert_eq.
  - by rewrite lookup_insert_ne.
Qed.

Lemma consume_at_lookup key cost now m bs k :
  buckets m !! key = Some bs ->
  (consume_at key cost now m).1 = (BucketState.Consume cost now bs).1 /\
  buckets (consume_at key cost now m).2 !! k =
    if decide (k = key) then Some (BucketState.Consume cost now bs).2 else buckets m !! k.
Proof.
  intros H. unfold consume_at. rewrite H.
  destruct (BucketState.Consume cost now bs) as [ok b']; cbn. split; [done|].
  case_decide; subst; [by rewrite lookup_insert_eq | by rewrite lookup_insert_ne].
Qed.

Lemma consume_at_config key cost now m :
  config (consume_at key cost now m).2 = config m /\
  userConfigs (consume_at key cost now m).2 = userConfigs m.
Proof.
  unfold consume_at. destruct (buckets m !! key) as [bs|]; [|done].
  by destruct (BucketState.Consume cost now bs).
Qed.

Lemma bucketKey_type_inj u b ty ty' : bucketKey u b ty = bucketKey u b ty' -> ty = ty'.
Proof. unfold bucketKey. intros H. by do 4 apply str_app_inj_l in H. Qed.

Lemma risk_ne_resource u b : bucketKey u b "resource" <> bucketKey u b "risk".
Proof. intros H. by apply bucketKey_type_inj in H. Qed.

(** An identifier that is safe to build keys from. *)
Definition colon_free (s : string) : Prop := has_byte ":" s = false.

Lemma bucketKey_inj u b ty u' b' ty' :
  colon_free u -> colon_free u' -> colon_free b -> colon_free b' ->
  bucketKey u b ty = bucketKey u' b' ty' -> u = u' /\ b = b' /\ ty = ty'.
Proof.
  unfold bucketKey, colon_free. intros Hu Hu' Hb Hb' H.
  apply str_split_unique in H as [-> H]; [|done..].
  apply str_split_unique in H as [-> H]; [|done..]. done.
Qed.

(** The buckets after [CheckAndConsume], at every key. *)
Lemma CheckAndConsume_lookup u b rc sc now m k :
  let risk := BucketState.Consume rc now (bucket_of u b "risk" now m) in
  let resource := BucketState.Consume sc now (bucket_of u b "resource" now m) in
  (CheckAndConsume u b rc sc now m).1 = (risk.1, resource.1) /\
  buckets (CheckAndConsume u b rc sc now m).2 !! k =
    if decide (k = bucketKey u b "risk") then Some risk.2
    else if decide (k = bucketKey u b "resource") then Some resource.2
    else buckets m !! k.
Proof.
  pose proof (risk_ne_resource u b) as Hne.
  unfold CheckAndConsume.
  pose proof (GetOrCreate_lookup u b "risk" now m) as H1.
  pose proof (GetOrCreate_config u b "risk" now m) as C1.
  destruct (GetOrCreate u b "risk" now m) as [x1 m1]; cbn in *.
  assert (Hres : bucket_of u b "resource" now m1 = bucket_of u b "resource" now m).
  { unfold bucket_of, fresh_bucket. by rewrite H1, C1, decide_False. }
  pose proof (GetOrCreate_lookup u b "resource" now m1) as H2. rewrite Hres in H2.
  destruct (GetOrCreate u b "resource" now m1) as [x2 m2]; cbn in *.
  assert (Hr2 : buckets m2 !! bucketKey u b "risk" = Some (bucket_of u b "risk" now m)).
  { rewrite H2, decide_False by done. by rewrite H1, decide_True. }
  pose proof (fun k => consume_at_lookup _ rc now m2 _ k Hr2) as H3.
  destruct (consume_at (bucketKey u b "risk") rc now m2) as [ok3 m3]; cbn in *.
  assert (Hs3 : buckets m3 !! bucketKey u b "resource"
                = Some (bucket_of u b "resource" now m)).
  { destruct (H3 (bucketKey u b "resource")) as [_ ->].
    rewrite decide_False by done. by rewrite H2, decide_True. }
  pose proof (consume_at_lookup _ sc now m3 _ k Hs3) as [H4 H5].
  destruct (consume_at (bucketKey u b "resource") sc now m3) as [ok4 m4]; cbn in *.
  destruct (H3 k) as [H6 H7]. split; [congruence|].
  rewrite H5, H7, H2, H1. repeat case_decide; subst; congruence.
Qed.

Lemma CheckAndConsume_config u b rc sc now m :
  config (CheckAndConsume u b rc sc now m).2 = config m /\
  userConfigs (CheckAndConsume u b rc sc now m).2 = userConfigs m.
Proof.
  unfold CheckAndConsume.
  pose proof (GetOrCreate_config u b "risk" now m) as C1.
  pose proof (GetOrCreate_userConfigs u b "risk" now m) as U1.
  destruct (GetOrCreate u b "risk" now m) as [x1 m1]; cbn in *.
  pose proof (GetOrCreate_config u b "resource" now m1) as C2.
  pose proof (GetOrCreate_userConfigs u b "resource" now m1) as U2.
  destruct (GetOrCreate u b "resource" now m1) as [x2 m2]; cbn in *.
  pose proof (consume_at_config (bucketKey u b "risk") rc now m2) as [C3 U3].
  destruct (consume_at (bucketKey u b "risk") rc now m2) as [ok3 m3]; cbn in *.
  pose proof (consume_at_config (bucketKey u b "resource") sc now m3) as [C4 U4].
  destruct (consume_at (bucketKey u b "resource") sc now m3) as [ok4 m4]; cbn in *.
  split; congruence.
Qed.

(** *** The manager's invariant *)

Definition sane_config (c : BucketConfig.t) : Prop :=
  0 <= BucketConfig.Capacity c <= MaxCapacity /\ 0 <= BucketConfig.RefillRate c <= MaxRate.

Definition keyed (k : string) (b : bstate) : Prop :=
  k = bucketKey (BucketState.UserID b) (BucketState.BackendID b) (BucketState.BucketType b).

(** Every bucket sits under its own key, within bounds, and every
    configuration is one a bucket may be created from. *)
Record ok (m : t) : Prop := {
  ok_buckets : map_Forall (fun k b => keyed k b /\ sane b /\ in_bounds b) (buckets m);
  ok_config : map_Forall (fun _ c => sane_config c) (config m)
}.

(** The same with levels between bounds of the levels that were loaded. *)
Record bounded (lo hi : Z) (m : t) : Prop := {
  bounded_buckets :
    map_Forall (fun k b => keyed k b /\ sane b /\ BucketStateFacts.within lo hi b) (buckets m);
  bounded_config : map_Forall (fun _ c => sane_config c) (config m)
}.

Lemma bounded_ok m : bounded 0 0 m <-> ok m.
Proof.
  split; intros [Hb Hc]; (split; [|exact Hc]); intros k b Hk; destruct (Hb k b Hk) as (? & Hs & Hl);
    (split_and!; [done..|]); by apply (BucketStateFacts.within_in_bounds b Hs).
Qed.

Lemma empty_bounded lo hi : bounded lo hi NewBucketManager.
Proof. split; apply map_Forall_empty. Qed.

Lemma empty_ok : ok NewBucketManager.
Proof. split; apply map_Forall_empty. Qed.

Lemma fresh_bucket_ok u b ty now m :
  ok m -> keyed (bucketKey u b ty) (fresh_bucket u b ty now m) /\
          sane (fresh_bucket u b ty now m) /\ in_bounds (fresh_bucket u b ty now m).
Proof.
  intros [_ Hc]. unfold fresh_bucket.
  destruct (config m !! _) as [c|] eqn:Hlk.
  - destruct (Hc _ _ Hlk). unfold sane, in_bounds, keyed; cbn. repeat split; try done; lia.
  - unfold sane, in_bounds, keyed; cbn. repeat split; try done; lia.
Qed.

Lemma bucket_of_ok u b ty now m :
  ok m -> keyed (bucketKey u b ty) (bucket_of u b ty now m) /\
          sane (bucket_of u b ty now m) /\ in_bounds (bucket_of u b ty now m).
Proof.
  intros Hok. unfold bucket_of. destruct (buckets m !! _) as [bs|] eqn:Hlk; cbn.
  - exact (ok_buckets m Hok _ _ Hlk).
  - by apply fresh_bucket_ok.
Qed.

Lemma keyed_same_config k b b' : same_config b b' -> keyed k b -> keyed k b'.
Proof. unfold keyed, same_config. intros (-> & -> & -> & _). done. Qed.

Lemma consumed_bounded lo hi k b cost now :
  BucketStateFacts.level_bounds lo hi -> 0 <= cost ->
  keyed k b /\ sane b /\ BucketStateFacts.within lo hi b ->
  let b' := (BucketState.Consume cost now b).2 in
  keyed k b' /\ sane b' /\ BucketStateFacts.within lo hi b'.
Proof.
  intros Hlh Hc (Hk & Hs & Hb). cbn.
  destruct (BucketStateFacts.Consume_within lo hi cost now b Hlh Hs Hb Hc) as (? & ? & ?).
  eauto using keyed_same_config.
Qed.

Lemma bucket_of_bounded lo hi u b ty now m :
  lo <= 0 -> bounded lo hi m ->
  keyed (bucketKey u b ty) (bucket_of u b ty now m) /\
  sane (bucket_of u b ty now m) /\ BucketStateFacts.within lo hi (bucket_of u b ty now m).
Proof.
  intros Hlo [Hb Hc]. unfold bucket_of. destruct (buckets m !! _) as [bs|] eqn:Hlk; cbn; [by apply Hb|].
  unfold fresh_bucket. destruct (config m !! _) as [c|] eqn:Hcfg.
  - destruct (Hc _ _ Hcfg). unfold sane, BucketStateFacts.within, keyed; cbn. repeat split; try done; lia.
  - unfold sane, BucketStateFacts.within, keyed; cbn. repeat split; try done; lia.
Qed.

(** The operations a client of the manager performs. *)
Inductive manager_op :=
| MSetConfig (backendID bucketType : string) (capacity refillRate : Z)
| MGetOrCreate (userID backendID bucketType : string) (now : Time)
| MCheckAndConsume (userID backendID : string) (riskCost resourceCost : Z) (now : Time)
| MRefillAll (now : Time)
| MResetUserBuckets (userID backendID : string) (now : Time)
| MLoadStates (states : list BucketStateForDB.t) (now : Time)
| MSetUserConfig (cfg : UserBucketConfig.t)
| MDeleteUserConfig (userID backendID : string).

(** The levels that are loaded lie between [lo] and [hi]. *)
Definition manager_op_ok (lo hi : Z) (o : manager_op) : Prop :=
  match o with
  | MSetConfig _ _ c r => sane_config (BucketConfig.mk c r)
  | MCheckAndConsume _ _ rc sc _ => 0 <= rc /\ 0 <= sc
  | MLoadStates states _ => Forall (fun s => lo <= BucketStateForDB.CurrentLevel s <= hi) states
  | _ => True
  end.

Definition manager_step (o : manager_op) (m : t) : t :=
  match o with
  | MSetConfig b ty c r => SetConfig b ty c r m
  | MGetOrCreate u b ty now => (GetOrCreate u b ty now m).2
  | MCheckAndConsume u b rc sc now => (CheckAndConsume u b rc sc now m).2
  | MRefillAll now => RefillAll now m
  | MResetUserBuckets u b now => ResetUserBuckets u b now m
  | MLoadStates states now => foldl (RateLimitManager.load_state now) m states
  | MSetUserConfig cfg => SetUserConfig cfg m
  | MDeleteUserConfig u b => DeleteUserConfig u b m
  end.

Lemma bounded_CheckAndConsume lo hi u b rc sc now m :
  BucketStateFacts.level_bounds lo hi -> 0 <= rc -> 0 <= sc ->
  bounded lo hi m -> bounded lo hi (CheckAndConsume u b rc sc now m).2.
Proof.
  intros Hlh Hr Hs Hok. split; [|by rewrite (proj1 (CheckAndConsume_config u b rc sc now m));
                             apply (bounded_config lo hi)].
  pose proof Hlh as [[_ Hlo] _].
  intros k x. rewrite (proj2 (CheckAndConsume_lookup u b rc sc now m k)).
  repeat case_decide; subst; try (intros [= <-]; apply consumed_bounded; [done..|]; by apply bucket_of_bounded).
  apply (bounded_buckets lo hi), Hok.
Qed.

Lemma reset_bucket_bounded lo hi k b now :
  BucketStateFacts.level_bounds lo hi -> keyed k b /\ sane b /\ BucketStateFacts.within lo hi b ->
  let b' := BucketState.with_level_at (BucketState.Capacity b) now b in
  keyed k b' /\ sane b' /\ BucketStateFacts.within lo hi b'.
Proof. unfold keyed, sane, BucketStateFacts.within, BucketStateFacts.level_bounds. cbn. intuition lia. Qed.

(** A loaded level replaces that of the bucket, which is created if it is missing. *)
Lemma load_state_lookup now m s k :
  let key := bucketKey (BucketStateForDB.UserID s) (BucketStateForDB.BackendID s) (BucketStateForDB.BucketType s) in
  buckets (RateLimitManager.load_state now m s) !! k =
    if decide (k = key)
    then Some (BucketState.with_level_at (BucketStateForDB.CurrentLevel s) (BucketStateForDB.LastRefillAt s)
                 (bucket_of (BucketStateForDB.UserID s) (BucketStateForDB.BackendID s)
                    (BucketStateForDB.BucketType s) now m))
    else buckets m !! k.
Proof.
  intros key. unfold RateLimitManager.load_state.
  pose proof (GetOrCreate_lookup (BucketStateForDB.UserID s) (BucketStateForDB.BackendID s)
    (BucketStateForDB.BucketType s) now m) as Hl.
  destruct (GetOrCreate _ _ _ now m) as [b m1]. cbn [snd buckets with_buckets] in *. fold key in Hl |- *.
  destruct (decide (k = key)) as [->|Hk].
  - rewrite lookup_alter_eq, Hl, decide_True by done. done.
  - rewrite lookup_alter_ne, Hl, decide_False by done. done.
Qed.

Lemma load_state_config now m s : config (RateLimitManager.load_state now m s) = config m.
Proof.
  unfold RateLimitManager.load_state.
  pose proof (GetOrCreate_config (BucketStateForDB.UserID s) (BucketStateForDB.BackendID s)
    (BucketStateForDB.BucketType s) now m) as Hc. by destruct (GetOrCreate _ _ _ now m).
Qed.

Lemma load_states_bounded lo hi now states m :
  BucketStateFacts.level_bounds lo hi ->
  Forall (fun s => lo <= BucketStateForDB.CurrentLevel s <= hi) states ->
  bounded lo hi m -> bounded lo hi (foldl (RateLimitManager.load_state now) m states).
Proof.
  intros Hlh Hst. revert m. induction Hst as [|s states Hs Hst IH]; intros m Hm; [exact Hm|].
  cbn. apply IH. split; [|rewrite load_state_config; apply (bounded_config lo hi), Hm].
  intros k x. rewrite load_state_lookup. cbv zeta. case_decide; [|apply (bounded_buckets lo hi), Hm].
  intros [= <-]. subst k. pose proof Hlh as [[_ Hlo] _].
  destruct (bucket_of_bounded lo hi (BucketStateForDB.UserID s) (BucketStateForDB.BackendID s)
    (BucketStateForDB.BucketType s) now m Hlo Hm) as (Hk & Hsane & _).
  unfold keyed, sane, BucketStateFacts.within in *. cbn. intuition lia.
Qed.

Lemma manager_step_bounded lo hi o m :
  BucketStateFacts.level_bounds lo hi -> manager_op_ok lo hi o ->
  bounded lo hi m -> bounded lo hi (manager_step o m).
Proof.
  intros Hlh Ho Hok. pose proof Hok as [Hb Hc]. pose proof Hlh as [[_ Hlo] _]. destruct o; cbn in Ho |- *.
  - split; [exact Hb|]. cbn. by apply map_Forall_insert_2.
  - split; [|by rewrite GetOrCreate_config].
    intros k x. rewrite GetOrCreate_lookup. case_decide; subst; [|apply Hb].
    intros [= <-]. by apply bucket_of_bounded.
  - destruct Ho. by apply bounded_CheckAndConsume.
  - split; [|done]. intros k x. cbn. rewrite lookup_fmap_Some. intros (b & <- & Hk).
    destruct (Hb _ _ Hk) as (? & ? & ?).
    split_and!; eauto using keyed_same_config, BucketStateFacts.Refill_same_config,
      BucketStateFacts.Refill_sane, BucketStateFacts.Refill_within.
  - split; [|done]. intros k x. cbn. rewrite map_lookup_imap.
    destruct (buckets m !! k) as [b|] eqn:Hk; [|done]. cbn.
    pose proof (Hb _ _ Hk).
    destruct (hasPrefix k _); intros [= <-]; [by apply reset_bucket_bounded | done].
  - by apply load_states_bounded.
  - split; done.
  - split; done.
Qed.

Lemma manager_step_ok o m : manager_op_ok 0 0 o -> ok m -> ok (manager_step o m).
Proof.
  rewrite <- !bounded_ok. apply manager_step_bounded. unfold BucketStateFacts.level_bounds. lia.
Qed.
End BucketManagerFacts.

Section ManagerTheorems.
Import BucketManager BucketManagerFacts.

(** C33: in every manager reached from an empty one by any sequence of its operations,
    the loading of stored levels included, with capacities, rates, costs and loaded levels
    in range, each bucket is stored under its own key, with a capacity and a rate in range; its
    level lies between 0, or the least level that was loaded, and its capacity, or the
    greatest level that was loaded; and once a refill grants it something, its level is
    at most its capacity.  Where no level is loaded, it is always between 0 and the
    capacity ([lo] and [hi] are 0). *)
Theorem manager_invariant lo hi ops :
  - MaxCapacity <= lo <= 0 -> 0 <= hi <= MaxCapacity ->
  Forall (manager_op_ok lo hi) ops ->
  map_Forall (fun k b =>
    keyed k b /\ BucketStateFacts.sane b /\
    lo <= BucketState.CurrentLevel b <= Z.max hi (BucketState.Capacity b) /\
    forall now, 0 < refill_amount (BucketState.LastRefillAt b) (BucketState.RefillRate b) now ->
      lo <= BucketState.CurrentLevel (BucketState.Refill now b) <= BucketState.Capacity b)
    (buckets (foldl (fun m o => manager_step o m) NewBucketManager ops)).
Proof.
  intros Hlo Hhi Hops. assert (Hlh : BucketStateFacts.level_bounds lo hi) by done.
  assert (Hall : forall m, bounded lo hi m -> bounded lo hi (foldl (fun m o => manager_step o m) m ops)).
  { induction Hops as [|o ops Ho Hops IH]; intros m H0; cbn; [exact H0|].
    apply IH. by apply manager_step_bounded. }
  intros k b Hk. destruct (bounded_buckets lo hi _ (Hall _ (empty_bounded lo hi)) k b Hk) as (Hkey & Hs & Hw).
  split_and!; try done; try apply Hw. intros now Hnow.
  pose proof (BucketStateFacts.Refill_capped lo hi now b Hlh Hs Hw Hnow) as Hcap.
  pose proof (BucketStateFacts.Refill_within lo hi now b Hlh Hs Hw) as [Hl _].
  destruct (BucketStateFacts.Refill_same_config now b) as (_ & _ & _ & Hc & _). lia.
Qed.

Definition demo_manager_ops : list manager_op :=
  [MSetConfig "slack" "risk" 100 20; MSetConfig "slack" "resource" 200 40;
   MLoadStates [BucketStateForDB.mk "bob" "slack" "risk" 500 0 0 0] 0;
   MCheckAndConsume "alice" "slack" 40 10 0; MRefillAll Second;
   MResetUserBuckets "alice" "slack" Minute].

Definition demo_manager : t := foldl (fun m o => manager_step o m) NewBucketManager demo_manager_ops.

Lemma manager_invariant_witness :
  exists b, buckets demo_manager !! bucketKey "bob" "slack" "risk" = Some b /\
    BucketState.CurrentLevel b = 500 /\
    BucketState.CurrentLevel (BucketState.Refill Minute b) <= 100.
Proof.
  assert (Hk : buckets demo_manager !! bucketKey "bob" "slack" "risk" =
    Some (BucketState.mk "bob" "slack" "risk" 100 20 500 0)) by (vm_compute; reflexivity).
  eexists. split; [exact Hk|]. split; [reflexivity|].
  destruct (manager_invariant 0 500 demo_manager_ops ltac:(lia) ltac:(lia)
    ltac:(repeat constructor; unfold manager_op_ok, sane_config; cbn; lia) _ _ Hk) as (_ & _ & _ & Hr).
  exact (proj2 (Hr Minute ltac:(vm_compute; reflexivity))).
Defined.

(** Stored levels are taken as they are: after a restart a bucket can hold, and grant,
    more than its capacity, as when the capacity has been lowered in between. *)
Theorem loaded_level_unchecked s now m :
  bounded 0 (BucketStateForDB.CurrentLevel s) m -> 0 <= BucketStateForDB.CurrentLevel s <= MaxCapacity ->
  let u := BucketStateForDB.UserID s in
  let bk := BucketStateForDB.BackendID s in
  let ty := BucketStateForDB.BucketType s in
  let at_ := BucketStateForDB.LastRefillAt s in
  exists b, buckets (RateLimitManager.load_state now m s) !! bucketKey u bk ty = Some b /\
    BucketState.Capacity b = BucketState.Capacity (bucket_of u bk ty now m) /\
    BucketState.CurrentLevel b = BucketStateForDB.CurrentLevel s /\
    (BucketState.Consume (BucketStateForDB.CurrentLevel s) at_ b).1 = true.
Proof.
  intros Hm Hs u bk ty at_. eexists. rewrite load_state_lookup, decide_True by done.
  split; [reflexivity|]. split_and!; [done..|].
  destruct (bucket_of_bounded 0 _ u bk ty now m ltac:(lia) Hm) as (_ & [_ Hr] & _).
  unfold BucketState.Consume, BucketState.CanConsume, BucketState.Refill.
  cbn [BucketState.LastRefillAt BucketState.RefillRate BucketState.with_level_at].
  pose proof (refill_amount_past at_ _ at_ Hr ltac:(lia)) as Hp. apply Z.ltb_ge in Hp.
  fold u bk ty at_. rewrite Hp. cbn. by rewrite Z.leb_refl.
Qed.

Lemma loaded_level_unchecked_witness :
  let s := BucketStateForDB.mk "bob" "slack" "risk" 500 0 0 0 in
  exists b, buckets (RateLimitManager.load_state 7 NewBucketManager s) !! "bob:slack:risk" = Some b /\
    BucketState.Capacity b = 100 /\ (BucketState.Consume 500 0 b).1 = true.
Proof.
  destruct (loaded_level_unchecked (BucketStateForDB.mk "bob" "slack" "risk" 500 0 0 0) 7 NewBucketManager
    (empty_bounded _ _) ltac:(cbn; lia)) as (b & H1 & H2 & _ & H3).
  exists b. split; [exact H1|]. split; [exact H2 | exact H3].
Defined.

(** [CheckAndConsume] debits the risk bucket and the resource bucket of
    the caller independently: each succeeds exactly when its own refilled
    level covers its own cost, a bucket is debited even when the other one
    refuses, and no bucket of another user or backend changes. *)
Theorem CheckAndConsume_spec u b rc sc now m :
  ok m -> 0 <= rc -> 0 <= sc -> colon_free u -> colon_free b ->
  let level ty := BucketState.CurrentLevel (BucketState.Refill now (bucket_of u b ty now m)) in
  let r := CheckAndConsume u b rc sc now m in
  r.1 = (rc <=? level "risk", sc <=? level "resource") /\
  (exists br, buckets r.2 !! bucketKey u b "risk" = Some br /\
     BucketState.CurrentLevel br = level "risk" - if rc <=? level "risk" then rc else 0) /\
  (exists bs, buckets r.2 !! bucketKey u b "resource" = Some bs /\
     BucketState.CurrentLevel bs = level "resource" - if sc <=? level "resource" then sc else 0) /\
  (forall u' b' ty, colon_free u' -> colon_free b' -> (u', b') <> (u, b) ->
     buckets r.2 !! bucketKey u' b' ty = buckets m !! bucketKey u' b' ty).
Proof.
  intros Hok Hrc Hsc Hu Hb level r.
  pose proof (risk_ne_resource u b) as Hne.
  pose proof (bucket_of_ok u b "risk" now m Hok) as (_ & Hs1 & Hb1).
  pose proof (bucket_of_ok u b "resource" now m Hok) as (_ & Hs2 & Hb2).
  pose proof (BucketStateFacts.Consume_spec rc now _ Hs1 Hb1 Hrc) as E1.
  pose proof (BucketStateFacts.Consume_spec sc now _ Hs2 Hb2 Hsc) as E2.
  pose proof (fun k => CheckAndConsume_lookup u b rc sc now m k) as Hlk.
  cbv zeta in Hlk. rewrite E1, E2 in Hlk.
  fold (level "risk") in Hlk. fold (level "resource") in Hlk. fold r in Hlk.
  repeat split.
  - destruct (Hlk EmptyString) as [-> _]. repeat case_if; done.
  - destruct (Hlk (bucketKey u b "risk")) as [_ ->]. rewrite decide_True by done.
    eexists; split; [done|]. repeat case_if; cbn; unfold level; lia.
  - destruct (Hlk (bucketKey u b "resource")) as [_ ->].
    rewrite decide_False, decide_True by done.
    eexists; split; [done|]. repeat case_if; cbn; unfold level; lia.
  - intros u' b' ty Hu' Hb' Hd. destruct (Hlk (bucketKey u' b' ty)) as [_ ->].
    rewrite !decide_False; [done|..];
      intros Heq; apply bucketKey_inj in Heq as (-> & -> & _); done.
Qed.

Lemma CheckAndConsume_spec_witness :
  let m := NewBucketManager in
  (CheckAndConsume "alice" "slack" 30 150 0 m).1 = (true, false) /\
  exists br, buckets (CheckAndConsume "alice" "slack" 30 150 0 m).2
               !! bucketKey "alice" "slack" "risk" = Some br /\
    BucketState.CurrentLevel br = 70.
Proof.
  pose proof (CheckAndConsume_spec "alice" "slack" 30 150 0 NewBucketManager
    empty_ok ltac:(lia) ltac:(lia) eq_refl eq_refl) as (H1 & H2 & _).
  split; [exact H1 | exact H2].
Defined.
End ManagerTheorems.
