(* ===== verification/RateLimitRace.v ===== *)
(** * Concurrent consumption: the locked and the unlocked bucket

    [ratelimit.go] has two token buckets.  [Bucket.Consume] runs between
    [b.mu.Lock] and [b.mu.Unlock]; [BucketState.Consume], which the manager
    calls, has no mutex of its own, and [BucketManager.CheckAndConsume] calls
    it after the manager's lock was released by [GetOrCreate].  Both bodies
    are run here statement by statement by any number of goroutines: the test
    of the level, the read and the store of [level -= cost] are separate
    steps.  No refill is due during a run: the test of the level reads it and
    leaves it as it is. *)
From S2P Require Import Prelude RateLimit.
From stdpp Require Import relations.
Open Scope Z_scope.

(** Where a goroutine is in the body of [Consume]. *)
Inductive pc :=
| PStart                   (* before Lock (or before the body, without mutex) *)
| PCheck                   (* about to compare the level with the cost *)
| PSub                     (* the comparison held; about to read the level *)
| PStore (v : Z)           (* about to store [v - cost] *)
| PReturn (granted : bool) (* about to run the deferred Unlock *)
| PDone (granted : bool).

Record thread := Thread { cost : Z; at_pc : pc }.

Record shared := Shared {
  level : Z;
  holder : option nat;     (* the goroutine that holds the mutex *)
  threads : list thread
}.

Definition start (l : Z) (costs : list Z) : shared :=
  Shared l None ((fun c => Thread c PStart) <$> costs).

(** One statement of goroutine [i]; [None] when it is blocked or done. *)
Definition consume_stmt (locked : bool) (i : nat) (s : shared) : option shared :=
  match threads s !! i with
  | None => None
  | Some (Thread c p) =>
      let goto p' := <[i := Thread c p']> (threads s) in
      match p with
      | PStart =>
          if locked then
            match holder s with
            | None => Some (Shared (level s) (Some i) (goto PCheck))
            | Some _ => None
            end
          else Some (Shared (level s) (holder s) (goto PCheck))
      | PCheck =>
          Some (Shared (level s) (holder s)
                  (goto (if level s <? c then PReturn false else PSub)))
      | PSub => Some (Shared (level s) (holder s) (goto (PStore (level s))))
      | PStore v => Some (Shared (v - c) (holder s) (goto (PReturn true)))
      | PReturn g =>
          Some (Shared (level s) (if locked then None else holder s) (goto (PDone g)))
      | PDone _ => None
      end
  end.

Definition cstep (locked : bool) (s s' : shared) : Prop :=
  exists i, consume_stmt locked i s = Some s'.

(** Running the goroutines in the order of a schedule. *)
Fixpoint run_schedule (locked : bool) (sched : list nat) (s : shared) : option shared :=
  match sched with
  | [] => Some s
  | i :: sched' =>
      match consume_stmt locked i s with
      | Some s' => run_schedule locked sched' s'
      | None => None
      end
  end.

(** The units granted so far: those whose store has happened. *)
Definition granted_of (t : thread) : Z :=
  match at_pc t with
  | PReturn true | PDone true => cost t
  | _ => 0
  end.
Definition granted (s : shared) : Z := foldr (fun t acc => granted_of t + acc) 0 (threads s).

Definition outside (t : thread) : bool :=
  match at_pc t with PStart | PDone _ => true | _ => false end.

Lemma run_schedule_reach locked sched s s' :
  run_schedule locked sched s = Some s' -> rtc (cstep locked) s s'.
Proof.
  revert s. induction sched as [|i sched IH]; intros s; cbn.
  - intros [= <-]. done.
  - destruct (consume_stmt locked i s) as [s1|] eqn:H; [|done].
    intros Hr. eapply rtc_l; [by exists i | by apply IH].
Qed.

Lemma granted_sum_insert (ts : list thread) i t t' :
  ts !! i = Some t ->
  foldr (fun t acc => granted_of t + acc) 0 (<[i := t']> ts)
    = foldr (fun t acc => granted_of t + acc) 0 ts + granted_of t' - granted_of t.
Proof.
  revert i. induction ts as [|x ts IH]; intros [|i] H; try done; cbn in *.
  - injection H as ->. lia.
  - rewrite IH by done. lia.
Qed.

Section Locked.
(** What the mutex protects: the level accounts for every grant, only the
    holder is inside the body, and what the holder has tested or read is
    still true. *)
Record protected (l : Z) (s : shared) : Prop := {
  p_account : level s + granted s = l;
  p_level : 0 <= level s;
  p_cost : Forall (fun t => 0 <= cost t) (threads s);
  p_mutex : forall i t, threads s !! i = Some t -> outside t = false -> holder s = Some i;
  p_sub : forall i t, threads s !! i = Some t -> at_pc t = PSub -> cost t <= level s;
  p_store : forall i t v, threads s !! i = Some t -> at_pc t = PStore v ->
              v = level s /\ cost t <= level s
}.

Lemma protected_start l costs :
  0 <= l -> Forall (Z.le 0) costs -> protected l (start l costs).
Proof.
  intros Hl Hc.
  assert (Hall : forall i t, threads (start l costs) !! i = Some t ->
            at_pc t = PStart /\ 0 <= cost t).
  { intros i t. cbn. rewrite list_lookup_fmap. intros (c & Hi & ->)%fmap_Some. cbn.
    split; [done|]. exact (Forall_lookup_1 _ _ _ _ Hc Hi). }
  split; cbn -[start].
  - unfold granted, start. cbn [level threads].
    enough (foldr (fun t acc => granted_of t + acc) 0
              ((fun c => Thread c PStart) <$> costs) = 0) by lia.
    clear. induction costs; cbn; [done|]. unfold granted_of at 1; cbn. done.
  - done.
  - apply Forall_lookup. intros i t H. by destruct (Hall i t H).
  - intros i t H. apply Hall in H as [H _]. unfold outside. by rewrite H.
  - intros i t H ?. apply Hall in H as [H _]. congruence.
  - intros i t v H ?. apply Hall in H as [H _]. congruence.
Qed.

(** While one goroutine is inside, the others are outside. *)
Lemma others_outside l s i j t :
  protected l s -> holder s = Some i -> threads s !! j = Some t -> j <> i -> outside t = true.
Proof.
  intros Hp Hh Hj Hne. destruct (outside t) eqn:Ho; [done|].
  pose proof (p_mutex l s Hp j t Hj Ho). congruence.
Qed.

(** The goroutine that moved, and the others, which were outside. *)
Lemma protected_move l s s' i t p' :
  protected l s -> threads s !! i = Some t ->
  threads s' = <[i := Thread (cost t) p']> (threads s) ->
  (forall j t', threads s !! j = Some t' -> j <> i -> outside t' = true) ->
  level s' + granted_of (Thread (cost t) p') = level s + granted_of t ->
  0 <= level s' ->
  (outside (Thread (cost t) p') = false -> holder s' = Some i) ->
  (p' = PSub -> cost t <= level s') ->
  (forall v, p' = PStore v -> v = level s' /\ cost t <= level s') ->
  protected l s'.
Proof.
  intros Hp Hi Ht Hout Hacc Hlev Hmut Hsub Hstore.
  assert (Hcase : forall j u, threads s' !! j = Some u ->
            (j = i /\ u = Thread (cost t) p') \/ (outside u = true)).
  { intros j u. rewrite Ht. intros Hj.
    apply list_lookup_insert_Some in Hj as [(-> & <- & _)|(Hne & Hj)]; eauto. }
  split.
  - pose proof (p_account l s Hp) as Ha. unfold granted in *.
    rewrite Ht, (granted_sum_insert _ _ _ _ Hi). lia.
  - done.
  - rewrite Ht. apply Forall_insert; [apply Hp|]. cbn.
    apply (Forall_lookup_1 _ _ _ _ (p_cost l s Hp) Hi).
  - intros j u Hj Ho. destruct (Hcase j u Hj) as [[-> ->]|?]; [auto | congruence].
  - intros j u Hj Hu. destruct (Hcase j u Hj) as [[-> ->]|Ho]; [auto|].
    unfold outside in Ho. by rewrite Hu in Ho.
  - intros j u v Hj Hu. destruct (Hcase j u Hj) as [[-> ->]|Ho]; [auto|].
    unfold outside in Ho. by rewrite Hu in Ho.
Qed.

Lemma protected_step l s s' : protected l s -> cstep true s s' -> protected l s'.
Proof.
  intros Hp [i Hs]. unfold consume_stmt in Hs.
  destruct (threads s !! i) as [[c p]|] eqn:Hi; [|done].
  assert (Hfree : holder s = None -> forall j t', threads s !! j = Some t' -> outside t' = true).
  { intros Hn j t' Hj. destruct (outside t') eqn:Ho; [done|].
    pose proof (p_mutex l s Hp j t' Hj Ho). congruence. }
  assert (Hin : outside (Thread c p) = false -> holder s = Some i)
    by exact (p_mutex l s Hp i _ Hi).
  assert (Hoth : outside (Thread c p) = false ->
            forall j t', threads s !! j = Some t' -> j <> i -> outside t' = true).
  { intros Ho j t' Hj Hne. by apply (others_outside l s i j t'); auto. }
  pose proof (p_level l s Hp) as Hlev.
  pose proof (p_sub l s Hp i _ Hi) as Hsub. pose proof (fun v => p_store l s Hp i _ v Hi) as Hsto.
  destruct p; cbn in Hs, Hin, Hoth, Hsub.
  - destruct (holder s) eqn:Hh; [done|]. injection Hs as <-.
    eapply (protected_move l s _ i _ PCheck); eauto; done.
  - injection Hs as <-.
    eapply (protected_move l s _ i _ (if level s <? c then PReturn false else PSub));
      eauto; destruct (level s <? c) eqn:Hc; bool_to_prop; cbn; auto; try done; lia.
  - injection Hs as <-.
    eapply (protected_move l s _ i _ (PStore (level s))); eauto; cbn; try done.
    intros v [= <-]. auto.
  - injection Hs as <-. destruct (Hsto v eq_refl) as [-> ?]; cbn in *.
    eapply (protected_move l s _ i _ (PReturn true)); eauto; cbn; try done; lia.
  - injection Hs as <-.
    eapply (protected_move l s _ i _ (PDone granted0)); eauto; cbn; done.
  - done.
Qed.

Lemma protected_reach l s s' : protected l s -> rtc (cstep true) s s' -> protected l s'.
Proof. intros Hp Hr. induction Hr; eauto using protected_step. Qed.

(** However the scheduler interleaves the statements of any number of
    goroutines calling [Bucket.Consume], the mutex keeps the bucket exact:
    the level never drops below zero, and at every moment the level plus
    everything granted is the initial level, so no more than the initial
    level is ever granted. *)
Theorem locked_consume_exact l costs s :
  0 <= l -> Forall (Z.le 0) costs ->
  rtc (cstep true) (start l costs) s ->
  0 <= level s /\ level s + granted s = l /\ granted s <= l.
Proof.
  intros Hl Hc Hr. pose proof (protected_reach l _ _ (protected_start l costs Hl Hc) Hr) as Hp.
  pose proof (p_account l s Hp). pose proof (p_level l s Hp). lia.
Qed.

Lemma locked_consume_exact_witness :
  exists s, run_schedule true [0;0;0;0;0;1;1;1]%nat (start 10 [7; 7]) = Some s /\
    granted s = 7 /\ 0 <= level s /\ level s + granted s = 10 /\ granted s <= 10.
Proof.
  eexists. split; [vm_compute; reflexivity|]. split; [vm_compute; reflexivity|].
  apply (locked_consume_exact 10 [7; 7]).
  - lia.
  - repeat constructor; lia.
  - apply (run_schedule_reach true [0;0;0;0;0;1;1;1]%nat). vm_compute. reflexivity.
Defined.
End Locked.

Section Unlocked.
Lemma lookup_replicate_mid {A} (x y : A) k n :
  (k < n)%nat -> (replicate k x ++ replicate (n - k) y) !! k = Some y.
Proof.
  intros. rewrite lookup_app_r by (rewrite length_replicate; lia).
  rewrite length_replicate. apply lookup_replicate_2. lia.
Qed.

Lemma insert_replicate_mid {A} (x y z : A) k n :
  (k < n)%nat ->
  <[k := z]> (replicate k x ++ replicate (n - k) y)
    = replicate k x ++ z :: replicate (n - S k) y.
Proof.
  intros. rewrite insert_app_r_alt by (rewrite length_replicate; lia).
  rewrite length_replicate. replace (n - k)%nat with (S (n - S k)) by lia.
  by rewrite Nat.sub_diag.
Qed.

Lemma replicate_snoc {A} (x : A) k l :
  replicate k x ++ x :: l = replicate (S k) x ++ l.
Proof. induction k as [|k IH]; cbn; [done|]. by rewrite IH. Qed.

(** Goroutine [k] runs [p] to [q] without any other moving. *)
Lemma unlocked_phase (P : nat -> Z) (x y : pc) c n :
  (forall k, (k < n)%nat ->
     rtc (cstep false)
       (Shared (P k) None (replicate k (Thread c x) ++ replicate (n - k) (Thread c y)))
       (Shared (P (S k)) None
          (<[k := Thread c x]>
             (replicate k (Thread c x) ++ replicate (n - k) (Thread c y))))) ->
  rtc (cstep false) (Shared (P 0%nat) None (replicate n (Thread c y)))
                    (Shared (P n) None (replicate n (Thread c x))).
Proof.
  intros Hstep.
  assert (H : forall k, (k <= n)%nat ->
            rtc (cstep false) (Shared (P 0%nat) None (replicate n (Thread c y)))
              (Shared (P k) None (replicate k (Thread c x) ++ replicate (n - k) (Thread c y)))).
  { induction k as [|k IH]; intros Hk; cbn.
    - rewrite Nat.sub_0_r. done.
    - eapply transitivity; [apply IH; lia|].
      pose proof (Hstep k ltac:(lia)) as Hs.
      rewrite insert_replicate_mid, replicate_snoc in Hs by lia. exact Hs. }
  specialize (H n ltac:(lia)). by rewrite Nat.sub_diag, app_nil_r in H.
Qed.

Ltac stmt i Hi :=
  eapply rtc_l; [exists i; unfold consume_stmt; cbn [threads level holder];
                 rewrite Hi; reflexivity |];
  cbn [threads level holder].

Lemma unlocked_all_checked l c n :
  c <= l ->
  rtc (cstep false) (start l (replicate n c)) (Shared l None (replicate n (Thread c PSub))).
Proof.
  intros Hc. unfold start. rewrite fmap_replicate.
  apply (unlocked_phase (fun _ => l)). intros k Hk.
  pose proof (lookup_replicate_mid (Thread c PSub) (Thread c PStart) k n Hk) as Hi.
  stmt k Hi.
  set (ts := _ ++ _) in *.
  assert (Hlen : (k < length ts)%nat) by (apply lookup_lt_is_Some_1; eauto).
  assert (Hi2 : <[k := Thread c PCheck]> ts !! k = Some (Thread c PCheck))
    by (by apply list_lookup_insert_eq).
  stmt k Hi2. rewrite (proj2 (Z.ltb_ge l c)) by lia.
  by rewrite list_insert_insert_eq.
Qed.

Lemma unlocked_all_stored l c n :
  rtc (cstep false) (Shared l None (replicate n (Thread c PSub)))
    (Shared (l - Z.of_nat n * c) None (replicate n (Thread c (PDone true)))).
Proof.
  replace l with (l - Z.of_nat 0 * c) at 1 by lia.
  apply (unlocked_phase (fun k => l - Z.of_nat k * c)). intros k Hk.
  pose proof (lookup_replicate_mid (Thread c (PDone true)) (Thread c PSub) k n Hk) as Hi.
  set (ts := _ ++ _) in *.
  assert (Hlen : (k < length ts)%nat) by (apply lookup_lt_is_Some_1; eauto).
  assert (Hins : forall p, <[k := Thread c p]> ts !! k = Some (Thread c p))
    by (intros; by apply list_lookup_insert_eq).
  stmt k Hi. stmt k (Hins (PStore (l - Z.of_nat k * c))). rewrite list_insert_insert_eq.
  stmt k (Hins (PReturn true)). rewrite list_insert_insert_eq.
  replace (l - Z.of_nat k * c - c) with (l - Z.of_nat (S k) * c) by lia. done.
Qed.

(** Without the mutex, as in [BucketState.Consume] called by the
    manager, any number of goroutines whose cost the bucket covers can all
    be granted: there is an interleaving in which every call returns true
    and the level ends at the initial level less the sum of all the costs,
    below zero as soon as the sum exceeds it. *)
Theorem unlocked_consume_overdraws l c n :
  c <= l ->
  exists s, rtc (cstep false) (start l (replicate n c)) s /\
    Forall (fun t => at_pc t = PDone true) (threads s) /\
    granted s = Z.of_nat n * c /\ level s = l - Z.of_nat n * c.
Proof.
  intros Hc. eexists. split; [|split; [|split]].
  - eapply transitivity; [by apply unlocked_all_checked | apply unlocked_all_stored].
  - cbn. by apply Forall_replicate.
  - unfold granted; cbn [threads]. clear. induction n; cbn [replicate foldr]; [lia|].
    rewrite IHn. unfold granted_of; cbn [at_pc cost]. lia.
  - done.
Qed.

Lemma unlocked_consume_overdraws_witness :
  exists s, rtc (cstep false) (start 10 [10; 10; 10]) s /\
    Forall (fun t => at_pc t = PDone true) (threads s) /\ granted s = 30 /\ level s = -20.
Proof. apply (unlocked_consume_overdraws 10 10 3). lia. Defined.
End Unlocked.
