(* ===== verification/EnforcerTypes.v ===== *)
(** * The enforcer's data: [src/enforcer/types.go]

    The records that travel between the resolver, the policy engine and the
    enforcer, the action registries, the default configuration and the
    description decorator.  [Action], [RiskLevel] and the like are string types
    in the source, which are also read from the database and from backends, so
    they are strings here, with the named constants. *)
From S2P Require Import Prelude.
From stdpp Require Export pretty.
Open Scope Z_scope.

(** ** JSON values

    What [encoding/json] decodes into an [interface]: a number is a [float64],
    the mantissa times a power of two.  Object keys are unique. *)
Inductive json :=
| JNull
| JBool (b : bool)
| JNum (mant exp : Z)
| JStr (s : string)
| JArr (l : list json)
| JObj (fields : list (string * json)).

Definition field (fields : list (string * json)) (key : string) : option json :=
  match list_find (fun kv => kv.1 = key) fields with
  | Some (_, (_, v)) => Some v
  | None => None
  end.

(** The type assertions [v.(string)], [v.(bool)], [v.(map[string]interface)]. *)
Definition as_string (v : option json) : option string :=
  match v with Some (JStr s) => Some s | _ => None end.
Definition as_bool (v : option json) : option bool :=
  match v with Some (JBool b) => Some b | _ => None end.
Definition as_object (v : option json) : option (list (string * json)) :=
  match v with Some (JObj o) => Some o | _ => None end.

(** [int(v)] of a [float64]: towards zero.  Out of range the result is left to
    the implementation; amd64 gives the least integer. *)
Definition float_to_int (mant exp : Z) : Z :=
  let z := if 0 <=? exp then mant * 2 ^ exp else Z.quot mant (2 ^ (- exp)) in
  if decide (int64 z) then z else MinInt64.

(** [v.(float64)] followed by [int]. *)
Definition as_float_int (v : option json) : option Z :=
  match v with Some (JNum m e) => Some (float_to_int m e) | _ => None end.

(** ** Constants *)

Abbreviation MatchContext := string (only parsing).
Abbreviation Action := string (only parsing).
Abbreviation SeverityLevel := string (only parsing).
Abbreviation ImpactScope := string (only parsing).
Abbreviation RiskLevel := string (only parsing).

Definition MatchContextPolicyHit : MatchContext := "policy_hit".
Definition MatchContextRiskLimit : MatchContext := "risk_limit".
Definition MatchContextResourceLimit : MatchContext := "resource_limit".

Definition ActionAllow : Action := "ALLOW".
Definition ActionDeny : Action := "DENY".
Definition ActionWarn : Action := "WARN".
Definition ActionPendingApproval : Action := "PENDING_APPROVAL".
Definition ActionPendingUserApproval : Action := "PENDING_USER_APPROVAL".
Definition ActionPendingAdminApproval : Action := "PENDING_ADMIN_APPROVAL".

Definition SeverityCritical : SeverityLevel := "CRITICAL".
Definition SeverityHigh : SeverityLevel := "HIGH".
Definition SeverityMedium : SeverityLevel := "MEDIUM".
Definition SeverityLow : SeverityLevel := "LOW".

Definition ImpactRead : ImpactScope := "read".
Definition ImpactWrite : ImpactScope := "write".
Definition ImpactDelete : ImpactScope := "delete".
Definition ImpactAdmin : ImpactScope := "admin".

Definition RiskLow : RiskLevel := "low".
Definition RiskMedium : RiskLevel := "medium".
Definition RiskHigh : RiskLevel := "high".
Definition RiskCritical : RiskLevel := "critical".

(** ** Records *)

(** The field [Metadata] is never written or read. *)
Module SafetyProfile.
Record t := mk {
  ToolName : string;
  BackendID : string;
  BackendName : string;
  Risk : RiskLevel;
  Impact : ImpactScope;
  Cost : Z;
  RequiresHITL : bool;
  PIIExposure : bool;
  Idempotent : bool;
  Source : string
}.
(** The zero value. *)
Definition zero : t :=
  mk EmptyString EmptyString EmptyString EmptyString EmptyString 0 false false false EmptyString.

Definition with_identity (tool backend source : string) (p : t) : t :=
  mk tool backend (BackendName p) (Risk p) (Impact p) (Cost p) (RequiresHITL p)
     (PIIExposure p) (Idempotent p) source.

(** [%v] of a bool. *)
Definition show_bool (b : bool) : string := if b then "true" else "false".

(** The [String] method. *)
Definition show (p : t) : string :=
  "SafetyProfile{tool=" +:+ ToolName p +:+ ", risk=" +:+ Risk p +:+ ", impact=" +:+
  Impact p +:+ ", cost=" +:+ pretty (Cost p) +:+ ", hitl=" +:+
  show_bool (RequiresHITL p) +:+ "}".
End SafetyProfile.

Module EnforcerDecision.
Record t := mk {
  act : Action;          (* the field Action *)
  Severity : SeverityLevel;
  Message : string;
  PolicyID : string;
  Violations : list string;
  Timestamp : option Time; (* None: the zero time *)
  Priority : Z;
  ApprovalID : string;
  MatchCtx : MatchContext (* the field MatchContext *)
}.
Definition zero : t :=
  mk EmptyString EmptyString EmptyString EmptyString [] None 0 EmptyString EmptyString.

(** A literal that sets Action, Severity, Message and PolicyID. *)
Definition of_gate (a : Action) (sev : SeverityLevel) (msg policyID : string) : t :=
  mk a sev msg policyID [] None 0 EmptyString EmptyString.

Definition with_action (a : Action) (d : t) : t :=
  mk a (Severity d) (Message d) (PolicyID d) (Violations d) (Timestamp d) (Priority d)
     (ApprovalID d) (MatchCtx d).
Definition add_violation (v : string) (d : t) : t :=
  mk (act d) (Severity d) (Message d) (PolicyID d) (Violations d ++ [v]) (Timestamp d)
     (Priority d) (ApprovalID d) (MatchCtx d).
End EnforcerDecision.

Module BucketStatus.
Record t := mk { Available : Z; Capacity : Z; RefillRate : Z }.
End BucketStatus.

Module RateLimitInfo.
Record t := mk { RiskBucket : BucketStatus.t; ResourceBucket : BucketStatus.t }.
Definition zero : t := mk (BucketStatus.mk 0 0 0) (BucketStatus.mk 0 0 0).
End RateLimitInfo.

Definition NewRateLimitInfo
    (riskAvailable riskCapacity riskRefill resourceAvailable resourceCapacity resourceRefill : Z) :
    RateLimitInfo.t :=
  RateLimitInfo.mk (BucketStatus.mk riskAvailable riskCapacity riskRefill)
                   (BucketStatus.mk resourceAvailable resourceCapacity resourceRefill).

Module DecisionContext.
Record t := mk {
  UserID : string;
  UserRole : string;
  UserEmail : string;
  TrustLevel : Z;
  Tool : string;
  Args : list (string * json);
  Justification : string;
  Safety : SafetyProfile.t;
  CallRate : Z;
  BackendID : string;
  BackendType : string;
  RateLimit : RateLimitInfo.t;
  RequestBody : string
}.
End DecisionContext.

Module CELPolicy.
Record t := mk {
  ID : string;
  Description : string;
  Expression : string;
  act : Action;          (* the field Action *)
  Message : string;
  Severity : SeverityLevel;
  Enabled : bool;
  Priority : Z;
  Dispositions : option (gmap MatchContext Action)  (* None: nil *)
}.
End CELPolicy.

(** ** Configuration *)

Module EnforcerConfig.
Record t := mk {
  Enabled : bool;
  DefaultAction : Action;
  PolicyFile : string;
  ApprovalTimeout : Duration;
  AdminApprovalTimeout : Duration;
  UserApprovalTimeout : Duration;
  CleanupInterval : Duration;
  RetentionPeriod : Duration;
  EnableDescriptionDecoration : bool;
  EnableKillSwitch : bool;
  MinJustificationLength : Z;
  RateWindowDuration : Duration;
  RateDefaultThreshold : Z;
  InferredCostMultiplier : Z
}.

Definition with_InferredCostMultiplier (m : Z) (c : t) : t :=
  mk (Enabled c) (DefaultAction c) (PolicyFile c) (ApprovalTimeout c)
     (AdminApprovalTimeout c) (UserApprovalTimeout c) (CleanupInterval c) (RetentionPeriod c)
     (EnableDescriptionDecoration c) (EnableKillSwitch c) (MinJustificationLength c)
     (RateWindowDuration c) (RateDefaultThreshold c) m.
End EnforcerConfig.

Definition DefaultEnforcerConfig : EnforcerConfig.t :=
  EnforcerConfig.mk true ActionAllow EmptyString (24 * Hour) 0 (10 * Minute) (1 * Minute)
    (7 * 24 * Hour) true true 40 (60 * Second) 10 0.

(** [CallOptions.SkipJustification] is its only field. *)
Record CallOptions := { SkipJustification : bool }.

(** ** Action registries *)

Module Registries.
Record t := mk {
  adminApprovalActions : gmap Action bool;
  userApprovalActions : gmap Action bool;
  approvalActions : gmap Action bool;
  warningActions : gmap Action bool;
  denyActions : gmap Action bool
}.

Definition empty : t := mk ∅ ∅ ∅ ∅ ∅.

Definition RegisterAdminApprovalAction (a : Action) (r : t) : t :=
  mk (<[a := true]> (adminApprovalActions r)) (userApprovalActions r)
     (<[a := true]> (approvalActions r)) (warningActions r) (denyActions r).
Definition RegisterUserApprovalAction (a : Action) (r : t) : t :=
  mk (adminApprovalActions r) (<[a := true]> (userApprovalActions r))
     (<[a := true]> (approvalActions r)) (warningActions r) (denyActions r).
Definition RegisterDenyAction (a : Action) (r : t) : t :=
  mk (adminApprovalActions r) (userApprovalActions r) (approvalActions r)
     (warningActions r) (<[a := true]> (denyActions r)).
Definition RegisterWarningAction (a : Action) (r : t) : t :=
  mk (adminApprovalActions r) (userApprovalActions r) (approvalActions r)
     (<[a := true]> (warningActions r)) (denyActions r).

(** The state [init] leaves; nothing else registers actions. *)
Definition init : t :=
  RegisterWarningAction ActionWarn
    (RegisterDenyAction ActionDeny
       (RegisterUserApprovalAction ActionPendingUserApproval
          (RegisterAdminApprovalAction ActionPendingAdminApproval
             (RegisterAdminApprovalAction ActionPendingApproval empty)))).
End Registries.

Definition IsDenyAction (a : Action) : bool :=
  default false (Registries.denyActions Registries.init !! a).
Definition RequiresApproval (a : Action) : bool :=
  default false (Registries.approvalActions Registries.init !! a).
Definition RequiresUserApproval (a : Action) : bool :=
  default false (Registries.userApprovalActions Registries.init !! a).
Definition RequiresAdminApproval (a : Action) : bool :=
  default false (Registries.adminApprovalActions Registries.init !! a).
Definition RequiresWarning (a : Action) : bool :=
  default false (Registries.warningActions Registries.init !! a).

(** ** Decoration of descriptions *)

Definition Decorate (description : string) (profile : SafetyProfile.t) : string :=
  let prefix := "[POLICY: " +:+ to_upper (SafetyProfile.Impact profile) +:+ " | RISK: " +:+
                to_upper (SafetyProfile.Risk profile) +:+ "]" in
  let prefix := if SafetyProfile.RequiresHITL profile
                then prefix +:+ " [REQUIRES HUMAN APPROVAL]" else prefix in
  prefix +:+ " " +:+ description.

Definition DecorateWithDecision (description : string) (d : EnforcerDecision.t) : string :=
  if bool_decide (EnforcerDecision.act d = ActionWarn)
  then "[WARNING: " +:+ EnforcerDecision.Severity d +:+ "] " +:+ description +:+ " - " +:+
       EnforcerDecision.Message d
  else description.

(** * Properties *)

(** Deciding a registry query on a variable action. *)
Lemma registry_query (m : gmap string bool) (a : string) :
  default false (m !! a) = bool_decide (m !! a = Some true).
Proof. destruct (m !! a) as [[]|]; by case_bool_decide. Qed.

Lemma IsDenyAction_spec a : IsDenyAction a = true <-> a = ActionDeny.
Proof.
  unfold IsDenyAction. rewrite registry_query, bool_decide_eq_true.
  cbn. rewrite lookup_insert_Some, lookup_empty. naive_solver.
Qed.

Lemma RequiresUserApproval_spec a :
  RequiresUserApproval a = true <-> a = ActionPendingUserApproval.
Proof.
  unfold RequiresUserApproval. rewrite registry_query, bool_decide_eq_true.
  cbn. rewrite lookup_insert_Some, lookup_empty. naive_solver.
Qed.

Lemma RequiresAdminApproval_spec a :
  RequiresAdminApproval a = true <->
  a = ActionPendingApproval \/ a = ActionPendingAdminApproval.
Proof.
  unfold RequiresAdminApproval. rewrite registry_query, bool_decide_eq_true.
  cbn. rewrite !lookup_insert_Some, lookup_empty. split; [naive_solver|].
  intros [->| ->]; [right; split; [done | by left] | by left].
Qed.

Lemma RequiresApproval_spec a :
  RequiresApproval a = true <->
  a = ActionPendingApproval \/ a = ActionPendingAdminApproval \/ a = ActionPendingUserApproval.
Proof.
  unfold RequiresApproval. rewrite registry_query, bool_decide_eq_true.
  cbn. rewrite !lookup_insert_Some, lookup_empty. split; [naive_solver|].
  intros [->|[->| ->]]; [| |by left]; right; (split; [done|]); [right; split; [done|]|]; by left.
Qed.

Lemma RequiresWarning_spec a : RequiresWarning a = true <-> a = ActionWarn.
Proof.
  unfold RequiresWarning. rewrite registry_query, bool_decide_eq_true.
  cbn. rewrite lookup_insert_Some, lookup_empty. naive_solver.
Qed.

(** The registries classify every action string consistently: an action is
    a denial, a warning, a user approval or an admin approval, never two of
    them, approval is exactly user or admin approval, and only the five named
    actions other than ALLOW are classified at all. *)
Theorem action_classes a :
  (RequiresApproval a = RequiresUserApproval a || RequiresAdminApproval a) /\
  (RequiresUserApproval a && RequiresAdminApproval a = false) /\
  (IsDenyAction a && (RequiresApproval a || RequiresWarning a) = false) /\
  (RequiresWarning a && RequiresApproval a = false) /\
  (IsDenyAction a || RequiresApproval a || RequiresWarning a = true <->
     a ∈ [ActionDeny; ActionWarn; ActionPendingApproval; ActionPendingUserApproval;
          ActionPendingAdminApproval]).
Proof.
  destruct (decide (a ∈ [ActionDeny; ActionWarn; ActionPendingApproval;
    ActionPendingUserApproval; ActionPendingAdminApproval])) as [Hin|Hout].
  - rewrite !elem_of_cons, elem_of_nil in Hin.
    destruct Hin as [->|[->|[->|[->|[->|[]]]]]]; vm_compute; intuition set_solver.
  - assert (IsDenyAction a = false /\ RequiresUserApproval a = false /\
            RequiresAdminApproval a = false /\ RequiresApproval a = false /\
            RequiresWarning a = false) as (-> & -> & -> & -> & ->).
    { rewrite <- !not_true_iff_false, IsDenyAction_spec, RequiresUserApproval_spec,
        RequiresAdminApproval_spec, RequiresApproval_spec, RequiresWarning_spec. set_solver. }
    cbn. split_and!; try done.
Qed.
