(* ===== verification/Heuristics.v ===== *)
(** * Inferring safety profiles from tool names: [src/enforcer/heuristics.go]

    The token matcher [containsWordOrPrefix], the table of classification
    rules, and [HeuristicProfile], the fallback profile of every tool that does
    not report one. *)
From S2P Require Import Prelude EnforcerTypes.
Open Scope Z_scope.

Definition PromoteRisk (current : RiskLevel) : RiskLevel :=
  if bool_decide (current = RiskLow) then RiskMedium
  else if bool_decide (current = RiskMedium) then RiskHigh
  else if bool_decide (current = RiskHigh) then RiskCritical
  else RiskCritical.

Record heuristicRule := {
  patterns : list string;
  risk : RiskLevel;
  impact : ImpactScope;
  idempotent : bool;
  requiresHITL : bool;
  cost : Z
}.

Definition classificationRules : list heuristicRule := [
  (* Priority 1: critical destructive *)
  {| patterns := ["delete_all"; "purge"; "drop_database"; "drop_table"; "wipe";
       "terminate_cluster"; "decommission"; "factory_reset"; "hard_delete"];
     risk := RiskCritical; impact := ImpactDelete; idempotent := false;
     requiresHITL := true; cost := 20 |};
  (* Priority 2: high destructive *)
  {| patterns := ["delete"; "remove"; "destroy"; "revoke"; "deactivate"; "disable"; "ban";
       "block"; "archive"; "unsubscribe"; "cancel"; "terminate"; "kill"; "stop_service";
       "deprovision"; "offboard"];
     risk := RiskHigh; impact := ImpactDelete; idempotent := false;
     requiresHITL := false; cost := 10 |};
  (* Priority 3: high auth/access *)
  {| patterns := ["grant"; "assign_role"; "elevate"; "promote"; "impersonate"; "sudo";
       "reset_password"; "rotate_key"; "generate_token"; "create_api_key"; "set_permission"];
     risk := RiskHigh; impact := ImpactAdmin; idempotent := false;
     requiresHITL := false; cost := 10 |};
  (* Priority 4: high financial *)
  {| patterns := ["charge"; "invoice"; "refund"; "transfer"; "withdraw"; "purchase"; "pay";
       "billing"; "subscribe"; "checkout"];
     risk := RiskHigh; impact := ImpactAdmin; idempotent := false;
     requiresHITL := true; cost := 10 |};
  (* Priority 5: medium write *)
  {| patterns := ["create"; "add"; "insert"; "write"; "post"; "publish"; "send"; "submit";
       "upload"; "import"; "deploy"; "provision"; "onboard"; "register"; "invite"; "put"];
     risk := RiskMedium; impact := ImpactWrite; idempotent := false;
     requiresHITL := false; cost := 5 |};
  (* Priority 6: medium update *)
  {| patterns := ["update"; "edit"; "modify"; "patch"; "set"; "change"; "rename"; "move";
       "migrate"; "replace"; "upsert"; "merge"];
     risk := RiskMedium; impact := ImpactWrite; idempotent := false;
     requiresHITL := false; cost := 5 |};
  (* Priority 7: medium trigger *)
  {| patterns := ["run"; "execute"; "trigger"; "start"; "launch"; "fire"; "invoke"; "call";
       "process"; "enqueue"; "schedule"];
     risk := RiskMedium; impact := ImpactWrite; idempotent := false;
     requiresHITL := false; cost := 7 |};
  (* Priority 8: low read *)
  {| patterns := ["get"; "fetch"; "read"; "list"; "search"; "find"; "query"; "lookup";
       "retrieve"; "describe"; "explain"; "show"; "view"; "inspect"; "check"; "status";
       "health"; "ping"; "count"; "summarize"; "report"; "export"; "download"];
     risk := RiskLow; impact := ImpactRead; idempotent := true;
     requiresHITL := false; cost := 1 |}
].

Definition piiSchemaPatterns : list string := [
  "email"; "phone"; "mobile"; "address"; "postcode"; "zip"; "ssn";
  "national_id"; "passport"; "dob"; "birth";
  "credit_card"; "card_number"; "iban"; "bank_account"; "salary"; "income"; "tax";
  "password"; "secret"; "token"; "api_key"; "access_key"; "private_key"].

Definition piiDescriptionSignals : list string := [
  "personal data"; "pii"; "gdpr"; "email address"; "phone number";
  "credit card"; "social security"; "passport"; "date of birth"].

Definition irreversibilitySignals : list string := [
  "permanent"; "irreversible"; "cannot be undone"; "cannot be recovered";
  "destroy"; "wipe"; "purge"; "terminates all"; "drops all"; "truncates";
  "hard delete"; "force delete"].

Definition bulkSignals : list string := [
  "bulk"; "batch"; "all records"; "entire"; "mass "; "fleet";
  "all users"; "all items"; "all tickets"; "all issues"].

(** The two boundary tests for an occurrence of a pattern at [idx]. *)
Definition boundaries_ok (s pat : string) (idx : nat) : bool :=
  let end_ := (idx + String.length pat)%nat in
  ((idx =? 0)%nat || byte_at s (idx - 1) "_") &&
  ((end_ =? String.length s)%nat || byte_at s end_ "_").

(** The loop from the occurrence at [idx]; every iteration advances [idx], so
    [length s] iterations are enough for a pattern that is not empty. *)
Fixpoint token_loop (fuel : nat) (s pat : string) (idx : nat) : bool :=
  match fuel with
  | O => false
  | S fuel' =>
      if boundaries_ok s pat idx then true
      else match str_index (str_drop (idx + 1) s) pat with
           | None => false
           | Some next => token_loop fuel' s pat (idx + 1 + next)
           end
  end.

Definition containsWordOrPrefix (s pat : string) : bool :=
  match str_index s pat with
  | None => false
  | Some idx => token_loop (String.length s) s pat idx
  end.

(** The first rule one of whose patterns the name contains. *)
Fixpoint match_rule (lower : string) (rules : list heuristicRule) : option heuristicRule :=
  match rules with
  | [] => None
  | rule :: rules' =>
      if existsb (containsWordOrPrefix lower) (patterns rule) then Some rule
      else match_rule lower rules'
  end.

Definition pii_exposed (inputSchema : list (string * json)) (description : string) : bool :=
  let piiExposure :=
    existsb (fun kv => existsb (contains (to_lower kv.1)) piiSchemaPatterns) inputSchema in
  if negb piiExposure && bool_decide (description <> EmptyString)
  then existsb (contains (to_lower description)) piiDescriptionSignals
  else piiExposure.

Definition irreversible (description : string) : bool :=
  bool_decide (description <> EmptyString) &&
  existsb (contains (to_lower description)) irreversibilitySignals.

Definition bulk (toolName description : string) : bool :=
  existsb (fun sig => containsWordOrPrefix (to_lower toolName) sig ||
             (bool_decide (description <> EmptyString) && contains (to_lower description) sig))
    bulkSignals.

Definition base_profile (toolName : string) : SafetyProfile.t :=
  match match_rule (to_lower toolName) classificationRules with
  | Some m =>
      SafetyProfile.mk EmptyString EmptyString EmptyString (risk m) (impact m) (cost m)
        (requiresHITL m) false (idempotent m) "inferred"
  | None =>
      SafetyProfile.mk EmptyString EmptyString EmptyString RiskHigh ImpactDelete 10
        true false false "inferred"
  end.

Definition promote_irreversible (p : SafetyProfile.t) : SafetyProfile.t :=
  SafetyProfile.mk (SafetyProfile.ToolName p) (SafetyProfile.BackendID p)
    (SafetyProfile.BackendName p) (PromoteRisk (SafetyProfile.Risk p)) (SafetyProfile.Impact p)
    (SafetyProfile.Cost p) true (SafetyProfile.PIIExposure p) false (SafetyProfile.Source p).

Definition promote_bulk (p : SafetyProfile.t) : SafetyProfile.t :=
  SafetyProfile.mk (SafetyProfile.ToolName p) (SafetyProfile.BackendID p)
    (SafetyProfile.BackendName p) (PromoteRisk (SafetyProfile.Risk p)) (SafetyProfile.Impact p)
    (SafetyProfile.Cost p * 3) true (SafetyProfile.PIIExposure p) (SafetyProfile.Idempotent p)
    (SafetyProfile.Source p).

Definition mark_pii (pii : bool) (p : SafetyProfile.t) : SafetyProfile.t :=
  SafetyProfile.mk (SafetyProfile.ToolName p) (SafetyProfile.BackendID p)
    (SafetyProfile.BackendName p)
    (if pii && bool_decide (SafetyProfile.Risk p = RiskLow) then RiskMedium
     else SafetyProfile.Risk p)
    (SafetyProfile.Impact p) (SafetyProfile.Cost p) (SafetyProfile.RequiresHITL p) pii
    (SafetyProfile.Idempotent p) (SafetyProfile.Source p).

(** A nil schema is the empty list. *)
Definition HeuristicProfile (toolName description : string) (inputSchema : list (string * json)) :
    SafetyProfile.t :=
  let p := base_profile toolName in
  let p := if irreversible description then promote_irreversible p else p in
  let p := if bulk toolName description then promote_bulk p else p in
  mark_pii (pii_exposed inputSchema description) p.

(** * Properties *)

(** ** The token matcher *)

Definition occurs_at (s pat : string) (j : nat) : Prop := has_prefix (str_drop j s) pat = true.

Lemma str_index_first s p i :
  str_index s p = Some i ->
  occurs_at s p i /\ forall j, (j < i)%nat -> ~ occurs_at s p j.
Proof.
  unfold occurs_at. revert i. induction s as [|c s IH]; intros i; simpl.
  - destruct p; [|done]. intros [= <-]. split; [done | lia].
  - destruct (has_prefix (String c s) p) eqn:Hp.
    + intros [= <-]. split; [done | lia].
    + destruct (str_index s p) as [k|]; [|done]. intros [= <-].
      destruct (IH k eq_refl) as [Hk Hbefore]. split; [done|].
      intros [|j] Hj; simpl; [congruence|]. apply Hbefore. lia.
Qed.

Lemma str_index_nowhere s p : str_index s p = None -> forall j, ~ occurs_at s p j.
Proof.
  unfold occurs_at. induction s as [|c s IH]; simpl.
  - destruct p; [done|]. intros _ j. by destruct j.
  - destruct (has_prefix (String c s) p) eqn:Hp; [done|].
    destruct (str_index s p) eqn:Hi; [done|].
    intros _ [|j]; simpl; [congruence | by apply IH].
Qed.

Lemma str_drop_add a b s : str_drop a (str_drop b s) = str_drop (b + a) s.
Proof.
  revert s. induction b as [|b IH]; intros [|c s]; simpl; try done. by destruct a.
Qed.

Lemma occurs_bound s p j : occurs_at s p j -> p <> EmptyString -> (j < String.length s)%nat.
Proof.
  unfold occurs_at. revert j. induction s as [|c s IH]; intros j H Hp; simpl in *.
  - destruct j, p; done.
  - destruct j as [|j]; [lia|]. pose proof (IH j H Hp). lia.
Qed.

(** The pattern stands as a whole token, delimited by underscores or the ends
    of the string. *)
Definition token_at (s pat : string) (j : nat) : Prop :=
  occurs_at s pat j /\ boundaries_ok s pat j = true.

Lemma token_loop_spec fuel s pat idx :
  pat <> EmptyString -> occurs_at s pat idx -> (String.length s <= idx + fuel)%nat ->
  (forall j, (j < idx)%nat -> ~ token_at s pat j) ->
  token_loop fuel s pat idx = true <-> exists j, token_at s pat j.
Proof.
  intros Hpat. revert idx. induction fuel as [|fuel IH]; intros idx Hocc Hfuel Hbefore; simpl.
  { pose proof (occurs_bound _ _ _ Hocc Hpat). lia. }
  destruct (boundaries_ok s pat idx) eqn:Hok.
  { split; [|done]. intros _. by exists idx. }
  assert (Hhere : forall j, (j < idx + 1)%nat -> ~ token_at s pat j).
  { intros j Hj [Ho Hb]. destruct (decide (j = idx)) as [->|]; [congruence|].
    apply (Hbefore j); [lia | done]. }
  destruct (str_index (str_drop (idx + 1) s) pat) as [next|] eqn:Hnext.
  - apply str_index_first in Hnext as [Hn Hskip]. unfold occurs_at in Hn, Hskip.
    rewrite str_drop_add in Hn. apply IH; [done | lia |].
    intros j Hj [Ho Hb]. destruct (decide (j < idx + 1)%nat); [by apply (Hhere j)|].
    apply (Hskip (j - (idx + 1))%nat); [lia|].
    rewrite str_drop_add. replace (idx + 1 + (j - (idx + 1)))%nat with j by lia. done.
  - split; [done|]. intros (j & Ho & Hb).
    destruct (decide (j < idx + 1)%nat); [by destruct (Hhere j)|].
    destruct (str_index_nowhere _ _ Hnext (j - (idx + 1))%nat).
    unfold occurs_at. rewrite str_drop_add.
    by replace (idx + 1 + (j - (idx + 1)))%nat with j by lia.
Qed.

Lemma containsWordOrPrefix_token_at s pat :
  pat <> EmptyString -> containsWordOrPrefix s pat = true <-> exists j, token_at s pat j.
Proof.
  intros Hpat. unfold containsWordOrPrefix. destruct (str_index s pat) as [idx|] eqn:Hi.
  - apply str_index_first in Hi as [Hocc Hb].
    apply token_loop_spec; [done | done | lia |]. intros j Hj [? _]. by apply (Hb j).
  - split; [done|]. intros (j & Ho & _). by destruct (str_index_nowhere _ _ Hi j).
Qed.

Lemma occurs_at_split s pat j :
  pat <> EmptyString -> occurs_at s pat j ->
  exists a b, s = a +:+ pat +:+ b /\ String.length a = j.
Proof.
  intros Hpat Ho. pose proof (occurs_bound _ _ _ Ho Hpat) as Hj.
  unfold occurs_at in Ho. apply has_prefix_spec in Ho as [b Hb].
  exists (str_take j s), b. rewrite <- Hb. clear Hb Hpat. revert s Hj.
  induction j as [|j IH]; intros [|c s] Hj; simpl in *; try lia; [done|].
  destruct (IH s ltac:(lia)) as [Hs Hl]. split; [by rewrite <- Hs | by rewrite Hl].
Qed.

Lemma byte_at_app_r a b i : byte_at (a +:+ b) (String.length a + i) = byte_at b i.
Proof. unfold byte_at. induction a; simpl; auto. Qed.

Lemma byte_at_app_last a c b : byte_at (a +:+ String c b) (String.length a) c = true.
Proof.
  rewrite <- (Nat.add_0_r (String.length a)), byte_at_app_r.
  unfold byte_at. simpl. by apply bool_decide_eq_true.
Qed.

(** The last byte before an occurrence. *)
Definition ends_token (a : string) : Prop := a = EmptyString \/ exists a', a = a' +:+ "_".
Definition starts_token (b : string) : Prop := b = EmptyString \/ exists b', b = String "_" b'.

Lemma left_boundary a b :
  (String.length a =? 0)%nat || byte_at (a +:+ b) (String.length a - 1) "_" = true <-> ends_token a.
Proof.
  unfold ends_token. destruct (decide (a = EmptyString)) as [->|Hne].
  { split; [by left | done]. }
  assert (exists a' c, a = a' +:+ String c EmptyString) as (a' & c & ->).
  { clear b. induction a as [|x a IH]; [done|]. destruct a as [|y a].
    - by exists EmptyString, x.
    - destruct IH as (a' & c & IH); [done|]. exists (String x a'), c. by rewrite IH. }
  rewrite str_length_app. cbn [String.length].
  replace (String.length a' + 1 - 1)%nat with (String.length a') by lia.
  rewrite <- str_app_assoc. cbn [String.append].
  destruct (String.length a' + 1 =? 0)%nat eqn:E; [apply Nat.eqb_eq in E; lia|]. cbn [orb].
  split.
  - rewrite <- (Nat.add_0_r (String.length a')), byte_at_app_r. unfold byte_at. simpl.
    intros ->%bool_decide_eq_true. right. eauto.
  - intros [Hnil|[a'' Ha]]; [done|].
    assert (String.length a' = String.length a'') as Hl.
    { apply (f_equal String.length) in Ha. rewrite !str_length_app in Ha. cbn in Ha. lia. }
    destruct (str_app_eq_length _ _ _ _ Hl Ha) as [-> [= ->]]. apply byte_at_app_last.
Qed.

Lemma right_boundary a b :
  (String.length a =? String.length (a +:+ b))%nat || byte_at (a +:+ b) (String.length a) "_" = true
  <-> starts_token b.
Proof.
  unfold starts_token. rewrite str_length_app.
  rewrite <- (Nat.add_0_r (String.length a)) at 3. rewrite byte_at_app_r.
  destruct b as [|c b]; cbn [String.length].
  { rewrite Nat.add_0_r, Nat.eqb_refl. split; [by left | done]. }
  destruct (String.length a =? String.length a + S (String.length b))%nat eqn:E;
    [apply Nat.eqb_eq in E; lia|].
  unfold byte_at. simpl. rewrite bool_decide_eq_true. naive_solver.
Qed.

Lemma boundaries_split a pat b :
  boundaries_ok (a +:+ pat +:+ b) pat (String.length a) = true <->
  ends_token a /\ starts_token b.
Proof.
  unfold boundaries_ok. rewrite andb_true_iff, left_boundary.
  rewrite str_app_assoc, <- str_length_app, right_boundary. done.
Qed.

(** The token matcher is exact: it answers true precisely when the pattern
    stands in the name as a whole token, delimited on both sides by an
    underscore or by the end of the name. *)
Theorem containsWordOrPrefix_token s pat :
  pat <> EmptyString ->
  containsWordOrPrefix s pat = true <->
  exists a b, s = a +:+ pat +:+ b /\ ends_token a /\ starts_token b.
Proof.
  intros Hpat. rewrite containsWordOrPrefix_token_at by done. split.
  - intros (j & Ho & Hb). destruct (occurs_at_split _ _ _ Hpat Ho) as (a & b & -> & <-).
    exists a, b. split; [done|]. by apply boundaries_split in Hb.
  - intros (a & b & -> & Ha & Hb). exists (String.length a). split.
    + unfold occurs_at. rewrite str_drop_app. apply has_prefix_app.
    + by apply boundaries_split.
Qed.

(** [user_delete_v2] has the token, [deletes_user] and [undelete2] have not. *)
Lemma containsWordOrPrefix_token_witness :
  containsWordOrPrefix "deletes_user" "delete" = false /\
  containsWordOrPrefix "undelete2_deleted_delete2" "delete" = false /\
  containsWordOrPrefix "user_delete_v2" "delete" = true.
Proof.
  split; [vm_compute; reflexivity|]. split; [vm_compute; reflexivity|].
  apply (containsWordOrPrefix_token "user_delete_v2" "delete"); [done|].
  exists "user_", "_v2". split; [done|]. split; right; [by exists "user" | by exists "v2"].
Defined.

(** ** The inferred profile *)

(** The four tiers of risk, in order. *)
Definition risk_rank (r : RiskLevel) : Z :=
  if bool_decide (r = RiskLow) then 1
  else if bool_decide (r = RiskMedium) then 2
  else if bool_decide (r = RiskHigh) then 3
  else if bool_decide (r = RiskCritical) then 4
  else 0.

Definition known_risk (r : RiskLevel) : Prop :=
  r = RiskLow \/ r = RiskMedium \/ r = RiskHigh \/ r = RiskCritical.

Lemma PromoteRisk_rank r :
  known_risk r -> known_risk (PromoteRisk r) /\ risk_rank (PromoteRisk r) = Z.min 4 (risk_rank r + 1).
Proof. unfold known_risk. intros [->|[->|[->| ->]]]; vm_compute; split; auto. Qed.

Lemma match_rule_Some lower rules m :
  match_rule lower rules = Some m ->
  m ∈ rules /\ exists pat, pat ∈ patterns m /\ containsWordOrPrefix lower pat = true.
Proof.
  induction rules as [|r rules IH]; cbn; [done|].
  destruct (existsb _ _) eqn:E.
  - intros [= <-]. apply existsb_exists in E as (pat & Hin & Hc).
    split; [set_solver|]. exists pat. split; [by apply list_elem_of_In | done].
  - intros H. destruct (IH H). split; [set_solver | done].
Qed.

Lemma match_rule_None lower rules :
  match_rule lower rules = None <->
  forall r pat, r ∈ rules -> pat ∈ patterns r -> containsWordOrPrefix lower pat = false.
Proof.
  induction rules as [|r rules IH]; cbn; [set_solver|].
  destruct (existsb _ _) eqn:E.
  - split; [done|]. intros H. apply existsb_exists in E as (pat & Hin & Hc).
    apply list_elem_of_In in Hin. rewrite (H r pat) in Hc; [done | set_solver | done].
  - rewrite IH. split; [|set_solver]. intros H r' pat Hr Hp.
    apply elem_of_cons in Hr as [->|Hr]; [|by apply (H r')].
    destruct (containsWordOrPrefix lower pat) eqn:Hc; [|done].
    enough (existsb (containsWordOrPrefix lower) (patterns r) = true) by congruence.
    apply existsb_exists. exists pat. split; [by apply list_elem_of_In | done].
Qed.

Module ProfileFacts.
Import SafetyProfile.

(** What every profile the heuristics build satisfies. *)
Record inferred_ok (p : t) : Prop := {
  i_source : Source p = "inferred";
  i_risk : known_risk (Risk p);
  i_cost : 1 <= Cost p <= 60;
  i_idem : Idempotent p = true -> Impact p = ImpactRead;
  i_delete : Impact p = ImpactDelete -> 3 <= risk_rank (Risk p)
}.

Lemma base_profile_ok tool : inferred_ok (base_profile tool) /\ Cost (base_profile tool) <= 20.
Proof.
  unfold base_profile. destruct (match_rule _ _) as [m|] eqn:Hm.
  - apply match_rule_Some in Hm as [Hin _]. unfold classificationRules in Hin.
    repeat (apply elem_of_cons in Hin as [->|Hin];
            [split; [split|]; cbn; unfold known_risk; try done; try lia; auto|]).
    by apply elem_of_nil in Hin.
  - split; [split|]; cbn; unfold known_risk; auto; try done; try lia.
Qed.

Lemma promote_irreversible_ok p :
  inferred_ok p -> inferred_ok (promote_irreversible p).
Proof.
  intros [? Hr ? ? Hd]. pose proof (PromoteRisk_rank _ Hr) as [? Hrank].
  split; cbn; try done. rewrite Hrank. intros Hi. specialize (Hd Hi). lia.
Qed.

Lemma promote_bulk_ok p : inferred_ok p -> Cost p <= 20 -> inferred_ok (promote_bulk p).
Proof.
  intros [? Hr ? ? Hd] Hc. pose proof (PromoteRisk_rank _ Hr) as [? Hrank].
  split; cbn; try done; [lia|]. rewrite Hrank. intros Hi. specialize (Hd Hi). lia.
Qed.

Lemma mark_pii_ok pii p : inferred_ok p -> inferred_ok (mark_pii pii p).
Proof.
  intros [? Hr ? ? Hd]. split; cbn; try done;
    destruct (pii && _) eqn:E; bool_to_prop; try done; [unfold known_risk; auto|].
  intros Hi. specialize (Hd Hi). match goal with E : Risk p = _ |- _ => rewrite E in Hd end.
  vm_compute in Hd. done.
Qed.

Lemma HeuristicProfile_ok tool desc schema : inferred_ok (HeuristicProfile tool desc schema).
Proof.
  unfold HeuristicProfile. destruct (base_profile_ok tool) as [Hb Hc].
  apply mark_pii_ok. destruct (irreversible desc), (bulk tool desc);
    eauto using promote_irreversible_ok, promote_bulk_ok.
Qed.

(** A profile at least as cautious as another. *)
Definition as_cautious (p q : t) : Prop :=
  risk_rank (Risk p) <= risk_rank (Risk q) /\ Cost p <= Cost q /\
  Impact p = Impact q /\ (RequiresHITL p = true -> RequiresHITL q = true) /\
  (PIIExposure p = true -> PIIExposure q = true) /\
  (Idempotent q = true -> Idempotent p = true).

#[export] Instance as_cautious_preorder : PreOrder as_cautious.
Proof.
  unfold as_cautious. split; [intros p; split_and!; try done; lia|].
  intros p q r (? & ? & ? & ? & ? & ?) (? & ? & ? & ? & ? & ?).
  split_and!; auto; try lia; congruence.
Qed.

Lemma as_cautious_irreversible p :
  known_risk (Risk p) -> as_cautious p (promote_irreversible p).
Proof.
  intros Hr. destruct (PromoteRisk_rank _ Hr) as [_ Hrank].
  unfold as_cautious; cbn. rewrite Hrank. split_and!; try done; try lia.
  destruct Hr as [->|[->|[->| ->]]]; vm_compute; done.
Qed.

Lemma as_cautious_bulk p :
  known_risk (Risk p) -> 1 <= Cost p -> as_cautious p (promote_bulk p).
Proof.
  intros Hr Hc. destruct (PromoteRisk_rank _ Hr) as [_ Hrank].
  unfold as_cautious; cbn. rewrite Hrank. split_and!; try done; try lia.
  destruct Hr as [->|[->|[->| ->]]]; vm_compute; done.
Qed.

Lemma irreversible_mono p q :
  known_risk (Risk p) -> known_risk (Risk q) -> as_cautious p q ->
  as_cautious (promote_irreversible p) (promote_irreversible q).
Proof.
  intros Hp Hq (? & ? & ? & ? & ? & ?).
  destruct (PromoteRisk_rank _ Hp) as [_ E1], (PromoteRisk_rank _ Hq) as [_ E2].
  unfold as_cautious; cbn. rewrite E1, E2. split_and!; auto; lia.
Qed.

Lemma bulk_mono p q :
  known_risk (Risk p) -> known_risk (Risk q) -> as_cautious p q ->
  as_cautious (promote_bulk p) (promote_bulk q).
Proof.
  intros Hp Hq (? & ? & ? & ? & ? & ?).
  destruct (PromoteRisk_rank _ Hp) as [_ E1], (PromoteRisk_rank _ Hq) as [_ E2].
  unfold as_cautious; cbn. rewrite E1, E2. split_and!; auto; lia.
Qed.

(** The risk after [mark_pii]: raised to medium when it was low. *)
Lemma mark_pii_rank pii p :
  known_risk (Risk p) ->
  risk_rank (Risk (mark_pii pii p)) =
    if pii then Z.max 2 (risk_rank (Risk p)) else risk_rank (Risk p).
Proof.
  intros Hp. cbn. destruct pii; [|done]. unfold known_risk in Hp.
  destruct Hp as [->|[->|[->| ->]]]; reflexivity.
Qed.

Lemma mark_pii_mono a b p q :
  known_risk (Risk p) -> known_risk (Risk q) -> (a = true -> b = true) -> as_cautious p q ->
  as_cautious (mark_pii a p) (mark_pii b q).
Proof.
  intros Hp Hq Hab (? & ? & ? & ? & ? & ?). unfold as_cautious.
  rewrite !mark_pii_rank by done.
  split_and!; cbn; auto. destruct a, b; try lia.
Qed.
End ProfileFacts.

Section ProfileTheorems.
Import SafetyProfile ProfileFacts.

(** Every inferred profile is well formed and fails safe: its source is
    "inferred", its risk one of the four tiers, its cost between 1 and 60; a
    tool with a delete impact is at least high risk; only a read is
    idempotent; a name that matches no rule needs human approval and is at
    least high risk; an irreversible or bulk operation always needs human
    approval and is never low risk; exposure of personal data is never low
    risk. *)
Theorem HeuristicProfile_fail_safe tool desc schema :
  let p := HeuristicProfile tool desc schema in
  inferred_ok p /\
  ((forall r pat, r ∈ classificationRules -> pat ∈ patterns r ->
      containsWordOrPrefix (to_lower tool) pat = false) ->
    RequiresHITL p = true /\ 3 <= risk_rank (Risk p)) /\
  (irreversible desc || bulk tool desc = true ->
    RequiresHITL p = true /\ 2 <= risk_rank (Risk p)) /\
  (pii_exposed schema desc = true -> PIIExposure p = true /\ 2 <= risk_rank (Risk p)).
Proof.
  intros p. split; [apply HeuristicProfile_ok|].
  destruct (base_profile_ok tool) as [[_ Hr _ _ _] _].
  assert (Hrank : risk_rank (Risk p) =
    let k := Z.min 4 (risk_rank (Risk (base_profile tool)) +
               (if irreversible desc then 1 else 0) + (if bulk tool desc then 1 else 0)) in
    if pii_exposed schema desc then Z.max 2 k else k).
  { unfold p, HeuristicProfile.
    destruct (PromoteRisk_rank _ Hr) as [Hr1 E1]. destruct (PromoteRisk_rank _ Hr1) as [Hr2 E2].
    assert (risk_rank (Risk (base_profile tool)) <= 4)
      by (destruct Hr as [->|[->|[->| ->]]]; vm_compute; done).
    destruct (irreversible desc), (bulk tool desc); rewrite mark_pii_rank by done;
      cbn [promote_bulk promote_irreversible Risk]; rewrite ?E2, ?E1;
      destruct (pii_exposed schema desc); lia. }
  cbv zeta in Hrank.
  assert (1 <= risk_rank (Risk (base_profile tool)))
    by (destruct Hr as [->|[->|[->| ->]]]; vm_compute; done).
  split_and!.
  - intros Hnone. apply match_rule_None in Hnone. rewrite Hrank.
    assert (RequiresHITL (base_profile tool) = true /\
            risk_rank (Risk (base_profile tool)) = 3) as [Hh ->].
    { unfold base_profile. rewrite Hnone. done. }
    split; [|destruct (irreversible desc), (bulk tool desc), (pii_exposed schema desc);
             vm_compute; done].
    unfold p, HeuristicProfile. destruct (irreversible desc), (bulk tool desc); cbn; done.
  - intros Hor. rewrite Hrank. split.
    + unfold p, HeuristicProfile. destruct (irreversible desc), (bulk tool desc); done.
    + destruct (irreversible desc), (bulk tool desc), (pii_exposed schema desc); try done; lia.
  - intros Hpii. rewrite Hrank, Hpii. split; [done | lia].
Qed.

(** What the scanner learns about a tool only makes its inferred profile
    more cautious: with a description and an input schema the risk tier, the
    cost and the approval requirement are at least those inferred from the
    name alone, and the impact is the same. *)
Theorem HeuristicProfile_monotone tool desc schema :
  as_cautious (HeuristicProfile tool EmptyString []) (HeuristicProfile tool desc schema).
Proof.
  unfold HeuristicProfile.
  destruct (base_profile_ok tool) as [[_ Hr [Hc _] _ _] _].
  pose proof (proj1 (PromoteRisk_rank _ Hr)) as Hr'.
  pose proof (proj1 (PromoteRisk_rank _ Hr')) as Hr''.
  assert (Hbulk : bulk tool EmptyString = true -> bulk tool desc = true).
  { unfold bulk. rewrite !existsb_exists. intros (sig & Hin & H). exists sig.
    split; [done|]. cbn in H. rewrite orb_false_r in H. by rewrite H. }
  change (irreversible EmptyString) with false. cbv iota.
  apply mark_pii_mono.
  - by destruct (bulk tool EmptyString).
  - by destruct (irreversible desc), (bulk tool desc).
  - done.
  - pose proof (as_cautious_irreversible _ Hr).
    destruct (irreversible desc), (bulk tool EmptyString), (bulk tool desc);
      try (by discriminate Hbulk); auto using bulk_mono, as_cautious_bulk; try reflexivity.
    etransitivity; [eassumption | by apply as_cautious_bulk].
Qed.
End ProfileTheorems.
