(* ===== verification/Resolver.v ===== *)
(** * Resolving safety profiles: [src/enforcer/resolver.go], [src/enforcer/scanner.go]

    The tiered lookup of a tool's safety profile (admin override, personal
    override, stored scan result, heuristics), the registry of admin
    overrides, and the scanner that turns the tools of a backend into the rows
    the lookup reads.  What the resolver needs of the database is the class
    [ToolProfileStore]; [EnforcerStore.v] implements it. *)
From S2P Require Import Prelude EnforcerTypes Heuristics.
Open Scope Z_scope.

(** ** Rows of the store *)

Module ToolProfileRow.
Record t := mk {
  ID : string;
  BackendID : string;
  ToolName : string;
  RiskLevel : string;
  ImpactScope : string;
  ResourceCost : Z;
  RequiresHITL : bool;
  PIIExposure : bool;
  Idempotent : bool;
  RawProfile : string;
  ScannedAt : Time
}.
End ToolProfileRow.

Module EnforcerOverrideRow.
Record t := mk {
  ID : string;
  ToolName : string;
  BackendID : string;
  RiskLevel : string;
  ImpactScope : string;
  ResourceCost : Z;
  RequiresHITL : bool;
  PIIExposure : bool;
  UserID : string;
  CreatedAt : Time;
  UpdatedAt : Time
}.
End EnforcerOverrideRow.

(** The interface [ToolProfileStore], for a store with state [St]. *)
Class ToolProfileStore (St : Type) := {
  GetToolProfile : St -> string -> string -> res ToolProfileRow.t;
  GetToolPrefix : St -> string -> res string;
  ListUserOverrides : St -> string -> res (list EnforcerOverrideRow.t)
}.

(** ** The resolver *)

(** The substring that marks a row written by [inferProfile]. *)
Definition quote : ascii := ascii_of_nat 34.
Definition quoted (s : string) : string := String quote (s +:+ String quote EmptyString).
Definition inferred_mark : string := quoted "source" +:+ ":" +:+ quoted "inferred".

Definition sourceFromRawProfile (raw : string) : string :=
  if contains raw inferred_mark then "inferred" else "self_reported".

Module MetadataResolver.
Section Resolver.
Context {St : Type} `{ToolProfileStore St}.

(** The tier-1 overrides, keyed by [toolName|backendID].  The store is an
    argument of the operations that read it; [None] is nil. *)
Record t := mk { overrides : gmap string SafetyProfile.t }.

Definition NewMetadataResolver : t := mk ∅.

Definition override_key (toolName backendID : string) : string :=
  toolName +:+ "|" +:+ backendID.

Definition stripNamespacePrefix (store : St) (toolName backendID : string) : string :=
  let prefix := match GetToolPrefix store backendID with
                | Ok p => if bool_decide (p = EmptyString) then backendID +:+ "_" else p
                | Err _ => backendID +:+ "_"
                end in
  if has_prefix toolName prefix then
    let result := str_drop (String.length prefix) toolName in
    if has_prefix result "_" then str_drop 1 result else result
  else toolName.

Definition inferDefaults (toolName : string) : SafetyProfile.t :=
  HeuristicProfile toolName EmptyString [].

(** Tier 1. *)
Definition admin_tier (toolName backendID : string) (r : t) : option SafetyProfile.t :=
  SafetyProfile.with_identity toolName backendID "override" <$>
    (overrides r !! override_key toolName backendID).

(** The personal overrides of the user; the first that matches wins. *)
Definition user_tier (store : option St) (toolName backendID userID : string) :
    option SafetyProfile.t :=
  match store with
  | Some st =>
      if bool_decide (userID = EmptyString) then None
      else match ListUserOverrides st userID with
           | Err _ => None
           | Ok userOverrides =>
               match list_find (fun o => EnforcerOverrideRow.ToolName o = toolName /\
                                         EnforcerOverrideRow.BackendID o = backendID)
                       userOverrides with
               | Some (_, o) =>
                   Some (SafetyProfile.mk toolName backendID EmptyString
                           (EnforcerOverrideRow.RiskLevel o)
                           (EnforcerOverrideRow.ImpactScope o)
                           (EnforcerOverrideRow.ResourceCost o)
                           (EnforcerOverrideRow.RequiresHITL o)
                           (EnforcerOverrideRow.PIIExposure o) false "user_override")
               | None => None
               end
           end
  | None => None
  end.

(** The stored scan result.  [Idempotent] is not copied from the row. *)
Definition stored_tier (store : option St) (toolName backendID : string) :
    option SafetyProfile.t :=
  match store with
  | Some st =>
      match GetToolProfile st backendID (stripNamespacePrefix st toolName backendID) with
      | Ok p =>
          Some (SafetyProfile.mk toolName backendID EmptyString
                  (ToolProfileRow.RiskLevel p) (ToolProfileRow.ImpactScope p)
                  (ToolProfileRow.ResourceCost p) (ToolProfileRow.RequiresHITL p)
                  (ToolProfileRow.PIIExposure p) false
                  (sourceFromRawProfile (ToolProfileRow.RawProfile p)))
      | Err _ => None
      end
  | None => None
  end.

(** Both resolution functions always return a nil error. *)
Definition Resolve (store : option St) (toolName backendID : string) (r : t) :
    res SafetyProfile.t :=
  match admin_tier toolName backendID r with
  | Some p => Ok p
  | None =>
      match stored_tier store toolName backendID with
      | Some p => Ok p
      | None => Ok (SafetyProfile.with_identity toolName backendID "inferred"
                      (inferDefaults toolName))
      end
  end.

Definition ResolveForUser (store : option St) (toolName backendID userID : string) (r : t) :
    res SafetyProfile.t :=
  match admin_tier toolName backendID r with
  | Some p => Ok p
  | None =>
      match user_tier store toolName backendID userID with
      | Some p => Ok p
      | None =>
          match stored_tier store toolName backendID with
          | Some p => Ok p
          | None => Ok (SafetyProfile.with_identity toolName backendID "inferred"
                          (inferDefaults toolName))
          end
      end
  end.

Definition RegisterOverride (toolName backendID : string) (profile : SafetyProfile.t) (r : t) :
    res unit * t :=
  if bool_decide (SafetyProfile.Risk profile = EmptyString)
  then (Err (Errorf "risk level is required"), r)
  else if bool_decide (SafetyProfile.Impact profile = EmptyString)
  then (Err (Errorf "impact scope is required"), r)
  else (Ok tt, mk (<[override_key toolName backendID := profile]> (overrides r))).

Definition RemoveOverride (toolName backendID : string) (r : t) : res unit * t :=
  match overrides r !! override_key toolName backendID with
  | None => (Err (Errorf ("no override found for tool: " +:+ toolName)), r)
  | Some _ => (Ok tt, mk (delete (override_key toolName backendID) (overrides r)))
  end.

Definition GetOverride (toolName backendID : string) (r : t) : option SafetyProfile.t :=
  overrides r !! override_key toolName backendID.

(** A fresh map: the entries are copied. *)
Definition ListOverrides (r : t) : gmap string SafetyProfile.t := overrides r.

Definition ClearOverrides (r : t) : t := mk ∅.

Definition GetProfile (store : option St) (toolName : string) (r : t) :
    SafetyProfile.t * bool :=
  match Resolve store toolName EmptyString r with
  | Ok p => (p, true)
  | Err _ => (SafetyProfile.zero, false)
  end.
End Resolver.
Arguments t : clear implicits.
End MetadataResolver.

(** ** The scanner *)

Module EnforcerProfileFromFramework.
Record t := mk {
  RiskLevel : string;
  ImpactScope : string;
  ResourceCost : Z;
  PIIExposure : bool;
  Idempotent : bool;
  ApprovalReq : bool
}.
End EnforcerProfileFromFramework.

Module ScannedProfile.
Record t := mk {
  BackendID : string;
  ToolName : string;
  Profile : EnforcerProfileFromFramework.t;
  RawJSON : string
}.
End ScannedProfile.

Definition normalizeRisk (s : string) : string :=
  if bool_decide (s = "critical") || bool_decide (s = "crit") then "critical"
  else if bool_decide (s = "high") || bool_decide (s = "hi") then "high"
  else if bool_decide (s = "medium") || bool_decide (s = "med") || bool_decide (s = "mid")
  then "medium"
  else if bool_decide (s = "low") || bool_decide (s = "lo") then "low"
  else "medium".

(** The name of a tool; [None] when it is missing, not a string or empty. *)
Definition tool_name (tool : list (string * json)) : option string :=
  match as_string (field tool "name") with
  | Some n => if bool_decide (n = EmptyString) then None else Some n
  | None => None
  end.

Definition tool_desc (tool : list (string * json)) : string :=
  default EmptyString (as_string (field tool "description")).

Definition tool_schema (tool : list (string * json)) : list (string * json) :=
  match as_object (field tool "inputSchema") with
  | Some raw => default [] (as_object (field raw "properties"))
  | None => []
  end.

Section Scanner.
(** [json.Marshal] of an object, [json.Unmarshal] of a tools/list response
    into its tools and its error object, and [uuid.New] as a supply. *)
Context (marshal : list (string * json) -> string).
Context (unmarshal_tools : string ->
           res (list (list (string * json)) * option (list (string * json)))).
Context (uuid : nat -> string).

Definition extractProfile (backendID : string) (tool : list (string * json)) :
    option ScannedProfile.t :=
  match tool_name tool with
  | None => None
  | Some toolName =>
      let rawProfile :=
        match as_object (field tool "_meta") with
        | Some metaMap => as_object (field metaMap "enforcer_profile")
        | None => None
        end in
      match rawProfile with
      | None => None
      | Some raw =>
          let profile := EnforcerProfileFromFramework.mk
            (match as_string (field raw "risk_level") with
             | Some v => normalizeRisk v | None => EmptyString end)
            (default EmptyString (as_string (field raw "impact_scope")))
            (default 5 (as_float_int (field raw "resource_cost")))
            (default false (as_bool (field raw "pii_exposure")))
            (default false (as_bool (field raw "idempotent")))
            (default false (as_bool (field raw "approval_req"))) in
          Some (ScannedProfile.mk backendID toolName profile (marshal raw))
      end
  end.

Definition inferProfile (backendID : string) (tool : list (string * json)) :
    option ScannedProfile.t :=
  match tool_name tool with
  | None => None
  | Some toolName =>
      let p := HeuristicProfile toolName (tool_desc tool) (tool_schema tool) in
      Some (ScannedProfile.mk backendID toolName
        (EnforcerProfileFromFramework.mk (SafetyProfile.Risk p) (SafetyProfile.Impact p)
           (SafetyProfile.Cost p) (SafetyProfile.PIIExposure p) (SafetyProfile.Idempotent p)
           (SafetyProfile.RequiresHITL p))
        ("{" +:+ inferred_mark +:+ "}"))
  end.

Definition scan_tool (backendID : string) (tool : list (string * json)) :
    option ScannedProfile.t :=
  match extractProfile backendID tool with
  | Some p => Some p
  | None => inferProfile backendID tool
  end.

(** [scanned]: what the spawn function returned. *)
Definition ScanBackend (backendID : string) (scanned : res string) :
    res (list ScannedProfile.t) :=
  match scanned with
  | Err e => Err (Wrapf ("backend " +:+ backendID +:+ " scan failed") e)
  | Ok bytes =>
      match unmarshal_tools bytes with
      | Err e => Err (Wrapf ("backend " +:+ backendID +:+
                        ": failed to parse tools/list response") e)
      | Ok (_, Some _) => Err (Errorf ("backend " +:+ backendID +:+ " tools/list error"))
      | Ok (tools, None) => Ok (omap (scan_tool backendID) tools)
      end
  end.

Definition row_of (backendID : string) (now : Time) (i : nat) (p : ScannedProfile.t) :
    ToolProfileRow.t :=
  let f := ScannedProfile.Profile p in
  ToolProfileRow.mk (uuid i) backendID (ScannedProfile.ToolName p)
    (EnforcerProfileFromFramework.RiskLevel f) (EnforcerProfileFromFramework.ImpactScope f)
    (EnforcerProfileFromFramework.ResourceCost f) (EnforcerProfileFromFramework.ApprovalReq f)
    (EnforcerProfileFromFramework.PIIExposure f) (EnforcerProfileFromFramework.Idempotent f)
    (ScannedProfile.RawJSON p) now.

Definition ScanResultsToRows (backendID : string) (now : Time)
    (profiles : list ScannedProfile.t) : list ToolProfileRow.t :=
  imap (row_of backendID now) profiles.
End Scanner.

(** * Properties *)

Definition pipe_free (s : string) : Prop := has_byte "|" s = false.

Lemma override_key_inj t b t' b' :
  pipe_free t -> pipe_free t' ->
  MetadataResolver.override_key t b = MetadataResolver.override_key t' b' -> t = t' /\ b = b'.
Proof. unfold MetadataResolver.override_key. intros ? ?. by apply str_split_unique. Qed.

Section ResolverTheorems.
Import MetadataResolver.
Context {St : Type} `{ToolProfileStore St}.

(** The tiers in order: an admin override decides for every user; without
    one a personal override decides; otherwise the stored profile; otherwise
    the heuristics.  The resolution never fails, carries the tool and the
    backend asked for, and its source names the tier. *)
Theorem ResolveForUser_tiers (store : option St) tool backend user r :
  exists p, ResolveForUser store tool backend user r = Ok p /\
    SafetyProfile.ToolName p = tool /\ SafetyProfile.BackendID p = backend /\
    match SafetyProfile.Source p with
    | "override" => admin_tier tool backend r = Some p
    | "user_override" => admin_tier tool backend r = None /\
                         user_tier store tool backend user = Some p
    | "self_reported" => admin_tier tool backend r = None /\
                         user_tier store tool backend user = None /\
                         stored_tier store tool backend = Some p
    | "inferred" => admin_tier tool backend r = None /\
                    user_tier store tool backend user = None /\
                    (stored_tier store tool backend = Some p \/
                     (stored_tier store tool backend = None /\
                      SafetyProfile.Risk p = SafetyProfile.Risk (inferDefaults tool)))
    | _ => False
    end.
Proof.
  unfold ResolveForUser.
  destruct (admin_tier tool backend r) as [p|] eqn:Ha.
  { unfold admin_tier in Ha. apply fmap_Some in Ha as (q & _ & ->).
    by exists (SafetyProfile.with_identity tool backend "override" q). }
  destruct (user_tier store tool backend user) as [p|] eqn:Hu.
  { exists p. unfold user_tier in Hu. destruct store as [st|]; [|done].
    destruct (bool_decide _); [done|]. destruct (ListUserOverrides st user); [|done].
    destruct (list_find _ _) as [[i o]|]; [|done]. by injection Hu as <-. }
  destruct (stored_tier store tool backend) as [p|] eqn:Hs.
  2: { eexists. split; [done|]. cbn. split_and!; try done. by right. }
  exists p. unfold stored_tier in Hs. destruct store as [st|]; [|done].
  destruct (GetToolProfile _ _ _); [|done]. injection Hs as <-. cbn.
  unfold sourceFromRawProfile. destruct (contains _ _); cbn; split_and!; try done. by left.
Qed.

(** Registering an admin override takes effect for every user at once and
    for that tool and backend only, and removing it restores exactly what was
    resolved before; the names must not contain the separator of the key. *)
Theorem override_roundtrip (store : option St) tool backend p r :
  SafetyProfile.Risk p <> EmptyString -> SafetyProfile.Impact p <> EmptyString ->
  pipe_free tool -> GetOverride tool backend r = None ->
  let r' := (RegisterOverride tool backend p r).2 in
  (RegisterOverride tool backend p r).1 = Ok tt /\
  (forall user, ResolveForUser store tool backend user r' =
                Ok (SafetyProfile.with_identity tool backend "override" p)) /\
  (forall tool' backend' user, pipe_free tool' -> (tool', backend') <> (tool, backend) ->
     ResolveForUser store tool' backend' user r' = ResolveForUser store tool' backend' user r) /\
  RemoveOverride tool backend r' = (Ok tt, r).
Proof.
  intros Hr Hi Ht Hnone. unfold GetOverride in Hnone. unfold RegisterOverride.
  rewrite !bool_decide_eq_false_2 by done. cbn. split_and!.
  - done.
  - intros user. unfold ResolveForUser, admin_tier. cbn. by rewrite lookup_insert_eq.
  - intros tool' backend' user Ht' Hd. unfold ResolveForUser, admin_tier. cbn.
    rewrite lookup_insert_ne; [done|].
    intros Heq. apply override_key_inj in Heq as [-> ->]; done.
  - unfold RemoveOverride. cbn. rewrite lookup_insert_eq. f_equal.
    destruct r as [o]. cbn in *. f_equal. by rewrite delete_insert_id.
Qed.
End ResolverTheorems.

(** A store with one backend: its tool prefix, scan rows and personal overrides. *)
Module DemoStore.
Record t := mk {
  prefix : string;
  rows : list ToolProfileRow.t;
  personal : list EnforcerOverrideRow.t
}.

#[global] Instance store : ToolProfileStore t := {
  GetToolProfile st backend tool :=
    match list_find (fun r => ToolProfileRow.BackendID r = backend /\
                              ToolProfileRow.ToolName r = tool) (rows st) with
    | Some (_, r) => Ok r
    | None => Err ErrNoRows
    end;
  GetToolPrefix st _ := Ok (prefix st);
  ListUserOverrides st user :=
    Ok (filter (fun o => EnforcerOverrideRow.UserID o = user) (personal st))
}.

Definition empty : t := mk "slk" [] [].
End DemoStore.

Definition demo_override : SafetyProfile.t :=
  SafetyProfile.mk EmptyString EmptyString EmptyString RiskHigh ImpactWrite 3 true false false
    EmptyString.

Lemma override_roundtrip_witness :
  let r' := (MetadataResolver.RegisterOverride "post" "slack" demo_override
               MetadataResolver.NewMetadataResolver).2 in
  MetadataResolver.ResolveForUser (Some DemoStore.empty) "post" "slack" "alice" r' =
    Ok (SafetyProfile.with_identity "post" "slack" "override" demo_override) /\
  MetadataResolver.RemoveOverride "post" "slack" r' =
    (Ok tt, MetadataResolver.NewMetadataResolver).
Proof.
  destruct (override_roundtrip (Some DemoStore.empty) "post" "slack" demo_override
    MetadataResolver.NewMetadataResolver ltac:(done) ltac:(done) eq_refl eq_refl)
    as (_ & Hall & _ & Hrm).
  split; [exact (Hall "alice") | exact Hrm].
Defined.

Section StripTheorems.
Import MetadataResolver.
Context {St : Type} `{ToolProfileStore St}.

Lemma strip_listed (store : St) prefix name backend :
  GetToolPrefix store backend = Ok prefix -> prefix <> EmptyString ->
  stripNamespacePrefix store (prefix +:+ "_" +:+ name) backend = name.
Proof.
  intros Hp Hne. unfold stripNamespacePrefix.
  rewrite Hp, bool_decide_eq_false_2 by done. cbv zeta.
  by rewrite has_prefix_app, str_drop_app.
Qed.

(** The stored profile of a tool is found under its own name: the name a
    backend's tool is listed with (tool prefix, underscore, name) is stripped
    back to the name the scanner stored, for every configured prefix. *)
Theorem stripNamespacePrefix_listed (store : St) prefix name backend :
  GetToolPrefix store backend = Ok prefix -> prefix <> EmptyString ->
  stripNamespacePrefix store (prefix +:+ "_" +:+ name) backend = name.
Proof. apply strip_listed. Qed.
End StripTheorems.

Lemma stripNamespacePrefix_listed_witness :
  MetadataResolver.stripNamespacePrefix DemoStore.empty "slk__post" "slack" = "_post".
Proof.
  exact (stripNamespacePrefix_listed DemoStore.empty "slk" "_post" "slack" eq_refl ltac:(done)).
Defined.

Lemma normalizeRisk_known s : known_risk (normalizeRisk s).
Proof. unfold normalizeRisk, known_risk. repeat case_if; auto. Qed.

Lemma float_to_int_range m e : int64 (float_to_int m e).
Proof. unfold float_to_int. case_decide; [done | unfold int64; lia]. Qed.

Section ScannerTheorems.
Context (marshal : list (string * json) -> string).
Context (unmarshal_tools : string ->
           res (list (list (string * json)) * option (list (string * json)))).
Context (uuid : nat -> string).

Lemma scan_tool_name backend tool p :
  scan_tool marshal backend tool = Some p -> tool_name tool = Some (ScannedProfile.ToolName p).
Proof.
  unfold scan_tool, extractProfile, inferProfile.
  destruct (tool_name tool) as [n|]; [|done].
  destruct (match as_object _ with Some _ => _ | None => None end) as [raw|];
    intros [= <-]; done.
Qed.

Lemma scan_tool_total backend tool n :
  tool_name tool = Some n -> is_Some (scan_tool marshal backend tool).
Proof.
  unfold scan_tool, extractProfile, inferProfile. intros ->.
  destruct (match as_object _ with Some _ => _ | None => None end); eauto.
Qed.

(** Scanning a backend gives a profile to every tool that has a name, in
    the order they are listed, and to no other: the scan fails only when the
    backend or its response does. *)
Theorem ScanBackend_complete backend bytes tools :
  unmarshal_tools bytes = Ok (tools, None) ->
  exists profiles, ScanBackend marshal unmarshal_tools backend (Ok bytes) = Ok profiles /\
    ScannedProfile.ToolName <$> profiles = omap tool_name tools /\
    Forall (fun p => ScannedProfile.BackendID p = backend /\
              int64 (EnforcerProfileFromFramework.ResourceCost (ScannedProfile.Profile p)) /\
              (EnforcerProfileFromFramework.RiskLevel (ScannedProfile.Profile p) = EmptyString \/
               known_risk (EnforcerProfileFromFramework.RiskLevel (ScannedProfile.Profile p))))
           profiles.
Proof.
  intros Hu. unfold ScanBackend. rewrite Hu. eexists; split; [done|]. clear Hu.
  induction tools as [|tool tools [IHn IHf]]; cbn; [split; [done | constructor]|].
  destruct (scan_tool marshal backend tool) as [p|] eqn:Hp; cbn.
  - rewrite (scan_tool_name _ _ _ Hp), IHn. split; [done|]. constructor; [|done].
    unfold scan_tool, extractProfile, inferProfile in Hp.
    destruct (tool_name tool) as [n|]; [|done].
    destruct (match as_object _ with Some _ => _ | None => None end) as [raw|];
      [injection Hp as <-; cbn|].
    + split; [done|]. split.
      * unfold as_float_int. destruct (field raw "resource_cost") as [[]|]; cbn;
          try apply float_to_int_range; unfold int64; lia.
      * destruct (as_string _); [right; apply normalizeRisk_known | by left].
    + pose proof (ProfileFacts.HeuristicProfile_ok n (tool_desc tool) (tool_schema tool)) as Hok.
      set (h := HeuristicProfile _ _ _) in *. clearbody h. injection Hp as <-. cbn.
      split; [done|]. split; [|right; apply Hok].
      pose proof (ProfileFacts.i_cost _ Hok) as Hc. unfold int64. lia.
  - destruct (tool_name tool) as [n|] eqn:Hn; [|done].
    destruct (scan_tool_total backend tool n Hn) as [p Hp']. congruence.
Qed.
End ScannerTheorems.

(** A tool that reports an empty profile, and one that reports none. *)
Definition demo_tools : list (list (string * json)) :=
  [ [("name", JStr "post"); ("_meta", JObj [("enforcer_profile", JObj [])])];
    [("description", JStr "nameless")];
    [("name", JStr "drop_table")] ].

Lemma ScanBackend_complete_witness :
  exists profiles,
    ScanBackend (fun _ => "{}") (fun _ => Ok (demo_tools, None)) "slack" (Ok "...") = Ok profiles /\
    ScannedProfile.ToolName <$> profiles = ["post"; "drop_table"].
Proof.
  destruct (ScanBackend_complete (fun _ => "{}") (fun _ => Ok (demo_tools, None)) "slack" "..."
    demo_tools eq_refl) as (profiles & H1 & H2 & _).
  exists profiles. split; [exact H1 | exact H2].
Defined.

Section ScanResolve.
Import MetadataResolver.
Context {St : Type} `{ToolProfileStore St}.
Context (uuid : nat -> string).

Lemma ScanResultsToRows_lookup backend now profiles i p :
  profiles !! i = Some p ->
  ScanResultsToRows uuid backend now profiles !! i = Some (row_of uuid backend now i p).
Proof. intros Hi. unfold ScanResultsToRows. by rewrite list_lookup_imap, Hi. Qed.

(** From scan to resolution: once the row of a tool that reports no
    profile is stored, resolving the tool gives exactly the risk, impact,
    cost, approval and exposure the heuristics inferred from its name,
    description and schema, still marked as inferred, so that it goes to the
    admin queue rather than through. *)
Theorem inferred_scan_resolves (store : St) backend prefix tool i profiles now p r :
  profiles !! i = Some p -> inferProfile backend tool = Some p ->
  GetToolPrefix store backend = Ok prefix -> prefix <> EmptyString ->
  let name := ScannedProfile.ToolName p in
  let listed := prefix +:+ "_" +:+ name in
  admin_tier listed backend r = None ->
  (forall row, ScanResultsToRows uuid backend now profiles !! i = Some row ->
     GetToolProfile store backend name = Ok row) ->
  let h := HeuristicProfile name (tool_desc tool) (tool_schema tool) in
  Resolve (Some store) listed backend r =
    Ok (SafetyProfile.mk listed backend EmptyString (SafetyProfile.Risk h)
          (SafetyProfile.Impact h) (SafetyProfile.Cost h) (SafetyProfile.RequiresHITL h)
          (SafetyProfile.PIIExposure h) false "inferred").
Proof.
  intros Hi Hinf Hp Hne name listed Hadm Hstore h.
  specialize (Hstore _ (ScanResultsToRows_lookup backend now profiles i p Hi)).
  unfold Resolve. rewrite Hadm. unfold stored_tier, listed.
  rewrite strip_listed by done. fold name.
  rewrite Hstore. unfold inferProfile in Hinf.
  destruct (tool_name tool) as [n|]; [|done]. by injection Hinf as <-.
Qed.
End ScanResolve.

(** The row of a scanned [drop_table] tool, and a store that holds it. *)
Definition demo_scanned : ScannedProfile.t :=
  ScannedProfile.mk "slack" "drop_table"
    (EnforcerProfileFromFramework.mk "critical" "delete" 20 false false true)
    ("{" +:+ inferred_mark +:+ "}").

Definition demo_store : DemoStore.t :=
  DemoStore.mk "slk" (ScanResultsToRows (fun _ => "id") "slack" 0 [demo_scanned]) [].

Lemma inferred_scan_resolves_witness :
  MetadataResolver.Resolve (Some demo_store) "slk_drop_table" "slack"
    MetadataResolver.NewMetadataResolver =
  Ok (SafetyProfile.mk "slk_drop_table" "slack" EmptyString "critical" "delete" 20 true false
        false "inferred").
Proof.
  apply (inferred_scan_resolves (fun _ => "id") demo_store "slack" "slk"
           [("name", JStr "drop_table")] 0 [demo_scanned] 0 demo_scanned).
  - reflexivity.
  - vm_compute. reflexivity.
  - reflexivity.
  - done.
  - vm_compute. reflexivity.
  - intros row. vm_compute. intros [= <-]. reflexivity.
Defined.
