(* ===== verification/CelEngine.v ===== *)
(** * The policy engine: [src/enforcer/cel_engine.go]

    The compiled policies, the activation they are evaluated in, the choice of
    the most restrictive decision among the policies that match, and the
    dispositions for rate-limit triggers.  The CEL library (parsing, checking,
    compiling and evaluating expressions) is a parameter.

    The engine iterates over Go maps, in an unspecified order: an operation
    that does so takes the order of the keys as an argument, and the theorems
    quantify over it. *)
From S2P Require Import Prelude EnforcerTypes.
Open Scope Z_scope.

(** ** Activations *)

Inductive celval :=
| CString (s : string)
| CInt (z : Z)
| CBool (b : bool)
| CDouble (mant exp : Z)
| CTimestamp (t : option Time)
| CDyn (fields : list (string * json))
| CMap (fields : list (string * celval)).

Definition activation := list (string * celval).

(** [SystemLoad] and [Timestamp] of the decision context are never set. *)
Definition buildActivation (ctx : DecisionContext.t) : activation :=
  let safety := DecisionContext.Safety ctx in
  let risk := RateLimitInfo.RiskBucket (DecisionContext.RateLimit ctx) in
  let res := RateLimitInfo.ResourceBucket (DecisionContext.RateLimit ctx) in
  let userMap := [
    ("id", CString (DecisionContext.UserID ctx));
    ("role", CString (DecisionContext.UserRole ctx));
    ("email", CString (DecisionContext.UserEmail ctx));
    ("trust_level", CInt (DecisionContext.TrustLevel ctx))] in
  let safetyMap := [
    ("risk_level", CString (SafetyProfile.Risk safety));
    ("impact_scope", CString (SafetyProfile.Impact safety));
    ("resource_cost", CInt (SafetyProfile.Cost safety));
    ("requires_hitl", CBool (SafetyProfile.RequiresHITL safety));
    ("pii_exposure", CBool (SafetyProfile.PIIExposure safety))] in
  let systemMap := [
    ("load_avg", CDouble 0 0);
    ("call_rate", CInt (DecisionContext.CallRate ctx))] in
  let callMap := [("justification", CString (DecisionContext.Justification ctx))] in
  let bucketMap b := [
    ("available", CInt (BucketStatus.Available b));
    ("capacity", CInt (BucketStatus.Capacity b));
    ("refill_rate", CInt (BucketStatus.RefillRate b))] in
  [ ("user", CMap userMap);
    ("user_id", CString (DecisionContext.UserID ctx));
    ("user_role", CString (DecisionContext.UserRole ctx));
    ("user_email", CString (DecisionContext.UserEmail ctx));
    ("trust_level", CInt (DecisionContext.TrustLevel ctx));
    ("tool", CString (DecisionContext.Tool ctx));
    ("tool_name", CString (DecisionContext.Tool ctx));
    ("args", CDyn (DecisionContext.Args ctx));
    ("call", CMap callMap);
    ("justification", CString (DecisionContext.Justification ctx));
    ("safety", CMap safetyMap);
    ("risk_level", CString (SafetyProfile.Risk safety));
    ("impact_scope", CString (SafetyProfile.Impact safety));
    ("resource_cost", CInt (SafetyProfile.Cost safety));
    ("requires_hitl", CBool (SafetyProfile.RequiresHITL safety));
    ("pii_exposure", CBool (SafetyProfile.PIIExposure safety));
    ("system", CMap systemMap);
    ("system_load", CDouble 0 0);
    ("system_call_rate", CInt (DecisionContext.CallRate ctx));
    ("timestamp", CTimestamp None);
    ("backend_id", CString (DecisionContext.BackendID ctx));
    ("backend_type", CString (DecisionContext.BackendType ctx));
    ("risk_bucket", CMap (bucketMap risk));
    ("risk_available", CInt (BucketStatus.Available risk));
    ("risk_capacity", CInt (BucketStatus.Capacity risk));
    ("risk_refill_rate", CInt (BucketStatus.RefillRate risk));
    ("resource_bucket", CMap (bucketMap res));
    ("resource_available", CInt (BucketStatus.Available res));
    ("resource_capacity", CInt (BucketStatus.Capacity res));
    ("resource_refill_rate", CInt (BucketStatus.RefillRate res)) ].

(** ** The CEL library *)

Class CelLib := {
  Ast : Type;
  Checked : Type;
  Program : Type;
  cel_parse : string -> res Ast;
  cel_check : Ast -> res Checked;
  cel_program : Checked -> res Program;
  (** The text of the error, or the value of the result when it is a bool. *)
  cel_eval : Program -> activation -> string + option bool;
  (** [interpreter.NewActivation]. *)
  cel_activation : activation -> res activation
}.

Record prioritisedDisposition := {
  priority : Z;
  action : Action;
  message : string
}.

(** ** Choosing between decisions *)

Definition severityPriority : gmap SeverityLevel Z :=
  <[SeverityCritical := 4]> (<[SeverityHigh := 3]>
    (<[SeverityMedium := 2]> (<[SeverityLow := 1]> ∅))).

Definition actionPriority : gmap Action Z :=
  <[ActionDeny := 5]> (<[ActionPendingAdminApproval := 4]> (<[ActionPendingApproval := 4]>
    (<[ActionPendingUserApproval := 3]> (<[ActionWarn := 2]> (<[ActionAllow := 1]> ∅))))).

Definition shouldUpdateDecision (current new : EnforcerDecision.t) : bool :=
  let newPriority := default 0 (actionPriority !! EnforcerDecision.act new) in
  let currentPriority := default 0 (actionPriority !! EnforcerDecision.act current) in
  if currentPriority <? newPriority then true
  else if newPriority =? currentPriority then
    let newSev := default 0 (severityPriority !! EnforcerDecision.Severity new) in
    let currentSev := default 0 (severityPriority !! EnforcerDecision.Severity current) in
    if currentSev <? newSev then true
    else if (newSev =? currentSev) && (0 <? EnforcerDecision.Priority new) &&
            (0 <? EnforcerDecision.Priority current)
    then EnforcerDecision.Priority new <? EnforcerDecision.Priority current
    else false
  else false.

(** ** The engine *)

Module CELEngine.
Section Engine.
Context `{CelLib}.

Record t := mk {
  programs : gmap string Program;
  policies : gmap string CELPolicy.t;
  dispositions : gmap MatchContext (list prioritisedDisposition)
}.

(** [NewEnv] with the fixed declarations succeeds. *)
Definition NewCELEngine : t := mk ∅ ∅ ∅.

(** The three stages of compiling, with the error of the stage that failed. *)
Definition compile (p : CELPolicy.t) : res Program :=
  match cel_parse (CELPolicy.Expression p) with
  | Err e => Err (Wrapf ("policy " +:+ CELPolicy.ID p +:+ " parse error") e)
  | Ok ast =>
      match cel_check ast with
      | Err e => Err (Wrapf ("policy " +:+ CELPolicy.ID p +:+ " type check error") e)
      | Ok checked =>
          match cel_program checked with
          | Err e => Err (Wrapf ("policy " +:+ CELPolicy.ID p +:+ " compile error") e)
          | Ok program => Ok program
          end
      end
  end.

Definition add_disposition (p : CELPolicy.t)
    (m : gmap MatchContext (list prioritisedDisposition)) (d : MatchContext * Action) :
    gmap MatchContext (list prioritisedDisposition) :=
  let '(ctx, a) := d in
  <[ctx := default [] (m !! ctx) ++
           [{| priority := CELPolicy.Priority p; action := a;
               message := CELPolicy.Message p |}]]> m.

Definition add_dispositions (m : gmap MatchContext (list prioritisedDisposition))
    (p : CELPolicy.t) : gmap MatchContext (list prioritisedDisposition) :=
  match CELPolicy.Dispositions p with
  | None => m
  | Some ds => foldl (add_disposition p) m (map_to_list ds)
  end.

(** [order]: the order in which the policies are visited. *)
Definition loadDispositions (order : list string) (e : t) : t :=
  mk (programs e) (policies e)
    (foldl (fun m id => match policies e !! id with
                        | Some p => add_dispositions m p | None => m end) ∅ order).

Definition AddPolicy (order : list string) (policy : CELPolicy.t) (e : t) : res unit * t :=
  if negb (CELPolicy.Enabled policy) then (Ok tt, e)
  else match compile policy with
       | Err err => (Err err, e)
       | Ok program =>
           (Ok tt,
            loadDispositions order
              (mk (<[CELPolicy.ID policy := program]> (programs e))
                  (<[CELPolicy.ID policy := policy]> (policies e))
                  (dispositions e)))
       end.

Definition RemovePolicy (policyID : string) (e : t) : t :=
  mk (delete policyID (programs e)) (delete policyID (policies e)) (dispositions e).

(** The decision of a policy that matched. *)
Definition decision_of (policyID : string) (now : Time) (policy : CELPolicy.t) :
    EnforcerDecision.t :=
  EnforcerDecision.mk (CELPolicy.act policy) (CELPolicy.Severity policy)
    (CELPolicy.Message policy) policyID [] (Some now) (CELPolicy.Priority policy)
    EmptyString EmptyString.

(** One iteration of the loop over [e.programs]. *)
Definition eval_policy (now : Time) (act : activation) (e : t)
    (finalDecision : EnforcerDecision.t) (policyID : string) : EnforcerDecision.t :=
  match programs e !! policyID, policies e !! policyID with
  | Some program, Some policy =>
      match cel_eval program act with
      | inl err =>
          EnforcerDecision.add_violation
            ("policy " +:+ policyID +:+ " evaluation error: " +:+ err) finalDecision
      | inr (Some true) =>
          let decision := decision_of policyID now policy in
          EnforcerDecision.add_violation
            (policyID +:+ ": " +:+ CELPolicy.Description policy)
            (if shouldUpdateDecision finalDecision decision then decision
             else finalDecision)
      | inr _ => finalDecision
      end
  | _, _ => finalDecision
  end.

Definition no_decision (now : Time) : EnforcerDecision.t :=
  EnforcerDecision.mk EmptyString EmptyString EmptyString EmptyString [] (Some now) 0
    EmptyString EmptyString.

Definition Evaluate (order : list string) (now : Time) (ctx : DecisionContext.t) (e : t) :
    res EnforcerDecision.t :=
  match cel_activation (buildActivation ctx) with
  | Err err => Err (Wrapf "failed to build activation" err)
  | Ok act => Ok (foldl (eval_policy now act e) (no_decision now) order)
  end.

Definition ValidateExpression (expression : string) : res unit :=
  match cel_parse expression with
  | Err e => Err (Wrapf "parse error" e)
  | Ok ast =>
      match cel_check ast with
      | Err e => Err (Wrapf "type check error" e)
      | Ok _ => Ok tt
      end
  end.

Definition ListPolicies (e : t) : list CELPolicy.t := (map_to_list (policies e)).*2.

(** The loop of [LookupDisposition] from the second entry on. *)
Definition best_disposition (best : prioritisedDisposition)
    (entries : list prioritisedDisposition) : prioritisedDisposition :=
  foldl (fun b x => if priority x <? priority b then x else b) best entries.

Definition LookupDisposition (ctx : MatchContext) (e : t) : option (Action * string) :=
  match dispositions e !! ctx with
  | Some (first :: rest) =>
      let best := best_disposition first rest in Some (action best, message best)
  | _ => None
  end.
End Engine.
Arguments t {_}.
End CELEngine.

(** * Properties *)

(** ** Restrictiveness *)

(** The action and the severity of a decision, as one number: the action
    counts first, the severity second. *)
Definition rank_of (a : Action) (sev : SeverityLevel) : Z :=
  5 * default 0 (actionPriority !! a) + default 0 (severityPriority !! sev).
Definition rank (d : EnforcerDecision.t) : Z :=
  rank_of (EnforcerDecision.act d) (EnforcerDecision.Severity d).

Lemma severityPriority_range s : 0 <= default 0 (severityPriority !! s) <= 4.
Proof.
  unfold severityPriority.
  do 4 (rewrite lookup_insert; case_decide; [cbn; lia|]). rewrite lookup_empty. cbn. lia.
Qed.

Lemma actionPriority_range a : 0 <= default 0 (actionPriority !! a) <= 5.
Proof.
  unfold actionPriority.
  do 6 (rewrite lookup_insert; case_decide; [cbn; lia|]). rewrite lookup_empty. cbn. lia.
Qed.

Lemma rank_nonneg d : 0 <= rank d.
Proof.
  unfold rank, rank_of. pose proof (actionPriority_range (EnforcerDecision.act d)).
  pose proof (severityPriority_range (EnforcerDecision.Severity d)). lia.
Qed.

Lemma shouldUpdateDecision_spec cur new :
  shouldUpdateDecision cur new = true <->
  rank cur < rank new \/
  (rank new = rank cur /\ 0 < EnforcerDecision.Priority new < EnforcerDecision.Priority cur).
Proof.
  unfold shouldUpdateDecision, rank, rank_of.
  pose proof (severityPriority_range (EnforcerDecision.Severity cur)).
  pose proof (severityPriority_range (EnforcerDecision.Severity new)).
  repeat case_if; try (split; [intros; lia | intros; done]);
    try (split; [done | lia]);
    try (rewrite Z.ltb_lt; lia).
  all: split; [done|]; intros [?|[? ?]]; try lia.
  all: match goal with H : _ && _ = false |- _ => rewrite !andb_false_iff in H end.
  all: rewrite Z.eqb_neq, !Z.ltb_ge in *; lia.
Qed.

(** ** Evaluation *)

Module EngineFacts.
Section Facts.
Context `{CelLib}.
Import CELEngine.

(** The keys of [programs] in some order. *)
Definition map_order (order : list string) (e : t) : Prop :=
  key_order order (programs e).

(** Policies and programs have the same keys, and each program is compiled
    from its policy, which is enabled. *)
Definition consistent (e : t) : Prop :=
  forall id,
    match programs e !! id, policies e !! id with
    | Some prog, Some p => compile p = Ok prog /\ CELPolicy.Enabled p = true
    | None, None => True
    | _, _ => False
    end.

(** The policy [id] of the engine matches in the activation. *)
Definition matches (act : activation) (e : t) (id : string) (p : CELPolicy.t) : Prop :=
  policies e !! id = Some p /\
  exists prog, programs e !! id = Some prog /\ cel_eval prog act = inr (Some true).

Definition policy_rank (p : CELPolicy.t) : Z :=
  rank_of (CELPolicy.act p) (CELPolicy.Severity p).

(** The decision is the one policy [p] asks for. *)
Definition decided_by (id : string) (p : CELPolicy.t) (d : EnforcerDecision.t) : Prop :=
  EnforcerDecision.act d = CELPolicy.act p /\
  EnforcerDecision.Severity d = CELPolicy.Severity p /\
  EnforcerDecision.Message d = CELPolicy.Message p /\
  EnforcerDecision.PolicyID d = id /\
  EnforcerDecision.Priority d = CELPolicy.Priority p.

Definition undecided (d : EnforcerDecision.t) : Prop :=
  EnforcerDecision.act d = EmptyString /\ EnforcerDecision.Severity d = EmptyString /\
  EnforcerDecision.Message d = EmptyString /\ EnforcerDecision.PolicyID d = EmptyString /\
  EnforcerDecision.Priority d = 0.

Lemma decided_by_rank id p d : decided_by id p d -> rank d = policy_rank p.
Proof. unfold decided_by, rank, policy_rank. intros (-> & -> & _). done. Qed.

Lemma undecided_rank d : undecided d -> rank d = 0.
Proof. unfold undecided, rank. intros (-> & -> & _). done. Qed.

(** A policy that matched does not ask for more than the decision: its rank
    is lower, or it is equal and the decision's policy is as specific. *)
Definition beaten (p : CELPolicy.t) (d : EnforcerDecision.t) : Prop :=
  policy_rank p <= rank d /\
  (policy_rank p = rank d -> 0 < policy_rank p -> 0 < CELPolicy.Priority p ->
   EnforcerDecision.Priority d <= CELPolicy.Priority p).

(** What the loop has established after visiting [seen]. *)
Record loop_ok (act : activation) (e : t) (seen : list string) (d : EnforcerDecision.t) :
    Prop := {
  l_beaten : forall id p, id ∈ seen -> matches act e id p -> beaten p d;
  l_from : (undecided d) \/
           (exists id p, id ∈ seen /\ matches act e id p /\ decided_by id p d /\
                         0 < policy_rank p)
}.

Lemma add_violation_rank v d : rank (EnforcerDecision.add_violation v d) = rank d.
Proof. done. Qed.

Lemma loop_ok_violation act e seen v d :
  loop_ok act e seen d -> loop_ok act e seen (EnforcerDecision.add_violation v d).
Proof. intros [? ?]. by split. Qed.

Lemma loop_ok_skip act e seen id d :
  (forall p, ~ matches act e id p) -> loop_ok act e seen d -> loop_ok act e (seen ++ [id]) d.
Proof.
  intros Hno [Hb Hf]. split.
  - intros id' p. rewrite elem_of_app, list_elem_of_singleton. intros [?| ->] Hm;
      [by eapply Hb | by destruct (Hno p)].
  - destruct Hf as [?|(id' & p & ? & ?)]; [by left | right].
    exists id', p. set_solver.
Qed.

Lemma decision_of_decided id now p : decided_by id p (decision_of id now p).
Proof. done. Qed.

Lemma loop_ok_update act e seen id p now d :
  matches act e id p -> loop_ok act e seen d ->
  loop_ok act e (seen ++ [id])
    (if shouldUpdateDecision d (decision_of id now p) then decision_of id now p else d).
Proof.
  intros Hm [Hb Hf]. set (new := decision_of id now p).
  assert (Hnew : rank new = policy_rank p) by done.
  pose proof (rank_nonneg d) as Hd0.
  destruct (shouldUpdateDecision d new) eqn:Hs.
  - apply shouldUpdateDecision_spec in Hs. split.
    + intros id' p'. rewrite elem_of_app, list_elem_of_singleton. intros [Hin| ->] Hm'.
      * destruct (Hb id' p' Hin Hm') as [Hle Htie].
        unfold beaten. cbn [new decision_of EnforcerDecision.Priority] in *.
        destruct Hs as [Hs|[Hs Hp]]; split; try lia.
      * assert (p' = p) as -> by (destruct Hm as [? _], Hm' as [? _]; congruence).
        unfold beaten. subst new. rewrite Hnew. cbn. lia.
    + right. exists id, p. split_and!; [set_solver | done | done |].
      destruct Hs as [Hs|[Hs Hp]]; [lia|].
      destruct Hf as [Hu|(id' & p' & _ & _ & Hd & Hr)].
      * destruct Hu as (_ & _ & _ & _ & Hu). lia.
      * rewrite <- (decided_by_rank _ _ _ Hd) in Hr. lia.
  - assert (Hno : ~ (rank d < rank new \/ (rank new = rank d /\
              0 < EnforcerDecision.Priority new < EnforcerDecision.Priority d))).
    { rewrite <- shouldUpdateDecision_spec. congruence. }
    split.
    + intros id' p'. rewrite elem_of_app, list_elem_of_singleton. intros [Hin| ->] Hm';
        [by eapply Hb|].
      assert (p' = p) as -> by (destruct Hm as [? _], Hm' as [? _]; congruence).
      unfold beaten. rewrite <- Hnew. split; [lia|]. intros Heq _ Hp.
      subst new; cbn in *. lia.
    + destruct Hf as [?|(id' & p' & ? & ?)]; [by left | right].
      exists id', p'. set_solver.
Qed.

Lemma eval_policy_ok act e seen now d id :
  loop_ok act e seen d -> loop_ok act e (seen ++ [id]) (eval_policy now act e d id).
Proof.
  intros Hl. unfold eval_policy.
  destruct (programs e !! id) as [prog|] eqn:Hp; [|apply loop_ok_skip; [|done];
    intros p [_ (? & ? & _)]; congruence].
  destruct (policies e !! id) as [p|] eqn:Hq; [|apply loop_ok_skip; [|done];
    intros p [? _]; congruence].
  destruct (cel_eval prog act) as [err|[[]|]] eqn:He.
  - apply loop_ok_violation, loop_ok_skip; [|done]. intros p' [_ (? & ? & ?)]. congruence.
  - apply loop_ok_violation, loop_ok_update; [|done]. split; eauto.
  - apply loop_ok_skip; [|done]. intros p' [_ (? & ? & ?)]. congruence.
  - apply loop_ok_skip; [|done]. intros p' [_ (? & ? & ?)]. congruence.
Qed.

Lemma eval_loop_ok act e now order seen d :
  loop_ok act e seen d ->
  loop_ok act e (seen ++ order) (foldl (eval_policy now act e) d order).
Proof.
  revert seen d. induction order as [|id order IH]; intros seen d Hl; cbn.
  - by rewrite app_nil_r.
  - replace (seen ++ id :: order) with ((seen ++ [id]) ++ order) by (by rewrite <- app_assoc).
    apply IH, eval_policy_ok, Hl.
Qed.

Lemma no_decision_ok act e now : loop_ok act e [] (no_decision now).
Proof. split; [set_solver | by left]. Qed.

Lemma Evaluate_ok order now ctx e act d :
  cel_activation (buildActivation ctx) = Ok act ->
  Evaluate order now ctx e = Ok d -> loop_ok act e order d.
Proof.
  intros Ha. unfold Evaluate. rewrite Ha. intros [= <-].
  apply (eval_loop_ok act e now order []). apply no_decision_ok.
Qed.

Lemma Evaluate_total order now ctx e act :
  cel_activation (buildActivation ctx) = Ok act ->
  exists d, Evaluate order now ctx e = Ok d.
Proof. intros Ha. unfold Evaluate. rewrite Ha. eauto. Qed.

Lemma matches_in_order act e id p order :
  map_order order e -> matches act e id p -> id ∈ order.
Proof. intros Ho [_ (prog & Hp & _)]. apply (key_order_elem _ _ _ Ho). eauto. Qed.

(** The rank of the result is the same whatever the order. *)
Lemma Evaluate_rank act e o1 o2 d1 d2 :
  map_order o1 e -> map_order o2 e -> loop_ok act e o1 d1 -> loop_ok act e o2 d2 ->
  rank d1 <= rank d2.
Proof.
  intros Ho1 Ho2 [_ [Hu|(id & p & _ & Hm & Hd & _)]] [Hb _].
  - rewrite (undecided_rank _ Hu). apply rank_nonneg.
  - rewrite (decided_by_rank _ _ _ Hd).
    by apply (Hb id p (matches_in_order _ _ _ _ _ Ho2 Hm) Hm).
Qed.

(** A matching policy that denies decides. *)
Lemma Evaluate_denied order now ctx e act d id p :
  map_order order e -> cel_activation (buildActivation ctx) = Ok act ->
  matches act e id p -> CELPolicy.act p = ActionDeny ->
  Evaluate order now ctx e = Ok d ->
  EnforcerDecision.act d = ActionDeny.
Proof.
  intros Ho Ha Hm Hdeny He. destruct (Evaluate_ok _ _ _ _ _ _ Ha He) as [Hb _].
  destruct (Hb id p (matches_in_order _ _ _ _ _ Ho Hm) Hm) as [Hle _].
  unfold policy_rank, rank, rank_of in Hle. rewrite Hdeny in Hle.
  pose proof (severityPriority_range (CELPolicy.Severity p)).
  pose proof (severityPriority_range (EnforcerDecision.Severity d)).
  change (default 0 (actionPriority !! ActionDeny)) with 5 in Hle.
  assert (Ha5 : default 0 (actionPriority !! EnforcerDecision.act d) >= 5) by lia.
  unfold actionPriority in Ha5. rewrite lookup_insert in Ha5. case_decide; [done|].
  do 5 (rewrite lookup_insert in Ha5; case_decide; [cbn in Ha5; lia|]).
  rewrite lookup_empty in Ha5. cbn in Ha5. lia.
Qed.
End Facts.
End EngineFacts.

Section EvaluateTheorems.
Context `{CelLib}.
Import CELEngine EngineFacts.

(** C31: the decision is the most restrictive one: whatever order the policies
    are visited in, no policy that matches asks for a more restrictive action,
    or for the same action with a higher severity; the decision is that of a
    matching policy, and among those that tie with it none with a set priority
    is more specific; there is no decision only when nothing that matches has
    a known action or severity. *)
Theorem Evaluate_most_restrictive order now ctx e act d :
  map_order order e -> cel_activation (buildActivation ctx) = Ok act ->
  Evaluate order now ctx e = Ok d ->
  (forall id p, matches act e id p ->
     policy_rank p <= rank d /\
     (policy_rank p = rank d -> 0 < policy_rank p -> 0 < CELPolicy.Priority p ->
      EnforcerDecision.Priority d <= CELPolicy.Priority p)) /\
  (undecided d \/ exists id p, matches act e id p /\ decided_by id p d).
Proof.
  intros Ho Ha He. destruct (Evaluate_ok _ _ _ _ _ _ Ha He) as [Hb Hf]. split.
  - intros id p Hm. exact (Hb id p (matches_in_order _ _ _ _ _ Ho Hm) Hm).
  - destruct Hf as [?|(id & p & _ & ? & ? & _)]; eauto 6.
Qed.

(** One matching policy that denies is enough: the call is denied,
    whatever the other policies ask for, whatever their priorities and
    whatever order they are visited in. *)
Theorem Evaluate_deny_dominates order now ctx e act d id p :
  map_order order e -> cel_activation (buildActivation ctx) = Ok act ->
  matches act e id p -> CELPolicy.act p = ActionDeny ->
  Evaluate order now ctx e = Ok d ->
  EnforcerDecision.act d = ActionDeny.
Proof. intros. by eapply EngineFacts.Evaluate_denied. Qed.

(** When the priorities of the matching policies are set and tell apart
    those of equal action and severity, the decision (its action, severity,
    message, policy and priority) does not depend on the order in which Go
    visits the map of policies. *)
Theorem Evaluate_order_independent o1 o2 now1 now2 ctx e act d1 d2 :
  map_order o1 e -> map_order o2 e -> cel_activation (buildActivation ctx) = Ok act ->
  (forall id p, matches act e id p -> 0 < CELPolicy.Priority p) ->
  (forall id1 p1 id2 p2, matches act e id1 p1 -> matches act e id2 p2 ->
     policy_rank p1 = policy_rank p2 -> CELPolicy.Priority p1 = CELPolicy.Priority p2 ->
     id1 = id2) ->
  Evaluate o1 now1 ctx e = Ok d1 -> Evaluate o2 now2 ctx e = Ok d2 ->
  EnforcerDecision.act d1 = EnforcerDecision.act d2 /\
  EnforcerDecision.Severity d1 = EnforcerDecision.Severity d2 /\
  EnforcerDecision.Message d1 = EnforcerDecision.Message d2 /\
  EnforcerDecision.PolicyID d1 = EnforcerDecision.PolicyID d2 /\
  EnforcerDecision.Priority d1 = EnforcerDecision.Priority d2.
Proof.
  intros Ho1 Ho2 Ha Hpos Hdist He1 He2.
  pose proof (Evaluate_ok _ _ _ _ _ _ Ha He1) as L1.
  pose proof (Evaluate_ok _ _ _ _ _ _ Ha He2) as L2.
  assert (Heq : rank d1 = rank d2)
    by (apply Z.le_antisymm; [exact (Evaluate_rank _ _ _ _ _ _ Ho1 Ho2 L1 L2)
                             | exact (Evaluate_rank _ _ _ _ _ _ Ho2 Ho1 L2 L1)]).
  destruct L1 as [Hb1 [Hu1|(id1 & p1 & Hi1 & Hm1 & Hd1 & Hr1)]],
           L2 as [Hb2 [Hu2|(id2 & p2 & Hi2 & Hm2 & Hd2 & Hr2)]].
  - destruct Hu1 as (-> & -> & -> & -> & ->), Hu2 as (-> & -> & -> & -> & ->). done.
  - rewrite (undecided_rank _ Hu1), (decided_by_rank _ _ _ Hd2) in Heq. lia.
  - rewrite (undecided_rank _ Hu2), (decided_by_rank _ _ _ Hd1) in Heq. lia.
  - pose proof (Hpos _ _ Hm1). pose proof (Hpos _ _ Hm2).
    pose proof (decided_by_rank _ _ _ Hd1) as R1. pose proof (decided_by_rank _ _ _ Hd2) as R2.
    destruct (Hb1 id2 p2 (matches_in_order _ _ _ _ _ Ho1 Hm2) Hm2) as [_ T1].
    destruct (Hb2 id1 p1 (matches_in_order _ _ _ _ _ Ho2 Hm1) Hm1) as [_ T2].
    specialize (T1 ltac:(lia) Hr2 ltac:(done)). specialize (T2 ltac:(lia) Hr1 ltac:(done)).
    destruct Hd1 as (-> & -> & -> & -> & P1), Hd2 as (-> & -> & -> & -> & P2).
    assert (id1 = id2) as <- by (eapply Hdist; eauto; lia).
    assert (p1 = p2) as <- by (destruct Hm1 as [? _], Hm2 as [? _]; congruence).
    split_and!; congruence.
Qed.
End EvaluateTheorems.

(** ** The dispositions *)

Module DispositionFacts.
Section Facts.
Context `{CelLib}.
Import CELEngine EngineFacts.

Definition policy_order (order : list string) (e : t) : Prop :=
  key_order order (policies e).

(** The engine's invariant: programs and policies agree, and the
    dispositions are those of the policies. *)
Record engine_ok (e : t) : Prop := {
  ok_consistent : consistent e;
  ok_dispositions : exists order, policy_order order e /\
    dispositions e = dispositions (loadDispositions order e)
}.

(** The entry a policy contributes to a context. *)
Definition entry_of (ctx : MatchContext) (p : CELPolicy.t) : option prioritisedDisposition :=
  ds ← CELPolicy.Dispositions p;
  a ← ds !! ctx;
  Some {| priority := CELPolicy.Priority p; action := a; message := CELPolicy.Message p |}.

Lemma add_disposition_list p m l ctx :
  NoDup l.*1 ->
  default [] (foldl (add_disposition p) m l !! ctx) =
  default [] (m !! ctx) ++
    match list_to_map (M := gmap MatchContext Action) l !! ctx with
    | Some a => [{| priority := CELPolicy.Priority p; action := a;
                    message := CELPolicy.Message p |}]
    | None => []
    end.
Proof.
  revert m. induction l as [|[c a] l IH]; intros m Hnd; cbn.
  { by rewrite app_nil_r. }
  apply NoDup_cons in Hnd as [Hc Hnd]. rewrite (IH _ Hnd). cbn.
  destruct (decide (c = ctx)) as [->|Hne].
  - rewrite !lookup_insert_eq, (not_elem_of_list_to_map_1 l ctx) by done.
    by rewrite app_nil_r.
  - by rewrite !lookup_insert_ne by done.
Qed.

Lemma add_dispositions_lookup m p ctx :
  default [] (add_dispositions m p !! ctx) =
  default [] (m !! ctx) ++ option_list (entry_of ctx p).
Proof.
  unfold add_dispositions, entry_of. destruct (CELPolicy.Dispositions p) as [ds|]; cbn.
  - rewrite add_disposition_list by apply NoDup_fst_map_to_list.
    rewrite list_to_map_to_list. by destruct (ds !! ctx).
  - by rewrite app_nil_r.
Qed.

Lemma loadDispositions_lookup order e ctx :
  default [] (dispositions (loadDispositions order e) !! ctx) =
  omap (fun id => policies e !! id ≫= entry_of ctx) order.
Proof.
  unfold loadDispositions. cbn [dispositions].
  assert (Hgen : forall m, default [] (foldl (fun m id => match policies e !! id with
            | Some p => add_dispositions m p | None => m end) m order !! ctx) =
            default [] (m !! ctx) ++ omap (fun id => policies e !! id ≫= entry_of ctx) order).
  { induction order as [|id order IH]; intros m; cbn; [by rewrite app_nil_r|].
    rewrite IH. destruct (policies e !! id) as [p|]; cbn; [|done].
    rewrite add_dispositions_lookup, <- app_assoc. by destruct (entry_of ctx p). }
  by rewrite Hgen, lookup_empty.
Qed.

Lemma best_disposition_spec b l :
  let r := best_disposition b l in
  (r = b \/ r ∈ l) /\ priority r <= priority b /\ Forall (fun x => priority r <= priority x) l.
Proof.
  unfold best_disposition. revert b. induction l as [|x l IH]; intros b; cbn.
  { split_and!; [by left | lia | constructor]. }
  destruct (IH (if priority x <? priority b then x else b)) as (Hin & Hle & Hall).
  revert Hin Hle Hall. set (r := foldl _ _ l). case_if; intros Hin Hle Hall.
  - split_and!; [set_solver | lia | by constructor].
  - split_and!; [set_solver | lia | constructor; [lia | done]].
Qed.

Lemma consistent_keys e id :
  consistent e -> is_Some (programs e !! id) <-> is_Some (policies e !! id).
Proof.
  intros Hc. specialize (Hc id).
  destruct (programs e !! id), (policies e !! id); split; intros [? ?]; eauto; done.
Qed.

Lemma AddPolicy_ok order p e :
  engine_ok e -> policy_order order (AddPolicy order p e).2 -> engine_ok (AddPolicy order p e).2.
Proof.
  intros Hok. unfold AddPolicy. destruct (CELPolicy.Enabled p) eqn:Hen; cbn; [|done].
  destruct (compile p) as [prog|err] eqn:Hcomp; cbn; [|done].
  intros Ho. split.
  - intros id. cbn. destruct (decide (id = CELPolicy.ID p)) as [->|Hne].
    + by rewrite !lookup_insert_eq.
    + rewrite !lookup_insert_ne by done. apply (ok_consistent e Hok).
  - exists order. split; [exact Ho | done].
Qed.

Lemma NewCELEngine_ok : engine_ok NewCELEngine.
Proof.
  split; [intros id; cbn; by rewrite !lookup_empty|].
  exists []. split; [|done]. split; [constructor | done].
Qed.

(** Adding policies one after the other, with the orders Go chose. *)
Fixpoint add_all (l : list (list string * CELPolicy.t)) (e : t) : t :=
  match l with
  | [] => e
  | (order, p) :: l' => add_all l' (AddPolicy order p e).2
  end.

Fixpoint valid_orders (l : list (list string * CELPolicy.t)) (e : t) : Prop :=
  match l with
  | [] => True
  | (order, p) :: l' =>
      policy_order order (AddPolicy order p e).2 /\ valid_orders l' (AddPolicy order p e).2
  end.

Lemma add_all_ok l e : engine_ok e -> valid_orders l e -> engine_ok (add_all l e).
Proof.
  revert e. induction l as [|[order p] l IH]; intros e Hok; cbn; [done|].
  intros [Ho Hv]. apply IH; [by apply AddPolicy_ok | done].
Qed.

(** The last policy added under an id that is enabled and compiles. *)
Lemma AddPolicy_lookup order p e id :
  policies (AddPolicy order p e).2 !! id =
    if decide (id = CELPolicy.ID p) then
      if CELPolicy.Enabled p && is_ok (compile p) then Some p else policies e !! id
    else policies e !! id.
Proof.
  unfold AddPolicy. destruct (CELPolicy.Enabled p); cbn; [|by case_decide].
  destruct (compile p); cbn; [|by case_decide].
  rewrite lookup_insert. by repeat case_decide; subst.
Qed.
End Facts.
End DispositionFacts.

Section DispositionTheorems.
Context `{CelLib}.
Import CELEngine EngineFacts DispositionFacts.

(** After any sequence of policy additions, in whatever order Go visits
    its maps, every loaded policy is enabled and runs the program compiled
    from its own expression, an addition that fails to compile or is disabled
    changes nothing, and the disposition of a trigger is the one of a loaded
    policy with the least priority number among those that have one. *)
Theorem engine_dispositions l ctx :
  valid_orders l NewCELEngine ->
  let e := add_all l NewCELEngine in
  consistent e /\
  (forall order p, CELPolicy.Enabled p && is_ok (compile p) = false ->
     (AddPolicy order p e).2 = e) /\
  match LookupDisposition ctx e with
  | Some (a, msg) =>
      exists id p ds, policies e !! id = Some p /\ CELPolicy.Dispositions p = Some ds /\
        ds !! ctx = Some a /\ CELPolicy.Message p = msg /\
        forall id' p' ds' a', policies e !! id' = Some p' ->
          CELPolicy.Dispositions p' = Some ds' -> ds' !! ctx = Some a' ->
          CELPolicy.Priority p <= CELPolicy.Priority p'
  | None => forall id p ds, policies e !! id = Some p ->
              CELPolicy.Dispositions p = Some ds -> ds !! ctx = None
  end.
Proof.
  intros Hv e. pose proof (add_all_ok l _ NewCELEngine_ok Hv) as Hok. fold e in Hok.
  split; [apply Hok|]. split.
  { intros order p Hno. unfold AddPolicy. destruct (CELPolicy.Enabled p); [|done].
    cbn in *. by destruct (compile p). }
  destruct (ok_dispositions e Hok) as (order & Ho & Hd).
  pose proof (loadDispositions_lookup order e ctx) as Hlk. rewrite <- Hd in Hlk.
  assert (Hin : forall id p x, policies e !! id = Some p -> entry_of ctx p = Some x ->
            x ∈ default [] (dispositions e !! ctx)).
  { intros id p x Hp Hx. rewrite Hlk. apply list_elem_of_omap. exists id.
    split; [apply (key_order_elem _ _ _ Ho); eauto | by rewrite Hp]. }
  unfold LookupDisposition.
  destruct (dispositions e !! ctx) as [[|first rest]|] eqn:Hc; cbn in Hin, Hlk.
  - intros id p ds Hp Hds. destruct (ds !! ctx) as [a|] eqn:Ha; [|done].
    destruct (not_elem_of_nil {| priority := CELPolicy.Priority p; action := a;
                                 message := CELPolicy.Message p |}).
    apply (Hin id p); [done|]. unfold entry_of. by rewrite Hds; cbn; rewrite Ha.
  - destruct (best_disposition_spec first rest) as (Hmem & Hle & Hall).
    set (best := best_disposition first rest) in *.
    assert (Hbest : best ∈ first :: rest) by set_solver.
    rewrite Hlk in Hbest. apply list_elem_of_omap in Hbest as (id & _ & Hid).
    destruct (policies e !! id) as [p|] eqn:Hp; [|done]. cbn in Hid.
    unfold entry_of in Hid. destruct (CELPolicy.Dispositions p) as [ds|] eqn:Hds; [|done].
    cbn in Hid. destruct (ds !! ctx) as [a|] eqn:Ha; [|done]. injection Hid as Hb.
    exists id, p, ds. rewrite <- Hb. cbn. split_and!; try done.
    intros id' p' ds' a' Hp' Hds' Ha'.
    assert (Hx : {| priority := CELPolicy.Priority p'; action := a';
                    message := CELPolicy.Message p' |} ∈ first :: rest).
    { apply (Hin id' p'); [done|]. unfold entry_of. by rewrite Hds'; cbn; rewrite Ha'. }
    rewrite <- Hb in Hle, Hall. cbn in Hle, Hall.
    apply elem_of_cons in Hx as [<-|Hx]; [done|].
    rewrite Forall_forall in Hall. exact (Hall _ Hx).
  - intros id p ds Hp Hds. destruct (ds !! ctx) as [a|] eqn:Ha; [|done].
    destruct (not_elem_of_nil {| priority := CELPolicy.Priority p; action := a;
                                 message := CELPolicy.Message p |}).
    apply (Hin id p); [done|]. unfold entry_of. by rewrite Hds; cbn; rewrite Ha.
Qed.
End DispositionTheorems.

(** ** A small expression language for the witnesses *)

Definition demo_cel : CelLib := {|
  Ast := string; Checked := string; Program := string;
  cel_parse := fun s => if bool_decide (s = EmptyString) then Err (Errorf "syntax") else Ok s;
  cel_check := Ok;
  cel_program := Ok;
  cel_eval := fun prog _ => if bool_decide (prog = "error") then inl "no such key"
                            else inr (Some (bool_decide (prog = "true")));
  cel_activation := Ok
|}.

Definition demo_policy (id expr : string) (a : Action) (prio : Z) : CELPolicy.t :=
  CELPolicy.mk id "desc" expr a ("by " +:+ id) SeverityHigh true prio
    (Some (<[MatchContextRiskLimit := a]> ∅)).

Definition demo_ctx : DecisionContext.t :=
  DecisionContext.mk "alice" "user" "a@x" 50 "slk_post" [] "because" SafetyProfile.zero 0
    "slack" EmptyString RateLimitInfo.zero EmptyString.

Definition demo_additions : list (list string * CELPolicy.t) :=
  [(["p1"], demo_policy "p1" "true" ActionWarn 20);
   (["p1"; "p2"], demo_policy "p2" "true" ActionDeny 15);
   (["p2"; "p1"], demo_policy "p3" EmptyString ActionDeny 1);
   (["p4"; "p2"; "p1"], demo_policy "p4" "error" ActionAllow 5)].

Section Witnesses.
#[local] Existing Instance demo_cel.
Import CELEngine EngineFacts DispositionFacts.

Definition demo_engine : t := add_all demo_additions NewCELEngine.

Lemma demo_valid : valid_orders demo_additions NewCELEngine.
Proof.
  unfold demo_additions, policy_order. cbn [valid_orders]. unfold policy_order.
  repeat (split; [refine (bool_decide_unpack _ _); vm_compute; exact I|]). exact I.
Qed.

Lemma engine_dispositions_witness :
  LookupDisposition MatchContextRiskLimit demo_engine = Some (ActionAllow, "by p4") /\
  exists id p ds, policies demo_engine !! id = Some p /\ CELPolicy.Dispositions p = Some ds /\
    ds !! MatchContextRiskLimit = Some ActionAllow /\ CELPolicy.Message p = "by p4".
Proof.
  assert (HL : LookupDisposition MatchContextRiskLimit demo_engine
               = Some (ActionAllow, "by p4")) by (vm_compute; reflexivity).
  split; [exact HL|].
  pose proof (engine_dispositions demo_additions MatchContextRiskLimit demo_valid) as Hd.
  cbv zeta in Hd. fold demo_engine in Hd. rewrite HL in Hd.
  destruct Hd as (_ & _ & id & p & ds & H1 & H2 & H3 & H4 & _).
  exists id, p, ds. split_and!; assumption.
Defined.

Lemma demo_order : map_order ["p4"; "p1"; "p2"] demo_engine.
Proof. unfold map_order. refine (bool_decide_unpack _ _). vm_compute. exact I. Qed.

Lemma demo_order' : map_order ["p1"; "p2"; "p4"] demo_engine.
Proof. unfold map_order. refine (bool_decide_unpack _ _). vm_compute. exact I. Qed.

Lemma demo_matches :
  matches (buildActivation demo_ctx) demo_engine "p2" (demo_policy "p2" "true" ActionDeny 15).
Proof.
  split; [vm_compute; reflexivity|]. exists "true".
  split; [vm_compute; reflexivity | reflexivity].
Qed.

(** The decision of the demo engine, in either order. *)
Definition demo_decision (order : list string) : EnforcerDecision.t :=
  match Evaluate order 0 demo_ctx demo_engine with
  | Ok d => d | Err _ => EnforcerDecision.zero end.

Lemma Evaluate_most_restrictive_witness :
  rank_of ActionDeny SeverityHigh <= rank (demo_decision ["p4"; "p1"; "p2"]).
Proof.
  destruct (Evaluate_most_restrictive ["p4"; "p1"; "p2"] 0 demo_ctx demo_engine
    (buildActivation demo_ctx) (demo_decision ["p4"; "p1"; "p2"]) demo_order eq_refl eq_refl)
    as [Hb _].
  exact (proj1 (Hb "p2" _ demo_matches)).
Defined.

Lemma Evaluate_deny_dominates_witness :
  EnforcerDecision.act (demo_decision ["p4"; "p1"; "p2"]) = ActionDeny.
Proof.
  exact (Evaluate_deny_dominates ["p4"; "p1"; "p2"] 0 demo_ctx demo_engine
    (buildActivation demo_ctx) (demo_decision ["p4"; "p1"; "p2"]) "p2" _
    demo_order eq_refl demo_matches eq_refl eq_refl).
Defined.

Lemma demo_matching id p :
  matches (buildActivation demo_ctx) demo_engine id p ->
  (id = "p1" /\ p = demo_policy "p1" "true" ActionWarn 20) \/
  (id = "p2" /\ p = demo_policy "p2" "true" ActionDeny 15).
Proof.
  intros Hm. pose proof (matches_in_order _ _ _ _ _ demo_order' Hm) as Hin.
  destruct Hm as [Hp (prog & Hprog & He)].
  apply elem_of_cons in Hin as [->|Hin]; [left|].
  { split; [done|]. vm_compute in Hp. by injection Hp as <-. }
  apply elem_of_cons in Hin as [->|Hin]; [right|].
  { split; [done|]. vm_compute in Hp. by injection Hp as <-. }
  apply list_elem_of_singleton in Hin as ->.
  vm_compute in Hprog. injection Hprog as <-. vm_compute in He. done.
Qed.

Lemma Evaluate_order_independent_witness :
  EnforcerDecision.PolicyID (demo_decision ["p4"; "p1"; "p2"])
  = EnforcerDecision.PolicyID (demo_decision ["p1"; "p2"; "p4"]).
Proof.
  destruct (Evaluate_order_independent ["p4"; "p1"; "p2"] ["p1"; "p2"; "p4"] 0 0 demo_ctx
    demo_engine (buildActivation demo_ctx) (demo_decision ["p4"; "p1"; "p2"])
    (demo_decision ["p1"; "p2"; "p4"]) demo_order demo_order' eq_refl) as (_ & _ & _ & H & _).
  - intros id p [[_ ->]|[_ ->]]%demo_matching; reflexivity.
  - intros id1 p1 id2 p2 [[-> ->]|[-> ->]]%demo_matching [[-> ->]|[-> ->]]%demo_matching;
      intros Hr; try done.
  - reflexivity.
  - reflexivity.
  - exact H.
Defined.
End Witnesses.
