(* ===== verification/EnforcerStore.v ===== *)
(** * The enforcer's database: [src/store/enforcer_store.go], [rate_limit_store.go]

    The tables of the enforcer and the statements that read and change them.
    A table is a finite map from its primary or unique key; [ORDER BY] is a
    merge sort; the foreign keys, checks and unique keys of [migrate] are
    tested where a statement can violate them.

    A statement can fail: the state holds a schedule of faults, one entry per
    statement, and a faulty statement returns an error and changes nothing.
    The three reads the resolver performs fail as long as their table is
    marked unreadable. *)
From S2P Require Import Prelude Sql EnforcerTypes Resolver.
From stdpp Require Import sorting.
Open Scope Z_scope.

(** ** Rows *)

Module PolicyRow.
Record t := mk {
  ID : string;
  Name : string;
  Description : string;
  Scope : string;
  Expression : string;
  act : string;            (* the column action *)
  Severity : string;
  Message : string;
  Enabled : bool;
  Priority : Z;
  Locked : bool;
  CreatedAt : Time;
  UpdatedAt : Time;
  DispositionsJSON : string
}.
End PolicyRow.

Module ApprovalRequestRow.
Record t := mk {
  ID : string;
  UserID : string;
  UserEmail : string;
  UserRole : string;
  TrustLevel : Z;
  ToolName : string;
  ToolArgs : string;
  BackendID : string;
  SafetyProfile : string;
  Status : string;
  QueueType : string;
  Justification : string;
  RequestedAt : Time;
  ExpiresAt : Time;
  ApprovedBy : option string;
  ApprovedAt : option Time;
  DenialReason : string;
  Comments : string;
  PolicyID : string;
  ViolationMsg : string;
  MatchCtx : string;       (* the field MatchContext *)
  RequestBody : string;
  ResponseStatus : Z;
  ResponseBody : string;
  ExecutedAt : option Time;
  ErrorMsg : string
}.

Definition with_status (st : string) (r : t) : t :=
  mk (ID r) (UserID r) (UserEmail r) (UserRole r) (TrustLevel r) (ToolName r) (ToolArgs r)
     (BackendID r) (SafetyProfile r) st (QueueType r) (Justification r) (RequestedAt r)
     (ExpiresAt r) (ApprovedBy r) (ApprovedAt r) (DenialReason r) (Comments r) (PolicyID r)
     (ViolationMsg r) (MatchCtx r) (RequestBody r) (ResponseStatus r) (ResponseBody r)
     (ExecutedAt r) (ErrorMsg r).
Definition with_approver (who : string) (at_ : Time) (r : t) : t :=
  mk (ID r) (UserID r) (UserEmail r) (UserRole r) (TrustLevel r) (ToolName r) (ToolArgs r)
     (BackendID r) (SafetyProfile r) (Status r) (QueueType r) (Justification r) (RequestedAt r)
     (ExpiresAt r) (Some who) (Some at_) (DenialReason r) (Comments r) (PolicyID r)
     (ViolationMsg r) (MatchCtx r) (RequestBody r) (ResponseStatus r) (ResponseBody r)
     (ExecutedAt r) (ErrorMsg r).
Definition with_comments (c : string) (r : t) : t :=
  mk (ID r) (UserID r) (UserEmail r) (UserRole r) (TrustLevel r) (ToolName r) (ToolArgs r)
     (BackendID r) (SafetyProfile r) (Status r) (QueueType r) (Justification r) (RequestedAt r)
     (ExpiresAt r) (ApprovedBy r) (ApprovedAt r) (DenialReason r) c (PolicyID r)
     (ViolationMsg r) (MatchCtx r) (RequestBody r) (ResponseStatus r) (ResponseBody r)
     (ExecutedAt r) (ErrorMsg r).
Definition with_denial (why : string) (r : t) : t :=
  mk (ID r) (UserID r) (UserEmail r) (UserRole r) (TrustLevel r) (ToolName r) (ToolArgs r)
     (BackendID r) (SafetyProfile r) (Status r) (QueueType r) (Justification r) (RequestedAt r)
     (ExpiresAt r) (ApprovedBy r) (ApprovedAt r) why (Comments r) (PolicyID r)
     (ViolationMsg r) (MatchCtx r) (RequestBody r) (ResponseStatus r) (ResponseBody r)
     (ExecutedAt r) (ErrorMsg r).
Definition with_response (status : Z) (body : string) (at_ : Time) (r : t) : t :=
  mk (ID r) (UserID r) (UserEmail r) (UserRole r) (TrustLevel r) (ToolName r) (ToolArgs r)
     (BackendID r) (SafetyProfile r) (Status r) (QueueType r) (Justification r) (RequestedAt r)
     (ExpiresAt r) (ApprovedBy r) (ApprovedAt r) (DenialReason r) (Comments r) (PolicyID r)
     (ViolationMsg r) (MatchCtx r) (RequestBody r) status body (Some at_) (ErrorMsg r).
Definition with_error (msg : string) (at_ : Time) (r : t) : t :=
  mk (ID r) (UserID r) (UserEmail r) (UserRole r) (TrustLevel r) (ToolName r) (ToolArgs r)
     (BackendID r) (SafetyProfile r) (Status r) (QueueType r) (Justification r) (RequestedAt r)
     (ExpiresAt r) (ApprovedBy r) (ApprovedAt r) (DenialReason r) (Comments r) (PolicyID r)
     (ViolationMsg r) (MatchCtx r) (RequestBody r) (ResponseStatus r) (ResponseBody r)
     (Some at_) msg.

(** The columns an INSERT of a new request sets; the others take the
    defaults of the table.  [match_context] is not a column. *)
Definition inserted (r : t) : t :=
  mk (ID r) (UserID r) (UserEmail r) (UserRole r) (TrustLevel r) (ToolName r) (ToolArgs r)
     (BackendID r) (SafetyProfile r) (Status r) (QueueType r) (Justification r) (RequestedAt r)
     (ExpiresAt r) None None EmptyString EmptyString (PolicyID r) (ViolationMsg r) EmptyString
     (RequestBody r) 0 EmptyString None EmptyString.
End ApprovalRequestRow.

Module KillSwitchRow.
Record t := mk {
  ID : string;
  Name : string;
  Scope : string;
  Enabled : bool;
  EnabledAt : option Time;
  EnabledBy : option string;
  Reason : string;
  CreatedAt : Time;
  UpdatedAt : Time
}.
End KillSwitchRow.

Module UserRateLimitOverrideRow.
Record t := mk {
  ID : string;
  UserID : string;
  BackendID : string;
  SetBy : string;
  RiskCapacity : Z;
  ResourceCapacity : Z;
  CostMultiplier : Z;
  CreatedAt : option Time;  (* None: the zero time *)
  UpdatedAt : option Time
}.
End UserRateLimitOverrideRow.

Module RateLimitBucketConfigRow.
Record t := mk {
  ID : string; BackendID : string; BucketType : string;
  Capacity : Z; RefillRate : Z; CreatedAt : Time; UpdatedAt : Time }.
End RateLimitBucketConfigRow.

Module RateLimitStateRow.
Record t := mk {
  ID : string; UserID : string; BackendID : string; BucketType : string;
  CurrentLevel : Z; LastRefillAt : Time; CreatedAt : Time }.
End RateLimitStateRow.

(** A row of [enforcer_audit_log]. *)
Module AuditRow.
Record t := mk {
  id : string; request_id : string; user_id : string; tool_name : string; action : string;
  policy_id : string; message : string; context : string; justification : string;
  arguments : string; rejection_reason : option string; created_at : Time }.
End AuditRow.

(** ** The database *)

Record db := mkdb {
  policies : gmap string PolicyRow.t;
  approvals : gmap string ApprovalRequestRow.t;
  kill_switches : gmap string KillSwitchRow.t;            (* by scope *)
  audit_log : list AuditRow.t;
  audit_has_arguments : bool;                             (* the column exists *)
  tool_profiles : gmap (string * string) ToolProfileRow.t; (* by backend, tool *)
  overrides : gmap (string * string) EnforcerOverrideRow.t; (* by tool, backend *)
  rate_overrides : gmap (string * string * string) UserRateLimitOverrideRow.t;
  bucket_configs : gmap (string * string) RateLimitBucketConfigRow.t;
  bucket_states : gmap (string * string * string) RateLimitStateRow.t;
  rate_buckets : gmap (string * string * Time) (string * Z);  (* id and count *)
  users : gset string;
  backends : gmap string string;                          (* id and tool_prefix *)
  faults : list bool;                                     (* of the next statements *)
  unreadable : gset string                                (* tables, for the resolver *)
}.

Definition set_policies f d := mkdb (f (policies d)) (approvals d) (kill_switches d) (audit_log d)
  (audit_has_arguments d) (tool_profiles d) (overrides d) (rate_overrides d) (bucket_configs d)
  (bucket_states d) (rate_buckets d) (users d) (backends d) (faults d) (unreadable d).
Definition set_approvals f d := mkdb (policies d) (f (approvals d)) (kill_switches d) (audit_log d)
  (audit_has_arguments d) (tool_profiles d) (overrides d) (rate_overrides d) (bucket_configs d)
  (bucket_states d) (rate_buckets d) (users d) (backends d) (faults d) (unreadable d).
Definition set_kill_switches f d := mkdb (policies d) (approvals d) (f (kill_switches d))
  (audit_log d) (audit_has_arguments d) (tool_profiles d) (overrides d) (rate_overrides d)
  (bucket_configs d) (bucket_states d) (rate_buckets d) (users d) (backends d) (faults d)
  (unreadable d).
Definition set_audit_log f d := mkdb (policies d) (approvals d) (kill_switches d) (f (audit_log d))
  (audit_has_arguments d) (tool_profiles d) (overrides d) (rate_overrides d) (bucket_configs d)
  (bucket_states d) (rate_buckets d) (users d) (backends d) (faults d) (unreadable d).
Definition set_tool_profiles f d := mkdb (policies d) (approvals d) (kill_switches d)
  (audit_log d) (audit_has_arguments d) (f (tool_profiles d)) (overrides d) (rate_overrides d)
  (bucket_configs d) (bucket_states d) (rate_buckets d) (users d) (backends d) (faults d)
  (unreadable d).
Definition set_overrides f d := mkdb (policies d) (approvals d) (kill_switches d) (audit_log d)
  (audit_has_arguments d) (tool_profiles d) (f (overrides d)) (rate_overrides d)
  (bucket_configs d) (bucket_states d) (rate_buckets d) (users d) (backends d) (faults d)
  (unreadable d).
Definition set_rate_overrides f d := mkdb (policies d) (approvals d) (kill_switches d)
  (audit_log d) (audit_has_arguments d) (tool_profiles d) (overrides d) (f (rate_overrides d))
  (bucket_configs d) (bucket_states d) (rate_buckets d) (users d) (backends d) (faults d)
  (unreadable d).
Definition set_bucket_configs f d := mkdb (policies d) (approvals d) (kill_switches d)
  (audit_log d) (audit_has_arguments d) (tool_profiles d) (overrides d) (rate_overrides d)
  (f (bucket_configs d)) (bucket_states d) (rate_buckets d) (users d) (backends d) (faults d)
  (unreadable d).
Definition set_bucket_states f d := mkdb (policies d) (approvals d) (kill_switches d)
  (audit_log d) (audit_has_arguments d) (tool_profiles d) (overrides d) (rate_overrides d)
  (bucket_configs d) (f (bucket_states d)) (rate_buckets d) (users d) (backends d) (faults d)
  (unreadable d).
Definition set_rate_buckets f d := mkdb (policies d) (approvals d) (kill_switches d) (audit_log d)
  (audit_has_arguments d) (tool_profiles d) (overrides d) (rate_overrides d) (bucket_configs d)
  (bucket_states d) (f (rate_buckets d)) (users d) (backends d) (faults d) (unreadable d).
Definition set_faults fs d := mkdb (policies d) (approvals d) (kill_switches d) (audit_log d)
  (audit_has_arguments d) (tool_profiles d) (overrides d) (rate_overrides d) (bucket_configs d)
  (bucket_states d) (rate_buckets d) (users d) (backends d) fs (unreadable d).

(** A statement that can fail. *)
Definition stmt {A} (f : db -> res A * db) (d : db) : res A * db :=
  match faults d with
  | true :: fs => (Err ErrSql, set_faults fs d)
  | false :: fs => f (set_faults fs d)
  | [] => f d
  end.
Definition exec (f : db -> db) : db -> res unit * db := stmt (fun d => (Ok tt, f d)).
Definition query {A} (f : db -> res A) : db -> res A * db := stmt (fun d => (f d, d)).
(** An INSERT that violates a constraint of the table unless [ok]. *)
Definition exec_checked (ok : db -> bool) (f : db -> db) : db -> res unit * db :=
  stmt (fun d => if ok d then (Ok tt, f d) else (Err ErrSql, d)).

(** INSERT ... ON CONFLICT(key) DO UPDATE: the clause covers the conflict with
    the row of the same key only; the id is the primary key, so a row with a
    new key cannot use the id of another row. *)
Definition upsertable {K A} `{Countable K} (key : K) (row_id : A -> string) (id : string)
    (m : gmap K A) : bool :=
  bool_decide (is_Some (m !! key)) ||
  negb (existsb (fun r => bool_decide (row_id r = id)) (rows m)).

(** ** Policies *)

Definition CreatePolicy (policy : PolicyRow.t) : db -> res unit * db :=
  exec_checked (fun d => bool_decide (policies d !! PolicyRow.ID policy = None))
    (set_policies (<[PolicyRow.ID policy := policy]>)).

Definition GetPolicy (id : string) : db -> res PolicyRow.t * db :=
  query (fun d => match policies d !! id with Some p => Ok p | None => Err ErrNoRows end).

(** ORDER BY priority ASC, created_at ASC *)
Definition policy_before (a b : PolicyRow.t) : bool :=
  (PolicyRow.Priority a <? PolicyRow.Priority b) ||
  ((PolicyRow.Priority a =? PolicyRow.Priority b) &&
   (PolicyRow.CreatedAt a <=? PolicyRow.CreatedAt b)).

(** The enabled policies only. *)
Definition ListPolicies : db -> res (list PolicyRow.t) * db :=
  query (fun d => Ok (sort_by policy_before
                        (filter (fun p => PolicyRow.Enabled p = true) (rows (policies d))))).

Definition DeletePolicy (id : string) : db -> res unit * db :=
  exec (set_policies (delete id)).

(** [created_at] and the id are kept; no row is added. *)
Definition UpdatePolicy (policy : PolicyRow.t) : db -> res unit * db :=
  exec (set_policies (alter (fun old =>
    PolicyRow.mk (PolicyRow.ID old) (PolicyRow.Name policy) (PolicyRow.Description policy)
      (PolicyRow.Scope policy) (PolicyRow.Expression policy) (PolicyRow.act policy)
      (PolicyRow.Severity policy) (PolicyRow.Message policy) (PolicyRow.Enabled policy)
      (PolicyRow.Priority policy) (PolicyRow.Locked policy) (PolicyRow.CreatedAt old)
      (PolicyRow.UpdatedAt policy) (PolicyRow.DispositionsJSON policy)) (PolicyRow.ID policy))).

(** ** Approval requests *)

Definition CreateApprovalRequest (req : ApprovalRequestRow.t) : db -> res unit * db :=
  exec_checked (fun d =>
      bool_decide (approvals d !! ApprovalRequestRow.ID req = None) &&
      bool_decide (ApprovalRequestRow.UserID req ∈ users d))
    (set_approvals (<[ApprovalRequestRow.ID req := ApprovalRequestRow.inserted req]>)).

Definition GetApprovalRequest (id : string) : db -> res ApprovalRequestRow.t * db :=
  query (fun d => match approvals d !! id with Some r => Ok r | None => Err ErrNoRows end).

Definition oldest_first (a b : ApprovalRequestRow.t) : bool :=
  ApprovalRequestRow.RequestedAt a <=? ApprovalRequestRow.RequestedAt b.
Definition newest_first (a b : ApprovalRequestRow.t) : bool := oldest_first b a.

Definition ListPendingApprovals : db -> res (list ApprovalRequestRow.t) * db :=
  query (fun d => Ok (sort_by oldest_first
    (filter (fun r => ApprovalRequestRow.Status r = "PENDING") (rows (approvals d))))).

Definition ListAllApprovals : db -> res (list ApprovalRequestRow.t) * db :=
  query (fun d => Ok (take 100 (sort_by newest_first (rows (approvals d))))).

Definition queue_pending (queue : string) (d : db) : list ApprovalRequestRow.t :=
  filter (fun r => ApprovalRequestRow.Status r = "PENDING" /\
                   ApprovalRequestRow.QueueType r = queue) (rows (approvals d)).

Definition ListUserPendingApprovals : db -> res (list ApprovalRequestRow.t) * db :=
  query (fun d => Ok (sort_by oldest_first (queue_pending "user" d))).

Definition ListUserAllApprovals (userID : string) : db -> res (list ApprovalRequestRow.t) * db :=
  query (fun d => Ok (sort_by newest_first
    (filter (fun r => ApprovalRequestRow.UserID r = userID /\
                      ApprovalRequestRow.QueueType r = "user") (rows (approvals d))))).

Definition ListAdminPendingApprovals : db -> res (list ApprovalRequestRow.t) * db :=
  query (fun d => Ok (sort_by oldest_first (queue_pending "admin" d))).

Definition CountUserPendingApprovals : db -> res Z * db :=
  query (fun d => Ok (Z.of_nat (length (queue_pending "user" d)))).

Definition CountAdminPendingApprovals : db -> res Z * db :=
  query (fun d => Ok (Z.of_nat (length (queue_pending "admin" d)))).

(** The UPDATEs have no condition on the status. *)
Definition update_approval (id : string)
    (f : ApprovalRequestRow.t -> ApprovalRequestRow.t) : db -> res unit * db :=
  exec (set_approvals (alter f id)).

Definition MarkExecuting (id : string) : db -> res unit * db :=
  update_approval id (ApprovalRequestRow.with_status "EXECUTING").

Definition MarkCompleted (id : string) (responseStatus : Z) (responseBody : string) (now : Time) :
    db -> res unit * db :=
  update_approval id (fun r => ApprovalRequestRow.with_status "COMPLETED"
    (ApprovalRequestRow.with_response responseStatus responseBody now r)).

Definition MarkFailed (id errorMsg : string) (now : Time) : db -> res unit * db :=
  update_approval id (fun r => ApprovalRequestRow.with_status "FAILED"
    (ApprovalRequestRow.with_error errorMsg now r)).

Definition ApproveRequest (id approverID comments : string) (now : Time) : db -> res unit * db :=
  update_approval id (fun r => ApprovalRequestRow.with_status "APPROVED"
    (ApprovalRequestRow.with_comments comments
       (ApprovalRequestRow.with_approver approverID now r))).

Definition DenyRequest (id approverID reason : string) (now : Time) : db -> res unit * db :=
  update_approval id (fun r => ApprovalRequestRow.with_status "DENIED"
    (ApprovalRequestRow.with_denial reason
       (ApprovalRequestRow.with_approver approverID now r))).

Definition expire (now : Time) (r : ApprovalRequestRow.t) : ApprovalRequestRow.t :=
  if bool_decide (ApprovalRequestRow.Status r = "PENDING") &&
     (ApprovalRequestRow.ExpiresAt r <? now)
  then ApprovalRequestRow.with_status "EXPIRED" r else r.

Definition CleanupExpiredApprovals (now : Time) : db -> res unit * db :=
  exec (set_approvals (fmap (expire now))).

Definition finished (st : string) : Prop := st ∈ ["COMPLETED"; "DENIED"; "EXPIRED"; "FAILED"].

Definition CleanupOldApprovals (olderThan : Duration) (now : Time) : db -> res unit * db :=
  let cutoff := (now - olderThan)%Z in
  exec (set_approvals (filter (fun kr =>
    ~ (finished (ApprovalRequestRow.Status kr.2) /\ ApprovalRequestRow.RequestedAt kr.2 < cutoff)))).

Definition IsApprovalPending (id : string) (now : Time) : db -> res bool * db :=
  query (fun d => Ok match approvals d !! id with
    | Some r => bool_decide (ApprovalRequestRow.Status r = "PENDING") &&
                (now <? ApprovalRequestRow.ExpiresAt r)
    | None => false
    end).

(** ** Kill switches *)

Definition GetKillSwitch (scope : string) : db -> res KillSwitchRow.t * db :=
  query (fun d => match kill_switches d !! scope with Some k => Ok k | None => Err ErrNoRows end).

Definition switch_enabled (scope : string) (d : db) : bool :=
  match kill_switches d !! scope with Some k => KillSwitchRow.Enabled k | None => false end.

(** Two queries: the scope, then the global switch.  On an error the value is
    false, except that the second query leaves a count of zero. *)
Definition IsKillSwitchActive (scope : string) (d : db) : (bool * option error) * db :=
  match query (fun d => Ok (switch_enabled scope d)) d with
  | (Err e, d1) => ((false, Some e), d1)
  | (Ok true, d1) => ((true, None), d1)
  | (Ok false, d1) =>
      match query (fun d => Ok (switch_enabled "global" d)) d1 with
      | (Err e, d2) => ((false, Some e), d2)
      | (Ok b, d2) => ((b, None), d2)
      end
  end.

Definition EnableKillSwitch (id scope userID reason : string) (now : Time) :
    db -> res unit * db :=
  exec (set_kill_switches (<[scope := KillSwitchRow.mk id (scope +:+ "_kill") scope true
    (Some now) (Some userID) reason now now]>)).

Definition DisableKillSwitch (scope : string) (now : Time) : db -> res unit * db :=
  exec (set_kill_switches (alter (fun k =>
    KillSwitchRow.mk (KillSwitchRow.ID k) (KillSwitchRow.Name k) (KillSwitchRow.Scope k) false
      (KillSwitchRow.EnabledAt k) (KillSwitchRow.EnabledBy k) (KillSwitchRow.Reason k)
      (KillSwitchRow.CreatedAt k) now) scope)).

Definition ListKillSwitches : db -> res (list KillSwitchRow.t) * db :=
  query (fun d => Ok (sort_by (fun a b => KillSwitchRow.CreatedAt b <=? KillSwitchRow.CreatedAt a)
                        (rows (kill_switches d)))).

(** ** The audit log *)

(** [contextJSON] and [argsJSON]: the marshalled maps; the arguments are "{}"
    when they are nil or do not marshal. *)
Definition LogAuditEvent (id requestID userID toolName action policyID message : string)
    (contextJSON justification argsJSON : string) (now : Time) : db -> res unit * db :=
  exec_checked audit_has_arguments (set_audit_log (fun l => l ++
    [AuditRow.mk id requestID userID toolName action policyID message contextJSON justification
       argsJSON None now])).

Definition LogAuditRejection (id requestID userID toolName justification rejectionReason : string)
    (now : Time) : db -> res unit * db :=
  exec (set_audit_log (fun l => l ++
    [AuditRow.mk id requestID userID toolName "DENY" rejectionReason
       ("Tool call rejected before policy evaluation: " +:+ rejectionReason) "{}" justification
       EmptyString (Some rejectionReason) now])).

(** The statements of [migrate] on the table, in order: ADD COLUMN arguments,
    then ADD COLUMN for columns the table has, then CREATE TABLE IF NOT EXISTS.
    [None]: there is no table yet; the bool says whether it has the column. *)
Definition migrate_audit_log (table : option bool) : bool :=
  let after_alter := match table with Some _ => Some true | None => None end in
  match after_alter with Some has_arguments => has_arguments | None => false end.

(** ** Tool profiles and overrides *)

Definition UpsertToolProfile (profile : ToolProfileRow.t) : db -> res unit * db :=
  exec_checked (fun d =>
      upsertable (ToolProfileRow.BackendID profile, ToolProfileRow.ToolName profile)
        ToolProfileRow.ID (ToolProfileRow.ID profile) (tool_profiles d))
    (set_tool_profiles (fun m =>
    let key := (ToolProfileRow.BackendID profile, ToolProfileRow.ToolName profile) in
    <[key := match m !! key with
             | None => profile
             | Some old =>
                 ToolProfileRow.mk (ToolProfileRow.ID old) (ToolProfileRow.BackendID old)
                   (ToolProfileRow.ToolName old) (ToolProfileRow.RiskLevel profile)
                   (ToolProfileRow.ImpactScope profile) (ToolProfileRow.ResourceCost profile)
                   (ToolProfileRow.RequiresHITL profile) (ToolProfileRow.PIIExposure profile)
                   (ToolProfileRow.Idempotent profile) (ToolProfileRow.RawProfile profile)
                   (ToolProfileRow.ScannedAt profile)
             end]> m)).

Definition ListAllToolProfiles : db -> res (list ToolProfileRow.t) * db :=
  query (fun d => Ok (sort_by (by_text ToolProfileRow.BackendID ToolProfileRow.ToolName)
                        (rows (tool_profiles d)))).

(** ON CONFLICT(tool_name, backend_id): the user is part of what is replaced,
    not of the key. *)
Definition UpsertOverride (override : EnforcerOverrideRow.t) : db -> res unit * db :=
  exec_checked (fun d =>
      upsertable (EnforcerOverrideRow.ToolName override, EnforcerOverrideRow.BackendID override)
        EnforcerOverrideRow.ID (EnforcerOverrideRow.ID override) (overrides d))
    (set_overrides (fun m =>
    let key := (EnforcerOverrideRow.ToolName override, EnforcerOverrideRow.BackendID override) in
    <[key := match m !! key with
             | None => override
             | Some old =>
                 EnforcerOverrideRow.mk (EnforcerOverrideRow.ID old)
                   (EnforcerOverrideRow.ToolName old) (EnforcerOverrideRow.BackendID old)
                   (EnforcerOverrideRow.RiskLevel override)
                   (EnforcerOverrideRow.ImpactScope override)
                   (EnforcerOverrideRow.ResourceCost override)
                   (EnforcerOverrideRow.RequiresHITL override)
                   (EnforcerOverrideRow.PIIExposure override)
                   (EnforcerOverrideRow.UserID override)
                   (EnforcerOverrideRow.CreatedAt old) (EnforcerOverrideRow.UpdatedAt override)
             end]> m)).

Definition GetOverride (toolName backendID : string) : db -> res EnforcerOverrideRow.t * db :=
  query (fun d => match overrides d !! (toolName, backendID) with
                  | Some o => Ok o | None => Err ErrNoRows end).

Definition override_before : EnforcerOverrideRow.t -> EnforcerOverrideRow.t -> bool :=
  by_text EnforcerOverrideRow.ToolName EnforcerOverrideRow.BackendID.

Definition ListOverrides : db -> res (list EnforcerOverrideRow.t) * db :=
  query (fun d => Ok (sort_by override_before (rows (overrides d)))).

(** The rows of a user; an admin override has no user (NULL), so the empty
    user has none. *)
Definition user_overrides (userID : string) (d : db) : list EnforcerOverrideRow.t :=
  sort_by override_before
    (filter (fun o => EnforcerOverrideRow.UserID o = userID /\ userID <> EmptyString)
       (rows (overrides d))).

Definition DeleteOverride (toolName backendID : string) : db -> res unit * db :=
  exec (set_overrides (delete (toolName, backendID))).

(** What the resolver reads. *)
#[global] Instance db_profile_store : ToolProfileStore db := {
  GetToolProfile d backendID toolName :=
    if decide ("enforcer_tool_profiles" ∈ unreadable d) then Err ErrSql
    else match tool_profiles d !! (backendID, toolName) with
         | Some p => Ok p | None => Err ErrNoRows end;
  GetToolPrefix d backendID :=
    if decide ("backends" ∈ unreadable d) then Err ErrSql
    else match backends d !! backendID with Some p => Ok p | None => Err ErrNoRows end;
  ListUserOverrides d userID :=
    if decide ("enforcer_overrides" ∈ unreadable d) then Err ErrSql
    else Ok (user_overrides userID d)
}.

(** ** Rate limits *)

(** [id] is the generated one, used when the row has none; zero times become
    now. *)
Definition UpsertUserRateLimitOverride (id : string) (now : Time)
    (override : UserRateLimitOverrideRow.t) : db -> res unit * db :=
  let o := UserRateLimitOverrideRow.mk
    (if bool_decide (UserRateLimitOverrideRow.ID override = EmptyString) then id
     else UserRateLimitOverrideRow.ID override)
    (UserRateLimitOverrideRow.UserID override) (UserRateLimitOverrideRow.BackendID override)
    (if bool_decide (UserRateLimitOverrideRow.SetBy override = EmptyString) then "user"
     else UserRateLimitOverrideRow.SetBy override)
    (UserRateLimitOverrideRow.RiskCapacity override)
    (UserRateLimitOverrideRow.ResourceCapacity override)
    (UserRateLimitOverrideRow.CostMultiplier override)
    (Some (default now (UserRateLimitOverrideRow.CreatedAt override)))
    (Some (default now (UserRateLimitOverrideRow.UpdatedAt override))) in
  exec_checked (fun d =>
      upsertable (UserRateLimitOverrideRow.UserID o, UserRateLimitOverrideRow.BackendID o,
                  UserRateLimitOverrideRow.SetBy o)
        UserRateLimitOverrideRow.ID (UserRateLimitOverrideRow.ID o) (rate_overrides d))
    (set_rate_overrides (fun m =>
    let key := (UserRateLimitOverrideRow.UserID o, UserRateLimitOverrideRow.BackendID o,
                UserRateLimitOverrideRow.SetBy o) in
    <[key := match m !! key with
             | None => o
             | Some old =>
                 UserRateLimitOverrideRow.mk (UserRateLimitOverrideRow.ID old)
                   (UserRateLimitOverrideRow.UserID old) (UserRateLimitOverrideRow.BackendID old)
                   (UserRateLimitOverrideRow.SetBy old)
                   (UserRateLimitOverrideRow.RiskCapacity o)
                   (UserRateLimitOverrideRow.ResourceCapacity o)
                   (UserRateLimitOverrideRow.CostMultiplier o)
                   (UserRateLimitOverrideRow.CreatedAt old)
                   (UserRateLimitOverrideRow.UpdatedAt o)
             end]> m)).

Definition rate_overrides_of (userID backendID : string) (d : db) :
    list UserRateLimitOverrideRow.t :=
  filter (fun o => UserRateLimitOverrideRow.UserID o = userID /\
                   UserRateLimitOverrideRow.BackendID o = backendID) (rows (rate_overrides d)).

(** [QueryRow] takes the first of the rows of the user and backend. *)
Definition GetUserRateLimitOverride (userID backendID : string) :
    db -> res UserRateLimitOverrideRow.t * db :=
  query (fun d => match rate_overrides_of userID backendID d with
                  | o :: _ => Ok o | [] => Err ErrNoRows end).

Definition ListUserRateLimitOverrides (userID : string) :
    db -> res (list UserRateLimitOverrideRow.t) * db :=
  query (fun d => Ok (sort_by (by_text UserRateLimitOverrideRow.BackendID (fun _ => EmptyString))
    (filter (fun o => UserRateLimitOverrideRow.UserID o = userID) (rows (rate_overrides d))))).

Definition ListAllRateLimitOverrides : db -> res (list UserRateLimitOverrideRow.t) * db :=
  query (fun d => Ok (sort_by
    (by_text UserRateLimitOverrideRow.UserID UserRateLimitOverrideRow.BackendID)
    (rows (rate_overrides d)))).

Definition DeleteUserRateLimitOverride (userID backendID : string) : db -> res unit * db :=
  exec (set_rate_overrides (filter (fun kr =>
    ~ (UserRateLimitOverrideRow.UserID kr.2 = userID /\
       UserRateLimitOverrideRow.BackendID kr.2 = backendID)))).

Definition known_bucket_type (ty : string) : bool :=
  bool_decide (ty = "risk") || bool_decide (ty = "resource").

Definition ListRateLimitBucketConfigs : db -> res (list RateLimitBucketConfigRow.t) * db :=
  query (fun d => Ok (sort_by
    (by_text RateLimitBucketConfigRow.BackendID RateLimitBucketConfigRow.BucketType)
    (rows (bucket_configs d)))).

Definition UpsertRateLimitBucketConfig (config : RateLimitBucketConfigRow.t) :
    db -> res unit * db :=
  exec_checked (fun d =>
      known_bucket_type (RateLimitBucketConfigRow.BucketType config) &&
      upsertable (RateLimitBucketConfigRow.BackendID config,
                  RateLimitBucketConfigRow.BucketType config)
        RateLimitBucketConfigRow.ID (RateLimitBucketConfigRow.ID config) (bucket_configs d) &&
      bool_decide (is_Some (backends d !! RateLimitBucketConfigRow.BackendID config)))
    (set_bucket_configs (fun m =>
      let key := (RateLimitBucketConfigRow.BackendID config,
                  RateLimitBucketConfigRow.BucketType config) in
      <[key := match m !! key with
               | None => config
               | Some old =>
                   RateLimitBucketConfigRow.mk (RateLimitBucketConfigRow.ID old)
                     (RateLimitBucketConfigRow.BackendID old)
                     (RateLimitBucketConfigRow.BucketType old)
                     (RateLimitBucketConfigRow.Capacity config)
                     (RateLimitBucketConfigRow.RefillRate config)
                     (RateLimitBucketConfigRow.CreatedAt old)
                     (RateLimitBucketConfigRow.UpdatedAt config)
               end]> m)).

Definition ListRateLimitStates : db -> res (list RateLimitStateRow.t) * db :=
  query (fun d => Ok (rows (bucket_states d))).

(** The user and the backend are foreign keys. *)
Definition UpsertRateLimitState (state : RateLimitStateRow.t) : db -> res unit * db :=
  exec_checked (fun d =>
      known_bucket_type (RateLimitStateRow.BucketType state) &&
      upsertable (RateLimitStateRow.UserID state, RateLimitStateRow.BackendID state,
                  RateLimitStateRow.BucketType state)
        RateLimitStateRow.ID (RateLimitStateRow.ID state) (bucket_states d) &&
      bool_decide (RateLimitStateRow.UserID state ∈ users d) &&
      bool_decide (is_Some (backends d !! RateLimitStateRow.BackendID state)))
    (set_bucket_states (fun m =>
      let key := (RateLimitStateRow.UserID state, RateLimitStateRow.BackendID state,
                  RateLimitStateRow.BucketType state) in
      <[key := match m !! key with
               | None => state
               | Some old =>
                   RateLimitStateRow.mk (RateLimitStateRow.ID old)
                     (RateLimitStateRow.UserID old) (RateLimitStateRow.BackendID old)
                     (RateLimitStateRow.BucketType old) (RateLimitStateRow.CurrentLevel state)
                     (RateLimitStateRow.LastRefillAt state) (RateLimitStateRow.CreatedAt old)
               end]> m)).

(** ** Call rates *)

(** [time.Time.Truncate], the time counted from Go's zero time. *)
Definition truncate (t : Time) (d : Duration) : Time :=
  if d <=? 0 then t else t - t mod d.

Section CallRates.
(** [time.Time.Format] with the RFC 3339 layout. *)
Context (rfc3339 : Time -> string).

Definition rate_id (userID toolName : string) (windowStart : Time) : string :=
  userID +:+ "|" +:+ toolName +:+ "|" +:+ rfc3339 windowStart.

(** The id is the primary key, the user, tool and window a unique key; the
    conflict clause covers only the latter. *)
Definition rate_insertable (userID toolName : string) (windowStart : Time) (d : db) : bool :=
  upsertable (userID, toolName, windowStart) fst (rate_id userID toolName windowStart)
    (rate_buckets d).

Definition bump (id : string) (b : option (string * Z)) : option (string * Z) :=
  match b with
  | None => Some (id, 1)
  | Some (id', n) => Some (id', n + 1)
  end.

Definition IncrementRateBucket (userID toolName : string) (windowDuration : Duration)
    (now : Time) (d : db) : res Z * db :=
  let windowStart := truncate now windowDuration in
  match exec_checked (rate_insertable userID toolName windowStart)
          (set_rate_buckets (partial_alter (bump (rate_id userID toolName windowStart))
                               (userID, toolName, windowStart))) d with
  | (Err e, d1) => (Err e, d1)
  | (Ok _, d1) =>
      query (fun d => match rate_buckets d !! (userID, toolName, windowStart) with
                      | Some (_, n) => Ok n
                      | None => Err ErrNoRows
                      end) d1
  end.
End CallRates.

Definition GetCallRate (userID toolName : string) (windowDuration : Duration) (now : Time) :
    db -> res Z * db :=
  query (fun d => match rate_buckets d !! (userID, toolName, truncate now windowDuration) with
                  | Some (_, n) => Ok n
                  | None => Ok 0
                  end).

Definition CleanupExpiredRateBuckets (windowDuration : Duration) (now : Time) :
    db -> res unit * db :=
  exec (set_rate_buckets (filter (fun kb => ~ kb.1.2 < now - windowDuration))).

(** * Properties *)

Lemma upsertable_known {K A} `{Countable K} key (row_id : A -> string) id (m : gmap K A) r :
  m !! key = Some r -> upsertable key row_id id m = true.
Proof. intros Hr. unfold upsertable. by rewrite Hr. Qed.

Lemma upsertable_fresh {K A} `{Countable K} key (row_id : A -> string) id (m : gmap K A) :
  (forall k r, m !! k = Some r -> row_id r <> id) -> upsertable key row_id id m = true.
Proof.
  intros Hid. unfold upsertable. apply orb_true_iff. right. apply negb_true_iff.
  apply not_true_iff_false. intros Hex. apply existsb_exists in Hex as (r & Hr & Hrid).
  apply list_elem_of_In, elem_of_rows in Hr as [k Hk].
  apply bool_decide_eq_true_1 in Hrid. by eapply Hid.
Qed.

Lemma oldest_first_sorted l :
  StronglySorted (fun a b => ApprovalRequestRow.RequestedAt a <= ApprovalRequestRow.RequestedAt b)
    (sort_by oldest_first l).
Proof.
  assert (Hs : StronglySorted (fun a b => oldest_first a b = true) (sort_by oldest_first l)).
  { unfold sort_by. apply StronglySorted_merge_sort.
    - intros a b c. unfold oldest_first. rewrite !Z.leb_le. lia.
    - intros a b. unfold oldest_first. rewrite !Z.leb_le. lia. }
  induction Hs as [|x xs Hs IH Hall]; constructor; [done|].
  eapply Forall_impl; [exact Hall|]. intros y. unfold oldest_first. by rewrite Z.leb_le.
Qed.

(** A statement either fails and changes only the schedule, or runs. *)
Lemma stmt_cases {A} (f : db -> res A * db) d :
  (exists fs, faults d = true :: fs /\ stmt f d = (Err ErrSql, set_faults fs d)) \/
  (exists fs, (faults d = false :: fs \/ (faults d = [] /\ fs = [])) /\
     stmt f d = f (set_faults fs d)).
Proof.
  unfold stmt. destruct (faults d) as [|[] fs] eqn:Hf.
  - right. exists []. split; [by right|]. f_equal. destruct d; cbn in *. by subst.
  - left. eauto.
  - right. eauto.
Qed.

(** Runs the statement of a hypothesis: one goal where it fails, one where it
    takes effect. *)
Ltac run_stmt H :=
  match type of H with
  | context [stmt ?f ?d] =>
      let fs := fresh "fs" in let E := fresh "E" in
      destruct (stmt_cases f d) as [(fs & _ & E)|(fs & _ & E)];
      rewrite E in H; clear E; cbn in H
  end.

(** ** Approval requests: what the statements keep *)

(** What identifies a request: who asked for what, when, and what is replayed
    when it is approved. *)
Definition request_of (r : ApprovalRequestRow.t) :
    (string * string * string * string) * (string * string * string * Time * Time) :=
  ((ApprovalRequestRow.ID r, ApprovalRequestRow.UserID r, ApprovalRequestRow.ToolName r,
    ApprovalRequestRow.BackendID r),
   (ApprovalRequestRow.QueueType r, ApprovalRequestRow.Justification r,
    ApprovalRequestRow.RequestBody r, ApprovalRequestRow.RequestedAt r,
    ApprovalRequestRow.ExpiresAt r)).

(** The statements of the store that change the table of approvals. *)
Inductive approval_op :=
| OCreate (req : ApprovalRequestRow.t)
| OMarkExecuting (id : string)
| OMarkCompleted (id : string) (status : Z) (body : string) (now : Time)
| OMarkFailed (id msg : string) (now : Time)
| OApprove (id who comments : string) (now : Time)
| ODeny (id who reason : string) (now : Time)
| OCleanupExpired (now : Time)
| OCleanupOld (olderThan : Duration) (now : Time).

Definition approval_step (o : approval_op) (d : db) : db :=
  match o with
  | OCreate req => (CreateApprovalRequest req d).2
  | OMarkExecuting id => (MarkExecuting id d).2
  | OMarkCompleted id st body now => (MarkCompleted id st body now d).2
  | OMarkFailed id msg now => (MarkFailed id msg now d).2
  | OApprove id who c now => (ApproveRequest id who c now d).2
  | ODeny id who why now => (DenyRequest id who why now d).2
  | OCleanupExpired now => (CleanupExpiredApprovals now d).2
  | OCleanupOld olderThan now => (CleanupOldApprovals olderThan now d).2
  end.

(** An UPDATE that keeps the request. *)
Lemma update_approval_request id f d k r :
  (forall x, request_of (f x) = request_of x) ->
  approvals (update_approval id f d).2 !! k = Some r ->
  exists r0, approvals d !! k = Some r0 /\ request_of r = request_of r0.
Proof.
  intros Hf. unfold update_approval, exec.
  destruct (stmt_cases (fun d => (Ok tt, set_approvals (alter f id) d)) d)
    as [(fs & _ & ->)|(fs & _ & ->)]; cbn; [eauto|].
  rewrite lookup_alter_Some. intros [(-> & x & Hx & ->)|[_ Hr]]; eauto.
Qed.

Lemma approval_step_request o d k r :
  approvals (approval_step o d) !! k = Some r ->
  (exists r0, approvals d !! k = Some r0 /\ request_of r = request_of r0) \/
  (exists req, o = OCreate req /\ k = ApprovalRequestRow.ID req /\ approvals d !! k = None /\
     request_of r = request_of req).
Proof.
  destruct o; cbn [approval_step]; intros Hr;
    try (left; eapply update_approval_request; [|exact Hr]; done).
  - unfold CreateApprovalRequest, exec_checked in Hr.
    run_stmt Hr; [eauto|].
    destruct (_ && _) eqn:Hok; cbn in Hr; [|eauto]. bool_to_prop.
    apply lookup_insert_Some in Hr as [[<- <-]|[_ Hr]]; eauto 8.
  - left. unfold CleanupExpiredApprovals, exec in Hr.
    run_stmt Hr; [eauto|].
    apply lookup_fmap_Some in Hr as (r0 & <- & Hr0). exists r0. split; [done|].
    unfold expire. by case_if.
  - left. unfold CleanupOldApprovals, exec in Hr.
    run_stmt Hr; [eauto|].
    apply map_lookup_filter_Some in Hr as [Hr _]. eauto.
Qed.

Section ApprovalTheorems.
(** Whatever statements run, in whatever order, and whichever of them
    fail, an approval request in the table is one that was inserted: its
    requester, tool, backend, queue, justification, timestamps and the body
    that is replayed on approval are those of the insertion. *)
Theorem approval_request_immutable ops d k r :
  approvals d = ∅ ->
  approvals (foldl (fun d o => approval_step o d) d ops) !! k = Some r ->
  exists req, OCreate req ∈ ops /\ k = ApprovalRequestRow.ID req /\ request_of r = request_of req.
Proof.
  intros Hd. revert k r. induction ops as [|o ops IH] using rev_ind; cbn; intros k r.
  { by rewrite Hd, lookup_empty. }
  rewrite foldl_app. cbn. intros Hr.
  apply approval_step_request in Hr as [(r0 & Hr0 & Heq)|(req & -> & Hk & _ & Heq)].
  - destruct (IH _ _ Hr0) as (req & Hin & Hk & Hreq). exists req. split; [set_solver|].
    split; [done | congruence].
  - exists req. split; [set_solver | done].
Qed.

(** The two cleanups are exact.  Expiry turns exactly the pending requests
    whose deadline has passed into EXPIRED and changes nothing else; removal
    deletes exactly the completed, denied, expired and failed requests older
    than the retention period, so a pending, approved or executing request is
    never lost. *)
Theorem approval_cleanup_exact d now olderThan k :
  faults d = [] ->
  approvals (CleanupExpiredApprovals now d).2 !! k =
    (r ← approvals d !! k;
     Some (if decide (ApprovalRequestRow.Status r = "PENDING" /\
                      ApprovalRequestRow.ExpiresAt r < now)
           then ApprovalRequestRow.with_status "EXPIRED" r else r)) /\
  approvals (CleanupOldApprovals olderThan now d).2 !! k =
    (r ← approvals d !! k;
     if decide (finished (ApprovalRequestRow.Status r) /\
                ApprovalRequestRow.RequestedAt r < now - olderThan)
     then None else Some r).
Proof.
  intros Hf. unfold CleanupExpiredApprovals, CleanupOldApprovals, exec, stmt. rewrite Hf.
  cbn. split.
  - rewrite lookup_fmap. destruct (approvals d !! k) as [r|]; cbn; [|done]. f_equal.
    unfold expire. case_decide as Hd; case_if; try done; [|by destruct Hd].
    destruct Hd as [Hs He]. apply andb_false_iff in Hif as [Hif|Hif]; bool_to_prop; [done|lia].
  - destruct (approvals d !! k) as [r|] eqn:Hk; cbn.
    + case_decide.
      * apply map_lookup_filter_None. right. intros x Hx. rewrite Hk in Hx.
        injection Hx as <-. cbn. tauto.
      * by apply map_lookup_filter_Some.
    + apply map_lookup_filter_None. by left.
Qed.

(** Each pending queue lists exactly the requests that are pending in it,
    each once, the oldest first, and the counters shown beside them are the
    lengths of the lists. *)
Theorem pending_queues_exact d :
  faults d = [] ->
  exists us ads, (ListUserPendingApprovals d).1 = Ok us /\
    (ListAdminPendingApprovals d).1 = Ok ads /\
    (forall r, r ∈ us <-> (exists k, approvals d !! k = Some r) /\
       ApprovalRequestRow.Status r = "PENDING" /\ ApprovalRequestRow.QueueType r = "user") /\
    (forall r, r ∈ ads <-> (exists k, approvals d !! k = Some r) /\
       ApprovalRequestRow.Status r = "PENDING" /\ ApprovalRequestRow.QueueType r = "admin") /\
    StronglySorted (fun a b =>
      ApprovalRequestRow.RequestedAt a <= ApprovalRequestRow.RequestedAt b) us /\
    StronglySorted (fun a b =>
      ApprovalRequestRow.RequestedAt a <= ApprovalRequestRow.RequestedAt b) ads /\
    (CountUserPendingApprovals d).1 = Ok (Z.of_nat (length us)) /\
    (CountAdminPendingApprovals d).1 = Ok (Z.of_nat (length ads)).
Proof.
  intros Hf.
  assert (Hq : forall q r, r ∈ sort_by oldest_first (queue_pending q d) <->
            (exists k, approvals d !! k = Some r) /\
            ApprovalRequestRow.Status r = "PENDING" /\ ApprovalRequestRow.QueueType r = q).
  { intros q r. rewrite sort_by_perm. unfold queue_pending.
    rewrite list_elem_of_filter, elem_of_rows. tauto. }
  exists (sort_by oldest_first (queue_pending "user" d)),
         (sort_by oldest_first (queue_pending "admin" d)).
  unfold ListUserPendingApprovals, ListAdminPendingApprovals, CountUserPendingApprovals,
    CountAdminPendingApprovals, query, stmt. rewrite Hf. cbn.
  split_and!; try done; try apply Hq; try apply oldest_first_sorted;
    by rewrite sort_by_perm.
Qed.
End ApprovalTheorems.

(** ** Kill switches *)

Section KillSwitchTheorems.
(** Enabling a kill switch stops its scope, and the global one stops every
    scope; disabling it lets exactly that scope run again unless the global
    switch is on; a switch never affects another scope. *)
Theorem kill_switch_roundtrip id scope user reason now now' other d :
  faults d = [] ->
  let on := (EnableKillSwitch id scope user reason now d).2 in
  let off := (DisableKillSwitch scope now' on).2 in
  (IsKillSwitchActive scope on).1 = (true, None) /\
  (scope = "global" -> (IsKillSwitchActive other on).1 = (true, None)) /\
  (IsKillSwitchActive scope off).1 =
    (bool_decide (scope <> "global") && switch_enabled "global" d, None) /\
  (other <> scope -> scope <> "global" ->
     (IsKillSwitchActive other on).1 = (IsKillSwitchActive other d).1 /\
     (IsKillSwitchActive other off).1 = (IsKillSwitchActive other d).1).
Proof.
  intros Hf on off.
  assert (Hact : forall d' sc, faults d' = [] ->
            (IsKillSwitchActive sc d').1 =
            (switch_enabled sc d' || switch_enabled "global" d', None)).
  { intros d' sc Hf'. unfold IsKillSwitchActive, query, stmt. rewrite Hf'.
    destruct (switch_enabled sc d'); cbn; [done|]. by rewrite Hf'. }
  assert (Hon : faults on = [] /\ forall sc, switch_enabled sc on =
            if decide (sc = scope) then true else switch_enabled sc d).
  { unfold on, EnableKillSwitch, exec, stmt, switch_enabled. rewrite Hf. cbn.
    split; [done|]. intros sc. rewrite lookup_insert. by repeat case_decide; subst. }
  destruct Hon as [Hfon Hon].
  assert (Hoff : faults off = [] /\ forall sc, switch_enabled sc off =
            if decide (sc = scope) then false else switch_enabled sc d).
  { unfold off, DisableKillSwitch, exec, stmt. rewrite Hfon. cbn. split; [done|].
    intros sc. specialize (Hon sc). unfold switch_enabled in *. cbn.
    rewrite lookup_alter. repeat case_decide; subst; try done.
    by destruct (kill_switches on !! _). }
  destruct Hoff as [Hfoff Hoff]. rewrite !Hact, !Hon, !Hoff by done. split_and!.
  - by rewrite decide_True.
  - intros ->. rewrite (decide_True (P := "global" = "global")) by done.
    by rewrite orb_true_r.
  - rewrite decide_True by done. case_decide; subst; cbn;
      [by rewrite bool_decide_eq_false_2 by naive_solver|].
    by rewrite bool_decide_eq_true_2 by done.
  - intros Hne Hng. by rewrite !decide_False by done.
Qed.
End KillSwitchTheorems.

(** ** Call rates *)

Section CallRateTheorems.
Context (rfc3339 : Time -> string).

(** Calls of one user to one tool at the given times. *)
Fixpoint increments (userID toolName : string) (w : Duration) (nows : list Time) (d : db) :
    list (res Z) * db :=
  match nows with
  | [] => ([], d)
  | now :: nows' =>
      let '(r, d1) := IncrementRateBucket rfc3339 userID toolName w now d in
      let '(rs, d2) := increments userID toolName w nows' d1 in (r :: rs, d2)
  end.

Definition calls (key : string * string * Time) (d : db) : Z :=
  match rate_buckets d !! key with Some (_, n) => n | None => 0 end.

Lemma IncrementRateBucket_ok user tool w now d :
  faults d = [] -> rate_insertable rfc3339 user tool (truncate now w) d = true ->
  let key := (user, tool, truncate now w) in
  let d' := (IncrementRateBucket rfc3339 user tool w now d).2 in
  (IncrementRateBucket rfc3339 user tool w now d).1 = Ok (calls key d + 1) /\
  faults d' = [] /\ calls key d' = calls key d + 1 /\
  rate_insertable rfc3339 user tool (truncate now w) d' = true /\
  (forall key', key' <> key -> calls key' d' = calls key' d).
Proof.
  intros Hf Hins key d'. unfold d', IncrementRateBucket, exec_checked, query, stmt.
  rewrite Hf, Hins. cbn. rewrite Hf. cbn. fold key.
  rewrite lookup_partial_alter_eq. unfold calls, bump, rate_insertable, upsertable. cbn. fold key.
  rewrite !lookup_partial_alter_eq.
  assert (Hother : forall key', key' <> key ->
            match partial_alter (bump (rate_id rfc3339 user tool (truncate now w))) key
                    (rate_buckets d) !! key' with Some (_, n) => n | None => 0 end =
            match rate_buckets d !! key' with Some (_, n) => n | None => 0 end).
  { intros key' Hne. by rewrite lookup_partial_alter_ne. }
  destruct (rate_buckets d !! key) as [[id n]|]; cbn; split_and!; try done;
    by rewrite bool_decide_eq_true_2 by eauto.
Qed.

Lemma IncrementRateBucket_frame user tool w now d :
  faults d = [] ->
  let d' := (IncrementRateBucket rfc3339 user tool w now d).2 in
  faults d' = [] /\ kill_switches d' = kill_switches d /\ audit_log d' = audit_log d.
Proof.
  intros Hf. unfold IncrementRateBucket, exec_checked, query, stmt. rewrite Hf.
  destruct (rate_insertable _ _ _ _ _); cbn; [by rewrite Hf | done].
Qed.

(** The call rate a policy sees is exact: the successive calls of a user
    to a tool within one window are numbered one after the other from the
    count the window had, the count read back is the last number, and the
    counts of other users, tools and windows do not change. *)
Theorem call_rate_exact user tool w win nows d :
  faults d = [] -> rate_insertable rfc3339 user tool win d = true ->
  Forall (fun now => truncate now w = win) nows ->
  let key := (user, tool, win) in
  let r := increments user tool w nows d in
  r.1 = Ok <$> seqZ (calls key d + 1) (Z.of_nat (length nows)) /\
  (forall now, truncate now w = win ->
     (GetCallRate user tool w now r.2).1 = Ok (calls key d + Z.of_nat (length nows))) /\
  (forall key', key' <> key -> calls key' r.2 = calls key' d).
Proof.
  intros Hf Hins Hall key r.
  enough (r.1 = Ok <$> seqZ (calls key d + 1) (Z.of_nat (length nows)) /\ faults r.2 = [] /\
          calls key r.2 = calls key d + Z.of_nat (length nows) /\
          (forall key', key' <> key -> calls key' r.2 = calls key' d)) as (H1 & H2 & H3 & H4).
  { split_and!; try done. intros now Hnow. unfold GetCallRate, query, stmt.
    rewrite H2, Hnow. cbn. rewrite <- H3. unfold calls. fold key.
    by destruct (rate_buckets r.2 !! key) as [[]|]. }
  unfold r. clear r. revert d Hf Hins. induction nows as [|now nows IH]; intros d Hf Hins; cbn.
  { split_and!; try done. lia. }
  apply Forall_cons in Hall as [Hnow Hall].
  destruct (IncrementRateBucket_ok user tool w now d Hf) as (H1 & H2 & H3 & H4 & H5);
    [by rewrite Hnow|].
  rewrite Hnow in H3, H4, H5, H1. fold key in H1, H3, H5.
  destruct (IncrementRateBucket rfc3339 user tool w now d) as [x d1]; cbn in *.
  destruct (IH Hall d1 H2 H4) as (I1 & I2 & I3 & I4).
  destruct (increments user tool w nows d1) as [rs d2]; cbn in *. subst x rs.
  split_and!.
  - rewrite (seqZ_cons (calls key d + 1)) by lia. cbn. rewrite H3. f_equal. do 2 f_equal; lia.
  - done.
  - rewrite I3, H3. lia.
  - intros key' Hne. by rewrite I4, H5.
Qed.
End CallRateTheorems.

(** ** Overrides *)

Section OverrideTheorems.
(** The table of overrides has one row per tool and backend, not per user:
    when a user stores a personal override of a tool, the override another
    user or the administrator had for it is gone, whatever the two rows say. *)
Theorem personal_override_replaces_others d o old :
  faults d = [] -> unreadable d = ∅ ->
  overrides d !! (EnforcerOverrideRow.ToolName o, EnforcerOverrideRow.BackendID o) = Some old ->
  EnforcerOverrideRow.UserID old <> EnforcerOverrideRow.UserID o ->
  map_Forall (fun k r => k = (EnforcerOverrideRow.ToolName r, EnforcerOverrideRow.BackendID r))
    (overrides d) ->
  let d' := (UpsertOverride o d).2 in
  MetadataResolver.user_tier (Some d') (EnforcerOverrideRow.ToolName o)
    (EnforcerOverrideRow.BackendID o) (EnforcerOverrideRow.UserID old) = None /\
  exists r, overrides d' !! (EnforcerOverrideRow.ToolName o, EnforcerOverrideRow.BackendID o)
              = Some r /\
    EnforcerOverrideRow.UserID r = EnforcerOverrideRow.UserID o /\
    EnforcerOverrideRow.RiskLevel r = EnforcerOverrideRow.RiskLevel o /\
    EnforcerOverrideRow.RequiresHITL r = EnforcerOverrideRow.RequiresHITL o.
Proof.
  intros Hf Hu Hold Hne Hkeys d'.
  assert (Hu' : unreadable d' = ∅) by (unfold d', UpsertOverride, exec_checked, stmt; rewrite Hf; cbn; by erewrite upsertable_known).
  assert (Hlk : forall k, overrides d' !! k =
            if decide (k = (EnforcerOverrideRow.ToolName o, EnforcerOverrideRow.BackendID o))
            then Some (EnforcerOverrideRow.mk (EnforcerOverrideRow.ID old)
                 (EnforcerOverrideRow.ToolName old) (EnforcerOverrideRow.BackendID old)
                 (EnforcerOverrideRow.RiskLevel o) (EnforcerOverrideRow.ImpactScope o)
                 (EnforcerOverrideRow.ResourceCost o) (EnforcerOverrideRow.RequiresHITL o)
                 (EnforcerOverrideRow.PIIExposure o) (EnforcerOverrideRow.UserID o)
                 (EnforcerOverrideRow.CreatedAt old) (EnforcerOverrideRow.UpdatedAt o))
            else overrides d !! k).
  { intros k. unfold d', UpsertOverride, exec_checked, stmt. rewrite Hf. cbn.
    erewrite upsertable_known by done. cbn. rewrite Hold.
    rewrite lookup_insert. by repeat case_decide; subst. }
  split.
  - unfold MetadataResolver.user_tier. cbn. rewrite Hu'.
    case_bool_decide; [done|]. rewrite decide_False by set_solver.
    destruct (list_find _ _) as [[i r]|] eqn:Hfind; [exfalso | done].
    apply list_find_Some in Hfind as (Hi & [Ht Hb] & _).
    apply list_elem_of_lookup_2 in Hi. unfold user_overrides in Hi.
    rewrite sort_by_perm, list_elem_of_filter, elem_of_rows in Hi.
    destruct Hi as [[Huser _] [k Hk]]. rewrite Hlk in Hk. case_decide as Hkey.
    + injection Hk as <-. cbn in Huser. done.
    + apply Hkeys in Hk. congruence.
  - rewrite Hlk, decide_True by done. eexists. split; [done|]. done.
Qed.
End OverrideTheorems.

(** ** The audit log of a new database *)

Section AuditTheorems.
(** In the first process that runs on a new database, no policy decision
    is ever recorded: the table is created without the column the decisions
    are inserted with, so every such INSERT fails and leaves the log as it
    is; after the next start the column is there and a decision is recorded. *)
Theorem first_run_audit_lost d id rid user tool a pid msg ctx just args now :
  faults d = [] ->
  let log := LogAuditEvent id rid user tool a pid msg ctx just args now in
  (audit_has_arguments d = migrate_audit_log None ->
     (log d).1 = Err ErrSql /\ audit_log (log d).2 = audit_log d) /\
  (forall table, audit_has_arguments d = migrate_audit_log (Some table) ->
     (log d).1 = Ok tt /\
     exists row, audit_log (log d).2 = audit_log d ++ [row] /\ AuditRow.user_id row = user /\
       AuditRow.action row = a).
Proof.
  intros Hf log. unfold log, LogAuditEvent, exec_checked, stmt. rewrite Hf.
  split.
  - intros ->. done.
  - intros table ->. cbn. split; [done|]. eexists. split; [reflexivity|]. done.
Qed.
End AuditTheorems.

(** ** Concrete databases for the witnesses *)

Definition empty_db : db :=
  mkdb ∅ ∅ ∅ [] true ∅ ∅ ∅ ∅ ∅ ∅ {["alice"; "bob"; "root"]} (<["slack" := "slk"]> ∅) [] ∅.

Definition demo_request (id : string) (at_ : Time) : ApprovalRequestRow.t :=
  ApprovalRequestRow.mk id "alice" "a@x" "user" 50 "slk_post" "{}" "slack" "{}" "PENDING" "user"
    "because" at_ (at_ + 10) None None EmptyString EmptyString "p" "m" "policy_hit" "{body}" 0
    EmptyString None EmptyString.

Definition demo_approval_ops : list approval_op :=
  [OCreate (demo_request "r1" 5); OApprove "r1" "root" "ok" 6; OMarkExecuting "r1";
   OMarkCompleted "r1" 200 "done" 7; ODeny "r1" "root" "no" 8].

Definition demo_requests_db : db :=
  approval_step (OCreate (demo_request "r2" 3)) (approval_step (OCreate (demo_request "r1" 5)) empty_db).

Lemma approval_request_immutable_witness :
  exists req, OCreate req ∈ demo_approval_ops /\ "r1" = ApprovalRequestRow.ID req.
Proof.
  destruct (approvals (foldl (fun d o => approval_step o d) empty_db demo_approval_ops) !! "r1")
    as [r|] eqn:Hr; [|vm_compute in Hr; discriminate].
  destruct (approval_request_immutable demo_approval_ops empty_db "r1" r eq_refl Hr)
    as (req & H1 & H2 & _).
  exists req. split; [exact H1 | exact H2].
Defined.

Lemma approval_cleanup_exact_witness :
  ApprovalRequestRow.Status <$> approvals (CleanupExpiredApprovals 14 demo_requests_db).2 !! "r2"
  = Some "EXPIRED".
Proof.
  rewrite (proj1 (approval_cleanup_exact demo_requests_db 14 100 "r2" eq_refl)).
  vm_compute. reflexivity.
Defined.

Lemma pending_queues_exact_witness :
  exists us, (ListUserPendingApprovals demo_requests_db).1 = Ok us /\
    (CountUserPendingApprovals demo_requests_db).1 = Ok (Z.of_nat (length us)).
Proof.
  destruct (pending_queues_exact demo_requests_db eq_refl) as (us & ads & H1 & _ & _ & _ & _ & _ & H2 & _).
  exists us. split; [exact H1 | exact H2].
Defined.

Lemma kill_switch_roundtrip_witness :
  (IsKillSwitchActive "slack" (EnableKillSwitch "k" "slack" "root" "incident" 0 empty_db).2).1
  = (true, None).
Proof.
  exact (proj1 (kill_switch_roundtrip "k" "slack" "root" "incident" 0 1 "github" empty_db eq_refl)).
Defined.

Lemma call_rate_exact_witness :
  (increments (fun _ => "t") "alice" "slk_post" Minute [5; 6; 7] empty_db).1 = [Ok 1; Ok 2; Ok 3].
Proof.
  exact (proj1 (call_rate_exact (fun _ => "t") "alice" "slk_post" Minute 0 [5; 6; 7] empty_db
    eq_refl eq_refl ltac:(repeat constructor))).
Defined.

Definition demo_admin_row : EnforcerOverrideRow.t :=
  EnforcerOverrideRow.mk "o1" "slk_post" "slack" "critical" "write" 10 true false "bob" 0 0.
Definition demo_alice_row : EnforcerOverrideRow.t :=
  EnforcerOverrideRow.mk "o2" "slk_post" "slack" "low" "read" 1 false false "alice" 1 1.

Definition demo_override_db : db := (UpsertOverride demo_admin_row empty_db).2.

Lemma personal_override_replaces_others_witness :
  MetadataResolver.user_tier (Some (UpsertOverride demo_alice_row demo_override_db).2)
    "slk_post" "slack" "bob" = None.
Proof.
  refine (proj1 (personal_override_replaces_others demo_override_db demo_alice_row
    demo_admin_row eq_refl eq_refl eq_refl _ _)).
  - done.
  - intros k r Hk. unfold demo_override_db, UpsertOverride, exec_checked, stmt in Hk. cbn in Hk.
    rewrite upsertable_fresh in Hk by (intros ? ?; by rewrite lookup_empty). cbn in Hk.
    apply lookup_insert_Some in Hk as [[<- <-]|[_ Hk]]; [done|].
    by rewrite lookup_empty in Hk.
Defined.

Definition new_db : db :=
  mkdb ∅ ∅ ∅ [] (migrate_audit_log None) ∅ ∅ ∅ ∅ ∅ ∅ ∅ ∅ [] ∅.

Lemma first_run_audit_lost_witness :
  audit_log (LogAuditEvent "i" "r" "alice" "slk_post" "DENY" "p" "m" "{}" "j" "{}" 0 new_db).2
  = [].
Proof.
  exact (proj2 (proj1 (first_run_audit_lost new_db "i" "r" "alice" "slk_post" "DENY" "p" "m" "{}" "j"
    "{}" 0 eq_refl) eq_refl)).
Defined.
