(* ===== verification/Enforcer.v ===== *)
(** * The enforcer: [src/enforcer/enforcer.go]

    The orchestrator of a tool call: it resolves the safety profile, checks the
    justification, evaluates the policies, applies the gate for calls no policy
    matched, consumes the rate-limit budget, and keeps the approvals, the kill
    switches and the policies.  Every operation is a function of the enforcer's
    state, which contains the database; [HandleToolCall] is written in the
    handler monad, with the source's early returns. *)
From S2P Require Import Prelude EnforcerTypes Heuristics Resolver CelEngine EnforcerStore.
From S2P Require RateLimit.
Open Scope Z_scope.
Open Scope go_scope.
Open Scope handler_scope.

(** What the enforcer calls and the repository does not define: JSON, the
    layout of times, the user table behind [UserStore] (email and role; [None]:
    no user store), and the executor of approved requests (status and body, or
    the text of the error; [None]: no executor). *)
Class EnforcerEnv := {
  rfc3339 : Time -> string;
  marshal : list (string * json) -> string;
  unmarshal_dispositions : string -> option (gmap MatchContext Action);
  get_user : option (string -> res (string * string));
  execute_request : option (string -> string -> string -> (Z * string) + string)
}.

(** What one call reads of the world: the clock, the order in which Go visits
    the policies, and fresh ids. *)
Record call_env := CallEnv {
  now : Time;
  order : list string;
  uuid : nat -> string
}.

Module Enforcer.
Section Enforcer.
Context `{CelLib} `{EnforcerEnv}.

Record t := mk {
  config : EnforcerConfig.t;
  resolver : MetadataResolver.t;
  engine : CELEngine.t;
  store : db;
  killSwitches : gmap string bool;
  rateLimit : RateLimit.RateLimitManager.t;
  (** The requests handed to the executor so far. *)
  executed : list (string * string * string)
}.

Definition with_config c e :=
  mk c (resolver e) (engine e) (store e) (killSwitches e) (rateLimit e) (executed e).
Definition with_resolver r e :=
  mk (config e) r (engine e) (store e) (killSwitches e) (rateLimit e) (executed e).
Definition with_engine en e :=
  mk (config e) (resolver e) en (store e) (killSwitches e) (rateLimit e) (executed e).
Definition with_store d e :=
  mk (config e) (resolver e) (engine e) d (killSwitches e) (rateLimit e) (executed e).
Definition with_killSwitches k e :=
  mk (config e) (resolver e) (engine e) (store e) k (rateLimit e) (executed e).
Definition with_rateLimit m e :=
  mk (config e) (resolver e) (engine e) (store e) (killSwitches e) m (executed e).
Definition with_executed l e :=
  mk (config e) (resolver e) (engine e) (store e) (killSwitches e) (rateLimit e) l.

(** A statement of the store, as an operation of the enforcer. *)
Definition on_store {A} (f : db -> A * db) (e : t) : A * t :=
  let '(a, d) := f (store e) in (a, with_store d e).

(** *** Policies *)

Definition ToCELPolicy (row : PolicyRow.t) : CELPolicy.t :=
  CELPolicy.mk (PolicyRow.ID row) (PolicyRow.Description row) (PolicyRow.Expression row)
    (PolicyRow.act row) (PolicyRow.Message row) (PolicyRow.Severity row)
    (PolicyRow.Enabled row) (PolicyRow.Priority row)
    (if bool_decide (PolicyRow.DispositionsJSON row = EmptyString) then None
     else unmarshal_dispositions (PolicyRow.DispositionsJSON row)).

(** The engine after the rows were added one by one, errors being logged;
    [orders i] is the order of the map of policies at the i-th addition. *)
Fixpoint add_policies (orders : nat -> list string) (rows : list PolicyRow.t)
    (en : CELEngine.t) : CELEngine.t :=
  match rows with
  | [] => en
  | row :: rows' =>
      add_policies (fun i => orders (S i)) rows'
        (CELEngine.AddPolicy (orders O) (ToCELPolicy row) en).2
  end.

Definition loadPolicies (orders : nat -> list string) (e : t) : res unit * t :=
  match on_store ListPolicies e with
  | (Err err, e1) => (Err err, e1)
  | (Ok policies, e1) => (Ok tt, with_engine (add_policies orders policies (engine e1)) e1)
  end.

Definition AddPolicy (ord : list string) (policy : PolicyRow.t) (e : t) : res unit * t :=
  match on_store (CreatePolicy policy) e with
  | (Err err, e1) => (Err err, e1)
  | (Ok _, e1) =>
      let '(r, en) := CELEngine.AddPolicy ord (ToCELPolicy policy) (engine e1) in
      (r, with_engine en e1)
  end.

Definition UpdatePolicy (orders : nat -> list string) (policy : PolicyRow.t) (e : t) :
    res unit * t :=
  match on_store (EnforcerStore.UpdatePolicy policy) e with
  | (Err err, e1) => (Err err, e1)
  | (Ok _, e1) => loadPolicies orders e1
  end.

Definition DeletePolicy (orders : nat -> list string) (id : string) (e : t) : res unit * t :=
  match on_store (EnforcerStore.DeletePolicy id) e with
  | (Err err, e1) => (Err err, e1)
  | (Ok _, e1) => loadPolicies orders e1
  end.

(** *** Rate-limit configuration and persistence *)

Definition SetBackendRateLimit (backendID : string)
    (riskCapacity riskRefill resourceCapacity resourceRefill : Z) (e : t) : t :=
  with_rateLimit (RateLimit.RateLimitManager.SetDefaultConfig backendID riskCapacity
    riskRefill resourceCapacity resourceRefill (rateLimit e)) e.

Definition default_rate_limits : list (string * (Z * Z) * (Z * Z)) := [
  ("slack", (100, 20), (200, 40)); ("newrelic", (150, 30), (300, 60));
  ("oracle", (50, 10), (100, 20)); ("github", (100, 20), (200, 40));
  ("circleci", (80, 16), (160, 32)); ("k8s", (100, 20), (200, 40));
  ("aws", (100, 20), (200, 40)); ("atlassian", (100, 20), (200, 40));
  ("qdrant", (80, 15), (160, 30)); ("mongodb", (60, 12), (120, 24));
  ("appscan_asoc", (40, 8), (80, 16)); ("mcpbridge", (200, 40), (400, 80))].

Definition SetDefaultRateLimits (e : t) : t :=
  foldl (fun e c => let '(b, (rc, rr), (sc, sr)) := c in SetBackendRateLimit b rc rr sc sr e)
    e default_rate_limits.

Definition SetRateLimitConfig (backendID : string)
    (riskCapacity riskRefill resourceCapacity resourceRefill : Z) : t -> t :=
  SetBackendRateLimit backendID riskCapacity riskRefill resourceCapacity resourceRefill.

(** Capacity and rate of the row are not loaded. *)
Definition state_from_db (s : RateLimitStateRow.t) : RateLimit.BucketStateForDB.t :=
  RateLimit.BucketStateForDB.mk (RateLimitStateRow.UserID s) (RateLimitStateRow.BackendID s)
    (RateLimitStateRow.BucketType s) (RateLimitStateRow.CurrentLevel s) 0 0
    (RateLimitStateRow.LastRefillAt s).

Definition LoadRateLimitStates (tm : Time) (e : t) : res unit * t :=
  match on_store ListRateLimitStates e with
  | (Err err, e1) => (Err err, e1)
  | (Ok states, e1) =>
      (Ok tt, with_rateLimit (RateLimit.RateLimitManager.LoadStates
                (state_from_db <$> states) tm (rateLimit e1)) e1)
  end.

(** Stops at the first row that cannot be written. *)
Fixpoint save_states (env : call_env) (i : nat) (states : list RateLimit.BucketStateForDB.t)
    (e : t) : res unit * t :=
  match states with
  | [] => (Ok tt, e)
  | s :: states' =>
      let row := RateLimitStateRow.mk (uuid env i) (RateLimit.BucketStateForDB.UserID s)
        (RateLimit.BucketStateForDB.BackendID s) (RateLimit.BucketStateForDB.BucketType s)
        (RateLimit.BucketStateForDB.CurrentLevel s)
        (RateLimit.BucketStateForDB.LastRefillAt s) (now env) in
      match on_store (UpsertRateLimitState row) e with
      | (Err err, e1) => (Err err, e1)
      | (Ok _, e1) => save_states env (S i) states' e1
      end
  end.

Definition SaveRateLimitStates (env : call_env) (e : t) : res unit * t :=
  save_states env 0 (RateLimit.RateLimitManager.GetAllStates (rateLimit e)) e.

Definition StopRateLimitRefill (env : call_env) (e : t) : t :=
  (SaveRateLimitStates env
     (with_rateLimit (RateLimit.RateLimitManager.StopPersist
        (RateLimit.RateLimitManager.Stop (rateLimit e))) e)).2.

Definition ResetUserRateLimit (userID backendID : string) (tm : Time) (e : t) : t :=
  with_rateLimit
    (RateLimit.RateLimitManager.ResetUserBuckets userID backendID tm (rateLimit e)) e.

Definition NewEnforcer (cfg : EnforcerConfig.t) (orders : nat -> list string) (tm : Time)
    (d : db) : res t :=
  let e := mk cfg MetadataResolver.NewMetadataResolver CELEngine.NewCELEngine d ∅
             RateLimit.RateLimitManager.NewRateLimitManager [] in
  match loadPolicies orders e with
  | (Err err, _) => Err (Wrapf "failed to load policies" err)
  | (Ok _, e1) =>
      let e2 := SetDefaultRateLimits e1 in
      let e3 := if EnforcerConfig.InferredCostMultiplier (config e2) =? 0
                then with_config (EnforcerConfig.with_InferredCostMultiplier 3 (config e2)) e2
                else e2 in
      Ok (LoadRateLimitStates tm e3).2
  end.

(** *** Overrides *)

Definition RegisterOverride (toolName backendID : string) (p : SafetyProfile.t) (e : t) :
    res unit * t :=
  let '(r, rs) := MetadataResolver.RegisterOverride toolName backendID p (resolver e) in
  (r, with_resolver rs e).

Definition RemoveOverride (toolName backendID : string) (e : t) : res unit * t :=
  let '(r, rs) := MetadataResolver.RemoveOverride toolName backendID (resolver e) in
  (r, with_resolver rs e).

Definition SetUserRateLimitOverride (id : string) (tm : Time)
    (override : UserRateLimitOverrideRow.t) (e : t) : res unit * t :=
  let backend := UserRateLimitOverrideRow.BackendID override in
  let '((globalRiskCap, _), (globalResCap, _)) :=
    RateLimit.RateLimitManager.GetDefaultConfig backend (rateLimit e) in
  let mult := if UserRateLimitOverrideRow.CostMultiplier override =? 0 then 1
              else UserRateLimitOverrideRow.CostMultiplier override in
  let riskCap := if UserRateLimitOverrideRow.RiskCapacity override =? 0 then globalRiskCap
                 else UserRateLimitOverrideRow.RiskCapacity override in
  let resCap := if UserRateLimitOverrideRow.ResourceCapacity override =? 0 then globalResCap
                else UserRateLimitOverrideRow.ResourceCapacity override in
  if (globalRiskCap <? riskCap *! mult) || (globalResCap <? resCap *! mult)
  then (Err ErrOverrideTooPermissive, e)
  else
    match on_store (UpsertUserRateLimitOverride id tm override) e with
    | (Err err, e1) => (Err err, e1)
    | (Ok _, e1) =>
        (Ok tt, with_rateLimit (RateLimit.RateLimitManager.SetUserConfig
           (RateLimit.UserBucketConfig.mk (UserRateLimitOverrideRow.UserID override) backend
              (UserRateLimitOverrideRow.RiskCapacity override) 0
              (UserRateLimitOverrideRow.ResourceCapacity override) 0
              (UserRateLimitOverrideRow.CostMultiplier override)) (rateLimit e1)) e1)
    end.

(** riskCap, riskRefill, resCap, resRefill, costMultiplier *)
Definition GetEffectiveBucketConfig (userID backendID : string) (e : t) : Z * Z * Z * Z * Z :=
  match RateLimit.RateLimitManager.GetUserConfig userID backendID (rateLimit e) with
  | None => (0, 0, 0, 0, 0)
  | Some cfg =>
      (RateLimit.UserBucketConfig.RiskCapacity cfg, RateLimit.UserBucketConfig.RiskRefill cfg,
       RateLimit.UserBucketConfig.ResCapacity cfg, RateLimit.UserBucketConfig.ResRefill cfg,
       RateLimit.UserBucketConfig.CostMultiplier cfg)
  end.

(** *** Kill switches *)

Definition EnableKillSwitch (env : call_env) (scope userID reason : string) (e : t) :
    res unit * t :=
  match on_store (EnforcerStore.EnableKillSwitch (uuid env 0) scope userID reason (now env)) e
  with
  | (Err err, e1) => (Err err, e1)
  | (Ok _, e1) => (Ok tt, with_killSwitches (<[scope := true]> (killSwitches e1)) e1)
  end.

Definition DisableKillSwitch (env : call_env) (scope : string) (e : t) : res unit * t :=
  match on_store (EnforcerStore.DisableKillSwitch scope (now env)) e with
  | (Err err, e1) => (Err err, e1)
  | (Ok _, e1) => (Ok tt, with_killSwitches (delete scope (killSwitches e1)) e1)
  end.

Definition IsKillSwitchActive (scope : string) (e : t) : bool :=
  if default false (killSwitches e !! scope) then true
  else default false (killSwitches e !! "global").

(** The check [Evaluate] makes; an error of the store counts as inactive. *)
Definition isKillSwitchActive (scope : string) (e : t) : bool * t :=
  if negb (EnforcerConfig.EnableKillSwitch (config e)) then (false, e)
  else let '((active, _), e1) := on_store (EnforcerStore.IsKillSwitchActive scope) e in
       (active, e1).

(** *** Evaluation *)

Definition audit_context (ctx : DecisionContext.t) : list (string * json) :=
  let s := DecisionContext.Safety ctx in
  [("risk", JStr (SafetyProfile.Risk s)); ("impact", JStr (SafetyProfile.Impact s));
   ("cost", JNum (SafetyProfile.Cost s) 0); ("requires_hitl", JBool (SafetyProfile.RequiresHITL s))].

(** The result of the INSERT is not looked at. *)
Definition logDecision (env : call_env) (ctx : DecisionContext.t) (d : EnforcerDecision.t)
    (e : t) : t :=
  (on_store (LogAuditEvent (uuid env 1) (uuid env 0) (DecisionContext.UserID ctx)
     (DecisionContext.Tool ctx) (EnforcerDecision.act d) (EnforcerDecision.PolicyID d)
     (EnforcerDecision.Message d) (marshal (audit_context ctx))
     (DecisionContext.Justification ctx)
     (match DecisionContext.Args ctx with [] => "{}" | args => marshal args end)
     (now env)) e).2.

Definition result := (EnforcerDecision.t * option error)%type.

Definition Evaluate (env : call_env) (ctx : DecisionContext.t) (e : t) : result * t :=
  let '(active, e1) := isKillSwitchActive (DecisionContext.BackendID ctx) e in
  if active then
    ((EnforcerDecision.of_gate ActionDeny SeverityCritical "Emergency kill switch is active"
        EmptyString, Some ErrKillSwitchActive), e1)
  else
    match CELEngine.Evaluate (order env) (now env) ctx (engine e1) with
    | Err err => ((EnforcerDecision.zero, Some (Wrapf "policy evaluation failed" err)), e1)
    | Ok decision => ((decision, None), logDecision env ctx decision e1)
    end.

Definition resolveDisposition (ctx : MatchContext) (e : t) : Action * string :=
  match CELEngine.LookupDisposition ctx (engine e) with
  | None => (ActionDeny, "Rate limit exceeded: no disposition policy configured for context '"
                         +:+ ctx +:+ "'")
  | Some r => r
  end.
End Enforcer.
Arguments t {_}.
End Enforcer.
