(* ===== verification/EnforcerCalls.v ===== *)
(** * Tool calls and approvals: [src/enforcer/enforcer.go]

    [HandleToolCall], the entry point of the enforcement, in the handler monad:
    every early return of the source is an [early], every statement on the
    store or the rate limiter a change of the state.  Then the operations on
    approval requests, and what they guarantee. *)
From S2P Require Import Prelude EnforcerTypes Heuristics Resolver CelEngine EnforcerStore Enforcer.
From S2P Require RateLimit.
Open Scope Z_scope.
Open Scope go_scope.
Open Scope handler_scope.

Module Calls.
Section Calls.
Context `{CelLib} `{EnforcerEnv}.
Import Enforcer.

(** *** HandleToolCall *)

(** Email, role and trust level of the user; empty and zero when there is
    no user store, no user id or no such user. *)
Definition user_info (userID : string) : string * string * Z :=
  match get_user with
  | Some lookup =>
      if bool_decide (userID = EmptyString) then (EmptyString, EmptyString, 0)
      else match lookup userID with
           | Ok (email, role) =>
               (email, role, if bool_decide (role = "admin") then 100 else 50)
           | Err _ => (EmptyString, EmptyString, 0)
           end
  | None => (EmptyString, EmptyString, 0)
  end.

Definition too_short_message (min len : Z) : string :=
  "Tool call rejected: justification must be at least " +:+ pretty min +:+
  " characters. Provided: " +:+ pretty len +:+ " characters.".

Definition reject (env : call_env) (userID toolName justification reason : string) :
    t -> t :=
  fun e => (on_store (LogAuditRejection (uuid env 1) (uuid env 0) userID toolName
                        justification reason (now env)) e).2.

(** The justification gate: the refusal, if the call is refused. *)
Definition justification_gate (cfg : EnforcerConfig.t) (opts : CallOptions)
    (justification : string) : option (string * EnforcerDecision.t) :=
  if negb (SkipJustification opts) && (0 <? EnforcerConfig.MinJustificationLength cfg) then
    if bool_decide (justification = EmptyString) then
      Some ("missing_justification",
            EnforcerDecision.of_gate ActionDeny SeverityMedium
              "Tool call rejected: justification is required." "justification_required")
    else if len justification <? EnforcerConfig.MinJustificationLength cfg then
      Some ("justification_too_short",
            EnforcerDecision.of_gate ActionDeny SeverityMedium
              (too_short_message (EnforcerConfig.MinJustificationLength cfg)
                 (len justification)) "justification_too_short")
    else None
  else None.

(** riskCost and resourceCost of a call, with the multiplier for inferred
    profiles. *)
Definition call_cost (cfg : EnforcerConfig.t) (profile : SafetyProfile.t) : Z * Z :=
  let '(riskCost, resourceCost) :=
    RateLimit.CalculateCost (SafetyProfile.Cost profile) (SafetyProfile.Risk profile)
      (SafetyProfile.Impact profile) in
  let m := EnforcerConfig.InferredCostMultiplier cfg in
  if bool_decide (SafetyProfile.Source profile = "inferred") && (1 <? m)
  then (riskCost *! m, resourceCost *! m) else (riskCost, resourceCost).

Definition rate_info (userID backendID : string) (e : t) : RateLimitInfo.t :=
  let '((riskAvail, riskCap, riskRefill), (resAvail, resCap, resRefill)) :=
    RateLimit.RateLimitManager.GetBucketStatus userID backendID (rateLimit e) in
  NewRateLimitInfo riskAvail riskCap riskRefill resAvail resCap resRefill.

(** The count of the rate window; zero when it is off or fails. *)
Definition count_call (env : call_env) (userID toolName : string) (e : t) : Z * t :=
  let w := EnforcerConfig.RateWindowDuration (config e) in
  if 0 <? w then
    match on_store (IncrementRateBucket rfc3339 userID toolName w (now env)) e with
    | (Ok n, e1) => (n, e1)
    | (Err _, e1) => (0, e1)
    end
  else (0, e).

Definition decision_context (userID toolName backendID justification : string)
    (args : list (string * json)) (profile : SafetyProfile.t) (rate : RateLimitInfo.t)
    (callRate : Z) : DecisionContext.t :=
  let '(email, role, trust) := user_info userID in
  DecisionContext.mk userID role email trust toolName args justification profile callRate
    backendID EmptyString rate EmptyString.

Definition self_declared (source : string) : bool :=
  bool_decide (source = "self_reported") || bool_decide (source = "override") ||
  bool_decide (source = "user_override").

Definition inferred_gate : EnforcerDecision.t :=
  EnforcerDecision.of_gate ActionPendingAdminApproval SeverityMedium
    "Tool requires admin approval: inferred profile, no explicit policy."
    "inferred_profile_gate".
Definition no_profile_denial : EnforcerDecision.t :=
  EnforcerDecision.of_gate ActionDeny SeverityHigh
    "Tool call denied: no safety profile and no explicit policy." "unknown_tool_no_profile".
Definition hitl_gate : EnforcerDecision.t :=
  EnforcerDecision.of_gate ActionPendingUserApproval SeverityMedium
    "Tool requires your approval per override profile." "override_requires_hitl".

Definition rate_limited (env : call_env) (risk_ok resource_ok : bool) (e : t) :
    EnforcerDecision.t :=
  let matchCtx := if negb resource_ok then MatchContextResourceLimit
                  else MatchContextRiskLimit in
  let '(a, msg) := resolveDisposition matchCtx e in
  EnforcerDecision.mk a SeverityMedium msg "rate_limit_disposition" [] (Some (now env)) 0
    EmptyString matchCtx.

(** Deny unless permitted: what happens to a decision no policy made. *)
Definition permit_gate (env : call_env) (userID toolName justification : string)
    (profile : SafetyProfile.t) (decision : EnforcerDecision.t) :
    M t result EnforcerDecision.t :=
  if bool_decide (EnforcerDecision.act decision = EmptyString) then
    if self_declared (SafetyProfile.Source profile) then
      ret (EnforcerDecision.with_action ActionAllow decision)
    else if bool_decide (SafetyProfile.Source profile = "inferred") then
      early (inferred_gate, None)
    else
      modify (reject env userID toolName justification "unknown_tool_no_profile") ;;;
      early (no_profile_denial, Some ErrPolicyViolation)
  else ret decision.

(** An override that asks for human approval tightens the decision. *)
Definition tightens (profile : SafetyProfile.t) (decision : EnforcerDecision.t) : bool :=
  negb (IsDenyAction (EnforcerDecision.act decision)) &&
  negb (RequiresApproval (EnforcerDecision.act decision)) &&
  SafetyProfile.RequiresHITL profile &&
  (bool_decide (SafetyProfile.Source profile = "override") ||
   bool_decide (SafetyProfile.Source profile = "user_override")).

Definition override_gate (profile : SafetyProfile.t) (decision : EnforcerDecision.t) :
    M t result unit :=
  when (tightens profile decision) (early (hitl_gate, None)).

(** Only a call that will be executed now consumes budget. *)
Definition consume_budget (env : call_env) (userID backendID : string) (cost : Z * Z)
    (decision : EnforcerDecision.t) : M t result result :=
  if bool_decide (EnforcerDecision.act decision = ActionAllow) then
    allowed <-- state (fun e =>
      let '(r, m) := RateLimit.RateLimitManager.CheckAndConsume userID backendID
                       cost.1 cost.2 (now env) (rateLimit e) in
      (r, with_rateLimit m e)) ;;
    if negb allowed.1 || negb allowed.2 then
      limited <-- gets (rate_limited env allowed.1 allowed.2) ;;
      early (limited, None)
    else ret (decision, None)
  else ret (decision, None).

Definition HandleToolCall (env : call_env) (userID toolName : string)
    (args : list (string * json)) (backendID justification : string) (opts : CallOptions) :
    M t result result :=
  profile <-- gets (fun e => MetadataResolver.ResolveForUser (Some (store e)) toolName
                               backendID userID (resolver e)) ;;
  match profile with
  | Err err => early (EnforcerDecision.zero,
                      Some (Wrapf "failed to resolve safety profile" err))
  | Ok profile =>
      gate <-- gets (fun e => justification_gate (config e) opts justification) ;;
      match gate with
      | Some (reason, denial) =>
          modify (reject env userID toolName justification reason) ;;;
          early (denial, Some ErrPolicyViolation)
      | None =>
          cost <-- gets (fun e => call_cost (config e) profile) ;;
          rate <-- gets (rate_info userID backendID) ;;
          callRate <-- state (count_call env userID toolName) ;;
          verdict <-- state (Evaluate env (decision_context userID toolName backendID
                               justification args profile rate callRate)) ;;
          match verdict with
          | (_, Some err) => early (EnforcerDecision.zero, Some err)
          | (decision, None) =>
              decision <-- permit_gate env userID toolName justification profile decision ;;
              override_gate profile decision ;;;
              consume_budget env userID backendID cost decision
          end
      end
  end.

(** The call as a function of the state. *)
Definition handle (env : call_env) (userID toolName : string) (args : list (string * json))
    (backendID justification : string) (opts : CallOptions) (e : t) : result * t :=
  run (HandleToolCall env userID toolName args backendID justification opts) e.

(** *** Approval requests *)

Definition approval_timeout (cfg : EnforcerConfig.t) (queueType : string) : Duration :=
  if bool_decide (queueType = "user") then
    if EnforcerConfig.UserApprovalTimeout cfg =? 0 then 10 * Minute
    else EnforcerConfig.UserApprovalTimeout cfg
  else
    if EnforcerConfig.AdminApprovalTimeout cfg =? 0 then EnforcerConfig.ApprovalTimeout cfg
    else EnforcerConfig.AdminApprovalTimeout cfg.

(** [safetyJSON] is the marshalled profile. *)
Definition RequestApproval (env : call_env) (ctx : DecisionContext.t) (safetyJSON : string)
    (policyID message queueType : string) (matchCtx : MatchContext) (e : t) :
    res string * t :=
  let id := uuid env 0 in
  let req := ApprovalRequestRow.mk id (DecisionContext.UserID ctx)
    (DecisionContext.UserEmail ctx) (DecisionContext.UserRole ctx)
    (DecisionContext.TrustLevel ctx) (DecisionContext.Tool ctx)
    (marshal (DecisionContext.Args ctx)) (DecisionContext.BackendID ctx) safetyJSON
    "PENDING" queueType (DecisionContext.Justification ctx) (now env)
    (now env + approval_timeout (config e) queueType) None None EmptyString EmptyString
    policyID message matchCtx (DecisionContext.RequestBody ctx) 0 EmptyString None
    EmptyString in
  match on_store (CreateApprovalRequest req) e with
  | (Err err, e1) => (Err (Wrapf "failed to create approval request" err), e1)
  | (Ok _, e1) => (Ok id, e1)
  end.

(** The pair (approved, error). *)
Definition CheckApproval (tm : Time) (approvalID : string) (e : t) : (bool * option error) * t :=
  match on_store (GetApprovalRequest approvalID) e with
  | (Err err, e1) => ((false, Some err), e1)
  | (Ok req, e1) =>
      let st := ApprovalRequestRow.Status req in
      (if bool_decide (st = "APPROVED") then (true, None)
       else if bool_decide (st = "DENIED") then
         (false, Some (Errorf ("request was denied: " +:+ ApprovalRequestRow.DenialReason req)))
       else if bool_decide (st = "EXPIRED") || (ApprovalRequestRow.ExpiresAt req <? tm) then
         (false, Some (Errorf "approval request expired"))
       else (false, None), e1)
  end.

Definition ApproveRequest (approvalID approverID comments : string) (tm : Time) (e : t) :
    res string * t :=
  match on_store (EnforcerStore.ApproveRequest approvalID approverID comments tm) e with
  | (Err err, e1) => (Err err, e1)
  | (Ok _, e1) =>
      match on_store (GetApprovalRequest approvalID) e1 with
      | (Err err, e2) => (Err err, e2)
      | (Ok req, e2) => (Ok (ApprovalRequestRow.RequestBody req), e2)
      end
  end.

Definition DenyRequest (approvalID approverID reason : string) (tm : Time) (e : t) :
    res unit * t :=
  on_store (EnforcerStore.DenyRequest approvalID approverID reason tm) e.

(** The call of the executor, recorded in [executed]. *)
Definition run_executor (exec : string -> string -> string -> (Z * string) + string)
    (req : ApprovalRequestRow.t) (e : t) : ((Z * string) + string) * t :=
  let u := ApprovalRequestRow.UserID req in
  let b := ApprovalRequestRow.BackendID req in
  let body := ApprovalRequestRow.RequestBody req in
  (exec u b body, with_executed (executed e ++ [(u, b, body)]) e).

Definition ExecuteApprovedRequest (approvalID approverID comments : string) (tm : Time) :
    M t (res ApprovalRequestRow.t) (res ApprovalRequestRow.t) :=
  approved <-- state (on_store
    (EnforcerStore.ApproveRequest approvalID approverID comments tm)) ;;
  match approved with
  | Err err => early (Err (Wrapf "failed to approve request" err))
  | Ok _ =>
      got <-- state (on_store (GetApprovalRequest approvalID)) ;;
      match got with
      | Err err => early (Err (Wrapf "failed to get request" err))
      | Ok req =>
          match execute_request with
          | None => ret (Ok req)
          | Some exec =>
              marked <-- state (on_store (MarkExecuting approvalID)) ;;
              match marked with
              | Err err => early (Err (Wrapf "failed to mark executing" err))
              | Ok _ =>
                  outcome <-- state (run_executor exec req) ;;
                  done_ <-- state (on_store
                    (match outcome with
                     | inr errMsg => MarkFailed approvalID errMsg tm
                     | inl (statusCode, responseBody) =>
                         MarkCompleted approvalID statusCode responseBody tm
                     end)) ;;
                  match done_ with
                  | Err err =>
                      early (Err (Wrapf (match outcome with
                        | inr _ => "failed to mark failed"
                        | inl _ => "failed to mark completed" end) err))
                  | Ok _ =>
                      updated <-- state (on_store (GetApprovalRequest approvalID)) ;;
                      match updated with
                      | Err err => ret (Err (Wrapf "failed to get updated request" err))
                      | Ok r => ret (Ok r)
                      end
                  end
              end
          end
      end
  end.

Definition execute (approvalID approverID comments : string) (tm : Time) (e : t) :
    res ApprovalRequestRow.t * t :=
  run (ExecuteApprovedRequest approvalID approverID comments tm) e.

Definition DecorateDescription (description toolName backendID : string) (e : t) : string :=
  if negb (EnforcerConfig.EnableDescriptionDecoration (config e)) then description
  else match MetadataResolver.Resolve (Some (store e)) toolName backendID (resolver e) with
       | Err _ => description
       | Ok profile => Decorate description profile
       end.

(** One tick of [cleanupLoop]; the errors are logged. *)
Definition cleanup_tick (tm : Time) (e : t) : t :=
  let e1 := (on_store (CleanupExpiredApprovals tm) e).2 in
  if 0 <? EnforcerConfig.RetentionPeriod (config e1)
  then (on_store (CleanupOldApprovals (EnforcerConfig.RetentionPeriod (config e1)) tm) e1).2
  else e1.
End Calls.
End Calls.

(** * Properties *)

(** ** What a call can do: the outcomes of [HandleToolCall] *)

Module CallFacts.
Section Facts.
Context `{CelLib} `{EnforcerEnv}.
Import Enforcer Calls.

(** Only the database differs. *)
Definition store_only (e e' : t) : Prop := exists d, e' = with_store d e.

#[export] Instance store_only_preorder : PreOrder store_only.
Proof.
  split; [intros e; exists (store e); by destruct e|].
  intros e1 e2 e3 [d1 ->] [d2 ->]. by exists d2.
Qed.

Lemma on_store_only {A} (f : db -> A * db) e : store_only e (on_store f e).2.
Proof. unfold on_store. destruct (f (store e)) as [a d]. by exists d. Qed.

Lemma reject_only env u tl j reason e : store_only e (reject env u tl j reason e).
Proof. apply on_store_only. Qed.

Lemma count_call_only env u tl e : store_only e (count_call env u tl e).2.
Proof.
  unfold count_call. case_if; [|reflexivity].
  pose proof (on_store_only (IncrementRateBucket rfc3339 u tl
    (EnforcerConfig.RateWindowDuration (config e)) (now env)) e) as Ho.
  by destruct (on_store _ e) as [[]].
Qed.

Lemma isKillSwitchActive_only sc e : store_only e (isKillSwitchActive sc e).2.
Proof.
  unfold isKillSwitchActive. case_if; [reflexivity|].
  pose proof (on_store_only (EnforcerStore.IsKillSwitchActive sc) e) as Ho.
  by destruct (on_store _ e) as [[]].
Qed.

Lemma logDecision_only env ctx d e : store_only e (logDecision env ctx d e).
Proof. apply on_store_only. Qed.

Lemma Evaluate_only env ctx e : store_only e (Evaluate env ctx e).2.
Proof.
  unfold Evaluate. pose proof (isKillSwitchActive_only (DecisionContext.BackendID ctx) e) as Hk.
  destruct (isKillSwitchActive _ e) as [active e1]; cbn in Hk.
  destruct active; [done|]. destruct (CELEngine.Evaluate _ _ _ _); cbn; [|done].
  etransitivity; [exact Hk | apply logDecision_only].
Qed.

Lemma store_only_fields e e' :
  store_only e e' ->
  config e' = config e /\ resolver e' = resolver e /\ engine e' = engine e /\
  killSwitches e' = killSwitches e /\ rateLimit e' = rateLimit e /\
  executed e' = executed e.
Proof. by intros [d ->]. Qed.

Lemma ResolveForUser_ok (e : t) tl b u :
  exists p, MetadataResolver.ResolveForUser (Some (store e)) tl b u (resolver e) = Ok p.
Proof.
  unfold MetadataResolver.ResolveForUser.
  destruct (MetadataResolver.admin_tier _ _ _); [eauto|].
  destruct (MetadataResolver.user_tier _ _ _ _); [eauto|].
  destruct (MetadataResolver.stored_tier _ _ _); eauto.
Qed.

(** The decision after the deny-unless-permitted gate, where it goes on. *)
Definition permitted (p : SafetyProfile.t) (d : EnforcerDecision.t) : EnforcerDecision.t :=
  if bool_decide (EnforcerDecision.act d = EmptyString)
  then EnforcerDecision.with_action ActionAllow d else d.

Definition passes_gate (p : SafetyProfile.t) (d : EnforcerDecision.t) : Prop :=
  EnforcerDecision.act d <> EmptyString \/ self_declared (SafetyProfile.Source p) = true.

Definition needs_hitl (p : SafetyProfile.t) (d : EnforcerDecision.t) : Prop :=
  IsDenyAction (EnforcerDecision.act d) = false /\
  RequiresApproval (EnforcerDecision.act d) = false /\
  SafetyProfile.RequiresHITL p = true /\
  (SafetyProfile.Source p = "override" \/ SafetyProfile.Source p = "user_override").

(** The context the policies are evaluated in. *)
Definition call_context (env : call_env) (u tl : string) (args : list (string * json))
    (b j : string) (e : t) (p : SafetyProfile.t) : DecisionContext.t :=
  decision_context u tl b j args p (rate_info u b e) (count_call env u tl e).1.

(** What happens once the policies have been evaluated. *)
Inductive settled (env : call_env) (u tl b j : string) (e : t) (p : SafetyProfile.t) :
    EnforcerDecision.t -> t -> result -> t -> Prop :=
| to_admin d e2 :
    EnforcerDecision.act d = EmptyString -> SafetyProfile.Source p = "inferred" ->
    settled env u tl b j e p d e2 (inferred_gate, None) e2
| no_profile d e2 :
    EnforcerDecision.act d = EmptyString -> SafetyProfile.Source p <> "inferred" ->
    self_declared (SafetyProfile.Source p) = false ->
    settled env u tl b j e p d e2 (no_profile_denial, Some ErrPolicyViolation)
      (reject env u tl j "unknown_tool_no_profile" e2)
| to_user d e2 :
    passes_gate p d -> needs_hitl p (permitted p d) ->
    settled env u tl b j e p d e2 (hitl_gate, None) e2
| decreed d e2 :
    passes_gate p d -> ~ needs_hitl p (permitted p d) ->
    EnforcerDecision.act (permitted p d) <> ActionAllow ->
    settled env u tl b j e p d e2 (permitted p d, None) e2
| paid d e2 m :
    passes_gate p d -> ~ needs_hitl p (permitted p d) ->
    EnforcerDecision.act (permitted p d) = ActionAllow ->
    RateLimit.RateLimitManager.CheckAndConsume u b (call_cost (config e) p).1
      (call_cost (config e) p).2 (now env) (rateLimit e) = ((true, true), m) ->
    settled env u tl b j e p d e2 (permitted p d, None) (with_rateLimit m e2)
| limited d e2 rok sok m :
    passes_gate p d -> ~ needs_hitl p (permitted p d) ->
    EnforcerDecision.act (permitted p d) = ActionAllow ->
    RateLimit.RateLimitManager.CheckAndConsume u b (call_cost (config e) p).1
      (call_cost (config e) p).2 (now env) (rateLimit e) = ((rok, sok), m) ->
    rok && sok = false ->
    settled env u tl b j e p d e2 (rate_limited env rok sok (with_rateLimit m e2), None)
      (with_rateLimit m e2).

(** The outcomes, as a specification of the call. *)
Inductive outcome (env : call_env) (u tl : string) (args : list (string * json))
    (b j : string) (opts : CallOptions) (e : t) (p : SafetyProfile.t) :
    result -> t -> Prop :=
| unjustified reason denial :
    justification_gate (config e) opts j = Some (reason, denial) ->
    outcome env u tl args b j opts e p (denial, Some ErrPolicyViolation)
      (reject env u tl j reason e)
| failed d err e2 :
    justification_gate (config e) opts j = None ->
    Evaluate env (call_context env u tl args b j e p) (count_call env u tl e).2
      = ((d, Some err), e2) ->
    outcome env u tl args b j opts e p (EnforcerDecision.zero, Some err) e2
| decided d e2 r e' :
    justification_gate (config e) opts j = None ->
    Evaluate env (call_context env u tl args b j e p) (count_call env u tl e).2
      = ((d, None), e2) ->
    settled env u tl b j e p d e2 r e' ->
    outcome env u tl args b j opts e p r e'.

Lemma self_declared_not_inferred s : self_declared s = true -> s <> "inferred".
Proof. unfold self_declared. intros Hs ->. vm_compute in Hs. done. Qed.

Lemma needs_hitl_spec p d : tightens p d = true <-> needs_hitl p d.
Proof.
  unfold needs_hitl, tightens. rewrite !andb_true_iff, !negb_true_iff, orb_true_iff,
    !bool_decide_eq_true. tauto.
Qed.

Lemma reject_rateLimit env u tl j reason e :
  rateLimit (reject env u tl j reason e) = rateLimit e.
Proof. by destruct (store_only_fields _ _ (reject_only env u tl j reason e))
  as (_ & _ & _ & _ & -> & _). Qed.

(** The evaluation leaves everything but the database. *)
Lemma evaluated_fields env u tl args b j e p d err e2 :
  Evaluate env (call_context env u tl args b j e p) (count_call env u tl e).2
    = ((d, err), e2) ->
  store_only e e2 /\ rateLimit e2 = rateLimit e /\ engine e2 = engine e.
Proof.
  intros He. pose proof (Evaluate_only env (call_context env u tl args b j e p)
    (count_call env u tl e).2) as Hev. rewrite He in Hev.
  assert (Hs : store_only e e2) by (etransitivity; [apply count_call_only | exact Hev]).
  by destruct (store_only_fields _ _ Hs) as (_ & _ & ? & _ & ? & _).
Qed.

(** The outcome of the policies, once no kill switch is active. *)
Lemma evaluated_decision env u tl args b j e p d err e2 :
  Evaluate env (call_context env u tl args b j e p) (count_call env u tl e).2
    = ((d, err), e2) ->
  err = Some ErrKillSwitchActive \/
  match CELEngine.Evaluate (order env) (now env) (call_context env u tl args b j e p)
          (engine e) with
  | Ok dd => err = None /\ d = dd
  | Err _ => err <> None
  end.
Proof.
  intros He. unfold Evaluate in He.
  set (c := call_context env u tl args b j e p) in *.
  pose proof (isKillSwitchActive_only (DecisionContext.BackendID c)
    (count_call env u tl e).2) as Hk.
  destruct (isKillSwitchActive _ _) as [active e1]; cbn [snd] in Hk.
  assert (Hs : store_only e e1) by (etransitivity; [apply count_call_only | exact Hk]).
  destruct (store_only_fields _ _ Hs) as (_ & _ & Heng & _). rewrite Heng in He.
  destruct active; [injection He as _ <- _; by left|]. right.
  destruct (CELEngine.Evaluate _ _ c (engine e)); injection He as <- <- _; done.
Qed.

(** What follows the evaluation. *)
Definition conclude (env : call_env) (u tl b j : string) (cost : Z * Z)
    (p : SafetyProfile.t) (d : EnforcerDecision.t) : M t result result :=
  d <-- permit_gate env u tl j p d ;; override_gate p d ;;; consume_budget env u b cost d.

Lemma conclude_settled env u tl b j e p d e2 :
  store_only e e2 ->
  let r := run (conclude env u tl b j (call_cost (config e) p) p d) e2 in
  settled env u tl b j e p d e2 r.1 r.2.
Proof.
  intros Hs. destruct (store_only_fields _ _ Hs) as (_ & _ & _ & _ & Hrl & _).
  unfold conclude, permit_gate.
  assert (Hpass : passes_gate p d -> forall d', d' = permitted p d ->
            let r := run (override_gate p d' ;;;
                          consume_budget env u b (call_cost (config e) p) d') e2 in
            settled env u tl b j e p d e2 r.1 r.2).
  { intros Hp d' ->. unfold override_gate, consume_budget, run, bind.
    destruct (tightens p (permitted p d)) eqn:Hh; cbn -[call_cost].
    { apply to_user; [done | by apply needs_hitl_spec]. }
    assert (Hno : ~ needs_hitl p (permitted p d)) by (rewrite <- needs_hitl_spec; congruence).
    destruct (decide (EnforcerDecision.act (permitted p d) = ActionAllow)) as [Ha|Ha].
    - rewrite bool_decide_eq_true_2 by done. unfold bind, state. rewrite Hrl.
      destruct (RateLimit.RateLimitManager.CheckAndConsume _ _ _ _ _ _)
        as [[rok sok] m] eqn:Hc.
      destruct rok, sok; cbn; first [by apply paid | by eapply limited].
    - rewrite bool_decide_eq_false_2 by done. cbn. by apply decreed. }
  case_bool_decide as Hd; unfold run, bind in *; cbn in *.
  - destruct (self_declared (SafetyProfile.Source p)) eqn:Hself; cbn.
    + apply Hpass; [by right|]. unfold permitted. by rewrite bool_decide_eq_true_2.
    + case_bool_decide; cbn; [by apply to_admin | by apply no_profile].
  - apply Hpass; [by left|]. unfold permitted. by rewrite bool_decide_eq_false_2.
Qed.

(** A denial is not changed by what follows the evaluation. *)
Lemma settled_denied env u tl b j e p d e2 r e' :
  EnforcerDecision.act d = ActionDeny -> settled env u tl b j e p d e2 r e' ->
  EnforcerDecision.act r.1 = ActionDeny.
Proof.
  intros Hd Hset.
  assert (Hperm : EnforcerDecision.act (permitted p d) = ActionDeny).
  { unfold permitted. rewrite bool_decide_eq_false_2 by (by rewrite Hd). done. }
  unfold ActionDeny, ActionAllow in *.
  inversion Hset; subst; cbn [fst]; unfold ActionAllow in *; try reflexivity; try congruence.
  match goal with Hn : needs_hitl _ _ |- _ => destruct Hn as [Hdn _] end.
  rewrite Hperm in Hdn. vm_compute in Hdn. done.
Qed.

(** Every call has one of the outcomes. *)
Lemma handle_outcome env u tl args b j opts e :
  exists p, MetadataResolver.ResolveForUser (Some (store e)) tl b u (resolver e) = Ok p /\
    outcome env u tl args b j opts e p (handle env u tl args b j opts e).1
      (handle env u tl args b j opts e).2.
Proof.
  destruct (ResolveForUser_ok e tl b u) as [p Hp]. exists p. split; [done|].
  unfold handle, HandleToolCall, run, bind, gets. rewrite Hp. cbn -[rate_info call_cost count_call Evaluate decision_context justification_gate conclude].
  destruct (justification_gate (config e) opts j) as [[reason denial]|] eqn:Hj.
  { by apply unjustified. }
  unfold bind, state. pose proof (count_call_only env u tl e) as Hcount.
  destruct (count_call env u tl e) as [n e1] eqn:Hc; cbn in Hcount.
  cbn -[rate_info call_cost count_call Evaluate decision_context justification_gate conclude]. set (ctx := decision_context u tl b j args p (rate_info u b e) n).
  pose proof (Evaluate_only env ctx e1) as Hev.
  destruct (Evaluate env ctx e1) as [[d [err|]] e2] eqn:He; cbn [snd] in Hev;
    cbn -[rate_info call_cost count_call Evaluate decision_context justification_gate conclude].
  - apply (failed _ _ _ _ _ _ _ _ _ d err e2); [done|].
    unfold call_context. by rewrite Hc.
  - assert (Hs : store_only e e2) by (by etransitivity).
    pose proof (conclude_settled env u tl b j e p d e2 Hs) as Hset.
    apply (decided _ _ _ _ _ _ _ _ _ d e2); [done | | exact Hset].
    unfold call_context. by rewrite Hc.
Qed.
End Facts.
End CallFacts.

Section CallTheorems.
Context `{CelLib} `{EnforcerEnv}.
Import Enforcer Calls CallFacts.

(** A call without a sufficient justification is refused before anything
    else happens: it is denied as a policy violation, no policy is evaluated,
    no budget is consumed, and the refusal is in the audit log. *)
Theorem unjustified_call_refused env u tl args b j opts e :
  SkipJustification opts = false ->
  len j < EnforcerConfig.MinJustificationLength (config e) ->
  let r := handle env u tl args b j opts e in
  EnforcerDecision.act r.1.1 = ActionDeny /\ r.1.2 = Some ErrPolicyViolation /\
  rateLimit r.2 = rateLimit e /\ engine r.2 = engine e /\
  (faults (store e) = [] ->
   exists row, audit_log (store r.2) = audit_log (store e) ++ [row] /\
     AuditRow.action row = "DENY" /\ AuditRow.user_id row = u /\
     AuditRow.tool_name row = tl /\
     AuditRow.policy_id row = (if bool_decide (j = EmptyString) then "missing_justification"
                               else "justification_too_short")).
Proof.
  intros Hskip Hlen r.
  assert (Hj : exists denial, justification_gate (config e) opts j =
            Some (if bool_decide (j = EmptyString) then "missing_justification"
                  else "justification_too_short", denial) /\
            EnforcerDecision.act denial = ActionDeny).
  { unfold justification_gate. rewrite Hskip. cbn [negb andb].
    assert (0 <= len j) by (unfold len; lia).
    rewrite (proj2 (Z.ltb_lt 0 _)) by lia.
    case_bool_decide; [by eexists|]. rewrite (proj2 (Z.ltb_lt _ _)) by done. by eexists. }
  destruct Hj as (denial & Hj & Hdeny).
  destruct (handle_outcome env u tl args b j opts e) as (p & _ & Ho).
  fold r in Ho. destruct r as [res e']; cbn [fst snd] in *.
  inversion Ho as [reason' denial' Hj'| | ]; subst; try congruence.
  rewrite Hj in Hj'. injection Hj' as <- <-. split; [done|]. split; [done|].
  destruct (store_only_fields _ _ (reject_only env u tl j
    (if bool_decide (j = EmptyString) then "missing_justification"
     else "justification_too_short") e)) as (_ & _ & -> & _ & -> & _).
  split_and!; try done. intros Hf. unfold reject, on_store, LogAuditRejection, exec, stmt.
  rewrite Hf. cbn. by eexists.
Qed.

(** C9: budget and permission go together, up to the rate limiter's own refusals.  A call
    that fails leaves every bucket as it was.  Any other call comes out in one of three
    ways: allowed, with both its risk and its resource cost paid from the buckets of its
    user and backend; with another decision than that of the limiter, not an allowance,
    and no bucket touched; or turned away by the limiter because one of the two buckets
    could not pay.  In this last case what the other bucket paid is kept, and the action
    is that of the disposition for the limit, which may allow the unpaid call, and a
    denial when there is none. *)
Theorem budget_follows_permission env u tl args b j opts e d err e' :
  handle env u tl args b j opts e = ((d, err), e') ->
  exists p, MetadataResolver.ResolveForUser (Some (store e)) tl b u (resolver e) = Ok p /\
  let pay := RateLimit.RateLimitManager.CheckAndConsume u b (call_cost (config e) p).1
               (call_cost (config e) p).2 (now env) (rateLimit e) in
  (err <> None -> rateLimit e' = rateLimit e) /\
  (err = None ->
     (EnforcerDecision.act d = ActionAllow /\ pay = ((true, true), rateLimit e')) \/
     (EnforcerDecision.act d <> ActionAllow /\ rateLimit e' = rateLimit e) \/
     (EnforcerDecision.PolicyID d = "rate_limit_disposition" /\
      exists rok sok, pay = ((rok, sok), rateLimit e') /\ rok && sok = false /\
        EnforcerDecision.MatchCtx d = (if sok then MatchContextRiskLimit else MatchContextResourceLimit) /\
        EnforcerDecision.act d =
          default ActionDeny (fst <$> CELEngine.LookupDisposition (EnforcerDecision.MatchCtx d) (engine e)))).
Proof.
  intros Hh. destruct (handle_outcome env u tl args b j opts e) as (p & Hp & Ho).
  exists p. split; [done|]. rewrite Hh in Ho. cbn [fst snd] in Ho.
  inversion Ho as [reason denial Hj Hr|d0 err0 e2 Hj He Hr|d0 e2 r e'' Hj He Hset Hr]; subst.
  - split; [|done]. intros _. by rewrite (reject_rateLimit env u tl j reason e).
  - split; [|done]. intros _.
    by destruct (evaluated_fields _ _ _ _ _ _ _ _ _ _ _ He) as (_ & -> & _).
  - destruct (evaluated_fields _ _ _ _ _ _ _ _ _ _ _ He) as (_ & Hrl & Heng).
    inversion Hset; subst; split; intros He'; try done; try (by destruct He').
    + right. left. by split.
    + by rewrite reject_rateLimit.
    + right. left. by split.
    + right. left. by split.
    + left. by split.
    + right. right. unfold rate_limited, resolveDisposition.
      change (engine (with_rateLimit m e2)) with (engine e2). rewrite Heng. cbv zeta.
      assert (Hctx : (if negb sok then MatchContextResourceLimit else MatchContextRiskLimit) =
        (if sok then MatchContextRiskLimit else MatchContextResourceLimit)) by by destruct sok.
      rewrite Hctx. destruct (CELEngine.LookupDisposition _ (engine e)) as [[a msg]|] eqn:HL; cbn;
        (split; [done|]); exists rok, sok; rewrite HL; by split_and!.
Qed.

(** C5: a policy that denies is final: if one loaded policy that denies
    matches the call, the call comes out denied, whatever its profile, its
    overrides, its budget and the other policies; the only other outcome is
    the error of an active kill switch. *)
Theorem deny_policy_final env u tl args b j opts e p id pol act :
  MetadataResolver.ResolveForUser (Some (store e)) tl b u (resolver e) = Ok p ->
  let ctx := call_context env u tl args b j e p in
  EngineFacts.map_order (order env) (engine e) ->
  cel_activation (buildActivation ctx) = Ok act ->
  EngineFacts.matches act (engine e) id pol -> CELPolicy.act pol = ActionDeny ->
  let r := handle env u tl args b j opts e in
  EnforcerDecision.act r.1.1 = ActionDeny \/ r.1.2 = Some ErrKillSwitchActive.
Proof.
  intros Hp ctx Hord Hact Hm Hdeny r.
  destruct (handle_outcome env u tl args b j opts e) as (p' & Hp' & Ho).
  rewrite Hp in Hp'. injection Hp' as <-. fold r in Ho. destruct r as [res e']; cbn [fst snd] in *.
  destruct (EngineFacts.Evaluate_total (order env) (now env) ctx (engine e) act Hact) as [dd Hdd].
  pose proof (EngineFacts.Evaluate_denied (order env) (now env) ctx (engine e) act dd id pol
    Hord Hact Hm Hdeny Hdd) as Hden.
  inversion Ho as [reason denial Hj Hr|d0 err0 e2 Hj He Hr|d0 e2 r e'' Hj He Hset Hr];
    subst; cbn [fst snd].
  - left. unfold justification_gate in Hj. repeat case_if; try done; by injection Hj as _ <-.
  - right. destruct (evaluated_decision _ _ _ _ _ _ _ _ _ _ _ He) as [?|Hd]; [done|].
    fold ctx in Hd. rewrite Hdd in Hd. by destruct Hd.
  - destruct (evaluated_decision _ _ _ _ _ _ _ _ _ _ _ He) as [?|Hd]; [done|].
    fold ctx in Hd. rewrite Hdd in Hd. destruct Hd as [_ ->]. left.
    apply (settled_denied _ _ _ _ _ _ _ _ _ _ _ Hden Hset).
Qed.

(** C11: an override that asks for human approval cannot be got round: whatever
    the policies decide, a call to a tool whose admin or personal override
    requires approval is refused, queued for approval, or fails; it is never
    allowed and never let through with a warning. *)
Theorem override_hitl_binding env u tl args b j opts e p :
  MetadataResolver.ResolveForUser (Some (store e)) tl b u (resolver e) = Ok p ->
  SafetyProfile.RequiresHITL p = true ->
  SafetyProfile.Source p = "override" \/ SafetyProfile.Source p = "user_override" ->
  let r := handle env u tl args b j opts e in
  (r.1.2 <> None \/ IsDenyAction (EnforcerDecision.act r.1.1) = true \/
   RequiresApproval (EnforcerDecision.act r.1.1) = true) /\
  rateLimit r.2 = rateLimit e.
Proof.
  intros Hp Hhitl Hsrc r.
  destruct (handle_outcome env u tl args b j opts e) as (p' & Hp' & Ho).
  rewrite Hp in Hp'. injection Hp' as <-. fold r in Ho. destruct r as [res e']; cbn [fst snd] in *.
  inversion Ho as [reason denial Hj Hr|d0 err0 e2 Hj He Hr|d0 e2 r e'' Hj He Hset Hr];
    subst; cbn [fst snd].
  - split; [by left | apply reject_rateLimit].
  - destruct (evaluated_fields _ _ _ _ _ _ _ _ _ _ _ He) as (_ & -> & _). split; [by left | done].
  - destruct (evaluated_fields _ _ _ _ _ _ _ _ _ _ _ He) as (_ & Hrl & _).
    assert (Hno : forall d, ~ needs_hitl p d -> IsDenyAction (EnforcerDecision.act d) = true \/
              RequiresApproval (EnforcerDecision.act d) = true).
    { intros d Hd. unfold needs_hitl in Hd.
      destruct (IsDenyAction _); [by left|]. destruct (RequiresApproval _); [by right|].
      by destruct Hd. }
    inversion Hset; subst; cbn [fst snd].
    + split; [right; right; reflexivity | done].
    + split; [by left | by rewrite reject_rateLimit].
    + split; [right; right; reflexivity | done].
    + split; [right; by apply Hno | done].
    + exfalso. match goal with Hn : ~ needs_hitl _ _, Ha : _ = ActionAllow |- _ =>
        destruct (Hno _ Hn) as [Hc|Hc]; rewrite Ha in Hc; vm_compute in Hc; done end.
    + exfalso. match goal with Hn : ~ needs_hitl _ _, Ha : _ = ActionAllow |- _ =>
        destruct (Hno _ Hn) as [Hc|Hc]; rewrite Ha in Hc; vm_compute in Hc; done end.
Qed.

(** A tool nobody vouched for never runs unattended: when its profile is
    only inferred and no loaded policy matches the call, the call goes to the
    administrators' queue and consumes nothing (or fails, or is refused for
    its justification). *)
Theorem inferred_unmatched_queued env u tl args b j opts e p act :
  MetadataResolver.ResolveForUser (Some (store e)) tl b u (resolver e) = Ok p ->
  SafetyProfile.Source p = "inferred" ->
  cel_activation (buildActivation (call_context env u tl args b j e p)) = Ok act ->
  (forall id pol, ~ EngineFacts.matches act (engine e) id pol) ->
  let r := handle env u tl args b j opts e in
  (r.1 = (inferred_gate, None) \/ r.1.2 <> None) /\ rateLimit r.2 = rateLimit e.
Proof.
  intros Hp Hsrc Hact Hnone r.
  destruct (handle_outcome env u tl args b j opts e) as (p' & Hp' & Ho).
  rewrite Hp in Hp'. injection Hp' as <-. fold r in Ho. destruct r as [res e']; cbn [fst snd] in *.
  inversion Ho as [reason denial Hj Hr|d0 err0 e2 Hj He Hr|d0 e2 r e'' Hj He Hset Hr];
    subst; cbn [fst snd].
  - split; [by right | apply reject_rateLimit].
  - destruct (evaluated_fields _ _ _ _ _ _ _ _ _ _ _ He) as (_ & -> & _). split; [by right | done].
  - destruct (evaluated_fields _ _ _ _ _ _ _ _ _ _ _ He) as (_ & Hrl & _).
    destruct (evaluated_decision _ _ _ _ _ _ _ _ _ _ _ He) as [?|Hd]; [done|].
    destruct (CELEngine.Evaluate _ _ _ _) as [dd|er] eqn:Hce; [|by destruct Hd].
    destruct Hd as [_ ->].
    pose proof (EngineFacts.Evaluate_ok _ _ _ _ _ _ Hact Hce) as [_ Hfrom].
    destruct Hfrom as [(Hemp & _)|(id & pol & _ & Hm & _)]; [|by destruct (Hnone id pol)].
    assert (Hns : self_declared (SafetyProfile.Source p) = false) by (rewrite Hsrc; reflexivity).
    assert (Hnp : ~ passes_gate p dd) by (unfold passes_gate; rewrite Hemp, Hns; naive_solver).
    inversion Hset; subst; cbn [fst snd]; try done. split; [by left | done].
Qed.

(** While a kill switch is on for the backend or globally, no call of the
    backend is evaluated or pays for anything; but the decision that comes back
    with the error is the empty one, not the denial [Evaluate] made. *)
Lemma killed_call env u tl args b j opts e :
  justification_gate (config e) opts j = None ->
  EnforcerConfig.EnableKillSwitch (config e) = true -> faults (store e) = [] ->
  switch_enabled b (store e) || switch_enabled "global" (store e) = true ->
  let r := handle env u tl args b j opts e in
  r.1 = (EnforcerDecision.zero, Some ErrKillSwitchActive) /\ rateLimit r.2 = rateLimit e /\
  audit_log (store r.2) = audit_log (store e).
Proof.
  intros Hj Hcfg Hf Hon r.
  destruct (handle_outcome env u tl args b j opts e) as (p & Hp & Ho).
  fold r in Ho. destruct r as [res e']; cbn [fst snd] in *.
  assert (Hc : faults (store (count_call env u tl e).2) = [] /\
            kill_switches (store (count_call env u tl e).2) = kill_switches (store e) /\
            audit_log (store (count_call env u tl e).2) = audit_log (store e)).
  { unfold count_call. case_if; [|done]. unfold on_store.
    pose proof (IncrementRateBucket_frame rfc3339 u tl
      (EnforcerConfig.RateWindowDuration (config e)) (now env) (store e) Hf) as Hi.
    by destruct (IncrementRateBucket _ _ _ _ _ _) as [[] d']. }
  destruct Hc as (Hcf & Hck & Hca).
  assert (Hev : forall ctx, DecisionContext.BackendID ctx = b ->
            exists dd e2, Evaluate env ctx (count_call env u tl e).2
              = ((dd, Some ErrKillSwitchActive), e2) /\
              audit_log (store e2) = audit_log (store e)).
  { intros ctx Hb. unfold Evaluate, isKillSwitchActive.
    destruct (store_only_fields _ _ (count_call_only env u tl e)) as (-> & _).
    rewrite Hcfg, Hb. cbn.
    unfold on_store, EnforcerStore.IsKillSwitchActive, query, stmt. rewrite Hcf.
    assert (Hsw : forall sc, switch_enabled sc (store (count_call env u tl e).2)
              = switch_enabled sc (store e)) by (intros; unfold switch_enabled; by rewrite Hck).
    rewrite !Hsw. destruct (switch_enabled b (store e)); cbn in Hon; cbn; [by do 2 eexists|].
    rewrite Hcf. cbn. rewrite ?Hsw, Hon. by do 2 eexists. }
  destruct (Hev (call_context env u tl args b j e p)) as (dd & e2' & He' & Ha').
  { unfold call_context, decision_context. by destruct (user_info u) as [[? ?] ?]. }
  inversion Ho as [reason denial Hj' Hr|d0 err0 e2 _ He Hr|d0 e2 r e'' _ He Hset Hr];
    subst; [congruence | | congruence].
  destruct (evaluated_fields _ _ _ _ _ _ _ _ _ _ _ He) as (_ & Hrl & _).
  rewrite He' in He. injection He as <- <- <-. done.
Qed.
End CallTheorems.

(** ** Concrete enforcers for the witnesses *)

Definition demo_world : EnforcerEnv := {|
  rfc3339 := fun _ => "t";
  marshal := fun _ => "{}";
  unmarshal_dispositions := fun _ => None;
  get_user := Some (fun u => if bool_decide (u = "root") then Ok ("r@x", "admin")
                             else Ok ("a@x", "user"));
  execute_request := Some (fun _ _ body => inl (200, body))
|}.

Section Witnesses.
#[local] Existing Instance demo_cel.
#[local] Existing Instance demo_world.
Import Enforcer Calls CallFacts.

Definition demo_call : call_env := CallEnv 0 ["p4"; "p1"; "p2"] (fun _ => "id").
Definition plain_call : call_env := CallEnv 0 [] (fun _ => "id").
Definition demo_opts : CallOptions := {| SkipJustification := false |}.
Definition why : string := "needed for the incident review of last monday".

Definition enforcer_with (en : CELEngine.t) (overrides : gmap string SafetyProfile.t) (d : db) :
    t :=
  mk (EnforcerConfig.with_InferredCostMultiplier 3 DefaultEnforcerConfig)
    (MetadataResolver.mk overrides) en d ∅
    (RateLimit.RateLimitManager.SetDefaultConfig "slack" 100 20 200 40
       RateLimit.RateLimitManager.NewRateLimitManager) [].

Definition demo_overrides : gmap string SafetyProfile.t := <["slk_post|slack" := demo_override]> ∅.
Definition free_override : SafetyProfile.t :=
  SafetyProfile.mk EmptyString EmptyString EmptyString RiskLow ImpactWrite 3 false false false
    EmptyString.

Lemma unjustified_call_refused_witness :
  EnforcerDecision.act (handle demo_call "alice" "slk_post" [] "slack" "short" demo_opts
    (enforcer_with demo_engine ∅ empty_db)).1.1 = ActionDeny.
Proof.
  exact (proj1 (unjustified_call_refused demo_call "alice" "slk_post" [] "slack" "short" demo_opts
    (enforcer_with demo_engine ∅ empty_db) eq_refl ltac:(vm_compute; reflexivity))).
Defined.

Definition free_call : result * t :=
  handle plain_call "alice" "slk_post" [] "slack" why demo_opts
    (enforcer_with CELEngine.NewCELEngine (<["slk_post|slack" := free_override]> ∅) empty_db).

(** An unmatched call to a tool with an admin override is allowed and paid. *)
Lemma budget_follows_permission_witness :
  EnforcerDecision.act free_call.1.1 = ActionAllow /\
  exists p, MetadataResolver.ResolveForUser (Some empty_db) "slk_post" "slack" "alice"
              (MetadataResolver.mk (<["slk_post|slack" := free_override]> ∅)) = Ok p.
Proof.
  split; [vm_compute; reflexivity|].
  destruct (budget_follows_permission plain_call "alice" "slk_post" [] "slack" why demo_opts
    (enforcer_with CELEngine.NewCELEngine (<["slk_post|slack" := free_override]> ∅) empty_db)
    free_call.1.1 free_call.1.2 free_call.2) as (p & Hp & _).
  - unfold free_call. by destruct (handle _ _ _ _ _ _ _ _) as [[]].
  - exists p. exact Hp.
Defined.

Lemma demo_matches_call ctx :
  EngineFacts.matches (buildActivation ctx) demo_engine "p2"
    (demo_policy "p2" "true" ActionDeny 15).
Proof.
  split; [vm_compute; reflexivity|]. exists "true". split; [vm_compute; reflexivity|].
  reflexivity.
Qed.

Lemma deny_policy_final_witness :
  let r := handle demo_call "alice" "slk_post" [] "slack" why demo_opts
             (enforcer_with demo_engine demo_overrides empty_db) in
  EnforcerDecision.act r.1.1 = ActionDeny \/ r.1.2 = Some ErrKillSwitchActive.
Proof.
  exact (deny_policy_final demo_call "alice" "slk_post" [] "slack" why demo_opts
    (enforcer_with demo_engine demo_overrides empty_db)
    (SafetyProfile.with_identity "slk_post" "slack" "override" demo_override) "p2"
    (demo_policy "p2" "true" ActionDeny 15) _ eq_refl demo_order eq_refl
    (demo_matches_call _) eq_refl).
Defined.

Lemma override_hitl_binding_witness :
  let r := handle plain_call "alice" "slk_post" [] "slack" why demo_opts
             (enforcer_with CELEngine.NewCELEngine demo_overrides empty_db) in
  EnforcerDecision.act r.1.1 = ActionPendingUserApproval /\
  (r.1.2 <> None \/ IsDenyAction (EnforcerDecision.act r.1.1) = true \/
   RequiresApproval (EnforcerDecision.act r.1.1) = true).
Proof.
  split; [vm_compute; reflexivity|].
  exact (proj1 (override_hitl_binding plain_call "alice" "slk_post" [] "slack" why demo_opts
    (enforcer_with CELEngine.NewCELEngine demo_overrides empty_db)
    (SafetyProfile.with_identity "slk_post" "slack" "override" demo_override)
    eq_refl eq_refl (or_introl eq_refl))).
Defined.

Definition inferred_profile : SafetyProfile.t :=
  SafetyProfile.with_identity "slk_drop_table" "slack" "inferred"
    (MetadataResolver.inferDefaults "slk_drop_table").

Lemma inferred_unmatched_queued_witness :
  let r := handle plain_call "alice" "slk_drop_table" [] "slack" why demo_opts
             (enforcer_with CELEngine.NewCELEngine ∅ empty_db) in
  (r.1 = (inferred_gate, None) \/ r.1.2 <> None) /\
  rateLimit r.2 = rateLimit (enforcer_with CELEngine.NewCELEngine ∅ empty_db).
Proof.
  apply (inferred_unmatched_queued plain_call "alice" "slk_drop_table" [] "slack" why demo_opts
    (enforcer_with CELEngine.NewCELEngine ∅ empty_db) inferred_profile
    (buildActivation (call_context plain_call "alice" "slk_drop_table" [] "slack" why
       (enforcer_with CELEngine.NewCELEngine ∅ empty_db) inferred_profile))).
  - reflexivity.
  - reflexivity.
  - reflexivity.
  - intros id pol [Hp _]. cbn in Hp. by rewrite lookup_empty in Hp.
Defined.

Definition killed_db : db :=
  (EnforcerStore.EnableKillSwitch "k" "global" "root" "incident" 0 empty_db).2.
End Witnesses.
