(* ===== verification/EnforcerAdmin.v ===== *)
(** * Approvals, policies and overrides: what their operations guarantee

    Theorems about the operations of [Enforcer.v] and [EnforcerCalls.v] that
    administrators and the background goroutines call: the life of an approval
    request, the loading of policies, the personal rate-limit overrides. *)
From S2P Require Import Prelude Sql EnforcerTypes Heuristics Resolver CelEngine EnforcerStore Enforcer EnforcerCalls.
From S2P Require RateLimit.
Open Scope Z_scope.
Open Scope go_scope.

(** ** Policies *)

Module PolicyFacts.
Section Facts.
Context `{CelLib} `{EnforcerEnv}.
Import Enforcer.

Lemma AddPolicy_other order p en id :
  id <> CELPolicy.ID p ->
  CELEngine.programs (CELEngine.AddPolicy order p en).2 !! id = CELEngine.programs en !! id /\
  CELEngine.policies (CELEngine.AddPolicy order p en).2 !! id = CELEngine.policies en !! id.
Proof.
  intros Hne. unfold CELEngine.AddPolicy. destruct (CELPolicy.Enabled p); cbn; [|done].
  destruct (CELEngine.compile p); cbn; [|done]. by rewrite !lookup_insert_ne by done.
Qed.

Lemma add_policies_other orders rows en id :
  id ∉ PolicyRow.ID <$> rows ->
  CELEngine.programs (add_policies orders rows en) !! id = CELEngine.programs en !! id /\
  CELEngine.policies (add_policies orders rows en) !! id = CELEngine.policies en !! id.
Proof.
  revert orders en. induction rows as [|r rows IH]; intros orders en Hid; cbn; [done|].
  cbn in Hid. apply not_elem_of_cons in Hid as [Hne Hid].
  destruct (IH (fun i => orders (S i)) (CELEngine.AddPolicy (orders O) (ToCELPolicy r) en).2 Hid)
    as [-> ->].
  by apply AddPolicy_other.
Qed.

Definition keyed_policies (d : db) : Prop :=
  map_Forall (fun k r => k = PolicyRow.ID r) (policies d).

Lemma deleted_not_listed d id :
  faults d = [] -> keyed_policies d ->
  exists rs, (ListPolicies (EnforcerStore.DeletePolicy id d).2) =
               (Ok rs, (EnforcerStore.DeletePolicy id d).2) /\
    id ∉ PolicyRow.ID <$> rs.
Proof.
  intros Hf Hk. unfold EnforcerStore.DeletePolicy, ListPolicies, exec, query, stmt.
  rewrite Hf. cbn. rewrite Hf. eexists. split; [done|].
  rewrite list_elem_of_fmap. intros (r & -> & Hr).
  rewrite sort_by_perm, list_elem_of_filter, elem_of_rows in Hr.
  destruct Hr as [_ [k Hk']]. apply lookup_delete_Some in Hk' as [Hne Hk'].
  apply Hk in Hk'. done.
Qed.
End Facts.
End PolicyFacts.

Section PolicyTheorems.
Context `{CelLib} `{EnforcerEnv}.
Import Enforcer PolicyFacts.

(** Deleting a policy removes it from the database only: the reload that
    follows adds the policies that are left and never takes one out of the
    engine, so the deleted policy is still compiled and still decides calls
    until the process is restarted. *)
Theorem deleted_policy_still_decides orders id e prog pol act :
  faults (store e) = [] -> keyed_policies (store e) ->
  CELEngine.programs (engine e) !! id = Some prog ->
  EngineFacts.matches act (engine e) id pol ->
  let r := DeletePolicy orders id e in
  r.1 = Ok tt /\ policies (store r.2) !! id = None /\
  EngineFacts.matches act (engine r.2) id pol.
Proof.
  intros Hf Hk Hprog Hm r. destruct (deleted_not_listed (store e) id Hf Hk) as (rs & Hl & Hid).
  assert (Hr : r = (Ok tt, with_engine (add_policies orders rs (engine e))
                 (with_store (EnforcerStore.DeletePolicy id (store e)).2 e))).
  { unfold r, DeletePolicy, loadPolicies, on_store.
    pose proof Hl as Hl'. unfold EnforcerStore.DeletePolicy, exec, stmt in *. rewrite Hf in *.
    cbn in *. by rewrite Hl'. }
  rewrite Hr. cbn. split; [done|]. split.
  - unfold EnforcerStore.DeletePolicy, exec, stmt. rewrite Hf. cbn. apply lookup_delete_eq.
  - destruct (add_policies_other orders rs (engine e) id Hid) as [Hp Hq].
    destruct Hm as [Hpol (prog' & Hprog' & He)]. split; [by rewrite Hq|].
    exists prog'. by rewrite Hp.
Qed.
End PolicyTheorems.

(** ** Approval requests *)

Module ApprovalFacts.
Section Facts.
Context `{CelLib} `{EnforcerEnv}.
Import Enforcer Calls.

(** A fault-free update, seen through [on_store]. *)
Lemma on_update id f e :
  faults (store e) = [] ->
  on_store (update_approval id f) e = (Ok tt, with_store (set_approvals (alter f id) (store e)) e).
Proof. intros Hf. unfold on_store, update_approval, exec, stmt. by rewrite Hf. Qed.

Lemma on_get id e r :
  faults (store e) = [] -> approvals (store e) !! id = Some r ->
  on_store (GetApprovalRequest id) e = (Ok r, e).
Proof.
  intros Hf Hr. unfold on_store, GetApprovalRequest, query, stmt. rewrite Hf, Hr.
  by destruct e.
Qed.

(** The same two statements with any faults. *)
Lemma on_update_any id f e :
  exists x d, on_store (update_approval id f) e = (x, with_store d e) /\
    (x = Ok tt -> approvals d = alter f id (approvals (store e))).
Proof.
  unfold on_store, update_approval, exec.
  destruct (stmt_cases (fun d => (Ok tt, set_approvals (alter f id) d)) (store e))
    as [(fs & _ & ->)|(fs & _ & ->)]; do 2 eexists; split; done.
Qed.

Lemma on_get_any id e :
  exists x d, on_store (GetApprovalRequest id) e = (x, with_store d e) /\
    (forall r, x = Ok r -> approvals (store e) !! id = Some r).
Proof.
  unfold on_store, GetApprovalRequest, query.
  match goal with |- context [stmt ?f (store e)] =>
    destruct (stmt_cases f (store e)) as [(fs & _ & ->)|(fs & _ & ->)] end;
    do 2 eexists; (split; [done|]); intros r; [done|].
  cbn. destruct (approvals (store e) !! id); [|done]. by intros [= ->].
Qed.

(** The row a successful execution leaves. *)
Definition executed_row (who comments : string) (tm : Time)
    (outcome : (Z * string) + string) (r : ApprovalRequestRow.t) : ApprovalRequestRow.t :=
  let approved := ApprovalRequestRow.with_status "APPROVED"
    (ApprovalRequestRow.with_comments comments (ApprovalRequestRow.with_approver who tm r)) in
  let executing := ApprovalRequestRow.with_status "EXECUTING" approved in
  match outcome with
  | inr errMsg => ApprovalRequestRow.with_status "FAILED"
                    (ApprovalRequestRow.with_error errMsg tm executing)
  | inl (code, body) => ApprovalRequestRow.with_status "COMPLETED"
                    (ApprovalRequestRow.with_response code body tm executing)
  end.

Lemma execute_ok id who comments tm e r exec :
  faults (store e) = [] -> approvals (store e) !! id = Some r ->
  execute_request = Some exec ->
  let outcome := exec (ApprovalRequestRow.UserID r) (ApprovalRequestRow.BackendID r)
                   (ApprovalRequestRow.RequestBody r) in
  let res := execute id who comments tm e in
  res.1 = Ok (executed_row who comments tm outcome r) /\
  approvals (store res.2) !! id = Some (executed_row who comments tm outcome r) /\
  faults (store res.2) = [] /\
  executed res.2 = executed e ++
    [(ApprovalRequestRow.UserID r, ApprovalRequestRow.BackendID r,
      ApprovalRequestRow.RequestBody r)].
Proof.
  intros Hf Hr Hexec outcome res. unfold res, execute, ExecuteApprovedRequest.
  unfold EnforcerStore.ApproveRequest, MarkExecuting, MarkCompleted, MarkFailed.
  unfold run, bind, state. rewrite on_update by done. cbn -[on_store].
  erewrite on_get by (cbn; first [done | by rewrite lookup_alter_eq, Hr]). rewrite Hexec.
  cbn -[on_store]. rewrite on_update by done. cbn -[on_store].
  fold outcome. destruct outcome as [[code body]|msg]; cbn -[on_store];
    (rewrite on_update by done); cbn -[on_store];
    (erewrite on_get by (cbn; first [done | by rewrite !lookup_alter_eq, Hr]));
    cbn; by rewrite !lookup_alter_eq, Hr.
Qed.
End Facts.
End ApprovalFacts.

Section ApprovalTheorems.
Context `{CelLib} `{EnforcerEnv}.
Import Enforcer Calls ApprovalFacts.

(** Executing an approved request replays exactly what was asked: the
    executor is called once, with the user, the backend and the body stored
    at the request, the outcome and its kind are in the row, and the row that
    comes back is the stored one. But the request need not be pending: a
    request that was denied, has expired, or was executed before is approved
    and executed all the same. *)
Theorem execute_any_status id who comments tm e r exec :
  faults (store e) = [] -> approvals (store e) !! id = Some r ->
  execute_request = Some exec ->
  let res := execute id who comments tm e in
  let again := execute id who comments tm res.2 in
  (exists r', res.1 = Ok r' /\ approvals (store res.2) !! id = Some r' /\
     request_of r' = request_of r /\ ApprovalRequestRow.ApprovedBy r' = Some who /\
     match exec (ApprovalRequestRow.UserID r) (ApprovalRequestRow.BackendID r)
             (ApprovalRequestRow.RequestBody r) with
     | inl (code, body) => ApprovalRequestRow.Status r' = "COMPLETED" /\
         ApprovalRequestRow.ResponseStatus r' = code /\ ApprovalRequestRow.ResponseBody r' = body
     | inr msg => ApprovalRequestRow.Status r' = "FAILED" /\ ApprovalRequestRow.ErrorMsg r' = msg
     end) /\
  let replay := (ApprovalRequestRow.UserID r, ApprovalRequestRow.BackendID r,
                 ApprovalRequestRow.RequestBody r) in
  executed res.2 = executed e ++ [replay] /\
  executed again.2 = executed e ++ [replay; replay].
Proof.
  intros Hf Hr Hexec res again.
  destruct (execute_ok id who comments tm e r exec Hf Hr Hexec) as (H1 & H2 & H3 & H4).
  fold res in H1, H2, H3, H4.
  destruct (execute_ok id who comments tm res.2 _ exec H3 H2 Hexec) as (_ & _ & _ & H4').
  fold again in H4'.
  assert (Hid : forall o, ApprovalRequestRow.UserID (executed_row who comments tm o r) =
            ApprovalRequestRow.UserID r /\
            ApprovalRequestRow.BackendID (executed_row who comments tm o r) =
            ApprovalRequestRow.BackendID r /\
            ApprovalRequestRow.RequestBody (executed_row who comments tm o r) =
            ApprovalRequestRow.RequestBody r) by (intros [[]|]; done).
  split.
  - eexists. split; [exact H1|]. split; [exact H2|].
    destruct (exec _ _ _) as [[code body]|msg]; done.
  - split; [exact H4|]. destruct (Hid (exec (ApprovalRequestRow.UserID r)
      (ApprovalRequestRow.BackendID r) (ApprovalRequestRow.RequestBody r))) as (E1 & E2 & E3).
    rewrite H4', E1, E2, E3, H4. by rewrite <- app_assoc.
Qed.

(** Whatever statements fail, and in whatever state the request is, one
    execution calls the executor at most once, and then with the user, the
    backend and the body of the stored request; and when a row comes back
    without an error it was called, unless there is no executor. *)
Theorem execute_at_most_once id who comments tm e :
  let res := execute id who comments tm e in
  (executed res.2 = executed e \/
   exists r, approvals (store e) !! id = Some r /\
     executed res.2 = executed e ++
       [(ApprovalRequestRow.UserID r, ApprovalRequestRow.BackendID r,
         ApprovalRequestRow.RequestBody r)]) /\
  (forall r, res.1 = Ok r -> executed res.2 = executed e -> execute_request = None).
Proof.
  intros res. unfold res, execute, ExecuteApprovedRequest.
  unfold EnforcerStore.ApproveRequest, MarkExecuting, MarkCompleted, MarkFailed.
  unfold run, bind, state.
  match goal with |- context [on_store (update_approval id ?f) e] =>
    destruct (on_update_any id f e) as (x1 & d1 & -> & Hx1) end.
  destruct x1 as [[]|err]; cbn -[on_store]; [|split; [by left | done]].
  specialize (Hx1 eq_refl).
  destruct (on_get_any id (with_store d1 e)) as (x2 & d2 & -> & Hx2).
  destruct x2 as [r2|err]; cbn -[on_store]; [|split; [by left | done]].
  specialize (Hx2 r2 eq_refl). cbn in Hx2. rewrite Hx1 in Hx2.
  apply lookup_alter_Some in Hx2 as [(_ & r & Hr & ->)|[? _]]; [|done].
  destruct execute_request as [exec|]; cbn -[on_store]; [|split; [by left | done]].
  match goal with |- context [on_store (update_approval id ?f) ?e'] =>
    destruct (on_update_any id f e') as (x3 & d3 & -> & _) end.
  destruct x3 as [[]|err]; cbn -[on_store]; [|split; [by left | done]].
  set (outcome := exec _ _ _). set (replay := (_, _, _)).
  assert (Hcalled : executed e ++ [replay] <> executed e).
  { intros Heq. apply (f_equal length) in Heq. rewrite length_app in Heq. cbn in Heq. lia. }
  destruct outcome as [[code body]|msg]; cbn -[on_store];
    match goal with |- context [on_store (update_approval id ?f) ?e'] =>
      destruct (on_update_any id f e') as (x4 & d4 & -> & _) end;
    (destruct x4 as [[]|err]; cbn -[on_store]; [|split; [right; eauto | done]]);
    match goal with |- context [on_store (GetApprovalRequest id) ?e'] =>
      destruct (on_get_any id e') as (x5 & d5 & -> & _) end;
    destruct x5; cbn; (split; [right; eauto | done]).
Qed.
End ApprovalTheorems.

Section RequestTheorems.
Context `{CelLib} `{EnforcerEnv}.
Import Enforcer Calls.

(** A request for approval is recorded as pending, exactly as asked, in
    the queue it was routed to, with the deadline of that queue; it is not
    executed and consumes nothing.  With the default configuration the user
    queue waits ten minutes and the admin queue twenty-four hours.  The match
    context is not stored.  A user the database does not know cannot ask. *)
Theorem RequestApproval_recorded env ctx safety pid msg queue mctx e :
  faults (store e) = [] -> approvals (store e) !! uuid env 0 = None ->
  let r := RequestApproval env ctx safety pid msg queue mctx e in
  rateLimit r.2 = rateLimit e /\ executed r.2 = executed e /\
  (DecisionContext.UserID ctx ∉ users (store e) -> is_ok r.1 = false /\ r.2 = e) /\
  (DecisionContext.UserID ctx ∈ users (store e) ->
     r.1 = Ok (uuid env 0) /\
     exists row, approvals (store r.2) = <[uuid env 0 := row]> (approvals (store e)) /\
       ApprovalRequestRow.Status row = "PENDING" /\
       ApprovalRequestRow.UserID row = DecisionContext.UserID ctx /\
       ApprovalRequestRow.ToolName row = DecisionContext.Tool ctx /\
       ApprovalRequestRow.RequestBody row = DecisionContext.RequestBody ctx /\
       ApprovalRequestRow.QueueType row = queue /\
       ApprovalRequestRow.MatchCtx row = EmptyString /\
       ApprovalRequestRow.ExpiresAt row = now env + approval_timeout (config e) queue /\
       (config e = DefaultEnforcerConfig ->
        ApprovalRequestRow.ExpiresAt row =
          now env + (if bool_decide (queue = "user") then 10 * Minute else 24 * Hour))).
Proof.
  intros Hf Hfresh r. unfold r, RequestApproval, on_store, CreateApprovalRequest, exec_checked, stmt.
  rewrite Hf. cbn. rewrite bool_decide_eq_true_2 by done. cbn.
  destruct (bool_decide (DecisionContext.UserID ctx ∈ users (store e))) eqn:Hu; bool_to_prop.
  - cbn. split_and!; try done. intros _. split; [done|]. eexists. split; [reflexivity|].
    cbn. split_and!; try done. intros ->. unfold approval_timeout. by case_bool_decide.
  - cbn. split_and!; try done. intros _. split; [done|]. by destruct e.
Qed.
End RequestTheorems.

(** ** Personal rate-limit overrides *)

Section OverrideTheorems.
Context `{CelLib} `{EnforcerEnv}.
Import Enforcer.

Definition ceiling (backend : string) (e : t) : Z * Z :=
  let '((risk, _), (res, _)) := RateLimit.RateLimitManager.GetDefaultConfig backend (rateLimit e)
  in (risk, res).

(** The id of the new row is no other row's. *)
Definition fresh_override_id (id : string) (o : UserRateLimitOverrideRow.t) (e : t) : Prop :=
  forall k r, rate_overrides (store e) !! k = Some r ->
    UserRateLimitOverrideRow.ID r <>
      (if bool_decide (UserRateLimitOverrideRow.ID o = EmptyString) then id
       else UserRateLimitOverrideRow.ID o).

Lemma on_upsert_override id tm o e :
  faults (store e) = [] -> fresh_override_id id o e ->
  exists d, on_store (UpsertUserRateLimitOverride id tm o) e = (Ok tt, with_store d e).
Proof.
  intros Hf Hid. unfold on_store, UpsertUserRateLimitOverride, exec_checked, stmt. rewrite Hf.
  cbn. rewrite upsertable_fresh by exact Hid. by eexists.
Qed.

Lemma SetUserRateLimitOverride_accepts id tm o e :
  faults (store e) = [] -> fresh_override_id id o e ->
  let '(risk, res) := ceiling (UserRateLimitOverrideRow.BackendID o) e in
  let mult := if UserRateLimitOverrideRow.CostMultiplier o =? 0 then 1
              else UserRateLimitOverrideRow.CostMultiplier o in
  let rc := if UserRateLimitOverrideRow.RiskCapacity o =? 0 then risk
            else UserRateLimitOverrideRow.RiskCapacity o in
  let sc := if UserRateLimitOverrideRow.ResourceCapacity o =? 0 then res
            else UserRateLimitOverrideRow.ResourceCapacity o in
  (SetUserRateLimitOverride id tm o e).1 =
    (if (risk <? rc *! mult) || (res <? sc *! mult) then Err ErrOverrideTooPermissive else Ok tt).
Proof.
  intros Hf Hid. unfold ceiling, SetUserRateLimitOverride.
  destruct (RateLimit.RateLimitManager.GetDefaultConfig _ _) as [[risk x] [res y]].
  cbv zeta. destruct (_ || _); [done|].
  by destruct (on_upsert_override id tm o e Hf Hid) as [d ->].
Qed.

(** The ceiling check accepts exactly the overrides whose capacities times
    the multiplier stay below the global ones, as long as the products fit
    in an int; the override is then in force for its user and backend and
    for no one else. But beyond that the product wraps: a capacity of 2^62
    with a multiplier of 4 passes whatever the ceiling, and a multiplier
    larger than one alone, which only tightens, is always refused. *)
Theorem override_ceiling id tm o e :
  faults (store e) = [] -> fresh_override_id id o e ->
  let '(risk, res) := ceiling (UserRateLimitOverrideRow.BackendID o) e in
  let mult := UserRateLimitOverrideRow.CostMultiplier o in
  let rc := UserRateLimitOverrideRow.RiskCapacity o in
  let sc := UserRateLimitOverrideRow.ResourceCapacity o in
  let r := SetUserRateLimitOverride id tm o e in
  (0 < mult -> 0 < rc -> 0 < sc -> int64 (rc * mult) -> int64 (sc * mult) ->
     (r.1 = Ok tt <-> rc * mult <= risk /\ sc * mult <= res)) /\
  (r.1 = Ok tt ->
     GetEffectiveBucketConfig (UserRateLimitOverrideRow.UserID o)
       (UserRateLimitOverrideRow.BackendID o) r.2 = (rc, 0, sc, 0, mult)) /\
  (mult = 4 -> rc = 2 ^ 62 -> sc = 2 ^ 62 -> 0 <= risk -> 0 <= res -> r.1 = Ok tt) /\
  (1 < mult -> rc = 0 -> sc = 0 -> 0 < risk -> int64 (risk * mult) ->
     r.1 = Err ErrOverrideTooPermissive).
Proof.
  intros Hf Hid. pose proof (SetUserRateLimitOverride_accepts id tm o e Hf Hid) as Hacc.
  assert (Heff : (SetUserRateLimitOverride id tm o e).1 = Ok tt ->
    GetEffectiveBucketConfig (UserRateLimitOverrideRow.UserID o)
      (UserRateLimitOverrideRow.BackendID o) (SetUserRateLimitOverride id tm o e).2 =
    (UserRateLimitOverrideRow.RiskCapacity o, 0, UserRateLimitOverrideRow.ResourceCapacity o, 0,
     UserRateLimitOverrideRow.CostMultiplier o)).
  { unfold SetUserRateLimitOverride.
    destruct (RateLimit.RateLimitManager.GetDefaultConfig _ _) as [[risk x] [res y]].
    cbv zeta. destruct (_ || _); [done|].
    destruct (on_upsert_override id tm o e Hf Hid) as [d ->]. cbn. intros _.
    unfold GetEffectiveBucketConfig, RateLimit.RateLimitManager.GetUserConfig,
      RateLimit.BucketManager.GetUserConfig. cbn. by rewrite lookup_insert_eq. }
  destruct (ceiling _ e) as [risk res]. cbv zeta in *. split_and!; [| exact Heff | |].
  - intros Hm Hr Hs Hi1 Hi2. rewrite Hacc. clear Hacc.
    rewrite !(proj2 (Z.eqb_neq _ 0)) by lia. rewrite !wrap64_id by done.
    destruct (_ || _) eqn:Hor.
    + split; [discriminate|]. intros [? ?]. apply orb_true_iff in Hor as [Hor|Hor];
        apply Z.ltb_lt in Hor; lia.
    + bool_to_prop. split; [lia | done].
  - intros E1 E2 E3 ? ?. rewrite Hacc, E1, E2, E3. cbn.
    change (wrap64 18446744073709551616) with 0.
    rewrite !(proj2 (Z.ltb_ge _ 0)) by lia. done.
  - intros Hm E1 E2 Hr Hi. rewrite Hacc, E1, E2. cbn. rewrite (proj2 (Z.eqb_neq _ 0)) by lia.
    rewrite wrap64_id by done. rewrite (proj2 (Z.ltb_lt _ _)) by nia. done.
Qed.

(** A personal rate-limit override changes what is displayed, not what is
    enforced: after any override is set, the same call consumes the same
    budget from the same buckets as without it. *)
Theorem personal_rate_limit_not_enforced id tm o e user backend rc sc at_ :
  let m := RateLimit.RateLimitManager.CheckAndConsume user backend rc sc at_ (rateLimit e) in
  let m' := RateLimit.RateLimitManager.CheckAndConsume user backend rc sc at_
              (rateLimit (SetUserRateLimitOverride id tm o e).2) in
  m'.1 = m.1 /\
  RateLimit.BucketManager.buckets (RateLimit.RateLimitManager.manager m'.2) =
  RateLimit.BucketManager.buckets (RateLimit.RateLimitManager.manager m.2).
Proof.
  assert (Hsame : forall (bm : RateLimit.BucketManager.t) u,
    let r := RateLimit.BucketManager.CheckAndConsume user backend rc sc at_ bm in
    let r' := RateLimit.BucketManager.CheckAndConsume user backend rc sc at_
                (RateLimit.BucketManager.with_userConfigs u bm) in
    r'.1 = r.1 /\ RateLimit.BucketManager.buckets r'.2 = RateLimit.BucketManager.buckets r.2).
  { intros bm u. pose proof (RateLimit.BucketManagerFacts.CheckAndConsume_lookup
      user backend rc sc at_ bm) as L1.
    pose proof (RateLimit.BucketManagerFacts.CheckAndConsume_lookup user backend rc sc at_
      (RateLimit.BucketManager.with_userConfigs u bm)) as L2.
    cbv zeta in *. split.
    - destruct (L1 EmptyString) as [-> _], (L2 EmptyString) as [-> _]. done.
    - apply map_eq. intros k. destruct (L1 k) as [_ ->], (L2 k) as [_ ->]. done. }
  intros m m'. unfold m', m.
  assert (Hrl : rateLimit (SetUserRateLimitOverride id tm o e).2 = rateLimit e \/
            exists cfg, rateLimit (SetUserRateLimitOverride id tm o e).2
              = RateLimit.RateLimitManager.SetUserConfig cfg (rateLimit e)).
  { unfold SetUserRateLimitOverride.
    destruct (RateLimit.RateLimitManager.GetDefaultConfig _ _) as [[risk x] [res y]].
    cbv zeta. destruct (_ || _); [by left|].
    pose proof (CallFacts.on_store_only (UpsertUserRateLimitOverride id tm o) e) as [d Hd].
    destruct (on_store _ e) as [[[]|] e1]; cbn in Hd |- *; subst e1; [right|by left].
    by eexists. }
  destruct Hrl as [->|[cfg ->]]; [done|].
  unfold RateLimit.RateLimitManager.CheckAndConsume, RateLimit.RateLimitManager.SetUserConfig,
    RateLimit.BucketManager.SetUserConfig. cbn.
  destruct (Hsame (RateLimit.RateLimitManager.manager (rateLimit e))
    (<[RateLimit.BucketManager.userKey (RateLimit.UserBucketConfig.UserID cfg)
         (RateLimit.UserBucketConfig.BackendID cfg) := cfg]>
       (RateLimit.BucketManager.userConfigs (RateLimit.RateLimitManager.manager (rateLimit e)))))
    as [H1 H2].
  do 2 destruct (RateLimit.BucketManager.CheckAndConsume _ _ _ _ _ _). cbn in *. done.
Qed.
End OverrideTheorems.

(** ** Witnesses *)

Section Witnesses.
#[local] Existing Instance demo_cel.
#[local] Existing Instance demo_world.
Import Enforcer Calls PolicyFacts ApprovalFacts.

Definition demo_row : PolicyRow.t :=
  PolicyRow.mk "p2" "n" "desc" "global" "true" ActionDeny SeverityHigh "by p2" true 15 false 0 0
    EmptyString.
Definition demo_policy_db : db := set_policies (<["p2" := demo_row]>) empty_db.

Lemma demo_keyed : keyed_policies demo_policy_db.
Proof.
  intros k r Hk. unfold demo_policy_db in Hk. cbn in Hk.
  apply lookup_insert_Some in Hk as [[<- <-]|[_ Hk]]; [done|].
  by rewrite lookup_empty in Hk.
Qed.

Lemma deleted_policy_still_decides_witness :
  let r := DeletePolicy (fun _ => []) "p2" (enforcer_with demo_engine ∅ demo_policy_db) in
  policies (store r.2) !! "p2" = None /\
  EngineFacts.matches (buildActivation demo_ctx) (engine r.2) "p2"
    (demo_policy "p2" "true" ActionDeny 15).
Proof.
  destruct (deleted_policy_still_decides (fun _ => []) "p2"
    (enforcer_with demo_engine ∅ demo_policy_db) "true" (demo_policy "p2" "true" ActionDeny 15)
    (buildActivation demo_ctx) eq_refl demo_keyed eq_refl (demo_matches_call demo_ctx))
    as (_ & H1 & H2).
  split; [exact H1 | exact H2].
Defined.

(** A request that was denied. *)
Definition denied_db : db :=
  approval_step (ODeny "r1" "root" "no" 6) demo_requests_db.

Lemma denied_lookup :
  exists r, approvals denied_db !! "r1" = Some r /\ ApprovalRequestRow.Status r = "DENIED".
Proof. eexists. split; [vm_compute; reflexivity | reflexivity]. Qed.

Lemma execute_any_status_witness :
  exists r, ApprovalRequestRow.Status r = "DENIED" /\
    executed (execute "r1" "root" "ok" 9 (enforcer_with CELEngine.NewCELEngine ∅ denied_db)).2 =
    [(ApprovalRequestRow.UserID r, ApprovalRequestRow.BackendID r,
      ApprovalRequestRow.RequestBody r)].
Proof.
  destruct denied_lookup as (r & Hr & Hs). exists r. split; [exact Hs|].
  exact (proj1 (proj2 (execute_any_status "r1" "root" "ok" 9
    (enforcer_with CELEngine.NewCELEngine ∅ denied_db) r _ eq_refl Hr eq_refl))).
Defined.

Lemma RequestApproval_recorded_witness :
  (RequestApproval plain_call demo_ctx "{}" "p" "m" "admin" MatchContextPolicyHit
     (enforcer_with CELEngine.NewCELEngine ∅ empty_db)).1 = Ok "id".
Proof.
  refine (proj1 (proj2 (proj2 (proj2 (RequestApproval_recorded plain_call demo_ctx "{}" "p" "m"
    "admin" MatchContextPolicyHit (enforcer_with CELEngine.NewCELEngine ∅ empty_db)
    eq_refl eq_refl))) _)).
  apply (bool_decide_unpack _). vm_compute. exact I.
Defined.

Definition demo_personal (rc sc mult : Z) : UserRateLimitOverrideRow.t :=
  UserRateLimitOverrideRow.mk EmptyString "alice" "slack" EmptyString rc sc mult None None.

(** A capacity of 2^62 with a multiplier of 4 is accepted. *)
Lemma override_ceiling_witness :
  (SetUserRateLimitOverride "o" 0 (demo_personal (2 ^ 62) (2 ^ 62) 4)
     (enforcer_with CELEngine.NewCELEngine ∅ empty_db)).1 = Ok tt.
Proof.
  pose proof (override_ceiling "o" 0 (demo_personal (2 ^ 62) (2 ^ 62) 4)
    (enforcer_with CELEngine.NewCELEngine ∅ empty_db) eq_refl
    ltac:(intros k r Hk; cbn in Hk; by rewrite lookup_empty in Hk)) as Hc.
  destruct (ceiling _ _) as [risk res] eqn:E. vm_compute in E. injection E as <- <-.
  apply Hc; [reflexivity | reflexivity | reflexivity | lia | lia].
Defined.
End Witnesses.
