(* ===== verification/Template.v ===== *)
(** * Environment templates: [src/muxer/template.go]

    The values of a backend's environment may hold expressions such as
    [{{users.email|sanitised}}], which are replaced by data of the user the
    backend is spawned for.  The regular expression is written out as a
    left-to-right scan; [renders] is the declarative reading of a template and
    [resolveValue_renders] relates the two. *)
From S2P Require Import Prelude GoStrings.
Open Scope Z_scope.

(** ** The user and the registries *)

Module User.
Record t := mk { ID : string; Email : string; Role : string }.
End User.

(** [sha256_hex]: the digest in lowercase hexadecimal. *)
Class Sha256 := { sha256_hex : string -> string }.

Section Template.
Context `{Sha256}.

Definition funcSanitised (s : string) : string :=
  let s := to_lower s in
  let s := replace_byte "@" "_at_" s in
  replace_byte "." "_" s.

(** The first 8 bytes are 16 digits. *)
Definition funcHashed (s : string) : string := "u" +:+ str_take 16 (sha256_hex (to_lower s)).

Definition templateFuncs : gmap string (string -> string) :=
  list_to_map [("sanitised", funcSanitised); ("hashed", funcHashed); ("lower", to_lower);
               ("upper", to_upper); ("urlencoded", query_escape)].

Definition allowedFields : gmap string (User.t -> string) :=
  list_to_map [("users.email", User.Email); ("users.username", User.Email);
               ("users.id", User.ID); ("users.role", User.Role)].

(** ** Resolution *)

(** The functions after the field, applied from left to right. *)
Fixpoint pipe (fns : list string) (resolved : string) : res string :=
  match fns with
  | [] => Ok resolved
  | fn :: fns' =>
      match templateFuncs !! trim_space fn with
      | None => Err (Errorf "env var %q: unknown template function %q")
      | Some f => pipe fns' (f resolved)
      end
  end.

(** The replacement of one match; [inner] is the text between the braces. *)
Definition eval_expr (user : User.t) (inner : string) : res string :=
  match split_on "|" (trim_space inner) with
  | [] => Err (Errorf "Split returns at least one part")
  | field :: fns =>
      let fieldKey := trim_space field in
      match str_index fieldKey "." with
      | None => Err (Errorf "env var %q: malformed template expression %q (missing source prefix)")
      | Some dotIdx =>
          if bool_decide (str_take dotIdx fieldKey = "users") then
            match allowedFields !! fieldKey with
            | None => Err (Errorf "env var %q: unknown template field %q")
            | Some extractor =>
                let resolved := extractor user in
                if bool_decide (resolved = EmptyString)
                then Err (Errorf "env var %q: template {{%s}} resolved to empty string")
                else pipe fns resolved
            end
          else Err (Errorf "env var %q: unknown template source %q")
      end
  end.

(** The text up to the first closing brace, and the rest from it on. *)
Fixpoint until_brace (s : string) : string * string :=
  match s with
  | EmptyString => (EmptyString, EmptyString)
  | String c s' =>
      if bool_decide (c = "}"%char) then (EmptyString, s)
      else let '(a, b) := until_brace s' in (String c a, b)
  end.

(** A match of [\{\{([^}]+)\}\}] at the start of the text: the inner text and
    what follows the match. *)
Definition match_here (s : string) : option (string * string) :=
  if has_prefix s "{{" then
    let '(inner, rest) := until_brace (str_drop 2 s) in
    if negb (bool_decide (inner = EmptyString)) && has_prefix rest "}}"
    then Some (inner, str_drop 2 rest) else None
  else None.

(** [ReplaceAllStringFunc], leftmost match first; the first error ends the
    replacements.  The fuel is the length of the text. *)
Fixpoint replace_all (fuel : nat) (f : string -> res string) (s : string) : res string :=
  match fuel with
  | O => Ok s
  | S fuel' =>
      match match_here s with
      | Some (inner, rest) =>
          match f inner with
          | Err e => Err e
          | Ok v => match replace_all fuel' f rest with
                    | Err e => Err e
                    | Ok t => Ok (v +:+ t)
                    end
          end
      | None =>
          match s with
          | EmptyString => Ok EmptyString
          | String c s' => match replace_all fuel' f s' with
                           | Err e => Err e
                           | Ok t => Ok (String c t)
                           end
          end
      end
  end.

(** [envKey] is only used in the texts of the errors. *)
Definition resolveValue (envKey val : string) (user : User.t) : res string :=
  if negb (contains val "{{") then Ok val
  else if negb (Nat.eqb (count_pair "{" val) (count_pair "}" val))
  then Err (Errorf "env var %q: malformed template expression (mismatched {{ }})")
  else replace_all (String.length val) (eval_expr user) val.

(** [keys] is the order in which Go visits the map. *)
Fixpoint resolve_loop (keys : list string) (env : gmap string string) (user : User.t)
    (out : gmap string string) : res (gmap string string) :=
  match keys with
  | [] => Ok out
  | k :: keys' =>
      match env !! k with
      | None => resolve_loop keys' env user out
      | Some v => match resolveValue k v user with
                  | Err e => Err e
                  | Ok resolved => resolve_loop keys' env user (<[k := resolved]> out)
                  end
      end
  end.

Definition ResolveEnvTemplates (keys : list string) (env : gmap string string) (user : User.t) :
    res (gmap string string) :=
  resolve_loop keys env user ∅.

Definition envMapHasTemplates (env : gmap string string) : bool :=
  bool_decide (map_Exists (fun _ v => contains v "{{" = true) env).

End Template.

Definition demo_sha : Sha256 := {| sha256_hex := fun s => "00112233445566778899aabbccddeeff" +:+ s |}.

(** * Properties *)

(** ** The declarative reading of a template *)

Definition is_inner (inner : string) : Prop := inner <> EmptyString /\ has_byte "}" inner = false.

Definition starts_expr (s : string) : Prop :=
  exists inner rest, is_inner inner /\ s = "{{" +:+ inner +:+ "}}" +:+ rest.

(** Expressions are replaced by their values from left to right, and a
    character no expression starts at stands for itself. *)
Inductive renders `{Sha256} (u : User.t) : string -> string -> Prop :=
| renders_end : renders u EmptyString EmptyString
| renders_expr inner rest v t :
    is_inner inner -> eval_expr u inner = Ok v -> renders u rest t ->
    renders u ("{{" +:+ inner +:+ "}}" +:+ rest) (v +:+ t)
| renders_lit c s t :
    ~ starts_expr (String c s) -> renders u s t -> renders u (String c s) (String c t).

Lemma until_brace_split s :
  s = (until_brace s).1 +:+ (until_brace s).2 /\ has_byte "}" (until_brace s).1 = false /\
  ((until_brace s).2 = EmptyString \/ exists r, (until_brace s).2 = String "}" r).
Proof.
  induction s as [|c s IH]; simpl; [eauto|].
  case_bool_decide as Hc; [subst; simpl; eauto|].
  destruct (until_brace s) as [a b]. simpl in *. destruct IH as (-> & Ha & Hb).
  split_and!; [done | | done]. by rewrite bool_decide_eq_false_2.
Qed.

Lemma until_brace_inner inner r :
  has_byte "}" inner = false -> until_brace (inner +:+ String "}" r) = (inner, String "}" r).
Proof.
  induction inner as [|c inner IH]; simpl; [done|].
  intros [Hc Hi]%orb_false_iff. by rewrite Hc, IH.
Qed.

Lemma match_here_spec s inner rest :
  match_here s = Some (inner, rest) <-> is_inner inner /\ s = "{{" +:+ inner +:+ "}}" +:+ rest.
Proof.
  unfold match_here. split.
  - destruct (has_prefix s "{{") eqn:Hs; [|done]. apply has_prefix_spec in Hs as [r ->].
    change (str_drop 2 ("{{" +:+ r)) with r.
    destruct (until_brace r) as [a b] eqn:Hr. destruct (_ && _) eqn:Hc; [|done].
    apply andb_true_iff in Hc as [Hne Hb]. apply negb_true_iff, bool_decide_eq_false_1 in Hne.
    apply has_prefix_spec in Hb as [r' ->]. intros [= <- <-].
    pose proof (until_brace_split r) as (Hs & Hb & _). rewrite Hr in Hs, Hb. by rewrite Hs.
  - intros [[Hne Hb] ->]. rewrite has_prefix_app.
    change (str_drop 2 ("{{" +:+ inner +:+ "}}" +:+ rest)) with (inner +:+ String "}" (String "}" rest)).
    rewrite until_brace_inner by done. by rewrite bool_decide_eq_false_2.
Qed.

Lemma match_here_None s : match_here s = None <-> ~ starts_expr s.
Proof.
  split.
  - intros Hm (inner & rest & Hi). apply match_here_spec in Hi. congruence.
  - intros Hn. destruct (match_here s) as [[inner rest]|] eqn:Hm; [|done].
    apply match_here_spec in Hm as [? ?]. destruct Hn. by exists inner, rest.
Qed.

Lemma renders_expr_inv `{Sha256} u inner rest out :
  is_inner inner -> renders u ("{{" +:+ inner +:+ "}}" +:+ rest) out ->
  exists v t, out = v +:+ t /\ eval_expr u inner = Ok v /\ renders u rest t.
Proof.
  intros Hi Hr. remember ("{{" +:+ inner +:+ "}}" +:+ rest) as s eqn:Hs. destruct Hr.
  - done.
  - assert (Hm : match_here ("{{" +:+ inner +:+ "}}" +:+ rest) = Some (inner0, rest0))
      by (rewrite <- Hs; by apply match_here_spec).
    rewrite (proj2 (match_here_spec _ inner rest)) in Hm by done. simplify_eq. eauto.
  - destruct H0. by exists inner, rest.
Qed.

(** The scan computes the reading, and the length of the text is fuel enough. *)
Lemma replace_all_renders `{Sha256} u fuel s out :
  (String.length s <= fuel)%nat ->
  replace_all fuel (eval_expr u) s = Ok out <-> renders u s out.
Proof.
  revert s out. induction fuel as [|fuel IH]; intros s out Hl.
  { destruct s; simpl in *; [|lia]. split; [intros [= <-]; constructor | by inversion 1]. }
  simpl. destruct (match_here s) as [[inner rest]|] eqn:Hm.
  - apply match_here_spec in Hm as [Hi ->].
    assert (Hrest : (String.length rest <= fuel)%nat).
    { rewrite !str_length_app in Hl. simpl in Hl. lia. }
    split.
    + destruct (eval_expr u inner) as [v|] eqn:Hv; [|done].
      destruct (replace_all fuel (eval_expr u) rest) as [t|] eqn:Ht; [|done]. intros [= <-].
      apply renders_expr; [done..|]. by apply IH.
    + intros (v & t & -> & -> & Ht)%renders_expr_inv; [|done].
      by rewrite (proj2 (IH rest t Hrest) Ht).
  - destruct s as [|c s]; [split; [intros [= <-]; constructor | by inversion 1]|].
    apply match_here_None in Hm. simpl in Hl. split.
    + destruct (replace_all fuel (eval_expr u) s) as [t|] eqn:Ht; [|done]. intros [= <-].
      apply renders_lit; [done|]. apply IH; [lia | done].
    + intros Hr. remember (String c s) as cs eqn:Hcs. destruct Hr as [|inner rest|c' s' t Hn Hr].
      * done.
      * destruct Hm. by exists inner, rest.
      * injection Hcs as -> ->. by rewrite (proj2 (IH s t ltac:(lia)) Hr).
Qed.

(** A value as the backend gets it: unchanged when it holds no opening braces,
    otherwise rendered. *)
Definition rendered `{Sha256} (u : User.t) (val out : string) : Prop :=
  (contains val "{{" = false /\ out = val) \/
  (contains val "{{" = true /\ count_pair "{" val = count_pair "}" val /\ renders u val out).

Lemma resolveValue_rendered `{Sha256} key val u out :
  resolveValue key val u = Ok out <-> rendered u val out.
Proof.
  unfold resolveValue, rendered. destruct (contains val "{{"); simpl.
  - destruct (Nat.eqb_spec (count_pair "{" val) (count_pair "}" val)) as [He|He]; simpl.
    + rewrite replace_all_renders by done. naive_solver.
    + naive_solver.
  - naive_solver.
Qed.

Lemma rendered_functional `{Sha256} u val out out' :
  rendered u val out -> rendered u val out' -> out = out'.
Proof.
  intros H1%(resolveValue_rendered EmptyString) H2%(resolveValue_rendered EmptyString). congruence.
Qed.

Lemma resolve_loop_spec `{Sha256} env u keys acc out :
  resolve_loop keys env u acc = Ok out <->
  (forall k, k ∈ keys -> forall v, env !! k = Some v -> exists o, out !! k = Some o /\ rendered u v o) /\
  (forall k, (k ∈ keys -> env !! k = None) -> out !! k = acc !! k).
Proof.
  revert acc. induction keys as [|k keys IH]; intros acc; simpl.
  { split.
    - intros [= ->]. split; [|done]. intros k Hk. by apply not_elem_of_nil in Hk.
    - intros [_ Heq]. f_equal. apply map_eq. intros k. symmetry. apply Heq.
      intros Hk. by apply not_elem_of_nil in Hk. }
  setoid_rewrite elem_of_cons. destruct (env !! k) as [v|] eqn:Hk.
  - destruct (resolveValue k v u) as [o|] eqn:Hv.
    + apply resolveValue_rendered in Hv. rewrite IH. split; intros [H1 H2]; split.
      * intros k' Hin v' Hv'. destruct (decide (k' ∈ keys)) as [Hin'|Hn]; [eauto|].
        destruct Hin as [->|]; [|done]. simplify_eq. exists o. split; [|done].
        rewrite H2 by done. apply lookup_insert_eq.
      * intros k' Hin. assert (k' <> k) by (intros ->; rewrite Hin in Hk; [done | by left]).
        rewrite H2 by auto. by rewrite lookup_insert_ne.
      * eauto.
      * intros k' Hin. destruct (decide (k' = k)) as [->|Hne].
        { rewrite lookup_insert_eq. destruct (H1 k (or_introl eq_refl) v Hk) as (o' & -> & Ho').
          f_equal. by eapply rendered_functional. }
        rewrite lookup_insert_ne by done. apply H2. naive_solver.
    + split; [done|]. intros [H1 _]. destruct (H1 k (or_introl eq_refl) v Hk) as (o & _ & Ho).
      apply (resolveValue_rendered k) in Ho. congruence.
  - rewrite IH. split; intros [H1 H2]; split; naive_solver.
Qed.

Section TemplateTheorems.
Context `{Sha256}.

(** C37: resolving the templates of an environment is exact and does not depend
    on the order Go visits the variables in.  It succeeds with a map exactly
    when that map has the same variables and each value is the rendering of
    the configured one: unchanged without opening braces; otherwise with as
    many opening as closing pairs, every expression replaced from left to
    right by the value of an allowed, non-empty field of this user passed
    through the named functions, and all other text as it stands.  Any
    expression that cannot be evaluated makes the whole resolution fail. *)
Theorem ResolveEnvTemplates_exact keys env u out :
  key_order keys env ->
  ResolveEnvTemplates keys env u = Ok out <->
  dom out = dom env /\
  forall k v, env !! k = Some v -> exists o, out !! k = Some o /\ rendered u v o.
Proof.
  intros Ho. unfold ResolveEnvTemplates. rewrite resolve_loop_spec. split.
  - intros [H1 H2]. assert (Hin : forall k v, env !! k = Some v -> k ∈ keys).
    { intros k v Hk. apply (key_order_elem _ _ _ Ho). eauto. }
    split; [|eauto]. apply set_eq. intros k. rewrite !elem_of_dom. split.
    + intros Hk. destruct (env !! k) eqn:He; [eauto|]. rewrite H2 in Hk by done.
      by rewrite lookup_empty in Hk.
    + intros [v Hk]. destruct (H1 k (Hin k v Hk) v Hk) as (o & -> & _). eauto.
  - intros [Hd H1]. split; [eauto|]. intros k Hk. rewrite lookup_empty.
    apply not_elem_of_dom. rewrite Hd. intros [v Hv]%elem_of_dom.
    rewrite Hk in Hv; [done|]. apply (key_order_elem _ _ _ Ho). eauto.
Qed.

(** Braces that enclose nothing are not an expression for the pattern, so they
    reach the backend as they are. *)
Theorem empty_expression_passes key u : resolveValue key "{{}}" u = Ok "{{}}".
Proof. reflexivity. Qed.
End TemplateTheorems.

Definition demo_user : User.t := User.mk "u1" "Ann.Lee@x.org" "user".

Definition demo_env : gmap string string :=
  {["DB" := "db_{{ users.email | sanitised }}"; "MODE" := "fast"]}.

Lemma ResolveEnvTemplates_exact_witness :
  exists out, ResolveEnvTemplates (H := demo_sha) ["MODE"; "DB"] demo_env demo_user = Ok out /\
    dom out = dom demo_env /\ out !! "DB" = Some "db_ann_lee_at_x_org".
Proof.
  set (out := {["DB" := "db_ann_lee_at_x_org"; "MODE" := "fast"]} : gmap string string).
  assert (E : ResolveEnvTemplates (H := demo_sha) ["MODE"; "DB"] demo_env demo_user = Ok out)
    by (vm_compute; reflexivity).
  exists out. split; [exact E|].
  apply (ResolveEnvTemplates_exact (H := demo_sha)) in E; [|by apply (bool_decide_unpack _); vm_compute].
  split; [apply E | reflexivity].
Defined.
