(* ===== verification/Muxer.v ===== *)
(** * Routing and environments: [src/muxer/muxer.go]

    The multiplexer maps a tool call to a backend by the prefix of the tool's
    name, strips the prefix from the request, and builds the environment the
    backend is spawned with for the user.  The store it reads is the class
    [MuxStore].  A request body is the JSON object it decodes to, and [None]
    when it is not one; [visit i] is the order in which Go iterates over a map
    with the given keys in the i-th loop. *)
From S2P Require Import Prelude GoStrings EnforcerTypes Template.
Open Scope Z_scope.

(** ** Data *)

(** The fields of [store.Backend] that routing, spawning and the call sites
    read. *)
Module Backend.
Record t := mk {
  ID : string;
  Command : string;
  PoolSize : Z;
  ToolPrefix : string;
  Env : string;
  EnvMappings : string;
  Enabled : bool;
  MinPoolSize : Z;
  MaxPoolSize : Z;
  SkipJustification : bool;
  StdioFraming : string
}.
End Backend.

Module BackendConfig.
Record t := mk {
  Command : string;
  PoolSize : Z;
  Env : gmap string string;
  (** The [EnvKey] of each secret. *)
  Secrets : list string;
  ToolPrefix : string;
  StdioFraming : string
}.
End BackendConfig.

(** What the multiplexer asks of the store; a token is a pair of key and
    decrypted value. *)
Class MuxStore (St : Type) := {
  ListBackends : St -> res (list Backend.t);
  GetBackend : St -> string -> res Backend.t;
  GetUserTokensDecrypted : St -> string -> string -> res (list (string * string));
  GetUser : St -> string -> res User.t
}.

(** [json.Unmarshal] into a string and into a map of strings ([null] is the
    empty map), and the environment of the process. *)
Class MuxEnv := {
  unmarshal_string : string -> option string;
  unmarshal_map : string -> option (gmap string string);
  getenv : string -> string
}.

(** ** Request bodies *)

Definition body : Type := option (list (string * json)).

(** [m[key] = v] on a decoded object. *)
Fixpoint set_field (fields : list (string * json)) (key : string) (v : json) :
    list (string * json) :=
  match fields with
  | [] => [(key, v)]
  | (k, w) :: fields' =>
      if bool_decide (k = key) then (k, v) :: fields' else (k, w) :: set_field fields' key v
  end.

(** [encoding/json] matches the keys of an object with the fields of a struct
    by their names with case folded; besides the ASCII letters, the long s and
    the Kelvin sign fold to letters. *)
Fixpoint fold_name (s : string) : string :=
  match s with
  | EmptyString => EmptyString
  | String a s1 =>
      match s1 with
      | String b s2 =>
          if bool_decide (String a (String b EmptyString) = bytes [197; 191]%nat)
          then String "S" (fold_name s2)
          else match s2 with
               | String c s3 =>
                   if bool_decide (String a (String b (String c EmptyString))
                                   = bytes [226; 132; 170]%nat)
                   then String "K" (fold_name s3)
                   else String (ascii_upper a) (fold_name s1)
               | EmptyString => String (ascii_upper a) (fold_name s1)
               end
      | EmptyString => String (ascii_upper a) EmptyString
      end
  end.

Definition type_error : error := Errorf "json: cannot unmarshal into Go struct field".

(** Decoding into a string that holds [cur]. *)
Definition decode_string (v : json) (cur : string) : res string :=
  match v with JStr s => Ok s | JNull => Ok cur | _ => Err type_error end.

(** The members of an object whose key matches [field], decoded in order. *)
Definition decode_field {A} (field : string) (dec : json -> A -> res A)
    (fields : list (string * json)) (init : A) : res A :=
  foldl (fun acc kv =>
    match acc with
    | Err e => Err e
    | Ok cur => if bool_decide (fold_name kv.1 = fold_name field) then dec kv.2 cur else Ok cur
    end) (Ok init) fields.

(** The name of a [ToolCall]. *)
Definition decode_tool (v : json) : res string :=
  match v with
  | JObj fields => decode_field "name" decode_string fields EmptyString
  | JNull => Ok EmptyString
  | _ => Err type_error
  end.

Definition decode_tools (v : json) (cur : list string) : res (list string) :=
  match v with
  | JArr l => foldr (fun v acc => match decode_tool v, acc with
                                  | Ok n, Ok ns => Ok (n :: ns)
                                  | Err e, _ => Err e
                                  | _, Err e => Err e
                                  end) (Ok []) l
  | JNull => Ok []
  | _ => Err type_error
  end.

(** [Params]: the name, and the names of the legacy field [tools]. *)
Definition decode_params (v : json) (cur : string * list string) : res (string * list string) :=
  match v with
  | JObj fields =>
      match decode_field "name" decode_string fields cur.1,
            decode_field "tools" decode_tools fields cur.2 with
      | Ok name, Ok tools => Ok (name, tools)
      | Err e, _ => Err e
      | _, Err e => Err e
      end
  | JNull => Ok cur
  | _ => Err type_error
  end.

(** [json.Unmarshal] into a [ToolsCallRequest]. *)
Definition decode_tools_call (b : body) : res (string * list string) :=
  match b with
  | None => Err (Errorf "invalid JSON")
  | Some fields =>
      match decode_field "jsonrpc" decode_string fields EmptyString,
            decode_field "method" decode_string fields EmptyString with
      | Ok _, Ok _ => decode_field "params" decode_params fields (EmptyString, [])
      | Err e, _ => Err e
      | _, Err e => Err e
      end
  end.

(** ** The multiplexer *)

Module PoolRouter.
Record t := mk { UserID : string; Backend : string; Prefix : string; ShouldStrip : bool }.
End PoolRouter.

(** The arguments of [GetOrCreateUserPoolWithFraming]. *)
Module PoolRequest.
Record t := mk {
  backendID : string;
  userID : string;
  command : string;
  minPoolSize : Z;
  maxPoolSize : Z;
  env : list string;
  stdioFraming : string
}.
End PoolRequest.

(** The results of [getBackendConfig]. *)
Module Config.
Record t := mk {
  command : string;
  poolSize : Z;
  minPoolSize : Z;
  maxPoolSize : Z;
  env : gmap string string;
  envMappings : gmap string string;
  stdioFraming : string
}.
End Config.

Module ToolMuxer.
Section ToolMuxer.
Context {St : Type} {MS : MuxStore St} {ME : MuxEnv} {SH : Sha256}.
Context (visit : nat -> gset string -> list string).

Record t := mk {
  backendPrefixes : gmap string string;
  (** [None]: nil. *)
  store : option St;
  (** The legacy secret store, by user and key. *)
  secrets : option (string -> string -> res string);
  config_Backends : gmap string BackendConfig.t
}.

(** The loop over the backends of the store: a later one wins. *)
Definition store_prefixes (l : list Backend.t) : gmap string string :=
  foldl (fun m b => if bool_decide (Backend.ToolPrefix b = EmptyString) then m
                    else <[Backend.ToolPrefix b := Backend.ID b]> m) ∅ l.

(** The loop over the configured backends, in the order Go visits them. *)
Definition config_prefixes (cfg : gmap string BackendConfig.t) : gmap string string :=
  foldl (fun m id =>
    match cfg !! id with
    | None => m
    | Some bc => if bool_decide (BackendConfig.ToolPrefix bc = EmptyString) then m
                 else <[BackendConfig.ToolPrefix bc := id]> m
    end) ∅ (visit 0 (dom cfg)).

Definition load_prefixes (st : option St) (cfg : gmap string BackendConfig.t) :
    gmap string string :=
  match st with
  | Some s => match ListBackends s with
              | Ok (b :: l) => store_prefixes (b :: l)
              | _ => config_prefixes cfg
              end
  | None => config_prefixes cfg
  end.

Definition NewToolMuxer (sec : option (string -> string -> res string))
    (cfg : gmap string BackendConfig.t) : t :=
  mk (config_prefixes cfg) None sec cfg.

Definition NewToolMuxerWithStore (st : option St) (cfg : gmap string BackendConfig.t) : t :=
  mk (load_prefixes st cfg) st None cfg.

Definition RefreshPrefixes (m : t) : t :=
  mk (load_prefixes (store m) (config_Backends m)) (store m) (secrets m) (config_Backends m).

(** *** Routing *)

Definition matches_prefix (toolName prefix : string) : bool :=
  has_prefix toolName (prefix +:+ "_") || has_prefix toolName (prefix +:+ "/").

Definition listBackendIDs (m : t) : list string :=
  let from_config := visit 1 (dom (config_Backends m)) in
  match store m with
  | Some s => match ListBackends s with
              | Ok (b :: l) => Backend.ID <$> b :: l
              | _ => from_config
              end
  | None => from_config
  end.

(** The backend and the prefix. *)
Definition FindBackendForTool (toolName : string) (m : t) : res (string * string) :=
  let keys := visit 2 (dom (backendPrefixes m)) in
  match list_find (fun p => matches_prefix toolName p = true) keys with
  | Some (_, prefix) => Ok (default EmptyString (backendPrefixes m !! prefix), prefix)
  | None =>
      match listBackendIDs m with
      | [id] => Ok (id, EmptyString)
      | _ => Err (Errorf "no backend found for tool: %s")
      end
  end.

Definition stripped_name (name prefix : string) : string :=
  trim_prefix (trim_prefix name (prefix +:+ "_")) (prefix +:+ "/").

Definition stripPrefixFromName (b : body) (prefix : string) : body :=
  match b with
  | None => b
  | Some req =>
      match as_object (field req "params") with
      | None => b
      | Some params =>
          match as_string (field params "name") with
          | Some name =>
              Some (set_field req "params"
                      (JObj (set_field params "name" (JStr (stripped_name name prefix)))))
          | None => b
          end
      end
  end.

Definition GetPrefixForBackend (backendID : string) (m : t) : string :=
  match list_find (fun p => backendPrefixes m !! p = Some backendID)
          (visit 3 (dom (backendPrefixes m))) with
  | Some (_, p) => p
  | None => EmptyString
  end.

(** *** Configuration and environment *)

(** A JSON column that may be double encoded; anything unusable is empty. *)
Definition decode_map_column (s : string) : gmap string string :=
  if bool_decide (s = EmptyString) || bool_decide (s = "{}") then ∅
  else
    let q := bytes [34%nat] in
    let s' := if has_prefix s q && has_suffix s q then default s (unmarshal_string s) else s in
    default ∅ (unmarshal_map s').

Definition framing_of (f : string) : string :=
  if bool_decide (f = EmptyString) then "newline" else f.

(** [None]: [ok] is false. *)
Definition getBackendConfig (backendID : string) (m : t) : option Config.t :=
  let from_config :=
    match config_Backends m !! backendID with
    | Some bc => Some (Config.mk (BackendConfig.Command bc) (BackendConfig.PoolSize bc)
        (BackendConfig.PoolSize bc) (BackendConfig.PoolSize bc) (BackendConfig.Env bc) ∅
        (framing_of (BackendConfig.StdioFraming bc)))
    | None => None
    end in
  match store m with
  | Some s =>
      match GetBackend s backendID with
      | Ok b =>
          let minSize := if Backend.MinPoolSize b =? 0 then 1 else Backend.MinPoolSize b in
          let maxSize := if Backend.MaxPoolSize b =? 0 then minSize else Backend.MaxPoolSize b in
          Some (Config.mk (Backend.Command b) (Backend.PoolSize b) minSize maxSize
            (decode_map_column (Backend.Env b)) (decode_map_column (Backend.EnvMappings b))
            (framing_of (Backend.StdioFraming b)))
      | Err _ => from_config
      end
  | None => from_config
  end.

Definition system_env : gmap string string :=
  foldl (fun m k => if bool_decide (getenv k = EmptyString) then m else <[k := getenv k]> m) ∅
    ["PATH"; "HOME"; "USER"].

Definition set_tokens (tokens : list (string * string)) (env : gmap string string) :
    gmap string string :=
  foldl (fun m kv => <[kv.1 := kv.2]> m) env tokens.

(** The values the legacy secret store has for the user. *)
Definition set_secrets (get : string -> string -> res string) (userID : string)
    (keys : list string) (env : gmap string string) : gmap string string :=
  foldl (fun m k => match get userID k with Ok v => <[k := v]> m | Err _ => m end) env keys.

(** Step 1, which the fallback [buildLegacyEnv] performs as well. *)
Definition user_env (userID backendID : string) (m : t) (env : gmap string string) :
    gmap string string :=
  match store m with
  | Some s => match GetUserTokensDecrypted s userID backendID with
              | Ok tokens => set_tokens tokens env
              | Err _ => env
              end
  | None =>
      match secrets m with
      | Some get => match config_Backends m !! backendID with
                    | Some bc => set_secrets get userID (BackendConfig.Secrets bc) env
                    | None => env
                    end
      | None => env
      end
  end.

Definition buildLegacyEnv : string -> string -> t -> gmap string string -> gmap string string :=
  user_env.

(** Step 2: the keys are renamed; when two keys are renamed to one, the order
    of the iteration decides. *)
Definition map_keys (mappings env : gmap string string) : gmap string string :=
  if bool_decide (mappings = ∅) then env
  else foldl (fun m k => match env !! k with
                         | None => m
                         | Some v => <[default k (mappings !! k) := v]> m
                         end) ∅ (visit 4 (dom env)).

Definition mapToSlice (env : gmap string string) : list string :=
  omap (fun k => match env !! k with Some v => Some (k +:+ "=" +:+ v) | None => None end)
    (visit 5 (dom env)).

(** The map the slice is made of. *)
Definition env_map (userID backendID : string) (m : t) : res (gmap string string) :=
  match getBackendConfig backendID m with
  | None => Ok (buildLegacyEnv userID backendID m system_env)
  | Some cfg =>
      let env1 := user_env userID backendID m system_env in
      let env2 := map_keys (Config.envMappings cfg) env1 in
      let env3 := Config.env cfg ∪ env2 in
      match store m with
      | Some s =>
          if envMapHasTemplates env3 then
            match GetUser s userID with
            | Err e => Err (Wrapf "BuildEnvForUser: failed to fetch user %q: %w" e)
            | Ok user =>
                match ResolveEnvTemplates (visit 6 (dom env3)) env3 user with
                | Err e => Err (Wrapf "BuildEnvForUser: template resolution failed: %w" e)
                | Ok resolved => Ok resolved
                end
            end
          else Ok env3
      | None => Ok env3
      end
  end.

Definition BuildEnvForUser (userID backendID : string) (m : t) : res (list string) :=
  match env_map userID backendID m with
  | Err e => Err e
  | Ok env => Ok (mapToSlice env)
  end.

(** *** The call *)

(** The forwarded body, the router and the pool that is asked for. *)
Definition HandleToolsCall (userID : string) (b : body) (m : t) :
    res (body * PoolRouter.t * PoolRequest.t) :=
  match decode_tools_call b with
  | Err e => Err (Wrapf "failed to parse tools/call request: %w" e)
  | Ok (name, tools) =>
      let toolName := if bool_decide (name = EmptyString)
                      then match tools with [] => name | n :: _ => n end else name in
      if bool_decide (toolName = EmptyString)
      then Err (Errorf "no tool name in request params")
      else
        match FindBackendForTool toolName m with
        | Err e => Err e
        | Ok (backendID, prefix) =>
            match getBackendConfig backendID m with
            | None => Err (Errorf "backend %q not found in store or config")
            | Some cfg =>
                match BuildEnvForUser userID backendID m with
                | Err e => Err (Wrapf "failed to build env for user %q, backend %q: %w" e)
                | Ok env =>
                    let pool := PoolRequest.mk backendID userID (Config.command cfg)
                      (Config.minPoolSize cfg) (Config.maxPoolSize cfg) env
                      (Config.stdioFraming cfg) in
                    let strip := negb (bool_decide (prefix = EmptyString)) in
                    let router := PoolRouter.mk userID backendID prefix strip in
                    Ok (if strip then stripPrefixFromName b prefix else b, router, pool)
                end
            end
        end
  end.
End ToolMuxer.
Arguments t : clear implicits.
End ToolMuxer.

(** * Properties *)

(** Every iteration visits exactly the keys of its map, once each. *)
Definition visits (visit : nat -> gset string -> list string) : Prop :=
  forall i X, NoDup (visit i X) /\ list_to_set (C := gset string) (visit i X) = X.

(** ** Objects *)

Lemma field_cons k w fields key :
  field ((k, w) :: fields) key = if decide (k = key) then Some w else field fields key.
Proof.
  unfold field. simpl. case_decide; [done|].
  by destruct (list_find _ fields) as [[i [a v]]|].
Qed.

Lemma field_set fields key v k :
  field (set_field fields key v) k = if decide (k = key) then Some v else field fields k.
Proof.
  induction fields as [|[a w] fields IH]; simpl.
  - rewrite field_cons. repeat case_decide; congruence.
  - case_bool_decide as Ha; subst; rewrite !field_cons; [|rewrite IH];
      repeat case_decide; congruence.
Qed.

Module MuxerFacts.
Section Facts.
Context {St : Type} {MS : MuxStore St} {ME : MuxEnv} {SH : Sha256}.
Import ToolMuxer.

Lemma visit_elem visit i X k : visits visit -> k ∈ visit i X <-> k ∈ X.
Proof. intros Hv. destruct (Hv i X) as [_ Hs]. rewrite <- Hs at 2. by rewrite elem_of_list_to_set. Qed.

Lemma visit_perm v1 v2 i X : visits v1 -> visits v2 -> v1 i X ≡ₚ v2 i X.
Proof.
  intros H1 H2. apply NoDup_Permutation; [apply H1 | apply H2|].
  intros k. by rewrite (visit_elem v1), (visit_elem v2).
Qed.

(** The default order, and the one that starts with a given key. *)
Definition starting (p : string) (i : nat) (X : gset string) : list string :=
  if decide (p ∈ X) then p :: elements (X ∖ {[p]}) else elements X.

Lemma starting_visits p : visits (starting p).
Proof.
  intros i X. unfold starting. case_decide as Hp.
  - split; [constructor; [set_solver | apply NoDup_elements]|].
    simpl. rewrite list_to_set_elements_L. apply set_eq. intros k.
    destruct (decide (k = p)); set_solver.
  - split; [apply NoDup_elements | apply list_to_set_elements_L].
Qed.

Definition matching (toolName : string) (m : t St) (p : string) : Prop :=
  p ∈ dom (backendPrefixes m) /\ matches_prefix toolName p = true.

Lemma find_matching visit toolName m :
  visits visit ->
  match list_find (fun p => matches_prefix toolName p = true) (visit 2%nat (dom (backendPrefixes m))) with
  | Some (_, p) => matching toolName m p
  | None => forall p, ~ matching toolName m p
  end.
Proof.
  intros Hv. destruct (list_find _ _) as [[i p]|] eqn:Hf.
  - apply list_find_Some in Hf as (Hi & Hp & _). split; [|done].
    apply (visit_elem visit 2%nat); [done|]. by eapply list_elem_of_lookup_2.
  - apply list_find_None in Hf. rewrite Forall_forall in Hf. intros p [Hd Hp].
    eapply Hf; [|done]. by apply visit_elem.
Qed.

(** A tool only one prefix matches is routed by it, in every order. *)
Lemma FindBackendForTool_unique visit toolName m p b :
  visits visit -> backendPrefixes m !! p = Some b -> matches_prefix toolName p = true ->
  (forall p', matching toolName m p' -> p' = p) ->
  FindBackendForTool visit toolName m = Ok (b, p).
Proof.
  intros Hv Hp Hm Hu. unfold FindBackendForTool.
  pose proof (find_matching visit toolName m Hv) as Hf.
  destruct (list_find _ _) as [[i p']|].
  - rewrite (Hu p' Hf), Hp. done.
  - destruct (Hf p). split; [|done]. apply elem_of_dom. eauto.
Qed.

Lemma find_fallback visit toolName m :
  visits visit -> (forall p, ~ matching toolName m p) ->
  FindBackendForTool visit toolName m =
    match listBackendIDs visit m with
    | [id] => Ok (id, EmptyString)
    | _ => Err (Errorf "no backend found for tool: %s")
    end.
Proof.
  intros Hv Hn. unfold FindBackendForTool.
  pose proof (find_matching visit toolName m Hv) as Hf.
  destruct (list_find _ _) as [[i p']|]; [by destruct (Hn p')|done].
Qed.

Lemma listBackendIDs_perm v1 v2 (m : t St) :
  visits v1 -> visits v2 -> listBackendIDs v1 m ≡ₚ listBackendIDs v2 m.
Proof.
  intros H1 H2. unfold listBackendIDs. pose proof (visit_perm v1 v2 1%nat (dom (config_Backends m)) H1 H2).
  destruct (store m) as [s|]; [|done]. by destruct (ListBackends s) as [[|]|].
Qed.

Lemma find_first p toolName m b :
  matching toolName m p -> backendPrefixes m !! p = Some b ->
  FindBackendForTool (starting p) toolName m = Ok (b, p).
Proof.
  intros [Hd Hm] Hb. unfold FindBackendForTool, starting. rewrite decide_True by done.
  simpl. rewrite decide_True by done. by rewrite Hb.
Qed.
End Facts.
End MuxerFacts.

Section RoutingTheorems.
Context {St : Type} {MS : MuxStore St} {ME : MuxEnv} {SH : Sha256}.
Import ToolMuxer MuxerFacts.

(** Where a tool call goes is determined by its name, independently of the
    order Go visits the map of prefixes in, exactly when at most one
    configured prefix matches the name.  Prefixes of which one continues
    another with an underscore make the routing of the longer one's tools
    depend on chance. *)
Theorem routing_deterministic_iff toolName (m : t St) :
  (forall v1 v2, visits v1 -> visits v2 ->
     FindBackendForTool v1 toolName m = FindBackendForTool v2 toolName m) <->
  (forall p1 p2, matching toolName m p1 -> matching toolName m p2 -> p1 = p2).
Proof.
  split.
  - intros Hdet p1 p2 H1 H2. pose proof H1 as [[b1 Hb1]%elem_of_dom _].
    pose proof H2 as [[b2 Hb2]%elem_of_dom _].
    specialize (Hdet _ _ (starting_visits p1) (starting_visits p2)).
    rewrite (find_first p1 toolName m b1), (find_first p2 toolName m b2) in Hdet by done. congruence.
  - intros Hu v1 v2 H1 H2. pose proof (find_matching v1 toolName m H1) as Hf.
    destruct (list_find _ _) as [[i p]|].
    + pose proof Hf as [[b Hb]%elem_of_dom Hm].
      by rewrite (FindBackendForTool_unique v1 _ _ p b), (FindBackendForTool_unique v2 _ _ p b) by auto.
    + rewrite !find_fallback by done.
      pose proof (listBackendIDs_perm v1 v2 m H1 H2) as Hp.
      destruct (listBackendIDs v1 m) as [|a [|a' l]].
      * apply Permutation_nil_l in Hp. by rewrite <- Hp.
      * apply Permutation_singleton_l in Hp. by rewrite <- Hp.
      * destruct (listBackendIDs v2 m) as [|c [|c' l']]; [done | | done].
        by apply Permutation_length in Hp.
Qed.

(** The name a tool is listed under leads back to the tool.  When no other
    prefix matches it, a call of [prefix_name] goes to the backend with that
    prefix, in a pool of the calling user, and the forwarded request names the
    tool as the backend does and is otherwise the request of the client. *)
Theorem listed_tool_roundtrip visit user (m : t St) p b name req params tools cfg env :
  visits visit -> backendPrefixes m !! p = Some b -> p <> EmptyString ->
  let listed := p +:+ "_" +:+ name in
  (forall p', matching listed m p' -> p' = p) -> has_prefix name (p +:+ "/") = false ->
  decode_tools_call (Some req) = Ok (listed, tools) ->
  field req "params" = Some (JObj params) -> field params "name" = Some (JStr listed) ->
  getBackendConfig b m = Some cfg -> BuildEnvForUser visit user b m = Ok env ->
  exists req' params' router pool,
    HandleToolsCall visit user (Some req) m = Ok (Some req', router, pool) /\
    PoolRouter.Backend router = b /\ PoolRequest.backendID pool = b /\
    PoolRequest.userID pool = user /\ PoolRequest.env pool = env /\
    field req' "params" = Some (JObj params') /\ field params' "name" = Some (JStr name) /\
    (forall k, k <> "params" -> field req' k = field req k) /\
    (forall k, k <> "name" -> field params' k = field params k).
Proof.
  intros Hv Hp Hne listed Hu Hs Hdec Hpar Hname Hcfg Henv.
  assert (Hl : listed <> EmptyString) by (by destruct p).
  assert (Hm : matches_prefix listed p = true).
  { unfold matches_prefix, listed. by rewrite str_app_assoc, has_prefix_app. }
  unfold HandleToolsCall. rewrite Hdec. rewrite (bool_decide_eq_false_2 _ Hl).
  rewrite (bool_decide_eq_false_2 _ Hl).
  rewrite (FindBackendForTool_unique visit listed m p b) by done. rewrite Hcfg, Henv.
  rewrite (bool_decide_eq_false_2 _ Hne). simpl. rewrite Hpar. simpl. rewrite Hname. simpl.
  assert (Hn : stripped_name listed p = name).
  { unfold stripped_name, listed. rewrite str_app_assoc, trim_prefix_app.
    unfold trim_prefix. by rewrite Hs. }
  rewrite Hn. exists (set_field req "params" (JObj (set_field params "name" (JStr name)))).
  exists (set_field params "name" (JStr name)). do 2 eexists. split; [reflexivity|]. simpl.
  split_and!; try done; try (intros k Hk); rewrite field_set; by case_decide.
Qed.
End RoutingTheorems.

(** ** The environment *)

Module EnvFacts.
Section Facts.
Context {St : Type} {MS : MuxStore St} {ME : MuxEnv} {SH : Sha256}.
Import ToolMuxer MuxerFacts.

(** The key a user variable has for the backend. *)
Definition renamed (mappings : gmap string string) (k : string) : string :=
  default k (mappings !! k).

Lemma rename_loop mappings (env acc : gmap string string) keys k v :
  foldl (fun m k => match env !! k with
                    | None => m
                    | Some v => <[default k (mappings !! k) := v]> m
                    end) acc keys !! k = Some v ->
  acc !! k = Some v \/ exists k0, k0 ∈ keys /\ env !! k0 = Some v /\ renamed mappings k0 = k.
Proof.
  revert acc. induction keys as [|k1 keys IH]; intros acc; simpl; [auto|].
  intros [Ha|(k0 & Hin & Hk0)]%IH; [|right; exists k0; split; [by right | done]].
  destruct (env !! k1) as [v1|] eqn:Hk1; [|auto].
  apply lookup_insert_Some in Ha as [[Hk ->]|[_ Ha]]; [|auto].
  right. exists k1. split_and!; [by left | done..].
Qed.

Lemma rename_loop_unique mappings (env acc : gmap string string) keys k0 v :
  env !! k0 = Some v ->
  (forall k1, k1 ∈ dom env -> renamed mappings k1 = renamed mappings k0 -> k1 = k0) ->
  (k0 ∈ keys \/ acc !! renamed mappings k0 = Some v) ->
  foldl (fun m k => match env !! k with
                    | None => m
                    | Some v => <[default k (mappings !! k) := v]> m
                    end) acc keys !! renamed mappings k0 = Some v.
Proof.
  intros Hk0 Hu. revert acc. induction keys as [|k1 keys IH]; intros acc; simpl.
  { intros [Hn|?]; [by apply not_elem_of_nil in Hn | done]. }
  intros Hor. apply IH. destruct (decide (k1 = k0)) as [->|Hne].
  { right. rewrite Hk0. apply lookup_insert_eq. }
  destruct Hor as [[->|]%elem_of_cons|Ha]; [done | by left | right].
  destruct (env !! k1) as [v1|] eqn:Hk1; [|done].
  rewrite lookup_insert_ne; [done|]. intros Heq. apply Hne, Hu; [|done].
  apply elem_of_dom. eauto.
Qed.

Lemma map_keys_Some visit mappings env k v :
  map_keys visit mappings env !! k = Some v ->
  exists k0, env !! k0 = Some v /\ renamed mappings k0 = k.
Proof.
  unfold map_keys. case_bool_decide as Hm.
  - subst. intros Hk. exists k. split; [done|]. unfold renamed. by rewrite lookup_empty.
  - intros [He|(k0 & _ & Hk0)]%rename_loop; [by rewrite lookup_empty in He | eauto].
Qed.

Lemma map_keys_unique visit mappings env k0 v :
  visits visit -> env !! k0 = Some v ->
  (forall k1, k1 ∈ dom env -> renamed mappings k1 = renamed mappings k0 -> k1 = k0) ->
  map_keys visit mappings env !! renamed mappings k0 = Some v.
Proof.
  intros Hv Hk0 Hu. unfold map_keys. case_bool_decide as Hm.
  - subst. unfold renamed. by rewrite lookup_empty.
  - apply rename_loop_unique; [done..|]. left. apply visit_elem; [done|]. apply elem_of_dom. eauto.
Qed.

(** What is made of a configured value: itself, unless the store renders the
    templates of the environment. *)
Definition shown (m : t St) (userID v o : string) : Prop :=
  match store m with
  | None => o = v
  | Some s => (contains v "{{" = false /\ o = v) \/
              exists u, GetUser s userID = Ok u /\ rendered u v o
  end.

(** The map the values come from, before templates. *)
Definition merged (visit : nat -> gset string -> list string) (userID backendID : string)
    (m : t St) (cfg : Config.t) : gmap string string :=
  Config.env cfg ∪
  map_keys visit (Config.envMappings cfg) (user_env userID backendID m system_env).

Lemma no_templates env k v :
  envMapHasTemplates env = false -> env !! k = Some v -> contains v "{{" = false.
Proof.
  unfold envMapHasTemplates. intros Hb%bool_decide_eq_false_1 Hk.
  apply not_true_iff_false. intros Hc. apply Hb. exists k, v. done.
Qed.

Lemma env_map_merged visit userID backendID m cfg out :
  visits visit -> getBackendConfig backendID m = Some cfg ->
  env_map visit userID backendID m = Ok out ->
  let env := merged visit userID backendID m cfg in
  dom out = dom env /\
  forall k v, env !! k = Some v -> exists o, out !! k = Some o /\ shown m userID v o.
Proof.
  intros Hv Hc He env. unfold env_map in He. rewrite Hc in He. cbv zeta in He.
  fold (merged visit userID backendID m cfg) in He. fold env in He. unfold shown.
  destruct (store m) as [s|]; [|injection He as <-; eauto].
  destruct (envMapHasTemplates env) eqn:Ht.
  - destruct (GetUser s userID) as [u|] eqn:Hu; [|done].
    destruct (ResolveEnvTemplates _ env u) as [r|] eqn:Hr; [|done]. injection He as <-.
    unfold ResolveEnvTemplates in Hr. apply resolve_loop_spec in Hr as [H1 H2].
    assert (Hin : forall k v, env !! k = Some v -> k ∈ visit 6%nat (dom env)).
    { intros k v Hk. apply visit_elem; [done|]. apply elem_of_dom. eauto. }
    split.
    + apply set_eq. intros k. rewrite !elem_of_dom. split.
      * intros Hk. destruct (env !! k) as [w|] eqn:Hek; [by exists w|]. rewrite H2 in Hk by done.
        by rewrite lookup_empty in Hk.
      * intros [v Hk]. destruct (H1 k (Hin k v Hk) v Hk) as (o & -> & _). eauto.
    + intros k v Hk. destruct (H1 k (Hin k v Hk) v Hk) as (o & Ho & Hr). exists o. split; [done|]. right. by exists u.
  - injection He as <-. split; [done|]. intros k v Hk. exists v. split; [done|].
    left. split; [by eapply no_templates | done].
Qed.

Lemma set_tokens_in tokens env k v :
  NoDup tokens.*1 -> (k, v) ∈ tokens -> set_tokens tokens env !! k = Some v.
Proof.
  unfold set_tokens. revert env. induction tokens as [|[k1 v1] tokens IH]; intros env; simpl.
  { intros _ Hn. by apply not_elem_of_nil in Hn. }
  intros [Hn Hd]%NoDup_cons [Heq|Hin]%elem_of_cons; [|by apply IH]. injection Heq as -> ->.
  clear IH Hd. induction tokens as [|[k2 v2] tokens IH] using rev_ind; simpl.
  { apply lookup_insert_eq. }
  rewrite foldl_snoc. simpl. rewrite fmap_app in Hn. rewrite lookup_insert_ne by set_solver.
  apply IH. set_solver.
Qed.
End Facts.
End EnvFacts.

Section EnvTheorems.
Context {St : Type} {MS : MuxStore St} {ME : MuxEnv} {SH : Sha256}.
Import ToolMuxer MuxerFacts EnvFacts.

(** The precedence of the environment of a backend.  A systemwide variable
    of the backend always wins and reaches the backend as configured (with its
    templates rendered); every other variable comes from a variable of the
    user or of the process under its mapped name; and a token of the user
    reaches the backend under its mapped name unless a systemwide variable has
    that name or another variable is mapped to it. *)
Theorem env_precedence visit userID backendID (m : t St) cfg out :
  visits visit -> getBackendConfig backendID m = Some cfg ->
  env_map visit userID backendID m = Ok out ->
  let mapped := renamed (Config.envMappings cfg) in
  let user := user_env userID backendID m system_env in
  (forall k v, Config.env cfg !! k = Some v ->
     exists o, out !! k = Some o /\ shown m userID v o) /\
  (forall k o, Config.env cfg !! k = None -> out !! k = Some o ->
     exists k0 v, user !! k0 = Some v /\ mapped k0 = k /\ shown m userID v o) /\
  (forall s tokens k v, store m = Some s -> GetUserTokensDecrypted s userID backendID = Ok tokens ->
     NoDup tokens.*1 -> (k, v) ∈ tokens -> Config.env cfg !! mapped k = None ->
     (forall k1, k1 ∈ dom user -> mapped k1 = mapped k -> k1 = k) ->
     exists o, out !! mapped k = Some o /\ shown m userID v o).
Proof.
  intros Hv Hc He mapped user. destruct (env_map_merged _ _ _ _ _ _ Hv Hc He) as [Hd Hm].
  unfold merged in Hd, Hm. fold user in Hd, Hm. split_and!.
  - intros k v Hk. apply Hm. by apply lookup_union_Some_l.
  - intros k o Hk Ho.
    assert (is_Some ((Config.env cfg ∪ map_keys visit (Config.envMappings cfg) user) !! k))
      as [v Hkv] by (apply elem_of_dom; rewrite <- Hd; apply elem_of_dom; eauto).
    destruct (Hm k v Hkv) as (o' & Ho' & Hs). simplify_eq.
    rewrite lookup_union_r in Hkv by done. apply map_keys_Some in Hkv as (k0 & ? & ?). eauto.
  - intros s tokens k v Hs Ht Hnd Hin Hk Hu. apply Hm. rewrite lookup_union_r by done.
    apply map_keys_unique; [done | | done]. unfold user, user_env. rewrite Hs, Ht.
    by apply set_tokens_in.
Qed.
End EnvTheorems.

(** ** A concrete deployment *)

Module DemoTables.
Record t := mk { backends : list Backend.t; tokens : list (string * string) }.
End DemoTables.

#[global] Instance demo_tables : MuxStore DemoTables.t := {|
  ListBackends s := Ok (DemoTables.backends s);
  GetBackend s id := match list_find (fun b => Backend.ID b = id) (DemoTables.backends s) with
                     | Some (_, b) => Ok b
                     | None => Err ErrNoRows
                     end;
  GetUserTokensDecrypted s _ _ := Ok (DemoTables.tokens s);
  GetUser _ id := if bool_decide (id = "u1") then Ok demo_user else Err ErrNoRows
|}.

Definition demo_mux_env : MuxEnv := {|
  unmarshal_string := fun _ => None;
  unmarshal_map := fun s => if bool_decide (s = "ENV") then Some {["DB" := "db_{{users.id}}"]}
                            else Some {["TOKEN" := "SLACK_TOKEN"]};
  getenv := fun k => if bool_decide (k = "PATH") then "/bin" else EmptyString
|}.

Definition demo_backend (id prefix : string) : Backend.t :=
  Backend.mk id "run" 1 prefix "ENV" "MAP" true 0 2 false EmptyString.

Definition demo_mux : ToolMuxer.t DemoTables.t :=
  ToolMuxer.NewToolMuxerWithStore (MS := demo_tables) (fun _ X => elements X)
    (Some (DemoTables.mk [demo_backend "slack" "slk"; demo_backend "github" "gh"]
             [("TOKEN", "xoxb"); ("DB", "mine")])) ∅.

Definition by_elements (i : nat) (X : gset string) : list string := elements X.

Lemma by_elements_visits : visits by_elements.
Proof. intros i X. split; [apply NoDup_elements | apply list_to_set_elements_L]. Qed.

Definition demo_params (name : string) : list (string * json) :=
  [("name", JStr name); ("arguments", JObj [("text", JStr "hi")])].

Definition demo_request (name : string) : list (string * json) :=
  [("jsonrpc", JStr "2.0"); ("id", JNum 1 0); ("method", JStr "tools/call");
   ("params", JObj (demo_params name))].

Lemma demo_prefixes :
  ToolMuxer.backendPrefixes demo_mux = {["gh" := "github"; "slk" := "slack"]}.
Proof. vm_compute. reflexivity. Qed.

Lemma demo_routing p :
  MuxerFacts.matching "slk_post" demo_mux p -> p = "slk".
Proof.
  intros [Hd Hm]. rewrite demo_prefixes in Hd.
  rewrite dom_insert_L, dom_singleton_L in Hd.
  assert (p = "gh" \/ p = "slk") as [->| ->] by set_solver; [by vm_compute in Hm | done].
Qed.

Lemma listed_tool_roundtrip_witness :
  exists req' params' router pool,
    ToolMuxer.HandleToolsCall (MS := demo_tables) (ME := demo_mux_env) (SH := demo_sha) by_elements
      "u1" (Some (demo_request "slk_post")) demo_mux = Ok (Some req', router, pool) /\
    PoolRouter.Backend router = "slack" /\
    field req' "params" = Some (JObj params') /\ field params' "name" = Some (JStr "post").
Proof.
  destruct (listed_tool_roundtrip (MS := demo_tables) (ME := demo_mux_env) (SH := demo_sha)
    by_elements "u1" demo_mux "slk" "slack" "post" (demo_request "slk_post")
    (demo_params "slk_post") []
    (Config.mk "run" 1 1 2 {["DB" := "db_{{users.id}}"]} {["TOKEN" := "SLACK_TOKEN"]} "newline")
    ["SLACK_TOKEN=xoxb"; "DB=db_u1"; "PATH=/bin"])
    as (req' & params' & router & pool & E & Hb & _ & _ & _ & Hp & Hn & _).
  - exact by_elements_visits.
  - vm_compute. reflexivity.
  - discriminate.
  - exact demo_routing.
  - reflexivity.
  - vm_compute. reflexivity.
  - reflexivity.
  - reflexivity.
  - vm_compute. reflexivity.
  - vm_compute. reflexivity.
  - exists req', params', router, pool. split; [exact E|]. split; [exact Hb|]. split; [exact Hp | exact Hn].
Defined.

Lemma env_precedence_witness :
  exists out, ToolMuxer.env_map (MS := demo_tables) (ME := demo_mux_env) (SH := demo_sha)
      by_elements "u1" "slack" demo_mux = Ok out /\
    (exists o, out !! "DB" = Some o /\
       EnvFacts.shown (MS := demo_tables) (SH := demo_sha) demo_mux "u1" "db_{{users.id}}" o).
Proof.
  eexists. split; [vm_compute; reflexivity|].
  eapply (env_precedence (MS := demo_tables) (ME := demo_mux_env) (SH := demo_sha)
    by_elements "u1" "slack" demo_mux
    (Config.mk "run" 1 1 2 {["DB" := "db_{{users.id}}"]} {["TOKEN" := "SLACK_TOKEN"]} "newline")).
  - exact by_elements_visits.
  - vm_compute. reflexivity.
  - vm_compute. reflexivity.
  - reflexivity.
Defined.
