(* ===== verification/Backends.v ===== *)
(** * Backends: [src/store/backend.go]

    The tables of backends, of the tools cached for them and of settings, beside
    those of [Accounts], whose service tokens refer to backends.  The environment
    of a backend is kept sealed by the key store.  The store is an instance of
    [MuxStore], so that what is proved of the multiplexer holds for it. *)
From S2P Require Import Prelude GoStrings Sql Crypto EnforcerTypes Template Muxer Accounts.
Open Scope Z_scope.

(** The row and the struct [Backend]; the last two columns are not written here. *)
Module BackendRow.
Record t := mk {
  ID : string;
  Command : string;
  PoolSize : Z;
  ToolPrefix : string;
  Env : string;
  EnvMappings : string;
  ToolHints : string;
  BackendInstructions : string;
  Enabled : bool;
  IsSystem : bool;
  MinPoolSize : Z;
  MaxPoolSize : Z;
  SelfReporting : bool;
  NoKeysRequired : bool;
  SkipJustification : bool;
  StdioFraming : string;
  EncryptedEnv : string;
  PrecacheError : string;
  PrecacheErrorAt : option Time
}.
Definition with_Env env enc b := mk (ID b) (Command b) (PoolSize b) (ToolPrefix b) env
  (EnvMappings b) (ToolHints b) (BackendInstructions b) (Enabled b) (IsSystem b) (MinPoolSize b)
  (MaxPoolSize b) (SelfReporting b) (NoKeysRequired b) (SkipJustification b) (StdioFraming b)
  enc (PrecacheError b) (PrecacheErrorAt b).
Definition with_defaults mappings minSize framing b := mk (ID b) (Command b) (PoolSize b)
  (ToolPrefix b) (Env b) mappings (ToolHints b) (BackendInstructions b) (Enabled b) (IsSystem b)
  minSize (MaxPoolSize b) (SelfReporting b) (NoKeysRequired b) (SkipJustification b) framing
  (EncryptedEnv b) (PrecacheError b) (PrecacheErrorAt b).
Definition with_precache err at_ b := mk (ID b) (Command b) (PoolSize b) (ToolPrefix b) (Env b)
  (EnvMappings b) (ToolHints b) (BackendInstructions b) (Enabled b) (IsSystem b) (MinPoolSize b)
  (MaxPoolSize b) (SelfReporting b) (NoKeysRequired b) (SkipJustification b) (StdioFraming b)
  (EncryptedEnv b) err at_.
Definition as_system id b := mk id (Command b) (PoolSize b) (ToolPrefix b) (Env b)
  (EnvMappings b) (ToolHints b) (BackendInstructions b) (Enabled b) true (MinPoolSize b)
  (MaxPoolSize b) (SelfReporting b) (NoKeysRequired b) (SkipJustification b) (StdioFraming b)
  (EncryptedEnv b) (PrecacheError b) (PrecacheErrorAt b).
End BackendRow.

(** The tools as the JSON values they were marshalled from. *)
Module BackendCapabilities.
Record t := mk { BackendID : string; Tools : list json; ToolCount : Z; UpdatedAt : Time }.
End BackendCapabilities.

Module Backends.
Record t (KS : Type) := mk {
  accounts : Accounts.t KS;
  backends : gmap string BackendRow.t;
  capabilities : gmap string BackendCapabilities.t;
  settings : gmap string string;
  foreign_keys : bool                 (* the PRAGMA *)
}.
Arguments mk {KS}. Arguments accounts {KS}. Arguments backends {KS}. Arguments capabilities {KS}.
Arguments settings {KS}. Arguments foreign_keys {KS}.

Section Tables.
Context {KS : Type}.
Definition set_accounts f (d : t KS) : t KS :=
  mk (f (accounts d)) (backends d) (capabilities d) (settings d) (foreign_keys d).
(** The ids are also what the foreign keys of tokens refer to. *)
Definition set_backends (f : gmap string BackendRow.t -> gmap string BackendRow.t) (d : t KS) : t KS :=
  let a := accounts d in
  mk (Accounts.mk (Accounts.users a) (Accounts.user_tokens a) (Accounts.user_2fa a)
        (Accounts.web_sessions a) (Accounts.oauth_clients a) (Accounts.oauth_codes a)
        (Accounts.oauth_sessions a) (Accounts.api_keys a) (Accounts.invitations a)
        (dom (f (backends d))) (Accounts.keyStore a) (Accounts.rng a) (Accounts.faults a))
     (f (backends d)) (capabilities d) (settings d) (foreign_keys d).
Definition set_capabilities f (d : t KS) : t KS :=
  mk (accounts d) (backends d) (f (capabilities d)) (settings d) (foreign_keys d).
Definition set_settings f (d : t KS) : t KS :=
  mk (accounts d) (backends d) (capabilities d) (f (settings d)) (foreign_keys d).
Definition set_foreign_keys b (d : t KS) : t KS :=
  mk (accounts d) (backends d) (capabilities d) (settings d) b.
Definition set_faults fs : t KS -> t KS := set_accounts (Accounts.set_faults fs).

#[export] Instance backends_database : Database (t KS) :=
  {| db_faults d := Accounts.faults (accounts d); db_set_faults := set_faults |}.
End Tables.
End Backends.
#[export] Existing Instance Backends.backends_database.

Section Store.
Context {KS : Type} `{SecretBox KS} `{CryptoPrims} `{Bcrypt}.
Import Backends.
Implicit Types d : Backends.t KS.
Local Abbreviation store := (Backends.t KS).

(** An operation of the other tables. *)
Definition on_accounts {A} (f : Accounts.t KS -> A * Accounts.t KS) d : A * store :=
  let '(a, x) := f (accounts d) in (a, set_accounts (fun _ => x) d).

(** ** The sealed environment *)

Definition no_env (s : string) : bool := bool_decide (s = EmptyString) || bool_decide (s = "{}").

Definition encryptBackendEnv (b : BackendRow.t) d : res BackendRow.t * store :=
  if no_env (BackendRow.Env b) then (Ok b, d)
  else match Accounts.keyStore (accounts d) with
  | None => (Err (Errorf "no keystore configured for env encryption"), d)
  | Some ks =>
      match on_accounts (box_encrypt ks (BackendRow.Env b)) d with
      | (Err e, d) => (Err (Wrapf "encrypt backend env: %w" e), d)
      | (Ok encrypted, d) => (Ok (BackendRow.with_Env "{}" encrypted b), d)
      end
  end.

Definition decryptBackendEnv (b : BackendRow.t) d : BackendRow.t * store :=
  if bool_decide (BackendRow.EncryptedEnv b = EmptyString) then (b, d)
  else match Accounts.keyStore (accounts d) with
  | None => (b, d)
  | Some ks =>
      match on_accounts (box_decrypt ks (BackendRow.EncryptedEnv b)) d with
      | (Err _, d) => (b, d)
      | (Ok env, d) => (BackendRow.with_Env env (BackendRow.EncryptedEnv b) b, d)
      end
  end.

(** ** Operations *)

(** The defaults of both writers; only [CreateBackend] sets the framing. *)
Definition with_row_defaults (framing : string) (b : BackendRow.t) : BackendRow.t :=
  BackendRow.with_defaults
    (if bool_decide (BackendRow.EnvMappings b = EmptyString) then "{}" else BackendRow.EnvMappings b)
    (if BackendRow.MinPoolSize b =? 0 then 1 else BackendRow.MinPoolSize b) framing b.

Definition CreateBackend (b : BackendRow.t) d : res unit * store :=
  let b := with_row_defaults (if bool_decide (BackendRow.StdioFraming b = EmptyString) then "newline"
                              else BackendRow.StdioFraming b) b in
  match encryptBackendEnv b d with
  | (Err e, d) => (Err e, d)
  | (Ok b, d) =>
      sql_checked (fun d => bool_decide (backends d !! BackendRow.ID b = None))
        (set_backends <[BackendRow.ID b := BackendRow.with_precache EmptyString None b]>) d
  end.

Definition GetBackend (id : string) d : res BackendRow.t * store :=
  match sql_row (fun d => backends d !! id) d with
  | (Err e, d) => (Err e, d)
  | (Ok b, d) => let '(b, d) := decryptBackendEnv b d in (Ok b, d)
  end.

(** The loop over the rows. *)
Fixpoint decrypt_rows (l : list BackendRow.t) d : list BackendRow.t * store :=
  match l with
  | [] => ([], d)
  | b :: l =>
      let b := if BackendRow.MinPoolSize b =? 0
               then BackendRow.with_defaults (BackendRow.EnvMappings b) 1 (BackendRow.StdioFraming b) b
               else b in
      let '(b, d) := decryptBackendEnv b d in
      let '(l, d) := decrypt_rows l d in (b :: l, d)
  end.

Definition rows_by_id d : list BackendRow.t :=
  sort_by (by_text BackendRow.ID (fun _ => EmptyString)) (rows (backends d)).

Definition ListBackends d : res (list BackendRow.t) * store :=
  match sql_query (fun d => Ok (rows_by_id d)) d with
  | (Err e, d) => (Err e, d)
  | (Ok l, d) => let '(l, d) := decrypt_rows l d in (Ok l, d)
  end.

(** The columns the UPDATE sets. *)
Definition rewritten (b old : BackendRow.t) : BackendRow.t :=
  BackendRow.with_precache (BackendRow.PrecacheError old) (BackendRow.PrecacheErrorAt old) b.

Definition UpdateBackend (b : BackendRow.t) d : res unit * store :=
  let b := with_row_defaults (BackendRow.StdioFraming b) b in
  match encryptBackendEnv b d with
  | (Err e, d) => (Err e, d)
  | (Ok b, d) => sql_exec (set_backends (alter (rewritten b) (BackendRow.ID b))) d
  end.

(** ON DELETE CASCADE *)
Definition cascade_backend (id : string) d : store :=
  let d := set_backends (delete id) d in
  if foreign_keys d then
    set_accounts (Accounts.set_user_tokens (filter (fun kv => kv.1.1.2 <> id)))
      (set_capabilities (delete id) d)
  else d.

Definition DeleteBackend (id : string) : store -> res unit * store := sql_exec (cascade_backend id).

(** ** Sealing old rows *)

Definition plaintext_row (b : BackendRow.t) : bool :=
  bool_decide (BackendRow.EncryptedEnv b = EmptyString) && negb (bool_decide (BackendRow.Env b = "{}")).

(** The rows found by the query, one UPDATE each; the result is the count so far. *)
Fixpoint seal_rows (l : list BackendRow.t) (count : Z) d : (Z * res unit) * store :=
  match l with
  | [] => ((count, Ok tt), d)
  | b :: l =>
      match Accounts.keyStore (accounts d) with
      | None => ((count, Err (Errorf "panic: nil key store")), d)
      | Some ks =>
          match on_accounts (box_encrypt ks (BackendRow.Env b)) d with
          | (Err e, d) => ((count, Err e), d)
          | (Ok encrypted, d) =>
              match sql_exec (set_backends (alter (BackendRow.with_Env "{}" encrypted)
                                              (BackendRow.ID b))) d with
              | (Err e, d) => ((count, Err e), d)
              | (Ok _, d) => seal_rows l (count + 1) d
              end
          end
      end
  end.

Definition MigrateAdminEnv d : (Z * res unit) * store :=
  match sql_query (fun d => Ok (filter (fun b => plaintext_row b = true) (rows (backends d)))) d with
  | (Err e, d) => ((0, Err e), d)
  | (Ok l, d) => seal_rows l 0 d
  end.

(** The SUM over no row is NULL, which Scan refuses. *)
Definition VerifyAdminEnvEncryption : store -> res (Z * Z) * store :=
  sql_query (fun d =>
    let l := rows (backends d) in
    let encrypted := Z.of_nat (length (filter (fun b => BackendRow.EncryptedEnv b <> EmptyString) l)) in
    match l with
    | [] => Err (Errorf "sql: Scan error: converting NULL to int is unsupported")
    | _ => Ok (encrypted, Z.of_nat (length l) - encrypted)
    end).

(** ** The default backend *)

Definition rename_token (k : string * string * string) : string * string * string :=
  if bool_decide (k.1.2 = "default") then (k.1.1, "mcpbridge", k.2) else k.

Definition rename_row (kv : (string * string * string) * UserToken.t) :
    (string * string * string) * UserToken.t :=
  (rename_token kv.1,
   if bool_decide (kv.1.1.2 = "default")
   then UserToken.mk (UserToken.UserID kv.2) "mcpbridge" (UserToken.EnvKey kv.2) (UserToken.Value kv.2)
          (UserToken.Encrypted kv.2) (UserToken.EncryptedDEK kv.2) (UserToken.EncryptionType kv.2)
   else kv.2).

(** The primary key of tokens: no two of them may get the same name. *)
Definition rename_free (m : gmap (string * string * string) UserToken.t) : bool :=
  bool_decide (Forall (fun kv => kv.1.1.2 <> "default" \/ m !! rename_token kv.1 = None)
                 (map_to_list m)).

(** The statements that follow the PRAGMA, which the deferred call undoes. *)
Definition migrate_default d : res unit * store :=
  match sql_checked (fun d => rename_free (Accounts.user_tokens (accounts d)))
          (set_accounts (Accounts.set_user_tokens
             (fun m => list_to_map (rename_row <$> map_to_list m)))) d with
  | (Err e, d) => (Err e, d)
  | (Ok _, d) =>
      sql_checked (fun d => bool_decide (backends d !! "mcpbridge" = None))
        (fun d => match backends d !! "default" with
                  | Some b => set_backends (fun m =>
                      <["mcpbridge" := BackendRow.as_system "mcpbridge" b]> (delete "default" m)) d
                  | None => d
                  end) d
  end.

Definition MigrateDefaultBackend d : res unit * store :=
  match sql_query (fun d => Ok (bool_decide (is_Some (backends d !! "default")))) d with
  | (Err e, d) => (Err e, d)
  | (Ok false, d) => (Ok tt, d)
  | (Ok true, d) =>
      match sql_exec (set_foreign_keys false) d with
      | (Err e, d) => (Err e, d)
      | (Ok _, d) =>
          let '(r, d) := migrate_default d in
          let '(_, d) := sql_exec (set_foreign_keys true) d in (r, d)
      end
  end.

(** ** Cached tools *)

Definition SetBackendCapabilities (backendID : string) (tools : list json) (now : Time) :
    store -> res unit * store :=
  sql_checked (fun d => negb (foreign_keys d) || bool_decide (is_Some (backends d !! backendID)))
    (set_capabilities <[backendID :=
       BackendCapabilities.mk backendID tools (Z.of_nat (length tools)) now]>).

Definition GetBackendCapabilities (backendID : string) : store -> res BackendCapabilities.t * store :=
  sql_row (fun d => capabilities d !! backendID).

Definition GetAllBackendCapabilities : store -> res (gmap string BackendCapabilities.t) * store :=
  sql_query (fun d => Ok (capabilities d)).

Definition DeleteBackendCapabilities (backendID : string) : store -> res unit * store :=
  sql_exec (set_capabilities (delete backendID)).

(** ** Settings *)

Definition GetSetting (key : string) d : res string * store :=
  match sql_row (fun d => settings d !! key) d with
  | (Err ErrNoRows, d) => (Ok EmptyString, d)
  | x => x
  end.

Definition SetSetting (key value : string) : store -> res unit * store :=
  sql_exec (set_settings <[key := value]>).

(** ** What the multiplexer reads *)

Definition routed (b : BackendRow.t) : Backend.t :=
  Backend.mk (BackendRow.ID b) (BackendRow.Command b) (BackendRow.PoolSize b) (BackendRow.ToolPrefix b)
    (BackendRow.Env b) (BackendRow.EnvMappings b) (BackendRow.Enabled b) (BackendRow.MinPoolSize b)
    (BackendRow.MaxPoolSize b) (BackendRow.SkipJustification b) (BackendRow.StdioFraming b).

Definition map_res {A B} (f : A -> B) (r : res A) : res B :=
  match r with Ok a => Ok (f a) | Err e => Err e end.

(** Reads; a multiplexer keeps no track of the faults and the cached key they use up. *)
#[export] Instance backends_mux_store : MuxStore store := {|
  Muxer.ListBackends d := map_res (map routed) (ListBackends d).1;
  Muxer.GetBackend d id := map_res routed (GetBackend id d).1;
  Muxer.GetUserTokensDecrypted d userID backendID :=
    map_res (map (fun k => (UserToken.EnvKey k, UserToken.Value k)))
      (GetUserTokensDecrypted userID backendID (accounts d)).1;
  Muxer.GetUser d userID :=
    map_res (fun u => User.mk (UserRow.ID u) (UserRow.Email u) (UserRow.Role u))
      (GetUser userID (accounts d)).1
|}.
End Store.

(** ** Lemmas *)

Section BackendFacts.
Context {KS : Type} `{CryptoLaws} `{!SecretBox KS} `{!SecretBoxLaws KS} `{Bcrypt}.
Context (random : forall i n, is_Some (entropy i n)).
Import Backends.
Implicit Types d : Backends.t KS.

(** The other tables can be read. *)
Definition ready (ks : KS) d : Prop := healthy ks (accounts d).

Definition set_rng (n : nat) d : Backends.t KS := set_accounts (Accounts.set_rng n) d.

Lemma accounts_id d : set_accounts (fun _ => accounts d) d = d.
Proof. by destruct d. Qed.

(** What [encryptBackendEnv] leaves opens to what it was given. *)
Lemma encryptBackendEnv_ok ks b d :
  ready ks d -> BackendRow.EncryptedEnv b = EmptyString ->
  exists enc n,
    let b' := BackendRow.with_Env (if no_env (BackendRow.Env b) then BackendRow.Env b else "{}") enc b in
    encryptBackendEnv b d = (Ok b', if no_env (BackendRow.Env b) then d else set_rng n d) /\
    forall d', ready ks d' -> decryptBackendEnv b' d' = (BackendRow.with_Env (BackendRow.Env b) enc b, d').
Proof.
  intros Hr He. unfold encryptBackendEnv. destruct (no_env (BackendRow.Env b)).
  { exists EmptyString, 0%nat. split; [destruct b; cbn in *; by subst|]. intros d' _.
    unfold decryptBackendEnv. by rewrite bool_decide_eq_true_2. }
  pose proof Hr as (_ & Hk & _). rewrite Hk. unfold on_accounts.
  destruct (box_encrypt_ok random ks (BackendRow.Env b) (accounts d) Hr) as (c & n & -> & Hne & Hopen).
  exists c, n. split; [done|]. intros d' Hr'. pose proof Hr' as (_ & Hk' & _).
  unfold decryptBackendEnv. cbn [BackendRow.with_Env BackendRow.EncryptedEnv].
  rewrite bool_decide_eq_false_2 by done. rewrite Hk'. unfold on_accounts. rewrite Hopen by done.
  by rewrite accounts_id.
Qed.

Lemma GetBackend_row ks id b d :
  ready ks d -> backends d !! id = Some b -> GetBackend id d = (Ok (decryptBackendEnv b d).1, (decryptBackendEnv b d).2).
Proof.
  intros (Hf & _) Hb. unfold GetBackend. rewrite sql_row_ok by done. rewrite Hb. by destruct (decryptBackendEnv b d).
Qed.

Lemma decryptBackendEnv_precache err at_ b d :
  decryptBackendEnv (BackendRow.with_precache err at_ b) d =
  (BackendRow.with_precache err at_ (decryptBackendEnv b d).1, (decryptBackendEnv b d).2).
Proof.
  unfold decryptBackendEnv. cbn. case_if; [done|]. destruct (Accounts.keyStore _); [|done].
  by destruct (on_accounts _ _) as [[env|e] d'].
Qed.

(** The backend as it is read back. *)
Definition created (b : BackendRow.t) : BackendRow.t :=
  BackendRow.with_precache EmptyString None
    (with_row_defaults (if bool_decide (BackendRow.StdioFraming b = EmptyString) then "newline"
                        else BackendRow.StdioFraming b) b).

Lemma ready_backends ks f d : ready ks d -> ready ks (set_backends f d).
Proof. by destruct d as [[] ? ? ? ?]. Qed.

Lemma CreateBackend_ok ks b d :
  ready ks d -> BackendRow.EncryptedEnv b = EmptyString -> backends d !! BackendRow.ID b = None ->
  exists d' enc b',
    CreateBackend b d = (Ok tt, d') /\ ready ks d' /\
    backends d' = <[BackendRow.ID b := b']> (backends d) /\ no_env (BackendRow.Env b') = true /\
    (forall d2, ready ks d2 ->
       decryptBackendEnv b' d2 = (BackendRow.with_Env (BackendRow.Env b) enc (created b), d2)) /\
    exists n, d' = set_backends <[BackendRow.ID b := b']> (set_rng n d).
Proof.
  intros Hr He Hfree. unfold CreateBackend. set (b1 := with_row_defaults _ b).
  destruct (encryptBackendEnv_ok ks b1 d Hr He) as (enc & n & -> & Hopen).
  set (n' := if no_env (BackendRow.Env b1) then Accounts.rng (accounts d) else n).
  assert (Hd1 : (if no_env (BackendRow.Env b1) then d else set_rng n d) = set_rng n' d).
  { unfold n'. destruct (no_env (BackendRow.Env b1)); [|done]. by destruct d as [[] ? ? ? ?]. }
  rewrite Hd1. clear Hd1. set (b2 := BackendRow.with_Env _ enc b1) in *.
  exists (set_backends <[BackendRow.ID b := BackendRow.with_precache EmptyString None b2]> (set_rng n' d)), enc,
    (BackendRow.with_precache EmptyString None b2).
  rewrite sql_checked_ok by apply Hr. cbn [BackendRow.ID BackendRow.with_Env b2 b1 with_row_defaults].
  change (backends (set_rng n' d)) with (backends d).
  rewrite (bool_decide_eq_true_2 (backends d !! BackendRow.ID b = None)) by done.
  split_and!; [done|by apply ready_backends|done| | |by exists n'].
  - cbn. unfold b1. cbn. destruct (no_env (BackendRow.Env b)) eqn:Hn; [exact Hn|done].
  - intros d2 Hd2. rewrite decryptBackendEnv_precache, (Hopen d2 Hd2). done.
Qed.


(** A row that exists is rewritten, its last columns stay. *)
Lemma UpdateBackend_ok ks b old d :
  ready ks d -> BackendRow.EncryptedEnv b = EmptyString -> backends d !! BackendRow.ID b = Some old ->
  exists d' enc,
    UpdateBackend b d = (Ok tt, d') /\ ready ks d' /\
    (forall id, id <> BackendRow.ID b -> backends d' !! id = backends d !! id) /\
    GetBackend (BackendRow.ID b) d' =
      (Ok (BackendRow.with_precache (BackendRow.PrecacheError old) (BackendRow.PrecacheErrorAt old)
         (BackendRow.with_Env (BackendRow.Env b) enc (with_row_defaults (BackendRow.StdioFraming b) b))), d').
Proof.
  intros Hr He Hold. unfold UpdateBackend. set (b1 := with_row_defaults _ b).
  destruct (encryptBackendEnv_ok ks b1 d Hr He) as (enc & n & -> & Hopen).
  set (d1 := if no_env (BackendRow.Env b1) then d else set_rng n d).
  assert (Hd1 : ready ks d1 /\ backends d1 = backends d).
  { unfold d1. destruct (no_env _); [done|]. split; [by destruct d as [[] ? ? ? ?]|done]. }
  destruct Hd1 as [Hr1 Hb1]. set (b2 := BackendRow.with_Env _ enc b1) in *.
  rewrite sql_exec_ok by apply Hr1. set (d' := set_backends _ d1).
  assert (Hb' : backends d' = alter (rewritten b2) (BackendRow.ID b) (backends d)) by (cbn; by rewrite Hb1).
  assert (Hr' : ready ks d') by by apply ready_backends.
  exists d', enc. split_and!; [done|done| |].
  - intros id Hne. rewrite Hb'. by apply lookup_alter_ne.
  - rewrite (GetBackend_row ks _ (rewritten b2 old)); [|done|].
    + unfold rewritten. rewrite decryptBackendEnv_precache, Hopen by done. done.
    + rewrite Hb', lookup_alter_eq, Hold. done.
Qed.

(** *** Service tokens as the multiplexer reads them *)

Lemma token_values_ok ks toks (a : Accounts.t KS) :
  healthy ks a ->
  exists l, token_values toks a = (l, a) /\
    Forall2 (fun k k' => UserToken.EnvKey k' = UserToken.EnvKey k /\
      forall v, UserToken.Encrypted k <> EmptyString ->
        box_decrypt ks (UserToken.Encrypted k) a = (Ok v, a) -> UserToken.Value k' = v) toks l.
Proof.
  intros Hh. induction toks as [|k toks IH]; [by exists []|]. destruct IH as (l & Hl & Hall).
  assert (Hv : exists v, token_value k a = (v, a) /\ forall v', UserToken.Encrypted k <> EmptyString ->
            box_decrypt ks (UserToken.Encrypted k) a = (Ok v', a) -> v = v').
  { unfold token_value. destruct Hh as (Hf & Hk & Hr). rewrite Hk. case_bool_decide as He; cbn [negb].
    - exists (UserToken.Value k). split; [done|]. by intros ? [].
    - pose proof (box_decrypt_stable ks (UserToken.Encrypted k) a (conj Hf (conj Hk Hr))) as Hs.
      destruct (box_decrypt ks _ a) as [[v|e] a'] eqn:Hb; cbn in Hs; subst a'; eexists; (split; [done|]);
        by intros v' _ [= ->]. }
  destruct Hv as (v & Hv & Hv'). cbn [token_values]. rewrite Hv, Hl. eexists. split; [done|].
  constructor; [|done]. split; [done|exact Hv'].
Qed.

Lemma tokens_keyed_insert key k (a : Accounts.t KS) :
  key = (UserToken.UserID k, UserToken.BackendID k, UserToken.EnvKey k) -> tokens_keyed a ->
  tokens_keyed (Accounts.set_user_tokens <[key := k]> a).
Proof.
  intros Hkey Hk key2 k2. cbn. rewrite lookup_insert_Some. intros [[<- <-]|[_ Hl]]; [done|by apply Hk].
Qed.

Lemma keyed_rows_NoDup userID backendID (a : Accounts.t KS) :
  tokens_keyed a ->
  NoDup (UserToken.EnvKey <$> filter (fun k => UserToken.UserID k = userID /\ UserToken.BackendID k = backendID)
           (rows (Accounts.user_tokens a))).
Proof.
  intros Hk. apply NoDup_fmap_2_strong.
  - intros x y. rewrite !list_elem_of_filter, !elem_of_rows.
    intros [[Hxu Hxb] [kx Hx]] [[Hyu Hyb] [ky Hy]] Heq.
    pose proof (Hk _ _ Hx). pose proof (Hk _ _ Hy). simplify_eq. congruence.
  - apply NoDup_filter. unfold rows. apply NoDup_fmap_2_strong.
    + intros [k1 v1] [k2 v2] H1'%elem_of_map_to_list H2'%elem_of_map_to_list Heq. cbn in Heq. subst v2.
      f_equal. rewrite (Hk _ _ H1'). by rewrite (Hk _ _ H2').
    + apply NoDup_map_to_list.
Qed.

(** The token saved with the key of the user is among those the multiplexer reads. *)
Lemma saved_token_read ks userID backendID key value dek d :
  ready ks d -> tokens_keyed (accounts d) -> String.length dek = 32%nat ->
  token_allowed userID backendID (accounts d) = true ->
  exists row n,
    SetUserTokenWithUserDEK userID backendID key value (Some dek) (accounts d) =
      (Ok tt, Accounts.set_user_tokens <[(userID, backendID, key) := row]> (Accounts.set_rng n (accounts d))) /\
    let d' := set_accounts (fun _ => Accounts.set_user_tokens <[(userID, backendID, key) := row]>
                                       (Accounts.set_rng n (accounts d))) d in
    ready ks d' /\
    exists tokens, Muxer.GetUserTokensDecrypted d' userID backendID = Ok tokens /\
      NoDup tokens.*1 /\ (key, value) ∈ tokens.
Proof.
  intros Hr Hkeyed Hdek Ha.
  destruct (SetUserTokenWithUserDEK_ok random ks userID backendID key value dek (accounts d) Hr Hdek Ha)
    as (mc & c & n & Hset & Hc & Hmc & Hopen).
  set (row := UserToken.mk userID backendID key EmptyString mc c "user") in *. exists row, n. split; [exact Hset|].
  cbv zeta. set (a' := Accounts.set_user_tokens _ _).
  assert (Hr' : healthy ks a') by (destruct Hr as (?&?&?); by split_and!).
  split; [exact Hr'|]. cbn [Muxer.GetUserTokensDecrypted backends_mux_store accounts set_accounts].
  unfold GetUserTokensDecrypted, GetUserTokens, sql_query. rewrite sql_stmt_ok by apply Hr'.
  set (toks := filter _ _). destruct (token_values_ok ks toks a' Hr') as (l & -> & Hall). cbn [fst map_res].
  eexists. split; [done|].
  assert (Hfst : (map (fun k => (UserToken.EnvKey k, UserToken.Value k)) l).*1 = UserToken.EnvKey <$> toks).
  { clear -Hall. induction Hall as [|k k' toks l [He _] _ IH]; [done|]. cbn. rewrite He. f_equal. exact IH. }
  split.
  - rewrite Hfst. apply keyed_rows_NoDup. by apply tokens_keyed_insert.
  - assert (Hin : row ∈ toks).
    { apply list_elem_of_filter. split; [done|]. apply elem_of_rows. exists (userID, backendID, key).
      apply lookup_insert_eq. }
    apply list_elem_of_lookup_1 in Hin as [i Hi].
    destruct (Forall2_lookup_l _ _ _ _ _ Hall Hi) as (k' & Hk' & He & Hv).
    specialize (Hv value Hmc (proj2 (Hopen a' Hr'))).
    apply list_elem_of_In, in_map_iff. exists k'. split; [by rewrite He, Hv|].
    apply list_elem_of_In. by eapply list_elem_of_lookup_2.
Qed.

(** *** Sealing old rows *)

(** The rows are under their ids. *)
Definition rows_keyed d : Prop := forall id b, backends d !! id = Some b -> BackendRow.ID b = id.

(** What is read of a row depends on the key store alone. *)
Lemma decryptBackendEnv_stable ks b d d' :
  ready ks d -> ready ks d' -> decryptBackendEnv b d' = ((decryptBackendEnv b d).1, d').
Proof.
  intros Hr Hr'. unfold decryptBackendEnv. case_if; [done|].
  pose proof Hr as (_ & -> & _). pose proof Hr' as (_ & -> & _). unfold on_accounts.
  pose proof (box_decrypt_stable ks (BackendRow.EncryptedEnv b) (accounts d') Hr') as Hs.
  assert (Hfst : (box_decrypt ks (BackendRow.EncryptedEnv b) (accounts d')).1 =
                 (box_decrypt ks (BackendRow.EncryptedEnv b) (accounts d)).1).
  { unfold box_decrypt. by destruct (DecryptSecret _ ks). }
  destruct (box_decrypt ks _ (accounts d')) as [r a'], (box_decrypt ks _ (accounts d)) as [r2 a2].
  cbn in *. subst r2 a'. destruct r; by rewrite accounts_id.
Qed.

(** A row and its sealed form. *)
Definition seals (ks : KS) (b b' : BackendRow.t) : Prop :=
  exists enc, b' = BackendRow.with_Env "{}" enc b /\ enc <> EmptyString /\
    forall d, ready ks d -> decryptBackendEnv b' d = (BackendRow.with_Env (BackendRow.Env b) enc b, d).

Lemma seal_rows_ok ks l count d :
  ready ks d -> NoDup (BackendRow.ID <$> l) ->
  (forall b, b ∈ l -> backends d !! BackendRow.ID b = Some b) ->
  exists d', seal_rows l count d = ((count + Z.of_nat (length l), Ok tt), d') /\ ready ks d' /\
    (forall id, id ∉ BackendRow.ID <$> l -> backends d' !! id = backends d !! id) /\
    (forall b, b ∈ l -> exists b', backends d' !! BackendRow.ID b = Some b' /\ seals ks b b').
Proof.
  revert count d. induction l as [|b l IH]; intros count d Hr Hnd Hl.
  { exists d. cbn. rewrite Z.add_0_r. split_and!; try done. intros b Hb. by inversion Hb. }
  apply NoDup_cons in Hnd as [Hni Hnd]. cbn [seal_rows]. pose proof Hr as (_ & -> & _). unfold on_accounts.
  destruct (box_encrypt_ok random ks (BackendRow.Env b) (accounts d) Hr) as (enc & n & -> & Hne & Hopen).
  change (set_accounts (fun _ => Accounts.set_rng n (accounts d)) d) with (set_rng n d).
  rewrite sql_exec_ok by apply Hr. set (d1 := set_backends _ (set_rng n d)).
  assert (Hb1 : backends d1 = alter (BackendRow.with_Env "{}" enc) (BackendRow.ID b) (backends d)) by done.
  destruct (IH (count + 1) d1) as (d' & -> & Hr' & Hout & Hin).
  - by apply ready_backends.
  - done.
  - intros b2 Hb2. rewrite Hb1, lookup_alter_ne; [apply Hl; by right|].
    intros Heq. apply Hni. rewrite Heq. by apply list_elem_of_fmap_2.
  - exists d'. split; [f_equal; f_equal; cbn [length]; lia|]. split_and!; [done| |].
    + intros id Hid. apply not_elem_of_cons in Hid as [Hid1 Hid2]. rewrite Hout, Hb1 by done.
      by rewrite lookup_alter_ne.
    + intros b2 [->|Hb2]%elem_of_cons; [|by apply Hin].
      exists (BackendRow.with_Env "{}" enc b). split.
      { rewrite Hout, Hb1 by done. rewrite lookup_alter_eq, Hl by left. done. }
      exists enc. split_and!; try done. intros d2 Hd2. unfold decryptBackendEnv. cbn.
      rewrite bool_decide_eq_false_2 by done. pose proof Hd2 as (_ & -> & _). unfold on_accounts.
      rewrite Hopen by done. by rewrite accounts_id.
Qed.

Lemma plaintext_rows_ok d :
  rows_keyed d ->
  let l := filter (fun b => plaintext_row b = true) (rows (backends d)) in
  NoDup (BackendRow.ID <$> l) /\ forall b, b ∈ l <-> backends d !! BackendRow.ID b = Some b /\ plaintext_row b = true.
Proof.
  intros Hk l.
  assert (Hin : forall b, b ∈ l <-> backends d !! BackendRow.ID b = Some b /\ plaintext_row b = true).
  { intros b. unfold l. rewrite list_elem_of_filter, elem_of_rows. split.
    - intros [Hp [id Hid]]. by rewrite (Hk id b Hid).
    - intros [Hb Hp]. eauto. }
  split; [|done]. apply NoDup_fmap_2_strong.
  - intros x y [Hx _]%Hin [Hy _]%Hin Heq. congruence.
  - apply NoDup_filter. unfold rows. apply NoDup_fmap_2_strong; [|apply NoDup_map_to_list].
    intros [k1 v1] [k2 v2] H1'%elem_of_map_to_list H2'%elem_of_map_to_list Heq. cbn in Heq. subst v2.
    f_equal. by rewrite <- (Hk _ _ H1'), <- (Hk _ _ H2').
Qed.

(** *** Listing *)

Lemma decrypt_rows_ready ks l d :
  ready ks d -> length (decrypt_rows l d).1 = length l /\ (decrypt_rows l d).2 = d.
Proof.
  intros Hr. induction l as [|b l IH]; [done|]. cbn [decrypt_rows].
  set (b1 := if BackendRow.MinPoolSize b =? 0 then _ else b).
  rewrite (decryptBackendEnv_stable ks b1 d d Hr Hr). destruct IH as [IH1 IH2].
  destruct (decrypt_rows l d) as [l' d']. cbn in *. by rewrite IH1.
Qed.

Lemma ListBackends_ready ks d :
  ready ks d -> exists l, ListBackends d = (Ok l, d) /\ (l = [] <-> backends d = ∅).
Proof.
  intros Hr. unfold ListBackends, sql_query. rewrite sql_stmt_ok by apply Hr.
  pose proof (decrypt_rows_ready ks (rows_by_id d) d Hr) as [Hl Hd].
  destruct (decrypt_rows _ _) as [l d']. cbn in Hl, Hd. subst d'. exists l. split; [done|].
  rewrite <- length_zero_iff_nil, Hl. unfold rows_by_id. rewrite length_zero_iff_nil.
  split.
  - intros Hnil. apply map_empty. intros id. destruct (backends d !! id) as [b|] eqn:Hb; [exfalso|done].
    assert (Hin : b ∈ rows (backends d)) by (apply elem_of_rows; eauto).
    rewrite <- (sort_by_perm (by_text BackendRow.ID (fun _ => EmptyString))), Hnil in Hin. by inversion Hin.
  - intros ->. done.
Qed.
End BackendFacts.

(** * Properties *)

Section BackendTheorems.
Context {KS : Type} `{CryptoLaws} `{!SecretBox KS} `{!SecretBoxLaws KS} `{Bcrypt} `{MuxEnv} `{Sha256}.
Context (random : forall i n, is_Some (entropy i n)).
Import Backends.
Implicit Types d : Backends.t KS.

(** A backend is read back as it was created.  Its environment is sealed in
    the table, where no plaintext is left, and comes back with the defaults filled
    in for what was empty; the other rows stay, and service tokens may refer to
    the new id. *)
Theorem backend_roundtrip ks b d :
  ready ks d -> BackendRow.EncryptedEnv b = EmptyString -> backends d !! BackendRow.ID b = None ->
  exists d' enc,
    CreateBackend b d = (Ok tt, d') /\
    GetBackend (BackendRow.ID b) d' = (Ok (BackendRow.with_Env (BackendRow.Env b) enc (created b)), d') /\
    (forall row, backends d' !! BackendRow.ID b = Some row -> no_env (BackendRow.Env row) = true) /\
    (forall id, id <> BackendRow.ID b -> backends d' !! id = backends d !! id) /\
    Accounts.backend_ids (accounts d') = {[ BackendRow.ID b ]} ∪ dom (backends d).
Proof.
  intros Hr He Hfree.
  destruct (CreateBackend_ok random ks b d Hr He Hfree) as (d' & enc & b' & Hc & Hr' & Hb & Hn & Hopen & n & Hd).
  exists d', enc. split; [exact Hc|]. rewrite Hb. split_and!.
  - rewrite (GetBackend_row ks _ b') by (done || rewrite Hb; apply lookup_insert_eq). by rewrite Hopen.
  - intros row. rewrite lookup_insert_eq. by intros [= <-].
  - intros id Hne. by apply lookup_insert_ne.
  - rewrite Hd. cbn. by rewrite dom_insert_L.
Qed.

(** C39: What was saved reaches the process.  Take a backend that an administrator
    created with an environment, and a service token that a user saved for it with
    the user's own key.  The multiplexer, which does not have that key, spawns the
    backend for the user with every variable of the environment, and with the
    token unless a variable of the environment has its name or names are mapped
    (up to the templates that are rendered in the values). *)
Theorem saved_secrets_reach_process visit cfg ks b user key value dek d :
  visits visit -> ready ks d -> tokens_keyed (accounts d) ->
  BackendRow.EncryptedEnv b = EmptyString -> backends d !! BackendRow.ID b = None ->
  String.length dek = 32%nat -> is_Some (Accounts.users (accounts d) !! user) ->
  let d1 := (CreateBackend b d).2 in
  let saved := SetUserTokenWithUserDEK user (BackendRow.ID b) key value (Some dek) (accounts d1) in
  let m := ToolMuxer.NewToolMuxerWithStore visit (Some (set_accounts (fun _ => saved.2) d1)) cfg in
  saved.1 = Ok tt /\
  exists c, ToolMuxer.getBackendConfig (BackendRow.ID b) m = Some c /\
  (envMapHasTemplates (EnvFacts.merged visit user (BackendRow.ID b) m c) = false ->
     is_ok (ToolMuxer.env_map visit user (BackendRow.ID b) m) = true) /\
  forall out, ToolMuxer.env_map visit user (BackendRow.ID b) m = Ok out ->
    (forall k v, ToolMuxer.decode_map_column (BackendRow.Env b) !! k = Some v ->
       exists o, out !! k = Some o /\ EnvFacts.shown m user v o) /\
    (ToolMuxer.decode_map_column (BackendRow.EnvMappings b) = ∅ ->
     ToolMuxer.decode_map_column (BackendRow.Env b) !! key = None ->
     exists o, out !! key = Some o /\ EnvFacts.shown m user value o).
Proof.
  intros Hv Hr Hkeyed He Hfree Hdek Hu. cbv zeta.
  destruct (CreateBackend_ok random ks b d Hr He Hfree) as (d1 & enc & b' & -> & Hr1 & Hb & _ & Hopen & n & Hd1).
  cbn [snd].
  assert (Hk1 : tokens_keyed (accounts d1)) by by rewrite Hd1.
  assert (Ha : token_allowed user (BackendRow.ID b) (accounts d1) = true).
  { rewrite Hd1. unfold token_allowed. cbn. rewrite !bool_decide_eq_true_2; [done| |done]. set_solver. }
  destruct (saved_token_read random ks user _ key value dek d1 Hr1 Hk1 Hdek Ha)
    as (row & n2 & -> & Hr2 & tokens & Htok & Hnd & Hin).
  cbn [fst snd]. split; [done|]. set (d2 := set_accounts _ d1) in *. cbv zeta in Hr2, Htok.
  set (m := ToolMuxer.NewToolMuxerWithStore visit (Some d2) cfg).
  assert (Hg : Muxer.GetBackend d2 (BackendRow.ID b) =
            Ok (routed (BackendRow.with_Env (BackendRow.Env b) enc (created b)))).
  { cbn. rewrite (GetBackend_row ks _ b') by (done || cbn; rewrite Hb; apply lookup_insert_eq).
    by rewrite Hopen. }
  unfold ToolMuxer.getBackendConfig at 1. cbn [ToolMuxer.store m ToolMuxer.NewToolMuxerWithStore].
  rewrite Hg. eexists. split; [reflexivity|]. cbn [routed BackendRow.with_Env]. set (c := Config.mk _ _ _ _ _ _ _).
  assert (Hc : ToolMuxer.getBackendConfig (BackendRow.ID b) m = Some c).
  { unfold ToolMuxer.getBackendConfig. cbn [ToolMuxer.store m ToolMuxer.NewToolMuxerWithStore]. by rewrite Hg. }
  split.
  { intros Ht. unfold ToolMuxer.env_map. rewrite Hc. unfold EnvFacts.merged in Ht. by rewrite Ht. }
  intros out Hout. destruct (env_precedence visit user _ m c out Hv Hc Hout) as (Hsys & _ & Htoken). split.
  - intros k v Hk. by apply Hsys.
  - intros Hmap Hkey.
    assert (Hmap' : Config.envMappings c = ∅).
    { unfold c. cbn. case_bool_decide as Hem; [done|exact Hmap]. }
    assert (Hren : forall k, EnvFacts.renamed (Config.envMappings c) k = k).
    { intros k. unfold EnvFacts.renamed. rewrite Hmap'. by rewrite lookup_empty. }
    pose proof (Htoken d2 tokens key value eq_refl Htok Hnd Hin) as Ht. rewrite Hren in Ht. apply Ht; [exact Hkey|].
    intros k1 _. by rewrite Hren.
Qed.

(** Sealing the old rows hides every environment and changes none.  The count
    is the number of rows that were in plaintext, after it there is none, and every
    backend is read as before. *)
Theorem MigrateAdminEnv_exact ks d :
  ready ks d -> rows_keyed d ->
  exists d',
    MigrateAdminEnv d = ((Z.of_nat (length (filter (fun b => plaintext_row b = true) (rows (backends d)))), Ok tt), d') /\
    (forall id b, backends d' !! id = Some b -> plaintext_row b = false) /\
    forall id b d0, GetBackend id d = (Ok b, d0) ->
      exists enc, GetBackend id d' = (Ok (BackendRow.with_Env (BackendRow.Env b) enc b), d').
Proof.
  intros Hr Hk. unfold MigrateAdminEnv, sql_query. rewrite sql_stmt_ok by apply Hr.
  destruct (plaintext_rows_ok d Hk) as [Hnd Hin]. set (l := filter _ _) in *.
  destruct (seal_rows_ok random ks l 0 d Hr Hnd) as (d' & -> & Hr' & Hout & Hseal).
  { intros b Hb. by apply Hin. }
  exists d'. split; [done|].
  assert (Hrow : forall id b, backends d !! id = Some b ->
    (plaintext_row b = true /\ exists b', backends d' !! id = Some b' /\ seals ks b b') \/
    (plaintext_row b = false /\ backends d' !! id = Some b)).
  { intros id b Hb. pose proof (Hk id b Hb) as <-. destruct (plaintext_row b) eqn:Hp; [left|right]; (split; [done|]).
    - apply Hseal. by apply Hin.
    - rewrite Hout; [done|]. intros (b2 & Heq & Hb2)%list_elem_of_fmap. apply Hin in Hb2 as [Hb2 Hp2]. congruence. }
  split.
  - intros id b' Hb'. destruct (backends d !! id) as [b|] eqn:Hb.
    + destruct (Hrow id b Hb) as [(_ & b2 & Hb2 & enc & -> & Hne & _)|[Hp Hb2]]; [|congruence].
      assert (b' = BackendRow.with_Env "{}" enc b) as -> by congruence. unfold plaintext_row. cbn.
      by rewrite bool_decide_eq_false_2.
    + rewrite Hout in Hb'; [congruence|]. intros (b2 & -> & [Hb2 _]%Hin)%list_elem_of_fmap. congruence.
  - intros id b d0 Hg. destruct (backends d !! id) as [row|] eqn:Hb.
    2:{ unfold GetBackend in Hg. rewrite sql_row_ok in Hg by apply Hr. by rewrite Hb in Hg. }
    rewrite (GetBackend_row ks id row d Hr Hb) in Hg. injection Hg as <- _.
    destruct (Hrow id row Hb) as [(Hp & b2 & Hb2 & enc & -> & Hne & Hopen)|[Hp Hb2]].
    + exists enc. rewrite (GetBackend_row ks id _ d' Hr' Hb2), Hopen by done. cbn [fst snd].
      apply andb_true_iff in Hp as [Hp _]. apply bool_decide_eq_true_1 in Hp.
      unfold decryptBackendEnv. by rewrite bool_decide_eq_true_2.
    + exists (BackendRow.EncryptedEnv (decryptBackendEnv row d).1).
      rewrite (GetBackend_row ks id row d' Hr' Hb2), (decryptBackendEnv_stable ks row d d') by done.
      cbn [fst snd]. by destruct (decryptBackendEnv row d).1.
Qed.

(** Renaming the default backend is not atomic: when [mcpbridge] exists already,
    the tokens move to it and the error comes after, with both backends there. *)
Theorem default_migration_half_done ks d b :
  ready ks d -> backends d !! "default" = Some b -> is_Some (backends d !! "mcpbridge") ->
  rename_free (Accounts.user_tokens (accounts d)) = true ->
  let '(r, d') := MigrateDefaultBackend d in
  r = Err ErrSql /\ backends d' !! "default" = Some b /\
  Accounts.user_tokens (accounts d') =
    list_to_map (rename_row <$> map_to_list (Accounts.user_tokens (accounts d))).
Proof.
  intros (Hf & _) Hb [b2 Hb2] Hfree. unfold MigrateDefaultBackend, sql_query. rewrite sql_stmt_ok by done.
  rewrite Hb. rewrite bool_decide_eq_true_2 by done. rewrite sql_exec_ok by done.
  unfold migrate_default. rewrite sql_checked_ok by done. cbn [accounts set_foreign_keys]. rewrite Hfree.
  rewrite sql_checked_ok by done. cbn [backends set_accounts set_foreign_keys]. rewrite Hb2.
  rewrite bool_decide_eq_false_2 by done. rewrite sql_exec_ok by done. done.
Qed.
End BackendTheorems.

(** ** A concrete store *)

#[local] Existing Instances Toy.prims Toy.laws DemoAccounts.bcrypt DemoAccounts.provider demo_sha.

Module DemoBackends.
#[export] Instance mux_env : MuxEnv := {|
  unmarshal_string := fun _ => None;
  unmarshal_map := fun s => if bool_decide (s = "VARS") then Some {["URL" := "https://api"]} else None;
  getenv := fun k => if bool_decide (k = "PATH") then "/bin" else EmptyString
|}.

Definition backend (id env : string) : BackendRow.t :=
  BackendRow.mk id "run" 1 "gh" env EmptyString EmptyString EmptyString true false 0 2 false false false
    EmptyString EmptyString EmptyString None.

(** GitHub was created before environments were sealed. *)
Definition tables : Backends.t DemoAccounts.key_store :=
  Backends.mk DemoAccounts.store {[ "github" := backend "github" "VARS" ]} ∅ ∅ true.
End DemoBackends.

#[local] Existing Instance DemoBackends.mux_env.

Lemma demo_ready : ready DemoAccounts.box DemoBackends.tables.
Proof. exact demo_healthy. Qed.

Lemma backend_roundtrip_witness :
  exists d' b, GetBackend "jira" d' = (Ok b, d') /\ BackendRow.Env b = "VARS" /\ BackendRow.StdioFraming b = "newline".
Proof.
  destruct (backend_roundtrip demo_random DemoAccounts.box (DemoBackends.backend "jira" "VARS")
    DemoBackends.tables demo_ready eq_refl) as (d' & enc & _ & Hg & _); [by vm_compute|].
  exists d'. eexists. split; [exact Hg|done].
Defined.

(** A backend is created and Ann saves a token for it. *)
Definition demo_saved : Backends.t DemoAccounts.key_store :=
  let d := (CreateBackend (DemoBackends.backend "jira" "VARS") DemoBackends.tables).2 in
  Backends.set_accounts (fun _ => (SetUserTokenWithUserDEK "ann" "jira" "TOKEN" "jira_1"
    (Some DemoAccounts.dek) (Backends.accounts d)).2) d.

Lemma saved_secrets_reach_process_witness :
  exists out o, ToolMuxer.env_map by_elements "ann" "jira"
      (ToolMuxer.NewToolMuxerWithStore by_elements (Some demo_saved) ∅) = Ok out /\ out !! "TOKEN" = Some o.
Proof.
  destruct (saved_secrets_reach_process demo_random by_elements ∅ DemoAccounts.box
    (DemoBackends.backend "jira" "VARS") "ann" "TOKEN" "jira_1" DemoAccounts.dek DemoBackends.tables)
    as (_ & c & _ & _ & Hall).
  - exact by_elements_visits.
  - exact demo_ready.
  - intros key k Hk. by vm_compute in Hk.
  - done.
  - by vm_compute.
  - done.
  - eexists. by vm_compute.
  - assert (Hout : exists out, ToolMuxer.env_map by_elements "ann" "jira"
      (ToolMuxer.NewToolMuxerWithStore by_elements (Some demo_saved) ∅) = Ok out)
      by (eexists; vm_compute; reflexivity).
    destruct Hout as [out Hout]. destruct (Hall out Hout) as [_ Htok].
    destruct Htok as (o & Ho & _); [by vm_compute|by vm_compute|]. exists out, o. split; [exact Hout|exact Ho].
Defined.

Lemma MigrateAdminEnv_exact_witness :
  exists d' b, (MigrateAdminEnv DemoBackends.tables).1 = (1, Ok tt) /\
    GetBackend "github" d' = (Ok b, d') /\ BackendRow.Env b = "VARS".
Proof.
  destruct (MigrateAdminEnv_exact demo_random DemoAccounts.box DemoBackends.tables demo_ready)
    as (d' & Hm & _ & Hread).
  - intros id b. unfold DemoBackends.tables. cbn. rewrite lookup_singleton_Some. by intros [<- <-].
  - destruct (Hread "github" (DemoBackends.backend "github" "VARS") DemoBackends.tables) as [enc Hg];
      [by vm_compute|].
    exists d'. eexists. split; [by rewrite Hm|]. split; [exact Hg|done].
Defined.

Lemma default_migration_half_done_witness :
  let d := Backends.set_backends (fun _ => {[ "default" := DemoBackends.backend "default" "{}";
             "mcpbridge" := DemoBackends.backend "mcpbridge" "{}" ]}) DemoBackends.tables in
  (MigrateDefaultBackend d).1 = Err ErrSql.
Proof.
  intros d. pose proof (default_migration_half_done DemoAccounts.box d (DemoBackends.backend "default" "{}")) as Hd.
  destruct (MigrateDefaultBackend d) as [r d']. apply Hd; [exact demo_ready|by vm_compute|eexists; by vm_compute|by vm_compute].
Defined.
