(* ===== verification/WebBackends.v ===== *)
(** * The pages for backends: [src/web/admin.go], [web.go]

    Administrators create, edit and delete backends, look at the environment one
    would get, try it and refresh its tools.  The last three are callbacks of the
    handler that [main.go] sets; a change is announced to a fourth one, whose
    calls the state records.  [user] is the id of the administrator. *)
From S2P Require Import Prelude GoStrings Sql Crypto EnforcerTypes Template Muxer Accounts Http Backends.
Open Scope Z_scope.
Open Scope handler_scope.

(** ** Helpers *)

Definition digit_of (c : ascii) : option Z :=
  let n := Z.of_nat (nat_of_ascii c) in
  if (48 <=? n) && (n <=? 57) then Some (n - 48) else None.

(** The loop of [parseInt]; a number that does not fit wraps around. *)
Fixpoint parse_digits (s : string) (n : Z) : Z :=
  match s with
  | EmptyString => n
  | String c s' =>
      match digit_of c with
      | Some k => parse_digits s' (wrap64 (wrap64 (n * 10) + k))
      | None => 0
      end
  end.

Definition parseInt (s : string) : Z := parse_digits s 0.

Definition id_byte (c : ascii) : bool :=
  let n := nat_of_ascii c in
  ((97 <=? n) && (n <=? 122) || (65 <=? n) && (n <=? 90) || (48 <=? n) && (n <=? 57))%nat ||
  bool_decide (c = "-"%char) || bool_decide (c = "_"%char).

Definition isValidBackendID (id : string) : bool :=
  (len id <=? 50) && str_forallb id_byte id.

Definition backends_page : string := "/web/admin/backends".
Definition failed (msg : string) : response := Redirect (backends_page +:+ "?error=" +:+ msg).
Definition succeeded (msg : string) : response := Redirect (backends_page +:+ "?success=" +:+ msg).

(** ** Handlers *)

(** The callbacks; [None] is nil. *)
Record callbacks := Callbacks {
  OnBackendChange : bool;
  OnProbeBackend : option (string -> string -> res string);
  OnResolveEnv : option (string -> string -> string -> string -> res (gmap string string));
  OnRefreshTools : option (string -> string -> res Z)
}.

Record console (KS : Type) := Console {
  tables : Backends.t KS;
  responses : list response;
  changes : list (string * string)
}.
Arguments Console {KS}. Arguments tables {KS}. Arguments responses {KS}. Arguments changes {KS}.

Section Pages.
Context {KS : Type} `{SecretBox KS} `{CryptoPrims} `{Bcrypt} `{MuxEnv}.
(** [json.Unmarshal] into a map of any values succeeds; the list of an encoded
    map. *)
Context (is_object : string -> bool).
Context (h : callbacks).
Local Abbreviation C := (M (console KS) unit).

Definition on_tables {A} (f : Backends.t KS -> A * Backends.t KS) : C A :=
  state (fun c => let '(a, d) := f (tables c) in (a, Console d (responses c) (changes c))).
Definition answer_with (x : response) : C unit :=
  modify (fun c => Console (tables c) (responses c ++ [x]) (changes c)).
Definition stop {A} (x : response) : C A := answer_with x ;;; early tt.

Definition notifyBackendChange (backendID triggerUserID : string) : C unit :=
  if OnBackendChange h
  then modify (fun c => Console (tables c) (responses c) (changes c ++ [(backendID, triggerUserID)]))
  else ret tt.

(** *** The form *)

Definition form_min (r : request) : Z :=
  let n := parseInt (form r "min_pool_size") in if 0 <? n then n else 1.
Definition form_max (r : request) : Z :=
  let n := parseInt (form r "max_pool_size") in if 0 <? n then n else form_min r.
Definition form_object (r : request) (field : string) : string :=
  let s := trim_space (form r field) in if bool_decide (s = EmptyString) then "{}" else s.
Definition checked_box (r : request) (field : string) : bool := bool_decide (form r field = "on").

(** The backend of a form; no field of the form is for the framing. *)
Definition form_backend (r : request) (id : string) (isSystem : bool) : BackendRow.t :=
  BackendRow.mk id (trim_space (form r "command")) (form_min r) (trim_space (form r "tool_prefix"))
    (form_object r "env") (form_object r "env_mappings") (trim_space (form r "tool_hints"))
    (trim_space (form r "backend_instructions")) (checked_box r "enabled") isSystem (form_min r)
    (form_max r) (checked_box r "self_reporting") (checked_box r "no_keys_required")
    (checked_box r "skip_justification") EmptyString EmptyString EmptyString None.

(** *** Create, edit, delete *)

Definition AdminBackendsCreateHandler (user : string) (r : request) : C unit :=
  if negb (isPost r) then stop MethodNotAllowed
  else
    let id := trim_space (form r "id") in
    if bool_decide (id = EmptyString) || bool_decide (trim_space (form r "command") = EmptyString)
    then stop (failed "ID+and+command+required")
    else if negb (isValidBackendID id)
    then stop (failed "Invalid+backend+ID:+use+only+letters,+numbers,+dashes,+and+underscores")
    else
      e <-- on_tables (CreateBackend (form_backend r id false)) ;;
      match e with
      | Err _ => stop (failed "Failed+to+create+backend+(ID+may+already+exist)")
      | Ok _ => notifyBackendChange id user ;;; answer_with (succeeded "Backend+created")
      end.

Definition quoted (s : string) : bool := has_prefix s (bytes [34%nat]) && has_suffix s (bytes [34%nat]).

(** What is wrong with a JSON field of the form. *)
Definition json_fault (s what name : string) : option string :=
  if bool_decide (s = "{}") then None
  else if quoted s then Some (what +:+ "+is+double-encoded")
  else if is_object s then None else Some ("Invalid+JSON+in+" +:+ name).

Definition AdminBackendsEditHandler (user : string) (r : request) : C unit :=
  if negb (isPost r) then stop MethodNotAllowed
  else
    let id := form r "id" in
    if bool_decide (id = EmptyString) || bool_decide (trim_space (form r "command") = EmptyString)
    then stop (failed "ID+and+command+required")
    else if negb (isValidBackendID id) then stop (failed "Invalid+backend+ID")
    else
      match json_fault (form_object r "env") "Env" "Env" with
      | Some msg => stop (failed msg)
      | None =>
          match json_fault (form_object r "env_mappings") "Env+mappings" "EnvMappings" with
          | Some msg => stop (failed msg)
          | None =>
              existing <-- on_tables (GetBackend id) ;;
              let isSystem := match existing with Ok b => BackendRow.IsSystem b | Err _ => false end in
              e <-- on_tables (UpdateBackend (form_backend r id isSystem)) ;;
              match e with
              | Err _ => stop (failed "Failed+to+update+backend")
              | Ok _ => notifyBackendChange id user ;;; answer_with (succeeded "Backend+updated")
              end
          end
      end.

Definition AdminBackendsDeleteHandler (user : string) (r : request) : C unit :=
  if negb (isPost r) then stop MethodNotAllowed
  else
    let id := form r "id" in
    backend <-- on_tables (GetBackend id) ;;
    if match backend with Ok b => BackendRow.IsSystem b | Err _ => false end
    then stop (failed "Cannot+delete+system+backend")
    else
      e <-- on_tables (DeleteBackend id) ;;
      match e with
      | Err _ => stop (failed "Failed+to+delete+backend")
      | Ok _ => notifyBackendChange id user ;;; answer_with (succeeded "Backend+deleted")
      end.

(** *** Listing *)

Definition uncached (d : Backends.t KS) : list string :=
  BackendRow.ID <$> filter (fun b => BackendRow.Enabled b = true /\
                       Backends.capabilities d !! BackendRow.ID b = None) (rows_by_id d).

Definition GetUncachedBackends : Backends.t KS -> res (list string) * Backends.t KS :=
  sql_query (fun d => Ok (uncached d)).

Definition not_bridge (id : string) : bool := negb (bool_decide (id = "mcpbridge")).

(** Without the status of the pools. *)
Definition AdminBackendsHandler (r : request) : C unit :=
  l <-- on_tables (fun d => ListBackends d) ;;
  match l with
  | Err _ => stop InternalServerError
  | Ok allBackends =>
      allUncached <-- on_tables GetUncachedBackends ;;
      hints <-- on_tables (GetSetting "global_hints") ;;
      answer_with (Render "admin_backends.html" (query r "error")
        (map (fun b => ("backend", BackendRow.ID b))
             (filter (fun b => not_bridge (BackendRow.ID b) = true) allBackends) ++
         map (fun id => ("uncached", id))
             (filter (fun id => not_bridge id = true) (match allUncached with Ok l => l | Err _ => [] end)) ++
         [("global_hints", match hints with Ok s => s | Err _ => EmptyString end)]))
  end.

Definition AdminSettingsGlobalHintsHandler (r : request) : C unit :=
  if negb (isPost r) then stop MethodNotAllowed
  else
    e <-- on_tables (SetSetting "global_hints" (trim_space (form r "global_hints"))) ;;
    match e with
    | Err _ => stop (failed "Failed+to+save+global+hints")
    | Ok _ => answer_with (succeeded "Global+instructions+saved")
    end.

(** *** Callbacks *)

Definition json_error (status : Z) (msg : string) : response :=
  Json status [("status", "error"); ("message", msg)].

Definition AdminBackendsProbeHandler (user : string) (r : request) : C unit :=
  if negb (isPost r) then stop MethodNotAllowed
  else match OnProbeBackend h with
  | None => stop (HttpError 501 "Probe not configured")
  | Some probe =>
      let backendID := form r "id" in
      if bool_decide (backendID = EmptyString) then stop (json_error 400 "Missing backend id")
      else
        b <-- on_tables (GetBackend backendID) ;;
        match b with
        | Err _ => stop (json_error 404 ("Backend not found: " +:+ backendID))
        | Ok _ =>
            match probe backendID user with
            | Err _ => stop (json_error 500 "%s")
            | Ok result => answer_with (Json 200 [("result", result)])
            end
        end
  end.

Definition AdminBackendsPreviewEnvHandler (user : string) (r : request) : C unit :=
  if negb (isPost r) then stop MethodNotAllowed
  else match OnResolveEnv h with
  | None => stop (HttpError 501 "Not configured")
  | Some resolve =>
      let envJSON := form r "env" in
      if bool_decide (envJSON = EmptyString) then stop (HttpError 400 "Missing env")
      else
        match resolve envJSON (form r "env_mappings") (form r "id") user with
        | Err _ => stop (json_error 500 "%s")
        | Ok fullEnv => answer_with (Json 200 (("status", "ok") :: map_to_list fullEnv))
        end
  end.

Definition SetBackendPrecacheError (backendID msg : string) (now : Time) :
    Backends.t KS -> res unit * Backends.t KS :=
  sql_exec (Backends.set_backends (alter (BackendRow.with_precache msg (Some now)) backendID)).

(** The number of tools is not put into the text here. *)
Definition AdminBackendsRefreshToolsHandler (user : string) (r : request) (now : Time) : C unit :=
  if negb (isPost r) then stop MethodNotAllowed
  else match OnRefreshTools h with
  | None => stop (failed "Refresh+not+configured")
  | Some refresh =>
      let backendID := form r "id" in
      if bool_decide (backendID = EmptyString) then stop (failed "Missing+backend+id")
      else
        match refresh backendID user with
        | Err _ => _ <-- on_tables (SetBackendPrecacheError backendID "%s" now) ;; stop (failed "%s")
        | Ok n => answer_with (succeeded "%d+tool%28s%29+cached+successfully")
        end
  end.

(** A handler as one request. *)
Definition visit_page (p : C unit) (c : console KS) : console KS :=
  (run p (Console (tables c) [] (changes c))).2.
End Pages.

(** ** Lemmas *)

Section PageFacts.
Context {KS : Type} `{SecretBox KS} `{CryptoPrims} `{Bcrypt} `{MuxEnv}.
Context (is_object : string -> bool) (h : callbacks).
Implicit Types (c : console KS) (d : Backends.t KS).
Import Backends.

(** *** What a page keeps of the tables *)

(** Pages are sequences of operations on the tables, so what every operation
    keeps, every page keeps. *)
Definition keeps {A} (P : Backends.t KS -> Prop) (p : M (console KS) unit A) : Prop :=
  forall c, P (tables c) -> P (tables (p c).2).

Lemma keeps_bind {A B} P (p : M (console KS) unit A) (k : A -> M (console KS) unit B) :
  keeps P p -> (forall a, keeps P (k a)) -> keeps P (bind p k).
Proof.
  intros Hp Hk c Hc. unfold bind. specialize (Hp c Hc). destruct (p c) as [[[]|a] c']; [done|].
  by apply Hk.
Qed.

Lemma keeps_on_tables {A} (P : Backends.t KS -> Prop) (f : Backends.t KS -> A * Backends.t KS) :
  (forall d, P d -> P (f d).2) -> keeps P (on_tables f).
Proof. intros Hf c Hc. unfold on_tables, state. specialize (Hf _ Hc). by destruct (f (tables c)). Qed.

Lemma keeps_answer P x : keeps P (answer_with x).
Proof. by intros c. Qed.

Lemma keeps_stop {A} P x : keeps P (stop x (A := A)).
Proof. by intros c. Qed.

Lemma keeps_notify P id user : keeps P (notifyBackendChange h id user).
Proof. intros c. unfold notifyBackendChange. by destruct (OnBackendChange h). Qed.
End PageFacts.

#[export] Hint Resolve keeps_answer keeps_stop keeps_notify : pages.

(** Goes through the branches of a page. *)
Ltac keeps_page :=
  repeat first
    [ progress (eauto with pages)
    | apply keeps_bind; [|intros ?]
    | apply keeps_on_tables; intros ? ?
    | case_match ].

Section Integrity.
Context {KS : Type} `{SecretBox KS} `{CryptoPrims} `{Bcrypt} `{MuxEnv}.
Context (is_object : string -> bool) (h : callbacks).
Implicit Types (c : console KS) (d : Backends.t KS).
Import Backends.

(** The integrity of the tables: rows are under their ids, which have the form
    the pages ask for, and cached tools and service tokens belong to a backend. *)
Record integrity d : Prop := {
  keyed : rows_keyed d;
  valid id : id ∈ dom (backends d) -> isValidBackendID id = true;
  enforced : foreign_keys d = true;
  known : Accounts.backend_ids (accounts d) = dom (backends d);
  cached : dom (capabilities d) ⊆ dom (backends d);
  owned key : is_Some (Accounts.user_tokens (accounts d) !! key) -> key.1.2 ∈ dom (backends d)
}.

(** The integrity does not depend on faults and keys. *)
Definition same_backends d d' : Prop :=
  backends d' = backends d /\ capabilities d' = capabilities d /\ foreign_keys d' = foreign_keys d /\
  Accounts.backend_ids (accounts d') = Accounts.backend_ids (accounts d) /\
  Accounts.user_tokens (accounts d') = Accounts.user_tokens (accounts d).

Lemma integrity_same d d' : same_backends d d' -> integrity d -> integrity d'.
Proof.
  intros (Hb & Hc & Hf & Hi & Ht) [? ? ? ? ? ?].
  constructor; unfold rows_keyed; rewrite ?Hb, ?Hc, ?Hf, ?Hi, ?Ht; done.
Qed.

Lemma same_faults fs d : same_backends d (set_faults fs d).
Proof. by split_and!. Qed.

Lemma box_same d (a : Accounts.t KS) ks n :
  a = Accounts.set_box ks n (accounts d) -> same_backends d (set_accounts (fun _ => a) d).
Proof. intros ->. by split_and!. Qed.

Lemma encryptBackendEnv_same b d : same_backends d (encryptBackendEnv b d).2.
Proof.
  unfold encryptBackendEnv, on_accounts, box_encrypt. case_match; [by split_and!|].
  destruct (Accounts.keyStore _) as [ks|]; [|by split_and!].
  destruct (EncryptSecret _ ks _) as [[[x|e] ks'] n]; by eapply box_same.
Qed.

Lemma decryptBackendEnv_same b d : same_backends d (decryptBackendEnv b d).2.
Proof.
  unfold decryptBackendEnv, on_accounts, box_decrypt. case_match; [by split_and!|].
  destruct (Accounts.keyStore _) as [ks|]; [|by split_and!].
  destruct (DecryptSecret _ ks) as [[[x|e]|] ks']; by eapply box_same.
Qed.
#[local] Instance same_preorder : PreOrder same_backends.
Proof.
  split; [by intros d; split_and!|]. intros d1 d2 d3 (?&?&?&?&?) (?&?&?&?&?). split_and!; congruence.
Qed.

(** Statements, whatever the schedule of faults. *)
Lemma sql_query_keeps {A} (f : Backends.t KS -> res A) d : same_backends d (sql_query f d).2.
Proof. unfold sql_query, sql_stmt. destruct (db_faults d) as [|[] fs]; try apply same_faults. by split_and!. Qed.

Lemma sql_exec_keeps f d :
  integrity d -> (forall d, integrity d -> integrity (f d)) -> integrity (sql_exec f d).2.
Proof.
  intros Hd Hf. unfold sql_exec, sql_stmt. destruct (db_faults d) as [|[] fs]; cbn; [by apply Hf| |].
  - by eapply integrity_same, Hd.
  - apply Hf. by eapply integrity_same, Hd.
Qed.

Lemma sql_checked_keeps ok f d :
  integrity d -> (forall d, ok d = true -> integrity d -> integrity (f d)) -> integrity (sql_checked ok f d).2.
Proof.
  intros Hd Hf. unfold sql_checked, sql_stmt.
  destruct (db_faults d) as [|[] fs]; cbn.
  - destruct (ok d) eqn:Hok; [by apply Hf|done].
  - by eapply integrity_same, Hd.
  - destruct (ok (set_faults fs d)) eqn:Hok; cbn; [apply Hf; [done|]|]; by eapply integrity_same, Hd.
Qed.

(** *** The operations *)

Lemma GetBackend_keeps id d : integrity d -> integrity (GetBackend id d).2.
Proof.
  intros Hd. apply (integrity_same d); [|done]. unfold GetBackend, sql_row.
  pose proof (sql_query_keeps (fun d => match backends d !! id with Some a => Ok a | None => Err ErrNoRows end) d) as Hq.
  destruct (sql_query _ d) as [[b|e] d1]; [|done]. cbn in Hq.
  pose proof (decryptBackendEnv_same b d1) as Hs. destruct (decryptBackendEnv b d1). by transitivity d1.
Qed.

Lemma decrypt_rows_same l d : same_backends d (decrypt_rows l d).2.
Proof.
  revert d. induction l as [|b l IH]; intros d; [reflexivity|]. cbn [decrypt_rows].
  pose proof (decryptBackendEnv_same (if BackendRow.MinPoolSize b =? 0
    then BackendRow.with_defaults (BackendRow.EnvMappings b) 1 (BackendRow.StdioFraming b) b else b) d) as Hs.
  destruct (decryptBackendEnv _ d) as [b' d1]. specialize (IH d1).
  destruct (decrypt_rows l d1) as [l' d2]. by transitivity d1.
Qed.

Lemma ListBackends_keeps d : integrity d -> integrity (ListBackends d).2.
Proof.
  intros Hd. apply (integrity_same d); [|done]. unfold ListBackends.
  pose proof (sql_query_keeps (fun d => Ok (rows_by_id d)) d) as Hq.
  destruct (sql_query _ d) as [[l|e] d1]; [|done]. cbn in Hq.
  pose proof (decrypt_rows_same l d1) as Hs. destruct (decrypt_rows l d1). by transitivity d1.
Qed.

Lemma GetSetting_keeps key d : integrity d -> integrity (GetSetting key d).2.
Proof.
  intros Hd. apply (integrity_same d); [|done]. unfold GetSetting, sql_row.
  pose proof (sql_query_keeps (fun d => match settings d !! key with Some a => Ok a | None => Err ErrNoRows end) d) as Hq.
  destruct (sql_query _ d) as [[v|[]] d1]; exact Hq.
Qed.

Lemma GetUncachedBackends_keeps d : integrity d -> integrity (GetUncachedBackends d).2.
Proof. intros Hd. eapply integrity_same; [apply sql_query_keeps|done]. Qed.

Lemma SetSetting_keeps key v d : integrity d -> integrity (SetSetting key v d).2.
Proof. intros Hd. by apply sql_exec_keeps; [|intros d0 []; constructor]. Qed.

(** A row changed in place. *)
Lemma alter_keeps f id d :
  (forall b, BackendRow.ID b = id -> BackendRow.ID (f b) = id) -> integrity d ->
  integrity (set_backends (alter f id) d).
Proof.
  intros Hf [Hk Hv He Hn Hc Ho].
  constructor; cbn; rewrite ?dom_alter_L; try done. intros id' b. cbn.
  destruct (decide (id' = id)) as [->|Hne]; [|rewrite lookup_alter_ne by done; apply Hk].
  rewrite lookup_alter_eq, fmap_Some. intros (b0 & Hb0 & ->). apply Hf. by apply Hk.
Qed.

Lemma SetBackendPrecacheError_keeps id msg now d :
  integrity d -> integrity (SetBackendPrecacheError id msg now d).2.
Proof. intros Hd. apply sql_exec_keeps; [done|]. intros d0. by apply alter_keeps. Qed.

Lemma encrypt_ID b d b' d' :
  encryptBackendEnv b d = (Ok b', d') -> BackendRow.ID b' = BackendRow.ID b /\ same_backends d d'.
Proof.
  intros Hb. pose proof (encryptBackendEnv_same b d) as Hs. rewrite Hb in Hs. split; [|done].
  revert Hb. unfold encryptBackendEnv. case_match; [by intros [= <- _]|].
  destruct (Accounts.keyStore _); [|done]. destruct (on_accounts _ d) as [[enc|e] d1]; [|done].
  by intros [= <- _].
Qed.

Lemma UpdateBackend_keeps b d : integrity d -> integrity (UpdateBackend b d).2.
Proof.
  intros Hd. unfold UpdateBackend. set (b1 := with_row_defaults _ b).
  destruct (encryptBackendEnv b1 d) as [[b2|e] d1] eqn:He.
  - apply encrypt_ID in He as [Hid Hs]. apply sql_exec_keeps; [by eapply integrity_same|].
    intros d0. apply alter_keeps. done.
  - pose proof (encryptBackendEnv_same b1 d) as Hs. rewrite He in Hs. by eapply integrity_same.
Qed.

Lemma CreateBackend_keeps b d :
  isValidBackendID (BackendRow.ID b) = true -> integrity d -> integrity (CreateBackend b d).2.
Proof.
  intros Hval Hd. unfold CreateBackend. set (b1 := with_row_defaults _ b).
  destruct (encryptBackendEnv b1 d) as [[b2|e] d1] eqn:He.
  2:{ pose proof (encryptBackendEnv_same b1 d) as Hs. rewrite He in Hs. by eapply integrity_same. }
  apply encrypt_ID in He as [Hid Hs]. apply sql_checked_keeps; [by eapply integrity_same|].
  intros d0 Hfree [Hk Hv Hen Hn Hc Ho]. apply bool_decide_eq_true_1 in Hfree.
  constructor; cbn; rewrite ?dom_insert_L; try done.
  - intros id b3. cbn. rewrite lookup_insert_Some. intros [[<- <-]|[_ Hl]]; [done|by apply Hk].
  - intros id. rewrite elem_of_union, elem_of_singleton. intros [->|Hin]; [by rewrite Hid|by apply Hv].
  - set_solver.
  - intros key Hkey. apply elem_of_union_r. by apply Ho.
Qed.

Lemma DeleteBackend_keeps id d : integrity d -> integrity (DeleteBackend id d).2.
Proof.
  intros Hd. apply sql_exec_keeps; [done|]. clear Hd d. intros d [Hk Hv He Hn Hc Ho].
  unfold cascade_backend. cbn [foreign_keys set_backends]. rewrite He.
  constructor; cbn; rewrite ?dom_delete_L; try done.
  - intros id' b. cbn. rewrite lookup_delete_Some. intros [_ Hl]. by apply Hk.
  - set_solver.
  - set_solver.
  - intros key [tok Hl]. apply map_lookup_filter_Some in Hl as [Hl Hne]. cbn in Hne.
    apply elem_of_difference. split; [|set_solver]. by apply Ho.
Qed.
End Integrity.

#[export] Hint Resolve GetBackend_keeps ListBackends_keeps GetSetting_keeps GetUncachedBackends_keeps
  SetSetting_keeps SetBackendPrecacheError_keeps UpdateBackend_keeps DeleteBackend_keeps : pages.

(** * Properties *)

Section PageTheorems.
Context {KS : Type} `{CryptoLaws} `{!SecretBox KS} `{!SecretBoxLaws KS} `{Bcrypt} `{MuxEnv}.
Context (random : forall i n, is_Some (entropy i n)).
Context (is_object : string -> bool) (h : callbacks).
Implicit Types (c : console KS) (d : Backends.t KS).
Import Backends.

(** A request for one of the pages. *)
Inductive page :=
| ToList | ToCreate | ToEdit | ToDelete | ToSetHints | ToProbe | ToPreview | ToRefresh (now : Time).

Definition handler_of (p : page) (user : string) (r : request) : M (console KS) unit unit :=
  match p with
  | ToList => AdminBackendsHandler r
  | ToCreate => AdminBackendsCreateHandler h user r
  | ToEdit => AdminBackendsEditHandler is_object h user r
  | ToDelete => AdminBackendsDeleteHandler h user r
  | ToSetHints => AdminSettingsGlobalHintsHandler r
  | ToProbe => AdminBackendsProbeHandler h user r
  | ToPreview => AdminBackendsPreviewEnvHandler h user r
  | ToRefresh now => AdminBackendsRefreshToolsHandler h user r now
  end.

Definition visit_pages : list (page * string * request) -> console KS -> console KS :=
  fun l c => foldl (fun c x => visit_page (handler_of x.1.1 x.1.2 x.2) c) c l.

Lemma keeps_visit P p c : keeps P p -> P (tables c) -> P (tables (visit_page p c)).
Proof.
  intros Hp Hc. unfold visit_page, run. specialize (Hp (Console (tables c) [] (changes c)) Hc).
  by destruct (p _) as [[]].
Qed.

Lemma create_page_keeps user (r : request) :
  keeps integrity (AdminBackendsCreateHandler h user r : M (console KS) unit unit).
Proof.
  unfold AdminBackendsCreateHandler. case_match; [eauto with pages|]. case_match; [eauto with pages|].
  destruct (isValidBackendID _) eqn:Hv; cbn [negb]; [|eauto with pages].
  apply keeps_bind; [|intros ?; keeps_page]. apply keeps_on_tables. intros d. by apply CreateBackend_keeps.
Qed.

(** C38: the tables keep their integrity.  Whatever requests administrators send in
    whatever order, and whatever statements fail, rows stay under their ids, the
    ids have the form the pages ask for, and cached tools and service tokens
    belong to a backend that exists. *)
Theorem pages_keep_integrity l c : integrity (tables c) -> integrity (tables (visit_pages l c)).
Proof.
  revert c. induction l as [|[[p user] r] l IH]; intros c Hc; [done|]. apply IH. clear IH.
  apply keeps_visit; [|done]. destruct p; cbn [handler_of fst snd].
  2: apply create_page_keeps.
  all: unfold AdminBackendsHandler, AdminBackendsEditHandler, AdminBackendsDeleteHandler,
    AdminSettingsGlobalHintsHandler, AdminBackendsProbeHandler, AdminBackendsPreviewEnvHandler,
    AdminBackendsRefreshToolsHandler; keeps_page.
Qed.

Lemma visit_delete user (r : request) c rb d1 :
  meth r = "POST" -> GetBackend (form r "id") (tables c) = (rb, d1) ->
  visit_page (AdminBackendsDeleteHandler h user r) c =
    if match rb with Ok b => BackendRow.IsSystem b | Err _ => false end then Console d1 [failed "Cannot+delete+system+backend"] (changes c)
    else match DeleteBackend (form r "id") d1 with
    | (Err _, d2) => Console d2 [failed "Failed+to+delete+backend"] (changes c)
    | (Ok _, d2) => Console d2 [succeeded "Backend+deleted"]
                      (changes c ++ (if OnBackendChange h then [(form r "id", user)] else []))
    end.
Proof.
  intros Hm Hg. unfold visit_page, run, AdminBackendsDeleteHandler, isPost. rewrite Hm.
  rewrite (bool_decide_eq_true_2 ("POST" = "POST")) by done. cbn [negb].
  unfold bind at 1, on_tables at 1, state. cbn [tables]. rewrite Hg. cbn [responses changes].
  destruct (match rb with Ok b => _ | Err _ => _ end); [done|]. unfold bind at 1, on_tables, state. cbn [tables].
  destruct (DeleteBackend _ d1) as [[[]|e] d2]; [|done].
  unfold bind, notifyBackendChange, answer_with, modify. cbn. destruct (OnBackendChange h); cbn; [done|].
  by rewrite app_nil_r.
Qed.

(** Deleting a backend takes its tokens and tools with it, and nothing else.
    When the statements succeed, a system backend is refused and every table stays;
    any other backend goes with its cached tools and the tokens of all users for
    it, the rest stays, and the change is announced once. *)
Theorem delete_exact ks user (r : request) c b :
  ready ks (tables c) -> foreign_keys (tables c) = true -> OnBackendChange h = true -> meth r = "POST" ->
  backends (tables c) !! form r "id" = Some b ->
  let c' := visit_page (AdminBackendsDeleteHandler h user r) c in
  if BackendRow.IsSystem b
  then tables c' = tables c /\ changes c' = changes c /\ responses c' = [failed "Cannot+delete+system+backend"]
  else
    responses c' = [succeeded "Backend+deleted"] /\ changes c' = changes c ++ [(form r "id", user)] /\
    (forall id, backends (tables c') !! id = if decide (id = form r "id") then None else backends (tables c) !! id) /\
    (forall id, capabilities (tables c') !! id =
       if decide (id = form r "id") then None else capabilities (tables c) !! id) /\
    (forall key, Accounts.user_tokens (accounts (tables c')) !! key =
       if decide (key.1.2 = form r "id") then None else Accounts.user_tokens (accounts (tables c)) !! key) /\
    Accounts.users (accounts (tables c')) = Accounts.users (accounts (tables c)).
Proof.
  intros Hr Hfk Hcb Hm Hb. set (id := form r "id") in *. pose proof (GetBackend_row ks id b _ Hr Hb) as Hg.
  rewrite (decryptBackendEnv_stable ks b (tables c) (tables c)) in Hg by done. cbn [fst snd] in Hg.
  set (b' := (decryptBackendEnv b (tables c)).1) in Hg.
  assert (Hs : BackendRow.IsSystem b' = BackendRow.IsSystem b).
  { unfold b', decryptBackendEnv. case_if; [done|]. destruct (Accounts.keyStore _); [|done].
    by destruct (on_accounts _ _) as [[]]. }
  rewrite (visit_delete user r c (Ok b') (tables c) Hm Hg), Hs. destruct (BackendRow.IsSystem b); [done|].
  unfold DeleteBackend. rewrite sql_exec_ok by apply Hr. rewrite Hcb. unfold cascade_backend.
  cbn [foreign_keys set_backends]. rewrite Hfk. cbn. split_and!; try done.
  - intros id'. case_decide as Hi; [subst; apply lookup_delete_eq|by apply lookup_delete_ne].
  - intros id'. case_decide as Hi; [subst; apply lookup_delete_eq|by apply lookup_delete_ne].
  - intros key. rewrite map_lookup_filter. cbn. fold id.
    destruct (Accounts.user_tokens _ !! key) as [tok|]; cbn; [|by case_decide].
    by repeat case_decide.
Qed.

(** The protection of system backends asks a statement that can fail: then the
    backend is deleted. *)
Theorem failed_lookup_deletes_system_backend user (r : request) c b :
  Accounts.faults (accounts (tables c)) = [true] -> meth r = "POST" ->
  backends (tables c) !! form r "id" = Some b -> BackendRow.IsSystem b = true ->
  let c' := visit_page (AdminBackendsDeleteHandler h user r) c in
  responses c' = [succeeded "Backend+deleted"] /\ backends (tables c') !! form r "id" = None.
Proof.
  intros Hf Hm Hb Hs. cbv zeta.
  assert (Hg : GetBackend (form r "id") (tables c) = (Err ErrSql, set_faults [] (tables c))).
  { unfold GetBackend, sql_row, sql_query, sql_stmt. cbn [db_faults backends_database]. by rewrite Hf. }
  rewrite (visit_delete user r c _ _ Hm Hg). unfold DeleteBackend. rewrite sql_exec_ok by done.
  split; [done|]. cbn. unfold cascade_backend. case_match; apply lookup_delete_eq.
Qed.

(** An edit writes what the form says, and forgets the framing.  When the
    statements succeed, the backend has the values of the form, is a system backend
    if and only if it was one, and keeps its last error; but its framing becomes
    empty, whatever it was, because the form has no field for it: a backend that
    speaks with length headers is spoken to in lines from then on. *)
Theorem edit_forgets_framing ks user (r : request) c old :
  ready ks (tables c) -> meth r = "POST" -> trim_space (form r "command") <> EmptyString ->
  form r "id" <> EmptyString -> isValidBackendID (form r "id") = true ->
  json_fault is_object (form_object r "env") "Env" "Env" = None ->
  json_fault is_object (form_object r "env_mappings") "Env+mappings" "EnvMappings" = None ->
  backends (tables c) !! form r "id" = Some old ->
  let c' := visit_page (AdminBackendsEditHandler is_object h user r) c in
  let f := form_backend r (form r "id") (BackendRow.IsSystem old) in
  responses c' = [succeeded "Backend+updated"] /\
  exists b, GetBackend (form r "id") (tables c') = (Ok b, tables c') /\
    BackendRow.StdioFraming b = EmptyString /\ BackendRow.Env b = BackendRow.Env f /\
    BackendRow.IsSystem b = BackendRow.IsSystem old /\ BackendRow.PrecacheError b = BackendRow.PrecacheError old /\
    b = BackendRow.with_precache (BackendRow.PrecacheError old) (BackendRow.PrecacheErrorAt old)
          (BackendRow.with_Env (BackendRow.Env f) (BackendRow.EncryptedEnv b) (with_row_defaults EmptyString f)).
Proof.
  intros Hr Hm Hcmd Hid Hv Hj1 Hj2 Hold. cbv zeta. set (id := form r "id") in *.
  pose proof (GetBackend_row ks id old _ Hr Hold) as Hg.
  rewrite (decryptBackendEnv_stable ks old (tables c) (tables c)) in Hg by done. cbn [fst snd] in Hg.
  assert (Hs : BackendRow.IsSystem (decryptBackendEnv old (tables c)).1 = BackendRow.IsSystem old).
  { unfold decryptBackendEnv. case_if; [done|]. destruct (Accounts.keyStore _); [|done].
    by destruct (on_accounts _ _) as [[]]. }
  set (f := form_backend r id (BackendRow.IsSystem old)).
  destruct (UpdateBackend_ok random ks f old (tables c) Hr eq_refl Hold) as (d' & enc & Hup & Hr' & _ & Hget).
  assert (Hpage : visit_page (AdminBackendsEditHandler is_object h user r) c =
    Console d' [succeeded "Backend+updated"] (changes c ++ (if OnBackendChange h then [(id, user)] else []))).
  { unfold visit_page, run, AdminBackendsEditHandler, isPost. rewrite Hm.
    rewrite (bool_decide_eq_true_2 ("POST" = "POST")) by done. cbn [negb]. fold id.
    rewrite (bool_decide_eq_false_2 (id = EmptyString)), (bool_decide_eq_false_2 (_ = EmptyString)) by done.
    cbn [orb]. rewrite Hv, Hj1, Hj2. cbn [negb].
    unfold bind at 1, on_tables at 1, state. cbn [tables]. rewrite Hg. cbn [responses changes].
    unfold bind at 1, on_tables, state. cbn [tables]. rewrite Hs. fold f. rewrite Hup.
    unfold bind, notifyBackendChange, answer_with, modify. cbn. destruct (OnBackendChange h); cbn; [done|].
    by rewrite app_nil_r. }
  rewrite Hpage. cbn [responses tables]. split; [done|]. eexists. split; [exact Hget|]. done.
Qed.
End PageTheorems.

(** ** A concrete console *)

#[local] Existing Instances Toy.prims Toy.laws DemoAccounts.bcrypt DemoAccounts.provider DemoBackends.mux_env.

Module DemoPages.
Definition callbacks : callbacks := Callbacks true None None None.

(** A backend that speaks with length headers. *)
Definition lsp : BackendRow.t :=
  BackendRow.with_defaults "{}" 1 "content_length" (DemoBackends.backend "lsp" "{}").

Definition console : console DemoAccounts.key_store :=
  Console (Backends.set_backends <["lsp" := lsp]> DemoBackends.tables) [] [].

Definition req (form : list (string * string)) : request :=
  Request "POST" (fun k => default EmptyString (snd <$> (snd <$> list_find (fun kv => kv.1 = k) form)))
    (fun _ => EmptyString) (fun _ => None) (fun _ => EmptyString) true.
End DemoPages.

Lemma demo_integrity : integrity (tables DemoPages.console).
Proof.
  constructor.
  - intros id b. cbn. rewrite lookup_insert_Some, lookup_singleton_Some. by intros [[<- <-]|[_ [<- <-]]].
  - intros id. cbn. rewrite dom_insert_L, dom_singleton_L. intros Hid.
    assert (id = "lsp" \/ id = "github") as [->| ->] by set_solver; by vm_compute.
  - done.
  - done.
  - cbn. set_solver.
  - intros key. cbn. rewrite lookup_empty. by intros [].
Qed.

Lemma pages_keep_integrity_witness :
  integrity (tables (visit_pages (fun _ => true) DemoPages.callbacks
    [(ToCreate, "root", DemoPages.req [("id", "jira"); ("command", "npx jira")]);
     (ToDelete, "root", DemoPages.req [("id", "lsp")])] DemoPages.console)).
Proof. apply (pages_keep_integrity (fun _ => true) DemoPages.callbacks), demo_integrity. Defined.

Lemma delete_exact_witness :
  let c' := visit_page (AdminBackendsDeleteHandler DemoPages.callbacks "root" (DemoPages.req [("id", "lsp")]))
              DemoPages.console in
  changes c' = [("lsp", "root")].
Proof.
  intros c'. destruct (delete_exact DemoPages.callbacks DemoAccounts.box "root" (DemoPages.req [("id", "lsp")])
    DemoPages.console DemoPages.lsp) as (_ & Hc & _); [exact demo_ready|done|done|done|by vm_compute|exact Hc].
Defined.

Lemma edit_forgets_framing_witness :
  let c' := visit_page (AdminBackendsEditHandler (fun _ => true) DemoPages.callbacks "root"
              (DemoPages.req [("id", "lsp"); ("command", "lsp --stdio")])) DemoPages.console in
  exists b, (GetBackend "lsp" (tables c')).1 = Ok b /\ BackendRow.StdioFraming b = EmptyString.
Proof.
  intros c'. destruct (edit_forgets_framing demo_random (fun _ => true) DemoPages.callbacks DemoAccounts.box "root"
    (DemoPages.req [("id", "lsp"); ("command", "lsp --stdio")]) DemoPages.console DemoPages.lsp)
    as (_ & b & Hg & Hfr & _); [exact demo_ready|by vm_compute..|].
  exists b. split; [exact (f_equal fst Hg)|exact Hfr].
Defined.

Lemma failed_lookup_deletes_system_backend_witness :
  let c := Console (Backends.set_faults [true] (Backends.set_backends
             <["mcpbridge" := BackendRow.as_system "mcpbridge" DemoPages.lsp]> DemoBackends.tables)) [] [] in
  responses (visit_page (AdminBackendsDeleteHandler DemoPages.callbacks "root"
    (DemoPages.req [("id", "mcpbridge")])) c) = [succeeded "Backend+deleted"].
Proof.
  intros c. apply (failed_lookup_deletes_system_backend DemoPages.callbacks "root"
    (DemoPages.req [("id", "mcpbridge")]) c (BackendRow.as_system "mcpbridge" DemoPages.lsp)); by vm_compute.
Defined.
