(* ===== verification/EnforcerWeb.v ===== *)
(** * The pages of the enforcer: [src/web/enforcer_handlers.go]

    The queues of approvals, policies, kill switches, tool profiles and
    overrides, for administrators and for users, and the routes of
    [src/web/web.go] that lead to them.  A handler is a function of the
    enforcer's state in the monad of handlers; what it answers is a [page].

    The enforcer of the console may be nil; the pages then work on the database
    alone, and those that do not test for it panic ([Panic]: the connection is
    aborted). *)
From S2P Require Import Prelude GoStrings Sql Http EnforcerTypes Resolver CelEngine EnforcerStore Enforcer EnforcerCalls.
From S2P Require Accounts Backends.
Open Scope Z_scope.
Open Scope handler_scope.

(** ** What a page shows *)

(** A value of a [map[string]interface{}] handed to a template. *)
Inductive cell := Text (s : string) | Num (n : Z) | At (t : Time).
Abbreviation view := (list (string * cell)).

#[export] Instance cell_eq_dec : EqDecision cell.
Proof. solve_decision. Defined.

(** A row of the page of tool profiles of a backend, with the override. *)
Record profile_view := ProfileView {
  profile : ToolProfileRow.t;
  EffectiveRisk : string;
  Override : option EnforcerOverrideRow.t
}.

Module BackendProfileSummary.
Record t := mk {
  BackendID : string;
  ToolCount : Z;
  HighRiskCount : Z;
  MediumRiskCount : Z;
  LowRiskCount : Z
}.
Definition zero : t := mk EmptyString 0 0 0 0.
End BackendProfileSummary.

(** A row of the page of backends: the summary, whether the backend has
    profiles, and its number of overrides. *)
Record backend_view := BackendView {
  backend : string;
  HasProfiles : bool;
  summary : BackendProfileSummary.t;
  OverrideCount : Z
}.

(** The group of a user on the page of user queues. *)
Record user_group := UserGroup { group_user : string; group_email : string; items : list view }.

Record counts := Counts { PendingCount : Z; CompletedCount : Z; DeniedCount : Z }.

Inductive page :=
| Plain (r : response)
| ApprovalJson (a : ApprovalRequestRow.t)
| ApprovalsJson (views : list view)
| PoliciesJson (ps : list PolicyRow.t)
| ExecutedJson (a : ApprovalRequestRow.t)
| QueuePage (approvals : list view) (c : counts)
| UserQueuePage (pending all : list view) (c : counts)
| PoliciesPage (template : string) (ps : list PolicyRow.t)
| PolicyEditPage (p : PolicyRow.t)
| ProfilesPage (backends : list backend_view)
| BackendProfilesPage (backend : string) (profiles : list profile_view)
| OverridesPage (template : string) (os : list EnforcerOverrideRow.t) (tool_name backend_id : string)
| UserQueuesPage (byUser : list user_group) (total : Z)
| EventStream.     (* the first event is [Connected], the others are ticks *)

(** ** Store operations of these pages *)

Definition count_where (P : ToolProfileRow.t -> bool) (l : list ToolProfileRow.t) : Z :=
  Z.of_nat (length (List.filter P l)).

(** SELECT ... FROM enforcer_tool_profiles GROUP BY backend_id ORDER BY
    backend_id *)
Definition summarize (d : db) (backendID : string) : BackendProfileSummary.t :=
  let l := filter (fun p => ToolProfileRow.BackendID p = backendID) (rows (tool_profiles d)) in
  let risk (s : string) (p : ToolProfileRow.t) := bool_decide (ToolProfileRow.RiskLevel p = s) in
  BackendProfileSummary.mk backendID (Z.of_nat (length l))
    (count_where (fun p => risk "high" p || risk "critical" p) l)
    (count_where (risk "medium") l) (count_where (risk "low") l).

Definition profiled_backends (d : db) : list string :=
  sort_by String.leb (remove_dups (ToolProfileRow.BackendID <$> rows (tool_profiles d))).

Definition ListBackendProfileSummaries : db -> res (list BackendProfileSummary.t) * db :=
  EnforcerStore.query (fun d => Ok (summarize d <$> profiled_backends d)).

Definition GetToolProfilesByBackend (backendID : string) :
    db -> res (list ToolProfileRow.t) * db :=
  EnforcerStore.query (fun d => Ok (sort_by (by_text ToolProfileRow.ToolName (fun _ => EmptyString))
    (filter (fun p => ToolProfileRow.BackendID p = backendID) (rows (tool_profiles d))))).

(** DELETE FROM enforcer_overrides WHERE tool_name = ? AND backend_id = ? AND
    user_id = ?; a row without a user has NULL, which equals nothing. *)
Definition owned_override (toolName backendID userID : string) (o : EnforcerOverrideRow.t) : Prop :=
  EnforcerOverrideRow.ToolName o = toolName /\ EnforcerOverrideRow.BackendID o = backendID /\
  EnforcerOverrideRow.UserID o = userID /\ userID <> EmptyString.

#[export] Instance owned_override_dec tool b u o : Decision (owned_override tool b u o).
Proof. unfold owned_override. apply _. Defined.

Definition delete_user_override (toolName backendID userID : string) : db -> res unit * db :=
  exec (set_overrides (filter (fun kr => ~ owned_override toolName backendID userID kr.2))).

(** ** The console *)

Module EnforcerHandler.
Section EnforcerHandler.
Context `{CelLib} `{EnforcerEnv}.
(** [json.MarshalIndent] of a raw message; [None]: it is not JSON. *)
Context (indent : string -> option string).

Inductive t :=
| Enabled (e : Enforcer.t)
| Disabled (d : db).

Definition database (s : t) : db :=
  match s with Enabled e => Enforcer.store e | Disabled d => d end.

Local Abbreviation Handler := (M t page).

(** A call of the enforcer; the methods of a nil enforcer panic. *)
Definition call {A} (f : Enforcer.t -> A * Enforcer.t) : Handler A := fun s =>
  match s with
  | Enabled e => let '(a, e') := f e in (inr a, Enabled e')
  | Disabled _ => (inl (Plain Panic), s)
  end.

(** A statement on the database of the console, which is the enforcer's. *)
Definition on_db {A} (f : db -> A * db) : Handler A := fun s =>
  match s with
  | Enabled e => let '(a, e') := Enforcer.on_store f e in (inr a, Enabled e')
  | Disabled d => let '(a, d') := f d in (inr a, Disabled d')
  end.

Definition has_enforcer : Handler bool := gets (fun s => match s with Enabled _ => true | _ => false end).

Definition stop {A} (r : response) : Handler A := early (Plain r).
Definition error_page {A} (status : Z) (msg : string) : Handler A := stop (HttpError status msg).
Definition server_error {A} : Handler A := error_page 500 "%s".

Definition allow (method : string) (r : request) : Handler unit :=
  if bool_decide (meth r = method) then ret tt else stop MethodNotAllowed.

Definition requireEnforcer : Handler unit :=
  b <-- has_enforcer ;; if b then ret tt else error_page 503 "Enforcer is not enabled".

Definition signed_in (user : option Accounts.UserRow.t) : Handler Accounts.UserRow.t :=
  match user with Some u => ret u | None => error_page 401 "Unauthorized" end.

(** What [json.Decode] makes of the body, a string for each field (empty when
    it is absent); [None]: an error. *)
Abbreviation json_body := (option (string -> string)).

Definition decode (body : json_body) : Handler (string -> string) :=
  match body with Some f => ret f | None => error_page 400 "Invalid JSON" end.

Definition parse_form (r : request) : Handler unit :=
  if form_ok r then ret tt else error_page 400 "%s".

(** The value of a call that can fail. *)
Definition or_fail {A} (m : Handler (res A)) (status : Z) (msg : string) : Handler A :=
  x <-- m ;; match x with Ok a => ret a | Err _ => error_page status msg end.

(** The list a failed query leaves. *)
Definition shown {A} (x : res (list A)) : list A := match x with Ok l => l | Err _ => [] end.

(** *** Views *)

Definition getStatusClass (status : string) : string :=
  match status with
  | "PENDING" => "pending"
  | "EXECUTING" => "executing"
  | "COMPLETED" => "completed"
  | "FAILED" => "failed"
  | "DENIED" => "denied"
  | "EXPIRED" => "expired"
  | _ => "pending"
  end.

Definition pretty_args (a : ApprovalRequestRow.t) : string :=
  default (ApprovalRequestRow.ToolArgs a) (indent (ApprovalRequestRow.ToolArgs a)).

Definition common_view (a : ApprovalRequestRow.t) : view :=
  [("ID", Text (ApprovalRequestRow.ID a));
   ("Status", Text (ApprovalRequestRow.Status a));
   ("StatusClass", Text (getStatusClass (ApprovalRequestRow.Status a)));
   ("ToolName", Text (ApprovalRequestRow.ToolName a));
   ("UserID", Text (ApprovalRequestRow.UserID a));
   ("UserEmail", Text (ApprovalRequestRow.UserEmail a));
   ("ToolArgs", Text (pretty_args a));
   ("PolicyID", Text (ApprovalRequestRow.PolicyID a));
   ("Message", Text (ApprovalRequestRow.ViolationMsg a));
   ("RequestedAt", At (ApprovalRequestRow.RequestedAt a));
   ("ExpiresAt", At (ApprovalRequestRow.ExpiresAt a));
   ("Justification", Text (ApprovalRequestRow.Justification a))].

Definition approver_view (a : ApprovalRequestRow.t) : view :=
  match ApprovalRequestRow.ApprovedBy a with Some who => [("ApprovedBy", Text who)] | None => [] end.

Definition text_view (key s : string) : view :=
  if bool_decide (s = EmptyString) then [] else [(key, Text s)].

Definition outcome_view (a : ApprovalRequestRow.t) : view :=
  match ApprovalRequestRow.ApprovedAt a with Some at_ => [("ApprovedAt", At at_)] | None => [] end ++
  (if 0 <? ApprovalRequestRow.ResponseStatus a
   then [("ResponseStatus", Num (ApprovalRequestRow.ResponseStatus a))] else []) ++
  text_view "ResponseBody" (ApprovalRequestRow.ResponseBody a) ++
  text_view "ErrorMsg" (ApprovalRequestRow.ErrorMsg a) ++
  text_view "DenialReason" (ApprovalRequestRow.DenialReason a) ++
  text_view "Comments" (ApprovalRequestRow.Comments a).

Definition full_view (a : ApprovalRequestRow.t) : view :=
  common_view a ++ approver_view a ++ outcome_view a.
Definition admin_view (a : ApprovalRequestRow.t) : view :=
  common_view a ++ [("QueueType", Text (ApprovalRequestRow.QueueType a))] ++
  approver_view a ++ outcome_view a.
Definition pending_view (a : ApprovalRequestRow.t) : view := common_view a ++ approver_view a.

(** The counters of the pages: the [switch] on the status. *)
Definition count_status (c : counts) (a : ApprovalRequestRow.t) : counts :=
  let st := ApprovalRequestRow.Status a in
  if bool_decide (st = "PENDING")
  then Counts (PendingCount c + 1) (CompletedCount c) (DeniedCount c)
  else if bool_decide (st ∈ ["COMPLETED"; "EXECUTING"])
  then Counts (PendingCount c) (CompletedCount c + 1) (DeniedCount c)
  else if bool_decide (st ∈ ["DENIED"; "EXPIRED"; "FAILED"])
  then Counts (PendingCount c) (CompletedCount c) (DeniedCount c + 1)
  else c.
Definition count_all : list ApprovalRequestRow.t -> counts := foldl count_status (Counts 0 0 0).

(** *** Approvals, for administrators *)

Definition GetApprovalStatus (r : request) : Handler page :=
  allow "GET" r ;;; requireEnforcer ;;;
  let approvalID := Http.query r "id" in
  if bool_decide (approvalID = EmptyString) then error_page 400 "approval_id is required"
  else
    approval <-- or_fail (call (Enforcer.on_store (GetApprovalRequest approvalID)))
      404 "Approval not found" ;;
    ret (ApprovalJson approval).

Definition api_view (a : ApprovalRequestRow.t) : view :=
  [("id", Text (ApprovalRequestRow.ID a));
   ("tool_name", Text (ApprovalRequestRow.ToolName a));
   ("user_id", Text (ApprovalRequestRow.UserID a));
   ("user_email", Text (ApprovalRequestRow.UserEmail a));
   ("tool_args", Text (ApprovalRequestRow.ToolArgs a));
   ("policy_id", Text (ApprovalRequestRow.PolicyID a));
   ("message", Text (ApprovalRequestRow.ViolationMsg a));
   ("requested_at", At (ApprovalRequestRow.RequestedAt a));
   ("expires_at", At (ApprovalRequestRow.ExpiresAt a))].

Definition ListPendingApprovals (r : request) : Handler page :=
  allow "GET" r ;;;
  approvals <-- or_fail (call (Enforcer.on_store ListAdminPendingApprovals))
    500 "Failed to list approvals: %s" ;;
  ret (ApprovalsJson (api_view <$> approvals)).

(** An error of the store leaves the page empty. *)
Definition QueuePageHandler (r : request) : Handler page :=
  approvals <-- call (Enforcer.on_store ListAdminPendingApprovals) ;;
  ret (match approvals with
       | Ok l => QueuePage (admin_view <$> l) (count_all l)
       | Err _ => QueuePage [] (Counts 0 0 0)
       end).

Definition success_json (fields : list (string * string)) : page :=
  Plain (Json 200 (("success", "true") :: fields)).

(** [who] is recorded as the approver: the text "admin" for administrators. *)
Definition deny (who : string) (tm : Time) (body : json_body) : Handler page :=
  req <-- decode body ;;
  if bool_decide (req "approval_id" = EmptyString) then error_page 400 "approval_id is required"
  else
    or_fail (call (Calls.DenyRequest (req "approval_id") who (req "reason") tm))
      500 "Failed to deny: %s" ;;;
    ret (success_json [("message", "Request denied")]).

Definition approve (who : string) (tm : Time) (body : json_body) : Handler page :=
  req <-- decode body ;;
  if bool_decide (req "approval_id" = EmptyString) then error_page 400 "approval_id is required"
  else
    updatedReq <-- or_fail (call (Calls.execute (req "approval_id") who (req "comments") tm))
      500 "Failed to approve and execute: %s" ;;
    ret (ExecutedJson updatedReq).

Definition DenyRequest (r : request) (body : json_body) (tm : Time) : Handler page :=
  allow "POST" r ;;; requireEnforcer ;;; deny "admin" tm body.

Definition ApproveRequest (r : request) (body : json_body) (tm : Time) : Handler page :=
  allow "POST" r ;;; requireEnforcer ;;; approve "admin" tm body.

(** *** Kill switches *)

Definition scope_of (req : string -> string) : string :=
  if bool_decide (req "scope" = EmptyString) then "global" else req "scope".

Definition EnableKillSwitch (r : request) (body : json_body) (env : call_env) : Handler page :=
  allow "POST" r ;;; requireEnforcer ;;;
  req <-- decode body ;;
  or_fail (call (Enforcer.EnableKillSwitch env (scope_of req) "admin" (req "reason")))
    500 "Failed to enable kill switch: %s" ;;;
  ret (success_json [("message", "Kill switch enabled"); ("scope", scope_of req)]).

Definition DisableKillSwitch (r : request) (body : json_body) (env : call_env) : Handler page :=
  allow "POST" r ;;; requireEnforcer ;;;
  req <-- decode body ;;
  or_fail (call (Enforcer.DisableKillSwitch env (scope_of req)))
    500 "Failed to disable kill switch: %s" ;;;
  ret (success_json [("message", "Kill switch disabled"); ("scope", scope_of req)]).

(** *** Policies *)

Definition policies_page : string := "/web/admin/enforcer/policies".

Definition PoliciesPageHandler : Handler page :=
  requireEnforcer ;;;
  policies <-- or_fail (call (Enforcer.on_store EnforcerStore.ListPolicies)) 500 "%s" ;;
  ret (PoliciesPage "admin_enforcer_policies.html" policies).

Definition UserPoliciesPageHandler (user : option Accounts.UserRow.t) : Handler page :=
  signed_in user ;;;
  b <-- has_enforcer ;;
  policies <-- (if b then call (Enforcer.on_store EnforcerStore.ListPolicies) else ret (Ok [])) ;;
  ret (PoliciesPage "user_enforcer_policies.html"
         (match policies with Ok l => l | Err _ => [] end)).

Definition PoliciesNewPageHandler (r : request) : Handler page :=
  ret (Plain (Render "admin_enforcer_policies_new.html" EmptyString
    [("tool", Http.query r "prefill_tool"); ("backend", Http.query r "prefill_backend");
     ("action", Http.query r "prefill_action"); ("severity", Http.query r "prefill_severity");
     ("expression", Http.query r "prefill_expression");
     ("from_approval", Http.query r "from_approval")])).

(** The policy of the form; the times are zero and there are no dispositions. *)
Definition form_priority (r : request) : Z :=
  if bool_decide (form r "priority" = EmptyString) then 100
  else default 100 (sscan_int (form r "priority")).

Definition form_policy (r : request) : PolicyRow.t :=
  PolicyRow.mk (form r "id") (form r "name") (form r "description") (form r "scope")
    (form r "expression") (form r "action") (form r "severity") (form r "message")
    (bool_decide (form r "enabled" = "on")) (form_priority r)
    (bool_decide (form r "locked" = "on")) 0 0 EmptyString.

(** [ord] is the order Go visits the policies in. *)
Definition PoliciesCreateHandler (r : request) (ord : list string) (tm : Time) : Handler page :=
  allow "POST" r ;;; parse_form r ;;;
  or_fail (call (Enforcer.AddPolicy ord (form_policy r))) 500 "%s" ;;;
  let fromApproval := form r "from_approval" in
  if bool_decide (fromApproval = EmptyString) then ret (Plain (Redirect policies_page))
  else
    x <-- call (Calls.execute fromApproval "admin" "Policy created from request" tm) ;;
    ret (Plain (Redirect (match x with
      | Err _ => policies_page +:+ "?warning=policy_created_execution_failed"
      | Ok _ => policies_page
      end))).

Definition PoliciesDeleteHandler (r : request) (orders : nat -> list string) : Handler page :=
  allow "POST" r ;;;
  let policyID := Http.query r "id" in
  if bool_decide (policyID = EmptyString) then error_page 400 "policy id required"
  else
    or_fail (call (Enforcer.DeletePolicy orders policyID)) 500 "%s" ;;;
    ret (Plain (Redirect policies_page)).

Definition PoliciesEditPageHandler (r : request) : Handler page :=
  let policyID := Http.query r "id" in
  if bool_decide (policyID = EmptyString) then error_page 400 "policy id required"
  else
    policy <-- or_fail (call (Enforcer.on_store (GetPolicy policyID)))
      404 "policy not found: %s" ;;
    ret (PolicyEditPage policy).

Definition PoliciesUpdateHandler (r : request) (orders : nat -> list string) : Handler page :=
  allow "POST" r ;;; parse_form r ;;;
  or_fail (call (Enforcer.UpdatePolicy orders (form_policy r))) 500 "%s" ;;;
  ret (Plain (Redirect policies_page)).

Definition ListPolicies : Handler page :=
  policies <-- or_fail (call (Enforcer.on_store EnforcerStore.ListPolicies)) 500 "%s" ;;
  ret (PoliciesJson policies).

(** *** Tool profiles and overrides *)

Definition backend_row (summaries : list BackendProfileSummary.t)
    (os : list EnforcerOverrideRow.t) (id : string) : backend_view :=
  BackendView id
    (bool_decide (id ∈ BackendProfileSummary.BackendID <$> summaries))
    (match list_find (fun s => BackendProfileSummary.BackendID s = id) summaries with
     | Some (_, s) => s
     | None => BackendProfileSummary.zero
     end)
    (Z.of_nat (length (filter (fun o => EnforcerOverrideRow.BackendID o = id) os))).

Definition shown_backend (b : Backends.BackendRow.t) : Prop :=
  Backends.BackendRow.Enabled b = true /\ Backends.BackendRow.IsSystem b = false.

#[export] Instance shown_backend_dec b : Decision (shown_backend b).
Proof. unfold shown_backend. apply _. Defined.

(** [backends] is what [ListBackends] returns. *)
Definition ToolProfilesPageHandler (backends : res (list Backends.BackendRow.t)) : Handler page :=
  summaries <-- or_fail (on_db ListBackendProfileSummaries) 500 "%s" ;;
  backends <-- or_fail (ret backends) 500 "%s" ;;
  os <-- on_db ListOverrides ;;
  ret (ProfilesPage (backend_row summaries (shown os) <$>
         (Backends.BackendRow.ID <$> filter shown_backend backends))).

(** The map of overrides by tool name; the last row of a name stays. *)
Definition override_for (os : list EnforcerOverrideRow.t) (backendID tool : string) :
    option EnforcerOverrideRow.t :=
  last (filter (fun o => EnforcerOverrideRow.BackendID o = backendID /\
                         EnforcerOverrideRow.ToolName o = tool) os).

Definition profile_row (os : list EnforcerOverrideRow.t) (backendID : string)
    (p : ToolProfileRow.t) : profile_view :=
  let o := override_for os backendID (ToolProfileRow.ToolName p) in
  ProfileView p (match o with Some o => EnforcerOverrideRow.RiskLevel o
                            | None => ToolProfileRow.RiskLevel p end) o.

Definition BackendToolProfilesHandler (r : request) : Handler page :=
  let backendID := Http.query r "backend_id" in
  if bool_decide (backendID = EmptyString) then stop (Redirect "/web/admin/enforcer/profiles")
  else
    profiles <-- or_fail (on_db (GetToolProfilesByBackend backendID)) 500 "%s" ;;
    os <-- on_db ListOverrides ;;
    ret (BackendProfilesPage backendID (profile_row (shown os) backendID <$> profiles)).

Definition OverridesPageHandler (r : request) : Handler page :=
  overrides <-- or_fail (on_db ListOverrides) 500 "%s" ;;
  ret (OverridesPage "admin_enforcer_overrides.html" overrides
         (Http.query r "tool_name") (Http.query r "backend_id")).

Definition default_override_id (o : EnforcerOverrideRow.t) : string :=
  "override-" +:+ EnforcerOverrideRow.BackendID o +:+ "-" +:+ EnforcerOverrideRow.ToolName o.

Definition with_default_id (o : EnforcerOverrideRow.t) : EnforcerOverrideRow.t :=
  if bool_decide (EnforcerOverrideRow.ID o = EmptyString)
  then EnforcerOverrideRow.mk (default_override_id o) (EnforcerOverrideRow.ToolName o)
         (EnforcerOverrideRow.BackendID o) (EnforcerOverrideRow.RiskLevel o)
         (EnforcerOverrideRow.ImpactScope o) (EnforcerOverrideRow.ResourceCost o)
         (EnforcerOverrideRow.RequiresHITL o) (EnforcerOverrideRow.PIIExposure o)
         (EnforcerOverrideRow.UserID o) (EnforcerOverrideRow.CreatedAt o)
         (EnforcerOverrideRow.UpdatedAt o)
  else o.

Definition form_override (r : request) (toolName userID : string) (tm : Time) :
    EnforcerOverrideRow.t :=
  with_default_id (EnforcerOverrideRow.mk (form r "id") toolName (form r "backend_id")
    (form r "risk_level") (form r "impact_scope") 5
    (bool_decide (form r "requires_hitl" = "on")) (bool_decide (form r "pii_exposure" = "on"))
    userID tm tm).

Definition override_profile (o : EnforcerOverrideRow.t) : SafetyProfile.t :=
  SafetyProfile.mk (EnforcerOverrideRow.ToolName o) (EnforcerOverrideRow.BackendID o) EmptyString
    (EnforcerOverrideRow.RiskLevel o) (EnforcerOverrideRow.ImpactScope o)
    (EnforcerOverrideRow.ResourceCost o) (EnforcerOverrideRow.RequiresHITL o)
    (EnforcerOverrideRow.PIIExposure o) false "override".

(** The result of [RegisterOverride] is not looked at. *)
Definition OverrideCreateHandler (r : request) (tm : Time) : Handler page :=
  allow "POST" r ;;; parse_form r ;;;
  let override := form_override r (form r "tool_name") EmptyString tm in
  or_fail (on_db (UpsertOverride override)) 500 "%s" ;;;
  b <-- has_enforcer ;;
  when b (_ <-- call (Enforcer.RegisterOverride (EnforcerOverrideRow.ToolName override)
                        (EnforcerOverrideRow.BackendID override) (override_profile override)) ;;
          ret tt) ;;;
  ret (Plain (Redirect "/web/admin/enforcer/profiles")).

Definition OverrideDeleteHandler (r : request) : Handler page :=
  allow "POST" r ;;;
  let toolName := Http.query r "tool_name" in
  let backendID := Http.query r "backend_id" in
  if bool_decide (toolName = EmptyString) || bool_decide (backendID = EmptyString)
  then error_page 400 "tool_name and backend_id are required"
  else
    or_fail (on_db (DeleteOverride toolName backendID)) 500 "%s" ;;;
    b <-- has_enforcer ;;
    when b (_ <-- call (Enforcer.RemoveOverride toolName backendID) ;; ret tt) ;;;
    ret (Plain (Redirect "/web/admin/enforcer/profiles")).

(** *** The pages of a user *)

Definition UserQueuePageHandler (r : request) (user : option Accounts.UserRow.t) : Handler page :=
  allow "GET" r ;;;
  user <-- signed_in user ;;
  approvals <-- call (Enforcer.on_store ListUserPendingApprovals) ;;
  allApprovals <-- call (Enforcer.on_store (ListUserAllApprovals (Accounts.UserRow.ID user))) ;;
  ret (UserQueuePage (pending_view <$> shown approvals) (full_view <$> shown allApprovals)
         (Counts (Z.of_nat (length (shown approvals)))
            (CompletedCount (count_all (shown allApprovals)))
            (DeniedCount (count_all (shown allApprovals))))).

Definition UserApproveRequest (r : request) (user : option Accounts.UserRow.t) (body : json_body)
    (tm : Time) : Handler page :=
  allow "POST" r ;;;
  user <-- signed_in user ;; approve (Accounts.UserRow.ID user) tm body.

Definition UserDenyRequest (r : request) (user : option Accounts.UserRow.t) (body : json_body)
    (tm : Time) : Handler page :=
  allow "POST" r ;;;
  user <-- signed_in user ;; deny (Accounts.UserRow.ID user) tm body.

(** The id is random. *)
Definition policy_request (r : request) (user : Accounts.UserRow.t) (env : call_env) :
    ApprovalRequestRow.t :=
  ApprovalRequestRow.mk (uuid env 0) (Accounts.UserRow.ID user) (Accounts.UserRow.Email user)
    (Accounts.UserRow.Role user) 50 (form r "tool_name") "{}" (form r "backend_id") "{}"
    "PENDING" "policy_request" (form r "justification") (now env)
    (now env + 7 * 24 * Hour) None None EmptyString EmptyString "user_policy_request"
    "User requested policy creation for this tool" EmptyString EmptyString 0 EmptyString None
    EmptyString.

Definition PolicyRequestHandler (r : request) (user : option Accounts.UserRow.t)
    (env : call_env) : Handler page :=
  allow "POST" r ;;;
  user <-- signed_in user ;;
  parse_form r ;;;
  if bool_decide (form r "tool_name" = EmptyString) || bool_decide (form r "backend_id" = EmptyString)
  then error_page 400 "tool_name and backend_id are required"
  else
    or_fail (on_db (CreateApprovalRequest (policy_request r user env)))
      500 "Failed to submit request: %s" ;;;
    ret (Plain (Redirect "/web/user/enforcer/queue?success=Policy+request+submitted")).

Definition read_user_overrides (userID : string) (d : db) : res (list EnforcerOverrideRow.t) * db :=
  (ListUserOverrides d userID, d).
Definition read_tool_prefix (backendID : string) (d : db) : res string * db :=
  (GetToolPrefix d backendID, d).

Definition UserOverridesPageHandler (r : request) (user : option Accounts.UserRow.t) : Handler page :=
  allow "GET" r ;;;
  user <-- signed_in user ;;
  overrides <-- or_fail (on_db (read_user_overrides (Accounts.UserRow.ID user))) 500 "%s" ;;
  ret (OverridesPage "user_enforcer_overrides.html" overrides
         (Http.query r "tool_name") (Http.query r "backend_id")).

Definition unprefixed (prefix : res string) (toolName : string) : string :=
  match prefix with
  | Ok p => if bool_decide (p = EmptyString) then toolName
            else trim_prefix (trim_prefix toolName (p +:+ "_")) (p +:+ "/")
  | Err _ => toolName
  end.

Definition UserOverrideCreateHandler (r : request) (user : option Accounts.UserRow.t)
    (tm : Time) : Handler page :=
  allow "POST" r ;;;
  user <-- signed_in user ;;
  parse_form r ;;;
  prefix <-- on_db (read_tool_prefix (form r "backend_id")) ;;
  let override := form_override r (unprefixed prefix (form r "tool_name"))
                    (Accounts.UserRow.ID user) tm in
  or_fail (on_db (UpsertOverride override)) 500 "%s" ;;;
  ret (Plain (Redirect "/web/user/enforcer/overrides")).

Definition UserOverrideDeleteHandler (r : request) (user : option Accounts.UserRow.t) : Handler page :=
  allow "POST" r ;;;
  user <-- signed_in user ;;
  let toolName := Http.query r "tool_name" in
  let backendID := Http.query r "backend_id" in
  if bool_decide (toolName = EmptyString) || bool_decide (backendID = EmptyString)
  then error_page 400 "tool_name and backend_id are required"
  else
    or_fail (on_db (delete_user_override toolName backendID (Accounts.UserRow.ID user)))
      500 "Failed to delete override: %s" ;;;
    ret (Plain (Redirect "/web/user/enforcer/overrides")).

(** *** All user queues, for administrators *)

Definition item_view (a : ApprovalRequestRow.t) : view :=
  [("ID", Text (ApprovalRequestRow.ID a));
   ("ToolName", Text (ApprovalRequestRow.ToolName a));
   ("ToolArgs", Text (pretty_args a));
   ("Justification", Text (ApprovalRequestRow.Justification a));
   ("PolicyID", Text (ApprovalRequestRow.PolicyID a));
   ("Message", Text (ApprovalRequestRow.ViolationMsg a));
   ("RequestedAt", At (ApprovalRequestRow.RequestedAt a));
   ("ExpiresAt", At (ApprovalRequestRow.ExpiresAt a))].

Definition queue_owner (a : ApprovalRequestRow.t) : string :=
  if bool_decide (ApprovalRequestRow.UserID a = EmptyString) then "unknown"
  else ApprovalRequestRow.UserID a.

(** The map of groups and the order of its keys, as one list. *)
Fixpoint add_item (a : ApprovalRequestRow.t) (groups : list user_group) : list user_group :=
  match groups with
  | [] => [UserGroup (queue_owner a) (ApprovalRequestRow.UserEmail a) [item_view a]]
  | g :: gs =>
      if bool_decide (group_user g = queue_owner a)
      then UserGroup (group_user g) (group_email g) (items g ++ [item_view a]) :: gs
      else g :: add_item a gs
  end.

Definition add_pending (groups : list user_group) (a : ApprovalRequestRow.t) : list user_group :=
  if bool_decide (ApprovalRequestRow.Status a = "PENDING") then add_item a groups else groups.

Definition UserQueuesPageHandler : Handler page :=
  b <-- has_enforcer ;;
  if negb b then ret (UserQueuesPage [] 0)
  else
    approvals <-- or_fail (call (Enforcer.on_store ListUserPendingApprovals)) 500 "%s" ;;
    ret (UserQueuesPage (foldl add_pending [] approvals) (Z.of_nat (length approvals))).

(** *** Event streams *)

Inductive event :=
| Connected
| Ping
| PendingEvent (count : Z) (approval_id : option string).

Definition SSEHandler : Handler page := requireEnforcer ;;; ret EventStream.

(** A tick of [SSEHandler]. *)
Definition sse_tick (e : Enforcer.t) : event * Enforcer.t :=
  let '(approvals, e') := Enforcer.on_store EnforcerStore.ListPendingApprovals e in
  (match approvals with
   | Ok ((a :: _) as l) =>
       PendingEvent (Z.of_nat (length l)) (Some (ApprovalRequestRow.ID a))
   | _ => Ping
   end, e').

(** The requests of the user among those of the user queue. *)
Definition mine (userID : string) (l : list ApprovalRequestRow.t) : list ApprovalRequestRow.t :=
  filter (fun a => ApprovalRequestRow.UserID a = userID) l.

(** The writer of the server can be flushed. *)
Definition UserSSEHandler (r : request) (user : option Accounts.UserRow.t) : Handler page :=
  allow "GET" r ;;; signed_in user ;;; ret EventStream.

(** A tick of [UserSSEHandler]; [lastCount] is -1 at first. *)
Definition user_sse_tick (userID : string) (lastCount : Z) (s : t) : (event * Z) * t :=
  match s with
  | Disabled _ => ((Ping, lastCount), s)
  | Enabled e =>
      let '(approvals, e') := Enforcer.on_store ListUserPendingApprovals e in
      (match approvals with
       | Err _ => (Ping, lastCount)
       | Ok l =>
           let userApprovals := mine userID l in
           let count := Z.of_nat (length userApprovals) in
           if count =? lastCount then (Ping, lastCount)
           else (PendingEvent count (ApprovalRequestRow.ID <$> head userApprovals), count)
       end, Enabled e')
  end.

(** *** The routes: [Handler.Register] of [src/web/web.go] *)

(** What a request brings with it: the JSON of its body, the clock and the
    random id, the orders Go visits the policies in, and the backends. *)
Record inputs := Inputs {
  req : request;
  body : json_body;
  env : call_env;
  orders : nat -> list string;
  listed : res (list Backends.BackendRow.t)
}.

Inductive guard := RequireAdmin | RequireAuth.

Definition routes (u : option Accounts.UserRow.t) (i : inputs) :
    list (string * (guard * Handler page)) :=
  let r := req i in
  let tm := now (env i) in
  [("/web/admin/enforcer/queue", (RequireAdmin, QueuePageHandler r));
   ("/web/admin/enforcer/policies", (RequireAdmin, PoliciesPageHandler));
   ("/web/admin/enforcer/policies/new", (RequireAdmin, PoliciesNewPageHandler r));
   ("/web/admin/enforcer/policies/create", (RequireAdmin, PoliciesCreateHandler r (order (env i)) tm));
   ("/web/admin/enforcer/policies/edit", (RequireAdmin, PoliciesEditPageHandler r));
   ("/web/admin/enforcer/policies/update", (RequireAdmin, PoliciesUpdateHandler r (orders i)));
   ("/web/admin/enforcer/policies/delete", (RequireAdmin, PoliciesDeleteHandler r (orders i)));
   ("/web/admin/enforcer/api/policies", (RequireAdmin, ListPolicies));
   ("/web/admin/enforcer/api/approvals", (RequireAdmin, ListPendingApprovals r));
   ("/web/admin/enforcer/api/approval-status", (RequireAdmin, GetApprovalStatus r));
   ("/web/admin/enforcer/api/approve", (RequireAdmin, ApproveRequest r (body i) tm));
   ("/web/admin/enforcer/api/deny", (RequireAdmin, DenyRequest r (body i) tm));
   ("/web/admin/enforcer/kill-switch/enable", (RequireAdmin, EnableKillSwitch r (body i) (env i)));
   ("/web/admin/enforcer/kill-switch/disable", (RequireAdmin, DisableKillSwitch r (body i) (env i)));
   ("/web/admin/enforcer/events", (RequireAdmin, SSEHandler));
   ("/web/admin/enforcer/profiles", (RequireAdmin, ToolProfilesPageHandler (listed i)));
   ("/web/admin/enforcer/profiles/backend", (RequireAdmin, BackendToolProfilesHandler r));
   ("/web/admin/enforcer/profiles/overrides", (RequireAdmin, OverridesPageHandler r));
   ("/web/admin/enforcer/profiles/override/create", (RequireAdmin, OverrideCreateHandler r tm));
   ("/web/admin/enforcer/profiles/override/delete", (RequireAdmin, OverrideDeleteHandler r));
   ("/web/user/enforcer/queue", (RequireAuth, UserQueuePageHandler r u));
   ("/web/user/enforcer/policies", (RequireAuth, UserPoliciesPageHandler u));
   ("/web/user/enforcer/overrides", (RequireAuth, UserOverridesPageHandler r u));
   ("/web/user/enforcer/overrides/create", (RequireAuth, UserOverrideCreateHandler r u tm));
   ("/web/user/enforcer/overrides/delete", (RequireAuth, UserOverrideDeleteHandler r u));
   ("/web/user/enforcer/api/approve", (RequireAuth, UserApproveRequest r u (body i) tm));
   ("/web/user/enforcer/policy-request", (RequireAuth, PolicyRequestHandler r u (env i)));
   ("/web/user/enforcer/api/deny", (RequireAuth, UserDenyRequest r u (body i) tm));
   ("/web/user/enforcer/events", (RequireAuth, UserSSEHandler r u));
   ("/web/admin/enforcer/user-queues", (RequireAdmin, UserQueuesPageHandler))].

Definition route (path : string) (u : option Accounts.UserRow.t) (i : inputs) :
    option (guard * Handler page) :=
  snd <$> (snd <$> list_find (fun r => r.1 = path) (routes u i)).

(** The guards of [WebAuth], for the user of the session. *)
Definition admitted (g : guard) (user : option Accounts.UserRow.t) (h : Handler page) :
    Handler page :=
  match user with
  | None => stop (Redirect "/web/login")
  | Some u =>
      match g with
      | RequireAuth => h
      | RequireAdmin => if bool_decide (Accounts.UserRow.Role u = "admin") then h
                        else error_page 403 "Forbidden"
      end
  end.

Definition serve (user : option Accounts.UserRow.t) (path : string) (i : inputs) (s : t) :
    option page * t :=
  match route path user i with
  | Some (g, h) => let '(p, s') := run (admitted g user h) s in (Some p, s')
  | None => (None, s)     (* not a page of the enforcer *)
  end.

(** A sequence of requests, by different users. *)
Definition serve_all (visits : list (option Accounts.UserRow.t * string * inputs)) (s : t) : t :=
  foldl (fun s v => (serve v.1.1 v.1.2 v.2 s).2) s visits.
End EnforcerHandler.
Arguments t {_}.
End EnforcerHandler.
