(* ===== verification/EnforcerConsole.v ===== *)
(** * What the pages of the enforcer guarantee, and what they do not

    Theorems about [EnforcerWeb]: who can change what, what the queues show,
    and how the pages act together with the enforcer's tables and its memory. *)
From S2P Require Import Prelude GoStrings Sql Http EnforcerTypes Resolver CelEngine EnforcerStore Enforcer EnforcerCalls EnforcerAdmin EnforcerWeb.
From S2P Require Accounts Backends.
From stdpp Require Import sorting.
Open Scope Z_scope.
Open Scope handler_scope.

(** ** The rules: what only administrators change *)

(** The tables of rules. *)
Definition rules (d : db) :=
  (policies d, kill_switches d, tool_profiles d, rate_overrides d, bucket_configs d).

Lemma stmt_rules {A} (f : db -> res A * db) d :
  (forall d, rules (f d).2 = rules d) -> rules (stmt f d).2 = rules d.
Proof.
  intros Hf. by destruct (stmt_cases f d) as [(fs & _ & ->)|(fs & _ & ->)]; [|rewrite Hf].
Qed.

Lemma query_rules {A} (f : db -> res A) d : rules (query f d).2 = rules d.
Proof. by apply stmt_rules. Qed.

Lemma exec_rules f d : (forall d, rules (f d) = rules d) -> rules (exec f d).2 = rules d.
Proof. intros Hf. by apply stmt_rules. Qed.

Lemma exec_checked_rules ok f d :
  (forall d, rules (f d) = rules d) -> rules (exec_checked ok f d).2 = rules d.
Proof. intros Hf. apply stmt_rules. intros d'. cbn. destruct (ok d'); [apply Hf | done]. Qed.

#[export] Hint Resolve query_rules exec_rules exec_checked_rules : leaves.

Module ConsoleFacts.
Section Facts.
Context `{CelLib} `{EnforcerEnv}.
Context (indent : string -> option string).
Import Enforcer EnforcerHandler.
Implicit Types (e : Enforcer.t) (s : EnforcerHandler.t) (d : db).

(** What decides calls, in the memory of the enforcer and in its tables. *)
Definition rule_memory e := (config e, resolver e, engine e, killSwitches e, rateLimit e).
Definition enforcer_rules e := (rule_memory e, rules (store e)).
Definition console_rules s :=
  (match s with Enabled e => Some (rule_memory e) | Disabled _ => None end, rules (database s)).

Lemma on_store_rules {A} (f : db -> A * db) e :
  (forall d, rules (f d).2 = rules d) -> enforcer_rules (on_store f e).2 = enforcer_rules e.
Proof.
  intros Hf. unfold enforcer_rules, on_store. rewrite <- (Hf (store e)). by destruct (f (store e)).
Qed.

Lemma leaves_call {A} (f : Enforcer.t -> A * Enforcer.t) :
  (forall e, enforcer_rules (f e).2 = enforcer_rules e) -> leaves console_rules (call f).
Proof.
  intros Hf [e|d]; [|done]. unfold call. specialize (Hf e). destruct (f e) as [a e']. cbn in *.
  unfold console_rules. cbn. unfold enforcer_rules in Hf. congruence.
Qed.

Lemma leaves_on_db {A} (f : db -> A * db) :
  (forall d, rules (f d).2 = rules d) -> leaves console_rules (on_db f).
Proof.
  intros Hf [e|d]; unfold on_db, console_rules.
  - pose proof (on_store_rules f e Hf) as Hr. destruct (on_store f e) as [a e']. cbn in *.
    unfold enforcer_rules in Hr. congruence.
  - specialize (Hf d). destruct (f d). cbn in *. congruence.
Qed.

Lemma leaves_or_fail {A B} (part : EnforcerHandler.t -> B) (m : M EnforcerHandler.t page (res A)) c msg :
  leaves part m -> leaves part (or_fail m c msg).
Proof. intros Hm. apply leaves_bind; [done|]. by intros [a|err]. Qed.

Lemma leaves_error_page {A B} (part : EnforcerHandler.t -> B) c msg :
  leaves part (error_page c msg (A := A)).
Proof. done. Qed.
Lemma leaves_stop {A B} (part : EnforcerHandler.t -> B) r : leaves part (stop r (A := A)).
Proof. done. Qed.
Lemma leaves_allow {B} (part : EnforcerHandler.t -> B) m r : leaves part (allow m r).
Proof. intros s. unfold allow. by case_bool_decide. Qed.
Lemma leaves_requireEnforcer {B} (part : EnforcerHandler.t -> B) : leaves part requireEnforcer.
Proof. by intros []. Qed.
Lemma leaves_has_enforcer {B} (part : EnforcerHandler.t -> B) : leaves part has_enforcer.
Proof. done. Qed.
Lemma leaves_signed_in {B} (part : EnforcerHandler.t -> B) u : leaves part (signed_in u).
Proof. by destruct u. Qed.
Lemma leaves_decode {B} (part : EnforcerHandler.t -> B) b : leaves part (decode b).
Proof. by destruct b. Qed.
Lemma leaves_parse_form {B} (part : EnforcerHandler.t -> B) r : leaves part (parse_form r).
Proof. intros s. unfold parse_form. by destruct (form_ok r). Qed.

(** Approving and denying leave the rules alone, whatever fails. *)
Lemma execute_rules id who comments tm e :
  enforcer_rules (Calls.execute id who comments tm e).2 = enforcer_rules e.
Proof.
  apply leaves_run. unfold Calls.ExecuteApprovedRequest.
  assert (Hst : forall A (f : db -> A * db), (forall d, rules (f d).2 = rules d) ->
            leaves (R := res ApprovalRequestRow.t) enforcer_rules (state (on_store f))).
  { intros A f Hf. apply leaves_state. intros e'. by apply on_store_rules. }
  repeat first
    [ progress (eauto with leaves)
    | apply leaves_bind; [|intros ?]
    | apply Hst; intros ?; (apply exec_rules || apply query_rules || case_match); intros ?
    | case_match | done
    | apply leaves_state; intros ? ].
Qed.

#[local] Hint Resolve leaves_or_fail leaves_error_page leaves_stop leaves_allow
  leaves_requireEnforcer leaves_has_enforcer leaves_signed_in leaves_decode
  leaves_parse_form : leaves.

Lemma leaves_store_call {A} (f : db -> A * db) :
  (forall d, rules (f d).2 = rules d) -> leaves console_rules (call (on_store f)).
Proof. intros Hf. apply leaves_call. intros e. by apply on_store_rules. Qed.

#[local] Ltac console_body :=
  repeat first
    [ apply leaves_or_fail
    | progress (eauto with leaves)
    | simple apply leaves_bind; [|intros ?]
    | simple apply leaves_when
    | case_match ].

Lemma leaves_approve who tm b : leaves console_rules (approve who tm b).
Proof.
  unfold approve. console_body. apply leaves_call. intros e. apply execute_rules.
Qed.

Lemma leaves_deny who tm b : leaves console_rules (deny who tm b).
Proof.
  unfold deny. console_body. apply leaves_store_call. intros d. by apply exec_rules.
Qed.
#[local] Hint Resolve leaves_approve leaves_deny : leaves.

(** The handlers of users, one by one. *)
Lemma user_pages_keep_rules u i :
  Forall (fun r => r.2.1 = RequireAuth -> leaves console_rules r.2.2) (routes indent u i).
Proof.
  unfold routes. repeat (apply Forall_cons; split); try apply Forall_nil; try done;
    cbn [fst snd]; try discriminate; intros _.
  all: unfold UserQueuePageHandler, UserPoliciesPageHandler, UserOverridesPageHandler,
    UserOverrideCreateHandler, UserOverrideDeleteHandler, UserApproveRequest,
    PolicyRequestHandler, UserDenyRequest, UserSSEHandler; console_body.
  all: first [ apply leaves_store_call | apply leaves_on_db ]; intros d;
    unfold ListUserPendingApprovals, ListUserAllApprovals, EnforcerStore.ListPolicies,
      UpsertOverride, delete_user_override, CreateApprovalRequest; auto with leaves.
Qed.
End Facts.
End ConsoleFacts.

Section AccessTheorems.
Context `{CelLib} `{EnforcerEnv}.
Context (indent : string -> option string).
Import Enforcer EnforcerHandler ConsoleFacts.

Definition administrator (user : option Accounts.UserRow.t) : Prop :=
  match user with Some u => Accounts.UserRow.Role u = "admin" | None => False end.

(** C17: Whatever requests people without the role of an administrator make, in
    whatever order and whatever statements fail, the policies, kill switches,
    tool profiles, rate limits and the enforcer's memory of them stay as they
    are. *)
Theorem users_cannot_administer visits s :
  Forall (fun v => ~ administrator v.1.1) visits ->
  console_rules (serve_all indent visits s) = console_rules s.
Proof.
  intros Hall. unfold serve_all. revert s.
  induction Hall as [|[[user path] i] visits Hu _ IH]; intros s; cbn; [done|]. rewrite IH. clear IH.
  unfold serve, route.
  destruct (list_find _ _) as [[n [path' [g h]]]|] eqn:Hf; cbn; [|done].
  apply list_find_Some in Hf as (Hin & _ & _).
  pose proof (Forall_lookup_1 _ _ _ _ (user_pages_keep_rules indent user i) Hin) as Hh. cbn in Hh.
  assert (Hl : leaves console_rules (admitted g user h)).
  { destruct user as [u|]; [|done]. destruct g; [|by apply Hh]. cbn in *.
    by rewrite bool_decide_eq_false_2. }
  pose proof (leaves_run _ _ s Hl) as Hr. by destruct (run _ _).
Qed.

(** C18: The page by which a user approves his own pending requests takes any
    request: it is approved in the name of the user and executed, whoever asked,
    whether it waits in the queue of the administrators, and also when it was
    denied, has expired or was executed before. *)
Theorem user_executes_any_request u i f id r exec e :
  faults (store e) = [] -> approvals (store e) !! id = Some r -> id <> EmptyString ->
  execute_request = Some exec ->
  meth (req i) = "POST" -> body i = Some f -> f "approval_id" = id ->
  exists r' e', serve indent (Some u) "/web/user/enforcer/api/approve" i (Enabled e) =
      (Some (ExecutedJson r'), Enabled e') /\
    approvals (store e') !! id = Some r' /\ request_of r' = request_of r /\
    ApprovalRequestRow.ApprovedBy r' = Some (Accounts.UserRow.ID u) /\
    executed e' = executed e ++ [(ApprovalRequestRow.UserID r, ApprovalRequestRow.BackendID r,
                                  ApprovalRequestRow.RequestBody r)].
Proof.
  intros Hf Hr Hid Hexec Hm Hb Hfid.
  destruct (ApprovalFacts.execute_ok id (Accounts.UserRow.ID u) (f "comments") (now (env i)) e r
    exec Hf Hr Hexec) as (H1 & H2 & _ & H4).
  destruct (Calls.execute id _ _ _ e) as [x e'] eqn:Ex. cbn in H1, H2, H4. subst x.
  eexists _, e'. split.
  - change (serve indent (Some u) "/web/user/enforcer/api/approve" i (Enabled e)) with
      (let '(p, s') := run (UserApproveRequest (req i) (Some u) (body i) (now (env i))) (Enabled e)
       in (Some p, s')).
    unfold UserApproveRequest, allow, run, approve, decode, or_fail, call, bind, ret.
    rewrite Hm, Hb, bool_decide_eq_true_2, Hfid, bool_decide_eq_false_2 by done. cbn.
    rewrite Ex. reflexivity.
  - split; [exact H2|]. split_and!; [| |exact H4]; unfold ApprovalFacts.executed_row;
    case_match; by try case_match.
Qed.
End AccessTheorems.

(** ** What the queues show *)

Section QueueFacts.
Context `{CelLib} `{EnforcerEnv}.
Context (indent : string -> option string).
Import Enforcer EnforcerHandler.
Implicit Types (e : Enforcer.t).

(** A query that does not fail. *)
Lemma on_query {A} (f : db -> res A) e :
  faults (store e) = [] -> on_store (query f) e = (f (store e), e).
Proof. intros Hf. unfold on_store, query, stmt. rewrite Hf. by destruct e. Qed.

Lemma on_exec (f : db -> db) e :
  faults (store e) = [] -> on_store (exec f) e = (Ok tt, with_store (f (store e)) e).
Proof. intros Hf. unfold on_store, exec, stmt. by rewrite Hf. Qed.

Lemma on_exec_checked ok (f : db -> db) e :
  faults (store e) = [] -> ok (store e) = true ->
  on_store (exec_checked ok f) e = (Ok tt, with_store (f (store e)) e).
Proof. intros Hf Hok. unfold on_store, exec_checked, stmt. by rewrite Hf, Hok. Qed.

(** A page of listings runs its queries on the state, which stays. *)
Definition admin_queue e : list ApprovalRequestRow.t :=
  sort_by oldest_first (queue_pending "admin" (store e)).
Definition user_queue e : list ApprovalRequestRow.t :=
  sort_by oldest_first (queue_pending "user" (store e)).
Definition requests_of (userID : string) e : list ApprovalRequestRow.t :=
  sort_by newest_first (filter (fun r => ApprovalRequestRow.UserID r = userID /\
    ApprovalRequestRow.QueueType r = "user") (rows (approvals (store e)))).

Lemma admin_page r e :
  faults (store e) = [] ->
  run (QueuePageHandler indent r) (Enabled e) =
    (QueuePage (admin_view indent <$> admin_queue e) (count_all (admin_queue e)), Enabled e).
Proof.
  intros Hf. unfold QueuePageHandler, run, bind, call, ListAdminPendingApprovals.
  by rewrite on_query.
Qed.

Lemma user_page r u e :
  faults (store e) = [] -> meth r = "GET" ->
  run (UserQueuePageHandler indent r (Some u)) (Enabled e) =
    (UserQueuePage (pending_view indent <$> user_queue e)
       (full_view indent <$> requests_of (Accounts.UserRow.ID u) e)
       (Counts (Z.of_nat (length (user_queue e)))
          (CompletedCount (count_all (requests_of (Accounts.UserRow.ID u) e)))
          (DeniedCount (count_all (requests_of (Accounts.UserRow.ID u) e)))), Enabled e).
Proof.
  intros Hf Hm.
  unfold UserQueuePageHandler, run, allow, bind, call, ListUserPendingApprovals, ListUserAllApprovals.
  rewrite Hm, bool_decide_eq_true_2 by done. cbn -[on_store]. rewrite on_query by done.
  rewrite on_query by done. done.
Qed.

Lemma user_queues_page e :
  faults (store e) = [] ->
  run (UserQueuesPageHandler indent) (Enabled e) =
    (UserQueuesPage (foldl (add_pending indent) [] (user_queue e))
       (Z.of_nat (length (user_queue e))), Enabled e).
Proof.
  intros Hf.
  unfold UserQueuesPageHandler, or_fail, run, bind, call, ListUserPendingApprovals. cbn -[on_store].
  by rewrite on_query.
Qed.

Lemma elem_of_queue a queue d :
  a ∈ sort_by oldest_first (queue_pending queue d) <->
  ApprovalRequestRow.Status a = "PENDING" /\ ApprovalRequestRow.QueueType a = queue /\
  a ∈ rows (approvals d).
Proof.
  unfold queue_pending. rewrite sort_by_perm, list_elem_of_filter. tauto.
Qed.

(** What the switch on the status counts. *)
Lemma count_foldl l c :
  foldl count_status c l =
  Counts (PendingCount c + PendingCount (count_all l)) (CompletedCount c + CompletedCount (count_all l))
    (DeniedCount c + DeniedCount (count_all l)).
Proof.
  unfold count_all. revert c. induction l as [|a l IH] using rev_ind; intros c.
  - destruct c. cbn. f_equal; lia.
  - rewrite !foldl_app. cbn. rewrite IH.
    unfold count_status. cbv zeta. repeat case_bool_decide; cbn; f_equal; lia.
Qed.

Lemma count_pending l :
  Forall (fun a => ApprovalRequestRow.Status a = "PENDING") l ->
  count_all l = Counts (Z.of_nat (length l)) 0 0.
Proof.
  intros Hall. induction Hall as [|a l Ha _ IH]; [done|].
  change (count_all (a :: l)) with (foldl count_status (count_status (Counts 0 0 0) a) l).
  rewrite count_foldl, IH. unfold count_status. rewrite Ha, bool_decide_eq_true_2 by done.
  cbn [PendingCount CompletedCount DeniedCount length]. f_equal. lia.
Qed.
End QueueFacts.

Section QueueTheorems.
Context `{CelLib} `{EnforcerEnv}.
Context (indent : string -> option string).
Import Enforcer EnforcerHandler.
Implicit Types (e : Enforcer.t).

(** The page of the administrators shows the pending requests of their queue,
    oldest first, and nothing else: its counters of completed and denied requests
    are always zero. *)
Theorem admin_page_exact r e :
  faults (store e) = [] ->
  exists l, run (QueuePageHandler indent r) (Enabled e) =
      (QueuePage (admin_view indent <$> l) (Counts (Z.of_nat (length l)) 0 0), Enabled e) /\
    StronglySorted (fun a b => ApprovalRequestRow.RequestedAt a <= ApprovalRequestRow.RequestedAt b) l /\
    l ≡ₚ filter (fun a => ApprovalRequestRow.Status a = "PENDING" /\
                          ApprovalRequestRow.QueueType a = "admin") (rows (approvals (store e))).
Proof.
  intros Hf. exists (admin_queue e). rewrite admin_page by done.
  rewrite count_pending by (apply Forall_forall; intros a Ha; by apply elem_of_queue in Ha as [? _]).
  split; [done|]. split; [apply oldest_first_sorted | apply sort_by_perm].
Qed.

(** A user's request for a policy is stored as pending, in a queue of its own
    that no page lists: not that of the administrators, nor that of any user, nor
    the user's own history, nor the overview of the users' queues.  The stream of
    events of the administrators counts it. *)
Theorem policy_request_in_no_queue u i e :
  faults (store e) = [] -> Accounts.UserRow.ID u ∈ users (store e) ->
  approvals (store e) !! uuid (env i) 0 = None ->
  meth (req i) = "POST" -> form_ok (req i) = true ->
  form (req i) "tool_name" <> EmptyString -> form (req i) "backend_id" <> EmptyString ->
  exists row e', serve indent (Some u) "/web/user/enforcer/policy-request" i (Enabled e) =
      (Some (Plain (Redirect "/web/user/enforcer/queue?success=Policy+request+submitted")),
       Enabled e') /\
    approvals (store e') = <[uuid (env i) 0 := row]> (approvals (store e)) /\
    ApprovalRequestRow.ID row = uuid (env i) 0 /\ ApprovalRequestRow.Status row = "PENDING" /\
    row ∉ admin_queue e' /\ row ∉ user_queue e' /\ (forall v, row ∉ requests_of v e') /\
    exists n id, (sse_tick e').1 = PendingEvent n id /\ 0 < n.
Proof.
  intros Hf Hu Hfresh Hm Hok Ht Hb.
  set (row := ApprovalRequestRow.inserted (policy_request (req i) u (env i))).
  set (e' := with_store (set_approvals (<[uuid (env i) 0 := row]>) (store e)) e).
  exists row, e'. split.
  - change (serve indent (Some u) "/web/user/enforcer/policy-request" i (Enabled e)) with
      (let '(p, s') := run (PolicyRequestHandler (req i) (Some u) (env i)) (Enabled e)
       in (Some p, s')).
    unfold PolicyRequestHandler, allow, parse_form, run, or_fail, on_db, bind.
    rewrite Hm, Hok, bool_decide_eq_true_2, !bool_decide_eq_false_2 by done. cbn -[on_store].
    unfold CreateApprovalRequest. rewrite on_exec_checked by
      first [done | cbn; by rewrite Hfresh, !bool_decide_eq_true_2].
    done.
  - split; [done|]. split; [done|]. split; [done|]. split_and!.
    + by intros (_ & ? & _)%elem_of_queue.
    + by intros (_ & ? & _)%elem_of_queue.
    + intros v. unfold requests_of. rewrite sort_by_perm, list_elem_of_filter. by intros [[_ ?] _].
    + unfold sse_tick, EnforcerStore.ListPendingApprovals. rewrite on_query by done.
      set (l := sort_by _ _). assert (Hin : row ∈ l).
      { unfold l. rewrite sort_by_perm, list_elem_of_filter, elem_of_rows. split; [done|].
        exists (uuid (env i) 0). apply lookup_insert_eq. }
      clearbody l. destruct l as [|a l]; [by apply not_elem_of_nil in Hin|].
      cbn -[Z.of_nat length]. do 2 eexists. split; [done|]. cbn [length]. lia.
Qed.
End QueueTheorems.

(** ** Grouping by user *)

Section Grouping.
Context (indent : string -> option string).
Import EnforcerHandler.
Implicit Types (a : ApprovalRequestRow.t) (gs : list user_group).

Lemma add_item_new a gs :
  queue_owner a ∉ group_user <$> gs ->
  add_item indent a gs =
    gs ++ [UserGroup (queue_owner a) (ApprovalRequestRow.UserEmail a) [item_view indent a]].
Proof.
  induction gs as [|g gs IH]; cbn; [done|]. intros Hn. apply not_elem_of_cons in Hn as [Hg Hn].
  rewrite bool_decide_eq_false_2 by done. by rewrite IH.
Qed.

Lemma add_item_known a gs :
  queue_owner a ∈ group_user <$> gs ->
  exists g1 g g2, gs = g1 ++ g :: g2 /\ group_user g = queue_owner a /\
    add_item indent a gs =
      g1 ++ UserGroup (group_user g) (group_email g) (items g ++ [item_view indent a]) :: g2.
Proof.
  induction gs as [|g gs IH]; cbn; [by intros ?%elem_of_nil|]. intros Hin.
  destruct (decide (group_user g = queue_owner a)) as [Hg|Hg].
  - exists [], g, gs. by rewrite bool_decide_eq_true_2.
  - rewrite bool_decide_eq_false_2 by done. apply elem_of_cons in Hin as [?|Hin]; [done|].
    destruct (IH Hin) as (g1 & g' & g2 & -> & Hg' & ->). by exists (g :: g1), g', g2.
Qed.

(** The groups of a list: distinct users, each with exactly the items of the
    user, in order; nothing is lost or shown twice. *)
Record grouped (l : list ApprovalRequestRow.t) gs : Prop := {
  distinct : NoDup (group_user <$> gs);
  exact_items : Forall (fun g => items g = item_view indent <$>
                   filter (fun a => queue_owner a = group_user g) l) gs;
  known_users : forall u, u ∈ group_user <$> gs <-> u ∈ queue_owner <$> l;
  nothing_lost : concat (items <$> gs) ≡ₚ item_view indent <$> l
}.

Lemma grouped_nil : grouped [] [].
Proof. constructor; cbn; try done. constructor. Qed.

Lemma grouped_add l gs a : grouped l gs -> grouped (l ++ [a]) (add_item indent a gs).
Proof.
  intros [Hnd Hex Hknown Hlost].
  destruct (decide (queue_owner a ∈ group_user <$> gs)) as [Hin|Hnew].
  - destruct (add_item_known a gs Hin) as (g1 & g & g2 & -> & Hg & ->).
    apply Forall_app in Hex as [Hex1 [Hexg Hex2]%Forall_cons].
    rewrite fmap_app, fmap_cons in Hnd, Hknown. rewrite fmap_app, fmap_cons, concat_app in Hlost.
    assert (Hother : forall gs', group_user g ∉ group_user <$> gs' ->
              Forall (fun g => items g = item_view indent <$>
                   filter (fun a => queue_owner a = group_user g) l) gs' ->
              Forall (fun g => items g = item_view indent <$>
                   filter (fun a => queue_owner a = group_user g) (l ++ [a])) gs').
    { intros gs' Hn. rewrite !Forall_forall. intros Hall g' Hg'. rewrite (Hall g' Hg').
      rewrite filter_app, filter_cons_False, filter_nil, app_nil_r; [done|].
      intros E. apply Hn. rewrite Hg, E. by apply list_elem_of_fmap_2. }
    apply NoDup_app in Hnd as (Hn1 & Hn12 & [Hng2 Hn2]%NoDup_cons).
    constructor; cbn; rewrite ?fmap_app, ?fmap_cons, ?concat_app; cbn.
    + apply NoDup_app. split; [done|]. split; [done|]. by constructor.
    + apply Forall_app. split.
      { apply Hother; [|done]. intros Hi. apply (Hn12 _ Hi). by left. }
      apply Forall_cons. cbn. split; [|by apply Hother].
      by rewrite filter_app, filter_cons_True, filter_nil, fmap_app, Hexg.
    + intros u. rewrite Hknown. rewrite !elem_of_app, list_elem_of_singleton. split; [by left|].
      intros [?| ->]; [done|]. apply Hknown. rewrite Hg. rewrite elem_of_app. right. by left.
    + rewrite <- Hlost. cbn. rewrite <- !app_assoc. f_equiv. f_equiv. apply Permutation_app_comm.
  - rewrite add_item_new by done. constructor.
    + rewrite fmap_app. apply NoDup_app. split; [done|]. cbn. split.
      * intros u Hu Hu'. apply list_elem_of_singleton in Hu'. by subst.
      * apply NoDup_singleton.
    + apply Forall_app. split.
      * rewrite Forall_forall in *. intros g Hg. rewrite (Hex g Hg), filter_app.
        rewrite filter_cons_False, filter_nil, app_nil_r; [done|].
        intros E. apply Hnew. rewrite E. by apply list_elem_of_fmap_2.
      * apply Forall_singleton. cbn. rewrite filter_app, filter_cons_True, filter_nil by done.
        rewrite fmap_app. replace (filter _ l) with (@nil ApprovalRequestRow.t); [done|].
        symmetry. apply filter_none. intros b Hb E. apply Hnew, Hknown.
        rewrite <- E. by apply list_elem_of_fmap_2.
    + intros u. rewrite !fmap_app, !elem_of_app. cbn. by rewrite Hknown.
    + rewrite fmap_app, concat_app, fmap_app, Hlost. done.
Qed.
End Grouping.

Section GroupingTheorem.
Context `{CelLib} `{EnforcerEnv}.
Context (indent : string -> option string).
Import Enforcer EnforcerHandler.

(** The administrators' overview of the users' queues partitions the pending
    requests: every request is shown once, under its user, in the order of the
    queue, no user appears twice or without a request, and the total is right. *)
Theorem user_queues_partition e :
  faults (store e) = [] ->
  exists gs, run (UserQueuesPageHandler indent) (Enabled e) =
      (UserQueuesPage gs (Z.of_nat (length (user_queue e))), Enabled e) /\
    grouped indent (user_queue e) gs /\
    Forall (fun g => items g <> []) gs.
Proof.
  intros Hf. eexists. split; [by apply user_queues_page|].
  assert (Hp : Forall (fun a => ApprovalRequestRow.Status a = "PENDING") (user_queue e))
    by (apply Forall_forall; intros a Ha; by apply elem_of_queue in Ha as [? _]).
  assert (Hg : grouped indent (user_queue e) (foldl (add_pending indent) [] (user_queue e))).
  { clear Hf. induction (user_queue e) as [|a l IH] using rev_ind; [apply grouped_nil|].
    rewrite foldl_app. cbn. apply Forall_app in Hp as [Hl [Ha _]%Forall_cons].
    unfold add_pending at 1. rewrite bool_decide_eq_true_2 by done. by apply grouped_add, IH. }
  split; [done|]. destruct Hg as [_ Hex Hknown _]. rewrite Forall_forall in *. intros g Hin Hi.
  rewrite (Hex g Hin) in Hi. apply fmap_nil_inv in Hi.
  assert (Hu : group_user g ∈ queue_owner <$> user_queue e)
    by (apply Hknown; by apply list_elem_of_fmap_2).
  apply list_elem_of_fmap in Hu as (a & Ea & Ha).
  assert (Hf' : a ∈ filter (fun a => queue_owner a = group_user g) (user_queue e))
    by (apply list_elem_of_filter; by split).
  rewrite Hi in Hf'. by apply elem_of_nil in Hf'.
Qed.
End GroupingTheorem.

(** ** Policies *)

Section PolicyPages.
Context `{CelLib} `{EnforcerEnv}.
Import Enforcer EnforcerHandler.
Implicit Types (e : Enforcer.t).

Lemma create_page r ord tm e :
  meth r = "POST" -> form_ok r = true ->
  run (PoliciesCreateHandler r ord tm) (Enabled e) =
    match AddPolicy ord (form_policy r) e with
    | (Err _, e1) => (Plain (HttpError 500 "%s"), Enabled e1)
    | (Ok _, e1) =>
        if bool_decide (form r "from_approval" = EmptyString)
        then (Plain (Redirect policies_page), Enabled e1)
        else
          let '(x, e2) := Calls.execute (form r "from_approval") "admin"
                            "Policy created from request" tm e1 in
          (Plain (Redirect (match x with
             | Err _ => policies_page +:+ "?warning=policy_created_execution_failed"
             | Ok _ => policies_page end)), Enabled e2)
    end.
Proof.
  intros Hm Hok. unfold PoliciesCreateHandler, allow, parse_form, run, or_fail, call, bind.
  rewrite Hm, Hok, bool_decide_eq_true_2 by done. cbn.
  destruct (AddPolicy ord (form_policy r) e) as [[[]|err] e1]; cbn; [|done].
  case_bool_decide; [done|]. cbn. by destruct (Calls.execute _ _ _ _ e1) as [x e2].
Qed.

(** An id in use. *)
Lemma AddPolicy_taken ord p e old :
  faults (store e) = [] -> policies (store e) !! PolicyRow.ID p = Some old ->
  AddPolicy ord p e = (Err ErrSql, e).
Proof.
  intros Hf Hold. unfold AddPolicy, CreatePolicy, on_store, exec_checked, stmt. rewrite Hf, Hold.
  by destruct e.
Qed.

Lemma AddPolicy_new ord p e :
  faults (store e) = [] -> policies (store e) !! PolicyRow.ID p = None ->
  AddPolicy ord p e =
    let d := set_policies (<[PolicyRow.ID p := p]>) (store e) in
    let '(x, en) := CELEngine.AddPolicy ord (ToCELPolicy p) (engine e) in
    (x, with_engine en (with_store d e)).
Proof.
  intros Hf Hnew. unfold AddPolicy, CreatePolicy. rewrite on_exec_checked; [done | done |].
  by rewrite Hnew, bool_decide_eq_true_2.
Qed.

(** The two statements a fault-free update of a policy makes. *)
Lemma UpdatePolicy_ok orders p e :
  faults (store e) = [] ->
  UpdatePolicy orders p e =
    let d := (EnforcerStore.UpdatePolicy p (store e)).2 in
    (Ok tt, with_engine (add_policies orders
       (sort_by policy_before (filter (fun p => PolicyRow.Enabled p = true) (rows (policies d))))
       (engine e)) (with_store d e)).
Proof.
  intros Hf. unfold UpdatePolicy, EnforcerStore.UpdatePolicy. rewrite on_exec by done.
  unfold loadPolicies, EnforcerStore.ListPolicies. rewrite on_query by done.
  unfold exec, stmt. by rewrite Hf.
Qed.

Lemma update_page r orders e :
  meth r = "POST" -> form_ok r = true -> faults (store e) = [] ->
  run (PoliciesUpdateHandler r orders) (Enabled e) =
    (Plain (Redirect policies_page), Enabled (UpdatePolicy orders (form_policy r) e).2).
Proof.
  intros Hm Hok Hf. unfold PoliciesUpdateHandler, allow, parse_form, run, or_fail, call, bind.
  rewrite Hm, Hok, bool_decide_eq_true_2 by done. cbn -[UpdatePolicy].
  by rewrite UpdatePolicy_ok.
Qed.

Lemma policies_page_shows e :
  faults (store e) = [] ->
  run PoliciesPageHandler (Enabled e) =
    (PoliciesPage "admin_enforcer_policies.html" (sort_by policy_before
       (filter (fun p => PolicyRow.Enabled p = true) (rows (policies (store e))))), Enabled e).
Proof.
  intros Hf. unfold PoliciesPageHandler, run, or_fail, call, bind. cbn -[on_store].
  unfold EnforcerStore.ListPolicies. by rewrite on_query.
Qed.
End PolicyPages.

Section PolicyTheorems.
Context `{CelLib} `{EnforcerEnv}.
Import Enforcer EnforcerHandler PolicyFacts.
Implicit Types (e : Enforcer.t).

(** The page that creates a policy, on every branch.  A new id is stored with
    the fields of the form; an expression that does not compile is answered with
    an error although the policy stays stored, and the request it was made for is
    not executed; otherwise that request, if there is one, is executed once.
    Sending the form again is refused and changes nothing, so it executes nothing
    twice, and a broken expression cannot be corrected under its id this way. *)
Theorem create_policy_page r ord tm e :
  meth r = "POST" -> form_ok r = true -> faults (store e) = [] ->
  let p := form_policy r in
  let res := run (PoliciesCreateHandler r ord tm) (Enabled e) in
  (is_Some (policies (store e) !! PolicyRow.ID p) ->
     res = (Plain (HttpError 500 "%s"), Enabled e)) /\
  (policies (store e) !! PolicyRow.ID p = None ->
   exists e', res.2 = Enabled e' /\
     policies (store e') = <[PolicyRow.ID p := p]> (policies (store e)) /\
     (is_ok (CELEngine.AddPolicy ord (ToCELPolicy p) (engine e)).1 = false ->
        res.1 = Plain (HttpError 500 "%s") /\ executed e' = executed e) /\
     (is_ok (CELEngine.AddPolicy ord (ToCELPolicy p) (engine e)).1 = true ->
      (form r "from_approval" = EmptyString ->
         res.1 = Plain (Redirect policies_page) /\ executed e' = executed e) /\
      (forall a exec, form r "from_approval" <> EmptyString ->
         approvals (store e) !! form r "from_approval" = Some a -> execute_request = Some exec ->
         res.1 = Plain (Redirect policies_page) /\
         executed e' = executed e ++ [(ApprovalRequestRow.UserID a, ApprovalRequestRow.BackendID a,
                                       ApprovalRequestRow.RequestBody a)])) /\
     (faults (store e') = [] -> forall ord' tm',
        run (PoliciesCreateHandler r ord' tm') (Enabled e') =
          (Plain (HttpError 500 "%s"), Enabled e'))).
Proof.
  intros Hm Hok Hf p res. unfold res. rewrite create_page by done. fold p. split.
  { intros [old Hold]. by erewrite AddPolicy_taken. }
  intros Hnew. rewrite AddPolicy_new by done. cbv zeta.
  assert (Hagain : forall e', policies (store e') = <[PolicyRow.ID p := p]> (policies (store e)) ->
            faults (store e') = [] -> forall ord' tm',
            run (PoliciesCreateHandler r ord' tm') (Enabled e') =
              (Plain (HttpError 500 "%s"), Enabled e')).
  { intros e' Hp Hf' ord' tm'. rewrite create_page by done. fold p.
    erewrite AddPolicy_taken; [done | done |]. rewrite Hp. apply lookup_insert_eq. }
  destruct (CELEngine.AddPolicy ord (ToCELPolicy p) (engine e)) as [[[]|err] en] eqn:Hadd; cbn.
  2: { eexists. split; [done|]. split; [done|]. split; [done|]. split; [done|].
       by apply Hagain. }
  set (e1 := with_engine en _). case_bool_decide as Hfa; cbn.
  { exists e1. split; [done|]. split; [done|]. split; [done|]. split; [done|]. by apply Hagain. }
  pose proof (ConsoleFacts.execute_rules (form r "from_approval") "admin"
    "Policy created from request" tm e1) as Hrules.
  pose proof (fun a exec => ApprovalFacts.execute_ok (form r "from_approval") "admin"
    "Policy created from request" tm e1 a exec Hf) as Hexec.
  destruct (Calls.execute _ _ _ _ e1) as [x e2] eqn:Hx. cbn in Hrules.
  assert (Hp2 : policies (store e2) = <[PolicyRow.ID p := p]> (policies (store e)))
    by (injection Hrules; intros; done).
  exists e2. split; [done|]. split; [done|]. split; [done|]. split; [|by apply Hagain].
  intros _. split; [done|]. intros a exec _ Ha He.
  destruct (Hexec a exec Ha He) as (Hok' & _ & _ & Hex). cbn in Hok', Hex. subst x. done.
Qed.

(** A policy that is switched off on the page of policies goes on deciding
    calls: its row is disabled, but the reload adds the policies that are enabled
    and takes none out of the engine.  And the page lists it no more. *)
Theorem disabled_policy_still_decides r orders e old act pol :
  meth r = "POST" -> form_ok r = true -> faults (store e) = [] -> keyed_policies (store e) ->
  form r "enabled" <> "on" ->
  policies (store e) !! form r "id" = Some old ->
  EngineFacts.matches act (engine e) (form r "id") pol ->
  exists e', run (PoliciesUpdateHandler r orders) (Enabled e) =
      (Plain (Redirect policies_page), Enabled e') /\
    EngineFacts.matches act (engine e') (form r "id") pol /\
    (PolicyRow.Enabled <$> policies (store e') !! form r "id") = Some false /\
    (PolicyRow.DispositionsJSON <$> policies (store e') !! form r "id") = Some EmptyString /\
    exists ps, (run PoliciesPageHandler (Enabled e')).1 =
        PoliciesPage "admin_enforcer_policies.html" ps /\
      form r "id" ∉ PolicyRow.ID <$> ps.
Proof.
  intros Hm Hok Hf Hk Hoff Hold Hmatch. rewrite update_page by done. eexists. split; [done|].
  rewrite UpdatePolicy_ok by done. cbv zeta. cbn [fst snd].
  assert (Hupd : policies (EnforcerStore.UpdatePolicy (form_policy r) (store e)).2 !! form r "id" =
            Some (PolicyRow.mk (PolicyRow.ID old) (form r "name") (form r "description")
              (form r "scope") (form r "expression") (form r "action") (form r "severity")
              (form r "message") false (form_priority r) (bool_decide (form r "locked" = "on"))
              (PolicyRow.CreatedAt old) 0 EmptyString)).
  { unfold EnforcerStore.UpdatePolicy, exec, stmt. rewrite Hf. cbn. rewrite lookup_alter_eq, Hold.
    cbn. by rewrite bool_decide_eq_false_2. }
  assert (Hk' : keyed_policies (EnforcerStore.UpdatePolicy (form_policy r) (store e)).2).
  { intros k row. unfold EnforcerStore.UpdatePolicy, exec, stmt. rewrite Hf. cbn.
    intros [(<- & old' & Hr & ->)|[_ Hr]]%lookup_alter_Some; [by apply Hk in Hr | by apply Hk]. }
  set (d' := (EnforcerStore.UpdatePolicy _ _).2) in *.
  assert (Hid : form r "id" ∉ PolicyRow.ID <$>
            sort_by policy_before (filter (fun p => PolicyRow.Enabled p = true) (rows (policies d')))).
  { rewrite list_elem_of_fmap. intros (row & Eid & Hin).
    rewrite sort_by_perm, list_elem_of_filter, elem_of_rows in Hin. destruct Hin as [Hen [k Hrow]].
    pose proof (Hk' _ _ Hrow) as Ek. cbn in Ek. rewrite Ek, <- Eid, Hupd in Hrow.
    injection Hrow as <-. done. }
  destruct (add_policies_other orders _ (engine e) (form r "id") Hid) as [Hprog Hpol].
  destruct Hmatch as [Hp (prog & Hpr & He)]. split_and!.
  - split; cbn; [by rewrite Hpol|]. exists prog. cbn. by rewrite Hprog.
  - cbn. by rewrite Hupd.
  - cbn. by rewrite Hupd.
  - rewrite policies_page_shows.
    + cbn. by eexists.
    + cbn. unfold d', EnforcerStore.UpdatePolicy, exec, stmt. by rewrite Hf.
Qed.
End PolicyTheorems.

(** ** The stream of events of a user *)

Section Stream.
Context `{CelLib} `{EnforcerEnv}.
Import Enforcer EnforcerHandler.
Implicit Types (e : Enforcer.t).

(** The events sent at the ticks that find the enforcer in the states [es]. *)
Fixpoint stream (userID : string) (last : Z) (es : list Enforcer.t) : list event :=
  match es with
  | [] => []
  | e :: es' =>
      let '((ev, last'), _) := user_sse_tick userID last (Enabled e) in
      ev :: stream userID last' es'
  end.

(** What a client that keeps the last count it was sent displays. *)
Fixpoint displayed (last : Z) (evs : list event) : list Z :=
  match evs with
  | [] => []
  | ev :: evs' =>
      let last' := match ev with PendingEvent n _ => n | _ => last end in
      last' :: displayed last' evs'
  end.

Definition waiting (userID : string) e : Z := Z.of_nat (length (mine userID (user_queue e))).

Lemma user_tick userID last e :
  faults (store e) = [] ->
  user_sse_tick userID last (Enabled e) =
    ((if waiting userID e =? last then (Ping, last)
      else (PendingEvent (waiting userID e)
              (ApprovalRequestRow.ID <$> head (mine userID (user_queue e))), waiting userID e)),
     Enabled e).
Proof.
  intros Hf. unfold user_sse_tick, ListUserPendingApprovals. by rewrite on_query.
Qed.

(** The stream of events keeps the client right: at every tick it displays
    the number of the user's own requests that are waiting, and nothing is sent
    but pings while the number stays the same. *)
Theorem stream_tracks_queue userID es :
  Forall (fun e => faults (store e) = []) es ->
  displayed (-1) (stream userID (-1) es) = waiting userID <$> es /\
  (forall e n, es = replicate n e ->
     Forall (fun ev => ev = Ping) (tail (stream userID (-1) es))).
Proof.
  intros Hf.
  assert (Hd : forall last, displayed last (stream userID last es) = waiting userID <$> es).
  { induction Hf as [|e es He _ IH]; intros last; cbn -[user_sse_tick]; [done|].
    rewrite user_tick by done. destruct (Z.eqb_spec (waiting userID e) last) as [<-|]; cbn;
      by rewrite IH. }
  split; [apply Hd|]. intros e n ->. clear Hd. destruct n as [|n]; [by cbn|].
  apply Forall_cons in Hf as [He _]. cbn -[user_sse_tick]. rewrite user_tick by done.
  replace (waiting userID e =? -1) with false by (symmetry; apply Z.eqb_neq; unfold waiting; lia).
  cbn -[user_sse_tick waiting]. induction n as [|n IH]; cbn -[user_sse_tick]; [constructor|].
  rewrite user_tick by done. rewrite Z.eqb_refl. apply Forall_cons. split; [done | exact IH].
Qed.
End Stream.

(** ** Overrides *)

Section OverridePages.
Context `{CelLib} `{EnforcerEnv}.
Import Enforcer EnforcerHandler.
Implicit Types (e : Enforcer.t) (d : db).

Definition override_key_of (o : EnforcerOverrideRow.t) : string * string :=
  (EnforcerOverrideRow.ToolName o, EnforcerOverrideRow.BackendID o).

Definition keyed_overrides d : Prop := map_Forall (fun k o => k = override_key_of o) (overrides d).

Lemma user_create_page r u tm e :
  meth r = "POST" -> form_ok r = true ->
  run (UserOverrideCreateHandler r (Some u) tm) (Enabled e) =
    let o := form_override r (unprefixed (GetToolPrefix (store e) (form r "backend_id"))
               (form r "tool_name")) (Accounts.UserRow.ID u) tm in
    match on_store (UpsertOverride o) e with
    | (Err _, e') => (Plain (HttpError 500 "%s"), Enabled e')
    | (Ok _, e') => (Plain (Redirect "/web/user/enforcer/overrides"), Enabled e')
    end.
Proof.
  intros Hm Hok. unfold UserOverrideCreateHandler, allow, parse_form, run, or_fail, on_db, bind.
  rewrite Hm, Hok, bool_decide_eq_true_2 by done. cbn -[on_store].
  replace (on_store (read_tool_prefix (form r "backend_id")) e) with
    (GetToolPrefix (store e) (form r "backend_id"), e) by (by destruct e).
  cbv zeta. by destruct (on_store (UpsertOverride _) e) as [[[]|err] e'].
Qed.

Lemma with_default_id_key o : override_key_of (with_default_id o) = override_key_of o.
Proof. unfold with_default_id. by case_bool_decide. Qed.

(** What the resolver finds for a user is the row of the tool, if it is the
    user's. *)
Lemma user_tier_lookup d tool b v :
  unreadable d = ∅ -> keyed_overrides d -> v <> EmptyString ->
  MetadataResolver.user_tier (Some d) tool b v =
    (o ← overrides d !! (tool, b);
     if decide (EnforcerOverrideRow.UserID o = v)
     then Some (SafetyProfile.mk tool b EmptyString (EnforcerOverrideRow.RiskLevel o)
            (EnforcerOverrideRow.ImpactScope o) (EnforcerOverrideRow.ResourceCost o)
            (EnforcerOverrideRow.RequiresHITL o) (EnforcerOverrideRow.PIIExposure o) false
            "user_override")
     else None).
Proof.
  intros Hu Hk Hv. unfold MetadataResolver.user_tier. cbn [ListUserOverrides db_profile_store].
  rewrite bool_decide_eq_false_2, decide_False by (rewrite ?Hu; set_solver).
  assert (Hin : forall o, o ∈ user_overrides v d <->
            EnforcerOverrideRow.UserID o = v /\ overrides d !! override_key_of o = Some o).
  { intros o. unfold user_overrides. rewrite sort_by_perm, list_elem_of_filter, elem_of_rows.
    split; [|intros [? ?]; split; [done | by eexists]]. intros [[? _] [k Hko]]. split; [done|]. by rewrite <- (Hk _ _ Hko). }
  destruct (list_find _ (user_overrides v d)) as [[n o]|] eqn:Hfind.
  - apply list_find_Some in Hfind as (Hn & [<- <-] & _).
    apply list_elem_of_lookup_2, Hin in Hn as [Hov Ho]. unfold override_key_of in Ho.
    rewrite Ho. cbn. by rewrite decide_True.
  - apply list_find_None in Hfind. destruct (overrides d !! (tool, b)) as [o|] eqn:Ho; cbn; [|done].
    destruct (decide _) as [Hov|]; [exfalso|done].
    pose proof (Hk _ _ Ho) as Eo. injection Eo as -> ->.
    rewrite Forall_forall in Hfind. apply (Hfind o); [|done]. by apply Hin.
Qed.

(** No row of the table has the id of the new one. *)
Definition free_id (o : EnforcerOverrideRow.t) d : Prop :=
  forall k old, overrides d !! k = Some old ->
    EnforcerOverrideRow.ID old <> EnforcerOverrideRow.ID o.

Lemma on_upsert_new o e :
  faults (store e) = [] -> overrides (store e) !! override_key_of o = None ->
  free_id o (store e) ->
  on_store (UpsertOverride o) e =
    (Ok tt, with_store (set_overrides (<[override_key_of o := o]>) (store e)) e).
Proof.
  intros Hf Hnew Hid. unfold UpsertOverride. rewrite on_exec_checked; [|done|].
  - unfold set_overrides. cbn. fold (override_key_of o). by rewrite Hnew.
  - by apply upsertable_fresh.
Qed.

Lemma on_upsert_taken o e k old :
  faults (store e) = [] -> overrides (store e) !! override_key_of o = None ->
  overrides (store e) !! k = Some old ->
  EnforcerOverrideRow.ID old = EnforcerOverrideRow.ID o ->
  on_store (UpsertOverride o) e = (Err ErrSql, e).
Proof.
  intros Hf Hnew Hold Hid. unfold UpsertOverride, on_store, exec_checked, stmt. rewrite Hf.
  unfold upsertable. fold (override_key_of o). rewrite Hnew.
  rewrite (proj2 (existsb_exists _ _)).
  - by destruct e.
  - exists old. split; [|by rewrite bool_decide_eq_true_2].
    apply list_elem_of_In, elem_of_rows. eauto.
Qed.

Lemma admin_create_page r tm e :
  meth r = "POST" -> form_ok r = true ->
  run (OverrideCreateHandler r tm) (Enabled e) =
    let o := form_override r (form r "tool_name") EmptyString tm in
    match on_store (UpsertOverride o) e with
    | (Err _, e') => (Plain (HttpError 500 "%s"), Enabled e')
    | (Ok _, e') =>
        (Plain (Redirect "/web/admin/enforcer/profiles"),
         Enabled (RegisterOverride (EnforcerOverrideRow.ToolName o)
                    (EnforcerOverrideRow.BackendID o) (override_profile o) e').2)
    end.
Proof.
  intros Hm Hok. unfold OverrideCreateHandler, allow, parse_form, run, or_fail, on_db, bind.
  rewrite Hm, Hok, bool_decide_eq_true_2 by done. cbn -[on_store RegisterOverride]. cbv zeta.
  destruct (on_store (UpsertOverride _) e) as [[[]|err] e']; cbn -[RegisterOverride]; [|done].
  by destruct (RegisterOverride _ _ _ e').
Qed.
End OverridePages.

Section OverrideTheorems.
Context `{CelLib} `{EnforcerEnv}.
Import Enforcer EnforcerHandler.
Implicit Types (e : Enforcer.t).

(** A personal override set on the page of a user for a tool nobody has an
    override for applies to the calls of that user, under the name the enforcer
    receives, unless an administrator overrides the tool; it does not apply to the
    calls of anybody else, whose own overrides stay. *)
Theorem user_override_applies r u tm e :
  meth r = "POST" -> form_ok r = true -> faults (store e) = [] -> unreadable (store e) = ∅ ->
  keyed_overrides (store e) -> Accounts.UserRow.ID u <> EmptyString ->
  let b := form r "backend_id" in
  let tool := unprefixed (GetToolPrefix (store e) b) (form r "tool_name") in
  overrides (store e) !! (tool, b) = None ->
  free_id (form_override r tool (Accounts.UserRow.ID u) tm) (store e) ->
  exists e', run (UserOverrideCreateHandler r (Some u) tm) (Enabled e) =
      (Plain (Redirect "/web/user/enforcer/overrides"), Enabled e') /\
    keyed_overrides (store e') /\ resolver e' = resolver e /\
    (MetadataResolver.admin_tier tool b (resolver e) = None ->
     MetadataResolver.ResolveForUser (Some (store e')) tool b (Accounts.UserRow.ID u)
       (resolver e') =
     Ok (SafetyProfile.mk tool b EmptyString (form r "risk_level") (form r "impact_scope") 5
           (bool_decide (form r "requires_hitl" = "on"))
           (bool_decide (form r "pii_exposure" = "on")) false "user_override")) /\
    (forall v t' b', v <> Accounts.UserRow.ID u -> v <> EmptyString ->
       MetadataResolver.user_tier (Some (store e')) t' b' v =
       MetadataResolver.user_tier (Some (store e)) t' b' v).
Proof.
  intros Hm Hok Hf Hu Hk Hid b tool Hnew Hfree. rewrite user_create_page by done. fold b tool.
  set (o := form_override r tool (Accounts.UserRow.ID u) tm) in *. cbv zeta.
  assert (Hkey : override_key_of o = (tool, b)) by apply with_default_id_key.
  assert (Ho : EnforcerOverrideRow.UserID o = Accounts.UserRow.ID u /\
    EnforcerOverrideRow.RiskLevel o = form r "risk_level" /\
    EnforcerOverrideRow.ImpactScope o = form r "impact_scope" /\
    EnforcerOverrideRow.ResourceCost o = 5 /\
    EnforcerOverrideRow.RequiresHITL o = bool_decide (form r "requires_hitl" = "on") /\
    EnforcerOverrideRow.PIIExposure o = bool_decide (form r "pii_exposure" = "on")).
  { unfold o, form_override, with_default_id. by case_bool_decide. }
  destruct Ho as (Hou & Ho1 & Ho2 & Ho3 & Ho4 & Ho5).
  rewrite on_upsert_new by (rewrite ?Hkey; done). rewrite Hkey. eexists. split; [done|].
  assert (Hk' : keyed_overrides (set_overrides (<[(tool, b) := o]>) (store e))).
  { apply map_Forall_insert_2; [by rewrite Hkey | done]. }
  split; [exact Hk'|]. split; [done|]. split.
  - intros Hadm. unfold MetadataResolver.ResolveForUser.
    cbn [resolver store with_store]. rewrite Hadm, user_tier_lookup by done. cbn. rewrite lookup_insert_eq. cbn.
    rewrite decide_True by done. by rewrite Ho1, Ho2, Ho3, Ho4, Ho5.
  - intros v t' b' Hv Hv0. cbn [store with_store]. rewrite !user_tier_lookup by done. cbn.
    destruct (decide ((tool, b) = (t', b'))) as [[= <- <-]|Hne].
    + rewrite lookup_insert_eq, Hnew. cbn. rewrite decide_False; [done|]. congruence.
    + by rewrite lookup_insert_ne.
Qed.

(** The ids the pages make up for overrides are not injective: a backend a-b
    with the tool c and a backend a with the tool b-c share one.  The override that
    comes second is refused, and so is any whose made-up id somebody has typed into
    the form of another. *)
Theorem override_id_collision r tm e k old :
  meth r = "POST" -> form_ok r = true -> faults (store e) = [] ->
  form r "id" = EmptyString ->
  overrides (store e) !! (form r "tool_name", form r "backend_id") = None ->
  overrides (store e) !! k = Some old ->
  EnforcerOverrideRow.ID old = "override-" +:+ form r "backend_id" +:+ "-" +:+ form r "tool_name" ->
  run (OverrideCreateHandler r tm) (Enabled e) = (Plain (HttpError 500 "%s"), Enabled e) /\
  forall a b c user at_ at',
    EnforcerOverrideRow.ID (with_default_id (EnforcerOverrideRow.mk EmptyString c (a +:+ "-" +:+ b)
      "low" "read" 5 false false user at_ at')) =
    EnforcerOverrideRow.ID (with_default_id (EnforcerOverrideRow.mk EmptyString (b +:+ "-" +:+ c) a
      "low" "read" 5 false false user at_ at')).
Proof.
  intros Hm Hok Hf Hid Hnew Hold Hsame. split.
  - rewrite admin_create_page by done. cbv zeta.
    erewrite on_upsert_taken; [done | done | | exact Hold |].
    + unfold form_override. by rewrite with_default_id_key.
    + rewrite Hsame. unfold form_override, with_default_id. by rewrite bool_decide_eq_true_2.
  - intros a b c user at_ at'. unfold with_default_id. rewrite !bool_decide_eq_true_2 by done.
    unfold default_override_id. cbn [EnforcerOverrideRow.ID EnforcerOverrideRow.ToolName
      EnforcerOverrideRow.BackendID]. by rewrite <- !str_app_assoc.
Qed.

(** A user deletes his own override and nothing else; to the override of an
    administrator or of another user the page answers the same and changes
    nothing. *)
Theorem user_delete_exact r u e k :
  meth r = "POST" -> faults (store e) = [] -> keyed_overrides (store e) ->
  Http.query r "tool_name" <> EmptyString -> Http.query r "backend_id" <> EmptyString ->
  Accounts.UserRow.ID u <> EmptyString ->
  exists e', run (UserOverrideDeleteHandler r (Some u)) (Enabled e) =
      (Plain (Redirect "/web/user/enforcer/overrides"), Enabled e') /\
    overrides (store e') !! k =
      (o ← overrides (store e) !! k;
       if decide (k = (Http.query r "tool_name", Http.query r "backend_id") /\
                  EnforcerOverrideRow.UserID o = Accounts.UserRow.ID u)
       then None else Some o).
Proof.
  intros Hm Hf Hk Ht Hb Hu.
  unfold UserOverrideDeleteHandler, allow, run, or_fail, on_db, bind, delete_user_override.
  rewrite Hm, bool_decide_eq_true_2, !bool_decide_eq_false_2 by done. cbn -[on_store].
  rewrite on_exec by done. eexists. split; [done|]. cbn.
  destruct (overrides (store e) !! k) as [o|] eqn:Ho; cbn.
  - pose proof (Hk _ _ Ho) as ->. unfold override_key_of in *. case_decide as Hd.
    + apply map_lookup_filter_None. right. intros o' Ho'. rewrite Ho in Ho'. injection Ho' as <-.
      cbn. intros Hn. apply Hn. unfold owned_override. destruct Hd as [[= <- <-] ?]. done.
    + apply map_lookup_filter_Some. split; [done|]. cbn. unfold owned_override.
      intros (E1 & E2 & ? & _). apply Hd. by rewrite E1, E2.
  - apply map_lookup_filter_None. by left.
Qed.
End OverrideTheorems.

(** ** Witnesses *)

Section Witnesses.
#[local] Existing Instance demo_cel.
#[local] Existing Instance demo_world.
Import Enforcer EnforcerHandler PolicyFacts.

Definition web_post (fields : list (string * string)) : request :=
  Request "POST" (fun k => default EmptyString (snd <$> (snd <$> list_find (fun kv => kv.1 = k) fields)))
    (fun _ => EmptyString) (fun _ => None) (fun _ => EmptyString) true.

Definition json_of (fields : list (string * string)) : option (string -> string) :=
  Some (form (web_post fields)).

Definition visit_with (r : request) (b : option (string -> string)) : inputs :=
  Inputs r b (CallEnv 7 [] (fun _ => "new")) (fun _ => []) (Ok []).

Definition web_alice : Accounts.UserRow.t :=
  Accounts.UserRow.mk "alice" "Alice" "a@x" EmptyString EmptyString "user" 0.

(** A request of bob in the queue of the administrators, already denied. *)
Definition denied_row : ApprovalRequestRow.t :=
  ApprovalRequestRow.mk "r9" "bob" "b@x" "user" 50 "slk_delete" "{}" "slack" "{}" "DENIED" "admin"
    "because" 5 15 None None "no" EmptyString "p" "m" EmptyString "{drop}" 0 EmptyString None
    EmptyString.
Definition web_enforcer : Enforcer.t :=
  enforcer_with demo_engine ∅ (set_approvals (<["r9" := denied_row]>) demo_policy_db).

Definition alice_approves : inputs :=
  visit_with (web_post []) (json_of [("approval_id", "r9"); ("comments", "fine")]).

Lemma users_cannot_administer_witness :
  let visits := [(Some web_alice, "/web/admin/enforcer/kill-switch/enable", alice_approves);
                 (None, "/web/admin/enforcer/policies/create", alice_approves);
                 (Some web_alice, "/web/user/enforcer/api/approve", alice_approves)] in
  ConsoleFacts.console_rules (serve_all (fun _ => None) visits (Enabled web_enforcer)) =
  ConsoleFacts.console_rules (Enabled web_enforcer).
Proof.
  intros visits. apply (users_cannot_administer (fun _ => None) visits (Enabled web_enforcer)).
  repeat first [apply List.Forall_nil | apply List.Forall_cons; [vm_compute; intros Hr; first [discriminate Hr | exact Hr]|]].
Defined.

(** Alice executes what an administrator refused to bob. *)
Lemma user_executes_any_request_witness :
  exists r' e', serve (fun _ => None) (Some web_alice) "/web/user/enforcer/api/approve" alice_approves
      (Enabled web_enforcer) = (Some (ExecutedJson r'), Enabled e') /\
    executed e' = [("bob", "slack", "{drop}")].
Proof.
  destruct (user_executes_any_request (fun _ => None) web_alice alice_approves
    (form (web_post [("approval_id", "r9"); ("comments", "fine")])) "r9" denied_row
    (fun _ _ body => inl (200, body)) web_enforcer eq_refl eq_refl ltac:(done) eq_refl eq_refl
    eq_refl eq_refl) as (r' & e' & H1 & _ & _ & _ & H2).
  exists r', e'. split; [exact H1 | exact H2].
Defined.

(** A policy whose expression does not compile stays in the table. *)
Definition broken_policy : request :=
  web_post [("id", "p7"); ("name", "typo"); ("expression", EmptyString); ("action", "DENY");
            ("enabled", "on"); ("from_approval", "r9")].

Lemma create_policy_page_witness :
  exists e', (run (PoliciesCreateHandler broken_policy [] 8) (Enabled web_enforcer)).2 = Enabled e' /\
    PolicyRow.Expression <$> policies (store e') !! "p7" = Some EmptyString /\ executed e' = [].
Proof.
  destruct (proj2 (create_policy_page broken_policy [] 8 web_enforcer eq_refl eq_refl eq_refl)
    ltac:(vm_compute; reflexivity)) as (e' & H1 & H2 & H3 & _).
  exists e'. split; [exact H1|]. split.
  - rewrite H2. vm_compute. reflexivity.
  - destruct (H3 ltac:(vm_compute; reflexivity)) as [_ H4]. rewrite H4. reflexivity.
Defined.

Definition switch_off : request :=
  web_post [("id", "p2"); ("name", "n"); ("expression", "true"); ("action", "DENY")].

Lemma disabled_policy_still_decides_witness :
  exists e', run (PoliciesUpdateHandler switch_off (fun _ => [])) (Enabled web_enforcer) =
      (Plain (Redirect policies_page), Enabled e') /\
    EngineFacts.matches (buildActivation demo_ctx) (engine e') "p2"
      (demo_policy "p2" "true" ActionDeny 15) /\
    PolicyRow.Enabled <$> policies (store e') !! "p2" = Some false.
Proof.
  destruct (disabled_policy_still_decides switch_off (fun _ => []) web_enforcer demo_row
    (buildActivation demo_ctx) (demo_policy "p2" "true" ActionDeny 15) eq_refl eq_refl eq_refl
    demo_keyed ltac:(done) eq_refl (demo_matches_call demo_ctx)) as (e' & H1 & H2 & H3 & _).
  exists e'. split; [exact H1|]. split; [exact H2 | exact H3].
Defined.

Definition ask_policy : inputs :=
  visit_with (web_post [("tool_name", "slk_post"); ("backend_id", "slack")]) None.

Lemma policy_request_in_no_queue_witness :
  exists row e', serve (fun _ => None) (Some web_alice) "/web/user/enforcer/policy-request" ask_policy
      (Enabled web_enforcer) =
      (Some (Plain (Redirect "/web/user/enforcer/queue?success=Policy+request+submitted")), Enabled e') /\
    row ∉ admin_queue e' /\ row ∉ user_queue e'.
Proof.
  destruct (policy_request_in_no_queue (fun _ => None) web_alice ask_policy web_enforcer eq_refl
    ltac:(apply (bool_decide_unpack _); vm_compute; exact I) eq_refl eq_refl eq_refl
    ltac:(done) ltac:(done)) as (row & e' & H1 & _ & _ & _ & H2 & H3 & _).
  exists row, e'. split; [exact H1|]. split; [exact H2 | exact H3].
Defined.

Definition tolerant : request :=
  web_post [("tool_name", "slk_post"); ("backend_id", "slack"); ("risk_level", "low");
            ("impact_scope", "read")].

Lemma user_override_applies_witness :
  exists e', run (UserOverrideCreateHandler tolerant (Some web_alice) 3) (Enabled web_enforcer) =
      (Plain (Redirect "/web/user/enforcer/overrides"), Enabled e') /\
    MetadataResolver.ResolveForUser (Some (store e')) "post" "slack" "alice" (resolver e') =
      Ok (SafetyProfile.mk "post" "slack" EmptyString "low" "read" 5 false false false "user_override").
Proof.
  destruct (user_override_applies tolerant web_alice 3 web_enforcer eq_refl eq_refl eq_refl eq_refl
    ltac:(intros k o Hk; cbn in Hk; by rewrite lookup_empty in Hk) ltac:(done) eq_refl
    ltac:(intros k o Hk; cbn in Hk; by rewrite lookup_empty in Hk))
    as (e' & H1 & _ & Hr & H2 & _).
  exists e'. split; [exact H1|]. apply H2. reflexivity.
Defined.

Lemma stream_tracks_queue_witness :
  displayed (-1) (stream "alice" (-1) [web_enforcer; web_enforcer]) = [0; 0].
Proof.
  refine (proj1 (stream_tracks_queue "alice" [web_enforcer; web_enforcer] _)).
  repeat constructor.
Defined.

Lemma user_queues_partition_witness :
  exists gs, run (UserQueuesPageHandler (fun _ => None)) (Enabled web_enforcer) =
    (UserQueuesPage gs 0, Enabled web_enforcer).
Proof.
  destruct (user_queues_partition (fun _ => None) web_enforcer eq_refl) as (gs & H1 & _).
  exists gs. exact H1.
Defined.
End Witnesses.
