(* ===== verification/Gate.v ===== *)
(** * The call sites of the enforcer

    The three handlers that put a tool call before the enforcer and act on its
    decision: [handleToolsCall] of [src/mcpbridge_routing.go], [v2toolCall] of
    [src/v2handler.go] and [handleToolsCall] of [src/mcp_handlers.go].  A
    handler is a function of the enforcer's state whose result says what the
    client gets: an error, a queued approval, or the request that is forwarded
    to a backend. *)
From S2P Require Import Prelude EnforcerTypes Heuristics Resolver CelEngine EnforcerStore Enforcer EnforcerCalls EnforcerAdmin.
From S2P Require Import Template Muxer.
From S2P Require RateLimit.
Open Scope Z_scope.
Open Scope go_scope.

(** [parse_object]: [json.Unmarshal] of a text into a map.  [clean_string]:
    what [json.Marshal] followed by [json.Unmarshal] makes of a string.  The
    other two are [json.Marshal]. *)
Class GateEnv := {
  parse_object : string -> res (list (string * json));
  clean_string : string -> string;
  marshal_body : body -> string;
  marshal_safety : SafetyProfile.t -> string
}.

(** What the client gets, up to its rendering: the status, the error code and
    the wording around the decision's message differ between the handlers. *)
Inductive response :=
| InvalidArguments (tool : string)
| MissingJustification
| Denied (message policyID : string)
| ApprovalFailed (e : error)
| Queued (approvalID queueType : string)
| Forwarded (warning : option string) (b : body) (backendID : string)
| Defaulted (warning : option string) (b : body).

(** The gate alone: go on, with the text of a warning header, or stop. *)
Inductive verdict :=
| Proceed (warning : option string)
| Stop (r : response).

Definition delete_field (fields : list (string * json)) (key : string) : list (string * json) :=
  filter (fun kv => kv.1 <> key) fields.

Definition text_field (fields : list (string * json)) (key : string) : string :=
  default EmptyString (as_string (field fields key)).

Section Gate.
Context {CL : CelLib} {EE : EnforcerEnv} {GE : GateEnv}.
Context {St : Type} {MS : MuxStore St} {ME : MuxEnv} {SH : Sha256}.
Import Enforcer Calls.

(** [shared.ParseArgsMap] *)
Definition ParseArgsMap (v : option json) : res (list (string * json)) :=
  match v with
  | Some (JObj fields) => Ok fields
  | Some (JStr s) =>
      match parse_object s with
      | Ok fields => Ok fields
      | Err e => Err (Wrapf "params was a JSON string but could not be parsed: %w" e)
      end
  | None | Some JNull => Err (Errorf "params is missing (nil)")
  | Some _ => Err (Errorf "params has unexpected type %T (expected a JSON object)")
  end.

Fixpoint sanitiseStringArgs (v : json) : json :=
  match v with
  | JObj fields => JObj (map (fun kv => (kv.1, sanitiseStringArgs kv.2)) fields)
  | JArr l => JArr (map sanitiseStringArgs l)
  | JStr s => JStr (clean_string s)
  | _ => v
  end.

(** The context of an approval request: the handlers fill in six fields. *)
Definition approval_context (userID toolName backendID justification : string)
    (args : list (string * json)) (requestBody : string) : DecisionContext.t :=
  DecisionContext.mk userID EmptyString EmptyString 0 toolName args justification
    SafetyProfile.zero 0 backendID EmptyString RateLimitInfo.zero requestBody.

(** The enforcer check: the call, and the switch on the decision's action,
    which has no default.  [env'] is the clock and the ids of the approval. *)
Definition enforce (env env' : call_env) (userID toolName : string) (args : list (string * json))
    (backendID justification requestBody : string) (opts : CallOptions) (e : t) : verdict * t :=
  let '((decision, err), e1) := handle env userID toolName args backendID justification opts e in
  let action := EnforcerDecision.act decision in
  let request queue :=
    match RequestApproval env' (approval_context userID toolName backendID justification args
            requestBody) (marshal_safety SafetyProfile.zero) (EnforcerDecision.PolicyID decision)
            (EnforcerDecision.Message decision) queue MatchContextPolicyHit e1 with
    | (Err err, e2) => (Stop (ApprovalFailed err), e2)
    | (Ok approvalID, e2) => (Stop (Queued approvalID queue), e2)
    end in
  if bool_decide (err <> None) && bool_decide (action = EmptyString) then (Proceed None, e1)
  else if bool_decide (action = ActionDeny) then
    (Stop (Denied (EnforcerDecision.Message decision) (EnforcerDecision.PolicyID decision)), e1)
  else if bool_decide (action = ActionPendingApproval) ||
          bool_decide (action = ActionPendingAdminApproval) then request "admin"
  else if bool_decide (action = ActionPendingUserApproval) then request "user"
  else if bool_decide (action = ActionWarn) then
    (Proceed (Some (EnforcerDecision.Message decision)), e1)
  else (Proceed None, e1).

(** Tools of the bridge itself and calls without a name are not checked. *)
Definition enforced (toolName : string) : bool :=
  negb (bool_decide (toolName = EmptyString)) && negb (has_prefix toolName "mcpbridge_").

(** Only the MCP handlers have to find the backend by the name. *)
Definition backend_of (visit : nat -> gset string -> list string) (toolName : string)
    (m : ToolMuxer.t St) : string :=
  if enforced toolName then
    match ToolMuxer.FindBackendForTool visit toolName m with
    | Ok (bid, _) => bid
    | Err _ => EmptyString
    end
  else EmptyString.

Definition skip_justification (st : St) (backendID : string) : bool :=
  if bool_decide (backendID = EmptyString) then false
  else match GetBackend st backendID with
       | Ok b => Backend.SkipJustification b
       | Err _ => false
       end.

(** The rest of the MCP handlers: the request goes to the backend the
    multiplexer finds, or to the default backend. *)
Definition forward (visit : nat -> gset string -> list string) (userID : string) (b : body)
    (m : ToolMuxer.t St) (warning : option string) : response :=
  match ToolMuxer.HandleToolsCall visit userID b m with
  | Ok (b', router, _) => Forwarded warning b' (PoolRouter.Backend router)
  | Err _ => Defaulted warning b
  end.

(** The check and what follows it. *)
Definition checked_call (env env' : call_env) (visit : nat -> gset string -> list string)
    (st : St) (m : ToolMuxer.t St) (userID toolName : string) (args : list (string * json))
    (justification requestBody : string) (b : body) (e : t) : response * t :=
  let backendID := backend_of visit toolName m in
  let opts := {| SkipJustification := skip_justification st backendID |} in
  if enforced toolName then
    match enforce env env' userID toolName args backendID justification requestBody opts e with
    | (Stop r, e1) => (r, e1)
    | (Proceed warning, e1) => (forward visit userID b m warning, e1)
    end
  else (forward visit userID b m None, e).

(** *** [mcpbridge_routing.go]: [MCPBridgeServer.handleToolsCall] *)

(** Tool name, arguments, justification and the body that is forwarded; or the
    name for which the arguments cannot be parsed. *)
Definition extract (b : body) :
    string + (string * list (string * json) * string * body) :=
  match b with
  | None => inr (EmptyString, [], EmptyString, b)
  | Some toolReq =>
      match as_object (field toolReq "params") with
      | None => inr (EmptyString, [], EmptyString, b)
      | Some params =>
          let toolName := text_field params "name" in
          match ParseArgsMap (field params "arguments") with
          | Err _ => inl toolName
          | Ok parsed =>
              let given := text_field parsed "justification" in
              let toolArgs := delete_field parsed "justification" in
              let params' := set_field params "arguments" (sanitiseStringArgs (JObj toolArgs)) in
              let b' := Some (set_field toolReq "params" (JObj params')) in
              let justification := if bool_decide (given = EmptyString)
                                   then text_field params' "justification" else given in
              inr (toolName, toolArgs, justification, b')
          end
      end
  end.

Definition handleToolsCall (env env' : call_env) (visit : nat -> gset string -> list string)
    (st : St) (m : ToolMuxer.t St) (userID : string) (b : body) (e : t) : response * t :=
  match extract b with
  | inl toolName => (InvalidArguments toolName, e)
  | inr (toolName, toolArgs, justification, b') =>
      checked_call env env' visit st m userID toolName toolArgs justification (marshal_body b')
        b' e
  end.

(** *** [mcp_handlers.go]: [handleToolsCall] *)

(** Neither the body nor its text is taken from the cleaned arguments. *)
Definition extract_legacy (b : body) : string * list (string * json) * string :=
  match b with
  | None => (EmptyString, [], EmptyString)
  | Some toolReq =>
      match as_object (field toolReq "params") with
      | None => (EmptyString, [], EmptyString)
      | Some params =>
          let toolArgs := default [] (as_object (field params "arguments")) in
          let given := text_field toolArgs "justification" in
          (text_field params "name", delete_field toolArgs "justification",
           if bool_decide (given = EmptyString) then text_field params "justification" else given)
      end
  end.

Definition handleToolsCall_legacy (env env' : call_env)
    (visit : nat -> gset string -> list string) (st : St) (m : ToolMuxer.t St)
    (userID : string) (b : body) (e : t) : response * t :=
  let '(toolName, toolArgs, justification) := extract_legacy b in
  checked_call env env' visit st m userID toolName toolArgs justification EmptyString b e.

(** *** [v2handler.go]: [v2toolCall]

    From the justification on: namespace and tool were checked to exist. *)
Definition v2_request (toolName : string) (toolParams : list (string * json)) (id : json) : body :=
  Some [("jsonrpc", JStr "2.0"); ("method", JStr "tools/call");
        ("params", JObj [("name", JStr toolName); ("arguments", JObj toolParams)]); ("id", id)].

Definition v2toolCall (env env' : call_env) (userID namespace toolName : string)
    (backend : Backend.t) (params toolParams : list (string * json)) (id reqID : json) (e : t) :
    response * t :=
  let given := as_string (field params "justification") in
  let justification := default EmptyString given in
  if negb (Backend.SkipJustification backend) && bool_decide (given = Some EmptyString)
  then (MissingJustification, e)
  else
    let opts := {| SkipJustification := Backend.SkipJustification backend |} in
    let go warning := Forwarded warning (v2_request toolName toolParams reqID) namespace in
    if has_prefix toolName "mcpbridge_" then (go None, e)
    else match enforce env env' userID toolName toolParams namespace justification
                 (marshal_body (v2_request toolName toolParams id)) opts e with
         | (Stop r, e1) => (r, e1)
         | (Proceed warning, e1) => (go warning, e1)
         end.
End Gate.

(** * Properties *)

Module GateFacts.
Section Facts.
Context {CL : CelLib} {EE : EnforcerEnv} {GE : GateEnv}.
Context {St : Type} {MS : MuxStore St} {ME : MuxEnv} {SH : Sha256}.
Import Enforcer Calls CallFacts.

(** A request for approval, with any faults: one pending row, or none. *)
Lemma request_cases env ctx safety pid msg queue mctx e :
  let r := RequestApproval env ctx safety pid msg queue mctx e in
  executed r.2 = executed e /\ rateLimit r.2 = rateLimit e /\
  match r.1 with
  | Ok id => id = uuid env 0 /\
      exists row, approvals (store r.2) = <[id := row]> (approvals (store e)) /\
        ApprovalRequestRow.Status row = "PENDING" /\
        ApprovalRequestRow.UserID row = DecisionContext.UserID ctx /\
        ApprovalRequestRow.ToolName row = DecisionContext.Tool ctx /\
        ApprovalRequestRow.BackendID row = DecisionContext.BackendID ctx /\
        ApprovalRequestRow.RequestBody row = DecisionContext.RequestBody ctx /\
        ApprovalRequestRow.QueueType row = queue
  | Err _ => approvals (store r.2) = approvals (store e)
  end.
Proof.
  unfold RequestApproval, on_store, CreateApprovalRequest, exec_checked.
  match goal with |- context [stmt ?f (store e)] =>
    destruct (stmt_cases f (store e)) as [(fs & _ & ->)|(fs & _ & ->)] end; [done|].
  cbn -[with_store]. case_if; cbn; [|done].
  split_and!; try done. eexists. split; [reflexivity|]. done.
Qed.

(** What the gate may answer to a decision. *)
Inductive answers (env' : call_env) (u tl b body : string) (d : EnforcerDecision.t)
    (err : option error) (e1 : t) : verdict -> t -> Prop :=
| ignored_error :
    err <> None -> EnforcerDecision.act d = EmptyString ->
    answers env' u tl b body d err e1 (Proceed None) e1
| denied :
    EnforcerDecision.act d = ActionDeny ->
    answers env' u tl b body d err e1
      (Stop (Denied (EnforcerDecision.Message d) (EnforcerDecision.PolicyID d))) e1
| queued row e2 :
    RequiresApproval (EnforcerDecision.act d) = true ->
    let queue := if RequiresUserApproval (EnforcerDecision.act d) then "user" else "admin" in
    executed e2 = executed e1 -> rateLimit e2 = rateLimit e1 ->
    approvals (store e2) = <[uuid env' 0 := row]> (approvals (store e1)) ->
    ApprovalRequestRow.Status row = "PENDING" -> ApprovalRequestRow.UserID row = u ->
    ApprovalRequestRow.ToolName row = tl -> ApprovalRequestRow.BackendID row = b ->
    ApprovalRequestRow.RequestBody row = body -> ApprovalRequestRow.QueueType row = queue ->
    answers env' u tl b body d err e1 (Stop (Queued (uuid env' 0) queue)) e2
| not_queued er e2 :
    RequiresApproval (EnforcerDecision.act d) = true ->
    executed e2 = executed e1 -> rateLimit e2 = rateLimit e1 ->
    approvals (store e2) = approvals (store e1) ->
    answers env' u tl b body d err e1 (Stop (ApprovalFailed er)) e2
| let_through warning :
    (err = None \/ EnforcerDecision.act d <> EmptyString) ->
    IsDenyAction (EnforcerDecision.act d) = false ->
    RequiresApproval (EnforcerDecision.act d) = false ->
    warning = (if RequiresWarning (EnforcerDecision.act d)
               then Some (EnforcerDecision.Message d) else None) ->
    answers env' u tl b body d err e1 (Proceed warning) e1.

Lemma enforce_answers env env' u tl args b j body opts e :
  let r := handle env u tl args b j opts e in
  let v := enforce env env' u tl args b j body opts e in
  answers env' u tl b body r.1.1 r.1.2 r.2 v.1 v.2.
Proof.
  unfold enforce. destruct (handle env u tl args b j opts e) as [[d err] e1]. cbn [fst snd].
  assert (Hreq : forall queue, RequiresApproval (EnforcerDecision.act d) = true ->
    queue = (if RequiresUserApproval (EnforcerDecision.act d) then "user" else "admin") ->
    let r := match RequestApproval env' (approval_context u tl b j args body)
                    (marshal_safety SafetyProfile.zero) (EnforcerDecision.PolicyID d)
                    (EnforcerDecision.Message d) queue MatchContextPolicyHit e1 with
             | (Err err, e2) => (Stop (ApprovalFailed err), e2)
             | (Ok approvalID, e2) => (Stop (Queued approvalID queue), e2)
             end in answers env' u tl b body d err e1 r.1 r.2).
  { intros queue Ha ->. pose proof (request_cases env' (approval_context u tl b j args body)
      (marshal_safety SafetyProfile.zero) (EnforcerDecision.PolicyID d)
      (EnforcerDecision.Message d)
      (if RequiresUserApproval (EnforcerDecision.act d) then "user" else "admin")
      MatchContextPolicyHit e1) as (Hx & Hl & Hr).
    destruct (RequestApproval _ _ _ _ _ _ _ _) as [[id|er] e2]; cbn [fst snd] in *.
    - destruct Hr as (-> & row & ? & ? & ? & ? & ? & ? & ?). by eapply queued.
    - by apply not_queued. }
  destruct (_ && _) eqn:Hi; [apply andb_true_iff in Hi as [?%bool_decide_eq_true_1 ?%bool_decide_eq_true_1];
    by apply ignored_error|].
  assert (Hok : err = None \/ EnforcerDecision.act d <> EmptyString).
  { apply andb_false_iff in Hi as [Hi|Hi]; apply bool_decide_eq_false_1 in Hi; [left | by right].
    destruct err; [by destruct Hi | done]. }
  clear Hi. case_bool_decide as Hd; [by apply denied|].
  destruct (_ || _) eqn:Ha; [|apply orb_false_iff in Ha as [Ha1%bool_decide_eq_false_1 Ha2%bool_decide_eq_false_1]].
  { apply orb_true_iff in Ha. rewrite !bool_decide_eq_true in Ha.
    apply Hreq; destruct Ha as [-> | ->]; reflexivity. }
  case_bool_decide as Hu; [apply Hreq; by rewrite Hu|].
  assert (Hdeny : IsDenyAction (EnforcerDecision.act d) = false)
    by (rewrite <- not_true_iff_false, IsDenyAction_spec; done).
  assert (Happ : RequiresApproval (EnforcerDecision.act d) = false)
    by (rewrite <- not_true_iff_false, RequiresApproval_spec; tauto).
  case_bool_decide as Hw; apply let_through; try done.
  - by rewrite Hw.
  - assert (RequiresWarning (EnforcerDecision.act d) = false) as ->; [|done].
    by rewrite <- not_true_iff_false, RequiresWarning_spec.
Qed.

(** What is forwarded goes to one backend or the other. *)
Lemma forward_cases visit u b (m : ToolMuxer.t St) w :
  (exists b' bk, forward visit u b m w = Forwarded w b' bk) \/
  forward visit u b m w = Defaulted w b.
Proof. unfold forward. destruct (ToolMuxer.HandleToolsCall _ _ _ _) as [[[? ?] ?]|]; eauto. Qed.

(** Only the first tier of the resolution is an override of the administrator. *)
Lemma resolve_not_override {PS} {PST : ToolProfileStore PS} (ps : option PS) tl b u r :
  MetadataResolver.GetOverride tl b r = None ->
  exists q, MetadataResolver.ResolveForUser ps tl b u r = Ok q /\
    SafetyProfile.Source q <> "override".
Proof.
  unfold MetadataResolver.GetOverride, MetadataResolver.ResolveForUser,
    MetadataResolver.admin_tier. intros ->. cbn [fmap option_fmap option_map].
  destruct (MetadataResolver.user_tier ps tl b u) as [q|] eqn:Hq; [|
    destruct (MetadataResolver.stored_tier ps tl b) as [q|] eqn:Hq2]; eexists; (split; [done|]).
  - unfold MetadataResolver.user_tier in Hq. by repeat case_match; simplify_eq.
  - unfold MetadataResolver.stored_tier, sourceFromRawProfile in Hq2.
    by repeat case_match; simplify_eq.
  - done.
Qed.
End Facts.
End GateFacts.

Section GateTheorems.
Context {CL : CelLib} {EE : EnforcerEnv} {GE : GateEnv}.
Context {St : Type} {MS : MuxStore St} {ME : MuxEnv} {SH : Sha256}.
Import Enforcer Calls CallFacts GateFacts.

(** C1: the handlers do with a checked call exactly what the enforcer decided,
    whatever statements of the store fail.  A request is forwarded only when
    the decision neither denies nor asks for approval, or when the enforcer
    failed without a decision; it then changes nothing more.  A denial is
    answered with the message of the decision.  A call that needs approval
    puts one pending request with the caller, the tool and the body into the
    queue of the decision, or reports that it could not; nothing is executed. *)
Theorem checked_call_outcome env env' visit (st : St) m u tl args j body b e :
  enforced tl = true ->
  let bk := backend_of visit tl m in
  let r := handle env u tl args bk j {| SkipJustification := skip_justification st bk |} e in
  let act := EnforcerDecision.act r.1.1 in
  let out := checked_call env env' visit st m u tl args j body b e in
  match out.1 with
  | Forwarded _ _ _ | Defaulted _ _ =>
      out.2 = r.2 /\
      ((r.1.2 <> None /\ act = EmptyString) \/
       (IsDenyAction act = false /\ RequiresApproval act = false))
  | Denied msg pid =>
      out.2 = r.2 /\ act = ActionDeny /\ msg = EnforcerDecision.Message r.1.1 /\
      pid = EnforcerDecision.PolicyID r.1.1
  | Queued id queue =>
      RequiresApproval act = true /\
      queue = (if RequiresUserApproval act then "user" else "admin") /\
      executed out.2 = executed r.2 /\ rateLimit out.2 = rateLimit r.2 /\
      exists row, approvals (store out.2) = <[id := row]> (approvals (store r.2)) /\
        ApprovalRequestRow.Status row = "PENDING" /\ ApprovalRequestRow.UserID row = u /\
        ApprovalRequestRow.ToolName row = tl /\ ApprovalRequestRow.BackendID row = bk /\
        ApprovalRequestRow.RequestBody row = body /\ ApprovalRequestRow.QueueType row = queue
  | ApprovalFailed _ =>
      RequiresApproval act = true /\ executed out.2 = executed r.2 /\
      approvals (store out.2) = approvals (store r.2)
  | InvalidArguments _ | MissingJustification => False
  end.
Proof.
  intros Hen bk r act out. unfold out, checked_call. rewrite Hen. fold bk.
  pose proof (enforce_answers env env' u tl args bk j body
    {| SkipJustification := skip_justification st bk |} e) as Ha.
  cbv zeta in Ha. fold r in Ha.
  destruct (enforce env env' u tl args bk j body _ e) as [v e2]; cbn [fst snd] in Ha.
  destruct Ha as [Her Hact| Hd | row e2 Hr queue | er e2 Hr | w Hok Hdn Hr Hw]; cbn [fst snd].
  - destruct (forward_cases visit u b m None) as [(b' & bk' & ->)| ->]; (split; [done|]); by left.
  - done.
  - split_and!; try done. exists row. split_and!; done.
  - done.
  - destruct (forward_cases visit u b m w) as [(b' & bk' & ->)| ->]; (split; [done|]); by right.
Qed.

(** C16: the emergency stop does not stop calls.  While a kill switch is on for
    the backend or globally, every justified call is forwarded to the backend,
    without a warning, without a trace in the audit log and without consuming
    any budget: the enforcer returns its error with an empty decision, and the
    handlers of both protocols only log that. *)
Theorem kill_switch_fails_open env env' u tl args b j body opts e :
  justification_gate (config e) opts j = None ->
  EnforcerConfig.EnableKillSwitch (config e) = true -> faults (store e) = [] ->
  switch_enabled b (store e) || switch_enabled "global" (store e) = true ->
  enforced tl = true ->
  let e' := (enforce env env' u tl args b j body opts e).2 in
  rateLimit e' = rateLimit e /\ audit_log (store e') = audit_log (store e) /\
  (forall visit (st : St) m request,
     backend_of visit tl m = b -> skip_justification st b = SkipJustification opts ->
     checked_call env env' visit st m u tl args j body request e =
       (forward visit u request m None, e')) /\
  (forall backend params id reqID,
     default EmptyString (as_string (field params "justification")) = j ->
     Backend.SkipJustification backend = SkipJustification opts ->
     marshal_body (v2_request tl args id) = body ->
     as_string (field params "justification") <> Some EmptyString ->
     v2toolCall env env' u b tl backend params args id reqID e =
       (Forwarded None (v2_request tl args reqID) b, e')).
Proof.
  intros Hj Hcfg Hf Hon Hen e'.
  destruct (killed_call env u tl args b j opts e Hj Hcfg Hf Hon) as (Hr & Hl & Ha).
  assert (enforce env env' u tl args b j body opts e = (Proceed None, e') /\
               e' = (handle env u tl args b j opts e).2) as [Hv He'].
  { unfold e', enforce. destruct (handle env u tl args b j opts e) as [[d err] e1].
    cbn [fst snd] in *. by injection Hr as -> ->. }
  clearbody e'. destruct opts as [skip]. cbn [SkipJustification] in *.
  split_and!; [by rewrite He'..| |].
  - intros visit st m request Hb Hs. unfold checked_call. rewrite Hen, Hb, Hs. by rewrite Hv.
  - intros backend params id reqID Hjust Hs Hbody Hne. unfold v2toolCall.
    rewrite (bool_decide_eq_false_2 _ Hne), andb_false_r, Hjust, Hs, Hbody.
    unfold enforced in Hen. apply andb_true_iff in Hen as [_ Hen%negb_true_iff].
    by rewrite Hen, Hv.
Qed.

(** Only calls named by [params.name], written exactly so, are checked.  A
    call whose name stands elsewhere (in a key that differs in case, or in the
    legacy list of tools) is routed by the multiplexer, which decodes the
    request into a struct, and forwarded to the backend, without a
    justification, whatever the policies, approvals and kill switches say, and
    the enforcer never sees it. *)
Theorem unnamed_call_unchecked env env' visit (st : St) m u b args j b' name tools bk p cfg vars e :
  extract b = inr (EmptyString, args, j, b') ->
  decode_tools_call b' = Ok (name, tools) ->
  let n := if bool_decide (name = EmptyString) then default name (head tools) else name in
  n <> EmptyString -> ToolMuxer.FindBackendForTool visit n m = Ok (bk, p) ->
  ToolMuxer.getBackendConfig bk m = Some cfg -> ToolMuxer.BuildEnvForUser visit u bk m = Ok vars ->
  exists b'', handleToolsCall env env' visit st m u b e = (Forwarded None b'' bk, e).
Proof.
  intros Hx Hdec n Hn Hfind Hcfg Hvars. unfold handleToolsCall. rewrite Hx.
  unfold checked_call. cbn -[ToolMuxer.HandleToolsCall]. unfold forward, ToolMuxer.HandleToolsCall.
  rewrite Hdec.
  assert ((if bool_decide (name = EmptyString) then match tools with [] => name | n :: _ => n end
           else name) = n) as -> by (unfold n; by destruct tools).
  rewrite bool_decide_eq_false_2 by done. rewrite Hfind, Hcfg, Hvars. eauto.
Qed.

(** Every tool has a second name.  With a slash instead of the underscore
    after the prefix a call reaches the same tool of the same backend, but the
    overrides, which are kept under the listed name, are not found: the
    administrator's override of the tool does not apply to it. *)
Theorem slash_alias_loses_override {PS} {PST : ToolProfileStore PS} visit (m : ToolMuxer.t St)
    (ps : option PS) p b name user o r :
  visits visit -> ToolMuxer.backendPrefixes m !! p = Some b ->
  let listed := p +:+ "_" +:+ name in
  let alias := p +:+ "/" +:+ name in
  (forall p', MuxerFacts.matching listed m p' \/ MuxerFacts.matching alias m p' -> p' = p) ->
  has_prefix name (p +:+ "/") = false -> has_prefix alias (p +:+ "_") = false ->
  MetadataResolver.GetOverride listed b r = Some o ->
  MetadataResolver.GetOverride alias b r = None ->
  (ToolMuxer.FindBackendForTool visit listed m = Ok (b, p) /\
   ToolMuxer.FindBackendForTool visit alias m = Ok (b, p)) /\
  (ToolMuxer.stripped_name listed p = name /\ ToolMuxer.stripped_name alias p = name) /\
  (exists q, MetadataResolver.ResolveForUser ps listed b user r = Ok q /\
     SafetyProfile.Source q = "override") /\
  (exists q, MetadataResolver.ResolveForUser ps alias b user r = Ok q /\
     SafetyProfile.Source q <> "override").
Proof.
  intros Hv Hp listed alias Hu Hs Hs' Ho Hno. split_and!.
  - apply MuxerFacts.FindBackendForTool_unique; auto. unfold ToolMuxer.matches_prefix, listed.
    by rewrite str_app_assoc, has_prefix_app.
  - apply MuxerFacts.FindBackendForTool_unique; auto. unfold ToolMuxer.matches_prefix, alias.
    rewrite str_app_assoc, has_prefix_app. apply orb_true_r.
  - unfold ToolMuxer.stripped_name, listed. rewrite str_app_assoc, trim_prefix_app.
    unfold trim_prefix. by rewrite Hs.
  - unfold ToolMuxer.stripped_name, trim_prefix at 2. rewrite Hs'.
    unfold alias. by rewrite str_app_assoc, trim_prefix_app.
  - unfold MetadataResolver.ResolveForUser, MetadataResolver.admin_tier.
    unfold MetadataResolver.GetOverride in Ho. rewrite Ho. eexists. split; reflexivity.
  - by apply resolve_not_override.
Qed.

(** A call queued by the handler of [mcp_handlers.go] cannot be replayed:
    the request it stores has no body, so approving it hands an empty request
    to the executor. *)
Theorem legacy_approval_replays_nothing env env' visit (st : St) m u b e id queue e' who comments
    tm exec :
  handleToolsCall_legacy env env' visit st m u b e = (Queued id queue, e') ->
  faults (store e') = [] -> execute_request = Some exec ->
  executed (execute id who comments tm e').2 =
    executed e' ++ [(u, backend_of visit (extract_legacy b).1.1 m, EmptyString)].
Proof.
  unfold handleToolsCall_legacy. destruct (extract_legacy b) as [[tl args] j]. cbn [fst].
  unfold checked_call. set (bk := backend_of visit tl m). destruct (enforced tl).
  - pose proof (enforce_answers env env' u tl args bk j EmptyString
      {| SkipJustification := skip_justification st bk |} e) as Ha. cbv zeta in Ha.
    destruct (enforce env env' u tl args bk j _ _ e) as [[w|r] e2]; cbn [fst snd] in Ha.
    + by destruct (forward_cases visit u b m w) as [(b' & bk' & ->)| ->].
    + intros [= -> ->] Hf Hexec. inversion Ha; subst.
      match goal with H : approvals _ = <[_ := ?row]> _ |- _ =>
        assert (Hrow : approvals (store e') !! uuid env' 0 = Some row)
          by (rewrite H; apply lookup_insert_eq);
        destruct (ApprovalFacts.execute_ok _ who comments tm e' row exec Hf Hrow Hexec)
          as (_ & _ & _ & ->) end.
      congruence.
  - by destruct (forward_cases visit u b m None) as [(b' & bk' & ->)| ->].
Qed.
End GateTheorems.

(** ** Concrete calls *)

Definition demo_gate : GateEnv := {|
  parse_object := fun _ => Err (Errorf "not an object");
  clean_string := fun s => s;
  marshal_body := fun _ => "{body}";
  marshal_safety := fun _ => "{}"
|}.

Section Witnesses.
#[local] Existing Instance demo_cel.
#[local] Existing Instance demo_world.
#[local] Existing Instance demo_gate.
#[local] Existing Instance demo_mux_env.
#[local] Existing Instance demo_sha.
#[local] Existing Instance db_profile_store.
Import Enforcer Calls.

Definition demo_tables_store : DemoTables.t :=
  DemoTables.mk [demo_backend "slack" "slk"; demo_backend "github" "gh"] [].

Definition fresh_enforcer : t := enforcer_with CELEngine.NewCELEngine ∅ empty_db.

(** A tool nobody vouched for, in the queue of the administrators. *)
Definition demo_checked : response * t :=
  checked_call plain_call plain_call by_elements demo_tables_store demo_mux "alice" "slk_purge" []
    why "{body}" None fresh_enforcer.

Lemma demo_checked_queued : demo_checked.1 = Queued "id" "admin".
Proof. vm_compute. reflexivity. Qed.

Lemma checked_call_outcome_witness :
  exists row, approvals (store demo_checked.2) !! "id" = Some row /\
    ApprovalRequestRow.RequestBody row = "{body}".
Proof.
  pose proof (checked_call_outcome plain_call plain_call by_elements demo_tables_store demo_mux
    "alice" "slk_purge" [] why "{body}" None fresh_enforcer eq_refl) as H.
  cbv zeta in H. fold demo_checked in H. rewrite demo_checked_queued in H.
  destruct H as (_ & _ & _ & _ & row & Happ & _ & _ & _ & _ & Hbody & _).
  exists row. rewrite Happ. split; [apply lookup_insert_eq | exact Hbody].
Defined.

Definition killed_enforcer : t := enforcer_with CELEngine.NewCELEngine ∅ killed_db.

Lemma kill_switch_fails_open_witness :
  (checked_call plain_call plain_call by_elements demo_tables_store demo_mux "alice" "slk_purge" []
     why "{body}" (Some (demo_request "slk_purge")) killed_enforcer).1 =
  forward by_elements "alice" (Some (demo_request "slk_purge")) demo_mux None.
Proof.
  destruct (kill_switch_fails_open (St := DemoTables.t) plain_call plain_call "alice" "slk_purge" []
    "slack" why "{body}" demo_opts killed_enforcer eq_refl eq_refl eq_refl eq_refl eq_refl)
    as (_ & _ & H & _).
  rewrite (H by_elements demo_tables_store demo_mux (Some (demo_request "slk_purge")));
    [reflexivity | vm_compute; reflexivity | vm_compute; reflexivity].
Defined.

(** The name under a key the checks do not look at. *)
Definition renamed_params : list (string * json) :=
  [("Name", JStr "slk_purge"); ("arguments", JObj [])].
Definition renamed_request : list (string * json) :=
  [("method", JStr "tools/call"); ("params", JObj renamed_params)].

Lemma unnamed_call_unchecked_witness :
  exists b, handleToolsCall plain_call plain_call by_elements demo_tables_store demo_mux "u1"
      (Some renamed_request) killed_enforcer = (Forwarded None b "slack", killed_enforcer).
Proof.
  apply (unnamed_call_unchecked plain_call plain_call by_elements demo_tables_store demo_mux "u1"
    (Some renamed_request) [] EmptyString (Some renamed_request) "slk_purge" [] "slack" "slk"
    (Config.mk "run" 1 1 2 {["DB" := "db_{{users.id}}"]} {["TOKEN" := "SLACK_TOKEN"]} "newline")
    ["SLACK_TOKEN=xoxb"; "DB=db_u1"; "PATH=/bin"] killed_enforcer).
  - vm_compute. reflexivity.
  - reflexivity.
  - discriminate.
  - vm_compute. reflexivity.
  - vm_compute. reflexivity.
  - vm_compute. reflexivity.
Defined.

Lemma demo_alias_routing p :
  MuxerFacts.matching "slk_post" demo_mux p \/ MuxerFacts.matching "slk/post" demo_mux p ->
  p = "slk".
Proof.
  intros [H|[Hd Hm]]; [by apply demo_routing|]. rewrite demo_prefixes in Hd.
  rewrite dom_insert_L, dom_singleton_L in Hd.
  assert (p = "gh" \/ p = "slk") as [->| ->] by set_solver; [by vm_compute in Hm | done].
Qed.

Lemma slash_alias_loses_override_witness :
  exists q, MetadataResolver.ResolveForUser (Some empty_db) "slk/post" "slack" "alice"
      (MetadataResolver.mk demo_overrides) = Ok q /\ SafetyProfile.Source q <> "override".
Proof.
  apply (slash_alias_loses_override by_elements demo_mux (Some empty_db) "slk" "slack" "post" "alice"
    demo_override (MetadataResolver.mk demo_overrides)).
  - exact by_elements_visits.
  - vm_compute. reflexivity.
  - exact demo_alias_routing.
  - reflexivity.
  - reflexivity.
  - vm_compute. reflexivity.
  - vm_compute. reflexivity.
Defined.

Definition demo_legacy : response * t :=
  handleToolsCall_legacy plain_call plain_call by_elements demo_tables_store demo_mux "alice"
    (Some [("params", JObj [("name", JStr "slk_purge");
                            ("arguments", JObj [("justification", JStr why)])])])
    fresh_enforcer.

Lemma legacy_approval_replays_nothing_witness :
  executed (execute "id" "root" "ok" 5 demo_legacy.2).2 = [("alice", "slack", EmptyString)].
Proof.
  assert (E : demo_legacy = (Queued "id" "admin", demo_legacy.2)) by (vm_compute; reflexivity).
  assert (Hf : faults (store demo_legacy.2) = []) by (vm_compute; reflexivity).
  assert (Hx : executed demo_legacy.2 = []) by (vm_compute; reflexivity).
  pose proof (legacy_approval_replays_nothing plain_call plain_call by_elements demo_tables_store
    demo_mux "alice" _ fresh_enforcer "id" "admin" demo_legacy.2 "root" "ok" 5
    (fun _ _ body => inl (200, body)) E Hf eq_refl) as H.
  rewrite Hx in H. etransitivity; [exact H|]. vm_compute. reflexivity.
Defined.
End Witnesses.
