(* ===== verification/PoolRequests.v ===== *)
(** * The request table of a pool: [src/poolmgr/pool.go]

    Requests wait for the response with their JSON-RPC id.  [RegisterRequest]
    makes a channel and a 30 second timer and puts them into the table under
    the id; the dispatcher hands a response to the channel found under its id;
    the timer closes the channel found under the id when it fires.  A
    registration is known by its number: that of its channel and its timer.  A
    pool serves the requests of many HTTP calls at once, so the operations
    interleave in any order; each holds the mutex of the table while it runs. *)
From S2P Require Import Prelude.
From stdpp Require Import gmap.

(** A channel of capacity one. *)
Module RespChan.
Record t := mk { buffered : option string; closed : bool }.
End RespChan.

Module Requests.

(** [PendingRequest] is the number of the registration. *)
Record t := mk {
  pendingRequests : gmap string nat;
  channels : gmap nat RespChan.t;
  (** The timers that can still fire, with the id each of them captured. *)
  timers : gmap nat string;
  next : nat;
  (** A send on a closed channel or a second close: the process dies. *)
  panicked : bool
}.

Definition empty : t := mk ∅ ∅ ∅ O false.

(** The entry of an id in use is overwritten; its timer keeps running. *)
Definition RegisterRequest (id : string) (s : t) : nat * t :=
  let n := next s in
  (n, mk (<[id := n]> (pendingRequests s)) (<[n := RespChan.mk None false]> (channels s))
         (<[n := id]> (timers s)) (S n) (panicked s)).

Definition UnregisterRequest (id : string) (s : t) : t :=
  match pendingRequests s !! id with
  | None => s
  | Some n => mk (delete id (pendingRequests s)) (channels s) (delete n (timers s)) (next s)
                 (panicked s)
  end.

Definition is_closed (n : nat) (s : t) : bool :=
  match channels s !! n with Some c => RespChan.closed c | None => false end.

(** The function of the timer of registration [n]. *)
Definition fire (n : nat) (s : t) : t :=
  match timers s !! n with
  | None => s
  | Some id =>
      let ts := delete n (timers s) in
      match pendingRequests s !! id with
      | None => mk (pendingRequests s) (channels s) ts (next s) (panicked s)
      | Some m =>
          mk (delete id (pendingRequests s))
             (alter (fun c => RespChan.mk (RespChan.buffered c) true) m (channels s))
             ts (next s) (panicked s || is_closed m s)
      end
  end.

(** One turn of [responseDispatcher]; [None]: not a response with an id.  A
    response for a full channel is dropped. *)
Definition dispatch (id : option string) (data : string) (s : t) : t :=
  match id with
  | None => s
  | Some id =>
      match pendingRequests s !! id with
      | None => s
      | Some m =>
          mk (pendingRequests s)
             (alter (fun c => match RespChan.buffered c with
                              | None => RespChan.mk (Some data) (RespChan.closed c)
                              | Some _ => c
                              end) m (channels s))
             (timers s) (next s) (panicked s || is_closed m s)
      end
  end.

(** What a receive on the channel gives: a value, the zero value of a closed
    channel, or nothing yet. *)
Inductive received := Got (data : string) | Closed | Blocked.

Definition receive (n : nat) (s : t) : received * t :=
  match channels s !! n with
  | None => (Blocked, s)
  | Some c =>
      match RespChan.buffered c with
      | Some data => (Got data, mk (pendingRequests s)
                        (<[n := RespChan.mk None (RespChan.closed c)]> (channels s))
                        (timers s) (next s) (panicked s))
      | None => ((if RespChan.closed c then Closed else Blocked), s)
      end
  end.

End Requests.

(** ** Interleavings *)

Inductive request_op :=
| ORegister (id : string)
| OUnregister (id : string)
| OFire (n : nat)
| ODispatch (id : option string) (data : string)
| OReceive (n : nat).

#[export] Instance request_op_eq_dec : EqDecision request_op.
Proof. solve_decision. Defined.

Definition request_step (o : request_op) (s : Requests.t) : Requests.t :=
  match o with
  | ORegister id => (Requests.RegisterRequest id s).2
  | OUnregister id => Requests.UnregisterRequest id s
  | OFire n => Requests.fire n s
  | ODispatch id data => Requests.dispatch id data s
  | OReceive n => (Requests.receive n s).2
  end.

Definition request_run (ops : list request_op) (s : Requests.t) : Requests.t :=
  foldl (fun s o => request_step o s) s ops.

(** * Properties *)

Module RequestFacts.
Import Requests.

(** Registrations in the table are numbers below [next], one id each, and
    their channels are open. *)
Record ok (s : t) : Prop := {
  ok_open : forall id n, pendingRequests s !! id = Some n ->
    (n < next s)%nat /\ exists c, channels s !! n = Some c /\ RespChan.closed c = false;
  ok_inj : forall id id' n, pendingRequests s !! id = Some n ->
    pendingRequests s !! id' = Some n -> id = id';
  ok_alive : panicked s = false
}.

Lemma requests_empty_ok : ok empty.
Proof. split; intros; try done; by rewrite lookup_empty in *. Qed.

Lemma ok_not_closed s id n : ok s -> pendingRequests s !! id = Some n -> is_closed n s = false.
Proof. intros Hok Hp. destruct (ok_open _ Hok _ _ Hp) as [_ (c & Hc & Ho)].
  unfold is_closed. by rewrite Hc. Qed.

Lemma request_step_ok o s : ok s -> ok (request_step o s).
Proof.
  intros Hok. destruct o as [id|id|n|[id|] data|n]; simpl; [| | | |done|].
  - split; simpl; [| |apply Hok].
    + intros id' n [[<- <-]|[Hne Hp]]%lookup_insert_Some.
      * split; [lia|]. rewrite lookup_insert_eq. eauto.
      * destruct (ok_open _ Hok _ _ Hp) as [Hlt Hc]. split; [lia|].
        rewrite lookup_insert_ne by lia. done.
    + intros id1 id2 n H1 H2.
      apply lookup_insert_Some in H1 as [[<- <-]|[? H1]];
        apply lookup_insert_Some in H2 as [[<- H2]|[? H2]]; try done.
      * destruct (ok_open _ Hok _ _ H2) as [? _]. lia.
      * subst. destruct (ok_open _ Hok _ _ H1) as [? _]. lia.
      * by eapply (ok_inj _ Hok).
  - unfold UnregisterRequest. destruct (pendingRequests s !! id) as [n|] eqn:Hp; [|done].
    split; simpl; [| |apply Hok].
    + intros id' n' [_ Hp']%lookup_delete_Some. by apply (ok_open _ Hok) in Hp'.
    + intros id1 id2 n' [_ H1]%lookup_delete_Some [_ H2]%lookup_delete_Some.
      by eapply (ok_inj _ Hok).
  - unfold fire. destruct (timers s !! n) as [id|]; [|done].
    destruct (pendingRequests s !! id) as [m|] eqn:Hp; split; simpl;
      try by apply Hok.
    + intros id' n' [Hne Hp']%lookup_delete_Some.
      assert (m <> n') by (intros ->; by destruct Hne; eapply (ok_inj _ Hok)).
      rewrite lookup_alter_ne by done. by apply (ok_open _ Hok) in Hp'.
    + intros id1 id2 n' [_ H1]%lookup_delete_Some [_ H2]%lookup_delete_Some.
      by eapply (ok_inj _ Hok).
    + by rewrite (ok_alive _ Hok), (ok_not_closed _ _ _ Hok Hp).
  - destruct (pendingRequests s !! id) as [m|] eqn:Hp; [|done].
    split; simpl; [|apply Hok|by rewrite (ok_alive _ Hok), (ok_not_closed _ _ _ Hok Hp)].
    intros id' n' Hp'. destruct (ok_open _ Hok _ _ Hp') as [Hlt (c & Hc & Ho)]. split; [done|].
    destruct (decide (m = n')) as [->|Hne].
    + rewrite lookup_alter_eq, Hc. simpl. eexists. split; [done|]. by destruct (RespChan.buffered c).
    + rewrite lookup_alter_ne by done. eauto.
  - unfold receive. destruct (channels s !! n) as [c|] eqn:Hc; [|done].
    destruct (RespChan.buffered c) as [data|]; [|done]. split; simpl; [|apply Hok..].
    intros id' n' Hp'. destruct (ok_open _ Hok _ _ Hp') as [Hlt (c' & Hc' & Ho)]. split; [done|].
    destruct (decide (n = n')) as [->|Hne].
    + rewrite lookup_insert_eq. simplify_eq. eauto.
    + rewrite lookup_insert_ne by done. eauto.
Qed.

Lemma request_run_ok ops s : ok s -> ok (request_run ops s).
Proof.
  revert s. induction ops as [|o ops IH]; intros s Hok; [done|]. by apply IH, request_step_ok.
Qed.

(** A registration that is not in the table stays out of it. *)
Definition orphan (n : nat) (s : t) : Prop :=
  (n < next s)%nat /\ forall id, pendingRequests s !! id <> Some n.

Lemma orphan_step n o s :
  orphan n s -> o <> OReceive n ->
  orphan n (request_step o s) /\ channels (request_step o s) !! n = channels s !! n.
Proof.
  intros [Hlt Hn] Ho. destruct o as [id|id|k|[id|] data|k]; simpl; [| | | |done|].
  - split; [split; simpl; [lia|]|by rewrite lookup_insert_ne by lia].
    intros id' [[_ He]|[_ Hp]]%lookup_insert_Some; [lia | by eapply Hn].
  - unfold UnregisterRequest. destruct (pendingRequests s !! id) as [m|]; [|done].
    split; [|done]. split; [done|]. simpl. intros id' [_ Hp]%lookup_delete_Some. by eapply Hn.
  - unfold fire. destruct (timers s !! k) as [id|]; [|done].
    destruct (pendingRequests s !! id) as [m|] eqn:Hp; [|done].
    assert (m <> n) by (intros ->; by eapply Hn).
    split; [|by simpl; rewrite lookup_alter_ne]. split; [done|]. simpl.
    intros id' [_ Hp']%lookup_delete_Some. by eapply Hn.
  - destruct (pendingRequests s !! id) as [m|] eqn:Hp; [|done].
    assert (m <> n) by (intros ->; by eapply Hn).
    split; [done|]. simpl. by rewrite lookup_alter_ne.
  - unfold receive. destruct (channels s !! k) as [c|]; [|done].
    destruct (RespChan.buffered c); [|done]. split; [done|]. simpl.
    rewrite lookup_insert_ne; [done|]. congruence.
Qed.

Lemma orphan_run n ops s c :
  orphan n s -> channels s !! n = Some c -> RespChan.buffered c = None ->
  RespChan.closed c = false ->
  orphan n (request_run ops s) /\ channels (request_run ops s) !! n = Some c.
Proof.
  revert s. induction ops as [|o ops IH]; intros s Ho Hc Hb Hcl; [done|]. simpl.
  destruct (decide (o = OReceive n)) as [->|Hne].
  - assert (request_step (OReceive n) s = s) as ->.
    { simpl. unfold receive. by rewrite Hc, Hb. }
    by apply IH.
  - destruct (orphan_step n o s Ho Hne) as [Ho' Hc'].
    apply IH; try done. by rewrite Hc'.
Qed.

(** An operation that leaves the registration [n] of [id] alone. *)
Definition spares (id : string) (n : nat) (ids : gset nat) (o : request_op) : Prop :=
  match o with
  | ORegister id' | OUnregister id' => id' <> id
  | OFire k => k ∉ ids
  | ODispatch id' _ => id' <> Some id
  | OReceive k => k <> n
  end.

(** The timers that captured [id]. *)
Definition timers_of (id : string) (s : t) : gset nat :=
  dom (filter (fun kv => kv.2 = id) (timers s)).

Lemma timers_sub id s s' :
  (forall k, timers s' !! k = Some id -> timers s !! k = Some id) ->
  timers_of id s' ⊆ timers_of id s.
Proof.
  intros Hsub k. unfold timers_of. rewrite !elem_of_dom. intros [x Hx].
  apply map_lookup_filter_Some in Hx as [Hx Hid]. simpl in Hid. subst x.
  exists id. apply map_lookup_filter_Some. auto.
Qed.

Lemma timers_of_elem id s k : timers s !! k = Some id -> k ∈ timers_of id s.
Proof. intros Hk. apply elem_of_dom. exists id. by apply map_lookup_filter_Some. Qed.

Lemma spares_step id n o s c :
  ok s -> pendingRequests s !! id = Some n -> channels s !! n = Some c ->
  spares id n (timers_of id s) o ->
  pendingRequests (request_step o s) !! id = Some n /\
  channels (request_step o s) !! n = Some c /\
  timers_of id (request_step o s) ⊆ timers_of id s.
Proof.
  intros Hok Hp Hc Hs. pose proof (ok_open _ Hok _ _ Hp) as [Hlt _].
  destruct o as [id'|id'|k|[id'|] data|k]; simpl in *; [| | | |done|].
  - rewrite !lookup_insert_ne by (done || lia). split_and!; [done..|].
    apply timers_sub. simpl. intros k [[_ ?]|[_ Hx]]%lookup_insert_Some; [done|done].
  - unfold UnregisterRequest. destruct (pendingRequests s !! id') as [m|] eqn:Hm; [|done]. simpl.
    rewrite lookup_delete_ne by done. split_and!; [done..|].
    apply timers_sub. simpl. by intros k [_ Hx]%lookup_delete_Some.
  - unfold fire. destruct (timers s !! k) as [id'|] eqn:Hk; [|done].
    assert (Hne : id' <> id) by (intros ->; by apply Hs, timers_of_elem).
    destruct (pendingRequests s !! id') as [m|] eqn:Hm; simpl.
    + assert (m <> n) by (intros ->; apply Hne; by eapply (ok_inj _ Hok)).
      rewrite lookup_delete_ne, lookup_alter_ne by done. split_and!; [done..|].
      apply timers_sub. simpl. by intros j [_ Hx]%lookup_delete_Some.
    + split_and!; [done..|]. apply timers_sub. simpl. by intros j [_ Hx]%lookup_delete_Some.
  - destruct (pendingRequests s !! id') as [m|] eqn:Hm; [|done]. simpl.
    assert (m <> n) by (intros ->; apply Hs; f_equal; by eapply (ok_inj _ Hok)).
    by rewrite lookup_alter_ne by done.
  - unfold receive. destruct (channels s !! k) as [c'|]; [|done].
    destruct (RespChan.buffered c'); [|done]. simpl. by rewrite lookup_insert_ne by done.
Qed.

Lemma spares_run T id n ops s c :
  timers_of id s ⊆ T -> ok s -> pendingRequests s !! id = Some n ->
  channels s !! n = Some c -> Forall (spares id n T) ops ->
  pendingRequests (request_run ops s) !! id = Some n /\
  channels (request_run ops s) !! n = Some c /\ timers_of id (request_run ops s) ⊆ T.
Proof.
  revert s. induction ops as [|o ops IH]; intros s HT Hok Hp Hc Hf; [done|].
  apply Forall_cons in Hf as [Ho Hf].
  assert (Ho' : spares id n (timers_of id s) o) by (destruct o; simpl in *; auto).
  destruct (spares_step id n o s c Hok Hp Hc Ho') as (Hp' & Hc' & HT').
  apply IH; try done; [by etransitivity | by apply request_step_ok].
Qed.

(** A registration puts an empty open channel under its id. *)
Lemma register_effect id s :
  let '(n, s1) := RegisterRequest id s in
  s1 = request_step (ORegister id) s /\ pendingRequests s1 !! id = Some n /\
  channels s1 !! n = Some (RespChan.mk None false).
Proof. simpl. by rewrite !lookup_insert_eq. Qed.

(** A response for an empty open channel gets into it. *)
Lemma dispatch_effect id n data s :
  pendingRequests s !! id = Some n -> channels s !! n = Some (RespChan.mk None false) ->
  let s' := dispatch (Some id) data s in
  pendingRequests s' !! id = Some n /\ channels s' !! n = Some (RespChan.mk (Some data) false) /\
  timers_of id s' = timers_of id s.
Proof. intros Hp Hc. simpl. rewrite Hp. simpl. by rewrite lookup_alter_eq, Hc. Qed.

(** A second registration of an id takes the first one out of the table. *)
Lemma reregister_orphan id n s :
  ok s -> pendingRequests s !! id = Some n ->
  orphan n (RegisterRequest id s).2 /\
  channels (RegisterRequest id s).2 !! n = channels s !! n.
Proof.
  intros Hok Hp. pose proof (ok_open _ Hok _ _ Hp) as [Hlt _]. simpl.
  rewrite lookup_insert_ne by lia. split; [split; simpl; [lia|]|done].
  intros id' [[_ He]|[Hne Hp']]%lookup_insert_Some; [lia|].
  apply Hne. by eapply (ok_inj _ Hok).
Qed.
End RequestFacts.

Section RequestTheorems.
Import Requests RequestFacts.

(** C29: the table never makes the process panic, and it delivers.  In every
    interleaving no closed channel is written or closed again; and once a
    request is registered under an id, the first response with that id is what
    a receive on its channel gives, whatever other requests, responses and
    timers do in between, as long as nobody else uses the id and its timers
    do not fire. *)
Theorem response_delivered ops1 id ops2 data ops3 :
  let s := request_run ops1 empty in
  let '(n, s1) := RegisterRequest id s in
  Forall (spares id n (timers_of id s1)) ops2 ->
  Forall (spares id n (timers_of id s1)) ops3 ->
  let s3 := request_run ops3 (dispatch (Some id) data (request_run ops2 s1)) in
  (receive n s3).1 = Got data /\ panicked s3 = false.
Proof.
  intros s. pose proof (register_effect id s) as Hr.
  destruct (RegisterRequest id s) as [n s1]. destruct Hr as (Hs1 & Hp & Hc). intros H2 H3.
  assert (Hok1 : ok s1) by (rewrite Hs1; apply request_step_ok, request_run_ok, requests_empty_ok).
  destruct (spares_run (timers_of id s1) id n ops2 s1 _ (reflexivity _) Hok1 Hp Hc H2)
    as (Hp2 & Hc2 & HT2).
  pose proof (request_run_ok ops2 s1 Hok1) as Hok2.
  destruct (dispatch_effect id n data _ Hp2 Hc2) as (Hp3 & Hc3 & HT3).
  pose proof (request_step_ok (ODispatch (Some id) data) _ Hok2) as Hok3.
  change (request_step (ODispatch (Some id) data)) with (dispatch (Some id) data) in Hok3.
  rewrite <- HT3 in HT2.
  destruct (spares_run _ id n ops3 _ _ HT2 Hok3 Hp3 Hc3 H3) as (_ & Hc4 & _).
  cbv zeta. split; [unfold receive; by rewrite Hc4 | by apply ok_alive, request_run_ok].
Qed.

(** Two requests in flight under different ids, an unknown response and the
    timer of the other one do not disturb the delivery. *)
Lemma response_delivered_witness :
  let s1 := (RegisterRequest "1" (request_run [ORegister "0"] empty)).2 in
  (receive 1 (request_run [OFire 0] (dispatch (Some "1") "ok"
     (request_run [ORegister "2"; ODispatch (Some "9") "x"] s1)))).1 = Got "ok".
Proof.
  pose proof (response_delivered [ORegister "0"] "1"
    [ORegister "2"; ODispatch (Some "9") "x"] "ok" [OFire 0]) as H.
  cbv zeta in *. simpl in H. apply H.
  - repeat constructor; by compute.
  - repeat constructor. simpl. apply (bool_decide_unpack _). vm_compute. exact I.
Defined.

(** An id used twice starves its first caller.  When a request is
    registered under an id that is in flight, the earlier request never hears
    of its response: whatever requests, responses and timers do from then on, a
    receive on its channel blocks, it is not even closed by its own timer. *)
Theorem reused_id_starves ops1 id n ops2 :
  let s := request_run ops1 empty in
  pendingRequests s !! id = Some n ->
  channels s !! n = Some (RespChan.mk None false) ->
  (receive n (request_run ops2 (RegisterRequest id s).2)).1 = Blocked.
Proof.
  intros s Hp Hc.
  destruct (reregister_orphan id n s) as [Ho Hc']; [apply request_run_ok, requests_empty_ok | done |].
  rewrite Hc in Hc'.
  destruct (orphan_run n ops2 _ _ Ho Hc' eq_refl eq_refl) as [_ Hr].
  unfold receive. by rewrite Hr.
Qed.

Lemma reused_id_starves_witness :
  (receive 0 (request_run [ODispatch (Some "1") "a"; OFire 0; ODispatch (Some "1") "b"]
     (RegisterRequest "1" (request_run [ORegister "1"] empty)).2)).1 = Blocked.
Proof. apply (reused_id_starves [ORegister "1"] "1" 0%nat); reflexivity. Defined.
End RequestTheorems.
