(* ===== verification/Startup.v ===== *)
(** * Start-up, scans and probes: [src/scan.go], [main.go], [poolmgr/probe.go]

    What the process does outside of requests: it loads the overrides into the
    resolver, scans the backends that describe their tools, and probes backends;
    and the environments it builds for that and for the preview of an
    administrator.  Spawning a backend and what it answers are arguments. *)
From S2P Require Import Prelude GoStrings Sql EnforcerTypes Resolver CelEngine EnforcerStore Enforcer Template Muxer Process EnforcerAdmin EnforcerCalls EnforcerWeb EnforcerConsole.
From S2P Require Backends.
Open Scope Z_scope.

(** ** Overrides *)

Section Overrides.
Context `{CelLib} `{EnforcerEnv}.

(** The error of [RegisterOverride] is logged. *)
Definition load_override (e : Enforcer.t) (o : EnforcerOverrideRow.t) : Enforcer.t :=
  (Enforcer.RegisterOverride (EnforcerOverrideRow.ToolName o) (EnforcerOverrideRow.BackendID o)
     (EnforcerHandler.override_profile o) e).2.

Definition loadOverridesIntoResolver (e : Enforcer.t) : Enforcer.t :=
  match Enforcer.on_store ListOverrides e with
  | (Err _, e1) => e1
  | (Ok overrides, e1) => foldl load_override e1 overrides
  end.
End Overrides.

(** ** Scans *)

Section Scans.
Context (marshal : list (string * json) -> string).
Context (unmarshal_tools : string ->
  res (list (list (string * json)) * option (list (string * json)))).
(** The ids of the rows that are inserted. *)
Context (uuid : nat -> string).

(** Rows are stored one by one; one that cannot be stored is skipped.  The
    number of rows stored. *)
Fixpoint store_rows (rows : list ToolProfileRow.t) (d : db) : Z * db :=
  match rows with
  | [] => (0, d)
  | r :: rows' =>
      let '(x, d1) := UpsertToolProfile r d in
      let '(n, d2) := store_rows rows' d1 in
      ((if is_ok x then 1 else 0) + n, d2)
  end.

Definition storeProfiles (backendID : string) (now : Time) (profiles : list ScannedProfile.t) :
    db -> Z * db :=
  store_rows (imap (row_of uuid backendID now) profiles).

(** A tool of [ScanModeOutput]: its name, its profile with the JSON it was read
    from, if it has one. *)
Definition scan_mode_tool : Type := string * option (EnforcerProfileFromFramework.t * string).

Definition scan_mode_rows (backendID : string) (now : Time) (tools : list scan_mode_tool) :
    list ToolProfileRow.t :=
  imap (row_of uuid backendID now)
    (omap (fun t => p ← snd t; Some (ScannedProfile.mk backendID (fst t) (fst p) (snd p))) tools).

(** The scan of one backend: [mode] is what the command with the flag [--scan]
    prints, [handshake] what [tools/list] answers. *)
Definition scan_backend (backendID : string) (now : Time) (mode : res (list scan_mode_tool))
    (handshake : res string) (d : db) : Z * db :=
  match mode with
  | Err _ =>
      match ScanBackend marshal unmarshal_tools backendID handshake with
      | Err _ => (0, d)
      | Ok profiles => storeProfiles backendID now profiles d
      end
  | Ok tools => store_rows (scan_mode_rows backendID now tools) d
  end.
End Scans.

(** What [ScanBackendToolsScanMode] runs. *)
Definition scan_command (command : string) : string :=
  if contains command " --scan" then command else command +:+ " --scan".

Definition ScanBackendToolsScanMode (command : string) (env : list string) : started :=
  Exec ["sh"; "-c"; scan_command command] (Some env).

(** The commands that scans and probes give to a backend outside of a pool:
    [ScanBackendTools] and [ProbeBackend]. *)
Definition ScanBackendTools (command : string) (env : list string) (ok : bool) : res started :=
  spawnProcessRaw command (Some env) ok.

(** ** Environments *)

Section Environments.
Context {St : Type} {MS : MuxStore St} {ME : MuxEnv} {SH : Sha256}.
Context (visit : nat -> gset string -> list string).
(** [os.Environ] *)
Context (environ : list string).

(** A JSON string around the JSON is taken off. *)
Definition unquoted (s : string) : string :=
  let q := GoStrings.bytes [34%nat] in
  if has_prefix s q && has_suffix s q then default s (unmarshal_string s) else s.

Definition no_json (s : string) : bool := bool_decide (s = EmptyString) || bool_decide (s = "{}").

Definition static_entries (s : string) : list string :=
  if no_json s then []
  else match unmarshal_map s with
       | Some m => ToolMuxer.mapToSlice visit m
       | None => []
       end.

Definition buildEnvForScan (b : Backend.t) : list string := environ ++ static_entries (Backend.Env b).

(** The environment of the retry loop. *)
Definition retry_env (b : Backend.t) : list string := environ ++ static_entries (Backend.Env b).

Definition resolveTemplatesForUser (envMap : gmap string string) (userID : string) (st : St) :
    gmap string string :=
  if negb (envMapHasTemplates envMap) then envMap
  else match GetUser st userID with
       | Err _ => envMap
       | Ok user =>
           match ResolveEnvTemplates (visit 6%nat (dom envMap)) envMap user with
           | Err _ => envMap
           | Ok resolved => resolved
           end
       end.

(** The environment [OnProbeBackend] probes a backend in: every mapped variable
    has a dummy token. *)
Definition dummy_tokens (mappings : string) : list string :=
  if no_json mappings then []
  else match unmarshal_map mappings with
       | Some m => omap (fun k => v ← m !! k; Some (v +:+ "=probe_test_token")) (visit 8%nat (dom m))
       | None => []
       end.

Definition probe_env (b : Backend.t) (userID : string) (st : St) : list string :=
  environ ++ dummy_tokens (Backend.EnvMappings b) ++
  (if no_json (Backend.Env b) then []
   else match unmarshal_map (unquoted (Backend.Env b)) with
        | Some m => ToolMuxer.mapToSlice visit (resolveTemplatesForUser m userID st)
        | None => []
        end).

(** [OnProbeBackend]: the result of the probe is an argument. *)
Definition OnProbeBackend {A} (probe : string -> list string -> string -> A)
    (backendID userID : string) (st : St) : res A :=
  match GetBackend st backendID with
  | Err e => Err (Wrapf "backend %s found: %w" e)
  | Ok b => Ok (probe (Backend.Command b) (probe_env b userID st) (Backend.StdioFraming b))
  end.

(** The environment shown to an administrator. *)
Definition OnResolveEnv (envJSON mappingsJSON backendID userID : string) (st : St) :
    res (gmap string string) :=
  match unmarshal_map (unquoted envJSON) with
  | None => Err (Errorf "invalid env JSON: %w")
  | Some formEnv =>
      let mappings := if no_json mappingsJSON then Some ∅ else unmarshal_map (unquoted mappingsJSON) in
      match mappings with
      | None => Err (Errorf "invalid env_mappings JSON: %w")
      | Some mappings =>
          let env1 :=
            if bool_decide (backendID = EmptyString) then ToolMuxer.system_env
            else match GetUserTokensDecrypted st userID backendID with
                 | Ok tokens => ToolMuxer.set_tokens tokens ToolMuxer.system_env
                 | Err _ => ToolMuxer.system_env
                 end in
          let env2 := ToolMuxer.map_keys visit mappings env1 in
          Ok (resolveTemplatesForUser (formEnv ∪ env2) userID st)
      end
  end.
End Environments.

(** * Properties *)

Section OverrideTheorems.
Context `{CelLib} `{EnforcerEnv}.
Implicit Types (e : Enforcer.t) (o : EnforcerOverrideRow.t).

(** A row [RegisterOverride] accepts. *)
Definition registrable o : Prop :=
  EnforcerOverrideRow.RiskLevel o <> EmptyString /\
  EnforcerOverrideRow.ImpactScope o <> EmptyString.

#[local] Instance registrable_dec o : Decision (registrable o).
Proof. unfold registrable. apply _. Defined.

Definition registered e (tool b : string) : option SafetyProfile.t :=
  MetadataResolver.GetOverride tool b (Enforcer.resolver e).

Definition with_overrides (m : gmap string SafetyProfile.t) e : Enforcer.t :=
  Enforcer.with_resolver (MetadataResolver.mk m) e.

(** What one row does to the map of the resolver. *)
Definition registered_row o (m : gmap string SafetyProfile.t) : gmap string SafetyProfile.t :=
  if decide (registrable o)
  then <[MetadataResolver.override_key (EnforcerOverrideRow.ToolName o)
           (EnforcerOverrideRow.BackendID o) := EnforcerHandler.override_profile o]> m
  else m.

Lemma load_override_map e o :
  load_override e o =
    with_overrides (registered_row o (MetadataResolver.overrides (Enforcer.resolver e))) e.
Proof.
  unfold load_override, Enforcer.RegisterOverride, MetadataResolver.RegisterOverride,
    registered_row, registrable, with_overrides. cbn.
  destruct e as [? [m] ? ? ? ? ?]. cbn.
  repeat case_bool_decide; cbn; try case_decide; naive_solver.
Qed.

Lemma load_overrides_map os e :
  foldl load_override e os =
    with_overrides (foldl (fun m o => registered_row o m)
      (MetadataResolver.overrides (Enforcer.resolver e)) os) e.
Proof.
  revert e. induction os as [|o os IH]; intros e; cbn.
  - by destruct e as [? [m] ? ? ? ? ?].
  - by rewrite load_override_map, IH.
Qed.

(** The map after rows whose keys are distinct. *)
Lemma registered_rows_lookup os m tool b :
  Forall (fun o => pipe_free (EnforcerOverrideRow.ToolName o)) os -> pipe_free tool ->
  (forall o o', o ∈ os -> o' ∈ os -> override_key_of o = override_key_of o' -> o = o') ->
  foldl (fun m o => registered_row o m) m os !! MetadataResolver.override_key tool b =
    match list_find (fun o => override_key_of o = (tool, b) /\ registrable o) os with
    | Some (_, o) => Some (EnforcerHandler.override_profile o)
    | None => m !! MetadataResolver.override_key tool b
    end.
Proof.
  intros Hpipe Ht. revert m. induction os as [|o os IH]; intros m Hd; [done|].
  apply List.Forall_cons_iff in Hpipe as [Ho Hpipe]. cbn [foldl].
  rewrite IH by (done || (intros; apply Hd; set_solver)). cbn [list_find].
  unfold registered_row.
  destruct (decide (override_key_of o = (tool, b) /\ registrable o)) as [[Hk Hr]|Hno].
  - rewrite decide_True by done. unfold override_key_of in Hk. injection Hk as Hk1 Hk2.
    rewrite Hk1, Hk2, lookup_insert_eq.
    destruct (list_find _ os) as [[n o']|] eqn:Hf; cbn; [|done].
    apply list_find_Some in Hf as (Hin & [Hk' _] & _). apply list_elem_of_lookup_2 in Hin.
    rewrite (Hd o' o); [done | by right | by left |]. unfold override_key_of in *. congruence.
  - destruct (list_find _ os) as [[n o']|]; cbn; [done|].
    case_decide as Hr; [|done]. apply lookup_insert_ne. intros Heq.
    apply override_key_inj in Heq as [H1 H2]; [|done..]. apply Hno. split; [|done].
    unfold override_key_of. congruence.
Qed.

(** A registry the process starts with holds every row of the store. *)
Lemma loaded_overrides e tool b :
  faults (Enforcer.store e) = [] -> keyed_overrides (Enforcer.store e) ->
  map_Forall (fun _ o => pipe_free (EnforcerOverrideRow.ToolName o))
    (overrides (Enforcer.store e)) -> pipe_free tool ->
  Enforcer.resolver e = MetadataResolver.NewMetadataResolver ->
  Enforcer.store (loadOverridesIntoResolver e) = Enforcer.store e /\
  registered (loadOverridesIntoResolver e) tool b =
    (o ← overrides (Enforcer.store e) !! (tool, b);
     if decide (registrable o) then Some (EnforcerHandler.override_profile o) else None).
Proof.
  intros Hf Hk Hp Ht Hr. unfold loadOverridesIntoResolver.
  unfold ListOverrides. rewrite on_query by done. rewrite load_overrides_map. split; [by destruct e|].
  unfold registered, MetadataResolver.GetOverride. cbn. rewrite Hr. cbn [MetadataResolver.overrides MetadataResolver.NewMetadataResolver].
  set (os := sort_by _ _).
  assert (Hin : forall o, o ∈ os <-> overrides (Enforcer.store e) !! override_key_of o = Some o).
  { intros o. unfold os. rewrite sort_by_perm, elem_of_rows. split; [|by eexists].
    intros [k Hko]. by rewrite <- (Hk _ _ Hko). }
  rewrite registered_rows_lookup; [| |done|].
  - destruct (list_find _ os) as [[n o]|] eqn:Hfind.
    + apply list_find_Some in Hfind as (Ho & [Hkey Hreg] & _).
      apply list_elem_of_lookup_2, Hin in Ho. rewrite Hkey in Ho. rewrite Ho. cbn.
      by rewrite decide_True.
    + apply list_find_None in Hfind.
      destruct (overrides _ !! (tool, b)) as [o|] eqn:Ho; cbn; [|by rewrite lookup_empty].
      rewrite decide_False; [by rewrite lookup_empty|]. intros Hreg. pose proof (Hk _ _ Ho) as Hko.
      rewrite Forall_forall in Hfind. apply (Hfind o); [|done]. apply Hin. by rewrite <- Hko.
  - apply Forall_forall. intros o Ho%Hin. exact (Hp _ _ Ho).
  - intros o o' Ho%Hin Ho'%Hin Heq. congruence.
Qed.

(** The start of the process registers the rows of the store: the override an
    administrator made decides again after a restart, and a tool without a row
    resolves as without the load.  But the rows of users are registered with
    them: what one user set for himself, and nobody else was under, decides after
    the restart for every user. *)
Theorem restart_promotes_personal_overrides e :
  faults (Enforcer.store e) = [] -> unreadable (Enforcer.store e) = ∅ ->
  keyed_overrides (Enforcer.store e) ->
  map_Forall (fun _ o => pipe_free (EnforcerOverrideRow.ToolName o))
    (overrides (Enforcer.store e)) ->
  Enforcer.resolver e = MetadataResolver.NewMetadataResolver ->
  let e' := loadOverridesIntoResolver e in
  let resolve e tool b v :=
    MetadataResolver.ResolveForUser (Some (Enforcer.store e)) tool b v (Enforcer.resolver e) in
  (forall tool b o, overrides (Enforcer.store e) !! (tool, b) = Some o -> registrable o ->
     (forall v, resolve e' tool b v =
        Ok (SafetyProfile.with_identity tool b "override" (EnforcerHandler.override_profile o))) /\
     (forall v, v <> EnforcerOverrideRow.UserID o ->
        MetadataResolver.user_tier (Some (Enforcer.store e)) tool b v = None)) /\
  (forall tool b, pipe_free tool -> overrides (Enforcer.store e) !! (tool, b) = None ->
     forall v, resolve e' tool b v = resolve e tool b v).
Proof.
  intros Hf Hu Hk Hp Hr e' resolve.
  pose proof (fun tool b Ht => loaded_overrides e tool b Hf Hk Hp Ht Hr) as Hload.
  fold e' in Hload. unfold registered, MetadataResolver.GetOverride in Hload. split.
  - intros tool b o Ho Hreg. pose proof (Hk _ _ Ho) as Hkey. injection Hkey as Htool Hb.
    pose proof (Hp _ _ Ho) as Ht. cbv beta in Ht. rewrite <- Htool in Ht.
    destruct (Hload tool b Ht) as [Hs Hl]. rewrite Ho in Hl. cbn in Hl.
    rewrite decide_True in Hl by done. split.
    + intros v. unfold resolve, MetadataResolver.ResolveForUser, MetadataResolver.admin_tier.
      by rewrite Hl.
    + intros v Hv. destruct (decide (v = EmptyString)) as [->|Hv0]; [done|].
      rewrite user_tier_lookup, Ho by done. cbn. by rewrite decide_False.
  - intros tool b Ht Hnone v. destruct (Hload tool b Ht) as [Hs Hl]. rewrite Hnone in Hl.
    cbn in Hl. unfold resolve, MetadataResolver.ResolveForUser, MetadataResolver.admin_tier.
    by rewrite Hl, Hs, Hr.
Qed.
End OverrideTheorems.

Section PreviewFacts.
Context {St : Type} {MS : MuxStore St} {ME : MuxEnv} {SH : Sha256}.
Import ToolMuxer MuxerFacts EnvFacts.

(** No two variables are mapped to one name. *)
Definition unambiguous (mappings env : gmap string string) : Prop :=
  forall k k', k ∈ dom env -> k' ∈ dom env ->
    renamed mappings k = renamed mappings k' -> k = k'.

Lemma map_keys_order v1 v2 mappings env :
  visits v1 -> visits v2 -> unambiguous mappings env ->
  map_keys v1 mappings env = map_keys v2 mappings env.
Proof.
  assert (Hsub : forall v1 v2 k x, visits v2 -> unambiguous mappings env ->
    map_keys v1 mappings env !! k = Some x -> map_keys v2 mappings env !! k = Some x).
  { intros w1 w2 k x Hw2 Hu (k0 & Hk0 & <-)%map_keys_Some. apply map_keys_unique; [done..|].
    intros k1 Hk1 Heq. apply Hu; [done | by apply elem_of_dom | done]. }
  intros Hv1 Hv2 Hu. apply map_eq. intros k. apply option_eq. intros x. split; by apply Hsub.
Qed.

Lemma ResolveEnvTemplates_order v1 v2 env u out :
  visits v1 -> visits v2 ->
  ResolveEnvTemplates (v1 6%nat (dom env)) env u = Ok out ->
  ResolveEnvTemplates (v2 6%nat (dom env)) env u = Ok out.
Proof.
  unfold ResolveEnvTemplates. rewrite !resolve_loop_spec. intros Hv1 Hv2 [H1 H2].
  assert (Hin : forall k, k ∈ v1 6%nat (dom env) <-> k ∈ v2 6%nat (dom env)).
  { intros k. by rewrite !visit_elem. }
  split.
  - intros k Hk. apply H1. by apply Hin.
  - intros k Hk. apply H2. intros ?. by apply Hk, Hin.
Qed.

(** The two ways a value in the environment is resolved. *)
Lemma resolved_for_user v1 v2 env userID (st : St) :
  visits v1 -> visits v2 ->
  match
    (if envMapHasTemplates env then
       match GetUser st userID with
       | Err e => Err (Wrapf "BuildEnvForUser: failed to fetch user %q: %w" e)
       | Ok user =>
           match ResolveEnvTemplates (v2 6%nat (dom env)) env user with
           | Err e => Err (Wrapf "BuildEnvForUser: template resolution failed: %w" e)
           | Ok resolved => Ok resolved
           end
       end
     else Ok env)
  with
  | Ok out => resolveTemplatesForUser v1 env userID st = out
  | Err _ => resolveTemplatesForUser v1 env userID st = env /\ envMapHasTemplates env = true
  end.
Proof.
  intros Hv1 Hv2. unfold resolveTemplatesForUser.
  destruct (envMapHasTemplates env); cbn; [|done].
  destruct (GetUser st userID) as [user|]; [|done].
  destruct (ResolveEnvTemplates (v2 6%nat (dom env)) env user) as [out|] eqn:H2.
  - apply (ResolveEnvTemplates_order v2 v1) in H2; [|done..]. by rewrite H2.
  - split; [|done].
    destruct (ResolveEnvTemplates (v1 6%nat (dom env)) env user) as [out|] eqn:H1; [|done].
    apply (ResolveEnvTemplates_order v1 v2) in H1; [|done..]. congruence.
Qed.

Lemma decode_map_column_json s m :
  no_json s = false -> unmarshal_map (unquoted s) = Some m -> decode_map_column s = m.
Proof. unfold no_json, decode_map_column, unquoted. intros -> Hm. cbv zeta. by rewrite Hm. Qed.

Lemma no_json_column s : no_json s = true -> decode_map_column s = ∅.
Proof. unfold no_json, decode_map_column. by intros ->. Qed.

Lemma set_tokens_dom tokens env k :
  k ∈ dom (set_tokens tokens env) -> k ∈ dom env \/ k ∈ tokens.*1.
Proof.
  unfold set_tokens. revert env. induction tokens as [|kv tokens IH]; intros env; cbn; [auto|].
  intros [Hk|Hk]%IH; [|right; by right]. rewrite dom_insert in Hk. set_solver.
Qed.

Lemma system_env_dom k : k ∈ dom system_env -> k ∈ ["PATH"; "HOME"; "USER"].
Proof.
  unfold system_env. cbn. repeat case_bool_decide; rewrite ?dom_insert, ?dom_empty; set_solver.
Qed.
End PreviewFacts.

Section EnvironmentTheorems.
Context {St : Type} {MS : MuxStore St} {ME : MuxEnv} {SH : Sha256}.
Import ToolMuxer MuxerFacts EnvFacts.

(** The environment an administrator is shown for a backend and a user is the
    one the multiplexer spawns the backend in, whatever the order Go iterates in,
    as long as no two variables are mapped to one name.  Where the multiplexer
    refuses to spawn the backend because a template cannot be resolved, the page
    shows the variables with their templates and no error. *)
Theorem preview_is_runtime v1 v2 userID backendID (m : t St) st b formEnv cfg :
  visits v1 -> visits v2 -> store m = Some st -> backendID <> EmptyString ->
  GetBackend st backendID = Ok b -> getBackendConfig backendID m = Some cfg ->
  no_json (Backend.Env b) = false -> unmarshal_map (unquoted (Backend.Env b)) = Some formEnv ->
  no_json (Backend.EnvMappings b) = true \/ is_Some (unmarshal_map (unquoted (Backend.EnvMappings b))) ->
  unambiguous (Config.envMappings cfg) (user_env userID backendID m system_env) ->
  exists shown, OnResolveEnv v1 (Backend.Env b) (Backend.EnvMappings b) backendID userID st = Ok shown /\
    match env_map v2 userID backendID m with
    | Ok out => shown = out
    | Err _ => shown = merged v2 userID backendID m cfg /\ envMapHasTemplates shown = true
    end.
Proof.
  intros Hv1 Hv2 Hs Hid Hb Hcfg He Hform Hmap Hu.
  assert (Hc : Config.env cfg = formEnv /\
               Config.envMappings cfg = decode_map_column (Backend.EnvMappings b)).
  { unfold getBackendConfig in Hcfg. rewrite Hs, Hb in Hcfg. injection Hcfg as <-. cbn.
    by erewrite (decode_map_column_json (Backend.Env b)). }
  destruct Hc as [Hc1 Hc2]. unfold OnResolveEnv. rewrite Hform.
  assert (Hm : (if no_json (Backend.EnvMappings b) then Some ∅
                else unmarshal_map (unquoted (Backend.EnvMappings b))) = Some (Config.envMappings cfg)).
  { rewrite Hc2. destruct (no_json (Backend.EnvMappings b)) eqn:Hj; [by rewrite no_json_column|].
    destruct Hmap as [?|[x Hx]]; [congruence|]. by rewrite (decode_map_column_json _ x). }
  rewrite Hm, bool_decide_eq_false_2 by done. cbv zeta. eexists. split; [done|].
  assert (Huser : match GetUserTokensDecrypted st userID backendID with
                  | Ok tokens => set_tokens tokens system_env
                  | Err _ => system_env
                  end = user_env userID backendID m system_env).
  { unfold user_env. by rewrite Hs. }
  rewrite Huser, (map_keys_order v1 v2) by done. rewrite <- Hc1.
  unfold env_map, merged. rewrite Hcfg, Hs. cbv zeta.
  set (env3 := Config.env cfg ∪ _).
  pose proof (resolved_for_user v1 v2 env3 userID st Hv1 Hv2) as Hr. cbn in Hr.
  destruct (if envMapHasTemplates env3 then _ else _); [done|].
  destruct Hr as [-> Ht]. done.
Qed.

(** What a process is given.  The environment a call is served in is closed:
    each variable is one of the backend's, or the mapped name of a token of the
    user or of the three variables taken from the process.  The environments of
    the scan at the start, of the loop that retries backends and of the probe of
    an administrator hold the whole environment of the bridge, among it the key
    the database is encrypted with. *)
Theorem maintenance_inherits_environment v environ userID backendID (m : t St) st cfg tokens out b entry :
  visits v -> store m = Some st -> getBackendConfig backendID m = Some cfg ->
  GetUserTokensDecrypted st userID backendID = Ok tokens ->
  env_map v userID backendID m = Ok out -> entry ∈ environ ->
  (forall k, k ∈ dom out -> k ∉ dom (Config.env cfg) ->
     exists k0, renamed (Config.envMappings cfg) k0 = k /\
       (k0 ∈ tokens.*1 \/ k0 ∈ ["PATH"; "HOME"; "USER"])) /\
  entry ∈ buildEnvForScan v environ b /\ entry ∈ retry_env v environ b /\
  entry ∈ probe_env v environ b userID st.
Proof.
  intros Hv Hs Hcfg Htok Hout Hin. split.
  - intros k Hk Hno. destruct (env_map_merged _ _ _ _ _ _ Hv Hcfg Hout) as [Hd _].
    rewrite Hd in Hk. unfold merged in Hk. rewrite dom_union in Hk.
    apply elem_of_union in Hk as [Hk|Hk]; [done|]. apply elem_of_dom in Hk as [x Hx].
    apply map_keys_Some in Hx as (k0 & Hk0 & <-). exists k0. split; [done|].
    unfold user_env in Hk0. rewrite Hs, Htok in Hk0.
    assert (Hdom : k0 ∈ dom (set_tokens tokens system_env)) by (apply elem_of_dom; eauto).
    apply set_tokens_dom in Hdom as [Hd0|Hd0]; [|by left]. right. by apply system_env_dom.
  - unfold buildEnvForScan, retry_env, probe_env. split_and!; apply elem_of_app; by left.
Qed.
End EnvironmentTheorems.

(** The scan at the start runs the command of every backend in a shell and does
    not ask the allow list: it starts what a call to the backend refuses to
    start. *)
Theorem scan_ignores_allowlist command env e :
  isAllowedCommand command = Err e -> command <> "mcp-bridge-builtin" ->
  (forall penv ok, is_ok (spawnProcessRaw command penv ok) = false) /\
  exists rest, ScanBackendToolsScanMode command env =
    Exec ["sh"; "-c"; command +:+ rest] (Some env).
Proof.
  intros Ha Hb. split.
  - intros penv ok. unfold spawnProcessRaw. by rewrite bool_decide_eq_false_2, Ha by done.
  - unfold ScanBackendToolsScanMode, scan_command. destruct (contains _ _).
    + exists EmptyString. by rewrite str_app_nil_r.
    + by exists " --scan".
Qed.

(** ** Concrete inputs *)

Section Witnesses.
#[local] Existing Instance demo_cel.
#[local] Existing Instance demo_world.

(** The row bob made for himself. *)
Definition bobs_row : EnforcerOverrideRow.t :=
  EnforcerOverrideRow.mk "override-slack-delete" "delete" "slack" "low" "read" 1 false false "bob" 0 0.

Definition stopped_bridge : Enforcer.t :=
  Enforcer.with_store (set_overrides (<[("delete", "slack") := bobs_row]>)
    (Enforcer.store web_enforcer)) web_enforcer.

Lemma restart_promotes_personal_overrides_witness :
  MetadataResolver.ResolveForUser
    (Some (Enforcer.store (loadOverridesIntoResolver stopped_bridge))) "delete" "slack" "alice"
    (Enforcer.resolver (loadOverridesIntoResolver stopped_bridge)) =
  Ok (SafetyProfile.mk "delete" "slack" EmptyString "low" "read" 1 false false false "override").
Proof.
  refine (proj1 (proj1 (restart_promotes_personal_overrides stopped_bridge eq_refl eq_refl _ _ eq_refl)
    "delete" "slack" bobs_row eq_refl (conj _ _)) "alice"); try done.
  - intros k o Ho. cbn in Ho. apply lookup_singleton_Some in Ho as [<- <-]. done.
  - intros k o Ho. cbn in Ho. apply lookup_singleton_Some in Ho as [<- <-]. done.
Defined.
End Witnesses.

Definition demo_cfg : Config.t :=
  Config.mk "run" 1 1 2 {["DB" := "db_{{users.id}}"]} {["TOKEN" := "SLACK_TOKEN"]} "newline".

Lemma demo_unambiguous :
  unambiguous (Config.envMappings demo_cfg)
    (ToolMuxer.user_env (MS := demo_tables) "u1" "slack" demo_mux
       (ToolMuxer.system_env (ME := demo_mux_env))).
Proof.
  intros k k' Hk Hk'.
  assert (Hd : forall x, x ∈ dom (ToolMuxer.user_env (MS := demo_tables) "u1"
      "slack" demo_mux (ToolMuxer.system_env (ME := demo_mux_env))) ->
      x = "PATH" \/ x = "TOKEN" \/ x = "DB").
  { intros x Hx. apply elem_of_elements in Hx. revert Hx. vm_compute (elements _).
    rewrite !elem_of_cons, elem_of_nil. tauto. }
  destruct (Hd _ Hk) as [->|[->| ->]]; destruct (Hd _ Hk') as [->|[->| ->]]; intros He;
    vm_compute in He; congruence.
Qed.

Lemma preview_is_runtime_witness :
  exists shown, OnResolveEnv (MS := demo_tables) (ME := demo_mux_env) (SH := demo_sha) by_elements
      "ENV" "MAP" "slack" "u1" (DemoTables.mk [demo_backend "slack" "slk"; demo_backend "github" "gh"]
             [("TOKEN", "xoxb"); ("DB", "mine")]) = Ok shown /\
    ToolMuxer.env_map (MS := demo_tables) (ME := demo_mux_env) (SH := demo_sha)
      by_elements "u1" "slack" demo_mux = Ok shown.
Proof.
  destruct (preview_is_runtime (MS := demo_tables) (ME := demo_mux_env) (SH := demo_sha)
    by_elements by_elements "u1" "slack" demo_mux
    (DemoTables.mk [demo_backend "slack" "slk"; demo_backend "github" "gh"]
       [("TOKEN", "xoxb"); ("DB", "mine")])
    (demo_backend "slack" "slk") {["DB" := "db_{{users.id}}"]} demo_cfg
    by_elements_visits by_elements_visits eq_refl ltac:(done) eq_refl eq_refl eq_refl eq_refl
    (or_intror (ex_intro _ _ eq_refl)) demo_unambiguous) as (shown & H1 & H2).
  exists shown. split; [exact H1|].
  destruct (ToolMuxer.env_map _ _ _ _) as [out|e] eqn:He; [by rewrite H2|].
  vm_compute in He. discriminate He.
Defined.

Lemma maintenance_inherits_environment_witness :
  "ENCRYPTION_KEY=k" ∈ buildEnvForScan (ME := demo_mux_env) by_elements ["ENCRYPTION_KEY=k"]
     (demo_backend "slack" "slk").
Proof.
  apply (maintenance_inherits_environment (MS := demo_tables) (ME := demo_mux_env) (SH := demo_sha)
    by_elements ["ENCRYPTION_KEY=k"] "u1" "slack" demo_mux
    (DemoTables.mk [demo_backend "slack" "slk"; demo_backend "github" "gh"]
       [("TOKEN", "xoxb"); ("DB", "mine")]) demo_cfg [("TOKEN", "xoxb"); ("DB", "mine")]
    {["DB" := "db_u1"; "PATH" := "/bin"; "SLACK_TOKEN" := "xoxb"]}
    (demo_backend "slack" "slk") "ENCRYPTION_KEY=k").
  - exact by_elements_visits.
  - reflexivity.
  - reflexivity.
  - reflexivity.
  - vm_compute. reflexivity.
  - by left.
Defined.

Lemma scan_ignores_allowlist_witness :
  is_ok (spawnProcessRaw "run; reboot" None true) = false.
Proof.
  refine (proj1 (scan_ignores_allowlist "run; reboot" [] _ ltac:(vm_compute; reflexivity) ltac:(done)) None true).
Defined.
