(* ===== verification/Pool.v ===== *)
(** * The process pool: [src/poolmgr/pool.go], [process.go]

    A pool keeps warm processes in a channel, spawns processes in goroutines and
    hands them to requests.  The state is that of [Pool] with its goroutines and
    timers; each operation is one critical section or one channel operation, and
    what a process does (it starts, answers the handshake, dies) is an argument.
    The request table is [PoolRequests]. *)
From S2P Require Import Prelude GoStrings Process.
Open Scope Z_scope.

Definition defaultSpawnChannel : nat := 10.
Definition defaultMaxSpawnAttempts : Z := 3.
Definition DefaultWarmWaitTimeout : Duration := 30 * Second.
Definition initial_backoff : Duration := 100 * Millisecond.
Definition poll_interval : Duration := 50 * Millisecond.

(** [started]: [Cmd.Process] is set; [reaped]: [Cmd.ProcessState] is set, which
    [Wait] does; [exited]: the process is gone. *)
Module ManagedProcess.
Record t := mk { started : bool; reaped : bool; exited : bool }.

Definition Kill (p : t) : t :=
  if started p then mk (started p) (reaped p) true else p.

Definition IsAlive (p : t) : bool :=
  if negb (started p) then false else if reaped p && exited p then false else true.

(** The process ends by itself. *)
Definition die (p : t) : t := mk (started p) (reaped p) true.
End ManagedProcess.

(** Where a goroutine of [spawnAndHandshake] is: before it holds a place in
    [Spawning], before the process is started, after, in the handshake, and
    about to send the process to [Warm]. *)
Inductive phase := Enter | Launch | Launched (p : nat) | Shake (p : nat) | Send (p : nat).

#[export] Instance phase_eq_dec : EqDecision phase.
Proof. solve_decision. Defined.

Module Pool.
(** The fields of [Pool] about its processes; the request table is
    [PoolRequests.Requests], the environment, the owner and the time of last use
    are [PoolManager.UserPool]. *)
Record t := mk {
  Warm : list nat;
  cap : nat;                        (* of the channel [Warm] *)
  warm_closed : bool;
  Spawning : nat;                   (* places taken in the channel *)
  Command : string;
  backoffDelay : Duration;
  closed : bool;
  MinPoolSize : Z;
  MaxPoolSize : Z;
  CurrentSize : Z;
  spawnAttempts : Z;
  maxSpawnAttempts : Z;
  lastFailureReason : string;
  spawns : gmap nat phase;          (* the goroutines [wg] waits for *)
  retries : nat;                    (* timers that will start a goroutine *)
  procs : gmap nat ManagedProcess.t;
  next : nat;                       (* names of goroutines and processes *)
  panicked : bool
}.

Definition set_warm f s := mk (f (Warm s)) (cap s) (warm_closed s) (Spawning s) (Command s)
  (backoffDelay s) (closed s) (MinPoolSize s) (MaxPoolSize s) (CurrentSize s) (spawnAttempts s)
  (maxSpawnAttempts s) (lastFailureReason s) (spawns s) (retries s) (procs s) (next s) (panicked s).
Definition set_closed (c wc : bool) s := mk (Warm s) (cap s) wc (Spawning s) (Command s)
  (backoffDelay s) c (MinPoolSize s) (MaxPoolSize s) (CurrentSize s) (spawnAttempts s)
  (maxSpawnAttempts s) (lastFailureReason s) (spawns s) (retries s) (procs s) (next s) (panicked s).
Definition set_spawning f s := mk (Warm s) (cap s) (warm_closed s) (f (Spawning s)) (Command s)
  (backoffDelay s) (closed s) (MinPoolSize s) (MaxPoolSize s) (CurrentSize s) (spawnAttempts s)
  (maxSpawnAttempts s) (lastFailureReason s) (spawns s) (retries s) (procs s) (next s) (panicked s).
Definition set_size f s := mk (Warm s) (cap s) (warm_closed s) (Spawning s) (Command s)
  (backoffDelay s) (closed s) (MinPoolSize s) (MaxPoolSize s) (f (CurrentSize s)) (spawnAttempts s)
  (maxSpawnAttempts s) (lastFailureReason s) (spawns s) (retries s) (procs s) (next s) (panicked s).
Definition set_attempts (n : Z) (delay : Duration) s := mk (Warm s) (cap s) (warm_closed s)
  (Spawning s) (Command s) delay (closed s) (MinPoolSize s) (MaxPoolSize s) (CurrentSize s) n
  (maxSpawnAttempts s) (lastFailureReason s) (spawns s) (retries s) (procs s) (next s) (panicked s).
Definition set_reason r s := mk (Warm s) (cap s) (warm_closed s) (Spawning s) (Command s)
  (backoffDelay s) (closed s) (MinPoolSize s) (MaxPoolSize s) (CurrentSize s) (spawnAttempts s)
  (maxSpawnAttempts s) r (spawns s) (retries s) (procs s) (next s) (panicked s).
Definition set_spawns f s := mk (Warm s) (cap s) (warm_closed s) (Spawning s) (Command s)
  (backoffDelay s) (closed s) (MinPoolSize s) (MaxPoolSize s) (CurrentSize s) (spawnAttempts s)
  (maxSpawnAttempts s) (lastFailureReason s) (f (spawns s)) (retries s) (procs s) (next s) (panicked s).
Definition set_retries f s := mk (Warm s) (cap s) (warm_closed s) (Spawning s) (Command s)
  (backoffDelay s) (closed s) (MinPoolSize s) (MaxPoolSize s) (CurrentSize s) (spawnAttempts s)
  (maxSpawnAttempts s) (lastFailureReason s) (spawns s) (f (retries s)) (procs s) (next s) (panicked s).
Definition set_procs f n s := mk (Warm s) (cap s) (warm_closed s) (Spawning s) (Command s)
  (backoffDelay s) (closed s) (MinPoolSize s) (MaxPoolSize s) (CurrentSize s) (spawnAttempts s)
  (maxSpawnAttempts s) (lastFailureReason s) (spawns s) (retries s) (f (procs s)) n (panicked s).
Definition panic s := mk (Warm s) (cap s) (warm_closed s) (Spawning s) (Command s)
  (backoffDelay s) (closed s) (MinPoolSize s) (MaxPoolSize s) (CurrentSize s) (spawnAttempts s)
  (maxSpawnAttempts s) (lastFailureReason s) (spawns s) (retries s) (procs s) (next s) true.

(** [wg.Add(1); go pool.spawnAndHandshake()] *)
Definition go_spawn (s : t) : t :=
  set_procs id (S (next s)) (set_spawns <[next s := Enter]> s).

(** The initial processes are spawned in goroutines. *)
Definition NewPoolWithEnv (minPoolSize maxPoolSize : Z) (command : string) : t :=
  let maxPoolSize := if maxPoolSize =? 0 then minPoolSize else maxPoolSize in
  Nat.iter (Z.to_nat minPoolSize) go_spawn
    (mk [] (Z.to_nat (Z.max 1 maxPoolSize)) false 0 command initial_backoff false minPoolSize
       maxPoolSize 0 0 defaultMaxSpawnAttempts EmptyString ∅ 0 ∅ 0 false).

Definition NewPool (size : Z) (command : string) : t := NewPoolWithEnv size size command.

Definition IsUnavailable (s : t) : bool :=
  if maxSpawnAttempts s =? 0 then false else maxSpawnAttempts s <=? spawnAttempts s.

Definition ResetSpawnAttempts (s : t) : t :=
  let reset := maxSpawnAttempts s <=? spawnAttempts s in
  let s := set_attempts 0 (backoffDelay s) s in
  if reset then go_spawn s else s.

Definition ForceReconnect (s : t) : t := ResetSpawnAttempts s.

(** ** [spawnAndHandshake], one goroutine *)

(** The goroutine [g] returns; [held]: it gives its place in [Spawning] back. *)
Definition finish (g : nat) (held : bool) (s : t) : t :=
  set_spawns (delete g) (if held then set_spawning Nat.pred s else s).

Definition goto (g : nat) (ph : phase) (s : t) : t := set_spawns <[g := ph]> s.

(** Without a place for 100 milliseconds the goroutine is replaced by another. *)
Definition enter (g : nat) (s : t) : t :=
  if closed s then finish g false s
  else if (Spawning s <? defaultSpawnChannel)%nat then goto g Launch (set_spawning S s)
  else s.

(** The circuit breaker. *)
Definition opened (s : t) : bool :=
  (0 <? maxSpawnAttempts s) && (maxSpawnAttempts s <=? spawnAttempts s).

Definition next_delay (s : t) : Duration := Z.min (backoffDelay s * 2) (5 * Second).

(** [SpawnProcess]: [ok], or an error before there is a process.  The look at
    [closed] comes first, which stands for those before and after it. *)
Definition launch (g : nat) (ok : bool) (s : t) : t :=
  if closed s then finish g true s
  else if ok then
    goto g (Launched (next s))
      (set_procs <[next s := ManagedProcess.mk true false false]> (S (next s)) s)
  else
    let s := set_attempts (spawnAttempts s + 1) (next_delay s) s in
    finish g true (if opened s then s else set_retries S s).

Definition kill (p : nat) (s : t) : t := set_procs (alter ManagedProcess.Kill p) (next s) s.

Definition launched (g p : nat) (s : t) : t :=
  if closed s then finish g true (kill p s)
  else if isSimpleCommand (Command s) then goto g (Send p) (set_size Z.succ s)
  else goto g (Shake p) s.

Definition is_reaped (p : nat) (s : t) : bool :=
  match procs s !! p with
  | Some m => ManagedProcess.reaped m && ManagedProcess.exited m
  | None => false
  end.

(** The handshake: [answered], or no response within its timeout with [stderr]
    written so far. *)
Definition shake (g p : nat) (answered : bool) (stderr : string) (s : t) : t :=
  if answered then goto g (Send p) (set_size Z.succ s)
  else if is_reaped p s then
    let reason := if bool_decide (stderr = EmptyString)
                  then "process exited immediately (no stderr output)" else trim_space stderr in
    finish g true (set_attempts (spawnAttempts s) initial_backoff (set_reason reason (kill p s)))
  else
    let reason := if bool_decide (stderr = EmptyString)
                  then "handshake timeout (process may be downloading or waiting for auth)"
                  else trim_space stderr in
    let s := set_reason reason (kill p s) in
    let s := set_attempts (spawnAttempts s + 1) (backoffDelay s) s in
    if opened s then finish g true s
    else
      let s := set_attempts (spawnAttempts s) (next_delay s) s in
      finish g true (if closed s then s else set_retries S s).

(** [pool.Warm <- proc]: blocks while the channel is full. *)
Definition send (g p : nat) (s : t) : t :=
  if warm_closed s then panic s
  else if (length (Warm s) <? cap s)%nat then
    let n := if isSimpleCommand (Command s) then spawnAttempts s else 0 in
    finish g true (set_attempts n initial_backoff (set_warm (fun l => l ++ [p]) s))
  else s.

(** One step of the goroutine [g] as far as it can go. *)
Definition spawn_step (g : nat) (ok : bool) (stderr : string) (s : t) : t :=
  match spawns s !! g with
  | None => s
  | Some Enter => enter g s
  | Some Launch => launch g ok s
  | Some (Launched p) => launched g p s
  | Some (Shake p) => shake g p ok stderr s
  | Some (Send p) => send g p s
  end.

(** A retry timer fires. *)
Definition fire_retry (s : t) : t :=
  match retries s with O => s | S n => go_spawn (set_retries (fun _ => n) s) end.

(** ** Acquiring and releasing *)

Definition is_alive (p : nat) (s : t) : bool :=
  match procs s !! p with Some m => ManagedProcess.IsAlive m | None => false end.

(** A receive on the closed channel gives nil, whose [IsAlive] panics. *)
Definition TryAcquireWarm (s : t) : option nat * t :=
  match Warm s with
  | [] => if warm_closed s then (None, panic s) else (None, s)
  | p :: rest =>
      let s := set_warm (fun _ => rest) s in
      if negb (is_alive p s) then (None, kill p s)
      else (Some p, set_size Z.pred s)
  end.

(** A send on the closed channel panics, in a [select] with a default too. *)
Definition ReleaseWarm (p : nat) (s : t) : t :=
  let s := set_size Z.succ s in
  if warm_closed s then panic s
  else if (length (Warm s) <? cap s)%nat then set_warm (fun l => l ++ [p]) s
  else kill p s.

Definition IsSpawning (s : t) : bool := negb (Spawning s <? defaultSpawnChannel)%nat.

Definition WarmCount (s : t) : nat := length (Warm s).

(** What the callers get. *)
Inductive acquired := Got (p : nat) | Unavailable (reason : string) | TimedOut | Crashed.

Definition unavailable (s : t) : acquired := Unavailable (lastFailureReason s).

(** The loop of [WaitForWarmWithMax] from its [i]-th look at the clock: [env i]
    is what the others do to the pool before the next look and [delay i] the time
    that passes on top of the sleep.  [None]: out of fuel. *)
Fixpoint wait_loop (fuel : nat) (env : nat -> t -> t) (delay : nat -> Duration) (deadline : Time)
    (i : nat) (now : Time) (s : t) : option (acquired * t) :=
  match fuel with
  | O => None
  | S fuel =>
      if negb (now <? deadline) then
        Some (if IsUnavailable s then unavailable s else TimedOut, s)
      else if IsUnavailable s then Some (unavailable s, s)
      else
        match Warm s with
        | p :: rest =>
            let s := set_warm (fun _ => rest) s in
            if negb (is_alive p s)
            then wait_loop fuel env delay deadline (S i) (now + delay i) (env i (kill p s))
            else Some (Got p, set_size Z.pred s)
        | [] =>
            if warm_closed s then Some (Crashed, panic s)
            else wait_loop fuel env delay deadline (S i) (now + poll_interval + delay i) (env i s)
        end
  end.

Definition WaitForWarmWithMax (fuel : nat) env delay (timeout : Duration) (now : Time) (s : t) :
    option (acquired * t) :=
  if IsUnavailable s then Some (unavailable s, s)
  else match TryAcquireWarm s with
       | (Some p, s) => Some (Got p, s)
       | (None, s) => if panicked s then Some (Crashed, s)
                      else wait_loop fuel env delay (now + timeout) 0 now s
       end.

Definition GetWarmWithRetry (fuel : nat) env delay (timeout : Duration) (now : Time) (s : t) :
    option (acquired * t) :=
  let timeout := if timeout =? 0 then DefaultWarmWaitTimeout else timeout in
  match TryAcquireWarm s with
  | (Some p, s) => Some (Got p, s)
  | (None, s) =>
      if panicked s then Some (Crashed, s)
      else
        let s := if negb (IsUnavailable s) && negb (IsSpawning s) then go_spawn s else s in
        match WaitForWarmWithMax fuel env delay timeout now s with
        | Some (TimedOut, s) =>
            Some (if bool_decide (lastFailureReason s = EmptyString) then TimedOut else unavailable s, s)
        | r => r
        end
  end.

(** ** Shutdown *)

(** [true]: the first call, which goes on to wait. *)
Definition shutdown_begin (s : t) : bool * t :=
  if closed s then (false, s) else (true, set_closed true (warm_closed s) s).

(** [wg.Wait()] returns when there is no goroutine. *)
Definition wait_done (s : t) : bool := bool_decide (spawns s = ∅).

(** The warm processes stay in the channel, and alive. *)
Definition shutdown_end (s : t) : t := if wait_done s then set_closed (closed s) true s else s.

End Pool.

(** ** Histories *)

(** What happens to a pool, in some order. *)
Inductive pool_op :=
| OStep (g : nat) (ok : bool) (stderr : string)
| ORetry
| OTrigger
| OReset
| OAcquire
| ORelease (p : nat)
| ODie (p : nat)
| OShutdown
| OShutdownEnd.

Definition pool_step (o : pool_op) (s : Pool.t) : Pool.t :=
  match o with
  | OStep g ok stderr => Pool.spawn_step g ok stderr s
  | ORetry => Pool.fire_retry s
  | OTrigger => Pool.go_spawn s
  | OReset => Pool.ResetSpawnAttempts s
  | OAcquire => (Pool.TryAcquireWarm s).2
  | ORelease p => if bool_decide (is_Some (Pool.procs s !! p)) then Pool.ReleaseWarm p s else s
  | ODie p => Pool.set_procs (alter ManagedProcess.die p) (Pool.next s) s
  | OShutdown => (Pool.shutdown_begin s).2
  | OShutdownEnd => if Pool.closed s then Pool.shutdown_end s else s
  end.

Definition pool_run (ops : list pool_op) (s : Pool.t) : Pool.t := foldl (fun s o => pool_step o s) s ops.

(** ** Properties *)

(** *** Waiting ends *)

(** The looks at the clock that are left. *)
Definition looks (deadline now : Time) : nat :=
  Z.to_nat ((deadline - now + (poll_interval - 1)) / poll_interval).

Section Waiting.
Variable env : nat -> Pool.t -> Pool.t.
Variable delay : nat -> Duration.
(** The others put at most [arrivals i] processes into the channel in the
    [i]-th pause. *)
Variable arrivals : nat -> nat.
Hypothesis env_arrivals : forall i s,
  (length (Pool.Warm (env i s)) <= length (Pool.Warm s) + arrivals i)%nat.
Hypothesis delay_nonneg : forall i, 0 <= delay i.

Lemma looks_mono deadline now now' : now <= now' -> (looks deadline now' <= looks deadline now)%nat.
Proof.
  intros Hle. unfold looks.
  enough ((deadline - now' + (poll_interval - 1)) / poll_interval <=
          (deadline - now + (poll_interval - 1)) / poll_interval) by lia.
  apply Z.div_le_mono; unfold poll_interval, Millisecond; lia.
Qed.

Lemma looks_step deadline now now' :
  now < deadline -> now + poll_interval <= now' -> (looks deadline now' < looks deadline now)%nat.
Proof.
  intros Hd Hn. pose proof (looks_mono deadline _ _ Hn) as Hm.
  enough (looks deadline (now + poll_interval) < looks deadline now)%nat by lia.
  unfold looks, poll_interval, Millisecond in *.
  replace (deadline - (now + 50 * 1000000) + (50 * 1000000 - 1))
    with (deadline - now + (50 * 1000000 - 1) + (-1) * (50 * 1000000)) by lia.
  rewrite Z.div_add by lia.
  assert (1 <= (deadline - now + (50 * 1000000 - 1)) / (50 * 1000000))
    by (apply Z.div_le_lower_bound; lia).
  lia.
Qed.

(** No more than [r] processes arrive from the [i]-th pause on. *)
Definition arrive_at_most (i r : nat) : Prop :=
  forall n, (sum_list (arrivals <$> seq i n) <= r)%nat.

Lemma wait_loop_ends fuel deadline i now s r :
  arrive_at_most i r ->
  (looks deadline now + length (Pool.Warm s) + r < fuel)%nat ->
  exists a s', Pool.wait_loop fuel env delay deadline i now s = Some (a, s').
Proof.
  revert i now s r. induction fuel as [|fuel IH]; intros i now s r Hr Hfuel; [lia|].
  cbn [Pool.wait_loop]. case_if; [by eexists _, _|]. case_if; [by eexists _, _|].
  assert (Hnext : arrive_at_most (S i) (r - arrivals i) /\ (arrivals i <= r)%nat).
  { assert (Hcons : forall n, (arrivals i + sum_list (arrivals <$> seq (S i) n) <= r)%nat)
      by (intros n; exact (Hr (S n))).
    split; [intros n|]; [specialize (Hcons n)|specialize (Hcons 0%nat)]; lia. }
  destruct Hnext as [Hnext Hle]. pose proof (delay_nonneg i).
  destruct (Pool.Warm s) as [|p rest] eqn:Hw.
  - case_if; [by eexists _, _|]. apply (IH (S i) _ _ (r - arrivals i)%nat); [done|].
    pose proof (env_arrivals i s) as Ha. rewrite Hw in Ha. cbn in *.
    pose proof (looks_step deadline now (now + poll_interval + delay i) ltac:(lia) ltac:(lia)). lia.
  - case_if; [|by eexists _, _]. apply (IH (S i) _ _ (r - arrivals i)%nat); [done|].
    pose proof (env_arrivals i (Pool.kill p (Pool.set_warm (fun _ => rest) s))) as Ha. cbn in *.
    pose proof (looks_mono deadline now (now + delay i) ltac:(lia)). lia.
Qed.

(** C14: waiting for a process ends.  Whatever the other requests, the goroutines
    and the processes do in the pauses, as long as no more than [r] processes
    are put into the channel while it waits, [WaitForWarmWithMax] has returned
    after at most one look for every 50 milliseconds of the timeout, for every
    process that is or comes into the channel, and one more. *)
Theorem WaitForWarmWithMax_terminates fuel timeout now s r :
  arrive_at_most 0 r ->
  (looks (now + timeout) now + length (Pool.Warm s) + r < fuel)%nat ->
  exists a s', Pool.WaitForWarmWithMax fuel env delay timeout now s = Some (a, s').
Proof.
  intros Hr Hfuel. unfold Pool.WaitForWarmWithMax. case_if; [by eexists _, _|].
  destruct (Pool.TryAcquireWarm s) as [[p|] s1] eqn:Ht; [by eexists _, _|].
  case_if; [by eexists _, _|]. apply (wait_loop_ends _ _ _ _ _ r); [done|].
  enough (length (Pool.Warm s1) <= length (Pool.Warm s))%nat by lia.
  unfold Pool.TryAcquireWarm in Ht. destruct (Pool.Warm s) as [|p rest] eqn:Hw.
  - case_if; injection Ht as <-; cbn; rewrite Hw; simpl; lia.
  - case_if; [|done]. injection Ht as <-. simpl. lia.
Qed.

End Waiting.

(** *** Which processes are alive *)

Definition phase_proc (ph : phase) : option nat :=
  match ph with Enter | Launch => None | Launched p | Shake p | Send p => Some p end.

(** Every process was started and never waited for; the channel and the
    goroutines hold processes of the pool. *)
Definition tracked (procs : gmap nat ManagedProcess.t) (warm : list nat) (spawns : gmap nat phase) : Prop :=
  (forall p m, procs !! p = Some m ->
     ManagedProcess.started m = true /\ ManagedProcess.reaped m = false) /\
  (forall p, p ∈ warm -> is_Some (procs !! p)) /\
  (forall g ph p, spawns !! g = Some ph -> phase_proc ph = Some p -> is_Some (procs !! p)).

Definition well_tracked (s : Pool.t) : Prop :=
  tracked (Pool.procs s) (Pool.Warm s) (Pool.spawns s).

Section Tracked.
Context (ps : gmap nat ManagedProcess.t) (w : list nat) (sp : gmap nat phase).
Hypothesis Ht : tracked ps w sp.

Lemma tracked_alter f p :
  (forall m, ManagedProcess.started (f m) = ManagedProcess.started m /\
             ManagedProcess.reaped (f m) = ManagedProcess.reaped m) ->
  tracked (alter f p ps) w sp.
Proof.
  intros Hf. destruct Ht as (Hp & Hw & Hs). split_and!.
  - intros q m. rewrite lookup_alter_Some. intros [(<- & m0 & Hm0 & ->)|[_ Hm]]; [|eauto].
    destruct (Hf m0) as [-> ->]. eauto.
  - intros q Hq. rewrite lookup_alter_is_Some. auto.
  - intros g ph q Hg Hq. rewrite lookup_alter_is_Some. eauto.
Qed.

Lemma tracked_kill p : tracked (alter ManagedProcess.Kill p ps) w sp.
Proof. apply tracked_alter. by intros [[]]. Qed.

Lemma tracked_insert p m :
  ManagedProcess.started m = true -> ManagedProcess.reaped m = false -> tracked (<[p := m]> ps) w sp.
Proof.
  intros Hm1 Hm2. destruct Ht as (Hp & Hw & Hs). split_and!.
  - intros q m'. rewrite lookup_insert_Some. intros [[_ <-]|[_ Hm]]; eauto.
  - intros q Hq. rewrite lookup_insert_is_Some. destruct (decide (p = q)); auto.
  - intros g ph q Hg Hq. rewrite lookup_insert_is_Some. destruct (decide (p = q)); eauto.
Qed.

Lemma tracked_warm w' : (forall p, p ∈ w' -> p ∈ w \/ is_Some (ps !! p)) -> tracked ps w' sp.
Proof. intros Hw'. destruct Ht as (Hp & Hw & Hs). split_and!; eauto. intros p Hin. destruct (Hw' p Hin); auto. Qed.

Lemma tracked_spawn g ph :
  (forall p, phase_proc ph = Some p -> is_Some (ps !! p)) -> tracked ps w (<[g := ph]> sp).
Proof.
  intros Hph. destruct Ht as (Hp & Hw & Hs). split_and!; eauto.
  intros g' ph' p. rewrite lookup_insert_Some. intros [[_ <-]|[_ Hg]]; eauto.
Qed.

Lemma tracked_finish g : tracked ps w (delete g sp).
Proof.
  destruct Ht as (Hp & Hw & Hs). split_and!; eauto.
  intros g' ph' p. rewrite lookup_delete_Some. intros [_ Hg]; eauto.
Qed.
End Tracked.

#[export] Hint Resolve tracked_kill tracked_finish tracked_insert : pool.

Lemma spawn_step_tracked g ok stderr s : well_tracked s -> well_tracked (Pool.spawn_step g ok stderr s).
Proof.
  intros Ht. unfold Pool.spawn_step. destruct (Pool.spawns s !! g) as [ph|] eqn:Hg; [|done].
  pose proof Ht as (_ & _ & Hsp). specialize (Hsp g ph).
  destruct ph as [| |p|p|p]; cbn [phase_proc] in Hsp.
  - unfold Pool.enter. repeat case_if; unfold well_tracked; cbn; auto with pool.
    by apply tracked_spawn.
  - unfold Pool.launch, Pool.opened. repeat case_if; unfold well_tracked; cbn; auto with pool.
    apply tracked_spawn; [by apply tracked_insert|]. intros p [= <-]. rewrite lookup_insert_eq. eauto.
  - unfold Pool.launched. repeat case_if; unfold well_tracked; cbn; auto with pool.
    all: apply tracked_spawn; [done|]; intros q [= <-]; eauto.
  - unfold Pool.shake, Pool.opened. repeat case_if; unfold well_tracked; cbn; auto with pool.
    all: apply tracked_spawn; [done|]; intros q [= <-]; eauto.
  - unfold Pool.send. repeat case_if; unfold well_tracked; cbn; auto with pool.
    all: apply tracked_finish; eapply tracked_warm; [done|]; intros q; rewrite elem_of_app; set_solver.
Qed.

Lemma pool_step_tracked o s : well_tracked s -> well_tracked (pool_step o s).
Proof.
  intros Ht. destruct o as [g ok stderr| | | | |p|p| |]; cbn [pool_step].
  - by apply spawn_step_tracked.
  - unfold Pool.fire_retry. destruct (Pool.retries s); [done|]. by apply tracked_spawn.
  - by apply tracked_spawn.
  - unfold Pool.ResetSpawnAttempts. case_if; [by apply tracked_spawn|done].
  - unfold Pool.TryAcquireWarm. destruct (Pool.Warm s) as [|p rest] eqn:Hw; [by case_if|].
    assert (Htl : tracked (Pool.procs s) rest (Pool.spawns s)).
    { eapply tracked_warm; [done|]. rewrite Hw. intros q Hq. left. by apply list_elem_of_further. }
    case_if; unfold well_tracked; cbn; auto with pool.
  - case_if; [|done]. unfold Pool.ReleaseWarm. repeat case_if; unfold well_tracked; cbn; auto with pool.
    eapply tracked_warm; [done|]. intros q. rewrite elem_of_app. set_solver.
  - by apply tracked_alter.
  - unfold Pool.shutdown_begin. by case_if.
  - unfold Pool.shutdown_end. by repeat case_if.
Qed.

Lemma NewPoolWithEnv_tracked mn mx cmd : well_tracked (Pool.NewPoolWithEnv mn mx cmd).
Proof.
  unfold Pool.NewPoolWithEnv. induction (Z.to_nat mn) as [|n IH]; simpl.
  - unfold well_tracked, tracked. cbn. split_and!.
    + intros p m Hp. by apply lookup_empty_Some in Hp.
    + intros p Hp. by apply not_elem_of_nil in Hp.
    + intros g ph p Hp. by apply lookup_empty_Some in Hp.
  - by apply tracked_spawn.
Qed.

Lemma pool_run_tracked ops s : well_tracked s -> well_tracked (pool_run ops s).
Proof. revert s. induction ops as [|o ops IH]; intros s Hs; [done|]. apply IH. by apply pool_step_tracked. Qed.

(** A dead process is handed out.  The liveness check looks at the state
    that [Wait] records, and nothing waits for the processes of a pool: in every
    history of a pool, the process at the head of the channel is acquired, and
    returned to the caller, whether or not it has exited. *)
Theorem dead_process_acquired mn mx cmd ops p rest :
  let s := pool_run ops (Pool.NewPoolWithEnv mn mx cmd) in
  Pool.Warm s = p :: rest ->
  (Pool.TryAcquireWarm s).1 = Some p /\ (Pool.TryAcquireWarm (pool_step (ODie p) s)).1 = Some p.
Proof.
  intros s Hw.
  assert (Hacq : forall s, well_tracked s -> Pool.Warm s = p :: rest -> (Pool.TryAcquireWarm s).1 = Some p).
  { intros s' (Hp & Hwarm & _) Hw'. unfold Pool.TryAcquireWarm. rewrite Hw'.
    unfold Pool.is_alive. cbn [Pool.procs Pool.set_warm].
    destruct (Hwarm p) as [m Hm]; [rewrite Hw'; apply list_elem_of_here|].
    rewrite Hm. destruct (Hp p m Hm) as [Hs Hr]. unfold ManagedProcess.IsAlive. by rewrite Hs, Hr. }
  pose proof (pool_run_tracked ops _ (NewPoolWithEnv_tracked mn mx cmd)) as Ht. fold s in Ht.
  split; apply Hacq; try done. by apply (pool_step_tracked (ODie p)).
Qed.

(** *** Shutdown *)

(** A goroutine waits for a place in the full channel. *)
Definition send_blocked (g : nat) (s : Pool.t) : Prop :=
  (exists p, Pool.spawns s !! g = Some (Send p)) /\ (g < Pool.next s)%nat /\
  (Pool.cap s <= length (Pool.Warm s))%nat /\ Pool.warm_closed s = false.

Lemma send_blocked_step g o s : o <> OAcquire -> send_blocked g s -> send_blocked g (pool_step o s).
Proof.
  intros Ho Hb. pose proof Hb as ([p Hg] & Hlt & Hfull & Hopen).
  assert (Hspawn : forall s', send_blocked g s' -> send_blocked g (Pool.go_spawn s')).
  { intros s' ([q Hq] & Hl & Hr). split_and!; [exists q; cbn; by rewrite lookup_insert_ne by lia|cbn; lia|apply Hr..]. }
  destruct o as [g' ok stderr| | | | |q|q| |]; cbn [pool_step]; try done.
  - unfold Pool.spawn_step. destruct (decide (g' = g)) as [->|Hne].
    { rewrite Hg. unfold Pool.send. rewrite Hopen.
      replace (length (Pool.Warm s) <? Pool.cap s)%nat with false by (symmetry; apply Nat.ltb_ge; lia).
      done. }
    destruct (Pool.spawns s !! g') as [ph|] eqn:Hg'; [|done].
    destruct ph as [| |q|q|q];
      unfold Pool.enter, Pool.launch, Pool.launched, Pool.shake, Pool.send, Pool.opened;
      repeat case_if; try done; try (rewrite Hopen in *; done);
      try (exfalso; rewrite ?Nat.ltb_lt in *; lia);
      (split_and!; [exists p; cbn; rewrite ?lookup_delete_ne, ?lookup_insert_ne by done; done|cbn; lia|done|done]).
  - unfold Pool.fire_retry. destruct (Pool.retries s); [done|]. by apply Hspawn.
  - by apply Hspawn.
  - unfold Pool.ResetSpawnAttempts. case_if; [by apply Hspawn|done].
  - case_if; [|done]. unfold Pool.ReleaseWarm. cbn [Pool.warm_closed Pool.set_size Pool.Warm Pool.cap].
    rewrite Hopen. replace (length (Pool.Warm s) <? Pool.cap s)%nat with false
      by (symmetry; apply Nat.ltb_ge; lia). refine (conj (ex_intro _ p _) (conj _ (conj _ _))); done.
  - unfold Pool.shutdown_begin. by case_if.
  - unfold Pool.shutdown_end, Pool.wait_done. repeat case_if; try done.
    match goal with He : Pool.spawns s = ∅ |- _ => by rewrite He, lookup_empty in Hg end.
Qed.

Lemma send_blocked_run g ops s :
  OAcquire ∉ ops -> send_blocked g s -> send_blocked g (pool_run ops s).
Proof.
  revert s. induction ops as [|o ops IH]; intros s Hops Hs; [done|].
  rewrite not_elem_of_cons in Hops. destruct Hops as [Ho Hops].
  apply (IH (pool_step o s)); [done|]. apply send_blocked_step; [done|done].
Qed.

(** Two requests of a pool of one process: while the first has it, the second
    asks for another, but is served with the first one before the second process
    has answered its handshake. *)
Definition two_requests : list pool_op :=
  [OStep 0 true EmptyString; OStep 0 true EmptyString; OStep 0 true EmptyString; OStep 0 true EmptyString; OStep 0 true EmptyString;
   OAcquire; OTrigger; OStep 2 true EmptyString; OStep 2 true EmptyString; OStep 2 true EmptyString;
   ORelease 1; OAcquire; ORelease 1; OStep 2 true EmptyString].

(** An idle pool can make [Shutdown] wait for ever.  A history of two
    requests leaves a pool of size one with its process back in the channel,
    nobody using it, and a goroutine that waits to send a second process to the
    full channel; [Shutdown], which waits for that goroutine, does not return
    whatever happens to the pool, unless a request acquires a process from it. *)
Theorem idle_pool_shutdown_hangs :
  let s := pool_run two_requests (Pool.NewPoolWithEnv 1 1 "npx -y server") in
  Pool.Warm s = [1%nat] /\ Pool.closed s = false /\ Pool.panicked s = false /\
  forall ops, OAcquire ∉ ops ->
    let s' := pool_run ops (pool_step OShutdown s) in
    Pool.closed (pool_step OShutdown s) = true /\ Pool.wait_done s' = false.
Proof.
  cbv zeta. split_and!; [by vm_compute..|]. intros ops Hops. split; [by vm_compute|].
  assert (Hb : send_blocked 2 (pool_step OShutdown (pool_run two_requests
    (Pool.NewPoolWithEnv 1 1 "npx -y server")))).
  { split_and!; [exists 3%nat; by vm_compute|apply Nat.ltb_lt; by vm_compute|
                 apply Nat.leb_le; by vm_compute|by vm_compute]. }
  destruct (send_blocked_run 2 ops _ Hops Hb) as ([p Hg] & _).
  unfold Pool.wait_done. apply bool_decide_eq_false_2. intros He.
  by rewrite He, lookup_empty in Hg.
Qed.

(** A pool that shut down with every goroutine gone. *)
Definition shut_down (s : Pool.t) : Pool.t := Pool.shutdown_end (Pool.shutdown_begin s).2.

Lemma shut_down_closed s :
  Pool.closed s = false -> Pool.spawns s = ∅ -> Pool.warm_closed (shut_down s) = true.
Proof.
  intros Hc Hs. unfold shut_down, Pool.shutdown_begin, Pool.shutdown_end, Pool.wait_done. rewrite Hc.
  cbn [snd Pool.spawns Pool.set_closed]. by rewrite bool_decide_eq_true_2.
Qed.

(** Releasing into it panics. *)
Lemma release_shut_down p s :
  Pool.warm_closed s = true -> Pool.panicked (Pool.ReleaseWarm p s) = true.
Proof. intros Hc. unfold Pool.ReleaseWarm. cbn [Pool.warm_closed Pool.set_size]. by rewrite Hc. Qed.

(** *** A concrete wait *)

Lemma WaitForWarmWithMax_terminates_witness :
  exists a s', Pool.WaitForWarmWithMax 302 (fun _ s => s) (fun _ => 0) (15 * Second) 0
    (Pool.NewPoolWithEnv 1 1 "npx -y server") = Some (a, s').
Proof.
  apply (WaitForWarmWithMax_terminates (fun _ s => s) (fun _ => 0) (fun _ => O)) with (r := O).
  - intros i s. lia.
  - intros i. lia.
  - intros n. generalize (seq 0 n). intros l. induction l as [|i l IH]; [done|exact IH].
  - apply Nat.ltb_lt. by vm_compute.
Defined.

Lemma dead_process_acquired_witness :
  let s := pool_run (firstn 5 two_requests) (Pool.NewPoolWithEnv 1 1 "npx -y server") in
  (Pool.TryAcquireWarm (pool_step (ODie 1) s)).1 = Some 1%nat.
Proof.
  cbv zeta. apply (dead_process_acquired 1 1 "npx -y server" (firstn 5 two_requests) 1%nat []).
  by vm_compute.
Defined.
