(* ===== verification/PoolManager.v ===== *)
(** * The pool manager: [src/poolmgr/manager.go]

    The manager keeps the pools of backends and of users by key.  A pool is
    shared: the manager, requests and other calls hold it by reference, so pools
    live in a store of their own and the map holds their names.  The lookup of a
    user's pool releases the lock of the manager in between, so it is a sequence
    of steps; what the goroutines of a pool do while [Shutdown] waits for them is
    an argument of the operations. *)
From S2P Require Import Prelude GoStrings Pool.
From stdpp Require Import sorting.
Open Scope Z_scope.

(** ** [hashEnv] *)

(** The inner loop with the element at [i]: it ends with the least of them there. *)
Fixpoint exchange (x : string) (l : list string) : string * list string :=
  match l with
  | [] => (x, [])
  | y :: l =>
      if negb (String.leb x y) then let '(m, r) := exchange y l in (m, x :: r)
      else let '(m, r) := exchange x l in (m, y :: r)
  end.

Fixpoint exchange_sort (n : nat) (l : list string) : list string :=
  match n, l with
  | S n, x :: l => let '(m, r) := exchange x l in m :: exchange_sort n r
  | _, _ => []
  end.

Definition hashEnv (env : list string) : string :=
  foldr (fun e h => e +:+ "|" +:+ h) EmptyString (exchange_sort (length env) env).

(** ** State *)

Module UserPool.
Record t := mk {
  core : Pool.t;
  EnvHash : string;
  secretInjector : bool;
  dedicatedUser : string;
  StdioFraming : string;
  lastUsed : Time
}.

Definition set_core c u := mk c (EnvHash u) (secretInjector u) (dedicatedUser u) (StdioFraming u) (lastUsed u).
Definition TouchLastUsed now u :=
  mk (core u) (EnvHash u) (secretInjector u) (dedicatedUser u) (StdioFraming u) now.

Definition EnvMatches (env : list string) (u : t) : bool := bool_decide (EnvHash u = hashEnv env).
Definition IsDedicated (u : t) : bool := negb (bool_decide (dedicatedUser u = EmptyString)).

(** [NewPoolWithEnv] and [NewPoolWithSecrets] *)
Definition new (now : Time) (minPoolSize maxPoolSize : Z) (command : string) (env : list string)
    (secrets : bool) : t :=
  mk (Pool.NewPoolWithEnv minPoolSize maxPoolSize command) (hashEnv env) secrets EmptyString EmptyString now.
End UserPool.

(** [Shutdown], which waits while the goroutines and others do [during]; [None]:
    it does not return. *)
Definition Shutdown (during : list pool_op) (s : Pool.t) : option Pool.t :=
  let '(first, s) := Pool.shutdown_begin s in
  if negb first then Some s
  else
    let s := pool_run during s in
    if Pool.wait_done s then Some (Pool.shutdown_end s) else None.

Module PoolStatus.
Record t := mk {
  BackendID : string; UserID : string; Command : string; WarmCount : Z; CurrentSize : Z;
  MinPoolSize : Z; MaxPoolSize : Z; Unavailable : bool; MemoryBytes : Z; ProcessMemory : list Z
}.
End PoolStatus.

Definition DefaultIdleTimeout : Duration := 15 * Minute.

Module PoolManager.
Record t := mk {
  pools : gmap string nat;
  store : gmap nat UserPool.t;      (* every pool that was made *)
  fresh : nat;
  command : string;
  poolSize : Z;
  idleTimeout : Duration
}.

Definition set_pools f m := mk (f (pools m)) (store m) (fresh m) (command m) (poolSize m) (idleTimeout m).
Definition set_store f m := mk (pools m) (f (store m)) (fresh m) (command m) (poolSize m) (idleTimeout m).

Definition NewPoolManagerWithGC (command : string) (poolSize : Z) (idleTimeout : Duration) : t :=
  mk ∅ ∅ O command poolSize idleTimeout.

(** A new pool under [key]. *)
Definition add (key : string) (u : UserPool.t) (m : t) : nat * t :=
  (fresh m, mk (<[key := fresh m]> (pools m)) (<[fresh m := u]> (store m)) (S (fresh m)) (command m)
              (poolSize m) (idleTimeout m)).

Definition touch (p : nat) (now : Time) (m : t) : t := set_store (alter (UserPool.TouchLastUsed now) p) m.

(** The second look under the write lock gives the same as one look. *)
Definition GetPool (now : Time) (backendID : string) (m : t) : nat * t :=
  match pools m !! backendID with
  | Some p => (p, m)
  | None => add backendID (UserPool.new now (poolSize m) (poolSize m) (command m) [] false) m
  end.

Definition GetOrCreatePool (now : Time) (backendID command : string) (poolSize : Z) (m : t) : nat * t :=
  match pools m !! backendID with
  | Some p => (p, m)
  | None => add backendID (UserPool.new now poolSize poolSize command [] false) m
  end.

Section Waiting.
(** What happens to the pool [p] while its [Shutdown] waits. *)
Variable during : nat -> list pool_op.

(** [pool.Shutdown()] *)
Definition shutdown (p : nat) (m : t) : option t :=
  match store m !! p with
  | None => Some m
  | Some u =>
      match Shutdown (during p) (UserPool.core u) with
      | Some c => Some (set_store <[p := UserPool.set_core c u]> m)
      | None => None
      end
  end.

(** [Shutdown] and [delete] for one key. *)
Definition remove (key : string) (m : t) : option t :=
  match pools m !! key with
  | None => Some m
  | Some p => set_pools (delete key) <$> shutdown p m
  end.

Definition RemovePool (backendID : string) (m : t) : option t := remove backendID m.

(** A loop over the map in the order [order] that removes the keys [f] holds for. *)
Fixpoint remove_if (f : string -> nat -> t -> bool) (order : list string) (m : t) : option (Z * t) :=
  match order with
  | [] => Some (0, m)
  | key :: order =>
      match pools m !! key with
      | None => remove_if f order m
      | Some p =>
          if f key p m then
            match remove key m with
            | None => None
            | Some m => match remove_if f order m with
                        | Some (n, m) => Some (n + 1, m)
                        | None => None
                        end
            end
          else remove_if f order m
      end
  end.

Definition of_backend (backendID key : string) : bool :=
  bool_decide (key = backendID) || has_prefix key (backendID +:+ ":").

Definition RemovePoolsByBackend (order : list string) (backendID : string) (m : t) : option (Z * t) :=
  remove_if (fun key _ _ => of_backend backendID key) order m.

Definition idle (now : Time) (p : nat) (m : t) : bool :=
  match store m !! p with
  | Some u => UserPool.IsDedicated u && (idleTimeout m <? time_sub now (UserPool.lastUsed u))
  | None => false
  end.

Definition collectIdlePools (order : list string) (now : Time) (m : t) : option t :=
  snd <$> remove_if (fun _ p m => idle now p m) order m.

(** The pools are shut down first, then the map is replaced. *)
Fixpoint shutdown_each (order : list string) (m : t) : option t :=
  match order with
  | [] => Some m
  | key :: order =>
      match pools m !! key with
      | None => shutdown_each order m
      | Some p => match shutdown p m with Some m => shutdown_each order m | None => None end
      end
  end.

Definition ShutdownAll (order : list string) (m : t) : option t :=
  set_pools (fun _ => ∅) <$> shutdown_each order m.

(** *** The pool of a user *)

Record request := {
  backendID : string; userID : string; user_command : string; minPoolSize : Z; maxPoolSize : Z;
  env : list string; secrets : bool; stdioFraming : string
}.

Definition key_of (backendID userID : string) : string := backendID +:+ ":" +:+ userID.
Definition req_key (r : request) : string := key_of (backendID r) (userID r).

(** Where a call of [GetOrCreateUserPoolWithSecrets] is. *)
Inductive at_ := Lookup | Shut (p : nat) | Delete | Create | Done (p : nat).

Definition secrets_fit (r : request) (u : UserPool.t) : bool :=
  negb (secrets r) || UserPool.secretInjector u.

Definition reusable (r : request) (u : UserPool.t) : bool :=
  UserPool.EnvMatches (env r) u && secrets_fit r u.

Definition user_pool (now : Time) (r : request) : UserPool.t :=
  let mn := Z.max 1 (minPoolSize r) in
  let mx := if maxPoolSize r <? mn then mn else maxPoolSize r in
  let u := UserPool.new now mn mx (user_command r) (env r) (secrets r) in
  let framing := if bool_decide (stdioFraming r = EmptyString) then "newline" else stdioFraming r in
  UserPool.mk (UserPool.core u) (UserPool.EnvHash u) (UserPool.secretInjector u) (userID r) framing now.

Definition create (now : Time) (r : request) (m : t) : at_ * t :=
  let '(p, m) := add (req_key r) (user_pool now r) m in (Done p, m).

(** One critical section, or [Shutdown] outside of the lock; [None]: it waits. *)
Definition step (now : Time) (r : request) (a : at_) (m : t) : option (at_ * t) :=
  let found := match pools m !! req_key r with
               | Some p => (fun u => (p, u)) <$> store m !! p
               | None => None
               end in
  match a with
  | Lookup =>
      match found with
      | Some (p, u) => if reusable r u then Some (Done p, touch p now m) else Some (Shut p, m)
      | None => Some (Create, m)
      end
  | Shut p => (fun m => (Delete, m)) <$> shutdown p m
  | Delete => Some (Create, set_pools (delete (req_key r)) m)
  | Create =>
      match found with
      | Some (p, u) =>
          if UserPool.EnvMatches (env r) u then
            if secrets_fit r u then Some (Done p, touch p now m)
            else create now r <$> remove (req_key r) m
          else Some (create now r m)
      | None => Some (create now r m)
      end
  | Done p => Some (Done p, m)
  end.

Fixpoint steps (n : nat) (now : Time) (r : request) (a : at_) (m : t) : option (at_ * t) :=
  match n with
  | O => Some (a, m)
  | S n => match step now r a m with Some (a, m) => steps n now r a m | None => None end
  end.

(** The call when nobody else moves: at most four steps. *)
Definition GetOrCreateUserPoolWithSecrets (now : Time) (r : request) (m : t) : option (nat * t) :=
  match steps 4 now r Lookup m with
  | Some (Done p, m) => Some (p, m)
  | _ => None
  end.

Definition GetOrCreateUserPoolWithFraming (now : Time) (r : request) (m : t) : option (nat * t) :=
  GetOrCreateUserPoolWithSecrets now (Build_request (backendID r) (userID r) (user_command r)
    (minPoolSize r) (maxPoolSize r) (env r) false (stdioFraming r)) m.

Definition GetOrCreateUserPool (now : Time) (r : request) (m : t) : option (nat * t) :=
  GetOrCreateUserPoolWithSecrets now (Build_request (backendID r) (userID r) (user_command r)
    (minPoolSize r) (maxPoolSize r) (env r) false EmptyString) m.

(** Two calls at once: [true] is a step of the first. *)
Fixpoint interleave (sched : list bool) (now : Time) (r1 r2 : request) (a1 a2 : at_) (m : t) :
    option (at_ * at_ * t) :=
  match sched with
  | [] => Some (a1, a2, m)
  | true :: sched => match step now r1 a1 m with
                     | Some (a1, m) => interleave sched now r1 r2 a1 a2 m
                     | None => None
                     end
  | false :: sched => match step now r2 a2 m with
                      | Some (a2, m) => interleave sched now r1 r2 a1 a2 m
                      | None => None
                      end
  end.
End Waiting.

Definition PoolCount (m : t) : Z := Z.of_nat (size (pools m)).

Section Status.
(** What the operating system says of the warm processes of a pool. *)
Variable memory : nat -> list Z.

(** [strings.SplitN(key, ":", 2)] *)
Definition split_key (key : string) : option (string * string) :=
  match str_index key ":" with
  | Some n => Some (str_take n key, str_drop (S n) key)
  | None => None
  end.

Definition status_of (parts : string * string) (p : nat) (u : UserPool.t) : PoolStatus.t :=
  let s := UserPool.core u in
  PoolStatus.mk parts.1 parts.2 (Pool.Command s) (Z.of_nat (Pool.WarmCount s)) (Pool.CurrentSize s)
    (Pool.MinPoolSize s) (Pool.MaxPoolSize s) (Pool.IsUnavailable s)
    (foldr (fun a b => (a + b) mod TwoTo64) 0 (memory p)) (memory p).

Definition status_at (key : string) (m : t) : option PoolStatus.t :=
  match pools m !! key, split_key key with
  | Some p, Some parts => status_of parts p <$> store m !! p
  | _, _ => None
  end.

Definition GetPoolsForUser (order : list string) (userID : string) (m : t) : list PoolStatus.t :=
  omap (fun key => if has_suffix key (":" +:+ userID) then status_at key m else None) order.

Definition GetAllPools (order : list string) (m : t) : list PoolStatus.t :=
  omap (fun key => status_at key m) order.
End Status.

Definition ResetPool (backendID userID : string) (m : t) : t :=
  match pools m !! key_of backendID userID with
  | Some p => set_store (alter (fun u => UserPool.set_core (Pool.ResetSpawnAttempts (UserPool.core u)) u) p) m
  | None => m
  end.
End PoolManager.

(** ** Lemmas *)

(** *** The sort of [hashEnv] *)

Lemma leb_le x y : String.leb x y = true <-> String.le x y.
Proof. unfold String.le. by rewrite Is_true_true. Qed.

Lemma exchange_spec x l m r :
  exchange x l = (m, r) -> m :: r ≡ₚ x :: l /\ Forall (String.le m) (x :: r).
Proof.
  revert x m r. induction l as [|y l IH]; intros x m r; cbn [exchange].
  - intros [= <- <-]. split; [done|]. by repeat constructor.
  - destruct (String.leb x y) eqn:Hxy; cbn [negb];
      destruct (exchange _ l) as [m' r'] eqn:He; intros [= <- <-];
      destruct (IH _ _ _ He) as [Hp Hf]; apply Forall_cons in Hf as [Hm Hf].
    + apply leb_le in Hxy. split; [by rewrite perm_swap, Hp, perm_swap|].
      repeat constructor; [done| |done]. by etransitivity.
    + assert (Hyx : String.le y x).
      { destruct (String.leb_total x y) as [H|H]; [congruence|by apply leb_le]. }
      split; [by rewrite perm_swap, Hp|]. assert (String.le m' x) by (by etransitivity).
      by repeat constructor.
Qed.

Lemma exchange_sort_spec n l :
  length l = n -> exchange_sort n l ≡ₚ l /\ StronglySorted String.le (exchange_sort n l).
Proof.
  revert l. induction n as [|n IH]; intros [|x l] Hl; try done; [by repeat constructor|].
  cbn [exchange_sort]. destruct (exchange x l) as [m r] eqn:He.
  destruct (exchange_spec _ _ _ _ He) as [Hp Hf]. apply Forall_cons in Hf as [_ Hf].
  assert (length r = n) as Hr.
  { apply Permutation_length in Hp. cbn in Hp, Hl. lia. }
  destruct (IH r Hr) as [Hp' Hs]. split; [by rewrite Hp'|].
  constructor; [done|]. by rewrite Hp'.
Qed.

Lemma exchange_sort_perm l1 l2 :
  l1 ≡ₚ l2 -> exchange_sort (length l1) l1 = exchange_sort (length l2) l2.
Proof.
  intros Hp. destruct (exchange_sort_spec _ l1 eq_refl) as [Hp1 Hs1].
  destruct (exchange_sort_spec _ l2 eq_refl) as [Hp2 Hs2].
  apply (StronglySorted_unique String.le); [done..|]. by rewrite Hp1, Hp2.
Qed.

Definition joined (l : list string) : string := foldr (fun e h => e +:+ "|" +:+ h) EmptyString l.

Lemma joined_inj l1 l2 :
  Forall (fun e => has_byte "|" e = false) l1 -> Forall (fun e => has_byte "|" e = false) l2 ->
  joined l1 = joined l2 -> l1 = l2.
Proof.
  intros Hf. revert l2. induction Hf as [|x l1 Hx Hf IH]; intros [|y l2] Hf2 He.
  - done.
  - exfalso. cbn in He. by destruct y.
  - exfalso. cbn in He. by destruct x.
  - apply Forall_cons in Hf2 as [Hy Hf2].
    destruct (str_split_unique _ _ _ _ _ Hx Hy He) as [-> Hrest]. f_equal. by apply IH.
Qed.

(** The hash of an environment identifies it.  Two environments none of whose
    entries has a vertical bar in it have the same hash exactly when they hold
    the same entries, in whatever order. *)
Theorem hashEnv_exact env1 env2 :
  Forall (fun e => has_byte "|" e = false) env1 -> Forall (fun e => has_byte "|" e = false) env2 ->
  hashEnv env1 = hashEnv env2 <-> env1 ≡ₚ env2.
Proof.
  intros Hf1 Hf2. split.
  - intros Hh. destruct (exchange_sort_spec _ env1 eq_refl) as [Hp1 _].
    destruct (exchange_sort_spec _ env2 eq_refl) as [Hp2 _].
    rewrite <- Hp1, <- Hp2. apply reflexive_eq, joined_inj; [by rewrite Hp1|by rewrite Hp2|exact Hh].
  - intros Hp. unfold hashEnv. by rewrite (exchange_sort_perm _ _ Hp).
Qed.

Lemma hashEnv_exact_witness : hashEnv ["B=2"; "A=1"] = hashEnv ["A=1"; "B=2"].
Proof.
  apply (hashEnv_exact ["B=2"; "A=1"] ["A=1"; "B=2"]); [by repeat constructor..|]. apply perm_swap.
Defined.

(** With a vertical bar different environments agree. *)
Lemma hashEnv_collision : hashEnv ["A=1|B=2"] = hashEnv ["A=1"; "B=2"].
Proof. reflexivity. Qed.

Lemma hashEnv_perm env1 env2 : env1 ≡ₚ env2 -> hashEnv env1 = hashEnv env2.
Proof. intros Hp. unfold hashEnv. by rewrite (exchange_sort_perm _ _ Hp). Qed.

(** *** Well-formed managers *)

Import PoolManager.

(** The map holds open pools of the store, each under one key. *)
Record wf (m : t) : Prop := {
  wf_store : forall k p, pools m !! k = Some p ->
    exists u, store m !! p = Some u /\ Pool.closed (UserPool.core u) = false;
  wf_inj : forall k1 k2 p, pools m !! k1 = Some p -> pools m !! k2 = Some p -> k1 = k2;
  wf_fresh : forall p, is_Some (store m !! p) -> (p < fresh m)%nat
}.

Lemma wf_lookup m k p : wf m -> pools m !! k = Some p -> exists u, store m !! p = Some u.
Proof. intros Hw Hk. destruct (wf_store _ Hw _ _ Hk) as (u & Hu & _). eauto. Qed.

Lemma wf_empty c n i : wf (NewPoolManagerWithGC c n i).
Proof.
  split; cbn; intros *.
  - by rewrite lookup_empty.
  - by rewrite lookup_empty.
  - rewrite lookup_empty. by intros [? ?].
Qed.

Lemma wf_add key u m :
  wf m -> Pool.closed (UserPool.core u) = false -> wf (add key u m).2.
Proof.
  intros Hw Hu. cbn. split; cbn [pools store fresh].
  - intros k p [[<- <-]|[Hne Hk]]%lookup_insert_Some; [rewrite lookup_insert_eq; eauto|].
    destruct (wf_store _ Hw _ _ Hk) as (v & Hv & Ho). exists v. split; [|done].
    rewrite lookup_insert_ne; [done|]. pose proof (wf_fresh _ Hw p (mk_is_Some _ _ Hv)). lia.
  - intros k1 k2 p [[<- <-]|[Hne1 H1']]%lookup_insert_Some [[<- ?]|[Hne2 H2']]%lookup_insert_Some; try done.
    + destruct (wf_lookup _ _ _ Hw H2') as [v Hv]. pose proof (wf_fresh _ Hw _ (mk_is_Some _ _ Hv)). lia.
    + subst. destruct (wf_lookup _ _ _ Hw H1') as [v Hv]. pose proof (wf_fresh _ Hw _ (mk_is_Some _ _ Hv)). lia.
    + by eapply (wf_inj _ Hw).
  - intros p. rewrite lookup_insert_is_Some'. intros [<-|Hp]; [lia|].
    pose proof (wf_fresh _ Hw _ Hp). lia.
Qed.

Lemma new_open now mn mx c e sec : Pool.closed (UserPool.core (UserPool.new now mn mx c e sec)) = false.
Proof. cbn. unfold Pool.NewPoolWithEnv. by induction (Z.to_nat mn). Qed.

Lemma wf_touch p now m : wf m -> wf (touch p now m).
Proof.
  intros Hw. split; cbn [pools store fresh touch set_store].
  - intros k q Hk. destruct (wf_store _ Hw _ _ Hk) as (u & Hu & Ho).
    destruct (decide (p = q)) as [->|Hne].
    + rewrite lookup_alter_eq, Hu. by eexists.
    + rewrite lookup_alter_ne by done. eauto.
  - apply (wf_inj _ Hw).
  - intros q. rewrite lookup_alter_is_Some. apply (wf_fresh _ Hw).
Qed.

Lemma wf_delete key m : wf m -> wf (set_pools (delete key) m).
Proof.
  intros Hw. split; cbn [pools store fresh set_pools].
  - intros k p [_ Hk]%lookup_delete_Some. by apply (wf_store _ Hw k).
  - intros k1 k2 p [_ H1']%lookup_delete_Some [_ H2']%lookup_delete_Some. by eapply (wf_inj _ Hw).
  - apply (wf_fresh _ Hw).
Qed.

(** *** Shutdown *)

Lemma pool_step_closed o s : Pool.closed s = true -> Pool.closed (pool_step o s) = true.
Proof.
  intros Hc. destruct o as [g ok e| | | | |q|q| |]; cbn [pool_step].
  - unfold Pool.spawn_step. destruct (Pool.spawns s !! g) as [[| |p|p|p]|];
      unfold Pool.enter, Pool.launch, Pool.launched, Pool.shake, Pool.send, Pool.opened;
      repeat case_if; done.
  - unfold Pool.fire_retry. by destruct (Pool.retries s).
  - done.
  - unfold Pool.ResetSpawnAttempts. by case_if.
  - unfold Pool.TryAcquireWarm. destruct (Pool.Warm s); repeat case_if; done.
  - unfold Pool.ReleaseWarm. repeat case_if; done.
  - done.
  - unfold Pool.shutdown_begin. by case_if.
  - unfold Pool.shutdown_end. repeat case_if; done.
Qed.

Lemma pool_run_closed ops s : Pool.closed s = true -> Pool.closed (pool_run ops s) = true.
Proof.
  revert s. induction ops as [|o ops IH]; intros s Hs; [done|]. apply IH.
  by apply pool_step_closed.
Qed.

(** Shut down for good: a release into the pool panics. *)
Definition gone (c : Pool.t) : Prop := Pool.closed c = true /\ Pool.warm_closed c = true.

Lemma gone_release c q : gone c -> Pool.panicked (Pool.ReleaseWarm q c) = true.
Proof. intros [_ Hc]. by apply release_shut_down. Qed.

Lemma Shutdown_gone ops s s' : Pool.closed s = false -> Shutdown ops s = Some s' -> gone s'.
Proof.
  unfold Shutdown, Pool.shutdown_begin. intros ->. cbn [negb].
  destruct (Pool.wait_done _) eqn:Hd; [|done]. intros [= <-]. unfold Pool.shutdown_end. rewrite Hd.
  split; [|done]. by apply (pool_run_closed ops).
Qed.

Section Facts.
Variable during : nat -> list pool_op.

(** [Shutdown] returns for every open pool of the manager. *)
Definition drains (m : t) : Prop :=
  forall p u, store m !! p = Some u -> Pool.closed (UserPool.core u) = false ->
    is_Some (Shutdown (during p) (UserPool.core u)).

Lemma drains_shutdown m p u :
  drains m -> store m !! p = Some u -> Pool.closed (UserPool.core u) = false ->
  exists c, shutdown during p m = Some (set_store <[p := UserPool.set_core c u]> m) /\ gone c.
Proof.
  intros Hd Hu Ho. destruct (Hd p u Hu Ho) as [c Hc]. exists c. unfold shutdown. rewrite Hu, Hc.
  split; [done|]. by apply (Shutdown_gone (during p) (UserPool.core u)).
Qed.

Lemma wf_remove key p u c m :
  wf m -> pools m !! key = Some p -> store m !! p = Some u ->
  wf (set_pools (delete key) (set_store <[p := UserPool.set_core c u]> m)).
Proof.
  intros Hw Hk Hu. split; cbn [pools store fresh set_pools set_store].
  - intros k q [Hne Hq]%lookup_delete_Some.
    rewrite lookup_insert_ne; [by apply (wf_store _ Hw k)|]. intros ->.
    by apply Hne, (wf_inj _ Hw _ _ q).
  - intros k1 k2 q [_ H1']%lookup_delete_Some [_ H2']%lookup_delete_Some. by eapply (wf_inj _ Hw).
  - intros q. rewrite lookup_insert_is_Some'. intros [<-|Hq]; apply (wf_fresh _ Hw); eauto.
Qed.

(** Removing a key that is there. *)
Lemma remove_effect key p m :
  wf m -> drains m -> pools m !! key = Some p ->
  exists u c, store m !! p = Some u /\ gone c /\
    let m' := set_pools (delete key) (set_store <[p := UserPool.set_core c u]> m) in
    remove during key m = Some m' /\ wf m'.
Proof.
  intros Hw Hd Hk. destruct (wf_store _ Hw _ _ Hk) as (u & Hu & Ho).
  destruct (drains_shutdown m p u Hd Hu Ho) as (c & Hc & Hg). exists u, c.
  cbv zeta. split_and!; [done|done| |by apply wf_remove]. unfold remove. by rewrite Hk, Hc.
Qed.

Lemma drains_remove key p u c m :
  drains m -> gone c -> drains (set_pools (delete key) (set_store <[p := UserPool.set_core c u]> m)).
Proof.
  intros Hd [Hc _] q v. cbn. rewrite lookup_insert_Some. intros [[<- <-]|[_ Hv]] Ho; [|by apply Hd].
  cbn in Ho. congruence.
Qed.

(** *** The loop that removes pools *)

(** [f] looks at the pool only. *)
Definition local (f : string -> nat -> t -> bool) : Prop :=
  forall k p m m', store m !! p = store m' !! p -> idleTimeout m = idleTimeout m' ->
    f k p m = f k p m'.

Record removed (f : string -> nat -> t -> bool) (order : list string) (m m' : t) : Prop := {
  removed_wf : wf m';
  removed_pools : forall k, pools m' !! k =
    p ← pools m !! k; if bool_decide (k ∈ order) && f k p m then None else Some p;
  removed_gone : forall k p, k ∈ order -> pools m !! k = Some p -> f k p m = true ->
    exists u, store m' !! p = Some u /\ gone (UserPool.core u);
  removed_kept : forall k p, pools m !! k = Some p -> bool_decide (k ∈ order) && f k p m = false ->
    store m' !! p = store m !! p
}.

Lemma removed_refl f m : wf m -> removed f [] m m.
Proof.
  intros Hw. split; [done|..].
  - intros k. by destruct (pools m !! k).
  - intros k p Hk. by apply not_elem_of_nil in Hk.
  - done.
Qed.

Lemma removed_skip f key order m m' :
  (forall p, pools m !! key = Some p -> f key p m = false) -> removed f order m m' ->
  removed f (key :: order) m m'.
Proof.
  intros Hf [Hw Hp Hg Hk].
  assert (Heq : forall k p, pools m !! k = Some p ->
    bool_decide (k ∈ key :: order) && f k p m = bool_decide (k ∈ order) && f k p m).
  { intros k p Hkp. destruct (decide (k = key)) as [->|Hne].
    - by rewrite (Hf p Hkp), !andb_false_r.
    - f_equal. apply bool_decide_ext. rewrite elem_of_cons. tauto. }
  split; [done|..].
  - intros k. rewrite Hp. destruct (pools m !! k) as [p|] eqn:Hkp; [|done]. cbn. by rewrite Heq.
  - intros k p [->|Hin]%elem_of_cons Hkp Hfk; [by rewrite (Hf p Hkp) in Hfk|eauto].
  - intros k p Hkp. rewrite Heq by done. eauto.
Qed.

Lemma removed_step f key order p u c m m' :
  local f -> wf m -> NoDup (key :: order) ->
  pools m !! key = Some p -> store m !! p = Some u -> f key p m = true -> gone c ->
  let m1 := set_pools (delete key) (set_store <[p := UserPool.set_core c u]> m) in
  removed f order m1 m' -> store m' !! p = Some (UserPool.set_core c u) ->
  removed f (key :: order) m m'.
Proof.
  intros Hl Hw [Hnin Hnd]%NoDup_cons Hk Hu Hf Hc m1 [Hw' Hp Hg Hkeep] Hstore.
  assert (Hother : forall k q, k <> key -> pools m !! k = Some q ->
    q <> p /\ pools m1 !! k = Some q /\ store m1 !! q = store m !! q /\ f k q m1 = f k q m).
  { intros k q Hne Hq. assert (q <> p) by (intros ->; by apply Hne, (wf_inj _ Hw _ _ p)).
    assert (Hs : store m1 !! q = store m !! q) by (cbn; by rewrite lookup_insert_ne).
    split_and!; [done|cbn; by rewrite lookup_delete_ne|done|by apply Hl]. }
  assert (Hin : forall k, k <> key -> bool_decide (k ∈ key :: order) = bool_decide (k ∈ order)).
  { intros k Hne. apply bool_decide_ext. rewrite elem_of_cons. tauto. }
  split; [done|..].
  - intros k. rewrite Hp. destruct (decide (k = key)) as [->|Hne].
    + cbn. rewrite lookup_delete_eq, Hk. cbn.
      rewrite bool_decide_eq_true_2 by by left. by rewrite Hf.
    + destruct (pools m !! k) as [q|] eqn:Hq.
      * destruct (Hother k q Hne Hq) as (_ & -> & _ & Hfk). cbn. by rewrite Hfk, Hin.
      * cbn. by rewrite lookup_delete_ne, Hq.
  - intros k q Hk' Hq Hfk. destruct (decide (k = key)) as [->|Hne].
    + assert (q = p) as -> by congruence. eexists. split; [done|exact Hc].
    + apply elem_of_cons in Hk' as [->|Hk']; [done|].
      destruct (Hother k q Hne Hq) as (_ & H1' & _ & Hfk'). eapply Hg; [done|done|by rewrite Hfk'].
  - intros k q Hq Hfk. destruct (decide (k = key)) as [->|Hne].
    + assert (q = p) as -> by congruence. rewrite bool_decide_eq_true_2, Hf in Hfk by by left. done.
    + destruct (Hother k q Hne Hq) as (_ & H1' & Hs & Hfk'). rewrite <- Hs. apply (Hkeep k); [done|].
      by rewrite Hfk', <- Hin.
Qed.

Lemma remove_if_store f order m n m' q :
  remove_if during f order m = Some (n, m') ->
  (forall k, pools m !! k <> Some q) -> store m' !! q = store m !! q.
Proof.
  revert m n m'. induction order as [|key order IH]; intros m n m'; cbn [remove_if].
  - by intros [= _ <-].
  - destruct (pools m !! key) as [p|] eqn:Hk; [|by apply IH]. case_if; [|by apply IH].
    destruct (remove during key m) as [m1|] eqn:Hr; [|done].
    destruct (remove_if during f order m1) as [[n1 m2]|] eqn:Hi; [|done]. intros [= _ <-] Hq.
    unfold remove in Hr. rewrite Hk in Hr. unfold shutdown in Hr.
    assert (p <> q) by (intros ->; by eapply Hq).
    assert (Hm1 : pools m1 = delete key (pools m) /\ store m1 !! q = store m !! q).
    { destruct (store m !! p) as [u|]; [|by injection Hr as <-].
      destruct (Shutdown _ _) as [c|]; [|done]. injection Hr as <-. cbn.
      split; [done|by rewrite lookup_insert_ne]. }
    destruct Hm1 as [Hp1 Hs1]. rewrite (IH _ _ _ Hi); [done|]. rewrite Hp1.
    intros k [_ Hkq]%lookup_delete_Some. by eapply Hq.
Qed.

Lemma remove_if_spec f order m :
  local f -> NoDup order -> wf m -> drains m ->
  exists n m', remove_if during f order m = Some (n, m') /\ removed f order m m'.
Proof.
  intros Hl. revert m. induction order as [|key order IH]; intros m Hnd Hw Hd.
  { exists 0, m. split; [done|by apply removed_refl]. }
  cbn [remove_if]. pose proof Hnd as [_ Hnd']%NoDup_cons.
  destruct (pools m !! key) as [p|] eqn:Hk.
  2:{ destruct (IH m Hnd' Hw Hd) as (n & m' & Hr & Hrem). exists n, m'. split; [done|].
      apply removed_skip; [|done]. congruence. }
  destruct (f key p m) eqn:Hf.
  2:{ destruct (IH m Hnd' Hw Hd) as (n & m' & Hr & Hrem). exists n, m'. split; [done|].
      apply removed_skip; [|done]. intros q. congruence. }
  destruct (remove_effect key p m Hw Hd Hk) as (u & c & Hu & Hc & Hr & Hw1). rewrite Hr.
  destruct (IH _ Hnd' Hw1 (drains_remove key p u c m Hd Hc)) as (n & m' & Hr' & Hrem). rewrite Hr'.
  exists (n + 1), m'. split; [done|].
  apply (removed_step f key order p u c m m'); try done.
  erewrite (remove_if_store _ _ _ _ _ p Hr').
  - cbn. by rewrite lookup_insert_eq.
  - cbn. intros k [Hne Hkp]%lookup_delete_Some. by apply Hne, (wf_inj _ Hw _ _ p).
Qed.
End Facts.

(** * Properties *)

(** *** The pool of a user *)

Definition set_env (r : request) (e : list string) : request :=
  Build_request (backendID r) (userID r) (user_command r) (minPoolSize r) (maxPoolSize r) e (secrets r)
    (stdioFraming r).

Lemma found_at m k p u :
  pools m !! k = Some p -> store m !! p = Some u ->
  match pools m !! k with
  | Some p => (fun u => (p, u)) <$> store m !! p
  | None => None
  end = Some (p, u).
Proof. intros -> Hu. cbn. by rewrite Hu. Qed.

(** A reusable pool is found at once. *)
Lemma call_found during now r m p u :
  pools m !! req_key r = Some p -> store m !! p = Some u -> reusable r u = true ->
  GetOrCreateUserPoolWithSecrets during now r m = Some (p, touch p now m).
Proof.
  intros Hk Hu Hr. unfold GetOrCreateUserPoolWithSecrets. cbn [steps step].
  by rewrite (found_at _ _ _ _ Hk Hu), Hr.
Qed.

(** Without a pool one is made. *)
Lemma call_absent during now r m :
  pools m !! req_key r = None ->
  GetOrCreateUserPoolWithSecrets during now r m = Some (add (req_key r) (user_pool now r) m).
Proof.
  intros Hk. unfold GetOrCreateUserPoolWithSecrets. cbn [steps step]. rewrite Hk. cbn. by rewrite Hk.
Qed.

(** A pool that does not fit is shut down and replaced. *)
Lemma call_replaces during now r m p u :
  wf m -> drains during m -> pools m !! req_key r = Some p -> store m !! p = Some u ->
  reusable r u = false ->
  exists c, gone c /\
    let m1 := set_pools (delete (req_key r)) (set_store <[p := UserPool.set_core c u]> m) in
    wf m1 /\
    GetOrCreateUserPoolWithSecrets during now r m = Some (add (req_key r) (user_pool now r) m1).
Proof.
  intros Hw Hd Hk Hu Hr.
  destruct (wf_store _ Hw _ _ Hk) as (u' & Hu' & Ho). assert (u' = u) as -> by congruence.
  destruct (drains_shutdown during m p u Hd Hu Ho) as (c & Hc & Hg). exists c. split; [done|].
  cbv zeta. split; [by apply wf_remove|].
  unfold GetOrCreateUserPoolWithSecrets. cbn [steps step].
  rewrite (found_at _ _ _ _ Hk Hu), Hr. cbn [steps step]. rewrite Hc. cbn. by rewrite lookup_delete_eq.
Qed.

Lemma user_pool_fits now r e :
  env r ≡ₚ e -> reusable (set_env r e) (user_pool now r) = true.
Proof.
  intros He. unfold reusable, secrets_fit, UserPool.EnvMatches. cbn.
  rewrite bool_decide_eq_true_2 by by apply hashEnv_perm. cbn. by destruct (secrets r).
Qed.

Lemma reusable_env r e u : env r ≡ₚ e -> reusable (set_env r e) u = reusable r u.
Proof.
  intros He. unfold reusable, secrets_fit, UserPool.EnvMatches. cbn. by rewrite (hashEnv_perm _ _ He).
Qed.

Lemma user_pool_open now r : Pool.closed (UserPool.core (user_pool now r)) = false.
Proof. apply (new_open now). Qed.

(** C13: a user gets one pool, and keeps it.  When [Shutdown] returns for the pools
    it is called for, the call returns; the manager then has that pool, open,
    under the key of the backend and the user, made for this environment; the
    keys of other backends and users have the pools they had; and a later call
    with the same entries in any order gets the same pool and makes none. *)
Theorem user_pool_stable during now r m :
  wf m -> drains during m ->
  exists p u m', GetOrCreateUserPoolWithSecrets during now r m = Some (p, m') /\ wf m' /\
    pools m' !! req_key r = Some p /\ store m' !! p = Some u /\ UserPool.EnvHash u = hashEnv (env r) /\
    (forall k, k <> req_key r -> pools m' !! k = pools m !! k) /\
    (forall during' now' e, env r ≡ₚ e ->
       GetOrCreateUserPoolWithSecrets during' now' (set_env r e) m' = Some (p, touch p now' m')).
Proof.
  intros Hw Hd.
  assert (Hadd : forall m1, wf m1 ->
    (forall k, k <> req_key r -> pools m1 !! k = pools m !! k) ->
    GetOrCreateUserPoolWithSecrets during now r m = Some (add (req_key r) (user_pool now r) m1) ->
    exists p u m', GetOrCreateUserPoolWithSecrets during now r m = Some (p, m') /\ wf m' /\
      pools m' !! req_key r = Some p /\ store m' !! p = Some u /\ UserPool.EnvHash u = hashEnv (env r) /\
      (forall k, k <> req_key r -> pools m' !! k = pools m !! k) /\
      (forall during' now' e, env r ≡ₚ e ->
         GetOrCreateUserPoolWithSecrets during' now' (set_env r e) m' = Some (p, touch p now' m'))).
  { intros m1 Hw1 Hsame Hcall. set (m' := (add (req_key r) (user_pool now r) m1).2).
    assert (Hk : pools m' !! req_key r = Some (fresh m1)) by (cbn; by rewrite lookup_insert_eq).
    assert (Hu : store m' !! fresh m1 = Some (user_pool now r)) by (cbn; by rewrite lookup_insert_eq).
    exists (fresh m1), (user_pool now r), m'. split_and!; [exact Hcall|apply wf_add; [done|apply user_pool_open]|done|done|done| |].
    - intros k Hne. cbn. rewrite lookup_insert_ne by done. auto.
    - intros during' now' e He. by apply (call_found during' now' (set_env r e) _ _ _ Hk Hu), user_pool_fits. }
  destruct (pools m !! req_key r) as [p|] eqn:Hk; [|by apply (Hadd m); [..|apply call_absent]].
  destruct (wf_lookup _ _ _ Hw Hk) as [u Hu]. destruct (reusable r u) eqn:Hr.
  - exists p, (UserPool.TouchLastUsed now u), (touch p now m).
    assert (Hu' : store (touch p now m) !! p = Some (UserPool.TouchLastUsed now u))
      by (cbn; by rewrite lookup_alter_eq, Hu).
    split_and!; [by apply (call_found _ _ _ _ _ u)|by apply wf_touch|done|done| |done|].
    + unfold reusable, UserPool.EnvMatches in Hr. apply andb_true_iff in Hr as [Hr _].
      by apply bool_decide_eq_true_1 in Hr.
    + intros during' now' e He. apply (call_found during' now' (set_env r e) (touch p now m) p (UserPool.TouchLastUsed now u) Hk Hu').
      rewrite reusable_env by done. exact Hr.
  - destruct (call_replaces during now r m p u Hw Hd Hk Hu Hr) as (c & _ & Hw1 & Hcall).
    apply (Hadd _ Hw1); [|done]. intros k Hne. cbn. by rewrite lookup_delete_ne.
Qed.

(** A change of the environment breaks the requests in flight.  A call with
    an environment, or with secrets, the pool of the user was not made for
    returns another pool and shuts the first one down for good; a request that
    still has a process of it panics when it gives the process back. *)
Theorem env_change_panics_release during now r m p0 u0 :
  wf m -> drains during m -> pools m !! req_key r = Some p0 -> store m !! p0 = Some u0 ->
  reusable r u0 = false ->
  exists p m' u, GetOrCreateUserPoolWithSecrets during now r m = Some (p, m') /\ p <> p0 /\
    store m' !! p0 = Some u /\ Pool.closed (UserPool.core u) = true /\
    forall proc, Pool.panicked (Pool.ReleaseWarm proc (UserPool.core u)) = true.
Proof.
  intros Hw Hd Hk Hu Hr.
  destruct (call_replaces during now r m p0 u0 Hw Hd Hk Hu Hr) as (c & Hg & _ & Hcall).
  assert (Hlt : (p0 < fresh m)%nat) by (apply (wf_fresh _ Hw); eauto).
  eexists _, _, (UserPool.set_core c u0). split; [exact Hcall|]. cbn. split_and!; [lia| |apply Hg|].
  - rewrite lookup_insert_ne by lia. by rewrite lookup_insert_eq.
  - intros proc. by apply gone_release.
Qed.

(** Both calls have seen the old pool before either has removed it. *)
Definition overlap : list bool := [true; true; false; false; true; true; false; false].

(** Two calls with a new environment lose a pool.  When two requests of a user
    both find that the environment changed, the second deletes what the first
    has put under the key: the pool the first request got is open, but it is in
    the manager under no key, so that neither the idle collection nor
    [ShutdownAll] ever reaches it. *)
Theorem concurrent_env_change_leaks_pool during now r m p0 u0 :
  wf m -> drains during m -> pools m !! req_key r = Some p0 -> store m !! p0 = Some u0 ->
  UserPool.EnvMatches (env r) u0 = false ->
  exists p1 p2 u1 m', interleave during overlap now r r Lookup Lookup m = Some (Done p1, Done p2, m') /\
    pools m' !! req_key r = Some p2 /\ (forall k, pools m' !! k <> Some p1) /\
    store m' !! p1 = Some u1 /\ Pool.closed (UserPool.core u1) = false.
Proof.
  intros Hw Hd Hk Hu He.
  destruct (wf_store _ Hw _ _ Hk) as (u' & Hu' & Ho). assert (u' = u0) as -> by congruence.
  destruct (drains_shutdown during m p0 u0 Hd Hu Ho) as (c & Hc & [Hcl Hwc]).
  assert (Hr : reusable r u0 = false) by (unfold reusable; by rewrite He).
  assert (Hr' : reusable r (UserPool.set_core c u0) = false) by exact Hr.
  set (m1 := set_store <[p0 := UserPool.set_core c u0]> m).
  assert (Hu1 : store m1 !! p0 = Some (UserPool.set_core c u0)) by (cbn; by rewrite lookup_insert_eq).
  assert (Hc1 : shutdown during p0 m1 = Some m1).
  { unfold shutdown. rewrite Hu1. cbn [UserPool.core UserPool.set_core].
    unfold Shutdown, Pool.shutdown_begin. rewrite Hcl. cbn. unfold set_store. cbn.
    by rewrite insert_insert_eq. }
  unfold overlap. cbn [interleave]. cbn [step].
  rewrite (found_at m _ _ _ Hk Hu), Hr. cbn [interleave step]. rewrite Hc.
  cbn [interleave step fmap option_fmap option_map]. fold m1.
  rewrite (found_at m1 _ _ _ Hk Hu1), Hr'. cbn [interleave step]. rewrite Hc1.
  cbn [interleave step fmap option_fmap option_map].
  assert (Hlt : forall k q, pools m !! k = Some q -> (q < fresh m)%nat).
  { intros k q Hq. destruct (wf_lookup _ _ _ Hw Hq) as [v Hv]. apply (wf_fresh _ Hw). eauto. }
  cbn [pools set_pools]. rewrite lookup_delete_eq. cbn. rewrite !lookup_delete_eq.
  eexists _, _, _, _. split; [reflexivity|]. cbn. split_and!.
  - by rewrite lookup_insert_eq.
  - intros k. rewrite lookup_insert_Some, lookup_delete_Some, lookup_insert_Some, lookup_delete_Some.
    intros [[_ ?]|(_ & Hne & [[? _]|[_ [_ Hq]]])]; [lia|done|]. apply Hlt in Hq. lia.
  - rewrite lookup_insert_ne by lia. by rewrite lookup_insert_eq.
  - apply user_pool_open.
Qed.

(** *** Removing pools *)

Lemma key_order_in order (m : t) k p : key_order order (pools m) -> pools m !! k = Some p -> k ∈ order.
Proof. intros Ho Hk. apply (key_order_elem order (pools m) k Ho). eauto. Qed.

(** What a loop over the whole map leaves. *)
Lemma removed_all f order m m' :
  key_order order (pools m) -> removed f order m m' ->
  (forall k, pools m' !! k = p ← pools m !! k; if f k p m then None else Some p) /\
  (forall k p, pools m !! k = Some p -> f k p m = true ->
     exists u, store m' !! p = Some u /\
       forall proc, Pool.panicked (Pool.ReleaseWarm proc (UserPool.core u)) = true) /\
  (forall k p, pools m !! k = Some p -> f k p m = false -> store m' !! p = store m !! p).
Proof.
  intros Ho [Hw Hp Hg Hk]. split_and!.
  - intros k. rewrite Hp. destruct (pools m !! k) as [p|] eqn:Hkp; [|done]. cbn.
    by rewrite bool_decide_eq_true_2 by by eapply key_order_in.
  - intros k p Hkp Hf. destruct (Hg k p) as (u & Hu & Hgone); [by eapply key_order_in|done|done|].
    exists u. split; [done|]. intros proc. by apply gone_release.
  - intros k p Hkp Hf. apply (Hk k); [done|]. by rewrite Hf, andb_false_r.
Qed.

(** The idle collection removes exactly the idle pools of users, and those
    include pools in use.  The time of last use is that of the last lookup, so a
    request that runs longer than the timeout has its pool shut down, and panics
    when it gives its process back. *)
Theorem collectIdlePools_exact during order now m :
  wf m -> drains during m -> key_order order (pools m) ->
  exists m', collectIdlePools during order now m = Some m' /\ wf m' /\
    (forall k, pools m' !! k = p ← pools m !! k; if idle now p m then None else Some p) /\
    (forall k p, pools m !! k = Some p -> idle now p m = true ->
       exists u, store m' !! p = Some u /\
         forall proc, Pool.panicked (Pool.ReleaseWarm proc (UserPool.core u)) = true) /\
    (forall k p, pools m !! k = Some p -> idle now p m = false -> store m' !! p = store m !! p).
Proof.
  intros Hw Hd Ho. set (f := fun (_ : string) p m => idle now p m).
  assert (Hl : local f) by (intros k p m1 m2 Hs Hi; unfold f, idle; by rewrite Hs, Hi).
  destruct (remove_if_spec during f order m Hl (proj1 Ho) Hw Hd) as (n & m' & Hr & Hrem).
  exists m'. unfold collectIdlePools. fold f. rewrite Hr. split; [done|].
  split; [apply Hrem|]. apply (removed_all f order m m' Ho Hrem).
Qed.

(** A change of a backend removes exactly its pools: that of the backend and
    those of its users.  They are shut down for good, in use or not; the pools of
    the other backends stay as they are. *)
Theorem RemovePoolsByBackend_exact during order backend m :
  wf m -> drains during m -> key_order order (pools m) ->
  exists n m', RemovePoolsByBackend during order backend m = Some (n, m') /\ wf m' /\
    (forall k, pools m' !! k = p ← pools m !! k; if of_backend backend k then None else Some p) /\
    (forall k p, pools m !! k = Some p -> of_backend backend k = true ->
       exists u, store m' !! p = Some u /\
         forall proc, Pool.panicked (Pool.ReleaseWarm proc (UserPool.core u)) = true) /\
    (forall k p, pools m !! k = Some p -> of_backend backend k = false -> store m' !! p = store m !! p).
Proof.
  intros Hw Hd Ho. set (f := fun key (_ : nat) (_ : t) => of_backend backend key).
  assert (Hl : local f) by by intros k p m1 m2.
  destruct (remove_if_spec during f order m Hl (proj1 Ho) Hw Hd) as (n & m' & Hr & Hrem).
  exists n, m'. unfold RemovePoolsByBackend. fold f. rewrite Hr. split; [done|].
  split; [apply Hrem|]. apply (removed_all f order m m' Ho Hrem).
Qed.

(** *** Listing *)

Lemma has_byte_first c s :
  has_byte c s = true -> exists a b, s = a +:+ String c b /\ has_byte c a = false.
Proof.
  induction s as [|x s IH]; [done|]. cbn. destruct (bool_decide_reflect (x = c)) as [->|Hne].
  - intros _. by exists EmptyString, s.
  - intros Hs. destruct (IH Hs) as (a & b & -> & Ha). exists (String x a), b. split; [done|].
    cbn. by rewrite bool_decide_eq_false_2.
Qed.

Lemma split_key_of b u : has_byte ":" b = false -> split_key (key_of b u) = Some (b, u).
Proof.
  intros Hb. unfold split_key, key_of. destruct (str_index (b +:+ ":" +:+ u) ":") as [n|] eqn:Hi.
  - apply str_index_Some in Hi as Hs. destruct Hs as (a & r & Heq & <-).
    pose proof (str_index_least _ _ _ b u Hi eq_refl) as Hle.
    assert (Ha : has_byte ":" a = false).
    { destruct (has_byte ":" a) eqn:Ha; [|done]. exfalso.
      apply has_byte_first in Ha as (a1 & a2 & -> & Ha1).
      rewrite <- str_app_assoc in Heq.
      destruct (str_split_unique ":" _ _ _ _ Hb Ha1 Heq) as [-> _].
      rewrite str_length_app in Hle. cbn in Hle. lia. }
    destruct (str_split_unique ":" _ _ _ _ Hb Ha Heq) as [-> ->].
    rewrite str_take_app. do 2 f_equal.
    replace (S (String.length a)) with (String.length (a +:+ ":")) by (rewrite str_length_app; cbn; lia).
    rewrite str_app_assoc. apply str_drop_app.
  - exfalso. by apply (proj1 (str_index_None _ _) Hi b u).
Qed.

Lemma key_of_suffix b u v :
  has_byte ":" b = false -> has_byte ":" u = false ->
  has_suffix (key_of b u) (":" +:+ v) = bool_decide (u = v).
Proof.
  intros Hb Hu. destruct (bool_decide_reflect (u = v)) as [->|Hne]; [apply has_suffix_app|].
  destruct (has_suffix _ _) eqn:Hs; [|done]. exfalso. apply has_suffix_spec in Hs as [r Heq].
  unfold key_of in Heq. destruct (has_byte ":" r) eqn:Hr.
  - apply has_byte_first in Hr as (r1 & r2 & -> & Hr1). rewrite <- str_app_assoc in Heq.
    destruct (str_split_unique ":" _ _ _ _ Hb Hr1 Heq) as [_ ->].
    rewrite has_byte_app in Hu. cbn in Hu. by rewrite orb_true_r in Hu.
  - destruct (str_split_unique ":" _ _ _ _ Hb Hr Heq) as [_ ->]. done.
Qed.

(** The keys are those of users and backends whose names have no colon. *)
Definition plain_keys (m : t) : Prop :=
  forall k p, pools m !! k = Some p ->
    has_byte ":" k = false \/
    exists b u, k = key_of b u /\ has_byte ":" b = false /\ has_byte ":" u = false.

(** A user sees exactly his own pools.  For names without a colon, the status
    page of a user lists a pool exactly when it is under the key of some backend
    and this user, with that backend and this user as its identity. *)
Theorem GetPoolsForUser_own memory order user m st :
  wf m -> key_order order (pools m) -> plain_keys m ->
  st ∈ GetPoolsForUser memory order user m <->
  exists b p u, has_byte ":" b = false /\ has_byte ":" user = false /\
    pools m !! key_of b user = Some p /\ store m !! p = Some u /\
    st = status_of memory (b, user) p u.
Proof.
  intros Hw Ho Hpl. unfold GetPoolsForUser. rewrite list_elem_of_omap. split.
  - intros (k & Hk & Hst). destruct (has_suffix k (":" +:+ user)) eqn:Hs; [|done].
    unfold status_at in Hst. destruct (pools m !! k) as [p|] eqn:Hp; [|done].
    destruct (Hpl k p Hp) as [Hnc|(b & v & -> & Hb & Hv)].
    + apply has_suffix_spec in Hs as [r ->]. rewrite has_byte_app in Hnc.
      apply orb_false_iff in Hnc as [_ Hnc]. done.
    + rewrite key_of_suffix in Hs by done. apply bool_decide_eq_true_1 in Hs as ->.
      rewrite split_key_of in Hst by done. destruct (store m !! p) as [u|] eqn:Hu; [|done].
      injection Hst as <-. by exists b, p, u.
  - intros (b & p & u & Hb & Hv & Hp & Hu & ->). exists (key_of b user).
    split; [by eapply key_order_in|].
    rewrite key_of_suffix, bool_decide_eq_true_2 by done. unfold status_at.
    by rewrite Hp, split_key_of, Hu by done.
Qed.

(** *** A concrete manager *)

Module DemoManager.
Definition req : request := Build_request "git" "ann" "npx -y server" 1 1 ["TOKEN=1"] false EmptyString.
Definition m0 : t := NewPoolManagerWithGC "cat" 1 DefaultIdleTimeout.
Definition m1 : t := (add (req_key req) (user_pool 0 req) m0).2.

(** The goroutine that was to start the process sees that the pool is closed. *)
Definition during (_ : nat) : list pool_op := [OStep 0 true EmptyString].
End DemoManager.
Import DemoManager.

Lemma demo_wf : wf m1.
Proof. apply wf_add; [apply wf_empty|apply user_pool_open]. Qed.

Lemma demo_drains : drains during m1.
Proof.
  intros p u. cbn [m1 add snd store m0 NewPoolManagerWithGC]. rewrite lookup_insert_Some.
  intros [[<- <-]|[_ Hp]]; [|by rewrite lookup_empty in Hp]. intros _. eexists. by vm_compute.
Qed.

Lemma demo_key : pools m1 !! req_key (set_env req ["TOKEN=2"]) = Some 0%nat.
Proof. apply lookup_insert_eq. Qed.

Lemma demo_pool : store m1 !! 0%nat = Some (user_pool 0 req).
Proof. apply lookup_insert_eq. Qed.

Lemma demo_keys_order : key_order [req_key req] (pools m1).
Proof.
  split; [apply NoDup_singleton|]. cbn [m1 add snd pools m0 NewPoolManagerWithGC].
  rewrite dom_insert_L, dom_empty_L. set_solver.
Qed.

Lemma user_pool_stable_witness :
  exists p u m', GetOrCreateUserPoolWithSecrets during 5 (set_env req ["TOKEN=2"]) m1 = Some (p, m') /\
    store m' !! p = Some u /\ UserPool.EnvHash u = "TOKEN=2|".
Proof.
  destruct (user_pool_stable during 5 (set_env req ["TOKEN=2"]) m1 demo_wf demo_drains)
    as (p & u & m' & Hc & _ & _ & Hu & He & _).
  by exists p, u, m'.
Defined.

Lemma env_change_panics_release_witness :
  exists p m' u, GetOrCreateUserPoolWithSecrets during 5 (set_env req ["TOKEN=2"]) m1 = Some (p, m') /\
    p <> 0%nat /\ store m' !! 0%nat = Some u /\ Pool.closed (UserPool.core u) = true /\
    forall proc, Pool.panicked (Pool.ReleaseWarm proc (UserPool.core u)) = true.
Proof.
  by apply (env_change_panics_release during 5 (set_env req ["TOKEN=2"]) m1 0%nat (user_pool 0 req)
    demo_wf demo_drains demo_key demo_pool).
Defined.

Lemma concurrent_env_change_leaks_pool_witness :
  let r := set_env req ["TOKEN=2"] in
  exists p1 p2 u1 m', interleave during overlap 5 r r Lookup Lookup m1 = Some (Done p1, Done p2, m') /\
    pools m' !! req_key r = Some p2 /\ (forall k, pools m' !! k <> Some p1) /\
    store m' !! p1 = Some u1 /\ Pool.closed (UserPool.core u1) = false.
Proof.
  by apply (concurrent_env_change_leaks_pool during 5 (set_env req ["TOKEN=2"]) m1 0%nat (user_pool 0 req)
    demo_wf demo_drains demo_key demo_pool).
Defined.

(** Sixteen minutes after the lookup. *)
Lemma collectIdlePools_exact_witness :
  exists m', collectIdlePools during [req_key req] (16 * Minute) m1 = Some m' /\
    pools m' !! req_key req = None.
Proof.
  destruct (collectIdlePools_exact during [req_key req] (16 * Minute) m1 demo_wf demo_drains demo_keys_order)
    as (m' & Hc & _ & Hp & _).
  exists m'. split; [done|]. rewrite Hp. pose proof demo_key as Hk.
  change (req_key (set_env req ["TOKEN=2"])) with (req_key req) in Hk. rewrite Hk. cbn [mbind option_bind].
  unfold idle. rewrite demo_pool. by vm_compute.
Defined.

Lemma RemovePoolsByBackend_exact_witness :
  exists n m', RemovePoolsByBackend during [req_key req] "git" m1 = Some (n, m') /\
    pools m' !! req_key req = None.
Proof.
  destruct (RemovePoolsByBackend_exact during [req_key req] "git" m1 demo_wf demo_drains demo_keys_order)
    as (n & m' & Hc & _ & Hp & _).
  exists n, m'. split; [done|]. rewrite Hp. by destruct (pools m1 !! req_key req).
Defined.

Lemma GetPoolsForUser_own_witness :
  status_of (fun _ => []) ("git", "ann") 0 (user_pool 0 req) ∈
    GetPoolsForUser (fun _ => []) [req_key req] "ann" m1.
Proof.
  apply (GetPoolsForUser_own (fun _ => []) [req_key req] "ann" m1 _ demo_wf demo_keys_order).
  - intros k p. cbn [m1 add snd pools m0 NewPoolManagerWithGC]. rewrite lookup_insert_Some.
    intros [[<- <-]|[_ Hp]]; [|by rewrite lookup_empty in Hp]. right. by exists "git", "ann".
  - exists "git", 0%nat, (user_pool 0 req).
    split_and!; [done|done|exact demo_key|exact demo_pool|done].
Defined.
