(* ===== verification/BackendStatus.v ===== *)
(** * Backend status and retry back-off: [src/store/backend_status.go]

    The table of backend statuses.  Every operation takes, for each of its
    statements, whether the statement succeeds. *)
From S2P Require Import Prelude.
Open Scope Z_scope.
Open Scope go_scope.

(** [None]: NULL. *)
Module BackendStatus.
Record t := mk {
  BackendID : string;
  Status : string;
  LastAttempt : option Time;
  LastSuccess : option Time;
  RetryCount : Z;
  NextRetry : option Time;
  ErrorMessage : string;
  UpdatedAt : Time
}.
End BackendStatus.

(** The table, and the [precache_error] column of the backends. *)
Record status_db := StatusDB {
  backend_status : gmap string BackendStatus.t;
  precache_error : gmap string (option (string * Time))
}.

Definition SetBackendPrecacheError (ok : bool) (backendID message : string) (now : Time)
    (d : status_db) : res unit * status_db :=
  if negb ok then (Err ErrSql, d)
  else (Ok tt, StatusDB (backend_status d)
                 (alter (fun _ => Some (message, now)) backendID (precache_error d))).

Definition GetBackendStatus (ok : bool) (backendID : string) (d : status_db) :
    res BackendStatus.t :=
  if negb ok then Err ErrSql
  else match backend_status d !! backendID with Some bs => Ok bs | None => Err ErrNoRows end.

(** Either way the row holds the given values. *)
Definition UpdateBackendStatus (ok : bool) (bs : BackendStatus.t) (now : Time) (d : status_db) :
    res unit * status_db :=
  if negb ok then (Err ErrSql, d)
  else (Ok tt, StatusDB (<[BackendStatus.BackendID bs :=
          BackendStatus.mk (BackendStatus.BackendID bs) (BackendStatus.Status bs)
            (BackendStatus.LastAttempt bs) (BackendStatus.LastSuccess bs)
            (BackendStatus.RetryCount bs) (BackendStatus.NextRetry bs)
            (BackendStatus.ErrorMessage bs) now]> (backend_status d)) (precache_error d)).

(** A new row has the defaults of the table in the columns not named. *)
Definition SetBackendAvailable (ok1 ok2 : bool) (backendID : string) (now : Time)
    (d : status_db) : res unit * status_db :=
  if negb ok1 then (Err ErrSql, d)
  else
    let row := match backend_status d !! backendID with
      | None => BackendStatus.mk backendID "available" None (Some now) 0 None EmptyString now
      | Some o => BackendStatus.mk backendID "available" (BackendStatus.LastAttempt o) (Some now) 0
                    (BackendStatus.NextRetry o) (BackendStatus.ErrorMessage o) now
      end in
    let d1 := StatusDB (<[backendID := row]> (backend_status d)) (precache_error d) in
    if negb ok2 then (Err ErrSql, d1)
    else (Ok tt, StatusDB (backend_status d1)
                   (alter (fun _ => None) backendID (precache_error d1))).

(** [1 << retryCount] on a 64-bit int, capped, as a duration. *)
Definition backoff (retryCount : Z) : Duration :=
  let backoffSeconds := wrap64 (Z.shiftl 1 retryCount) in
  let capped := if 1800 <? backoffSeconds then 1800 else backoffSeconds in
  capped *! Second.

(** The error of the query is not looked at: the count is then zero. *)
Definition SetBackendUnavailable (ok1 ok2 : bool) (backendID errMsg : string) (now : Time)
    (d : status_db) : res unit * status_db :=
  let retryCount := match backend_status d !! backendID with
                    | Some o => if ok1 then BackendStatus.RetryCount o else 0
                    | None => 0
                    end in
  let nextRetry := now + backoff retryCount in
  if negb ok2 then (Err ErrSql, d)
  else
    let last_success := match backend_status d !! backendID with
                        | Some o => BackendStatus.LastSuccess o | None => None end in
    (Ok tt, StatusDB (<[backendID := BackendStatus.mk backendID "unavailable" (Some now)
              last_success (retryCount + 1) (Some nextRetry) errMsg now]> (backend_status d))
              (precache_error d)).

(** * Properties *)

Lemma shiftl_one k : 0 <= k -> Z.shiftl 1 k = 2 ^ k.
Proof. intros Hk. rewrite Z.shiftl_mul_pow2 by done. lia. Qed.

(** Beyond 63 bits the power of two wraps to zero. *)
Lemma wrap_power k : 64 <= k -> wrap64 (2 ^ k) = 0.
Proof.
  intros Hk. unfold wrap64. replace k with (64 + (k - 64)) by lia.
  rewrite Z.pow_add_r by lia. change (2 ^ 64) with TwoTo64.
  rewrite Z.add_comm, Z.mul_comm, Z_mod_plus_full. reflexivity.
Qed.

Lemma backoff_value k :
  0 <= k -> backoff k = if k <=? 62 then Z.min (2 ^ k) 1800 * Second else 0.
Proof.
  intros Hk. unfold backoff. rewrite shiftl_one by done.
  destruct (Z.leb_spec k 62) as [Hle|Hgt].
  - assert (Hp : 1 <= 2 ^ k <= 2 ^ 62).
    { split; [|by apply Z.pow_le_mono_r]. pose proof (Z.pow_pos_nonneg 2 k). lia. }
    change (2 ^ 62) with 4611686018427387904 in Hp.
    rewrite (wrap64_id (2 ^ k)) by (unfold int64; lia).
    unfold Second. rewrite wrap64_id; [|unfold int64]; case_if; lia.
  - destruct (decide (k = 63)) as [->|Hne]; [reflexivity|].
    rewrite wrap_power by lia. reflexivity.
Qed.

(** The failures of a backend, one after the other. *)
Fixpoint fail_all (backendID : string) (fails : list (string * Time)) (d : status_db) :
    status_db :=
  match fails with
  | [] => d
  | (msg, now) :: fails' =>
      fail_all backendID fails' (SetBackendUnavailable true true backendID msg now d).2
  end.

Definition failures (backendID : string) (d : status_db) : Z :=
  match backend_status d !! backendID with Some o => BackendStatus.RetryCount o | None => 0 end.

Lemma fail_all_count backendID fails d :
  failures backendID (fail_all backendID fails d) = failures backendID d + Z.of_nat (length fails).
Proof.
  revert d. induction fails as [|[msg now] fails IH]; intros d; simpl; [lia|].
  rewrite IH. unfold failures at 1. simpl. rewrite lookup_insert_eq. simpl. unfold failures.
  destruct (backend_status d !! backendID); lia.
Qed.

(** The retry of an unavailable backend backs off, until it does not.  After
    a success the n-th failure in a row schedules the next retry 2^(n-1)
    seconds later, at most 30 minutes; but from the 64th failure on the shift
    has left the 64 bits and the retry is due at once. *)
Theorem retry_backoff backendID fails msg now t d :
  let d0 := (SetBackendAvailable true true backendID t d).2 in
  let n := Z.of_nat (length fails) + 1 in
  exists bs, GetBackendStatus true backendID (fail_all backendID (fails ++ [(msg, now)]) d0) = Ok bs /\
    BackendStatus.Status bs = "unavailable" /\ BackendStatus.RetryCount bs = n /\
    BackendStatus.LastSuccess bs = Some t /\ BackendStatus.ErrorMessage bs = msg /\
    BackendStatus.NextRetry bs =
      Some (now + if n <=? 63 then Z.min (2 ^ (n - 1)) 1800 * Second else 0).
Proof.
  intros d0 n.
  assert (Happ : forall d, fail_all backendID (fails ++ [(msg, now)]) d =
            (SetBackendUnavailable true true backendID msg now (fail_all backendID fails d)).2).
  { clear. induction fails as [|[m w] fails IH]; intros d; simpl; [done|]. by rewrite IH. }
  assert (Hrow : exists o, backend_status (fail_all backendID fails d0) !! backendID = Some o /\
            BackendStatus.RetryCount o = n - 1 /\ BackendStatus.LastSuccess o = Some t).
  { pose proof (fail_all_count backendID fails d0) as Hc. unfold failures in Hc.
    assert (H0 : exists o, backend_status d0 !! backendID = Some o /\
              BackendStatus.RetryCount o = 0 /\ BackendStatus.LastSuccess o = Some t).
    { unfold d0. simpl. rewrite lookup_insert_eq. eexists. split; [done|].
      by destruct (backend_status d !! backendID). }
    destruct H0 as (o0 & Ho0 & Hz & Hs). rewrite Ho0, Hz in Hc.
    assert (Hk : exists o, backend_status (fail_all backendID fails d0) !! backendID = Some o /\
              BackendStatus.LastSuccess o = Some t).
    { clear -Ho0 Hs. clearbody d0. revert d0 o0 Ho0 Hs.
      induction fails as [|[m w] fails IH]; intros d0 o0 Ho0 Hs; simpl; [eauto|].
      eapply IH; simpl; [apply lookup_insert_eq|]. simpl. by rewrite Ho0. }
    destruct Hk as (o & Ho & Hls). rewrite Ho in Hc. exists o. split_and!; [done | unfold n; lia | done]. }
  destruct Hrow as (o & Ho & Hn & Hls). rewrite Happ. unfold GetBackendStatus. simpl.
  rewrite lookup_insert_eq, Ho, Hn. eexists. split; [reflexivity|]. simpl.
  split_and!; try done; [lia|]. rewrite backoff_value by (unfold n; lia).
  do 2 f_equal. destruct (Z.leb_spec n 63), (Z.leb_spec (n - 1) 62); lia.
Qed.
