(* ===== verification/ToolLists.v ===== *)
(** * Tool lists: [src/mcpbridge_routing.go], [mcp_handlers.go], [muxer/augment.go], [app.go]

    The lists of tools the bridge answers [tools/list] with: of every enabled
    backend the tools that are cached or that a process of the user answers with,
    under the prefix of the backend and with the parameter the bridge asks for,
    and the tools of the bridge ([src/shared/system_tools.go]).

    A process is seen through [PoolView]: whether the pool is unavailable, whether
    a process is got, and what it answers.  What a handler does with processes, and
    the refreshes it starts, are events. *)
From S2P Require Import Prelude Sql Crypto EnforcerTypes Template Muxer Accounts Backends Process BackendStatus.
Open Scope Z_scope.
Open Scope handler_scope.

Abbreviation fields := (list (string * json)).

(** A [map[string]interface]; [None] is the nil map, which can be read and
    encoded but not written. *)
Abbreviation gomap := (option fields).

Definition go_field (m : gomap) (key : string) : option json :=
  match m with Some f => field f key | None => None end.

(** [m[key] = v]; [None]: the assignment panics. *)
Definition assign (m : gomap) (key : string) (v : json) : option gomap :=
  match m with Some f => Some (Some (set_field f key v)) | None => None end.

Definition to_json (m : gomap) : json := match m with Some f => JObj f | None => JNull end.

Definition as_array (v : option json) : list json :=
  match v with Some (JArr l) => l | _ => [] end.

(** ** System tools *)

Module SystemToolDefinition.
Record t := mk { Name : string; Description : string; InputSchema : json }.
End SystemToolDefinition.

Definition no_parameters : json := JObj [("properties", JObj []); ("type", JStr "object")].

Definition approval_parameters : json :=
  JObj [("properties", JObj [("approval_id", JObj [
           ("type", JStr "string");
           ("description", JStr "The approval request ID returned from the blocked tool call")])]);
        ("required", JArr [JStr "approval_id"]); ("type", JStr "object")].

Definition SystemTools : list SystemToolDefinition.t := [
  SystemToolDefinition.mk "mcpbridge_0_README" "🚨 START HERE! 🚨 CRITICAL: Read this BEFORE using any other tools! Contains essential usage guidance, hints for all backends, and company-specific information. Failure to read this first may result in incorrect queries and wasted API calls." no_parameters;
  SystemToolDefinition.mk "mcpbridge_ping"
    "Check bridge connectivity and get current timestamp" no_parameters;
  SystemToolDefinition.mk "mcpbridge_version" "Get mcp-bridge version information" no_parameters;
  SystemToolDefinition.mk "mcpbridge_list_backends"
    "List configured backends (admin sees all, users see their token-enabled backends)" no_parameters;
  SystemToolDefinition.mk "mcpbridge_refresh_tools"
    "Refresh and list tools from all enabled backends" no_parameters;
  SystemToolDefinition.mk "mcpbridge_pool_status"
    "Get pool status for all user pools: warm process count, current size, min/max pool sizes"
    no_parameters;
  SystemToolDefinition.mk "mcpbridge_capabilities"
    "Get bridge capabilities: available backends, user configuration status, and system tools"
    no_parameters;
  SystemToolDefinition.mk "mcpbridge_approval_status"
    "Check the status of a pending approval request. Use this after receiving an approval_id from a blocked tool call to see if an admin has approved or denied your request."
    approval_parameters].

Definition SystemToolNames : list string := SystemToolDefinition.Name <$> SystemTools.

Definition IsSystemTool (name : string) : bool := bool_decide (name ∈ SystemToolNames).

Definition SystemToolsAsMap : list gomap :=
  (fun t => Some [("name", JStr (SystemToolDefinition.Name t));
                  ("description", JStr (SystemToolDefinition.Description t));
                  ("inputSchema", SystemToolDefinition.InputSchema t)]) <$> SystemTools.

(** ** The parameters of the bridge *)

Module AugmentSpec.
Record t := mk {
  Name : string;
  Type_ : string;                      (* the field Type *)
  Description : string;
  MinLength : Z;
  Required : bool;
  ExemptBackends : gset string
}.
End AugmentSpec.

Definition property_of (spec : AugmentSpec.t) : fields :=
  [("type", JStr (AugmentSpec.Type_ spec)); ("description", JStr (AugmentSpec.Description spec))] ++
  (if 0 <? AugmentSpec.MinLength spec then [("minLength", JNum (AugmentSpec.MinLength spec) 0)] else []).

Definition names_field (name : string) (r : json) : bool :=
  match r with JStr s => bool_decide (s = name) | _ => false end.

(** The properties and the required names, for one specification. *)
Definition augment (backendID : string) (acc : fields * list json) (spec : AugmentSpec.t) :
    fields * list json :=
  if bool_decide (backendID ∈ AugmentSpec.ExemptBackends spec) then acc
  else (set_field acc.1 (AugmentSpec.Name spec) (JObj (property_of spec)),
        if AugmentSpec.Required spec && negb (existsb (names_field (AugmentSpec.Name spec)) acc.2)
        then acc.2 ++ [JStr (AugmentSpec.Name spec)] else acc.2).

Definition schema_of (tool : gomap) : fields :=
  default [("type", JStr "object")] (as_object (go_field tool "inputSchema")).
Definition properties_of (schema : fields) : fields :=
  default [] (as_object (field schema "properties")).

Definition augment_tool (backendID : string) (specs : list AugmentSpec.t) (tool : gomap) :
    option gomap :=
  let schema := schema_of tool in
  let '(props, required) :=
    foldl (augment backendID) (properties_of schema, as_array (field schema "required")) specs in
  let schema := set_field schema "properties" (JObj props) in
  let schema := match required with [] => schema
                               | _ => set_field schema "required" (JArr required) end in
  assign tool "inputSchema" (JObj schema).

(** [None]: a nil tool makes it panic. *)
Definition AugmentToolList (tools : list gomap) (backendID : string)
    (specs : list AugmentSpec.t) : option (list gomap) :=
  mapM (augment_tool backendID specs) tools.

Definition justification_text (n : Z) : string :=
  "Required: explain why this tool call is necessary. Minimum " +:+ itoa n +:+ " characters.".

(** [None]: no enforcer. *)
Definition augment_specs (minJustification : option Z) : list AugmentSpec.t :=
  match minJustification with
  | Some n => if 0 <? n then [AugmentSpec.mk "justification" "string" (justification_text n) n true ∅] else []
  | None => []
  end.

(** ** A backend's tools as they are listed *)

Definition with_prefix (prefix : string) (tool : gomap) : option gomap :=
  match as_string (go_field tool "name") with
  | Some name => if bool_decide (prefix = EmptyString) then Some tool
                 else assign tool "name" (JStr (prefix +:+ "_" +:+ name))
  | None => Some tool
  end.

(** [annotations[key] = v] *)
Definition annotate (key : string) (v : json) (tool : gomap) : option gomap :=
  let annotations := default [] (as_object (go_field tool "annotations")) in
  assign tool "annotations" (JObj (set_field annotations key v)).

Definition with_hints (hints : string) (tool : gomap) : option gomap :=
  if bool_decide (hints = EmptyString) then Some tool else annotate "hints" (JStr hints) tool.

Definition mark_unavailable (tool : gomap) : option gomap :=
  t ← annotate "unavailable" (JBool true) tool;
  annotate "unavailable_reason"
    (JStr "Backend temporarily unavailable - will retry automatically") t.

Definition augmented (specs : list AugmentSpec.t) (b : BackendRow.t) (tools : list gomap) :
    option (list gomap) :=
  match specs with
  | [] => Some tools
  | _ => if BackendRow.SkipJustification b then Some tools
         else AugmentToolList tools (BackendRow.ID b) specs
  end.

Definition listed_tools (specs : list AugmentSpec.t) (prefix : string) (b : BackendRow.t)
    (tools : list gomap) : option (list gomap) :=
  l ← mapM (fun t => t ← with_prefix prefix t; with_hints (BackendRow.ToolHints b) t) tools;
  augmented specs b l.

Definition unavailable_tools (specs : list AugmentSpec.t) (prefix : string) (b : BackendRow.t)
    (tools : list gomap) : option (list gomap) :=
  l ← mapM (fun t => t ← with_prefix prefix t; t ← with_hints (BackendRow.ToolHints b) t;
                     mark_unavailable t) tools;
  augmented specs b l.

Definition placeholder (name description : string) : gomap :=
  Some [("name", JStr name); ("description", JStr description)].

(** ** The answer of a backend *)

(** What comes back for a request: a response with data ([None]: not JSON), a
    closed channel or an empty response, or nothing in time. *)
Inductive exchange :=
| Replied (data : option json)
| NoData
| TimedOut.

Definition decode_gomap (v : json) (cur : gomap) : res gomap :=
  match v with JObj f => Ok (Some f) | JNull => Ok None | _ => Err type_error end.

(** Of a member that occurs twice the last one counts. *)
Definition decode_gomaps (v : json) (cur : list gomap) : res (list gomap) :=
  match v with
  | JArr l => foldr (fun v acc => match decode_gomap v None, acc with
                                  | Ok m, Ok ms => Ok (m :: ms)
                                  | Err e, _ => Err e
                                  | _, Err e => Err e
                                  end) (Ok []) l
  | JNull => Ok []
  | _ => Err type_error
  end.

Definition decode_list_result (v : json) (cur : list gomap) : res (list gomap) :=
  match v with
  | JObj f => decode_field "tools" decode_gomaps f cur
  | JNull => Ok cur
  | _ => Err type_error
  end.

(** [Result.Tools] and [Error] *)
Definition decode_tools_list (data : option json) : res (list gomap * gomap) :=
  match data with
  | None => Err (Errorf "invalid JSON")
  | Some JNull => Ok ([], None)
  | Some (JObj f) =>
      match decode_field "result" decode_list_result f [], decode_field "error" decode_gomap f None with
      | Ok tools, Ok err => Ok (tools, err)
      | Err e, _ => Err e
      | _, Err e => Err e
      end
  | Some _ => Err type_error
  end.

(** The cached tools as they are decoded. *)
Definition cached_tools (caps : BackendCapabilities.t) : list gomap :=
  match decode_gomaps (JArr (BackendCapabilities.Tools caps)) [] with Ok l => l | Err _ => [] end.

(** ** The handlers *)

(** What a handler does with the processes of a backend, and what it starts. *)
Inductive event :=
| Reconnected (backendID : string)
| Refreshing (backendID : string)      (* [go refreshBackendTools] *)
| Acquired (backendID : string)
| PutBack (backendID : string)         (* [pool.Warm <- proc] *)
| Killed (backendID : string)
| RequestRegistered (backendID reqID : string)      (* [pool.RegisterRequest] *)
| RequestUnregistered (backendID reqID : string).   (* [pool.UnregisterRequest] *)

#[export] Instance event_eq_dec : EqDecision event.
Proof. solve_decision. Defined.

Module Bridge.
Record t (KS : Type) := mk {
  tables : Backends.t KS;
  status : status_db;
  events : list event
}.
Arguments mk {KS}. Arguments tables {KS}. Arguments status {KS}. Arguments events {KS}.
End Bridge.

(** The pools of the user as the handler finds them. *)
Record pool_view := PoolView {
  IsUnavailable : string -> bool;          (* after a reconnect, where one is made *)
  warm : string -> string + unit;          (* the text of an error, or a process is got *)
  reply : string -> exchange
}.

Inductive answer :=
| ToolsList (id : json) (tools : list gomap)
| DefaultBackend                           (* the request goes to the default backend *)
| Panic.

Section Handlers.
Context {KS : Type} `{SecretBox KS} `{CryptoPrims} `{Bcrypt}.
Context {St : Type} {MS : MuxStore St} {ME : MuxEnv} {SH : Sha256}.
Context (visit : nat -> gset string -> list string) (m : ToolMuxer.t St).
(** [%v] of a map; the statements on the statuses of a backend succeed. *)
Context (show : fields -> string) (stmt1 stmt2 : string -> bool).
Import Bridge.
Local Abbreviation bridge := (Bridge.t KS).
Local Abbreviation Handler := (M bridge answer).

(** *** [app.go] *)

(** [None]: nil, the environment cannot be built. *)
Definition getPoolForUser (userID backendID : string) (d : Backends.t KS) : option PoolRequest.t :=
  let '(command, minPoolSize, maxPoolSize, stdioFraming) :=
    match (Backends.GetBackend backendID d).1 with
    | Ok b =>
        let minSize := if BackendRow.MinPoolSize b =? 0 then 1 else BackendRow.MinPoolSize b in
        let maxSize := if BackendRow.MaxPoolSize b =? 0 then minSize else BackendRow.MaxPoolSize b in
        (BackendRow.Command b, minSize, maxSize, ToolMuxer.framing_of (BackendRow.StdioFraming b))
    | Err _ =>
        match ToolMuxer.config_Backends m !! backendID with
        | Some bc => (BackendConfig.Command bc, BackendConfig.PoolSize bc, BackendConfig.PoolSize bc,
                      ToolMuxer.framing_of (BackendConfig.StdioFraming bc))
        | None => ("echo", 1, 1, "newline")
        end
    end in
  match ToolMuxer.BuildEnvForUser visit userID backendID m with
  | Err _ => None
  | Ok env => Some (PoolRequest.mk backendID userID command minPoolSize maxPoolSize env stdioFraming)
  end.

(** The first enabled backend, or a configured one. *)
Definition defaultBackendID (d : Backends.t KS) : string :=
  let from_config := default "default" (head (visit 7%nat (dom (ToolMuxer.config_Backends m)))) in
  match (Backends.ListBackends d).1 with
  | Ok l => match list_find (fun b => BackendRow.Enabled b = true) l with
            | Some (_, b) => BackendRow.ID b
            | None => from_config
            end
  | Err _ => from_config
  end.

Definition getBackendIDForRequest (requested : string) (d : Backends.t KS) : string :=
  if negb (bool_decide (requested = "default")) then requested
  else
    let enabled := match (Backends.GetBackend "mcpbridge" d).1 with
                   | Ok b => BackendRow.Enabled b
                   | Err _ => false
                   end in
    if enabled || bool_decide (is_Some (ToolMuxer.config_Backends m !! "mcpbridge"))
    then "mcpbridge"
    else match (Backends.ListBackends d).1 with
         | Ok [] => "mcpbridge"
         | _ => requested
         end.

(** *** Steps of the handlers *)

Definition on_tables {A} (f : Backends.t KS -> A * Backends.t KS) : Handler A := fun s =>
  let '(a, d) := f (tables s) in (inr a, mk d (status s) (events s)).

Definition on_status (f : status_db -> res unit * status_db) : Handler unit :=
  modify (fun s => mk (tables s) (f (status s)).2 (events s)).

Definition note (e : event) : Handler unit :=
  modify (fun s => mk (tables s) (status s) (events s ++ [e])).

(** A pool is got and used; a nil pool panics. *)
Definition touch_pool (userID backendID : string) : Handler unit :=
  d <-- gets tables ;;
  match getPoolForUser userID backendID d with
  | Some _ => ret tt
  | None => early Panic
  end.

(** Tools, unless working on a nil map panics. *)
Definition or_panic {A} (x : option A) : Handler A :=
  match x with Some a => ret a | None => early Panic end.

Definition caps_of (caps : res (gmap string BackendCapabilities.t)) : gmap string BackendCapabilities.t :=
  match caps with Ok c => c | Err _ => ∅ end.

(** [ListBackendStatuses]: the map of statuses; an error is ignored. *)
Definition statuses (ok : bool) (s : bridge) : gmap string string :=
  if ok then BackendStatus.Status <$> backend_status (status s) else ∅.

Fixpoint collect (step : BackendRow.t -> Handler (list gomap)) (l : list BackendRow.t) :
    Handler (list gomap) :=
  match l with
  | [] => ret []
  | b :: l' => tools <-- step b ;; rest <-- collect step l' ;; ret (tools ++ rest)
  end.

(** The id of the response. *)
Definition response_id (id : json) : json :=
  match id with
  | JNull => JNum 1 0
  | JStr s => if bool_decide (s = EmptyString) then JNum 1 0 else id
  | _ => id
  end.

(** The id of the [tools/list] a process is asked, from the clock. *)
Definition list_id (backendID : string) (nanos : Z) : string :=
  "list-" +:+ backendID +:+ "-" +:+ decimal_text nanos.
Definition refresh_id (backendID : string) (nanos : Z) : string :=
  "refresh-" +:+ backendID +:+ "-" +:+ decimal_text nanos.

(** *** [mcpbridge_routing.go]: [MCPBridgeServer.handleToolsList] *)

(** The answer of a process to [tools/list]. *)
Definition live_tools (specs : list AugmentSpec.t) (now : Time) (b : BackendRow.t) (x : exchange) :
    Handler (list gomap) :=
  let id := BackendRow.ID b in
  let reqID := list_id id now in
  match x with
  | TimedOut =>
      note (RequestUnregistered id reqID) ;;;
      note (Killed id) ;;;
      on_status (SetBackendUnavailable (stmt1 id) (stmt2 id) id "timeout waiting for tools/list" now) ;;;
      ret []
  | NoData => note (RequestUnregistered id reqID) ;;; note (PutBack id) ;;; ret []
  | Replied data =>
      note (RequestUnregistered id reqID) ;;;
      match decode_tools_list data with
      | Err _ => note (PutBack id) ;;; ret []
      | Ok (_, Some err) =>
          on_status (SetBackendUnavailable (stmt1 id) (stmt2 id) id (show err) now) ;;;
          note (PutBack id) ;;; ret []
      | Ok (tools, None) =>
          on_tables (SetBackendCapabilities id (map to_json tools) now) ;;;
          on_status (SetBackendAvailable (stmt1 id) (stmt2 id) id now) ;;;
          l <-- or_panic (listed_tools specs (ToolMuxer.GetPrefixForBackend visit id m) b tools) ;;
          note (PutBack id) ;;; ret l
      end
  end.

Definition backend_tools (v : pool_view) (specs : list AugmentSpec.t) (now : Time) (userID : string)
    (caps : gmap string BackendCapabilities.t) (sts : gmap string string) (b : BackendRow.t) :
    Handler (list gomap) :=
  let id := BackendRow.ID b in
  let prefix := ToolMuxer.GetPrefixForBackend visit id m in
  if negb (BackendRow.Enabled b) then ret []
  else
    touch_pool userID id ;;;
    when (bool_decide (sts !! id = Some "unavailable")) (note (Reconnected id)) ;;;
    if IsUnavailable v id then
      match caps !! id with
      | Some c => or_panic (unavailable_tools specs prefix b (cached_tools c))
      | None => ret []
      end
    else
      match cached_tools <$> caps !! id with
      | Some ((_ :: _) as tools) =>
          l <-- or_panic (listed_tools specs prefix b tools) ;;
          note (Refreshing id) ;;; ret l
      | _ =>
          match warm v id with
          | inl err => ret [placeholder (id +:+ "_unavailable") ("Backend temporarily unavailable: " +:+ err)]
          | inr _ =>
              note (Acquired id) ;;; note (RequestRegistered id (list_id id now)) ;;;
              live_tools specs now b (reply v id)
          end
      end.

Definition handleToolsList (v : pool_view) (minJustification : option Z) (statuses_ok : bool)
    (now : Time) (userID : string) (id : json) : Handler answer :=
  backends <-- on_tables ListBackends ;;
  match backends with
  | Err _ | Ok [] => ret DefaultBackend
  | Ok l =>
      caps <-- on_tables GetAllBackendCapabilities ;;
      sts <-- gets (statuses statuses_ok) ;;
      tools <-- collect (backend_tools v (augment_specs minJustification) now userID
                           (caps_of caps) sts) l ;;
      ret (ToolsList (response_id id) (tools ++ SystemToolsAsMap))
  end.

(** [refreshBackendTools]; a timeout kills the process and puts it back.  The request
    is unregistered first in both branches of the [select]. *)
Definition refreshBackendTools (v : pool_view) (now : Time) (userID : string) (b : BackendRow.t) :
    Handler unit :=
  let id := BackendRow.ID b in
  touch_pool userID id ;;;
  match warm v id with
  | inl _ => ret tt
  | inr _ =>
      note (Acquired id) ;;; note (RequestRegistered id (refresh_id id now)) ;;;
      note (RequestUnregistered id (refresh_id id now)) ;;;
      match reply v id with
      | TimedOut =>
          note (Killed id) ;;;
          on_status (SetBackendUnavailable (stmt1 id) (stmt2 id) id "timeout during background refresh" now)
      | NoData => ret tt
      | Replied data =>
          match decode_tools_list data with
          | Err _ => ret tt
          | Ok (_, Some err) =>
              on_status (SetBackendUnavailable (stmt1 id) (stmt2 id) id (show err) now)
          | Ok ([], None) => ret tt
          | Ok (tools, None) =>
              on_tables (SetBackendCapabilities id (map to_json tools) now) ;;;
              on_status (SetBackendAvailable (stmt1 id) (stmt2 id) id now)
          end
      end ;;;
      note (PutBack id)
  end.

(** *** [mcp_handlers.go]: [handleToolsList] *)

(** The prefix is the only change to the tools. *)
Definition backend_tools_legacy (v : pool_view) (now : Time) (userID : string) (b : BackendRow.t) :
    Handler (list gomap) :=
  let id := BackendRow.ID b in
  if negb (BackendRow.Enabled b) then ret []
  else
    touch_pool userID id ;;;
    if IsUnavailable v id
    then ret [placeholder (id +:+ "_unavailable") "Backend unavailable - check configuration"]
    else
      match warm v id with
      | inl _ => ret [placeholder (id +:+ "_starting") "Backend starting up or temporarily unavailable"]
      | inr _ =>
          let reqID := list_id id now in
          note (Acquired id) ;;; note (RequestRegistered id reqID) ;;;
          match reply v id with
          | TimedOut => note (RequestUnregistered id reqID) ;;; note (Killed id) ;;; ret []
          | NoData => note (RequestUnregistered id reqID) ;;; note (PutBack id) ;;; ret []
          | Replied data =>
              note (RequestUnregistered id reqID) ;;;
              match decode_tools_list data with
              | Ok (tools, None) =>
                  l <-- or_panic (mapM (with_prefix (ToolMuxer.GetPrefixForBackend visit id m)) tools) ;;
                  note (PutBack id) ;;; ret l
              | _ => note (PutBack id) ;;; ret []
              end
          end
      end.

Definition handleToolsList_legacy (v : pool_view) (now : Time) (userID : string) (id : json) : Handler answer :=
  backends <-- on_tables ListBackends ;;
  match backends with
  | Err _ => ret DefaultBackend
  | Ok l =>
      tools <-- collect (backend_tools_legacy v now userID) l ;;
      ret (ToolsList (response_id id) (tools ++ SystemToolsAsMap))
  end.
End Handlers.

(** * Properties *)

(** ** The list and the parameters of the bridge *)

(** A client is told to pass the parameter, with its least length. *)
Definition demands (name : string) (n : Z) (tool : gomap) : Prop :=
  exists schema, as_object (go_field tool "inputSchema") = Some schema /\
    existsb (names_field name) (as_array (field schema "required")) = true /\
    exists prop, field (properties_of schema) name = Some (JObj prop) /\
      field prop "minLength" = Some (JNum n 0).

Lemma names_field_app name l : existsb (names_field name) (l ++ [JStr name]) = true.
Proof. rewrite existsb_app. cbn. rewrite bool_decide_eq_true_2 by done. by rewrite orb_true_r. Qed.

Lemma go_field_assign tool key v tool' k :
  assign tool key v = Some tool' ->
  go_field tool' k = if decide (k = key) then Some v else go_field tool k.
Proof. destruct tool as [f|]; [|done]. intros [= <-]. apply field_set. Qed.

Lemma augment_demands backendID n tool tool' :
  0 < n -> augment_tool backendID (augment_specs (Some n)) tool = Some tool' ->
  demands "justification" n tool'.
Proof.
  intros Hn Ha. unfold augment_specs in Ha. apply Z.ltb_lt in Hn as Hn'. rewrite Hn' in Ha.
  unfold augment_tool in Ha. cbn [foldl] in Ha. unfold augment in Ha.
  rewrite bool_decide_eq_false_2 in Ha by set_solver.
  cbn [AugmentSpec.Name AugmentSpec.Required andb] in Ha.
  set (required := if negb _ then _ else _) in Ha.
  assert (Hr : existsb (names_field "justification") required = true).
  { unfold required. destruct (existsb _ _) eqn:He; [exact He | apply names_field_app]. }
  cbn [fst snd] in Ha.
  destruct required as [|r rs]; [done|].
  eexists. rewrite (go_field_assign _ _ _ _ _ Ha), decide_True by done. split; [reflexivity|].
  split; [rewrite field_set; exact Hr|].
  exists (property_of (AugmentSpec.mk "justification" "string" (justification_text n) n true ∅)).
  unfold properties_of. rewrite field_set, decide_False, field_set, decide_True by done. cbn.
  rewrite field_set, decide_True by done. split; [done|].
  unfold property_of. cbn [AugmentSpec.MinLength]. rewrite Hn'. reflexivity.
Qed.

(** Neither prefix nor hints touch the schema, nor hints and parameters the name. *)
Lemma with_prefix_name prefix tool tool' :
  with_prefix prefix tool = Some tool' ->
  as_string (go_field tool' "name") =
    (fun n => if bool_decide (prefix = EmptyString) then n else prefix +:+ "_" +:+ n)
      <$> as_string (go_field tool "name").
Proof.
  unfold with_prefix. destruct (as_string (go_field tool "name")) as [name|] eqn:Hn.
  - case_bool_decide.
    + intros [= <-]. by rewrite Hn.
    + intros Ha. by rewrite (go_field_assign _ _ _ _ _ Ha), decide_True.
  - intros [= <-]. by rewrite Hn.
Qed.

Lemma annotate_name key v tool tool' :
  annotate key v tool = Some tool' -> go_field tool' "name" = go_field tool "name".
Proof. unfold annotate. intros Ha. by rewrite (go_field_assign _ _ _ _ _ Ha), decide_False. Qed.

Lemma with_hints_name hints tool tool' :
  with_hints hints tool = Some tool' -> go_field tool' "name" = go_field tool "name".
Proof. unfold with_hints. case_bool_decide; [by intros [= <-] | apply annotate_name]. Qed.

Lemma mark_unavailable_name tool tool' :
  mark_unavailable tool = Some tool' -> go_field tool' "name" = go_field tool "name".
Proof.
  unfold mark_unavailable. intros (t & H1 & H2)%bind_Some.
  by rewrite (annotate_name _ _ _ _ H2), (annotate_name _ _ _ _ H1).
Qed.

Lemma augment_tool_name backendID specs tool tool' :
  augment_tool backendID specs tool = Some tool' -> go_field tool' "name" = go_field tool "name".
Proof.
  unfold augment_tool. destruct (foldl _ _ _) as [props required]. intros Ha.
  by rewrite (go_field_assign _ _ _ _ _ Ha), decide_False.
Qed.

Lemma cached_tools_of id tools n at_ :
  cached_tools (BackendCapabilities.mk id (map to_json tools) n at_) = tools.
Proof.
  assert (Hd : decode_gomaps (JArr (map to_json tools)) [] = Ok tools).
  { cbn. induction tools as [|[f|] tools IH]; cbn; [done| |]; by rewrite IH. }
  unfold cached_tools. cbn [BackendCapabilities.Tools]. by rewrite Hd.
Qed.

Lemma mapM_elem {A B} (f : A -> option B) l l' b :
  mapM f l = Some l' -> b ∈ l' -> exists a, a ∈ l /\ f a = Some b.
Proof.
  intros Hm%mapM_Some. induction Hm as [|a c l l' Hac Hm IH]; [by intros ?%elem_of_nil|].
  intros [->|Hb]%elem_of_cons; [exists a; split; [by left | done]|].
  destruct (IH Hb) as (a' & ? & ?). exists a'. split; [by right | done].
Qed.

Lemma Forall2_compose {A B C} (P : A -> B -> Prop) (Q : B -> C -> Prop) (R : A -> C -> Prop) l1 l2 l3 :
  (forall x y z, P x y -> Q y z -> R x z) -> Forall2 P l1 l2 -> Forall2 Q l2 l3 -> Forall2 R l1 l3.
Proof.
  intros HR H12. revert l3. induction H12 as [|x y l1 l2 Hxy H12 IH]; intros l3 H23; inversion H23; subst;
    constructor; eauto.
Qed.

Module ListFacts.
Section Generic.
Context {KS : Type}.
Import Bridge.
Local Abbreviation Handler := (M (Bridge.t KS) answer).

(** *** What a handler returns *)

Definition yields {A} (h : Handler A) (P : A -> Prop) : Prop :=
  forall s a s', h s = (inr a, s') -> P a.

Lemma yields_ret {A} (a : A) (P : A -> Prop) : P a -> yields (ret a) P.
Proof. intros Ha s a' s' [= <- <-]. done. Qed.

Lemma yields_early {A} r (P : A -> Prop) : yields (early r) P.
Proof. by intros s a s'. Qed.

Lemma yields_bind {A B} (h : Handler A) (k : A -> Handler B) (Q : A -> Prop) P :
  yields h Q -> (forall a, Q a -> yields (k a) P) -> yields (bind h k) P.
Proof.
  intros Hh Hk s b s'. unfold bind. destruct (h s) as [[r|a] s1] eqn:Hs; [done|].
  apply Hk. by eapply Hh.
Qed.

Lemma yields_any {A} (h : Handler A) : yields h (fun _ => True).
Proof. done. Qed.

Lemma yields_or_panic {A} (x : option A) : yields (or_panic x) (fun a => x = Some a).
Proof. destruct x; [by apply yields_ret | apply yields_early]. Qed.

(** *** The processes a handler takes *)

(** How many processes of the backend are neither back nor killed. *)
Definition held (id : string) (evs : list event) : Z :=
  foldr (fun e n =>
    (if bool_decide (e = Acquired id) then 1
     else if bool_decide (e = PutBack id) || bool_decide (e = Killed id) then -1 else 0) + n) 0 evs.

Lemma held_app id l1 l2 : held id (l1 ++ l2) = held id l1 + held id l2.
Proof. unfold held. induction l1 as [|e l1 IH]; cbn [foldr app]; [lia|]. rewrite IH. lia. Qed.

(** The handler ends with [n] more processes of [id] in hand, unless it panics. *)
Definition takes {A} (h : Handler A) (id : string) (n : Z) : Prop :=
  forall s a s', h s = (inr a, s') ->
    forall j, held j (events s') = held j (events s) + if decide (j = id) then n else 0.

Lemma takes_quiet {A} (h : Handler A) id :
  (forall s, events (h s).2 = events s) -> takes h id 0.
Proof.
  intros Hq s a s' Hs j. specialize (Hq s). rewrite Hs in Hq. cbn in Hq. rewrite Hq. case_decide; lia.
Qed.

Lemma takes_bind {A B} (h : Handler A) (k : A -> Handler B) id n1 n2 n :
  takes h id n1 -> (forall a, takes (k a) id n2) -> n = n1 + n2 -> takes (bind h k) id n.
Proof.
  intros Hh Hk -> s b s' Hs j. unfold bind in Hs. destruct (h s) as [[r|a] s1] eqn:Ha; [done|].
  rewrite (Hk a s1 b s' Hs j), (Hh s a s1 Ha j). case_decide; lia.
Qed.

Lemma takes_early {A} r id n : takes (A := A) (early r) id n.
Proof. by intros s a s'. Qed.

Lemma takes_ret {A} (a : A) id : takes (ret a) id 0.
Proof. by apply takes_quiet. Qed.

Lemma takes_or_panic {A} (x : option A) id : takes (or_panic x) id 0.
Proof. destruct x; [apply takes_ret | apply takes_early]. Qed.

Lemma takes_tables {A} (f : Backends.t KS -> A * Backends.t KS) id : takes (on_tables f) id 0.
Proof. apply takes_quiet. intros s. unfold on_tables. by destruct (f (tables s)). Qed.

Lemma takes_status f id : takes (on_status f) id 0.
Proof. by apply takes_quiet. Qed.

Definition step_of (id : string) (e : event) : Z := held id [e].

Lemma takes_note e id :
  (forall j, j <> id -> step_of j e = 0) -> takes (note e) id (step_of id e).
Proof.
  intros Hj s a s' [= <- <-] j. cbn [events]. rewrite held_app. case_decide as Hd; [by subst|].
  by rewrite (Hj j Hd : held j [e] = 0).
Qed.

Lemma takes_acquired id : takes (note (Acquired id)) id 1.
Proof.
  replace 1 with (step_of id (Acquired id)) by (cbn; by rewrite bool_decide_eq_true_2).
  apply takes_note. intros j Hj. cbn. rewrite !bool_decide_eq_false_2 by congruence. done.
Qed.

Lemma takes_put_back id : takes (note (PutBack id)) id (-1).
Proof.
  replace (-1) with (step_of id (PutBack id)).
  - apply takes_note. intros j Hj. cbn. rewrite !bool_decide_eq_false_2 by congruence. done.
  - cbn. rewrite bool_decide_eq_false_2, bool_decide_eq_true_2 by done. done.
Qed.

Lemma takes_killed id : takes (note (Killed id)) id (-1).
Proof.
  replace (-1) with (step_of id (Killed id)).
  - apply takes_note. intros j Hj. cbn. rewrite !bool_decide_eq_false_2 by congruence. done.
  - cbn. rewrite bool_decide_eq_false_2, (bool_decide_eq_true_2 (Killed id = Killed id)) by done.
    by rewrite orb_true_r.
Qed.

Lemma takes_other e id : (forall j, step_of j e = 0) -> takes (note e) id 0.
Proof. intros Hj. rewrite <- (Hj id). by apply takes_note. Qed.

Lemma takes_reconnected id j : takes (note (Reconnected id)) j 0.
Proof. by apply takes_other. Qed.

Lemma reconnect_noted c id (s : Bridge.t KS) :
  exists s1, when c (note (Reconnected id)) s = (inr tt : answer + unit, s1) /\
    tables s1 = tables s /\ status s1 = status s /\
    (forall e, e ∈ events s1 -> e ∈ events s \/ e = Reconnected id).
Proof.
  destruct c; cbn; (eexists; split; [reflexivity|]); split_and!; try done; [|by left].
  intros e [?|?%list_elem_of_singleton]%elem_of_app; auto.
Qed.

Lemma takes_registered id reqID j : takes (note (RequestRegistered id reqID)) j 0.
Proof. by apply takes_other. Qed.

Lemma takes_unregistered id reqID j : takes (note (RequestUnregistered id reqID)) j 0.
Proof. by apply takes_other. Qed.

Lemma takes_refreshing id j : takes (note (Refreshing id)) j 0.
Proof. by apply takes_other. Qed.

Lemma takes_zero {A} (h : Handler A) id id' : takes h id 0 -> takes h id' 0.
Proof. intros Hh s a s' Hs j. rewrite (Hh s a s' Hs j). by repeat case_decide. Qed.

Lemma collect_takes (step : BackendRow.t -> Handler (list gomap)) l :
  (forall b, takes (step b) (BackendRow.ID b) 0) -> forall id, takes (collect step l) id 0.
Proof.
  intros Hstep. induction l as [|b l IH]; intros id; cbn; [apply takes_ret|].
  eapply takes_bind; [eapply takes_zero, Hstep | intros ts | reflexivity].
  eapply takes_bind; [apply IH | intros rest; apply takes_ret | reflexivity].
Qed.

(** *** The requests a handler waits for *)

(** The table of pending requests after an event. *)
Definition tabled (X : gset (string * string)) (e : event) : gset (string * string) :=
  match e with
  | RequestRegistered id reqID => {[ (id, reqID) ]} ∪ X
  | RequestUnregistered id reqID => X ∖ {[ (id, reqID) ]}
  | _ => X
  end.

(** The requests, by backend and id, that are registered and not unregistered since. *)
Definition pending (evs : list event) : gset (string * string) := foldl tabled ∅ evs.

(** Whatever the table, the handler adds nothing to it and ends without the entries [K],
    unless it panics. *)
Definition closes {A} (h : Handler A) (K : gset (string * string)) : Prop :=
  forall s a s', h s = (inr a, s') ->
    exists evs, events s' = events s ++ evs /\ forall X, foldl tabled X evs ⊆ X ∖ K.

Lemma closes_quiet {A} (h : Handler A) : (forall s, events (h s).2 = events s) -> closes h ∅.
Proof.
  intros Hq s a s' Hs. exists []. specialize (Hq s). rewrite Hs in Hq. rewrite app_nil_r.
  split; [exact Hq|]. cbn. set_solver.
Qed.

Lemma closes_bind {A B} (h : Handler A) (k : A -> Handler B) K1 K2 K :
  closes h K1 -> (forall a, closes (k a) K2) -> K ⊆ K1 ∪ K2 -> closes (bind h k) K.
Proof.
  intros Hh Hk HK s b s' Hs. unfold bind in Hs. destruct (h s) as [[r|a] s1] eqn:Ha; [done|].
  destruct (Hh s a s1 Ha) as (l1 & H1 & Ht1), (Hk a s1 b s' Hs) as (l2 & H2 & Ht2).
  exists (l1 ++ l2). split; [by rewrite H2, H1, app_assoc|].
  intros X. rewrite foldl_app. specialize (Ht1 X). specialize (Ht2 (foldl tabled X l1)). set_solver.
Qed.

Lemma closes_then {A B} (h : Handler A) (k : A -> Handler B) :
  closes h ∅ -> (forall a, closes (k a) ∅) -> closes (bind h k) ∅.
Proof. intros Hh Hk. eapply closes_bind; [exact Hh | exact Hk | set_solver]. Qed.

Lemma closes_weaken {A} (h : Handler A) K : closes h K -> closes h ∅.
Proof.
  intros Hh s a s' Hs. destruct (Hh s a s' Hs) as (l & H1 & H2). exists l. split; [done|].
  intros X. specialize (H2 X). set_solver.
Qed.

Lemma closes_early {A} r K : closes (A := A) (early r) K.
Proof. by intros s a s'. Qed.

Lemma closes_ret {A} (a : A) : closes (ret a) ∅.
Proof. by apply closes_quiet. Qed.

Lemma closes_or_panic {A} (x : option A) : closes (or_panic x) ∅.
Proof. destruct x; [apply closes_ret | apply closes_early]. Qed.

Lemma closes_tables {A} (f : Backends.t KS -> A * Backends.t KS) : closes (on_tables f) ∅.
Proof. apply closes_quiet. intros s. unfold on_tables. by destruct (f (tables s)). Qed.

Lemma closes_status f : closes (on_status f) ∅.
Proof. by apply closes_quiet. Qed.

Lemma closes_note e : (forall X, tabled X e = X) -> closes (note e) ∅.
Proof.
  intros He s a s' [= <- <-]. exists [e]. split; [done|]. intros X. cbn. rewrite He. set_solver.
Qed.

Lemma closes_unregister id reqID : closes (note (RequestUnregistered id reqID)) {[ (id, reqID) ]}.
Proof. intros s a s' [= <- <-]. eexists [_]. split; [done|]. intros X. done. Qed.

Lemma closes_unregistered {A} id reqID (k : unit -> Handler A) :
  closes (k tt) ∅ -> closes (bind (note (RequestUnregistered id reqID)) k) {[ (id, reqID) ]}.
Proof.
  intros Hk. eapply closes_bind; [apply closes_unregister | intros []; exact Hk | set_solver].
Qed.

(** A request that is registered before it is closed leaves no entry. *)
Lemma closes_registered {A} id reqID (k : unit -> Handler A) :
  closes (k tt) {[ (id, reqID) ]} -> closes (bind (note (RequestRegistered id reqID)) k) ∅.
Proof.
  intros Hk s b s' Hs. unfold bind, note, modify in Hs.
  destruct (Hk _ b s' Hs) as (l & H1 & H2). exists (RequestRegistered id reqID :: l).
  split; [rewrite H1; cbn [events]; by rewrite <- app_assoc|].
  intros X. cbn [foldl tabled]. specialize (H2 ({[ (id, reqID) ]} ∪ X)). set_solver.
Qed.

Lemma collect_closes (step : BackendRow.t -> Handler (list gomap)) l :
  (forall b, closes (step b) ∅) -> closes (collect step l) ∅.
Proof.
  intros Hstep. induction l as [|b l IH]; cbn; [apply closes_ret|].
  apply closes_then; [apply Hstep | intros ts].
  apply closes_then; [apply IH | intros rest; apply closes_ret].
Qed.

Lemma closes_pending {A} (h : Handler A) s a s' :
  closes h ∅ -> h s = (inr a, s') -> pending (events s') ⊆ pending (events s).
Proof.
  intros Hh Hs. destruct (Hh s a s' Hs) as (l & -> & Hl). unfold pending. rewrite foldl_app.
  specialize (Hl (foldl tabled ∅ (events s))). set_solver.
Qed.

(** *** Early returns *)

Definition only_panics {A} (h : Handler A) : Prop := forall s r s', h s = (inl r, s') -> r = Panic.

Lemma panics_bind {A B} (h : Handler A) (k : A -> Handler B) :
  only_panics h -> (forall a, only_panics (k a)) -> only_panics (bind h k).
Proof.
  intros Hh Hk s r s'. unfold bind. destruct (h s) as [[r0|a] s1] eqn:Hs; [|apply Hk].
  intros [= <- <-]. by eapply Hh.
Qed.

Lemma panics_early {A} : only_panics (A := A) (early Panic).
Proof. by intros s r s' [= <- <-]. Qed.

Lemma panics_quiet {A} (h : Handler A) : (forall s, exists a s', h s = (inr a, s')) -> only_panics h.
Proof. intros Hq s r s' Hs. destruct (Hq s) as (a & s1 & Ha). congruence. Qed.

Lemma panics_tables {A} (f : Backends.t KS -> A * Backends.t KS) : only_panics (on_tables f).
Proof. apply panics_quiet. intros s. unfold on_tables. destruct (f (tables s)). eauto. Qed.

Lemma panics_or {A} (x : option A) : only_panics (or_panic x).
Proof. destruct x; [apply panics_quiet; eauto | apply panics_early]. Qed.

(** The loop panics when it gets to a backend that panics. *)
Lemma collect_panics (step : BackendRow.t -> Handler (list gomap)) l b :
  (forall b', only_panics (step b')) -> b ∈ l -> (forall s, (step b s).1 = inl Panic) ->
  forall s, (collect step l s).1 = inl Panic.
Proof.
  intros Hstep. induction l as [|b' l IH]; intros Hin Hb s; [by apply elem_of_nil in Hin|].
  cbn. unfold bind at 1. destruct (step b' s) as [[r|ts] s1] eqn:Hs; cbn.
  - by rewrite (Hstep b' s r s1 Hs).
  - apply elem_of_cons in Hin as [->|Hin]; [specialize (Hb s); by rewrite Hs in Hb|].
    unfold bind. specialize (IH Hin Hb s1). by destruct (collect step l s1) as [[r|rest] s2].
Qed.
End Generic.

Ltac panics_body :=
  repeat first
    [ apply panics_early | apply panics_tables | apply panics_or
    | apply panics_bind; [|intros ?] | case_match | apply panics_quiet; by eauto ].

Section Facts.
Context {KS : Type} `{SecretBox KS} `{CryptoPrims} `{Bcrypt}.
Context {St : Type} {MS : MuxStore St} {ME : MuxEnv} {SH : Sha256}.
Context (visit : nat -> gset string -> list string) (m : ToolMuxer.t St).
Context (show : fields -> string) (stmt1 stmt2 : string -> bool).
Import Bridge.
Local Abbreviation bridge := (Bridge.t KS).
Local Abbreviation Handler := (M bridge answer).
Local Abbreviation backend_tools := (backend_tools (KS := KS) visit m show stmt1 stmt2).
Local Abbreviation live_tools := (live_tools (KS := KS) visit m show stmt1 stmt2).
Implicit Types (s : bridge) (v : pool_view) (b : BackendRow.t).

(** The tools of a backend a list is made of: the cached ones, or those a process of
    the user answers with; none, if it shows none. *)
Definition offered v (caps : gmap string BackendCapabilities.t) b : option (list gomap) :=
  let id := BackendRow.ID b in
  let cached := cached_tools <$> caps !! id in
  if IsUnavailable v id then cached
  else match cached with
       | Some (_ :: _) => cached
       | _ => match warm v id, reply v id with
              | inr _, Replied data =>
                  match decode_tools_list data with Ok (tools, None) => Some tools | _ => None end
              | _, _ => None
              end
       end.

(** What a backend contributes to a list. *)
Definition contributes v specs caps b (seg : list gomap) : Prop :=
  let p := ToolMuxer.GetPrefixForBackend visit (BackendRow.ID b) m in
  if BackendRow.Enabled b then
    match offered v caps b with
    | Some raw => listed_tools specs p b raw = Some seg \/ unavailable_tools specs p b raw = Some seg
    | None => seg = [] \/ exists descr, seg = [placeholder (BackendRow.ID b +:+ "_unavailable") descr]
    end
  else seg = [].

Ltac yields_body :=
  repeat first
    [ apply yields_early | apply yields_ret
    | eapply yields_bind; [first [apply yields_or_panic | apply yields_any]|]; intros ? ?
    | case_match ].

Lemma live_tools_from specs now b x :
  yields (live_tools specs now b x) (fun seg =>
    match x with
    | Replied data =>
        match decode_tools_list data with
        | Ok (tools, None) =>
            listed_tools specs (ToolMuxer.GetPrefixForBackend visit (BackendRow.ID b) m) b tools = Some seg
        | _ => seg = []
        end
    | _ => seg = []
    end).
Proof. unfold ToolLists.live_tools. cbv zeta. destruct x; yields_body; try done; by simplify_eq. Qed.

Lemma backend_tools_from v specs now u caps sts b :
  yields (backend_tools v specs now u caps sts b) (contributes v specs caps b).
Proof.
  unfold ToolLists.backend_tools, contributes, offered. cbv zeta.
  destruct (BackendRow.Enabled b); cbn [negb]; [|by apply yields_ret].
  eapply yields_bind; [apply yields_any | intros _ _].
  eapply yields_bind; [apply yields_any | intros _ _].
  destruct (IsUnavailable v (BackendRow.ID b)).
  { destruct (caps !! BackendRow.ID b); cbn; [|apply yields_ret; by left].
    intros s l s' Hl%yields_or_panic. by right. }
  assert (Hlive : yields
    (match warm v (BackendRow.ID b) with
     | inl err => ret [placeholder (BackendRow.ID b +:+ "_unavailable")
                        ("Backend temporarily unavailable: " +:+ err)]
     | inr _ => note (Acquired (BackendRow.ID b)) ;;;
         note (RequestRegistered (BackendRow.ID b) (list_id (BackendRow.ID b) now)) ;;;
         live_tools specs now b (reply v (BackendRow.ID b))
     end)
    (fun seg => match match warm v (BackendRow.ID b), reply v (BackendRow.ID b) with
              | inr _, Replied data =>
                  match decode_tools_list data with Ok (tools, None) => Some tools | _ => None end
              | _, _ => None
              end with
      | Some raw => listed_tools specs (ToolMuxer.GetPrefixForBackend visit (BackendRow.ID b) m) b raw = Some seg \/
          unavailable_tools specs (ToolMuxer.GetPrefixForBackend visit (BackendRow.ID b) m) b raw = Some seg
      | None => seg = [] \/ exists descr, seg = [placeholder (BackendRow.ID b +:+ "_unavailable") descr]
      end)).
  { destruct (warm v (BackendRow.ID b)); [apply yields_ret; right; by eexists|].
    eapply yields_bind; [apply yields_any | intros _ _].
    eapply yields_bind; [apply yields_any | intros _ _].
    intros s l s' Hl%live_tools_from. repeat case_match; simplify_eq; auto. }
  destruct (caps !! BackendRow.ID b) as [c|]; cbn; [|exact Hlive].
  destruct (cached_tools c) as [|t0 ts]; [exact Hlive|].
  eapply yields_bind; [apply yields_or_panic | intros l Hl].
  eapply yields_bind; [apply yields_any | intros _ _]. apply yields_ret. by left.
Qed.

Lemma backend_tools_panics v specs now u caps sts b :
  only_panics (backend_tools v specs now u caps sts b).
Proof. unfold ToolLists.backend_tools, ToolLists.live_tools, touch_pool, when. panics_body. Qed.

Lemma legacy_tools_panics v now u b :
  only_panics (backend_tools_legacy (KS := KS) visit m v now u b).
Proof. unfold backend_tools_legacy, touch_pool. panics_body. Qed.

Lemma collect_yields (step : BackendRow.t -> Handler (list gomap))
    (Q : BackendRow.t -> list gomap -> Prop) l :
  (forall b, yields (step b) (Q b)) ->
  yields (collect step l) (fun tools => exists segs, tools = concat segs /\ Forall2 Q l segs).
Proof.
  intros Hstep. induction l as [|b l IH]; cbn.
  - apply yields_ret. by exists [].
  - eapply yields_bind; [apply Hstep | intros ts Hts].
    eapply yields_bind; [apply IH | intros rest (segs & -> & Hsegs)].
    apply yields_ret. exists (ts :: segs). split; [done | by constructor].
Qed.

(** The capabilities as the handler reads them, after the backends. *)
Definition listed_caps s : gmap string BackendCapabilities.t :=
  caps_of (GetAllBackendCapabilities (Backends.ListBackends (tables s)).2).1.

(** The list is what the backends of the database contribute, in their order, and the
    tools of the bridge. *)
Lemma list_segments v minJ ok now u id s tools s' rid :
  handleToolsList visit m show stmt1 stmt2 v minJ ok now u id s = (inr (ToolsList rid tools), s') ->
  exists l segs, (Backends.ListBackends (tables s)).1 = Ok l /\
    tools = concat segs ++ SystemToolsAsMap /\
    Forall2 (contributes v (augment_specs minJ) (listed_caps s)) l segs.
Proof.
  unfold handleToolsList, bind at 1, on_tables, listed_caps.
  destruct (Backends.ListBackends (tables s)) as [[[|b0 l0]|err] d] eqn:Hl; [done| |done].
  unfold bind at 1. cbn [tables fst snd]. destruct (GetAllBackendCapabilities d) as [caps d'].
  unfold bind at 1, gets. cbn [fst].
  unfold bind. match goal with |- context [collect ?step ?l ?s0] =>
    pose proof (collect_yields step _ l
      (fun b => backend_tools_from v (augment_specs minJ) now u (caps_of caps) _ b) s0) as Hc;
    destruct (collect step l s0) as [[r|ts] s2]; [done|] end.
  destruct (Hc ts s2 eq_refl) as (segs & -> & Hsegs).
  intros [= <- <- <-]. eauto.
Qed.

(** The name a tool is listed under. *)
Definition listed_name (p own : string) : string :=
  if bool_decide (p = EmptyString) then own else p +:+ "_" +:+ own.

Lemma augmented_names specs b l out :
  augmented specs b l = Some out ->
  Forall2 (fun t0 t => go_field t "name" = go_field t0 "name") l out.
Proof.
  assert (Hrefl : Forall2 (fun t0 t : gomap => go_field t "name" = go_field t0 "name") l l)
    by (apply Forall_Forall2_diag, Forall_true; done).
  unfold augmented. destruct specs as [|sp specs]; [by intros [= <-]|].
  destruct (BackendRow.SkipJustification b); [by intros [= <-]|].
  intros Hm%mapM_Some. eapply Forall2_impl; [exact Hm|]. intros t0 t. apply augment_tool_name.
Qed.

(** Every tool of the backend is listed, in its order and under its name. *)
Lemma contributed_names specs p b raw out :
  listed_tools specs p b raw = Some out \/ unavailable_tools specs p b raw = Some out ->
  Forall2 (fun t0 t => as_string (go_field t "name") =
             listed_name p <$> as_string (go_field t0 "name")) raw out.
Proof.
  intros [Ho|Ho]; apply bind_Some in Ho as (l & Hl%mapM_Some & Ha%augmented_names);
    (eapply Forall2_compose; [|exact Hl|exact Ha]); cbn beta; intros t0 t1 t Ht ->;
    apply bind_Some in Ht as (t2 & H2 & H3); unfold listed_name; rewrite <- (with_prefix_name _ _ _ H2).
  - by rewrite (with_hints_name _ _ _ H3).
  - apply bind_Some in H3 as (t3 & H3 & H4).
    by rewrite (mark_unavailable_name _ _ H4), (with_hints_name _ _ _ H3).
Qed.

(** A backend that is not exempt has the parameter in every tool it contributes. *)
Lemma contributed_demands n p b raw out :
  0 < n -> BackendRow.SkipJustification b = false ->
  listed_tools (augment_specs (Some n)) p b raw = Some out \/
    unavailable_tools (augment_specs (Some n)) p b raw = Some out ->
  Forall (demands "justification" n) out.
Proof.
  intros Hn Hskip Ho.
  assert (Ha : exists l, augmented (augment_specs (Some n)) b l = Some out)
    by (destruct Ho as [Ho|Ho]; apply bind_Some in Ho as (l & _ & ?); eauto).
  destruct Ha as [l Ha]. unfold augmented in Ha. rewrite Hskip in Ha.
  destruct (augment_specs (Some n)) as [|sp sps] eqn:Hsp.
  { unfold augment_specs in Hsp. apply Z.ltb_lt in Hn as Hn'. by rewrite Hn' in Hsp. }
  rewrite <- Hsp in Ha. apply Forall_forall. intros t Ht.
  destruct (mapM_elem _ _ _ _ Ha Ht) as (t0 & _ & Ht0). by eapply augment_demands.
Qed.

(** The multiplexer finds the way back from a prefixed name. *)
Lemma prefixed_name_routes b own :
  let p := ToolMuxer.GetPrefixForBackend visit (BackendRow.ID b) m in
  visits visit -> p <> EmptyString ->
  (forall p', MuxerFacts.matching (listed_name p own) m p' -> p' = p) ->
  has_prefix own (p +:+ "/") = false ->
  ToolMuxer.FindBackendForTool visit (listed_name p own) m = Ok (BackendRow.ID b, p) /\
  ToolMuxer.stripped_name (listed_name p own) p = own.
Proof.
  intros p Hv Hp Hu Hs. unfold listed_name in *. rewrite bool_decide_eq_false_2 in * by done.
  assert (Hpre : ToolMuxer.backendPrefixes m !! p = Some (BackendRow.ID b)).
  { unfold p, ToolMuxer.GetPrefixForBackend in *.
    destruct (list_find _ _) as [[i q]|] eqn:Hf; [|done]. by apply list_find_Some in Hf as (_ & ? & _). }
  split.
  - apply MuxerFacts.FindBackendForTool_unique; [done..| |done].
    unfold ToolMuxer.matches_prefix. by rewrite str_app_assoc, has_prefix_app.
  - unfold ToolMuxer.stripped_name. rewrite str_app_assoc, trim_prefix_app.
    unfold trim_prefix. by rewrite Hs.
Qed.

(** Getting a pool depends on the environment alone. *)
Lemma touch_pool_env u id s :
  touch_pool visit m u id s =
    (match ToolMuxer.BuildEnvForUser visit u id m with Ok _ => inr tt | Err _ => inl Panic end, s).
Proof.
  unfold touch_pool, bind, gets, getPoolForUser.
  destruct (ToolMuxer.BuildEnvForUser _ _ _ _); destruct (GetBackend _ _).1; [done| |done|];
    by destruct (ToolMuxer.config_Backends m !! _).
Qed.

Lemma takes_touch u id : takes (touch_pool visit m u id) id 0.
Proof.
  unfold touch_pool. eapply takes_bind; [by apply takes_quiet| |].
  - intros d. destruct (getPoolForUser visit m u id d); [apply takes_ret | apply takes_early].
  - done.
Qed.

Ltac takes_body :=
  repeat first
    [ apply takes_early | apply takes_ret | apply takes_or_panic | apply takes_touch
    | apply takes_tables | apply takes_status | apply takes_put_back | apply takes_killed
    | apply takes_acquired | apply takes_registered | apply takes_unregistered
    | eapply takes_bind; [| intros ? |] | case_match ].

Lemma closes_touch u id : closes (touch_pool visit m u id) ∅.
Proof.
  unfold touch_pool. apply closes_then; [by apply closes_quiet|].
  intros d. destruct (getPoolForUser visit m u id d); [apply closes_ret | apply closes_early].
Qed.

Ltac closes_step :=
  first
    [ apply closes_early | apply closes_ret | apply closes_or_panic | apply closes_touch
    | apply closes_tables | apply closes_status | by apply closes_note
    | apply closes_then; [| intros ?] | case_match ].

Lemma live_tools_closes specs now b x :
  closes (live_tools specs now b x) {[ (BackendRow.ID b, list_id (BackendRow.ID b) now) ]}.
Proof.
  unfold ToolLists.live_tools. cbv zeta.
  destruct x; apply closes_unregistered; repeat closes_step.
Qed.

Lemma live_tools_takes specs now b x : takes (live_tools specs now b x) (BackendRow.ID b) (-1).
Proof. unfold ToolLists.live_tools. takes_body; try reflexivity. Qed.

Lemma backend_tools_takes v specs now u caps sts b :
  takes (backend_tools v specs now u caps sts b) (BackendRow.ID b) 0.
Proof.
  unfold ToolLists.backend_tools, when.
  takes_body; try first [apply takes_reconnected | apply takes_refreshing | apply live_tools_takes]; try reflexivity.
Qed.

Lemma legacy_tools_takes v now u b :
  takes (backend_tools_legacy visit m v now u b) (BackendRow.ID b) 0.
Proof. unfold backend_tools_legacy. takes_body; try reflexivity. Qed.

Lemma backend_tools_closes v specs now u caps sts b :
  closes (backend_tools v specs now u caps sts b) ∅.
Proof.
  unfold ToolLists.backend_tools, when. cbv zeta. case_match; [apply closes_ret|].
  apply closes_then; [apply closes_touch | intros _].
  apply closes_then; [by case_match; [apply closes_note | apply closes_ret] | intros _].
  repeat first [apply closes_registered; apply live_tools_closes | closes_step].
Qed.

Lemma legacy_tools_closes v now u b : closes (backend_tools_legacy visit m v now u b) ∅.
Proof.
  unfold backend_tools_legacy. cbv zeta. case_match; [apply closes_ret|].
  apply closes_then; [apply closes_touch | intros _]. case_match; [apply closes_ret|].
  case_match; [apply closes_ret|]. apply closes_then; [by apply closes_note | intros _].
  apply closes_registered.
  case_match; apply closes_unregistered; repeat closes_step.
Qed.

Lemma list_takes v minJ ok now u id :
  takes (handleToolsList visit m show stmt1 stmt2 v minJ ok now u id) EmptyString 0.
Proof.
  unfold handleToolsList. eapply takes_bind; [apply takes_tables| |reflexivity].
  intros [[|b l]|]; try apply takes_ret.
  eapply takes_bind; [apply takes_tables | intros caps | reflexivity].
  eapply takes_bind; [by apply takes_quiet | intros sts | reflexivity].
  eapply takes_bind; [apply collect_takes; intros; apply backend_tools_takes
                     | intros; apply takes_ret | reflexivity].
Qed.

Lemma list_closes v minJ ok now u id :
  closes (handleToolsList visit m show stmt1 stmt2 v minJ ok now u id) ∅.
Proof.
  unfold handleToolsList. apply closes_then; [apply closes_tables|].
  intros [[|b l]|]; try apply closes_ret.
  apply closes_then; [apply closes_tables | intros caps].
  apply closes_then; [by apply closes_quiet | intros sts].
  apply closes_then; [apply collect_closes; intros; apply backend_tools_closes | intros; apply closes_ret].
Qed.

Lemma legacy_list_closes v now u id : closes (handleToolsList_legacy visit m v now u id) ∅.
Proof.
  unfold handleToolsList_legacy. apply closes_then; [apply closes_tables|].
  intros [l|]; [|apply closes_ret].
  apply closes_then; [apply collect_closes; intros; apply legacy_tools_closes | intros; apply closes_ret].
Qed.

Lemma legacy_list_takes v now u id : takes (handleToolsList_legacy visit m v now u id) EmptyString 0.
Proof.
  unfold handleToolsList_legacy. eapply takes_bind; [apply takes_tables| |reflexivity].
  intros [l|]; [|apply takes_ret].
  eapply takes_bind; [apply collect_takes; intros; apply legacy_tools_takes
                     | intros; apply takes_ret | reflexivity].
Qed.
End Facts.
End ListFacts.

Section ListTheorems.
Context {KS : Type} `{SecretBox KS} `{CryptoPrims} `{Bcrypt}.
Context {St : Type} {MS : MuxStore St} {ME : MuxEnv} {SH : Sha256}.
Context (visit : nat -> gset string -> list string) (m : ToolMuxer.t St).
Context (show : fields -> string) (stmt1 stmt2 : string -> bool).
Import Bridge ListFacts.
Implicit Types (s : Bridge.t KS) (v : pool_view) (b : BackendRow.t).

(** Both tool lists give back or kill, exactly once, every process they take, and
    leave no entry of theirs in the table of pending requests, whatever the pools, the processes and the database answer. *)
Theorem lists_return_processes v minJ ok now u id s a s' :
  handleToolsList visit m show stmt1 stmt2 v minJ ok now u id s = (inr a, s') \/
  handleToolsList_legacy visit m v now u id s = (inr a, s') ->
  (forall j, held j (events s') = held j (events s)) /\ pending (events s') ⊆ pending (events s).
Proof.
  intros Hs. split; [|by destruct Hs as [Hs|Hs]; eapply closes_pending, Hs;
                      [apply list_closes | apply legacy_list_closes]].
  intros j. destruct Hs as [Hs|Hs]; [rewrite (list_takes _ _ _ _ _ _ _ _ _ _ _ _ _ _ Hs j)
                    | rewrite (legacy_list_takes _ _ _ _ _ _ _ _ _ Hs j)]; case_decide; lia.
Qed.

(** The refresh of the cache in the background does not: when the process does
    not answer it is killed and put back for the next caller. *)
Theorem refresh_puts_killed_back v now u b s :
  getPoolForUser visit m u (BackendRow.ID b) (tables s) <> None ->
  warm v (BackendRow.ID b) = inr tt -> reply v (BackendRow.ID b) = TimedOut ->
  exists s', refreshBackendTools visit m show stmt1 stmt2 v now u b s = (inr tt, s') /\
    events s' = events s ++ [Acquired (BackendRow.ID b);
      RequestRegistered (BackendRow.ID b) (refresh_id (BackendRow.ID b) now);
      RequestUnregistered (BackendRow.ID b) (refresh_id (BackendRow.ID b) now);
      Killed (BackendRow.ID b); PutBack (BackendRow.ID b)].
Proof.
  intros Hp Hw Hr. unfold refreshBackendTools, touch_pool, bind, gets, note, on_status, modify.
  destruct (getPoolForUser _ _ _ _ _) as [pool|]; [|done]. rewrite Hw, Hr.
  eexists. split; [reflexivity|]. cbn. by rewrite <- !app_assoc.
Qed.

(** C27: Where the bridge asks for justifications, every tool it lists from a backend
    tells the client so, unless that backend is exempt: justification is among its
    required parameters, with the least length the enforcer accepts.  The list is the
    contributions of the backends, in the order of the database, and the tools of the
    bridge; a backend that offers no tools contributes at most a placeholder. *)
Theorem list_demands_justification v n ok now u id s rid tools s' :
  0 < n ->
  handleToolsList visit m show stmt1 stmt2 v (Some n) ok now u id s = (inr (ToolsList rid tools), s') ->
  exists l segs, (Backends.ListBackends (tables s)).1 = Ok l /\
    tools = concat segs ++ SystemToolsAsMap /\
    Forall2 (fun b seg =>
      if BackendRow.Enabled b then
        match offered v (listed_caps s) b with
        | Some raw => length seg = length raw /\
            (BackendRow.SkipJustification b = false -> Forall (demands "justification" n) seg)
        | None => seg = [] \/ exists descr, seg = [placeholder (BackendRow.ID b +:+ "_unavailable") descr]
        end
      else seg = []) l segs.
Proof.
  intros Hn Hrun. destruct (list_segments _ _ _ _ _ _ _ _ _ _ _ _ _ _ _ Hrun) as (l & segs & Hl & Ht & Hsegs).
  exists l, segs. split; [done|]. split; [done|]. eapply Forall2_impl; [exact Hsegs|].
  intros b seg Hc. unfold contributes in Hc. cbv zeta in Hc.
  destruct (BackendRow.Enabled b); [|done]. destruct (offered _ _ b) as [raw|]; [|done].
  split; [by apply contributed_names, Forall2_length in Hc|].
  intros Hskip. by eapply contributed_demands.
Qed.

(** C20: The name a tool is listed under is the way back to it.  The list is the
    contributions of the backends, in the order of the database, and the tools of the
    bridge.  An enabled backend contributes the tools it offers, those cached or those
    its process answers with, in their order, each under its own name after the prefix
    of this backend if it has one; and then, when no other prefix matches and the own name
    does not begin with the prefix and a slash, the multiplexer routes that name to this backend and strips it to the own name.  A
    backend that offers none contributes at most a placeholder. *)
Theorem listed_names_route v minJ ok now u id s rid tools s' :
  visits visit ->
  handleToolsList visit m show stmt1 stmt2 v minJ ok now u id s = (inr (ToolsList rid tools), s') ->
  exists l segs, (Backends.ListBackends (tables s)).1 = Ok l /\
    tools = concat segs ++ SystemToolsAsMap /\
    Forall2 (fun b seg =>
      let p := ToolMuxer.GetPrefixForBackend visit (BackendRow.ID b) m in
      if BackendRow.Enabled b then
        match offered v (listed_caps s) b with
        | Some raw =>
            Forall2 (fun t0 t => as_string (go_field t "name") =
                       listed_name p <$> as_string (go_field t0 "name")) raw seg /\
            (forall t0 own, t0 ∈ raw -> as_string (go_field t0 "name") = Some own ->
              p <> EmptyString -> (forall p', MuxerFacts.matching (listed_name p own) m p' -> p' = p) ->
              has_prefix own (p +:+ "/") = false ->
              ToolMuxer.FindBackendForTool visit (listed_name p own) m = Ok (BackendRow.ID b, p) /\
              ToolMuxer.stripped_name (listed_name p own) p = own)
        | None => seg = [] \/ exists descr, seg = [placeholder (BackendRow.ID b +:+ "_unavailable") descr]
        end
      else seg = []) l segs.
Proof.
  intros Hv Hrun. destruct (list_segments _ _ _ _ _ _ _ _ _ _ _ _ _ _ _ Hrun) as (l & segs & Hl & Ht & Hsegs).
  exists l, segs. split; [done|]. split; [done|]. eapply Forall2_impl; [exact Hsegs|].
  intros b seg Hc. unfold contributes in Hc. cbv zeta in Hc |- *.
  destruct (BackendRow.Enabled b); [|done]. destruct (offered _ _ b) as [raw|]; [|done].
  split; [by eapply contributed_names|]. intros t0 own _ _ Hp Hu Hs. by apply prefixed_name_routes.
Qed.

(** One backend whose environment cannot be built for the user, say because a
    template does not resolve, takes the whole list away from him: the handler
    panics on the nil pool. *)
Theorem one_environment_aborts_list v minJ ok now u id s l b e :
  (Backends.ListBackends (tables s)).1 = Ok l -> b ∈ l -> BackendRow.Enabled b = true ->
  ToolMuxer.BuildEnvForUser visit u (BackendRow.ID b) m = Err e ->
  (handleToolsList visit m show stmt1 stmt2 v minJ ok now u id s).1 = inl Panic /\
  (handleToolsList_legacy visit m v now u id s).1 = inl Panic.
Proof.
  intros Hl Hb He Herr.
  assert (Htouch : forall s0, (touch_pool visit m u (BackendRow.ID b) s0).1 = inl Panic).
  { intros s0. by rewrite touch_pool_env, Herr. }
  unfold handleToolsList, handleToolsList_legacy, bind at 1 5, on_tables.
  destruct (ListBackends (tables s)) as [r d] eqn:Hr. cbn [fst] in Hl. subst r. split.
  - destruct l as [|b0 l0]; [by apply elem_of_nil in Hb|].
    unfold bind at 1. destruct (GetAllBackendCapabilities _) as [caps d']. unfold bind at 1, gets.
    match goal with |- context [collect ?step ?l] =>
      assert (Hc : forall s1, (collect step l s1).1 = inl Panic);
        [apply (collect_panics step l b); [intros; apply backend_tools_panics | done |]|] end.
    + intros s1. unfold backend_tools, bind. rewrite He. cbn [negb]. specialize (Htouch s1).
      destruct (touch_pool _ _ _ _ s1) as [[r1|[]] s2]; [cbn in *; congruence | discriminate Htouch].
    + unfold bind. match goal with |- context [collect ?step ?l ?s0] => specialize (Hc s0) end.
      destruct (collect _ _ _) as [[r1|ts] s2]; [cbn in *; congruence | discriminate Hc].
  - unfold bind. assert (Hc : forall s1, (collect (backend_tools_legacy visit m v now u) l s1).1 = inl Panic).
    { apply (collect_panics _ l b); [intros; apply legacy_tools_panics | done |].
      intros s1. unfold backend_tools_legacy, bind. rewrite He. cbn [negb]. specialize (Htouch s1).
      destruct (touch_pool _ _ _ _ s1) as [[r1|[]] s2]; [cbn in *; congruence | discriminate Htouch]. }
    match goal with |- context [collect ?step ?l ?s0] => specialize (Hc s0) end.
    destruct (collect _ _ _) as [[r1|ts] s2]; [cbn in *; congruence | discriminate Hc].
Qed.

(** C34: The cache shows what the process showed: once a process has answered with
    tools, later lists of the backend for the same user have the same entries
    without a process, as long as its pool is available, and refresh the cache. *)
Theorem cache_is_transparent v specs now u caps sts b s data tools l s' :
  BackendRow.Enabled b = true -> IsUnavailable v (BackendRow.ID b) = false ->
  caps !! BackendRow.ID b = None -> warm v (BackendRow.ID b) = inr tt ->
  reply v (BackendRow.ID b) = Replied data -> decode_tools_list data = Ok (tools, None) ->
  tools <> [] -> db_faults (tables s) = [] -> is_Some (Backends.backends (tables s) !! BackendRow.ID b) ->
  backend_tools visit m show stmt1 stmt2 v specs now u caps sts b s = (inr l, s') ->
  forall v' now' sts' s2, IsUnavailable v' (BackendRow.ID b) = false ->
    exists s3, backend_tools visit m show stmt1 stmt2 v' specs now' u
                 (Backends.capabilities (tables s')) sts' b s2 = (inr l, s3) /\
      tables s3 = tables s2 /\ status s3 = status s2 /\
      Refreshing (BackendRow.ID b) ∈ events s3 /\
      (forall id, Acquired id ∈ events s3 -> Acquired id ∈ events s2).
Proof.
  intros He Hav Hnone Hw Hrep Hdec Hne Hf Hb Hrun v' now' sts' s2 Hav'.
  unfold backend_tools in Hrun |- *. rewrite He in Hrun |- *. cbn [negb] in Hrun |- *.
  unfold bind at 1 in Hrun. unfold bind at 1. rewrite touch_pool_env in Hrun |- *.
  destruct (ToolMuxer.BuildEnvForUser _ _ _ _) as [env|]; [|done].
  rewrite Hav, Hnone in Hrun. rewrite Hav'. cbn [fmap option_fmap option_map] in Hrun.
  rewrite Hw, Hrep in Hrun.
  unfold live_tools in Hrun. rewrite Hdec in Hrun.
  destruct (reconnect_noted (bool_decide (sts !! BackendRow.ID b = Some "unavailable"))
    (BackendRow.ID b) s) as (s1 & Hs1 & Ht1 & _ & _).
  destruct (reconnect_noted (bool_decide (sts' !! BackendRow.ID b = Some "unavailable"))
    (BackendRow.ID b) s2) as (s3 & Hs3 & Ht3 & Hst3 & Hev3).
  unfold bind at 1 in Hrun. rewrite Hs1 in Hrun. unfold bind at 1. rewrite Hs3.
  unfold bind, note, on_tables, SetBackendCapabilities, modify in Hrun. cbn [tables status events] in Hrun.
  rewrite sql_checked_ok, Ht1 in Hrun by (rewrite Ht1; exact Hf). cbn [fst snd] in Hrun.
  rewrite (bool_decide_eq_true_2 _ Hb), orb_true_r in Hrun.
  unfold on_status, modify in Hrun. cbn [tables status events] in Hrun.
  destruct (listed_tools specs _ b tools) as [l1|] eqn:Hlist; [|done]. cbn in Hrun.
  injection Hrun as -> <-. cbn [tables Backends.capabilities Backends.set_capabilities].
  rewrite lookup_insert_eq. cbn [fmap option_fmap option_map].
  rewrite cached_tools_of. destruct tools as [|t0 ts]; [done|].
  rewrite Hlist. cbn. eexists. split; [reflexivity|]. cbn [tables status events].
  split_and!; [done..| |].
  - apply elem_of_app. right. by left.
  - intros id [Hid|Hid%list_elem_of_singleton]%elem_of_app; [|done].
    destruct (Hev3 _ Hid) as [?|?]; done.
Qed.
End ListTheorems.

(** ** A concrete bridge *)

#[local] Existing Instances Toy.prims Toy.laws DemoAccounts.bcrypt DemoAccounts.provider demo_sha
  DemoBackends.mux_env.

Module DemoLists.
Definition mux : ToolMuxer.t (Backends.t DemoAccounts.key_store) :=
  ToolMuxer.NewToolMuxerWithStore by_elements (Some DemoBackends.tables) ∅.

Definition post : gomap := Some [("name", JStr "post")].

Definition answer_with (tools : list json) : exchange :=
  Replied (Some (JObj [("id", JStr "list"); ("result", JObj [("tools", JArr tools)])])).

Definition view : pool_view := PoolView (fun _ => false) (fun _ => inr tt)
  (fun _ => answer_with [JObj [("name", JStr "post")]]).
Definition silent_view : pool_view := PoolView (fun _ => false) (fun _ => inr tt) (fun _ => TimedOut).

Definition state : Bridge.t DemoAccounts.key_store :=
  Bridge.mk DemoBackends.tables (StatusDB ∅ ∅) [].

Definition show (err : fields) : string := "map[]".

(** The variables of the backend refer to a field users do not have. *)
Definition broken_env : MuxEnv := {|
  unmarshal_string := fun _ => None;
  unmarshal_map := fun _ => Some {["URL" := "https://{{users.team}}"]};
  getenv := fun _ => EmptyString
|}.

Definition always (id : string) : bool := true.

Definition run_list := handleToolsList by_elements mux show always always view (Some 10) true 5 "ann"
  (JNum 7 0) state.

Definition listed : list gomap :=
  match run_list.1 with inr (ToolsList _ tools) => tools | _ => [] end.
End DemoLists.
Import DemoLists.

Lemma demo_listed : run_list = (inr (ToolsList (JNum 7 0) listed), run_list.2).
Proof.
  assert (Hr : run_list.1 = inr (ToolsList (JNum 7 0) listed)) by (vm_compute; reflexivity).
  rewrite <- Hr. by destruct run_list.
Qed.

Example demo_list : (as_string ∘ fun t => go_field t "name") <$> listed =
  Some "gh_post" :: (Some <$> SystemToolNames).
Proof. vm_compute. reflexivity. Qed.

Lemma lists_return_processes_witness :
  ListFacts.held "github" (Bridge.events run_list.2) = 0.
Proof.
  pose proof demo_listed as Hr. unfold run_list at 1 in Hr. revert Hr.
  generalize listed run_list.2. intros l s' Hr.
  exact (proj1 (lists_return_processes by_elements mux show always always view (Some 10) true 5 "ann"
    (JNum 7 0) state (ToolsList (JNum 7 0) l) s' (or_introl Hr)) "github").
Defined.

Lemma demo_list_pool : getPoolForUser by_elements mux "ann" "github" (Bridge.tables state) <> None.
Proof. vm_compute. discriminate. Qed.

Lemma refresh_puts_killed_back_witness :
  exists s', refreshBackendTools by_elements mux show always always silent_view 5 "ann"
      (DemoBackends.backend "github" "VARS") state = (inr tt, s') /\
    Bridge.events s' = [Acquired "github"; RequestRegistered "github" "refresh-github-5";
      RequestUnregistered "github" "refresh-github-5"; Killed "github"; PutBack "github"].
Proof.
  destruct (refresh_puts_killed_back by_elements mux show always always silent_view 5 "ann"
    (DemoBackends.backend "github" "VARS") state demo_list_pool eq_refl eq_refl) as (s' & H1 & H2).
  exists s'. split; [exact H1|exact H2].
Defined.

(** The backend of the list and what it offers. *)
Definition listed_row : BackendRow.t :=
  BackendRow.with_defaults EmptyString 1 EmptyString (DemoBackends.backend "github" "VARS").

Lemma listed_rows : (ListBackends (Bridge.tables state)).1 = Ok [listed_row].
Proof. vm_compute. reflexivity. Qed.

Lemma demo_offered :
  BackendRow.Enabled listed_row = true /\ BackendRow.SkipJustification listed_row = false /\
  ListFacts.offered view (ListFacts.listed_caps state) listed_row = Some [post].
Proof. vm_compute. done. Qed.

Lemma list_demands_justification_witness :
  exists t, head listed = Some t /\ demands "justification" 10 t.
Proof.
  pose proof demo_listed as Hr. unfold run_list at 1 in Hr.
  destruct (list_demands_justification by_elements mux show always always view 10 true 5 "ann" (JNum 7 0)
    state _ _ _ eq_refl Hr) as (l & segs & Hl & Ht & Hsegs).
  rewrite listed_rows in Hl. injection Hl as <-. destruct demo_offered as (He & Hs & Ho).
  apply Forall2_cons_inv_l in Hsegs as (seg & rest & Hseg & Hrest%Forall2_nil_inv_l & ->). subst rest.
  rewrite He, Ho in Hseg. destruct Hseg as [Hlen Hd]. specialize (Hd Hs).
  destruct seg as [|t [|]]; [discriminate Hlen | | discriminate Hlen].
  exists t. rewrite Ht. split; [reflexivity | by apply Forall_inv in Hd].
Defined.

Lemma listed_names_route_witness :
  exists t, head listed = Some t /\ as_string (go_field t "name") = Some "gh_post" /\
    ToolMuxer.FindBackendForTool by_elements "gh_post" mux = Ok ("github", "gh") /\
    ToolMuxer.stripped_name "gh_post" "gh" = "post".
Proof.
  pose proof demo_listed as Hr. unfold run_list at 1 in Hr.
  destruct (listed_names_route by_elements mux show always always view (Some 10) true 5 "ann" (JNum 7 0)
    state _ _ _ by_elements_visits Hr) as (l & segs & Hl & Ht & Hsegs).
  rewrite listed_rows in Hl. injection Hl as <-. destruct demo_offered as (He & _ & Ho).
  apply Forall2_cons_inv_l in Hsegs as (seg & rest & Hseg & Hrest%Forall2_nil_inv_l & ->). subst rest.
  cbv zeta in Hseg. rewrite He, Ho in Hseg.
  assert (Hg : ToolMuxer.GetPrefixForBackend by_elements (BackendRow.ID listed_row) mux = "gh")
    by (vm_compute; reflexivity).
  rewrite Hg in Hseg. destruct Hseg as [Hnames Hroute].
  apply Forall2_cons_inv_l in Hnames as (t & rest & Hname & Hnil%Forall2_nil_inv_l & ->). subst rest.
  exists t. rewrite Ht. split; [reflexivity|]. split; [exact Hname|].
  apply (Hroute post "post"); [left | reflexivity | done | | reflexivity].
  intros p' [Hd _]. change (ToolMuxer.backendPrefixes mux) with ({["gh" := "github"]} : gmap string string) in Hd.
  rewrite dom_singleton in Hd. by apply elem_of_singleton in Hd.
Defined.

Lemma one_environment_aborts_list_witness :
  (handleToolsList (ME := DemoLists.broken_env) by_elements mux show always always view None true 5
     "ann" JNull state).1 = inl Panic.
Proof.
  assert (Hl : (ListBackends (Bridge.tables state)).1 = Ok [BackendRow.with_defaults EmptyString 1 EmptyString
    (DemoBackends.backend "github" "VARS")]) by (vm_compute; reflexivity).
  assert (He : is_ok (ToolMuxer.BuildEnvForUser (ME := DemoLists.broken_env) by_elements "ann" "github" mux)
    = false) by (vm_compute; reflexivity).
  destruct (ToolMuxer.BuildEnvForUser (ME := DemoLists.broken_env) by_elements "ann" "github" mux)
    as [env|e] eqn:Herr; [discriminate He|].
  exact (proj1 (one_environment_aborts_list (ME := DemoLists.broken_env) by_elements mux show always always
    view None true 5 "ann" JNull state _ _ e Hl (list_elem_of_here _ _) eq_refl Herr)).
Defined.

Definition first_list := backend_tools by_elements mux show always always view [] 5 "ann" ∅ ∅
  (DemoBackends.backend "github" "VARS") state.

Lemma cache_is_transparent_witness :
  exists l s3, backend_tools by_elements mux show always always
      (PoolView (fun _ => false) (fun _ => inl "no process") (fun _ => TimedOut)) [] 9 "ann"
      (Backends.capabilities (Bridge.tables first_list.2)) ∅ (DemoBackends.backend "github" "VARS") state =
      (inr l, s3) /\ l = [Some [("name", JStr "gh_post")]].
Proof.
  assert (Hr : first_list.1 = inr [Some [("name", JStr "gh_post")]]) by (vm_compute; reflexivity).
  assert (Hf : first_list = (inr [Some [("name", JStr "gh_post")]], first_list.2))
    by (rewrite <- Hr; by destruct first_list).
  unfold first_list at 1 in Hf. revert Hf. generalize first_list.2. intros s' Hf.
  assert (Hb : is_Some (Backends.backends (Bridge.tables state) !! "github")) by (eexists; reflexivity).
  destruct (cache_is_transparent by_elements mux show always always view [] 5 "ann" ∅ ∅
    (DemoBackends.backend "github" "VARS") state
    (Some (JObj [("id", JStr "list"); ("result", JObj [("tools", JArr [JObj [("name", JStr "post")]])])]))
    [post] [Some [("name", JStr "gh_post")]] s' eq_refl eq_refl (lookup_empty _) eq_refl eq_refl
    ltac:(vm_compute; reflexivity) ltac:(discriminate) eq_refl Hb Hf
    (PoolView (fun _ => false) (fun _ => inl "no process") (fun _ => TimedOut)) 9 ∅ state eq_refl)
    as (s3 & H1 & _).
  do 2 eexists. split; [exact H1 | reflexivity].
Defined.
