(* ===== verification/BridgeTools.v ===== *)
(** * The tools of the bridge itself: [src/mcpbridge_tools.go], [mcp_handlers.go]

    The tools the MCP library serves for the bridge, as functions from what they
    read to the text they answer, and the switch with which the legacy handler
    answers the same names.  The texts are those of the source, byte for byte.

    The library ([mark3labs/mcp-go]) is the code that calls the handlers; the user
    is the one the handler of the server has put into the context. *)
From S2P Require Import Prelude Sql Crypto EnforcerTypes Template Muxer Accounts Backends Process BackendStatus ToolLists.
From S2P Require EnforcerStore PoolManager RateLimit.
Open Scope Z_scope.
Open Scope handler_scope.

(** ** Texts *)

Definition lines (l : list string) : string :=
  foldr (fun s t => s +:+ newline +:+ t) EmptyString l.

(** [strings.Join] *)
Fixpoint joined_by (sep : string) (l : list string) : string :=
  match l with
  | [] => EmptyString
  | [s] => s
  | s :: l' => s +:+ sep +:+ joined_by sep l'
  end.

(** [strings.Repeat] *)
Fixpoint repeated (s : string) (n : nat) : string :=
  match n with O => EmptyString | S n => s +:+ repeated s n end.

(** ** The registration *)

(** Every tool with the handler that serves it. *)
Inductive handler_name :=
| ReadmeTool | PingTool | VersionTool | ListBackendsTool | RefreshToolsTool
| CapabilitiesTool | PoolStatusTool | ApprovalStatusTool | QuotasTool.

#[export] Instance handler_name_eq_dec : EqDecision handler_name.
Proof. solve_decision. Defined.

Definition registerSystemTools : list (SystemToolDefinition.t * handler_name) := [
  (SystemToolDefinition.mk "mcpbridge_0_README" "🚨 START HERE! 🚨 CRITICAL: Read this BEFORE using any other tools! Contains essential usage guidance, hints for all backends, and company-specific information. Failure to read this first may result in incorrect queries and wasted API calls."
     no_parameters, ReadmeTool);
  (SystemToolDefinition.mk "mcpbridge_ping" "Check bridge connectivity and get current timestamp"
     no_parameters, PingTool);
  (SystemToolDefinition.mk "mcpbridge_version" "Get mcp-bridge version information"
     no_parameters, VersionTool);
  (SystemToolDefinition.mk "mcpbridge_list_backends"
     "List configured backends (admin sees all, users see their token-enabled backends)"
     no_parameters, ListBackendsTool);
  (SystemToolDefinition.mk "mcpbridge_refresh_tools" "Refresh and list tools from all enabled backends"
     no_parameters, RefreshToolsTool);
  (SystemToolDefinition.mk "mcpbridge_capabilities" "Get bridge capabilities: available backends, user configuration status, and system tools. Use this for quick discovery of what's available."
     no_parameters, CapabilitiesTool);
  (SystemToolDefinition.mk "mcpbridge_pool_status" "Get pool status for all user pools: warm process count, current size, min/max pool sizes. Shows resource usage per backend+user combination."
     no_parameters, PoolStatusTool);
  (SystemToolDefinition.mk "mcpbridge_approval_status" "Check the status of a pending approval request. Use this after receiving an approval_id from a blocked tool call to see if an admin has approved or denied your request."
     approval_parameters, ApprovalStatusTool);
  (SystemToolDefinition.mk "mcpbridge_quotas" "Get your current rate limit quotas. Shows available tokens in risk and resource buckets per backend. Risk buckets limit destructive operations (writes/deletes), resource buckets limit expensive API calls."
     (JObj [("properties", JObj [("backend_id", JObj [
              ("type", JStr "string");
              ("description", JStr "Optional: specific backend to check (e.g., 'slack', 'newrelic'). If not provided, shows all backends.")])]);
            ("type", JStr "object")]), QuotasTool)].

(** ** Quotas *)

(** A Go value of the map the rate limiter answers with: what the handler can
    assert about it depends on its type.  A [float64] is given by its whole part. *)
Inductive value :=
| GoInt (z : Z)
| GoFloat (whole : Z)
| GoMap (entries : list (string * value)).

Definition value_at (entries : list (string * value)) (key : string) : option value :=
  snd <$> List.find (fun kv => bool_decide (kv.1 = key)) entries.

(** [v.(float64)]; [None]: it panics. *)
Definition as_float (v : option value) : option Z :=
  match v with Some (GoFloat z) => Some z | _ => None end.

(** [RateLimitManager.GetBucketStatus]: available, capacity and refill of a bucket. *)
Definition bucket_status (b : option RateLimit.BucketState.t) : Z * Z * Z :=
  match b with
  | Some b => (RateLimit.BucketState.CurrentLevel b, RateLimit.BucketState.Capacity b,
               RateLimit.BucketState.RefillRate b)
  | None => (0, 0, 0)
  end.

Definition bucket_map (status : Z * Z * Z) : value :=
  GoMap [("available", GoInt status.1.1); ("capacity", GoInt status.1.2);
         ("refill_rate", GoInt status.2)].

Definition GetStatusMap (userID backendID : string) (m : RateLimit.BucketManager.t) :
    list (string * value) :=
  let '(risk, resource) := RateLimit.BucketManager.GetStatus userID backendID m in
  [("risk_bucket", bucket_map (bucket_status risk));
   ("resource_bucket", bucket_map (bucket_status resource))].

(** A section of the answer for one of the buckets; [percent] prints the share in
    use.  [None]: a type assertion panics. *)
Definition bucket_text (percent : Z -> Z -> string) (title limits : string) (bucket : option value) :
    option string :=
  match bucket with
  | Some (GoMap entries) =>
      available ← as_float (value_at entries "available");
      capacity ← as_float (value_at entries "capacity");
      refill ← as_float (value_at entries "refill_rate");
      let used := capacity -! available in
      Some (lines [title +:+ decimal_text available +:+ "/" +:+ decimal_text capacity +:+ " tokens (" +:+
                     percent used capacity +:+ "% used)";
                   "     Refill rate: " +:+ decimal_text refill +:+ " tokens/minute";
                   limits; EmptyString])
  | _ => Some EmptyString
  end.

Definition quota_text (percent : Z -> Z -> string) (status : string -> list (string * value))
    (b : BackendRow.t) : option string :=
  let id := BackendRow.ID b in
  risk ← bucket_text percent "  🔴 Risk Bucket: " "     ⚠️  Limits write and delete operations"
           (value_at (status id) "risk_bucket");
  resource ← bucket_text percent "  🟡 Resource Bucket: " "     ⚠️  Limits expensive API operations"
               (value_at (status id) "resource_bucket");
  Some (lines ["📦 BACKEND: " +:+ to_upper id; repeated "─" (30 + String.length id); EmptyString] +:+
        risk +:+ resource +:+ newline).

Definition quota_tips : string :=
  lines ["💡 Tips:"; "- Risk bucket depletes on write/delete operations";
         "- Resource bucket depletes on all operations";
         "- Both buckets refill automatically over time";
         "- Contact admin if you need higher limits"].

(** ** Approval status *)

Section Approval.
Variable format : Time -> string.            (* the layout of the source *)

Definition optional_line (label : string) (text : option string) : string :=
  match text with Some t => lines [label +:+ t] | None => EmptyString end.

Definition nonempty (s : string) : option string :=
  if bool_decide (s = EmptyString) then None else Some s.

(** Up to the body of the response. *)
Definition completed_text (r : EnforcerStore.ApprovalRequestRow.t) : string :=
  newline +:+ lines ["✅ Request was APPROVED and EXECUTED!"] +:+
  optional_line "Approved by: " (EnforcerStore.ApprovalRequestRow.ApprovedBy r) +:+
  optional_line "Comments: " (nonempty (EnforcerStore.ApprovalRequestRow.Comments r)) +:+
  newline +:+ lines ["HTTP Status Code: " +:+
                       decimal_text (EnforcerStore.ApprovalRequestRow.ResponseStatus r)] +:+
  newline +:+ lines ["Response Body:"].

(** Up to the body of the request. *)
Definition failed_text (r : EnforcerStore.ApprovalRequestRow.t) : string :=
  newline +:+ lines ["❌ Request was APPROVED but EXECUTION FAILED."] +:+
  optional_line "Approved by: " (EnforcerStore.ApprovalRequestRow.ApprovedBy r) +:+
  (match nonempty (EnforcerStore.ApprovalRequestRow.ErrorMsg r) with
   | Some e => newline +:+ lines ["Error: " +:+ e]
   | None => EmptyString
   end) +:+
  (if 0 <? EnforcerStore.ApprovalRequestRow.ResponseStatus r
   then lines ["HTTP Status Code: " +:+
                 decimal_text (EnforcerStore.ApprovalRequestRow.ResponseStatus r)]
   else EmptyString) +:+
  (match nonempty (EnforcerStore.ApprovalRequestRow.ResponseBody r) with
   | Some body => newline +:+ lines ["Response from server:"] +:+ body
   | None => EmptyString
   end) +:+
  newline +:+ lines ["Original request body:"].

Definition outcome_text (r : EnforcerStore.ApprovalRequestRow.t) : string :=
  let status := EnforcerStore.ApprovalRequestRow.Status r in
  if bool_decide (status = "PENDING") then
    newline +:+ lines ["⏳ Request is pending administrator review.";
                       "Please wait for an administrator to approve or deny."]
  else if bool_decide (status = "EXECUTING") then
    newline +:+ lines ["🔄 Request is being executed."; "Please check back shortly for results."]
  else if bool_decide (status = "COMPLETED") then
    completed_text r +:+ EnforcerStore.ApprovalRequestRow.ResponseBody r
  else if bool_decide (status = "FAILED") then
    failed_text r +:+ EnforcerStore.ApprovalRequestRow.RequestBody r
  else if bool_decide (status = "DENIED") then
    newline +:+ lines ["❌ Request was DENIED."] +:+
    optional_line "Denied by: " (EnforcerStore.ApprovalRequestRow.ApprovedBy r) +:+
    optional_line "Reason: " (nonempty (EnforcerStore.ApprovalRequestRow.DenialReason r))
  else if bool_decide (status = "EXPIRED") then
    newline +:+ lines ["⏰ Request has EXPIRED."; "Please submit a new request if needed."]
  else EmptyString.

Definition approval_text (r : EnforcerStore.ApprovalRequestRow.t) : string :=
  lines ["=== Approval Status ==="; EmptyString;
         "Approval ID: " +:+ EnforcerStore.ApprovalRequestRow.ID r;
         "Status: " +:+ EnforcerStore.ApprovalRequestRow.Status r;
         "Tool: " +:+ EnforcerStore.ApprovalRequestRow.ToolName r;
         "Requested at: " +:+ format (EnforcerStore.ApprovalRequestRow.RequestedAt r);
         "Expires at: " +:+ format (EnforcerStore.ApprovalRequestRow.ExpiresAt r)] +:+
  outcome_text r.

(** [None]: no enforcer. *)
Definition handleApprovalStatusTool (arguments : json) (d : option EnforcerStore.db) :
    string * option EnforcerStore.db :=
  match d with
  | None => ("Error: Enforcer not available", d)
  | Some db =>
      match arguments with
      | JObj args =>
          match as_string (field args "approval_id") with
          | None => ("Error: approval_id is required", d)
          | Some approvalID =>
              if bool_decide (approvalID = EmptyString) then ("Error: approval_id is required", d)
              else
                match EnforcerStore.GetApprovalRequest approvalID db with
                | (Err _, db) => ("Error: Approval request not found or expired", Some db)
                | (Ok approval, db) => (approval_text approval, Some db)
                end
          end
      | _ => ("Error: Invalid arguments", d)
      end
  end.
End Approval.

(** ** Pool status *)

Definition pool_text (ps : PoolManager.PoolStatus.t) : string :=
  lines ["Pool: " +:+ PoolManager.PoolStatus.BackendID ps +:+ ":" +:+ PoolManager.PoolStatus.UserID ps;
         "  Command: " +:+ PoolManager.PoolStatus.Command ps;
         "  Warm: " +:+ decimal_text (PoolManager.PoolStatus.WarmCount ps) +:+ ", Current: " +:+
           decimal_text (PoolManager.PoolStatus.CurrentSize ps);
         "  Min: " +:+ decimal_text (PoolManager.PoolStatus.MinPoolSize ps) +:+ ", Max: " +:+
           decimal_text (PoolManager.PoolStatus.MaxPoolSize ps);
         EmptyString].

(** [memory] and [order]: see [GetPoolsForUser]. *)
Definition handlePoolStatusTool (memory : nat -> list Z) (order : list string) (userID : string)
    (m : PoolManager.PoolManager.t) : string :=
  let pools := PoolManager.PoolManager.GetPoolsForUser memory order userID m in
  lines ["=== Pool Status ==="; EmptyString] +:+
  match pools with
  | [] => lines ["No pools found for this user."]
  | _ =>
      let totalWarm := foldl (fun n ps => n +! PoolManager.PoolStatus.WarmCount ps) 0 pools in
      let totalCurrent := foldl (fun n ps => n +! PoolManager.PoolStatus.CurrentSize ps) 0 pools in
      foldr (fun ps t => pool_text ps +:+ t) EmptyString pools +:+
      lines ["Total: " +:+ decimal_text (Z.of_nat (length pools)) +:+ " pools, " +:+ decimal_text totalWarm +:+
             " warm processes, " +:+ decimal_text totalCurrent +:+ " current"]
  end.

(** ** The tools that read the tables *)

Section Tools.
Context {KS : Type} `{SecretBox KS} `{CryptoPrims} `{Bcrypt}.
Context {St : Type} {MS : MuxStore St} {ME : MuxEnv} {SH : Sha256}.
Context (visit : nat -> gset string -> list string) (m : ToolMuxer.t St).
(** The text of an error, and [%v] of a map. *)
Context (error_text : error -> string) (show : fields -> string).
Local Abbreviation bridge := (Bridge.t KS).
Local Abbreviation Handler := (M bridge answer).

(** The texts of a loop over the backends. *)
Fixpoint texts (step : BackendRow.t -> Handler string) (l : list BackendRow.t) : Handler string :=
  match l with
  | [] => ret EmptyString
  | b :: l' => t <-- step b ;; rest <-- texts step l' ;; ret (t +:+ rest)
  end.

Definition handleVersionTool : string := "mcp-bridge version 1.0.0".

(** [now]: [time.Now().UTC().Format(time.RFC3339)] *)
Definition handlePingTool (now : string) : string := "pong " +:+ now.

Definition backend_status_text (b : BackendRow.t) : string :=
  if BackendRow.IsSystem b then "system (always available)"
  else if BackendRow.Enabled b then "enabled" else "disabled".

Definition handleListBackendsTool : Handler string :=
  backends <-- on_tables ListBackends ;;
  ret (match backends with
       | Err e => "Error: " +:+ error_text e
       | Ok l => lines (map (fun b => "- " +:+ BackendRow.ID b +:+ ": " +:+ backend_status_text b) l)
       end).

(** *** [handleRefreshToolsTool] *)

Definition full_name (prefix name : string) : string :=
  if bool_decide (prefix = EmptyString) then name else prefix +:+ "_" +:+ name.

Definition tool_names (prefix : string) (tools : list gomap) : list string :=
  omap (fun tool => name ← as_string (go_field tool "name"); Some ("- " +:+ full_name prefix name)) tools.

(** Whatever happens the request is unregistered and the process goes back, also when
    it does not answer. *)
Definition refresh_text (v : pool_view) (now : Time) (userID : string) (b : BackendRow.t) : Handler string :=
  let id := BackendRow.ID b in
  if negb (BackendRow.Enabled b) then ret EmptyString
  else
    touch_pool visit m userID id ;;;
    match warm v id with
    | inl _ => ret (lines ["Backend " +:+ id +:+ ": no warm process available"; EmptyString])
    | inr _ =>
        note (Acquired id) ;;; note (RequestRegistered id (list_id id now)) ;;;
        note (RequestUnregistered id (list_id id now)) ;;;
        let text :=
          match reply v id with
          | TimedOut => lines ["Backend " +:+ id +:+ ": timeout getting tools"; EmptyString]
          | NoData => EmptyString
          | Replied data =>
              match decode_tools_list data with
              | Err _ => EmptyString
              | Ok (_, Some err) => lines ["Backend " +:+ id +:+ " error: " +:+ show err]
              | Ok (tools, None) =>
                  let prefix := ToolMuxer.GetPrefixForBackend visit id m in
                  lines (("Backend " +:+ id +:+ " (prefix: " +:+ prefix +:+ "):") ::
                         tool_names prefix tools ++ [EmptyString])
              end
          end in
        note (PutBack id) ;;; ret text
    end.

Definition handleRefreshToolsTool (v : pool_view) (now : Time) (userID : string) : Handler string :=
  backends <-- on_tables ListBackends ;;
  match backends with
  | Err e => ret ("Error listing backends: " +:+ error_text e)
  | Ok l =>
      t <-- texts (refresh_text v now userID) l ;;
      ret (lines ["mcpbridge system tools:"; "- mcpbridge_ping"; "- mcpbridge_version";
                  "- mcpbridge_list_backends"; "- mcpbridge_refresh_tools"; EmptyString;
                  "Backend tools:"] +:+ t)
  end.

(** *** Capabilities *)

(** The backends the user has a token for. *)
Definition token_backends (tokens : res (list UserToken.t)) : list string :=
  match tokens with Ok l => UserToken.BackendID <$> l | Err _ => [] end.

Definition tool_count (n : Z) : string := " (" +:+ decimal_text n +:+ " tools)".

(** [namespaceSummary] and [totalTools] *)
Definition summarize (caps : gmap string BackendCapabilities.t) (tokens : list string)
    (acc : list string * Z) (b : BackendRow.t) : list string * Z :=
  let id := BackendRow.ID b in
  if bool_decide (id ∈ tokens) then
    match caps !! id with
    | Some c => (acc.1 ++ [id +:+ tool_count (BackendCapabilities.ToolCount c)],
                 acc.2 +! BackendCapabilities.ToolCount c)
    | None => acc
    end
  else acc.

Definition configuredBackends (tokens : list string) (l : list BackendRow.t) : list string :=
  filter (fun id => id ∈ tokens) (BackendRow.ID <$> l).

Definition integrations (some_backend : bool) (summary : list string * Z) : string :=
  if some_backend
  then lines ["Available integrations: " +:+ joined_by ", " summary.1 +:+
                ", Bridge Admin (5 tools). Total: " +:+ decimal_text (summary.2 +! 5) +:+ " tools.";
              EmptyString]
  else lines ["No backends configured for this user. Bridge Admin (5 tools) is always available.";
              EmptyString].

Definition capability_line (caps : gmap string BackendCapabilities.t) (tokens : list string)
    (b : BackendRow.t) : string :=
  let id := BackendRow.ID b in
  let status := if BackendRow.IsSystem b then "system (always available)"
                else if bool_decide (id ∈ tokens) then "configured"
                else "available (not configured)" in
  "- " +:+ id +:+ ": " +:+ status +:+
  match caps !! id with
  | Some c => tool_count (BackendCapabilities.ToolCount c)
  | None => EmptyString
  end.

Definition bridge_tools : list string :=
  [EmptyString; "--- System Tools (always available) ---"; "- mcpbridge_ping: Check bridge connectivity";
   "- mcpbridge_version: Get version info"; "- mcpbridge_list_backends: List backends";
   "- mcpbridge_refresh_tools: Refresh tools from backends"; "- mcpbridge_capabilities: This tool"].

(** [some_backend]: whether integrations are announced. *)
Definition capabilities_text (some_backend : list string -> list string -> bool)
    (caps : gmap string BackendCapabilities.t) (tokens : list string) (l : list BackendRow.t) : string :=
  let summary := foldl (summarize caps tokens) ([], 0) l in
  lines ["=== MCP Bridge Capabilities ==="; EmptyString] +:+
  integrations (some_backend (configuredBackends tokens l) summary.1) summary +:+
  lines ("--- Backends ---" :: map (capability_line caps tokens) l ++ bridge_tools).

Definition is_nonempty (l : list string) : bool := match l with [] => false | _ => true end.

Definition capabilities_answer (some_backend : list string -> list string -> bool) (userID : string) :
    Handler string :=
  caps <-- on_tables GetAllBackendCapabilities ;;
  backends <-- on_tables ListBackends ;;
  match backends with
  | Err e => ret ("Error: " +:+ error_text e)
  | Ok l =>
      tokens <-- on_tables (on_accounts (GetAllUserTokens userID)) ;;
      ret (capabilities_text some_backend (caps_of caps) (token_backends tokens) l)
  end.

(** Of the library's tool: whether a backend is configured. *)
Definition handleCapabilitiesTool : string -> Handler string :=
  capabilities_answer (fun configured _ => is_nonempty configured).

(** *** README *)

Definition readme_head : list string :=
  ["╔════════════════════════════════════════════════════════════════════════╗";
   "║           🚀 MCP BRIDGE - START HERE - READ ME FIRST 🚀               ║";
   "╚════════════════════════════════════════════════════════════════════════╝"; EmptyString].

Definition readme_tail : list string :=
  [EmptyString; "✅ You are now ready to use MCP Bridge tools!";
   "Remember: When using GitHub search tools, use filters like 'is:pr org:tusker-direct'";
   "For Jira, use projectKey=PROJ to filter by project."].

(** [instructions]: what the pool of a backend keeps from the handshakes. *)
Definition readme_section (instructions : string -> string) (userID : string) (tokens : list string)
    (b : BackendRow.t) : Handler string :=
  let id := BackendRow.ID b in
  if negb (BackendRow.Enabled b) || negb (bool_decide (id ∈ tokens)) then ret EmptyString
  else
    d <-- gets Bridge.tables ;;
    ret (lines [EmptyString; "📦 BACKEND: " +:+ to_upper id; repeated "═" (40 + String.length id);
                EmptyString] +:+
         match nonempty (BackendRow.ToolHints b) with
         | Some hints => lines ["📝 Usage Hints:"; hints; EmptyString]
         | None => EmptyString
         end +:+
         match getPoolForUser visit m userID id d with
         | Some _ => match nonempty (instructions id) with
                     | Some text => lines ["📖 Backend Instructions:"; text; EmptyString]
                     | None => EmptyString
                     end
         | None => EmptyString
         end).

Definition handleReadmeTool (instructions : string -> string) (userID : string) : Handler string :=
  hints <-- on_tables (GetSetting "global_hints") ;;
  let global := match hints with Ok h => h | Err _ => EmptyString end in
  backends <-- on_tables ListBackends ;;
  match backends with
  | Err e => ret ("Error listing backends: " +:+ error_text e)
  | Ok l =>
      tokens <-- on_tables (on_accounts (GetAllUserTokens userID)) ;;
      t <-- texts (readme_section instructions userID (token_backends tokens)) l ;;
      ret (lines readme_head +:+
           match nonempty global with
           | Some h => lines ["📋 GLOBAL INFORMATION"; "═══════════════════════"; h; EmptyString]
           | None => EmptyString
           end +:+ t +:+ lines readme_tail)
  end.

(** *** Quotas *)

(** [buckets]: those of the enforcer; [None]: no enforcer. *)
Definition handleQuotasTool (percent : Z -> Z -> string) (buckets : option RateLimit.BucketManager.t)
    (arguments : json) (userID : string) : Handler string :=
  match buckets with
  | None => ret "Error: Enforcer not available"
  | Some bm =>
      match arguments with
      | JObj args =>
          let backendID := default EmptyString (as_string (field args "backend_id")) in
          backends <-- on_tables ListBackends ;;
          match backends with
          | Err e => ret ("Error: " +:+ error_text e)
          | Ok l =>
              let shown b := BackendRow.Enabled b &&
                             (bool_decide (backendID = EmptyString) ||
                              bool_decide (BackendRow.ID b = backendID)) in
              t <-- texts (fun b =>
                     if shown b
                     then or_panic (quota_text percent (fun id => GetStatusMap userID id bm) b)
                     else ret EmptyString) l ;;
              ret (lines ["=== Rate Limit Quotas ==="; EmptyString] +:+ t +:+ quota_tips)
          end
      | _ => early Panic
      end
  end.

(** ** [mcp_handlers.go]: the same names in the legacy handler *)

Definition system_tool_legacy (now userID name : string) : Handler string :=
  if bool_decide (name = "mcpbridge_ping") then ret (handlePingTool now)
  else if bool_decide (name = "mcpbridge_version") then ret handleVersionTool
  else if bool_decide (name = "mcpbridge_list_backends") then handleListBackendsTool
  else if bool_decide (name = "mcpbridge_refresh_tools")
  then ret "Refreshed tools from all enabled backends"
  else if bool_decide (name = "mcpbridge_capabilities")
  then capabilities_answer (fun _ summary => is_nonempty summary) userID
  else ret ("Unknown system tool: " +:+ name).
End Tools.

(** * Properties *)

(** ** The bridge's own refresh *)

Module ToolFacts.
Section Facts.
Context {KS : Type} `{SecretBox KS} `{CryptoPrims} `{Bcrypt}.
Context {St : Type} {MS : MuxStore St} {ME : MuxEnv} {SH : Sha256}.
Context (visit : nat -> gset string -> list string) (m : ToolMuxer.t St).
Context (error_text : error -> string) (show : fields -> string).
Import Bridge ListFacts.
Local Abbreviation Handler := (M (Bridge.t KS) answer).
Implicit Types (s : Bridge.t KS) (v : pool_view) (b : BackendRow.t).

(** The handler kills no process. *)
Definition spares {A} (h : Handler A) : Prop :=
  forall s id, Killed id ∈ events (h s).2 -> Killed id ∈ events s.

Lemma spares_bind {A B} (h : Handler A) (k : A -> Handler B) :
  spares h -> (forall a, spares (k a)) -> spares (bind h k).
Proof.
  intros Hh Hk s id. unfold bind. specialize (Hh s id). destruct (h s) as [[r|a] s1]; [done|].
  intros Hi. apply Hh, (Hk a s1 id Hi).
Qed.

Lemma spares_quiet {A} (h : Handler A) : (forall s, events (h s).2 = events s) -> spares h.
Proof. intros Hq s id. by rewrite Hq. Qed.

Lemma spares_note e : (forall id, e <> Killed id) -> spares (note e).
Proof.
  intros He s id. cbn. intros [?|?%list_elem_of_singleton]%elem_of_app; [done|]. by destruct (He id).
Qed.

Lemma spares_tables {A} (f : Backends.t KS -> A * Backends.t KS) : spares (on_tables f).
Proof. apply spares_quiet. intros s. unfold on_tables. by destruct (f (tables s)). Qed.

Lemma spares_touch u id : spares (touch_pool visit m u id).
Proof. intros s j. by rewrite touch_pool_env. Qed.

Lemma texts_spares (step : BackendRow.t -> Handler string) l :
  (forall b, spares (step b)) -> spares (texts step l).
Proof.
  intros Hs. induction l as [|b l IH]; cbn; [by apply spares_quiet|].
  repeat (apply spares_bind; [done|intros ?]). by apply spares_quiet.
Qed.

Lemma texts_takes (step : BackendRow.t -> Handler string) l :
  (forall b, takes (step b) (BackendRow.ID b) 0) -> forall id, takes (texts step l) id 0.
Proof.
  intros Hstep. induction l as [|b l IH]; intros id; cbn; [apply takes_ret|].
  eapply takes_bind; [eapply takes_zero, Hstep | intros ts | reflexivity].
  eapply takes_bind; [apply IH | intros rest; apply takes_ret | reflexivity].
Qed.

(** The loop panics when it gets to a backend that panics. *)
Lemma texts_panic (step : BackendRow.t -> Handler string) l b :
  (forall b', only_panics (step b')) -> b ∈ l -> (forall s, (step b s).1 = inl Panic) ->
  forall s, (texts step l s).1 = inl Panic.
Proof.
  intros Hstep. induction l as [|b' l IH]; intros Hin Hb s; [by apply elem_of_nil in Hin|].
  cbn. unfold bind at 1. destruct (step b' s) as [[r|ts] s1] eqn:Hs; cbn.
  - by rewrite (Hstep b' s r s1 Hs).
  - apply elem_of_cons in Hin as [->|Hin]; [specialize (Hb s); by rewrite Hs in Hb|].
    unfold bind. specialize (IH Hin Hb s1). by destruct (texts step l s1) as [[r|rest] s2].
Qed.

Lemma refresh_text_takes v now u b : takes (refresh_text visit m show v now u b) (BackendRow.ID b) 0.
Proof.
  unfold refresh_text. case_match; [apply takes_ret|].
  eapply takes_bind; [apply takes_touch | intros _ | reflexivity].
  destruct (warm v _); [apply takes_ret|].
  apply (takes_bind _ _ _ 1 (-1)); [apply takes_acquired | intros _ | reflexivity].
  apply (takes_bind _ _ _ 0 (-1)); [apply takes_registered | intros _ | reflexivity].
  apply (takes_bind _ _ _ 0 (-1)); [apply takes_unregistered | intros _ | reflexivity].
  apply (takes_bind _ _ _ (-1) 0); [apply takes_put_back | intros _; apply takes_ret | reflexivity].
Qed.

Lemma refresh_text_spares v now u b : spares (refresh_text visit m show v now u b).
Proof.
  unfold refresh_text. case_match; [by apply spares_quiet|].
  apply spares_bind; [apply spares_touch | intros _].
  destruct (warm v _); [by apply spares_quiet|].
  do 3 (apply spares_bind; [by apply spares_note | intros _]).
  apply spares_bind; [by apply spares_note | intros _; by apply spares_quiet].
Qed.

Lemma texts_closes (step : BackendRow.t -> Handler string) l :
  (forall b, closes (step b) ∅) -> closes (texts step l) ∅.
Proof.
  intros Hstep. induction l as [|b l IH]; cbn; [apply closes_ret|].
  apply closes_then; [apply Hstep | intros t].
  apply closes_then; [apply IH | intros rest; apply closes_ret].
Qed.

Lemma refresh_text_closes v now u b : closes (refresh_text visit m show v now u b) ∅.
Proof.
  unfold refresh_text. case_match; [apply closes_ret|].
  apply closes_then; [apply closes_touch | intros _]. destruct (warm v _); [apply closes_ret|].
  apply closes_then; [by apply closes_note | intros _]. apply closes_registered.
  apply closes_unregistered.
  apply closes_then; [by apply closes_note | intros _; apply closes_ret].
Qed.

(** The values of the rate limiter are integers, never floats. *)
Lemma bucket_map_asserts title limits percent st :
  bucket_text percent title limits (Some (bucket_map st)) = None.
Proof. reflexivity. Qed.

Lemma quota_text_panics percent u bm b :
  quota_text percent (fun id => GetStatusMap u id bm) b = None.
Proof. unfold quota_text, GetStatusMap. by destruct (RateLimit.BucketManager.GetStatus _ _ _). Qed.

(** The two first sentences of the capabilities differ in their first byte. *)
Lemma integrations_differ n1 n2 rest :
  integrations true n1 +:+ rest <> integrations false n2 +:+ rest.
Proof. unfold integrations, lines. cbn. discriminate. Qed.

Lemma configured_none tokens l caps acc :
  configuredBackends tokens l = [] -> foldl (summarize caps tokens) acc l = acc.
Proof.
  unfold configuredBackends. revert acc. induction l as [|b l IH]; intros acc Hc; [done|].
  rewrite fmap_cons, filter_cons in Hc. case_decide as Hd; [done|].
  cbn [foldl]. unfold summarize at 2. rewrite bool_decide_eq_false_2 by done. by apply IH.
Qed.
Lemma summarize_step caps tokens acc b :
  is_nonempty (summarize caps tokens acc b).1 = true <->
  is_nonempty acc.1 = true \/ (BackendRow.ID b ∈ tokens /\ is_Some (caps !! BackendRow.ID b)).
Proof.
  unfold summarize. case_bool_decide as Hd; [|by intuition].
  destruct (caps !! BackendRow.ID b) as [c|] eqn:Hc; cbn.
  - split; [right; by eauto|]. intros _. by destruct (acc.1).
  - split; [by left|]. intros [?|[_ [? ?]]]; done.
Qed.

Lemma summarize_nonempty caps tokens l :
  is_nonempty (foldl (summarize caps tokens) ([], 0) l).1 = true <->
  exists b, b ∈ l /\ BackendRow.ID b ∈ tokens /\ is_Some (caps !! BackendRow.ID b).
Proof.
  assert (Hg : forall acc, is_nonempty (foldl (summarize caps tokens) acc l).1 = true <->
    is_nonempty acc.1 = true \/
    exists b, b ∈ l /\ BackendRow.ID b ∈ tokens /\ is_Some (caps !! BackendRow.ID b)).
  { induction l as [|b l IH]; intros acc; cbn [foldl].
    - split; [by left|]. intros [?|(b & Hb%elem_of_nil & _)]; done.
    - rewrite IH, summarize_step. setoid_rewrite elem_of_cons. split.
      + intros [[?|?]|(b' & ? & ?)]; [by left | right; exists b; auto | right; exists b'; auto].
      + intros [?|(b' & [->|?] & ?)]; [by left; left | left; by right | right; by exists b']. }
  rewrite Hg. split; [intros [?|?]; done | by right].
Qed.
End Facts.
End ToolFacts.

(** Who knows the id of an approval request is shown, whoever he is, what the
    backend answered to it, and the request itself when its execution failed. *)
Theorem approval_status_discloses format args id r d :
  field args "approval_id" = Some (JStr id) -> id <> EmptyString ->
  EnforcerStore.faults d = [] -> EnforcerStore.approvals d !! id = Some r ->
  exists before, (handleApprovalStatusTool format (JObj args) (Some d)).1 = before +:+
    (if bool_decide (EnforcerStore.ApprovalRequestRow.Status r = "FAILED")
     then EnforcerStore.ApprovalRequestRow.RequestBody r
     else if bool_decide (EnforcerStore.ApprovalRequestRow.Status r = "COMPLETED")
     then EnforcerStore.ApprovalRequestRow.ResponseBody r else EmptyString).
Proof.
  intros Ha Hid Hf Hr. unfold handleApprovalStatusTool. rewrite Ha. cbn [as_string].
  rewrite bool_decide_eq_false_2 by done.
  unfold EnforcerStore.GetApprovalRequest, EnforcerStore.query, EnforcerStore.stmt.
  rewrite Hf, Hr. cbn [fst]. unfold approval_text, outcome_text.
  set (head := lines _). generalize head. clear head. intros head.
  destruct (decide (EnforcerStore.ApprovalRequestRow.Status r = "FAILED")) as [He|Hne].
  - rewrite He, !bool_decide_eq_false_2, bool_decide_eq_true_2 by done.
    eexists. apply str_app_assoc.
  - rewrite !(bool_decide_eq_false_2 _ Hne).
    destruct (decide (EnforcerStore.ApprovalRequestRow.Status r = "COMPLETED")) as [He|Hnc].
    + rewrite He, !bool_decide_eq_false_2, bool_decide_eq_true_2 by done. eexists. apply str_app_assoc.
    + rewrite !(bool_decide_eq_false_2 _ Hnc). eexists. symmetry. apply str_app_nil_r.
Qed.

Section ToolTheorems.
Context {KS : Type} `{SecretBox KS} `{CryptoPrims} `{Bcrypt}.
Context {St : Type} {MS : MuxStore St} {ME : MuxEnv} {SH : Sha256}.
Context (visit : nat -> gset string -> list string) (m : ToolMuxer.t St).
Context (error_text : error -> string) (show : fields -> string).
Import Bridge ListFacts ToolFacts.
Implicit Types (s : Bridge.t KS) (v : pool_view) (b : BackendRow.t).

(** The refresh a user asks for gives back every process it takes and kills none:
    one that does not answer stays in the pool.  No request of it stays in the table. *)
Theorem refresh_tool_keeps_processes v now u s t s' :
  handleRefreshToolsTool visit m error_text show v now u s = (inr t, s') ->
  (forall id, held id (events s') = held id (events s)) /\
  (forall id, Killed id ∈ events s' -> Killed id ∈ events s) /\
  pending (events s') ⊆ pending (events s).
Proof.
  intros Hrun. split_and!; [intros id | intros id |].
  - assert (Ht : takes (handleRefreshToolsTool visit m error_text show v now u) id 0).
    { unfold handleRefreshToolsTool. eapply takes_bind; [apply takes_tables | | reflexivity].
      intros [l|e]; [|apply takes_ret].
      eapply takes_bind; [apply texts_takes; intros b; apply refresh_text_takes
                         | intros; apply takes_ret | reflexivity]. }
    rewrite (Ht _ _ _ Hrun id). case_decide; lia.
  - assert (Hsp : spares (handleRefreshToolsTool visit m error_text show v now u)).
    { unfold handleRefreshToolsTool. apply spares_bind; [apply spares_tables | intros [l|e]].
      - apply spares_bind; [apply texts_spares; intros b; apply refresh_text_spares|].
        intros; by apply spares_quiet.
      - by apply spares_quiet. }
    specialize (Hsp s id). by rewrite Hrun in Hsp.
  - eapply closes_pending; [|exact Hrun]. unfold handleRefreshToolsTool.
    apply closes_then; [apply closes_tables | intros [l|e]; [|apply closes_ret]].
    apply closes_then; [apply texts_closes; intros b; apply refresh_text_closes | intros; apply closes_ret].
Qed.

(** The quotas cannot be shown: the handler asserts floats where the rate limiter
    puts integers, and panics at the first enabled backend it would report; it
    also panics when it is called without arguments. *)
Theorem quotas_panic percent bm u s args l b :
  (Backends.ListBackends (tables s)).1 = Ok l -> b ∈ l -> BackendRow.Enabled b = true ->
  field args "backend_id" = None \/ field args "backend_id" = Some (JStr (BackendRow.ID b)) ->
  (handleQuotasTool error_text percent (Some bm) (JObj args) u s).1 = inl Panic /\
  (handleQuotasTool error_text percent (Some bm) JNull u s).1 = inl Panic.
Proof.
  intros Hl Hb He Ha. split; [|done]. unfold handleQuotasTool, bind at 1, on_tables.
  destruct (ListBackends (tables s)) as [r d] eqn:Hr. cbn [fst] in Hl. subst r. unfold bind.
  match goal with |- context [texts ?step l ?s0] =>
    assert (Hp : forall s1, (texts step l s1).1 = inl Panic) end.
  { apply (texts_panic _ l b); [|done|].
    - intros b'. rewrite quota_text_panics. case_match; [apply panics_or | apply panics_quiet; eauto].
    - intros s1. rewrite He. rewrite quota_text_panics.
      destruct Ha as [-> | ->]; cbn [as_string default andb];
        [done | by rewrite (bool_decide_eq_true_2 (BackendRow.ID b = BackendRow.ID b)), orb_true_r]. }
  specialize (Hp (mk d (status s) (events s))).
  by destruct (texts _ l _) as [[r|t] s2]; cbn in Hp |- *; [injection Hp as ->|].
Qed.

(** The tool of the library and the legacy handler tell a user the same about the
    backends, unless he has configured some and no tools of them are cached: then
    one announces an empty list of integrations, the other that there are none. *)
Theorem capabilities_agree caps tokens l :
  capabilities_text (fun configured _ => is_nonempty configured) caps tokens l =
    capabilities_text (fun _ summary => is_nonempty summary) caps tokens l <->
  configuredBackends tokens l = [] \/
  exists b, b ∈ l /\ BackendRow.ID b ∈ tokens /\ is_Some (caps !! BackendRow.ID b).
Proof.
  unfold capabilities_text. set (summary := foldl _ _ _).
  assert (Hs : is_nonempty summary.1 = true <->
    exists b, b ∈ l /\ BackendRow.ID b ∈ tokens /\ is_Some (caps !! BackendRow.ID b)).
  { unfold summary. apply summarize_nonempty. }
  assert (Hc : is_nonempty (configuredBackends tokens l) = false <-> configuredBackends tokens l = []).
  { by destruct (configuredBackends tokens l). }
  rewrite <- Hs, <- Hc.
  assert (Hsc : is_nonempty (configuredBackends tokens l) = false -> is_nonempty summary.1 = false).
  { intros Hn%Hc. unfold summary. by rewrite configured_none. }
  destruct (is_nonempty (configuredBackends tokens l)) eqn:Ha, (is_nonempty summary.1) eqn:Hb.
  - split; [by right | done].
  - split; [|by intros [?|?]]. intros Heq%str_app_inj_l. by destruct (integrations_differ _ _ _ Heq).
  - by specialize (Hsc eq_refl).
  - split; [by left | done].
Qed.
End ToolTheorems.

(** ** Concrete answers *)

#[local] Existing Instances Toy.prims Toy.laws DemoAccounts.bcrypt DemoAccounts.provider demo_sha
  DemoBackends.mux_env.

Module DemoTools.
Definition error_text (e : error) : string := "database is locked".
Definition percent (used capacity : Z) : string := decimal_text (100 * used / capacity).
Definition format (t : Time) : string := decimal_text t.

Definition refresh_silent := handleRefreshToolsTool by_elements DemoLists.mux error_text DemoLists.show
  DemoLists.silent_view 5 "ann" DemoLists.state.

Definition failed : EnforcerStore.ApprovalRequestRow.t :=
  EnforcerStore.ApprovalRequestRow.with_status "FAILED" (EnforcerStore.demo_request "r1" 5).
Definition approvals : EnforcerStore.db :=
  EnforcerStore.set_approvals (fun _ => {["r1" := failed]}) EnforcerStore.empty_db.

Definition caps : gmap string BackendCapabilities.t :=
  {["github" := BackendCapabilities.mk "github" [] 3 0]}.
End DemoTools.
Import DemoTools.

Example demo_pong : handlePingTool "2025-01-01T00:00:00Z" = "pong 2025-01-01T00:00:00Z".
Proof. reflexivity. Qed.

Example demo_capability_line :
  capability_line caps ["github"] (DemoBackends.backend "github" "VARS") =
    "- github: configured (3 tools)".
Proof. vm_compute. reflexivity. Qed.

Example demo_refresh_silent : Bridge.events refresh_silent.2 =
  [Acquired "github"; RequestRegistered "github" "list-github-5"; RequestUnregistered "github" "list-github-5";
   PutBack "github"].
Proof. vm_compute. reflexivity. Qed.

(** The tools the library registers, one of which is not in the list the server
    recognizes them by. *)
Example quotas_not_listed :
  filter (fun name => negb (IsSystemTool name))
    (SystemToolDefinition.Name <$> (fst <$> registerSystemTools)) = ["mcpbridge_quotas"].
Proof. vm_compute. reflexivity. Qed.

Lemma demo_refreshed : exists t, refresh_silent = (inr t, refresh_silent.2).
Proof.
  assert (Hr : match refresh_silent.1 with inr _ => True | inl _ => False end) by (vm_compute; exact I).
  destruct refresh_silent as [[r|t] s']; [done | by exists t].
Qed.

Lemma refresh_tool_keeps_processes_witness :
  ListFacts.held "github" (Bridge.events refresh_silent.2) = 0 /\
  Killed "github" ∉ Bridge.events refresh_silent.2.
Proof.
  destruct demo_refreshed as [t Hr]. unfold refresh_silent at 1 in Hr. revert Hr.
  generalize refresh_silent.2. intros s' Hr.
  destruct (refresh_tool_keeps_processes by_elements DemoLists.mux error_text DemoLists.show
    DemoLists.silent_view 5 "ann" DemoLists.state t s' Hr) as (H1 & H2 & _).
  split; [exact (H1 "github") | intros Hk; exact (not_elem_of_nil _ (H2 _ Hk))].
Defined.

Lemma quotas_panic_witness :
  (handleQuotasTool error_text percent (Some RateLimit.BucketManager.NewBucketManager) (JObj []) "ann"
     DemoLists.state).1 = inl Panic.
Proof.
  assert (Hl : (ListBackends (Bridge.tables DemoLists.state)).1 = Ok [BackendRow.with_defaults EmptyString 1 EmptyString
    (DemoBackends.backend "github" "VARS")]) by (vm_compute; reflexivity).
  exact (proj1 (quotas_panic error_text percent RateLimit.BucketManager.NewBucketManager "ann"
    DemoLists.state [] _ _ Hl (list_elem_of_here _ _) eq_refl (or_introl eq_refl))).
Defined.

Lemma approval_status_discloses_witness :
  exists before, (handleApprovalStatusTool format (JObj [("approval_id", JStr "r1")]) (Some approvals)).1 =
    before +:+ "{body}".
Proof.
  exact (approval_status_discloses format [("approval_id", JStr "r1")] "r1" failed approvals
    eq_refl ltac:(discriminate) eq_refl (lookup_singleton_eq _ _)).
Defined.
