(* ===== verification/Server.v ===== *)
(** * The JSON-RPC servers: [src/mcpbridge.go], [jsonrpc.go], [http_handlers.go]

    Which handler a request gets to, what the handlers of [mcpbridge_routing.go]
    and [mcp_handlers.go] write for the decision on a call, and the exchange with
    the process a call is forwarded to: what is written, and what happens to the
    process and to the table of pending requests.

    A process is seen as in [ToolLists]: it is got or not, and answers, closes or
    stays silent. *)
From S2P Require Import Prelude Sql Crypto EnforcerTypes Heuristics Resolver CelEngine EnforcerStore Enforcer EnforcerCalls EnforcerAdmin Template Muxer Accounts Backends Gate Process BackendStatus ToolLists BridgeTools.
Open Scope Z_scope.

(** ** Responses *)

(** A body is encoded JSON, text as it is, or the bytes of a backend. *)
Inductive content :=
| Encoded (j : json)
| Plain (s : string)
| PassedOn (data : option json).

(** The headers are those set before the status is written; later ones are lost. *)
Record reply := Reply { code : Z; headers : list (string * string); written : content }.

(** Texts of the source with their double quotes as single ones. *)
Definition dq (s : string) : string :=
  str_map (fun c => if bool_decide (c = "'"%char) then "034"%char else c) s.

Definition json_type : string * string := ("Content-Type", "application/json").

(** [http.Error] *)
Definition http_error_after (hs : list (string * string)) (code : Z) (msg : string) : reply :=
  Reply code ([("Content-Type", "text/plain; charset=utf-8"); ("X-Content-Type-Options", "nosniff")] ++ hs)
    (Plain (msg +:+ newline)).
Definition http_error : Z -> string -> reply := http_error_after [].

(** [json.NewEncoder(w).Encode] after the content type. *)
Definition json_reply (code : Z) (headers : list (string * string)) (j : json) : reply :=
  Reply code (json_type :: headers) (Encoded j).

(** *** [jsonrpc.go] *)

Definition jsonRPCError (id : json) (code : Z) (msg : string) (data : option json) : fields :=
  [("jsonrpc", JStr "2.0");
   ("error", JObj ([("code", JNum code 0); ("message", JStr msg)] ++
                   match data with Some d => [("data", d)] | None => [] end))] ++
  match id with JNull => [] | _ => [("id", id)] end.

(** The objects the handlers encode themselves; a nil id is written as null. *)
Definition rpc_error (id : json) (code : Z) (msg : string) (data : option json) : json :=
  JObj [("jsonrpc", JStr "2.0"); ("id", id);
        ("error", JObj ([("code", JNum code 0); ("message", JStr msg)] ++
                        match data with Some d => [("data", d)] | None => [] end))].

Definition rpc_result (id : json) (result : fields) : json :=
  JObj [("jsonrpc", JStr "2.0"); ("id", id); ("result", JObj result)].

Definition text_content (s : string) : string * json :=
  ("content", JArr [JObj [("type", JStr "text"); ("text", JStr s)]]).

(** ** Messages *)

Module JSONRPCMessage.
Record t := mk { JSONRPC : string; Method : string; Params : json; ID : json }.
Definition zero : t := mk EmptyString EmptyString JNull JNull.
End JSONRPCMessage.

Definition decode_any (v cur : json) : res json := Ok v.

(** [json.Unmarshal] into the struct; [None]: not JSON. *)
Definition decode_message (v : option json) : res JSONRPCMessage.t :=
  match v with
  | None => Err (Errorf "invalid JSON")
  | Some JNull => Ok JSONRPCMessage.zero
  | Some (JObj f) =>
      match decode_field "jsonrpc" decode_string f EmptyString,
            decode_field "method" decode_string f EmptyString,
            decode_field "params" decode_any f JNull, decode_field "id" decode_any f JNull with
      | Ok j, Ok m, Ok p, Ok i => Ok (JSONRPCMessage.mk j m p i)
      | Err e, _, _, _ => Err e
      | _, Err e, _, _ => Err e
      | _, _, Err e, _ => Err e
      | _, _, _, Err e => Err e
      end
  | Some _ => Err type_error
  end.

(** [json.Marshal] of the struct: a nil member is left out. *)
Definition marshal_message (m : JSONRPCMessage.t) : json :=
  let optional key v := match v with JNull => [] | _ => [(key, v)] end in
  JObj ([("jsonrpc", JStr (JSONRPCMessage.JSONRPC m)); ("method", JStr (JSONRPCMessage.Method m))] ++
        optional "params" (JSONRPCMessage.Params m) ++ optional "id" (JSONRPCMessage.ID m)).

(** [%T] *)
Definition type_name (v : option json) : string :=
  match v with
  | None | Some JNull => "<nil>"
  | Some (JBool _) => "bool"
  | Some (JNum _ _) => "float64"
  | Some (JStr _) => "string"
  | Some (JArr _) => "[]interface {}"
  | Some (JObj _) => "map[string]interface {}"
  end.

(** ** The exchange with a process *)

(** What a handler does with the pool of a backend. *)
Inductive act :=
| Touched
| Taken
| Registered (id : string)
| Sent (m : option json)
| Unregistered (id : string)
| Released
| Destroyed.                         (* [proc.Kill()] *)

Section Exchange.
(** [%v] of a value that is neither nil nor a string; the clock in nanoseconds. *)
Context (sprint : json -> string) (nanos : Z).

(** [fmt.Sprintf("%v", id)] *)
Definition printed_id (id : json) : string :=
  match id with JNull => "<nil>" | JStr s => s | _ => sprint id end.

(** The key of the request and the body that is sent. *)
Definition identify (m : JSONRPCMessage.t) (b : option json) : string * option json :=
  let reqID := printed_id (JSONRPCMessage.ID m) in
  if bool_decide (reqID = EmptyString) || bool_decide (reqID = "<nil>") then
    let reqID := "auto-" +:+ decimal_text nanos in
    (reqID, Some (marshal_message
       (JSONRPCMessage.mk (JSONRPCMessage.JSONRPC m) (JSONRPCMessage.Method m)
          (JSONRPCMessage.Params m) (JStr reqID))))
  else (reqID, b).

Definition sent (reqID : string) (b : option json) : list act := [Registered reqID; Sent b].

(** The forwarding of a call, the same in both files.  [got]: a process of the
    pool is got; [name]: the backend as the handler knows it. *)
Definition forward_call (name : string) (hs : list (string * string)) (got : string + unit)
    (b : option json) (x : exchange) : reply * list act :=
  match got with
  | inl err =>
      (Reply 503 hs (Plain (dq "{'jsonrpc':'2.0','error':{'code':-32003,'message':'Backend " +:+ name +:+
                            dq " unavailable: " +:+ err +:+ dq "'}}")), [Touched])
  | inr _ =>
      match decode_message b with
      | Err _ => (http_error_after hs 400 "Invalid JSON-RPC", [Touched; Taken; Released])
      | Ok m =>
          let '(reqID, b) := identify m b in
          let acts := [Touched; Taken] ++ sent reqID b ++ [Unregistered reqID] in
          match x with
          | Replied data => (Reply 200 (json_type :: hs) (PassedOn data), acts ++ [Released])
          | NoData =>
              (Reply 503 hs (Plain (dq "{'jsonrpc':'2.0','error':{'code':-32004,'message':'Backend " +:+
                 name +:+ dq " process crashed during request, please retry'}}")), acts ++ [Destroyed])
          | TimedOut =>
              (Reply 504 hs (Plain (dq "{'jsonrpc':'2.0','error':{'code':-32000,'message':'Request timeout after 60s'}}")),
               acts ++ [Destroyed])
          end
      end
  end.

(** [handleDefaultBackend], the same in both files. *)
Definition forward_default (hs : list (string * string)) (got : string + unit) (b : option json)
    (x : exchange) : reply * list act :=
  match got with
  | inl _ => (Reply 503 hs (Plain "No warm processes available"), [Touched])
  | inr _ =>
      match decode_message b with
      | Err _ => (http_error_after hs 400 "Invalid JSON-RPC", [Touched; Taken; Released])
      | Ok m =>
          let '(reqID, b) := identify m b in
          let acts := [Touched; Taken] ++ sent reqID b ++ [Unregistered reqID] in
          match x with
          | Replied data => (Reply 200 (json_type :: hs) (PassedOn data), acts ++ [Released])
          | NoData =>
              (Reply 504 hs (Plain (dq "{'jsonrpc':'2.0','error':{'code':-32000,'message':'No response received'}}")),
               acts ++ [Released])
          | TimedOut =>
              (Reply 504 hs (Plain (dq "{'jsonrpc':'2.0','error':{'code':-32000,'message':'Request timeout after 60s'}}")),
               acts ++ [Destroyed])
          end
      end
  end.
End Exchange.

(** ** What the decision on a call is answered with *)

Section Answers.
Context {CL : CelLib} {EE : EnforcerEnv} {GE : GateEnv}.
Context {St : Type} {MS : MuxStore St} {ME : MuxEnv} {SH : Sha256}.
Context (error_text : error -> string) (sprint : json -> string).

(** [%v] of an argument. *)
Definition printed_value (v : option json) : string :=
  match v with Some v => printed_id sprint v | None => "<nil>" end.

(** [%q]: bytes of other characters than ASCII are left as they are. *)
Definition hex_digit (n : nat) : ascii := default "0"%char (String.get n "0123456789abcdef").

Definition quoted_byte (c : ascii) : string :=
  let n := nat_of_ascii c in
  match List.find (fun p => p.1 =? n)%nat
    [(7, "\a"); (8, "\b"); (9, "\t"); (10, "\n"); (11, "\v"); (12, "\f"); (13, "\r");
     (34, "\" +:+ dq "'"); (92, "\\")]%nat with
  | Some p => p.2
  | None => if (n <? 32)%nat || (n =? 127)%nat
            then "\x" +:+ String (hex_digit (n / 16)) (String (hex_digit (n mod 16)) EmptyString)
            else String c EmptyString
  end.

Fixpoint quoted_bytes (s : string) : string :=
  match s with EmptyString => EmptyString | String c s => quoted_byte c +:+ quoted_bytes s end.

Definition quoted (s : string) : string := dq "'" +:+ quoted_bytes s +:+ dq "'".

(** [writeJSONRPCError] *)
Definition writeJSONRPCError (id : json) (code : Z) (msg : string) (data : option json) : reply :=
  let resp := jsonRPCError id code msg data in
  Reply 200 [json_type; ("Content-Length", decimal_text (len (marshal_body (Some resp))))]
    (Encoded (JObj resp)).

(** The arguments as they are in the request. *)
Definition given_arguments (b : body) : option json :=
  match b with
  | Some f => match as_object (field f "params") with Some p => field p "arguments" | None => None end
  | None => None
  end.

Definition invalid_arguments (id : json) (tool : string) (given : option json) (err : error) : reply :=
  writeJSONRPCError id (-32602)
    ("Invalid tool arguments for " +:+ quoted tool +:+
     ": the 'arguments' field must be a JSON object, but got " +:+ type_name given +:+ ". " +:+ error_text err)
    (Some (JObj [("error", JStr "invalid_arguments_type"); ("tool", JStr tool);
                 ("got_type", JStr (type_name given)); ("raw_value", JStr (printed_value given))])).

Definition how_to_check : string :=
  "Use mcpbridge_approval_status with this approval_id to check status after approval".

(** The text of a queued call, and the status that is announced. *)
Definition approval_notice (tool queue approvalID : string) : string :=
  "⏳ Tool '" +:+ tool +:+ "' requires " +:+
  (if bool_decide (queue = "admin") then "admin approval." else "your approval.") +:+ newline +:+
  "Approval ID: " +:+ approvalID +:+ newline +:+ how_to_check.

Definition pending_status (queue : string) : string :=
  if bool_decide (queue = "admin") then "pending_approval" else "pending_user_approval".

Definition queued_reply (id : json) (hs : list (string * string)) (tool backendID queue approvalID : string) :
    reply :=
  json_reply 200 (("X-Enforcer-Status", pending_status queue) :: hs)
    (rpc_result id [text_content (approval_notice tool queue approvalID);
       ("approval_id", JStr approvalID); ("status", JStr (pending_status queue));
       ("tool", JStr tool); ("backend", JStr backendID); ("instructions", JStr how_to_check)]).

Definition or_one (id : json) : json := match id with JNull => JNum 1 0 | _ => id end.

(** *** [mcpbridge_routing.go]; [None]: the call goes on.  It never answers
    [MissingJustification]. *)
Definition gate_reply (id : json) (tool backendID : string) (given : option json) (r : Gate.response) :
    option reply :=
  match r with
  | InvalidArguments tool =>
      match ParseArgsMap given with
      | Err err => Some (invalid_arguments id tool given err)
      | Ok _ => None
      end
  | Denied msg policyID =>
      Some (json_reply 200 [] (rpc_error id (-32001) msg
              (Some (JObj [("policy_id", JStr policyID); ("action", JStr "denied")]))))
  | ApprovalFailed err =>
      Some (json_reply 500 [] (rpc_error id (-32002)
              ("Failed to create approval request: " +:+ error_text err) None))
  | Queued approvalID queue => Some (queued_reply (or_one id) [] tool backendID queue approvalID)
  | MissingJustification | Forwarded _ _ _ | Defaulted _ _ => None
  end.

Definition warning_header (warning : option string) : list (string * string) :=
  match warning with Some w => [("X-Enforcer-Warning", w)] | None => [] end.
End Answers.

(** ** The servers *)

Module Server.
Record t (KS E : Type) := mk { bridge : Bridge.t KS; enforcer : E }.
Arguments mk {KS E}. Arguments bridge {KS E}. Arguments enforcer {KS E}.
End Server.

(** What a request ends with: a response, with what was done to the pools of
    backends; a request of the user for the library; or a panic. *)
Inductive outcome :=
| Answered (r : reply) (pools : list (string * list act))
| ToLibrary (userID : string)
| Panicked.

(** The processes a call finds: whether one is got, and what it answers. *)
Record call_view := CallView { got : string -> string + unit; answers : string -> exchange }.

Section Servers.
Context {CL : CelLib} {EE : EnforcerEnv} {GE : GateEnv}.
Context {KS : Type} `{SecretBox KS} `{CryptoPrims} `{Bcrypt}.
Context {St : Type} {MS : MuxStore St} {ME : MuxEnv} {SH : Sha256}.
Context (error_text : error -> string) (sprint : json -> string) (nanos : Z).
Context (show : fields -> string) (stmt1 stmt2 : string -> bool).
Context (visit : nat -> gset string -> list string) (st : St) (m : ToolMuxer.t St).
Import Server.
Local Abbreviation server := (Server.t KS Enforcer.Enforcer.t).
Implicit Types s : server.

(** A body the handlers decode into a map. *)
Definition body_of (raw : option json) : body :=
  match raw with Some (JObj f) => Some f | _ => None end.

Definition raw_of (b : body) (raw : option json) : option json :=
  match b with Some f => Some (JObj f) | None => raw end.

Definition on_bridge (b : Bridge.t KS) s : server := mk b (enforcer s).
Definition on_enforcer e s : server := mk (bridge s) e.

(** *** [handleDefaultBackend] *)
Definition handleDefaultBackend (v : call_view) (hs : list (string * string)) (userID : string)
    (raw : option json) s : outcome :=
  let d := Bridge.tables (bridge s) in
  let id := defaultBackendID visit m d in
  match getPoolForUser visit m userID id d with
  | None => Panicked
  | Some _ =>
      let '(r, acts) := forward_default sprint nanos hs (got v id) raw (answers v id) in
      Answered r [(id, acts)]
  end.

(** *** [handleToolsCall] of [mcpbridge_routing.go] *)

(** The name and the backend the check is made with. *)
Definition checked_as (b : body) : string * string :=
  match extract b with
  | inl name => (name, EmptyString)
  | inr (name, _, _, _) => (name, backend_of visit name m)
  end.

Definition tools_call (env env' : call_env) (v : call_view) (userID : string) (raw : option json)
    (id : json) s : outcome * server :=
  let b := body_of raw in
  let '(tool, checked) := checked_as b in
  let '(r, e) := Gate.handleToolsCall env env' visit st m userID b (enforcer s) in
  let s := on_enforcer e s in
  match r with
  | Forwarded w b' target =>
      let '(r, acts) := forward_call sprint nanos checked (warning_header w) (got v target)
                          (raw_of b' raw) (answers v target) in
      (Answered r [(target, acts)], s)
  | Defaulted w b' => (handleDefaultBackend v (warning_header w) userID (raw_of b' raw) s, s)
  | r => (match gate_reply error_text sprint id tool checked (given_arguments b) r with
          | Some r => Answered r []
          | None => Panicked
          end, s)
  end.

(** *** [MCPBridgeServer.Handler] *)

(** The name of a call, if it is one of the bridge's tools. *)
Definition system_call (raw : option json) : bool :=
  match body_of raw with
  | Some f =>
      match as_object (field f "params") with
      | Some p => match as_string (field p "name") with
                  | Some name => IsSystemTool name
                  | None => false
                  end
      | None => false
      end
  | None => false
  end.

Definition tools_list_reply (id : json) (tools : list gomap) : reply :=
  json_reply 200 [] (rpc_result id [("tools", JArr (to_json <$> tools))]).

Definition tools_list (pv : pool_view) (v : call_view) (minJustification : option Z) (ok : bool)
    (now : Time) (userID : string) (raw : option json) (id : json) s : outcome * server :=
  let '(r, b) := handleToolsList visit m show stmt1 stmt2 pv minJustification ok now userID id (bridge s) in
  let s := on_bridge b s in
  match r with
  | inr (ToolsList id tools) => (Answered (tools_list_reply id tools) [], s)
  | inr DefaultBackend => (handleDefaultBackend v [] userID raw s, s)
  | inr ToolLists.Panic | inl _ => (Panicked, s)
  end.

Definition Handler (env env' : call_env) (pv : pool_view) (v : call_view) (minJustification : option Z)
    (ok : bool) (now : Time) (meth userID : string) (raw : option json) s : outcome * server :=
  if bool_decide (userID = EmptyString) then (Answered (http_error 401 "unauthorized") [], s)
  else if bool_decide (meth = "POST") then
    match decode_message raw with
    | Ok msg =>
        let id := JSONRPCMessage.ID msg in
        if bool_decide (JSONRPCMessage.Method msg = "tools/list")
        then tools_list pv v minJustification ok now userID raw id s
        else if bool_decide (JSONRPCMessage.Method msg = "tools/call") then
          if system_call raw then (ToLibrary userID, s)
          else tools_call env env' v userID raw id s
        else (ToLibrary userID, s)
    | Err _ => (ToLibrary userID, s)
    end
  else (ToLibrary userID, s).

(** *** [http_handlers.go] *)

Definition healthzHandler : reply := Reply 200 [] (Plain "OK").

Definition readyzHandler (pools : Z) : reply :=
  if 0 <? pools then Reply 200 [] (Plain "OK") else Reply 503 [] (Plain "No pools").

(** An enabled backend with an available pool; the outer [None]: a panic. *)
Fixpoint find_available (unavailable : string -> bool) (userID exclude : string) (d : Backends.t KS)
    (l : list BackendRow.t) : option (option string) :=
  match l with
  | [] => Some None
  | b :: l =>
      let id := BackendRow.ID b in
      if BackendRow.Enabled b && negb (bool_decide (id = exclude)) then
        match getPoolForUser visit m userID id d with
        | None => None
        | Some _ => if unavailable id then find_available unavailable userID exclude d l
                    else Some (Some id)
        end
      else find_available unavailable userID exclude d l
  end.

Definition findAvailableBackend (unavailable : string -> bool) (userID exclude : string)
    (d : Backends.t KS) : option (option string) :=
  match ListBackends d with
  | (Err _, _) => Some None
  | (Ok l, d) => find_available unavailable userID exclude d l
  end.

Definition handleInitialize (id : json) : reply :=
  json_reply 200 [] (rpc_result id
    [("protocolVersion", JStr "2024-11-05");
     ("capabilities", JObj [("tools", JObj [])]);
     ("serverInfo", JObj [("name", JStr "mcp-bridge"); ("version", JStr "1.0.0")])]).

(** Where a message of the legacy endpoint goes. *)
Inductive legacy_route :=
| Initialize | ListTools | CallTool | OtherMethod.

Definition method_route (method : string) : legacy_route :=
  if bool_decide (method = "initialize") then Initialize
  else if bool_decide (method = "tools/list") then ListTools
  else if bool_decide (method = "tools/call") then CallTool else OtherMethod.

(** [messagesHandler]: an answer, or the handler with the id. *)
Definition messagesHandler (userID : string) (raw : option json) :
    reply + (legacy_route * json) :=
  if bool_decide (userID = EmptyString) then inl (http_error 401 "unauthorized")
  else match decode_message raw with
       | Err _ => inl (http_error 400 "Invalid JSON-RPC")
       | Ok msg => inr (method_route (JSONRPCMessage.Method msg), JSONRPCMessage.ID msg)
       end.

(** [rootHandler]; [None]: the stream of events. *)
Definition rootHandler (meth userID : string) (raw : option json) :
    option (reply + (legacy_route * json)) :=
  if bool_decide (meth = "GET") then None
  else if bool_decide (meth = "POST") then Some (messagesHandler userID raw)
  else Some (inl (http_error 405 "Method not allowed")).
End Servers.

(** * Properties *)

(** How many processes are left in hand. *)
Definition balance (acts : list act) : Z :=
  foldr (fun a n => match a with Taken => 1 | Released | Destroyed => -1 | _ => 0 end + n) 0 acts.

(** The table of pending requests after an act, and after all of them. *)
Definition entered (X : gset string) (a : act) : gset string :=
  match a with
  | Registered id => {[ id ]} ∪ X
  | Unregistered id => X ∖ {[ id ]}
  | _ => X
  end.

Definition awaited (acts : list act) : gset string := foldl entered ∅ acts.

(** Nothing is left of the exchange: no process, and no request that was not
    unregistered after it was registered. *)
Definition settled (acts : list act) : Prop := balance acts = 0 /\ awaited acts = ∅.

Module ServerFacts.
Section Facts.
Context {CL : CelLib} {EE : EnforcerEnv} {GE : GateEnv}.
Context {KS : Type} `{SecretBox KS} `{CryptoPrims} `{Bcrypt}.
Context {St : Type} {MS : MuxStore St} {ME : MuxEnv} {SH : Sha256}.
Context (error_text : error -> string) (sprint : json -> string) (nanos : Z).
Context (visit : nat -> gset string -> list string) (st : St) (m : ToolMuxer.t St).
Import Server.
Implicit Types s : Server.t KS Enforcer.Enforcer.t.

Lemma settled_exchange reqID b last :
  last = Released \/ last = Destroyed ->
  settled (([Touched; Taken] ++ sent reqID b ++ [Unregistered reqID]) ++ [last]).
Proof.
  intros Hl. split; [by destruct Hl as [-> | ->]|].
  destruct Hl as [-> | ->]; unfold awaited, sent; cbn [app foldl entered]; set_solver.
Qed.

Lemma settled_unsent acts : acts = [Touched] \/ acts = [Touched; Taken; Released] -> settled acts.
Proof. by intros [-> | ->]. Qed.

Lemma forward_call_settled name hs g b x :
  settled (forward_call sprint nanos name hs g b x).2.
Proof.
  unfold forward_call. destruct g; [apply settled_unsent; by left|].
  destruct (decode_message b); [|apply settled_unsent; by right].
  destruct (identify _ _ _ _) as [reqID b']. destruct x; apply settled_exchange; auto.
Qed.

Lemma forward_default_settled hs g b x : settled (forward_default sprint nanos hs g b x).2.
Proof.
  unfold forward_default. destruct g; [apply settled_unsent; by left|].
  destruct (decode_message b); [|apply settled_unsent; by right].
  destruct (identify _ _ _ _) as [reqID b']. destruct x; apply settled_exchange; auto.
Qed.

(** The pools an outcome used are left as they were found. *)
Definition clean (o : outcome) : Prop :=
  match o with Answered _ pools => Forall (fun p => settled p.2) pools | _ => True end.

Lemma default_clean v hs u raw s :
  clean (handleDefaultBackend sprint nanos visit m v hs u raw s).
Proof.
  unfold handleDefaultBackend. destruct (getPoolForUser _ _ _ _ _); [|done].
  pose proof (forward_default_settled hs (got v (defaultBackendID visit m (Bridge.tables (bridge s)))) raw
    (answers v (defaultBackendID visit m (Bridge.tables (bridge s))))) as Hs.
  destruct (forward_default _ _ _ _ _ _). by apply Forall_singleton.
Qed.

Lemma call_clean env env' v u raw id s :
  clean (tools_call error_text sprint nanos visit st m env env' v u raw id s).1 /\
  bridge (tools_call error_text sprint nanos visit st m env env' v u raw id s).2 = bridge s.
Proof.
  unfold tools_call. destruct (checked_as _ _ _) as [tool checked].
  destruct (Gate.handleToolsCall _ _ _ _ _ _ _ _) as [r e].
  assert (Hg : forall given, clean match gate_reply error_text sprint id tool checked given r with
      | Some r => Answered r [] | None => Panicked end) by (intros; by case_match; [constructor|]).
  destruct r as [| | | | |w b' target|w b']; try (split; [apply (Hg (given_arguments (body_of raw))) | done]).
  - pose proof (forward_call_settled checked (warning_header w) (got v target) (raw_of b' raw)
      (answers v target)) as Hs.
    destruct (forward_call _ _ _ _ _ _ _) as [r acts]. split; [|done]. by apply Forall_singleton.
  - split; [apply default_clean | done].
Qed.

(** Names of the bridge pass the check without being looked at. *)
Lemma unlisted_unchecked env env' u b name p f e :
  b = Some f -> as_object (field f "params") = Some p -> as_string (field p "name") = Some name ->
  has_prefix name "mcpbridge_" = true ->
  (Gate.handleToolsCall env env' visit st m u b e).2 = e.
Proof.
  intros -> Hp Hn Hpre. unfold Gate.handleToolsCall, extract. rewrite Hp.
  destruct (ParseArgsMap _); [|done]. unfold text_field at 1. rewrite Hn.
  change (default EmptyString (Some name)) with name.
  unfold checked_call, enforced. rewrite Hpre. by rewrite andb_false_r.
Qed.
End Facts.
End ServerFacts.

Section ServerTheorems.
Context {CL : CelLib} {EE : EnforcerEnv} {GE : GateEnv}.
Context {KS : Type} `{SecretBox KS} `{CryptoPrims} `{Bcrypt}.
Context {St : Type} {MS : MuxStore St} {ME : MuxEnv} {SH : Sha256}.
Context (error_text : error -> string) (sprint : json -> string) (nanos : Z).
Context (show : fields -> string) (stmt1 stmt2 : string -> bool).
Context (visit : nat -> gset string -> list string) (st : St) (m : ToolMuxer.t St).
Import Server ServerFacts.
Implicit Types s : Server.t KS Enforcer.Enforcer.t.


(** A call with a name of the bridge that the server does not recognize, as
    mcpbridge_quotas, is neither served by the library nor put before the enforcer:
    it goes to a backend. *)
Theorem unrecognized_bridge_tool env env' pv v minJ ok now u raw f p name msg s o s' :
  u <> EmptyString -> raw = Some (JObj f) -> decode_message raw = Ok msg ->
  JSONRPCMessage.Method msg = "tools/call" ->
  as_object (field f "params") = Some p -> as_string (field p "name") = Some name ->
  has_prefix name "mcpbridge_" = true -> IsSystemTool name = false ->
  Handler error_text sprint nanos show stmt1 stmt2 visit st m env env' pv v minJ ok now "POST" u raw s = (o, s') ->
  (forall u', o <> ToLibrary u') /\ enforcer s' = enforcer s /\
  forall args, ParseArgsMap (field p "arguments") = Ok args ->
    o = Panicked \/ exists r backendID acts, o = Answered r [(backendID, acts)].
Proof.
  intros Hu -> Hm Hc Hp Hn Hpre Hsys. unfold Handler. rewrite bool_decide_eq_false_2 by done.
  rewrite bool_decide_eq_true_2 by done. rewrite Hm, Hc. cbn [bool_decide].
  rewrite bool_decide_eq_false_2 by done. rewrite bool_decide_eq_true_2 by done.
  unfold system_call, body_of. rewrite Hp, Hn, Hsys. unfold tools_call, body_of.
  destruct (checked_as _ _ _) as [tool checked].
  pose proof (unlisted_unchecked visit st m env env' u (Some f) name p f (enforcer s) eq_refl Hp Hn Hpre) as He.
  assert (Hr : forall args, ParseArgsMap (field p "arguments") = Ok args ->
    exists b w, (Gate.handleToolsCall env env' visit st m u (Some f) (enforcer s)).1 =
      forward visit u b m w).
  { intros args Ha. unfold Gate.handleToolsCall, extract. rewrite Hp, Ha. unfold text_field at 1.
    rewrite Hn. change (default EmptyString (Some name)) with name.
    unfold checked_call, enforced. rewrite Hpre, andb_false_r. eauto. }
  destruct (Gate.handleToolsCall _ _ _ _ _ _ _ _) as [r e]. cbn [fst snd] in He, Hr. subst e.
  assert (Hd : forall hs b s0, (forall u', handleDefaultBackend sprint nanos visit m v hs u b s0 <> ToLibrary u') /\
    (handleDefaultBackend sprint nanos visit m v hs u b s0 = Panicked \/
     exists r backendID acts, handleDefaultBackend sprint nanos visit m v hs u b s0 = Answered r [(backendID, acts)])).
  { intros hs b s0. unfold handleDefaultBackend. destruct (getPoolForUser _ _ _ _ _); [|by auto].
    destruct (forward_default _ _ _ _ _ _). split; [done|right; eauto]. }
  intros Hrun. assert (Hs : enforcer s' = enforcer s).
  { destruct r; try (injection Hrun as <- <-; done).
    destruct (forward_call _ _ _ _ _ _ _). by injection Hrun as <- <-. }
  split_and!; [| exact Hs |].
  - intros u'. assert (Hg : forall x : option reply,
      match x with Some r => Answered r [] | None => Panicked end <> ToLibrary u') by (by intros []).
    destruct r as [| | | | |w b' target|w b']; try (injection Hrun as <- <-; first [apply Hg | done]).
    + destruct (forward_call _ _ _ _ _ _ _). by injection Hrun as <- <-.
    + injection Hrun as <- <-. apply Hd.
  - intros args Ha. destruct (Hr args Ha) as (b & w & Hf). unfold forward in Hf.
    destruct (ToolMuxer.HandleToolsCall _ _ _ _) as [[[b' router] pool]|err]; subst r.
    + destruct (forward_call _ _ _ _ _ _ _) as [r acts]. injection Hrun as <- <-. right. eauto.
    + injection Hrun as <- <-. apply Hd.
Qed.

(** A name no prefix matches is checked as a tool of no backend, and what passes is
    executed by the default backend. *)
Theorem unrouted_call_runs_on_default env env' v u f tool args just b' raw id s tools err w e1 :
  raw = Some (JObj f) -> extract (Some f) = inr (tool, args, just, b') -> enforced tool = true ->
  decode_tools_call b' = Ok (tool, tools) ->
  ToolMuxer.FindBackendForTool visit tool m = Err err ->
  enforce env env' u tool args EmptyString just (marshal_body b') {| SkipJustification := false |}
    (enforcer s) = (Proceed w, e1) ->
  tools_call error_text sprint nanos visit st m env env' v u raw id s =
    (handleDefaultBackend sprint nanos visit m v (warning_header w) u (raw_of b' raw) s, on_enforcer e1 s).
Proof.
  intros -> He Hen Hdec Hfind Hproceed.
  assert (Hroute : ToolMuxer.HandleToolsCall visit u b' m = Err err).
  { unfold ToolMuxer.HandleToolsCall. rewrite Hdec.
    unfold enforced in Hen. apply andb_true_iff in Hen as [Hne%negb_true_iff _].
    by rewrite Hne, Hne, Hfind. }
  assert (Hb : backend_of visit tool m = EmptyString) by (unfold backend_of; by rewrite Hen, Hfind).
  unfold tools_call, checked_as, body_of, Gate.handleToolsCall. rewrite He, Hb.
  unfold checked_call. rewrite Hen, Hb. unfold skip_justification.
  rewrite bool_decide_eq_true_2 by done. rewrite Hproceed. unfold forward. by rewrite Hroute.
Qed.
End ServerTheorems.

(** ** Concrete requests *)

#[local] Existing Instances Toy.prims Toy.laws DemoAccounts.bcrypt DemoAccounts.provider demo_sha
  DemoBackends.mux_env demo_cel demo_world demo_gate db_profile_store.

Module DemoServer.
Definition texts (e : error) : string := "error".
Definition sprint (j : json) : string := "7".

Definition state : Server.t DemoAccounts.key_store Enforcer.Enforcer.t :=
  Server.mk DemoLists.state (enforcer_with CELEngine.NewCELEngine ∅ killed_db).

Definition reply_ok : exchange := Replied (Some (JObj [("id", JNum 7 0); ("result", JObj [])])).
Definition view : call_view := CallView (fun _ => inr tt) (fun _ => reply_ok).

Definition call_with (name : string) (arguments : fields) : fields :=
  [("method", JStr "tools/call"); ("id", JNum 7 0);
   ("params", JObj [("name", JStr name); ("arguments", JObj arguments)])].
Definition call (name : string) : fields := call_with name [].
Definition justified (name : string) : fields := call_with name [("justification", JStr why)].

Definition run (meth : string) (raw : option json) :=
  Handler texts sprint 1 DemoLists.show DemoLists.always DemoLists.always by_elements DemoBackends.tables
    DemoLists.mux plain_call plain_call DemoLists.view view None true 5 meth "ann" raw state.

Definition quotas := run "POST" (Some (JObj (call "mcpbridge_quotas"))).
Definition stuck := Handler texts sprint 1 DemoLists.show DemoLists.always DemoLists.always by_elements
  DemoBackends.tables DemoLists.mux plain_call plain_call DemoLists.view
  (CallView (fun _ => inr tt) (fun _ => TimedOut)) None true 5 "POST" "ann"
  (Some (JObj (justified "gh_post"))) state.

(** A second backend, so that a name without a prefix is nobody's. *)
Definition two : Backends.t DemoAccounts.key_store :=
  Backends.set_backends (<["jira" := DemoBackends.backend "jira" "VARS"]>) DemoBackends.tables.
Definition mux_two : ToolMuxer.t (Backends.t DemoAccounts.key_store) :=
  ToolMuxer.NewToolMuxerWithStore by_elements (Some two) ∅.
End DemoServer.
Import DemoServer.

Example demo_ping_to_library : (run "POST" (Some (JObj (call "mcpbridge_ping")))).1 = ToLibrary "ann".
Proof. vm_compute. reflexivity. Qed.

Example demo_unauthorized :
  (Handler texts sprint 1 DemoLists.show DemoLists.always DemoLists.always by_elements DemoBackends.tables
     DemoLists.mux plain_call plain_call DemoLists.view view None true 5 "GET" EmptyString None state).1 =
  Answered (http_error 401 "unauthorized") [].
Proof. reflexivity. Qed.

Example demo_quoted : quoted "a\b" = dq "'a\\b'".
Proof. vm_compute. reflexivity. Qed.

(** The quotas go to the first backend. *)
Lemma demo_quotas_backend :
  match quotas.1 with Answered _ [(id, acts)] => id = "github" /\ balance acts = 0 | _ => False end.
Proof. vm_compute. split; reflexivity. Qed.

Lemma demo_stuck : exists r acts, stuck = (Answered r [("github", acts)], stuck.2).
Proof.
  assert (Hs : match stuck.1 with Answered _ [(id, _)] => id = "github" | _ => False end)
    by (vm_compute; reflexivity).
  destruct stuck as [[r [|[id acts] [|]]| |] s']; try done. cbn in Hs. subst id. by exists r, acts.
Qed.


Lemma unrecognized_bridge_tool_witness :
  Server.enforcer quotas.2 = Server.enforcer state /\ (forall u, quotas.1 <> ToLibrary u).
Proof.
  assert (Hq : quotas = (quotas.1, quotas.2)) by by destruct quotas.
  unfold quotas at 1 in Hq. revert Hq. generalize quotas.1 quotas.2. intros o s' Hq.
  destruct (unrecognized_bridge_tool texts sprint 1 DemoLists.show DemoLists.always DemoLists.always
    by_elements DemoBackends.tables DemoLists.mux plain_call plain_call DemoLists.view view None true 5 "ann"
    (Some (JObj (call "mcpbridge_quotas"))) (call "mcpbridge_quotas")
    [("name", JStr "mcpbridge_quotas"); ("arguments", JObj [])] "mcpbridge_quotas"
    (JSONRPCMessage.mk EmptyString "tools/call"
       (JObj [("name", JStr "mcpbridge_quotas"); ("arguments", JObj [])]) (JNum 7 0)) state o s'
    ltac:(discriminate) eq_refl ltac:(vm_compute; reflexivity) eq_refl eq_refl eq_refl eq_refl
    ltac:(vm_compute; reflexivity) Hq) as (H1 & H2 & _).
  split; [exact H2 | exact H1].
Defined.

Lemma demo_free_extract :
  extract (Some (justified "purge")) = inr ("purge", [], why, Some (call "purge")).
Proof. vm_compute. reflexivity. Qed.

Lemma unrouted_call_runs_on_default_witness :
  exists w e1, tools_call texts sprint 1 by_elements two mux_two plain_call plain_call view
    "ann" (Some (JObj (justified "purge"))) (JNum 7 0) state =
  (handleDefaultBackend sprint 1 by_elements mux_two view (warning_header w) "ann"
     (Some (JObj (call "purge"))) state, on_enforcer e1 state).
Proof.
  assert (Hp : exists w e1, enforce plain_call plain_call "ann" "purge" [] EmptyString why
      (marshal_body (Some (call "purge"))) {| SkipJustification := false |} (Server.enforcer state) =
      (Proceed w, e1)).
  { assert (Hv : match (enforce plain_call plain_call "ann" "purge" [] EmptyString why
      (marshal_body (Some (call "purge"))) {| SkipJustification := false |} (Server.enforcer state)).1 with
      Proceed _ => True | _ => False end) by (vm_compute; exact I).
    destruct (enforce _ _ _ _ _ _ _ _ _ _) as [[w|r] e1]; [by exists w, e1 | done]. }
  destruct Hp as (w & e1 & Hp). exists w, e1.
  assert (Hf : exists err, ToolMuxer.FindBackendForTool by_elements "purge" mux_two = Err err).
  { assert (Hn : is_ok (ToolMuxer.FindBackendForTool by_elements "purge" mux_two) = false)
      by (vm_compute; reflexivity).
    destruct (ToolMuxer.FindBackendForTool _ _ _); [done | eauto]. }
  destruct Hf as [err Hf].
  exact (unrouted_call_runs_on_default texts sprint 1 by_elements two mux_two
    plain_call plain_call view "ann" (justified "purge") "purge" [] why (Some (call "purge"))
    (Some (JObj (justified "purge"))) (JNum 7 0) state [] err w e1 eq_refl demo_free_extract eq_refl eq_refl Hf Hp).
Defined.
