(* ===== verification/V2.v ===== *)
(** * The second endpoint: [src/v2handler.go]

    The endpoint that lists two tools per backend, one that expands the tools of
    the backend and one that calls them.  The dispatch of a message, the lists, the
    expansion, and the checks of a call before and after the enforcer's
    ([Gate.v2toolCall]), with the exchange with the process.

    Headers that only carry lengths are left out. *)
From S2P Require Import Prelude GoStrings Sql Crypto EnforcerTypes Heuristics Resolver CelEngine EnforcerStore Enforcer EnforcerCalls EnforcerAdmin Template Muxer Accounts Backends Gate Process BackendStatus ToolLists BridgeTools Server.
From S2P Require EnforcerWeb.
Open Scope Z_scope.
Open Scope handler_scope.

(** ** Validation of responses: the text of the error, if there is one *)

Module MCPSchemaValidator.
Definition ValidateInitializeResponse (resp : fields) : option string :=
  match as_object (field resp "result") with
  | None => Some "missing result"
  | Some result =>
      if bool_decide (as_string (field result "protocolVersion") = None) then Some "missing protocolVersion"
      else match as_object (field result "capabilities"), as_object (field result "serverInfo") with
           | None, _ => Some "missing capabilities"
           | _, None => Some "missing serverInfo"
           | _, _ => None
           end
  end.

Fixpoint invalid_tool (i : Z) (tools : list json) : option string :=
  match tools with
  | [] => None
  | JObj tool :: tools =>
      if bool_decide (as_string (field tool "name") = None)
      then Some ("tool " +:+ decimal_text i +:+ ": missing name")
      else invalid_tool (i + 1) tools
  | _ :: _ => Some ("tool " +:+ decimal_text i +:+ ": not a map")
  end.

Definition ValidateToolsListResponse (resp : fields) : option string :=
  match as_object (field resp "result") with
  | None => Some "missing result"
  | Some result => invalid_tool 0 (as_array (field result "tools"))
  end.

(** An empty array is an error, no array is not. *)
Definition ValidateToolsCallResponse (resp : fields) : option string :=
  match as_object (field resp "result") with
  | None => Some "missing result"
  | Some result => match field result "tools" with
                   | Some (JArr []) => Some "empty tools array"
                   | _ => None
                   end
  end.
End MCPSchemaValidator.

(** ** Where a call goes *)

Definition client_prefix : string := "MCP_Bridge_v2_".

Inductive target :=
| ExpandNamespace (params : gomap)
| CallTool (params : gomap)
| RefusedParams (namespace tool : string) (given : option json)
| UnknownMethod (tool : string).

(** Name and arguments of a call; [None]: the type of the parameters is wrong. *)
Definition call_params (params : json) : option (string * gomap) :=
  match params with
  | JObj p =>
      let name := default EmptyString (as_string (field p "name")) in
      Some (name,
            match as_object (field p "arguments") with
            | Some args => Some args
            | None => if bool_decide (name = EmptyString) then None else Some (delete_field p "name")
            end)
  | _ => None
  end.

Section Dispatch.
Context {GE : GateEnv}.

(** The tool a backend is called through takes its arguments apart. *)
Definition namespace_call (namespace : string) (args : gomap) : target :=
  let tool := default EmptyString (as_string (go_field args "tool")) in
  let justification := default EmptyString (as_string (go_field args "justification")) in
  match ParseArgsMap (go_field args "params") with
  | Err _ => RefusedParams namespace tool (go_field args "params")
  | Ok parsed =>
      CallTool (Some ([("namespace", JStr namespace); ("tool", JStr tool); ("params", JObj parsed)] ++
                      if bool_decide (justification = EmptyString) then []
                      else [("justification", JStr justification)]))
  end.

Definition dispatch (name : string) (args : gomap) : target :=
  let toolName := trim_prefix name client_prefix in
  if bool_decide (toolName = "namespace_expand") ||
     bool_decide (toolName = client_prefix +:+ "namespace_expand") then ExpandNamespace args
  else if bool_decide (toolName = "tool_call") ||
          bool_decide (toolName = client_prefix +:+ "tool_call") then CallTool args
  else if has_suffix toolName "_expand" then
    ExpandNamespace (Some [("namespace", JStr (trim_suffix toolName "_expand"))])
  else if has_suffix toolName "_call" then namespace_call (trim_suffix toolName "_call") args
  else UnknownMethod toolName.
End Dispatch.

(** ** Answers that need no backend *)

Definition closing : string * string := ("Connection", "close").

Definition method_not_found (id : json) (which : string) : reply :=
  json_reply 200 [] (rpc_error id (-32601) ("Method not found" +:+ which) None).

(** [userID[:8]] panics for shorter ones; the session is only sent to the client. *)
Definition v2Initialize (nanos : Z) (userID : string) (id : json) : option reply :=
  if (String.length userID <? 8)%nat then None
  else Some (Reply 200 [("MCP-Session-Id", "session-" +:+ decimal_text nanos +:+ "-" +:+ str_take 8 userID);
                        json_type]
    (Encoded (rpc_result id
       [("protocolVersion", JStr "2024-11-05");
        ("capabilities", JObj [("tools", JObj [("listChanged", JBool true)])]);
        ("serverInfo", JObj [("name", JStr "mcp-bridge-v2"); ("version", JStr "2.0.0")])]))).

Definition get_refused : reply :=
  Reply 405 [json_type; ("Accept", "application/json"); ("X-Content-Type-Options", "nosniff")]
    (Encoded (rpc_error JNull (-32000) "GET not supported for v2 endpoint - use POST for tool calls" None)).

(** ** The list *)

(** The first letter of each part in upper case; of ASCII. *)
Definition capitalized (id : string) : string :=
  joined_by "_" (map (fun part => match part with
                                  | EmptyString => EmptyString
                                  | String c rest => String (ascii_upper c) rest
                                  end) (split_on "_" id)).

Definition described (type description : string) : json :=
  JObj [("type", JStr type); ("description", JStr description)].

Definition object_schema (properties : fields) (required : option (list string)) : json :=
  JObj ([("type", JStr "object"); ("properties", JObj properties)] ++
        match required with Some l => [("required", JArr (map JStr l))] | None => [] end).

Definition tool_descriptor (name description : string) (schema : json) : gomap :=
  Some [("name", JStr name); ("description", JStr description); ("inputSchema", schema)].

Definition generic_tools : list gomap := [
  tool_descriptor "namespace_expand"
    (dq "Returns the full list of available tools in a given namespace. Call this with {'namespace': '<backend_id>'} to discover available tools in that namespace. You MUST call this before calling tool_call for a backend you haven" +:+ "'" +:+ "t used yet.")
    (object_schema [("namespace", described "string"
       "The backend namespace to expand (e.g., default, qdrant, github)")] (Some ["namespace"]));
  tool_descriptor "tool_call"
    "Executes a named tool in a given namespace. See namespace_expand for available tools in each namespace."
    (object_schema [("namespace", described "string" "Backend namespace");
                    ("tool", described "string" "Tool name to execute");
                    ("params", described "object" "Tool parameters");
                    ("justification", described "string" "Reason for the tool call")]
       (Some ["namespace"; "tool"]))].

Definition expand_tool (id : string) : gomap :=
  tool_descriptor (id +:+ "_expand")
    ("Returns the full list of available tools in the " +:+ capitalized id +:+
     " namespace, including parameter names, types, and descriptions. You MUST call this tool before calling MCP_Bridge_" +:+
     id +:+ "_call. Do not attempt to guess tool names — call this first.")
    (object_schema [] None).

Definition call_tool (minLen : Z) (b : BackendRow.t) : gomap :=
  let id := BackendRow.ID b in
  let suffix := if BackendRow.SkipJustification b then " No justification required."
                else " Justification required (minimum " +:+ decimal_text minLen +:+ " characters)." in
  tool_descriptor (id +:+ "_call")
    ("Executes a named tool in the " +:+ capitalized id +:+
     " namespace. The value of `tool` must exactly match a tool name returned by MCP_Bridge_" +:+ id +:+
     "_expand. If you have not called MCP_Bridge_" +:+ id +:+
     "_expand in this session, do so before calling this tool. Do not guess tool names." +:+ suffix +:+
     " Some tools may require your approval - check expand output before calling.")
    (object_schema
       [("tool", described "string" ("Exact tool name as returned by MCP_Bridge_" +:+ id +:+
           "_expand. Do not infer or guess this value — call MCP_Bridge_" +:+ id +:+
           "_expand first if you have not already done so."));
        ("params", described "object" "Tool parameters");
        ("justification", JObj [("type", JStr "string");
           ("description", JStr ("Reason for this tool call (minimum " +:+ decimal_text minLen +:+ " characters)"));
           ("minLength", JNum minLen 0)])]
       (Some (if BackendRow.SkipJustification b then ["tool"] else ["tool"; "justification"]))).

Definition namespace_tools (minLen : Z) (l : list BackendRow.t) : list gomap :=
  mbind (fun b => if BackendRow.Enabled b
                  then [expand_tool (BackendRow.ID b); call_tool minLen b] else []) l.

Section V2.
Context {CL : CelLib} {EE : EnforcerEnv} {GE : GateEnv}.
Context {KS : Type} `{SecretBox KS} `{CryptoPrims} `{Bcrypt}.
Context {St : Type} {MS : MuxStore St} {ME : MuxEnv} {SH : Sha256}.
Context (error_text : error -> string) (sprint : json -> string) (nanos : Z).
Context (show : fields -> string).
Context (visit : nat -> gset string -> list string) (m : ToolMuxer.t St).
Import Server.
Local Abbreviation server := (Server.t KS Enforcer.Enforcer.t).
Local Abbreviation Handler := (M (Bridge.t KS) answer).
Implicit Types s : server.

(** [minJustification]: of the enforcer; [None]: no enforcer. *)
Definition v2toolsList (minJustification : option Z) (id : json) (d : Backends.t KS) :
    reply * Backends.t KS :=
  match ListBackends d with
  | (Err _, d) => (http_error 500 "Internal Server Error", d)
  | (Ok l, d) =>
      (json_reply 200 [] (rpc_result id
         [("tools", JArr (to_json <$> generic_tools ++ namespace_tools (default 40 minJustification) l))]), d)
  end.

(** *** [v2namespaceExpand] *)

(** The description up to the first full stop or line break, unless it begins with
    one. *)
Fixpoint sentence_end (s : string) : option nat :=
  match s with
  | EmptyString => None
  | String c s => if bool_decide (c = "."%char) || bool_decide (c = "010"%char) then Some 0%nat
                  else S <$> sentence_end s
  end.

Definition first_sentence (s : string) : string :=
  match sentence_end s with Some (S n) => str_take (S (S n)) s | _ => s end.

Definition param_text (props : fields) (req : json) : string :=
  let key := default EmptyString (as_string (Some req)) in
  key +:+
  match as_object (field props key) with
  | Some prop =>
      match field prop "enum" with
      | Some (JArr values) =>
          " (one of: " +:+ joined_by "|" (map (fun v => printed_id sprint v) values) +:+ ")"
      | _ => match as_string (field prop "type") with
             | Some t => " (" +:+ t +:+ ")"
             | None => EmptyString
             end
      end
  | None => EmptyString
  end.

(** [schema]: the one of the tool, where it is a map. *)
Definition tool_text (schema : option fields) (tool : gomap) : string :=
  let name := default EmptyString (as_string (go_field tool "name")) in
  let desc := default EmptyString (as_string (go_field tool "description")) in
  lines ["- " +:+ name +:+ ": " +:+ first_sentence desc] +:+
  match schema with
  | Some schema =>
      match as_array (field schema "required"), as_object (field schema "properties") with
      | (_ :: _) as required, Some props =>
          lines ["  Required params: " +:+ joined_by ", " (map (param_text props) required)]
      | _, _ => EmptyString
      end
  | None => EmptyString
  end.

Definition expansion_text (namespace : string) (schema_of : gomap -> option fields)
    (tools : list gomap) : string :=
  lines ["Available tools in namespace '" +:+ namespace +:+ "' (" +:+
           decimal_text (Z.of_nat (length tools)) +:+ " tools):"; EmptyString;
         "⚠ Some tools may require your approval before execution. If a call is intercepted, use mcpbridge_approval_status with the returned approval_id to poll for the result.";
         EmptyString] +:+
  foldr (fun t rest => tool_text (schema_of t) t +:+ rest) EmptyString tools.

(** The raw tools are sent along. *)
Definition expansion_reply (id : json) (namespace : string) (schema_of : gomap -> option fields)
    (tools : list gomap) : reply :=
  Reply 200 [json_type; closing]
    (Encoded (rpc_result id [text_content (expansion_text namespace schema_of tools);
                             ("tools", JArr (to_json <$> tools))])).

Definition decoded_schema (tool : gomap) : option fields := as_object (go_field tool "inputSchema").

(** What the answer of a backend amounts to: its tools, or the text of an error. *)
Definition expansion_of (backendID : string) (x : exchange) : string + list gomap :=
  match x with
  | TimedOut => inl ("timeout waiting for tools/list from backend " +:+ backendID)
  | NoData => inl ("empty or invalid response from backend " +:+ backendID)
  | Replied data =>
      match decode_tools_list data with
      | Err e => inl ("JSON unmarshal error from backend " +:+ backendID +:+ ": " +:+ error_text e)
      | Ok (_, Some err) => inl ("tools/list error from backend " +:+ backendID +:+ ": " +:+ show err)
      | Ok (tools, None) => inr tools
      end
  end.

(** A process that does not answer is killed and put back; the request is unregistered
    first in both branches of the [select]. *)
Definition v2namespaceExpand (v : pool_view) (userID : string) (params : gomap) (id : json) :
    Handler reply :=
  let failed msg := json_reply 200 [] (rpc_error id (-32003) msg None) in
  match as_string (go_field params "namespace") with
  | None => ret (http_error 400 "Missing or invalid 'namespace' parameter")
  | Some namespace =>
      if bool_decide (namespace = EmptyString)
      then ret (http_error 400 "Missing or invalid 'namespace' parameter")
      else if bool_decide (namespace = "mcpbridge")
      then ret (expansion_reply id namespace (fun _ => None) SystemToolsAsMap)
      else
        backend <-- on_tables (GetBackend namespace) ;;
        match backend with
        | Err _ => ret (http_error 404 ("Backend " +:+ namespace +:+ " not found"))
        | Ok b =>
            let bid := BackendRow.ID b in
            if negb (BackendRow.Enabled b)
            then ret (http_error 503 ("Backend " +:+ namespace +:+ " is disabled"))
            else
              touch_pool visit m userID bid ;;;
              match warm v bid with
              | inl err => ret (failed err)
              | inr _ =>
                  note (Acquired bid) ;;; note (RequestRegistered bid (list_id bid nanos)) ;;;
                  note (RequestUnregistered bid (list_id bid nanos)) ;;;
                  when (match ToolLists.reply v bid with TimedOut => true | _ => false end) (note (Killed bid)) ;;;
                  note (PutBack bid) ;;;
                  ret (match expansion_of bid (ToolLists.reply v bid) with
                       | inl err => failed err
                       | inr tools => expansion_reply id namespace decoded_schema tools
                       end)
              end
        end
  end.

(** *** [v2toolCall] *)

Definition missing_parameter (key : string) : reply :=
  http_error 400 ("Missing or invalid '" +:+ key +:+ "' parameter").

Definition invalid_parameters (id : json) (namespace tool : string) (given : option json) (err : error) :
    reply :=
  writeJSONRPCError id (-32602)
    ("Invalid tool parameters for " +:+ quoted tool +:+ " in namespace " +:+ quoted namespace +:+
     ": the 'params' field must be a JSON object, but got " +:+ type_name given +:+ ". " +:+ error_text err)
    (Some (JObj [("error", JStr "invalid_params_type"); ("namespace", JStr namespace); ("tool", JStr tool);
                 ("got_type", JStr (type_name given));
                 ("hint", JStr "Call <backend>_expand first to discover the correct parameter schema")])).

(** A tool in the answer to a call of an unknown one; [order]: a map is read in. *)
Definition available_tool (order : list string -> list string) (tool : gomap) : option json :=
  match go_field tool "name", go_field tool "description" with
  | None, _ | Some JNull, _ | _, None | _, Some JNull => None
  | Some name, Some desc =>
      let schema := default [] (as_object (go_field tool "inputSchema")) in
      let props := default [] (as_object (field schema "properties")) in
      let required := omap (fun r => as_string (Some r)) (as_array (field schema "required")) in
      let optional := filter (fun key => key ∉ required) (order (fst <$> props)) in
      Some (JObj [("name", JStr (default EmptyString (as_string (Some name))));
                  ("description", JStr (default EmptyString (as_string (Some desc))));
                  ("required_params", JArr (JStr <$> required));
                  ("optional_params", JArr (JStr <$> optional))])
  end.

Definition unknown_tool (order : list string -> list string) (id : json) (namespace tool : string)
    (tools : list gomap) : reply :=
  json_reply 200 [] (rpc_error id (-32002)
    ("Unknown tool '" +:+ tool +:+ "' in namespace '" +:+ namespace +:+ "'. Call MCP_Bridge_" +:+ namespace +:+
     "_expand to discover available tools. The current tool list is provided in 'data'.")
    (Some (JObj [("error", JStr "unknown_tool"); ("provided", JStr tool); ("namespace", JStr namespace);
                 ("available_tools", JArr (omap (available_tool order) tools))]))).

Definition initializing (id : json) (namespace : string) : reply :=
  json_reply 200 [] (rpc_error id (-32003)
    ("Backend '" +:+ namespace +:+
     "' is still initializing. Self-reporting scan in progress. Please retry shortly.") None).

Definition lists_tool (tool : string) (tools : list gomap) : bool :=
  existsb (fun t => bool_decide (as_string (go_field t "name") = Some tool)) tools.

(** *** The exchange: the id of the client comes back in place of the bridge's. *)
Definition rewrite_id (id : json) (data : option json) : option (option json) :=
  match data with
  | Some (JObj f) => Some (Some (JObj (set_field f "id" id)))
  | Some JNull => None                            (* a nil map is written *)
  | _ => Some data
  end.

(** After the enforcer; the outer [None]: a panic. *)
Definition forward_v2 (hs : list (string * string)) (pool : bool) (g : string + unit) (id : json)
    (request : body) (reqID : string) (x : exchange) : option (reply * list act) :=
  if negb pool then Some (http_error_after hs 500 "Failed to create pool for backend", [])
  else
    match g with
    | inl err => Some (json_reply 503 (closing :: hs) (rpc_error id (-32003) err None), [Touched])
    | inr _ =>
        let acts := [Touched; Taken] ++ sent reqID (raw_of request None) ++ [Unregistered reqID] in
        match x with
        | Replied data =>
            match rewrite_id id data with
            | Some data => Some (Reply 200 (json_type :: closing :: hs) (PassedOn data), acts ++ [Released])
            | None => None
            end
        | NoData => Some (http_error_after hs 500 "Empty response from backend", acts ++ [Released])
        | TimedOut => Some (http_error_after hs 504 "Timeout waiting for backend", acts ++ [Destroyed; Released])
        end
    end.

(** What the decision of the enforcer is answered with. *)
Definition v2_reply (id : json) (tool namespace : string) (r : Gate.response) : option reply :=
  match r with
  | MissingJustification => Some (missing_parameter "justification")
  | Denied msg _ => Some (json_reply 200 [closing] (rpc_error id (-32001) msg None))
  | ApprovalFailed _ => Some (http_error 500 "Failed to create approval request")
  | Queued approvalID queue => Some (queued_reply id [closing] tool namespace queue approvalID)
  | InvalidArguments _ | Forwarded _ _ _ | Defaulted _ _ => None
  end.

(** The checks of the arguments and of the backend; a stop is an answer. *)
Definition call_subject (order : list string -> list string) (params : gomap) (id : json) s :
    (reply + (string * string * fields * BackendRow.t)) * server :=
  let tables d s := on_bridge (Bridge.mk d (Bridge.status (bridge s)) (Bridge.events (bridge s))) s in
  match as_string (go_field params "namespace"), as_string (go_field params "tool") with
  | None, _ => (inl (missing_parameter "namespace"), s)
  | Some namespace, tool =>
      if bool_decide (namespace = EmptyString) then (inl (missing_parameter "namespace"), s)
      else
        match tool with
        | None => (inl (missing_parameter "tool"), s)
        | Some tool =>
            if bool_decide (tool = EmptyString) then (inl (missing_parameter "tool"), s)
            else
              match ParseArgsMap (go_field params "params") with
              | Err err => (inl (invalid_parameters id namespace tool (go_field params "params") err), s)
              | Ok toolParams =>
                  let '(backend, d) := GetBackend namespace (Bridge.tables (bridge s)) in
                  let s := tables d s in
                  let not_found := http_error 404 ("Backend " +:+ namespace +:+ " not found or disabled") in
                  match backend with
                  | Err _ => (inl not_found, s)
                  | Ok b =>
                      if negb (BackendRow.Enabled b) then (inl not_found, s)
                      else
                        let '(ready, s) :=
                          if BackendRow.SelfReporting b then
                            let '(profiles, e) := Enforcer.Enforcer.on_store
                              (EnforcerWeb.GetToolProfilesByBackend namespace) (enforcer s) in
                            (match profiles with Ok (_ :: _) => true | _ => false end, on_enforcer e s)
                          else (true, s) in
                        if negb ready then (inl (initializing id namespace), s)
                        else
                          let '(caps, d) := GetBackendCapabilities namespace (Bridge.tables (bridge s)) in
                          let s := tables d s in
                          let known := match caps with Ok c => cached_tools c | Err _ => [] end in
                          match known with
                          | _ :: _ =>
                              if lists_tool tool known
                              then (inr (namespace, tool, toolParams, b), s)
                              else (inl (unknown_tool order id namespace tool known), s)
                          | [] => (inr (namespace, tool, toolParams, b), s)
                          end
                  end
              end
        end
  end.

(** The whole call. *)
Definition v2toolCall (env env' : call_env) (order : list string -> list string) (v : call_view)
    (userID : string) (params : gomap) (id : json) s : outcome * server :=
  match call_subject order params id s with
  | (inl r, s) => (Answered r [], s)
  | (inr (namespace, tool, toolParams, b), s) =>
      let reqID := "v2-" +:+ decimal_text nanos in
      let '(r, e) := Gate.v2toolCall env env' userID namespace tool (routed b)
                       (default [] params) toolParams id (JStr reqID) (enforcer s) in
      let s := on_enforcer e s in
      match r with
      | Forwarded w request target =>
          let pool := bool_decide (is_Some (getPoolForUser visit m userID target (Bridge.tables (bridge s)))) in
          (match forward_v2 (warning_header w) pool (got v target) id request reqID (answers v target) with
           | Some (r, acts) => Answered r [(target, acts)]
           | None => Panicked
           end, s)
      | r => (match v2_reply id tool namespace r with
              | Some r => Answered r []
              | None => Panicked
              end, s)
      end
  end.

(** *** [v2Handle] and [v2HandleWrapper] *)

Definition refused_params (id : json) (namespace tool : string) (given : option json) : reply :=
  writeJSONRPCError id (-32602)
    ("Invalid 'params' argument for tool " +:+ quoted tool +:+ " in namespace " +:+ quoted namespace +:+
     ". The 'params' field must be a JSON object (e.g. " +:+ dq "{'key': 'value'}" +:+ "), but got " +:+
     type_name given +:+
     ". Hint: Do not JSON-encode the params value — pass it as a raw object.")
    (Some (JObj [("error", JStr "invalid_params_type"); ("namespace", JStr namespace); ("tool", JStr tool);
                 ("got_type", JStr (type_name given)); ("raw_value", JStr (printed_value sprint given));
                 ("hint", JStr "The 'params' field must be a JSON object, not a string or other type")])).

Definition v2Handle (env env' : call_env) (order : list string -> list string) (pv : pool_view)
    (v : call_view) (minJustification : option Z) (userID : string) (raw : option json) s :
    outcome * server :=
  match decode_message raw with
  | Err _ => (Answered (http_error 400 "Invalid JSON-RPC request") [], s)
  | Ok msg =>
      let id := JSONRPCMessage.ID msg in
      let method := JSONRPCMessage.Method msg in
      if bool_decide (method = "initialize") then
        (match v2Initialize nanos userID id with Some r => Answered r [] | None => Panicked end, s)
      else if bool_decide (method = "tools/list") then
        let '(r, d) := v2toolsList minJustification id (Bridge.tables (bridge s)) in
        (Answered r [], on_bridge (Bridge.mk d (Bridge.status (bridge s)) (Bridge.events (bridge s))) s)
      else if bool_decide (method = "tools/call") then
        match call_params (JSONRPCMessage.Params msg) with
        | None => (Answered (http_error 400 ("Invalid params type in tools/call: " +:+
                     type_name (Some (JSONRPCMessage.Params msg)))) [], s)
        | Some (name, args) =>
            match dispatch name args with
            | ExpandNamespace params =>
                let '(r, b) := v2namespaceExpand pv userID params id (bridge s) in
                (match r with inr r => Answered r [] | inl _ => Panicked end, on_bridge b s)
            | CallTool params => v2toolCall env env' order v userID params id s
            | RefusedParams namespace tool given => (Answered (refused_params id namespace tool given) [], s)
            | UnknownMethod tool => (Answered (method_not_found id (": " +:+ tool)) [], s)
            end
        end
      else (Answered (method_not_found id EmptyString) [], s)
  end.

Definition v2HandleWrapper (env env' : call_env) (order : list string -> list string) (pv : pool_view)
    (v : call_view) (minJustification : option Z) (meth userID : string) (raw : option json) s :
    outcome * server :=
  if bool_decide (userID = EmptyString) then (Answered (http_error 401 "unauthorized") [], s)
  else if bool_decide (meth = "GET") then (Answered get_refused [], s)
  else v2Handle env env' order pv v minJustification userID raw s.
End V2.

(** * Properties *)

(** ** The names that are listed *)

Lemma trim_suffix_app s p : trim_suffix (s +:+ p) p = s.
Proof.
  unfold trim_suffix. rewrite has_suffix_app, str_length_app.
  replace (String.length s + String.length p - String.length p)%nat with (String.length s) by lia.
  apply str_take_app.
Qed.

Lemma other_ending s p r q1 q2 :
  String.length p = String.length q2 -> p <> q2 -> s +:+ p <> r +:+ (q1 +:+ q2).
Proof.
  intros Hl Hne Heq. rewrite str_app_assoc in Heq. apply Hne.
  refine (proj2 (str_app_eq_length s (r +:+ q1) p q2 _ Heq)).
  apply (f_equal String.length) in Heq. rewrite !str_length_app in Heq. rewrite str_length_app. lia.
Qed.

(** Neither tool of a namespace has the ending of the other. *)
Lemma call_not_expand s r : s +:+ "_call" <> r +:+ "_expand".
Proof. by apply (other_ending s "_call" r "_e" "xpand"). Qed.

(** A name that loses the prefix of the client is not taken apart into [id]. *)
Lemma stripped_other id t suffix :
  id +:+ suffix = client_prefix +:+ t -> has_suffix t suffix = true -> trim_suffix t suffix <> id.
Proof.
  intros Hn [r ->]%has_suffix_spec. rewrite trim_suffix_app. intros ->.
  apply (f_equal String.length) in Hn. rewrite !str_length_app in Hn. cbn in Hn. lia.
Qed.

Lemma unprefixed_name name s :
  has_prefix name client_prefix = false ->
  trim_prefix name client_prefix = name /\ bool_decide (name = client_prefix +:+ s) = false.
Proof.
  intros Hp. split; [unfold trim_prefix; by rewrite Hp|]. apply bool_decide_eq_false. intros ->.
  by rewrite has_prefix_app in Hp.
Qed.

Section Names.
Context {GE : GateEnv}.

Lemma dispatch_expand id args :
  has_prefix (id +:+ "_expand") client_prefix = false ->
  dispatch (id +:+ "_expand") args =
    if bool_decide (id = "namespace") then ExpandNamespace args
    else ExpandNamespace (Some [("namespace", JStr id)]).
Proof.
  intros Hp. unfold dispatch. destruct (unprefixed_name _ "namespace_expand" Hp) as [-> ->].
  rewrite orb_false_r. destruct (decide (id = "namespace")) as [->|Hne]; [done|].
  rewrite (bool_decide_eq_false_2 (id = "namespace")) by done.
  rewrite bool_decide_eq_false_2
    by (intros Heq; by apply Hne, (str_app_inj_r id "namespace" "_expand")).
  destruct (unprefixed_name _ "tool_call" Hp) as [_ ->].
  rewrite bool_decide_eq_false_2 by (intros Heq; by apply (call_not_expand "tool" id)).
  cbn [orb]. by rewrite has_suffix_app, trim_suffix_app.
Qed.

Lemma dispatch_call id args :
  has_prefix (id +:+ "_call") client_prefix = false ->
  dispatch (id +:+ "_call") args =
    if bool_decide (id = "tool") then CallTool args else namespace_call id args.
Proof.
  intros Hp. unfold dispatch. destruct (unprefixed_name _ "namespace_expand" Hp) as [-> ->].
  rewrite bool_decide_eq_false_2 by (intros Heq; by apply (call_not_expand id "namespace")).
  destruct (unprefixed_name _ "tool_call" Hp) as [_ ->]. cbn [orb]. rewrite orb_false_r.
  destruct (decide (id = "tool")) as [->|Hne]; [done|].
  rewrite (bool_decide_eq_false_2 (id = "tool")) by done.
  rewrite bool_decide_eq_false_2 by (intros Heq; by apply Hne, (str_app_inj_r id "tool" "_call")).
  destruct (has_suffix (id +:+ "_call") "_expand") eqn:Hs.
  { apply has_suffix_spec in Hs as [r Hr]. by destruct (call_not_expand id r). }
  by rewrite has_suffix_app, trim_suffix_app.
Qed.

(** With the prefix of the client in front, a call without arguments goes astray. *)
Lemma dispatch_astray id suffix t :
  id +:+ suffix = client_prefix +:+ t ->
  (suffix = "_expand" -> dispatch (id +:+ suffix) None <> ExpandNamespace (Some [("namespace", JStr id)])) /\
  (suffix = "_call" -> dispatch (id +:+ suffix) None <> namespace_call id None).
Proof.
  intros Hn. unfold dispatch. rewrite Hn, trim_prefix_app.
  split; intros ->; case_match; [done| |done|]; (case_match; [done|]).
  - destruct (has_suffix t "_expand") eqn:Hs.
    + intros [= Heq]. by apply (stripped_other id t "_expand").
    + case_match; [|done]. unfold namespace_call. cbn. discriminate.
  - case_match; [done|]. destruct (has_suffix t "_call") eqn:Hs; [|done].
    unfold namespace_call. cbn. intros [= Heq]. by apply (stripped_other id t "_call").
Qed.
End Names.

(** C28: The two tools the list has for a backend lead back to it, unless the name reads
    as one of the generic tools, or as a name the client has put its prefix before. *)
Theorem v2_names_route {GE : GateEnv} id :
  ((forall args, dispatch (id +:+ "_expand") args = ExpandNamespace (Some [("namespace", JStr id)])) <->
     has_prefix (id +:+ "_expand") client_prefix = false /\ id <> "namespace") /\
  ((forall args, dispatch (id +:+ "_call") args = namespace_call id args) <->
     has_prefix (id +:+ "_call") client_prefix = false /\ id <> "tool").
Proof.
  split; split.
  - intros Hd. specialize (Hd None). destruct (has_prefix _ _) eqn:Hp.
    + apply has_prefix_spec in Hp as [t Ht]. by destruct (proj1 (dispatch_astray id _ t Ht) eq_refl).
    + split; [done|]. intros ->. by rewrite dispatch_expand in Hd.
  - intros [Hp Hne] args. rewrite dispatch_expand by done. by rewrite bool_decide_eq_false_2.
  - intros Hd. specialize (Hd None). destruct (has_prefix _ _) eqn:Hp.
    + apply has_prefix_spec in Hp as [t Ht]. by destruct (proj2 (dispatch_astray id _ t Ht) eq_refl).
    + split; [done|]. intros ->. by rewrite dispatch_call in Hd.
  - intros [Hp Hne] args. rewrite dispatch_call by done. by rewrite bool_decide_eq_false_2.
Qed.

(** The parameters of a tool are optional in the schema that is listed, and a call
    without them is refused. *)
Theorem v2_parameterless_call_refused {GE : GateEnv} minLen b id args :
  BackendRow.ID b = id -> id <> "tool" -> has_prefix (id +:+ "_call") client_prefix = false ->
  go_field args "params" = None ->
  dispatch (id +:+ "_call") args =
    RefusedParams id (default EmptyString (as_string (go_field args "tool"))) None /\
  exists schema, as_object (go_field (call_tool minLen b) "inputSchema") = Some schema /\
    field (properties_of schema) "params" = Some (described "object" "Tool parameters") /\
    existsb (names_field "params") (as_array (field schema "required")) = false.
Proof.
  intros Hid Hne Hp Ha. split.
  - rewrite dispatch_call by done. rewrite bool_decide_eq_false_2 by done.
    unfold namespace_call. by rewrite Ha.
  - eexists. split; [reflexivity|]. split; [reflexivity|]. by destruct (BackendRow.SkipJustification b).
Qed.

Section V2Theorems.
Context {CL : CelLib} {EE : EnforcerEnv} {GE : GateEnv}.
Context {KS : Type} `{SecretBox KS} `{CryptoPrims} `{Bcrypt}.
Context {St : Type} {MS : MuxStore St} {ME : MuxEnv} {SH : Sha256}.
Context (error_text : error -> string) (nanos : Z).
Context (visit : nat -> gset string -> list string) (m : ToolMuxer.t St).
Import Server ServerFacts.
Implicit Types s : Server.t KS Enforcer.Enforcer.t.

(** Of an exchange nothing is left, unless the process does not answer in time:
    then it is killed and also released to the pool. *)
Theorem v2_timeout_releases_killed hs id request reqID x r acts :
  forward_v2 hs true (inr tt) id request reqID x = Some (r, acts) ->
  (settled acts <-> x <> TimedOut) /\
  (x = TimedOut -> balance acts = -1 /\ Destroyed ∈ acts /\ last acts = Some Released).
Proof.
  unfold forward_v2. cbn [negb]. destruct x as [data| |].
  - destruct (rewrite_id id data); [|done]. intros [= <- <-]. split; [|done].
    split; [done | intros _; apply settled_exchange; by left].
  - intros [= <- <-]. split; [|done]. split; [done | intros _; apply settled_exchange; by left].
  - intros [= <- <-]. split.
    + split; [by intros [? _] | done].
    + intros _. split_and!; [done| |done]. cbn. set_solver.
Qed.

(** What is forwarded goes to the namespace. *)
Lemma v2_forwards env env' u ns tool b params tp id reqID e w request t e' :
  Gate.v2toolCall env env' u ns tool b params tp id reqID e = (Forwarded w request t, e') -> t = ns.
Proof.
  unfold Gate.v2toolCall. case_match; [done|]. case_match; [by intros [= _ _ ->]|].
  match goal with |- context [enforce env env' ?a ?b ?c ?d ?f ?g ?h ?i] =>
    pose proof (GateFacts.enforce_answers env env' a b c d f g h i) as Ha;
    destruct (enforce env env' a b c d f g h i) as [[w'|r] e1] end.
  - by intros [= _ _ ->].
  - cbn [fst snd] in Ha. intros [= -> _]. inversion Ha.
Qed.

(** The enforcer after the profiles of a self-reporting backend have been looked for. *)
Definition profiles_read (b : BackendRow.t) (namespace : string) (e : Enforcer.Enforcer.t) : Enforcer.Enforcer.t :=
  if BackendRow.SelfReporting b
  then (Enforcer.Enforcer.on_store (EnforcerWeb.GetToolProfilesByBackend namespace) e).2 else e.

(** What the store answers when the capabilities of the backend are read. *)
Definition read_capabilities (namespace : string) (d : Backends.t KS) : res BackendCapabilities.t :=
  (GetBackendCapabilities namespace (GetBackend namespace d).2).1.

(** What the checks before the enforcer establish. *)
Lemma call_subject_ok order params id s namespace tool toolParams b s1 :
  call_subject error_text order params id s = (inr (namespace, tool, toolParams, b), s1) ->
  as_string (go_field params "namespace") = Some namespace /\
  as_string (go_field params "tool") = Some tool /\
  ParseArgsMap (go_field params "params") = Ok toolParams /\
  (GetBackend namespace (Bridge.tables (bridge s))).1 = Ok b /\ BackendRow.Enabled b = true /\
  (BackendRow.SelfReporting b = true -> exists p ps,
     (Enforcer.Enforcer.on_store (EnforcerWeb.GetToolProfilesByBackend namespace) (enforcer s)).1 = Ok (p :: ps)) /\
  match read_capabilities namespace (Bridge.tables (bridge s)) with
  | Ok c => cached_tools c = [] \/ lists_tool tool (cached_tools c) = true
  | Err _ => True
  end /\
  enforcer s1 = profiles_read b namespace (enforcer s).
Proof.
  unfold call_subject, profiles_read, read_capabilities.
  destruct (as_string (go_field params "namespace")) as [ns|]; [|done].
  case_bool_decide; [done|]. destruct (as_string (go_field params "tool")) as [tl|]; [|done].
  case_bool_decide; [done|]. destruct (ParseArgsMap _) as [tp|]; [|done].
  destruct (GetBackend ns _) as [[b'|] d] eqn:Hb; [|done]. destruct (BackendRow.Enabled b') eqn:He; [|done].
  cbn [negb].
  destruct (BackendRow.SelfReporting b') eqn:Hsr;
    [cbn [enforcer on_bridge]; destruct (Enforcer.Enforcer.on_store _ (enforcer s)) as [[[|p ps]|] e1] eqn:Hp;
       try done|]; cbn [negb Bridge.tables bridge on_bridge on_enforcer].
  all: destruct (GetBackendCapabilities ns d) as [caps d'] eqn:Hc;
    destruct (match caps with Ok c => cached_tools c | Err _ => [] end) as [|t ts] eqn:Hk;
    [|destruct (lists_tool tl (t :: ts)) eqn:Hl; [|done]];
    intros [= <- <- <- <- <-]; rewrite Hb, Hsr; cbn [fst snd]; rewrite Hc; split_and!; try done;
    try (intros _; rewrite Hp; by eauto); try (by rewrite Hp);
    destruct caps; try done; [by left | right; by rewrite Hk].
Qed.

(** The backend is read without touching the capabilities. *)
Lemma GetBackend_capabilities namespace d :
  Backends.capabilities (GetBackend namespace d).2 = Backends.capabilities d.
Proof.
  assert (Hdec : forall b d, Backends.capabilities (decryptBackendEnv b d).2 = Backends.capabilities d).
  { intros b d0. unfold decryptBackendEnv, on_accounts. case_bool_decide; [done|].
    destruct (Accounts.keyStore _); [|done]. by destruct (box_decrypt _ _ _) as [[|] x]. }
  unfold GetBackend, sql_row, sql_query, sql_stmt.
  destruct (db_faults d) as [|[] fs]; cbn [snd]; try done; destruct (Backends.backends _ !! namespace) as [b|]; cbn [snd];
    try done; match goal with |- context [decryptBackendEnv b ?d0] => pose proof (Hdec b d0) as Hd;
      by destruct (decryptBackendEnv b d0) end.
Qed.

Lemma read_capabilities_ok namespace d :
  db_faults (GetBackend namespace d).2 = [] ->
  read_capabilities namespace d =
    match Backends.capabilities d !! namespace with Some c => Ok c | None => Err ErrNoRows end.
Proof.
  intros Hf. unfold read_capabilities, GetBackendCapabilities. rewrite sql_row_ok by done.
  by rewrite GetBackend_capabilities.
Qed.

(** C4: A call of the second endpoint gets to a process only for a namespace that is an
    enabled backend, with profiles if it reports them itself; for a tool that is
    among the cached tools of the backend, when any are cached and they can be read;
    and when the enforcer, asked about this tool and backend, lets it through.  The
    process is one of that backend, and what it is sent is the request the enforcer let
    through. *)
Theorem v2_call_admitted env env' order v u params id s r target acts rest s' :
  v2toolCall error_text nanos visit m env env' order v u params id s =
    (Answered r ((target, acts) :: rest), s') ->
  let reqID := "v2-" +:+ decimal_text nanos in
  exists tool toolParams b w request pool,
    as_string (go_field params "namespace") = Some target /\
    as_string (go_field params "tool") = Some tool /\ rest = [] /\
    (GetBackend target (Bridge.tables (bridge s))).1 = Ok b /\ BackendRow.Enabled b = true /\
    (BackendRow.SelfReporting b = true -> exists p ps,
       (Enforcer.Enforcer.on_store (EnforcerWeb.GetToolProfilesByBackend target) (enforcer s)).1 = Ok (p :: ps)) /\
    match read_capabilities target (Bridge.tables (bridge s)) with
    | Ok c => cached_tools c = [] \/ lists_tool tool (cached_tools c) = true
    | Err _ => True
    end /\
    (db_faults (GetBackend target (Bridge.tables (bridge s))).2 = [] -> forall c,
       Backends.capabilities (Bridge.tables (bridge s)) !! target = Some c ->
       cached_tools c = [] \/ lists_tool tool (cached_tools c) = true) /\
    Gate.v2toolCall env env' u target tool (routed b) (default [] params) toolParams id (JStr reqID)
      (profiles_read b target (enforcer s)) = (Forwarded w request target, enforcer s') /\
    forward_v2 (warning_header w) pool (got v target) id request reqID (answers v target) = Some (r, acts).
Proof.
  unfold v2toolCall. destruct (call_subject _ _ _ _ _) as [[r0|[[[ns tool] tp] b]] s1] eqn:Hs; [done|].
  apply call_subject_ok in Hs as (Hns & Htool & _ & Hb & He & Hp & Hc & Hes). rewrite Hes.
  destruct (Gate.v2toolCall _ _ _ _ _ _ _ _ _ _ _) as [g e] eqn:Hg.
  assert (Hv : forall x, match v2_reply id tool ns x with Some r => Answered r [] | None => Panicked end
    <> Answered r ((target, acts) :: rest)) by (intros x; by destruct (v2_reply id tool ns x)).
  destruct g as [| | | | |w request t|];
    try (intros Heq; apply (f_equal fst) in Heq; exfalso; revert Heq; first [apply Hv | discriminate]; fail).
  intros Heq. assert (Ht : t = ns).
  { by eapply v2_forwards. }
  subst t. destruct (forward_v2 _ _ _ _ _ _ _) as [[r1 acts1]|] eqn:Hf; [|done].
  injection Heq as <- <- <- <- <-. exists tool, tp, b, w, request. eexists.
  split_and!; try done.
  intros Hfaults c Hcap. rewrite (read_capabilities_ok _ _ Hfaults), Hcap in Hc. exact Hc.
Qed.
End V2Theorems.

(** ** Concrete messages *)

#[local] Existing Instances Toy.prims Toy.laws DemoAccounts.bcrypt DemoAccounts.provider demo_sha
  DemoBackends.mux_env demo_cel demo_world demo_gate db_profile_store.

Module DemoV2.
Definition params : gomap :=
  Some [("namespace", JStr "github"); ("tool", JStr "post"); ("params", JObj []);
        ("justification", JStr why)].

Definition run (meth : string) (raw : option json) :=
  v2HandleWrapper DemoServer.texts DemoServer.sprint 1 DemoLists.show by_elements DemoLists.mux
    plain_call plain_call (fun l => l) DemoLists.view DemoServer.view (Some 10) meth "ann" raw DemoServer.state.

Definition called := v2toolCall DemoServer.texts 1 by_elements DemoLists.mux plain_call plain_call
  (fun l => l) DemoServer.view "ann" params (JNum 7 0) DemoServer.state.

Definition message (method : string) (params : json) : option json :=
  Some (JObj [("method", JStr method); ("params", params); ("id", JNum 7 0)]).
End DemoV2.
Import DemoV2.

Example demo_get : (run "GET" None).1 = Answered get_refused [].
Proof. reflexivity. Qed.

(** The session id needs eight bytes of the user's. *)
Example demo_short_user : (run "POST" (message "initialize" JNull)).1 = Panicked.
Proof. vm_compute. reflexivity. Qed.

(** The tool that tells of approvals is not a method here. *)
Example demo_no_approval_status :
  dispatch "mcpbridge_approval_status" (Some []) = UnknownMethod "mcpbridge_approval_status".
Proof. vm_compute. reflexivity. Qed.

Example demo_capitalized : capitalized "app_scan" = "App_Scan".
Proof. vm_compute. reflexivity. Qed.

Example demo_tool_text :
  tool_text DemoServer.sprint
    (Some [("required", JArr [JStr "q"]);
           ("properties", JObj [("q", JObj [("type", JStr "string")])])])
    (Some [("name", JStr "find"); ("description", JStr "Finds. Slowly.")]) =
  lines ["- find: Finds."; "  Required params: q (string)"].
Proof. vm_compute. reflexivity. Qed.

Example demo_namespaces :
  (as_string ∘ fun t => go_field t "name") <$> namespace_tools 40 [DemoBackends.backend "github" "VARS"] =
  [Some "github_expand"; Some "github_call"].
Proof. vm_compute. reflexivity. Qed.

Lemma v2_parameterless_call_refused_witness :
  dispatch "github_call" (Some [("tool", JStr "post")]) = RefusedParams "github" "post" None.
Proof.
  exact (proj1 (v2_parameterless_call_refused 40 (DemoBackends.backend "github" "VARS") "github"
    (Some [("tool", JStr "post")]) eq_refl ltac:(discriminate) eq_refl eq_refl)).
Defined.

Lemma v2_timeout_releases_killed_witness :
  exists acts, balance acts = -1 /\ last acts = Some Released.
Proof.
  eexists. destruct (proj2 (v2_timeout_releases_killed [] JNull None "v2-1" TimedOut _ _ eq_refl) eq_refl)
    as (H1 & _ & H2). split; [exact H1 | exact H2].
Defined.

Lemma demo_called : exists r acts, called = (Answered r [("github", acts)], called.2).
Proof.
  assert (Hs : match called.1 with Answered _ [(id, _)] => id = "github" | _ => False end)
    by (vm_compute; reflexivity).
  destruct called as [[r [|[id acts] [|]]| |] s']; try done. cbn in Hs. subst id. by exists r, acts.
Qed.

Lemma v2_call_admitted_witness :
  exists b, (GetBackend "github" (Bridge.tables (Server.bridge DemoServer.state))).1 = Ok b /\
    BackendRow.Enabled b = true.
Proof.
  destruct demo_called as (r & acts & Hc). unfold called at 1 in Hc. revert Hc.
  generalize called.2. intros s' Hc.
  destruct (v2_call_admitted DemoServer.texts 1 by_elements DemoLists.mux plain_call plain_call
    (fun l => l) DemoServer.view "ann" params (JNum 7 0) DemoServer.state r "github" acts [] s' Hc)
    as (tool & tp & b & w & request & pool & _ & _ & _ & Hb & He & _).
  exists b. split; [exact Hb | exact He].
Defined.
