(* ===== verification/Precache.v ===== *)
(** * The tool cache at the start: [src/precache.go]

    Backends are spawned once without a user to learn their tools: the environment
    they get, the chain of users whose tokens are tried, and what is left in the
    tables on each path.

    What a spawned process answers is a parameter, as is [os.Environ]. *)
From S2P Require Import Prelude GoStrings Sql Crypto EnforcerTypes Template Muxer Accounts Backends Process Startup BackendStatus ToolLists BridgeTools.
Open Scope Z_scope.
Open Scope handler_scope.

(** Whose tokens are used; empty: none named. *)
Record PrecacheConfig := { cfg_UserEmail : string; cfg_UserID : string }.

Section Environment.
Context {ME : MuxEnv} {SH : Sha256}.
Context (visit : nat -> gset string -> list string) (environ : list string).

(** An entry of [os.Environ] at its first equals sign. *)
Definition environ_entry (env : gmap string string) (e : string) : gmap string string :=
  match str_index e "=" with
  | Some n => <[str_take n e := str_drop (S n) e]> env
  | None => env
  end.

Definition inherited : gmap string string :=
  <["MCP_PRECACHE" := "true"]> (foldl environ_entry ∅ environ).

(** The variables of the backend; what cannot be parsed is left out. *)
Definition backend_env (s : string) : gmap string string :=
  if no_json s then ∅ else default ∅ (unmarshal_map (unquoted s)).

Definition reverse_map (mappings : gmap string string) : gmap string string :=
  foldl (fun r userKey => match mappings !! userKey with
                          | Some backendKey => <[backendKey := userKey]> r
                          | None => r
                          end) ∅ (visit 9%nat (dom mappings)).

(** Tokens go under the key of the user. *)
Definition with_tokens (reverse : gmap string string) (tokens : list (string * string))
    (env : gmap string string) : gmap string string :=
  foldl (fun env tok => <[default tok.1 (reverse !! tok.1) := tok.2]> env) env tokens.

(** Every key that is mapped is renamed, whoever set it; [keys]: the order in which
    the map is visited. *)
Definition rename_all (mappings env : gmap string string) (keys : list string) : gmap string string :=
  foldl (fun result k => match env !! k with
                         | Some v => <[default k (mappings !! k) := v]> result
                         | None => result
                         end) ∅ keys.

Definition resolveTemplatesInPrecacheEnv (env : gmap string string) (user : option User.t) :
    gmap string string :=
  match user with
  | None => env
  | Some user =>
      if negb (envMapHasTemplates env) then env
      else match ResolveEnvTemplates (visit 11%nat (dom env)) env user with
           | Ok resolved => resolved
           | Err _ => env
           end
  end.

Definition buildEnvForPrecache (b : BackendRow.t) (tokens : list (string * string))
    (user : option User.t) : gmap string string :=
  let env := backend_env (BackendRow.Env b) ∪ inherited in
  let mappings := if no_json (BackendRow.EnvMappings b) then None
                  else unmarshal_map (BackendRow.EnvMappings b) in
  resolveTemplatesInPrecacheEnv
    (match mappings with
     | Some mappings =>
         let env := with_tokens (reverse_map mappings) tokens env in
         rename_all mappings env (visit 10%nat (dom env))
     | None => with_tokens ∅ tokens env
     end) user.
End Environment.

(** ** Spawning a backend *)

(** The tools in the responses of a process, up to the response that lists them or
    to one that is not an object. *)
Fixpoint tools_of_responses (responses : list (option json)) : list gomap :=
  match responses with
  | Some JNull :: rest => tools_of_responses rest
  | Some (JObj resp) :: rest =>
      if bool_decide (as_string (field resp "id") = Some "precache-tools") then
        match as_object (field resp "result") with
        | Some result => omap (fun tool => Some <$> as_object (Some tool)) (as_array (field result "tools"))
        | None => []
        end
      else tools_of_responses rest
  | _ => []
  end.

(** [run]: what a started command answers. *)
Definition fetchToolsForPrecacheImpl
    (run : list string -> gmap string string -> res (list (option json)))
    (command : string) (env : gmap string string) : res (list gomap) :=
  match Process.fields command with
  | [] => Err (Errorf "empty command")
  | parts => match run parts env with
             | Err e => Err e
             | Ok responses => Ok (tools_of_responses responses)
             end
  end.

(** ** The cache *)

Section Precache.
Context {KS : Type} `{SecretBox KS} `{CryptoPrims} `{Bcrypt}.
Context {ME : MuxEnv} {SH : Sha256}.
Context (visit : nat -> gset string -> list string) (environ : list string).
Context (error_text : error -> string).
(** The variable [fetchToolsForPrecacheFn]; the statements on the status of a backend
    succeed. *)
Context (fetch : string -> gmap string string -> res (list gomap)).
Context (stmt1 stmt2 : string -> bool).
Import Bridge.
Local Abbreviation bridge := (Bridge.t KS).
Local Abbreviation P := (M bridge (res Z)).

Definition table {A} (f : Backends.t KS -> A * Backends.t KS) : P A := fun s =>
  let '(a, d) := f (tables s) in (inr a, mk d (status s) (events s)).

Definition status_do (f : status_db -> res unit * status_db) : P unit :=
  modify (fun s => mk (tables s) (f (status s)).2 (events s)).

Definition token_pairs (l : list UserToken.t) : list (string * string) :=
  map (fun k => (UserToken.EnvKey k, UserToken.Value k)) l.

Definition template_user (u : UserRow.t) : User.t :=
  User.mk (UserRow.ID u) (UserRow.Email u) (UserRow.Role u).

(** [cacheBackendCapabilities] *)
Definition cacheBackendCapabilities (backendID : string) (tools : list gomap) (now : Time) : P (res unit) :=
  table (SetBackendCapabilities backendID (map to_json tools) now).

(** No tools are an error. *)
Definition fetched (command : string) (env : gmap string string) : res (list gomap) :=
  match fetch command env with
  | Ok [] => Err (Errorf "no tools returned")
  | r => r
  end.

(** Tokens and user of the call; the flag: nobody is named. *)
Definition named_user (cfg : PrecacheConfig) (backendID : string) :
    P (list (string * string) * option User.t * bool) :=
  let tokens_of id := table (on_accounts (GetUserTokensDecrypted id backendID)) in
  if negb (bool_decide (cfg_UserID cfg = EmptyString)) then
    tokens <-- tokens_of (cfg_UserID cfg) ;;
    match tokens with
    | Err e => early (Err (Wrapf "get tokens for user %s: %w" e))
    | Ok tokens =>
        user <-- table (on_accounts (GetUser (cfg_UserID cfg))) ;;
        ret (token_pairs tokens, match user with Ok u => Some (template_user u) | Err _ => None end, false)
    end
  else if negb (bool_decide (cfg_UserEmail cfg = EmptyString)) then
    user <-- table (on_accounts (GetUserByEmail (cfg_UserEmail cfg))) ;;
    match user with
    | Err e => early (Err (Wrapf "get user by email: %w" e))
    | Ok u =>
        tokens <-- tokens_of (UserRow.ID u) ;;
        ret (match tokens with Ok l => token_pairs l | Err _ => [] end, Some (template_user u), false)
    end
  else ret ([], None, true).

(** The first administrator's turn: his tools, if a process starts. *)
Definition admin_tools (b : BackendRow.t) (backendID : string) : P (option (list gomap)) :=
  admin <-- table (on_accounts FirstAdminUser) ;;
  match admin with
  | None => ret None
  | Some u =>
      tokens <-- table (on_accounts (GetUserTokensDecrypted (UserRow.ID u) backendID)) ;;
      ret (match tokens with
           | Err _ => None
           | Ok l => match fetch (BackendRow.Command b)
                             (buildEnvForPrecache visit environ b (token_pairs l) (Some (template_user u))) with
                     | Ok tools => Some tools
                     | Err _ => None
                     end
           end)
  end.

Definition RunPrecacheForBackend_ (cfg : PrecacheConfig) (backendID : string) (now : Time) : P (res Z) :=
  backend <-- table (GetBackend backendID) ;;
  match backend with
  | Err e => ret (Err (Wrapf "get backend %s: %w" e))
  | Ok b =>
      if negb (BackendRow.Enabled b) then ret (Ok 0)
      else
        who <-- named_user cfg backendID ;;
        let '(tokens, user, useStartupFallback) := who in
        let first := fetched (BackendRow.Command b) (buildEnvForPrecache visit environ b tokens user) in
        tools <-- match first with
                  | Err e =>
                      if useStartupFallback then
                        t <-- admin_tools b backendID ;;
                        ret (match t with Some tools => Ok tools | None => Err e end)
                      else ret (Err e)
                  | Ok tools => ret (Ok tools)
                  end ;;
        let failed msg := status_do (SetBackendPrecacheError (stmt1 backendID) backendID msg now) in
        match tools with
        | Ok ((_ :: _) as tools) =>
            cached <-- cacheBackendCapabilities backendID tools now ;;
            match cached with
            | Err e => failed (error_text e) ;;; ret (Err (Wrapf "cache capabilities: %w" e))
            | Ok _ =>
                status_do (SetBackendAvailable (stmt1 backendID) (stmt2 backendID) backendID now) ;;;
                ret (Ok (Z.of_nat (length tools)))
            end
        | Ok [] => failed "no credentials available for precache" ;;; ret (Ok 0)
        | Err e =>
            if useStartupFallback
            then failed "no credentials available for precache" ;;; ret (Ok 0)
            else failed (error_text e) ;;; ret (Err e)
        end
  end.

(** [RunPrecacheForBackend] *)
Definition RunPrecacheForBackend (cfg : PrecacheConfig) (backendID : string) (now : Time) (s : bridge) :
    res Z * bridge := run (RunPrecacheForBackend_ cfg backendID now) s.

Fixpoint precache_all (cfg : PrecacheConfig) (now : Time) (l : list BackendRow.t) (s : bridge) :
    list string * bridge :=
  match l with
  | [] => ([], s)
  | b :: l =>
      if negb (BackendRow.Enabled b) then precache_all cfg now l s
      else
        let '(r, s) := RunPrecacheForBackend cfg (BackendRow.ID b) now s in
        let '(failed, s) := precache_all cfg now l s in
        (if is_ok r then failed else BackendRow.ID b :: failed, s)
  end.

Definition RunPrecache (cfg : PrecacheConfig) (now : Time) (s : bridge) : res unit * bridge :=
  let '(backends, d) := ListBackends (tables s) in
  let s := mk d (status s) (events s) in
  match backends with
  | Err e => (Err (Wrapf "list backends: %w" e), s)
  | Ok l =>
      match precache_all cfg now l s with
      | ([], s) => (Ok tt, s)
      | (failed, s) => (Err (Errorf ("precache failed for backends: " +:+ joined_by ", " failed)), s)
      end
  end.
End Precache.

(** * Properties *)

Module PrecacheFacts.
Section Facts.
Context {KS : Type} `{SecretBox KS} `{CryptoPrims} `{Bcrypt}.
Context {ME : MuxEnv} {SH : Sha256}.
Context (visit : nat -> gset string -> list string) (environ : list string).
Context (fetch : string -> gmap string string -> res (list gomap)).
Import Bridge MuxerFacts.
Implicit Types (s : Bridge.t KS).

(** The cached tools, and the rows and the schedule they depend on. *)
Definition cache (s : Bridge.t KS) : gmap string BackendCapabilities.t := Backends.capabilities (tables s).

Lemma leaves_table {A} (f : Backends.t KS -> A * Backends.t KS) :
  (forall d, Backends.capabilities (f d).2 = Backends.capabilities d) -> leaves cache (table f).
Proof. intros Hf s. unfold table, cache. specialize (Hf (tables s)). by destruct (f (tables s)). Qed.

Lemma leaves_accounts {A} (f : Accounts.t KS -> A * Accounts.t KS) : leaves cache (table (on_accounts f)).
Proof. apply leaves_table. intros d. unfold on_accounts. by destruct (f _). Qed.

Lemma GetBackend_caps id (d : Backends.t KS) :
  Backends.capabilities (GetBackend id d).2 = Backends.capabilities d.
Proof.
  assert (Hq : forall A (f : Backends.t KS -> option A) d,
    Backends.capabilities (sql_row f d).2 = Backends.capabilities d).
  { intros A f d0. unfold sql_row, sql_query, sql_stmt. by destruct (db_faults d0) as [|[] ?]. }
  unfold GetBackend. specialize (Hq _ (fun d => Backends.backends d !! id) d).
  destruct (sql_row _ d) as [[b|e] d1]; [|done]. cbn [snd] in Hq. rewrite <- Hq.
  unfold decryptBackendEnv, on_accounts. repeat case_match; by simplify_eq.
Qed.

Lemma named_user_leaves cfg id : leaves cache (named_user (KS := KS) cfg id).
Proof.
  unfold named_user. repeat first [apply leaves_ret | apply leaves_early | apply leaves_accounts
    | apply leaves_bind; [|intros ?] | case_match].
Qed.

Lemma admin_tools_leaves b id : leaves cache (admin_tools (KS := KS) visit environ fetch b id).
Proof.
  unfold admin_tools. repeat first [apply leaves_ret | apply leaves_accounts
    | apply leaves_bind; [|intros ?] | case_match].
Qed.

Lemma admin_tools_fetched b id s t s' :
  admin_tools visit environ fetch b id s = (inr (Some t), s') ->
  exists env, fetch (BackendRow.Command b) env = Ok t.
Proof.
  unfold admin_tools, bind, table. destruct (on_accounts FirstAdminUser _) as [[u|] d]; [|done].
  cbn. destruct (on_accounts _ d) as [[l|e] d']; [|done]. cbn.
  match goal with |- context [fetch ?c ?env] => destruct (fetch c env) eqn:Hf end; [|done].
  intros [= -> _]. eauto.
Qed.

Lemma named_user_early cfg id s r s' :
  named_user cfg id s = (inl r, s') -> exists e, r = Err e.
Proof.
  unfold named_user. destruct (negb (bool_decide (cfg_UserID cfg = EmptyString))).
  { unfold bind, table. destruct (on_accounts _ _) as [[l|e] d]; [|intros [= <- _]; eauto].
    by destruct (on_accounts _ _) as [? ?]. }
  destruct (negb (bool_decide (cfg_UserEmail cfg = EmptyString))); [|done].
  unfold bind, table. destruct (on_accounts _ _) as [[u|e] d]; [|intros [= <- _]; eauto].
  by destruct (on_accounts _ _) as [? ?].
Qed.

(** The users that are tried, without the schedule of the statements. *)
Lemma admin_tools_total b id s :
  exists t s', admin_tools (KS := KS) visit environ fetch b id s = (inr t, s').
Proof.
  unfold admin_tools, bind, table. destruct (on_accounts FirstAdminUser _) as [[u|] d]; [|cbn; eauto].
  cbn. destruct (on_accounts _ d) as [[l|e] d']; cbn; eauto.
Qed.

Lemma cached_tools id tools now s :
  exists r d, cacheBackendCapabilities (KS := KS) id tools now s = (inr r, mk d (status s) (events s)) /\
    (r = Ok tt /\ Backends.capabilities d =
       <[id := BackendCapabilities.mk id (map to_json tools) (Z.of_nat (length (map to_json tools))) now]> (cache s) \/
     (exists e, r = Err e) /\ Backends.capabilities d = cache s).
Proof.
  unfold cacheBackendCapabilities, table, SetBackendCapabilities, sql_checked, sql_stmt, cache.
  destruct (db_faults (tables s)) as [|[] fs].
  - destruct (negb _ || _); do 2 eexists; (split; [reflexivity|]); [by left|right; eauto].
  - do 2 eexists. split; [reflexivity|]. right. eauto.
  - cbv beta. destruct (negb _ || _); do 2 eexists; (split; [reflexivity|]); [by left|right; eauto].
Qed.

Lemma fetched_ok command env t :
  fetched fetch command env = Ok t -> t <> [] /\ fetch command env = Ok t.
Proof. unfold fetched. destruct (fetch command env) as [[|x l]|]; [done| |done]. by intros [= <-]. Qed.

(** *** The names of the variables *)

Lemma reverse_fold (mappings : gmap string string) keys (r : gmap string string) k u :
  foldl (fun r userKey => match mappings !! userKey with
                          | Some backendKey => <[backendKey := userKey]> r
                          | None => r
                          end) r keys !! k = Some u ->
  mappings !! u = Some k \/ r !! k = Some u.
Proof.
  revert r. induction keys as [|u1 keys IH]; intros r; simpl; [auto|]. intros [?|Hr]%IH; [by left|].
  destruct (mappings !! u1) as [k1|] eqn:Hu1; [|by right].
  apply lookup_insert_Some in Hr as [[-> ->]|[_ ?]]; auto.
Qed.

Lemma reverse_map_Some mappings k u : reverse_map visit mappings !! k = Some u -> mappings !! u = Some k.
Proof. intros [?|He]%reverse_fold; [done | by rewrite lookup_empty in He]. Qed.

Lemma reverse_map_is_Some mappings k u :
  visits visit -> mappings !! u = Some k -> is_Some (reverse_map visit mappings !! k).
Proof.
  intros Hv Hu. unfold reverse_map. assert (Hin : u ∈ visit 9%nat (dom mappings)).
  { apply visit_elem; [done|]. apply elem_of_dom. eauto. }
  revert Hin. generalize (∅ : gmap string string).
  assert (Hkeep : forall keys (r : gmap string string), is_Some (r !! k) ->
    is_Some (foldl (fun r userKey => match mappings !! userKey with
                                     | Some backendKey => <[backendKey := userKey]> r
                                     | None => r
                                     end) r keys !! k)).
  { induction keys as [|u1 keys IH]; intros r Hr; [done|]. simpl. apply IH.
    destruct (mappings !! u1) as [k1|]; [|done]. destruct (decide (k1 = k)) as [->|];
      [rewrite lookup_insert_eq; eauto | by rewrite lookup_insert_ne]. }
  induction (visit 9%nat (dom mappings)) as [|u1 keys IH]; intros r Hin; [by apply not_elem_of_nil in Hin|].
  simpl. apply elem_of_cons in Hin as [<-|Hin]; [|by apply IH].
  rewrite Hu. apply Hkeep. rewrite lookup_insert_eq. eauto.
Qed.

(** The key a token is put under. *)
Definition token_key (mappings : gmap string string) (k : string) : string :=
  default k (reverse_map visit mappings !! k).

Lemma with_tokens_app r l1 l2 env : with_tokens r (l1 ++ l2) env = with_tokens r l2 (with_tokens r l1 env).
Proof. apply foldl_app. Qed.

Lemma with_tokens_other r tokens env k :
  Forall (fun tok => default tok.1 (r !! tok.1) <> k) tokens -> with_tokens r tokens env !! k = env !! k.
Proof.
  unfold with_tokens. revert env. induction tokens as [|tok tokens IH]; intros env; [done|]. simpl.
  intros [? ?]%Forall_cons. rewrite IH by done. by rewrite lookup_insert_ne.
Qed.
End Facts.
End PrecacheFacts.

Section PrecacheTheorems.
Context {KS : Type} `{SecretBox KS} `{CryptoPrims} `{Bcrypt}.
Context {ME : MuxEnv} {SH : Sha256}.
Context (visit : nat -> gset string -> list string) (environ : list string).
Context (error_text : error -> string) (fetch : string -> gmap string string -> res (list gomap)).
Context (stmt1 stmt2 : string -> bool).
Import Bridge PrecacheFacts MuxerFacts.
Implicit Types (s : Bridge.t KS).

(** The cache is filled with what a process answered, or left as it was: no path
    loses tools that were cached before. *)
Theorem precache_fills_or_keeps cfg id now s r s' :
  RunPrecacheForBackend visit environ error_text fetch stmt1 stmt2 cfg id now s = (r, s') ->
  ((exists b env tools, tools <> [] /\ fetch (BackendRow.Command b) env = Ok tools /\
      BackendRow.Enabled b = true /\ r = Ok (Z.of_nat (length tools)) /\
      Backends.capabilities (tables s') =
        <[id := BackendCapabilities.mk id (map to_json tools) (Z.of_nat (length (map to_json tools))) now]>
          (Backends.capabilities (tables s))) \/
   ((r = Ok 0 \/ exists e, r = Err e) /\
      Backends.capabilities (tables s') = Backends.capabilities (tables s))).
Proof.
  unfold RunPrecacheForBackend, run, RunPrecacheForBackend_, bind at 1, table at 1.
  pose proof (GetBackend_caps id (tables s)) as Hc. destruct (GetBackend id _) as [[b|e] d].
  2: { intros [= <- <-]. right. split; [right; eauto | exact Hc]. }
  cbn [snd] in Hc. destruct (BackendRow.Enabled b) eqn:He; cbn [negb].
  2: { intros [= <- <-]. right. split; [by left | exact Hc]. }
  set (s0 := mk d (status s) (events s)). assert (Hs0 : cache s0 = Backends.capabilities (tables s)) by exact Hc.
  clearbody s0. clear Hc. unfold bind at 1.
  pose proof (named_user_leaves cfg id s0) as Hn. destruct (named_user cfg id s0) as [[r0|[[toks user] fb]] s1] eqn:Hu.
  { intros [= <- <-]. right. split; [right; by eapply named_user_early | by rewrite <- Hs0]. }
  cbn [snd] in Hn. rewrite Hs0 in Hn. clear Hu Hs0 s0.
  set (first := fetched _ _ _). unfold bind at 1.
  match goal with |- context [match ?f s1 with _ => _ end] =>
    assert (Hf : exists tools s2, f s1 = (inr tools, s2) /\ cache s2 = cache s1 /\
      forall t, tools = Ok t -> t <> [] -> exists env, fetch (BackendRow.Command b) env = Ok t) end.
  { destruct first as [t|e] eqn:Hfirst.
    - do 2 eexists. split; [reflexivity|]. split; [done|]. intros t' [= ->] _.
      apply fetched_ok in Hfirst as [_ ?]. eauto.
    - destruct fb; [|do 2 eexists; split; [reflexivity | done]]. unfold bind.
      pose proof (admin_tools_leaves visit environ fetch b id s1) as Hl.
      destruct (admin_tools_total visit environ fetch b id s1) as (t & s2 & Ha). rewrite Ha in Hl |- *.
      do 2 eexists. split; [reflexivity|]. split; [exact Hl|].
      intros t' Ht' _. destruct t as [t|]; [|done]. injection Ht' as <-. by eapply admin_tools_fetched. }
  destruct Hf as (tools & s2 & -> & Hs2 & Htools). rewrite Hn in Hs2. clear first Hn.
  destruct tools as [[|t ts]|e].
  - cbn. intros [= <- <-]. right. split; [by left | exact Hs2].
  - destruct (Htools _ eq_refl ltac:(done)) as [env Henv].
    unfold bind. destruct (cached_tools id (t :: ts) now s2) as (rc & d2 & -> & [[-> Hd]|[[e ->] Hd]]);
      intros [= <- <-]; rewrite Hs2 in Hd.
    + left. by exists b, env, (t :: ts).
    + right. split; [right; eauto | exact Hd].
  - destruct fb; cbn; intros [= <- <-]; right; (split; [eauto | exact Hs2]).
Qed.

(** A token saved under the name of the user or under the name of the backend
    reaches the process under the name of the backend, when no mapped name is
    itself mapped and nobody else has set the variable. *)
Theorem precache_token_arrives b mappings userKey backendKey l1 k v l2 :
  visits visit ->
  no_json (BackendRow.EnvMappings b) = false -> unmarshal_map (BackendRow.EnvMappings b) = Some mappings ->
  (forall u k', mappings !! u = Some k' -> mappings !! k' = None) ->
  mappings !! userKey = Some backendKey ->
  (forall u, mappings !! u = Some backendKey -> u = userKey) ->
  (backend_env (BackendRow.Env b) ∪ inherited environ) !! backendKey = None ->
  k = userKey \/ k = backendKey ->
  Forall (fun tok : string * string => tok.1 <> userKey /\ tok.1 <> backendKey) l2 ->
  buildEnvForPrecache visit environ b (l1 ++ (k, v) :: l2) None !! backendKey = Some v.
Proof.
  intros Hv Hj Hm Hflat Hu Hone Hfree Hk Hl2. unfold buildEnvForPrecache. rewrite Hj, Hm. cbn [resolveTemplatesInPrecacheEnv].
  set (env0 := backend_env _ ∪ _) in *. set (r := reverse_map visit mappings).
  assert (Hrb : r !! backendKey = Some userKey).
  { destruct (reverse_map_is_Some visit mappings backendKey userKey Hv Hu) as [u Hr].
    unfold r. rewrite Hr. f_equal. by apply Hone, (reverse_map_Some visit). }
  assert (Hru : r !! userKey = None).
  { destruct (r !! userKey) as [u|] eqn:Hr; [|done]. apply reverse_map_Some, Hflat in Hr. congruence. }
  assert (Hnone : forall t u, r !! t = Some u -> u <> backendKey).
  { intros t u Hr ->. apply reverse_map_Some in Hr. rewrite (Hflat _ _ Hu) in Hr. done. }
  set (env1 := with_tokens r (l1 ++ (k, v) :: l2) env0).
  assert (Huser : env1 !! userKey = Some v).
  { unfold env1. rewrite with_tokens_app. change ((k, v) :: l2) with ([(k, v)] ++ l2).
    rewrite with_tokens_app, with_tokens_other.
    - unfold with_tokens at 1. simpl. replace (default k (r !! k)) with userKey; [apply lookup_insert_eq|].
      destruct Hk as [->| ->]; [by rewrite Hru | by rewrite Hrb].
    - eapply Forall_impl; [exact Hl2|]. intros [t w] [Htu Htb]. simpl in *.
      destruct (r !! t) as [u|] eqn:Hr; [|done]. simpl. intros ->. apply reverse_map_Some in Hr. congruence. }
  assert (Hback : env1 !! backendKey = None).
  { unfold env1. rewrite with_tokens_other; [done|]. apply Forall_forall. intros [t w] _. simpl.
    destruct (r !! t) as [u|] eqn:Hr; simpl; [by eapply Hnone|]. intros ->. congruence. }
  replace backendKey with (EnvFacts.renamed mappings userKey); [|unfold EnvFacts.renamed; by rewrite Hu].
  apply EnvFacts.rename_loop_unique; [done| |].
  - intros k1 Hk1. unfold EnvFacts.renamed at 2. rewrite Hu. unfold EnvFacts.renamed. simpl.
    destruct (mappings !! k1) as [k'|] eqn:Hk1m; simpl; [intros ->; by apply Hone|].
    intros ->. apply elem_of_dom in Hk1. rewrite Hback in Hk1. by destruct Hk1.
  - left. apply visit_elem; [done|]. apply elem_of_dom. eauto.
Qed.

(** The mappings are meant for the keys of users, and precache applies them to every
    variable: one the administrator configured under a mapped name is renamed too. *)
Theorem precache_renames_configured b mappings k0 backendKey v :
  visits visit ->
  no_json (BackendRow.EnvMappings b) = false -> unmarshal_map (BackendRow.EnvMappings b) = Some mappings ->
  mappings !! k0 = Some backendKey ->
  (forall u, mappings !! u = Some backendKey -> u = k0) -> (forall u, mappings !! u <> Some k0) ->
  backend_env (BackendRow.Env b) !! k0 = Some v ->
  (backend_env (BackendRow.Env b) ∪ inherited environ) !! backendKey = None ->
  buildEnvForPrecache visit environ b [] None !! backendKey = Some v /\
  buildEnvForPrecache visit environ b [] None !! k0 = None.
Proof.
  intros Hv Hj Hm Hk0 Hone Hnot Hset Hfree. unfold buildEnvForPrecache. rewrite Hj, Hm.
  cbn [resolveTemplatesInPrecacheEnv with_tokens foldl].
  set (env0 := backend_env _ ∪ _) in *. assert (He : env0 !! k0 = Some v).
  { unfold env0. apply lookup_union_Some_l. done. }
  split.
  - replace backendKey with (EnvFacts.renamed mappings k0); [|unfold EnvFacts.renamed; by rewrite Hk0].
    apply EnvFacts.rename_loop_unique; [done| |].
    + intros k1 Hk1. unfold EnvFacts.renamed at 2. rewrite Hk0. unfold EnvFacts.renamed. simpl.
      destruct (mappings !! k1) as [k'|] eqn:Hk1m; simpl; [intros ->; by apply Hone|].
      intros ->. apply elem_of_dom in Hk1. rewrite Hfree in Hk1. by destruct Hk1.
    + left. apply visit_elem; [done|]. apply elem_of_dom. eauto.
  - match goal with |- ?x = None => destruct x as [w|] eqn:Hw end; [|done]. exfalso.
    apply EnvFacts.rename_loop in Hw as [Hw|(k1 & _ & Hk1 & Hr)]; [by rewrite lookup_empty in Hw|].
    unfold EnvFacts.renamed in Hr. destruct (mappings !! k1) as [k'|] eqn:Hk1m; simpl in Hr; subst.
    + by eapply Hnot.
    + congruence.
Qed.
End PrecacheTheorems.

(** ** Concrete instances *)

#[local] Existing Instances Toy.prims Toy.laws DemoAccounts.bcrypt DemoAccounts.provider demo_sha.

Module DemoPrecache.
#[local] Instance mux_env : MuxEnv := {|
  unmarshal_string := fun _ => None;
  unmarshal_map := fun s => if bool_decide (s = "MAP") then Some {["TOKEN" := "GH_TOKEN"]}
                            else if bool_decide (s = "VARS") then Some {["TOKEN" := "shared"]} else None;
  getenv := fun _ => EmptyString
|}.
Definition backend (env : string) : BackendRow.t :=
  BackendRow.mk "github" "run" 1 "gh" env "MAP" EmptyString EmptyString true false 0 2 false false false
    EmptyString EmptyString EmptyString None.
Definition environ : list string := ["PATH=/bin"].
Definition tool : gomap := Some [("name", JStr "post")].
Definition fetch (command : string) (env : gmap string string) : res (list gomap) := Ok [tool].
Definition always (id : string) : bool := true.
Definition state : Bridge.t DemoAccounts.key_store :=
  Bridge.mk DemoBackends.tables (StatusDB ∅ ∅) [].
Definition at_start := RunPrecacheForBackend by_elements environ (fun _ => "failed") fetch always always
  {| cfg_UserEmail := EmptyString; cfg_UserID := EmptyString |} "github" 5 state.
End DemoPrecache.

Lemma demo_at_start : DemoPrecache.at_start.1 = Ok 1 /\ Backends.capabilities (Bridge.tables DemoPrecache.at_start.2) !! "github" =
  Some (BackendCapabilities.mk "github" [to_json DemoPrecache.tool] 1 5).
Proof. split; by vm_compute. Qed.

Lemma precache_fills_or_keeps_witness :
  Backends.capabilities (Bridge.tables DemoPrecache.at_start.2) =
  <[ "github" := BackendCapabilities.mk "github" [to_json DemoPrecache.tool] 1 5 ]> ∅.
Proof.
  destruct (precache_fills_or_keeps by_elements DemoPrecache.environ (fun _ => "failed") DemoPrecache.fetch
    DemoPrecache.always DemoPrecache.always {| cfg_UserEmail := EmptyString; cfg_UserID := EmptyString |}
    "github" 5 DemoPrecache.state DemoPrecache.at_start.1 DemoPrecache.at_start.2 (surjective_pairing _))
    as [(b & env & tools & _ & [= <-] & _ & _ & Hc)|[_ Hc]].
  - exact Hc.
  - exfalso. pose proof (proj2 demo_at_start) as Hd. rewrite Hc in Hd. by vm_compute in Hd.
Defined.

Lemma precache_token_arrives_witness :
  buildEnvForPrecache (ME := DemoPrecache.mux_env) by_elements DemoPrecache.environ
    (DemoPrecache.backend EmptyString) [("TOKEN", "t1")] None !! "GH_TOKEN" = Some "t1".
Proof.
  apply (precache_token_arrives (ME := DemoPrecache.mux_env) by_elements DemoPrecache.environ
    (DemoPrecache.backend EmptyString) {["TOKEN" := "GH_TOKEN"]} "TOKEN" "GH_TOKEN" [] "TOKEN" "t1" []).
  - apply by_elements_visits.
  - done.
  - done.
  - by intros u k' [<- <-]%lookup_singleton_Some.
  - done.
  - by intros u [<- _]%lookup_singleton_Some.
  - by vm_compute.
  - by left.
  - by constructor.
Defined.

Lemma precache_renames_configured_witness :
  buildEnvForPrecache (ME := DemoPrecache.mux_env) by_elements DemoPrecache.environ
    (DemoPrecache.backend "VARS") [] None !! "GH_TOKEN" = Some "shared" /\
  buildEnvForPrecache (ME := DemoPrecache.mux_env) by_elements DemoPrecache.environ
    (DemoPrecache.backend "VARS") [] None !! "TOKEN" = None.
Proof.
  apply (precache_renames_configured (ME := DemoPrecache.mux_env) by_elements DemoPrecache.environ
    (DemoPrecache.backend "VARS") {["TOKEN" := "GH_TOKEN"]}).
  - apply by_elements_visits.
  - done.
  - done.
  - done.
  - by intros u [<- _]%lookup_singleton_Some.
  - intros u Hu. by apply lookup_singleton_Some in Hu as [_ ?].
  - by vm_compute.
  - by vm_compute.
Defined.
