(* ===== verification/Replay.v ===== *)
(** * The execution of approved requests: [src/web/approval_executor.go]

    The executor the enforcer calls for an approved request: the pool of the user,
    the name of the tool without the prefix of its backend, the exchange with the
    process, and what is reported to the enforcer.  With it, the rewriting of bodies
    of [src/muxer/muxer.go] that is not used by the handlers.

    The pool is seen through [exec_view]; texts are decoded and encoded by
    parameters, as is the reading of a number into an [int]. *)
From S2P Require Import Prelude GoStrings Sql EnforcerTypes Heuristics Resolver CelEngine EnforcerStore Enforcer EnforcerCalls EnforcerAdmin Template Muxer Gate Process ToolLists BridgeTools Server.
Open Scope Z_scope.

(** ** Names *)

Definition stripToolPrefix (toolName prefix : string) : string :=
  if bool_decide (prefix = EmptyString) then toolName
  else trim_prefix (trim_prefix toolName (prefix +:+ "_")) (prefix +:+ "/").

(** *** The bodies of [muxer.go], whose names are in a list [tools] *)

(** The rewriting of the name of the first tool; [None]: the body stays as it is. *)
Definition map_first_tool (f : string -> string) (b : body) : option body :=
  match b with
  | None => None
  | Some req =>
      match as_object (field req "params") with
      | None => None
      | Some params =>
          match field params "tools" with
          | Some (JArr (JObj tool :: rest)) =>
              let tool := match as_string (field tool "name") with
                          | Some name => set_field tool "name" (JStr (f name))
                          | None => tool
                          end in
              Some (Some (set_field req "params"
                (JObj (set_field params "tools" (JArr (JObj tool :: rest))))))
          | _ => None
          end
      end
  end.

(** [ToolMuxer.stripPrefix] *)
Definition stripPrefix (b : body) (prefix : string) : body :=
  default b (map_first_tool (fun name => trim_prefix (trim_prefix name (prefix +:+ "_")) (prefix +:+ "/")) b).

(** [PoolRouter.StripPrefix] and [PoolRouter.AddPrefix] *)
Definition StripPrefix (r : PoolRouter.t) (b : body) : body :=
  if negb (PoolRouter.ShouldStrip r) || bool_decide (PoolRouter.Prefix r = EmptyString) then b
  else stripPrefix b (PoolRouter.Prefix r).

Definition AddPrefix (r : PoolRouter.t) (b : body) : body :=
  if bool_decide (PoolRouter.Prefix r = EmptyString) then b
  else default b (map_first_tool (fun name => PoolRouter.Prefix r +:+ "_" +:+ name) b).

(** ** The executor *)

(** What comes for a request; the text may be empty. *)
Inductive answer := Text (s : string) | Closed | Silent.

#[export] Instance answer_eq_dec : EqDecision answer.
Proof. solve_decision. Defined.

(** [getPool] finds a pool; a process is warm in time; it is still there; and the
    prefix of a backend ([None]: the field is nil). *)
Record exec_view := ExecView {
  getPool : string -> string -> bool;
  WaitForWarm : string -> bool;
  still_warm : string -> bool;
  getPrefix : option (string -> string);
  answered : string -> answer
}.

Section Executor.
Context (parse : string -> option json) (render : json -> string).
Context (as_int : json -> option Z) (sprint : json -> string) (nanos : Z).

Definition decode_rpc_error (v : json) (cur : option (Z * string)) : res (option (Z * string)) :=
  match v with
  | JNull => Ok None
  | JObj f =>
      let '(code, message) := default (0, EmptyString) cur in
      let dec_code v cur := match v with
                            | JNull => Ok cur
                            | _ => match as_int v with Some n => Ok n | None => Err type_error end
                            end in
      match decode_field "code" dec_code f code, decode_field "message" decode_string f message with
      | Ok code, Ok message => Ok (Some (code, message))
      | Err e, _ => Err e
      | _, Err e => Err e
      end
  | _ => Err type_error
  end.

(** The error of a [JSONRPCResponse]. *)
Definition decode_response (v : option json) : res (option (Z * string)) :=
  match v with
  | None => Err (Errorf "invalid JSON")
  | Some JNull => Ok None
  | Some (JObj f) =>
      match decode_field "jsonrpc" decode_string f EmptyString, decode_field "error" decode_rpc_error f None with
      | Ok _, Ok e => Ok e
      | Err e, _ => Err e
      | _, Err e => Err e
      end
  | Some _ => Err type_error
  end.

Definition stripPrefixFromRequestBody (body prefix : string) : string :=
  match parse body with
  | Some (JObj req) =>
      match as_object (field req "params") with
      | None => body
      | Some params =>
          match as_string (field params "name") with
          | None => body
          | Some name =>
              let stripped := stripToolPrefix name prefix in
              if bool_decide (stripped = name) then body
              else render (JObj (set_field req "params" (JObj (set_field params "name" (JStr stripped)))))
          end
      end
  | _ => body
  end.

(** Status, body and error. *)
Definition result : Type := Z * string * option error.

Definition http_status (code : Z) : Z := if (code <? 100) || (600 <=? code) then 400 else code.

(** The key of the request and the body that is sent. *)
Definition exec_identify (m : JSONRPCMessage.t) (b : option json) : string * option json :=
  let reqID := printed_id sprint (JSONRPCMessage.ID m) in
  if bool_decide (reqID = EmptyString) || bool_decide (reqID = "<nil>") then
    let reqID := "exec-" +:+ decimal_text nanos in
    (reqID, Some (marshal_message
       (JSONRPCMessage.mk (JSONRPCMessage.JSONRPC m) (JSONRPCMessage.Method m)
          (JSONRPCMessage.Params m) (JStr reqID))))
  else (reqID, b).

(** What is made of the response of the process. *)
Definition exec_result (x : answer) : result * list act :=
  match x with
  | Closed | Text EmptyString => ((504, EmptyString, Some (Errorf "no response received")), [Released])
  | Text response =>
      match decode_response (parse response) with
      | Err _ | Ok None => ((200, response, None), [Released])
      | Ok (Some (code, message)) =>
          ((http_status code, response, Some (Errorf ("JSON-RPC error: " +:+ message))), [Released])
      end
  | Silent => ((504, EmptyString, Some (Errorf "request timeout after 60s")), [Destroyed; Released])
  end.

Definition executeWithProcess (requestBody : string) (x : answer) : result * list act :=
  match decode_message (parse requestBody) with
  | Err e => ((400, EmptyString, Some (Wrapf "invalid JSON-RPC: %w" e)), [Released])
  | Ok m =>
      let '(reqID, b) := exec_identify m (parse requestBody) in
      let '(r, acts) := exec_result x in
      (r, sent reqID b ++ [Unregistered reqID] ++ acts)
  end.

(** The body a process is sent, up to the id. *)
Definition replayed (v : exec_view) (backendID requestBody : string) : string :=
  match getPrefix v with
  | Some prefixOf => let prefix := prefixOf backendID in
                     if bool_decide (prefix = EmptyString) then requestBody
                     else stripPrefixFromRequestBody requestBody prefix
  | None => requestBody
  end.

Definition ExecuteRequest (v : exec_view) (userID backendID requestBody : string) : result * list act :=
  if bool_decide (backendID = EmptyString) then
    ((0, EmptyString, Some (Errorf "empty backend ID - cannot execute request")), [])
  else if negb (getPool v userID backendID) then
    ((0, EmptyString, Some (Errorf ("no pool found for backend " +:+ backendID))), [])
  else if negb (WaitForWarm v backendID) then
    ((503, EmptyString,
      Some (Errorf ("timeout waiting for backend process to start (backend: " +:+ backendID +:+ ")"))), [Touched])
  else if negb (still_warm v backendID) then
    ((503, EmptyString, Some (Errorf "no warm processes available after waiting")), [Touched])
  else
    let '(r, acts) := executeWithProcess (replayed v backendID requestBody) (answered v backendID) in
    (r, [Touched; Taken] ++ acts).

(** The executor as the enforcer sees it: the error, or status and body. *)
Definition as_executor (error_text : error -> string) (v : exec_view) (userID backendID requestBody : string) :
    (Z * string) + string :=
  match (ExecuteRequest v userID backendID requestBody).1 with
  | (_, _, Some e) => inr (error_text e)
  | (status, response, None) => inl (status, response)
  end.
End Executor.

(** * Properties *)

Module ReplayFacts.
Section Facts.
Context (parse : string -> option json) (render : json -> string).
Context (as_int : json -> option Z) (sprint : json -> string) (nanos : Z).

Lemma set_field_same fields key v : field fields key = Some v -> set_field fields key v = fields.
Proof.
  induction fields as [|[k w] fields IH]; [done|]. rewrite field_cons. simpl.
  destruct (decide (k = key)) as [Hk|Hk].
  - rewrite bool_decide_eq_true_2 by done. by intros [= ->].
  - rewrite bool_decide_eq_false_2 by done. intros Hf. by rewrite IH.
Qed.

Lemma set_field_twice fields key v w : set_field (set_field fields key v) key w = set_field fields key w.
Proof.
  induction fields as [|[k u] fields IH]; cbn; [by rewrite bool_decide_eq_true_2|].
  case_bool_decide as Hk; cbn; [by rewrite bool_decide_eq_true_2|].
  by rewrite bool_decide_eq_false_2, IH.
Qed.

Lemma as_object_Some v f : as_object v = Some f -> v = Some (JObj f).
Proof. destruct v as [[]|]; simpl; congruence. Qed.
Lemma as_string_Some v s : as_string v = Some s -> v = Some (JStr s).
Proof. destruct v as [[]|]; simpl; congruence. Qed.

(** The executor and the multiplexer take the same prefix off a body. *)
Lemma strip_agrees text req prefix :
  (forall r, ToolMuxer.stripPrefixFromName (Some req) prefix = Some r -> parse (render (JObj r)) = Some (JObj r)) ->
  parse text = Some (JObj req) -> prefix <> EmptyString ->
  parse (stripPrefixFromRequestBody parse render text prefix) =
  JObj <$> ToolMuxer.stripPrefixFromName (Some req) prefix.
Proof.
  intros Hr Hp Hne. unfold stripPrefixFromRequestBody, ToolMuxer.stripPrefixFromName in *. rewrite Hp.
  destruct (as_object (field req "params")) as [params|] eqn:Hpar; [|done].
  destruct (as_string (field params "name")) as [name|] eqn:Hname; [|done].
  unfold stripToolPrefix. rewrite (bool_decide_eq_false_2 _ Hne).
  fold (ToolMuxer.stripped_name name prefix).
  case_bool_decide as Hs; [|by rewrite Hr]. rewrite Hs, Hp.
  apply as_string_Some in Hname. rewrite (set_field_same params "name") by done.
  apply as_object_Some in Hpar. by rewrite set_field_same.
Qed.

Lemma executeWithProcess_settled text x :
  x <> Silent -> settled ([Touched; Taken] ++ (executeWithProcess parse as_int sprint nanos text x).2).
Proof.
  intros Hx. unfold executeWithProcess. destruct (decode_message _); [|apply ServerFacts.settled_unsent; by right].
  destruct (exec_identify _ _ _ _) as [reqID b].
  assert (Hres : (exec_result parse as_int x).2 = [Released]).
  { unfold exec_result. destruct x as [[|c s]| |]; [done| |done|done].
    destruct (decode_response _ _) as [[[? ?]|]|]; done. }
  destruct (exec_result _ _ x) as [r acts]. cbn [snd] in Hres |- *. subst acts.
  rewrite !app_assoc. apply ServerFacts.settled_exchange. by left.
Qed.
End Facts.

(** A call that is queued left its request with its body. *)
Lemma enforced_row {CL : CelLib} {EE : EnforcerEnv} {GE : GateEnv}
    env env' u tl args bk j text opts e id queue e1 :
  enforce env env' u tl args bk j text opts e = (Stop (Queued id queue), e1) ->
  exists row, approvals (Enforcer.store e1) !! id = Some row /\
    ApprovalRequestRow.UserID row = u /\ ApprovalRequestRow.ToolName row = tl /\
    ApprovalRequestRow.BackendID row = bk /\ ApprovalRequestRow.RequestBody row = text.
Proof.
  intros He. pose proof (GateFacts.enforce_answers env env' u tl args bk j text opts e) as Ha.
  cbv zeta in Ha. rewrite He in Ha. cbn [fst snd] in Ha. inversion Ha; subst.
  exists row. split; [|done].
  match goal with Happ : approvals _ = <[_ := _]> _ |- _ => rewrite Happ end. apply lookup_insert_eq.
Qed.

Lemma queued_row {CL : CelLib} {EE : EnforcerEnv} {GE : GateEnv}
    {St : Type} {MS : MuxStore St} {ME : MuxEnv} {SH : Sha256}
    env env' visit (st : St) m u tl args j text b e id queue :
  enforced tl = true ->
  (checked_call env env' visit st m u tl args j text b e).1 = Queued id queue ->
  exists row, approvals
      (Enforcer.store (checked_call env env' visit st m u tl args j text b e).2) !! id = Some row /\
    ApprovalRequestRow.UserID row = u /\ ApprovalRequestRow.ToolName row = tl /\
    ApprovalRequestRow.BackendID row = backend_of visit tl m /\ ApprovalRequestRow.RequestBody row = text.
Proof.
  intros Hen. unfold checked_call. rewrite Hen.
  destruct (enforce _ _ _ _ _ _ _ _ _ _) as [[w|r] e2] eqn:He; cbn [fst snd].
  - by destruct (GateFacts.forward_cases visit u b m w) as [(? & ? & ->)| ->].
  - intros ->. by eapply enforced_row.
Qed.

(** The prefix of a backend that has only one. *)
Lemma only_prefix {St : Type} {MS : MuxStore St} visit (m : ToolMuxer.t St) bk p :
  visits visit -> (forall q, ToolMuxer.backendPrefixes m !! q = Some bk <-> q = p) ->
  ToolMuxer.GetPrefixForBackend visit bk m = p.
Proof.
  intros Hv Hone. unfold ToolMuxer.GetPrefixForBackend.
  destruct (list_find _ _) as [[i q]|] eqn:Hl.
  - apply list_find_Some in Hl as (_ & Hq & _). by apply Hone.
  - exfalso. apply list_find_None in Hl. rewrite Forall_forall in Hl. apply (Hl p); [|by apply Hone].
    apply MuxerFacts.visit_elem; [done|]. apply elem_of_dom. eexists. by apply Hone.
Qed.

Lemma forwarded_body {St : Type} {MS : MuxStore St} {ME : MuxEnv} {SH : Sha256}
    visit u b (m : ToolMuxer.t St) b' router pool :
  ToolMuxer.HandleToolsCall visit u b m = Ok (b', router, pool) -> PoolRouter.Prefix router <> EmptyString ->
  b' = ToolMuxer.stripPrefixFromName b (PoolRouter.Prefix router).
Proof.
  unfold ToolMuxer.HandleToolsCall. intros Hc Hne.
  repeat (case_match; try discriminate Hc); injection Hc as <- <- _; cbn in Hne |- *; try done;
    match goal with Hb : negb (bool_decide (?s = _)) = false |- _ =>
      apply negb_false_iff, bool_decide_eq_true in Hb; contradiction end.
Qed.

Lemma stripped_same tool p :
  ToolMuxer.stripped_name tool p = tool <-> ToolMuxer.matches_prefix tool p = false.
Proof.
  assert (Hshort : forall s q, q <> EmptyString -> has_prefix s q = true ->
    (String.length (trim_prefix s q) < String.length s)%nat).
  { intros s q Hq [r ->]%has_prefix_spec. rewrite trim_prefix_app, str_length_app.
    destruct q; [done|simpl; lia]. }
  assert (Hle : forall s q, (String.length (trim_prefix s q) <= String.length s)%nat).
  { intros s q. destruct (has_prefix s q) eqn:Hp; [|unfold trim_prefix; by rewrite Hp].
    destruct q; [unfold trim_prefix; rewrite Hp; simpl; by destruct s|]. by apply Nat.lt_le_incl, Hshort. }
  unfold ToolMuxer.stripped_name, ToolMuxer.matches_prefix. rewrite orb_false_iff.
  assert (Hn : forall c, p +:+ String c EmptyString <> EmptyString) by (by destruct p).
  split.
  - intros Hs. assert (Hfirst : has_prefix tool (p +:+ "_") = false).
    { destruct (has_prefix tool (p +:+ "_")) eqn:Hp; [exfalso|done].
      apply Hshort in Hp; [|done]. pose proof (Hle (trim_prefix tool (p +:+ "_")) (p +:+ "/")). rewrite Hs in *. lia. }
    split; [done|]. unfold trim_prefix at 2 in Hs. rewrite Hfirst in Hs.
    destruct (has_prefix tool (p +:+ "/")) eqn:Hp; [exfalso|done]. apply Hshort in Hp; [|done]. rewrite Hs in Hp. lia.
  - intros [Hu Hsl]. unfold trim_prefix at 2. rewrite Hu. unfold trim_prefix. by rewrite Hsl.
Qed.
End ReplayFacts.

Section ReplayTheorems.
Context {CL : CelLib} {EE : EnforcerEnv} {GE : GateEnv}.
Context {St : Type} {MS : MuxStore St} {ME : MuxEnv} {SH : Sha256}.
Context (parse : string -> option json) (render : json -> string).
Context (as_int : json -> option Z) (sprint : json -> string) (nanos : Z).
Import ReplayFacts.

(** C35: The call that is executed after approval is the call that was put before the
    enforcer: the text kept with a request of [mcpbridge_routing.go], as the
    executor sends it, decodes to what the multiplexer would have forwarded. *)
Theorem approved_call_is_the_call env env' visit (st : St) m u b tl args j req' e id queue bk p b'' router pool v :
  parse (marshal_body (Some req')) = Some (JObj req') ->
  (forall r, b'' = Some r -> parse (render (JObj r)) = Some (JObj r)) ->
  extract b = inr (tl, args, j, Some req') -> enforced tl = true ->
  (handleToolsCall env env' visit st m u b e).1 = Queued id queue ->
  visits visit -> ToolMuxer.FindBackendForTool visit tl m = Ok (bk, p) -> p <> EmptyString ->
  (forall q, ToolMuxer.backendPrefixes m !! q = Some bk <-> q = p) ->
  ToolMuxer.HandleToolsCall visit u (Some req') m = Ok (b'', router, pool) -> PoolRouter.Prefix router = p ->
  getPrefix v = Some (fun id => ToolMuxer.GetPrefixForBackend visit id m) ->
  exists row, approvals (Enforcer.store (handleToolsCall env env' visit st m u b e).2) !! id = Some row /\
    ApprovalRequestRow.UserID row = u /\ ApprovalRequestRow.BackendID row = bk /\
    parse (replayed parse render v bk (ApprovalRequestRow.RequestBody row)) = JObj <$> b''.
Proof.
  intros Hmb Hr Hex Hen Hq Hv Hfind Hne Hone Hcall Hp Hgp. unfold handleToolsCall in *. rewrite Hex in *.
  destruct (queued_row env env' visit st m u tl args j _ _ e id queue Hen Hq) as (row & Hrow & Hu & _ & Hb & Hbody).
  exists row. split_and!; [done..| |].
  { rewrite Hb. unfold backend_of. by rewrite Hen, Hfind. }
  unfold replayed. rewrite Hgp, (only_prefix visit m bk p), bool_decide_eq_false_2 by done.
  assert (Hb'' : b'' = ToolMuxer.stripPrefixFromName (Some req') p).
  { rewrite <- Hp. eapply forwarded_body; [exact Hcall | by rewrite Hp]. }
  rewrite Hbody. erewrite strip_agrees; [by rewrite Hb''| |exact Hmb|done].
  intros r Hrr. apply Hr. by rewrite Hb''.
Qed.

(** The second endpoint keeps the name as the backend has it, and the executor
    takes a prefix off it all the same: a tool whose own name begins with the
    prefix of its backend is executed under another name. *)
Theorem v2_replay_renames env env' u ns tl backend params args id reqID e ap queue p v e' :
  parse (marshal_body (v2_request tl args id)) = JObj <$> v2_request tl args id ->
  (forall r, v2_request (ToolMuxer.stripped_name tl (p ns)) args id = Some r ->
     parse (render (JObj r)) = Some (JObj r)) ->
  v2toolCall env env' u ns tl backend params args id reqID e = (Queued ap queue, e') ->
  getPrefix v = Some p -> p ns <> EmptyString ->
  exists row, approvals (Enforcer.store e') !! ap = Some row /\
    parse (replayed parse render v ns (ApprovalRequestRow.RequestBody row)) =
      JObj <$> v2_request (ToolMuxer.stripped_name tl (p ns)) args id /\
    (ToolMuxer.stripped_name tl (p ns) = tl <-> ToolMuxer.matches_prefix tl (p ns) = false).
Proof.
  intros Hmb Hr Hq Hgp Hne. unfold v2toolCall in Hq. destruct (_ && _) in Hq; [done|].
  destruct (has_prefix tl _) in Hq; [done|].
  destruct (enforce _ _ _ _ _ _ _ _ _ _) as [[w|r] e1] eqn:He in Hq; [done|]. injection Hq as -> ->.
  destruct (enforced_row _ _ _ _ _ _ _ _ _ _ _ _ _ He) as (row & Hrow & _ & _ & _ & Hbody).
  exists row. split_and!; [done| |apply stripped_same]. unfold replayed.
  rewrite Hgp, bool_decide_eq_false_2 by done.
  rewrite Hbody. exact (strip_agrees parse render _ [("jsonrpc", JStr "2.0"); ("method", JStr "tools/call");
    ("params", JObj [("name", JStr tl); ("arguments", JObj args)]); ("id", id)] (p ns) Hr Hmb Hne).
Qed.

(** The legacy handler keeps no text: what is approved there is refused by the
    executor, whatever the pool and the process do. *)
Theorem legacy_approval_never_executes env env' visit (st : St) m u b e id queue v :
  parse EmptyString = None ->
  (handleToolsCall_legacy env env' visit st m u b e).1 = Queued id queue ->
  exists row, approvals (Enforcer.store (handleToolsCall_legacy env env' visit st m u b e).2) !! id = Some row /\
    let r := ExecuteRequest parse render as_int sprint nanos v u (ApprovalRequestRow.BackendID row)
               (ApprovalRequestRow.RequestBody row) in
    r.1.2 <> None /\ (forall b, Sent b ∉ r.2).
Proof.
  intros Hp Hq. unfold handleToolsCall_legacy in *. destruct (extract_legacy b) as [[tl args] j].
  destruct (enforced tl) eqn:Hen.
  2: { unfold checked_call in Hq. rewrite Hen in Hq. cbn [fst] in Hq.
       by destruct (GateFacts.forward_cases visit u b m None) as [(? & ? & Hf)|Hf]; rewrite Hf in Hq. }
  destruct (queued_row env env' visit st m u tl args j _ _ e id queue Hen Hq) as (row & Hrow & _ & _ & _ & Hbody).
  exists row. split; [done|]. rewrite Hbody. unfold ExecuteRequest.
  assert (Hre : replayed parse render v (ApprovalRequestRow.BackendID row) EmptyString = EmptyString).
  { unfold replayed, stripPrefixFromRequestBody. rewrite Hp. by repeat case_match. }
  rewrite Hre. unfold executeWithProcess. rewrite Hp. cbn [decode_message].
  repeat case_match; (split; [done|]); intros b0 Hin; cbn in Hin; rewrite ?elem_of_cons, ?elem_of_nil in Hin; naive_solver.
Qed.

(** The process goes back to the pool and the request is taken off the table on every
    path, except that one that stays silent is killed and put back all the same. *)
Theorem executor_settles v u bk text :
  let acts := (ExecuteRequest parse render as_int sprint nanos v u bk text).2 in
  settled acts \/ (answered v bk = Silent /\ balance acts = -1 /\ exists l, acts = l ++ [Destroyed; Released]).
Proof.
  unfold ExecuteRequest. repeat (case_match; [by left|]).
  destruct (executeWithProcess _ _ _ _ _ _) as [r acts] eqn:He. cbn [snd].
  destruct (decide (answered v bk = Silent)) as [Hs|Hs].
  - rewrite Hs in He. unfold executeWithProcess in He. destruct (decode_message _); simplify_eq.
    + right. destruct (exec_identify _ _ _ _) as [reqID b]. cbn in He. simplify_eq.
      split; [done|]. split; [done|]. by exists [Touched; Taken; Registered reqID; Sent b; Unregistered reqID].
    + left. apply ServerFacts.settled_unsent. by right.
  - left. pose proof (executeWithProcess_settled parse as_int sprint nanos (replayed parse render v bk text) _ Hs) as Hset.
    by rewrite He in Hset.
Qed.

(** What the enforcer records: a completed request has status 200 and the text of the
    process, which is not empty and no error; an error of the process is a failure
    whose status, were it recorded, is that of an HTTP response. *)
Theorem executor_reports error_text v u bk text :
  match as_executor parse render as_int sprint nanos error_text v u bk text with
  | inl (status, response) =>
      status = 200 /\ response <> EmptyString /\ answered v bk = Text response /\
      (forall e, decode_response as_int (parse response) <> Ok (Some e))
  | inr _ =>
      exists status response e, (ExecuteRequest parse render as_int sprint nanos v u bk text).1 =
        (status, response, Some e) /\ (status = 0 \/ 100 <= status < 600)
  end.
Proof.
  unfold as_executor.
  assert (Hshape : match (ExecuteRequest parse render as_int sprint nanos v u bk text).1 with
    | (status, response, None) => status = 200 /\ response <> EmptyString /\ answered v bk = Text response /\
        (forall e, decode_response as_int (parse response) <> Ok (Some e))
    | (status, response, Some e) => status = 0 \/ 100 <= status < 600 end).
  { unfold ExecuteRequest.
    do 4 (match goal with |- context [if ?c then _ else _] => destruct c end; [cbn [fst snd]; lia|]).
    unfold executeWithProcess.
    destruct (decode_message _); [|cbn [fst snd]; lia]. destruct (exec_identify _ _ _ _) as [reqID b].
    unfold exec_result. destruct (answered v bk) as [[|c s]| |] eqn:Ha;
      [cbn [fst snd]; lia| |cbn [fst snd]; lia|cbn [fst snd]; lia].
    destruct (decode_response _ _) as [[[code msg]|]|] eqn:Hd; cbn [fst snd]; [|split_and!; [done..|intros; congruence]|split_and!; [done..|intros; congruence]].
    unfold http_status. right. destruct (_ || _) eqn:Hc; [lia|]. apply orb_false_iff in Hc. lia. }
  destruct (ExecuteRequest _ _ _ _ _ _ _ _ _).1 as [[status response] [e|]]; [|done].
  do 3 eexists. by split.
Qed.

(** Names of lists of tools: taking the prefix off undoes putting it on, unless what is
    left begins with the prefix and a slash. *)
Theorem prefix_roundtrip (r : PoolRouter.t) req params tool rest name :
  PoolRouter.ShouldStrip r = true -> PoolRouter.Prefix r <> EmptyString ->
  field req "params" = Some (JObj params) -> field params "tools" = Some (JArr (JObj tool :: rest)) ->
  field tool "name" = Some (JStr name) -> has_prefix name (PoolRouter.Prefix r +:+ "/") = false ->
  StripPrefix r (AddPrefix r (Some req)) = Some req.
Proof.
  intros Hs Hne Hp Ht Hn Hsl. unfold StripPrefix, AddPrefix. rewrite Hs, !bool_decide_eq_false_2 by done.
  cbn [negb orb]. assert (Hmap : forall f req params tool name, field req "params" = Some (JObj params) ->
    field params "tools" = Some (JArr (JObj tool :: rest)) -> field tool "name" = Some (JStr name) ->
    map_first_tool f (Some req) = Some (Some (set_field req "params" (JObj (set_field params "tools"
      (JArr (JObj (set_field tool "name" (JStr (f name))) :: rest))))))).
  { intros f rq pa tl nm H1 H2 H3. unfold map_first_tool. by rewrite H1; cbn [as_object]; rewrite H2, H3. }
  rewrite (Hmap _ req params tool name) by done. cbn [from_option id]. unfold stripPrefix.
  erewrite Hmap; [|by rewrite field_set, decide_True|by rewrite field_set, decide_True|by rewrite field_set, decide_True].
  cbn [from_option id]. rewrite !set_field_twice, str_app_assoc, trim_prefix_app. unfold trim_prefix. rewrite Hsl.
  rewrite (set_field_same tool), (set_field_same params), (set_field_same req); done.
Qed.
End ReplayTheorems.

(** ** Concrete calls *)

Section Witnesses.
#[local] Existing Instance demo_cel.
#[local] Existing Instance demo_world.
#[local] Existing Instance demo_mux_env.
#[local] Existing Instance demo_sha.
#[local] Existing Instance demo_tables.

(** A call, what is left of it for the backend, and their texts. *)
Definition demo_call (name : string) : list (string * json) :=
  [("method", JStr "tools/call"); ("id", JNum 1 0);
   ("params", JObj [("name", JStr name); ("arguments", JObj [])])].
Definition demo_v2 (name : string) : list (string * json) :=
  [("jsonrpc", JStr "2.0"); ("method", JStr "tools/call");
   ("params", JObj [("name", JStr name); ("arguments", JObj [])]); ("id", JNum 1 0)].

Definition demo_parse (text : string) : option json :=
  if bool_decide (text = "call") then Some (JObj (demo_call "slk_purge"))
  else if bool_decide (text = "stripped") then Some (JObj (demo_call "purge"))
  else if bool_decide (text = "v2") then Some (JObj (demo_v2 "slk_purge"))
  else if bool_decide (text = "v2 stripped") then Some (JObj (demo_v2 "purge"))
  else None.
Definition demo_render (j : json) : string :=
  match j with JObj (("method", _) :: _) => "stripped" | _ => "v2 stripped" end.

#[local] Instance demo_gate : GateEnv := {|
  parse_object := fun _ => Err (Errorf "not an object");
  clean_string := fun s => s;
  marshal_body := fun b => match b with Some (("method", _) :: _) => "call" | _ => "v2" end;
  marshal_safety := fun _ => "{}"
|}.

Definition demo_view : exec_view := ExecView (fun _ _ => true) (fun _ => true) (fun _ => true)
  (Some (fun id => ToolMuxer.GetPrefixForBackend by_elements id demo_mux)) (fun _ => Silent).

Definition demo_enforcer : Enforcer.t := enforcer_with CELEngine.NewCELEngine ∅
  (mkdb ∅ ∅ ∅ [] true ∅ ∅ ∅ ∅ ∅ ∅ {["u1"]} (<["slack" := "slk"]> ∅) [] ∅).

Definition demo_given : list (string * json) :=
  [("method", JStr "tools/call"); ("id", JNum 1 0);
   ("params", JObj [("name", JStr "slk_purge"); ("arguments", JObj [("justification", JStr why)])])].

Lemma approved_call_is_the_call_witness :
  exists row, ApprovalRequestRow.BackendID row = "slack" /\
    demo_parse (replayed demo_parse demo_render demo_view "slack" (ApprovalRequestRow.RequestBody row)) =
      Some (JObj (demo_call "purge")).
Proof.
  destruct (approved_call_is_the_call demo_parse demo_render plain_call plain_call by_elements demo_tables_store
    demo_mux "u1" (Some demo_given) "slk_purge" [] why (demo_call "slk_purge") demo_enforcer "id" "admin"
    "slack" "slk" (Some (demo_call "purge")) (PoolRouter.mk "u1" "slack" "slk" true)
    (PoolRequest.mk "slack" "u1" "run" 1 2 ["SLACK_TOKEN=xoxb"; "DB=db_u1"; "PATH=/bin"] "newline")
    demo_view) as (row & _ & _ & Hb & Hr).
  - reflexivity.
  - intros r [= <-]. reflexivity.
  - vm_compute. reflexivity.
  - reflexivity.
  - vm_compute. reflexivity.
  - exact by_elements_visits.
  - vm_compute. reflexivity.
  - discriminate.
  - intros q. rewrite demo_prefixes, lookup_insert_Some, lookup_singleton_Some. naive_solver.
  - vm_compute. reflexivity.
  - reflexivity.
  - reflexivity.
  - exists row. split; [exact Hb | exact Hr].
Defined.

Definition demo_v2_call : response * Enforcer.t :=
  v2toolCall plain_call plain_call "u1" "slack" "slk_purge" (demo_backend "slack" "slk")
    [("justification", JStr why)] [] (JNum 1 0) (JNum 2 0) demo_enforcer.

(** The tool slk_purge of the backend is executed as purge. *)
Lemma v2_replay_renames_witness :
  exists row, approvals (Enforcer.store demo_v2_call.2) !! "id" = Some row /\
    demo_parse (replayed demo_parse demo_render demo_view "slack" (ApprovalRequestRow.RequestBody row)) =
      Some (JObj (demo_v2 "purge")).
Proof.
  assert (Hq : demo_v2_call = (Queued "id" "admin", demo_v2_call.2)) by (vm_compute; reflexivity).
  destruct (v2_replay_renames demo_parse demo_render plain_call plain_call "u1" "slack" "slk_purge"
    (demo_backend "slack" "slk") [("justification", JStr why)] [] (JNum 1 0) (JNum 2 0) demo_enforcer "id"
    "admin" (fun id => ToolMuxer.GetPrefixForBackend by_elements id demo_mux) demo_view demo_v2_call.2)
    as (row & Hrow & Hr & _).
  - reflexivity.
  - intros r [= <-]. reflexivity.
  - exact Hq.
  - reflexivity.
  - vm_compute. discriminate.
  - exists row. split; [exact Hrow | exact Hr].
Defined.

Definition demo_legacy : response * Enforcer.t :=
  handleToolsCall_legacy plain_call plain_call by_elements demo_tables_store demo_mux "u1"
    (Some demo_given) demo_enforcer.

Lemma legacy_approval_never_executes_witness :
  exists row, approvals (Enforcer.store demo_legacy.2) !! "id" = Some row /\
    (ExecuteRequest demo_parse demo_render (fun _ => None) (fun _ => EmptyString) 0 demo_view "u1"
       (ApprovalRequestRow.BackendID row) (ApprovalRequestRow.RequestBody row)).1.2 <> None.
Proof.
  assert (Hq : demo_legacy.1 = Queued "id" "admin") by (vm_compute; reflexivity).
  destruct (legacy_approval_never_executes demo_parse demo_render (fun _ => None) (fun _ => EmptyString) 0
    plain_call plain_call by_elements demo_tables_store demo_mux "u1" (Some demo_given) demo_enforcer "id" "admin"
    demo_view eq_refl Hq) as (row & Hrow & Hr & _).
  exists row. split; [exact Hrow | exact Hr].
Defined.

Lemma prefix_roundtrip_witness :
  let r := PoolRouter.mk "u1" "slack" "slk" true in
  let req := [("params", JObj [("tools", JArr [JObj [("name", JStr "slk_purge")]])])] in
  StripPrefix r (AddPrefix r (Some req)) = Some req.
Proof.
  intros r req. apply (prefix_roundtrip r req [("tools", JArr [JObj [("name", JStr "slk_purge")]])]
    [("name", JStr "slk_purge")] [] "slk_purge"); [done|discriminate|done..].
Defined.
End Witnesses.
