(* ===== verification/RateLimitWeb.v ===== *)
(** * The pages for rate limits: [src/web/ratelimit_handlers.go], [web.go]

    What administrators see of the buckets and change of their configuration: the
    buckets with the share that is used, the limits of a backend, and the reset of a
    user.  The enforcer of the console may be nil. *)
From S2P Require Import Prelude GoStrings Sql Crypto EnforcerTypes CelEngine EnforcerStore Enforcer EnforcerCalls Http.
From S2P Require Accounts RateLimit WebBackends EnforcerWeb.
Open Scope Z_scope.
Open Scope go_scope.

Import RateLimit.

Module BucketDisplay.
Record t := mk {
  UserID : string;
  BackendID : string;
  BucketType : string;
  Capacity : Z;
  CurrentLevel : Z;
  RefillRate : Z;
  PercentageUsed : Z
}.
End BucketDisplay.

Inductive page :=
| Plain (r : response)
| RateLimitsPage (buckets : list BucketDisplay.t) (configs : list BackendConfig.t)
    (error success : string)
| StatusJson (risk resource : Z * Z * Z).

(** The share of a bucket that is used, in int64. *)
Definition percentage_used (capacity level : Z) : Z :=
  if 0 <? capacity then go_div ((capacity -! level) *! 100) capacity else 0.

Definition ratelimits_page : string := "/web/admin/ratelimits".

(** A number of the form, or the built-in one. *)
Definition positive_or (n default : Z) : Z := if n <=? 0 then default else n.

Module RateLimitHandler.
Section RateLimitHandler.
Context `{CelLib} `{EnforcerEnv}.
Local Abbreviation t := (option Enforcer.t).
Local Abbreviation Handler := (t -> page * t).

(** [Enforcer.GetAllRateLimitStates] and what the page makes of it. *)
Definition GetAllRateLimitStates (e : Enforcer.t) : list BucketStateForDB.t :=
  RateLimitManager.GetAllStates (Enforcer.rateLimit e).

Definition display (b : BucketStateForDB.t) : BucketDisplay.t :=
  BucketDisplay.mk (BucketStateForDB.UserID b) (BucketStateForDB.BackendID b) (BucketStateForDB.BucketType b)
    (BucketStateForDB.Capacity b) (BucketStateForDB.CurrentLevel b) (BucketStateForDB.RefillRate b)
    (percentage_used (BucketStateForDB.Capacity b) (BucketStateForDB.CurrentLevel b)).

Definition GetRateLimitConfigs (e : Enforcer.t) : list BackendConfig.t :=
  RateLimitManager.GetAllConfigs (Enforcer.rateLimit e).

Definition requireEnforcer (k : Enforcer.t -> page * Enforcer.t) : Handler := fun s =>
  match s with
  | None => (Plain (HttpError 503 "Enforcer is not enabled"), s)
  | Some e => let '(p, e') := k e in (p, Some e')
  end.

Definition ListRateLimits (r : request) : Handler :=
  if negb (isGet r) then fun s => (Plain MethodNotAllowed, s)
  else requireEnforcer (fun e =>
    (RateLimitsPage (display <$> GetAllRateLimitStates e) (GetRateLimitConfigs e)
       (query r "error") (query r "success"), e)).

Definition UpdateRateLimitConfig (r : request) : Handler :=
  if negb (isPost r) then fun s => (Plain MethodNotAllowed, s)
  else requireEnforcer (fun e =>
    let backendID := form r "backend_id" in
    let number key default := positive_or (WebBackends.parseInt (form r key)) default in
    if bool_decide (backendID = EmptyString) then
      (Plain (Redirect (ratelimits_page +:+ "?error=Backend+ID+required")), e)
    else
      (Plain (Redirect (ratelimits_page +:+ "?success=Rate+limit+config+updated+for+" +:+ backendID)),
       Enforcer.SetRateLimitConfig backendID (number "risk_capacity" 100) (number "risk_refill" 20)
         (number "resource_capacity" 200) (number "resource_refill" 40) e)).

Definition ResetUserBuckets (r : request) (tm : Time) : Handler :=
  if negb (isPost r) then fun s => (Plain MethodNotAllowed, s)
  else requireEnforcer (fun e =>
    let userID := form r "user_id" in
    if bool_decide (userID = EmptyString) then
      (Plain (Redirect (ratelimits_page +:+ "?error=User+ID+required")), e)
    else
      (Plain (Redirect (ratelimits_page +:+ "?success=Rate+limits+reset+for+user")),
       Enforcer.ResetUserRateLimit userID (form r "backend_id") tm e)).

(** Not registered by [web.go]. *)
Definition GetRateLimitsAPI (r : request) : Handler :=
  requireEnforcer (fun e =>
    if bool_decide (query r "user_id" = EmptyString) then
      (Plain (HttpError 400 "user_id is required"), e)
    else
      let '(risk, resource) :=
        RateLimitManager.GetBucketStatus (query r "user_id") (query r "backend_id") (Enforcer.rateLimit e) in
      (StatusJson risk resource, e)).

(** The routes, all for administrators ([None]: not a page of this handler). *)
Definition route (path : string) (r : request) (tm : Time) : option Handler :=
  if bool_decide (path = ratelimits_page) then Some (ListRateLimits r)
  else if bool_decide (path = ratelimits_page +:+ "/config") then Some (UpdateRateLimitConfig r)
  else if bool_decide (path = ratelimits_page +:+ "/reset") then Some (ResetUserBuckets r tm)
  else None.

Definition serve (user : option Accounts.UserRow.t) (path : string) (r : request) (tm : Time) (s : t) :
    option page * t :=
  match route path r tm with
  | None => (None, s)
  | Some h =>
      match user with
      | None => (Some (Plain (Redirect "/web/login")), s)
      | Some u =>
          if bool_decide (Accounts.UserRow.Role u = "admin")
          then let '(p, s') := h s in (Some p, s')
          else (Some (Plain (HttpError 403 "Forbidden")), s)
      end
  end.

Definition serve_all (visits : list (option Accounts.UserRow.t * string * request * Time)) (s : t) : t :=
  foldl (fun s v => (serve v.1.1.1 v.1.1.2 v.1.2 v.2 s).2) s visits.
End RateLimitHandler.
End RateLimitHandler.

(** * Properties *)

Module RateLimitWebFacts.
Section Facts.
Context `{CelLib} `{EnforcerEnv}.
Import RateLimitHandler BucketManagerFacts.
Implicit Types (e : Enforcer.t) (s : option Enforcer.t).

(** Numbers a bucket can be run with. *)
Definition form_in_range (r : request) : Prop :=
  WebBackends.parseInt (form r "risk_capacity") <= MaxCapacity /\
  WebBackends.parseInt (form r "resource_capacity") <= MaxCapacity /\
  WebBackends.parseInt (form r "risk_refill") <= MaxRate /\
  WebBackends.parseInt (form r "resource_refill") <= MaxRate.

Definition limits (e : Enforcer.t) : BucketManager.t := RateLimitManager.manager (Enforcer.rateLimit e).

Definition sound s : Prop := match s with Some e => ok (limits e) | None => True end.

Lemma positive_or_range n d m : 0 < d <= m -> n <= m -> 0 < positive_or n d <= m.
Proof. unfold positive_or. destruct (n <=? 0) eqn:Hn; lia. Qed.

Lemma limits_set b rc rr sc sr e :
  limits (Enforcer.SetRateLimitConfig b rc rr sc sr e) =
  BucketManager.SetConfig b "resource" sc sr (BucketManager.SetConfig b "risk" rc rr (limits e)).
Proof. done. Qed.

Lemma limits_reset u b tm e :
  limits (Enforcer.ResetUserRateLimit u b tm e) = BucketManager.ResetUserBuckets u b tm (limits e).
Proof. done. Qed.

Lemma update_sound r s : form_in_range r -> sound s -> sound (UpdateRateLimitConfig r s).2.
Proof.
  intros (H1 & H2 & H3 & H4) Hs. unfold UpdateRateLimitConfig. destruct (negb (isPost r)); [done|].
  destruct s as [e|]; [|done]. cbn [requireEnforcer]. case_bool_decide; [done|]. cbn [snd sound] in *.
  rewrite limits_set. apply (manager_step_ok (MSetConfig _ "resource" _ _)).
  { split; cbn; [apply (positive_or_range _ 200) in H2|apply (positive_or_range _ 40) in H4]; lia. }
  apply (manager_step_ok (MSetConfig _ "risk" _ _)); [|done].
  split; cbn; [apply (positive_or_range _ 100) in H1|apply (positive_or_range _ 20) in H3]; lia.
Qed.

Lemma reset_sound r tm s : sound s -> sound (ResetUserBuckets r tm s).2.
Proof.
  intros Hs. unfold ResetUserBuckets. destruct (negb (isPost r)); [done|].
  destruct s as [e|]; [|done]. cbn [requireEnforcer]. case_bool_decide; [done|].
  by apply (manager_step_ok (MResetUserBuckets _ _ _)).
Qed.

Lemma list_keeps r s : (ListRateLimits r s).2 = s.
Proof. unfold ListRateLimits. destruct (negb _); [done|]. by destruct s. Qed.

(** The limits are only touched by an administrator at two paths. *)
Lemma serve_cases u path r tm s :
  (serve u path r tm s).2 = s \/
  (exists a, u = Some a /\ Accounts.UserRow.Role a = "admin" /\
    ((path = ratelimits_page +:+ "/config" /\ (serve u path r tm s).2 = (UpdateRateLimitConfig r s).2) \/
     (path = ratelimits_page +:+ "/reset" /\ (serve u path r tm s).2 = (ResetUserBuckets r tm s).2))).
Proof.
  unfold serve, route. case_bool_decide as H1; [|case_bool_decide as H2; [|case_bool_decide as H3; [|by left]]];
    (destruct u as [a|]; [|by left]); (case_bool_decide as Ha; [|by left]).
  - left. pose proof (list_keeps r s) as Hk. by destruct (ListRateLimits r s).
  - right. exists a. split_and!; [done..|]. left. split; [done|]. by destruct (UpdateRateLimitConfig r s).
  - right. exists a. split_and!; [done..|]. right. split; [done|]. by destruct (ResetUserBuckets r tm s).
Qed.

Lemma serve_all_cons u path r tm visits s :
  serve_all ((u, path, r, tm) :: visits) s = serve_all visits (serve u path r tm s).2.
Proof. done. Qed.
End Facts.
End RateLimitWebFacts.

Section RateLimitWebTheorems.
Context `{CelLib} `{EnforcerEnv}.
Import RateLimitHandler RateLimitWebFacts BucketManagerFacts.
Implicit Types (e : Enforcer.t) (s : option Enforcer.t).

(** No sequence of requests to these pages takes the limits out of order, when the
    numbers of the forms are in the range a bucket can be run with: every bucket
    stays under its key and within its capacity. *)
Theorem ratelimit_pages_sound visits s :
  Forall (fun v => form_in_range v.1.2) visits -> sound s -> sound (serve_all visits s).
Proof.
  revert s. induction visits as [|[[[u path] r] tm] visits IH]; intros s; [done|].
  intros [Hr Hrest]%Forall_cons Hs. rewrite serve_all_cons. apply IH; [done|].
  destruct (serve_cases u path r tm s) as [->|(a & _ & _ & [[_ ->]|[_ ->]])];
    [done | by apply update_sound | by apply reset_sound].
Qed.

(** Who is not an administrator changes nothing here. *)
Theorem ratelimit_pages_guarded visits s :
  Forall (fun v => forall a, v.1.1.1 = Some a -> Accounts.UserRow.Role a <> "admin") visits ->
  serve_all visits s = s.
Proof.
  revert s. induction visits as [|[[[u path] r] tm] visits IH]; intros s; [done|].
  intros [Hr Hrest]%Forall_cons. rewrite serve_all_cons, IH by done.
  destruct (serve_cases u path r tm s) as [->|(a & Ha & Hadmin & _)]; [done|].
  by destruct (Hr a Ha).
Qed.

(** What the form for a backend does: the limits new buckets are created with are
    positive, those the form gives where it gives positive ones; no bucket that
    exists is changed, so the new limits do not reach the users who have one. *)
Theorem update_spares_buckets r e :
  isPost r = true -> form r "backend_id" <> EmptyString ->
  exists e', (UpdateRateLimitConfig r (Some e)).2 = Some e' /\
    BucketManager.buckets (limits e') = BucketManager.buckets (limits e) /\
    (forall u ty now, ty = "risk" \/ ty = "resource" ->
       BucketManager.buckets (limits e) !! BucketManager.bucketKey u (form r "backend_id") ty = None ->
       let b := (BucketManager.GetOrCreate u (form r "backend_id") ty now (limits e')).1 in
       0 < BucketState.Capacity b /\ 0 < BucketState.RefillRate b /\
       BucketState.CurrentLevel b = BucketState.Capacity b /\
       (0 < WebBackends.parseInt (form r (ty +:+ "_capacity")) ->
          BucketState.Capacity b = WebBackends.parseInt (form r (ty +:+ "_capacity"))) /\
       (0 < WebBackends.parseInt (form r (ty +:+ "_refill")) ->
          BucketState.RefillRate b = WebBackends.parseInt (form r (ty +:+ "_refill")))) /\
    (forall u ty now b, BucketManager.buckets (limits e) !! BucketManager.bucketKey u (form r "backend_id") ty = Some b ->
       (BucketManager.GetOrCreate u (form r "backend_id") ty now (limits e')).1 = b).
Proof.
  intros Hpost Hb. unfold UpdateRateLimitConfig. rewrite Hpost. cbn [negb requireEnforcer].
  rewrite bool_decide_eq_false_2 by done. eexists. split; [reflexivity|]. rewrite limits_set.
  split; [done|]. split.
  - intros u ty now Hty Hnone. unfold BucketManager.GetOrCreate. cbn [BucketManager.buckets BucketManager.SetConfig BucketManager.with_config].
    rewrite Hnone. cbn [fst]. unfold BucketManager.fresh_bucket.
    cbn [BucketManager.config BucketManager.SetConfig BucketManager.with_config].
    assert (Hne : BucketManager.configKey (form r "backend_id") "resource" <>
                  BucketManager.configKey (form r "backend_id") "risk").
    { unfold BucketManager.configKey. intros Heq. apply (inj (String.append _)) in Heq. done. }
    destruct Hty as [-> | ->];
      [change ("risk" +:+ "_capacity") with "risk_capacity"; change ("risk" +:+ "_refill") with "risk_refill"
      |change ("resource" +:+ "_capacity") with "resource_capacity"; change ("resource" +:+ "_refill") with "resource_refill"].
    + rewrite lookup_insert_ne, lookup_insert_eq by done. cbn [BucketState.Capacity BucketState.RefillRate
        BucketState.CurrentLevel BucketConfig.Capacity BucketConfig.RefillRate]. unfold positive_or.
      split_and!; try done; try (destruct (_ <=? 0) eqn:?; lia).
      all: intros; match goal with |- context [?n <=? 0] => destruct (n <=? 0) eqn:? end; lia.
    + rewrite lookup_insert_eq. cbn [BucketState.Capacity BucketState.RefillRate
        BucketState.CurrentLevel BucketConfig.Capacity BucketConfig.RefillRate]. unfold positive_or.
      split_and!; try done; try (destruct (_ <=? 0) eqn:?; lia).
      all: intros; match goal with |- context [?n <=? 0] => destruct (n <=? 0) eqn:? end; lia.
  - intros u ty now b Hlk. unfold BucketManager.GetOrCreate.
    cbn [BucketManager.buckets BucketManager.SetConfig BucketManager.with_config]. by rewrite Hlk.
Qed.

(** The share that is shown lies between 0 and 100 for every bucket within its capacity,
    up to the capacity at which the product leaves the range of an [int]. *)
Theorem percentage_bounds capacity level :
  0 <= level <= capacity -> 100 * capacity <= MaxInt64 ->
  0 <= percentage_used capacity level <= 100 /\
  (percentage_used capacity level = 0 <-> capacity = 0 \/ 100 * (capacity - level) < capacity) /\
  (level = 0 -> 0 < capacity -> percentage_used capacity level = 100).
Proof.
  intros Hl Hc. unfold percentage_used. destruct (0 <? capacity) eqn:Hpos; [|lia].
  assert (Hw : (capacity -! level) *! 100 = (capacity - level) * 100).
  { rewrite (wrap64_id (capacity - level)) by (unfold int64; lia). apply wrap64_id. unfold int64; lia. }
  rewrite Hw. unfold go_div. rewrite Z.quot_div_nonneg by lia.
  assert (Hd : 0 <= (capacity - level) * 100 / capacity <= 100).
  { split; [apply Z.div_pos; lia|]. apply Z.div_le_upper_bound; lia. }
  rewrite wrap64_id by (unfold int64; lia). split_and!; [lia|lia| |].
  - rewrite Z.div_small_iff by lia. lia.
  - intros -> _. rewrite Z.sub_0_r, Z.mul_comm. by apply Z.div_mul; lia.
Qed.

(** Past it, a bucket that is used up is shown with a negative share. *)
Theorem percentage_overflows :
  exists capacity, 0 < capacity <= MaxCapacity /\ percentage_used capacity 0 < 0.
Proof. exists 100000000000000000. split; [lia|]. by vm_compute. Qed.
End RateLimitWebTheorems.

(** ** Concrete requests *)

Section Witnesses.
#[local] Existing Instance demo_cel.
#[local] Existing Instance demo_world.
Import RateLimitHandler RateLimitWebFacts BucketManagerFacts.

Definition demo_console : Enforcer.t := Enforcer.with_rateLimit RateLimitManager.NewRateLimitManager
  (enforcer_with CELEngine.NewCELEngine ∅ empty_db).

Definition demo_limits (meth : string) : request :=
  Request meth (fun k => if bool_decide (k = "backend_id") then "slack"
                         else if bool_decide (k = "risk_capacity") then "50"
                         else if bool_decide (k = "user_id") then "alice" else EmptyString)
    (fun _ => EmptyString) (fun _ => None) (fun _ => EmptyString) true.

Definition demo_admin : Accounts.UserRow.t :=
  Accounts.UserRow.mk "root" "Root" "root@x" EmptyString EmptyString "admin" 0.

Lemma demo_console_sound : sound (Some demo_console).
Proof. apply empty_ok. Qed.

Lemma ratelimit_pages_sound_witness :
  sound (serve_all [(Some demo_admin, "/web/admin/ratelimits/config", demo_limits "POST", 5);
                    (Some demo_admin, "/web/admin/ratelimits/reset", demo_limits "POST", 6)] (Some demo_console)).
Proof.
  apply ratelimit_pages_sound; [|exact demo_console_sound].
  repeat constructor; vm_compute; discriminate.
Defined.

Lemma ratelimit_pages_guarded_witness :
  serve_all [(None, "/web/admin/ratelimits/config", demo_limits "POST", 5)] (Some demo_console) = Some demo_console.
Proof. apply ratelimit_pages_guarded. constructor; [by intros a [=] | constructor]. Defined.

Lemma update_spares_buckets_witness :
  exists e', (UpdateRateLimitConfig (demo_limits "POST") (Some demo_console)).2 = Some e' /\
    BucketState.Capacity (BucketManager.GetOrCreate "bob" "slack" "risk" 7 (limits e')).1 = 50.
Proof.
  destruct (update_spares_buckets (demo_limits "POST") demo_console eq_refl ltac:(discriminate))
    as (e' & He & _ & Hnew & _).
  exists e'. split; [exact He|].
  exact (proj1 (proj2 (proj2 (proj2 (Hnew "bob" "risk" 7 (or_introl eq_refl) eq_refl)))) eq_refl).
Defined.

Lemma percentage_bounds_witness : 0 <= percentage_used 200 50 <= 100.
Proof. exact (proj1 (percentage_bounds 200 50 ltac:(lia) ltac:(lia))). Defined.
End Witnesses.
