(* ===== verification/Config.v ===== *)
(** * Configuration: [src/config/config.go], [main.go]

    The configuration file with its defaults and the environment that overrides it,
    durations, the section on encryption, and what [main] makes of them: the
    configuration without a file and the console it sets up.

    YAML is decoded by a parameter ([yaml.v3]). *)
From S2P Require Import Prelude GoStrings Sql Crypto Accounts Http Process TwoFA WebAuth.
From S2P Require OAuth.
Open Scope Z_scope.
Open Scope go_scope.

(** ** The file *)

Module ServerConfig.
Record t := mk {
  Port : string;
  LogLevel : string;
  AuthCodeTTL : string;
  AccessTokenTTL : string;
  PublicURL : string;
  InviteExpiry : string;
  InviteAllowExisting : bool;
  AuthCodeTTLParsed : Duration;
  AccessTokenTTLParsed : Duration;
  InviteExpiryParsed : Duration
}.
Definition zero : t := mk EmptyString EmptyString EmptyString EmptyString EmptyString EmptyString false 0 0 0.
End ServerConfig.

Module TwoFactorConfig.
(** [Required]: nil when unset. *)
Record t := mk { Required : option bool; Methods : list string }.
Definition zero : t := mk None [].

Definition TwoFactorRequired (c : option t) : bool :=
  match c with
  | None => true
  | Some c => match Required c with None => true | Some b => b end
  end.
End TwoFactorConfig.

Module AuthConfig.
Record t := mk { Mode : string; TwoFactor : TwoFactorConfig.t }.
Definition zero : t := mk EmptyString TwoFactorConfig.zero.
End AuthConfig.

Module SMTPConfig.
Record t := mk {
  Host : string;
  Port : Z;
  User : string;
  Password : string;
  From : string;
  FromName : string;
  UseTLS : bool;
  Timeout : string;
  TimeoutParsed : Duration
}.
Definition zero : t := mk EmptyString 0 EmptyString EmptyString EmptyString EmptyString false EmptyString 0.
End SMTPConfig.

Module SecretRef.
Record t := mk { Name : string; EnvKey : string; Context : string }.
End SecretRef.

Module BackendConfig.
Record t := mk {
  Command : string;
  PoolSize : Z;
  MinPoolSize : Z;
  MaxPoolSize : Z;
  Env : gmap string string;
  Secrets : list SecretRef.t;
  ToolPrefix : string;
  SelfReporting : bool;
  NoKeysRequired : bool;
  SkipJustification : bool;
  IsSystem : bool;
  StdioFraming : string;
  Enabled : option bool
}.
End BackendConfig.

Module EncryptionConfig.
Record t := mk {
  Provider : string;
  KeyEnv : string;
  KeyFileEnv : string;
  K8sSecretPath : string;
  K8sKeyName : string;
  RequireEncryption : bool
}.
Definition zero : t := mk EmptyString EmptyString EmptyString EmptyString EmptyString false.

(** The error, if any. *)
Definition Validate (c : t) : option error :=
  if bool_decide (Provider c = "envvar") then
    if bool_decide (KeyEnv c = EmptyString) && bool_decide (KeyFileEnv c = EmptyString)
    then Some (Errorf "encryption provider 'envvar' requires keyEnv or keyFileEnv") else None
  else if bool_decide (Provider c = "k8s") then
    if bool_decide (K8sSecretPath c = EmptyString)
    then Some (Errorf "encryption provider 'k8s' requires k8sSecretPath") else None
  else if bool_decide (Provider c = EmptyString) then
    if RequireEncryption c then Some (Errorf "encryption required but no provider configured") else None
  else Some (Errorf ("unknown encryption provider: " +:+ Provider c)).

Inductive provider := EnvVar (p : EnvVarProvider.t) | K8s (p : K8sSecretProvider.t).

Definition NewKEKProvider (c : t) : res provider :=
  if bool_decide (Provider c = "envvar") then
    Ok (EnvVar (EnvVarProvider.NewEnvVarProvider (KeyEnv c) (KeyFileEnv c)))
  else if bool_decide (Provider c = "k8s") then
    Ok (K8s (K8sSecretProvider.NewK8sSecretProvider (K8sSecretPath c) (K8sKeyName c)))
  else Err (Errorf ("unknown provider: " +:+ Provider c)).
End EncryptionConfig.

Module InternalConfig.
Record t := mk {
  Server : ServerConfig.t;
  Backends : gmap string BackendConfig.t;
  Encryption : EncryptionConfig.t;
  Auth : AuthConfig.t;
  SMTP : SMTPConfig.t
}.

Definition ValidateEncryption (c : t) : option error := EncryptionConfig.Validate (Encryption c).

(** [strings.EqualFold] with an ASCII word. *)
Definition equal_fold (s t : string) : bool := bool_decide (to_lower s = to_lower t).

Definition IsInternalAuth (c : t) : bool :=
  bool_decide (AuthConfig.Mode (Auth c) = EmptyString) || equal_fold (AuthConfig.Mode (Auth c)) "internal".
End InternalConfig.

(** ** Durations *)

(** *** [time.ParseDuration] *)

Definition unit_of (u : string) : option Z :=
  if bool_decide (u = "ns") then Some 1
  else if bool_decide (u = "us") || bool_decide (u = bytes [194; 181; 115]%nat)
          || bool_decide (u = bytes [206; 188; 115]%nat) then Some 1000
  else if bool_decide (u = "ms") then Some 1000000
  else if bool_decide (u = "s") then Some Second
  else if bool_decide (u = "m") then Some Minute
  else if bool_decide (u = "h") then Some Hour
  else None.

Definition is_number_byte (c : ascii) : bool :=
  let n := nat_of_ascii c in (48 <=? n)%nat && (n <=? 57)%nat.

(** The longest prefix whose bytes satisfy [f], and the rest. *)
Fixpoint span (f : ascii -> bool) (s : string) : string * string :=
  match s with
  | String c rest => if f c then let '(a, b) := span f rest in (String c a, b) else (EmptyString, s)
  | EmptyString => (EmptyString, EmptyString)
  end.

Definition two63 : Z := 9223372036854775808.

(** One number with its unit; the fraction of the unit is rounded down. *)
Definition parse_term (s : string) : option (Z * string) :=
  let '(whole, s) := span is_number_byte s in
  let '(frac, s) := match s with
                    | String "." rest => span is_number_byte rest
                    | _ => (EmptyString, s)
                    end in
  if bool_decide (whole = EmptyString) && bool_decide (frac = EmptyString) then None
  else
    let '(u, s) := span (fun c => negb (is_number_byte c || bool_decide (c = "."%char))) s in
    match unit_of u, decimal 0 whole, decimal 0 frac with
    | Some unit, Some v, Some f =>
        let d := v * unit + f * unit / 10 ^ len frac in
        if (two63 <? v) || (two63 / unit <? v) || (two63 <? d) then None else Some (d, s)
    | _, _, _ => None
    end.

(** [fuel]: at least one byte per term. *)
Fixpoint parse_terms (fuel : nat) (s : string) (d : Z) : option Z :=
  match s with
  | EmptyString => Some d
  | _ =>
      match fuel with
      | O => None
      | S fuel =>
          match parse_term s with
          | Some (v, rest) => if two63 <? d + v then None else parse_terms fuel rest (d + v)
          | None => None
          end
      end
  end.

Definition ParseDuration (s : string) : option Duration :=
  let '(neg, s) := match s with
                   | String "-" rest => (true, rest)
                   | String "+" rest => (false, rest)
                   | _ => (false, s)
                   end in
  if bool_decide (s = "0") then Some 0
  else if bool_decide (s = EmptyString) then None
  else match parse_terms (String.length s) s 0 with
       | None => None
       | Some d => if neg then Some (- d) else if MaxInt64 <? d then None else Some d
       end.

(** *** [parseDuration] *)

Definition parseDuration (s : string) : Duration :=
  let s := trim_space s in
  if bool_decide (s = EmptyString) then 0
  else
    match (if has_suffix s "d" then Atoi (trim_suffix s "d") else None) with
    | Some n => n *! 24 *! Hour
    | None => default 0 (ParseDuration s)
    end.

(** ** [Load] *)

Section Load.
Context (yaml : string -> res InternalConfig.t) (getenv : string -> string).

(** The variable if it is set, or the value of the file. *)
Definition env_or (key value : string) : string :=
  if bool_decide (getenv key = EmptyString) then value else getenv key.

Definition or_string (s d : string) : string := if bool_decide (s = EmptyString) then d else s.
Definition or_duration (n d : Duration) : Duration := if n =? 0 then d else n.

Definition load_server (s : ServerConfig.t) : ServerConfig.t :=
  ServerConfig.mk (or_string (ServerConfig.Port s) "8080") (or_string (ServerConfig.LogLevel s) "info")
    (ServerConfig.AuthCodeTTL s) (ServerConfig.AccessTokenTTL s)
    (env_or "PUBLIC_URL" (ServerConfig.PublicURL s)) (ServerConfig.InviteExpiry s)
    (let v := getenv "INVITE_ALLOW_EXISTING" in
     if bool_decide (v = EmptyString) then ServerConfig.InviteAllowExisting s
     else InternalConfig.equal_fold v "true" || bool_decide (v = "1"))
    (or_duration (parseDuration (ServerConfig.AuthCodeTTL s)) (10 *! Minute))
    (or_duration (parseDuration (ServerConfig.AccessTokenTTL s)) (24 *! Hour))
    (or_duration (parseDuration (ServerConfig.InviteExpiry s)) (7 *! 24 *! Hour)).

Definition load_auth (a : AuthConfig.t) : AuthConfig.t :=
  let tf := AuthConfig.TwoFactor a in
  AuthConfig.mk (or_string (AuthConfig.Mode a) "internal")
    (TwoFactorConfig.mk (TwoFactorConfig.Required tf)
       (match TwoFactorConfig.Methods tf with [] => ["totp"] | l => l end)).

Definition load_smtp (s : SMTPConfig.t) : SMTPConfig.t :=
  let port := if SMTPConfig.Port s =? 0 then 587 else SMTPConfig.Port s in
  let port := match Atoi (getenv "SMTP_PORT") with
              | Some n => if bool_decide (getenv "SMTP_PORT" = EmptyString) then port else n
              | None => port
              end in
  let timeout := env_or "SMTP_TIMEOUT" (SMTPConfig.Timeout s) in
  SMTPConfig.mk (env_or "SMTP_HOST" (SMTPConfig.Host s)) port (env_or "SMTP_USER" (SMTPConfig.User s))
    (env_or "SMTP_PASSWORD" (SMTPConfig.Password s)) (env_or "SMTP_FROM" (SMTPConfig.From s))
    (env_or "SMTP_FROM_NAME" (SMTPConfig.FromName s)) (SMTPConfig.UseTLS s) timeout (parseDuration timeout).

(** [file]: what reading the file gives. *)
Definition Load (file : res string) : res InternalConfig.t :=
  match file with
  | Err e => Err e
  | Ok data =>
      match yaml data with
      | Err e => Err e
      | Ok c =>
          let c := InternalConfig.mk (load_server (InternalConfig.Server c)) (InternalConfig.Backends c)
                     (InternalConfig.Encryption c) (load_auth (InternalConfig.Auth c))
                     (load_smtp (InternalConfig.SMTP c)) in
          match InternalConfig.ValidateEncryption c with
          | Some e => Err (Wrapf "encryption config validation failed: %w" e)
          | None => Ok c
          end
      end
  end.

(** ** [main] *)

Definition main_command : string := or_string (getenv "COMMAND") "sh -c 'cat; sleep 1'".

Definition main_pool_size : Z :=
  match Atoi (getenv "POOL_SIZE") with Some n => if 0 <? n then n else 2 | None => 2 end.

Definition default_port : string := or_string (getenv "PORT") "8020".

(** The configuration when no file is loaded. *)
Definition without_file : InternalConfig.t :=
  InternalConfig.mk
    (ServerConfig.mk default_port "info" "10m" "90d" EmptyString EmptyString false
       OAuth.DefaultCodeTTL (90 *! 24 *! Hour) 0)
    {[ "default" := BackendConfig.mk main_command main_pool_size 0 0 ∅ [] EmptyString
         false false false false EmptyString None ]}
    EncryptionConfig.zero AuthConfig.zero SMTPConfig.zero.

(** The configuration and the port [main] goes on with. *)
Definition main_config (file : res string) : InternalConfig.t * string :=
  match Load file with
  | Ok c => (c, or_string (ServerConfig.Port (InternalConfig.Server c)) default_port)
  | Err _ => (without_file, default_port)
  end.
End Load.

(** The console [main] sets up; an error ends the program. *)
Definition main_console {KS : Type} `{SecretBox KS} `{CryptoPrims} `{Totp} (getenv : string -> string)
    (c : InternalConfig.t) : res handler :=
  let methods := TwoFactorConfig.Methods (AuthConfig.TwoFactor (InternalConfig.Auth c)) in
  let console manager := Handler_ _ manager methods
    (negb (bool_decide (methods = [])) && InternalConfig.equal_fold (getenv "ALLOW_TWOFA_BYPASS") "1")
    (ServerConfig.InviteAllowExisting (InternalConfig.Server c))
    (ServerConfig.InviteExpiryParsed (InternalConfig.Server c))
    (AuthConfig.Mode (InternalConfig.Auth c)) (ServerConfig.PublicURL (InternalConfig.Server c)) in
  match methods with
  | [] => Ok (console None)
  | _ =>
      match TwoFA.NewManager methods (TwoFactorConfig.TwoFactorRequired
              (Some (AuthConfig.TwoFactor (InternalConfig.Auth c)))) with
      | Ok m => Ok (console (Some m))
      | Err e => Err (Wrapf "failed to init 2FA: %v" e)
      end
  end.

(** * Properties *)

Module ConfigFacts.

Lemma is_number_digit c : is_number_byte c = is_digit c.
Proof. by destruct c as [[] [] [] [] [] [] [] []]. Qed.

Lemma span_app f a b :
  str_forallb f a = true -> (match b with String c _ => f c | EmptyString => false end) = false ->
  span f (a +:+ b) = (a, b).
Proof.
  intros Ha Hb. induction a as [|c a IH]; cbn.
  - destruct b; cbn; [done|]. by rewrite Hb.
  - cbn in Ha. apply andb_true_iff in Ha as [Hc Ha]. by rewrite Hc, IH.
Qed.

Lemma digits_numbers s : str_forallb is_digit s = true -> str_forallb is_number_byte s = true.
Proof. induction s as [|c s IH]; [done|]. cbn. rewrite is_number_digit. intros [-> ?]%andb_true_iff. by apply IH. Qed.

Lemma decimal_itoa z : 0 <= z -> decimal 0 (itoa z) = Some z.
Proof.
  intros Hz. unfold itoa. rewrite itoa_loop_decimal; [done|]. split; [done|].
  rewrite Nat2Z.inj_succ, Z2Nat.id by apply Z.log2_nonneg.
  destruct (decide (z = 0)) as [->|]; [done|]. apply Z.log2_spec. lia.
Qed.

Lemma itoa_first z : 0 <= z -> exists c s, itoa z = String c s /\ is_digit c = true.
Proof.
  intros Hz. pose proof (itoa_digits z Hz) as Hd. destruct (itoa z) as [|c s] eqn:Hi.
  - exfalso. revert Hi. unfold itoa. cbn [itoa_loop]. case_if; [done|]. by apply itoa_loop_nonempty.
  - cbn in Hd. apply andb_true_iff in Hd as [? _]. eauto.
Qed.

(** Numbers with one of the units of letters are not trimmed. *)
Definition plain (c : ascii) : bool := is_digit c || (97 <=? nat_of_ascii c)%nat && (nat_of_ascii c <=? 122)%nat.

Lemma plain_trim z u : 0 <= z -> str_forallb plain u = true -> trim_space (itoa z +:+ u) = itoa z +:+ u.
Proof.
  intros Hz Hu. apply (trim_space_id plain); [|by vm_compute]. rewrite str_forallb_app, Hu, andb_true_r.
  pose proof (itoa_digits z Hz) as Hd. induction (itoa z) as [|c s IH]; [done|]. cbn in Hd |- *.
  apply andb_true_iff in Hd as [Hc Hd]. rewrite IH by done. unfold plain. by rewrite Hc.
Qed.

Lemma has_suffix_tail a b p :
  (String.length p <= String.length b)%nat -> has_suffix (a +:+ b) p = has_suffix b p.
Proof.
  intros Hp. induction a as [|c a IH]; [done|]. rewrite <- IH. unfold has_suffix.
  cbn [String.append String.length]. change (String.length (a +:+ b)) with (String.length (a +:+ b)).
  pose proof (str_length_app a b) as Hl. rewrite (proj2 (Nat.leb_le _ _)) by lia.
  rewrite (proj2 (Nat.leb_le _ _)) by lia. cbn [andb].
  replace (S (String.length (a +:+ b)) - String.length p)%nat
    with (S (String.length (a +:+ b) - String.length p)) by lia. done.
Qed.

(** The units that are spelled with ASCII letters. *)
Definition letters : list string := ["h"; "m"; "s"; "ms"; "us"; "ns"].

Lemma parse_single n u unit :
  0 <= n -> n * unit <= MaxInt64 -> u ∈ letters -> unit_of u = Some unit ->
  ParseDuration (itoa n +:+ u) = Some (n * unit).
Proof.
  intros Hn Hmax Hu Hunit.
  assert (Hpos : 1 <= unit) by (unfold unit_of in Hunit; repeat case_match; by simplify_eq).
  assert (Hshape : (match u with String c _ => is_number_byte c || bool_decide (c = "."%char)
                            | EmptyString => true end) = false /\
    span (fun c => negb (is_number_byte c || bool_decide (c = "."%char))) u = (u, EmptyString)).
  { unfold letters in Hu. rewrite !elem_of_cons, elem_of_nil in Hu.
    by destruct Hu as [->|[->|[->|[->|[->|[->|[]]]]]]]. }
  destruct Hshape as [Hfirst Hspan].
  assert (Hterm : parse_term (itoa n +:+ u) = Some (n * unit, EmptyString)).
  { unfold parse_term. rewrite span_app; [|by apply digits_numbers, itoa_digits|].
    2: { destruct u; [done|]. by apply orb_false_iff in Hfirst as [? _]. }
    assert (Hdot : (match u with String "." rest => span is_number_byte rest | _ => (EmptyString, u) end) = (EmptyString, u)).
    { destruct u as [|[[] [] [] [] [] [] [] []] u]; try done; by destruct (orb_false_elim _ _ Hfirst). }
    rewrite Hdot, bool_decide_eq_false_2.
    2: { destruct (itoa_first n Hn) as (c & s & -> & _). done. }
    cbn [andb]. rewrite Hspan, Hunit, decimal_itoa by done. cbn [decimal].
    replace (n * unit + 0 * unit / 10 ^ len EmptyString) with (n * unit) by (rewrite Z.mul_0_l, Z.div_0_l; [lia|done]).
    assert (Hle : n <= two63 / unit) by (apply Z.div_le_lower_bound; unfold two63; lia).
    assert (n <= two63) by (unfold two63; nia).
    assert (n * unit <= two63) by (unfold two63; lia).
    destruct (two63 <? n) eqn:E1; [lia|]. destruct (two63 / unit <? n) eqn:E2; [lia|].
    by destruct (two63 <? n * unit) eqn:E3; [lia|]. }
  unfold ParseDuration. destruct (itoa_first n Hn) as (c & s & Hi & Hc).
  assert (Hsign : (match itoa n +:+ u with String "-" rest => (true, rest) | String "+" rest => (false, rest)
                                    | _ => (false, itoa n +:+ u) end) = (false, itoa n +:+ u)).
  { rewrite Hi. cbn. by destruct c as [[] [] [] [] [] [] [] []]. }
  rewrite Hsign. rewrite !bool_decide_eq_false_2.
  - rewrite Hi. cbn [String.append String.length parse_terms]. rewrite Hi in Hterm. cbn [String.append] in Hterm.
    rewrite Hterm. rewrite Z.add_0_l. destruct (two63 <? n * unit) eqn:E; [unfold two63 in E; lia|].
    assert (Hend : forall k, parse_terms k EmptyString (n * unit) = Some (n * unit)) by (by intros []).
    rewrite Hend. by destruct (MaxInt64 <? n * unit) eqn:E2; [lia|].
  - rewrite Hi. done.
  - rewrite Hi. intros Heq. apply (f_equal String.length) in Heq. cbn in Heq. rewrite str_length_app in Heq.
    destruct u; [done|]. cbn in Heq. lia.
Qed.

Lemma env_or_set getenv key value : getenv key <> EmptyString -> env_or getenv key value = getenv key.
Proof. intros Hk. unfold env_or. by rewrite bool_decide_eq_false_2. Qed.

Lemma or_duration_nonzero n d : d <> 0 -> or_duration n d <> 0.
Proof. intros Hd. unfold or_duration. destruct (n =? 0) eqn:?; lia. Qed.

Lemma or_string_nonempty s d : d <> EmptyString -> or_string s d <> EmptyString.
Proof. intros Hd. unfold or_string. by case_bool_decide. Qed.

Lemma Load_Ok yaml getenv file c :
  Load yaml getenv file = Ok c ->
  exists data c0, file = Ok data /\ yaml data = Ok c0 /\
    InternalConfig.Server c = load_server getenv (InternalConfig.Server c0) /\
    InternalConfig.Backends c = InternalConfig.Backends c0 /\
    InternalConfig.Encryption c = InternalConfig.Encryption c0 /\
    InternalConfig.Auth c = load_auth (InternalConfig.Auth c0) /\
    InternalConfig.SMTP c = load_smtp getenv (InternalConfig.SMTP c0) /\
    EncryptionConfig.Validate (InternalConfig.Encryption c) = None.
Proof.
  unfold Load. destruct file as [data|]; [|done]. destruct (yaml data) as [c0|] eqn:Hy; [|done].
  unfold InternalConfig.ValidateEncryption. cbn [InternalConfig.Encryption].
  destruct (EncryptionConfig.Validate _) eqn:Hv; [done|]. intros [= <-].
  exists data, c0. split_and!; done.
Qed.

Section SecondFactor.
Context {KS : Type} `{SecretBox KS} `{CryptoPrims} `{Bcrypt} `{Totp}.

Lemma NewManager_required methods required m : TwoFA.NewManager methods required = Ok m -> TwoFA.required m = required.
Proof.
  unfold TwoFA.NewManager.
  assert (Hadd : forall ids m0 m1, TwoFA.add_methods ids m0 = Ok m1 -> TwoFA.required m1 = TwoFA.required m0).
  { induction ids as [|id ids IH]; intros m0 m1; cbn; [by intros [= ->]|].
    destruct (TwoFA.registeredMethods !! id); [|done]. intros Ha. by rewrite (IH _ _ Ha). }
  destruct (TwoFA.add_methods _ _) as [m1|] eqn:Ha; [|done]. case_bool_decide; [done|].
  intros [= ->]. by rewrite (Hadd _ _ _ Ha).
Qed.

(** With a manager that demands a second factor, a password completes no login. *)
Lemma second_phase_pending (h : handler) m user dek now (w : web KS) :
  TwoFA h = Some m -> TwoFA.required m = true -> (second_phase h user dek now w).1 <> inr true.
Proof.
  intros Hm Hr. unfold second_phase. rewrite Hm, Hr. unfold bind.
  destruct (on_store _ w) as [[|[[] method]] w1]; [done|..];
    destruct (startPendingLogin _ _ _ _ w1) as [[|] w2]; done.
Qed.
End SecondFactor.
End ConfigFacts.

Section ConfigTheorems.
Import ConfigFacts.
Context (yaml : string -> res InternalConfig.t) (getenv : string -> string).

(** What a file that loads guarantees, whatever it leaves out: a port, a level, a mode,
    a second factor, lifetimes that are not zero, and a section on encryption that names a
    provider there is.  Variables that are set win over the file. *)
Theorem load_complete file c :
  Load yaml getenv file = Ok c ->
  let s := InternalConfig.Server c in
  let a := InternalConfig.Auth c in
  ServerConfig.Port s <> EmptyString /\ ServerConfig.LogLevel s <> EmptyString /\
  AuthConfig.Mode a <> EmptyString /\ TwoFactorConfig.Methods (AuthConfig.TwoFactor a) <> [] /\
  ServerConfig.AuthCodeTTLParsed s <> 0 /\ ServerConfig.AccessTokenTTLParsed s <> 0 /\
  ServerConfig.InviteExpiryParsed s <> 0 /\
  (getenv "PUBLIC_URL" <> EmptyString -> ServerConfig.PublicURL s = getenv "PUBLIC_URL") /\
  (getenv "SMTP_HOST" <> EmptyString -> SMTPConfig.Host (InternalConfig.SMTP c) = getenv "SMTP_HOST") /\
  (forall n, Atoi (getenv "SMTP_PORT") = Some n -> SMTPConfig.Port (InternalConfig.SMTP c) = n) /\
  (SMTPConfig.Port (InternalConfig.SMTP c) = 0 -> Atoi (getenv "SMTP_PORT") = Some 0) /\
  (EncryptionConfig.Provider (InternalConfig.Encryption c) <> EmptyString ->
     exists p, EncryptionConfig.NewKEKProvider (InternalConfig.Encryption c) = Ok p) /\
  (EncryptionConfig.RequireEncryption (InternalConfig.Encryption c) = true ->
     EncryptionConfig.Provider (InternalConfig.Encryption c) <> EmptyString).
Proof.
  intros Hl. destruct (Load_Ok _ _ _ _ Hl) as (data & c0 & _ & _ & Hs & _ & _ & Ha & Hm & Hv).
  rewrite Hs, Ha, Hm. cbn. unfold EncryptionConfig.Validate in Hv. unfold EncryptionConfig.NewKEKProvider.
  split_and!; try (by apply or_string_nonempty); try (by apply or_duration_nonzero); try (by apply env_or_set).
  - by destruct (TwoFactorConfig.Methods _).
  - intros n Hn. rewrite Hn. clear Hv. case_bool_decide as He; [by rewrite He in Hn | done].
  - destruct (Atoi (getenv "SMTP_PORT")) as [n|] eqn:Hn.
    + clear Hv. case_bool_decide as He; [by rewrite He in Hn|]. by intros ->.
    + destruct (SMTPConfig.Port _ =? 0) eqn:?; lia.
  - intros Hp. repeat case_bool_decide; eauto; done.
  - intros Hr Hp. rewrite Hp, Hr in Hv. done.
Qed.

End ConfigTheorems.

Section DurationTheorems.
Import ConfigFacts.

(** Durations of the file: a number of days is that many days, and a number with a unit
    of [time.ParseDuration] that many units, as long as the product is in range. *)
Theorem parseDuration_exact n u unit :
  0 <= n -> n * unit <= MaxInt64 ->
  (u = "d" /\ unit = 24 * Hour) \/ (u ∈ letters /\ unit_of u = Some unit) ->
  parseDuration (itoa n +:+ u) = n * unit.
Proof.
  intros Hn Hmax Hu. unfold parseDuration. destruct (itoa_first n Hn) as (c & s & Hi & Hc).
  assert (Hletters : u = "d" \/ u ∈ letters) by naive_solver.
  assert (Hplain : str_forallb plain u = true /\ (1 <= String.length u)%nat /\ (u <> "d" -> has_suffix u "d" = false)).
  { unfold letters in Hletters. rewrite !elem_of_cons, elem_of_nil in Hletters.
    destruct Hletters as [->|[->|[->|[->|[->|[->|[->|[]]]]]]]]; (split_and!; [done|simpl; lia|done]). }
  destruct Hplain as (Hplain & Hlen & Hd). rewrite (plain_trim n u Hn Hplain).
  rewrite bool_decide_eq_false_2 by (rewrite Hi; done). rewrite has_suffix_tail by exact Hlen.
  destruct Hu as [[-> ->]|[Hin Hu]].
  - unfold trim_suffix. rewrite has_suffix_tail by exact Hlen. rewrite str_length_app.
    replace (String.length (itoa n) + String.length "d" - String.length "d")%nat
      with (String.length (itoa n)) by (simpl; lia).
    change (has_suffix "d" "d") with true. cbv iota. rewrite str_take_app. unfold Hour in *. rewrite Atoi_itoa by lia.
    rewrite (wrap64_id (n * 24)) by (unfold int64; lia). rewrite wrap64_id by (unfold int64; lia). lia.
  - rewrite Hd by (intros ->; by vm_compute in Hin).
    by rewrite (parse_single n u unit).
Qed.

(** Past the range a lifetime in days wraps around to one that has passed. *)
Theorem long_lifetimes_are_past :
  parseDuration "106751d" > 0 /\ parseDuration "106752d" < 0.
Proof. split; by vm_compute. Qed.
End DurationTheorems.

Section SecondFactorTheorems.
Import ConfigFacts.
Context {KS : Type} `{SecretBox KS} `{CryptoPrims} `{Bcrypt} `{Totp}.
Context (yaml : string -> res InternalConfig.t) (getenv : string -> string).

(** The second factor hangs on the file.  One that loads and does not switch it off makes a
    console on which a password completes no login, or no bridge at all; when the file
    does not load, also because its section on encryption is refused, the bridge starts
    with a console on which a password is enough and invitations expire at once. *)
Theorem second_factor_hangs_on_file file :
  match Load yaml getenv file with
  | Ok c =>
      TwoFactorConfig.Required (AuthConfig.TwoFactor (InternalConfig.Auth c)) <> Some false ->
      (exists e, main_console (KS := KS) getenv (main_config yaml getenv file).1 = Err e) \/
      (exists h, main_console (KS := KS) getenv (main_config yaml getenv file).1 = Ok h /\
         forall user dek now (w : web KS), (second_phase h user dek now w).1 <> inr true)
  | Err _ =>
      exists h, main_console (KS := KS) getenv (main_config yaml getenv file).1 = Ok h /\
        InviteExpiry h = 0 /\ TwoFABypass h = false /\
        forall user dek now, second_phase (KS := KS) h user dek now =
          (completeLogin user dek now ;;; ret true)%handler
  end.
Proof.
  unfold main_config. destruct (Load yaml getenv file) as [c|e] eqn:Hl.
  - intros Hreq. cbn [fst]. destruct (Load_Ok _ _ _ _ Hl) as (data & c0 & _ & _ & _ & _ & _ & Ha & _ & _).
    unfold main_console. destruct (TwoFactorConfig.Methods _) as [|id ids] eqn:Hm.
    + exfalso. rewrite Ha in Hm. cbn in Hm. by destruct (TwoFactorConfig.Methods _).
    + destruct (TwoFA.NewManager _ _) as [m|e] eqn:Hn; [right|left; eauto].
      eexists. split; [reflexivity|]. intros user dek now w. apply second_phase_pending with m; [done|].
      rewrite (NewManager_required _ _ _ Hn). unfold TwoFactorConfig.TwoFactorRequired.
      by destruct (TwoFactorConfig.Required _) as [[]|].
  - eexists. split; [reflexivity|]. split; [done|]. split; [done|]. intros user dek now. done.
Qed.
End SecondFactorTheorems.

(** ** Concrete files *)

Section Witnesses.

(** An empty file. *)
Definition demo_file : InternalConfig.t :=
  InternalConfig.mk ServerConfig.zero ∅ EncryptionConfig.zero AuthConfig.zero SMTPConfig.zero.

(** A file that demands encryption and names no provider. *)
Definition demo_refused : InternalConfig.t :=
  InternalConfig.mk ServerConfig.zero ∅ (EncryptionConfig.mk EmptyString EmptyString EmptyString EmptyString EmptyString true)
    AuthConfig.zero SMTPConfig.zero.

Definition demo_yaml (s : string) : res InternalConfig.t :=
  if bool_decide (s = "refused") then Ok demo_refused else Ok demo_file.
Definition demo_getenv (key : string) : string :=
  if bool_decide (key = "SMTP_PORT") then "25" else EmptyString.

Lemma load_complete_witness :
  exists c, Load demo_yaml demo_getenv (Ok EmptyString) = Ok c /\
    AuthConfig.Mode (InternalConfig.Auth c) <> EmptyString /\ SMTPConfig.Port (InternalConfig.SMTP c) = 25.
Proof.
  eexists. split; [reflexivity|].
  destruct (load_complete demo_yaml demo_getenv (Ok EmptyString) _ eq_refl) as (_ & _ & Hm & _ & _ & _ & _ & _ & _ & Hp & _).
  split; [exact Hm|]. apply Hp. reflexivity.
Defined.

Lemma parseDuration_exact_witness : parseDuration (itoa 90 +:+ "d") = 90 * (24 * Hour).
Proof. apply (parseDuration_exact 90 "d" (24 * Hour)); [lia|by vm_compute|by left]. Defined.

Lemma demo_durations :
  parseDuration " 1h30m " = 90 * Minute /\ parseDuration "1.5h" = 90 * Minute /\ parseDuration "soon" = 0 /\
  parseDuration "d" = 0 /\ parseDuration "-2d" = - 48 * Hour.
Proof. split_and!; by vm_compute. Qed.
End Witnesses.

Section SecondFactorWitness.
#[local] Existing Instances Toy.prims DemoAccounts.bcrypt DemoAccounts.provider.

Lemma second_factor_hangs_on_file_witness (T := {| totp_generate := fun _ _ => Err ErrNoRows; totp_valid := fun _ _ _ => false |} : Totp) :
  exists h, main_console (KS := DemoAccounts.key_store) demo_getenv
    (main_config demo_yaml demo_getenv (Ok "refused")).1 = Ok h /\ InviteExpiry h = 0.
Proof.
  pose proof (second_factor_hangs_on_file (KS := DemoAccounts.key_store) demo_yaml demo_getenv (Ok "refused")) as Hs.
  cbn in Hs. destruct Hs as (h & Hh & Hi & _). by exists h.
Defined.
End SecondFactorWitness.
