(* ===== verification/Seed.v ===== *)
(** * Seeding: [src/seed.go]

    What the first start writes into the tables: the default user, the backends of the
    configuration, the hints and the policies.  The texts and the expressions are those
    of the source.

    [marshal_map] is [json.Marshal] of a map of strings. *)
From S2P Require Import Prelude GoStrings Sql Crypto EnforcerTypes CelEngine EnforcerStore Template Muxer Accounts Backends Process BackendStatus ToolLists BridgeTools Server Config.
Open Scope Z_scope.

(** The zero [time.Time]. *)
Definition zero_time : Time := -62135596800000000000.

Section Seed.
Context {KS : Type} `{SecretBox KS} `{CryptoPrims} `{Bcrypt}.
Context (visit : nat -> gset string -> list string) (marshal_map : gmap string string -> string).
Local Abbreviation store := (Backends.t KS).

(** ** The default user *)

Definition default_user : UserRow.t :=
  UserRow.mk EmptyString "Admin" "admin@localhost" "admin" EmptyString "admin" 0.

Definition seedDefaultUser (now : Time) (d : Accounts.t KS) : Accounts.t KS :=
  match GetUserByEmail "admin@localhost" d with
  | (Ok existing, d) =>
      if bool_decide (UserRow.Role existing = "admin") then d
      else let '(_, _, d) := UpdateUser (UserRow.with_Role "admin" existing) d in d
  | (Err _, d) => let '(_, _, d) := CreateUser default_user now d in d
  end.

(** ** The backends of the configuration *)

Definition mcpbridgeBackend : BackendRow.t :=
  BackendRow.mk "mcpbridge" "mcp-bridge-builtin" 1 EmptyString EmptyString EmptyString EmptyString EmptyString
    true true 0 0 true false false EmptyString EmptyString EmptyString None.

Definition secret_mappings (secrets : list SecretRef.t) : gmap string string :=
  foldl (fun m s => <[SecretRef.Name s := SecretRef.EnvKey s]> m) ∅ secrets.

Definition seeded_row (id : string) (bc : BackendConfig.t) : BackendRow.t :=
  let text m := if bool_decide (m = ∅) then "{}" else marshal_map m in
  BackendRow.mk id (BackendConfig.Command bc) (BackendConfig.PoolSize bc) (BackendConfig.ToolPrefix bc)
    (text (BackendConfig.Env bc)) (match BackendConfig.Secrets bc with
                                   | [] => "{}"
                                   | l => marshal_map (secret_mappings l)
                                   end) EmptyString EmptyString
    (default true (BackendConfig.Enabled bc)) (BackendConfig.IsSystem bc)
    (if BackendConfig.MinPoolSize bc =? 0 then 1 else BackendConfig.MinPoolSize bc) (BackendConfig.MaxPoolSize bc)
    (BackendConfig.SelfReporting bc) (BackendConfig.NoKeysRequired bc) (BackendConfig.SkipJustification bc)
    (if bool_decide (BackendConfig.StdioFraming bc = EmptyString) &&
        negb (bool_decide (BackendConfig.Command bc = "mcp-bridge-builtin"))
     then "newline" else BackendConfig.StdioFraming bc)
    EmptyString EmptyString None.

Definition seed_backend (cfg : InternalConfig.t) (d : store) (id : string) : store :=
  match InternalConfig.Backends cfg !! id with
  | Some bc => (CreateBackend (seeded_row id bc) d).2
  | None => d
  end.

Definition seedBackendsFromConfig (cfg : InternalConfig.t) (d : store) : store :=
  match ListBackends d with
  | (Ok [], d) =>
      foldl (seed_backend cfg) (CreateBackend mcpbridgeBackend d).2
        (visit 12%nat (dom (InternalConfig.Backends cfg)))
  | (_, d) => d
  end.

(** ** The hints *)

Definition default_hints : string := joined_by newline [
  "Welcome to Tusker MCP Bridge.";
  EmptyString;
  "This system provides tooling for access to various tooling backends, including github and jira/confluence. Its intention is to allow coding agents such as yourself to be the 'spider in the web' - able to access various systems allowing you to be a full-stack developer and able to partake in all aspects of the software development lifecycle.";
  EmptyString;
  "Jira tickets are named DEV-XXXXX. The majority of tickets will be found in the 'Development' namespace. Pull requests referenced in tickets can be found via the github backend.";
  EmptyString;
  "Github: our organisation is 'tusker-direct' - limit searches to this space.";
  EmptyString;
  "NewRelic provides access to all our logs, and the newrelic backend provides access to this.";
  EmptyString;
  "About MCP Bridge";
  "MCP Bridge acts as a unified gateway to multiple backend systems, presenting them to coding agents as a single cohesive toolset. It aggregates tools from configured backends (such as GitHub and Atlassian) and augments them with system-level tools to help agents discover, manage, and effectively use the available capabilities.";
  EmptyString;
  "Available System Tools";
  "MCP Bridge provides the following system tools to aid navigation and troubleshooting:";
  "mcpbridge_0_README - This tool. Read it first. Contains essential usage guidance, hints for all configured backends, and company-specific information.";
  dq "mcpbridge_ping - A simple connectivity check. Returns 'pong' with a timestamp. Use this to verify the bridge is responsive.";
  "mcpbridge_version - Returns the current version of the MCP Bridge server. Useful for debugging and support requests.";
  "mcpbridge_list_backends - Lists all configured backend integrations and their status (enabled/disabled). Shows which systems are available for use.";
  "mcpbridge_capabilities - Provides a comprehensive overview of available tools across all backends, including tool counts and configuration status. This is the quickest way to see what's available without triggering full tool enumeration.";
  "mcpbridge_refresh_tools - Forces a refresh of the tool list from all backends. Use this if you suspect the available tools may have changed or been updated.";
  "mcpbridge_pool_status - Shows the status of warm process pools. Displays memory usage and process counts per backend. Useful for diagnosing performance issues or resource constraints.";
  EmptyString;
  "Best Practices";
  "- Start with mcpbridge_0_README to understand the system and get context-specific guidance before making queries.";
  "- Use mcpbridge_capabilities to discover available tools when beginning a new task.";
  "- Call backend tools directly once you know what you need - MCP Bridge handles routing to the correct backend automatically.";
  "- Prefix conventions: Backend tools are prefixed with their source (e.g., github_pr_search, atlassian_jira_search_issues)."].

Definition seedGlobalHints (d : store) : store :=
  match GetSetting "global_hints" d with
  | (Err _, d) => d
  | (Ok existing, d) =>
      if negb (bool_decide (existing = EmptyString)) then d
      else (SetSetting "global_hints" default_hints d).2
  end.
End Seed.

(** ** The policies *)

(** An enabled policy of the scope global. *)
Definition policy (id name description expression action severity message : string) (priority : Z) : PolicyRow.t :=
  PolicyRow.mk id name description "global" expression action severity message true priority false
    zero_time zero_time EmptyString.

Definition defaultPolicies : list PolicyRow.t := [
  policy "aws_allow_reads" "AWS Read Operations" "Allow AWS read-only operations"
    (dq "backend_id == 'aws' && safety.impact_scope == 'read'") "ALLOW" "LOW"
    "AWS read operation allowed" 10;
  policy "github_allow_reads" "GitHub Read Operations" "Allow GitHub read-only operations"
    (dq "backend_id == 'github' && safety.impact_scope == 'read'") "ALLOW" "LOW"
    "GitHub read operation allowed" 10;
  policy "atlassian_allow_reads" "Atlassian Read Operations" "Allow Atlassian read-only operations"
    (dq "backend_id == 'atlassian' && safety.impact_scope == 'read'") "ALLOW" "LOW"
    "Atlassian read operation allowed" 10;
  policy "k8s_allow_reads" "Kubernetes Read Operations" "Allow Kubernetes read-only operations"
    (dq "backend_id == 'k8s' && safety.impact_scope == 'read'") "ALLOW" "LOW"
    "Kubernetes read operation allowed" 10;
  policy "circleci_allow_reads" "CircleCI Read Operations" "Allow CircleCI read-only operations"
    (dq "backend_id == 'circleci' && safety.impact_scope == 'read'") "ALLOW" "LOW"
    "CircleCI read operation allowed" 10;
  policy "argocd_allow_reads" "ArgoCD Read Operations" "Allow read-only operations on ArgoCD resources"
    (dq "backend_id == 'argocd' && safety.impact_scope == 'read'") "ALLOW" "LOW"
    "Read operations are allowed" 100;
  policy "github_block_repo_delete" "Block Repository Deletion" "Prevent accidental deletion of GitHub repositories"
    "tool.contains('github') && tool.contains('delete') && tool.contains('repo')" "PENDING_ADMIN_APPROVAL" "CRITICAL"
    "Repository deletion is permanent and will delete all code, issues, and history. This requires senior approval." 1;
  policy "global_pii_protection" "PII Protection" "Flag tools that may expose PII for review"
    (dq "backend_id != 'qdrant' && safety.pii_exposure && (args.query.contains('ssn') || args.query.contains('password') || args.query.contains('credit') || args.query.contains('secret'))") "PENDING_USER_APPROVAL" "CRITICAL"
    "This query may access sensitive PII data. Please review carefully before approving." 5;
  policy "github_block_force_push" "Block Force Pushes" "Prevent force pushes that rewrite git history"
    "tool.contains('github') && tool.contains('force')" "PENDING_USER_APPROVAL" "HIGH"
    "Force pushes rewrite git history and can cause data loss for other developers. Avoid unless absolutely necessary." 25;
  policy "atlassian_block_delete_issues" "Block Jira Issue Deletion" "Prevent accidental deletion of Jira issues"
    "tool.contains('jira') && tool.contains('delete') && tool.contains('issue')" "PENDING_USER_APPROVAL" "HIGH"
    "Deleting Jira issues is permanent and can break audit trails. Please confirm with your team lead before proceeding." 15;
  policy "atlassian_block_confluence_delete" "Block Confluence Page Deletion" "Prevent accidental deletion of Confluence pages"
    "tool.contains('confluence') && tool.contains('delete') && tool.contains('page')" "PENDING_USER_APPROVAL" "HIGH"
    "Deleting Confluence pages may break documentation links. Consider archiving instead." 20;
  policy "newrelic_block_alert_delete" "Block Alert Policy Deletion" "Prevent accidental deletion of monitoring alerts"
    "tool.contains('newrelic') && tool.contains('delete') && tool.contains('alert')" "PENDING_USER_APPROVAL" "HIGH"
    "Deleting alert policies may cause you to miss critical production issues. Consider disabling instead." 30;
  policy "newrelic_block_dashboard_delete" "Block Dashboard Deletion" "Prevent accidental deletion of monitoring dashboards"
    "tool.contains('newrelic') && tool.contains('delete') && tool.contains('dashboard')" "PENDING_USER_APPROVAL" "MEDIUM"
    "Dashboards contain valuable monitoring configurations. Please confirm before deleting." 40;
  policy "mcpbridge_block_backend_delete" "Block Backend Deletion" "Prevent accidental deletion of configured MCP backends"
    "tool.contains('mcpbridge') && tool.contains('backend') && tool.contains('delete')" "PENDING_USER_APPROVAL" "HIGH"
    "Deleting a backend will break integrations for all users. This requires admin approval." 12;
  policy "mcpbridge_block_pool_changes" "Block Pool Configuration Changes" "Prevent changes to process pool settings that could affect stability"
    "tool.contains('mcpbridge') && tool.contains('pool')" "PENDING_USER_APPROVAL" "MEDIUM"
    "Changing pool configuration can affect system performance and stability. Please test in dev first." 45;
  policy "b0b8d9b409167e38389d5edb99239337" "AppScan Block Scan Cancel" "Block scan cancellation as it effectively deletes scan data"
    (dq "tool.contains('appscan') && tool.contains('scan') && tool.contains('cancel')") "PENDING_USER_APPROVAL" "HIGH"
    "Scan cancellation must be approved" 14;
  policy "github_block_force_push" "Block Force Pushes" "Prevent force pushes that rewrite git history"
    "tool.contains('github') && tool.contains('force')" "PENDING_USER_APPROVAL" "HIGH"
    "Force pushes rewrite git history and can cause data loss for other developers. Avoid unless absolutely necessary." 25;
  policy "aws_delete_requires_approval" "AWS Delete Operations" "AWS delete operations require approval"
    (dq "backend_id == 'aws' && safety.impact_scope == 'delete'") "PENDING_ADMIN_APPROVAL" "CRITICAL"
    "AWS delete operations require admin approval" 15;
  policy "aws_write_requires_approval" "AWS Write Operations" "AWS write operations require approval"
    (dq "backend_id == 'aws' && safety.impact_scope == 'write'") "ALLOW" "HIGH"
    "AWS write operations require admin approval" 20;
  policy "aws_admin_requires_approval" "AWS Admin Operations" "Route AWS admin/configuration tools to user approval"
    (dq "backend_id == 'aws' && safety.impact_scope == 'admin'") "PENDING_USER_APPROVAL" "HIGH"
    "" 20;
  policy "aws_warn_high_cost" "AWS High Resource Cost" "Warn on expensive AWS operations"
    (dq "backend_id == 'aws' && safety.cost >= 5") "WARN" "MEDIUM"
    "This AWS operation has high resource cost" 25;
  policy "github_delete_requires_approval" "GitHub Delete Operations" "GitHub delete operations require approval"
    (dq "backend_id == 'github' && safety.impact_scope == 'delete'") "PENDING_USER_APPROVAL" "HIGH"
    "GitHub delete operations require admin approval" 15;
  policy "github_write_requires_approval" "GitHub Write Operations" "GitHub write operations require approval"
    (dq "backend_id == 'github' && safety.impact_scope == 'write'") "ALLOW" "HIGH"
    "GitHub write operations require admin approval" 20;
  policy "github_admin_requires_approval" "GitHub Admin Operations" "Route GitHub admin/configuration tools to user approval"
    (dq "backend_id == 'github' && safety.impact_scope == 'admin'") "PENDING_USER_APPROVAL" "HIGH"
    "" 20;
  policy "github_warn_merge_no_review" "Warn on Unreviewed PR Merges" "Flag PR merges that may not have proper review"
    "tool.contains('github') && tool.contains('merge') && safety.risk_level == 'high'" "WARN" "MEDIUM"
    "Please ensure this PR has been properly reviewed before merging. Unreviewed code can introduce bugs and security issues." 60;
  policy "k8s_delete_requires_approval" "Kubernetes Delete Operations" "Kubernetes delete operations require approval"
    (dq "backend_id == 'k8s' && safety.impact_scope == 'delete'") "PENDING_ADMIN_APPROVAL" "HIGH"
    "Kubernetes delete operations require admin approval" 15;
  policy "k8s_write_requires_approval" "Kubernetes Write Operations" "Kubernetes write operations require approval"
    (dq "backend_id == 'k8s' && safety.impact_scope == 'write'") "ALLOW" "HIGH"
    "Kubernetes write operations require admin approval" 20;
  policy "k8s_admin_requires_approval" "Kubernetes Admin Operations" "Route Kubernetes admin/configuration tools to user approval"
    (dq "backend_id == 'k8s' && safety.impact_scope == 'admin'") "PENDING_USER_APPROVAL" "HIGH"
    "" 20;
  policy "atlassian_delete_requires_approval" "Atlassian Delete Operations" "Route Atlassian delete-impact tools to user approval"
    (dq "backend_id == 'atlassian' && safety.impact_scope == 'delete'") "PENDING_USER_APPROVAL" "HIGH"
    "" 20;
  policy "atlassian_write_requires_approval" "Atlassian Write Operations" "Atlassian write operations require approval"
    (dq "backend_id == 'atlassian' && safety.impact_scope == 'write'") "ALLOW" "MEDIUM"
    "Atlassian write operations require admin approval" 20;
  policy "atlassian_admin_requires_approval" "Atlassian Admin Operations" "Route Atlassian admin/configuration tools to user approval"
    (dq "backend_id == 'atlassian' && safety.impact_scope == 'admin'") "PENDING_USER_APPROVAL" "HIGH"
    "" 20;
  policy "atlassian_warn_bulk_ops" "Warn on Bulk Jira Operations" "Require confirmation for bulk operations that affect many issues"
    "tool.contains('jira') && tool.contains('bulk') && safety.risk_level == 'high'" "WARN" "MEDIUM"
    "This operation will affect multiple Jira issues. Please verify your JQL query and the scope of changes." 50;
  policy "circleci_delete_requires_approval" "CircleCI Delete Operations" "Route CircleCI delete-impact tools to user approval"
    (dq "backend_id == 'circleci' && safety.impact_scope == 'delete'") "PENDING_USER_APPROVAL" "HIGH"
    "" 15;
  policy "circleci_write_requires_approval" "CircleCI Write Operations" "CircleCI write operations require approval"
    (dq "backend_id == 'circleci' && safety.impact_scope == 'write'") "ALLOW" "MEDIUM"
    "CircleCI write operations require admin approval" 20;
  policy "circleci_admin_requires_approval" "CircleCI Admin Operations" "Route CircleCI admin/configuration tools to user approval"
    (dq "backend_id == 'circleci' && safety.impact_scope == 'admin'") "PENDING_USER_APPROVAL" "MEDIUM"
    "" 20;
  policy "argocd_write_requires_approval" "ArgoCD Write Operations" "Write operations on ArgoCD require user approval"
    (dq "backend_id == 'argocd' && safety.impact_scope == 'write'") "PENDING_USER_APPROVAL" "MEDIUM"
    "Write operations require user approval" 100;
  policy "argocd_delete_requires_approval" "ArgoCD Delete Operations" "Delete operations on ArgoCD require user approval"
    (dq "backend_id == 'argocd' && safety.impact_scope == 'delete'") "PENDING_USER_APPROVAL" "HIGH"
    "Delete operations require user approval" 100;
  policy "argocd_admin_requires_approval" "ArgoCD Admin Operations" "Admin operations on ArgoCD require user approval"
    (dq "backend_id == 'argocd' && safety.impact_scope == 'admin'") "PENDING_USER_APPROVAL" "HIGH"
    "Admin operations require user approval" 100;
  policy "argocd_block_app_delete" "Block ArgoCD Application Deletion" "Block deletion of ArgoCD applications"
    (dq "tool.contains('argocd') && tool.contains('delete') && tool.contains('app')") "PENDING_USER_APPROVAL" "HIGH"
    "Deleting ArgoCD applications requires approval" 100;
  policy "argocd_block_project_delete" "Block ArgoCD Project Deletion" "Block deletion of ArgoCD projects"
    (dq "tool.contains('argocd') && tool.contains('delete') && tool.contains('project')") "PENDING_USER_APPROVAL" "HIGH"
    "Deleting ArgoCD projects requires approval" 100;
  policy "newrelic_warn_writes" "Warn on New Relic Write Operations" "Require explicit confirmation for write operations in New Relic"
    "tool.contains('newrelic') && safety.impact_scope == 'write'" "WARN" "LOW"
    "This operation will modify New Relic configuration. Please verify this is intentional." 80;
  policy "restrict_junior_high_risk" "Junior Dev High-Risk Restriction" "Require approval for high-risk operations by junior developers"
    (dq "backend_id != 'qdrant' && user.trust_level < 60 && (safety.risk_level == 'high' || safety.risk_level == 'critical')") "PENDING_USER_APPROVAL" "MEDIUM"
    "High-risk operations require approval for junior developers." 35;
  policy "global_resource_protection" "Resource Protection" "Block extremely resource-intensive operations when system is under load"
    "safety.resource_cost >= 10" "DENY" "MEDIUM"
    "This operation is extremely resource-intensive. Try a more targeted approach or contact an administrator." 100;
  policy "prevent_resource_exhaustion" "Prevent Resource Exhaustion" "Block extremely resource-intensive operations (bulk exports, full table scans, etc.)"
    "safety.resource_cost >= 10" "DENY" "HIGH"
    "This operation is extremely resource-intensive. Try a more targeted approach." 100].

Definition seedDefaultPolicies (d : db) : db :=
  match ListPolicies d with
  | (Ok [], d) => foldl (fun d p => (CreatePolicy p d).2) d defaultPolicies
  | (_, d) => d
  end.

(** [main]: with the flag, or when the list of users is read and empty. *)
Definition main_seed {KS : Type} `{SecretBox KS} `{CryptoPrims} `{Bcrypt} (seedUser : bool) (now : Time)
    (d : Accounts.t KS) : Accounts.t KS :=
  if seedUser then seedDefaultUser now d
  else match ListUsers d with
       | (Ok [], d) => seedDefaultUser now d
       | (_, d) => d
       end.

(** * Properties *)

Module SeedFacts.
Section Facts.
Context {KS : Type} `{CryptoLaws} `{!SecretBox KS} `{!SecretBoxLaws KS} `{Bcrypt}.
Context (random : forall i n, is_Some (entropy i n)).
Context (visit : nat -> gset string -> list string) (marshal_map : gmap string string -> string).
Import Backends.
Implicit Types d : Backends.t KS.

(** What a row of the configuration becomes. *)
Definition seeded (ks : KS) (id : string) (bc : BackendConfig.t) d : Prop :=
  exists enc b', backends d !! id = Some b' /\
    forall d2, ready ks d2 -> decryptBackendEnv b' d2 =
      (BackendRow.with_Env (BackendRow.Env (seeded_row marshal_map id bc)) enc
         (created (seeded_row marshal_map id bc)), d2).

Lemma seed_rows_ok ks cfg keys d :
  ready ks d -> NoDup keys -> (forall id, id ∈ keys -> backends d !! id = None) ->
  let d' := foldl (seed_backend marshal_map cfg) d keys in
  ready ks d' /\ (forall id, id ∉ keys -> backends d' !! id = backends d !! id) /\
  forall id bc, id ∈ keys -> InternalConfig.Backends cfg !! id = Some bc -> seeded ks id bc d'.
Proof.
  revert d. induction keys as [|k keys IH]; intros d Hr Hnd Hfree.
  { split_and!; [done..|]. intros id bc Hin. by inversion Hin. }
  apply NoDup_cons in Hnd as [Hni Hnd]. cbn [foldl].
  set (d1 := seed_backend marshal_map cfg d k).
  assert (Hstep : ready ks d1 /\ (forall id, id <> k -> backends d1 !! id = backends d !! id) /\
    forall bc, InternalConfig.Backends cfg !! k = Some bc -> exists b' enc, backends d1 !! k = Some b' /\
      forall d2, ready ks d2 -> decryptBackendEnv b' d2 =
        (BackendRow.with_Env (BackendRow.Env (seeded_row marshal_map k bc)) enc
           (created (seeded_row marshal_map k bc)), d2)).
  { unfold d1, seed_backend. destruct (InternalConfig.Backends cfg !! k) as [bc|]; [|done].
    destruct (CreateBackend_ok random ks (seeded_row marshal_map k bc) d Hr eq_refl) as (d' & enc & b' & -> & Hr' & Hb & _ & Hopen & _).
    { apply Hfree. by left. }
    cbn [snd]. split; [done|]. rewrite Hb. change (BackendRow.ID (seeded_row marshal_map k bc)) with k.
    split; [intros id Hne; by apply lookup_insert_ne|]. intros bc' [= <-]. exists b', enc.
    split; [apply lookup_insert_eq | done]. }
  clearbody d1. destruct Hstep as (Hr1 & Hother & Hk).
  destruct (IH d1 Hr1 Hnd) as (Hr' & Hout & Hin).
  { intros id Hid. rewrite Hother by (by intros ->). apply Hfree. by right. }
  split; [done|]. split.
  - intros id [Hne Hid]%not_elem_of_cons. by rewrite Hout, Hother.
  - intros id bc [->|Hid]%elem_of_cons Hbc; [|by apply Hin].
    destruct (Hk bc Hbc) as (b' & enc & Hb' & Hopen). exists enc, b'. rewrite Hout by done. split; [done|].
    exact Hopen.
Qed.

End Facts.

(** The policies of a table after some were created. *)
Lemma create_all l (d : db) :
  EnforcerStore.faults d = [] ->
  let d' := foldl (fun d p => (CreatePolicy p d).2) d l in
  EnforcerStore.faults d' = [] /\
  EnforcerStore.policies d' = foldl (fun m p => if bool_decide (m !! PolicyRow.ID p = None)
                                               then <[PolicyRow.ID p := p]> m else m) (EnforcerStore.policies d) l.
Proof.
  revert d. induction l as [|p l IH]; intros d Hf; [done|]. cbn [foldl].
  assert (Hc : (CreatePolicy p d).2 = if bool_decide (EnforcerStore.policies d !! PolicyRow.ID p = None)
                                      then set_policies <[PolicyRow.ID p := p]> d else d).
  { unfold CreatePolicy, exec_checked, EnforcerStore.stmt. rewrite Hf. by case_bool_decide. }
  rewrite Hc. destruct (IH (if bool_decide (EnforcerStore.policies d !! PolicyRow.ID p = None)
                            then set_policies <[PolicyRow.ID p := p]> d else d)) as [H1' H2'].
  { by case_bool_decide. }
  split; [done|]. rewrite H2'. f_equal. by case_bool_decide.
Qed.

(** The first policy of a list under an id. *)
Lemma first_created (l : list PolicyRow.t) (m : gmap string PolicyRow.t) id :
  foldl (fun m p => if bool_decide (m !! PolicyRow.ID p = None) then <[PolicyRow.ID p := p]> m else m) m l !! id =
  match m !! id with
  | Some p => Some p
  | None => snd <$> list_find (fun p => PolicyRow.ID p = id) l
  end.
Proof.
  revert m. induction l as [|p l IH]; intros m; cbn [foldl]; [by destruct (m !! id)|]. rewrite IH. cbn [list_find].
  destruct (decide (PolicyRow.ID p = id)) as [<-|Hne].
  - destruct (m !! PolicyRow.ID p) as [q|] eqn:Hm.
    + rewrite bool_decide_eq_false_2 by done. by rewrite Hm.
    + rewrite bool_decide_eq_true_2 by done. by rewrite lookup_insert_eq.
  - assert (Hsame : (if bool_decide (m !! PolicyRow.ID p = None) then <[PolicyRow.ID p:=p]> m else m) !! id = m !! id).
    { case_bool_decide; [by rewrite lookup_insert_ne | done]. }
    rewrite Hsame. destruct (m !! id); [done|]. by destruct (list_find _ l) as [[]|].
Qed.
(** The names that follow [safety.] in an expression. *)
Definition name_byte (c : ascii) : bool :=
  let n := nat_of_ascii c in ((97 <=? n) && (n <=? 122) || (n =? 95))%nat.

Fixpoint safety_fields (e : string) : list string :=
  match e with
  | EmptyString => []
  | String _ rest =>
      if has_prefix e "safety." then (span name_byte (str_drop 7 e)).1 :: safety_fields rest
      else safety_fields rest
  end.

(** The names a policy can read of the profile. *)
Definition readable (ctx : DecisionContext.t) : list string :=
  match list_find (fun kv => kv.1 = "safety") (buildActivation ctx) with
  | Some (_, (_, CMap fields)) => fields.*1
  | _ => []
  end.

Lemma readable_fields ctx :
  readable ctx = ["risk_level"; "impact_scope"; "resource_cost"; "requires_hitl"; "pii_exposure"].
Proof. done. Qed.
End SeedFacts.

Section SeedTheorems.
Context {KS : Type} `{CryptoLaws} `{!SecretBox KS} `{!SecretBoxLaws KS} `{Bcrypt}.
Context (random : forall i n, is_Some (entropy i n)).
Context (visit : nat -> gset string -> list string) (marshal_map : gmap string string -> string).
Import Backends SeedFacts.
Implicit Types d : Backends.t KS.

(** C36: The first start imports the configuration: every backend is read back from the
    tables with its environment and its defaults, beside the bridge's own one and no
    other; from then on the tables count, whatever the configuration says. *)
Theorem config_is_imported_once ks cfg d :
  visits visit -> ready ks d -> backends d = ∅ -> InternalConfig.Backends cfg !! "mcpbridge" = None ->
  let d' := seedBackendsFromConfig visit marshal_map cfg d in
  dom (backends d') = {[ "mcpbridge" ]} ∪ dom (InternalConfig.Backends cfg) /\
  (forall id bc, InternalConfig.Backends cfg !! id = Some bc ->
     exists enc, GetBackend id d' =
       (Ok (BackendRow.with_Env (BackendRow.Env (seeded_row marshal_map id bc)) enc
              (created (seeded_row marshal_map id bc))), d')) /\
  (forall cfg2, seedBackendsFromConfig visit marshal_map cfg2 d' = d').
Proof.
  intros Hv Hr Hempty Hown d'. destruct (ListBackends_ready ks d Hr) as (l & Hl & Hnil).
  assert (l = []) as -> by by apply Hnil.
  destruct (CreateBackend_ok random ks mcpbridgeBackend d Hr eq_refl) as (d1 & enc1 & b1 & Hc & Hr1 & Hb1 & _).
  { by rewrite Hempty. }
  set (keys := visit 12%nat (dom (InternalConfig.Backends cfg))).
  assert (Hkeys : forall id, id ∈ keys <-> is_Some (InternalConfig.Backends cfg !! id)).
  { intros id. unfold keys. rewrite MuxerFacts.visit_elem by done. apply elem_of_dom. }
  change (BackendRow.ID mcpbridgeBackend) with "mcpbridge" in Hb1. rewrite Hempty in Hb1.
  destruct (seed_rows_ok random marshal_map ks cfg keys d1 Hr1 (proj1 (Hv _ _))) as (Hr' & Hout & Hin).
  { intros id Hid. rewrite Hb1, lookup_insert_ne, lookup_empty; [done|]. intros <-.
    apply Hkeys in Hid. rewrite Hown in Hid. by destruct Hid. }
  assert (Hd' : d' = foldl (seed_backend marshal_map cfg) d1 keys).
  { unfold d', seedBackendsFromConfig. rewrite Hl, Hc. done. }
  rewrite <- Hd' in Hr', Hout, Hin. clearbody d'.
  assert (Hrow : forall id bc, InternalConfig.Backends cfg !! id = Some bc -> seeded marshal_map ks id bc d').
  { intros id bc Hbc. apply Hin; [|done]. apply Hkeys. eauto. }
  assert (Hbridge : is_Some (backends d' !! "mcpbridge")).
  { rewrite Hout; [rewrite Hb1, lookup_insert_eq; eauto|]. rewrite Hkeys, Hown. by intros [? ?]. }
  split_and!.
  - apply leibniz_equiv. intros id. rewrite elem_of_union, elem_of_singleton, !elem_of_dom. split.
    + intros Hs. destruct (decide (is_Some (InternalConfig.Backends cfg !! id))) as [|Hno]; [by right|left].
      rewrite Hout in Hs by by rewrite Hkeys. rewrite Hb1, lookup_insert_is_Some, lookup_empty in Hs.
      destruct Hs as [->|[_ []%is_Some_None]]. done.
    + intros [->|[bc Hbc]]; [done|]. destruct (Hrow id bc Hbc) as (enc & b' & -> & _). eauto.
  - intros id bc Hbc. destruct (Hrow id bc Hbc) as (enc & b' & Hb' & Hopen). exists enc.
    rewrite (GetBackend_row ks id b') by done. by rewrite Hopen.
  - intros cfg2. unfold seedBackendsFromConfig. destruct (ListBackends_ready ks d' Hr') as (l' & -> & Hl').
    destruct l' as [|b l']; [|done]. exfalso. rewrite (proj1 Hl' eq_refl), lookup_empty in Hbridge.
    by destruct Hbridge.
Qed.

(** Nobody needs to be missing but him: the default administrator, with a password that
    is known, is made beside other users whenever nobody has his address; and who has
    it already is made an administrator. *)
Theorem seeding_makes_an_administrator ks now (a : Accounts.t KS) :
  healthy ks a -> (forall r, exists h, bcrypt_generate r "admin" = Some h /\ bcrypt_compare h "admin" = true) ->
  Accounts.users a !! (generateID a).1 = None ->
  let a' := seedDefaultUser now a in
  (user_by_email "admin@localhost" a = None ->
     exists u, Accounts.users a' = <[UserRow.ID u := u]> (Accounts.users a) /\
       UserRow.Email u = "admin@localhost" /\ UserRow.Role u = "admin" /\
       bcrypt_compare (UserRow.Password u) "admin" = true) /\
  (forall u, user_by_email "admin@localhost" a = Some u -> Accounts.users a !! UserRow.ID u = Some u ->
     IsBcrypt (UserRow.Password u) = true \/ UserRow.Password u = EmptyString ->
     (forall v, v ∈ rows (Accounts.users a) -> UserRow.Email v = "admin@localhost" -> UserRow.ID v = UserRow.ID u) ->
     Accounts.users a' = <[UserRow.ID u := UserRow.with_Role "admin" u]> (Accounts.users a)).
Proof.
  intros (Hf & _ & _) Hbc Hnew a'. unfold a', seedDefaultUser, GetUserByEmail. rewrite sql_row_ok by done. split.
  - intros Hnone. rewrite Hnone. unfold CreateUser, id_or_new. cbn [UserRow.ID default_user].
    rewrite bool_decide_eq_true_2 by done. destruct (generateID a) as [id a1] eqn:Hg. cbn [fst] in Hnew.
    assert (Ha1 : Accounts.users a1 = Accounts.users a /\ Accounts.faults a1 = []).
    { unfold generateID in Hg. destruct (read_rand 16 _). by injection Hg as _ <-. }
    destruct Ha1 as [Hu1 Hf1]. clear Hg.
    cbn [UserRow.with_ID UserRow.Role default_user]. rewrite (bool_decide_eq_false_2 ("admin" = EmptyString)) by done.
    unfold hashed, HashPassword. cbn [UserRow.with_ID UserRow.Password default_user].
    change (negb (IsBcrypt "admin")) with true. rewrite (bool_decide_eq_false_2 ("admin" = EmptyString)) by done.
    destruct (Hbc (Accounts.rng a1)) as (hash & Hh & Hcmp). cbn.
    rewrite Hh. cbn. unfold GenerateSalt, read_rand. cbn.
    match goal with |- context [entropy ?i ?n] => destruct (random i n) as [bs ->] end. cbn.
    rewrite (bool_decide_eq_true_2 (EmptyString = EmptyString)) by done. cbv iota beta.
    rewrite sql_checked_ok by done. cbn. rewrite Hu1. rewrite bool_decide_eq_true_2 by done. cbn [andb].
    unfold email_taken. cbn. rewrite Hu1. rewrite bool_decide_eq_false_2.
    + exists (UserRow.with_CreatedAt now (UserRow.with_PasswordSalt (b64_encode true bs)
        (UserRow.with_Password hash (UserRow.with_ID id default_user)))). split; [cbn; by rewrite Hu1|done].
    + rewrite Exists_exists. intros (u & Hin & He & _). unfold user_by_email in Hnone.
      destruct (list_find _ _) eqn:Hl in Hnone; [done|]. apply list_find_None in Hl.
      rewrite Forall_forall in Hl. by apply (Hl u).
  - intros u Hsome Hrow Hpw Honly. rewrite Hsome. case_bool_decide as Hrole.
    { rewrite insert_id; [done|]. rewrite Hrow. destruct u. cbn in *. by subst. }
    unfold UpdateUser, hashed. cbn [UserRow.with_Role UserRow.Password].
    assert (Hno : negb (IsBcrypt (UserRow.Password u)) && negb (bool_decide (UserRow.Password u = EmptyString)) = false).
    { destruct Hpw as [-> | ->]; [done|]. rewrite bool_decide_eq_true_2 by done. by rewrite andb_false_r. }
    rewrite Hno. rewrite sql_checked_ok by done. cbn [UserRow.ID UserRow.Email].
    assert (He : email_taken (UserRow.ID u) (UserRow.Email u) a = false).
    { unfold email_taken. apply bool_decide_eq_false_2. rewrite Exists_exists. intros (v & Hin & Hv & Hne).
      apply Hne, Honly; [done|]. rewrite Hv. unfold user_by_email in Hsome.
      destruct (list_find _ _) as [[i w]|] eqn:Hl in Hsome; [|done]. cbn in Hsome. injection Hsome as ->.
      by apply list_find_Some in Hl as (_ & ? & _). }
    cbn. rewrite He, orb_true_r. cbn. apply map_eq. intros i.
    destruct (decide (i = UserRow.ID u)) as [->|Hne].
    + rewrite lookup_alter_eq, lookup_insert_eq, Hrow. done.
    + by rewrite lookup_alter_ne, lookup_insert_ne.
Qed.

(** Default policies: those whose ids are free come back enabled as soon as no
    policy is enabled, also when they were deleted; existing rows are not touched. *)
Theorem deleted_policies_come_back (d : db) :
  EnforcerStore.faults d = [] -> (forall id p, EnforcerStore.policies d !! id = Some p -> PolicyRow.Enabled p = false) ->
  let d' := seedDefaultPolicies d in
  (forall id p, EnforcerStore.policies d !! id = Some p -> EnforcerStore.policies d' !! id = Some p) /\
  (forall p, p ∈ defaultPolicies -> EnforcerStore.policies d !! PolicyRow.ID p = None ->
     exists q, EnforcerStore.policies d' !! PolicyRow.ID p = Some q /\ q ∈ defaultPolicies /\
       PolicyRow.ID q = PolicyRow.ID p /\ PolicyRow.Enabled q = true) /\
  (forall id, EnforcerStore.policies d !! id = None -> (forall p, p ∈ defaultPolicies -> PolicyRow.ID p <> id) ->
     EnforcerStore.policies d' !! id = None).
Proof.
  intros Hf Hoff d'. unfold d', seedDefaultPolicies, ListPolicies, EnforcerStore.query, EnforcerStore.stmt. rewrite Hf.
  assert (Hnil : filter (fun p => PolicyRow.Enabled p = true) (rows (EnforcerStore.policies d)) = []).
  { apply elem_of_nil_inv. intros p [He Hp]%list_elem_of_filter. apply elem_of_rows in Hp as [id Hid].
    apply Hoff in Hid. congruence. }
  rewrite Hnil. cbn [sort_by foldr]. destruct (create_all defaultPolicies d Hf) as [_ Hp].
  change (sort_by policy_before []) with (@nil PolicyRow.t). cbv iota beta. rewrite Hp.
  assert (Hen : forall p, p ∈ defaultPolicies -> PolicyRow.Enabled p = true).
  { apply Forall_forall. by repeat constructor. }
  split_and!.
  - intros id p Hid. by rewrite first_created, Hid.
  - intros p Hin Hnone. rewrite first_created, Hnone.
    destruct (list_find _ defaultPolicies) as [[i q]|] eqn:Hl.
    + apply list_find_Some in Hl as (Hq & Heq & _). apply list_elem_of_lookup_2 in Hq.
      exists q. split_and!; eauto.
    + exfalso. apply list_find_None in Hl. rewrite Forall_forall in Hl. by apply (Hl p).
  - intros id Hnone Hno. rewrite first_created, Hnone.
    destruct (list_find _ defaultPolicies) as [[i q]|] eqn:Hl; [|done]. exfalso.
    apply list_find_Some in Hl as (Hq & Heq & _). apply list_elem_of_lookup_2 in Hq. by apply (Hno q).
Qed.

(** The default policies read the profile of a tool by names the engine provides, except
    the warning about expensive operations, which reads [safety.cost]. *)
Theorem policies_read_the_profile ctx :
  Forall (fun p => Forall (fun f => f ∈ readable ctx) (safety_fields (PolicyRow.Expression p)) \/
                   PolicyRow.ID p = "aws_warn_high_cost") defaultPolicies /\
  (exists p, p ∈ defaultPolicies /\ PolicyRow.ID p = "aws_warn_high_cost" /\
     safety_fields (PolicyRow.Expression p) = ["cost"] /\ "cost" ∉ readable ctx).
Proof.
  rewrite readable_fields. split.
  - apply (bool_decide_eq_true_1 _). by vm_compute.
  - destruct (list_find (fun p => PolicyRow.ID p = "aws_warn_high_cost") defaultPolicies) as [[i p]|] eqn:Hl.
    + pose proof Hl as Hl'. apply list_find_Some in Hl' as (Hp & Hid & _). exists p.
      split; [by eapply list_elem_of_lookup_2|]. split; [done|].
      vm_compute in Hl. injection Hl as _ <-. split; [by vm_compute|].
      apply (bool_decide_eq_true_1 _). by vm_compute.
    + by vm_compute in Hl.
Qed.

(** Policies for writing let calls through, with a message that says the contrary. *)
Theorem write_policies_allow :
  (PolicyRow.ID <$> filter (fun p => PolicyRow.act p = "ALLOW" /\
     contains (PolicyRow.Message p) "require admin approval" = true) defaultPolicies) =
  ["aws_write_requires_approval"; "github_write_requires_approval"; "k8s_write_requires_approval";
   "atlassian_write_requires_approval"; "circleci_write_requires_approval"].
Proof. by vm_compute. Qed.
End SeedTheorems.

(** ** Concrete tables *)

#[local] Existing Instances Toy.prims Toy.laws DemoAccounts.bcrypt DemoAccounts.provider.

Definition demo_cfg : InternalConfig.t :=
  InternalConfig.mk ServerConfig.zero {[ "slack" := BackendConfig.mk "run" 2 0 0 ∅ [SecretRef.mk "TOKEN" "SLACK_TOKEN" EmptyString]
     "slk" false false false false EmptyString None ]} EncryptionConfig.zero AuthConfig.zero SMTPConfig.zero.

Definition demo_empty : Backends.t DemoAccounts.key_store := Backends.mk DemoAccounts.store ∅ ∅ ∅ true.

Lemma config_is_imported_once_witness :
  exists row, GetBackend "slack" (seedBackendsFromConfig by_elements (fun _ => "MAP") demo_cfg demo_empty) =
    (Ok row, seedBackendsFromConfig by_elements (fun _ => "MAP") demo_cfg demo_empty) /\
    BackendRow.EnvMappings row = "MAP" /\ BackendRow.MinPoolSize row = 1 /\ BackendRow.Enabled row = true.
Proof.
  destruct (config_is_imported_once demo_random by_elements (fun _ => "MAP") DemoAccounts.box demo_cfg demo_empty
    by_elements_visits) as (_ & Hrow & _).
  - exact demo_healthy.
  - done.
  - by vm_compute.
  - destruct (Hrow "slack" (BackendConfig.mk "run" 2 0 0 ∅ [SecretRef.mk "TOKEN" "SLACK_TOKEN" EmptyString]
      "slk" false false false false EmptyString None) eq_refl) as [enc Henc].
    revert Henc. generalize (seedBackendsFromConfig by_elements (fun _ => "MAP") demo_cfg demo_empty).
    intros d Henc. eexists. split; [exact Henc|]. split; [reflexivity|]. split; reflexivity.
Defined.

Lemma demo_no_policies : EnforcerStore.policies EnforcerStore.empty_db = ∅.
Proof. reflexivity. Qed.

Lemma demo_pii : exists p, p ∈ defaultPolicies /\ PolicyRow.ID p = "global_pii_protection".
Proof.
  destruct (list_find (fun p => PolicyRow.ID p = "global_pii_protection") defaultPolicies) as [[i p]|] eqn:Hl;
    [|by vm_compute in Hl].
  apply list_find_Some in Hl as (Hp & Hid & _). apply list_elem_of_lookup_2 in Hp. by exists p.
Qed.

Lemma deleted_policies_come_back_witness :
  exists q, EnforcerStore.policies (seedDefaultPolicies EnforcerStore.empty_db) !! "global_pii_protection" = Some q /\
    PolicyRow.Enabled q = true.
Proof.
  destruct demo_pii as (p & Hp & Hid).
  destruct (deleted_policies_come_back EnforcerStore.empty_db eq_refl) as (_ & Hback & _).
  { intros id q Hq. rewrite demo_no_policies, lookup_empty in Hq. discriminate Hq. }
  destruct (Hback p Hp) as (q & Hq & _ & _ & Hen); [rewrite demo_no_policies; apply lookup_empty|].
  exists q. rewrite <- Hid. split; [exact Hq|exact Hen].
Defined.

Lemma seeding_makes_an_administrator_witness :
  exists u, Accounts.users (seedDefaultUser 5 DemoAccounts.store) =
    <[UserRow.ID u := u]> (Accounts.users DemoAccounts.store) /\ UserRow.Role u = "admin".
Proof.
  destruct (seeding_makes_an_administrator demo_random DemoAccounts.box 5 DemoAccounts.store demo_healthy)
    as [Hnew _].
  - intros r. eexists. split; reflexivity.
  - by vm_compute.
  - destruct Hnew as (u & Hu & _ & Hr & _); [by vm_compute|]. exists u. split; [exact Hu|exact Hr].
Defined.
