(* ===== verification/Schema.v ===== *)
(** * The schema of the database: [src/store/store.go]

    Opening the store runs the statements of [migrate], each of which may fail and
    most of whose errors are dropped.  A table is its columns with its rows; what
    SQLite does with each of these statements is [run]. *)
From S2P Require Import Prelude Sql Crypto.
Open Scope Z_scope.

(** ** Tables *)

(** [VNow]: the time of the statement. *)
Inductive value := VNull | VText (s : string) | VInt (n : Z) | VReal (s : string) | VNow.

#[export] Instance value_eq_dec : EqDecision value.
Proof. solve_decision. Defined.

Inductive column_constraint :=
| PrimaryKey
| Unique
| References (table col : string)          (* ON DELETE CASCADE *)
| OneOf (values : list string).            (* CHECK (col IN (...)) *)

Module Column.
Record t := mk {
  name : string;
  type_name : string;
  not_null : bool;
  default_value : option value;
  constraints : list column_constraint
}.
(** What a row has in a column it does not name. *)
Definition absent (c : t) : value := default VNull (default_value c).
End Column.

Abbreviation row := (gmap string value).

Module Table.
Record t := mk {
  columns : list Column.t;
  keys : list (list string);               (* UNIQUE (...), PRIMARY KEY (...) *)
  rows : list row
}.
Definition names (tb : t) : list string := Column.name <$> columns tb.
Definition add (c : Column.t) (tb : t) : t :=
  mk (columns tb ++ [c]) (keys tb) ((fun r => <[Column.name c := Column.absent c]> r) <$> rows tb).
Definition insert_row (r : row) (tb : t) : t := mk (columns tb) (keys tb) (rows tb ++ [r]).
End Table.

Module Db.
Record t := mk { tables : gmap string Table.t; indexes : gset string; faults : list bool }.
Definition set_tables f d := mk (f (tables d)) (indexes d) (faults d).
Definition set_faults fs d := mk (tables d) (indexes d) fs.
End Db.

#[export] Instance db_database : Database Db.t :=
  {| db_faults := Db.faults; db_set_faults := Db.set_faults |}.

(** ** Statements *)

Inductive stmt :=
| CreateIfNotExists (t : string) (cols : list Column.t) (keys : list (list string))
| CreateTable (t : string) (cols : list Column.t) (keys : list (list string))
| CreateIndex (idx t col : string)         (* IF NOT EXISTS *)
| AddColumn (t : string) (c : Column.t)
| RenameTable (t u : string)
| CopyRows (t u : string) (cols : list (string * string))   (* INSERT INTO t (...) SELECT ... FROM u *)
| DropTable (t : string).

Section Rows.
Context (d : Db.t).

Definition cell (r : row) (c : string) : value := default VNull (r !! c).

(** Does a row of [t] hold these values, none of them null, in these columns? *)
Definition holds (r : row) (cols : list string) (r' : row) : bool :=
  bool_decide (Forall (fun c => cell r c <> VNull /\ cell r' c = cell r c) cols).

Definition constraint_ok (tb : Table.t) (r : row) (c : Column.t) (k : column_constraint) : bool :=
  match k with
  | PrimaryKey | Unique => negb (existsb (holds r [Column.name c]) (Table.rows tb))
  | References u key =>
      bool_decide (cell r (Column.name c) = VNull) ||
      match Db.tables d !! u with
      | Some tu => existsb (fun r' => bool_decide (cell r' key = cell r (Column.name c))) (Table.rows tu)
      | None => false
      end
  | OneOf l =>
      match cell r (Column.name c) with
      | VNull => true
      | VText s => bool_decide (s ∈ l)
      | _ => false
      end
  end.

Definition row_ok (tb : Table.t) (r : row) : bool :=
  forallb (fun c => negb (Column.not_null c && bool_decide (cell r (Column.name c) = VNull)) &&
                    forallb (constraint_ok tb r c) (Column.constraints c)) (Table.columns tb) &&
  forallb (fun key => negb (existsb (holds r key) (Table.rows tb))) (Table.keys tb).

(** The row an INSERT makes: the columns it does not name take their defaults. *)
Definition filled (tb : Table.t) (r : row) : row :=
  foldl (fun acc c => <[Column.name c := default (Column.absent c) (r !! Column.name c)]> acc)
    ∅ (Table.columns tb).

Fixpoint insert_all (tb : Table.t) (l : list row) : option Table.t :=
  match l with
  | [] => Some tb
  | r :: l => let r := filled tb r in
              if row_ok tb r then insert_all (Table.insert_row r tb) l else None
  end.
End Rows.

Definition selected (cols : list (string * string)) (r : row) : row :=
  list_to_map ((fun c => (c.1, cell r c.2)) <$> cols).

(** [None]: the statement fails and changes nothing.  A column that is not null
    cannot be added without a default. *)
Definition run (s : stmt) (d : Db.t) : option Db.t :=
  match s with
  | CreateIfNotExists t cols keys =>
      match Db.tables d !! t with
      | Some _ => Some d
      | None => Some (Db.set_tables <[t := Table.mk cols keys []]> d)
      end
  | CreateTable t cols keys =>
      match Db.tables d !! t with
      | Some _ => None
      | None => Some (Db.set_tables <[t := Table.mk cols keys []]> d)
      end
  | CreateIndex idx t col =>
      if bool_decide (idx ∈ Db.indexes d) then Some d
      else match Db.tables d !! t with
           | Some tb => if bool_decide (col ∈ Table.names tb)
                        then Some (Db.mk (Db.tables d) ({[idx]} ∪ Db.indexes d) (Db.faults d)) else None
           | None => None
           end
  | AddColumn t c =>
      match Db.tables d !! t with
      | Some tb =>
          if bool_decide (Column.name c ∈ Table.names tb) then None
          else if Column.not_null c && bool_decide (Column.absent c = VNull) then None
          else Some (Db.set_tables <[t := Table.add c tb]> d)
      | None => None
      end
  | RenameTable t u =>
      match Db.tables d !! t, Db.tables d !! u with
      | Some tb, None => Some (Db.set_tables (fun m => <[u := tb]> (delete t m)) d)
      | _, _ => None
      end
  | CopyRows t u cols =>
      match Db.tables d !! t, Db.tables d !! u with
      | Some tb, Some tu =>
          if bool_decide (Forall (fun c => c.1 ∈ Table.names tb /\ c.2 ∈ Table.names tu) cols) then
            tb' ← insert_all d tb (selected cols <$> Table.rows tu);
            Some (Db.set_tables <[t := tb']> d)
          else None
      | _, _ => None
      end
  | DropTable t => if bool_decide (is_Some (Db.tables d !! t))
                   then Some (Db.set_tables (delete t) d) else None
  end.

Definition exec (s : stmt) : Db.t -> res unit * Db.t :=
  sql_stmt (fun d => match run s d with Some d' => (Ok tt, d') | None => (Err ErrSql, d) end).

(** Several statements in one [Exec]: the first that fails ends it. *)
Fixpoint exec_all (l : list stmt) (d : Db.t) : res unit * Db.t :=
  match l with
  | [] => (Ok tt, d)
  | s :: l => match exec s d with
              | (Err e, d) => (Err e, d)
              | (Ok _, d) => exec_all l d
              end
  end.

(** Statements whose errors are dropped. *)
Definition ignoring (l : list stmt) (d : Db.t) : Db.t := foldl (fun d s => (exec s d).2) d l.

(** ** [migrate] *)

Local Abbreviation column := Column.mk.

(** The constant [schema]. *)
Definition schema : list stmt := [
  CreateIfNotExists "backends" [
    column "id" "TEXT" false None [PrimaryKey];
    column "command" "TEXT" true None [];
    column "pool_size" "INTEGER" true (Some (VInt 1)) [];
    column "tool_prefix" "TEXT" true (Some (VText EmptyString)) [];
    column "env" "TEXT" true (Some (VText "{}")) [];
    column "encrypted_env" "TEXT" false None [];
    column "env_mappings" "TEXT" true (Some (VText "{}")) [];
    column "tool_hints" "TEXT" true (Some (VText EmptyString)) [];
    column "backend_instructions" "TEXT" true (Some (VText EmptyString)) [];
    column "enabled" "INTEGER" true (Some (VInt 1)) [];
    column "is_system" "INTEGER" true (Some (VInt 0)) [];
    column "stdio_framing" "TEXT" true (Some (VText "newline")) []] [];
  CreateIfNotExists "users" [
    column "id" "TEXT" false None [PrimaryKey];
    column "name" "TEXT" true (Some (VText EmptyString)) [];
    column "email" "TEXT" true (Some (VText EmptyString)) [];
    column "password" "TEXT" true (Some (VText EmptyString)) [];
    column "role" "TEXT" true (Some (VText "user")) [];
    column "password_salt" "TEXT" false None [];
    column "created_at" "DATETIME" true (Some VNow) []] [["email"]];
  CreateIfNotExists "user_tokens" [
    column "user_id" "TEXT" true None [References "users" "id"];
    column "backend_id" "TEXT" true None [References "backends" "id"];
    column "env_key" "TEXT" true None [];
    column "value" "TEXT" true None [];
    column "encrypted_dek" "TEXT" false None [];
    column "encryption_type" "TEXT" false (Some (VText "legacy")) []] [["user_id"; "backend_id"; "env_key"]];
  CreateIfNotExists "oauth_clients" [
    column "client_id" "TEXT" false None [PrimaryKey];
    column "client_secret" "TEXT" true (Some (VText EmptyString)) [];
    column "redirect_uris" "TEXT" true (Some (VText "[]")) [];
    column "client_name" "TEXT" true (Some (VText EmptyString)) [];
    column "created_at" "DATETIME" true (Some VNow) []] [];
  CreateIfNotExists "oauth_codes" [
    column "code" "TEXT" false None [PrimaryKey];
    column "user_id" "TEXT" true None [References "users" "id"];
    column "client_id" "TEXT" true None [];
    column "redirect_uri" "TEXT" true None [];
    column "code_challenge" "TEXT" true (Some (VText EmptyString)) [];
    column "scope" "TEXT" true (Some (VText EmptyString)) [];
    column "expires_at" "DATETIME" true None []] [];
  CreateIfNotExists "oauth_sessions" [
    column "access_token" "TEXT" false None [PrimaryKey];
    column "refresh_token" "TEXT" true (Some (VText EmptyString)) [];
    column "user_id" "TEXT" true None [References "users" "id"];
    column "client_id" "TEXT" true None [];
    column "scope" "TEXT" true (Some (VText EmptyString)) [];
    column "expires_at" "DATETIME" true None [];
    column "created_at" "DATETIME" true (Some VNow) []] [];
  CreateIfNotExists "web_sessions" [
    column "session_id" "TEXT" false None [PrimaryKey];
    column "user_id" "TEXT" true None [References "users" "id"];
    column "expires_at" "DATETIME" true None [];
    column "created_at" "DATETIME" true (Some VNow) []] [];
  CreateIfNotExists "api_keys" [
    column "id" "TEXT" false None [PrimaryKey];
    column "user_id" "TEXT" true None [References "users" "id"];
    column "name" "TEXT" true (Some (VText EmptyString)) [];
    column "key_hash" "TEXT" true None [];
    column "expires_at" "DATETIME" false None [];
    column "last_used_at" "DATETIME" false None [];
    column "created_at" "DATETIME" true (Some VNow) []] [];
  CreateIfNotExists "backend_capabilities" [
    column "backend_id" "TEXT" false None [PrimaryKey; References "backends" "id"];
    column "tools" "TEXT" true None [];
    column "tool_count" "INTEGER" true (Some (VInt 0)) [];
    column "updated_at" "DATETIME" true (Some VNow) []] [];
  CreateIfNotExists "settings" [
    column "key" "TEXT" false None [PrimaryKey];
    column "value" "TEXT" true None []] []].

(** The statements of [migrate] before the web sessions are looked at. *)
Definition alter_first : list stmt := [
  AddColumn "users" (column "role" "TEXT" true (Some (VText "user")) []);
  AddColumn "backends" (column "env_mappings" "TEXT" true (Some (VText "{}")) []);
  AddColumn "backends" (column "is_system" "INTEGER" true (Some (VInt 0)) []);
  AddColumn "backends" (column "min_pool_size" "INTEGER" true (Some (VInt 1)) []);
  AddColumn "backends" (column "max_pool_size" "INTEGER" true (Some (VInt 0)) []);
  AddColumn "backends" (column "tool_hints" "TEXT" true (Some (VText EmptyString)) []);
  AddColumn "backends" (column "backend_instructions" "TEXT" true (Some (VText EmptyString)) []);
  AddColumn "backends" (column "self_reporting" "INTEGER" true (Some (VInt 0)) []);
  AddColumn "backends" (column "no_keys_required" "INTEGER" true (Some (VInt 0)) []);
  AddColumn "backends" (column "skip_justification" "INTEGER" true (Some (VInt 0)) []);
  AddColumn "backends" (column "encrypted_env" "TEXT" false None []);
  AddColumn "backends" (column "stdio_framing" "TEXT" true (Some (VText "newline")) []);
  AddColumn "backends" (column "precache_error" "TEXT" false None []);
  AddColumn "backends" (column "precache_error_at" "DATETIME" false None []);
  AddColumn "enforcer_audit_log" (column "arguments" "TEXT" true (Some (VText EmptyString)) []);
  CreateIfNotExists "settings" [
    column "key" "TEXT" false None [PrimaryKey];
    column "value" "TEXT" true None []] [];
  CreateIfNotExists "rate_limit_buckets" [
    column "id" "TEXT" false None [PrimaryKey];
    column "backend_id" "TEXT" true None [References "backends" "id"];
    column "bucket_type" "TEXT" true None [OneOf ["risk"; "resource"]];
    column "capacity" "INTEGER" true (Some (VInt 100)) [];
    column "refill_rate" "INTEGER" true (Some (VInt 20)) [];
    column "created_at" "DATETIME" true (Some VNow) [];
    column "updated_at" "DATETIME" true (Some VNow) []] [["backend_id"; "bucket_type"]];
  CreateIfNotExists "rate_limit_states" [
    column "id" "TEXT" false None [PrimaryKey];
    column "user_id" "TEXT" true None [References "users" "id"];
    column "backend_id" "TEXT" true None [References "backends" "id"];
    column "bucket_type" "TEXT" true None [OneOf ["risk"; "resource"]];
    column "current_level" "INTEGER" true (Some (VInt 0)) [];
    column "last_refill_at" "DATETIME" true (Some VNow) [];
    column "created_at" "DATETIME" true (Some VNow) []] [["user_id"; "backend_id"; "bucket_type"]];
  CreateIfNotExists "rate_limit_overrides" [
    column "id" "TEXT" false None [PrimaryKey];
    column "user_id" "TEXT" true None [References "users" "id"];
    column "backend_id" "TEXT" true None [References "backends" "id"];
    column "bucket_type" "TEXT" true None [OneOf ["risk"; "resource"]];
    column "capacity_multiplier" "REAL" true (Some (VReal "1.0")) [];
    column "created_at" "DATETIME" true (Some VNow) []] [["user_id"; "backend_id"; "bucket_type"]]].

(** The statements after: keys of users, the tables of the enforcer, the others. *)
Definition alter_enforcer : list stmt := [
  AddColumn "users" (column "password_salt" "TEXT" false None []);
  AddColumn "user_tokens" (column "encrypted_dek" "TEXT" false None []);
  AddColumn "user_tokens" (column "encryption_type" "TEXT" false (Some (VText "legacy")) []);
  AddColumn "enforcer_approvals" (column "queue_type" "TEXT" true (Some (VText "admin")) []);
  AddColumn "enforcer_approvals" (column "justification" "TEXT" true (Some (VText EmptyString)) []);
  AddColumn "enforcer_audit_log" (column "justification" "TEXT" true (Some (VText EmptyString)) []);
  AddColumn "enforcer_audit_log" (column "rejection_reason" "TEXT" false None []);
  AddColumn "enforcer_overrides" (column "user_id" "TEXT" false None []);
  AddColumn "enforcer_overrides" (column "locked" "INTEGER" true (Some (VInt 0)) []);
  AddColumn "enforcer_policies" (column "locked" "INTEGER" true (Some (VInt 0)) []);
  AddColumn "enforcer_policies" (column "dispositions" "TEXT" true (Some (VText EmptyString)) []);
  CreateIfNotExists "enforcer_policies" [
    column "id" "TEXT" false None [PrimaryKey];
    column "name" "TEXT" true None [];
    column "description" "TEXT" true (Some (VText EmptyString)) [];
    column "scope" "TEXT" true (Some (VText "global")) [];
    column "expression" "TEXT" true None [];
    column "action" "TEXT" true (Some (VText "ALLOW")) [];
    column "severity" "TEXT" true (Some (VText "MEDIUM")) [];
    column "message" "TEXT" true (Some (VText EmptyString)) [];
    column "enabled" "INTEGER" true (Some (VInt 1)) [];
    column "priority" "INTEGER" true (Some (VInt 100)) [];
    column "locked" "INTEGER" true (Some (VInt 0)) [];
    column "dispositions" "TEXT" true (Some (VText EmptyString)) [];
    column "created_at" "DATETIME" true (Some VNow) [];
    column "updated_at" "DATETIME" true (Some VNow) []] [];
  CreateIfNotExists "enforcer_overrides" [
    column "id" "TEXT" false None [PrimaryKey];
    column "tool_name" "TEXT" true None [];
    column "backend_id" "TEXT" false None [];
    column "risk_level" "TEXT" true (Some (VText "medium")) [];
    column "impact_scope" "TEXT" true (Some (VText "read")) [];
    column "resource_cost" "INTEGER" true (Some (VInt 5)) [];
    column "requires_hitl" "INTEGER" true (Some (VInt 0)) [];
    column "pii_exposure" "INTEGER" true (Some (VInt 0)) [];
    column "user_id" "TEXT" false None [];
    column "locked" "INTEGER" true (Some (VInt 0)) [];
    column "created_at" "DATETIME" true (Some VNow) [];
    column "updated_at" "DATETIME" true (Some VNow) []] [["tool_name"; "backend_id"]];
  CreateIfNotExists "enforcer_approvals" [
    column "id" "TEXT" false None [PrimaryKey];
    column "user_id" "TEXT" true None [References "users" "id"];
    column "user_email" "TEXT" true (Some (VText EmptyString)) [];
    column "user_role" "TEXT" true (Some (VText EmptyString)) [];
    column "trust_level" "INTEGER" true (Some (VInt 50)) [];
    column "tool_name" "TEXT" true None [];
    column "tool_args" "TEXT" true (Some (VText "{}")) [];
    column "backend_id" "TEXT" true None [];
    column "safety_profile" "TEXT" true (Some (VText "{}")) [];
    column "status" "TEXT" true (Some (VText "PENDING")) [];
    column "queue_type" "TEXT" true (Some (VText "admin")) [];
    column "justification" "TEXT" true (Some (VText EmptyString)) [];
    column "requested_at" "DATETIME" true (Some VNow) [];
    column "expires_at" "DATETIME" true None [];
    column "approved_by" "TEXT" false None [];
    column "approved_at" "DATETIME" false None [];
    column "denial_reason" "TEXT" false (Some (VText EmptyString)) [];
    column "comments" "TEXT" false (Some (VText EmptyString)) [];
    column "policy_id" "TEXT" false (Some (VText EmptyString)) [];
    column "violation_msg" "TEXT" false (Some (VText EmptyString)) [];
    column "request_body" "TEXT" false (Some (VText EmptyString)) [];
    column "response_status" "INTEGER" false (Some (VInt 0)) [];
    column "response_body" "TEXT" false (Some (VText EmptyString)) [];
    column "executed_at" "DATETIME" false None [];
    column "error_msg" "TEXT" false (Some (VText EmptyString)) []] [];
  CreateIfNotExists "enforcer_kill_switches" [
    column "id" "TEXT" false None [PrimaryKey];
    column "name" "TEXT" true None [];
    column "scope" "TEXT" true (Some (VText "global")) [];
    column "enabled" "INTEGER" true (Some (VInt 0)) [];
    column "enabled_at" "DATETIME" false None [];
    column "enabled_by" "TEXT" false None [];
    column "reason" "TEXT" false (Some (VText EmptyString)) [];
    column "created_at" "DATETIME" true (Some VNow) [];
    column "updated_at" "DATETIME" true (Some VNow) []] [["scope"]];
  CreateIfNotExists "enforcer_audit_log" [
    column "id" "TEXT" false None [PrimaryKey];
    column "request_id" "TEXT" true None [];
    column "user_id" "TEXT" true None [];
    column "tool_name" "TEXT" true None [];
    column "action" "TEXT" true None [];
    column "policy_id" "TEXT" false None [];
    column "message" "TEXT" false None [];
    column "context" "TEXT" false (Some (VText "{}")) [];
    column "justification" "TEXT" true (Some (VText EmptyString)) [];
    column "rejection_reason" "TEXT" false None [];
    column "created_at" "DATETIME" true (Some VNow) [];
    column "updated_at" "DATETIME" true (Some VNow) []] [];
  CreateIfNotExists "enforcer_tool_profiles" [
    column "id" "TEXT" false None [PrimaryKey];
    column "backend_id" "TEXT" true None [];
    column "tool_name" "TEXT" true None [];
    column "risk_level" "TEXT" true (Some (VText "medium")) [];
    column "impact_scope" "TEXT" true (Some (VText "read")) [];
    column "resource_cost" "INTEGER" true (Some (VInt 5)) [];
    column "requires_hitl" "INTEGER" true (Some (VInt 0)) [];
    column "pii_exposure" "INTEGER" true (Some (VInt 0)) [];
    column "idempotent" "INTEGER" true (Some (VInt 0)) [];
    column "raw_profile" "TEXT" false (Some (VText "{}")) [];
    column "scanned_at" "DATETIME" true (Some VNow) []] [["backend_id"; "tool_name"]];
  CreateIfNotExists "enforcer_rate_buckets" [
    column "id" "TEXT" false None [PrimaryKey];
    column "user_id" "TEXT" true None [];
    column "tool_name" "TEXT" true None [];
    column "window_start" "DATETIME" true None [];
    column "count" "INTEGER" true (Some (VInt 0)) []] [["user_id"; "tool_name"; "window_start"]];
  CreateIfNotExists "enforcer_user_rate_limit_overrides" [
    column "id" "TEXT" false None [PrimaryKey];
    column "user_id" "TEXT" true None [];
    column "backend_id" "TEXT" true None [];
    column "set_by" "TEXT" true (Some (VText "user")) [];
    column "risk_capacity" "INTEGER" true (Some (VInt 0)) [];
    column "resource_capacity" "INTEGER" true (Some (VInt 0)) [];
    column "cost_multiplier" "INTEGER" true (Some (VInt 0)) [];
    column "created_at" "DATETIME" true (Some VNow) [];
    column "updated_at" "DATETIME" true (Some VNow) []] [["user_id"; "backend_id"; "set_by"]]].

Definition alter_rest : list stmt := [
  CreateIfNotExists "backend_status" [
    column "backend_id" "TEXT" false None [PrimaryKey; References "backends" "id"];
    column "status" "TEXT" true (Some (VText "unknown")) [];
    column "last_attempt" "DATETIME" false None [];
    column "last_success" "DATETIME" false None [];
    column "retry_count" "INTEGER" true (Some (VInt 0)) [];
    column "next_retry" "DATETIME" false None [];
    column "error_message" "TEXT" false (Some (VText EmptyString)) [];
    column "updated_at" "DATETIME" true (Some VNow) []] [];
  AddColumn "user_tokens" (column "encrypted_value" "TEXT" false None []);
  CreateIfNotExists "invitations" [
    column "id" "TEXT" false None [PrimaryKey];
    column "email" "TEXT" true None [];
    column "name" "TEXT" true (Some (VText EmptyString)) [];
    column "role" "TEXT" true (Some (VText "user")) [];
    column "token_hash" "TEXT" true None [Unique];
    column "status" "TEXT" true (Some (VText "pending")) [];
    column "invited_by" "TEXT" false None [];
    column "token_expires_at" "DATETIME" true None [];
    column "accepted_at" "DATETIME" false None [];
    column "accepted_user_id" "TEXT" false None [];
    column "created_at" "DATETIME" true (Some VNow) []] [];
  CreateIndex "idx_invitations_email" "invitations" "email";
  CreateIfNotExists "user_2fa" [
    column "user_id" "TEXT" false None [PrimaryKey; References "users" "id"];
    column "method" "TEXT" true None [];
    column "secret" "TEXT" true None [];
    column "enabled" "INTEGER" true (Some (VInt 1)) [];
    column "created_at" "DATETIME" true (Some VNow) [];
    column "updated_at" "DATETIME" true (Some VNow) []] []].

Definition alter_last : list stmt := alter_enforcer ++ alter_rest.

Definition rename_sessions : stmt := RenameTable "web_sessions" "web_sessions_old".

Definition session_columns : list Column.t := [
  column "session_id" "TEXT" false None [PrimaryKey];
  column "user_id" "TEXT" true None [References "users" "id"];
  column "expires_at" "DATETIME" true None [];
  column "created_at" "DATETIME" true (Some VNow) []].

Definition rebuild_sessions : list stmt := [
  CreateTable "web_sessions" session_columns [];
  CopyRows "web_sessions" "web_sessions_old"
    [("session_id", "token"); ("user_id", "user_id"); ("expires_at", "expires_at"); ("created_at", "created_at")];
  DropTable "web_sessions_old"].

(** [SELECT COUNT( * ) FROM pragma_table_info(...)]; the count stays 0 when the query fails. *)
Definition hasOldSchema (d : Db.t) : Z * Db.t :=
  match sql_query (fun d => Ok match Db.tables d !! "web_sessions" with
                               | Some tb => Z.of_nat (length (filter (fun n => n = "token") (Table.names tb)))
                               | None => 0
                               end) d with
  | (Ok n, d) => (n, d)
  | (Err _, d) => (0, d)
  end.

Definition migrate_sessions (d : Db.t) : Db.t :=
  let '(n, d) := hasOldSchema d in
  if 0 <? n then (exec_all rebuild_sessions (exec rename_sessions d).2).2 else d.

Definition migrate (d : Db.t) : res unit * Db.t :=
  match exec_all schema d with
  | (Err e, d) => (Err e, d)
  | (Ok _, d) => (Ok tt, ignoring alter_last (migrate_sessions (ignoring alter_first d)))
  end.

(** ** Opening

    [opened] and [pinged]: the errors of [sql.Open] and [Ping]. *)

Definition NewWithProvider {P} (opened pinged : option error) (provider : P) (d : Db.t) :
    res (KeyStore.t P) * Db.t :=
  match opened, pinged with
  | Some e, _ => (Err (Wrapf "open db: %w" e), d)
  | None, Some e => (Err (Wrapf "ping db: %w" e), d)
  | None, None =>
      match migrate d with
      | (Err e, d) => (Err (Wrapf "migrate: %w" e), d)
      | (Ok _, d) => (Ok (KeyStore.NewKeyStore provider), d)
      end
  end.

Definition New (opened pinged : option error) : Db.t -> res (KeyStore.t EnvVarProvider.t) * Db.t :=
  NewWithProvider opened pinged (EnvVarProvider.NewEnvVarProvider EmptyString EmptyString).

(** * Properties *)

(** What the statements promise: the columns of every table they create, and those
    they add to one. *)
Definition statements : list stmt := schema ++ alter_first ++ alter_last.

Definition added : list (string * string) :=
  omap (fun s => match s with AddColumn t c => Some (t, Column.name c) | _ => None end) statements.

Definition promised (s : stmt) : list (string * string) :=
  match s with
  | CreateIfNotExists t cols _ => (fun c => (t, Column.name c)) <$> cols
  | AddColumn t c => [(t, Column.name c)]
  | _ => []
  end.

Definition required : list (string * string) := statements ≫= promised.

Definition has (d : Db.t) (t c : string) : Prop :=
  exists tb, Db.tables d !! t = Some tb /\ c ∈ Table.names tb.

(** The columns a version of the table has had from the start. *)
Definition base (t : string) : list string :=
  (filter (fun p => p.1 = t /\ p ∉ added) required).*2.

(** Every row is kept with what it held. *)
Definition rows_kept (tb tb' : Table.t) : Prop :=
  Forall2 (fun r r' : row => r ⊆ r') (Table.rows tb) (Table.rows tb').

Definition session_row (r : row) : row :=
  {[ "session_id" := cell r "token"; "user_id" := cell r "user_id";
     "expires_at" := cell r "expires_at"; "created_at" := cell r "created_at" ]}.

Definition old_session_columns : list string := ["token"; "user_id"; "expires_at"; "created_at"].

(** The table of sessions of a first version, which can be carried over: every
    session has its own token and belongs to a user. *)
Record old_sessions (d : Db.t) (tb : Table.t) : Prop := {
  os_columns : Forall (fun c => c ∈ Table.names tb) old_session_columns;
  os_distinct : NoDup ((fun r => cell r "token") <$> Table.rows tb);
  os_values : Forall (fun r => Forall (fun c => cell r c <> VNull) old_session_columns) (Table.rows tb);
  os_users : exists tu, Db.tables d !! "users" = Some tu /\
    Forall (fun r => exists u, u ∈ Table.rows tu /\ cell u "id" = cell r "user_id") (Table.rows tb);
  os_free : Db.tables d !! "web_sessions_old" = None
}.

(** The databases an earlier version can have left. *)
Record supported (d : Db.t) : Prop := {
  sup_rows : forall t tb, Db.tables d !! t = Some tb ->
    Forall (fun r : row => dom r ⊆ list_to_set (Table.names tb)) (Table.rows tb);
  sup_base : forall t tb, Db.tables d !! t = Some tb -> t <> "web_sessions" ->
    Forall (fun c => c ∈ Table.names tb) (base t);
  sup_sessions : forall tb, Db.tables d !! "web_sessions" = Some tb ->
    if decide ("token" ∈ Table.names tb) then old_sessions d tb
    else Forall (fun c => c ∈ Table.names tb) (base "web_sessions")
}.

Module SchemaFacts.

(** ** Statements one by one *)

Definition clean (d : Db.t) : Prop := Db.faults d = [].

Lemma exec_clean s d : clean d ->
  exec s d = match run s d with Some d' => (Ok tt, d') | None => (Err ErrSql, d) end.
Proof. intros Hd. unfold exec. by rewrite sql_stmt_ok. Qed.

Lemma run_faults s d d' : run s d = Some d' -> Db.faults d' = Db.faults d.
Proof.
  destruct s; simpl; intros Hr; repeat case_match; simplify_eq/=; try done.
  destruct (insert_all _ _ _); by simplify_eq/=.
Qed.

Lemma exec_keeps_clean s d : clean d -> clean (exec s d).2.
Proof.
  intros Hd. rewrite exec_clean by done. destruct (run s d) eqn:Hr; [|done].
  unfold clean. cbn. by rewrite (run_faults _ _ _ Hr).
Qed.

Lemma ignoring_keeps_clean l d : clean d -> clean (ignoring l d).
Proof. revert d. induction l as [|s l IH]; intros d Hd; [done|]. apply IH. by apply exec_keeps_clean. Qed.

Lemma exec_all_clean l d : clean d -> clean (exec_all l d).2.
Proof.
  revert d. induction l as [|s l IH]; intros d Hd; [done|]. simpl.
  pose proof (exec_keeps_clean s d Hd) as Hc. destruct (exec s d) as [[[]|e] d']; [by apply IH|done].
Qed.

(** The statements outside the branch for the sessions. *)
Definition plain (s : stmt) : bool :=
  match s with CreateIfNotExists _ _ _ | CreateIndex _ _ _ | AddColumn _ _ => true | _ => false end.

Lemma alter_plain : Forall (fun s => plain s = true) (alter_first ++ alter_last).
Proof. by apply (bool_decide_unpack _); vm_compute. Qed.

(** Creating what may be there never fails. *)
Lemma schema_runs d : clean d -> exec_all schema d = (Ok tt, ignoring schema d).
Proof.
  assert (Hs : Forall (fun s => match s with CreateIfNotExists _ _ _ => True | _ => False end) schema)
    by (unfold schema; repeat constructor).
  revert d. induction Hs as [|s l Hs _ IH]; intros d Hd; [done|]. simpl.
  pose proof (exec_keeps_clean s d Hd) as Hc. rewrite exec_clean in * by done.
  destruct s; try done. simpl in *. by destruct (Db.tables d !! t); apply IH.
Qed.

Lemma migrate_clean d : clean d ->
  migrate d = (Ok tt, ignoring alter_last (migrate_sessions (ignoring alter_first (ignoring schema d)))).
Proof. intros Hd. unfold migrate. by rewrite schema_runs. Qed.

(** ** Columns: an abstraction of a database to one column of one table

    [None]: no such table.  [Some true]: the column is there. *)

Definition abs_step (t c : string) (a : option bool) (s : stmt) : option bool :=
  match s with
  | CreateIfNotExists u cols _ =>
      if decide (u = t) then
        Some match a with Some b => b | None => bool_decide (c ∈ Column.name <$> cols) end
      else a
  | AddColumn u col =>
      if decide (u = t) then
        (fun b => b || bool_decide (Column.name col = c) &&
                  negb (Column.not_null col && bool_decide (Column.absent col = VNull))) <$> a
      else a
  | _ => a
  end.

Definition approx (d : Db.t) (t c : string) (a : option bool) : Prop :=
  match a with
  | None => Db.tables d !! t = None
  | Some b => exists tb, Db.tables d !! t = Some tb /\ (b = true -> c ∈ Table.names tb)
  end.

Lemma approx_tables d d' t c a :
  Db.tables d' !! t = Db.tables d !! t -> approx d t c a -> approx d' t c a.
Proof. destruct a; simpl; intros ->; done. Qed.

Lemma names_add col tb : Table.names (Table.add col tb) = Table.names tb ++ [Column.name col].
Proof. unfold Table.names, Table.add. simpl. by rewrite fmap_app. Qed.

Lemma abs_sound s d t c a : clean d -> plain s = true ->
  approx d t c a -> approx (exec s d).2 t c (abs_step t c a s).
Proof.
  intros Hd Hp Ha. rewrite exec_clean by done.
  destruct s as [u cols keys| |idx u col|u col| | |]; try done; cbn [run abs_step].
  - destruct (decide (u = t)) as [->|Hne].
    + destruct a as [b|]; simpl in Ha |- *.
      * destruct Ha as (tb & Ht & Hb). rewrite Ht. by exists tb.
      * rewrite Ha. simpl. eexists. rewrite lookup_insert_eq. split; [done|].
        intros Hc%bool_decide_eq_true_1. done.
    + destruct (Db.tables d !! u); [done|]. eapply approx_tables; [|done]. simpl.
      by rewrite lookup_insert_ne.
  - case_bool_decide; [done|]. destruct (Db.tables d !! u); [|done]. by case_bool_decide.
  - destruct (decide (u = t)) as [->|Hne].
    + destruct a as [b|]; simpl in Ha |- *; [|by rewrite Ha].
      destruct Ha as (tb & Ht & Hb). rewrite Ht. case_bool_decide as Hin.
      { exists tb. split; [done|]. intros [Hb'|[Hc%bool_decide_eq_true_1 _]%andb_true_iff]%orb_true_iff.
        - by apply Hb.
        - by subst. }
      destruct (Column.not_null col && _) eqn:Hn.
      { exists tb. split; [done|]. rewrite andb_false_r, orb_false_r. done. }
      simpl. eexists. rewrite lookup_insert_eq. split; [done|]. rewrite names_add.
      intros [Hb'|[Hc%bool_decide_eq_true_1 _]%andb_true_iff]%orb_true_iff; set_solver.
    + destruct (Db.tables d !! u); [|done]. case_bool_decide; [done|].
      destruct (_ && _); [done|]. eapply approx_tables; [|done]. simpl. by rewrite lookup_insert_ne.
Qed.

Lemma ignoring_sound l d t c a : clean d -> Forall (fun s => plain s = true) l ->
  approx d t c a -> approx (ignoring l d) t c (foldl (abs_step t c) a l).
Proof.
  intros Hd Hl. revert d a Hd. induction Hl as [|s l Hs _ IH]; intros d a Hd Ha; [done|].
  simpl. apply IH; [by apply exec_keeps_clean|]. by apply abs_sound.
Qed.

(** ** The rows outlive the statements *)

Definition fits (tb : Table.t) : Prop :=
  Forall (fun r : row => dom r ⊆ list_to_set (C := gset string) (Table.names tb)) (Table.rows tb).

Definition grown (tb tb' : Table.t) : Prop :=
  Table.names tb ⊆ Table.names tb' /\ rows_kept tb tb'.

Lemma grown_refl tb : grown tb tb.
Proof. split; [done|]. unfold rows_kept. by induction (Table.rows tb); constructor. Qed.

Lemma grown_trans tb1 tb2 tb3 : grown tb1 tb2 -> grown tb2 tb3 -> grown tb1 tb3.
Proof.
  intros [Hn1 Hr1] [Hn2 Hr2]. split; [by etrans|]. unfold rows_kept in *.
  revert Hr2. generalize (Table.rows tb3). induction Hr1 as [|r1 r2 l1 l2 Hr _ IH]; intros l3 Hl3.
  - by apply Forall2_nil_inv_l in Hl3 as ->.
  - apply Forall2_cons_inv_l in Hl3 as (r3 & l3' & Hr3 & Hl & ->). constructor; [by etrans|by apply IH].
Qed.

Lemma add_fits col tb : fits tb -> fits (Table.add col tb).
Proof.
  unfold fits. rewrite names_add. simpl. rewrite Forall_fmap. intros Hf. eapply Forall_impl; [exact Hf|]. intros r Hr. simpl.
  rewrite dom_insert. set_solver.
Qed.

Lemma add_grown col tb : fits tb -> Column.name col ∉ Table.names tb -> grown tb (Table.add col tb).
Proof.
  intros Hf Hc. split; [rewrite names_add; set_solver|]. unfold rows_kept. simpl.
  apply Forall2_fmap_r. unfold fits in Hf. induction Hf as [|r l Hr _ IH]; constructor; [|done].
  apply insert_subseteq, not_elem_of_dom. set_solver.
Qed.

(** A table after some statements: it was there and has grown, or it is new. *)
Definition follows (d d' : Db.t) (t : string) : Prop :=
  forall tb, Db.tables d !! t = Some tb -> fits tb ->
    exists tb', Db.tables d' !! t = Some tb' /\ grown tb tb' /\ fits tb'.

Lemma follows_refl d t : follows d d t.
Proof. intros tb Ht Hf. exists tb. split_and!; [done|apply grown_refl|done]. Qed.

Lemma follows_trans d1 d2 d3 t : follows d1 d2 t -> follows d2 d3 t -> follows d1 d3 t.
Proof.
  intros H12 H23 tb Ht Hf. destruct (H12 tb Ht Hf) as (tb2 & Ht2 & Hg2 & Hf2).
  destruct (H23 tb2 Ht2 Hf2) as (tb3 & Ht3 & Hg3 & Hf3). exists tb3. split_and!; [done| |done].
  by eapply grown_trans.
Qed.

Lemma follows_same d d' t : Db.tables d' !! t = Db.tables d !! t -> follows d d' t.
Proof. intros Hs tb Ht Hf. exists tb. rewrite Hs. split_and!; [done|apply grown_refl|done]. Qed.

Lemma exec_follows s d t : clean d -> plain s = true -> follows d (exec s d).2 t.
Proof.
  intros Hd Hp. rewrite exec_clean by done.
  destruct s as [u cols keys| |idx u col|u col| | |]; try done; cbn [run].
  - destruct (Db.tables d !! u) as [tu|] eqn:Hu; [apply follows_refl|].
    intros tb Ht Hf. exists tb. simpl. rewrite lookup_insert_ne by congruence.
    split_and!; [done|apply grown_refl|done].
  - case_bool_decide; [apply follows_refl|]. destruct (Db.tables d !! u); [|apply follows_refl].
    case_bool_decide; [by apply follows_same|apply follows_refl].
  - destruct (Db.tables d !! u) as [tu|] eqn:Hu; [|apply follows_refl].
    case_bool_decide as Hin; [apply follows_refl|]. destruct (_ && _); [apply follows_refl|].
    intros tb Ht Hf. destruct (decide (u = t)) as [->|Hne].
    + assert (tu = tb) as -> by congruence. exists (Table.add col tb). simpl. rewrite lookup_insert_eq.
      split_and!; [done|by apply add_grown|by apply add_fits].
    + exists tb. simpl. rewrite lookup_insert_ne by done. split_and!; [done|apply grown_refl|done].
Qed.

Lemma ignoring_follows l d t :
  clean d -> Forall (fun s => plain s = true) l -> follows d (ignoring l d) t.
Proof.
  intros Hd Hl. revert d Hd. induction Hl as [|s l Hs _ IH]; intros d Hd; [apply follows_refl|].
  simpl. eapply follows_trans; [by apply exec_follows|]. apply IH. by apply exec_keeps_clean.
Qed.

Lemma plain_lists : Forall (fun s => plain s = true) schema /\ Forall (fun s => plain s = true) alter_first /\
  Forall (fun s => plain s = true) alter_last.
Proof. split_and!; by apply (bool_decide_unpack _); vm_compute. Qed.

(** Tables no statement of a list names stay as they are. *)
Definition names_table (t : string) (s : stmt) : bool :=
  match s with
  | CreateIfNotExists u _ _ | CreateTable u _ _ | AddColumn u _ | DropTable u => bool_decide (u = t)
  | RenameTable u v => bool_decide (u = t) || bool_decide (v = t)
  | CopyRows u _ _ => bool_decide (u = t)
  | CreateIndex _ _ _ => false
  end.

Lemma run_elsewhere s d d' t : names_table t s = false -> run s d = Some d' ->
  Db.tables d' !! t = Db.tables d !! t.
Proof.
  intros Hn Hr. destruct s as [u cols ks|u cols ks|idx u col|u c|u v|u v cols|u]; cbn [names_table] in Hn;
    rewrite ?orb_false_iff, ?bool_decide_eq_false in Hn; cbn [run] in Hr; repeat case_match; simplify_eq/=;
    try done; try (by rewrite lookup_insert_ne by done); try (by rewrite lookup_delete_ne by done).
  - destruct Hn. by rewrite lookup_insert_ne, lookup_delete_ne by done.
  - destruct (insert_all _ _ _); simplify_eq/=. by rewrite lookup_insert_ne by done.
Qed.

Lemma exec_elsewhere s d t : clean d -> names_table t s = false ->
  Db.tables (exec s d).2 !! t = Db.tables d !! t.
Proof.
  intros Hd Hn. rewrite exec_clean by done. destruct (run s d) eqn:Hr; [|done]. by eapply run_elsewhere.
Qed.

Lemma exec_all_elsewhere l d t : clean d -> Forall (fun s => names_table t s = false) l ->
  Db.tables (exec_all l d).2 !! t = Db.tables d !! t.
Proof.
  intros Hd Hl. revert d Hd. induction Hl as [|s l Hs _ IH]; intros d Hd; [done|]. simpl.
  pose proof (exec_elsewhere s d t Hd Hs) as He. pose proof (exec_keeps_clean s d Hd) as Hc.
  destruct (exec s d) as [[[]|e] d']; simpl in *; [|done]. by rewrite IH.
Qed.

Lemma ignoring_elsewhere l d t : clean d -> Forall (fun s => names_table t s = false) l ->
  Db.tables (ignoring l d) !! t = Db.tables d !! t.
Proof.
  intros Hd Hl. revert d Hd. induction Hl as [|s l Hs _ IH]; intros d Hd; [done|]. simpl.
  rewrite IH by by apply exec_keeps_clean. by apply exec_elsewhere.
Qed.

(** ** The branch for the sessions *)

Lemma old_schema_clean d : clean d -> hasOldSchema d =
  (match Db.tables d !! "web_sessions" with
   | Some tb => Z.of_nat (length (filter (fun n => n = "token") (Table.names tb)))
   | None => 0
   end, d).
Proof. intros Hd. unfold hasOldSchema, sql_query. by rewrite sql_stmt_ok. Qed.

Lemma migrate_sessions_skips d : clean d ->
  (forall tb, Db.tables d !! "web_sessions" = Some tb -> "token" ∉ Table.names tb) ->
  migrate_sessions d = d.
Proof.
  intros Hd Ht. unfold migrate_sessions. rewrite old_schema_clean by done.
  destruct (Db.tables d !! "web_sessions") as [tb|]; [|done].
  rewrite filter_none; [done|]. intros n Hn ->. by apply (Ht tb).
Qed.

Lemma migrate_sessions_clean d : clean d -> clean (migrate_sessions d).
Proof.
  intros Hd. unfold migrate_sessions. rewrite old_schema_clean by done. destruct (0 <? _); [|done].
  by apply exec_all_clean, exec_keeps_clean.
Qed.

Lemma migrate_sessions_elsewhere d t : clean d -> t <> "web_sessions" -> t <> "web_sessions_old" ->
  Db.tables (migrate_sessions d) !! t = Db.tables d !! t.
Proof.
  intros Hd H1 H2. unfold migrate_sessions. rewrite old_schema_clean by done. destruct (0 <? _); [|done].
  rewrite exec_all_elsewhere; [|by apply exec_keeps_clean|].
  - apply exec_elsewhere; [done|]. simpl. by rewrite !bool_decide_eq_false_2.
  - unfold rebuild_sessions. repeat constructor; simpl; by apply bool_decide_eq_false_2.
Qed.

Lemma exec_indexes s d : clean d -> Db.indexes d ⊆ Db.indexes (exec s d).2.
Proof.
  intros Hd. rewrite exec_clean by done. destruct (run s d) as [d'|] eqn:Hr; [|done].
  destruct s; simpl in Hr; repeat case_match; simplify_eq/=; try set_solver.
  destruct (insert_all _ _ _); by simplify_eq/=.
Qed.

Lemma ignoring_indexes l d : clean d -> Db.indexes d ⊆ Db.indexes (ignoring l d).
Proof.
  revert d. induction l as [|s l IH]; intros d Hd; [done|]. etrans; [by apply (exec_indexes s)|].
  apply IH. by apply exec_keeps_clean.
Qed.

Lemma filled_session acc r :
  filled (Table.mk session_columns [] acc)
    (selected [("session_id", "token"); ("user_id", "user_id"); ("expires_at", "expires_at");
               ("created_at", "created_at")] r) = session_row r.
Proof. reflexivity. Qed.

(** A session that can be carried over. *)
Definition carried (d : Db.t) (r : row) : Prop :=
  Forall (fun c => cell r c <> VNull) old_session_columns /\
  exists tu u, Db.tables d !! "users" = Some tu /\ u ∈ Table.rows tu /\ cell u "id" = cell r "user_id".

Lemma session_row_ok d acc r : carried d r ->
  Forall (fun r' => cell r' "session_id" <> cell r "token") acc ->
  row_ok d (Table.mk session_columns [] acc) (session_row r) = true.
Proof.
  intros [Hv (tu & u & Ht & Hu & Hid)] Hacc. unfold old_session_columns in Hv.
  rewrite !Forall_cons in Hv. destruct Hv as (Htok & Huid & Hexp & Hcre & _).
  unfold row_ok. rewrite andb_true_r. unfold session_columns.
  cbn [Table.columns forallb Column.not_null Column.constraints Column.name constraint_ok Table.rows negb andb].
  change (cell (session_row r) "session_id") with (cell r "token").
  change (cell (session_row r) "user_id") with (cell r "user_id").
  change (cell (session_row r) "expires_at") with (cell r "expires_at").
  change (cell (session_row r) "created_at") with (cell r "created_at").
  rewrite !(bool_decide_eq_false_2 (_ = VNull)) by done. cbn [negb andb orb]. rewrite !andb_true_r.
  apply andb_true_iff. split.
  - rewrite negb_true_iff. apply not_true_iff_false. rewrite existsb_exists. intros (r' & Hin & Hh).
    apply bool_decide_eq_true_1, Forall_singleton in Hh as [_ Hh].
    change (cell (session_row r) "session_id") with (cell r "token") in Hh.
    rewrite Forall_forall in Hacc. apply (Hacc r'); [by apply list_elem_of_In|done].
  - rewrite Ht. apply existsb_exists. exists u. split; [by apply list_elem_of_In|]. by apply bool_decide_eq_true_2.
Qed.

Lemma insert_sessions d l acc :
  Forall (carried d) l ->
  NoDup (((fun r => cell r "session_id") <$> acc) ++ ((fun r => cell r "token") <$> l)) ->
  insert_all d (Table.mk session_columns [] acc)
    (selected [("session_id", "token"); ("user_id", "user_id"); ("expires_at", "expires_at");
               ("created_at", "created_at")] <$> l) =
  Some (Table.mk session_columns [] (acc ++ (session_row <$> l))).
Proof.
  intros Hl. revert acc. induction Hl as [|r l Hr _ IH]; intros acc Hd; [by rewrite app_nil_r|].
  cbn [fmap list_fmap insert_all]. rewrite filled_session, session_row_ok; [|done|].
  - unfold Table.insert_row. cbn [Table.columns Table.keys Table.rows].
    rewrite IH, <- app_assoc; [done|]. rewrite fmap_app, <- app_assoc. exact Hd.
  - apply NoDup_app in Hd as (_ & Hd & _). rewrite Forall_forall. intros r' Hin Heq.
    apply (Hd (cell r "token")); [|by left]. rewrite <- Heq.
    apply list_elem_of_fmap. by exists r'.
Qed.

Lemma migrate_sessions_carries d tb :
  clean d -> Db.tables d !! "web_sessions" = Some tb -> "token" ∈ Table.names tb ->
  Forall (fun c => c ∈ Table.names tb) old_session_columns -> Forall (carried d) (Table.rows tb) ->
  NoDup ((fun r => cell r "token") <$> Table.rows tb) -> Db.tables d !! "web_sessions_old" = None ->
  Db.tables (migrate_sessions d) !! "web_sessions" =
    Some (Table.mk session_columns [] (session_row <$> Table.rows tb)).
Proof.
  intros Hd Ht Htok Hcols Hc Hnd Hold. unfold migrate_sessions. rewrite old_schema_clean, Ht by done.
  assert ((0 <? Z.of_nat (length (filter (fun n => n = "token") (Table.names tb)))) = true) as ->.
  { assert (length (filter (fun n => n = "token") (Table.names tb)) <> 0%nat); [|lia].
    intros H0%nil_length_inv. apply (not_elem_of_nil (A := string) "token"). rewrite <- H0.
    by apply list_elem_of_filter. }
  unfold rename_sessions, rebuild_sessions. rewrite exec_clean by done. cbn [run]. rewrite Ht, Hold.
  cbn [snd exec_all]. rewrite exec_clean by done. cbn [run Db.set_tables Db.tables].
  rewrite lookup_insert_ne, lookup_delete_eq by done. cbn [exec_all].
  rewrite exec_clean by done. cbn [run Db.set_tables Db.tables].
  rewrite lookup_insert_eq, lookup_insert_ne, lookup_insert_eq by done.
  rewrite bool_decide_eq_true_2.
  2: { unfold old_session_columns in Hcols. rewrite !Forall_cons in Hcols. unfold Table.names at 1.
       repeat (apply Forall_cons; split); [..|apply Forall_nil; done];
         (split; [by apply (bool_decide_unpack _); vm_compute|cbn [snd]; tauto]). }
  rewrite insert_sessions; [|rewrite Forall_forall in Hc |- *|done].
  2: { intros r Hr. destruct (Hc r Hr) as [Hv (tu & u & Htu & Hu)]. split; [done|]. exists tu, u.
       split; [|done]. cbn [Db.tables Db.set_tables].
       rewrite lookup_insert_ne, lookup_insert_ne by done. etrans; [by apply lookup_delete_ne|done]. }
  cbn [mbind option_bind exec_all app]. rewrite exec_clean by done. cbn [run Db.set_tables Db.tables].
  rewrite bool_decide_eq_true_2.
  - cbn [snd exec_all Db.tables Db.set_tables]. by rewrite lookup_delete_ne, lookup_insert_eq.
  - rewrite lookup_insert_ne, lookup_insert_ne, lookup_insert_eq by done. by eexists.
Qed.

(** ** One start *)

Definition start (d : Db.t) : Db.t :=
  ignoring alter_last (migrate_sessions (ignoring alter_first (ignoring schema d))).

Lemma start_clean d : clean d -> clean (start d).
Proof.
  intros Hd. apply ignoring_keeps_clean, migrate_sessions_clean, ignoring_keeps_clean, ignoring_keeps_clean, Hd.
Qed.

Lemma start_approx d t c a : clean d -> t <> "web_sessions" -> t <> "web_sessions_old" ->
  approx d t c a -> approx (start d) t c (foldl (abs_step t c) a statements).
Proof.
  intros Hd H1 H2 Ha. destruct plain_lists as (Hs & Hf & Hl). unfold statements. rewrite !foldl_app.
  unfold start. apply ignoring_sound; [apply migrate_sessions_clean; by repeat apply ignoring_keeps_clean|done|].
  eapply approx_tables; [by apply migrate_sessions_elsewhere; [by repeat apply ignoring_keeps_clean|..]|].
  apply ignoring_sound; [by apply ignoring_keeps_clean|done|]. by apply ignoring_sound.
Qed.

Lemma start_follows d t : clean d -> t <> "web_sessions" -> t <> "web_sessions_old" -> follows d (start d) t.
Proof.
  intros Hd H1 H2. destruct plain_lists as (Hs & Hf & Hl). unfold start.
  eapply follows_trans; [by apply (ignoring_follows schema)|].
  eapply follows_trans; [apply (ignoring_follows alter_first); [by apply ignoring_keeps_clean|done]|].
  eapply follows_trans; [apply follows_same, migrate_sessions_elsewhere; [by repeat apply ignoring_keeps_clean|done..]|].
  apply ignoring_follows; [|done]. apply migrate_sessions_clean. by repeat apply ignoring_keeps_clean.
Qed.

(** Where the sessions are in their present form the branch does nothing. *)
Definition settled_sessions (d : Db.t) : Prop :=
  forall tb, Db.tables d !! "web_sessions" = Some tb -> "token" ∉ Table.names tb.

(** A table only one statement names. *)
Lemma ignoring_create l1 l2 t cols ks d : clean d ->
  Forall (fun s => names_table t s = false) l1 -> Forall (fun s => names_table t s = false) l2 ->
  Db.tables (ignoring (l1 ++ CreateIfNotExists t cols ks :: l2) d) !! t =
    Some (default (Table.mk cols ks []) (Db.tables d !! t)).
Proof.
  intros Hd H1 H2. unfold ignoring. rewrite foldl_app. cbn [foldl].
  change (foldl (fun d s => (exec s d).2) d l1) with (ignoring l1 d).
  assert (He : clean (ignoring l1 d)) by by apply ignoring_keeps_clean.
  pose proof (ignoring_elsewhere l1 d t Hd H1) as Hl.
  etrans; [apply (ignoring_elsewhere l2); [by apply exec_keeps_clean|done]|].
  rewrite exec_clean by done. cbn [run]. rewrite Hl.
  destruct (Db.tables d !! t) as [tb|] eqn:Ht; cbn [snd default from_option]; [by rewrite Hl|].
  cbn [Db.tables Db.set_tables]. by rewrite lookup_insert_eq.
Qed.

Lemma schema_sessions : schema = take 6 schema ++ CreateIfNotExists "web_sessions" session_columns [] :: drop 7 schema /\
  Forall (fun s => names_table "web_sessions" s = false) (take 6 schema) /\
  Forall (fun s => names_table "web_sessions" s = false) (drop 7 schema) /\
  Forall (fun s => names_table "web_sessions" s = false) (alter_first ++ alter_last).
Proof. split; [reflexivity|]. split_and!; by apply (bool_decide_unpack _); vm_compute. Qed.

(** The sessions before the branch. *)
Lemma sessions_untouched d : clean d ->
  Db.tables (ignoring alter_first (ignoring schema d)) !! "web_sessions" =
    Some (default (Table.mk session_columns [] []) (Db.tables d !! "web_sessions")).
Proof.
  intros Hd. destruct schema_sessions as (Hs & H1 & H2 & [Ha _]%Forall_app).
  etrans; [apply ignoring_elsewhere; [by apply ignoring_keeps_clean|done]|].
  rewrite Hs. by apply ignoring_create.
Qed.

Lemma sessions_after d : clean d ->
  Db.tables (start d) !! "web_sessions" =
    Db.tables (migrate_sessions (ignoring alter_first (ignoring schema d))) !! "web_sessions".
Proof.
  intros Hd. unfold start. apply ignoring_elsewhere; [|by apply (Forall_app _ alter_first), schema_sessions].
  apply migrate_sessions_clean. by repeat apply ignoring_keeps_clean.
Qed.

Lemma sessions_kept d tb : clean d -> Db.tables d !! "web_sessions" = Some tb ->
  "token" ∉ Table.names tb -> Db.tables (start d) !! "web_sessions" = Some tb.
Proof.
  intros Hd Ht Htok. rewrite sessions_after by done. rewrite migrate_sessions_skips.
  - by rewrite sessions_untouched, Ht by done.
  - by repeat apply ignoring_keeps_clean.
  - intros tb'. rewrite sessions_untouched, Ht by done. by intros [= <-].
Qed.

Lemma sessions_created d : clean d -> Db.tables d !! "web_sessions" = None ->
  Db.tables (start d) !! "web_sessions" = Some (Table.mk session_columns [] []).
Proof.
  intros Hd Ht. rewrite sessions_after by done. rewrite migrate_sessions_skips.
  - by rewrite sessions_untouched, Ht by done.
  - by repeat apply ignoring_keeps_clean.
  - intros tb'. rewrite sessions_untouched, Ht by done. intros [= <-]. by apply (bool_decide_unpack _); vm_compute.
Qed.

Lemma nothing_old : Forall (fun s => names_table "web_sessions_old" s = false) alter_first /\
  Forall (fun s => names_table "web_sessions_old" s = false) schema.
Proof. split; by apply (bool_decide_unpack _); vm_compute. Qed.

Lemma cell_mono (r r' : row) c : r ⊆ r' -> cell r c <> VNull -> cell r' c = cell r c.
Proof.
  intros Hr. unfold cell. destruct (r !! c) as [v|] eqn:Hc; [|done]. intros _.
  by rewrite (lookup_weaken _ _ _ _ Hc Hr).
Qed.

Lemma sessions_rebuilt d tb : clean d -> supported d -> Db.tables d !! "web_sessions" = Some tb ->
  "token" ∈ Table.names tb ->
  Db.tables (start d) !! "web_sessions" = Some (Table.mk session_columns [] (session_row <$> Table.rows tb)).
Proof.
  intros Hd Hsup Ht Htok. pose proof (sup_sessions d Hsup tb Ht) as Hs. rewrite decide_True in Hs by done.
  destruct Hs as [Hcols Hdist Hvals (tu & Htu & Husers) Hfree]. rewrite sessions_after by done.
  assert (Hc : clean (ignoring alter_first (ignoring schema d))) by by repeat apply ignoring_keeps_clean.
  apply migrate_sessions_carries; [done|by rewrite sessions_untouched, Ht by done|done|done| |done|].
  - destruct plain_lists as (Hps & Hpf & _).
    assert (Hfol : follows d (ignoring alter_first (ignoring schema d)) "users").
    { eapply follows_trans; [by apply (ignoring_follows schema)|].
      apply ignoring_follows; [by apply ignoring_keeps_clean|done]. }
    destruct (Hfol tu Htu (sup_rows d Hsup _ _ Htu)) as (tu' & Htu' & [_ Hrows] & _).
    rewrite Forall_forall in Hvals, Husers |- *. intros r Hr. split; [by apply Hvals|].
    destruct (Husers r Hr) as (u & Hu & Hid). apply list_elem_of_lookup in Hu as [i Hi].
    destruct (Forall2_lookup_l _ _ _ _ _ Hrows Hi) as (u' & Hi' & Hsub). exists tu', u'.
    split_and!; [done|by apply list_elem_of_lookup; exists i|]. rewrite (cell_mono u u') ; [done|done|].
    rewrite Hid. pose proof (Hvals r Hr) as Hv. unfold old_session_columns in Hv. rewrite !Forall_cons in Hv. tauto.
  - etrans; [apply ignoring_elsewhere; [by apply ignoring_keeps_clean|apply nothing_old]|].
    etrans; [apply ignoring_elsewhere; [done|apply nothing_old]|done].
Qed.

(** What the abstraction says of every column that is promised, from an absent
    table and from one that has the columns of its first version. *)
Definition settles (n : nat) (p : string * string) : bool :=
  forallb (fun a => bool_decide (Nat.iter n (fun a => foldl (abs_step p.1 p.2) a statements) a = Some true))
    [None; Some (bool_decide (p ∉ added))].

Lemma two_starts_settle : forallb (fun p => bool_decide (p.1 = "web_sessions") || settles 2 p) required = true.
Proof. by vm_compute. Qed.

Lemma one_start_settles :
  forallb (fun p => bool_decide (p.1 = "web_sessions") || bool_decide (p = ("enforcer_audit_log", "arguments")) ||
                    settles 1 p) required = true.
Proof. by vm_compute. Qed.

Lemma supported_approx d p : supported d -> p ∈ required -> p.1 <> "web_sessions" ->
  exists a, a ∈ [None; Some (bool_decide (p ∉ added))] /\ approx d p.1 p.2 a.
Proof.
  intros Hsup Hreq Hp. destruct (Db.tables d !! p.1) as [tb|] eqn:Ht.
  - exists (Some (bool_decide (p ∉ added))). split; [by right; left|]. exists tb. split; [done|].
    intros Hb%bool_decide_eq_true_1. pose proof (sup_base d Hsup _ _ Ht Hp) as Hbase.
    rewrite Forall_forall in Hbase.
    apply Hbase. unfold base. apply list_elem_of_fmap. exists p. split; [done|]. by apply list_elem_of_filter.
  - exists None. split; [by left|done].
Qed.

Lemma not_old_table : Forall (fun p => p.1 <> "web_sessions_old") required.
Proof. by apply (bool_decide_unpack _); vm_compute. Qed.
End SchemaFacts.
Import SchemaFacts.

(** A start that finds a complete database changes nothing. *)
Module SettledFacts.
Definition settled (d : Db.t) : Prop :=
  (forall p, p ∈ required -> has d p.1 p.2) /\ settled_sessions d /\ "idx_invitations_email" ∈ Db.indexes d.

Lemma exec_settled s d : clean d -> settled d -> s ∈ statements -> (exec s d).2 = d.
Proof.
  intros Hd (Hr & _ & Hi) Hs. rewrite exec_clean by done.
  assert (Hp : forall p, p ∈ promised s -> has d p.1 p.2).
  { intros p Hp. apply Hr. apply list_elem_of_bind. by exists s. }
  assert (Hall : Forall (fun s => match s with
      | CreateIfNotExists _ [] _ => False | CreateIndex i _ _ => i = "idx_invitations_email"
      | CreateIfNotExists _ _ _ | AddColumn _ _ => True | _ => False end) statements).
  { unfold statements, schema, alter_first, alter_last, alter_enforcer, alter_rest. cbn [app]. by repeat constructor. }
  rewrite Forall_forall in Hall. specialize (Hall s Hs).
  destruct s as [t [|c cols] ks| |idx t col|t c| | |]; try done; cbn [run].
  - destruct (Hp (t, Column.name c)) as (tb & Ht & _); [by left|]. cbn [fst] in Ht. by rewrite Ht.
  - subst. by rewrite bool_decide_eq_true_2.
  - destruct (Hp (t, Column.name c)) as (tb & Ht & Hin); [by left|]. cbn [fst snd] in *.
    by rewrite Ht, bool_decide_eq_true_2.
Qed.

Lemma ignoring_settled l d : clean d -> settled d -> l ⊆ statements -> ignoring l d = d.
Proof.
  intros Hd Hs. induction l as [|s l IH]; intros Hl; [done|]. unfold ignoring in *. cbn [foldl].
  rewrite exec_settled; [|done|done|apply Hl; by left]. apply IH. intros x Hx. apply Hl. by right.
Qed.

Lemma parts : schema ⊆ statements /\ alter_first ⊆ statements /\ alter_last ⊆ statements.
Proof. split_and!; intros s Hs; unfold statements; rewrite !elem_of_app; tauto. Qed.

Lemma start_settled d : clean d -> settled d -> start d = d.
Proof.
  intros Hd Hs. destruct parts as (H1 & H2 & H3). unfold start.
  rewrite (ignoring_settled schema), (ignoring_settled alter_first) by done.
  rewrite migrate_sessions_skips; [by apply ignoring_settled|done|]. by destruct Hs as (_ & ? & _).
Qed.

(** The index is there after the start that has the table. *)
Lemma alter_last_split : exists l1 l2,
  alter_last = l1 ++ CreateIndex "idx_invitations_email" "invitations" "email" :: l2 /\
  Forall (fun s => plain s = true) l1 /\
  (forall a, a ∈ [None; Some true] ->
     foldl (abs_step "invitations" "email") a (schema ++ alter_first ++ l1) = Some true).
Proof.
  exists (take (length alter_last - 2) alter_last), (drop (length alter_last - 1) alter_last).
  split_and!; [reflexivity|by apply (bool_decide_unpack _); vm_compute|].
  intros a [->| ->%list_elem_of_singleton]%elem_of_cons; by vm_compute.
Qed.

Lemma start_index d : clean d -> supported d -> "idx_invitations_email" ∈ Db.indexes (start d).
Proof.
  intros Hd Hsup. destruct alter_last_split as (l1 & l2 & Hsplit & Hp & Habs).
  destruct plain_lists as (Hps & Hpf & _).
  assert (Ha : exists a, a ∈ [None; Some true] /\ approx d "invitations" "email" a).
  { destruct (Db.tables d !! "invitations") as [tb|] eqn:Ht.
    - exists (Some true). split; [by right; left|]. exists tb. split; [done|]. intros _.
      pose proof (sup_base d Hsup _ _ Ht ltac:(done)) as Hb. rewrite Forall_forall in Hb. apply Hb.
      by apply (bool_decide_unpack _); vm_compute.
    - exists None. split; [by left|done]. }
  destruct Ha as (a & Hin & Ha). unfold start. rewrite Hsplit. unfold ignoring at 1. rewrite foldl_app. cbn [foldl].
  match goal with |- context [foldl ?f ?e l1] => change (foldl f e l1) with (ignoring l1 e); set (d1 := e) end.
  assert (Hc1 : clean d1) by (apply migrate_sessions_clean; by repeat apply ignoring_keeps_clean).
  assert (Hc2 : clean (ignoring l1 d1)) by by apply ignoring_keeps_clean.
  assert (Hap : approx (ignoring l1 d1) "invitations" "email" (Some true)).
  { rewrite <- (Habs a Hin), !foldl_app. apply ignoring_sound; [done..|].
    eapply approx_tables; [apply migrate_sessions_elsewhere; [by repeat apply ignoring_keeps_clean|done..]|].
    apply ignoring_sound; [by apply ignoring_keeps_clean|done|]. by apply ignoring_sound. }
  apply (ignoring_indexes l2); [by apply exec_keeps_clean|]. rewrite exec_clean by done. cbn [run].
  case_bool_decide; [done|]. destruct Hap as (tb & -> & Hem). rewrite bool_decide_eq_true_2 by by apply Hem.
  cbn [snd Db.indexes]. by apply elem_of_union_l, elem_of_singleton.
Qed.

Lemma start_indexes d : clean d -> Db.indexes d ⊆ Db.indexes (start d).
Proof.
  assert (Hx : forall l e, clean e -> Db.indexes e ⊆ Db.indexes (exec_all l e).2).
  { induction l as [|s l IH]; intros e Hc; [done|]. simpl. pose proof (exec_indexes s e Hc).
    pose proof (exec_keeps_clean s e Hc). destruct (exec s e) as [[[]|] e']; simpl in *; [|done].
    etrans; [done|]. by apply IH. }
  intros Hd. etrans; [by apply (ignoring_indexes schema)|].
  etrans; [apply (ignoring_indexes alter_first); by apply ignoring_keeps_clean|].
  assert (Hc : clean (ignoring alter_first (ignoring schema d))) by by repeat apply ignoring_keeps_clean.
  etrans; [|apply ignoring_indexes; by apply migrate_sessions_clean].
  unfold migrate_sessions. rewrite old_schema_clean by done. destruct (0 <? _); [|done].
  etrans; [by apply (exec_indexes rename_sessions)|]. apply Hx. by apply exec_keeps_clean.
Qed.
End SettledFacts.

Import SettledFacts.

Lemma old_untouched d : clean d -> settled_sessions d ->
  Db.tables (start d) !! "web_sessions_old" = Db.tables d !! "web_sessions_old".
Proof.
  intros Hd Hs. assert (Hl : Forall (fun s => names_table "web_sessions_old" s = false) alter_last)
    by by apply (bool_decide_unpack _); vm_compute.
  assert (Hc : clean (ignoring alter_first (ignoring schema d))) by by repeat apply ignoring_keeps_clean.
  unfold start. rewrite migrate_sessions_skips; [|done|].
  - etrans; [by apply ignoring_elsewhere|].
    etrans; [apply ignoring_elsewhere; [by apply ignoring_keeps_clean|apply nothing_old]|].
    etrans; [apply ignoring_elsewhere; [done|apply nothing_old]|done].
  - intros tb. rewrite sessions_untouched by done. intros [= <-].
    destruct (Db.tables d !! "web_sessions") as [tb|] eqn:Ht; [by apply Hs|].
    by apply (bool_decide_unpack _); vm_compute.
Qed.

Lemma migrate_start d : clean d -> migrate d = (Ok tt, start d).
Proof. intros Hd. by apply migrate_clean. Qed.

(** What has reached its place stays there. *)
Section Converges.
#[local] Opaque start statements required.
Context (d : Db.t) (Hd : clean d) (Hsup : supported d).

Lemma sessions_settle : exists tb, Db.tables (start d) !! "web_sessions" = Some tb /\
  "token" ∉ Table.names tb /\ Forall (fun c => c ∈ Table.names tb) (base "web_sessions").
Proof.
  assert (Hnew : forall l, "token" ∉ Table.names (Table.mk session_columns [] l) /\
    Forall (fun c => c ∈ Table.names (Table.mk session_columns [] l)) (base "web_sessions")).
  { intros l. unfold Table.names. cbn [Table.columns].
    split; by apply (bool_decide_unpack _); vm_compute. }
  destruct (Db.tables d !! "web_sessions") as [tb|] eqn:Ht.
  - pose proof (sup_sessions d Hsup tb Ht) as Hs. destruct (decide _) as [Htok|Htok].
    + eexists. split; [by apply sessions_rebuilt|]. apply Hnew.
    + exists tb. split; [by apply sessions_kept|done].
  - eexists. split; [by apply sessions_created|]. apply Hnew.
Qed.

Lemma has_after n p : p ∈ required -> p.1 <> "web_sessions" -> settles n p = true ->
  has (Nat.iter n start d) p.1 p.2.
Proof.
  intros Hin Hne Hs. destruct (supported_approx d p Hsup Hin Hne) as (a & Ha & Hap).
  pose proof not_old_table as Hold. rewrite Forall_forall in Hold. specialize (Hold p Hin).
  assert (Hrun : clean (Nat.iter n start d) /\ approx (Nat.iter n start d) p.1 p.2
      (Nat.iter n (fun a => foldl (abs_step p.1 p.2) a statements) a)).
  { clear Hs. induction n as [|n [IHc IHa]]; [done|]. cbn [Nat.iter nat_rect] in *.
    split; [by apply start_clean|by apply start_approx]. }
  unfold settles in Hs. rewrite forallb_forall in Hs.
  specialize (Hs a (proj1 (list_elem_of_In _ _) Ha)). apply bool_decide_eq_true_1 in Hs.
  destruct Hrun as [_ Hrun]. rewrite Hs in Hrun. destruct Hrun as (tb & Ht & Hc). exists tb. split; [done|by apply Hc].
Qed.

Lemma has_sessions p tb : p ∈ required -> p.1 = "web_sessions" ->
  Forall (fun c => c ∈ Table.names tb) (base "web_sessions") -> p.2 ∈ Table.names tb.
Proof.
  intros Hin Hp Hb. rewrite Forall_forall in Hb. apply Hb. apply list_elem_of_fmap. exists p.
  split; [done|]. apply list_elem_of_filter. split_and!; [done| |done].
  assert (Hn : Forall (fun q => q.1 <> "web_sessions") added) by by apply (bool_decide_unpack _); vm_compute.
  rewrite Forall_forall in Hn. intros Ha. by apply (Hn p).
Qed.

Lemma settled_2 : settled (start (start d)).
Proof.
  pose proof (start_clean d Hd) as Hc. destruct sessions_settle as (tb & Ht & Htok & Hb).
  assert (Ht2 : Db.tables (start (start d)) !! "web_sessions" = Some tb) by by apply sessions_kept.
  split_and!.
  - intros p Hp. destruct (decide (p.1 = "web_sessions")) as [Hw|Hw].
    + exists tb. rewrite Hw. split; [done|by apply has_sessions].
    + refine (has_after 2 p Hp Hw _). pose proof two_starts_settle as Hall. rewrite forallb_forall in Hall.
      specialize (Hall p (proj1 (list_elem_of_In _ _) Hp)). by rewrite bool_decide_eq_false_2 in Hall by done.
  - intros tb'. rewrite Ht2. by intros [= <-].
  - by apply start_indexes, start_index.
Qed.

Lemma has_1 p : p ∈ required -> p <> ("enforcer_audit_log", "arguments") -> has (start d) p.1 p.2.
Proof.
  intros Hp Hne. destruct (decide (p.1 = "web_sessions")) as [Hw|Hw].
  - destruct sessions_settle as (tb & Ht & _ & Hb). exists tb. rewrite Hw. split; [done|by apply has_sessions].
  - refine (has_after 1 p Hp Hw _). pose proof one_start_settles as Hall. rewrite forallb_forall in Hall.
    specialize (Hall p (proj1 (list_elem_of_In _ _) Hp)). by rewrite !bool_decide_eq_false_2 in Hall by done.
Qed.

Lemma rows_survive t tb : Db.tables d !! t = Some tb ->
  exists tb2, Db.tables (start (start d)) !! t = Some tb2 /\
    if decide (t = "web_sessions" /\ "token" ∈ Table.names tb)
    then Table.rows tb2 = session_row <$> Table.rows tb else rows_kept tb tb2.
Proof.
  intros Ht. pose proof (start_clean d Hd) as Hc. pose proof (sup_rows d Hsup t tb Ht) as Hf.
  destruct (decide (t = "web_sessions")) as [->|Hw].
  - destruct (decide ("token" ∈ Table.names tb)) as [Htok|Htok].
    + pose proof (sessions_rebuilt d tb Hd Hsup Ht Htok) as Hs.
      exists (Table.mk session_columns [] (session_row <$> Table.rows tb)). split.
      * apply sessions_kept; [done|exact Hs|]. unfold Table.names. cbn [Table.columns].
        by apply (bool_decide_unpack _); vm_compute.
      * by rewrite decide_True by done.
    + exists tb. split; [apply sessions_kept; [done|by apply sessions_kept|done]|].
      rewrite decide_False by tauto. apply grown_refl.
  - destruct (decide (t = "web_sessions_old")) as [->|Hold].
    + assert (Hs : settled_sessions d).
      { intros tw Hw' Htok. pose proof (sup_sessions d Hsup tw Hw') as Ho. rewrite decide_True in Ho by done.
        destruct Ho as [_ _ _ _ Hfree]. by rewrite Hfree in Ht. }
      exists tb. split; [|rewrite decide_False by tauto; apply grown_refl].
      rewrite old_untouched; [by rewrite old_untouched|done|].
      destruct sessions_settle as (tw & Hw' & Htok & _). intros tw'. rewrite Hw'. by intros [= <-].
    + destruct (start_follows d t Hd Hw Hold tb Ht Hf) as (tb1 & Ht1 & H1 & Hf1).
      destruct (start_follows (start d) t Hc Hw Hold tb1 Ht1 Hf1) as (tb2 & Ht2 & H2 & _).
      exists tb2. split; [done|]. rewrite decide_False by tauto.
      assert (Hgrown : grown tb tb2) by (apply (grown_trans tb tb1 tb2); done). apply Hgrown.
Qed.
End Converges.

(** A table that is made where it was missing, after statements that do not make it. *)
Definition makes (t : string) (s : stmt) : bool :=
  match s with CreateIfNotExists u _ _ => bool_decide (u = t) | _ => negb (plain s) end.

Lemma ignoring_absent l d t : clean d -> Forall (fun s => makes t s = false) l ->
  Db.tables d !! t = None -> Db.tables (ignoring l d) !! t = None.
Proof.
  intros Hd Hl. revert d Hd. induction Hl as [|s l Hs _ IH]; intros d Hd Ht; [done|].
  unfold ignoring in *. cbn [foldl]. apply IH; [by apply exec_keeps_clean|]. rewrite exec_clean by done.
  destruct s as [u cols ks| |idx u col|u c| | |]; try done; cbn [run].
  - apply bool_decide_eq_false in Hs. destruct (Db.tables d !! u); [done|].
    cbn [snd Db.tables Db.set_tables]. by rewrite lookup_insert_ne.
  - repeat case_match; simplify_eq/=; done.
  - destruct (decide (u = t)) as [->|Hne]; [by rewrite Ht|].
    repeat case_match; simplify_eq/=; try done. by rewrite lookup_insert_ne.
Qed.

Lemma ignoring_created l1 l2 t cols ks d : clean d -> Forall (fun s => makes t s = false) l1 ->
  Forall (fun s => names_table t s = false) l2 -> Db.tables d !! t = None ->
  Db.tables (ignoring (l1 ++ CreateIfNotExists t cols ks :: l2) d) !! t = Some (Table.mk cols ks []).
Proof.
  intros Hd H1 H2 Ht. unfold ignoring. rewrite foldl_app. cbn [foldl].
  change (foldl (fun d s => (exec s d).2) d l1) with (ignoring l1 d).
  assert (Hc : clean (ignoring l1 d)) by by apply ignoring_keeps_clean.
  etrans; [apply (ignoring_elsewhere l2); [by apply exec_keeps_clean|done]|].
  rewrite exec_clean by done. cbn [run]. rewrite ignoring_absent by done.
  cbn [snd Db.tables Db.set_tables]. by rewrite lookup_insert_eq.
Qed.

Lemma audit_split : exists l1 l2 cols ks,
  alter_last = l1 ++ CreateIfNotExists "enforcer_audit_log" cols ks :: l2 /\
  Forall (fun s => makes "enforcer_audit_log" s = false) l1 /\
  Forall (fun s => names_table "enforcer_audit_log" s = false) l2 /\
  "arguments" ∉ Column.name <$> cols /\
  Forall (fun s => makes "enforcer_audit_log" s = false) schema /\
  Forall (fun s => makes "enforcer_audit_log" s = false) alter_first.
Proof.
  exists (take 15 alter_last), (drop 16 alter_last). do 2 eexists.
  split; [reflexivity|]. split_and!; by apply (bool_decide_unpack _); vm_compute.
Qed.

(** C21: Databases of earlier versions reach the schema of the code.  Two starts bring every
    column the statements promise, and the first start all but one; from then on a start
    changes nothing; no row is lost, and the sessions of a first version are carried
    over under the new name of their key. *)
Theorem migration_converges d :
  Db.faults d = [] -> supported d ->
  let d1 := (migrate d).2 in
  let d2 := (migrate d1).2 in
  (migrate d).1 = Ok tt /\ (migrate d1).1 = Ok tt /\ migrate d2 = (Ok tt, d2) /\
  (forall p, p ∈ required -> has d2 p.1 p.2) /\
  (forall p, p ∈ required -> p <> ("enforcer_audit_log", "arguments") -> has d1 p.1 p.2) /\
  (forall t tb, Db.tables d !! t = Some tb -> exists tb2, Db.tables d2 !! t = Some tb2 /\
     if decide (t = "web_sessions" /\ "token" ∈ Table.names tb)
     then Table.rows tb2 = session_row <$> Table.rows tb else rows_kept tb tb2).
Proof.
  intros Hd Hsup d1 d2.
  assert (Hm : forall e, clean e -> migrate e = (Ok tt, start e)) by (apply migrate_start).
  assert (Hd1 : d1 = start d) by (unfold d1; by rewrite Hm).
  assert (Hc1 : clean d1) by (rewrite Hd1; by apply start_clean).
  assert (Hd2 : d2 = start (start d)) by (unfold d2; by rewrite Hm, Hd1).
  assert (Hc2 : clean d2) by (rewrite Hd2, <- Hd1; by apply start_clean).
  pose proof (settled_2 d Hd Hsup) as Hs.
  split_and!; [by rewrite Hm|by rewrite Hm| | | |]; rewrite ?Hd1; rewrite ?Hd2 in *.
  - by rewrite Hm, start_settled.
  - apply Hs.
  - by apply has_1.
  - by apply rows_survive.
Qed.

(** In the process that makes the audit log, the column the decisions are logged with is
    missing. *)
Theorem first_start_lacks_arguments d :
  Db.faults d = [] -> Db.tables d !! "enforcer_audit_log" = None ->
  ~ has (migrate d).2 "enforcer_audit_log" "arguments".
Proof.
  intros Hd Ht. rewrite migrate_start by done. cbn [snd]. unfold start.
  destruct audit_split as (l1 & l2 & cols & ks & Hl & H1 & H2 & Hc & Hs & Hf).
  rewrite Hl. intros (tb & Htb & Hin).
  rewrite ignoring_created in Htb; [by injection Htb as <-| |done|done|].
  - apply migrate_sessions_clean. by repeat apply ignoring_keeps_clean.
  - rewrite migrate_sessions_elsewhere by (try done; by repeat apply ignoring_keeps_clean).
    apply ignoring_absent; [by apply ignoring_keeps_clean|done|]. by apply ignoring_absent.
Qed.

(** ** Witnesses *)

(** A database of the first version with a user and his session. *)
Module DemoSchema.
Definition users : Table.t :=
  Table.mk [Column.mk "id" "TEXT" false None [PrimaryKey]; Column.mk "name" "TEXT" true None [];
            Column.mk "email" "TEXT" true None []; Column.mk "password" "TEXT" true None [];
            Column.mk "created_at" "DATETIME" true (Some VNow) []] [["email"]]
    [{[ "id" := VText "ann"; "email" := VText "ann@example.org" ]}].
Definition sessions : Table.t :=
  Table.mk [Column.mk "token" "TEXT" false None [PrimaryKey]; Column.mk "user_id" "TEXT" true None [];
            Column.mk "expires_at" "DATETIME" true None []; Column.mk "created_at" "DATETIME" true None []] []
    [{[ "token" := VText "t1"; "user_id" := VText "ann"; "expires_at" := VInt 9; "created_at" := VInt 1 ]}].
Definition first_version : Db.t := Db.mk {[ "users" := users; "web_sessions" := sessions ]} ∅ [].

Lemma tables_cases t tb : Db.tables first_version !! t = Some tb ->
  (t = "users" /\ tb = users) \/ (t = "web_sessions" /\ tb = sessions).
Proof.
  unfold first_version. cbn [Db.tables]. rewrite lookup_insert_Some.
  intros [[<- <-]|[_ [<- <-]%lookup_singleton_Some]]; tauto.
Qed.

Lemma supported_first : supported first_version.
Proof.
  split.
  - intros t tb [[-> ->]|[-> ->]]%tables_cases; by apply (bool_decide_unpack _); vm_compute.
  - intros t tb [[-> ->]|[-> ->]]%tables_cases Hne; [by apply (bool_decide_unpack _); vm_compute|done].
  - intros tb [[[=] _]|[_ ->]]%tables_cases. rewrite decide_True by by apply (bool_decide_unpack _); vm_compute.
    split; try by apply (bool_decide_unpack _); vm_compute.
    exists users. split; [reflexivity|]. apply Forall_singleton. eexists. split; [by left|reflexivity].
Qed.
End DemoSchema.

Lemma migration_converges_witness :
  let d1 := (migrate DemoSchema.first_version).2 in
  let d2 := (migrate d1).2 in
  has d2 "user_tokens" "encrypted_value" /\
  exists tb2, Db.tables d2 !! "web_sessions" = Some tb2 /\
    Table.rows tb2 = [session_row {[ "token" := VText "t1"; "user_id" := VText "ann";
                                     "expires_at" := VInt 9; "created_at" := VInt 1 ]}].
Proof.
  destruct (migration_converges DemoSchema.first_version eq_refl DemoSchema.supported_first)
    as (_ & _ & _ & Hr & _ & Hk). split.
  - apply (Hr ("user_tokens", "encrypted_value")). by apply (bool_decide_unpack _); vm_compute.
  - destruct (Hk "web_sessions" DemoSchema.sessions eq_refl) as (tb2 & Ht & Hrows). exists tb2.
    split; [exact Ht|]. rewrite decide_True in Hrows; [exact Hrows|].
    split; [done|by apply (bool_decide_unpack _); vm_compute].
Defined.

Lemma first_start_lacks_arguments_witness :
  ~ has (migrate (Db.mk ∅ ∅ [])).2 "enforcer_audit_log" "arguments".
Proof. exact (first_start_lacks_arguments (Db.mk ∅ ∅ []) eq_refl eq_refl). Defined.
