(* ===== verification/Tools.v ===== *)
(** * Command-line tools: [src/cmd/migrate/main.go] and [src/cmd/extract/main.go]

    Both open the database of the bridge with a key given on the command line.  The
    first moves secrets between plaintext and ciphertext, the second prints the tokens
    of a user who tells his password.  A run is the lines it writes and its exit code. *)
From S2P Require Import Process Prelude GoStrings Sql Crypto Accounts Backends.
Open Scope Z_scope.

(** ** The key *)

Module directProvider.
Record t := mk { key : string }.

Definition GetKey (p : t) : res string * t := (Ok (key p), p).

Definition KeyID `{CryptoPrims} (p : t) : string := Crypto.KeyID (key p).

(** The bytes are overwritten in place. *)
Definition Close (p : t) : option error * t :=
  (None, mk (Nat.iter (String.length (key p)) (String "000"%char) EmptyString)).
End directProvider.

#[export] Instance direct_provider : KEKProvider directProvider.t :=
  {| GetKey := directProvider.GetKey; Close := directProvider.Close |}.

Definition hex_char (c : ascii) : bool :=
  let n := nat_of_ascii c in
  ((48 <=? n) && (n <=? 57) || (97 <=? n) && (n <=? 102) || (65 <=? n) && (n <=? 70))%nat.

(** Both files have these two functions; only the last message differs. *)
Definition isHex (s : string) : bool := negb (String.length s <? 2)%nat && str_forallb hex_char s.

Definition parse_key (short : error) (keyStr : string) : res string :=
  let keyStr := trim_space keyStr in
  if isHex keyStr then
    if bool_decide (String.length keyStr ∈ [32; 64]%nat) then
      match hex_decode keyStr with
      | Some key => Ok key
      | None => Err (Errorf "encoding/hex")
      end
    else Err (Errorf "invalid hex key length: expected 32 or 64 characters, got %d")
  else
    let raw := if (16 <=? String.length keyStr)%nat then Ok keyStr else Err short in
    match b64_decode keyStr with
    | Some decoded => if (16 <=? String.length decoded)%nat then Ok decoded else raw
    | None => raw
    end.

(** ** What a run leaves on the terminal *)

Inductive line := Out (text : string) | ErrOut (text : string).

Definition output : Type := list line * Z.      (* the exit code is last *)

Section Tools.
Context {KS : Type} `{SecretBox KS} `{CryptoPrims} `{Bcrypt}.
Context (error_text : error -> string).
Import Accounts.
Implicit Types a : Accounts.t KS.
Implicit Types d : Backends.t KS.

Definition failed_with (prefix : string) (e : error) : output := ([ErrOut (prefix +:+ error_text e)], 1).

Definition exit_code (fail : Z) : Z := if 0 <? fail then 1 else 0.

Definition token_key (k : UserToken.t) : string * string * string :=
  (UserToken.UserID k, UserToken.BackendID k, UserToken.EnvKey k).

Definition token_path (k : UserToken.t) : string :=
  UserToken.UserID k +:+ "/" +:+ UserToken.BackendID k +:+ "/" +:+ UserToken.EnvKey k.

Definition fail_line (path : string) (e : error) : line :=
  Out ("❌ FAIL: " +:+ path +:+ " - " +:+ error_text e).

Definition dry_lines (dryRun : bool) : list line :=
  (if dryRun then [Out "DRY RUN - No changes will be made"] else []) ++ [Out EmptyString].

(** The last line of a run with its counts. *)
Definition summary (dryRun : bool) (dry done_ verb what : string) (success fail : Z) : list line :=
  [Out EmptyString;
   if dryRun
   then Out (dry +:+ itoa success +:+ what +:+ verb +:+ itoa fail +:+ " would fail")
   else Out (done_ +:+ itoa success +:+ " succeeded, " +:+ itoa fail +:+ " failed")].

(** ** The migration of tokens *)

Definition is_plaintext (k : UserToken.t) : Prop :=
  UserToken.Encrypted k = EmptyString /\ UserToken.Value k <> EmptyString.

#[global] Instance is_plaintext_dec k : Decision (is_plaintext k).
Proof. unfold is_plaintext. apply _. Defined.

Definition with_value (value encrypted : string) (r : UserToken.t) : UserToken.t :=
  UserToken.mk (UserToken.UserID r) (UserToken.BackendID r) (UserToken.EnvKey r) value encrypted
    (UserToken.EncryptedDEK r) (UserToken.EncryptionType r).

Definition set_encrypted (encrypted : string) (r : UserToken.t) : UserToken.t :=
  with_value (UserToken.Value r) encrypted r.

(** INSERT OR REPLACE with an empty value: the columns it does not name take their defaults. *)
Definition blank_token (k : UserToken.t) : UserToken.t :=
  UserToken.mk (UserToken.UserID k) (UserToken.BackendID k) (UserToken.EnvKey k)
    EmptyString EmptyString EmptyString "legacy".

(** [s.KeyStore().EncryptSecret] *)
Definition keystore_encrypt (p : string) a : res string * Accounts.t KS :=
  match keyStore a with
  | None => (Err (Errorf "panic: nil key store"), a)
  | Some ks => box_encrypt ks p a
  end.

(** One turn of the loop: the line and whether it counts as a success. *)
Definition migrate_item (dryRun : bool) (k : UserToken.t) a : (line * bool) * Accounts.t KS :=
  if dryRun then ((Out ("🔍 Would encrypt: " +:+ token_path k), true), a)
  else
    match sql_checked (token_allowed (UserToken.UserID k) (UserToken.BackendID k))
            (set_user_tokens <[token_key k := blank_token k]>) a with
    | (Err e, a) => ((ErrOut ("Error preparing token: " +:+ error_text e), false), a)
    | (Ok _, a) =>
        match keystore_encrypt (UserToken.Value k) a with
        | (Err e, a) => ((fail_line (token_path k) e, false), a)
        | (Ok encrypted, a) =>
            match sql_exec (set_user_tokens (alter (set_encrypted encrypted) (token_key k))) a with
            | (Err e, a) => ((fail_line (token_path k) e, false), a)
            | (Ok _, a) => ((Out ("✅ Encrypted: " +:+ token_path k), true), a)
            end
        end
    end.

(** The loops of this file: lines, successes and failures. *)
Fixpoint each {A S} (f : A -> S -> (line * bool) * S) (l : list A) (s : S) : (list line * Z * Z) * S :=
  match l with
  | [] => (([], 0, 0), s)
  | x :: l =>
      let '((ln, ok), s) := f x s in
      let '((lns, success, fail), s) := each f l s in
      ((ln :: lns, if ok then success + 1 else success, if ok then fail else fail + 1), s)
  end.

Definition runMigration (dryRun : bool) a : output * Accounts.t KS :=
  let title := Out "=== Migrating Secrets ===" :: dry_lines dryRun in
  match sql_query (fun a => Ok (filter is_plaintext (rows (user_tokens a)))) a with
  | (Err e, a) => ((title ++ [ErrOut ("Error querying tokens: " +:+ error_text e)], 1), a)
  | (Ok [], a) => ((title ++ [Out "No plaintext tokens to migrate."], 0), a)
  | (Ok items, a) =>
      let '((lns, success, fail), a) := each (migrate_item dryRun) items a in
      ((title ++ [Out ("Found " +:+ itoa (Z.of_nat (length items)) +:+ " plaintext tokens to encrypt"); Out EmptyString]
          ++ lns ++ summary dryRun "Dry run complete: " "Migration complete: " "would be migrated, " " tokens "
                      success fail,
        exit_code fail), a)
  end.

(** ** The way back *)

Definition is_encrypted (k : UserToken.t) : Prop := UserToken.Encrypted k <> EmptyString.

#[global] Instance is_encrypted_dec k : Decision (is_encrypted k).
Proof. unfold is_encrypted. apply _. Defined.

(** In a dry run neither count moves. *)
Inductive counted := Success | Failure | Neither.

Definition rollback_item (dryRun : bool) (k : UserToken.t) a : (line * counted) * Accounts.t KS :=
  match GetUserTokenDecrypted (UserToken.UserID k) (UserToken.BackendID k) (UserToken.EnvKey k) a with
  | (Err e, a) => ((fail_line (token_path k) e, Failure), a)
  | (Ok decrypted, a) =>
      if dryRun then ((Out ("🔍 Would rollback: " +:+ token_path k +:+ " = [REDACTED]"), Neither), a)
      else
        match sql_exec (set_user_tokens (alter (with_value decrypted EmptyString) (token_key k))) a with
        | (Err e, a) => ((fail_line (token_path k) e, Failure), a)
        | (Ok _, a) => ((Out ("✅ Rolled back: " +:+ token_path k), Success), a)
        end
  end.

Fixpoint rollback_items (dryRun : bool) (l : list UserToken.t) a : (list line * Z * Z) * Accounts.t KS :=
  match l with
  | [] => (([], 0, 0), a)
  | k :: l =>
      let '((ln, c), a) := rollback_item dryRun k a in
      let '((lns, success, fail), a) := rollback_items dryRun l a in
      ((ln :: lns, match c with Success => success + 1 | _ => success end,
        match c with Failure => fail + 1 | _ => fail end), a)
  end.

Definition rollbackMigration (dryRun : bool) a : output * Accounts.t KS :=
  let title := Out "=== Rolling Back Migration ===" :: dry_lines dryRun in
  match sql_query (fun a => Ok (filter is_encrypted (rows (user_tokens a)))) a with
  | (Err e, a) => ((title ++ [ErrOut ("Error querying tokens: " +:+ error_text e)], 1), a)
  | (Ok [], a) => ((title ++ [Out "No encrypted tokens to rollback."], 0), a)
  | (Ok items, a) =>
      let '((lns, success, fail), a) := rollback_items dryRun items a in
      ((title ++ [Out ("Found " +:+ itoa (Z.of_nat (length items)) +:+ " encrypted tokens to rollback"); Out EmptyString]
          ++ lns ++ summary dryRun "Dry run complete: " "Rollback complete: " "would be rolled back, " " tokens "
                      success fail,
        exit_code fail), a)
  end.

(** ** Reports *)

Definition showStatus a : output * Accounts.t KS :=
  match sql_query (fun a => Ok (rows (user_tokens a))) a with
  | (Err e, a) => (failed_with "Error querying status: " e, a)
  | (Ok l, a) =>
      let count (P : UserToken.t -> Prop) `{forall k, Decision (P k)} := Z.of_nat (length (filter P l)) in
      let plaintext := count is_plaintext in
      let encrypted := count is_encrypted in
      let empty := count (fun k => UserToken.Value k = EmptyString /\ UserToken.Encrypted k = EmptyString) in
      (([Out "=== Migration Status ==="; Out ("Total tokens:     " +:+ itoa (Z.of_nat (length l)));
         Out ("Plaintext only:   " +:+ itoa plaintext); Out ("Encrypted only:   " +:+ itoa encrypted);
         Out ("Empty values:     " +:+ itoa empty); Out EmptyString] ++
        (if 0 <? plaintext then
           [Out "⚠️  Some tokens are not encrypted. Run migration to encrypt them.";
            Out "   Usage: migrate --db-path=<path> --encryption-key=<key>"]
         else if 0 <? encrypted then
           [Out "✅ All tokens are encrypted."; Out "   Use --verify to check integrity.";
            Out "   Use --rollback to restore plaintext (if needed)."]
         else [Out "ℹ️  No tokens to migrate."]), 0), a)
  end.

Definition verify_item (k : UserToken.t) a : (line * option error) * Accounts.t KS :=
  match GetUserTokenDecrypted (UserToken.UserID k) (UserToken.BackendID k) (UserToken.EnvKey k) a with
  | (Err e, a) => ((fail_line (token_path k) e, Some e), a)
  | (Ok _, a) => ((Out ("✅ OK: " +:+ token_path k), None), a)
  end.

(** Lines, successes and failures; tokens that are not encrypted are passed over. *)
Fixpoint verify_items (l : list UserToken.t) a : (list line * Z * list (string * error)) * Accounts.t KS :=
  match l with
  | [] => (([], 0, []), a)
  | k :: l =>
      if bool_decide (UserToken.Encrypted k = EmptyString) then verify_items l a
      else
        let '((ln, e), a) := verify_item k a in
        let '((lns, success, failures), a) := verify_items l a in
        match e with
        | Some e => ((ln :: lns, success, (token_path k, e) :: failures), a)
        | None => ((ln :: lns, success + 1, failures), a)
        end
  end.

Definition verifyMigration a : output * Accounts.t KS :=
  let title := [Out "=== Verifying Migration ==="; Out "Checking all encrypted secrets can be decrypted...";
                Out EmptyString] in
  match sql_query (fun a => Ok (rows (user_tokens a))) a with
  | (Err e, a) => ((title ++ [ErrOut ("Error querying tokens: " +:+ error_text e)], 1), a)
  | (Ok l, a) =>
      let '((lns, success, failures), a) := verify_items l a in
      let fail := Z.of_nat (length failures) in
      ((title ++ lns ++
        [Out EmptyString;
         Out ("Verification complete: " +:+ itoa success +:+ " passed, " +:+ itoa fail +:+ " failed")] ++
        (if 0 <? fail then
           [Out EmptyString; Out "Failed tokens:"] ++
           ((fun f => Out ("  - " +:+ f.1 +:+ ": " +:+ error_text f.2)) <$> failures)
         else []), exit_code fail), a)
  end.

(** ** The environments of backends *)

Definition env_migratable (b : BackendRow.t) : Prop :=
  BackendRow.EncryptedEnv b = EmptyString /\ no_env (BackendRow.Env b) = false.

#[global] Instance env_migratable_dec b : Decision (env_migratable b).
Proof. unfold env_migratable. apply _. Defined.

Definition migrate_env_item (dryRun : bool) (b : BackendRow.t) d : (line * bool) * Backends.t KS :=
  let id := BackendRow.ID b in
  if dryRun then ((Out ("🔍 Would encrypt: " +:+ id), true), d)
  else
    match on_accounts (keystore_encrypt (BackendRow.Env b)) d with
    | (Err e, d) => ((fail_line id e, false), d)
    | (Ok encrypted, d) =>
        match sql_exec (Backends.set_backends (alter (BackendRow.with_Env "{}" encrypted) id)) d with
        | (Err e, d) => ((fail_line id e, false), d)
        | (Ok _, d) => ((Out ("✅ Encrypted: " +:+ id), true), d)
        end
    end.

Definition runAdminEnvMigration (dryRun : bool) d : output * Backends.t KS :=
  let title := Out "=== Migrating Admin Environment ===" :: dry_lines dryRun in
  match ListBackends d with
  | (Err e, d) => ((title ++ [ErrOut ("Error listing backends: " +:+ error_text e)], 1), d)
  | (Ok l, d) =>
      match filter env_migratable l with
      | [] => ((title ++ [Out "No backends with plaintext env to migrate."], 0), d)
      | items =>
          let '((lns, success, fail), d) := each (migrate_env_item dryRun) items d in
          ((title ++ [Out ("Found " +:+ itoa (Z.of_nat (length items)) +:+ " backends with plaintext env to encrypt");
                      Out EmptyString] ++ lns ++
            summary dryRun "Dry run complete: " "Migration complete: " "would be migrated, " " backends "
              success fail, exit_code fail), d)
      end
  end.

Definition verifyAdminEnv d : output * Backends.t KS :=
  match VerifyAdminEnvEncryption d with
  | (Err e, d) => (failed_with "Error verifying admin env encryption: " e, d)
  | (Ok (success, fail), d) =>
      (([Out "=== Admin Environment Encryption Status ==="; Out ("Encrypted: " +:+ itoa success);
         Out ("Plaintext: " +:+ itoa fail); Out EmptyString;
         if 0 <? fail
         then Out ("⚠️  " +:+ itoa fail +:+ " backend(s) still have plaintext env. Run --admin-env to encrypt.")
         else Out "✅ All backend envs are encrypted."], 0), d)
  end.
End Tools.

(** ** [cmd/migrate] *)

Module Migrate.
Record flags := Flags {
  encryptionKey : string;
  verify : bool; status : bool; rollback : bool; adminEnv : bool; adminVerify : bool;
  dryRun : bool
}.

Definition parseEncryptionKey (keyStr : string) : res string :=
  parse_key (Errorf "invalid key format: must be at least 16 bytes") keyStr.

(** The store [NewWithProvider] returns for the tables. *)
Definition with_provider (p : directProvider.t) (d : Backends.t (KeyStore.t directProvider.t)) :
    Backends.t (KeyStore.t directProvider.t) :=
  Backends.set_accounts (fun a => Accounts.set_box (Some (KeyStore.NewKeyStore p)) (Accounts.rng a) a) d.

Section Migrate.
Context `{CryptoPrims} `{Bcrypt} (error_text : error -> string).
Local Abbreviation store := (Backends.t (KeyStore.t directProvider.t)).

Definition command (f : flags) (d : store) : output * store :=
  if adminVerify f then verifyAdminEnv error_text d
  else if adminEnv f then runAdminEnvMigration error_text (dryRun f) d
  else if status f then on_accounts (showStatus error_text) d
  else if verify f then on_accounts (verifyMigration error_text) d
  else if rollback f then on_accounts (rollbackMigration error_text (dryRun f)) d
  else on_accounts (runMigration error_text (dryRun f)) d.

(** [opened]: the error of opening the database, migrations included. *)
Definition main (f : flags) (getenv : string -> string) (opened : option error) (d : store) : output * store :=
  let key := if bool_decide (encryptionKey f = EmptyString) then getenv "ENCRYPTION_KEY" else encryptionKey f in
  if bool_decide (key = EmptyString) then
    (([ErrOut "Error: encryption key required (--encryption-key or ENCRYPTION_KEY)"], 1), d)
  else
    match parseEncryptionKey key with
    | Err e => (failed_with error_text "Error: failed to parse encryption key: " e, d)
    | Ok keyBytes =>
        match opened with
        | Some e => (failed_with error_text "Failed to open database: " e, d)
        | None => command f (with_provider (directProvider.mk keyBytes) d)
        end
    end.
End Migrate.
End Migrate.

(** ** [cmd/extract] *)

Module extractedSecret.
Record t := mk { Backend : string; EnvKey : string; Value : string; Method : string }.
End extractedSecret.

Module Extract.
Record flags := Flags { encryptionKey : string; email : string; password : string; jsonOutput : bool }.

Definition parseEncryptionKey (keyStr : string) : res string :=
  parse_key (Errorf "key must be at least 16 bytes") keyStr.

Section Extract.
Context {KS : Type} `{SecretBox KS} `{CryptoPrims} `{Bcrypt}.
Context (error_text : error -> string) (quoted : string -> string).
Context (json_text : list extractedSecret.t -> string).
Implicit Types a : Accounts.t KS.

(** The id and the salt of the user. *)
Definition findUser (email : string) a : res (string * string) * Accounts.t KS :=
  match sql_row (user_by_email email) a with
  | (Err ErrNoRows, a) => (Err (Errorf "user not found"), a)
  | (Err e, a) => (Err e, a)
  | (Ok u, a) => (Ok (UserRow.ID u, UserRow.PasswordSalt u), a)
  end.

Definition queryTokens (userID : string) : Accounts.t KS -> res (list UserToken.t) * Accounts.t KS :=
  sql_query (fun a => Ok (filter (fun k => UserToken.UserID k = userID) (rows (Accounts.user_tokens a)))).

Definition ExtractToken (userID backendID envKey : string) (userDEK : option string) :
    Accounts.t KS -> res string * Accounts.t KS :=
  GetUserTokenDecryptedWithUserDEK userID backendID envKey userDEK.

Definition extractToken (t : UserToken.t) (userDEK : option string) a : extractedSecret.t * Accounts.t KS :=
  let secret := extractedSecret.mk (UserToken.BackendID t) (UserToken.EnvKey t) in
  if bool_decide (userDEK = None) || bool_decide (UserToken.EncryptedDEK t = EmptyString) then
    (secret ("<no user-DEK layer for " +:+ UserToken.BackendID t +:+ "/" +:+ UserToken.EnvKey t +:+ ">") "failed", a)
  else
    match ExtractToken (UserToken.UserID t) (UserToken.BackendID t) (UserToken.EnvKey t) userDEK a with
    | (Err e, a) => (secret ("<decryption failed: " +:+ error_text e +:+ ">") "failed", a)
    | (Ok plaintext, a) => (secret plaintext "user-derived", a)
    end.

Fixpoint extract_all (l : list UserToken.t) (userDEK : option string) a :
    list extractedSecret.t * Accounts.t KS :=
  match l with
  | [] => ([], a)
  | t :: l =>
      let '(s, a) := extractToken t userDEK a in
      let '(ss, a) := extract_all l userDEK a in
      (s :: ss, a)
  end.

(** Three lines each, the last of them empty. *)
Definition printed (s : extractedSecret.t) : list line :=
  let method := if bool_decide (extractedSecret.Method s = EmptyString) then EmptyString
                else " [" +:+ extractedSecret.Method s +:+ "]" in
  [Out (extractedSecret.Backend s +:+ "/" +:+ extractedSecret.EnvKey s +:+ method +:+ ":");
   Out ("  " +:+ extractedSecret.Value s); Out EmptyString].

(** From the key of the user to the end of [main]. *)
Definition extract (jsonOutput : bool) (email password : string) a : output * Accounts.t KS :=
  match findUser email a with
  | (Err e, a) => (([ErrOut ("Error finding user " +:+ quoted email +:+ ": " +:+ error_text e)], 1), a)
  | (Ok (userID, passwordSalt), a) =>
      let '(warning, userDEK) :=
        if bool_decide (passwordSalt = EmptyString) then ([], None)
        else match DeriveUserDEK password passwordSalt with
             | Err e => ([ErrOut ("Warning: failed to derive user key: " +:+ error_text e)], None)
             | Ok dek => ([], Some dek)
             end in
      let warning := warning ++
        match userDEK with
        | None => [ErrOut "Warning: user-derived decryption not available, falling back to master key only"]
        | Some _ => []
        end in
      match queryTokens userID a with
      | (Err e, a) => ((warning ++ [ErrOut ("Error querying tokens: " +:+ error_text e)], 1), a)
      | (Ok tokens, a) =>
          let '(secrets, a) := extract_all tokens userDEK a in
          ((warning ++ (if jsonOutput then [Out (json_text secrets)] else secrets ≫= printed), 0), a)
      end
  end.
End Extract.

Section Main.
Context `{CryptoPrims} `{Bcrypt}.
Context (error_text : error -> string) (quoted : string -> string).
Context (json_text : list extractedSecret.t -> string) (usage : list line).
Local Abbreviation store := (Accounts.t (KeyStore.t directProvider.t)).

(** The password of the flag, or what [ReadPassword] gives. *)
Definition ask_password (f : flags) (typed : res string) : list line * option string :=
  if negb (bool_decide (password f = EmptyString)) then ([], Some (password f))
  else match typed with
       | Err e => ([ErrOut "Password: "; ErrOut ("Error: failed to read password: " +:+ error_text e)], None)
       | Ok EmptyString =>
           ([ErrOut "Password: "; ErrOut "Error: --password is required (or provide it interactively)"] ++ usage, None)
       | Ok p => ([ErrOut "Password: "], Some p)
       end.

Definition main (f : flags) (getenv : string -> string) (typed : res string) (opened : option error) (a : store) :
    output * store :=
  if bool_decide (email f = EmptyString) then (([ErrOut "Error: --email is required"] ++ usage, 1), a)
  else
    match ask_password f typed with
    | (asked, None) => ((asked, 1), a)
    | (asked, Some password) =>
        let key := if bool_decide (encryptionKey f = EmptyString) then getenv "ENCRYPTION_KEY" else encryptionKey f in
        match parseEncryptionKey key with
        | Err e => ((asked ++ [ErrOut ("Error: failed to parse encryption key: " +:+ error_text e)], 1), a)
        | Ok keyBytes =>
            match opened with
            | Some e => ((asked ++ [ErrOut ("Failed to open store: " +:+ error_text e)], 1), a)
            | None =>
                let a := Accounts.set_box (Some (KeyStore.NewKeyStore (directProvider.mk keyBytes))) (Accounts.rng a) a in
                let '((lns, code), a) := extract error_text quoted json_text (jsonOutput f) (email f) password a in
                ((asked ++ lns, code), a)
            end
        end
    end.
End Main.
End Extract.

(** * Properties *)

Module ToolsFacts.

Lemma hex_char_byte c : hex_char c = hex_byte c.
Proof. by destruct c as [[] [] [] [] [] [] [] []]; vm_compute. Qed.

Lemma isHex_same s : isHex s = Crypto.isHex s.
Proof.
  unfold isHex, Crypto.isHex. f_equal.
  - destruct (String.length s) as [|[|n]]; done.
  - induction s as [|c s IH]; [done|]. cbn [str_forallb]. by rewrite hex_char_byte, IH.
Qed.

Section Facts.
Context {KS : Type} `{CryptoLaws} `{!SecretBox KS} `{!SecretBoxLaws KS} `{Bcrypt}.
Context (random : forall i n, is_Some (entropy i n)) (error_text : error -> string).
Import Accounts.
Implicit Types a : Accounts.t KS.

(** What the processes of backends are given of a token. *)
Definition reading a (key : string * string * string) : res string :=
  (GetUserTokenDecrypted key.1.1 key.1.2 key.2 a).1.

Definition row_reading (ks : KS) a (o : option UserToken.t) : res string :=
  match o with
  | None => Err ErrNoRows
  | Some k => if bool_decide (UserToken.Encrypted k = EmptyString) then Ok (UserToken.Value k)
              else (box_decrypt ks (UserToken.Encrypted k) a).1
  end.

Lemma reading_row ks a key : healthy ks a -> reading a key = row_reading ks a (user_tokens a !! key).
Proof.
  intros (Hf & Hk & _). unfold reading, GetUserTokenDecrypted, row_reading. rewrite Hk, sql_row_ok by done.
  destruct key as [[u b] e]. cbn [fst snd]. destruct (user_tokens a !! (u, b, e)) as [k|]; [|done].
  by case_bool_decide.
Qed.

Lemma box_decrypt_same ks c a a' : (box_decrypt ks c a).1 = (box_decrypt ks c a').1.
Proof. unfold box_decrypt. by destruct (DecryptSecret c ks). Qed.

Lemma row_reading_same ks o a a' : row_reading ks a o = row_reading ks a' o.
Proof. destruct o as [k|]; [|done]. unfold row_reading. case_match; [done|]. apply box_decrypt_same. Qed.

(** The rows a query selects, in a table whose rows are under their keys. *)
Lemma selected_rows (P : UserToken.t -> Prop) `{forall k, Decision (P k)} a : tokens_keyed a ->
  NoDup (token_key <$> filter P (rows (user_tokens a))) /\
  forall k, k ∈ filter P (rows (user_tokens a)) <-> user_tokens a !! token_key k = Some k /\ P k.
Proof.
  intros Hk.
  assert (Hin : forall k, k ∈ filter P (rows (user_tokens a)) <-> user_tokens a !! token_key k = Some k /\ P k).
  { intros k. rewrite list_elem_of_filter, elem_of_rows. split.
    - intros [Hp [key Hkey]]. split; [|done]. pose proof (Hk _ _ Hkey) as Hkk. unfold token_key. by rewrite <- Hkk.
    - intros [Hl Hp]. eauto. }
  split; [|done]. apply NoDup_fmap_2_strong.
  - intros x y [Hx _]%Hin [Hy _]%Hin Heq. congruence.
  - apply NoDup_filter. unfold rows. apply NoDup_fmap_2_strong; [|apply NoDup_map_to_list].
    intros [k1 v1] [k2 v2] H1'%elem_of_map_to_list H2'%elem_of_map_to_list Heq. cbn in Heq. subst v2.
    f_equal. by rewrite (Hk _ _ H1'), (Hk _ _ H2').
Qed.

(** Tables that differ in tokens and random bytes only. *)
Definition same_but_tokens a a' : Prop :=
  users a' = users a /\ backend_ids a' = backend_ids a /\ keyStore a' = keyStore a /\ faults a' = faults a.

Lemma healthy_same ks a a' : same_but_tokens a a' -> healthy ks a -> healthy ks a'.
Proof. intros (_ & _ & Hk & Hf) (? & ? & ?). split_and!; congruence. Qed.

Lemma allowed_same u b a a' : same_but_tokens a a' -> token_allowed u b a' = token_allowed u b a.
Proof. intros (Hu & Hb & _ & _). unfold token_allowed. by rewrite Hu, Hb. Qed.

(** ** The migration *)

(** A row that was encrypted. *)
Definition sealed_as (ks : KS) (k k' : UserToken.t) : Prop :=
  exists enc, k' = set_encrypted enc (blank_token k) /\ enc <> EmptyString /\
    forall a, healthy ks a -> box_decrypt ks enc a = (Ok (UserToken.Value k), a).

Lemma migrate_item_ok ks k a : healthy ks a -> token_allowed (UserToken.UserID k) (UserToken.BackendID k) a = true ->
  exists ln k' n, migrate_item error_text false k a =
    ((ln, true), set_user_tokens <[token_key k := k']> (set_rng n a)) /\ sealed_as ks k k'.
Proof.
  intros Hh Ha. pose proof Hh as (Hf & Hk & _). unfold migrate_item. rewrite sql_checked_ok, Ha by done.
  unfold keystore_encrypt. cbn [keyStore set_user_tokens]. rewrite Hk.
  destruct (box_encrypt_ok random ks (UserToken.Value k) (set_user_tokens <[token_key k := blank_token k]> a))
    as (enc & n & -> & Hne & Hopen); [by destruct a|].
  rewrite sql_exec_ok by by destruct a. exists (Out ("✅ Encrypted: " +:+ token_path k)), (set_encrypted enc (blank_token k)), n.
  split; [|by exists enc]. f_equal. destruct a. unfold set_user_tokens, set_rng, set_box. cbn.
  f_equal. apply alter_insert_eq.
Qed.

Lemma migrate_items_ok ks l a : healthy ks a -> NoDup (token_key <$> l) ->
  Forall (fun k => token_allowed (UserToken.UserID k) (UserToken.BackendID k) a = true) l ->
  exists lns a', each (migrate_item error_text false) l a = ((lns, Z.of_nat (length l), 0), a') /\
    same_but_tokens a a' /\
    (forall key, key ∉ token_key <$> l -> user_tokens a' !! key = user_tokens a !! key) /\
    (forall k, k ∈ l -> exists k', user_tokens a' !! token_key k = Some k' /\ sealed_as ks k k').
Proof.
  revert a. induction l as [|k l IH]; intros a Hh Hnd Hall.
  { exists [], a. split_and!; try done. intros k Hk. by inversion Hk. }
  apply NoDup_cons in Hnd as [Hni Hnd]. apply Forall_cons in Hall as [Ha Hall].
  destruct (migrate_item_ok ks k a Hh Ha) as (ln & k' & n & Hi & Hs). cbn [each]. rewrite Hi.
  set (a1 := set_user_tokens _ _) in *. assert (Hsame : same_but_tokens a a1) by by destruct a.
  destruct (IH a1) as (lns & a' & -> & Hs' & Hout & Hin); [by eapply healthy_same|done| |].
  { eapply Forall_impl; [exact Hall|]. intros k2 Hk2. by rewrite (allowed_same _ _ a). }
  exists (ln :: lns), a'. split; [f_equal; f_equal; f_equal; cbn [length]; lia|]. split_and!.
  - destruct Hsame as (?&?&?&?), Hs' as (?&?&?&?). split_and!; congruence.
  - intros key Hkey. apply not_elem_of_cons in Hkey as [Hk1 Hk2]. rewrite Hout by done. by apply lookup_insert_ne.
  - intros k2 [->|Hk2]%elem_of_cons; [|by apply Hin]. exists k'. split; [|done].
    rewrite Hout by done. apply lookup_insert_eq.
Qed.

(** The whole run. *)
Lemma runMigration_ok ks a : healthy ks a -> tokens_keyed a ->
  (forall key k, user_tokens a !! key = Some k ->
     token_allowed (UserToken.UserID k) (UserToken.BackendID k) a = true) ->
  exists lns a', runMigration error_text false a = ((lns, 0), a') /\ same_but_tokens a a' /\
    forall key, match user_tokens a !! key with
                | Some k => if decide (is_plaintext k)
                            then exists k', user_tokens a' !! key = Some k' /\ sealed_as ks k k'
                            else user_tokens a' !! key = Some k
                | None => user_tokens a' !! key = None
                end.
Proof.
  intros Hh Hk Hall. unfold runMigration, sql_query. rewrite sql_stmt_ok by apply Hh.
  destruct (selected_rows is_plaintext a Hk) as [Hnd Hin]. set (l := filter is_plaintext _) in *.
  destruct (migrate_items_ok ks l a Hh Hnd) as (lns & a' & He & Hs & Hout & Hdone).
  { apply Forall_forall. intros k [Hl _]%Hin. by eapply Hall. }
  assert (Hrows : forall key, match user_tokens a !! key with
                | Some k => if decide (is_plaintext k)
                            then exists k', user_tokens a' !! key = Some k' /\ sealed_as ks k k'
                            else user_tokens a' !! key = Some k
                | None => user_tokens a' !! key = None
                end).
  { intros key. destruct (user_tokens a !! key) as [k|] eqn:Hl.
    - assert (key = token_key k) as -> by by apply (Hk key k). destruct (decide (is_plaintext k)) as [Hp|Hp].
      + apply Hdone. by apply Hin.
      + rewrite Hout; [done|]. intros (k2 & Heq & [Hl2 Hp2]%Hin)%list_elem_of_fmap. congruence.
    - rewrite Hout; [done|]. intros (k2 & -> & [Hl2 _]%Hin)%list_elem_of_fmap. congruence. }
  clear Hnd Hin Hout Hdone. destruct l as [|k0 l0].
  - cbn [each] in He. assert (a' = a) as -> by congruence. by eexists _, a.
  - rewrite He. by eexists _, a'.
Qed.

(** ** The way back *)

Definition restored (ks : KS) a (k k' : UserToken.t) : Prop :=
  match (box_decrypt ks (UserToken.Encrypted k) a).1 with
  | Ok v => k' = with_value v EmptyString k
  | Err _ => k' = k
  end.

Lemma rollback_item_ok ks k a : healthy ks a -> user_tokens a !! token_key k = Some k -> is_encrypted k ->
  exists ln c k', rollback_item error_text false k a = ((ln, c), set_user_tokens <[token_key k := k']> a) /\
    restored ks a k k' /\ (c = Failure <-> is_ok (box_decrypt ks (UserToken.Encrypted k) a).1 = false) /\
    c <> Neither.
Proof.
  intros Hh Hl He. pose proof Hh as (Hf & Hk & _). unfold rollback_item, GetUserTokenDecrypted. rewrite Hk, sql_row_ok by done.
  change (UserToken.UserID k, UserToken.BackendID k, UserToken.EnvKey k) with (token_key k). rewrite Hl.
  rewrite bool_decide_eq_false_2 by done. cbn [negb]. unfold restored.
  destruct (box_decrypt_quiet ks (UserToken.Encrypted k) a Hh) as [r Hr]. rewrite Hr. cbn [fst].
  destruct r as [v|e].
  - rewrite sql_exec_ok by done. eexists _, Success, _. split; [|by split].
    f_equal. destruct a. unfold set_user_tokens. cbn in *. f_equal. apply map_eq. intros key.
    destruct (decide (key = token_key k)) as [->|Hne].
    + by rewrite lookup_alter_eq, lookup_insert_eq, Hl.
    + by rewrite lookup_alter_ne, lookup_insert_ne.
  - eexists _, Failure, k. split; [|by split]. f_equal. destruct a. unfold set_user_tokens. cbn in *. f_equal.
    symmetry. by apply insert_id.
Qed.

Lemma rollback_items_ok ks l a : healthy ks a -> NoDup (token_key <$> l) ->
  (forall k, k ∈ l -> user_tokens a !! token_key k = Some k /\ is_encrypted k) ->
  exists lns success fail a', rollback_items error_text false l a = ((lns, success, fail), a') /\
    same_but_tokens a a' /\ 0 <= fail /\
    (fail = 0 <-> forall k, k ∈ l -> is_ok (box_decrypt ks (UserToken.Encrypted k) a).1 = true) /\
    (forall key, key ∉ token_key <$> l -> user_tokens a' !! key = user_tokens a !! key) /\
    (forall k, k ∈ l -> exists k', user_tokens a' !! token_key k = Some k' /\ restored ks a k k').
Proof.
  revert a. induction l as [|k l IH]; intros a Hh Hnd Hall.
  { exists [], 0, 0, a. split_and!; try done; [split; [|done]; intros _|]; intros k Hk; by inversion Hk. }
  apply NoDup_cons in Hnd as [Hni Hnd]. destruct (Hall k) as [Hl He]; [by left|].
  destruct (rollback_item_ok ks k a Hh Hl He) as (ln & c & k' & Hi & Hr & Hc & Hcn).
  cbn [rollback_items]. rewrite Hi. set (a1 := set_user_tokens _ _) in *.
  assert (Hsame : same_but_tokens a a1) by by destruct a.
  destruct (IH a1) as (lns & s & f & a' & -> & Hs' & Hf0 & Hf & Hout & Hin); [by eapply healthy_same|done| |].
  { intros k2 Hk2. destruct (Hall k2) as [Hl2 He2]; [by right|]. split; [|done]. unfold a1. cbn.
    rewrite lookup_insert_ne; [done|]. intros Heq. apply Hni. rewrite Heq. by apply list_elem_of_fmap_2. }
  eexists _, _, _, a'. split; [done|]. split_and!.
  - destruct Hsame as (?&?&?&?), Hs' as (?&?&?&?). split_and!; congruence.
  - destruct c; lia.
  - destruct c; [|split|done].
    + rewrite Hf. split.
      * intros Hall2 k2 [->|Hk2]%elem_of_cons; [|rewrite (box_decrypt_same ks _ a a1); by apply Hall2].
        apply not_false_is_true. by intros ?%Hc.
      * intros Hall2 k2 Hk2. rewrite (box_decrypt_same ks _ a1 a). apply Hall2. by right.
    + lia.
    + intros Hall2. specialize (Hall2 k ltac:(by left)). rewrite (proj1 Hc eq_refl) in Hall2. done.
  - intros key Hkey. apply not_elem_of_cons in Hkey as [Hk1 Hk2]. rewrite Hout by done. by apply lookup_insert_ne.
  - intros k2 [->|Hk2]%elem_of_cons.
    + exists k'. split; [|done]. rewrite Hout by done. apply lookup_insert_eq.
    + destruct (Hin k2 Hk2) as (k3 & Hk3 & Hr3). exists k3. split; [done|]. unfold restored in *.
      by rewrite (box_decrypt_same ks _ a a1).
Qed.

Lemma rollbackMigration_ok ks a : healthy ks a -> tokens_keyed a ->
  exists lns code a', rollbackMigration error_text false a = ((lns, code), a') /\ same_but_tokens a a' /\
    (code = 0 <-> forall key k, user_tokens a !! key = Some k -> is_encrypted k ->
                    is_ok (box_decrypt ks (UserToken.Encrypted k) a).1 = true) /\
    forall key, match user_tokens a !! key with
                | Some k => if decide (is_encrypted k)
                            then exists k', user_tokens a' !! key = Some k' /\ restored ks a k k'
                            else user_tokens a' !! key = Some k
                | None => user_tokens a' !! key = None
                end.
Proof.
  intros Hh Hk. unfold rollbackMigration, sql_query. rewrite sql_stmt_ok by apply Hh.
  destruct (selected_rows is_encrypted a Hk) as [Hnd Hin]. set (l := filter is_encrypted _) in *.
  destruct (rollback_items_ok ks l a Hh Hnd) as (lns & s & f & a' & He & Hs & Hf0 & Hf & Hout & Hdone).
  { intros k. apply Hin. }
  assert (Hcode : exit_code f = 0 <-> forall key k, user_tokens a !! key = Some k -> is_encrypted k ->
                    is_ok (box_decrypt ks (UserToken.Encrypted k) a).1 = true).
  { unfold exit_code. transitivity (f = 0); [destruct (Z.ltb_spec 0 f); lia|]. rewrite Hf. split.
    - intros Hall key k Hl Hp. apply Hall. apply Hin. split; [|done]. unfold token_key. by rewrite <- (Hk key k Hl).
    - intros Hall k [Hl Hp]%Hin. by eapply Hall. }
  assert (Hrows : forall key, match user_tokens a !! key with
                | Some k => if decide (is_encrypted k)
                            then exists k', user_tokens a' !! key = Some k' /\ restored ks a k k'
                            else user_tokens a' !! key = Some k
                | None => user_tokens a' !! key = None
                end).
  { intros key. destruct (user_tokens a !! key) as [k|] eqn:Hl.
    - assert (key = token_key k) as -> by by apply (Hk key k). destruct (decide (is_encrypted k)) as [Hp|Hp].
      + apply Hdone. by apply Hin.
      + rewrite Hout; [done|]. intros (k2 & Heq & [Hl2 Hp2]%Hin)%list_elem_of_fmap.
        rewrite <- Heq in Hl2. assert (k = k2) as <- by congruence. done.
    - rewrite Hout; [done|]. intros (k2 & -> & [Hl2 _]%Hin)%list_elem_of_fmap. congruence. }
  clear Hnd Hin Hout Hdone. destruct l as [|k0 l0].
  - cbn [rollback_items] in He. injection He as <- <- <- <-. by eexists _, 0, a.
  - rewrite He. by eexists _, _, a'.
Qed.
End Facts.
End ToolsFacts.
Import ToolsFacts.

(** The tools take every key the bridge takes, for the same bytes. *)
Theorem tools_take_bridge_keys s key :
  parseKey s = Ok key -> Migrate.parseEncryptionKey s = Ok key /\ Extract.parseEncryptionKey s = Ok key.
Proof.
  assert (Hp : forall short, parseKey s = Ok key -> parse_key short s = Ok key).
  { intros short. unfold parseKey, parse_key. rewrite isHex_same. destruct (Crypto.isHex (trim_space s)).
    - case_bool_decide; [|done]. by destruct (hex_decode (trim_space s)).
    - assert (Hraw : forall e, (if isLikelyRawBytes (trim_space s) && (16 <=? String.length (trim_space s))%nat
                      then Ok (trim_space s) else Err e) = Ok key ->
              (if (16 <=? String.length (trim_space s))%nat then Ok (trim_space s) else Err short) = Ok key).
      { intros e. destruct (isLikelyRawBytes _); [|done]. by destruct (_ <=? _)%nat. }
      destruct (b64_decode (trim_space s)) as [dec|]; [|by apply Hraw].
      destruct (16 <=? String.length dec)%nat; [done|by apply Hraw]. }
  intros Hk. split; by apply Hp.
Qed.

(** They also take a passphrase the bridge refuses: what they encrypt with it no bridge
    that is given the same text can open. *)
Theorem tools_take_other_keys :
  Migrate.parseEncryptionKey "correct-horse-battery" = Ok "correct-horse-battery" /\
  parseKey "correct-horse-battery" = Err (Errorf "invalid key format").
Proof. split; by vm_compute. Qed.

Section TokenTheorems.
Context {KS : Type} `{CryptoLaws} `{!SecretBox KS} `{!SecretBoxLaws KS} `{Bcrypt}.
Context (random : forall i n, is_Some (entropy i n)) (error_text : error -> string).
Import Accounts.
Implicit Types a : Accounts.t KS.

Definition all_allowed a : Prop := forall key k, user_tokens a !! key = Some k ->
  token_allowed (UserToken.UserID k) (UserToken.BackendID k) a = true.

(** C22: Migrating hides every token and loses none.  While nothing fails the run ends well,
    no row keeps a plaintext that is not encrypted, every token reads as before, and the
    rows that were encrypted already stay as they are. *)
Theorem migration_keeps_tokens ks a :
  healthy ks a -> tokens_keyed a -> all_allowed a ->
  let r := runMigration error_text false a in
  r.1.2 = 0 /\
  (forall key, reading r.2 key = reading a key) /\
  (forall key k, user_tokens r.2 !! key = Some k -> ~ is_plaintext k) /\
  (forall key k, user_tokens a !! key = Some k -> ~ is_plaintext k -> user_tokens r.2 !! key = Some k).
Proof.
  intros Hh Hk Hall. destruct (runMigration_ok random error_text ks a Hh Hk Hall) as (lns & a' & -> & Hs & Hrows).
  cbn [fst snd]. assert (Hh' : healthy ks a') by by eapply healthy_same. split_and!; [done| | |].
  - intros key. rewrite !(reading_row ks) by done. specialize (Hrows key).
    destruct (user_tokens a !! key) as [k|]; [|by rewrite Hrows]. destruct (decide _) as [Hp|Hp].
    + destruct Hrows as (k' & -> & enc & -> & Hne & Hopen). unfold row_reading. cbn.
      destruct Hp as [-> _]. by rewrite bool_decide_eq_false_2, bool_decide_eq_true_2, (Hopen a') by done.
    + rewrite Hrows. apply row_reading_same.
  - intros key k' Hl. specialize (Hrows key). destruct (user_tokens a !! key) as [k|]; [|congruence].
    destruct (decide _) as [Hp|Hp]; [|congruence]. destruct Hrows as (k2 & Hl2 & enc & -> & Hne & _).
    assert (k' = set_encrypted enc (blank_token k)) as -> by congruence. intros [He _]. done.
  - intros key k Hl Hp. specialize (Hrows key). rewrite Hl in Hrows. by rewrite decide_False in Hrows.
Qed.

(** The way back restores what opens and leaves the rest: every token reads as before,
    and the run ends well exactly when every encrypted token opens; then none is left. *)
Theorem rollback_keeps_tokens ks a :
  healthy ks a -> tokens_keyed a ->
  let r := rollbackMigration error_text false a in
  (forall key, reading r.2 key = reading a key) /\
  (r.1.2 = 0 <-> forall key k, user_tokens a !! key = Some k -> is_ok (reading a key) = true) /\
  (r.1.2 = 0 -> forall key k, user_tokens r.2 !! key = Some k -> UserToken.Encrypted k = EmptyString).
Proof.
  intros Hh Hk. destruct (rollbackMigration_ok error_text ks a Hh Hk) as (lns & code & a' & -> & Hs & Hc & Hrows).
  cbn [fst snd]. assert (Hh' : healthy ks a') by by eapply healthy_same. split_and!.
  - intros key. rewrite !(reading_row ks) by done. specialize (Hrows key).
    destruct (user_tokens a !! key) as [k|]; [|by rewrite Hrows]. destruct (decide _) as [Hp|Hp].
    + destruct Hrows as (k' & -> & Hr). unfold restored in Hr. unfold row_reading at 2.
      rewrite bool_decide_eq_false_2 by done. destruct (box_decrypt ks _ a).1 as [v|e] eqn:Hb; subst k'.
      * done.
      * unfold row_reading. rewrite bool_decide_eq_false_2 by done. by rewrite (box_decrypt_same ks _ a' a).
    + rewrite Hrows. apply row_reading_same.
  - rewrite Hc. split; intros Hall key k Hl.
    + rewrite (reading_row ks), Hl by done. unfold row_reading. case_bool_decide as He; [done|]. by apply (Hall key).
    + intros Hp. specialize (Hall key k Hl). rewrite (reading_row ks), Hl in Hall by done. unfold row_reading in Hall.
      by rewrite bool_decide_eq_false_2 in Hall.
  - intros Hz key k' Hl. specialize (Hrows key). destruct (user_tokens a !! key) as [k|] eqn:Hla; [|congruence].
    destruct (decide _) as [Hp|Hp].
    + destruct Hrows as (k2 & Hl2 & Hr). pose proof (proj1 Hc Hz key k Hla Hp) as Ho. unfold restored in Hr.
      destruct (box_decrypt ks _ a).1 as [v|e]; [|done]. assert (k' = k2) as -> by congruence. by subst k2.
    + assert (k' = k) as -> by congruence. by apply dec_stable.
Qed.

(** Back and forth costs the key of the user.  After the rollback and another migration
    a token still reads with the master key, but its outer layer is gone: the user's
    key no longer opens it. *)
Theorem back_and_forth_drops_user_layer ks a key k v dek :
  healthy ks a -> tokens_keyed a -> all_allowed a ->
  user_tokens a !! key = Some k -> UserToken.Encrypted k <> EmptyString -> reading a key = Ok v -> v <> EmptyString ->
  let a1 := (rollbackMigration error_text false a).2 in
  let a2 := (runMigration error_text false a1).2 in
  reading a2 key = Ok v /\
  (GetUserTokenDecryptedWithUserDEK key.1.1 key.1.2 key.2 (Some dek) a2).1 = Err (Errorf "token has no user-DEK layer").
Proof.
  intros Hh Hk Hall Hl He Hv Hne a1 a2.
  destruct (rollbackMigration_ok error_text ks a Hh Hk) as (lns & code & a1' & Hr & Hs1 & _ & Hrows1).
  assert (a1 = a1') as Ha1 by (unfold a1; by rewrite Hr). clearbody a1. subst a1'. clear Hr.
  assert (Hh1 : healthy ks a1) by by eapply healthy_same.
  assert (Hrow1 : forall key2 k2, user_tokens a1 !! key2 = Some k2 -> exists k0, user_tokens a !! key2 = Some k0 /\
     UserToken.UserID k2 = UserToken.UserID k0 /\ UserToken.BackendID k2 = UserToken.BackendID k0 /\
     UserToken.EnvKey k2 = UserToken.EnvKey k0).
  { intros key2 k2 Hl2. specialize (Hrows1 key2). destruct (user_tokens a !! key2) as [k0|]; [|congruence].
    exists k0. split; [done|]. destruct (decide _); [|assert (k2 = k0) as -> by congruence; done].
    destruct Hrows1 as (k3 & Hl3 & Hr3). assert (k2 = k3) as -> by congruence. unfold restored in Hr3.
    by destruct (box_decrypt ks _ a).1; subst k3. }
  assert (Hk1 : tokens_keyed a1).
  { intros key2 k2 Hl2. destruct (Hrow1 _ _ Hl2) as (k0 & Hl0 & -> & -> & ->). by apply Hk. }
  assert (Hall1 : all_allowed a1).
  { intros key2 k2 Hl2. destruct (Hrow1 _ _ Hl2) as (k0 & Hl0 & -> & -> & _).
    rewrite (allowed_same _ _ a) by done. by eapply Hall. }
  destruct (runMigration_ok random error_text ks a1 Hh1 Hk1 Hall1) as (lns2 & a2' & Hr & Hs2 & Hrows2).
  assert (a2 = a2') as Ha2 by (unfold a2; by rewrite Hr). clearbody a2. subst a2'. clear Hr.
  assert (Hh2 : healthy ks a2) by by eapply healthy_same.
  specialize (Hrows1 key). rewrite Hl, decide_True in Hrows1 by done. destruct Hrows1 as (k1 & Hl1 & Hr1).
  rewrite (reading_row ks), Hl in Hv by done. unfold row_reading in Hv. rewrite bool_decide_eq_false_2 in Hv by done.
  unfold restored in Hr1. rewrite Hv in Hr1. subst k1.
  specialize (Hrows2 key). rewrite Hl1, decide_True in Hrows2 by done.
  destruct Hrows2 as (k2 & Hl2 & enc & -> & Hene & Hopen). split.
  - rewrite (reading_row ks), Hl2 by done. unfold row_reading. cbn. by rewrite bool_decide_eq_false_2, Hopen.
  - unfold GetUserTokenDecryptedWithUserDEK. pose proof Hh2 as (Hf & -> & _). rewrite sql_row_ok by done.
    destruct key as [[u b] e]. cbn [fst snd]. rewrite Hl2. cbn. done.
Qed.

(** The plaintext is overwritten before there is a ciphertext: when the second statement
    fails the token is gone, and reads as the empty string. *)
Theorem failed_update_loses_token ks a k fs :
  keyStore a = Some ks -> box_ready ks -> faults a = [false; true] ++ fs -> is_plaintext k ->
  token_allowed (UserToken.UserID k) (UserToken.BackendID k) a = true ->
  let r := migrate_item error_text false k a in
  r.1.2 = false /\ user_tokens r.2 !! token_key k = Some (blank_token k) /\
  (fs = [] -> reading r.2 (token_key k) = Ok EmptyString).
Proof.
  intros Hk Hr Hf [Hp1 Hp2] Ha r. unfold r, migrate_item.
  unfold sql_checked, sql_stmt. cbn [db_faults db_set_faults accounts_database]. rewrite Hf. cbn [app].
  change (token_allowed (UserToken.UserID k) (UserToken.BackendID k) (set_faults (true :: fs) a))
    with (token_allowed (UserToken.UserID k) (UserToken.BackendID k) a). rewrite Ha.
  set (a1 := set_user_tokens _ _). unfold keystore_encrypt.
  assert (keyStore a1 = Some ks) as -> by done.
  set (a0 := set_faults [] a1). assert (Hh : healthy ks a0) by by split_and!.
  destruct (box_encrypt_ok random ks (UserToken.Value k) a0 Hh) as (enc & n & He & _).
  assert (He1 : box_encrypt ks (UserToken.Value k) a1 = (Ok enc, set_rng n a1)).
  { unfold box_encrypt in *. change (rng a0) with (rng a1) in He.
    destruct (EncryptSecret (UserToken.Value k) ks (rng a1)) as [[r' ks'] n'] eqn:Henc.
    pose proof (box_sealed (UserToken.Value k) ks (rng a1) Hr) as Hsame. rewrite Henc in Hsame. cbn in Hsame. subst ks'.
    pose proof (f_equal fst He) as Hr'. pose proof (f_equal (fun p => rng p.2) He) as Hn. cbn in Hr', Hn.
    rewrite set_box_id by done. by rewrite Hr', Hn. }
  rewrite He1. unfold sql_exec, sql_stmt. cbn [db_faults db_set_faults accounts_database set_rng set_box faults a1
    set_user_tokens set_faults fst snd]. split_and!; [done|by apply lookup_insert_eq|].
  intros ->. rewrite (reading_row ks); [|by split_and!]. cbn. by rewrite lookup_insert_eq.
Qed.

(** The verification changes nothing and ends well exactly when every encrypted token opens. *)
Lemma verify_items_ok ks l a : healthy ks a -> (forall k, k ∈ l -> user_tokens a !! token_key k = Some k) ->
  exists lns success failures, verify_items error_text l a = ((lns, success, failures), a) /\
    (failures = [] <-> forall k, k ∈ l -> is_encrypted k -> is_ok (reading a (token_key k)) = true).
Proof.
  intros Hh. induction l as [|k l IH]; intros Hl.
  { exists [], 0, []. split; [done|]. split; [|done]. intros _ k Hk. by inversion Hk. }
  destruct IH as (lns & s & fs & He & Hf); [intros k2 Hk2; apply Hl; by right|]. cbn [verify_items].
  case_bool_decide as Hempty.
  - exists lns, s, fs. split; [done|]. rewrite Hf. split; intros Hall k2.
    + intros [->|Hk2]%elem_of_cons Hp; [done|by apply Hall].
    + intros Hk2. apply Hall. by right.
  - unfold verify_item. pose proof (GetUserTokenDecrypted_quiet ks (UserToken.UserID k) (UserToken.BackendID k)
      (UserToken.EnvKey k) a Hh) as [r Hr].
    assert (Hrd : reading a (token_key k) = r) by (unfold reading; cbn; by rewrite Hr).
    rewrite Hr. destruct r as [v|e]; rewrite He; eexists _, _, _; (split; [done|]).
    + rewrite Hf. split; intros Hall k2.
      * intros [->|Hk2]%elem_of_cons Hp; [by rewrite Hrd|by apply Hall].
      * intros Hk2. apply Hall. by right.
    + split; [done|]. intros Hall. specialize (Hall k ltac:(by left) Hempty). by rewrite Hrd in Hall.
Qed.

Theorem verification_exact ks a :
  healthy ks a -> tokens_keyed a ->
  (verifyMigration error_text a).2 = a /\
  ((verifyMigration error_text a).1.2 = 0 <->
   forall key k, user_tokens a !! key = Some k -> is_ok (reading a key) = true).
Proof.
  intros Hh Hk. unfold verifyMigration, sql_query. rewrite sql_stmt_ok by apply Hh.
  destruct (verify_items_ok ks (rows (user_tokens a)) a Hh) as (lns & s & fs & -> & Hf).
  { intros k [key Hkey]%elem_of_rows. unfold token_key. by rewrite <- (Hk key k Hkey). }
  cbn [fst snd]. split; [done|]. transitivity (fs = []).
  { unfold exit_code. destruct fs; [done|]. by split. }
  rewrite Hf. split.
  - intros Hall key k Hl. pose proof (Hk key k Hl) as Hkey.
    destruct (decide (is_encrypted k)) as [He|He].
    + rewrite Hkey. apply Hall; [|done]. apply elem_of_rows. by exists key.
    + rewrite (reading_row ks), Hl by done. unfold row_reading.
      by rewrite bool_decide_eq_true_2 by by apply dec_stable.
  - intros Hall k [key Hkey]%elem_of_rows _. pose proof (Hk key k Hkey) as Hkk. unfold token_key.
    rewrite <- Hkk. by eapply Hall.
Qed.

(** The three counts of the status are a partition of the tokens. *)
Theorem status_counts_partition (l : list UserToken.t) :
  length l = (length (filter is_plaintext l) + length (filter is_encrypted l) +
    length (filter (fun k => UserToken.Value k = EmptyString /\ UserToken.Encrypted k = EmptyString) l))%nat.
Proof.
  induction l as [|k l IH]; [done|]. rewrite !filter_cons. unfold is_plaintext at 1, is_encrypted at 1.
  destruct (decide (UserToken.Encrypted k = EmptyString)) as [He|He], (decide (UserToken.Value k = EmptyString)) as [Hv|Hv];
    repeat case_decide; try tauto; cbn [length]; lia.
Qed.

(** ** Dry runs *)

Lemma each_dry l a : exists lns, each (migrate_item error_text true) l a = ((lns, Z.of_nat (length l), 0), a).
Proof.
  induction l as [|k l [lns IH]]; [by exists []|]. cbn [each]. unfold migrate_item at 1. rewrite IH.
  eexists. f_equal. f_equal. f_equal. cbn [length]. lia.
Qed.

Lemma rollback_dry ks l a : healthy ks a ->
  exists lns fail, rollback_items error_text true l a = ((lns, 0, fail), a).
Proof.
  intros Hh. induction l as [|k l (lns & fail & IH)]; [by exists [], 0|]. cbn [rollback_items].
  unfold rollback_item. destruct (GetUserTokenDecrypted_quiet ks (UserToken.UserID k) (UserToken.BackendID k)
    (UserToken.EnvKey k) a Hh) as [[v|e] ->]; rewrite IH; by eexists _, _.
Qed.

(** A dry rollback says that no token would be rolled back, however many there are. *)
Theorem dry_rollback_reports_none ks a :
  healthy ks a -> (exists key k, user_tokens a !! key = Some k /\ is_encrypted k) ->
  exists fail, last (rollbackMigration error_text true a).1.1 =
    Some (Out ("Dry run complete: " +:+ itoa 0 +:+ " tokens " +:+ "would be rolled back, " +:+ itoa fail +:+ " would fail")).
Proof.
  intros Hh (key & k & Hl & He). unfold rollbackMigration, sql_query. rewrite sql_stmt_ok by apply Hh.
  destruct (filter is_encrypted (rows (user_tokens a))) as [|k0 l0] eqn:Hf.
  { exfalso. apply (not_elem_of_nil k). rewrite <- Hf. apply list_elem_of_filter. split; [done|].
    apply elem_of_rows. by exists key. }
  destruct (rollback_dry ks (k0 :: l0) a Hh) as (lns & fail & ->). exists fail. cbn [fst summary].
  by rewrite last_app, last_app, last_app.
Qed.
End TokenTheorems.

Section CommandTheorems.
Context `{CryptoLaws} `{Bcrypt} (error_text : error -> string).
Import Backends.
Local Abbreviation store := (Backends.t (KeyStore.t directProvider.t)).
Implicit Types d : store.

(** While nothing fails, a run that is said to be dry changes nothing, whatever it is
    asked to do. *)
Theorem dry_runs_change_nothing f p d :
  Migrate.dryRun f = true -> Accounts.faults (accounts d) = [] ->
  (Migrate.command error_text f (Migrate.with_provider p d)).2 = Migrate.with_provider p d.
Proof.
  intros Hdry Hf. set (d0 := Migrate.with_provider p d).
  assert (Hr : ready (KeyStore.NewKeyStore p) d0).
  { split_and!; [done|done|]. by exists (directProvider.key p). }
  assert (Hh : healthy (KeyStore.NewKeyStore p) (accounts d0)) by done. clearbody d0.
  assert (Hacc : forall A (g : Accounts.t (KeyStore.t directProvider.t) -> A * Accounts.t (KeyStore.t directProvider.t)),
    (g (accounts d0)).2 = accounts d0 -> (on_accounts g d0).2 = d0).
  { intros A g Hg. unfold on_accounts. destruct (g (accounts d0)) as [x a]. cbn in Hg |- *. subst a. apply accounts_id. }
  unfold Migrate.command. rewrite Hdry. pose proof Hr as (Hf0 & _).
  destruct (Migrate.adminVerify f).
  { unfold verifyAdminEnv, VerifyAdminEnvEncryption, sql_query. rewrite sql_stmt_ok by done.
    by destruct (rows (backends d0)). }
  destruct (Migrate.adminEnv f).
  { unfold runAdminEnvMigration. destruct (ListBackends_ready _ d0 Hr) as (l & -> & _).
    assert (Hd : forall l, exists x, each (migrate_env_item error_text true) l d0 = (x, d0)).
    { clear. induction l as [|b l [[[lns s] fl] IH]]; [by eexists|]. cbn [each]. unfold migrate_env_item at 1.
      rewrite IH. by eexists. }
    destruct (filter env_migratable l) as [|b l0]; [done|]. destruct (Hd (b :: l0)) as [[[lns s] fl] ->]. done. }
  destruct (Migrate.status f).
  { apply Hacc. unfold showStatus, sql_query. by rewrite sql_stmt_ok. }
  destruct (Migrate.verify f).
  { apply Hacc. unfold verifyMigration, sql_query. rewrite sql_stmt_ok by done.
    assert (Hd : forall l, exists x, verify_items error_text l (accounts d0) = (x, accounts d0)).
    { induction l as [|k l [[[lns s] fl] IH]]; [by eexists|]. cbn [verify_items]. case_bool_decide; [by eexists|].
      unfold verify_item. destruct (GetUserTokenDecrypted_quiet _ (UserToken.UserID k) (UserToken.BackendID k)
        (UserToken.EnvKey k) _ Hh) as [[v|e] ->]; rewrite IH; by eexists. }
    destruct (Hd (rows (Accounts.user_tokens (accounts d0)))) as [[[lns s] fl] ->]. done. }
  destruct (Migrate.rollback f); apply Hacc.
  - unfold rollbackMigration, sql_query. rewrite sql_stmt_ok by done. destruct (filter _ _) as [|k l]; [done|].
    destruct (rollback_dry error_text _ (k :: l) _ Hh) as (lns & fail & ->). done.
  - unfold runMigration, sql_query. rewrite sql_stmt_ok by done. destruct (filter _ _) as [|k l]; [done|].
    destruct (each_dry error_text (k :: l) (accounts d0)) as (lns & ->). done.
Qed.
End CommandTheorems.

Section EnvironmentTheorems.
Context {KS : Type} `{CryptoLaws} `{!SecretBox KS} `{!SecretBoxLaws KS} `{Bcrypt}.
Context (random : forall i n, is_Some (entropy i n)) (error_text : error -> string).
Import Backends.
Implicit Types d : Backends.t KS.

(** A listed backend and its row. *)
Definition lists_row (b b' : BackendRow.t) : Prop :=
  BackendRow.ID b' = BackendRow.ID b /\ BackendRow.EncryptedEnv b' = BackendRow.EncryptedEnv b /\
  (BackendRow.EncryptedEnv b = EmptyString -> BackendRow.Env b' = BackendRow.Env b).

Lemma decrypt_rows_lists ks l d : ready ks d -> Forall2 lists_row l (decrypt_rows l d).1.
Proof.
  intros Hr. induction l as [|b l IH]; [constructor|]. cbn [decrypt_rows].
  set (b1 := if BackendRow.MinPoolSize b =? 0 then _ else b).
  assert (Hb1 : lists_row b b1) by (unfold b1; by case_match).
  assert (Hb2 : lists_row b1 (decryptBackendEnv b1 d).1).
  { unfold decryptBackendEnv. case_bool_decide; [done|]. destruct (Accounts.keyStore _); [|done].
    by destruct (on_accounts _ _) as [[env|e] d']. }
  rewrite (decryptBackendEnv_stable ks b1 d d Hr Hr). destruct (decryptBackendEnv b1 d) as [b2 d2].
  pose proof (decrypt_rows_ready ks l d Hr) as [_ Hd]. destruct (decrypt_rows l d) as [l' d'].
  cbn in *. constructor; [|done]. destruct Hb1 as (?&He&?), Hb2 as (?&?&?).
  split_and!; [congruence..|]. intros Hemp. rewrite <- He in Hemp. naive_solver congruence.
Qed.

Lemma env_items_ok ks l d : ready ks d -> NoDup (BackendRow.ID <$> l) ->
  (forall i, i ∈ l -> exists b, backends d !! BackendRow.ID i = Some b /\ BackendRow.Env i = BackendRow.Env b) ->
  exists lns d', each (migrate_env_item error_text false) l d = ((lns, Z.of_nat (length l), 0), d') /\ ready ks d' /\
    (forall id, id ∉ BackendRow.ID <$> l -> backends d' !! id = backends d !! id) /\
    (forall i b, i ∈ l -> backends d !! BackendRow.ID i = Some b ->
       exists b', backends d' !! BackendRow.ID i = Some b' /\ seals ks b b').
Proof.
  revert d. induction l as [|i l IH]; intros d Hr Hnd Hl.
  { exists [], d. split_and!; try done. intros i b Hi. by inversion Hi. }
  apply NoDup_cons in Hnd as [Hni Hnd]. cbn [each]. unfold migrate_env_item at 1, on_accounts, keystore_encrypt.
  pose proof Hr as (Hf & Hk & _). rewrite Hk.
  destruct (box_encrypt_ok random ks (BackendRow.Env i) (accounts d) Hr) as (enc & n & -> & Hne & Hopen).
  change (set_accounts (fun _ => Accounts.set_rng n (accounts d)) d) with (set_rng n d).
  rewrite sql_exec_ok by done. set (d1 := set_backends _ (set_rng n d)).
  assert (Hb1 : backends d1 = alter (BackendRow.with_Env "{}" enc) (BackendRow.ID i) (backends d)) by done.
  assert (Hne1 : forall i2, i2 ∈ l -> BackendRow.ID i2 <> BackendRow.ID i).
  { intros i2 Hi2 Heq. apply Hni. rewrite <- Heq. by apply list_elem_of_fmap_2. }
  destruct (IH d1) as (lns & d' & -> & Hr' & Hout & Hin); [by apply ready_backends|done| |].
  - intros i2 Hi2. rewrite Hb1, lookup_alter_ne by by apply not_eq_sym, Hne1. apply Hl. by right.
  - eexists _, d'. split; [f_equal; f_equal; f_equal; cbn [length]; lia|]. split_and!; [done| |].
    + intros id Hid. apply not_elem_of_cons in Hid as [Hid1 Hid2]. rewrite Hout, Hb1 by done.
      by rewrite lookup_alter_ne.
    + intros i2 b [->|Hi2]%elem_of_cons Hb.
      * exists (BackendRow.with_Env "{}" enc b). split.
        { rewrite Hout, Hb1 by done. by rewrite lookup_alter_eq, Hb. }
        exists enc. split_and!; try done. intros d2 Hd2. unfold decryptBackendEnv. cbn.
        rewrite bool_decide_eq_false_2 by done. pose proof Hd2 as (_ & -> & _). unfold on_accounts.
        destruct (Hl i) as (b0 & Hb0 & Henv); [by left|]. assert (b0 = b) as -> by congruence.
        rewrite Hopen, Henv by done. by rewrite accounts_id.
      * apply (Hin i2); [done|]. rewrite Hb1. by rewrite lookup_alter_ne by by apply not_eq_sym, Hne1.
Qed.

(** The backends the loop goes through: those with an environment that is not encrypted. *)
Lemma listed_items ks d : ready ks d -> rows_keyed d ->
  exists l, ListBackends d = (Ok l, d) /\ let items := filter env_migratable l in
    NoDup (BackendRow.ID <$> items) /\
    (forall i, i ∈ items -> exists b, backends d !! BackendRow.ID i = Some b /\
       BackendRow.Env i = BackendRow.Env b /\ env_migratable b) /\
    (forall b, backends d !! BackendRow.ID b = Some b -> env_migratable b ->
       exists i, i ∈ items /\ BackendRow.ID i = BackendRow.ID b).
Proof.
  intros Hr Hkey.
  assert (Hlist : exists l, ListBackends d = (Ok l, d) /\ Forall2 lists_row (rows_by_id d) l).
  { unfold ListBackends, sql_query. rewrite sql_stmt_ok by apply Hr.
    pose proof (decrypt_rows_lists ks (rows_by_id d) d Hr) as Hl. pose proof (decrypt_rows_ready ks (rows_by_id d) d Hr) as [_ Hd].
    destruct (decrypt_rows (rows_by_id d) d) as [l d']. cbn in Hl, Hd. subst d'. by exists l. }
  destruct Hlist as (l & Hl & Hrows).
  assert (Hperm : forall b, b ∈ rows_by_id d <-> backends d !! BackendRow.ID b = Some b).
  { intros b. unfold rows_by_id. rewrite sort_by_perm, elem_of_rows. split; [|by eauto].
    intros [id Hid]. by rewrite (Hkey id b Hid). }
  assert (Hnd0 : NoDup (BackendRow.ID <$> rows_by_id d)).
  { apply NoDup_fmap_2_strong; [intros x y Hx%Hperm Hy%Hperm Heq; congruence|]. unfold rows_by_id. rewrite sort_by_perm.
    unfold rows. apply NoDup_fmap_2_strong; [|apply NoDup_map_to_list].
    intros [k1 v1] [k2 v2] H1'%elem_of_map_to_list H2'%elem_of_map_to_list Heq. cbn in Heq. subst v2.
    f_equal. by rewrite <- (Hkey _ _ H1'), <- (Hkey _ _ H2'). }
  assert (Hids : BackendRow.ID <$> l = BackendRow.ID <$> rows_by_id d).
  { clear -Hrows. induction Hrows as [|b b' l1 l2 (Hid & _) _ IH]; [done|]. cbn. by rewrite Hid, IH. }
  exists l. split; [done|]. set (items := filter env_migratable l).
  assert (Hnd : NoDup (BackendRow.ID <$> items)).
  { rewrite <- Hids in Hnd0. unfold items. clear -Hnd0. induction l as [|b l IH]; [constructor|].
    apply NoDup_cons in Hnd0 as [Hni Hnd]. rewrite filter_cons. case_decide; [|by apply IH]. cbn.
    apply NoDup_cons. split; [|by apply IH]. intros (b2 & Heq & Hb2)%list_elem_of_fmap. apply Hni. rewrite Heq.
    apply list_elem_of_fmap_2. by apply list_elem_of_filter in Hb2 as [_ ?]. }
  assert (Hitem : forall i, i ∈ items <-> exists b, backends d !! BackendRow.ID i = Some b /\ i ∈ l /\ lists_row b i /\
            BackendRow.Env i = BackendRow.Env b /\ env_migratable b).
  { intros i. unfold items. rewrite list_elem_of_filter. split.
    - intros [[He Hn] Hin]. apply list_elem_of_lookup in Hin as [n Hn2].
      destruct (Forall2_lookup_r _ _ _ _ _ Hrows Hn2) as (b & Hb & Hlr). pose proof Hlr as (Hid & Hee & Henv).
      exists b. rewrite Hid. split; [apply Hperm; by eapply list_elem_of_lookup_2|].
      split; [by eapply list_elem_of_lookup_2|]. rewrite Hee in He. specialize (Henv He). split_and!; [done|done|].
      split; [done|]. by rewrite <- Henv.
    - intros (b & _ & Hin & (_ & Hee & _) & Henv & [He Hn]). split; [|done]. split; congruence. }
  assert (Hcover : forall b, backends d !! BackendRow.ID b = Some b -> env_migratable b ->
            exists i, i ∈ items /\ BackendRow.ID i = BackendRow.ID b).
  { intros b Hb [He Hn]. pose proof (proj2 (Hperm b) Hb) as Hin. apply list_elem_of_lookup in Hin as [n Hn2].
    destruct (Forall2_lookup_l _ _ _ _ _ Hrows Hn2) as (i & Hi & Hlr). pose proof Hlr as (Hid & Hee & Henv).
    exists i. split; [|done]. apply Hitem. exists b. rewrite Hid. split_and!; [done|by eapply list_elem_of_lookup_2|done|by apply Henv|done]. }
  split_and!; [done| |done]. intros i (b & ? & _ & _ & ? & ?)%Hitem. by exists b.
Qed.

(** What a run makes of each row. *)
Lemma env_run_rows ks d : ready ks d -> rows_keyed d ->
  exists out d', runAdminEnvMigration error_text false d = ((out, 0), d') /\ ready ks d' /\
    (forall id b, backends d !! id = Some b ->
      (env_migratable b /\ exists b', backends d' !! id = Some b' /\ seals ks b b') \/
      (~ env_migratable b /\ backends d' !! id = Some b)) /\
    (forall id, backends d !! id = None -> backends d' !! id = None).
Proof.
  intros Hr Hkey. destruct (listed_items ks d Hr Hkey) as (l & Hl & Hnd & Hitem & Hcover).
  set (items := filter env_migratable l) in *.
  destruct (env_items_ok ks items d Hr Hnd) as (lns & d' & He & Hr' & Hout & Hdone).
  { intros i (b & Hb & Henv & _)%Hitem. by exists b. }
  assert (Hrun : exists out, runAdminEnvMigration error_text false d = ((out, 0), d')).
  { unfold runAdminEnvMigration. rewrite Hl. fold items. destruct items as [|i0 is0].
    - cbn [each] in He. injection He as <- <-. by eexists.
    - rewrite He. by eexists. }
  destruct Hrun as [out Hrun]. exists out, d'. split_and!; [done|done| |].
  2: { intros id Hb. rewrite Hout; [done|]. intros (i & -> & (b2 & Hb2 & _)%Hitem)%list_elem_of_fmap. congruence. }
  intros id b Hb. pose proof (Hkey id b Hb) as <-. destruct (decide (env_migratable b)) as [Hm|Hm]; [left|right]; (split; [done|]).
    - destruct (Hcover b Hb Hm) as (i & Hi & Hid). rewrite <- Hid in *. by apply Hdone.
    - rewrite Hout; [done|]. intros (i & Heq & Hi)%list_elem_of_fmap. apply Hitem in Hi as (b2 & Hb2 & _ & Hm2).
      rewrite <- Heq in Hb2. assert (b2 = b) as -> by congruence. done.
Qed.

(** The environments are hidden and none is changed: after a run every backend is read as
    before, and what is left in plaintext is empty.  Those empty ones the verification
    still counts as not encrypted. *)
Theorem admin_env_migration ks d :
  ready ks d -> rows_keyed d ->
  let r := runAdminEnvMigration error_text false d in
  r.1.2 = 0 /\
  (forall id b d0, GetBackend id d = (Ok b, d0) ->
     exists enc, GetBackend id r.2 = (Ok (BackendRow.with_Env (BackendRow.Env b) enc b), r.2)) /\
  (forall id b, backends r.2 !! id = Some b -> BackendRow.EncryptedEnv b = EmptyString -> no_env (BackendRow.Env b) = true) /\
  (forall id b, backends d !! id = Some b -> BackendRow.EncryptedEnv b = EmptyString -> no_env (BackendRow.Env b) = true ->
     exists encrypted plaintext, (VerifyAdminEnvEncryption r.2).1 = Ok (encrypted, plaintext) /\ 0 < plaintext).
Proof.
  intros Hr Hkey. destruct (env_run_rows ks d Hr Hkey) as (out & d' & -> & Hr' & Hrow & Hnone). cbn [fst snd].
  split; [done|]. split_and!.
  - intros id b d0 Hg. destruct (backends d !! id) as [row|] eqn:Hb.
    2:{ unfold GetBackend in Hg. rewrite sql_row_ok in Hg by apply Hr. by rewrite Hb in Hg. }
    rewrite (GetBackend_row ks id row d Hr Hb) in Hg. injection Hg as <- _.
    destruct (Hrow id row Hb) as [([Hp _] & b2 & Hb2 & enc & -> & Hne & Hopen)|[_ Hb2]].
    + exists enc. rewrite (GetBackend_row ks id _ d' Hr' Hb2), Hopen by done. cbn [fst snd].
      unfold decryptBackendEnv. by rewrite bool_decide_eq_true_2.
    + exists (BackendRow.EncryptedEnv (decryptBackendEnv row d).1).
      rewrite (GetBackend_row ks id row d' Hr' Hb2), (decryptBackendEnv_stable ks row d d') by done.
      cbn [fst snd]. by destruct (decryptBackendEnv row d).1.
  - intros id b' Hb' Hemp. destruct (backends d !! id) as [b|] eqn:Hb.
    + destruct (Hrow id b Hb) as [(_ & b2 & Hb2 & enc & -> & Hne & _)|[Hm Hb2]].
      * assert (b' = BackendRow.with_Env "{}" enc b) as -> by congruence. done.
      * assert (b' = b) as -> by congruence. destruct (no_env (BackendRow.Env b)) eqn:Hn; [done|].
        by destruct Hm.
    + rewrite Hnone in Hb' by done. done.
  - intros id b Hb Hemp Hn.
    assert (Hb' : backends d' !! id = Some b).
    { destruct (Hrow id b Hb) as [[[_ Hm] _]|[_ Hb']]; [congruence|done]. }
    unfold VerifyAdminEnvEncryption, sql_query. rewrite sql_stmt_ok by apply Hr'. cbn [fst].
    assert (Hin : b ∈ rows (backends d')) by (apply elem_of_rows; by exists id).
    destruct (rows (backends d')) as [|b0 l0] eqn:Hrs; [by inversion Hin|]. rewrite <- Hrs in *.
    eexists _, _. split; [done|].
    assert (length (filter (fun b => BackendRow.EncryptedEnv b <> EmptyString) (rows (backends d'))) < length (rows (backends d')))%nat; [|lia].
    apply (length_filter_lt _ _ b); [done|]. by intros [].
Qed.
End EnvironmentTheorems.

Section ExtractTheorems.
Context {KS : Type} `{CryptoLaws} `{!SecretBox KS} `{!SecretBoxLaws KS} `{Bcrypt}.
Context (random : forall i n, is_Some (entropy i n)) (error_text : error -> string) (quoted : string -> string).
Context (json_text : list extractedSecret.t -> string).
Import Accounts Extract.
Implicit Types a : Accounts.t KS.

Lemma extractToken_quiet ks t dek a : healthy ks a -> (extractToken error_text t dek a).2 = a.
Proof.
  intros Hh. unfold extractToken, ExtractToken. destruct (_ || _); [done|].
  destruct (GetUserTokenDecryptedWithUserDEK_quiet ks (UserToken.UserID t) (UserToken.BackendID t)
    (UserToken.EnvKey t) dek a Hh) as [[v|e] ->]; done.
Qed.

Lemma extract_all_map ks l dek a : healthy ks a ->
  extract_all error_text l dek a = ((fun t => (extractToken error_text t dek a).1) <$> l, a).
Proof.
  intros Hh. induction l as [|t l IH]; [done|]. cbn [extract_all fmap list_fmap].
  pose proof (extractToken_quiet ks t dek a Hh) as Hq. destruct (extractToken error_text t dek a) as [s a'].
  cbn in Hq |- *. subst a'. by rewrite IH.
Qed.

(** Who knows the password gets his tokens: what he saved with his own key is printed,
    when the tool is given his address and the password the key was made from. *)
Theorem password_extracts_tokens ks a u password dek backendID envKey value :
  healthy ks a -> users a !! UserRow.ID u = Some u -> user_by_email (UserRow.Email u) a = Some u ->
  UserRow.PasswordSalt u <> EmptyString -> DeriveUserDEK password (UserRow.PasswordSalt u) = Ok dek ->
  token_allowed (UserRow.ID u) backendID a = true ->
  let a1 := (SetUserTokenWithUserDEK (UserRow.ID u) backendID envKey value (Some dek) a).2 in
  let r := extract error_text quoted json_text false (UserRow.Email u) password a1 in
  r.1.2 = 0 /\ r.2 = a1 /\
  Out (backendID +:+ "/" +:+ envKey +:+ " [user-derived]:") ∈ r.1.1 /\ Out ("  " +:+ value) ∈ r.1.1.
Proof.
  intros Hh Hu Hemail Hsalt Hdek Ha. cbv zeta.
  assert (Hlen : String.length dek = 32%nat).
  { unfold DeriveUserDEK in Hdek. destruct (b64_decode _); [|done]. injection Hdek as <-. apply pbkdf2_length. }
  destruct (SetUserTokenWithUserDEK_ok random ks (UserRow.ID u) backendID envKey value dek a Hh Hlen Ha)
    as (mc & c & n & -> & Hc & Hmc & Ho). cbn [snd].
  set (row := UserToken.mk (UserRow.ID u) backendID envKey EmptyString mc c "user") in *.
  set (a1 := set_user_tokens _ _). assert (Hh1 : healthy ks a1) by by destruct a.
  unfold extract, findUser. rewrite sql_row_ok by apply Hh1.
  change (user_by_email (UserRow.Email u) a1) with (user_by_email (UserRow.Email u) a). rewrite Hemail.
  rewrite bool_decide_eq_false_2 by done. rewrite Hdek.
  unfold queryTokens, sql_query. rewrite sql_stmt_ok by apply Hh1. rewrite (extract_all_map ks) by done.
  set (secrets := _ <$> filter _ _).
  assert (Hin : extractedSecret.mk backendID envKey value "user-derived" ∈ secrets).
  { apply list_elem_of_fmap. exists row. split.
    - unfold extractToken, ExtractToken.
      cbn [UserToken.EncryptedDEK UserToken.BackendID UserToken.EnvKey UserToken.UserID row].
      rewrite !bool_decide_eq_false_2 by done. cbn [orb].
      rewrite (GetUserTokenDecryptedWithUserDEK_ok ks _ _ _ row dek value); try done; [apply lookup_insert_eq|].
      by apply Ho.
    - apply list_elem_of_filter. split; [done|]. apply elem_of_rows. eexists. apply lookup_insert_eq. }
  clearbody secrets. cbn [fst snd app]. split_and!; [done|done|..]; apply list_elem_of_bind; eexists;
    (split; [|exact Hin]); unfold printed; cbn [extractedSecret.Method extractedSecret.Backend extractedSecret.EnvKey
      extractedSecret.Value].
  - by left.
  - by right; left.
Qed.

(** The master key alone prints nothing: without the user's key, or for a token without
    the user's layer, the tool shows no value. *)
Theorem master_key_extracts_nothing t dek a :
  dek = None \/ UserToken.EncryptedDEK t = EmptyString ->
  extractToken error_text t dek a =
    (extractedSecret.mk (UserToken.BackendID t) (UserToken.EnvKey t)
       ("<no user-DEK layer for " +:+ UserToken.BackendID t +:+ "/" +:+ UserToken.EnvKey t +:+ ">") "failed", a).
Proof.
  unfold extractToken. intros [->|He]; [done|]. rewrite (bool_decide_eq_true_2 (UserToken.EncryptedDEK t = _)) by done.
  by rewrite orb_true_r.
Qed.
End ExtractTheorems.

(** ** Witnesses *)

Section Witnesses.
#[local] Existing Instances Toy.prims Toy.laws DemoAccounts.bcrypt DemoAccounts.provider.

Definition demo_text (e : error) : string := "error".

Definition plain_token : UserToken.t :=
  UserToken.mk "ann" "github" "PLAIN" "p1" EmptyString EmptyString "legacy".

Definition plain_store : Accounts.t DemoAccounts.key_store :=
  Accounts.set_user_tokens (fun _ => {[ ("ann", "github", "PLAIN") := plain_token ]}) DemoAccounts.store.

(** A token saved with the key of its user beside it. *)
Definition both_store : Accounts.t DemoAccounts.key_store :=
  (SetUserTokenWithUserDEK "ann" "github" "TOKEN" "ghp_1" (Some DemoAccounts.dek) plain_store).2.

Lemma plain_healthy : healthy DemoAccounts.box plain_store.
Proof. split_and!; [done|done|]. by exists "0123456789abcdef". Qed.

Lemma both_healthy : healthy DemoAccounts.box both_store.
Proof. split_and!; [by vm_compute|by vm_compute|]. by exists "0123456789abcdef". Qed.

Definition token_ok (a : Accounts.t DemoAccounts.key_store) (kv : (string * string * string) * UserToken.t) : bool :=
  bool_decide (kv.1 = token_key kv.2) && token_allowed (UserToken.UserID kv.2) (UserToken.BackendID kv.2) a.

Lemma tokens_ok a : forallb (token_ok a) (map_to_list (Accounts.user_tokens a)) = true ->
  tokens_keyed a /\ all_allowed a.
Proof.
  rewrite forallb_forall. intros Hall.
  assert (Hok : forall key k, Accounts.user_tokens a !! key = Some k ->
            key = token_key k /\ token_allowed (UserToken.UserID k) (UserToken.BackendID k) a = true).
  { intros key k Hl%elem_of_map_to_list%list_elem_of_In. specialize (Hall _ Hl).
    apply andb_true_iff in Hall as [Hk Ha]. by apply bool_decide_eq_true_1 in Hk. }
  split; intros key k Hl; [by apply Hok|by eapply Hok].
Qed.

Lemma both_ok : tokens_keyed both_store /\ all_allowed both_store.
Proof. apply tokens_ok. by vm_compute. Qed.

Lemma tools_take_bridge_keys_witness : Migrate.parseEncryptionKey "MDEyMzQ1Njc4OWFiY2RlZg==" = Ok "0123456789abcdef".
Proof. apply (tools_take_bridge_keys "MDEyMzQ1Njc4OWFiY2RlZg==" "0123456789abcdef"). by vm_compute. Defined.

Lemma migration_keeps_tokens_witness :
  reading (runMigration demo_text false both_store).2 ("ann", "github", "PLAIN") = Ok "p1".
Proof.
  destruct (migration_keeps_tokens demo_random demo_text DemoAccounts.box both_store both_healthy
    (proj1 both_ok) (proj2 both_ok)) as (_ & Hr & _). rewrite Hr. by vm_compute.
Defined.

Lemma rollback_keeps_tokens_witness :
  reading (rollbackMigration demo_text false both_store).2 ("ann", "github", "TOKEN") = Ok "ghp_1".
Proof.
  destruct (rollback_keeps_tokens demo_text DemoAccounts.box both_store both_healthy (proj1 both_ok)) as (Hr & _).
  rewrite Hr. by vm_compute.
Defined.

Lemma back_and_forth_drops_user_layer_witness : exists k,
  Accounts.user_tokens both_store !! ("ann", "github", "TOKEN") = Some k /\
  reading (runMigration demo_text false (rollbackMigration demo_text false both_store).2).2
    ("ann", "github", "TOKEN") = Ok "ghp_1".
Proof.
  eexists. split; [by vm_compute|].
  eapply (back_and_forth_drops_user_layer demo_random demo_text DemoAccounts.box both_store
    ("ann", "github", "TOKEN") _ "ghp_1" DemoAccounts.dek both_healthy (proj1 both_ok) (proj2 both_ok));
    [by vm_compute|done|by vm_compute|done].
Defined.

Lemma failed_update_loses_token_witness :
  let a := Accounts.set_faults [false; true] plain_store in
  reading (migrate_item demo_text false plain_token a).2 ("ann", "github", "PLAIN") = Ok EmptyString.
Proof.
  refine (proj2 (proj2 (failed_update_loses_token demo_random demo_text DemoAccounts.box
    (Accounts.set_faults [false; true] plain_store) plain_token [] eq_refl _ eq_refl _ _)) eq_refl).
  - by exists "0123456789abcdef".
  - done.
  - by vm_compute.
Defined.

Lemma admin_env_migration_witness : exists r, runAdminEnvMigration demo_text false DemoBackends.tables = r /\ r.1.2 = 0.
Proof.
  eexists. split; [reflexivity|].
  apply (admin_env_migration demo_random demo_text DemoAccounts.box DemoBackends.tables demo_ready).
  intros id b. cbn [Backends.backends DemoBackends.tables]. by intros [<- <-]%lookup_singleton_Some.
Defined.

Lemma verification_exact_witness : (verifyMigration demo_text both_store).2 = both_store.
Proof. apply (verification_exact demo_text DemoAccounts.box both_store both_healthy (proj1 both_ok)). Defined.

Lemma dry_rollback_reports_none_witness : exists fail, last (rollbackMigration demo_text true both_store).1.1 =
  Some (Out ("Dry run complete: " +:+ itoa 0 +:+ " tokens " +:+ "would be rolled back, " +:+ itoa fail +:+ " would fail")).
Proof.
  apply (dry_rollback_reports_none demo_text DemoAccounts.box both_store both_healthy).
  exists ("ann", "github", "TOKEN"). eexists. split; [by vm_compute|done].
Defined.

Definition demo_direct : Backends.t (KeyStore.t directProvider.t) :=
  Backends.mk (Accounts.mk {[ "ann" := DemoAccounts.ann ]} {[ ("ann", "github", "PLAIN") := plain_token ]} ∅ ∅ ∅ ∅ ∅ [] ∅
    {[ "github" ]} None 65 []) ∅ ∅ ∅ true.

Lemma dry_runs_change_nothing_witness (p := directProvider.mk "0123456789abcdef") :
  let f := Migrate.Flags EmptyString false false false false false true in
  (Migrate.command demo_text f (Migrate.with_provider p demo_direct)).2 = Migrate.with_provider p demo_direct.
Proof. apply (dry_runs_change_nothing demo_text _ p demo_direct); done. Defined.

Lemma password_extracts_tokens_witness :
  exists dek, Out "  ghp_1" ∈ (Extract.extract demo_text (fun s => s) (fun _ => EmptyString) false "ann@example.org" "pw"
    (SetUserTokenWithUserDEK "ann" "github" "TOKEN" "ghp_1" (Some dek) DemoAccounts.store).2).1.1.
Proof.
  eexists. refine (proj2 (proj2 (proj2 (password_extracts_tokens demo_random demo_text (fun s => s) (fun _ => EmptyString)
    DemoAccounts.box DemoAccounts.store DemoAccounts.ann "pw" _ "github" "TOKEN" "ghp_1" demo_healthy _ _ _ _ _))));
    by vm_compute.
Defined.

Lemma master_key_extracts_nothing_witness :
  extractedSecret.Method (Extract.extractToken demo_text plain_token (Some DemoAccounts.dek) plain_store).1 = "failed".
Proof. by rewrite (master_key_extracts_nothing demo_text plain_token (Some DemoAccounts.dek) plain_store (or_intror eq_refl)). Defined.
End Witnesses.
