(* ===== verification/Probe.v ===== *)
(** * Probes, scans and the retry loop: [src/poolmgr/probe.go], [src/scan.go], [src/main.go]

    A backend is started outside of any pool, asked to initialize, and killed.  What the
    process writes is a list of chunks with their times; the requests wait in a table of
    their own ([PoolRequests]), whose timers run beside those of the probe. *)
From Stdlib Require Import Sorted.
From stdpp Require Import sorting.
From S2P Require Import EnforcerTypes Resolver CelEngine EnforcerStore Enforcer Template Muxer PoolRequests Process BackendStatus Prelude GoStrings Sql Crypto Accounts Backends ToolLists Server Startup Precache.
Open Scope Z_scope.

(** ** What comes from the process *)

Record process_view := ProcessView {
  starts : bool;                              (* the pipes are made and it starts *)
  output : list (Time * string);              (* chunks of stdout *)
  stderr : string                             (* by the end of the probe *)
}.

Module ProbeResult.
Record t := mk { Status : string; Message : string; Stderr : string; DurationMs : Z }.
End ProbeResult.

(** The readings of the clock. *)
Record probe_times := ProbeTimes { start : Time; registered : Time; waiting : Time; finished : Time }.

Record scan_times := ScanTimes {
  init_registered : Time; init_waiting : Time; tools_registered : Time; tools_waiting : Time
}.

Section Probe.
(** The id in a message as [responseDispatcher] decodes and prints it; [None]: no
    response with an id. *)
Context (id_of : string -> option string).
Context (error_text : error -> string) (show_duration : Duration -> string).

Definition framing_or_default (stdioFraming : string) : string :=
  if bool_decide (stdioFraming = EmptyString) then "newline" else stdioFraming.

(** The messages in what has been written so far. *)
Definition messages (framing : string) (s : string) : list string :=
  if bool_decide (framing = "content_length") then captureStdoutContentLength s else captureStdout s.

(** The messages each chunk completes, with its time. *)
Fixpoint arrivals (framing before : string) (chunks : list (Time * string)) : list (Time * string) :=
  match chunks with
  | [] => []
  | (t, c) :: chunks =>
      ((fun m => (t, m)) <$> drop (length (messages framing before)) (messages framing (before +:+ c))) ++
      arrivals framing (before +:+ c) chunks
  end.

Definition dispatched (l : list (Time * string)) : list (Time * request_op) :=
  (fun x => (x.1, ODispatch (id_of x.2) x.2)) <$> l.

(** The timer of a registration among the other events. *)
Fixpoint with_timer (t : Time) (n : nat) (events : list (Time * request_op)) : list (Time * request_op) :=
  match events with
  | [] => [(t, OFire n)]
  | (t', o) :: events' => if t' <=? t then (t', o) :: with_timer t n events' else (t, OFire n) :: events
  end.

(** A request is written to the process in the framing of the backend. *)
Definition framed (framing body : string) : string :=
  if bool_decide (framing = "content_length") then formatMCPPacket body else body +:+ newline.

(** A request from its registration to the end of the wait for its response, for what
    the process writes after the registration. *)
Definition wait_for (id : string) (registered waiting : Time) (timeout : Duration)
    (arrived : list (Time * string)) (s : Requests.t) : Requests.received * Requests.t :=
  let '(respCh, s) := Requests.RegisterRequest id s in
  let events := with_timer (registered + 30 * Second) respCh
                  (dispatched (filter (fun x => registered <= x.1) arrived)) in
  let '(resp, s) := await respCh (waiting + timeout) events s in
  (resp, Requests.UnregisterRequest id s).

Definition initialize_body (client id : string) : string :=
  dq "{'jsonrpc':'2.0','method':'initialize','params':{'capabilities':{},'clientInfo':{'name':'" +:+ client +:+
  dq "','version':'1.0.0'},'protocolVersion':'2024-11-05'},'id':'" +:+ id +:+ dq "'}".

Definition initialized_body : string := dq "{'jsonrpc':'2.0','method':'notifications/initialized'}".

(** ** [ProbeBackend] *)

(** The result and what was written to the process.  The built-in server has no stderr:
    the goroutine that reads it panics and takes the bridge down ([None]). *)
Definition ProbeBackend (command : string) (env : list string) (timeout : Duration) (stdioFraming : string)
    (nanos : Z) (p : process_view) (c : probe_times) : option (ProbeResult.t * list string) :=
  let stdioFraming := framing_or_default stdioFraming in
  let duration := Z.quot (time_sub (finished c) (start c)) 1000000 in
  match spawnProcessRaw command (Some env) (starts p) with
  | Err e => Some (ProbeResult.mk "spawn_error" ("Failed to spawn: " +:+ error_text e) EmptyString duration, [])
  | Ok Builtin => None
  | Ok (Exec _ _) =>
      let initID := "probe-" +:+ itoa nanos in
      let written := [framed stdioFraming (initialize_body "mcp-bridge-probe" initID)] in
      match (wait_for initID (registered c) (waiting c) timeout
               (arrivals stdioFraming EmptyString (output p)) Requests.empty).1 with
      | Requests.Closed | Requests.Got EmptyString =>
          Some (ProbeResult.mk "handshake_error" "Initialize response channel closed with no data" (stderr p) duration,
           written)
      | Requests.Got _ =>
          Some (ProbeResult.mk "ok" "MCP handshake succeeded" (stderr p) duration,
           written ++ [framed stdioFraming initialized_body])
      | Requests.Blocked =>
          Some (ProbeResult.mk "handshake_timeout" ("No initialize response within " +:+ show_duration timeout) (stderr p)
             duration, written)
      end
  end.

(** ** [ScanBackendTools] *)

Definition tools_body (id : string) : string :=
  dq "{'jsonrpc':'2.0','method':'tools/list','params':{},'id':'" +:+ id +:+ dq "'}".

Definition ScanBackendTools (command : string) (env : list string) (timeout : Duration) (stdioFraming : string)
    (nanos1 nanos2 : Z) (p : process_view) (c : scan_times) : res string * list string :=
  let stdioFraming := framing_or_default stdioFraming in
  match Startup.ScanBackendTools command env (starts p) with
  | Err e => (Err (Wrapf "spawn error: %w" e), [])
  | Ok _ =>
      let arrived := arrivals stdioFraming EmptyString (output p) in
      let initID := "scan-" +:+ itoa nanos1 in
      let written := [framed stdioFraming (initialize_body "mcp-bridge-scan" initID)] in
      let '(r, s) := wait_for initID (init_registered c) (init_waiting c) timeout arrived Requests.empty in
      match r with
      | Requests.Closed => (Err (Errorf "initialize failed: channel closed"), written)
      | Requests.Blocked => (Err (Errorf ("initialize timeout after " +:+ show_duration timeout)), written)
      | Requests.Got _ =>
          let toolsID := "scan-tools-" +:+ itoa nanos2 in
          let written := written ++ [framed stdioFraming initialized_body; framed stdioFraming (tools_body toolsID)] in
          match (wait_for toolsID (tools_registered c) (tools_waiting c) timeout arrived s).1 with
          | Requests.Closed | Requests.Got EmptyString => (Err (Errorf "tools/list: no response"), written)
          | Requests.Got resp => (Ok resp, written)
          | Requests.Blocked => (Err (Errorf ("tools/list timeout after " +:+ show_duration timeout)), written)
          end
      end
  end.
End Probe.

(** ** [ScanBackendToolsScanMode]

    What the command of [Startup.ScanBackendToolsScanMode] comes to: its output, or the
    error of [Run] with its stderr. *)

Inductive ran := Printed (stdout : string) | Failed (e : error) (stderr : string) | DeadlineExceeded.

Definition scan_mode_output (unmarshal : string -> res (list scan_mode_tool * string)) (r : ran) :
    res (list scan_mode_tool) :=
  match r with
  | DeadlineExceeded => Err (Errorf "scan timeout after %s")
  | Failed e stderr => Err (Wrapf ("scan error: %w - stderr: " +:+ stderr) e)
  | Printed stdout =>
      match unmarshal stdout with
      | Err e => Err (Wrapf ("failed to parse scan output: %w - stdout: " +:+ stdout) e)
      | Ok (tools, scanError) =>
          if negb (bool_decide (scanError = EmptyString))
          then Err (Errorf ("backend scan error: " +:+ scanError)) else Ok tools
      end
  end.

(** ** [scanSelfReportingBackends]

    The goroutines run in some order; each stores the profiles of its own backend.
    [mode] and [handshake]: what the two scans of a backend in an environment give. *)

Section Scan.
Context {KS : Type} `{SecretBox KS} `{CryptoPrims} `{Bcrypt} {ME : MuxEnv}.
Context (marshal : list (string * json) -> string).
Context (unmarshal_tools : string -> res (list (list (string * json)) * option (list (string * json)))).
Context (uuid : string -> nat -> string).
Context (visit : nat -> gset string -> list string) (environ : list string).
Context (mode : string -> list string -> res (list scan_mode_tool)).
Context (handshake : string -> list string -> string -> res string).
Context (order : list BackendRow.t -> list BackendRow.t).

Definition self_reporting (b : BackendRow.t) : bool := BackendRow.SelfReporting b && BackendRow.Enabled b.

Definition scan_one (now : Time) (b : BackendRow.t) (d : db) : Z * db :=
  let env := buildEnvForScan visit environ (routed b) in
  scan_backend marshal unmarshal_tools (uuid (BackendRow.ID b)) (BackendRow.ID b) now
    (mode (BackendRow.Command b) env) (handshake (BackendRow.Command b) env (BackendRow.StdioFraming b)) d.

Fixpoint scan_each (now : Time) (l : list BackendRow.t) (d : db) : Z * db :=
  match l with
  | [] => (0, d)
  | b :: l => let '(n, d) := scan_one now b d in
              let '(m, d) := scan_each now l d in (n + m, d)
  end.

(** The number of profiles stored. *)
Definition scanSelfReportingBackends (now : Time) (st : Backends.t KS) (d : db) : Z * Backends.t KS * db :=
  match ListBackends st with
  | (Err _, st) => (0, st, d)
  | (Ok backends, st) =>
      let '(scanned, d) := scan_each now (order (filter (fun b => self_reporting b = true) backends)) d in
      (scanned, st, d)
  end.
End Scan.

(** ** The retry loop *)

Section Retry.
Context {KS : Type} `{SecretBox KS} `{CryptoPrims} `{Bcrypt} {ME : MuxEnv}.
Context (visit : nat -> gset string -> list string) (environ : list string).
(** The comparison of [next_retry] with the time of the statement, both as SQLite keeps
    them. *)
Context (due : Time -> bool).
Context (probe : string -> list string -> Duration -> string -> option ProbeResult.t).
(** The statements on the statuses of a backend succeed. *)
Context (listed : bool) (stmt1 stmt2 : string -> bool).
Import Bridge.

Definition needs_retry (bs : BackendStatus.t) : bool :=
  bool_decide (BackendStatus.Status bs = "unavailable") &&
  match BackendStatus.NextRetry bs with None => true | Some t => due t end.

Definition GetBackendsNeedingRetry (d : status_db) : res (list string) :=
  if negb listed then Err ErrSql
  else Ok (BackendStatus.BackendID <$>
             sort_by (fun a b => BackendStatus.RetryCount a <=? BackendStatus.RetryCount b)
               (filter (fun bs => needs_retry bs = true) (rows (backend_status d)))).

(** One backend of a tick: only success is written down.  [None]: the probe has taken
    the bridge down. *)
Definition retry_backend (now : string -> Time) (backendID : string) (s : Bridge.t KS) : option (Bridge.t KS) :=
  match GetBackend backendID (tables s) with
  | (Err _, d) => Some (mk d (status s) (events s))
  | (Ok backend, d) =>
      result ← probe (BackendRow.Command backend) (retry_env visit environ (routed backend)) (30 * Second)
                 (BackendRow.StdioFraming backend);
      Some (if bool_decide (ProbeResult.Status result = "ok")
            then mk d (SetBackendAvailable (stmt1 backendID) (stmt2 backendID) backendID (now backendID) (status s)).2
                   (events s)
            else mk d (status s) (events s))
  end.

Fixpoint retry_all (now : string -> Time) (ids : list string) (s : Bridge.t KS) : option (Bridge.t KS) :=
  match ids with
  | [] => Some s
  | id :: ids => s ← retry_backend now id s; retry_all now ids s
  end.

(** One tick of [StartBackendRetryLoop]. *)
Definition retry_tick (now : string -> Time) (s : Bridge.t KS) : option (Bridge.t KS) :=
  match GetBackendsNeedingRetry (status s) with
  | Err _ => Some s
  | Ok ids => retry_all now ids s
  end.
End Retry.

(** * Properties *)

Module ProbeFacts.

(** ** The wait for one response *)

Section Wait.
Context (id_of : string -> option string).

(** The first event that ends the wait. *)
Fixpoint outcome (id : string) (n : nat) (deadline : Time) (events : list (Time * request_op)) : Requests.received :=
  match events with
  | [] => Requests.Blocked
  | (t, o) :: events =>
      if deadline <=? t then Requests.Blocked
      else match o with
           | ODispatch (Some id') data =>
               if bool_decide (id' = id) then Requests.Got data else outcome id n deadline events
           | OFire n' => if bool_decide (n' = n) then Requests.Closed else outcome id n deadline events
           | _ => outcome id n deadline events
           end
  end.

(** Nothing but the timer of [n] and messages. *)
Definition quiet (n : nat) (e : Time * request_op) : Prop :=
  match e.2 with ODispatch _ _ => True | OFire n' => n' = n | _ => False end.

(** [n] is the only registration, and nothing has come. *)
Record alone (id : string) (n : nat) (s : Requests.t) : Prop := {
  al_pending : Requests.pendingRequests s = {[ id := n ]};
  al_channel : Requests.channels s !! n = Some (RespChan.mk None false);
  al_timer : Requests.timers s !! n = Some id
}.

(** The first message with the id, in time, or else whichever timer fires first. *)
Definition verdict (id : string) (deadline fires : Time) (l : list (Time * string)) : Requests.received :=
  match list_find (fun x => id_of x.2 = Some id) l with
  | Some (_, (t, m)) => if (t <? deadline) && (t <=? fires) then Requests.Got m
                        else if fires <? deadline then Requests.Closed else Requests.Blocked
  | None => if fires <? deadline then Requests.Closed else Requests.Blocked
  end.

Lemma await_outcome id n deadline events s : alone id n s -> Forall (quiet n) events ->
  (await n deadline events s).1 = outcome id n deadline events.
Proof.
  intros Ha Hq. induction Hq as [|[t o] events Ho Hq IH]; destruct Ha as [Hp Hc Ht]; cbn [await outcome];
    unfold Requests.receive; rewrite Hc; cbn [RespChan.buffered RespChan.closed]; [done|].
  destruct (deadline <=? t); [done|]. unfold quiet in Ho. cbn [snd] in Ho.
  destruct o as [| |n'|[id'|] data|]; try done; cbn [request_step].
  - subst n'. rewrite bool_decide_eq_true_2 by done. unfold Requests.fire. rewrite Ht, Hp, lookup_singleton_eq.
    destruct events as [|[t' o'] events]; cbn [await]; unfold Requests.receive; cbn [Requests.channels];
      by rewrite lookup_alter_eq, Hc.
  - unfold Requests.dispatch. rewrite Hp. case_bool_decide as Hid.
    + subst id'. rewrite lookup_singleton_eq.
      destruct events as [|[t' o'] events]; cbn [await]; unfold Requests.receive; cbn [Requests.channels];
        by rewrite lookup_alter_eq, Hc.
    + rewrite lookup_singleton_ne by done. by apply IH.
Qed.

Lemma registered_alone id : alone id 0 (Requests.RegisterRequest id Requests.empty).2.
Proof. split; cbn; [done|by rewrite lookup_insert_eq..]. Qed.

Lemma timer_quiet t n l : Forall (quiet n) (with_timer t n (dispatched id_of l)).
Proof.
  induction l as [|[t' m] l IH]; cbn; [by repeat constructor|]. case_match; constructor; try done.
  constructor; [done|]. clear IH. induction l as [|x l IH]; constructor; done.
Qed.

Lemma outcome_verdict id n deadline fires l :
  StronglySorted (fun x y : Time * string => x.1 <= y.1) l ->
  outcome id n deadline (with_timer fires n (dispatched id_of l)) = verdict id deadline fires l.
Proof.
  intros Hs. induction Hs as [|[t m] l Hs IH Hall]; unfold verdict.
  { cbn. destruct (Z.leb_spec deadline fires), (Z.ltb_spec fires deadline); try lia; [done|].
    by rewrite bool_decide_eq_true_2. }
  assert (Hrest : forall x, list_find (fun x => id_of x.2 = Some id) l = Some x -> t <= x.2.1).
  { intros [i x] Hf. apply list_find_Some in Hf as (Hi & _). rewrite Forall_forall in Hall.
    apply (Hall x). by eapply list_elem_of_lookup_2. }
  cbn [dispatched fmap list_fmap with_timer fst snd list_find].
  change ((fun x : Time * string => (x.1, ODispatch (id_of x.2) x.2)) <$> l) with (dispatched id_of l).
  destruct (Z.leb_spec t fires) as [Hle|Hgt].
  - cbn [outcome]. destruct (Z.leb_spec deadline t) as [Hd|Hd].
    + destruct (decide (id_of m = Some id)).
      * rewrite (proj2 (Z.ltb_ge t deadline)), (proj2 (Z.ltb_ge fires deadline)) by lia. done.
      * cbn. destruct (list_find _ l) as [[i [t' m']]|] eqn:Hf; cbn;
          [specialize (Hrest _ eq_refl); cbn in Hrest; rewrite (proj2 (Z.ltb_ge t' deadline)) by lia; cbn|];
          by rewrite (proj2 (Z.ltb_ge fires deadline)) by lia.
    + destruct (decide (id_of m = Some id)) as [Hid|Hid].
      * rewrite Hid, bool_decide_eq_true_2 by done. by rewrite (proj2 (Z.ltb_lt _ _)), (proj2 (Z.leb_le _ _)) by lia.
      * assert (outcome id n deadline (with_timer fires n (dispatched id_of l)) =
                match id_of m with
                | Some id' => if bool_decide (id' = id) then Requests.Got m
                              else outcome id n deadline (with_timer fires n (dispatched id_of l))
                | None => outcome id n deadline (with_timer fires n (dispatched id_of l))
                end) as <-.
        { destruct (id_of m); [|done]. rewrite bool_decide_eq_false_2; [done|]. congruence. }
        rewrite IH. unfold verdict. by destruct (list_find _ l) as [[i [t' m']]|].
  - cbn [outcome]. assert (Hv : (if fires <? deadline then Requests.Closed else Requests.Blocked) =
      match (if decide (id_of m = Some id) then Some (0%nat, (t, m))
             else prod_map S Datatypes.id <$> list_find (fun x => id_of x.2 = Some id) l) with
      | Some (_, (t', m')) => if (t' <? deadline) && (t' <=? fires) then Requests.Got m'
                            else if fires <? deadline then Requests.Closed else Requests.Blocked
      | None => if fires <? deadline then Requests.Closed else Requests.Blocked
      end).
    { destruct (decide _); cbn; [by rewrite (proj2 (Z.leb_gt _ _)), andb_false_r by lia|].
      destruct (list_find _ l) as [[i [t' m']]|] eqn:Hf; cbn; [|done]. specialize (Hrest _ eq_refl). cbn in Hrest.
      by rewrite (proj2 (Z.leb_gt _ _)), andb_false_r by lia. }
    rewrite <- Hv. destruct (Z.leb_spec deadline fires), (Z.ltb_spec fires deadline); try lia; [done|].
    by rewrite bool_decide_eq_true_2.
Qed.

Lemma filter_sorted {A} (R : A -> A -> Prop) P `{forall x, Decision (P x)} (l : list A) :
  StronglySorted R l -> StronglySorted R (filter P l).
Proof.
  induction 1 as [|x l Hs IH Hx]; [constructor|]. rewrite filter_cons. case_decide; [|exact IH].
  constructor; [exact IH|]. apply Forall_forall. intros y [_ Hy]%list_elem_of_filter.
  rewrite Forall_forall in Hx. by apply Hx.
Qed.

Lemma find_filter {A B} P `{forall x, Decision (P x)} (l : list A) (f : A -> B) (e : B) :
  match list_find P l with Some (_, x) => f x | None => e end = match filter P l with x :: _ => f x | [] => e end.
Proof.
  induction l as [|x l IH]; [done|]. rewrite filter_cons. cbn [list_find]. destruct (decide (P x)); [done|].
  rewrite <- IH. by destruct (list_find P l) as [[i y]|].
Qed.

Lemma wait_verdict id registered waiting timeout arrived :
  StronglySorted (fun x y : Time * string => x.1 <= y.1) arrived ->
  (wait_for id_of id registered waiting timeout arrived Requests.empty).1 =
  verdict id (waiting + timeout) (registered + 30 * Second) (filter (fun x => registered <= x.1) arrived).
Proof.
  intros Hs. unfold wait_for. destruct (Requests.RegisterRequest id Requests.empty) as [n s] eqn:Hr.
  assert (n = 0%nat /\ s = (Requests.RegisterRequest id Requests.empty).2) as [-> ->]
    by (rewrite Hr; injection Hr as <- _; done).
  destruct (await _ _ _ _) as [r s'] eqn:Ha.
  cbn [fst]. change r with (r, s').1. rewrite <- Ha.
  rewrite (await_outcome id) by (apply registered_alone || apply timer_quiet).
  apply outcome_verdict. by apply filter_sorted.
Qed.
End Wait.

(** Chunks in order give messages in order. *)
Lemma arrivals_bound framing t chunks : forall before,
  Forall (fun x : Time * string => t <= x.1) chunks ->
  Forall (fun x : Time * string => t <= x.1) (arrivals framing before chunks).
Proof.
  induction chunks as [|[t' c] chunks IH]; intros before Hc; [done|]. inversion_clear Hc as [|? ? Ht Hc'].
  cbn [arrivals]. apply Forall_app; split; [|by apply IH]. apply Forall_fmap, Forall_true. done.
Qed.

Lemma same_time_sorted (t : Time) (l : list string) :
  StronglySorted (fun x y : Time * string => x.1 <= y.1) ((fun m => (t, m)) <$> l).
Proof.
  induction l as [|m l IH]; [constructor|]. cbn. constructor; [exact IH|]. apply Forall_fmap, Forall_true. cbn. lia.
Qed.

Lemma arrivals_sorted framing chunks : forall before,
  StronglySorted (fun x y : Time * string => x.1 <= y.1) chunks ->
  StronglySorted (fun x y : Time * string => x.1 <= y.1) (arrivals framing before chunks).
Proof.
  induction chunks as [|[t c] chunks IH]; intros before Hs; [constructor|].
  apply StronglySorted_inv in Hs as [Hs Hall]. cbn [arrivals]. apply StronglySorted_app_2; [|apply same_time_sorted|by apply IH].
  intros x y Hx Hy. apply list_elem_of_fmap in Hx as (m & -> & _). cbn [fst].
  pose proof (arrivals_bound framing t chunks (before +:+ c) Hall) as Hb. rewrite Forall_forall in Hb. by apply Hb.
Qed.
End ProbeFacts.

(** ** Theorems *)

Section ProbeTheorems.
Context (id_of : string -> option string).
Context (error_text : error -> string) (show_duration : Duration -> string).

(** The chunks come in order, and an empty line is no message. *)
Definition in_order (p : process_view) : Prop :=
  StronglySorted (fun x y : Time * string => x.1 <= y.1) (output p).

(** The answers to the request. *)
Definition answers (id framing : string) (registered : Time) (p : process_view) : list (Time * string) :=
  filter (fun x => id_of x.2 = Some id /\ registered <= x.1) (arrivals framing EmptyString (output p)).

(** C23: A probe looks at nothing but the first message with its id.  It is ok when that
    message comes before the deadline of the caller and before the timer of the
    registration, which runs for 30 s whatever the deadline; without it the probe ends
    as whichever of the two comes first. *)
Theorem probe_verdict command env timeout framing nanos p c argv e :
  starts p = true -> spawnProcessRaw command (Some env) true = Ok (Exec argv e) ->
  in_order p -> id_of EmptyString = None ->
  exists r written,
  ProbeBackend id_of error_text show_duration command env timeout framing nanos p c = Some (r, written) /\
  ProbeResult.Status r =
  let deadline := waiting c + timeout in let fires := registered c + 30 * Second in
  match answers ("probe-" +:+ itoa nanos) (framing_or_default framing) (registered c) p with
  | (t, _) :: _ => if bool_decide (t < deadline /\ t <= fires) then "ok"
                   else if fires <? deadline then "handshake_error" else "handshake_timeout"
  | [] => if fires <? deadline then "handshake_error" else "handshake_timeout"
  end.
Proof.
  intros Hst Hsp Ho He. unfold ProbeBackend. rewrite Hst, Hsp. cbv zeta.
  rewrite ProbeFacts.wait_verdict by by apply ProbeFacts.arrivals_sorted.
  unfold ProbeFacts.verdict, answers. rewrite ProbeFacts.find_filter, list_filter_filter.
  set (deadline := waiting c + timeout). set (fires := registered c + 30 * Second).
  destruct (filter _ _) as [|[t m] l] eqn:Hl; [destruct (fires <? deadline); by do 2 eexists|].
  assert (Hm : id_of m = Some ("probe-" +:+ itoa nanos)).
  { assert (Hin : (t, m) ∈ (t, m) :: l) by left. rewrite <- Hl in Hin. by apply list_elem_of_filter in Hin as [[Hm _] _]. }
  destruct (Z.ltb_spec t deadline), (Z.leb_spec t fires); cbn [andb].
  all: case_bool_decide; try lia; try (destruct (fires <? deadline); by do 2 eexists).
  destruct m as [|ch m]; [congruence|by do 2 eexists].
Qed.

(** The callers of a probe wait 30 s for it.  A backend that never answers is then
    reported as if its channel had broken, not as a timeout: the timer of the
    registration has been started before the wait. *)
Theorem silent_backend_never_times_out command env timeout framing nanos p c argv e :
  starts p = true -> spawnProcessRaw command (Some env) true = Ok (Exec argv e) -> in_order p ->
  answers ("probe-" +:+ itoa nanos) (framing_or_default framing) (registered c) p = [] ->
  30 * Second <= timeout -> registered c < waiting c ->
  exists r written,
  ProbeBackend id_of error_text show_duration command env timeout framing nanos p c = Some (r, written) /\
  ProbeResult.Status r = "handshake_error" /\
  ProbeResult.Message r = "Initialize response channel closed with no data".
Proof.
  intros Hst Hsp Ho Ha Ht Hw. unfold ProbeBackend. rewrite Hst, Hsp. cbv zeta.
  rewrite ProbeFacts.wait_verdict by by apply ProbeFacts.arrivals_sorted.
  unfold ProbeFacts.verdict. rewrite ProbeFacts.find_filter, list_filter_filter.
  unfold answers in Ha. rewrite Ha. rewrite (proj2 (Z.ltb_lt _ _)) by lia. by do 2 eexists.
Qed.

(** A probe takes the bridge down exactly when it is for the built-in server, the
    command of the backend that is there from the first start. *)
Theorem probe_of_builtin_panics command env timeout framing nanos p c :
  ProbeBackend id_of error_text show_duration command env timeout framing nanos p c = None <->
  command = "mcp-bridge-builtin".
Proof.
  unfold ProbeBackend, spawnProcessRaw. case_bool_decide as Hc; [done|]. split; [|done].
  repeat case_match; done.
Qed.
End ProbeTheorems.

(** *** The retry loop *)

Section RetryTheorems.
Context {KS : Type} `{CryptoLaws} `{!SecretBox KS} `{!SecretBoxLaws KS} `{Bcrypt} {ME : MuxEnv}.
Context (visit : nat -> gset string -> list string) (environ : list string).
Context (due : Time -> bool).
Context (probe : string -> list string -> Duration -> string -> option ProbeResult.t).
Import Bridge.
Implicit Types s : Bridge.t KS.

Definition statuses_keyed (d : status_db) : Prop :=
  map_Forall (fun id bs => BackendStatus.BackendID bs = id) (backend_status d).

(** The probe of a backend of the tables, with its environment as it is read. *)
Definition probe_row (b : BackendRow.t) (d : Backends.t KS) : option ProbeResult.t :=
  let backend := (decryptBackendEnv b d).1 in
  probe (BackendRow.Command backend) (retry_env visit environ (routed backend)) (30 * Second)
    (BackendRow.StdioFraming backend).

Definition probes_ok (id : string) (d : Backends.t KS) : bool :=
  match Backends.backends d !! id ≫= fun b => probe_row b d with
  | Some result => bool_decide (ProbeResult.Status result = "ok")
  | None => false
  end.

(** Its probe does not take the bridge down. *)
Definition survives (id : string) (d : Backends.t KS) : Prop :=
  forall b, Backends.backends d !! id = Some b -> is_Some (probe_row b d).

(** The row of a backend that came back. *)
Definition back (now : Time) (bs : BackendStatus.t) : BackendStatus.t :=
  BackendStatus.mk (BackendStatus.BackendID bs) "available" (BackendStatus.LastAttempt bs) (Some now) 0
    (BackendStatus.NextRetry bs) (BackendStatus.ErrorMessage bs) now.

Notation good := (fun _ : string => true).

Lemma retry_backend_ready ks now id s : ready ks (tables s) -> survives id (tables s) ->
  exists s', retry_backend visit environ probe good good now id s = Some s' /\
  tables s' = tables s /\ events s' = events s /\
  status s' = if probes_ok id (tables s) then (SetBackendAvailable true true id (now id) (status s)).2 else status s.
Proof.
  intros Hr Hp. unfold retry_backend, probes_ok. destruct (Backends.backends (tables s) !! id) as [b|] eqn:Hb.
  - rewrite (GetBackend_row ks _ b _ Hr Hb), (decryptBackendEnv_stable ks b _ _ Hr Hr). cbn [fst snd mbind option_bind].
    destruct (Hp b Hb) as [r Hres]. fold (probe_row b (tables s)). unfold probe_row in Hres |- *. rewrite Hres.
    eexists. split; [done|]. by case_bool_decide.
  - unfold GetBackend. destruct Hr as [Hf _]. rewrite sql_row_ok by done. rewrite Hb. by eexists.
Qed.

(** One backend of the list, on the rows. *)
Lemma retry_one_row ks now id0 s : ready ks (tables s) -> survives id0 (tables s) -> statuses_keyed (status s) ->
  is_Some (backend_status (status s) !! id0) ->
  exists s', retry_backend visit environ probe good good now id0 s = Some s' /\
  tables s' = tables s /\ events s' = events s /\
  forall id, backend_status (status s') !! id =
    (fun bs => if bool_decide (id = id0) && probes_ok id (tables s) then back (now id) bs else bs) <$>
    backend_status (status s) !! id.
Proof.
  intros Hr Hp Hk [bs Hb]. destruct (retry_backend_ready ks now id0 s Hr Hp) as (s1 & H1' & Ht & He & Hs).
  exists s1. split_and!; [done..|]. intros id. rewrite Hs. destruct (decide (id = id0)) as [->|Hne].
  - rewrite bool_decide_eq_true_2 by done. destruct (probes_ok id0 (tables s)); cbn; [|by rewrite option_fmap_id].
    rewrite lookup_insert_eq, Hb. cbn. f_equal. unfold back. by rewrite (Hk _ _ Hb).
  - rewrite bool_decide_eq_false_2 by done. cbn [andb]. rewrite option_fmap_id.
    destruct (probes_ok id0 (tables s)); cbn; [|done]. by rewrite lookup_insert_ne.
Qed.

(** The ticks over a list of backends, whatever its order and repetitions. *)
Lemma retry_all_ready ks now ids : forall s, ready ks (tables s) -> statuses_keyed (status s) ->
  (forall id, id ∈ ids -> is_Some (backend_status (status s) !! id) /\ survives id (tables s)) ->
  exists s', retry_all visit environ probe good good now ids s = Some s' /\
  tables s' = tables s /\ events s' = events s /\
  forall id, backend_status (status s') !! id =
    (fun bs => if bool_decide (id ∈ ids) && probes_ok id (tables s) then back (now id) bs else bs) <$>
    backend_status (status s) !! id.
Proof.
  induction ids as [|id0 ids IH]; intros s Hr Hk Hin; cbn [retry_all].
  { exists s. split_and!; [done..|]. intros id. rewrite bool_decide_eq_false_2 by (by intros ?%elem_of_nil). cbn [andb].
    by rewrite option_fmap_id. }
  destruct (Hin id0) as [Hrow0 Hp0]; [by left|].
  destruct (retry_one_row ks now id0 s Hr Hp0 Hk Hrow0) as (s1 & -> & Ht & He & Hrow). cbn [mbind option_bind].
  destruct (IH s1) as (s2 & -> & Ht2 & He2 & Hs2).
  - by rewrite Ht.
  - intros id bs. rewrite Hrow. intros (bs0 & Hb0 & ->)%fmap_Some.
    specialize (Hk _ _ Hb0). cbn beta. by destruct (bool_decide (id = id0) && probes_ok id (tables s)).
  - intros id Hid. rewrite Hrow, Ht. destruct (Hin id) as [Hi Hsv]; [by right|]. split; [by apply fmap_is_Some|done].
  - rewrite Ht in Ht2, Hs2. rewrite He in He2. exists s2. split_and!; [done..|]. intros id.
    rewrite Hs2, Hrow, <- option_fmap_compose. apply option_fmap_ext. intros bs. cbn.
    destruct (probes_ok id (tables s)); rewrite ?andb_false_r, ?andb_true_r; [|done].
    repeat case_bool_decide; set_solver.
Qed.

(** One tick of the retry loop: exactly the unavailable backends whose retry is due and
    whose probe is ok become available, with no failures counted; a probe that fails
    leaves its row as it is (the next tick tries it again), and so do the backends that
    are not due.  Nothing else changes. *)
Theorem retry_tick_exact ks now s :
  ready ks (tables s) -> statuses_keyed (status s) ->
  (forall id bs, backend_status (status s) !! id = Some bs -> needs_retry due bs = true -> survives id (tables s)) ->
  exists s', retry_tick visit environ due probe true good good now s = Some s' /\
  tables s' = tables s /\ events s' = events s /\
  forall id, backend_status (status s') !! id =
    (fun bs => if needs_retry due bs && probes_ok id (tables s) then back (now id) bs else bs) <$>
    backend_status (status s) !! id.
Proof.
  intros Hr Hk Hsv. unfold retry_tick, GetBackendsNeedingRetry. cbn [negb]. set (ids := BackendStatus.BackendID <$> _).
  assert (Hids : forall id, id ∈ ids <-> exists bs, backend_status (status s) !! id = Some bs /\ needs_retry due bs = true).
  { intros id. unfold ids. rewrite list_elem_of_fmap. split.
    - intros (bs & -> & Hbs). rewrite sort_by_perm in Hbs. apply list_elem_of_filter in Hbs as [Hn Hbs].
      apply elem_of_rows in Hbs as [k Hb]. pose proof (Hk _ _ Hb) as Hid. cbn in Hid. rewrite Hid. eauto.
    - intros (bs & Hb & Hn). exists bs. split; [symmetry; by apply (Hk _ _ Hb)|]. rewrite sort_by_perm.
      apply list_elem_of_filter. split; [done|]. apply elem_of_rows. eauto. }
  destruct (retry_all_ready ks now ids s Hr Hk) as (s' & -> & Ht & He & Hs).
  { intros id (bs & Hb & Hn)%Hids. split; [by eexists|by eapply Hsv]. }
  exists s'. split_and!; [done..|]. intros id. rewrite Hs. destruct (backend_status (status s) !! id) as [bs|] eqn:Hb; [|done].
  cbn. f_equal. replace (bool_decide (id ∈ ids)) with (needs_retry due bs); [done|].
  destruct (needs_retry due bs) eqn:Hn; symmetry; [apply bool_decide_eq_true_2, Hids; eauto|].
  apply bool_decide_eq_false_2. intros (bs' & Hb' & Hn')%Hids. congruence.
Qed.
End RetryTheorems.

(** *** Scans *)

Section ScanTheorems.
Context {KS : Type} `{SecretBox KS} `{CryptoPrims} `{Bcrypt} {ME : MuxEnv}.
Context (marshal : list (string * json) -> string).
Context (unmarshal_tools : string -> res (list (list (string * json)) * option (list (string * json)))).
Context (uuid : string -> nat -> string).
Context (visit : nat -> gset string -> list string) (environ : list string).
Context (mode : string -> list string -> res (list scan_mode_tool)).
Context (handshake : string -> list string -> string -> res string).
Context (order : list BackendRow.t -> list BackendRow.t).

(** A step of the enforcer's tables that writes profiles of the backends of [P] only and
    drops none. *)
Definition scans (P : string -> Prop) (d d' : db) : Prop :=
  (exists tp fs, d' = set_tool_profiles (fun _ => tp) (set_faults fs d)) /\
  (forall b tool, ~ P b -> tool_profiles d' !! (b, tool) = tool_profiles d !! (b, tool)) /\
  (forall k, is_Some (tool_profiles d !! k) -> is_Some (tool_profiles d' !! k)).

Lemma scans_refl P d : scans P d d.
Proof. split_and!; [|done..]. exists (tool_profiles d), (faults d). by destruct d. Qed.

Lemma scans_trans P d1 d2 d3 : scans P d1 d2 -> scans P d2 d3 -> scans P d1 d3.
Proof.
  intros ((tp1 & fs1 & He1) & Ho1 & Hk1) ((tp2 & fs2 & He2) & Ho2 & Hk2). split_and!.
  - exists tp2, fs2. rewrite He2, He1. by destruct d1.
  - intros b tool HP. by rewrite Ho2, Ho1.
  - auto.
Qed.

Lemma scans_mono (P Q : string -> Prop) d d' : (forall b, P b -> Q b) -> scans P d d' -> scans Q d d'.
Proof. intros HPQ (Hd & Ho & Hk). split_and!; [done| |done]. intros b tool Hb. apply Ho. auto. Qed.

Lemma UpsertToolProfile_scans r d :
  scans (fun b => b = ToolProfileRow.BackendID r) d (UpsertToolProfile r d).2.
Proof.
  unfold UpsertToolProfile, exec_checked.
  match goal with |- context [stmt ?f d] => destruct (stmt_cases f d) as [(fs & _ & ->)|(fs & _ & ->)] end.
  - split_and!; [|done..]. exists (tool_profiles d), fs. by destruct d.
  - case_match; cbn [snd]; split_and!; try done; try (eexists; exists fs; by destruct d).
    + intros b tool Hb. cbn. rewrite lookup_insert_ne; [by destruct d|]. intros [= Heq _]. by apply Hb.
    + intros k Hk. cbn. apply lookup_insert_is_Some'. right. by destruct d.
Qed.

Lemma store_rows_scans b rows : forall d, Forall (fun r => ToolProfileRow.BackendID r = b) rows ->
  scans (fun b' => b' = b) d (store_rows rows d).2.
Proof.
  induction rows as [|r rows IH]; intros d Hr; [apply scans_refl|]. apply Forall_cons in Hr as [Hb Hr]. cbn [store_rows].
  pose proof (UpsertToolProfile_scans r d) as Hu. destruct (UpsertToolProfile r d) as [x d1]. rewrite Hb in Hu.
  specialize (IH d1 Hr). destruct (store_rows rows d1) as [n d2]. cbn in *. by eapply scans_trans.
Qed.

Lemma rows_of_backend (u : nat -> string) b now l : Forall (fun r => ToolProfileRow.BackendID r = b) (imap (row_of u b now) l).
Proof. apply Forall_lookup. intros i r. rewrite list_lookup_imap. by intros (p & _ & ->)%fmap_Some. Qed.

Lemma scan_backend_scans (u : nat -> string) b now m h d :
  scans (fun b' => b' = b) d (scan_backend marshal unmarshal_tools u b now m h d).2.
Proof.
  unfold scan_backend, storeProfiles, scan_mode_rows.
  destruct m; [apply store_rows_scans, rows_of_backend|]. case_match; [apply store_rows_scans, rows_of_backend|apply scans_refl].
Qed.

Lemma scan_each_scans now (l : list BackendRow.t) : forall d,
  scans (fun b => exists row, row ∈ l /\ BackendRow.ID row = b) d
    (scan_each marshal unmarshal_tools uuid visit environ mode handshake now l d).2.
Proof.
  induction l as [|b l IH]; intros d; [apply scans_refl|]. cbn [scan_each].
  assert (Hone : scans (fun b' => b' = BackendRow.ID b) d
    (scan_one marshal unmarshal_tools uuid visit environ mode handshake now b d).2) by apply scan_backend_scans.
  destruct (scan_one _ _ _ _ _ _ _ _ _ _) as [n d1]. specialize (IH d1).
  destruct (scan_each _ _ _ _ _ _ _ _ _ _) as [m d2]. cbn in *. eapply scans_trans; eapply scans_mono; [|exact Hone| |exact IH].
  - intros b' ->. exists b. split; [by left|done].
  - intros b' (row & Hr & <-). exists row. split; [by right|done].
Qed.

(** A scan of the backends, in whatever order its goroutines come, writes the profiles of
    the enabled backends that say they report them, and no others; what the table of
    the enforcer has on any other backend, and everything that is not a profile, stays.
    It never removes a profile, not even of a tool its backend no longer has. *)
Theorem scan_spares_others now st l st' d :
  (forall l, order l ≡ₚ l) -> ListBackends st = (Ok l, st') ->
  scans (fun b => exists row, row ∈ l /\ BackendRow.ID row = b /\
           BackendRow.SelfReporting row = true /\ BackendRow.Enabled row = true) d
    (scanSelfReportingBackends marshal unmarshal_tools uuid visit environ mode handshake order now st d).2.
Proof.
  intros Ho Hl. unfold scanSelfReportingBackends. rewrite Hl.
  pose proof (scan_each_scans now (order (filter (fun b => self_reporting b = true) l)) d) as Hs.
  destruct (scan_each _ _ _ _ _ _ _ _ _ _) as [n d']. cbn in *. eapply scans_mono; [|exact Hs].
  intros b (row & Hr & <-). rewrite Ho in Hr. apply list_elem_of_filter in Hr as [Hp Hr].
  apply andb_true_iff in Hp. by exists row.
Qed.
End ScanTheorems.

(** ** Examples *)

#[local] Existing Instances Toy.prims Toy.laws DemoAccounts.bcrypt DemoAccounts.provider DemoBackends.mux_env.

Module DemoProbe.
(** A message is its own id. *)
Definition id_of (m : string) : option string := if bool_decide (m = EmptyString) then None else Some m.
Definition clock : probe_times := ProbeTimes 0 10 20 4000000.
Definition answering : process_view := ProcessView true [(15, "hel"); (25, "lo" +:+ newline +:+ "probe-7" +:+ newline)] "ready".
Definition silent : process_view := ProcessView true [(15, "starting" +:+ newline)] EmptyString.
Definition probed (p : process_view) : option ProbeResult.t :=
  fst <$> ProbeBackend id_of (fun _ => "error") (fun _ => "30s") "npx gh" [] (30 * Second) EmptyString 7 p clock.
Definition failed_row : BackendStatus.t :=
  BackendStatus.mk "github" "unavailable" (Some 3) None 4 (Some 19) "no answer" 3.
Definition bridge : Bridge.t DemoAccounts.key_store :=
  Bridge.mk DemoBackends.tables (StatusDB {[ "github" := failed_row ]} ∅) [].
Definition probe (command : string) (env : list string) (timeout : Duration) (framing : string) : option ProbeResult.t :=
  probed answering.
(** Jira reports its tools; GitHub's profile is from an administrator. *)
Definition reporting : BackendRow.t :=
  BackendRow.mk "jira" "npx jira" 1 "jira" EmptyString EmptyString EmptyString EmptyString true false 0 2 true false
    false EmptyString EmptyString EmptyString None.
Definition tables : Backends.t DemoAccounts.key_store :=
  Backends.set_backends <["jira" := reporting]> DemoBackends.tables.
Definition profile (backend tool risk : string) : ToolProfileRow.t :=
  ToolProfileRow.mk "id0" backend tool risk "read" 1 false false true EmptyString 0.
Definition profiles : db := set_tool_profiles (fun _ => {[ ("github", "list") := profile "github" "list" "low" ]}) empty_db.
Definition mode (command : string) (env : list string) : res (list scan_mode_tool) :=
  Ok [("list", Some (EnforcerProfileFromFramework.mk "high" "write" 5 false false true, "{}"))].
Definition scanned : Z * Backends.t DemoAccounts.key_store * db :=
  scanSelfReportingBackends (fun _ => EmptyString) (fun _ => Err ErrSql) (fun b _ => b) by_elements [] mode
    (fun _ _ _ => Err ErrSql) (fun l => l) 9 tables profiles.
End DemoProbe.

Lemma probe_verdict_witness : ProbeResult.Status <$> DemoProbe.probed DemoProbe.answering = Some "ok".
Proof.
  unfold DemoProbe.probed.
  destruct (probe_verdict DemoProbe.id_of (fun _ => "error") (fun _ => "30s") "npx gh" [] (30 * Second) EmptyString 7
    DemoProbe.answering DemoProbe.clock ["npx"; "gh"] (Some [])) as (r & w & -> & Hr).
  - done.
  - by vm_compute.
  - unfold in_order, DemoProbe.answering. cbn [output]. repeat constructor. cbn. lia.
  - done.
  - cbn [fmap option_fmap option_map fst]. rewrite Hr. by vm_compute.
Defined.

Lemma silent_backend_never_times_out_witness :
  ProbeResult.Status <$> DemoProbe.probed DemoProbe.silent = Some "handshake_error".
Proof.
  unfold DemoProbe.probed.
  destruct (silent_backend_never_times_out DemoProbe.id_of (fun _ => "error") (fun _ => "30s") "npx gh" [] (30 * Second)
    EmptyString 7 DemoProbe.silent DemoProbe.clock ["npx"; "gh"] (Some [])) as (r & w & -> & Hr & _).
  - done.
  - by vm_compute.
  - unfold in_order, DemoProbe.silent. cbn [output]. repeat constructor.
  - by vm_compute.
  - lia.
  - cbn. lia.
  - cbn. by rewrite Hr.
Defined.

Lemma retry_tick_exact_witness :
  (fun s => backend_status (Bridge.status s) !! "github") <$>
    retry_tick by_elements [] (fun t => t <=? 20) DemoProbe.probe true (fun _ => true) (fun _ => true) (fun _ => 20)
      DemoProbe.bridge =
  Some (Some (BackendStatus.mk "github" "available" (Some 3) (Some 20) 0 (Some 19) "no answer" 20)).
Proof.
  destruct (retry_tick_exact by_elements [] (fun t => t <=? 20) DemoProbe.probe DemoAccounts.box (fun _ => 20)
    DemoProbe.bridge demo_ready) as (s' & -> & _ & _ & Hs).
  - by apply map_Forall_singleton.
  - intros id bs _ _ b _. unfold probe_row, DemoProbe.probe. eexists. by vm_compute.
  - cbn [fmap option_fmap option_map]. rewrite Hs. by vm_compute.
Defined.

Lemma scan_spares_others_witness :
  DemoProbe.scanned.1.1 = 1 /\
  tool_profiles DemoProbe.scanned.2 !! ("github", "list") = Some (DemoProbe.profile "github" "list" "low").
Proof.
  split; [by vm_compute|].
  destruct (ListBackends DemoProbe.tables) as [r st'] eqn:Hl. pose proof Hl as Hl'. vm_compute in Hl'.
  injection Hl' as Hr _. subst r.
  destruct (scan_spares_others (fun _ => EmptyString) (fun _ => Err ErrSql) (fun b _ => b) by_elements []
    DemoProbe.mode (fun _ _ _ => Err ErrSql) (fun l => l) 9 DemoProbe.tables _ st' DemoProbe.profiles (fun _ => reflexivity _) Hl)
    as (_ & Ho & _).
  unfold DemoProbe.scanned. rewrite Ho; [by vm_compute|].
  intros (row & Hrow & Hid & Hs & _).
  repeat (apply elem_of_cons in Hrow as [->|Hrow]; [done|]). by apply elem_of_nil in Hrow.
Defined.
