(* ===== verification/Builtin.v ===== *)
(** * The built-in server: [spawnBuiltinMCPServer] of [src/poolmgr/process.go]

    A server inside the bridge, behind two pipes, that is the backend of the first start.
    Its goroutine and the one of [captureStdout] share the channel [LineChan] of the
    process; they are steps of one machine here, in any order.

    [decode] is [json.Unmarshal] into a [JSONRPCMessage], [marshal] prints a response and
    [show] is the verb [%v] on a map. *)
From S2P Require Import Prelude GoStrings EnforcerTypes Process.
Open Scope Z_scope.

Module JSONRPCMessage.
Record t := mk { Method : string; Params : json; ID : json }.
End JSONRPCMessage.

Section Builtin.
Context (decode : string -> option JSONRPCMessage.t).
Context (marshal : json -> string) (show : list (string * json) -> string).

(** ** The responses *)

(** Maps are printed with their keys in order. *)
Definition response (id result : json) : json := JObj [("id", id); ("jsonrpc", JStr "2.0"); ("result", result)].

Definition initialize_result : json :=
  JObj [("capabilities", JObj []);
        ("instructions", JStr "Built-in MCP Bridge server - used as fallback when other backends are unavailable");
        ("protocolVersion", JStr "2024-11-05");
        ("serverInfo", JObj [("name", JStr "mcp-bridge-builtin"); ("version", JStr "1.0.0")])].

Definition echo_tool : json :=
  JObj [("description",
          JStr "Echo tool - returns the input arguments. Used as fallback when other backends are unavailable.");
        ("inputSchema",
          JObj [("properties",
                  JObj [("message", JObj [("description", JStr "Message to echo back"); ("type", JStr "string")])]);
                ("type", JStr "object")]);
        ("name", JStr "mcpbridge_echo")].

Definition status_tool : json :=
  JObj [("description", JStr "Returns system status information");
        ("inputSchema", JObj [("properties", JObj []); ("type", JStr "object")]);
        ("name", JStr "mcpbridge_status")].

Definition tools_result : json := JObj [("tools", JArr [echo_tool; status_tool])].

Definition call_result (p : list (string * json)) : json :=
  JObj [("content", JArr [JObj [("text", JStr ("Echo response: " +:+ show p)); ("type", JStr "text")]])].

(** The body of the loop after the line is queued; [None]: nothing is written. *)
Definition respond (line : string) : option string :=
  match decode line with
  | None => None
  | Some msg =>
      let reply result := Some (marshal (response (JSONRPCMessage.ID msg) result)) in
      if bool_decide (JSONRPCMessage.Method msg = "initialize") then reply initialize_result
      else if bool_decide (JSONRPCMessage.Method msg = "tools/list") then reply tools_result
      else if bool_decide (JSONRPCMessage.Method msg = "tools/call") then
        match JSONRPCMessage.Params msg with JObj p => reply (call_result p) | _ => None end
      else None
  end.

(** ** The goroutines *)

Definition line_chan_cap : nat := 100.
Definition maxCapacity : Z := 32 * 1024 * 1024.

(** What is in [LineChan]: a request is a slice of the buffer of the scanner, of the
    given length, which the next line overwrites. *)
Inductive entry := Borrowed (n : Z) | Captured (message : string).

Inductive phase := Scanning | Queueing (line : string) | Writing (message : string) | Ended.

Record server := Server {
  at_ : phase;
  captured : option string;              (* read by [captureStdout], not yet handed on *)
  LineChan : list entry;
  broadcast : list string                (* what [BroadcastToSSE] was given *)
}.

(** [spawnBuiltinMCPServer] and the start of [captureStdout]. *)
Definition spawnBuiltinMCPServer : server := Server Scanning None [] [].

Inductive event :=
| ELine (line : string)      (* a line is written to its stdin *)
| EQueue                     (* the line goes to [LineChan]; the response is made *)
| ERead                      (* [captureStdout] reads the response *)
| EHand                      (* and hands it on *)
| EDrain.                    (* an SSE client takes an entry *)

(** [None]: the step has to wait. *)
Definition step (e : event) (s : server) : option server :=
  match e with
  | ELine line =>
      match at_ s with
      | Scanning => Some (Server (if maxCapacity <=? len line then Ended else Queueing line)
                            (captured s) (LineChan s) (broadcast s))
      | _ => None
      end
  | EQueue =>
      match at_ s with
      | Queueing line =>
          if (length (LineChan s) <? line_chan_cap)%nat
          then Some (Server (match respond line with Some r => Writing r | None => Scanning end) (captured s)
                       (LineChan s ++ [Borrowed (len line)]) (broadcast s))
          else None
      | _ => None
      end
  | ERead =>
      match at_ s, captured s with
      | Writing r, None => Some (Server Scanning (Some r) (LineChan s) (broadcast s))
      | _, _ => None
      end
  | EHand =>
      match captured s with
      | Some r => Some (Server (at_ s) None
                    (if (length (LineChan s) <? line_chan_cap)%nat then LineChan s ++ [Captured r] else LineChan s)
                    (broadcast s ++ [r]))
      | None => None
      end
  | EDrain =>
      match LineChan s with
      | _ :: q => Some (Server (at_ s) (captured s) q (broadcast s))
      | [] => None
      end
  end.

Fixpoint run (l : list event) (s : server) : option server :=
  match l with
  | [] => Some s
  | e :: l => s ← step e s; run l s
  end.

(** ** [BroadcastToSSE] of a pool: what does not fit is dropped *)

Definition BroadcastToSSE (data : string) (ch : list string) : list string :=
  if (length ch <? 100)%nat then ch ++ [data] else ch.

(** * Properties *)

(** What the server answers: every request to initialize, to list the tools, and to
    call one with an object of parameters, under its id; and nothing else. *)
Theorem builtin_answers line r :
  respond line = Some r <->
  exists msg result, decode line = Some msg /\ r = marshal (response (JSONRPCMessage.ID msg) result) /\
    (JSONRPCMessage.Method msg = "initialize" /\ result = initialize_result \/
     JSONRPCMessage.Method msg = "tools/list" /\ result = tools_result \/
     JSONRPCMessage.Method msg = "tools/call" /\
       exists p, JSONRPCMessage.Params msg = JObj p /\ result = call_result p).
Proof.
  unfold respond. destruct (decode line) as [[m ps i]|]; cbn [JSONRPCMessage.Method JSONRPCMessage.Params JSONRPCMessage.ID];
    [|split; [done|by intros (? & ? & ? & _)]].
  split.
  - intros Hr. exists (JSONRPCMessage.mk m ps i).
    case_bool_decide as H1; [|case_bool_decide as H2; [|case_bool_decide as H3; [|done]]].
    + injection Hr as <-. exists initialize_result. split_and!; [done..|]. by left.
    + injection Hr as <-. exists tools_result. split_and!; [done..|]. by right; left.
    + destruct ps as [| | | | |p]; try done. injection Hr as <-. exists (call_result p). split_and!; [done..|].
      right. right. by eauto.
  - intros (msg & result & [= <-] & -> & [[Hm ->]|[[Hm ->]|[Hm (p & Hp & ->)]]]); cbn in *; subst; done.
Qed.

Definition no_drain (l : list event) : Prop := Forall (fun e => e <> EDrain) l.
Definition is_line (e : event) : bool := match e with ELine _ => true | _ => false end.

Definition is_borrowed (x : entry) : bool := match x with Borrowed _ => true | Captured _ => false end.

(** The lines taken from the client and not taken out of the channel. *)
Definition borrowed (q : list entry) : nat := length (filter (fun x => is_borrowed x = true) q).
Definition kept (s : server) : nat := borrowed (LineChan s).

(** Without a client of its own every line stays in the channel. *)
Record within (lines : nat) (s : server) : Prop := {
  wi_chan : (length (LineChan s) <= line_chan_cap)%nat;
  wi_lines : (lines <= kept s + match at_ s with Queueing _ | Ended => 1 | _ => 0 end)%nat;
  wi_out : (length (broadcast s) + match captured s with Some _ => 1 | None => 0 end +
              match at_ s with Writing _ => 1 | _ => 0 end <= kept s)%nat
}.

Lemma kept_cap n s : within n s -> (kept s <= line_chan_cap)%nat.
Proof. intros [Hc _ _]. etrans; [apply length_filter|done]. Qed.

Lemma borrowed_app q x : borrowed (q ++ [x]) = (borrowed q + if is_borrowed x then 1 else 0)%nat.
Proof. unfold borrowed. rewrite filter_app, length_app, filter_cons. by destruct (is_borrowed x). Qed.

Lemma step_within e s s' n : e <> EDrain -> step e s = Some s' -> within n s ->
  within (if is_line e then S n else n) s'.
Proof.
  intros He Hs [Hc Hl Ho]. unfold kept in *. destruct s as [ph c q b]; cbn [LineChan at_ captured broadcast] in *.
  destruct e as [line| | | |]; cbn [step is_line at_ LineChan captured broadcast] in *; [| | | |done].
  - destruct ph; try done. injection Hs as <-. cbn match in *.
    destruct (maxCapacity <=? len line); (split; unfold kept; cbn [LineChan at_ captured broadcast]; lia).
  - destruct ph; try done. destruct (Nat.ltb_spec (length q) line_chan_cap) as [Hq|]; [|done]. injection Hs as <-. cbn match in *.
    split; unfold kept; cbn [LineChan at_ captured broadcast]; rewrite ?borrowed_app, ?length_app; cbn [is_borrowed length];
      destruct (respond line); lia.
  - destruct ph, c; try done. injection Hs as <-. cbn match in *. split; unfold kept; cbn [LineChan at_ captured broadcast]; lia.
  - destruct c; [|done]. injection Hs as <-. cbn match in *.
    destruct (Nat.ltb_spec (length q) line_chan_cap);
      split; unfold kept; cbn [LineChan at_ captured broadcast]; rewrite ?borrowed_app, ?length_app;
      cbn [is_borrowed length]; lia.
Qed.

Lemma run_within l : forall s s' n, no_drain l -> run l s = Some s' -> within n s ->
  within (n + length (filter (fun e => is_line e = true) l)) s'.
Proof.
  induction l as [|e l IH]; intros s s' n Hd Hr Hw; cbn [run] in Hr.
  - injection Hr as <-. by rewrite Nat.add_0_r.
  - apply Forall_cons in Hd as [He Hd]. destruct (step e s) as [s1|] eqn:Hs; [|done].
    pose proof (step_within e s s1 n He Hs Hw) as Hw1. specialize (IH _ _ _ Hd Hr Hw1).
    rewrite filter_cons. destruct (is_line e); [rewrite decide_True by done|by rewrite decide_False by done].
    cbn [length]. by rewrite Nat.add_succ_r.
Qed.

(** The built-in server stalls: however its goroutines interleave, without a client of
    [LineChan] (only the SSE endpoint reads it) it takes at most 101 lines and answers
    at most 100 of them, ever. *)
Theorem builtin_stalls l s :
  no_drain l -> run l spawnBuiltinMCPServer = Some s ->
  (length (filter (fun e => is_line e = true) l) <= 101)%nat /\ (length (broadcast s) <= 100)%nat.
Proof.
  intros Hd Hr. assert (Hw : within 0 spawnBuiltinMCPServer) by (split; cbn; lia).
  pose proof (run_within l _ _ _ Hd Hr Hw) as Hw'. pose proof (kept_cap _ _ Hw') as Hk. destruct Hw' as [_ Hl Ho].
  unfold line_chan_cap in Hk. cbn [Nat.add] in Hl. split; [|lia]. destruct (at_ s); lia.
Qed.

(** A client that waits for each response before the next request. *)
Definition exchange (line : string) : list event := [ELine line; EQueue; ERead; EHand].

Definition answered (line : string) : bool := bool_decide (is_Some (respond line)) && (len line <? maxCapacity).

Lemma exchange_step line r s : respond line = Some r -> len line < maxCapacity ->
  at_ s = Scanning -> captured s = None -> (length (LineChan s) + 2 <= line_chan_cap)%nat ->
  run (exchange line) s =
    Some (Server Scanning None (LineChan s ++ [Borrowed (len line); Captured r]) (broadcast s ++ [r])).
Proof.
  intros Hr Hl Ha Hc Hq. destruct s as [ph c q b]. cbn [at_ captured LineChan broadcast] in *. subst.
  unfold exchange. cbn [run step at_ captured LineChan broadcast mbind option_bind].
  rewrite (proj2 (Z.leb_gt _ _)) by lia. cbn [run step at_ captured LineChan broadcast mbind option_bind].
  rewrite (proj2 (Nat.ltb_lt _ _)) by lia. rewrite Hr. cbn [run step at_ captured LineChan broadcast mbind option_bind].
  rewrite (proj2 (Nat.ltb_lt _ _)); [by rewrite <- app_assoc|]. rewrite length_app. cbn [length]. lia.
Qed.

Lemma run_app l1 l2 s : run (l1 ++ l2) s = run l1 s ≫= run l2.
Proof. revert s. induction l1 as [|e l1 IH]; intros s; [done|]. cbn. destruct (step e s); [apply IH|done]. Qed.

Lemma exchanges_run lines : forall s, Forall (fun line => answered line = true) lines ->
  at_ s = Scanning -> captured s = None -> (length (LineChan s) + 2 * length lines <= line_chan_cap)%nat ->
  exists q, run (mjoin (exchange <$> lines)) s = Some (Server Scanning None q (broadcast s ++ omap respond lines)) /\
    length q = (length (LineChan s) + 2 * length lines)%nat.
Proof.
  induction lines as [|line lines IH]; intros s Hl Ha Hc Hq.
  - exists (LineChan s). cbn. rewrite app_nil_r. destruct s; cbn in *; subst. split; [done|lia].
  - apply Forall_cons in Hl as [Hline Hl]. apply andb_true_iff in Hline as [Hr Hlen%Z.ltb_lt].
    apply bool_decide_eq_true in Hr as [r Hr]. cbn [fmap list_fmap mjoin list_join]. cbn [length] in Hq.
    change (run (exchange line ++ mjoin (exchange <$> lines)) s) with
      (run (exchange line ++ mjoin (exchange <$> lines)) s).
    rewrite run_app, (exchange_step line r) by (done || lia). cbn [mbind option_bind].
    destruct (IH (Server Scanning None (LineChan s ++ [Borrowed (len line); Captured r]) (broadcast s ++ [r])))
      as (q & Hrun & Hlq); [done..|cbn; rewrite length_app; cbn; lia|].
    exists q. cbn [broadcast LineChan] in *. rewrite length_app in Hlq. cbn [length] in *. split; [|lia].
    rewrite Hrun. do 2 f_equal. cbn. by rewrite Hr, <- app_assoc.
Qed.

(** C25: A client that asks one request after the other gets fifty answers; the request
    after them is never answered. *)
Theorem builtin_answers_fifty lines next :
  length lines = 50%nat -> Forall (fun line => answered line = true) lines -> len next < maxCapacity ->
  exists s, run (mjoin (exchange <$> lines)) spawnBuiltinMCPServer = Some s /\
    broadcast s = omap respond lines /\ length (broadcast s) = 50%nat /\
    run [ELine next] s <> None /\ forall e, e <> EDrain -> run [ELine next; e] s = None.
Proof.
  intros Hn Hl Hnext.
  destruct (exchanges_run lines spawnBuiltinMCPServer Hl) as (q & Hr & Hq); [done..|cbn; unfold line_chan_cap; lia|].
  eexists. split; [exact Hr|]. cbn [broadcast spawnBuiltinMCPServer app]. split_and!; [done| |done|].
  - rewrite <- Hn. clear -Hl. induction Hl as [|line lines Ha Hl IH]; [done|]. apply andb_true_iff in Ha as [Ha _].
    apply bool_decide_eq_true in Ha as [r Hr]. cbn. rewrite Hr. cbn. by rewrite IH.
  - intros e He. cbn in Hq. cbn [run step at_ LineChan captured broadcast mbind option_bind].
    rewrite (proj2 (Z.leb_gt _ _)) by lia.
    destruct e as [line| | | |]; cbn [step at_ LineChan captured mbind option_bind]; try done.
    rewrite (proj2 (Nat.ltb_ge _ _)); [done|]. unfold line_chan_cap. lia.
Qed.
End Builtin.

(** ** Examples *)

Module DemoBuiltin.
(** Every line asks for the tools. *)
Definition decode (line : string) : option JSONRPCMessage.t := Some (JSONRPCMessage.mk "tools/list" JNull (JStr line)).
Definition marshal (j : json) : string := "tools".
Definition show (p : list (string * json)) : string := EmptyString.
Definition asked : list string := repeat "1" 50.
End DemoBuiltin.

Lemma builtin_stalls_witness :
  (length (filter (fun e => is_line e = true) (exchange "1" ++ exchange "2")) <= 101)%nat /\
  (length ["tools"; "tools"] <= 100)%nat.
Proof.
  apply (builtin_stalls DemoBuiltin.decode DemoBuiltin.marshal DemoBuiltin.show (exchange "1" ++ exchange "2")
    (Server Scanning None [Borrowed 1; Captured "tools"; Borrowed 1; Captured "tools"] ["tools"; "tools"])).
  - by repeat constructor.
  - by vm_compute.
Defined.

Lemma builtin_answers_fifty_witness :
  exists s, run DemoBuiltin.decode DemoBuiltin.marshal DemoBuiltin.show (mjoin (exchange <$> DemoBuiltin.asked))
    spawnBuiltinMCPServer = Some s /\ length (broadcast s) = 50%nat /\
    run DemoBuiltin.decode DemoBuiltin.marshal DemoBuiltin.show [ELine "51"; EQueue] s = None.
Proof.
  destruct (builtin_answers_fifty DemoBuiltin.decode DemoBuiltin.marshal DemoBuiltin.show DemoBuiltin.asked "51")
    as (s & Hr & _ & Hb & _ & Hn).
  - done.
  - by apply (bool_decide_unpack _); vm_compute.
  - by vm_compute.
  - exists s. split_and!; [exact Hr|exact Hb|]. by apply Hn.
Defined.
