(* ===== verification/Sse.v ===== *)
(** * The event stream of a backend: [sseHandler] of [src/http_handlers.go]

    A client of the stream takes a process out of its pool for as long as it stays
    connected.  The pools are those of [Pool], with the counter of [IncrementActive]
    beside them; what the handler finds when it looks is a list of arguments. *)
From S2P Require Import Prelude GoStrings PoolRequests Process Pool.
Open Scope Z_scope.

(** ** Finding a process *)

(** A receive from the channel of warm processes within its time: a process, nothing,
    the client has gone, or nil because the channel is closed. *)
Inductive received := Process (p : nat) | Nothing | ClientGone | Nil.

(** What the handler finds, in order.  [fallback]: [findAvailableBackend]. *)
Record sse_view := SseView {
  userID : string;
  default_unavailable : bool;
  fallback : option string;
  first : received;                      (* within 5 seconds *)
  unavailable_after : bool;
  fallback_after : option string;
  fallback_first : received;             (* within 5 seconds more *)
  second : received                      (* at once *)
}.

Inductive sse_outcome :=
| Refused (code : Z) (body : string)
| Streams (backendID : string) (p : nat)
| Left                                   (* the client is gone *)
| Crashes.                               (* a nil process is used, and killed by a goroutine *)

Definition stream_or (backendID : string) (r : received) (otherwise : sse_outcome) : sse_outcome :=
  match r with Process p => Streams backendID p | Nil => Crashes | _ => otherwise end.

(** The first wait does not look at the client. *)
Definition wait_first (v : sse_view) (backendID : string) : sse_outcome :=
  stream_or backendID (first v)
    (if unavailable_after v then
       match fallback_after v with
       | Some fallbackID =>
           match fallback_first v with
           | Process p => Streams fallbackID p
           | Nothing => Refused 503 "Fallback backend not ready"
           | ClientGone => Left
           | Nil => Refused 503 "Backend unavailable"
           end
       | None => Refused 503 "Backend unavailable"
       end
     else stream_or backendID (second v) (Refused 503 EmptyString)).

Definition sseHandler (defaultBackendID : string) (v : sse_view) : sse_outcome :=
  if bool_decide (userID v = EmptyString) then Refused 401 "unauthorized"
  else if default_unavailable v then
    match fallback v with
    | Some fallbackID => wait_first v fallbackID
    | None => Refused 503 "No backends available"
    end
  else wait_first v defaultBackendID.

(** ** The lines *)

(** What is written for the lines of [LineChan]. *)
Definition sse_data (line : string) : string := "data: " +:+ line +:+ newline +:+ newline.

(** ** The pool of the stream *)

Record streamed := Streamed { pool : Pool.t; activeCount : Z }.

Definition IncrementActive (s : streamed) : streamed := Streamed (pool s) (activeCount s + 1).
Definition DecrementActive (s : streamed) : streamed := Streamed (pool s) (activeCount s - 1).

(** The receive from [pool.Warm]. *)
Definition take_warm (s : streamed) : received * streamed :=
  match Pool.Warm (pool s) with
  | p :: rest => (Process p, Streamed (Pool.set_warm (fun _ => rest) (pool s)) (activeCount s))
  | [] => (if Pool.warm_closed (pool s) then Nil else Nothing, s)
  end.

(** The client connects to a process. *)
Definition connect (s : streamed) : option (nat * streamed) :=
  match take_warm s with
  | (Process p, s) => Some (p, IncrementActive s)
  | _ => None
  end.

(** The goroutine that waits for the client to go. *)
Definition disconnect (p : nat) (s : streamed) : streamed :=
  let s := DecrementActive (Streamed (Pool.kill p (pool s)) (activeCount s)) in
  Streamed (Pool.go_spawn (pool s)) (activeCount s).

(** The new process of the goroutine [g] comes up. *)
Definition respawn (g : nat) (s : streamed) : streamed :=
  Streamed (pool_run (replicate 5 (OStep g true EmptyString)) (pool s)) (activeCount s).

(** A client that stays for a while, on a pool where nothing else happens. *)
Definition session (s : streamed) : streamed :=
  match connect s with
  | Some (p, s) => respawn (Pool.next (pool s)) (disconnect p s)
  | None => s
  end.

(** * Properties *)

(** Who may read a stream: a user that is authenticated, of a backend that had a process
    for him when it was looked at; and the process is one that a receive gave. *)
Theorem sse_streams default v b p :
  sseHandler default v = Streams b p ->
  userID v <> EmptyString /\
  (b = default /\ default_unavailable v = false \/ default_unavailable v = true /\ fallback v = Some b \/
   unavailable_after v = true /\ fallback_after v = Some b /\ fallback_first v = Process p) /\
  (first v = Process p \/ second v = Process p \/ fallback_first v = Process p).
Proof.
  unfold sseHandler, wait_first, stream_or. case_bool_decide as Hu; [done|].
  destruct v as [u d f r1 ua fa rf r2]. cbn in *. intros Hs. split; [done|].
  destruct d, f, r1, ua, fa, rf, r2; simplify_eq; auto 8.
Qed.

(** A pool that is shut down while a client waits takes the bridge down: the receive
    gives nil, and the goroutine that waits for the client kills it. *)
Theorem sse_crashes default v :
  sseHandler default v = Crashes <->
  userID v <> EmptyString /\ (default_unavailable v = true -> fallback v <> None) /\
  (first v = Nil \/ (first v = Nothing \/ first v = ClientGone) /\ unavailable_after v = false /\ second v = Nil).
Proof.
  unfold sseHandler, wait_first, stream_or. case_bool_decide as Hu; [naive_solver|].
  destruct v as [u d f r1 ua fa rf r2]. cbn in *.
  destruct d, f, r1, ua, fa, rf, r2; naive_solver.
Qed.

(** *** Sessions *)

(** A goroutine at [ph] in an open pool with these warm processes, size, places,
    and places taken in [Spawning]. *)
Record at_phase (g : nat) (ph : phase) (warm : list nat) (size : Z) (places taken : nat) (s : Pool.t) : Prop := {
  ap_at : Pool.spawns s !! g = Some ph;
  ap_open : Pool.closed s = false;
  ap_chan : Pool.warm_closed s = false;
  ap_warm : Pool.Warm s = warm;
  ap_size : Pool.CurrentSize s = size;
  ap_cap : Pool.cap s = places;
  ap_taken : Pool.Spawning s = taken
}.

Ltac phase_step H :=
  let Ha := fresh in let Ho := fresh in let Hc := fresh in let Hw := fresh in let Hs := fresh in let Hp := fresh in let Ht := fresh in
  destruct H as [Ha Ho Hc Hw Hs Hp Ht]; unfold Pool.spawn_step; rewrite Ha; cbn -[Nat.ltb]; subst.

Lemma step_enter g w n c k s : at_phase g Enter w n c k s -> (k < defaultSpawnChannel)%nat ->
  let s' := Pool.spawn_step g true EmptyString s in at_phase g Launch w n c (S k) s' /\ Pool.next s' = Pool.next s.
Proof.
  intros Hat Hp. phase_step Hat. unfold Pool.enter.
  rewrite H0, (proj2 (Nat.ltb_lt _ _)) by done. split; [split|]; cbn; try done. by rewrite lookup_insert_eq.
Qed.

Lemma step_launch g w n c k s : at_phase g Launch w n c k s ->
  at_phase g (Launched (Pool.next s)) w n c k (Pool.spawn_step g true EmptyString s).
Proof.
  intros Hat. phase_step Hat. unfold Pool.launch. rewrite H0. split; cbn; try done. by rewrite lookup_insert_eq.
Qed.

Lemma step_launched g p w n c k s : at_phase g (Launched p) w n c k s ->
  let s' := Pool.spawn_step g true EmptyString s in
  at_phase g (Send p) w (n + 1) c k s' \/ at_phase g (Shake p) w n c k s'.
Proof.
  intros Hat. phase_step Hat. unfold Pool.launched. rewrite H0.
  case_match; [left|right]; (split; cbn; try done; by rewrite lookup_insert_eq).
Qed.

Lemma step_shake g p w n c k s : at_phase g (Shake p) w n c k s ->
  at_phase g (Send p) w (n + 1) c k (Pool.spawn_step g true EmptyString s).
Proof. intros Hat. phase_step Hat. unfold Pool.shake. split; cbn; try done. by rewrite lookup_insert_eq. Qed.

(** What is left when it has ended. *)
Record ended (g : nat) (warm : list nat) (size : Z) (places taken : nat) (s : Pool.t) : Prop := {
  en_at : Pool.spawns s !! g = None;
  en_open : Pool.closed s = false;
  en_chan : Pool.warm_closed s = false;
  en_warm : Pool.Warm s = warm;
  en_size : Pool.CurrentSize s = size;
  en_cap : Pool.cap s = places;
  en_taken : Pool.Spawning s = taken
}.

Lemma step_send g p w n c k s : at_phase g (Send p) w n c (S k) s -> (length w < c)%nat ->
  ended g (w ++ [p]) n c k (Pool.spawn_step g true EmptyString s).
Proof.
  intros Hat Hlt. phase_step Hat. unfold Pool.send. rewrite H1, (proj2 (Nat.ltb_lt _ _)) by done.
  split; cbn; try done; [by rewrite lookup_delete_eq|by rewrite H5].
Qed.

(** A goroutine comes to its end in five steps at most. *)
Lemma goroutine_runs g w n c k s : at_phase g Enter w n c k s -> (k < defaultSpawnChannel)%nat -> (length w < c)%nat ->
  ended g (w ++ [Pool.next s]) (n + 1) c k (pool_run (replicate 5 (OStep g true EmptyString)) s).
Proof.
  intros Hat Hp Hlt. unfold pool_run. cbn [replicate foldl pool_step].
  destruct (step_enter _ _ _ _ _ _ Hat Hp) as [Hat1 Hn]. revert Hat1 Hn.
  generalize (Pool.spawn_step g true EmptyString s). intros s1 Hat1 Hn.
  apply step_launch in Hat1. rewrite Hn in Hat1. revert Hat1.
  generalize (Pool.spawn_step g true EmptyString s1). intros s2 Hat2.
  destruct (step_launched _ _ _ _ _ _ _ Hat2) as [Hat3|Hat3]; revert Hat3;
    generalize (Pool.spawn_step g true EmptyString s2); intros s3 Hat3.
  - pose proof (step_send _ _ _ _ _ _ _ Hat3 Hlt) as He. revert He.
    generalize (Pool.spawn_step g true EmptyString s3). intros s4 He.
    unfold Pool.spawn_step. by rewrite (en_at _ _ _ _ _ _ He).
  - apply step_shake in Hat3. by apply (step_send _ _ _ _ _ _ _ Hat3).
Qed.

(** A pool with a warm process and place for another. *)
Record calm (n : nat) (s : streamed) : Prop := {
  ca_warm : length (Pool.Warm (pool s)) = S n;
  ca_open : Pool.closed (pool s) = false;
  ca_chan : Pool.warm_closed (pool s) = false;
  ca_place : (Pool.Spawning (pool s) < defaultSpawnChannel)%nat;
  ca_cap : (S n <= Pool.cap (pool s))%nat
}.

Lemma session_run n s : calm n s ->
  calm n (session s) /\ Pool.CurrentSize (pool (session s)) = Pool.CurrentSize (pool s) + 1 /\
  activeCount (session s) = activeCount s.
Proof.
  intros [Hw Hc Hwc Hp Hcap]. destruct (Pool.Warm (pool s)) as [|p rest] eqn:Hwarm; [done|].
  set (s2 := Pool.go_spawn (Pool.kill p (Pool.set_warm (fun _ => rest) (pool s)))).
  assert (session s = Streamed (pool_run (replicate 5 (OStep (Pool.next (pool s)) true EmptyString)) s2)
                        (activeCount s + 1 - 1)) as ->.
  { unfold session, connect, take_warm. by rewrite Hwarm. }
  assert (He : ended (Pool.next (pool s)) (rest ++ [Pool.next s2]) (Pool.CurrentSize (pool s) + 1) (Pool.cap (pool s))
    (Pool.Spawning (pool s)) (pool_run (replicate 5 (OStep (Pool.next (pool s)) true EmptyString)) s2)).
  { apply goroutine_runs; [split; cbn; try done; by rewrite lookup_insert_eq|done|cbn in *; lia]. }
  destruct He as [_ Ho Hch Hws Hsz Hcp Htk]. cbn [pool activeCount]. split_and!; [|exact Hsz|lia].
  split; cbn [pool]; [rewrite Hws, length_app; cbn in *; lia|exact Ho|exact Hch| |].
  - by rewrite Htk.
  - by rewrite Hcp.
Qed.

(** Every client of a stream raises the size of its pool for good: after any number of
    visits there are as many warm processes as before and no process is in use, but the
    pool says it has that many more, and the console shows them as active. *)
Theorem sse_inflates_size n k s : calm n s ->
  let s' := Nat.iter k session s in
  Pool.WarmCount (pool s') = Pool.WarmCount (pool s) /\ activeCount s' = activeCount s /\
  Pool.CurrentSize (pool s') = Pool.CurrentSize (pool s) + Z.of_nat k.
Proof.
  intros Hs. cbv zeta. assert (Hk : calm n (Nat.iter k session s) /\ activeCount (Nat.iter k session s) = activeCount s /\
    Pool.CurrentSize (pool (Nat.iter k session s)) = Pool.CurrentSize (pool s) + Z.of_nat k).
  { induction k as [|k (Hc & Ha & Hz)]; [split_and!; [done..|cbn; lia]|].
    cbn [Nat.iter nat_rect]. destruct (session_run n _ Hc) as (Hc' & Hz' & Ha').
    unfold Nat.iter in *. split_and!; [done|by rewrite Ha'|]. rewrite Hz'. lia. }
  destruct Hk as (Hc & Ha & Hz). split_and!; [|done..]. unfold Pool.WarmCount. by rewrite (ca_warm _ _ Hc), (ca_warm _ _ Hs).
Qed.

(** ** Examples *)

Module DemoSse.
(** A pool of one, up and running. *)
Definition pool : Pool.t := pool_run (replicate 5 (OStep 0 true EmptyString)) (Pool.NewPool 1 "cat").
Definition view : sse_view := SseView "ann" true (Some "github") (Process 1) false None Nothing Nothing.
End DemoSse.

Lemma sse_streams_witness : userID DemoSse.view <> EmptyString /\ fallback DemoSse.view = Some "github".
Proof.
  destruct (sse_streams "mcpbridge" DemoSse.view "github" 1) as (Hu & Hb & _); [by vm_compute|]. split; [exact Hu|done].
Defined.

Lemma sse_inflates_size_witness :
  Pool.CurrentSize (Sse.pool (Nat.iter 3 session (Streamed DemoSse.pool 0))) = 4 /\
  Pool.WarmCount (Sse.pool (Nat.iter 3 session (Streamed DemoSse.pool 0))) = 1%nat.
Proof.
  destruct (sse_inflates_size 0 3 (Streamed DemoSse.pool 0)) as (Hw & _ & Hz).
  - split; try (by vm_compute); vm_compute; lia.
  - split; [rewrite Hz; by vm_compute|rewrite Hw; by vm_compute].
Defined.
