(* ===== verification/SecretFiles.v ===== *)
(** * Secrets in files: [src/internal/secret/secret.go], [src/credential/secret.go]

    The injectors that hand secrets to a process, the executor on top of them,
    [SpawnProcess] and [SpawnProcessWithSecrets] of [src/poolmgr/process.go], and the
    store of secrets of the first version.

    [order]: the order in which a map is walked.  [Join] is [filepath.Join] with the name
    of a file.  [writable] and [removable]: what the file system lets happen to a path. *)
From S2P Require Import Prelude GoStrings Sql Crypto PoolRequests Process.
Open Scope Z_scope.

(** The files, and the reads of random bytes. *)
Record disk := Disk { files : gmap string string; rng : nat }.

Definition entry_of (key value : string) : string := key +:+ "=" +:+ value.

(** ** Injectors *)

(** [SecretInjector], with the disk as its world. *)
Class SecretInjector (I : Type) := {
  PrepareSecrets : gmap string string -> I -> disk -> res (list string) * I * disk;
  Cleanup : I -> disk -> I * disk;
  SecretPath : I -> string
}.

Module FileSecretInjector.
Record t := mk { basePath : string; secretsFile : gmap string string }.
End FileSecretInjector.

Definition NewFileSecretInjector (basePath : string) : FileSecretInjector.t := FileSecretInjector.mk basePath ∅.

Section FileInjector.
Context `{CryptoPrims}.
Context (Join : string -> string -> string) (writable removable : string -> bool).
Context (order : gmap string string -> list (string * string)).
Import FileSecretInjector.

Definition generateRandomFilename (d : disk) : option string * disk :=
  let '(bs, n) := read_rand 16 (rng d) in (hex_encode <$> bs, Disk (files d) n).

(** The loop; on an error the files of the secrets before it stay. *)
Fixpoint write_secrets (l : list (string * string)) (envVars : list string) (f : t) (d : disk) :
    res (list string) * t * disk :=
  match l with
  | [] => (Ok envVars, f, d)
  | (key, value) :: l =>
      let '(filename, d) := generateRandomFilename d in
      match filename with
      | None => (Err (Errorf "failed to generate filename: %w"), f, d)
      | Some filename =>
          let filePath := Join (basePath f) filename in
          if negb (writable filePath) then (Err (Errorf "failed to write secret file: %w"), f, d)
          else write_secrets l (envVars ++ [entry_of key filePath]) (mk (basePath f) (<[key := filePath]> (secretsFile f)))
                 (Disk (<[filePath := value]> (files d)) (rng d))
      end
  end.

(** The errors of [os.Remove] are not looked at. *)
Definition remove_files (paths : list string) (m : gmap string string) : gmap string string :=
  foldl (fun m p => if removable p then delete p m else m) m paths.

#[export] Instance file_injector : SecretInjector t := {|
  PrepareSecrets secrets f d := write_secrets (order secrets) [] f d;
  Cleanup f d := (mk (basePath f) ∅, Disk (remove_files (snd <$> order (secretsFile f)) (files d)) (rng d));
  SecretPath f := basePath f
|}.
End FileInjector.

(** Secrets as variables of the environment; it has no path, so it is no [SecretInjector]. *)
Module EnvVarSecretInjector.
Abbreviation t := (gmap string string).
Definition SetSecret (key value : string) (e : t) : t := <[key := value]> e.
Definition GetEnvForExec (order : gmap string string -> list (string * string)) (e : t) : list string :=
  (fun kv => entry_of kv.1 kv.2) <$> order e.
Definition PrepareSecrets (order : gmap string string -> list (string * string)) (secrets : gmap string string) (e : t) :
    list string * t :=
  let e := secrets ∪ e in (GetEnvForExec order e, e).
Definition Cleanup (e : t) : t := ∅.
End EnvVarSecretInjector.

(** ** [ProcessExecutor] *)

Inductive ending := StartFails (e : error) | Exits (e : option error) | Cancelled (e : error).

(** [during]: what the command does to the disk, and how it ends. *)
Definition Execute {I : Type} `{!SecretInjector I} (during : list string -> disk -> ending * disk) (secrets : gmap string string)
    (i : I) (d : disk) : option error * I * disk :=
  match PrepareSecrets secrets i d with
  | (Err e, i, d) => (Some e, i, d)
  | (Ok envVars, i, d) =>
      let '(r, d) := during envVars d in
      let '(i, d) := Cleanup i d in
      (match r with StartFails e | Cancelled e => Some e | Exits e => e end, i, d)
  end.

(** ** Processes with secrets *)

Section Spawn.
Context `{SecretInjector FileSecretInjector.t}.

(** [SpawnProcess]: the process, and whether its stderr is captured. *)
Definition SpawnProcess (command : string) (env : list string) (ok : bool) : res (started * bool) :=
  match spawnProcessRaw command (Some env) ok with
  | Err e => Err e
  | Ok proc => Ok (proc, negb (bool_decide (command = "mcp-bridge-builtin")))
  end.

(** The process keeps the injector, for [CleanupSecrets]. *)
Definition SpawnProcessWithSecrets (secretsPath command : string) (env : list string) (secrets : gmap string string)
    (ok : bool) (d : disk) : res (started * FileSecretInjector.t) * disk :=
  match PrepareSecrets secrets (NewFileSecretInjector secretsPath) d with
  | (Err e, _, d) => (Err (Wrapf "failed to prepare secrets: %w" e), d)
  | (Ok envVars, injector, d) =>
      match spawnProcessRaw command (Some (env ++ envVars)) ok with
      | Err e => (Err e, (Cleanup injector d).2)
      | Ok proc => (Ok (proc, injector), d)
      end
  end.

Definition CleanupSecrets (injector : option FileSecretInjector.t) (d : disk) : option FileSecretInjector.t * disk :=
  match injector with
  | None => (None, d)
  | Some i => let '(i, d) := Cleanup i d in (Some i, d)
  end.
End Spawn.

(** ** [MockSecretStore] *)

Module MockSecretStore.
Abbreviation t := (gmap string string).
Definition key (userID envKey : string) : string := userID +:+ ":" +:+ envKey.
Definition Get (userID envKey : string) (s : t) : res string :=
  match s !! key userID envKey with
  | Some value => Ok value
  | None => Err (Errorf ("secret not found for user=" +:+ userID +:+ " key=" +:+ envKey))
  end.
Definition Set_ (userID envKey value : string) (s : t) : t := <[key userID envKey := value]> s.
Definition Delete (userID envKey : string) (s : t) : t := delete (key userID envKey) s.
Definition SetFromMap (order : gmap string string -> list (string * string)) (userID : string)
    (envVars : gmap string string) (s : t) : t :=
  foldl (fun s kv => Set_ userID kv.1 kv.2 s) s (order envVars).
End MockSecretStore.

(** * Properties *)

Section FileFacts.
Context `{CryptoPrims}.
Context (Join : string -> string -> string) (writable removable : string -> bool).
Context (order : gmap string string -> list (string * string)).
Context (orders : forall m, order m ≡ₚ map_to_list m).
Context (Join_inj : forall base n n', Join base n = Join base n' -> n = n').
Import FileSecretInjector.

(** The name of the file that the read [i] of random bytes gives. *)
Definition file_at (base : string) (i : nat) : option string := Join base <$> (hex_encode <$> entropy i 16).

(** The next [n] reads of random bytes all differ, and no file has one of their names. *)
Definition next_reads (n : nat) (d : disk) (i : nat) : Prop := (rng d <= i < rng d + n)%nat.

Record fresh_names (base : string) (n : nat) (d : disk) : Prop := {
  fn_some : forall i, next_reads n d i -> is_Some (entropy i 16);
  fn_inj : forall i j, next_reads n d i -> next_reads n d j -> entropy i 16 = entropy j 16 -> i = j;
  fn_free : forall i p, next_reads n d i -> file_at base i = Some p -> files d !! p = None
}.

Lemma file_at_inj base n d i j p : fresh_names base n d -> next_reads n d i -> next_reads n d j ->
  file_at base i = Some p -> file_at base j = Some p -> i = j.
Proof.
  intros Hf Hi Hj Ei Ej. unfold file_at in *. destruct (entropy i 16) as [bi|] eqn:Hbi; [|done].
  destruct (entropy j 16) as [bj|] eqn:Hbj; [|done]. cbn in *. injection Ei as <-. injection Ej as Ej%Join_inj.
  apply (fn_inj _ _ _ Hf i j Hi Hj). rewrite Hbi, Hbj. f_equal.
  pose proof (hex_decode_encode bi) as Hd. rewrite <- Ej, hex_decode_encode in Hd. by injection Hd as ->.
Qed.

(** The disk, the injector and the variables after the secrets [l]: the [k]-th of them in
    the file of the [k]-th read. *)
Fixpoint written (base : string) (i : nat) (l : list (string * string)) : list (string * string * string) :=
  match l with
  | [] => []
  | (key, value) :: l => (key, default EmptyString (file_at base i), value) :: written base (S i) l
  end.

Definition env_of (w : list (string * string * string)) : list string := (fun x => entry_of x.1.1 x.1.2) <$> w.
Definition kept_in (w : list (string * string * string)) (m : gmap string string) : gmap string string :=
  foldl (fun m x => <[x.1.1 := x.1.2]> m) m w.
Definition saved_in (w : list (string * string * string)) (m : gmap string string) : gmap string string :=
  foldl (fun m x => <[x.1.2 := x.2]> m) m w.

Lemma write_secrets_prefix base m l rest : forall env f d, basePath f = base -> fresh_names base (length l + m) d ->
  Forall (fun x => writable x.1.2 = true) (written base (rng d) l) ->
  let w := written base (rng d) l in
  let d' := Disk (saved_in w (files d)) (rng d + length l) in
  fresh_names base m d' /\
  write_secrets Join writable (l ++ rest) env f d =
  write_secrets Join writable rest (env ++ env_of w) (mk base (kept_in w (secretsFile f))) d'.
Proof.
  induction l as [|[key value] l IH]; intros env f d Hb Hf Hw; cbn [app write_secrets written].
  { cbn. rewrite app_nil_r, Nat.add_0_r. destruct f, d; cbn in *; by subst. }
  unfold generateRandomFilename, read_rand.
  assert (Hnow : next_reads (length ((key, value) :: l) + m) d (rng d)) by (unfold next_reads; cbn; lia).
  destruct (fn_some _ _ _ Hf _ Hnow) as [bs Hbs].
  assert (Hat : file_at base (rng d) = Some (Join base (hex_encode bs))) by (unfold file_at; by rewrite Hbs).
  cbn [written] in Hw. rewrite Hat in Hw |- *. apply Forall_cons in Hw as [Hw1 Hw]. rewrite Hbs.
  cbn [fmap option_fmap option_map default from_option id fst snd files rng length] in *. rewrite Hb, Hw1. cbn [negb].
  specialize (IH (env ++ [entry_of key (Join base (hex_encode bs))])
    (mk base (<[key:=Join base (hex_encode bs)]> (secretsFile f)))
    (Disk (<[Join base (hex_encode bs):=value]> (files d)) (S (rng d))) eq_refl).
  cbn [rng files secretsFile] in IH. rewrite Nat.add_succ_comm in IH.
  destruct IH as [Hf' ->]; [|exact Hw|split; [exact Hf'|by rewrite <- app_assoc]].
  pose proof Hf as [Hs Hi Hfree]. unfold next_reads in *. split; cbn.
  - intros i Hle. apply Hs. unfold next_reads in Hle. cbn in Hle. lia.
  - unfold next_reads. cbn. intros i j Hi' Hj. apply Hi; lia.
  - unfold next_reads. cbn. intros i p Hle Hp. rewrite lookup_insert_ne; [apply (Hfree i); [lia|done]|].
    intros <-. assert (i = rng d); [|lia].
    apply (file_at_inj base _ d i (rng d) (Join base (hex_encode bs)) Hf); [unfold next_reads; lia..|done|done].
Qed.

Lemma write_secrets_ok base l f d : basePath f = base -> fresh_names base (length l) d -> (forall p, writable p = true) ->
  write_secrets Join writable l [] f d =
    (Ok (env_of (written base (rng d) l)), mk base (kept_in (written base (rng d) l) (secretsFile f)),
     Disk (saved_in (written base (rng d) l) (files d)) (rng d + length l)).
Proof.
  intros Hb Hf Hw. rewrite <- (Nat.add_0_r (length l)) in Hf.
  destruct (write_secrets_prefix base 0 l [] [] f d Hb Hf) as [_ Hl]; [by apply Forall_true|].
  by rewrite app_nil_r in Hl.
Qed.

Lemma written_keys base l : forall i, (fun x => x.1.1) <$> written base i l = l.*1.
Proof. induction l as [|[k v] l IH]; intros i; [done|]. cbn. by rewrite IH. Qed.

Lemma written_values base l : forall i, (fun x => (x.1.1, x.2)) <$> written base i l = l.
Proof. induction l as [|[k v] l IH]; intros i; [done|]. cbn. by rewrite IH. Qed.

(** Each has a file of its own that was not there. *)
Lemma written_paths base n d l : forall i, fresh_names base n d -> (rng d <= i)%nat -> (i + length l <= rng d + n)%nat ->
  NoDup ((fun x => x.1.2) <$> written base i l) /\
  Forall (fun x => (exists j, (i <= j < rng d + n)%nat /\ file_at base j = Some x.1.2) /\ files d !! x.1.2 = None)
    (written base i l).
Proof.
  induction l as [|[k v] l IH]; intros i Hf Hi Hn; cbn [written fmap list_fmap length] in *; [by split; constructor|].
  destruct (IH (S i) Hf) as [Hnd Hall]; [lia..|]. assert (Hnow : next_reads n d i) by (unfold next_reads; lia).
  destruct (fn_some _ _ _ Hf i Hnow) as [bs Hbs].
  assert (Hat : file_at base i = Some (Join base (hex_encode bs))) by (unfold file_at; by rewrite Hbs).
  rewrite Hat. cbn [default from_option fst snd]. split.
  - constructor; [|done]. intros (x & Hp & Hx)%list_elem_of_fmap. rewrite Forall_forall in Hall.
    destruct (Hall x Hx) as [(j & Hj & Hjp) _]. rewrite <- Hp in Hjp.
    pose proof (file_at_inj base n d i j _ Hf Hnow ltac:(unfold next_reads; lia) Hat Hjp). lia.
  - constructor; [split; [exists i; split; [lia|done]|by apply (fn_free _ _ _ Hf i)]|]. eapply Forall_impl; [exact Hall|].
    intros x [(j & Hj & Hjp) Hx]. split; [exists j; split; [lia|done]|done].
Qed.

Lemma foldl_inserts {A} (k v : A -> string) (l : list A) : forall m : gmap string string, NoDup (k <$> l) ->
  foldl (fun m x => <[k x := v x]> m) m l = list_to_map ((fun x => (k x, v x)) <$> l) ∪ m.
Proof.
  induction l as [|a l IH]; intros m Hnd; cbn; [by rewrite map_empty_union|]. apply NoDup_cons in Hnd as [Hk Hnd].
  rewrite IH by done. rewrite <- insert_union_l, insert_union_r; [done|].
  apply not_elem_of_list_to_map_1. rewrite <- list_fmap_compose. exact Hk.
Qed.

Lemma remove_files_lookup paths : forall m p, (forall p, removable p = true) ->
  remove_files removable paths m !! p = if bool_decide (p ∈ paths) then None else m !! p.
Proof.
  unfold remove_files. induction paths as [|q paths IH]; intros m p Hr; cbn [foldl].
  - by rewrite bool_decide_eq_false_2 by (by intros ?%elem_of_nil).
  - rewrite IH, Hr by done. destruct (decide (p ∈ paths)) as [Hp|Hp].
    + rewrite !bool_decide_eq_true_2; [done|by right|done].
    + rewrite (bool_decide_eq_false_2 (p ∈ paths)) by done. destruct (decide (p = q)) as [->|Hne].
      * by rewrite bool_decide_eq_true_2, lookup_delete_eq by left.
      * rewrite bool_decide_eq_false_2, lookup_delete_ne by set_solver. done.
Qed.

Lemma order_length m : length (order m) = size m.
Proof. by rewrite orders, length_map_to_list. Qed.

(** What the loop leaves for a map of secrets. *)
Lemma written_maps base secrets d : fresh_names base (size secrets) d ->
  let w := written base (rng d) (order secrets) in
  NoDup ((fun x => x.1.2) <$> w) /\ NoDup ((fun x => x.1.1) <$> w) /\
  kept_in w ∅ = list_to_map ((fun x => (x.1.1, x.1.2)) <$> w) /\
  saved_in w (files d) = list_to_map ((fun x => (x.1.2, x.2)) <$> w) ∪ files d /\
  (forall x, x ∈ w -> files d !! x.1.2 = None).
Proof.
  intros Hf w. destruct (written_paths base _ d (order secrets) (rng d) Hf (le_n _)) as [Hnp Hall]; [by rewrite order_length|]. fold w in Hnp, Hall.
  assert (Hnk : NoDup ((fun x => x.1.1) <$> w)).
  { unfold w. rewrite written_keys, orders. apply NoDup_fst_map_to_list. }
  unfold kept_in, saved_in.
  rewrite (foldl_inserts (fun x => x.1.1) (fun x => x.1.2)), (foldl_inserts (fun x => x.1.2) (fun x => x.2)), map_union_empty by done.
  rewrite Forall_forall in Hall. split_and!; try done. intros x Hx. by apply Hall.
Qed.

Lemma cleanup_restores base secrets d n : fresh_names base (size secrets) d -> (forall p, removable p = true) ->
  let w := written base (rng d) (order secrets) in
  files (Cleanup (SecretInjector := file_injector Join writable removable order) (mk base (kept_in w ∅))
           (Disk (saved_in w (files d)) n)).2 = files d.
Proof.
  intros Hf Hr w. destruct (written_maps base secrets d Hf) as (Hnp & Hnk & Hkept & Hsaved & Hfree). fold w in Hnp, Hnk, Hkept, Hsaved, Hfree.
  cbn [Cleanup file_injector snd files secretsFile]. rewrite Hkept, Hsaved.
  apply map_eq. intros p. rewrite remove_files_lookup by done.
  assert (Hpaths : p ∈ (order (list_to_map ((fun x => (x.1.1, x.1.2)) <$> w))).*2 <-> p ∈ (fun x => x.1.2) <$> w).
  { rewrite orders, map_to_list_to_map by (by rewrite <- list_fmap_compose). by rewrite <- list_fmap_compose. }
  case_bool_decide as Hp; rewrite Hpaths in Hp.
  - apply list_elem_of_fmap in Hp as (x & -> & Hx). symmetry. by apply Hfree.
  - apply lookup_union_r, not_elem_of_list_to_map_1. by rewrite <- list_fmap_compose.
Qed.

(** Secrets reach a process as the paths of files that hold them, each in a new file,
    and the cleanup leaves the disk as it was.  The names come from random bytes that do
    not repeat. *)
Theorem secret_files_roundtrip base secrets d :
  fresh_names base (size secrets) d -> (forall p, writable p = true) -> (forall p, removable p = true) ->
  let I := file_injector Join writable removable order in
  exists env f d',
    PrepareSecrets (SecretInjector := I) secrets (NewFileSecretInjector base) d = (Ok env, f, d') /\
    length env = size secrets /\
    (forall key value, secrets !! key = Some value ->
       exists path, entry_of key path ∈ env /\ files d' !! path = Some value /\ files d !! path = None) /\
    files d ⊆ files d' /\
    files (Cleanup (SecretInjector := I) f d').2 = files d.
Proof.
  intros Hf Hw Hr I. subst I. cbn [PrepareSecrets file_injector]. rewrite (write_secrets_ok base) by (done || by rewrite order_length).
  pose proof (cleanup_restores base secrets d (rng d + length (order secrets)) Hf Hr) as Hcl.
  destruct (written_maps base secrets d Hf) as (Hnp & Hnk & Hkept & Hsaved & Hfree).
  set (l := order secrets) in *. set (w := written base (rng d) l) in *.
  assert (Hval : (fun x => (x.1.1, x.2)) <$> w = l) by apply written_values.
  do 3 eexists. split; [reflexivity|]. split_and!; [| | |exact Hcl].
  - unfold env_of. rewrite length_fmap. apply (f_equal length) in Hval. rewrite length_fmap in Hval.
    rewrite Hval. apply order_length.
  - intros key value Hk. assert (Hin : (key, value) ∈ l) by (unfold l; rewrite orders; by apply elem_of_map_to_list).
    rewrite <- Hval in Hin. apply list_elem_of_fmap in Hin as (x & [= -> ->] & Hx).
    exists x.1.2. split_and!; [apply list_elem_of_fmap; by exists x| |by apply Hfree].
    cbn [files]. rewrite Hsaved. apply lookup_union_Some_l, elem_of_list_to_map_1;
      [by rewrite <- list_fmap_compose|apply list_elem_of_fmap; by exists x].
  - cbn [files]. rewrite Hsaved. apply map_union_subseteq_r. apply map_disjoint_spec. intros p v1 v2 H1 H2.
    apply elem_of_list_to_map_2, list_elem_of_fmap in H1 as (x & [= -> _] & Hx). rewrite (Hfree x Hx) in H2. done.
Qed.

(** The executor leaves no file behind, however the command ends, as long as the command
    itself leaves the files alone. *)
Theorem Execute_cleans base during secrets d :
  fresh_names base (size secrets) d -> (forall p, writable p = true) -> (forall p, removable p = true) ->
  (forall env d, files (during env d).2 = files d) ->
  exists r f d', @Execute t (file_injector Join writable removable order) during secrets
                   (NewFileSecretInjector base) d = (r, f, d') /\ files d' = files d /\ secretsFile f = ∅.
Proof.
  intros Hf Hw Hr Hd. unfold Execute. cbn [PrepareSecrets file_injector]. rewrite (write_secrets_ok base) by (done || by rewrite order_length).
  set (env := env_of _). destruct (during env _) as [r d2] eqn:He. 
  match type of He with during _ ?d1 = _ => pose proof (Hd env d1) as Hd2 end. rewrite He in Hd2. cbn [snd files] in Hd2.
  destruct d2 as [m n]. cbn [files] in Hd2. subst m.
  do 3 eexists. split; [reflexivity|]. split; [|done]. by apply (cleanup_restores base secrets d n).
Qed.

(** When one secret cannot be written the process is not started, and the files of the
    secrets before it stay on the disk: the injector that knows them is dropped. *)
Theorem failed_prepare_leaks base command env secrets ok d pre key value post p :
  fresh_names base (size secrets) d -> order secrets = pre ++ (key, value) :: post ->
  Forall (fun x => writable x.1.2 = true) (written base (rng d) pre) ->
  file_at base (rng d + length pre) = Some p -> writable p = false ->
  exists e d', @SpawnProcessWithSecrets (file_injector Join writable removable order) base command env secrets ok d =
      (Err e, d') /\
    forall k v, (k, v) ∈ pre -> exists path, files d' !! path = Some v /\ files d !! path = None.
Proof.
  intros Hf Ho Hw Hp Hn. unfold SpawnProcessWithSecrets. cbn [PrepareSecrets file_injector].
  rewrite Ho.
  assert (Hsz : size secrets = (length pre + S (length post))%nat) by (by rewrite <- order_length, Ho, length_app).
  rewrite Hsz in Hf.
  destruct (write_secrets_prefix base _ pre ((key, value) :: post) [] (NewFileSecretInjector base) d eq_refl Hf Hw) as [_ ->].
  cbn [write_secrets]. unfold generateRandomFilename, read_rand, file_at in *. cbn [rng basePath files].
  destruct (entropy (rng d + length pre) 16) as [bs|]; [|done]. cbn [fmap option_fmap option_map] in *.
  injection Hp as Hp. rewrite Hp, Hn. cbn [negb]. do 2 eexists. split; [reflexivity|]. cbn [files].
  intros k v Hin. rewrite <- (written_values base pre (rng d)) in Hin. apply list_elem_of_fmap in Hin as (x & [= -> ->] & Hx).
  exists x.1.2. destruct (written_paths base _ d pre (rng d) Hf (le_n _)) as [Hnp Hall]; [lia|]. rewrite Forall_forall in Hall.
  split; [|by apply Hall]. unfold saved_in. rewrite (foldl_inserts (fun x => x.1.2) (fun x => x.2)) by done.
  apply lookup_union_Some_l, elem_of_list_to_map_1; [by rewrite <- list_fmap_compose|apply list_elem_of_fmap; by exists x].
Qed.
End FileFacts.

(** ** The store of the first version *)

Module MockStoreFacts.
Import MockSecretStore.

Lemma key_inj u k u' k' : has_byte ":" u = false -> has_byte ":" u' = false -> key u k = key u' k' -> u = u' /\ k = k'.
Proof. intros Hu Hu' Heq. by apply (str_split_unique ":"). Qed.

(** A secret is read back as it was set, and no operation on it touches the secret of
    another user or key, as long as the ids of the users hold no colon. *)
Theorem mock_store_roundtrip u k v u' k' s :
  has_byte ":" u = false -> has_byte ":" u' = false ->
  Get u k (Set_ u k v s) = Ok v /\ is_ok (Get u k (Delete u k s)) = false /\
  ((u, k) <> (u', k') -> Get u' k' (Set_ u k v s) = Get u' k' s /\ Get u' k' (Delete u k s) = Get u' k' s).
Proof.
  intros Hu Hu'. unfold Get, Set_, Delete. rewrite lookup_insert_eq, lookup_delete_eq. split_and!; [done..|].
  intros Hne. assert (key u k <> key u' k') by (intros Heq; apply key_inj in Heq as [-> ->]; done).
  by rewrite lookup_insert_ne, lookup_delete_ne.
Qed.

(** With a colon in the id of a user two users share a secret. *)
Theorem mock_store_collides v s : Get "a" "b:K" (Set_ "a:b" "K" v s) = Ok v.
Proof. unfold Get, Set_. change (key "a" "b:K") with (key "a:b" "K"). by rewrite lookup_insert_eq. Qed.
End MockStoreFacts.

(** ** Examples *)

#[local] Existing Instance Toy.prims.

Module DemoFiles.
Definition Join (base name : string) : string := base +:+ "/" +:+ name.
Definition secrets : gmap string string := {[ "TOKEN" := "t1"; "KEY" := "k1" ]}.
Definition empty_disk : disk := Disk ∅ 0.
Definition always (path : string) : bool := true.

Lemma Join_inj base n n' : Join base n = Join base n' -> n = n'.
Proof. unfold Join. intros Heq. induction base as [|c base IH]; [by injection Heq|]. apply IH. by injection Heq. Qed.

Lemma names : fresh_names Join "/run" (size secrets) empty_disk.
Proof.
  change (size secrets) with 2%nat. split; unfold next_reads, empty_disk; cbn [rng files].
  - intros i _. by eexists.
  - intros i j Hi Hj Heq. destruct i as [|[|]], j as [|[|]]; try lia; by vm_compute in Heq.
  - intros i p _ _. apply lookup_empty.
Qed.

(** The second file cannot be written. *)
Definition writable (path : string) : bool :=
  bool_decide (Some path = file_at Join "/run" 0).
Definition injector : SecretInjector FileSecretInjector.t := file_injector Join always always map_to_list.
Definition Prepared := PrepareSecrets (SecretInjector := injector) secrets (NewFileSecretInjector "/run") empty_disk.
End DemoFiles.

Lemma secret_files_roundtrip_witness :
  files (Cleanup (SecretInjector := DemoFiles.injector) DemoFiles.Prepared.1.2 DemoFiles.Prepared.2).2 = ∅ /\
  size (files DemoFiles.Prepared.2) = 2%nat.
Proof.
  destruct (secret_files_roundtrip DemoFiles.Join DemoFiles.always DemoFiles.always map_to_list (fun m => reflexivity _)
    DemoFiles.Join_inj "/run" DemoFiles.secrets DemoFiles.empty_disk DemoFiles.names) as (env & f & d' & Hp & _ & _ & _ & Hc);
    [done..|].
  split; [|by vm_compute]. unfold DemoFiles.Prepared, DemoFiles.injector. rewrite Hp. exact Hc.
Defined.

Lemma Execute_cleans_witness :
  files (Execute (SecretInjector0 := DemoFiles.injector) (fun _ d => (Cancelled (Errorf "context canceled"), d))
    DemoFiles.secrets (NewFileSecretInjector "/run") DemoFiles.empty_disk).2 = ∅.
Proof.
  destruct (Execute_cleans DemoFiles.Join DemoFiles.always DemoFiles.always map_to_list (fun m => reflexivity _)
    DemoFiles.Join_inj "/run" (fun _ d => (Cancelled (Errorf "context canceled"), d)) DemoFiles.secrets DemoFiles.empty_disk
    DemoFiles.names) as (r & f & d' & Hp & Hd & _); [done..|].
  unfold DemoFiles.injector. rewrite Hp. exact Hd.
Defined.

Lemma failed_prepare_leaks_witness :
  exists e d', SpawnProcessWithSecrets (H := file_injector DemoFiles.Join DemoFiles.writable DemoFiles.always map_to_list)
    "/run" "npx gh" [] DemoFiles.secrets true DemoFiles.empty_disk = (Err e, d') /\
  exists path value, files d' !! path = Some value.
Proof.
  destruct (failed_prepare_leaks DemoFiles.Join DemoFiles.writable DemoFiles.always map_to_list (fun m => reflexivity _)
    DemoFiles.Join_inj "/run" "npx gh" [] DemoFiles.secrets true DemoFiles.empty_disk
    (take 1 (map_to_list DemoFiles.secrets))
    (nth 1 (map_to_list DemoFiles.secrets) (EmptyString, EmptyString)).1
    (nth 1 (map_to_list DemoFiles.secrets) (EmptyString, EmptyString)).2 []
    (default EmptyString (file_at DemoFiles.Join "/run" 1)) DemoFiles.names) as (e & d' & Hs & Hk).
  - by vm_compute.
  - by apply (bool_decide_unpack _); vm_compute.
  - by vm_compute.
  - by vm_compute.
  - exists e, d'. split; [exact Hs|].
    destruct (Hk (nth 0 (map_to_list DemoFiles.secrets) (EmptyString, EmptyString)).1
                 (nth 0 (map_to_list DemoFiles.secrets) (EmptyString, EmptyString)).2) as (p & Hp & _); [|by exists p; eexists].
    by apply (bool_decide_unpack _); vm_compute.
Defined.

Lemma mock_store_roundtrip_witness :
  MockSecretStore.Get "ann" "KEY" (MockSecretStore.Set_ "bob" "KEY" "b" (MockSecretStore.Set_ "ann" "KEY" "a" ∅)) = Ok "a".
Proof.
  destruct (MockStoreFacts.mock_store_roundtrip "bob" "KEY" "b" "ann" "KEY" (MockSecretStore.Set_ "ann" "KEY" "a" ∅))
    as (_ & _ & Ho); [done..|].
  destruct Ho as [-> _]; [done|]. by vm_compute.
Defined.
