(* ===== verification/Mailer.v ===== *)
(** * Sending mail: [src/internal/mailer/mailer.go]

    The conversation with the mail server.  The server is an argument: whether it can be
    dialled and what it answers to each command, on each connection.  What is said to it
    is kept, with whether the connection was encrypted then. *)
From S2P Require Import Prelude GoStrings Sql Crypto EnforcerTypes Template Muxer Accounts Backends PoolRequests Process Pool PoolManager BackendStatus ToolLists BridgeTools.
Open Scope Z_scope.

Module SmtpConfig.
Record t := mk {
  Host : string; Port : Z; User : string; Password : string; From : string; FromName : string; UseTLS : bool;
  Timeout : Duration
}.

Definition BuildAddr (c : t) : string :=
  let host := if contains (Host c) ":" then "[" +:+ Host c +:+ "]" else Host c in
  host +:+ ":" +:+ decimal_text (Port c).
End SmtpConfig.

Definition defaultSmtpTimeout : Duration := 10 * Second.

(** ** The message *)

(** The lines before the empty one.  [date]: [time.Now] as [RFC1123Z]. *)
Definition header_lines (from : string) (to : list string) (subject contentType date : string) : list string :=
  ["From: " +:+ from; "To: " +:+ joined_by ", " to; "Subject: " +:+ subject; "Date: " +:+ date; "MIME-Version: 1.0";
   "Content-Type: " +:+ contentType].

Definition with_breaks (lines : list string) (rest : string) : string :=
  foldr (fun line s => line +:+ crlf +:+ s) rest lines.

(** The name of the sender in the configuration is not used. *)
Definition buildMessage (cfg : SmtpConfig.t) (from : string) (to : list string) (subject body contentType date : string) :
    string :=
  with_breaks (header_lines from to subject contentType date) (crlf +:+ body).

(** ** The conversation *)

Inductive smtp_command :=
| CAuth (user password : string)
| CMail (from : string)
| CRcpt (to : string)
| CData
| CText (message : string)
| CQuit.

Record smtp_server := SmtpServer {
  tls_dial : res unit;                            (* dial and handshake *)
  dial : nat -> res unit;                         (* of the connections one after the other *)
  greet : nat -> res unit;                        (* [smtp.NewClient] *)
  offers_starttls : bool;
  starttls : res unit;
  writes : res unit;                              (* of the text to the connection *)
  answer : bool -> smtp_command -> res unit       (* encrypted or not *)
}.

(** What a sender asks for: the commands, with whether they were encrypted. *)
Definition transcript : Type := list (bool * smtp_command).

Section Conversation.
Context (server : smtp_server).

(** A command, then the rest if the server agrees. *)
Definition say (tls : bool) (c : smtp_command) (rest : option error * transcript) : option error * transcript :=
  match answer server tls c with
  | Err e => (Some e, [(tls, c)])
  | Ok _ => (rest.1, (tls, c) :: rest.2)
  end.

(** The client refuses an address with a line break itself. *)
Definition say_address (tls : bool) (address : string) (c : smtp_command) (rest : option error * transcript) :
    option error * transcript :=
  if has_byte "010" address || has_byte "013" address
  then (Some (Errorf "smtp: A line must not contain CR or LF"), [])
  else say tls c rest.

Definition say_all (tls : bool) (to : list string) (rest : option error * transcript) : option error * transcript :=
  foldr (fun rcpt rest => say_address tls rcpt (CRcpt rcpt) rest) rest to.

(** [smtp.PlainAuth] as [Client.Auth] runs it: user, password and host. *)
Definition auth_step (tls : bool) (auth : option (string * string * string)) (rest : option error * transcript) :
    option error * transcript :=
  match auth with
  | None => rest
  | Some (user, password, host) =>
      if negb tls && negb (bool_decide (host ∈ ["localhost"; "127.0.0.1"; "::1"]))
      then (Some (Errorf "unencrypted connection"), [])
      else say tls (CAuth user password) rest
  end.

Definition deliver (tls : bool) (auth : option (string * string * string)) (from : string) (to : list string)
    (msg : string) : option error * transcript :=
  auth_step tls auth (say_address tls from (CMail from) (say_all tls to (say tls CData
    match writes server with
    | Err e => (Some e, [])
    | Ok _ => say tls (CText msg) (say tls CQuit (None, []))
    end))).

(** ** [smtpSender] *)

(** A connection without encryption: dial, greeting. *)
Definition plain_client (n : nat) (k : option error * transcript) : option error * transcript :=
  match dial server n with
  | Err e => (Some e, [])
  | Ok _ => match greet server n with Err e => (Some e, []) | Ok _ => k end
  end.

Definition sender_address (cfg : SmtpConfig.t) : string :=
  if bool_decide (SmtpConfig.From cfg = EmptyString) then "mcp-bridge@localhost" else SmtpConfig.From cfg.

Definition plain_auth (cfg : SmtpConfig.t) : option (string * string * string) :=
  if bool_decide (SmtpConfig.User cfg = EmptyString) then None
  else Some (SmtpConfig.User cfg, SmtpConfig.Password cfg, SmtpConfig.Host cfg).

Definition send (cfg : SmtpConfig.t) (to : list string) (subject body contentType date : string) :
    option error * transcript :=
  if bool_decide (SmtpConfig.Host cfg = EmptyString) then (None, [])
  else match to with
  | [] => (None, [])
  | _ =>
      let from := sender_address cfg in
      let msg := buildMessage cfg from to subject body contentType date in
      let auth := plain_auth cfg in
      if (SmtpConfig.Port cfg =? 465) || SmtpConfig.UseTLS cfg then
        match tls_dial server with
        | Err e => (Some e, [])
        | Ok _ => match greet server 0 with
                  | Err e => (Some e, [])
                  | Ok _ => deliver true auth from to msg
                  end
        end
      else plain_client 0
        (if offers_starttls server then
           match starttls server with
           | Ok _ => deliver true auth from to msg
           | Err _ => plain_client 1 (deliver false auth from to msg)
           end
         else deliver false auth from to msg)
  end.

Definition Send (cfg : SmtpConfig.t) (to : list string) (subject body date : string) : option error * transcript :=
  send cfg to subject body "text/plain; charset=UTF-8" date.

Definition SendHTML (cfg : SmtpConfig.t) (to : list string) (subject body date : string) : option error * transcript :=
  send cfg to subject body "text/html; charset=UTF-8" date.
End Conversation.

(** [net.Dialer] and the deadline of the conversation. *)
Definition smtp_timeout (cfg : SmtpConfig.t) : Duration :=
  if SmtpConfig.Timeout cfg <=? 0 then defaultSmtpTimeout else SmtpConfig.Timeout cfg.

(** * Properties *)

Section Facts.
Context (server : smtp_server).

(** Every command keeps to [P]. *)
Definition all_said (P : bool -> smtp_command -> Prop) (r : option error * transcript) : Prop :=
  Forall (fun x => P x.1 x.2) r.2.

Lemma all_said_say P tls c rest : P tls c -> all_said P rest -> all_said P (say server tls c rest).
Proof. intros Hc Hr. unfold say. case_match; by repeat constructor. Qed.

Lemma all_said_address P tls a c rest : P tls c -> all_said P rest -> all_said P (say_address server tls a c rest).
Proof. intros Hc Hr. unfold say_address. case_match; [constructor|by apply all_said_say]. Qed.

Lemma all_said_to P tls to rest : (forall rcpt, rcpt ∈ to -> P tls (CRcpt rcpt)) -> all_said P rest ->
  all_said P (say_all server tls to rest).
Proof.
  intros Ht Hr. induction to as [|rcpt to IH]; [done|]. cbn. apply all_said_address; [by apply Ht; left|].
  apply IH. intros x Hx. apply Ht. by right.
Qed.

Lemma all_said_deliver P tls auth from to msg :
  (forall user password host, auth = Some (user, password, host) ->
     tls = true \/ host ∈ ["localhost"; "127.0.0.1"; "::1"] -> P tls (CAuth user password)) ->
  P tls (CMail from) -> (forall rcpt, rcpt ∈ to -> P tls (CRcpt rcpt)) -> P tls CData -> P tls (CText msg) -> P tls CQuit ->
  all_said P (deliver server tls auth from to msg).
Proof.
  intros Ha Hm Ht Hd Hx Hq. unfold deliver.
  assert (Hrest : all_said P (say_address server tls from (CMail from) (say_all server tls to (say server tls CData
    match writes server with
    | Err e => (Some e, [])
    | Ok _ => say server tls (CText msg) (say server tls CQuit (None, []))
    end)))).
  { apply all_said_address; [done|]. apply all_said_to; [done|]. apply all_said_say; [done|].
    destruct (writes server); [|constructor]. by repeat (apply all_said_say; [done|]); constructor. }
  destruct auth as [[[user password] host]|]; [|done]. cbn [auth_step]. destruct (negb tls && _) eqn:Hc; [constructor|].
  apply all_said_say; [|done]. apply (Ha _ _ _ eq_refl). apply andb_false_iff in Hc as [Hc|Hc]; apply negb_false_iff in Hc;
    [by left|right; by apply bool_decide_eq_true in Hc].
Qed.

Lemma all_said_plain P n k : all_said P k -> all_said P (plain_client server n k).
Proof. intros Hk. unfold plain_client. repeat case_match; try constructor. done. Qed.

(** What is known of everything a mail says. *)
Lemma all_said_send P cfg to subject body ct date :
  (forall tls from msg, P tls (CMail from) /\ P tls CData /\ P tls (CText msg) /\ P tls CQuit) ->
  (forall tls rcpt, rcpt ∈ to -> P tls (CRcpt rcpt)) ->
  (forall tls, tls = true \/ SmtpConfig.Host cfg ∈ ["localhost"; "127.0.0.1"; "::1"] ->
     SmtpConfig.User cfg <> EmptyString -> P tls (CAuth (SmtpConfig.User cfg) (SmtpConfig.Password cfg))) ->
  all_said P (send server cfg to subject body ct date).
Proof.
  intros Hc Ht Ha. unfold send. case_bool_decide; [constructor|]. destruct to as [|x to]; [constructor|].
  cbv zeta. set (msg := buildMessage _ _ _ _ _ _ _).
  assert (Hd : forall tls, all_said P (deliver server tls (plain_auth cfg) (sender_address cfg) (x :: to) msg)).
  { intros tls. destruct (Hc tls (sender_address cfg) msg) as (Hm & Hdt & Htx & Hq).
    apply all_said_deliver; try done; [|by intros; apply Ht]. unfold plain_auth. case_bool_decide; [done|]. intros user password host [= <- <- <-] Hor. by apply Ha. }
  destruct (_ || _); [destruct (tls_dial server), (greet server 0); done || constructor|].
  apply all_said_plain. destruct (offers_starttls server); [|done]. destruct (starttls server); [done|].
  by apply all_said_plain.
Qed.
End Facts.

(** The password of the mail server is said over an encrypted connection only, or to this
    machine: not when the server offers no encryption, nor when encrypting fails. *)
Theorem password_stays_encrypted server cfg to subject body ct date user password :
  (false, CAuth user password) ∈ (send server cfg to subject body ct date).2 ->
  SmtpConfig.Host cfg ∈ ["localhost"; "127.0.0.1"; "::1"].
Proof.
  intros Hin. assert (Hall : all_said (fun tls c => match c with CAuth _ _ => tls = true \/
    SmtpConfig.Host cfg ∈ ["localhost"; "127.0.0.1"; "::1"] | _ => True end) (send server cfg to subject body ct date)).
  { apply all_said_send; auto. }
  unfold all_said in Hall. rewrite Forall_forall in Hall. specialize (Hall _ Hin). cbn in Hall. by destruct Hall.
Qed.

(** The mail has been taken by the server. *)
Definition taken (server : smtp_server) (r : option error * transcript) : Prop :=
  exists tls msg, (tls, CText msg) ∈ r.2 /\ is_ok (answer server tls (CText msg)) = true.

Section Outcomes.
Context (server : smtp_server).

Definition error_of (r : res unit) : option error := match r with Ok _ => None | Err e => Some e end.

(** The conversation of a mail that is taken, after the login and before it is closed. *)
Definition conversation (tls : bool) (from : string) (to : list string) (msg : string) : transcript :=
  (tls, CMail from) :: ((fun rcpt => (tls, CRcpt rcpt)) <$> to) ++ [(tls, CData); (tls, CText msg)].

Definition agreed (l : transcript) : Prop := Forall (fun x => is_ok (answer server x.1 x.2) = true) l.

(** Reported as sent, or taken. *)
Definition good (r : option error * transcript) : Prop := r.1 = None \/ taken server r.

Lemma nothing_not_good e : ~ good (Some e, []).
Proof. intros [Hr|(tls & msg & Hin & _)]; [done|]. by apply elem_of_nil in Hin. Qed.

Lemma good_say tls c rest : good (say server tls c rest) -> (forall m, c <> CText m) ->
  say server tls c rest = (rest.1, (tls, c) :: rest.2) /\ is_ok (answer server tls c) = true /\ good rest.
Proof.
  unfold say. destruct (answer server tls c) as [u|e] eqn:Ha; intros Hg Hc.
  - split_and!; [done..|]. destruct Hg as [Hr|(tls' & msg & Hin & Ht)]; [by left|right].
    apply elem_of_cons in Hin as [[= -> Hm]|Hin]; [by destruct (Hc msg)|]. by exists tls', msg.
  - exfalso. destruct Hg as [Hr|(tls' & msg & Hin & Ht)]; [done|]. apply list_elem_of_singleton in Hin as [= -> Hm].
    by destruct (Hc msg).
Qed.

Lemma good_address tls a c rest : good (say_address server tls a c rest) -> (forall m, c <> CText m) ->
  say_address server tls a c rest = (rest.1, (tls, c) :: rest.2) /\ is_ok (answer server tls c) = true /\ good rest.
Proof. unfold say_address. case_match; [by intros ?%nothing_not_good|apply good_say]. Qed.

Lemma good_to tls to rest : good (say_all server tls to rest) ->
  say_all server tls to rest = (rest.1, ((fun rcpt => (tls, CRcpt rcpt)) <$> to) ++ rest.2) /\
  agreed ((fun rcpt => (tls, CRcpt rcpt)) <$> to) /\ good rest.
Proof.
  induction to as [|x to IH]; intros Hg; [split_and!; [by destruct rest|constructor|done]|].
  change (say_all server tls (x :: to) rest) with (say_address server tls x (CRcpt x) (say_all server tls to rest)) in *.
  apply good_address in Hg as (Heq & Ha & Hg); [|done]. destruct (IH Hg) as (Heq' & Hag & Hr).
  split_and!; [by rewrite Heq, Heq'|by constructor|done].
Qed.

Lemma good_auth tls cfg rest : good (auth_step server tls (plain_auth cfg) rest) ->
  exists l, auth_step server tls (plain_auth cfg) rest = (rest.1, l ++ rest.2) /\ agreed l /\
    length l = (if bool_decide (SmtpConfig.User cfg = EmptyString) then 0 else 1)%nat /\ good rest.
Proof.
  unfold plain_auth. case_bool_decide; cbn [auth_step]; intros Hg.
  - exists []. split_and!; [by destruct rest|constructor|done..].
  - destruct (negb tls && _); [by apply nothing_not_good in Hg|]. apply good_say in Hg as (-> & Ha & Hg); [|done].
    eexists [_]. split_and!; [done|by constructor|done..].
Qed.

Lemma good_text tls msg :
  good match writes server with
       | Err e => (Some e, [])
       | Ok _ => say server tls (CText msg) (say server tls CQuit (None, []))
       end ->
  match writes server with
  | Err e => (Some e, [])
  | Ok _ => say server tls (CText msg) (say server tls CQuit (None, []))
  end = (error_of (answer server tls CQuit), [(tls, CText msg); (tls, CQuit)]) /\
  is_ok (answer server tls (CText msg)) = true.
Proof.
  destruct (writes server); [|by intros ?%nothing_not_good]. unfold say.
  destruct (answer server tls (CText msg)) as [u|e] eqn:Ht.
  - intros _. by destruct (answer server tls CQuit).
  - intros [Hr|(tls' & m & Hin & Hok)]; [done|]. apply list_elem_of_singleton in Hin as [= -> ->]. by rewrite Ht in Hok.
Qed.

Lemma deliver_good tls cfg from to msg : good (deliver server tls (plain_auth cfg) from to msg) ->
  exists l, deliver server tls (plain_auth cfg) from to msg =
      (error_of (answer server tls CQuit), l ++ conversation tls from to msg ++ [(tls, CQuit)]) /\
    agreed (l ++ conversation tls from to msg) /\
    length l = (if bool_decide (SmtpConfig.User cfg = EmptyString) then 0 else 1)%nat.
Proof.
  unfold deliver. intros Hg. apply good_auth in Hg as (l & -> & Hl & Hn & Hg).
  apply good_address in Hg as (-> & Hm & Hg); [|done]. apply good_to in Hg as (-> & Ht & Hg).
  apply good_say in Hg as (-> & Hd & Hg); [|done]. apply good_text in Hg as (-> & Hx).
  exists l. cbn [fst snd]. unfold conversation. split_and!; [cbn; by rewrite <- app_assoc| |done].
  apply Forall_app; split; [done|]. constructor; [done|]. apply Forall_app; split; [done|]. by repeat constructor.
Qed.

Lemma good_plain n k : good (plain_client server n k) -> plain_client server n k = k.
Proof. unfold plain_client. destruct (dial server n), (greet server n); done || (intros ?%nothing_not_good; done). Qed.
End Outcomes.

(** C24: A mail that is reported as sent has been taken by the server, for every recipient,
    with every command before that agreed to; and one that has been taken is reported as
    sent exactly when the server also agrees to the end of the conversation: a server
    that takes the mail and then drops the line makes it a failure. *)
Theorem send_complete server cfg to subject body ct date :
  let r := send server cfg to subject body ct date in
  SmtpConfig.Host cfg <> EmptyString -> to <> [] -> r.1 = None \/ taken server r ->
  exists tls login,
    let said := conversation tls (sender_address cfg) to (buildMessage cfg (sender_address cfg) to subject body ct date) in
    r = (error_of (answer server tls CQuit), login ++ said ++ [(tls, CQuit)]) /\ agreed server (login ++ said) /\
    length login = (if bool_decide (SmtpConfig.User cfg = EmptyString) then 0 else 1)%nat.
Proof.
  intros r Hh Ht Hg. subst r. change (good server (send server cfg to subject body ct date)) in Hg. revert Hg.
  unfold send. rewrite bool_decide_eq_false_2 by done. destruct to as [|x to]; [done|]. cbv zeta.
  set (msg := buildMessage _ _ _ _ _ _ _). intros Hg.
  assert (Hd : exists tls, good server (deliver server tls (plain_auth cfg) (sender_address cfg) (x :: to) msg) /\
    (if (SmtpConfig.Port cfg =? 465) || SmtpConfig.UseTLS cfg then
        match tls_dial server with
        | Err e => (Some e, [])
        | Ok _ => match greet server 0 with
                  | Err e => (Some e, [])
                  | Ok _ => deliver server true (plain_auth cfg) (sender_address cfg) (x :: to) msg
                  end
        end
      else plain_client server 0
        (if offers_starttls server then
           match starttls server with
           | Ok _ => deliver server true (plain_auth cfg) (sender_address cfg) (x :: to) msg
           | Err _ => plain_client server 1 (deliver server false (plain_auth cfg) (sender_address cfg) (x :: to) msg)
           end
         else deliver server false (plain_auth cfg) (sender_address cfg) (x :: to) msg)) =
     deliver server tls (plain_auth cfg) (sender_address cfg) (x :: to) msg).
  { destruct (_ || _).
    - destruct (tls_dial server), (greet server 0); try by apply nothing_not_good in Hg. by exists true.
    - pose proof (good_plain server 0 _ Hg) as Heq. rewrite Heq in Hg |- *.
      destruct (offers_starttls server); [destruct (starttls server)|]; [by exists true| |by exists false].
      pose proof (good_plain server 1 _ Hg) as Heq1. rewrite Heq1 in Hg |- *. by exists false. }
  destruct Hd as (tls & Hgood & ->). destruct (deliver_good server tls cfg _ _ _ Hgood) as (l & Hl & Ha & Hn).
  by exists tls, l.
Qed.

(** ** The message *)

(** How a reader takes a message apart: lines up to the empty one, and the body. *)
Fixpoint split_message (fuel : nat) (s : string) : option (list string * string) :=
  match fuel with
  | O => None
  | S fuel =>
      match read_line s with
      | None => None
      | Some (line, rest) =>
          if bool_decide (trim_breaks line = EmptyString) then Some ([], rest)
          else '(lines, body) ← split_message fuel rest; Some (trim_breaks line :: lines, body)
      end
  end.

Lemma line_read line rest : no_break line = true ->
  read_line (line +:+ crlf +:+ rest) = Some (line +:+ bytes [13%nat], rest).
Proof.
  intros Hl. change (crlf +:+ rest) with (bytes [13%nat] +:+ (newline +:+ rest)). rewrite str_app_assoc.
  apply read_line_newline. rewrite has_byte_app, no_break_newline by done. done.
Qed.

Lemma split_lines fuel lines body : Forall (fun l => no_break l = true /\ l <> EmptyString) lines ->
  (length lines < fuel)%nat -> split_message fuel (with_breaks lines (crlf +:+ body)) = Some (lines, body).
Proof.
  revert fuel. induction lines as [|line lines IH]; intros fuel Hl Hf; destruct fuel as [|fuel]; cbn in Hf; try lia.
  - cbn [with_breaks foldr split_message]. change (crlf +:+ body) with (EmptyString +:+ crlf +:+ body).
    by rewrite line_read.
  - apply Forall_cons in Hl as [[Hn He] Hl]. cbn [with_breaks foldr split_message].
    change (foldr _ _ lines) with (with_breaks lines (crlf +:+ body)).
    rewrite line_read, trim_breaks_app by done. rewrite bool_decide_eq_false_2 by done. rewrite IH by (done || lia). done.
Qed.

(** A message without line breaks in what goes into its header is read back as its six
    header lines and its body, whatever the body holds. *)
Theorem message_roundtrip cfg from to subject body ct date :
  no_break from = true -> Forall (fun x => no_break x = true) to -> no_break subject = true -> no_break ct = true ->
  no_break date = true ->
  split_message 7 (buildMessage cfg from to subject body ct date) = Some (header_lines from to subject ct date, body).
Proof.
  intros Hf Ht Hs Hc Hd. apply split_lines; [|cbn; lia].
  assert (Happ : forall a b, no_break a = true -> no_break b = true -> no_break (a +:+ b) = true).
  { intros a b Ha Hb. unfold no_break in *. by rewrite str_forallb_app, Ha, Hb. }
  assert (Hj : no_break (joined_by ", " to) = true).
  { induction Ht as [|x to Hx Ht IH]; [done|]. cbn [joined_by]. destruct to; [done|]. by apply Happ; [|apply Happ]. }
  unfold header_lines. repeat (apply Forall_cons; split; [split; [|done]|]); try apply Forall_nil; try done; by apply Happ.
Qed.

(** A name of the configuration that is nowhere in the message. *)
Theorem sender_name_unused host port user password from name tls timeout name' to subject body ct date server :
  send server (SmtpConfig.mk host port user password from name tls timeout) to subject body ct date =
  send server (SmtpConfig.mk host port user password from name' tls timeout) to subject body ct date.
Proof. done. Qed.

(** ** Examples *)

Module DemoMail.
Definition cfg : SmtpConfig.t := SmtpConfig.mk "mail.example.org" 587 "bridge" "secret" "bridge@example.org" "Bridge" false 0.
(** It takes mail, and drops the connection after it. *)
Definition server : smtp_server :=
  SmtpServer (Ok tt) (fun _ => Ok tt) (fun _ => Ok tt) true (Ok tt) (Ok tt)
    (fun _ c => match c with CQuit => Err (Errorf "EOF") | _ => Ok tt end).
Definition sent := SendHTML server cfg ["ann@example.org"] "Invitation" "<p>" "Mon, 02 Jan 2006 15:04:05 +0000".
(** The same without encryption, on this machine. *)
Definition local : SmtpConfig.t := SmtpConfig.mk "localhost" 25 "bridge" "secret" EmptyString EmptyString false 0.
Definition plain : smtp_server :=
  SmtpServer (Ok tt) (fun _ => Ok tt) (fun _ => Ok tt) false (Ok tt) (Ok tt) (fun _ _ => Ok tt).
End DemoMail.

Lemma password_stays_encrypted_witness : SmtpConfig.Host DemoMail.local ∈ ["localhost"; "127.0.0.1"; "::1"].
Proof.
  apply (password_stays_encrypted DemoMail.plain DemoMail.local ["ann@example.org"] "Invitation" "<p>" "text/html"
    "Mon, 02 Jan 2006 15:04:05 +0000" "bridge" "secret").
  vm_compute. by left.
Defined.

Lemma send_complete_witness : DemoMail.sent.1 = Some (Errorf "EOF") /\ length DemoMail.sent.2 = 6%nat.
Proof.
  destruct (send_complete DemoMail.server DemoMail.cfg ["ann@example.org"] "Invitation" "<p>" "text/html; charset=UTF-8"
    "Mon, 02 Jan 2006 15:04:05 +0000") as (tls & login & Hr & _ & Hn).
  - done.
  - done.
  - right. exists true. eexists. split; [vm_compute; do 4 right; by left|by vm_compute].
  - unfold DemoMail.sent, SendHTML. rewrite Hr. split; [done|]. cbn [snd]. rewrite !length_app, Hn. by vm_compute.
Defined.

Lemma message_roundtrip_witness :
  split_message 7 (buildMessage DemoMail.cfg "bridge@example.org" ["ann@example.org"] "Invitation" "<p>" "text/html"
    "Mon, 02 Jan 2006 15:04:05 +0000") =
  Some (["From: bridge@example.org"; "To: ann@example.org"; "Subject: Invitation"; "Date: Mon, 02 Jan 2006 15:04:05 +0000";
         "MIME-Version: 1.0"; "Content-Type: text/html"], "<p>").
Proof. apply (message_roundtrip DemoMail.cfg); by repeat constructor. Defined.
