(* ===== verification/Dashboard.v ===== *)
(** * The dashboard of a user and the display of pools: [src/web/user.go], [src/web/admin.go]

    What the pages show of backends, tokens, pools and memory, with the conversions of
    [fmt] on 64-bit floats; and the operations of a pool that look at its warm processes:
    [GetProcessMemory], [IsReady] and [WaitForWarm] of [src/poolmgr/pool.go]. *)
From S2P Require Import Prelude GoStrings Sql Crypto EnforcerTypes Template Muxer Accounts Backends PoolRequests Process Pool PoolManager BackendStatus ToolLists BridgeTools.
Open Scope Z_scope.

(** ** Memory sizes *)

(** [n / d] rounded to the nearest integer, a tie to the even one. *)
Definition round_half_even (n d : Z) : Z :=
  let q := n / d in
  let r := 2 * (n mod d) in
  if r <? d then q else if d <? r then q + 1 else if Z.even q then q else q + 1.

(** [float64] of an unsigned integer: 53 bits of it. *)
Definition float64_of (n : Z) : Z :=
  let e := Z.log2 n - 52 in
  if e <=? 0 then n else round_half_even n (2 ^ e) * 2 ^ e.

(** The verb [%.<k>f] on the fraction [n / d]. *)
Definition decimals (k : nat) (n d : Z) : string :=
  let scale := 10 ^ Z.of_nat k in
  let v := round_half_even (n * scale) d in
  let frac := itoa (v mod scale) in
  if bool_decide (k = 0%nat) then itoa v
  else itoa (v / scale) +:+ "." +:+ repeated "0" (k - String.length frac) +:+ frac.

Definition mega : Z := 1024 * 1024.
Definition giga : Z := 1024 * mega.

(** Divisions by powers of two are exact. *)
Definition format_size (zero : string) (places : nat) (bytes : Z) : string :=
  if bytes =? 0 then zero
  else
    let f := float64_of bytes in
    if giga <? f then decimals places f giga +:+ " GB" else decimals 0 f mega +:+ " MB".

Definition formatBytes : Z -> string := format_size "0 B" 1.
Definition formatMemory : Z -> string := format_size "--" 2.

(** ** [DashboardHandler] *)

Module DashboardStatus.
Record t := mk { Backend : BackendRow.t; ConfiguredKeys : list string; Pool : option PoolStatus.t }.
End DashboardStatus.

(** The values of the page. *)
Record dashboard := DashboardPage {
  statuses : list DashboardStatus.t;
  TotalPools : Z;
  TotalWarm : Z;
  TotalActive : Z;
  TotalMemory : string;
  TokenCount : Z;
  BackendCount : Z
}.

Definition keys_for (backendID : string) (tokens : list UserToken.t) : list string :=
  UserToken.EnvKey <$> filter (fun t => UserToken.BackendID t = backendID) tokens.

(** The body of the loop over the backends; [None]: [continue]. *)
Definition dashboard_status (tokens : list UserToken.t) (userPools : list PoolStatus.t) (b : BackendRow.t) :
    option DashboardStatus.t :=
  if negb (BackendRow.Enabled b) then None
  else
    let keys := keys_for (BackendRow.ID b) tokens in
    if negb (BackendRow.NoKeysRequired b) && bool_decide (keys = []) then None
    else Some (DashboardStatus.mk b keys
                 (snd <$> list_find (fun p => PoolStatus.BackendID p = BackendRow.ID b) userPools)).

Definition dashboard_page (backends : list BackendRow.t) (tokens : list UserToken.t) (userPools : list PoolStatus.t) :
    dashboard :=
  let statuses := omap (dashboard_status tokens userPools) backends in
  DashboardPage statuses
    (Z.of_nat (length userPools))
    (foldl (fun n p => n +! PoolStatus.WarmCount p) 0 userPools)
    (foldl (fun n p => n +! (PoolStatus.CurrentSize p -! PoolStatus.WarmCount p)) 0 userPools)
    (formatBytes (foldl (fun n p => (n + PoolStatus.MemoryBytes p) mod TwoTo64) 0 userPools))
    (Z.of_nat (length tokens))
    (Z.of_nat (length statuses)).

Section Handler.
Context {KS : Type} `{SecretBox KS}.

(** The errors of the queries are not looked at.  [pools]: of the user, if there is a
    manager. *)
Definition DashboardHandler (userID : string) (pools : option (list PoolStatus.t)) (d : Backends.t KS) :
    dashboard * Backends.t KS :=
  let '(backends, d) := ListBackends d in
  let '(tokens, d) := on_accounts (GetAllUserTokens userID) d in
  (dashboard_page (match backends with Ok l => l | Err _ => [] end) (match tokens with Ok l => l | Err _ => [] end)
     (default [] pools), d).
End Handler.

(** ** The pools of [AdminBackendsHandler] *)

Module PoolStatusDisplay.
Record t := mk {
  BackendID : string; UserID : string; Command : string; WarmCount : Z; CurrentSize : Z; MinPoolSize : Z;
  MaxPoolSize : Z; TotalMemory : string; ProcessMemory : list string
}.
End PoolStatusDisplay.

Definition display_pool (p : PoolStatus.t) : PoolStatusDisplay.t :=
  PoolStatusDisplay.mk (PoolStatus.BackendID p) (PoolStatus.UserID p) (PoolStatus.Command p) (PoolStatus.WarmCount p)
    (PoolStatus.CurrentSize p) (PoolStatus.MinPoolSize p) (PoolStatus.MaxPoolSize p)
    (formatMemory (PoolStatus.MemoryBytes p)) (formatMemory <$> PoolStatus.ProcessMemory p).

Definition display_pools (pools : list PoolStatus.t) : list PoolStatusDisplay.t :=
  display_pool <$> filter (fun p => PoolStatus.BackendID p <> "mcpbridge") pools.

(** ** Looking at the warm processes *)

(** [None]: no end (a closed channel gives nil again and again, and a send on it panics),
    or the send waits for a place. *)
Fixpoint put_back (l : list nat) (s : Pool.t) : option Pool.t :=
  match l with
  | [] => Some s
  | p :: l =>
      if Pool.warm_closed s then None
      else if (length (Pool.Warm s) <? Pool.cap s)%nat then put_back l (Pool.set_warm (fun w => w ++ [p]) s)
      else None
  end.

(** [rss]: what the operating system says of a process.  [arriving]: the processes that
    come into the channel after it has been emptied. *)
Definition GetProcessMemory (rss : nat -> option Z) (arriving : list nat) (s : Pool.t) : option (list Z * Pool.t) :=
  if Pool.warm_closed s then None
  else
    let processes := Pool.Warm s in
    s ← put_back processes (Pool.set_warm (fun _ => arriving) s);
    Some (omap rss processes, s).

(** The first process goes to the end of the channel; every process of a pool is warm. *)
Definition IsReady (s : Pool.t) : option (bool * Pool.t) :=
  match Pool.Warm s with
  | [] => if Pool.warm_closed s then None else Some (false, s)
  | p :: rest => s ← put_back [p] (Pool.set_warm (fun _ => rest) s); Some (true, s)
  end.

(** The looks at the clock and the channel, every 50 ms; [counts]: the processes in the
    channel at each look. *)
Fixpoint WaitForWarm (counts : list (Time * nat)) (deadline : Time) : bool :=
  match counts with
  | [] => false
  | (now, n) :: counts =>
      if deadline <=? now then false else if (0 <? n)%nat then true else WaitForWarm counts deadline
  end.

(** * Properties *)

(** *** Rounding *)

Lemma round_half_even_error n d : 0 < d -> 2 * Z.abs (round_half_even n d * d - n) <= d.
Proof.
  intros Hd. pose proof (Z.div_mod n d ltac:(lia)) as Hn. pose proof (Z.mod_pos_bound n d Hd) as Hm.
  unfold round_half_even. cbv zeta. destruct (Z.ltb_spec (2 * (n mod d)) d); [nia|].
  destruct (Z.ltb_spec d (2 * (n mod d))); [nia|]. destruct (Z.even (n / d)); nia.
Qed.

Lemma round_half_even_nonneg n d : 0 < d -> 0 <= n -> 0 <= round_half_even n d.
Proof.
  intros Hd Hn. assert (0 <= n / d) by (apply Z.div_pos; lia). unfold round_half_even. cbv zeta. repeat case_match; lia.
Qed.

Lemma float64_of_small n : 0 < n < 2 ^ 53 -> float64_of n = n.
Proof.
  intros Hn. unfold float64_of. assert (Z.log2 n < 53) by (apply Z.log2_lt_pow2; lia).
  by rewrite (proj2 (Z.leb_le _ _)) by lia.
Qed.

(** The sizes shown are right to half of the last digit: megabytes up to 1024 of them, and
    gigabytes with a digit after the point above that. *)
Theorem formatBytes_error bytes : 0 < bytes < 2 ^ 53 ->
  exists v, 0 <= v /\
  ((bytes <= giga /\ formatBytes bytes = itoa v +:+ " MB" /\ 2 * Z.abs (v * mega - bytes) <= mega) \/
   (giga < bytes /\ formatBytes bytes = itoa (v / 10) +:+ "." +:+ itoa (v mod 10) +:+ " GB" /\
      2 * Z.abs (v * giga - bytes * 10) <= giga)).
Proof.
  intros Hb. unfold formatBytes, format_size. rewrite (proj2 (Z.eqb_neq _ _)), float64_of_small by lia. cbv zeta.
  destruct (Z.ltb_spec giga bytes) as [Hg|Hg].
  - exists (round_half_even (bytes * 10) giga). split; [by apply round_half_even_nonneg; [done|lia]|]. right.
    split_and!; [done| |by apply round_half_even_error]. unfold decimals. change (10 ^ Z.of_nat 1) with 10.
    rewrite bool_decide_eq_false_2 by done. set (v := round_half_even _ _).
    assert (Hl : String.length (itoa (v mod 10)) = 1%nat).
    { assert (Hm : v mod 10 ∈ seqZ 0 10) by (apply elem_of_seqZ; pose proof (Z.mod_pos_bound v 10); lia).
      revert Hm. generalize (v mod 10). apply Forall_forall. by apply (bool_decide_unpack _); vm_compute. }
    by rewrite Hl, <- !str_app_assoc.
  - exists (round_half_even bytes mega). split; [apply round_half_even_nonneg; [done|lia]|]. left.
    split_and!; [done| |by apply round_half_even_error]. unfold decimals. by rewrite Z.mul_1_r.
Qed.

(** *** The page *)

Definition shown (tokens : list UserToken.t) (b : BackendRow.t) : Prop :=
  BackendRow.Enabled b = true /\
  (BackendRow.NoKeysRequired b = true \/ exists t, t ∈ tokens /\ UserToken.BackendID t = BackendRow.ID b).

Lemma keys_for_nil b tokens : keys_for b tokens <> [] <-> exists t, t ∈ tokens /\ UserToken.BackendID t = b.
Proof.
  unfold keys_for. split.
  - intros Hne. destruct (filter _ tokens) as [|t l] eqn:Hf; [done|].
    assert (Ht : t ∈ filter (fun t => UserToken.BackendID t = b) tokens) by (rewrite Hf; left).
    apply list_elem_of_filter in Ht as [Hb Ht]. eauto.
  - intros (t & Ht & Hb) Hn. apply fmap_nil_inv in Hn.
    assert (Hin : t ∈ filter (fun t => UserToken.BackendID t = b) tokens) by by apply list_elem_of_filter.
    rewrite Hn in Hin. by apply elem_of_nil in Hin.
Qed.

Lemma dashboard_status_shown tokens pools b :
  (shown tokens b -> exists pool, dashboard_status tokens pools b =
     Some (DashboardStatus.mk b (keys_for (BackendRow.ID b) tokens) pool) /\
     pool = (snd <$> list_find (fun p => PoolStatus.BackendID p = BackendRow.ID b) pools)) /\
  (~ shown tokens b -> dashboard_status tokens pools b = None).
Proof.
  unfold dashboard_status, shown. pose proof (keys_for_nil (BackendRow.ID b) tokens) as Hk.
  destruct (BackendRow.Enabled b), (BackendRow.NoKeysRequired b); cbn [negb andb]; (split; [intros Hs|intros Hs]).
  all: try (by destruct Hs); try (by eexists); try (exfalso; apply Hs; by auto).
  - case_bool_decide as Hn; [|by eexists]. destruct Hs as [_ [?|Ht]]; [done|]. by apply Hk in Ht.
  - case_bool_decide as Hn; [done|]. exfalso. apply Hs. split; [done|]. right. by apply Hk.
Qed.

(** The dashboard of a user shows the enabled backends that need no keys and those he has
    a key for, each once and in the order of the table, with the names of exactly his keys
    and the pool of that backend; the backends he has no key for are not counted. *)
Theorem dashboard_exact backends tokens pools :
  let page := dashboard_page backends tokens pools in
  (DashboardStatus.Backend <$> statuses page) `sublist_of` backends /\
  (forall b, b ∈ DashboardStatus.Backend <$> statuses page <-> b ∈ backends /\ shown tokens b) /\
  (forall s, s ∈ statuses page -> forall key, key ∈ DashboardStatus.ConfiguredKeys s <->
     exists t, t ∈ tokens /\ UserToken.EnvKey t = key /\ UserToken.BackendID t = BackendRow.ID (DashboardStatus.Backend s)) /\
  (forall s p, s ∈ statuses page -> DashboardStatus.Pool s = Some p ->
     p ∈ pools /\ PoolStatus.BackendID p = BackendRow.ID (DashboardStatus.Backend s)).
Proof.
  intros page. unfold page, dashboard_page. cbn [statuses]. clear page.
  assert (Hsome : forall b s, dashboard_status tokens pools b = Some s -> shown tokens b /\
    s = DashboardStatus.mk b (keys_for (BackendRow.ID b) tokens)
          (snd <$> list_find (fun p => PoolStatus.BackendID p = BackendRow.ID b) pools)).
  { intros b s Hs. destruct (dashboard_status_shown tokens pools b) as [H1 H2].
    assert (Hd : Decision (shown tokens b)).
    { unfold dashboard_status in Hs. destruct (BackendRow.Enabled b) eqn:He; [|by right; intros [? _]].
      destruct (BackendRow.NoKeysRequired b) eqn:Hn; [left; split; [done|by left]|].
      cbn [negb andb] in Hs. case_bool_decide as Hk; [done|]. left. split; [done|]. right. by apply keys_for_nil. }
    destruct Hd as [Hsh|Hsh]; [|by rewrite (H2 Hsh) in Hs]. destruct (H1 Hsh) as (pool & Heq & ->).
    rewrite Heq in Hs. by injection Hs as <-. }
  split_and!.
  - induction backends as [|b l IH]; [constructor|]. cbn [omap list_omap]. destruct (dashboard_status tokens pools b) as [s|] eqn:Hs.
    + destruct (Hsome b s Hs) as [_ ->]. cbn. by constructor.
    + by apply sublist_cons.
  - intros b. rewrite list_elem_of_fmap. split.
    + intros (s & -> & Hs). apply list_elem_of_omap in Hs as (b' & Hb' & Hs). by destruct (Hsome b' s Hs) as [Hsh ->].
    + intros [Hb Hsh]. destruct (dashboard_status_shown tokens pools b) as [H1 _]. destruct (H1 Hsh) as (pool & Heq & _).
      eexists. split; [|apply list_elem_of_omap; exists b; split; [done|exact Heq]]. done.
  - intros s Hs key. apply list_elem_of_omap in Hs as (b & Hb & Hs). destruct (Hsome b s Hs) as [_ ->].
    cbn. unfold keys_for. rewrite list_elem_of_fmap. setoid_rewrite list_elem_of_filter. naive_solver.
  - intros s p Hs Hp. apply list_elem_of_omap in Hs as (b & Hb & Hs). destruct (Hsome b s Hs) as [_ ->]. cbn in *.
    destruct (list_find _ pools) as [[i q]|] eqn:Hf; [|done]. cbn in Hp. injection Hp as <-.
    apply list_find_Some in Hf as (Hi & Hq & _). split; [by eapply list_elem_of_lookup_2|done].
Qed.

(** *** Pools *)

Lemma put_back_fits l : forall s, Pool.warm_closed s = false -> (length (Pool.Warm s) + length l <= Pool.cap s)%nat ->
  put_back l s = Some (Pool.set_warm (fun w => w ++ l) s).
Proof.
  induction l as [|p l IH]; intros s Hc Hl; cbn [put_back].
  - f_equal. destruct s; cbn. unfold Pool.set_warm; cbn. by rewrite app_nil_r.
  - cbn in Hl. rewrite Hc, (proj2 (Nat.ltb_lt _ _)) by lia. rewrite IH; [|done|cbn; rewrite length_app; cbn; lia].
    f_equal. destruct s; cbn. unfold Pool.set_warm; cbn. by rewrite <- app_assoc.
Qed.

Lemma put_back_full l : forall s, (length (Pool.Warm s) <= Pool.cap s)%nat ->
  (Pool.cap s < length (Pool.Warm s) + length l)%nat -> put_back l s = None.
Proof.
  induction l as [|p l IH]; intros s Hl Hf; cbn [put_back length] in *; [lia|]. destruct (Pool.warm_closed s); [done|].
  destruct (Nat.ltb_spec (length (Pool.Warm s)) (Pool.cap s)); [|done].
  apply IH; cbn; rewrite length_app; cbn; lia.
Qed.

(** The display of memory takes the warm processes out of the channel and puts them back.
    Alone it changes nothing and shows each of them.  It never ends when the processes
    that come meanwhile take the places of those taken out (a release does not wait for
    the lock that is held), nor on a pool that has been shut down, where nil comes out of
    the channel without end: then the lock of the pool is held for good. *)
Theorem memory_look rss arriving s :
  (length (Pool.Warm s) <= Pool.cap s)%nat -> (length arriving <= Pool.cap s)%nat ->
  GetProcessMemory rss arriving s =
    if Pool.warm_closed s || (Pool.cap s <? length arriving + length (Pool.Warm s))%nat then None
    else Some (omap rss (Pool.Warm s), Pool.set_warm (fun w => arriving ++ w) s).
Proof.
  intros Hc Ha. unfold GetProcessMemory. destruct (Pool.warm_closed s) eqn:Hw; [done|]. cbn [orb].
  destruct (Nat.ltb_spec (Pool.cap s) (length arriving + length (Pool.Warm s))) as [Hf|Hf].
  - by rewrite put_back_full.
  - rewrite put_back_fits by done. cbn [mbind option_bind]. by destruct s.
Qed.

(** A look for a warm process finds one exactly when there is one; it does not take it,
    but puts it at the end.  On a pool that has been shut down and emptied it panics. *)
Theorem ready_rotates s : (length (Pool.Warm s) <= Pool.cap s)%nat -> Pool.warm_closed s = false ->
  exists s', IsReady s = Some (bool_decide (Pool.Warm s <> []), s') /\
    Pool.Warm s' = (drop 1 (Pool.Warm s) ++ take 1 (Pool.Warm s)) /\ Pool.CurrentSize s' = Pool.CurrentSize s.
Proof.
  intros Hl Hc. unfold IsReady. destruct (Pool.Warm s) as [|p rest] eqn:Hw.
  - rewrite Hc. exists s. split; [done|]. by rewrite Hw.
  - cbn in Hl. rewrite put_back_fits; [|done|cbn; lia]. eexists. split; [reflexivity|]. cbn. done.
Qed.

(** What the pages call active: the size of a pool less its warm processes. *)
Definition shown_active (p : PoolStatus.t) : Z := PoolStatus.CurrentSize p - PoolStatus.WarmCount p.

(** It never counts a process in use: taking one out of a pool for a request, and giving
    it back to a pool that has a place for it, leave the number as it is. *)
Theorem acquired_not_active memory parts n u p s' :
  Pool.TryAcquireWarm (UserPool.core u) = (Some p, s') ->
  let active s := shown_active (PoolManager.status_of memory parts n (UserPool.set_core s u)) in
  active s' = active (UserPool.core u) /\
  (Pool.warm_closed s' = false -> (length (Pool.Warm s') < Pool.cap s')%nat -> active (Pool.ReleaseWarm p s') = active s').
Proof.
  intros Ha active. subst active. unfold shown_active, PoolManager.status_of, Pool.WarmCount. cbn.
  unfold Pool.TryAcquireWarm in Ha. destruct (UserPool.core u) as [w c wc sp cmd bd cl mn mx sz sa ms lf sps rt pr nx pn] eqn:Hu.
  cbn [Pool.Warm Pool.warm_closed] in Ha. destruct w as [|q rest]; [by destruct wc|].
  destruct (negb _); [done|]. injection Ha as <- <-. cbn. split; [lia|].
  intros Hwc Hl. unfold Pool.ReleaseWarm. cbn -[Nat.ltb] in *. rewrite Hwc, (proj2 (Nat.ltb_lt _ _)) by done. cbn. rewrite length_app. cbn. lia.
Qed.

(** ** Examples *)

Module DemoDashboard.
Definition warm : Pool.t := pool_run (replicate 5 (OStep 0 true EmptyString)) (Pool.NewPool 1 "cat").
Definition user_pool : UserPool.t := UserPool.mk warm EmptyString false EmptyString EmptyString 0.
End DemoDashboard.

Lemma formatBytes_error_witness : formatBytes 1610612736 = "1.5 GB" /\ exists v, 2 * Z.abs (v * giga - 1610612736 * 10) <= giga.
Proof.
  split; [by vm_compute|]. destruct (formatBytes_error 1610612736) as (v & _ & [[Hl _]|(_ & _ & Hv)]); [lia| |by exists v].
  exfalso. unfold giga, mega in Hl. lia.
Defined.

Lemma memory_look_witness :
  GetProcessMemory (fun _ => Some 7) [] DemoDashboard.warm = Some ([7], DemoDashboard.warm) /\
  GetProcessMemory (fun _ => Some 7) [3%nat] DemoDashboard.warm = None.
Proof. split; (rewrite memory_look; [by vm_compute|vm_compute; lia..]). Defined.

Lemma ready_rotates_witness : exists s', IsReady DemoDashboard.warm = Some (true, s').
Proof.
  destruct (ready_rotates DemoDashboard.warm) as (s' & Hr & _); [vm_compute; lia|done|]. exists s'. exact Hr.
Defined.

Lemma acquired_not_active_witness :
  shown_active (PoolManager.status_of (fun _ => []) ("gh", "ann") 0
    (UserPool.set_core (Pool.TryAcquireWarm DemoDashboard.warm).2 DemoDashboard.user_pool)) = 0.
Proof.
  destruct (acquired_not_active (fun _ => []) ("gh", "ann") 0 DemoDashboard.user_pool 1 (Pool.TryAcquireWarm DemoDashboard.warm).2)
    as [-> _]; by vm_compute.
Defined.
