(* ===== verification/WebRoutes.v ===== *)
(** * The routes of the web console: [Handler.Register] of [src/web/web.go]

    Every pattern with its guard and its handler, and the handler that [http.ServeMux]
    picks for a path.  The pages behind the names are in [WebAuth], [WebInvite],
    [WebBackends], [Dashboard], [EnforcerWeb] and [RateLimitWeb]. *)
From S2P Require Import Prelude GoStrings EnforcerTypes EnforcerWeb.
Open Scope Z_scope.

(** [accessLog], [requireAuth], [requireAdmin]. *)
Inductive access := Public | Authenticated | Administrator.

#[export] Instance access_eq_dec : EqDecision access.
Proof. solve_decision. Defined.

Definition Register : list (string * (access * string)) :=
  [("/web/login", (Public, "LoginHandler"));
   ("/web/logout", (Public, "LogoutHandler"));
   ("/web/invite", (Public, "InviteSignupHandler"));
   ("/web/login/2fa", (Public, "Login2FAHandler"));
   ("/web/setup-2fa", (Public, "Setup2FAHandler"));
   ("/web/", (Authenticated, "DashboardHandler"));
   ("/web/tokens", (Authenticated, "TokensHandler"));
   ("/web/tokens/save", (Authenticated, "TokensSaveHandler"));
   ("/web/tokens/delete", (Authenticated, "TokensDeleteHandler"));
   ("/web/password", (Authenticated, "PasswordHandler"));
   ("/web/apikeys", (Authenticated, "APIKeysHandler"));
   ("/web/apikeys/create", (Authenticated, "APIKeysCreateHandler"));
   ("/web/apikeys/delete", (Authenticated, "APIKeysDeleteHandler"));
   ("/web/2fa", (Authenticated, "TwoFASettingsHandler"));
   ("/web/admin/users", (Administrator, "AdminUsersHandler"));
   ("/web/admin/users/create", (Administrator, "AdminUsersCreateHandler"));
   ("/web/admin/users/edit", (Administrator, "AdminUsersEditHandler"));
   ("/web/admin/users/delete", (Administrator, "AdminUsersDeleteHandler"));
   ("/web/admin/users/2fa-reset", (Administrator, "AdminUsers2FAResetHandler"));
   ("/web/admin/invites", (Administrator, "AdminInvitesHandler"));
   ("/web/admin/invites/create", (Administrator, "AdminInvitesCreateHandler"));
   ("/web/admin/invites/revoke", (Administrator, "AdminInvitesRevokeHandler"));
   ("/web/admin/backends", (Administrator, "AdminBackendsHandler"));
   ("/web/admin/backends/create", (Administrator, "AdminBackendsCreateHandler"));
   ("/web/admin/backends/edit", (Administrator, "AdminBackendsEditHandler"));
   ("/web/admin/backends/delete", (Administrator, "AdminBackendsDeleteHandler"));
   ("/web/admin/backends/probe", (Administrator, "AdminBackendsProbeHandler"));
   ("/web/admin/backends/preview-env", (Administrator, "AdminBackendsPreviewEnvHandler"));
   ("/web/admin/backends/refresh-tools", (Administrator, "AdminBackendsRefreshToolsHandler"));
   ("/web/admin/settings/global_hints", (Administrator, "AdminSettingsGlobalHintsHandler"));
   ("/web/admin/oauth-clients", (Administrator, "AdminOAuthClientsHandler"));
   ("/web/admin/oauth-clients/create", (Administrator, "AdminOAuthClientsCreateHandler"));
   ("/web/admin/oauth-clients/delete", (Administrator, "AdminOAuthClientsDeleteHandler"));
   ("/web/admin/enforcer/queue", (Administrator, "QueuePageHandler"));
   ("/web/admin/enforcer/policies", (Administrator, "PoliciesPageHandler"));
   ("/web/admin/enforcer/policies/new", (Administrator, "PoliciesNewPageHandler"));
   ("/web/admin/enforcer/policies/create", (Administrator, "PoliciesCreateHandler"));
   ("/web/admin/enforcer/policies/edit", (Administrator, "PoliciesEditPageHandler"));
   ("/web/admin/enforcer/policies/update", (Administrator, "PoliciesUpdateHandler"));
   ("/web/admin/enforcer/policies/delete", (Administrator, "PoliciesDeleteHandler"));
   ("/web/admin/enforcer/api/policies", (Administrator, "ListPolicies"));
   ("/web/admin/enforcer/api/approvals", (Administrator, "ListPendingApprovals"));
   ("/web/admin/enforcer/api/approval-status", (Administrator, "GetApprovalStatus"));
   ("/web/admin/enforcer/api/approve", (Administrator, "ApproveRequest"));
   ("/web/admin/enforcer/api/deny", (Administrator, "DenyRequest"));
   ("/web/admin/enforcer/kill-switch/enable", (Administrator, "EnableKillSwitch"));
   ("/web/admin/enforcer/kill-switch/disable", (Administrator, "DisableKillSwitch"));
   ("/web/admin/enforcer/events", (Administrator, "SSEHandler"));
   ("/web/admin/enforcer/profiles", (Administrator, "ToolProfilesPageHandler"));
   ("/web/admin/enforcer/profiles/backend", (Administrator, "BackendToolProfilesHandler"));
   ("/web/admin/enforcer/profiles/overrides", (Administrator, "OverridesPageHandler"));
   ("/web/admin/enforcer/profiles/override/create", (Administrator, "OverrideCreateHandler"));
   ("/web/admin/enforcer/profiles/override/delete", (Administrator, "OverrideDeleteHandler"));
   ("/web/user/enforcer/queue", (Authenticated, "UserQueuePageHandler"));
   ("/web/user/enforcer/policies", (Authenticated, "UserPoliciesPageHandler"));
   ("/web/user/enforcer/overrides", (Authenticated, "UserOverridesPageHandler"));
   ("/web/user/enforcer/overrides/create", (Authenticated, "UserOverrideCreateHandler"));
   ("/web/user/enforcer/overrides/delete", (Authenticated, "UserOverrideDeleteHandler"));
   ("/web/user/enforcer/api/approve", (Authenticated, "UserApproveRequest"));
   ("/web/user/enforcer/policy-request", (Authenticated, "PolicyRequestHandler"));
   ("/web/user/enforcer/api/deny", (Authenticated, "UserDenyRequest"));
   ("/web/user/enforcer/events", (Authenticated, "UserSSEHandler"));
   ("/web/admin/enforcer/user-queues", (Administrator, "UserQueuesPageHandler"));
   ("/web/admin/ratelimits", (Administrator, "ListRateLimits"));
   ("/web/admin/ratelimits/config", (Administrator, "UpdateRateLimitConfig"));
   ("/web/admin/ratelimits/reset", (Administrator, "ResetUserBuckets"))].

(** ** [http.ServeMux] *)

(** A pattern that ends in a slash stands for every path below it. *)
Definition pattern_matches (pattern path : string) : bool :=
  if has_suffix pattern "/" then has_prefix path pattern else bool_decide (pattern = path).

(** The longest pattern wins. *)
Definition longer {A} (a b : option (string * A)) : option (string * A) :=
  match a, b with
  | Some x, Some y => if (String.length x.1 <? String.length y.1)%nat then b else a
  | None, _ => b
  | _, None => a
  end.

(** The path has been cleaned. *)
Definition ServeHTTP {A} (mux : list (string * A)) (path : string) : option (string * A) :=
  foldr (fun r best => longer (if pattern_matches r.1 path then Some r else None) best) None mux.

(** The severity shown for a safety profile: [inferSeverity] of [NewHandler].  [risk]: the
    field as [json.Unmarshal] reads it. *)
Definition inferSeverity (risk : option string) : string :=
  match risk with
  | None => "medium"
  | Some risk => if bool_decide (risk ∈ ["critical"; "high"; "low"]) then risk else "medium"
  end.

(** * Properties *)

Lemma serve_in {A} (mux : list (string * A)) path r : ServeHTTP mux path = Some r -> r ∈ mux /\ pattern_matches r.1 path = true.
Proof.
  induction mux as [|x mux IH]; [done|]. cbn [ServeHTTP foldr]. change (foldr _ None mux) with (ServeHTTP mux path).
  destruct (pattern_matches x.1 path) eqn:Hm; cbn [longer].
  - destruct (ServeHTTP mux path) as [y|]; [case_match|]; intros [= <-].
    + destruct IH as [Hy Hp]; [done|]. split; [by right|done].
    + split; [by left|done].
    + split; [by left|done].
  - intros Hs. destruct IH as [Hy Hp]; [done|]. split; [by right|done].
Qed.

Lemma serve_some {A} (mux : list (string * A)) path r : r ∈ mux -> pattern_matches r.1 path = true -> is_Some (ServeHTTP mux path).
Proof.
  induction mux as [|x mux IH]; intros Hr Hm; [by apply elem_of_nil in Hr|]. cbn [ServeHTTP foldr].
  change (foldr _ None mux) with (ServeHTTP mux path). apply elem_of_cons in Hr as [->|Hr].
  - rewrite Hm. destruct (ServeHTTP mux path); cbn [longer]; [case_match|]; by eexists.
  - destruct (IH Hr Hm) as [y ->]. destruct (pattern_matches x.1 path); cbn [longer]; [case_match|]; by eexists.
Qed.

(** The longest pattern: nothing that matches is longer than the one picked. *)
Lemma serve_longest {A} (mux : list (string * A)) path r r' : ServeHTTP mux path = Some r -> r' ∈ mux -> pattern_matches r'.1 path = true ->
  (String.length r'.1 <= String.length r.1)%nat.
Proof.
  revert r. induction mux as [|x mux IH]; intros r Hs Hr Hm; [done|]. cbn [ServeHTTP foldr] in Hs.
  change (foldr _ None mux) with (ServeHTTP mux path) in Hs. apply elem_of_cons in Hr as [->|Hr].
  - rewrite Hm in Hs. destruct (ServeHTTP mux path) as [y|]; cbn [longer] in Hs; [|by injection Hs as <-].
    destruct (Nat.ltb_spec (String.length x.1) (String.length y.1)); injection Hs as <-; lia.
  - destruct (serve_some mux path r' Hr Hm) as [y Hy]. rewrite Hy in Hs. specialize (IH y Hy Hr Hm).
    destruct (pattern_matches x.1 path); cbn [longer] in Hs; [|by injection Hs as <-].
    destruct (Nat.ltb_spec (String.length x.1) (String.length y.1)); injection Hs as <-; lia.
Qed.

Definition public_paths : list string := ["/web/login"; "/web/logout"; "/web/invite"; "/web/login/2fa"; "/web/setup-2fa"].

(** What a pattern other than the dashboard's has to keep to. *)
Definition guarded (r : string * (access * string)) : bool :=
  negb (has_suffix r.1 "/") &&
  match r.2.1 with
  | Public => bool_decide (r.1 ∈ public_paths)
  | Authenticated => negb (has_prefix r.1 "/web/admin/")
  | Administrator => has_prefix r.1 "/web/admin/"
  end.

Definition dashboard_route : string * (access * string) := ("/web/", (Authenticated, "DashboardHandler")).

Lemma routes_guarded : Forall (fun r => r = dashboard_route \/ guarded r = true) Register.
Proof.
  apply Forall_forall. intros r Hr. destruct (decide (r = dashboard_route)) as [->|Hne]; [by left|right].
  assert (Hall : forallb (fun r => bool_decide (r.1 = "/web/") || guarded r) Register = true) by by vm_compute.
  rewrite forallb_forall in Hall. specialize (Hall r (proj1 (list_elem_of_In _ _) Hr)). apply orb_true_iff in Hall as [Hd|Hg]; [|done].
  exfalso. apply Hne. apply bool_decide_eq_true in Hd. revert Hr Hd. clear.
  assert (Hall : forallb (fun r => negb (bool_decide (r.1 = "/web/")) || bool_decide (r = dashboard_route)) Register = true)
    by by vm_compute.
  rewrite forallb_forall in Hall. intros Hr Hd. specialize (Hall r (proj1 (list_elem_of_In _ _) Hr)).
  rewrite bool_decide_eq_true_2 in Hall by done. cbn in Hall. by apply bool_decide_eq_true in Hall.
Qed.

(** Every path of the console has a page, and its guard follows from the path: the five
    public pages are open, the pages of administrators under their prefix are for them
    alone, every other page needs a login.  A path under the prefix of administrators
    that no pattern names shows the dashboard, to any user. *)
Theorem console_paths_guarded path : has_prefix path "/web/" = true ->
  exists r, ServeHTTP Register path = Some r /\
    (r = dashboard_route /\ (forall r', r' ∈ Register -> r'.1 = path -> r' = dashboard_route) \/
     r ∈ Register /\ r.1 = path /\
     match r.2.1 with
     | Public => path ∈ public_paths
     | Authenticated => has_prefix path "/web/admin/" = false
     | Administrator => has_prefix path "/web/admin/" = true
     end).
Proof.
  intros Hp. assert (Hd : dashboard_route ∈ Register) by by apply (list_elem_of_lookup_2 Register 5).
  destruct (serve_some Register path dashboard_route Hd Hp) as [r Hr]. exists r. split; [done|].
  destruct (serve_in _ _ _ Hr) as [Hin Hm]. pose proof routes_guarded as Hall. rewrite Forall_forall in Hall.
  destruct (Hall r Hin) as [->|Hg].
  - left. split; [done|]. intros r' Hr' Hpath. destruct (Hall r' Hr') as [Hd'|Hg']; [done|].
    unfold guarded in Hg'. apply andb_true_iff in Hg' as [Hs _]. apply negb_true_iff in Hs.
    assert (Hm' : pattern_matches r'.1 path = true) by (unfold pattern_matches; rewrite Hs; by apply bool_decide_eq_true_2).
    pose proof (serve_longest _ _ _ _ Hr Hr' Hm') as Hl. exfalso. rewrite Hpath in Hl.
    apply has_prefix_spec in Hp as [rest Hrest]. rewrite Hrest in Hl. cbn in Hl. destruct rest; cbn in Hl; [|lia].
    rewrite Hpath, Hrest in Hs. done.
  - right. unfold guarded in Hg. apply andb_true_iff in Hg as [Hs Hg]. apply negb_true_iff in Hs.
    unfold pattern_matches in Hm. rewrite Hs in Hm. apply bool_decide_eq_true in Hm. rewrite Hm in *.
    split_and!; [done..|]. destruct (r.2.1); [by apply bool_decide_eq_true in Hg|by apply negb_true_iff in Hg|done].
Qed.

(** [http.ServeMux] panics on a pattern that is registered twice: no two are the same. *)
Theorem Register_distinct : NoDup Register.*1.
Proof. apply (bool_decide_unpack _). by vm_compute. Qed.

Lemma console_paths_guarded_witness :
  exists r, ServeHTTP Register "/web/admin/backends/probe" = Some r /\ r.2.1 = Administrator.
Proof.
  destruct (console_paths_guarded "/web/admin/backends/probe") as (r & Hr & _); [by vm_compute|].
  exists r. split; [exact Hr|]. vm_compute in Hr. by injection Hr as <-.
Defined.

(** The guards of the pages of [EnforcerWeb] are those of the table. *)
Definition access_of (g : EnforcerHandler.guard) : access :=
  match g with EnforcerHandler.RequireAdmin => Administrator | EnforcerHandler.RequireAuth => Authenticated end.

Section Agreement.
Context `{CelEngine.CelLib} `{Enforcer.EnforcerEnv}.
Import EnforcerHandler.

Theorem enforcer_guards_agree indent u i :
  Forall (fun r => (fun x => (x.1, x.2.1)) <$> ServeHTTP Register r.1 = Some (r.1, access_of r.2.1)) (routes indent u i).
Proof. unfold routes. repeat (apply Forall_cons; split; [by vm_compute|]). apply Forall_nil_2. Qed.
End Agreement.
