(* ===== verification/Recycler.v ===== *)
(** * The recycler of processes: [src/poolmgr/recycler.go]

    Processes of one backend given to users one at a time, with a policy for what becomes
    of them afterwards.  The pool is that of [Pool], with its counter of active processes. *)
From S2P Require Import Prelude GoStrings PoolRequests Process Pool Sse.
Open Scope Z_scope.

Inductive RecyclePolicy := RecyclePolicyAlways | RecyclePolicyDedicated | RecyclePolicyOnError | OtherPolicy.

Module SafetyRecycler.
Record t := mk {
  backend : streamed;                          (* the pool of the backend in question *)
  dedicated : gmap string nat;                 (* of that backend, by user *)
  recyclePolicy : RecyclePolicy;
  user_of : gmap nat string;                   (* [UserID] of the processes *)
  lines_closed : gset nat                      (* processes whose [LineChan] is closed *)
}.
End SafetyRecycler.
Import SafetyRecycler.

Definition NewSafetyRecycler (s : streamed) : t := mk s ∅ RecyclePolicyDedicated ∅ ∅.

Definition SetRecyclePolicy (policy : RecyclePolicy) (s : t) : t :=
  mk (backend s) (dedicated s) policy (user_of s) (lines_closed s).

Definition dedicates (s : t) : bool :=
  match recyclePolicy s with RecyclePolicyDedicated => true | _ => false end.

(** [None]: the pool is shut down, and the nil from its channel is used. *)
Definition AcquireProcess (userID : string) (s : t) : option (option nat * t) :=
  match take_warm (backend s) with
  | (Process p, b) =>
      Some (Some p, mk (IncrementActive b) (if dedicates s then <[userID := p]> (dedicated s) else dedicated s)
                      (recyclePolicy s) (<[p := userID]> (user_of s)) (lines_closed s))
  | (Nil, _) => None
  | _ => Some (None, s)
  end.

Definition shouldRecycle (err : option error) (s : t) : bool :=
  match recyclePolicy s with
  | RecyclePolicyAlways => true
  | RecyclePolicyOnError => match err with Some _ => true | None => false end
  | _ => false
  end.

(** [None]: a channel is closed twice or sent to after it was closed, or the send waits
    for a place. *)
Definition ReleaseProcess (userID : string) (p : nat) (err : option error) (s : t) : option t :=
  if shouldRecycle err s then
    if bool_decide (p ∈ lines_closed s) then None
    else
      let b := backend s in
      Some (mk (DecrementActive (Streamed (Pool.go_spawn (Pool.kill p (pool b))) (activeCount b)))
              (dedicated s) (recyclePolicy s) (user_of s) ({[ p ]} ∪ lines_closed s))
  else
    let b := backend s in
    if Pool.warm_closed (pool b) || negb (length (Pool.Warm (pool b)) <? Pool.cap (pool b))%nat then None
    else Some (mk (DecrementActive (Streamed (Pool.set_warm (fun w => w ++ [p]) (pool b)) (activeCount b)))
                 (if dedicates s then delete userID (dedicated s) else dedicated s)
                 (recyclePolicy s) (user_of s) (lines_closed s)).

Definition GetDedicatedProcess (userID : string) (s : t) : option nat := dedicated s !! userID.

Definition ReleaseDedicated (userID : string) (s : t) : t :=
  match dedicated s !! userID with
  | None => s
  | Some p => mk (Streamed (Pool.kill p (pool (backend s))) (activeCount (backend s))) (delete userID (dedicated s))
                (recyclePolicy s) (user_of s) (lines_closed s)
  end.

(** * Properties *)

(** With the policy it starts with a process that has failed goes back to the pool like
    any other, and the next user who comes gets it. *)
Theorem failed_process_is_reused user p err s s' other :
  recyclePolicy s = RecyclePolicyDedicated -> ReleaseProcess user p (Some err) s = Some s' ->
  Pool.Warm (pool (backend s)) = [] ->
  exists s'', AcquireProcess other s' = Some (Some p, s'') /\ GetDedicatedProcess other s'' = Some p.
Proof.
  intros Hp Hr Hw. unfold ReleaseProcess, shouldRecycle in Hr. rewrite Hp in Hr. destruct (_ || _); [done|].
  injection Hr as <-. unfold AcquireProcess, take_warm, GetDedicatedProcess, dedicates. cbn. rewrite Hw. cbn.
  eexists. split; [done|]. cbn. by rewrite lookup_insert_eq.
Qed.

(** A user who takes a process and gives it back leaves everything as it was, but for the
    order of the warm processes and the name on the process. *)
Theorem acquire_release user p s s' :
  dedicates s = true -> dedicated s !! user = None -> Pool.warm_closed (pool (backend s)) = false ->
  (length (Pool.Warm (pool (backend s))) <= Pool.cap (pool (backend s)))%nat ->
  AcquireProcess user s = Some (Some p, s') ->
  GetDedicatedProcess user s' = Some p /\
  exists s'', ReleaseProcess user p None s' = Some s'' /\
    dedicated s'' = dedicated s /\ activeCount (backend s'') = activeCount (backend s) /\
    Pool.Warm (pool (backend s'')) ≡ₚ Pool.Warm (pool (backend s)).
Proof.
  intros Hd Hn Hc Hl Ha. unfold AcquireProcess, take_warm in Ha. destruct (Pool.Warm (pool (backend s))) as [|q rest] eqn:Hw.
  { by rewrite Hc in Ha. }
  rewrite Hd in Ha. injection Ha as <- <-. unfold GetDedicatedProcess. cbn [dedicated]. rewrite lookup_insert_eq.
  split; [done|]. unfold ReleaseProcess, shouldRecycle. cbn [recyclePolicy].
  unfold dedicates in *. destruct (recyclePolicy s); try done. cbn -[Nat.ltb] in *. rewrite Hc.
  rewrite (proj2 (Nat.ltb_lt _ _)) by lia. cbn [negb orb]. eexists. split; [reflexivity|]. cbn.
  split_and!; [by rewrite delete_insert_id|lia|]. symmetry. apply Permutation_cons_append.
Qed.

(** ** Examples *)

Module DemoRecycler.
Definition start : t := NewSafetyRecycler (Streamed DemoSse.pool 0).
Definition taken : t := default start (snd <$> AcquireProcess "ann" start).
End DemoRecycler.

Lemma failed_process_is_reused_witness :
  exists s s'', ReleaseProcess "ann" 1 (Some (Errorf "broken pipe")) DemoRecycler.taken = Some s /\
    AcquireProcess "bob" s = Some (Some 1%nat, s'').
Proof.
  destruct (ReleaseProcess "ann" 1 (Some (Errorf "broken pipe")) DemoRecycler.taken) as [s|] eqn:Hr; [|by vm_compute in Hr].
  destruct (failed_process_is_reused "ann" 1 (Errorf "broken pipe") DemoRecycler.taken s "bob") as (s'' & Ha & _);
    [done|exact Hr|by vm_compute|]. exists s, s''. split; [done|exact Ha].
Defined.

Lemma acquire_release_witness : GetDedicatedProcess "ann" DemoRecycler.taken = Some 1%nat.
Proof.
  apply (acquire_release "ann" 1 DemoRecycler.start DemoRecycler.taken); try (by vm_compute); vm_compute; lia.
Defined.
