(* ===== verification/Boot.v ===== *)
(** * Start-up: [main] of [src/main.go]

    The order in which the bridge opens its tables, what it refuses to start on, how the
    parts are wired to each other when a backend changes, and who answers a path on the
    port of the bridge and on the insecure one.  The parts are those of the files
    before: the tables of [Accounts] and [Backends], [Seed], [Precache], [Muxer],
    [PoolManager], the console of [WebRoutes], the stream of [Sse].

    [error_text] is [err.Error()]. *)
From S2P Require Import Prelude GoStrings Sql Crypto EnforcerTypes CelEngine EnforcerStore Template Muxer Accounts Backends Pool PoolManager BackendStatus ToolLists Config Precache WebBackends Seed Tools Sse WebRoutes.
Open Scope Z_scope.

(** ** The tables *)

(** What the start prints of the secrets, or the message it ends the process with. *)
Inductive start := Up (verified : res (Z * Z)) | Fatal (message : string).

Section Tables.
Context {KS : Type} `{SecretBox KS} `{CryptoPrims} `{Bcrypt}.
Context (error_text : error -> string).
Context (visit : nat -> gset string -> list string) (marshal_map : gmap string string -> string).

(** The one token that is tried. *)
Definition tried_token : string * string * string := ("58993e3001a71e9e8cd3a21fc1cd9430", "atlassian", "API_TOKEN").

(** The message of [log.Fatalf], if the key is refused. *)
Definition check_key (d : Accounts.t KS) : option string * Accounts.t KS :=
  match Accounts.keyStore d with
  | None => (Some "keystore not initialized", d)
  | Some _ =>
      match GetUserTokenDecrypted tried_token.1.1 tried_token.1.2 tried_token.2 d with
      | (Ok _, d) => (None, d)
      | (Err ErrNoRows, d) => (None, d)
      | (Err e, d) =>
          if contains (error_text e) "keystore not initialized" || contains (error_text e) "neither"
          then (Some "encryption key required", d)
          else (Some ("encryption key error: " +:+ error_text e), d)
      end
  end.

(** What goes wrong with the secrets is only logged. *)
Definition start_secrets (d : Accounts.t KS) : start * Accounts.t KS :=
  match check_key d with
  | (Some message, d) => (Fatal message, d)
  | (None, d) =>
      let '(_, d) := MigrateSecrets d in
      let '(verified, d) := VerifyEncryptedSecrets d in
      (Up verified, d)
  end.

Definition start_tables (seedUser : bool) (cfg : InternalConfig.t) (now : Time) (d : Backends.t KS) :
    start * Backends.t KS :=
  match on_accounts start_secrets d with
  | (Fatal message, d) => (Fatal message, d)
  | (Up verified, d) =>
      let '(_, d) := on_accounts (fun a => (tt, main_seed seedUser now a)) d in
      (Up verified, seedBackendsFromConfig visit marshal_map cfg d)
  end.
End Tables.

(** ** The cache of tools *)

Section Caches.
Context {KS : Type} `{SecretBox KS} `{CryptoPrims} `{Bcrypt}.
Context {ME : MuxEnv} {SH : Sha256}.
Context (visit : nat -> gset string -> list string) (environ : list string) (error_text : error -> string).
Context (fetch : string -> gmap string string -> res (list gomap)) (stmt1 stmt2 : string -> bool).
Local Abbreviation bridge := (Bridge.t KS).

(** A run for one backend; an error is written to its row. *)
Definition precache_or_mark (cfg : PrecacheConfig) (now : Time) (backendID : string) (s : bridge) : bridge :=
  match RunPrecacheForBackend visit environ error_text fetch stmt1 stmt2 cfg backendID now s with
  | (Ok _, s) => s
  | (Err e, s) =>
      Bridge.mk (Bridge.tables s)
        (BackendStatus.SetBackendPrecacheError (stmt1 backendID) backendID (error_text e) now (Bridge.status s)).2
        (Bridge.events s)
  end.

(** The goroutine of the start: every backend without a cache, for nobody in particular. *)
Definition start_precache (now : Time) (s : bridge) : bridge :=
  let '(allUncached, d) := GetUncachedBackends (Bridge.tables s) in
  let s := Bridge.mk d (Bridge.status s) (Bridge.events s) in
  match allUncached with
  | Ok l =>
      foldl (fun s id => precache_or_mark {| cfg_UserEmail := EmptyString; cfg_UserID := EmptyString |} now id s) s
        (filter (fun id => not_bridge id = true) l)
  | Err _ => s
  end.

(** The goroutine of a change. *)
Definition change_precache (backendID triggerUserID : string) (now : Time) (s : bridge) : bridge :=
  if bool_decide (triggerUserID = EmptyString) then s
  else precache_or_mark {| cfg_UserEmail := EmptyString; cfg_UserID := triggerUserID |} now backendID s.

(** [webHandler.OnRefreshTools] *)
Definition OnRefreshTools (backendID triggerUserID : string) (now : Time) (s : bridge) : res Z * bridge :=
  RunPrecacheForBackend visit environ error_text fetch stmt1 stmt2
    {| cfg_UserEmail := EmptyString; cfg_UserID := triggerUserID |} backendID now s.
End Caches.

(** ** A change of a backend *)

Section Reload.
Context {St : Type} {MS : MuxStore St} {ME : MuxEnv} {SH : Sha256}.
Context (visit : nat -> gset string -> list string) (during : nat -> list pool_op).

(** [webHandler.OnBackendChange] before its goroutine: the multiplexer reads the tables,
    which are [d] by now.  [order]: the map of pools as it is visited. *)
Definition OnBackendChange (order : list string) (backendID : string) (d : St) (m : ToolMuxer.t St) (pm : PoolManager.t) :
    option (Z * ToolMuxer.t St * PoolManager.t) :=
  let m := ToolMuxer.RefreshPrefixes visit
    (ToolMuxer.mk (ToolMuxer.backendPrefixes m) (Some d) (ToolMuxer.secrets m) (ToolMuxer.config_Backends m)) in
  match PoolManager.RemovePoolsByBackend during order backendID pm with
  | Some (removed, pm) => Some (removed, m, pm)
  | None => None
  end.
End Reload.

(** ** The paths *)

(** Who gets in: everybody, the bearer of a token ([authHandler.Middleware]), or whom the
    console lets in. *)
Inductive gate := Open | Bearer | Console (a : access).

#[export] Instance gate_eq_dec : EqDecision gate.
Proof. solve_decision. Defined.

(** [Register] of [src/auth/auth.go] *)
Definition oauth_routes : list (string * (gate * string)) :=
  [("/.well-known/oauth-authorization-server", (Open, "MetadataHandler"));
   ("/authorize", (Open, "AuthorizeHandler"));
   ("/token", (Open, "TokenHandler"));
   ("/register", (Open, "RegisterClientHandler"))].

Definition main_mux : list (string * (gate * string)) :=
  oauth_routes ++
  ((fun r => (r.1, (Console r.2.1, r.2.2))) <$> Register) ++
  [("/healthz", (Open, "healthzHandler"));
   ("/readyz", (Open, "readyzHandler"));
   ("/sse", (Open, "sseHandler"));
   ("/", (Bearer, "mcpBridgeServer"));
   ("/mcp/v2", (Bearer, "v2Handler"));
   ("/mcp", (Bearer, "v2Handler"))].

(** The insecure port: whose id the handler finds in the context.  The console behind
    ["/web/"] is a mux of its own. *)
Inductive context := Nobody | Admin | AdminOfConsole.

Definition test_mux : list (string * (context * string)) :=
  ((fun r => (r.1, (Nobody, r.2.2))) <$> oauth_routes) ++
  [("/web/", (AdminOfConsole, "webMux"));
   ("/healthz", (Nobody, "healthzHandler"));
   ("/readyz", (Nobody, "readyzHandler"));
   ("/sse", (Admin, "sseHandler"));
   ("/", (Admin, "mcpBridgeServer"));
   ("/mcp/v2", (Admin, "v2Handler"))].

Inductive served {A} := Serve (pattern : string) (h : A) | MovedPermanently (path : string) | NotFound.
Arguments served : clear implicits.

(** [ServeMux.ServeHTTP] for a clean path: a path that a pattern names with a slash more
    is redirected to it, unless a pattern names it as it is. *)
Definition dispatch {A} (mux : list (string * A)) (path : string) : served A :=
  let otherwise := match ServeHTTP mux path with Some r => Serve r.1 r.2 | None => NotFound end in
  if bool_decide (path ∈ mux.*1) then otherwise
  else if negb (has_suffix path "/") && bool_decide (path +:+ "/" ∈ mux.*1) then MovedPermanently (path +:+ "/")
  else otherwise.

(** The id the stream of events reads from the context. *)
Definition context_id (adminID : string) (c : context) : string :=
  match c with Admin => adminID | _ => EmptyString end.
Definition gate_id (bearer : string) (g : gate) : string :=
  match g with Bearer => bearer | _ => EmptyString end.

(** * Properties *)

(** ** The ports *)

Lemma matching_short pattern path : pattern_matches pattern path = true ->
  (String.length pattern <= String.length path)%nat /\
  (String.length pattern = String.length path -> pattern = path) /\
  (pattern <> path -> has_suffix pattern "/" = true /\ has_prefix path pattern = true).
Proof.
  unfold pattern_matches. destruct (has_suffix pattern "/").
  - intros Hp. pose proof Hp as [rest ->]%has_prefix_spec. rewrite str_length_app. split_and!; [lia| |done].
    intros Hl. destruct rest; [by rewrite str_app_nil_r|]. cbn in Hl. lia.
  - intros ->%bool_decide_eq_true_1. by split_and!.
Qed.

(** A pattern that is the path wins. *)
Lemma serve_exact {A} (mux : list (string * A)) path h : NoDup mux.*1 -> (path, h) ∈ mux ->
  ServeHTTP mux path = Some (path, h).
Proof.
  intros Hnd Hin.
  assert (Hm : pattern_matches path path = true).
  { unfold pattern_matches. destruct (has_suffix path "/"); [|by apply bool_decide_eq_true_2].
    apply has_prefix_spec. exists EmptyString. by rewrite str_app_nil_r. }
  destruct (serve_some mux path _ Hin Hm) as [r Hr]. destruct (serve_in _ _ _ Hr) as [Hrin Hrm].
  pose proof (serve_longest _ _ _ _ Hr Hin Hm) as Hl. destruct (matching_short _ _ Hrm) as (Hs & He & _). cbn in Hl.
  assert (r.1 = path) as Hp by (apply He; lia). rewrite Hr. f_equal. destruct r as [p h']. cbn in Hp. subst p. f_equal.
  apply list_elem_of_lookup in Hin as [i Hi], Hrin as [j Hj].
  assert (i = j) as ->.
  { eapply NoDup_lookup; [exact Hnd| |]; rewrite list_lookup_fmap; [by rewrite Hi|by rewrite Hj]. }
  congruence.
Qed.

(** Two patterns end in a slash. *)
Definition rooted {A} (mux : list (string * A)) (root web : A) : Prop :=
  NoDup mux.*1 /\ ("/", root) ∈ mux /\ ("/web/", web) ∈ mux /\
  Forall (fun r => has_suffix r.1 "/" = false \/ r.1 = "/" \/ r.1 = "/web/") mux.

Lemma serve_below {A} (mux : list (string * A)) root web path : rooted mux root web ->
  path ∉ mux.*1 -> has_prefix path "/" = true ->
  ServeHTTP mux path = Some (if has_prefix path "/web/" then ("/web/", web) else ("/", root)).
Proof.
  intros (Hnd & Hroot & Hweb & Hall) Hno Hp. rewrite Forall_forall in Hall.
  destruct (serve_some mux path _ Hroot Hp) as [r Hr]. destruct (serve_in _ _ _ Hr) as [Hin Hm].
  destruct (matching_short _ _ Hm) as (_ & _ & Hpre). destruct Hpre as [Hs Hpre].
  { intros <-. apply Hno, list_elem_of_fmap. eauto. }
  assert (Huniq : forall h, (r.1, h) ∈ mux -> r = (r.1, h)).
  { intros h Hh. pose proof (serve_exact mux r.1 h Hnd Hh) as E1. destruct r as [p h0]. cbn in *.
    pose proof (serve_exact mux p h0 Hnd Hin) as E2. congruence. }
  rewrite Hr. f_equal. destruct (has_prefix path "/web/") eqn:Hw.
  - pose proof (serve_longest _ _ _ _ Hr Hweb Hw) as Hl. cbn in Hl.
    destruct (Hall r Hin) as [?|[He|He]]; [congruence|rewrite He in Hl; cbn in Hl; lia|].
    rewrite <- He in *. by apply Huniq.
  - destruct (Hall r Hin) as [?|[He|He]]; [congruence| |rewrite He in Hpre; congruence].
    rewrite <- He in *. by apply Huniq.
Qed.

Lemma main_rooted : rooted main_mux (Bearer, "mcpBridgeServer") (Console Authenticated, "DashboardHandler").
Proof. split_and!; apply (bool_decide_unpack _); by vm_compute. Qed.

#[export] Instance context_eq_dec : EqDecision context.
Proof. solve_decision. Defined.

Lemma test_rooted : rooted test_mux (Admin, "mcpBridgeServer") (AdminOfConsole, "webMux").
Proof. split_and!; apply (bool_decide_unpack _); by vm_compute. Qed.

Lemma dispatch_exact {A} (mux : list (string * A)) path h : NoDup mux.*1 -> (path, h) ∈ mux ->
  dispatch mux path = Serve path h.
Proof.
  intros Hnd Hin. unfold dispatch. rewrite bool_decide_eq_true_2 by (apply list_elem_of_fmap; by exists (path, h)).
  by rewrite (serve_exact _ _ h).
Qed.

Lemma dispatch_below {A} (mux : list (string * A)) root web path : rooted mux root web ->
  path ∉ mux.*1 -> has_prefix path "/" = true ->
  dispatch mux path =
    if negb (has_suffix path "/") && bool_decide (path +:+ "/" ∈ mux.*1) then MovedPermanently (path +:+ "/")
    else if has_prefix path "/web/" then Serve "/web/" web else Serve "/" root.
Proof.
  intros Hr Hno Hp. unfold dispatch. rewrite bool_decide_eq_false_2 by done. case_match; [done|].
  rewrite (serve_below _ root web) by done. by case_match.
Qed.

(** One path is redirected. *)
Lemma moved {A} (mux : list (string * A)) root web path : rooted mux root web -> has_prefix path "/" = true ->
  negb (has_suffix path "/") && bool_decide (path +:+ "/" ∈ mux.*1) = bool_decide (path = "/web").
Proof.
  intros (_ & _ & Hweb & Hall) Hp. destruct (decide (path = "/web")) as [->|Hw].
  - rewrite (bool_decide_eq_true_2 ("/web" = "/web")) by done. cbn [negb andb]. apply bool_decide_eq_true_2. apply list_elem_of_fmap. by exists ("/web/", web).
  - rewrite (bool_decide_eq_false_2 (path = "/web")) by done.
    apply not_true_is_false. intros [Hs Hin]%andb_true_iff. apply bool_decide_eq_true_1 in Hin.
    apply list_elem_of_fmap in Hin as (r & Hr & Hin). rewrite Forall_forall in Hall.
    destruct (Hall r Hin) as [Hsuf|[He|He]]; rewrite <- Hr in *.
    + by rewrite has_suffix_app in Hsuf.
    + apply has_prefix_spec in Hp as [rest ->]. destruct rest; cbn in He; [by vm_compute in Hs|done].
    + apply Hw. by apply (str_app_inj_r _ _ "/").
Qed.

Definition open_paths : list string :=
  ["/.well-known/oauth-authorization-server"; "/authorize"; "/token"; "/register"; "/healthz"; "/readyz"; "/sse"].

(** The port of the bridge answers every path, and who gets in follows from the path:
    seven paths are open, the paths of the console are under its own guards, and every
    other path needs the token of a user. *)
Theorem front_gate path : has_prefix path "/" = true ->
  match dispatch main_mux path with
  | Serve p (Open, _) => p = path /\ path ∈ open_paths
  | Serve p (Console a, h) => has_prefix path "/web/" = true /\ ServeHTTP Register path = Some (p, (a, h))
  | Serve _ (Bearer, h) => has_prefix path "/web/" = false /\ path ∉ open_paths /\
      h = if bool_decide (path ∈ ["/mcp"; "/mcp/v2"]) then "v2Handler" else "mcpBridgeServer"
  | MovedPermanently p => path = "/web" /\ p = "/web/"
  | NotFound => False
  end.
Proof.
  intros Hp. pose proof main_rooted as Hr. destruct (decide (path ∈ main_mux.*1)) as [Hin|Hno].
  - apply list_elem_of_fmap in Hin as ([p [g h]] & Hpath & Hin). cbn in Hpath. subst p.
    rewrite (dispatch_exact _ _ (g, h)) by (done || apply Hr).
    unfold main_mux in Hin. rewrite !elem_of_app in Hin. destruct Hin as [Hin|[Hin|Hin]].
    + assert (Hg : g = Open /\ path ∈ open_paths); [|destruct Hg as [-> ?]; by split].
      revert Hin. unfold oauth_routes. rewrite !elem_of_cons, elem_of_nil.
      intros [[= -> -> ->]|[[= -> -> ->]|[[= -> -> ->]|[[= -> -> ->]|[]]]]];
        (split; [done|by apply (bool_decide_unpack _); vm_compute]).
    + apply list_elem_of_fmap in Hin as ([p [a h']] & [= -> -> ->] & Hin). split.
      * assert (Hall : Forall (fun r => has_prefix r.1 "/web/" = true) Register)
          by (apply (bool_decide_unpack _); by vm_compute).
        rewrite Forall_forall in Hall. by apply (Hall _ Hin).
      * exact (serve_exact Register _ _ Register_distinct Hin).
    + revert Hin. rewrite !elem_of_cons, elem_of_nil.
      intros [[= -> -> ->]|[[= -> -> ->]|[[= -> -> ->]|[[= -> -> ->]|[[= -> -> ->]|[[= -> -> ->]|[]]]]]]];
        repeat split; apply (bool_decide_unpack _); by vm_compute.
  - rewrite (dispatch_below _ _ _ _ Hr Hno Hp), (moved _ _ _ _ Hr Hp). case_bool_decide as Hw.
    + by subst path.
    + destruct (has_prefix path "/web/") eqn:Hweb.
      * split; [done|]. destruct (console_paths_guarded path Hweb) as (r & Hs & [[-> _]|(Hin & Heq & _)]); [done|].
        exfalso. apply Hno. unfold main_mux. rewrite !fmap_app, !elem_of_app. right. left.
        rewrite <- Heq. apply list_elem_of_fmap. exists (r.1, (Console r.2.1, r.2.2)). split; [done|].
        apply list_elem_of_fmap. eauto.
      * split; [done|].
        assert (Hout : forall l, Forall (fun p => p ∈ main_mux.*1) l -> path ∉ l).
        { intros l Hl Hin. rewrite Forall_forall in Hl. by apply Hno, Hl. }
        split; [apply Hout; apply (bool_decide_unpack _); by vm_compute|].
        rewrite bool_decide_eq_false_2; [done|]. apply Hout. apply (bool_decide_unpack _). by vm_compute.
Qed.

(** The stream of events is open to everybody, so it finds no user and refuses everybody. *)
Theorem event_stream_refuses bearer default v : exists h,
  dispatch main_mux "/sse" = Serve "/sse" (Open, h) /\
  sseHandler default (SseView (gate_id bearer Open) (default_unavailable v) (fallback v) (first v)
    (unavailable_after v) (fallback_after v) (fallback_first v) (second v)) = Refused 401 "unauthorized".
Proof. exists "sseHandler". split; [by vm_compute|done]. Qed.

(** On the insecure port every path is answered by the handler that answers it on the
    port of the bridge, or by the console, except [/mcp]: there the bridge has the second
    protocol and the insecure port the first. *)
Theorem insecure_port_agrees path : has_prefix path "/" = true ->
  match dispatch main_mux path, dispatch test_mux path with
  | Serve _ (g, h), Serve p (c, h') =>
      if has_prefix path "/web/" then c = AdminOfConsole
      else (g = Bearer -> c = Admin) /\
           if bool_decide (path = "/mcp") then h = "v2Handler" /\ h' = "mcpBridgeServer" else h' = h
  | MovedPermanently p, MovedPermanently p' => p = p'
  | _, _ => False
  end.
Proof.
  intros Hp. pose proof main_rooted as Hm. pose proof test_rooted as Ht.
  destruct (has_prefix path "/web/") eqn:Hweb.
  - assert (Hserved : dispatch test_mux path = Serve "/web/" (AdminOfConsole, "webMux")).
    { destruct (decide (path ∈ test_mux.*1)) as [Hin|Hno].
      - apply list_elem_of_fmap in Hin as ([p [c h]] & Hpath & Hin). cbn in Hpath. subst p.
        rewrite (dispatch_exact _ _ (c, h)) by (done || apply Ht).
        assert (Hall : Forall (fun r => has_prefix r.1 "/web/" = false \/ r = ("/web/", (AdminOfConsole, "webMux"))) test_mux)
          by (apply (bool_decide_unpack _); by vm_compute).
        rewrite Forall_forall in Hall. destruct (Hall _ Hin) as [Hf|[= -> -> ->]]; [|done].
        cbn [fst] in Hf. congruence.
      - rewrite (dispatch_below _ _ _ _ Ht Hno Hp), (moved _ _ _ _ Ht Hp), Hweb.
        rewrite bool_decide_eq_false_2; [done|]. by intros ->. }
    rewrite Hserved. pose proof (front_gate path Hp) as Hg.
    destruct (dispatch main_mux path) as [p [[| |a] h]|p|]; [done|done|done| |done]. by destruct Hg as [-> _].
  - destruct (decide (path ∈ main_mux.*1)) as [Hin|Hno].
    + assert (Hall : Forall (fun r => has_prefix r.1 "/web/" = true \/
        match dispatch test_mux r.1 with
        | Serve p (c, h') => (r.2.1 = Bearer -> c = Admin) /\
             if bool_decide (r.1 = "/mcp") then r.2.2 = "v2Handler" /\ h' = "mcpBridgeServer" else h' = r.2.2
        | _ => False
        end) main_mux).
      { unfold main_mux. rewrite !Forall_app. split_and!.
        - unfold oauth_routes. repeat (apply Forall_cons; split; [right; vm_compute; split; [congruence|reflexivity]|]). apply Forall_nil_2.
        - apply Forall_fmap. eapply Forall_impl; [|intros r Hr; left; exact Hr].
          apply (bool_decide_unpack _). by vm_compute.
        - repeat (apply Forall_cons; split; [right; vm_compute; split; [congruence|by repeat split]|]). apply Forall_nil_2. }
      apply list_elem_of_fmap in Hin as ([p [g h]] & Hpath & Hin). cbn in Hpath. subst p.
      rewrite (dispatch_exact main_mux _ (g, h)) by (done || apply Hm).
      rewrite Forall_forall in Hall. destruct (Hall _ Hin) as [Hf|Hd]; [|exact Hd]. cbn [fst] in Hf. congruence.
    + assert (Hno' : path ∉ test_mux.*1).
      { intros Hin. apply Hno. assert (Hall : Forall (fun p => p ∈ main_mux.*1) test_mux.*1)
          by (apply (bool_decide_unpack _); by vm_compute). rewrite Forall_forall in Hall. by apply Hall. }
      rewrite (dispatch_below _ _ _ _ Hm Hno Hp), (moved _ _ _ _ Hm Hp), (dispatch_below _ _ _ _ Ht Hno' Hp),
        (moved _ _ _ _ Ht Hp), Hweb.
      destruct (bool_decide (path = "/web")); [done|]. split; [done|]. rewrite (bool_decide_eq_false_2 (path = "/mcp")); [done|].
      intros ->. apply Hno. apply (bool_decide_unpack _). by vm_compute.
Qed.

(** ** A change of a backend *)

Section ReloadTheorems.
Context {St : Type} {MS : MuxStore St} {ME : MuxEnv} {SH : Sha256}.
Context (visit : nat -> gset string -> list string) (during : nat -> list pool_op).
Import PoolManager.

(** A change takes effect as a restart would: the multiplexer becomes the one a start on
    the tables makes, the pools of the backend are gone and those of the others are kept. *)
Theorem change_is_restart order id (st d : St) cfg pm :
  wf pm -> drains during pm -> key_order order (pools pm) ->
  exists n pm', OnBackendChange visit during order id d (ToolMuxer.NewToolMuxerWithStore visit (Some st) cfg) pm =
      Some (n, ToolMuxer.NewToolMuxerWithStore visit (Some d) cfg, pm') /\ wf pm' /\
    forall k, pools pm' !! k = if of_backend id k then None else pools pm !! k.
Proof.
  intros Hw Hd Ho. destruct (RemovePoolsByBackend_exact during order id pm Hw Hd Ho) as (n & pm' & Hr & Hw' & Hp & _).
  exists n, pm'. unfold OnBackendChange. rewrite Hr. split; [done|]. split; [done|].
  intros k. rewrite Hp. destruct (pools pm !! k); cbn; by destruct (of_backend id k).
Qed.
End ReloadTheorems.

(** ** The secrets *)

Section SecretTheorems.
Context {KS : Type} `{CryptoLaws} `{!SecretBox KS} `{!SecretBoxLaws KS} `{Bcrypt}.
Context (random : forall i n, is_Some (entropy i n)) (error_text : error -> string).
Context (visit : nat -> gset string -> list string) (marshal_map : gmap string string -> string).
Import Accounts ToolsFacts.
Implicit Types a : Accounts.t KS.

(** A row that was encrypted at the start: its plaintext stays beside the ciphertext. *)
Definition encrypted_beside (ks : KS) (k k' : UserToken.t) : Prop :=
  exists enc, k' = set_encrypted enc k /\ enc <> EmptyString /\
    forall a, healthy ks a -> box_decrypt ks enc a = (Ok (UserToken.Value k), a).

Lemma migrate_tokens_ok ks l a : healthy ks a -> NoDup (token_key <$> l) ->
  Forall (fun k => user_tokens a !! token_key k = Some k) l ->
  exists a', migrate_tokens ks l a = (Ok tt, a') /\ same_but_tokens a a' /\
    (forall key, key ∉ token_key <$> l -> user_tokens a' !! key = user_tokens a !! key) /\
    (forall k, k ∈ l -> exists k', user_tokens a' !! token_key k = Some k' /\ encrypted_beside ks k k').
Proof.
  revert a. induction l as [|k l IH]; intros a Hh Hnd Hall.
  { exists a. split_and!; try done. intros k Hk. by inversion Hk. }
  apply NoDup_cons in Hnd as [Hni Hnd]. apply Forall_cons in Hall as [Hk Hall]. pose proof Hh as (Hf & Hks & _).
  cbn [migrate_tokens]. rewrite Hks. cbn [from_option id].
  destruct (box_encrypt_ok random ks (UserToken.Value k) a Hh) as (enc & n & -> & Hne & Hopen).
  rewrite sql_exec_ok by by destruct a. change (UserToken.UserID k, UserToken.BackendID k, UserToken.EnvKey k) with (token_key k).
  set (a1 := set_user_tokens _ _). assert (Hsame : same_but_tokens a a1) by by destruct a.
  assert (Ht : user_tokens a1 = alter (set_encrypted enc) (token_key k) (user_tokens a)) by by destruct a.
  destruct (IH a1) as (a' & -> & Hs' & Hout & Hin); [by eapply healthy_same|done| |].
  { rewrite Forall_forall in Hall |- *. intros k2 Hk2. rewrite Ht, lookup_alter_ne; [by apply Hall|].
    intros Heq. apply Hni. rewrite Heq. by apply list_elem_of_fmap_2. }
  exists a'. split; [done|]. split_and!.
  - destruct Hsame as (?&?&?&?), Hs' as (?&?&?&?). split_and!; congruence.
  - intros key [Hk1 Hk2]%not_elem_of_cons. rewrite Hout, Ht by done. by apply lookup_alter_ne.
  - intros k2 [->|Hk2]%elem_of_cons; [|by apply Hin]. exists (set_encrypted enc k). split; [|by exists enc].
    rewrite Hout, Ht by done. by rewrite lookup_alter_eq, Hk.
Qed.

Lemma MigrateSecrets_ok ks a : healthy ks a -> tokens_keyed a ->
  exists a', MigrateSecrets a = (Ok tt, a') /\ same_but_tokens a a' /\
    forall key, match user_tokens a !! key with
                | Some k => if decide (is_plaintext k)
                            then exists k', user_tokens a' !! key = Some k' /\ encrypted_beside ks k k'
                            else user_tokens a' !! key = Some k
                | None => user_tokens a' !! key = None
                end.
Proof.
  intros Hh Hkeyed. pose proof Hh as (Hf & Hks & _). unfold MigrateSecrets, sql_query. rewrite Hks, sql_stmt_ok by done.
  destruct (selected_rows is_plaintext a Hkeyed) as [Hnd Hin].
  change (filter (fun k => UserToken.Encrypted k = EmptyString /\ UserToken.Value k <> EmptyString) (rows (user_tokens a)))
    with (filter is_plaintext (rows (user_tokens a))).
  set (l := filter is_plaintext _) in *.
  destruct (migrate_tokens_ok ks l a Hh Hnd) as (a' & He & Hs & Hout & Hdone).
  { apply Forall_forall. by intros k [Hl _]%Hin. }
  exists a'. split; [exact He|]. split; [done|]. intros key.
  destruct (user_tokens a !! key) as [k|] eqn:Hl.
  - assert (key = token_key k) as -> by by apply (Hkeyed key k). destruct (decide (is_plaintext k)) as [Hp|Hp].
    + apply Hdone. by apply Hin.
    + rewrite Hout; [done|]. intros (k2 & Heq & [Hl2 Hp2]%Hin)%list_elem_of_fmap. congruence.
  - rewrite Hout; [done|]. intros (k2 & -> & [Hl2 _]%Hin)%list_elem_of_fmap. congruence.
Qed.

(** What the verification takes for good. *)
Definition opens (ks : KS) a (k : UserToken.t) : bool :=
  negb (bool_decide (UserToken.Encrypted k = EmptyString)) && is_ok (box_decrypt ks (UserToken.Encrypted k) a).1.

Lemma verify_tokens_ok ks l a : healthy ks a ->
  verify_tokens ks l a =
    ((Z.of_nat (length (filter (fun k => opens ks a k = true) l)),
      Z.of_nat (length (filter (fun k => opens ks a k = false) l))), a).
Proof.
  intros Hh. pose proof Hh as (_ & Hks & _). induction l as [|k l IH]; [done|]. cbn [verify_tokens].
  rewrite Hks. cbn [from_option id].
  assert (Hone : (if bool_decide (UserToken.Encrypted k = EmptyString) then (false, a)
     else let '(r, d) := box_decrypt ks (UserToken.Encrypted k) a in (is_ok r, d)) = (opens ks a k, a)).
  { unfold opens. case_bool_decide; [done|]. by destruct (box_decrypt_quiet ks (UserToken.Encrypted k) a Hh) as [r ->]. }
  rewrite Hone, IH. rewrite !filter_cons. destruct (opens ks a k).
  - rewrite decide_True, decide_False by done. cbn [length]. by rewrite Nat2Z.inj_succ, Z.add_1_r.
  - rewrite decide_False, decide_True by done. cbn [length]. by rewrite Nat2Z.inj_succ, Z.add_1_r.
Qed.
(** Seeding leaves the secrets and what they are read with alone. *)
Definition same_secrets a a' : Prop :=
  user_tokens a' = user_tokens a /\ keyStore a' = keyStore a /\ faults a' = faults a.

Lemma same_secrets_trans a1 a2 a3 : same_secrets a1 a2 -> same_secrets a2 a3 -> same_secrets a1 a3.
Proof. intros (?&?&?) (?&?&?). split_and!; congruence. Qed.

Lemma healthy_secrets ks a a' : same_secrets a a' -> healthy ks a -> healthy ks a'.
Proof. intros (_ & Hk & Hf) (? & ? & ?). split_and!; congruence. Qed.

Lemma reading_secrets ks a a' key : same_secrets a a' -> healthy ks a -> reading a' key = reading a key.
Proof.
  intros Hs Hh. rewrite !(reading_row ks) by (done || by eapply healthy_secrets).
  destruct Hs as (-> & _ & _). apply row_reading_same.
Qed.

Lemma set_rng_secrets n a : same_secrets a (set_rng n a).
Proof. by destruct a. Qed.

Lemma sql_checked_secrets ok f a : faults a = [] ->
  user_tokens (f a) = user_tokens a -> keyStore (f a) = keyStore a -> faults (f a) = faults a ->
  same_secrets a (sql_checked ok f a).2.
Proof. intros Hf ???. rewrite sql_checked_ok by done. by destruct (ok a). Qed.

Lemma hashed_secrets u a : same_secrets a (hashed u a).2.
Proof. unfold hashed, HashPassword. case_match; [|done]. case_match; apply set_rng_secrets. Qed.

Lemma UpdateUser_secrets u a : faults a = [] -> same_secrets a (UpdateUser u a).2.
Proof.
  intros Hf. unfold UpdateUser. pose proof (hashed_secrets u a) as Hh. destruct (hashed u a) as [[u'|e] a1]; [|exact Hh].
  cbn [snd] in Hh. rewrite (surjective_pairing (sql_checked _ _ a1)). eapply same_secrets_trans; [exact Hh|].
  apply sql_checked_secrets; [|done..]. destruct Hh as (_ & _ & ->). done.
Qed.

Lemma CreateUser_secrets u now a : faults a = [] -> same_secrets a (CreateUser u now a).2.
Proof.
  intros Hf. unfold CreateUser, id_or_new, generateID.
  set (p := if bool_decide (UserRow.ID u = EmptyString) then _ else _).
  assert (Hp : same_secrets a p.2).
  { unfold p. case_match; [|done]. destruct (read_rand 16 _). apply set_rng_secrets. }
  destruct p as [id a1]. cbn [snd] in Hp. cbv zeta. set (u1 := if bool_decide (UserRow.Role _ = _) then _ else _).
  pose proof (hashed_secrets u1 a1) as Hh. destruct (hashed u1 a1) as [[u2|e] a2]; cbn [snd] in Hh;
    [|eapply same_secrets_trans; eassumption].
  set (q := if bool_decide (UserRow.PasswordSalt u2 = EmptyString) then _ else _).
  assert (Hq : same_secrets a2 q.2).
  { unfold q. case_match; [|done]. destruct (GenerateSalt _). apply set_rng_secrets. }
  destruct q as [[salt|e] a3]; cbn [snd] in Hq.
  - rewrite (surjective_pairing (sql_checked _ _ a3)). cbn [snd].
    assert (Hall : same_secrets a a3) by (eapply same_secrets_trans; [eassumption|]; eapply same_secrets_trans; eassumption).
    eapply same_secrets_trans; [exact Hall|]. apply sql_checked_secrets; [|done..]. destruct Hall as (_ & _ & ->). done.
  - eapply same_secrets_trans; [eassumption|]. eapply same_secrets_trans; eassumption.
Qed.

Lemma main_seed_secrets seedUser now a : faults a = [] -> same_secrets a (main_seed seedUser now a).
Proof.
  intros Hf. assert (Hs : same_secrets a (seedDefaultUser now a)).
  { unfold seedDefaultUser, GetUserByEmail. rewrite sql_row_ok by done. destruct (user_by_email _ a) as [u|].
    - case_match; [done|]. pose proof (UpdateUser_secrets (UserRow.with_Role "admin" u) a Hf) as Hu.
      by destruct (UpdateUser _ a) as [[? ?] ?].
    - pose proof (CreateUser_secrets default_user now a Hf) as Hu. by destruct (CreateUser _ _ a) as [[? ?] ?]. }
  unfold main_seed. destruct seedUser; [done|]. unfold ListUsers, sql_query. rewrite sql_stmt_ok by done.
  by case_match.
Qed.

Lemma CreateBackend_secrets ks b (d : Backends.t KS) : ready ks d -> BackendRow.EncryptedEnv b = EmptyString ->
  same_secrets (Backends.accounts d) (Backends.accounts (CreateBackend b d).2).
Proof.
  intros Hr He. unfold CreateBackend. set (b1 := with_row_defaults _ b).
  destruct (encryptBackendEnv_ok random ks b1 d Hr He) as (enc & n & -> & _). set (d1 := if no_env _ then d else Backends.set_rng n d).
  assert (Hs : same_secrets (Backends.accounts d) (Backends.accounts d1)) by by unfold d1; case_match.
  rewrite sql_checked_ok; [|destruct Hs as (_ & _ & Hf); cbn; rewrite Hf; apply Hr].
  case_match; [|exact Hs]. exact Hs.
Qed.

Lemma seedBackends_secrets ks cfg (d : Backends.t KS) : ready ks d ->
  same_secrets (Backends.accounts d) (Backends.accounts (seedBackendsFromConfig visit marshal_map cfg d)).
Proof.
  intros Hr. unfold seedBackendsFromConfig. destruct (ListBackends_ready ks d Hr) as (l & -> & _). destruct l; [|done].
  pose proof (CreateBackend_secrets ks mcpbridgeBackend d Hr eq_refl) as Hc. revert Hc.
  generalize (CreateBackend mcpbridgeBackend d).2. generalize (visit 12%nat (dom (InternalConfig.Backends cfg))).
  induction l as [|id l IH]; intros d1 Hc; [done|]. cbn [foldl]. apply IH. unfold seed_backend. case_match; [|done].
  eapply same_secrets_trans; [exact Hc|]. apply (CreateBackend_secrets ks); [|done].
  unfold ready. eapply healthy_secrets; [exact Hc|exact Hr].
Qed.
Lemma check_key_ok ks a : healthy ks a ->
  check_key error_text a =
    (match reading a tried_token with
     | Ok _ | Err ErrNoRows => None
     | Err e => Some (if contains (error_text e) "keystore not initialized" || contains (error_text e) "neither"
                      then "encryption key required" else "encryption key error: " +:+ error_text e)
     end, a).
Proof.
  intros Hh. unfold check_key. pose proof Hh as (_ & -> & _). unfold reading.
  destruct (GetUserTokenDecrypted_quiet ks tried_token.1.1 tried_token.1.2 tried_token.2 a Hh) as [r ->]. cbn [fst].
  destruct r as [v|e]; [done|]. destruct e; try done; by case_match.
Qed.

(** The number of rows that open and that do not. *)
Definition verified (ks : KS) a : Z * Z :=
  (Z.of_nat (length (filter (fun k => opens ks a k = true) (rows (user_tokens a)))),
   Z.of_nat (length (filter (fun k => opens ks a k = false) (rows (user_tokens a))))).

Lemma VerifyEncryptedSecrets_ok ks a : healthy ks a -> VerifyEncryptedSecrets a = (Ok (verified ks a), a).
Proof.
  intros Hh. pose proof Hh as (Hf & Hks & _). unfold VerifyEncryptedSecrets, sql_query.
  rewrite Hks, sql_stmt_ok by done. by rewrite (verify_tokens_ok ks).
Qed.

Definition key_accepted a : Prop := forall e, reading a tried_token = Err e -> e = ErrNoRows.

Lemma start_secrets_ok ks a a1 : healthy ks a -> key_accepted a -> MigrateSecrets a = (Ok tt, a1) -> healthy ks a1 ->
  start_secrets error_text a = (Up (Ok (verified ks a1)), a1).
Proof.
  intros Hh Hr Hm Hh1. unfold start_secrets. rewrite (check_key_ok ks) by done.
  assert (Hn : match reading a tried_token with Ok _ | Err ErrNoRows => None
     | Err e => Some (if contains (error_text e) "keystore not initialized" || contains (error_text e) "neither"
                      then "encryption key required" else "encryption key error: " +:+ error_text e) end = None).
  { destruct (reading a tried_token) as [v|e] eqn:He; [done|]. by rewrite (Hr e). }
  by rewrite Hn, Hm, (VerifyEncryptedSecrets_ok ks).
Qed.

Lemma opens_same ks a a' k : opens ks a k = opens ks a' k.
Proof. unfold opens. by rewrite (box_decrypt_same ks _ a a'). Qed.

Lemma verified_secrets ks a a' : user_tokens a' = user_tokens a -> verified ks a' = verified ks a.
Proof.
  intros Ht. unfold verified. rewrite Ht. f_equal; f_equal; f_equal; apply list_filter_iff; intros k;
    by rewrite (opens_same ks a' a).
Qed.

(** The whole start, up to the tables seeding writes. *)
Lemma start_tables_ok ks seedUser cfg now (d : Backends.t KS) a1 : ready ks d -> key_accepted (Backends.accounts d) ->
  MigrateSecrets (Backends.accounts d) = (Ok tt, a1) -> healthy ks a1 ->
  exists d', start_tables error_text visit marshal_map seedUser cfg now d = (Up (Ok (verified ks a1)), d') /\
    same_secrets a1 (Backends.accounts d') /\
    d' = seedBackendsFromConfig visit marshal_map cfg (Backends.set_accounts (fun _ => main_seed seedUser now a1) d).
Proof.
  intros Hr Hk Hm Hh. unfold start_tables, on_accounts at 1.
  rewrite (start_secrets_ok ks _ a1) by done. unfold on_accounts.
  set (d1 := Backends.set_accounts _ (Backends.set_accounts _ d)).
  assert (Hd1 : d1 = Backends.set_accounts (fun _ => main_seed seedUser now a1) d) by by destruct d.
  assert (Hs : same_secrets a1 (Backends.accounts d1)) by (rewrite Hd1; apply main_seed_secrets, Hh).
  eexists. split; [reflexivity|]. rewrite <- Hd1. split; [|done].
  eapply same_secrets_trans; [exact Hs|]. apply (seedBackends_secrets ks). by eapply healthy_secrets.
Qed.
(** A start loses no token.  Unless the one token that is tried does not open, the bridge
    starts, however many of the others do not; every token reads as before and each of
    them has a ciphertext afterwards.  The plaintext stays beside it. *)
Theorem start_keeps_tokens ks seedUser cfg now (d : Backends.t KS) :
  ready ks d -> tokens_keyed (Backends.accounts d) -> key_accepted (Backends.accounts d) ->
  let r := start_tables error_text visit marshal_map seedUser cfg now d in
  let a := Backends.accounts d in
  let a' := Backends.accounts r.2 in
  r.1 = Up (Ok (verified ks a')) /\
  (forall key, reading a' key = reading a key) /\
  (forall key k', user_tokens a' !! key = Some k' -> ~ is_plaintext k') /\
  (forall key, UserToken.Value <$> user_tokens a' !! key = UserToken.Value <$> user_tokens a !! key).
Proof.
  intros Hr Hkeyed Hk. destruct (MigrateSecrets_ok ks _ Hr Hkeyed) as (a1 & Hm & Hs & Hrows).
  assert (Hh1 : healthy ks a1) by by eapply healthy_same.
  destruct (start_tables_ok ks seedUser cfg now d a1 Hr Hk Hm Hh1) as (d' & -> & Hsec & _).
  cbn [fst snd]. pose proof Hsec as (Ht & _ & _). split_and!.
  - by rewrite (verified_secrets ks a1 (Backends.accounts d')).
  - intros key. rewrite (reading_secrets ks a1), !(reading_row ks) by done. specialize (Hrows key).
    destruct (user_tokens (Backends.accounts d) !! key) as [k|]; [|by rewrite Hrows]. destruct (decide _) as [Hp|Hp].
    + destruct Hrows as (k' & -> & enc & -> & Hne & Hopen). unfold row_reading. cbn. destruct Hp as [-> _].
      by rewrite bool_decide_eq_false_2, bool_decide_eq_true_2, (Hopen a1) by done.
    + rewrite Hrows. apply row_reading_same.
  - intros key k' Hl. rewrite Ht in Hl. specialize (Hrows key). destruct (user_tokens (Backends.accounts d) !! key) as [k|]; [|congruence].
    destruct (decide _) as [Hp|Hp]; [|congruence]. destruct Hrows as (k2 & Hl2 & enc & -> & Hne & _).
    assert (k' = set_encrypted enc k) as -> by congruence. by intros [He _].
  - intros key. rewrite Ht. specialize (Hrows key). destruct (user_tokens (Backends.accounts d) !! key) as [k|]; [|by rewrite Hrows].
    destruct (decide _) as [Hp|Hp]; [|by rewrite Hrows]. by destruct Hrows as (k' & -> & enc & -> & _).
Qed.

(** The one token that is tried decides: when it is there and cannot be read, nothing is
    written and the process ends. *)
Theorem start_refused ks seedUser cfg now (d : Backends.t KS) e :
  ready ks d -> reading (Backends.accounts d) tried_token = Err e -> e <> ErrNoRows ->
  exists message, start_tables error_text visit marshal_map seedUser cfg now d = (Fatal message, d).
Proof.
  intros Hr He Hne. unfold start_tables, on_accounts, start_secrets. rewrite (check_key_ok ks), He by done.
  assert (Hd : Backends.set_accounts (fun _ => Backends.accounts d) d = d) by by destruct d.
  destruct e; [..|done| | |]; eexists; cbv iota beta; by rewrite Hd.
Qed.

(** Starting again changes nothing, whatever the configuration says by then. *)
Theorem start_again ks seedUser cfg now cfg2 now2 (d : Backends.t KS) :
  ready ks d -> tokens_keyed (Backends.accounts d) -> key_accepted (Backends.accounts d) ->
  let r := start_tables error_text visit marshal_map seedUser cfg now d in
  users (Backends.accounts r.2) <> ∅ -> Backends.backends r.2 <> ∅ ->
  start_tables error_text visit marshal_map false cfg2 now2 r.2 = r.
Proof.
  intros Hr Hkeyed Hk r. destruct (start_keeps_tokens ks seedUser cfg now d Hr Hkeyed Hk) as (Hup & Hread & Hplain & _).
  fold r in Hup, Hread, Hplain. destruct (MigrateSecrets_ok ks _ Hr Hkeyed) as (a1 & Hm & Hs & _).
  assert (Hh1 : healthy ks a1) by by eapply healthy_same.
  destruct (start_tables_ok ks seedUser cfg now d a1 Hr Hk Hm Hh1) as (d' & Heq & Hsec & _).
  assert (Hr' : ready ks r.2) by (unfold r; rewrite Heq; by eapply healthy_secrets). clear Heq Hsec Hs Hm.
  destruct r as [up d2]. cbn [fst snd] in *. intros Husers Hbackends. set (a2 := Backends.accounts d2) in *.
  assert (Hm2 : MigrateSecrets a2 = (Ok tt, a2)).
  { unfold MigrateSecrets, sql_query. pose proof Hr' as (Hf & Hks & _). fold a2 in Hf, Hks. rewrite Hks, sql_stmt_ok by done.
    assert (Hnil : filter is_plaintext (rows (user_tokens a2)) = []).
    { apply elem_of_nil_inv. intros k [Hp [key Hl]%elem_of_rows]%list_elem_of_filter. by eapply Hplain. }
    change (filter _ _) with (filter is_plaintext (rows (user_tokens a2))). by rewrite Hnil. }
  destruct (start_tables_ok ks false cfg2 now2 d2 a2 Hr') as (d3 & -> & _ & ->); [|done|exact Hr'|].
  { intros e He. rewrite Hread in He. by apply Hk. }
  assert (Hseed : main_seed false now2 a2 = a2).
  { unfold main_seed, ListUsers, sql_query. pose proof Hr' as (Hf & _ & _). fold a2 in Hf. rewrite sql_stmt_ok by done.
    destruct (sort_by _ (rows (users a2))) as [|u l] eqn:Hsort; [|done]. exfalso. apply Husers, map_empty. intros i.
    destruct (users a2 !! i) as [u|] eqn:Hu; [exfalso|done].
    assert (Hin : u ∈ rows (users a2)) by (apply elem_of_rows; eauto).
    rewrite <- (sort_by_perm (by_text UserRow.Email (fun _ => EmptyString))), Hsort in Hin. by inversion Hin. }
  rewrite Hseed. assert (Hd : Backends.set_accounts (fun _ => a2) d2 = d2) by by destruct d2. rewrite Hd.
  rewrite Hup. f_equal. unfold seedBackendsFromConfig. destruct (ListBackends_ready ks d2 Hr') as (l & -> & Hl).
  destruct l; [|done]. by destruct Hbackends; apply Hl.
Qed.
End SecretTheorems.

(** ** The cache of tools *)

Section CacheTheorems.
Context {KS : Type} `{SecretBox KS} `{CryptoPrims} `{Bcrypt}.
Context {ME : MuxEnv} {SH : Sha256}.
Context (visit : nat -> gset string -> list string) (environ : list string) (error_text : error -> string).
Context (fetch : string -> gmap string string -> res (list gomap)) (stmt1 stmt2 : string -> bool).
Import Bridge PrecacheFacts.
Implicit Types (s : Bridge.t KS).

Lemma precache_or_mark_spares cfg now id s key : key <> id ->
  cache (precache_or_mark visit environ error_text fetch stmt1 stmt2 cfg now id s) !! key = cache s !! key.
Proof.
  intros Hne. unfold precache_or_mark, cache.
  destruct (RunPrecacheForBackend _ _ _ _ _ _ cfg id now s) as [r s'] eqn:Hrun.
  apply precache_fills_or_keeps in Hrun.
  assert (Hcaps : Backends.capabilities (tables s') !! key = Backends.capabilities (tables s) !! key).
  { destruct Hrun as [(b & env & tools & _ & _ & _ & _ & ->)|[_ ->]]; [by apply lookup_insert_ne|done]. }
  by destruct r.
Qed.

Lemma GetUncachedBackends_cases (d : Backends.t KS) : exists d',
  Backends.capabilities d' = Backends.capabilities d /\
  (GetUncachedBackends d = (Err ErrSql, d') \/
   exists l, GetUncachedBackends d = (Ok l, d') /\ forall id, id ∈ l -> Backends.capabilities d !! id = None).
Proof.
  assert (Hl : forall d0 : Backends.t KS, Backends.capabilities d0 = Backends.capabilities d ->
    forall id, id ∈ uncached d0 -> Backends.capabilities d !! id = None).
  { intros d0 <- id (b & -> & [[_ Hnone] _]%list_elem_of_filter)%list_elem_of_fmap. done. }
  unfold GetUncachedBackends, sql_query, sql_stmt. destruct (db_faults d) as [|[] fs].
  - exists d. split; [done|]. right. eexists. split; [done|]. by apply Hl.
  - eexists. split; [|left; reflexivity]. by destruct d.
  - eexists. split; [|right; eexists; split; [reflexivity|]]; [by destruct d|]. apply Hl. by destruct d.
Qed.

(** The start fills the cache of backends that have none, and of no others; the tools of
    the bridge itself are never cached. *)
Theorem start_precache_spares now s key : is_Some (cache s !! key) \/ key = "mcpbridge" ->
  cache (start_precache visit environ error_text fetch stmt1 stmt2 now s) !! key = cache s !! key.
Proof.
  intros Hkey. unfold start_precache. destruct (GetUncachedBackends_cases (tables s)) as (d & Hd & [->|(l & -> & Hl)]).
  { unfold cache. cbn. by rewrite Hd. }
  assert (Hno : key ∉ filter (fun id => not_bridge id = true) l).
  { intros [Hb Hin]%list_elem_of_filter. destruct Hkey as [[caps Hc]| ->].
    - unfold cache in Hc. by rewrite (Hl _ Hin) in Hc.
    - done. }
  change (cache s) with (Backends.capabilities (tables s)). rewrite <- Hd.
  change (Backends.capabilities d) with (cache (mk d (status s) (events s))).
  revert Hno. generalize (filter (fun id => not_bridge id = true) l). generalize (mk d (status s) (events s)).
  clear. intros s l. revert s. induction l as [|id l IH]; intros s Hno; [done|]. cbn [foldl].
  apply not_elem_of_cons in Hno as [Hne Hno]. rewrite IH by done. by apply precache_or_mark_spares.
Qed.
End CacheTheorems.

(** * Examples *)

Import ToolsFacts.
#[local] Existing Instances Toy.prims Toy.laws DemoAccounts.bcrypt DemoAccounts.provider DemoBackends.mux_env demo_sha.

Lemma front_gate_witness : dispatch main_mux "/mcp/v3" = Serve "/" (Bearer, "mcpBridgeServer") /\ "/mcp/v3" ∉ open_paths.
Proof.
  pose proof (front_gate "/mcp/v3" eq_refl) as Hg.
  assert (Hd : dispatch main_mux "/mcp/v3" = Serve "/" (Bearer, "mcpBridgeServer")) by (vm_compute; reflexivity).
  rewrite Hd in Hg. split; [exact Hd|]. exact (proj1 (proj2 Hg)).
Defined.

Lemma insecure_port_agrees_witness : exists p h p' h',
  dispatch main_mux "/mcp" = Serve p (Bearer, h) /\ dispatch test_mux "/mcp" = Serve p' (Admin, h') /\ h <> h'.
Proof.
  pose proof (insecure_port_agrees "/mcp" eq_refl) as Hg.
  assert (Hm : dispatch main_mux "/mcp" = Serve "/mcp" (Bearer, "v2Handler")) by (vm_compute; reflexivity).
  assert (Ht : dispatch test_mux "/mcp" = Serve "/" (Admin, "mcpBridgeServer")) by (vm_compute; reflexivity).
  rewrite Hm, Ht in Hg. do 4 eexists. split; [exact Hm|]. split; [exact Ht|].
  change (has_prefix "/mcp" "/web/") with false in Hg. destruct Hg as [_ Hg].
  rewrite bool_decide_eq_true_2 in Hg by reflexivity. destruct Hg as [_ _]. discriminate.
Defined.

Module DemoStart.
Definition error_text (e : error) : string := "cipher: message authentication failed".
(** One token is encrypted, one is not. *)
Definition tables : Backends.t DemoAccounts.key_store := Backends.mk both_store ∅ ∅ ∅ true.
Definition started := start_tables error_text by_elements (fun _ => "MAP") false demo_cfg 5 tables.
(** The token that is tried is a text that no key made. *)
Definition broken : Backends.t DemoAccounts.key_store :=
  Backends.set_accounts (Accounts.set_user_tokens (fun _ =>
    {[ tried_token := UserToken.mk tried_token.1.1 tried_token.1.2 tried_token.2 EmptyString "junk" EmptyString "legacy" ]})) tables.
End DemoStart.

Lemma demo_accepted : key_accepted (Backends.accounts DemoStart.tables).
Proof. intros e. vm_compute. by intros [= <-]. Qed.

Lemma start_keeps_tokens_witness : DemoStart.started.1 = Up (Ok (2, 0)) /\
  reading (Backends.accounts DemoStart.started.2) ("ann", "github", "PLAIN") = Ok "p1".
Proof.
  destruct (start_keeps_tokens demo_random DemoStart.error_text by_elements (fun _ => "MAP") DemoAccounts.box false demo_cfg 5
    DemoStart.tables both_healthy (proj1 both_ok) demo_accepted) as (Hup & Hread & _).
  split; [unfold DemoStart.started; rewrite Hup; by vm_compute|].
  unfold DemoStart.started. rewrite Hread. by vm_compute.
Defined.

Lemma start_refused_witness : exists message,
  start_tables DemoStart.error_text by_elements (fun _ => "MAP") false demo_cfg 5 DemoStart.broken = (Fatal message, DemoStart.broken).
Proof.
  assert (Hh : ready DemoAccounts.box DemoStart.broken).
  { split_and!; [by vm_compute|by vm_compute|]. by exists "0123456789abcdef". }
  destruct (reading (Backends.accounts DemoStart.broken) tried_token) as [v|e] eqn:Hr; [by vm_compute in Hr|].
  apply (start_refused DemoStart.error_text by_elements (fun _ => "MAP") DemoAccounts.box false demo_cfg 5 DemoStart.broken e Hh Hr).
  intros ->. by vm_compute in Hr.
Defined.

Lemma start_again_witness :
  start_tables DemoStart.error_text by_elements (fun _ => "MAP") false demo_cfg 9 DemoStart.started.2 = DemoStart.started.
Proof.
  pose proof (start_again demo_random DemoStart.error_text by_elements (fun _ => "MAP") DemoAccounts.box false demo_cfg 5 demo_cfg 9
    DemoStart.tables both_healthy (proj1 both_ok) demo_accepted) as Ha.
  cbv zeta in Ha. unfold DemoStart.started. apply Ha.
  - apply (bool_decide_unpack _). by vm_compute.
  - apply (bool_decide_unpack _). by vm_compute.
Defined.

Lemma change_is_restart_witness : exists n m pm', OnBackendChange by_elements DemoManager.during [PoolManager.req_key DemoManager.req] "git"
    DemoStart.tables (ToolMuxer.NewToolMuxerWithStore by_elements (Some DemoStart.tables) ∅) DemoManager.m1 = Some (n, m, pm') /\
  PoolManager.pools pm' !! PoolManager.req_key DemoManager.req = None.
Proof.
  destruct (change_is_restart by_elements DemoManager.during [PoolManager.req_key DemoManager.req] "git" DemoStart.tables DemoStart.tables ∅
    DemoManager.m1 demo_wf demo_drains demo_keys_order) as (n & pm' & Hc & _ & Hp).
  exists n, (ToolMuxer.NewToolMuxerWithStore by_elements (Some DemoStart.tables) ∅), pm'. split; [exact Hc|]. rewrite Hp. reflexivity.
Defined.

Lemma start_precache_spares_witness :
  PrecacheFacts.cache (start_precache by_elements DemoPrecache.environ (fun _ => "failed") DemoPrecache.fetch
    DemoPrecache.always DemoPrecache.always 9 DemoPrecache.at_start.2) !! "github" =
  PrecacheFacts.cache DemoPrecache.at_start.2 !! "github".
Proof.
  apply (start_precache_spares by_elements DemoPrecache.environ (fun _ => "failed") DemoPrecache.fetch
    DemoPrecache.always DemoPrecache.always 9 DemoPrecache.at_start.2 "github").
  left. eexists. exact (proj2 demo_at_start).
Defined.
